(* ===== verification/_CoqProject ===== *)
-Q . S2P
Prelude.v
Text.v
Float.v
ModbusPdu.v
ModbusSpace.v
ModbusDense.v
ModbusShards.v
ModbusSparse.v
ModbusSemantic.v
ModbusHandlers.v
ModbusService.v
ModbusStores.v
ModbusRtu.v
ModbusMbap.v
ModbusTypes.v
ModbusConnections.v
ModbusRtuCodec.v
ModbusUnits.v
ModbusFaults.v
KnxFrame.v
KnxCemi.v
KnxMessages.v
KnxTunnel.v
KnxFlow.v
KnxGroup.v
KnxDpt.v
KnxHealth.v
KnxServer.v
KnxSession.v
KnxGateway.v
BacnetSegment.v
BacnetNet.v
BacnetTsm.v
BacnetValue.v
BacnetApdu.v
BacnetObject.v
BacnetSchedule.v
BacnetRegistry.v
BacnetService.v
BacnetTrendLog.v
BacnetFile.v
BacnetAlarm.v
BacnetCreate.v
BacnetBbmd.v
BacnetServer.v
BacnetCov.v
BacnetBatch.v
BacnetDevice.v
OpcuaCodec.v
OpcuaSession.v
OpcuaChannel.v
OpcuaTransport.v
OpcuaNodes.v
OpcuaSpace.v
OpcuaSubscription.v
OpcuaHistory.v
OpcuaServices.v
