(* ===== verification/Prelude.v ===== *)
(** * Verification of the Mabinogion protocol simulators

    Mabinogion ([src/crates/]) simulates field-bus devices: Modbus, KNX, BACnet and OPC UA
    servers share a runtime, a scenario player and a fault injector.  This library models the four
    protocol stacks, from the bytes on the wire to the state of the simulated device and back:
    Modbus ([mabi-modbus/src/]), the KNXnet/IP gateway ([mabi-knx/src/]), the BACnet/IP
    server ([mabi-bacnet/src/]) and the OPC UA server ([mabi-opcua/src/]).

    ** How the program's parts fit together

    Modbus: a TCP connection ([tcp/codec.rs]) or a serial line ([rtu/frame.rs],
    [rtu/server.rs]) cuts the byte stream into frames.  The PDU of a frame goes to
    [execute_transport_request] ([transport_runtime.rs]), which selects the unit or the broadcast
    targets in the server context ([context.rs]) and calls the service ([service.rs]).  The
    service parses the PDU ([core.rs]) and runs it through the semantic core ([semantic.rs]), or
    through an extension handler.  The semantic core works on an address space, a trait with two
    implementations, the dense store ([register.rs]) and the sparse store
    ([registers/sparse_store.rs], with [registers/config.rs] and [registers/callback.rs]).  The
    older function-code handlers ([handler/*.rs]) do the same work a second time behind a
    registry.  The TCP server keeps its connections in a sharded pool ([tcp/connection.rs]); a
    second codec finds RTU frames by length and silence ([rtu/codec.rs]); a manager
    ([unit/manager.rs]) keeps one sparse store per unit.  Between the response and the wire, a
    pipeline of faults ([fault_injection/*.rs]) may alter, delay or drop it.

    KNX: the server ([server.rs]) receives KNXnet/IP frames ([frame/*.rs]), keeps a table of
    tunnel connections ([tunnel/*.rs]) with their sequence numbers and state machines, and
    hands the cEMI frame ([cemi.rs]) of a tunnelling request to the simulated bus: group
    objects ([group.rs]) with a value cache ([group_cache.rs]), confirmations and indications;
    the typed view of an object goes through the codecs of its datapoint type ([dpt/*.rs]).
    Frames to a client pass a chain of filters ([filter/*.rs]): pacing, queueing with
    priorities, retry with a circuit breaker; failures are tracked ([error_tracker.rs]), and
    heartbeats answered after a script ([heartbeat.rs]).

    BACnet: the server ([server/bacnet_server.rs]) unwraps a datagram ([network/bvlc.rs],
    [network/npdu.rs]), serves broadcast management itself ([network/bbmd.rs]), reassembles
    segmented requests ([apdu/segmentation.rs]), filters repetitions through the transaction
    state machine ([service/tsm.rs]) and dispatches the request to a service handler
    ([service/handler.rs], [service/property.rs]), which works on the objects
    ([object/standard.rs], behind the trait of [object/traits.rs]) of a registry
    ([object/registry.rs]).  The answer ([apdu/encoding.rs]) goes out whole or in segments.
    Schedules and calendars ([object/schedule.rs]), trend logs ([object/trend_log.rs]), files
    ([object/file.rs]), event enrollments and notification classes
    ([object/event_enrollment.rs]) are further objects behind the same trait, the last three with
    services of their own ([service/read_range.rs], [service/file_access.rs],
    [service/alarm.rs]).  The device object ([object/device.rs]) lists the registry, keeps the
    offset of its clock and is controlled by [service/device_control.rs]; clients create and
    delete objects through [service/create_delete.rs].

    OPC UA: a TCP connection ([transport/runtime.rs]) cuts the stream into messages
    ([transport/codec.rs], [transport/messages.rs]), negotiates limits and opens a secure channel
    ([channel/*.rs], [transport/secure_channel_runtime.rs]); a validated request is decoded
    ([codec/*.rs]) and dispatched ([core/dispatch.rs], [core/services.rs]) to one of twenty service
    handlers ([core/handlers/*.rs]).  These work on the sessions ([sdk/session.rs]), the address
    space ([sdk/address_space/mod.rs], [nodes/*.rs]), the subscriptions with their monitored items
    and event filters ([sdk/subscription/*.rs], [sdk/event.rs]) and the recorded history
    ([sdk/history.rs]).

    ** Files

    - [Prelude]: results with panics as values ([outcome]), state-passing code ([stM]),
      machine integers at their width, slices, tactics, hint databases, shared lemmas.
    - [ModbusPdu]: exceptions, errors, register types, function codes, the request parser and
      the response encoder ([core.rs], [handler/exception.rs], [error.rs]).
    - [ModbusSpace]: the [AddressSpace] trait as a class, the abstract register map [model], and
      the contract [AddressSpaceSpec] a store must meet.
    - [ModbusDense]: the dense store, and that it meets the contract.
    - [ModbusShards]: the sharded map of segments under the sparse store, and that it
      implements a finite map.
    - [ModbusSparse]: configuration, callbacks, the sparse store, and that it meets the contract.
    - [ModbusSemantic]: the semantic core, and that it implements [model_exec] over any store.
    - [ModbusHandlers]: the ten function-code handlers and their registry.
    - [ModbusService]: server context, service layer, transport runtime; the stores live in a
      heap, because units may share one.
    - [ModbusStores]: what follows for clients of either store.
    - [ModbusRtu]: CRC-16, RTU frames, the serial server's receive step.
    - [ModbusMbap]: MBAP headers and frames, the incremental TCP codec.
    - [ModbusTypes]: word orders, data types and the converter between values and registers.
    - [ModbusConnections]: the pool of TCP connections, its shards and its records
      ([connection_core.rs], [tcp/connection.rs]).
    - [ModbusRtuCodec]: character timing, the RTU frame codec and the streaming codec
      ([rtu/codec.rs]).
    - [ModbusUnits]: the multi-unit manager, routed and broadcast access ([unit/*.rs]).
    - [ModbusFaults]: fault injection, from the target of a fault to the bytes the servers write
      ([fault_injection/*.rs], [tcp/server.rs], [rtu/server.rs]).
    - [KnxFrame]: addresses, service types, frame headers and frames, host endpoints.
    - [KnxCemi]: the cEMI codec with its application-layer services.
    - [KnxMessages]: connect, state, disconnect and tunnelling messages.
    - [KnxTunnel]: sequence tracker, connection state machine, channel allocation.
    - [KnxFlow]: the queue, pace and retry filters and their chain.
    - [KnxGroup]: group objects and the group value cache.
    - [KnxDpt]: the datapoint types and their codecs, the registry of codecs, and the group
      object table with typed access and events.
    - [KnxHealth]: send-error tracker and heartbeat scheduler.
    - [KnxServer]: every packet handler of the server, in a monad with the environment's
      answers (clock, socket, random draws) and a log of what is sent and processed.
    - [KnxSession], [KnxGateway]: what follows for one tunnel and for the whole gateway.
    - [BacnetSegment]: segment headers, reassembly with timeouts, segmentation.
    - [BacnetNet]: BVLC and NPDU codecs.
    - [BacnetTsm]: the transaction state machine.
    - [BacnetValue], [BacnetApdu]: object types, identifiers, properties, values and their
      application-layer encoding.
    - [BacnetObject]: the object interface as a class with its laws, the nine standard objects
      with their priority arrays and change-of-value flags.
    - [BacnetSchedule]: schedules and calendars with their date patterns.
    - [BacnetRegistry]: the object registry with its name index and type counts.
    - [BacnetService]: service dispatch, ReadProperty and WriteProperty.
    - [BacnetTrendLog]: trend logs, the date of the system clock, the ReadRange service.
    - [BacnetFile]: file objects, AtomicReadFile and AtomicWriteFile.
    - [BacnetAlarm]: event enrollments, notification classes and the alarm services.
    - [BacnetCreate]: the object factory, CreateObject and DeleteObject, over one type of all
      objects ([AnyObject]).
    - [BacnetDevice]: the device object, time synchronization, communication control and
      reinitialization.
    - [BacnetCov]: change-of-value subscriptions, their services, polling and notifications.
    - [BacnetBatch]: ReadPropertyMultiple, WritePropertyMultiple, Who-Is and I-Am.
    - [BacnetBbmd]: broadcast distribution and foreign device tables.
    - [BacnetServer]: the server, from a datagram to the datagrams sent in answer.
    - [Text], [Float]: text as bytes; 64-bit floating point over its bit patterns.
    - [OpcuaCodec]: the binary codec, a record of encoder, decoder and size per type with the law
      [Lawful] that its instances meet, node identifiers, variants, data values, diagnostics.
    - [OpcuaSession]: the session manager.
    - [OpcuaChannel]: message framing, security and sequence headers, channels and tokens.
    - [OpcuaTransport]: a connection as a state machine over its inputs, against any services
      that meet the interface [Dispatcher].
    - [OpcuaNodes], [OpcuaSpace]: node classes, attributes, references; the address space.
    - [OpcuaSubscription]: monitored items, subscriptions, publishing, event filters.
    - [OpcuaHistory]: the history store and its aggregates.
    - [OpcuaServices]: the service handlers and their dispatch, an instance of [Dispatcher].

    ** What the theorems show

    Modbus refinement: both stores and the semantic core behave as one abstract register map, the
    dense store wherever its 16-bit sum of address and quantity does not overflow
    ([semantic_core_refines_model], [dense_sparse_equivalent], [sharded_map_refines_gmap],
    [eager_equals_lazy], [snapshot_restores]); the handlers agree with the semantic core byte for
    byte ([handlers_agree_with_semantic_core]).
    The Modbus request path: the parser is total, sound and inverts the documented layouts
    ([parser_sound], [parse_request_wire]); a unicast request is answered as the model
    prescribes ([unicast_request_served]), touches only its unit ([unit_isolation]);
    broadcasts are performed everywhere and never answered ([broadcast_write_reaches_all],
    [broadcast_never_replies]).
    Modbus values: every typed value survives its registers in every word order
    ([typed_value_roundtrip]).
    Modbus framing: TCP frames survive any chunking of the stream ([mbap_stream_roundtrip],
    [mbap_decode_total]); RTU decoding accepts exactly what encoding produces
    ([rtu_decode_exact]); the CRC is computed correctly and detects bursts of 16 bits
    ([crc_table_equals_bitwise], [crc_detects_bursts]); the serial server finds the request
    frames in its buffer ([rtu_server_framing]); the RTU codec delivers the requests of the units
    it listens to ([codec_delivers_requests], [damaged_frame_skipped]) and computes the gaps of
    the usual rates ([timing_of_usual_rates]).
    Modbus connections and units: the pool is one table of connections, whatever its shards
    ([connection_pool_refines_table], [unit_bitmap_equals_list]); a broadcast reaches exactly the
    units that accept it and is read back there ([broadcast_delivered], [broadcast_then_read]), a
    request changes only its unit ([unit_request_confined]), the manager keeps its limits
    ([manager_safe]) and creates units on demand ([units_on_demand]).
    Modbus faults: a fault fires within its budget and in its window ([fault_budget],
    [fault_window]); a corrupted check value is rejected ([crc_fault_rejected]), a wrong unit is
    well formed ([wrong_unit_well_formed]), a dropped response is silence ([drop_is_silent]), timing
    faults leave the bytes alone ([timing_plan_preserves_frame]), and disruption acts between
    replies ([disruption_after_reply]).
    Modbus registers: [write_registers_read_back], [mask_write_bits],
    [read_write_keeps_write], [dense_bytes_roundtrip], [callback_order].
    KNX: what is sent in order through a tunnel is processed exactly once under loss of
    acknowledgements and repetition ([tunnel_exactly_once]); frames decode exactly as encoded and cEMI messages
    but for the fields their layout leaves out ([knx_frame_decode_exact], [cemi_roundtrip]), and exactly one shape of
    message panics ([cemi_decode_panic_iff]); queues drain in priority order
    ([queue_priority_order]), paced frames keep their distance ([pace_spacing]), the circuit
    breaker trips exactly at its threshold ([circuit_breaker_trips]), channels are allocated
    afresh ([allocate_channel_fresh]); values survive the codec of every standard datapoint type
    ([standard_datapoints], [typed_write_then_read], [dpt_id_roundtrip]), two-byte floats up to
    the step of their exponent ([dpt9_quantises]).
    BACnet: a confirmed request is executed once however often it is repeated
    ([confirmed_request_exactly_once], [tsm_executes_once]); a written property is read back, in
    its own type, where the write takes effect ([write_then_read]); the priority array commands as the standard prescribes
    ([analog_output_prioritises]); a subscriber gets one notification for every reported change
    until its subscription expires ([subscriber_notified]); batch requests do what their single
    requests do when all of them decode ([read_multiple_agrees], [write_multiple_agrees]); devices in range answer
    Who-Is ([who_is_answered]); every object keeps its type invariant
    ([standard_objects_typed]); the registry's indexes agree ([registry_consistent]); messages
    survive segmentation ([segmentation_roundtrip], [oversized_answer_segmented]); the
    network layer decodes exactly what it encodes ([npdu_codec_exact]); a foreign device is
    forwarded to for exactly its lifetime ([foreign_device_lifetime]).
    BACnet objects with their services: a schedule takes the value its exceptions and its week
    prescribe ([schedule_evaluates], [calendar_exact]); a trend log holds the latest records of an
    unbounded log ([trend_log_refines]), ReadRange selects from it as the object does
    ([service_ranges_agree], [read_range_served]) and a client reads it completely page by page
    ([read_range_pages_complete]); clock dates are those of the calendar ([civil_calendar]); a file
    is read completely, and back as it was written ([file_read_completely],
    [file_write_then_read], [records_write_then_read], [file_uploaded]), and a write changes
    nothing else ([file_write_confined]); an alarm state has a value in the past that explains it
    ([alarm_explained]), exactly the transitions entered and not acknowledged since are open
    ([acks_follow_transitions], [alarm_acknowledged]), and a client obtains every event page by
    page ([event_pages_complete]).
    BACnet devices: a synchronised clock shows the moment it was set to and goes on from there
    ([clock_synchronised]); the object list is the inventory ([object_list_exact],
    [object_types_exact]), every listed property can be read ([device_properties]); control
    requests are served ([communication_controlled]), only with the password where one is required
    ([password_required]), and always answered ([control_services_total]); creation adds one
    object under a free identifier and spoils nothing ([create_object_safe], [object_created]),
    deletion takes one away ([delete_confined]) and undoes creation ([create_then_delete]); a file
    created, written and read holds what was written ([created_file_holds_data]).

    OPC UA: what a client writes it reads back, through request decoding, dispatch, address space
    and response encoding ([opcua_write_then_read], [write_effect]); every response carries the
    type and the handle of its request ([response_matches_request]), every decodable request gets one
    answer, panics of a service apart ([request_answered]), numbered without gaps ([responses_numbered]), and none is served
    twice ([requests_not_replayed]); messages survive any chunking ([frames_survive_chunking]) and
    values their encoding ([data_value_roundtrip], [opcua_decoders_total]); browsing and browse
    paths find exactly the references there are ([browse_pages_complete], [browse_path_exact],
    [subtype_exact], [references_mirrored]); notifications are published once and in order
    ([published_in_order]); history is read completely page by page ([history_pages_complete])
    and counted once per interval ([processed_counts_exact]); sessions, subscriptions, the address
    space and the history keep their invariants ([session_manager_invariant],
    [subscription_manager_invariant], [space_invariant], [history_invariant]); a snapshot restores
    the subscriptions ([subscriptions_restored]); where clauses that look ahead are evaluated
    ([where_clause_terminates]).

    Limits and defects: [base_attributes_exhaust_stack], [sessions_not_required],
    [publish_starves], [removed_node_resurfaces], [empty_queue_panics], [discard_newest_stalls],
    [zero_limit_never_delivers], [processed_interval_zero_hangs], [continuation_past_end_panics],
    [word_orders_collapse], [dense_overflow_panics],
    [mbap_largest_pdu_rejected], [mask_write_lost_update], [rtu_fragment_discarded], [gap_reprocessed],
    [ack_failure_loses_telegram], [backpressure_never_holds], [connections_exhausted],
    [queue_depth_unbounded], [network_priority_ignored], [large_index_becomes_value],
    [write_request_panics_exactly], [segmentation_truncates], [name_clash_hides_object],
    [renewal_refused], [selectors_refused], [dpt9_overflow_wraps], [scaling_drift_bounded],
    [read_only_initial_refused], [last_day_matches_every_day], [schedule_writes_ignored],
    [out_of_service_overwritten], [backward_count_misread], [read_range_without_timestamps],
    [file_requests_panic], [record_count_reads_backward], [closing_tag_becomes_record],
    [file_writes_ignored], [twenty_say_more], [weekday_off_by_one], [services_bits_shared],
    [generated_name_clash], [create_panics_on_bits], [word_order_fixed_at_creation],
    [connection_limit_race], [shared_address_lost], [pipelined_frame_withheld], [strict_timing_wedges],
    [streaming_frame_by_gap], [maximal_frame_lost], [delay_cancels_tid], [delay_reframes_raw].

    ** Conventions, bounds and fuel

    A byte or a 16-bit word is a [Z] with its range as a predicate ([is_u8], [is_u16]);
    arithmetic that can overflow goes through [checked_op], which panics or wraps according to
    the [BuildProfile], a parameter of every theorem it concerns.  Indexing, slicing and
    buffer splitting panic out of range, as in the source.  A float is its bit
    pattern; arithmetic, comparisons and differences of floats are those of the Standard Library's
    executable specification of IEEE 754 ([SpecFloat]).
    Loops over a range or a buffer take fuel: the length of the range for the chunk loops of the
    sharded map (each turn advances by at least one address), two for the TCP decoder, the
    number of buffered bytes plus one for draining it, the length of the message for the
    segmentation loop (each turn takes at least one byte, unless the segment size is zero), the
    number of queued frames for draining a queue, the octets left (plus one) for the loops that
    decode lists of parameters, the number of bytes left for nested diagnostic information, the
    depth of the stack for recursion the source does not bound (node attributes, where clauses),
    the number of intervals for processed history, the patience of the generator for draws that
    are repeated until they differ.  Running out of fuel is a panic or [None],
    and the theorems show it does not happen.
    Time is an integer number of nanoseconds, read from a parameter, except in OPC UA, where it
    is a parameter type with the operations and laws of the chrono crate that the code uses
    ([Externals], [Chrono]); the answers of sockets,
    random draws ([FaultEnv], whose generator does not repeat one value for ever), the iteration orders of hash maps ([DashMapOrder], [MapOrder]), the hash of a
    socket address and tokio's timeout ([timeout_law]) are parameters as well.  The servers
    are modelled one packet at a time, as their receive loops work.

    ** What is not modelled

    Async serve loops, connection tasks, metrics and logging; the locks, which every
    operation takes for its whole duration (the interleavings that matter, two calls of the
    default mask write, and the race of two clients for the last connection, are modelled as
    separate steps).  Modbus: floating-point accessors, the names of types and word orders, serial
    ports and transports, the simulator's session and profile layer.  KNX: decoding of device information blocks.  BACnet: the
    driver glue and metrics; the server's theorems
    hold for any handlers and any objects that meet the interface's laws.  OPC UA: certificates and
    cryptography, which rest on external crates, node-set import, the durable store's files,
    HTTPS and reverse connections, the node caches no service uses.  The core engine,
    chaos engineering, the scenario player and the command line. *)

From stdpp Require Export base tactics numbers list gmap strings.
From Stdlib Require Export ZArith Lia.

#[global] Open Scope Z_scope.

#[global] Arguments Nat.div : simpl never.
#[global] Arguments Nat.modulo : simpl never.
#[global] Arguments Z.add : simpl never.
#[global] Arguments Z.sub : simpl never.
#[global] Arguments Z.mul : simpl never.
#[global] Arguments Z.div : simpl never.
#[global] Arguments Z.modulo : simpl never.
#[global] Arguments Z.of_nat : simpl never.
#[global] Arguments Z.to_nat : simpl never.
#[global] Arguments Z.land : simpl never.
#[global] Arguments Z.lor : simpl never.
#[global] Arguments Z.lxor : simpl never.
#[global] Arguments Z.shiftl : simpl never.
#[global] Arguments Z.shiftr : simpl never.

(* ------------------------------------------------------------------ *)
(** * Outcomes of Rust code *)

(** A Rust function of type [Result<A, E>] either returns [Ok], returns
    [Err], or unwinds.  A panic is kept as a value of its own, so that
    "never panics" is a statement the kernel can check. *)
Inductive outcome (E A : Type) : Type :=
| Ok (a : A)
| Err (e : E)
| Panic.
Arguments Ok {E A} a.
Arguments Err {E A} e.
Arguments Panic {E A}.

Definition obind {E A B} (c : outcome E A) (k : A → outcome E B) : outcome E B :=
  match c with
  | Ok a => k a
  | Err e => Err e
  | Panic => Panic
  end.

(** [Result::map_err]. *)
Definition map_err {E F A} (f : E → F) (c : outcome E A) : outcome F A :=
  match c with
  | Ok a => Ok a
  | Err e => Err (f e)
  | Panic => Panic
  end.

(** [Result::map]. *)
Definition omap_ok {E A B} (f : A → B) (c : outcome E A) : outcome E B :=
  match c with
  | Ok a => Ok (f a)
  | Err e => Err e
  | Panic => Panic
  end.

(** A loop that pushes the result of a fallible body for every item. *)
Fixpoint omapM {E A B} (f : A → outcome E B) (l : list A) : outcome E (list B) :=
  match l with
  | [] => Ok []
  | x :: l' => obind (f x) (fun y => obind (omapM f l') (fun ys => Ok (y :: ys)))
  end.

(** [Option::ok_or]. *)
Definition ok_or {E A} (o : option A) (e : E) : outcome E A :=
  match o with Some a => Ok a | None => Err e end.

(** [Option::is_some]. *)
Definition is_some {A} (o : option A) : bool := match o with Some _ => true | None => false end.

Definition is_ok {E A} (c : outcome E A) : bool :=
  match c with Ok _ => true | _ => false end.

Definition is_panic {E A} (c : outcome E A) : bool :=
  match c with Panic => true | _ => false end.

Declare Scope rust_scope.
Delimit Scope rust_scope with rust.
#[global] Open Scope rust_scope.

(** The [?] operator on results. *)
Notation "'let?' x ':=' c 'in' k" := (obind c (fun x => k))
  (at level 10, x pattern, c at level 100, k at level 200,
   format "'let?'  x  ':='  c  'in' '//' k") : rust_scope.

(** Stateful code: a method that mutates [S] and returns a [Result].  The state
    is returned on the error path too, because an early return keeps every
    mutation made before it. *)
Definition stM (S E A : Type) : Type := S → outcome E A * S.

Definition st_ret {S E A} (a : A) : stM S E A := fun s => (Ok a, s).
Definition st_err {S E A} (e : E) : stM S E A := fun s => (Err e, s).
Definition st_lift {S E A} (c : outcome E A) : stM S E A := fun s => (c, s).
Definition st_bind {S E A B} (c : stM S E A) (k : A → stM S E B) : stM S E B :=
  fun s =>
    match c s with
    | (Ok a, s') => k a s'
    | (Err e, s') => (Err e, s')
    | (Panic, s') => (Panic, s')
    end.
Definition st_map_err {S E F A} (f : E → F) (c : stM S E A) : stM S F A :=
  fun s => let '(r, s') := c s in (map_err f r, s').
Definition st_map {S E A B} (f : A → B) (c : stM S E A) : stM S E B :=
  fun s => let '(r, s') := c s in (omap_ok f r, s').

Notation "'do?' x ':=' c 'in' k" := (st_bind c (fun x => k))
  (at level 10, x pattern, c at level 100, k at level 200,
   format "'do?'  x  ':='  c  'in' '//' k") : rust_scope.

(* ------------------------------------------------------------------ *)
(** * Machine integers *)

(** Whether the build has arithmetic overflow checks: a debug build panics on
    overflow, a release build (the workspace's [profile.release] leaves the
    checks off) wraps around.  Every theorem holds for both. *)
Class BuildProfile : Type := { overflow_checks : bool }.

Definition debug_build : BuildProfile := {| overflow_checks := true |}.
Definition release_build : BuildProfile := {| overflow_checks := false |}.

Definition is_u8 (x : Z) : Prop := 0 ≤ x < 256.
Definition is_u16 (x : Z) : Prop := 0 ≤ x < 65536.
Definition is_u32 (x : Z) : Prop := 0 ≤ x < 4294967296.

#[global] Instance is_u8_dec x : Decision (is_u8 x).
Proof. unfold is_u8; apply _. Defined.
#[global] Instance is_u16_dec x : Decision (is_u16 x).
Proof. unfold is_u16; apply _. Defined.
#[global] Instance is_u32_dec x : Decision (is_u32 x).
Proof. unfold is_u32; apply _. Defined.

(** Truncating casts [x as u8] and [x as u16]. *)
Definition as_u8 (x : Z) : Z := x mod 256.
Definition as_u16 (x : Z) : Z := x mod 65536.

Definition usize_modulus : Z := 18446744073709551616.

(** [a + b], [a - b] and [a * b] at type [u16], and [a - b] at type [usize]. *)
Definition checked_op `{BuildProfile} {E} (modulus exact : Z) : outcome E Z :=
  if (0 <=? exact) && (exact <? modulus) then Ok exact
  else if overflow_checks then Panic
  else Ok (exact mod modulus).

Definition u16_add `{BuildProfile} {E} (a b : Z) : outcome E Z := checked_op 65536 (a + b).
Definition u16_sub `{BuildProfile} {E} (a b : Z) : outcome E Z := checked_op 65536 (a - b).
Definition u16_mul `{BuildProfile} {E} (a b : Z) : outcome E Z := checked_op 65536 (a * b).
Definition usize_sub `{BuildProfile} {E} (a b : Z) : outcome E Z :=
  checked_op usize_modulus (a - b).

(** [wrapping_add] and [wrapping_sub] at type [u8]. *)
Definition u8_wrapping_add (a b : Z) : Z := (a + b) mod 256.
Definition u8_wrapping_sub (a b : Z) : Z := (a - b) mod 256.

(** Bitwise negation [!x] at type [u16]. *)
Definition u16_not (x : Z) : Z := Z.lxor x 65535.

(** [div_ceil] on unsigned integers. *)
Definition div_ceil (a b : Z) : Z := (a + b - 1) / b.

(** [u16::from_be_bytes], [u16::to_be_bytes] and their little-endian and 32-bit
    counterparts. *)
Definition u16_from_be (hi lo : Z) : Z := hi * 256 + lo.
Definition u16_to_be (x : Z) : list Z := [(x / 256) mod 256; x mod 256].
Definition u16_from_le (lo hi : Z) : Z := hi * 256 + lo.
Definition u16_to_le (x : Z) : list Z := [x mod 256; (x / 256) mod 256].
Definition u32_to_be (x : Z) : list Z :=
  [(x / 16777216) mod 256; (x / 65536) mod 256; (x / 256) mod 256; x mod 256].

(** Two's complement: [as] between a signed type and the unsigned one of the same width. *)
Definition to_unsigned (w x : Z) : Z := x mod 2 ^ w.
Definition to_signed (w x : Z) : Z := if x <? 2 ^ (w - 1) then x else x - 2 ^ w.

(* ------------------------------------------------------------------ *)
(** * Slices and vectors *)

Definition bytes_ok (l : list Z) : Prop := Forall is_u8 l.
Definition words_ok (l : list Z) : Prop := Forall is_u16 l.

(** [l.len()] as an integer. *)
Definition zlen {A} (l : list A) : Z := Z.of_nat (length l).

(** [l[i]]: panics out of range. *)
Definition index {E A} (l : list A) (i : nat) : outcome E A :=
  match l !! i with Some x => Ok x | None => Panic end.

(** [l[a..b]]: panics when [a > b] or [b > l.len()]. *)
Definition slice {E A} (l : list A) (a b : Z) : outcome E (list A) :=
  if (0 <=? a) && (a <=? b) && (b <=? zlen l)
  then Ok (take (Z.to_nat (b - a)) (drop (Z.to_nat a) l))
  else Panic.

(** [l[i] = x]: panics out of range. *)
Definition index_set {E A} (l : list A) (i : nat) (x : A) : outcome E (list A) :=
  if decide (i < length l)%nat then Ok (<[i := x]> l) else Panic.

(** The integers [a, a+1, ..., a+n-1]. *)
Definition zrange (a : Z) (n : nat) : list Z := (fun i => a + Z.of_nat i) <$> seq 0 n.

#[global] Arguments zlen : simpl never.
#[global] Arguments index : simpl never.
#[global] Arguments slice : simpl never.
#[global] Arguments index_set : simpl never.
#[global] Arguments checked_op : simpl never.
#[global] Arguments u16_from_be : simpl never.
#[global] Arguments u16_from_le : simpl never.
#[global] Arguments div_ceil : simpl never.
#[global] Arguments zrange : simpl never.

(* ------------------------------------------------------------------ *)
(** * Tactics and hint databases *)

(** Linear arithmetic over the machine-integer predicates, with division and
    modulo by constants turned into equations. *)
Ltac unfold_ints :=
  unfold is_u8, is_u16, is_u32, as_u8, as_u16, zlen,
    u16_from_be, u16_from_le, u8_wrapping_add, u8_wrapping_sub, div_ceil,
    usize_modulus in *.
Ltac int_lia := unfold_ints; Z.div_mod_to_equations; lia.

(** Case analysis on the scrutinee of the first [if] or [match] in the goal. *)
Ltac case_if :=
  match goal with
  | |- context [if ?b then _ else _] => destruct b eqn:?
  end.

(** Boolean comparisons in hypotheses, as propositions. *)
Ltac bool_to_prop :=
  repeat match goal with
    | H : _ && _ = true |- _ => apply andb_true_iff in H as [? ?]
    | H : _ || _ = false |- _ => apply orb_false_iff in H as [? ?]
    | H : negb _ = true |- _ => apply negb_true_iff in H
    | H : negb _ = false |- _ => apply negb_false_iff in H
    | H : (_ <=? _) = true |- _ => apply Z.leb_le in H
    | H : (_ <=? _) = false |- _ => apply Z.leb_gt in H
    | H : (_ <? _) = true |- _ => apply Z.ltb_lt in H
    | H : (_ <? _) = false |- _ => apply Z.ltb_ge in H
    | H : (_ =? _) = true |- _ => apply Z.eqb_eq in H
    | H : (_ =? _) = false |- _ => apply Z.eqb_neq in H
    end.

(** Decides a closed side condition of a witness. *)
Ltac closed := solve [ vm_compute; repeat split; congruence | repeat constructor; vm_compute; repeat split; congruence ].

Create HintDb ints.
Create Rewrite HintDb bits.
Create Rewrite HintDb lens.

(* ------------------------------------------------------------------ *)
(** * Filters *)
Lemma filter_none {A} (P : A → Prop) `{!∀ x, Decision (P x)} l : Forall (fun x => ¬ P x) l → filter P l = [].
Proof. induction 1 as [|x l Hx _ IH]; [done|]. by rewrite filter_cons_False. Qed.

(** * Integer lemmas *)

Lemma as_u8_range x : is_u8 (as_u8 x).
Proof. int_lia. Qed.
Lemma as_u16_range x : is_u16 (as_u16 x).
Proof. int_lia. Qed.
Lemma as_u8_id x : is_u8 x → as_u8 x = x.
Proof. int_lia. Qed.
Lemma as_u16_id x : is_u16 x → as_u16 x = x.
Proof. int_lia. Qed.
Lemma u8_wrapping_add_range a b : is_u8 (u8_wrapping_add a b).
Proof. int_lia. Qed.
Lemma u8_wrapping_sub_range a b : is_u8 (u8_wrapping_sub a b).
Proof. int_lia. Qed.

Lemma u16_from_be_range hi lo : is_u8 hi → is_u8 lo → is_u16 (u16_from_be hi lo).
Proof. int_lia. Qed.

Lemma u16_to_be_ok x : bytes_ok (u16_to_be x).
Proof. repeat constructor; int_lia. Qed.
Lemma u16_to_le_ok x : bytes_ok (u16_to_le x).
Proof. repeat constructor; int_lia. Qed.

Lemma u16_be_roundtrip x :
  is_u16 x → u16_from_be ((x / 256) mod 256) (x mod 256) = x.
Proof. int_lia. Qed.

Lemma u16_to_from_be hi lo :
  is_u8 hi → is_u8 lo → u16_to_be (u16_from_be hi lo) = [hi; lo].
Proof. intros. unfold u16_to_be. do 2 f_equal; [|f_equal]; int_lia. Qed.

Lemma u16_to_from_le lo hi :
  is_u8 hi → is_u8 lo → u16_to_le (u16_from_le lo hi) = [lo; hi].
Proof. intros. unfold u16_to_le. do 2 f_equal; [|f_equal]; int_lia. Qed.

Lemma u16_to_be_inj x y : is_u16 x → is_u16 y → u16_to_be x = u16_to_be y → x = y.
Proof. unfold u16_to_be. intros ?? [= ? ?]. int_lia. Qed.

Lemma checked_op_exact `{BuildProfile} {E} modulus exact :
  0 ≤ exact < modulus → checked_op (E:=E) modulus exact = Ok exact.
Proof.
  intros. unfold checked_op.
  by rewrite (proj2 (Z.leb_le _ _)), (proj2 (Z.ltb_lt _ _)) by lia.
Qed.

Lemma u16_add_exact `{BuildProfile} {E} a b :
  0 ≤ a + b < 65536 → u16_add (E:=E) a b = Ok (a + b).
Proof. apply checked_op_exact. Qed.
Lemma u16_sub_exact `{BuildProfile} {E} a b :
  0 ≤ a - b < 65536 → u16_sub (E:=E) a b = Ok (a - b).
Proof. apply checked_op_exact. Qed.
Lemma u16_mul_exact `{BuildProfile} {E} a b :
  0 ≤ a * b < 65536 → u16_mul (E:=E) a b = Ok (a * b).
Proof. apply checked_op_exact. Qed.

#[export] Hint Resolve as_u8_range as_u16_range u8_wrapping_add_range
  u8_wrapping_sub_range u16_from_be_range u16_to_be_ok u16_to_le_ok : ints.

Lemma signed_roundtrip w x : 0 < w → - 2 ^ (w - 1) <= x < 2 ^ (w - 1) → to_signed w (to_unsigned w x) = x.
Proof.
  intros Hw Hx. assert (2 ^ w = 2 * 2 ^ (w - 1)) as Hp by (rewrite <- Z.pow_succ_r by lia; f_equal; lia).
  unfold to_signed, to_unsigned. destruct (Z.le_gt_cases 0 x).
  - rewrite Z.mod_small by lia. by rewrite (proj2 (Z.ltb_lt _ _)) by lia.
  - rewrite <- (Z.mod_add x 1 (2 ^ w)), Z.mul_1_l, Z.mod_small by lia. rewrite (proj2 (Z.ltb_ge _ _)) by lia. lia.
Qed.
Lemma to_unsigned_range w x : 0 <= w → 0 <= to_unsigned w x < 2 ^ w.
Proof. intros Hw. apply Z.mod_pos_bound. lia. Qed.

(** Masks and shifts by constants as arithmetic. *)
Lemma land_mask x n : 0 ≤ n → Z.land x (2 ^ n - 1) = x mod 2 ^ n.
Proof. intros. rewrite <- Z.land_ones by lia. by rewrite Z.ones_equiv, <- Z.sub_1_r. Qed.

Lemma testbit_high b n i : 0 ≤ n ≤ i → 0 ≤ b < 2 ^ n → Z.testbit b i = false.
Proof. intros. rewrite <- (Z.mod_small b (2 ^ n)) by lia. apply Z.mod_pow2_bits_high. lia. Qed.

Lemma lor_shiftl_add a b n :
  0 ≤ n → 0 ≤ b < 2 ^ n → Z.lor (Z.shiftl a n) b = a * 2 ^ n + b.
Proof.
  intros Hn Hb. rewrite <- Z.shiftl_mul_pow2 by lia.
  assert (Z.land (Z.shiftl a n) b = 0) as Hd.
  { apply Z.bits_inj'. intros i Hi. rewrite Z.land_spec, Z.bits_0.
    destruct (decide (i < n)).
    - by rewrite Z.shiftl_spec_low by lia.
    - by rewrite (testbit_high b n), andb_false_r by lia. }
  by rewrite <- Z.lxor_lor, <- Z.add_nocarry_lxor.
Qed.

Lemma land_1 x : Z.land x 1 = x mod 2.
Proof. exact (land_mask x 1 ltac:(lia)). Qed.
Lemma land_3 x : Z.land x 3 = x mod 4.
Proof. exact (land_mask x 2 ltac:(lia)). Qed.
Lemma land_7 x : Z.land x 7 = x mod 8.
Proof. exact (land_mask x 3 ltac:(lia)). Qed.
Lemma land_15 x : Z.land x 15 = x mod 16.
Proof. exact (land_mask x 4 ltac:(lia)). Qed.
Lemma land_31 x : Z.land x 31 = x mod 32.
Proof. exact (land_mask x 5 ltac:(lia)). Qed.
Lemma land_63 x : Z.land x 63 = x mod 64.
Proof. exact (land_mask x 6 ltac:(lia)). Qed.
Lemma land_127 x : Z.land x 127 = x mod 128.
Proof. exact (land_mask x 7 ltac:(lia)). Qed.
Lemma land_255 x : Z.land x 255 = x mod 256.
Proof. exact (land_mask x 8 ltac:(lia)). Qed.
Lemma land_1023 x : Z.land x 1023 = x mod 1024.
Proof. exact (land_mask x 10 ltac:(lia)). Qed.
Lemma land_2047 x : Z.land x 2047 = x mod 2048.
Proof. exact (land_mask x 11 ltac:(lia)). Qed.
Lemma land_4095 x : Z.land x 4095 = x mod 4096.
Proof. exact (land_mask x 12 ltac:(lia)). Qed.
Lemma shiftr_div x n : 0 ≤ n → Z.shiftr x n = x / 2 ^ n.
Proof. apply Z.shiftr_div_pow2. Qed.

#[export] Hint Rewrite land_1 land_3 land_7 land_15 land_31 land_63 land_127 land_255
  land_1023 land_2047 land_4095 : bits.
#[export] Hint Rewrite shiftr_div using lia : bits.

Lemma lor_range a b n : 0 ≤ n → 0 ≤ a < 2 ^ n → 0 ≤ b < 2 ^ n → 0 ≤ Z.lor a b < 2 ^ n.
Proof.
  intros Hn Ha Hb. split; [apply Z.lor_nonneg; lia|].
  assert (Z.lor a b = Z.lor a b mod 2 ^ n) as ->; [|apply Z.mod_pos_bound; lia].
  rewrite <- Z.land_ones, Z.land_lor_distr_l, !Z.land_ones by lia.
  by rewrite !Z.mod_small by lia.
Qed.

Lemma lxor_range a b n : 0 ≤ n → 0 ≤ a < 2 ^ n → 0 ≤ b < 2 ^ n → 0 ≤ Z.lxor a b < 2 ^ n.
Proof.
  intros Hn Ha Hb.
  assert (Z.lxor a b = Z.lxor a b mod 2 ^ n) as ->; [|apply Z.mod_pos_bound; lia].
  apply Z.bits_inj'. intros i Hi. destruct (decide (i < n)).
  - by rewrite Z.mod_pow2_bits_low by lia.
  - rewrite Z.mod_pow2_bits_high by lia.
    by rewrite Z.lxor_spec, (testbit_high a n), (testbit_high b n) by lia.
Qed.

Lemma land_range_l a b n : 0 ≤ n → 0 ≤ a < 2 ^ n → 0 ≤ Z.land a b < 2 ^ n.
Proof.
  intros Hn Ha. split; [apply Z.land_nonneg; lia|].
  assert (Z.land a b = Z.land a b mod 2 ^ n) as ->; [|apply Z.mod_pos_bound; lia].
  rewrite <- Z.land_ones by lia.
  rewrite <- Z.land_assoc, (Z.land_comm b), Z.land_assoc, (Z.land_ones a) by lia.
  by rewrite Z.mod_small by lia.
Qed.

Lemma land_range_r a b n : 0 ≤ n → 0 ≤ b < 2 ^ n → 0 ≤ Z.land a b < 2 ^ n.
Proof. rewrite Z.land_comm. apply land_range_l. Qed.

Lemma u16_not_spec x i : 0 ≤ i < 16 → Z.testbit (u16_not x) i = negb (Z.testbit x i).
Proof.
  intros Hi. unfold u16_not. rewrite Z.lxor_spec.
  change 65535 with (Z.ones 16). rewrite Z.ones_spec_low by lia. by rewrite xorb_true_r.
Qed.

(* ------------------------------------------------------------------ *)
(** * List lemmas *)

(** Induction two elements at a time, for lists consumed in pairs. *)
Lemma list_ind_2 {A} (P : list A → Prop) :
  P [] → (∀ x, P [x]) → (∀ x y l, P l → P (x :: y :: l)) → ∀ l, P l.
Proof.
  intros H0 H1 H2. fix IH 1. intros [|x [|y l]]; [apply H0|apply H1|apply H2, IH].
Qed.

Lemma zlen_nonneg {A} (l : list A) : 0 ≤ zlen l.
Proof. unfold zlen; lia. Qed.
Lemma zlen_app {A} (l k : list A) : zlen (l ++ k) = zlen l + zlen k.
Proof. unfold zlen. rewrite length_app. lia. Qed.
Lemma zlen_cons {A} (x : A) l : zlen (x :: l) = 1 + zlen l.
Proof. unfold zlen. simpl length. lia. Qed.
Lemma zlen_nil {A} : zlen (@nil A) = 0.
Proof. done. Qed.

Lemma zlen_u16_to_be x : zlen (u16_to_be x) = 2.
Proof. done. Qed.

#[export] Hint Rewrite @zlen_app @zlen_cons @zlen_nil zlen_u16_to_be : lens.

(** Length arithmetic: every length in the goal is known to be non-negative. *)
Ltac len_lia :=
  autorewrite with lens;
  repeat match goal with
    | |- context [zlen ?l] =>
        lazymatch goal with
        | H : 0 ≤ zlen l |- _ => fail
        | _ => pose proof (zlen_nonneg l)
        end
    end; lia.

Lemma index_lookup {E A} (l : list A) i x : l !! i = Some x → index (E:=E) l i = Ok x.
Proof. unfold index. by intros ->. Qed.

Lemma slice_ok {E A} (l : list A) a b :
  0 ≤ a ≤ b → b ≤ zlen l →
  slice (E:=E) l a b = Ok (take (Z.to_nat (b - a)) (drop (Z.to_nat a) l)).
Proof.
  intros. unfold slice.
  by rewrite !(proj2 (Z.leb_le _ _)) by lia.
Qed.

Lemma slice_app {E A} (l k : list A) n :
  n = zlen l → slice (E:=E) (l ++ k) 0 n = Ok l.
Proof.
  intros ->. rewrite slice_ok by (rewrite ?zlen_app; pose proof (zlen_nonneg l);
    pose proof (zlen_nonneg k); lia).
  rewrite Z.sub_0_r. unfold zlen. rewrite Nat2Z.id.
  change (Z.to_nat 0) with 0%nat. by rewrite drop_0, take_app_length.
Qed.

Lemma length_zrange a n : length (zrange a n) = n.
Proof. unfold zrange. by rewrite length_fmap, length_seq. Qed.

Lemma lookup_zrange a n i :
  zrange a n !! i = if decide (i < n)%nat then Some (a + Z.of_nat i) else None.
Proof.
  unfold zrange. rewrite list_lookup_fmap. case_decide.
  - by rewrite lookup_seq_lt.
  - by rewrite lookup_seq_ge by lia.
Qed.

Lemma elem_of_zrange a n x : x ∈ zrange a n ↔ a ≤ x < a + Z.of_nat n.
Proof.
  unfold zrange. rewrite list_elem_of_fmap. split.
  - intros (i & -> & Hi). apply elem_of_seq in Hi. lia.
  - intros. exists (Z.to_nat (x - a)). split; [lia|]. apply elem_of_seq. lia.
Qed.

Lemma zrange_S a n : zrange a (S n) = a :: zrange (a + 1) n.
Proof.
  unfold zrange. simpl. f_equal; [lia|].
  rewrite <- fmap_S_seq, <- list_fmap_compose. apply list_fmap_ext.
  intros. simpl. lia.
Qed.

Lemma zrange_app a n m : zrange a (n + m) = zrange a n ++ zrange (a + Z.of_nat n) m.
Proof.
  revert a. induction n as [|n IH]; intros a.
  - simpl. by rewrite Z.add_0_r.
  - change (S n + m)%nat with (S (n + m)). rewrite !zrange_S, IH. simpl. do 3 f_equal. lia.
Qed.

Lemma bytes_ok_app l k : bytes_ok (l ++ k) ↔ bytes_ok l ∧ bytes_ok k.
Proof. apply Forall_app. Qed.
Lemma bytes_ok_cons x l : bytes_ok (x :: l) ↔ is_u8 x ∧ bytes_ok l.
Proof. apply Forall_cons. Qed.

(** Splits a byte-string condition along its structure. *)
Ltac bytes_split :=
  repeat match goal with
    | |- bytes_ok (_ ++ _) => apply bytes_ok_app; split
    | |- bytes_ok (_ :: _) => apply bytes_ok_cons; split
    | |- bytes_ok [] => exact (Forall_nil_2 _)
    | |- bytes_ok (u16_to_be _) => apply u16_to_be_ok
    | |- bytes_ok (u16_to_le _) => apply u16_to_le_ok
    | H : bytes_ok ?l |- bytes_ok ?l => exact H
    end.
(** An invariant of every step is one of a run. *)
Lemma foldl_preserves {A B} (P : A → Prop) (f : A → B → A) l a : (∀ a b, P a → P (f a b)) → P a → P (foldl f a l).
Proof. intros Hf. revert a. induction l; cbn; auto. Qed.

(** Bytes that evaluate to a literal. *)
Ltac bytes_compute := match goal with |- bytes_ok ?l => let v := eval vm_compute in l in change (bytes_ok v); bytes_split; int_lia end.

Lemma bytes_ok_lookup l i x : bytes_ok l → l !! i = Some x → is_u8 x.
Proof. intros H Hi. by eapply Forall_lookup_1 in H. Qed.

Lemma omapM_ok {E A B} (f : A → outcome E B) (g : A → B) l :
  (∀ x, x ∈ l → f x = Ok (g x)) → omapM f l = Ok (g <$> l).
Proof.
  induction l as [|x l IH]; intros H; [done|]. simpl.
  rewrite H by constructor. simpl. rewrite IH; [done|]. intros y Hy. apply H. by constructor.
Qed.

(* ------------------------------------------------------------------ *)
(** * Postconditions of outcomes *)

(** [osat P Q c]: [c] does not panic, its value satisfies [P] and its error [Q]. *)
Definition osat {E A} (P : A → Prop) (Q : E → Prop) (c : outcome E A) : Prop :=
  match c with Ok a => P a | Err e => Q e | Panic => False end.

Create HintDb osat.

Lemma osat_bind {E A B} (P : A → Prop) (R : B → Prop) (Q : E → Prop) c (k : A → outcome E B) :
  osat P Q c → (∀ a, P a → osat R Q (k a)) → osat R Q (obind c k).
Proof. destruct c; simpl; auto. Qed.

Lemma osat_weaken {E A} (P P' : A → Prop) (Q Q' : E → Prop) c :
  osat P Q c → (∀ a, P a → P' a) → (∀ e, Q e → Q' e) → osat P' Q' c.
Proof. destruct c; simpl; auto. Qed.

Lemma osat_no_panic {E A} (P : A → Prop) (Q : E → Prop) (c : outcome E A) :
  osat P Q c → is_panic c = false.
Proof. by destruct c. Qed.

Lemma osat_ok {E A} (P : A → Prop) (Q : E → Prop) (c : outcome E A) a :
  osat P Q c → c = Ok a → P a.
Proof. by intros H ->. Qed.

Lemma osat_err {E A} (P : A → Prop) (Q : E → Prop) (c : outcome E A) e :
  osat P Q c → c = Err e → Q e.
Proof. by intros H ->. Qed.

Lemma index_sat {E A} (P : A → Prop) (Q : E → Prop) l i :
  (i < length l)%nat → Forall P l → osat P Q (index l i).
Proof.
  intros Hi HP. destruct (lookup_lt_is_Some_2 l i Hi) as [x Hx].
  unfold index. rewrite Hx. simpl. by eapply Forall_lookup_1 in HP.
Qed.

(** Applies [osat_bind], naming nothing: the first premise is left to the caller. *)
Ltac osat_step := eapply osat_bind; [solve [eauto 6 with osat lia] |]; cbv beta; intros.

(* ------------------------------------------------------------------ *)
(** * Decoders that make progress *)

(** A decoder that does not panic and, when it succeeds, has taken at least [k] octets. *)
Definition consumes {E A} (k : nat) (d : stM (list Z) E A) : Prop := ∀ l,
  match d l with (Ok _, l') => (length l' + k ≤ length l)%nat | (Err _, _) => True | (Panic, _) => False end.

Create HintDb consume.

Lemma consumes_bind {E A B} k k' (d : stM (list Z) E A) (f : A → stM (list Z) E B) :
  consumes k d → (∀ a, consumes k' (f a)) → consumes (k + k') (st_bind d f).
Proof.
  intros Hd Hf l. unfold st_bind. specialize (Hd l). destruct (d l) as [[a|e|] l']; [|done..].
  specialize (Hf a l'). destruct (f a l') as [[b|e|] l'']; [lia|done..].
Qed.
Lemma consumes_weaken {E A} k k' (d : stM (list Z) E A) : consumes k d → (k' ≤ k)%nat → consumes k' d.
Proof. intros Hd Hk l. specialize (Hd l). destruct (d l) as [[a|e|] l']; [lia|done..]. Qed.
(** The first decoder takes the octets. *)
Lemma consumes_first {E A B} k (d : stM (list Z) E A) (f : A → stM (list Z) E B) :
  consumes k d → (∀ a, consumes 0 (f a)) → consumes k (st_bind d f).
Proof. intros Hd Hf. rewrite <- (Nat.add_0_r k). by apply consumes_bind. Qed.
Lemma consumes_map {E A B} k (f : A → B) (d : stM (list Z) E A) : consumes k d → consumes k (st_map f d).
Proof. intros Hd l. unfold st_map. specialize (Hd l). by destruct (d l) as [[a|e|] l']. Qed.
Lemma consumes_map_err {E F A} k (f : E → F) (d : stM (list Z) E A) : consumes k d → consumes k (st_map_err f d).
Proof. intros Hd l. unfold st_map_err. specialize (Hd l). by destruct (d l) as [[a|e|] l']. Qed.
Lemma consumes_ret {E A} (a : A) : consumes (E:=E) 0 (st_ret a).
Proof. intros l. cbn. lia. Qed.
Lemma consumes_err {E A} (e : E) k : consumes (A:=A) k (st_err e).
Proof. done. Qed.
#[export] Hint Resolve consumes_map consumes_map_err consumes_ret consumes_err : consume.
