(* ===== verification/Text.v ===== *)
(** Text as the standard library of Rust handles it: a [String] is the list of its UTF-8 bytes.
    Validation ([String::from_utf8]), lossy decoding ([String::from_utf8_lossy]) and trimming of
    white space at the end ([trim_end_matches]). *)

From Stdlib Require Import Strings.String Strings.Ascii.
From S2P Require Import Prelude.

(** A literal, and a number in decimal as [format!] writes it. *)
Definition str (s : string) : list Z := (fun c => Z.of_N (N_of_ascii c)) <$> list_ascii_of_string s.
Arguments str _%_string_scope.
Fixpoint decimal_digits (fuel : nat) (x : Z) (acc : list Z) : list Z :=
  match fuel with
  | O => acc
  | S fuel => let acc := (48 + x mod 10) :: acc in if x / 10 =? 0 then acc else decimal_digits fuel (x / 10) acc
  end.
(** The fuel bounds the number of digits by the number of bits. *)
Definition decimal (x : Z) : list Z := decimal_digits (S (Z.to_nat (Z.log2 x))) x [].

Definition in_range (lo hi b : Z) : bool := (lo <=? b) && (b <=? hi).
Definition utf8_continuation (b : Z) : bool := in_range 0x80 0xBF b.
(** The second byte a lead byte of a three- or four-byte sequence allows. *)
Definition second_of_three (b0 b1 : Z) : bool :=
  if b0 =? 0xE0 then in_range 0xA0 0xBF b1 else if b0 =? 0xED then in_range 0x80 0x9F b1 else utf8_continuation b1.
Definition second_of_four (b0 b1 : Z) : bool :=
  if b0 =? 0xF0 then in_range 0x90 0xBF b1 else if b0 =? 0xF4 then in_range 0x80 0x8F b1 else utf8_continuation b1.

(** The longest prefix of a character at the start of the input: its length, and whether it is
    the whole character; at least one byte. *)
Definition utf8_step (b0 : Z) (l : list Z) : nat * bool :=
  if b0 <=? 0x7F then (1%nat, true)
  else if in_range 0xC2 0xDF b0 then
    match l with b1 :: _ => if utf8_continuation b1 then (2%nat, true) else (1%nat, false) | [] => (1%nat, false) end
  else if in_range 0xE0 0xEF b0 then
    match l with
    | b1 :: l => if second_of_three b0 b1 then
                   match l with b2 :: _ => if utf8_continuation b2 then (3%nat, true) else (2%nat, false) | [] => (2%nat, false) end
                 else (1%nat, false)
    | [] => (1%nat, false)
    end
  else if in_range 0xF0 0xF4 b0 then
    match l with
    | b1 :: l => if second_of_four b0 b1 then
                   match l with
                   | b2 :: l => if utf8_continuation b2 then
                                  match l with b3 :: _ => if utf8_continuation b3 then (4%nat, true) else (3%nat, false) | [] => (3%nat, false) end
                                else (2%nat, false)
                   | [] => (2%nat, false)
                   end
                 else (1%nat, false)
    | [] => (1%nat, false)
    end
  else (1%nat, false).

(** [String::from_utf8_lossy]: every maximal invalid part becomes U+FFFD. *)
Fixpoint lossy_loop (fuel : nat) (l : list Z) : list Z :=
  match fuel, l with
  | S fuel, b0 :: rest =>
      let '(n, whole) := utf8_step b0 rest in
      (if whole : bool then take n l else [0xEF; 0xBF; 0xBD]) ++ lossy_loop fuel (drop n l)
  | _, _ => []
  end.
Definition from_utf8_lossy (l : list Z) : list Z := lossy_loop (length l) l.
Fixpoint valid_loop (fuel : nat) (l : list Z) : bool :=
  match fuel, l with
  | S fuel, b0 :: rest => let '(n, whole) := utf8_step b0 rest in whole && valid_loop fuel (drop n l)
  | _, _ => true
  end.
Definition is_utf8 (l : list Z) : bool := valid_loop (length l) l.

(** The encodings of the characters [char::is_whitespace] accepts, and of U+0000. *)
Definition trimmed_chars : list (list Z) :=
  [[0x00]; [0x09]; [0x0A]; [0x0B]; [0x0C]; [0x0D]; [0x20]; [0xC2; 0x85]; [0xC2; 0xA0]; [0xE1; 0x9A; 0x80];
   [0xE2; 0x80; 0x80]; [0xE2; 0x80; 0x81]; [0xE2; 0x80; 0x82]; [0xE2; 0x80; 0x83]; [0xE2; 0x80; 0x84]; [0xE2; 0x80; 0x85];
   [0xE2; 0x80; 0x86]; [0xE2; 0x80; 0x87]; [0xE2; 0x80; 0x88]; [0xE2; 0x80; 0x89]; [0xE2; 0x80; 0x8A]; [0xE2; 0x80; 0xA8];
   [0xE2; 0x80; 0xA9]; [0xE2; 0x80; 0xAF]; [0xE2; 0x81; 0x9F]; [0xE3; 0x80; 0x80]].
Definition ends_with (c l : list Z) : bool := bool_decide (c `suffix_of` l).
Definition trailing (l : list Z) : option (list Z) := head (filter (fun c => ends_with c l = true) trimmed_chars).
(** [trim_end_matches]; every turn drops a character. *)
Fixpoint trim_loop (fuel : nat) (l : list Z) : list Z :=
  match fuel with
  | O => l
  | S fuel => match trailing l with Some c => trim_loop fuel (take (length l - length c) l) | None => l end
  end.
Definition trim_end (l : list Z) : list Z := trim_loop (length l) l.

(* ------------------------------------------------------------------ *)
(** * Lemmas *)

Lemma utf8_step_length b l : (1 ≤ (utf8_step b l).1)%nat.
Proof. unfold utf8_step. repeat case_match; cbn; lia. Qed.

Lemma lossy_id fuel l : (length l ≤ fuel)%nat → valid_loop fuel l = true → lossy_loop fuel l = l.
Proof.
  revert l. induction fuel as [|fuel IH]; intros [|b l] Hl; cbn [valid_loop lossy_loop]; try done; [cbn in Hl; lia|].
  pose proof (utf8_step_length b l) as Hs. destruct (utf8_step b l) as [n whole]. intros [-> Hv]%andb_true_iff. cbn in Hs.
  rewrite IH; [apply take_drop| |done]. rewrite length_drop. cbn in *. lia.
Qed.
Lemma lossy_valid l : is_utf8 l = true → from_utf8_lossy l = l.
Proof. by apply lossy_id. Qed.

Lemma trim_none l : trailing l = None → trim_end l = l.
Proof. intros Ht. unfold trim_end. destruct (length l); cbn; [done|]. by rewrite Ht. Qed.
