(* ===== verification/Float.v ===== *)
(** Binary floating point as the programs use it: [f32] and [f64] are their bit patterns, their
    comparison, difference, absolute value and conversions those of IEEE 754, computed through
    the specification floats of the Standard Library. *)

From Stdlib Require Import Floats.SpecFloat.
From S2P Require Import Prelude.

(** The number a pattern with [mw] bits of mantissa and [ew] of exponent denotes. *)
Definition float_of_bits (mw ew : Z) (x : Z) : spec_float :=
  let s := Z.testbit x (mw + ew) in
  let m := Z.land x (Z.ones mw) in
  let e := Z.land (Z.shiftr x mw) (Z.ones ew) in
  let bias := 2 ^ (ew - 1) - 1 in
  if e =? 0 then match m with Zpos p => S754_finite s p (1 - bias - mw) | _ => S754_zero s end
  else if e =? Z.ones ew then (if m =? 0 then S754_infinity s else S754_nan)
  else match m + 2 ^ mw with Zpos p => S754_finite s p (e - bias - mw) | _ => S754_nan end.
Definition f64_val (x : Z) : spec_float := float_of_bits 52 11 x.
Definition f32_val (x : Z) : spec_float := float_of_bits 23 8 x.
(** [x as f64]: exact. *)
Definition f32_as_f64 (x : Z) : spec_float :=
  match f32_val x with
  | S754_finite s m e => binary_normalize 53 1024 (cond_Zopp s (Zpos m)) e s
  | f => f
  end.

(** [partial_cmp] and [==]: nothing compares with a NaN, and the two zeros are equal. *)
Definition float_cmp (a b : spec_float) : option comparison := SFcompare a b.
Definition float_eq (a b : spec_float) : bool := SFeqb a b.
Definition float_lt (a b : spec_float) : bool := SFltb a b.
(** [(a - b).abs()] on [f64]. *)
Definition f64_distance (a b : spec_float) : spec_float := SFabs (SFsub 53 1024 a b).

(** [x.max(1.0) as u64]: the fraction is dropped, large values saturate, and [max] ignores a
    NaN. *)
Definition f64_max1_as_u64 (x : Z) : Z :=
  match f64_val x with
  | S754_infinity false => 2 ^ 64 - 1
  | S754_finite false m e => Z.max 1 (Z.min (2 ^ 64 - 1) (Z.shiftl (Zpos m) e))
  | _ => 1
  end.

(** The pattern of a number of type [f64].  A NaN an operation produces is the quiet one; the
    sign and payload of a NaN are unspecified in the language. *)
Definition f64_bits (f : spec_float) : Z :=
  let sign (s : bool) := if s then 2 ^ 63 else 0 in
  match f with
  | S754_zero s => sign s
  | S754_infinity s => sign s + 0x7FF0000000000000
  | S754_nan => 0x7FF8000000000000
  | S754_finite s m e => sign s + (if Zpos m <? 2 ^ 52 then Zpos m else Z.shiftl (e + 1075) 52 + (Zpos m - 2 ^ 52))
  end.
Definition f64_add (a b : spec_float) : spec_float := SFadd 53 1024 a b.
Definition f64_sub (a b : spec_float) : spec_float := SFsub 53 1024 a b.
Definition f64_mul (a b : spec_float) : spec_float := SFmul 53 1024 a b.
Definition f64_div (a b : spec_float) : spec_float := SFdiv 53 1024 a b.
Definition f64_sqrt (a : spec_float) : spec_float := SFsqrt 53 1024 a.
Definition f64_abs (a : spec_float) : spec_float := SFabs a.
(** [n as f64] for an integer: rounded to the nearest. *)
Definition f64_of_Z (n : Z) : spec_float := binary_normalize 53 1024 n 0 false.
(** [iter.sum::<f64>()].  It starts from 0.0; from -0.0 in later versions of the standard
    library, which changes the sign of a zero only. *)
Definition f64_sum (l : list spec_float) : spec_float := foldl f64_add (S754_zero false) l.
(** [x as i64]: towards zero, saturating, 0 for a NaN. *)
Definition f64_as_i64 (x : Z) : Z :=
  match f64_val x with
  | S754_infinity true => - 2 ^ 63
  | S754_infinity false => 2 ^ 63 - 1
  | S754_finite s m e => Z.max (- 2 ^ 63) (Z.min (2 ^ 63 - 1) (cond_Zopp s (Z.shiftl (Zpos m) e)))
  | _ => 0
  end.

(** Single precision. *)
Definition f32_bits (f : spec_float) : Z :=
  let sign (s : bool) := if s then 2 ^ 31 else 0 in
  match f with
  | S754_zero s => sign s
  | S754_infinity s => sign s + 0x7F800000
  | S754_nan => 0x7FC00000
  | S754_finite s m e => sign s + (if Zpos m <? 2 ^ 23 then Zpos m else Z.shiftl (e + 150) 23 + (Zpos m - 2 ^ 23))
  end.
Definition f32_mul (a b : spec_float) : spec_float := SFmul 24 128 a b.
Definition f32_div (a b : spec_float) : spec_float := SFdiv 24 128 a b.
Definition f32_of_Z (n : Z) : spec_float := binary_normalize 24 128 n 0 false.
(** A decimal literal [n / d]: the nearest number. *)
Definition f32_literal (n d : Z) : spec_float := f32_div (f32_of_Z n) (f32_of_Z d).
(** [x.clamp(lo, hi)]: a NaN stays. *)
Definition float_clamp (lo hi x : spec_float) : spec_float := if float_lt x lo then lo else if float_lt hi x then hi else x.
(** [x as T] for an integer type from [lo] to [hi]: towards zero, saturating, 0 for a NaN. *)
Definition float_as_int (lo hi : Z) (f : spec_float) : Z :=
  match f with
  | S754_infinity true => lo
  | S754_infinity false => hi
  | S754_finite s m e => Z.max lo (Z.min hi (cond_Zopp s (Z.shiftl (Zpos m) e)))
  | _ => 0
  end.
Definition f32_as_i32 (f : spec_float) : Z := float_as_int (- 2 ^ 31) (2 ^ 31 - 1) f.
Definition f32_as_u8 (f : spec_float) : Z := float_as_int 0 255 f.

Example f64_one : f64_val 0x3FF0000000000000 = S754_finite false 4503599627370496 (-52).
Proof. reflexivity. Qed.
Example f64_interval : f64_max1_as_u64 0x407F480000000000 = 500 ∧ f64_max1_as_u64 0 = 1 ∧ f64_max1_as_u64 0x7FF0000000000000 = 2 ^ 64 - 1.
Proof. by vm_compute. Qed.
Example f32_half : float_cmp (f32_as_f64 0x3F000000) (f64_val 0x3FE0000000000000) = Some Eq.
Proof. reflexivity. Qed.
Example f64_mean : f64_bits (f64_div (f64_sum (f64_of_Z <$> [10; 20; 33])) (f64_of_Z 3)) = 0x4035000000000000.
Proof. by vm_compute. Qed.
Example f64_bits_inverse : (f64_bits ∘ f64_val) <$> [0; 1; 0x000FFFFFFFFFFFFF; 0x3FF0000000000000; 0xC08F480000000000; 0xFFF0000000000000]
  = [0; 1; 0x000FFFFFFFFFFFFF; 0x3FF0000000000000; 0xC08F480000000000; 0xFFF0000000000000].
Proof. by vm_compute. Qed.
Example f64_truncates : f64_as_i64 0x3FE0000000000000 = 0 ∧ f64_as_i64 0xC08F480000000000 = -1001 ∧ f64_as_i64 0xFFF0000000000000 = - 2 ^ 63.
Proof. by vm_compute. Qed.
Example f32_literals : f32_bits (f32_literal 255 100) = 0x40233333 ∧ f32_bits (f32_literal 1 100) = 0x3C23D70A.
Proof. by vm_compute. Qed.
