(* ===== verification/ModbusPdu.v ===== *)
(** Modbus protocol data units: exception codes ([handler/exception.rs]), errors
    ([error.rs]), register types ([register.rs]), function codes, the typed request
    parser and the response encoder ([core.rs]).

    Error message texts and the payloads of the two wrapped foreign errors
    ([std::io::Error], [mabi_core::Error]) carry no behaviour and are left out of
    [ModbusError]. *)

From S2P Require Import Prelude.

(* ------------------------------------------------------------------ *)
(** * Exception codes *)

Inductive ExceptionCode : Set :=
| IllegalFunction
| IllegalDataAddress
| IllegalDataValue
| SlaveDeviceFailure
| Acknowledge
| SlaveDeviceBusy
| MemoryParityError
| GatewayPathUnavailable
| GatewayTargetDeviceFailedToRespond.

#[global] Instance ExceptionCode_eq_dec : EqDecision ExceptionCode.
Proof. solve_decision. Defined.

Definition ExceptionCode_as_u8 (c : ExceptionCode) : Z :=
  match c with
  | IllegalFunction => 0x01
  | IllegalDataAddress => 0x02
  | IllegalDataValue => 0x03
  | SlaveDeviceFailure => 0x04
  | Acknowledge => 0x05
  | SlaveDeviceBusy => 0x06
  | MemoryParityError => 0x08
  | GatewayPathUnavailable => 0x0A
  | GatewayTargetDeviceFailedToRespond => 0x0B
  end.

Definition ExceptionCode_from_u8 (value : Z) : option ExceptionCode :=
  match value with
  | 0x01 => Some IllegalFunction
  | 0x02 => Some IllegalDataAddress
  | 0x03 => Some IllegalDataValue
  | 0x04 => Some SlaveDeviceFailure
  | 0x05 => Some Acknowledge
  | 0x06 => Some SlaveDeviceBusy
  | 0x08 => Some MemoryParityError
  | 0x0A => Some GatewayPathUnavailable
  | 0x0B => Some GatewayTargetDeviceFailedToRespond
  | _ => None
  end.

Record ExceptionResponse : Set := {
  er_function_code : Z;
  er_exception_code : ExceptionCode;
}.

Definition ExceptionResponse_to_pdu (r : ExceptionResponse) : list Z :=
  [Z.lor (er_function_code r) 0x80; ExceptionCode_as_u8 (er_exception_code r)].

Definition ExceptionResponse_from_pdu (pdu : list Z) : option ExceptionResponse :=
  match pdu with
  | b0 :: b1 :: _ =>
      if Z.land b0 0x80 =? 0 then None
      else
        let function_code := Z.land b0 0x7F in
        exception_code ← ExceptionCode_from_u8 b1;
        Some {| er_function_code := function_code; er_exception_code := exception_code |}
  | _ => None
  end.

Definition ExceptionResponse_is_exception (pdu : list Z) : bool :=
  match pdu with
  | [] => false
  | b0 :: _ => negb (Z.land b0 0x80 =? 0)
  end.

Definition build_exception_pdu (function_code : Z) (exception_code : ExceptionCode) : list Z :=
  ExceptionResponse_to_pdu
    {| er_function_code := function_code; er_exception_code := exception_code |}.

(* ------------------------------------------------------------------ *)
(** * Errors *)

Inductive ModbusError : Set :=
| InvalidFunction (code : Z)
| InvalidAddress (address max : Z)
| InvalidQuantity (quantity max : Z)
| InvalidData
| DeviceNotFound (unit_id : Z)
| Server
| Connection
| Io
| Core
| Internal
| InvalidUnitId (unit_id : Z)
| UnitNotFound (unit_id : Z)
| UnitAlreadyExists (unit_id : Z)
| UnitLimitReached (max : Z)
| UnitDisabled (unit_id : Z)
| Config.

Definition ModbusError_to_exception_code (e : ModbusError) : Z :=
  match e with
  | InvalidFunction _ => 0x01
  | InvalidAddress _ _ => 0x02
  | InvalidQuantity _ _ => 0x03
  | InvalidData => 0x03
  | DeviceNotFound _ => 0x0B
  | Server => 0x04
  | Connection => 0x0A
  | Io => 0x04
  | Core => 0x04
  | Internal => 0x04
  | InvalidUnitId _ => 0x0B
  | UnitNotFound _ => 0x0B
  | UnitAlreadyExists _ => 0x04
  | UnitLimitReached _ => 0x04
  | UnitDisabled _ => 0x0B
  | Config => 0x04
  end.

(* ------------------------------------------------------------------ *)
(** * Register types *)

Inductive RegisterType : Set := Coil | DiscreteInput | HoldingRegister | InputRegister.

#[global] Instance RegisterType_eq_dec : EqDecision RegisterType.
Proof. solve_decision. Defined.

Definition read_function (t : RegisterType) : Z :=
  match t with
  | Coil => 0x01
  | DiscreteInput => 0x02
  | HoldingRegister => 0x03
  | InputRegister => 0x04
  end.

Definition write_function (t : RegisterType) : option Z :=
  match t with
  | Coil => Some 0x05
  | HoldingRegister => Some 0x06
  | DiscreteInput | InputRegister => None
  end.

Definition write_multiple_function (t : RegisterType) : option Z :=
  match t with
  | Coil => Some 0x0F
  | HoldingRegister => Some 0x10
  | DiscreteInput | InputRegister => None
  end.

Definition is_writable (t : RegisterType) : bool :=
  match t with Coil | HoldingRegister => true | _ => false end.

Definition is_bit_type (t : RegisterType) : bool :=
  match t with Coil | DiscreteInput => true | _ => false end.

Definition max_read_quantity (t : RegisterType) : Z :=
  if is_bit_type t then 2000 else 125.

Definition max_write_quantity (t : RegisterType) : Z :=
  if is_bit_type t then 1968 else 123.

(* ------------------------------------------------------------------ *)
(** * Function codes *)

Inductive FunctionCode : Set :=
| FcReadCoils
| FcReadDiscreteInputs
| FcReadHoldingRegisters
| FcReadInputRegisters
| FcWriteSingleCoil
| FcWriteSingleRegister
| FcWriteMultipleCoils
| FcWriteMultipleRegisters
| FcMaskWriteRegister
| FcReadWriteMultipleRegisters.

Definition FunctionCode_as_u8 (f : FunctionCode) : Z :=
  match f with
  | FcReadCoils => 0x01
  | FcReadDiscreteInputs => 0x02
  | FcReadHoldingRegisters => 0x03
  | FcReadInputRegisters => 0x04
  | FcWriteSingleCoil => 0x05
  | FcWriteSingleRegister => 0x06
  | FcWriteMultipleCoils => 0x0F
  | FcWriteMultipleRegisters => 0x10
  | FcMaskWriteRegister => 0x16
  | FcReadWriteMultipleRegisters => 0x17
  end.

Definition FunctionCode_try_from (value : Z) : outcome ModbusError FunctionCode :=
  match value with
  | 0x01 => Ok FcReadCoils
  | 0x02 => Ok FcReadDiscreteInputs
  | 0x03 => Ok FcReadHoldingRegisters
  | 0x04 => Ok FcReadInputRegisters
  | 0x05 => Ok FcWriteSingleCoil
  | 0x06 => Ok FcWriteSingleRegister
  | 0x0F => Ok FcWriteMultipleCoils
  | 0x10 => Ok FcWriteMultipleRegisters
  | 0x16 => Ok FcMaskWriteRegister
  | 0x17 => Ok FcReadWriteMultipleRegisters
  | _ => Err (InvalidFunction value)
  end.

(* ------------------------------------------------------------------ *)
(** * Typed requests and responses *)

Inductive SemanticRequest : Set :=
| ReqReadCoils (address quantity : Z)
| ReqReadDiscreteInputs (address quantity : Z)
| ReqReadHoldingRegisters (address quantity : Z)
| ReqReadInputRegisters (address quantity : Z)
| ReqWriteSingleCoil (address : Z) (value : bool)
| ReqWriteSingleRegister (address value : Z)
| ReqWriteMultipleCoils (address : Z) (values : list bool)
| ReqWriteMultipleRegisters (address : Z) (values : list Z)
| ReqMaskWriteRegister (address and_mask or_mask : Z)
| ReqReadWriteMultipleRegisters (read_address read_quantity write_address : Z) (values : list Z)
| ReqCustom (function_code : Z) (payload : list Z).

Definition SemanticRequest_function_code (r : SemanticRequest) : Z :=
  match r with
  | ReqReadCoils _ _ => FunctionCode_as_u8 FcReadCoils
  | ReqReadDiscreteInputs _ _ => FunctionCode_as_u8 FcReadDiscreteInputs
  | ReqReadHoldingRegisters _ _ => FunctionCode_as_u8 FcReadHoldingRegisters
  | ReqReadInputRegisters _ _ => FunctionCode_as_u8 FcReadInputRegisters
  | ReqWriteSingleCoil _ _ => FunctionCode_as_u8 FcWriteSingleCoil
  | ReqWriteSingleRegister _ _ => FunctionCode_as_u8 FcWriteSingleRegister
  | ReqWriteMultipleCoils _ _ => FunctionCode_as_u8 FcWriteMultipleCoils
  | ReqWriteMultipleRegisters _ _ => FunctionCode_as_u8 FcWriteMultipleRegisters
  | ReqMaskWriteRegister _ _ _ => FunctionCode_as_u8 FcMaskWriteRegister
  | ReqReadWriteMultipleRegisters _ _ _ _ => FunctionCode_as_u8 FcReadWriteMultipleRegisters
  | ReqCustom function_code _ => function_code
  end.

Definition allows_broadcast (r : SemanticRequest) : bool :=
  match r with
  | ReqWriteSingleCoil _ _
  | ReqWriteSingleRegister _ _
  | ReqWriteMultipleCoils _ _
  | ReqWriteMultipleRegisters _ _
  | ReqMaskWriteRegister _ _ _ => true
  | _ => false
  end.

(** [ResponsePdu] and [RequestPdu] wrap a byte vector that is never empty. *)
Definition ResponsePdu_new (bytes : list Z) : outcome ModbusError (list Z) :=
  match bytes with [] => Err InvalidData | _ => Ok bytes end.

Definition RequestPdu_new (bytes : list Z) : outcome ModbusError (list Z) :=
  match bytes with [] => Err InvalidData | _ => Ok bytes end.

Inductive SemanticResponse : Set :=
| RespBits (function : FunctionCode) (values : list bool)
| RespRegisters (function : FunctionCode) (values : list Z)
| RespWriteSingleCoilAck (address : Z) (value : bool)
| RespWriteSingleRegisterAck (address value : Z)
| RespWriteMultipleAck (function : FunctionCode) (address quantity : Z)
| RespMaskWriteAck (address and_mask or_mask : Z)
| RespCustom (response : list Z).

(* ------------------------------------------------------------------ *)
(** * Bit packing *)

(** The loop [for (i, &v) in values.iter().enumerate() { if v { packed[i / 8] |= 1 << (i % 8) } }],
    started at index [i]. *)
Fixpoint pack_bits_from {E} (i : nat) (values : list bool) (packed : list Z)
  : outcome E (list Z) :=
  match values with
  | [] => Ok packed
  | v :: vs =>
      let? packed' :=
        (if v then
           let? b := index packed (i / 8)%nat in
           index_set packed (i / 8)%nat (Z.lor b (Z.shiftl 1 (Z.of_nat (i mod 8))))
         else Ok packed) in
      pack_bits_from (S i) vs packed'
  end.

Definition pack_bits {E} (values : list bool) : outcome E (list Z) :=
  pack_bits_from 0 values (replicate (Z.to_nat (div_ceil (zlen values) 8)) 0).

(** [(data[i / 8] & (1 << (i % 8))) != 0]. *)
Definition unpack_bit {E} (data : list Z) (i : nat) : outcome E bool :=
  let? b := index data (i / 8)%nat in
  Ok (negb (Z.land b (Z.shiftl 1 (Z.of_nat (i mod 8))) =? 0)).

Definition unpack_bits {E} (data : list Z) (quantity : nat) : outcome E (list bool) :=
  omapM (unpack_bit data) (seq 0 quantity).

(** [for chunk in data.chunks_exact(2) { values.push(u16::from_be_bytes(chunk)) }]. *)
Fixpoint words_of_bytes (data : list Z) : list Z :=
  match data with
  | hi :: lo :: rest => u16_from_be hi lo :: words_of_bytes rest
  | _ => []
  end.

(** [for value in values { response.extend_from_slice(&value.to_be_bytes()) }]. *)
Fixpoint bytes_of_words (values : list Z) : list Z :=
  match values with
  | [] => []
  | value :: values' => u16_to_be value ++ bytes_of_words values'
  end.

(* ------------------------------------------------------------------ *)
(** * Request parser *)

Definition ensure_len (pdu : list Z) (minimum : Z) : outcome ExceptionCode unit :=
  if zlen pdu <? minimum then Err IllegalDataValue else Ok tt.

Definition ensure_quantity (quantity maximum : Z) : outcome ExceptionCode unit :=
  if (quantity =? 0) || (maximum <? quantity) then Err IllegalDataValue else Ok tt.

Definition ensure_span (address quantity : Z) : outcome ExceptionCode unit :=
  if quantity =? 0 then Err IllegalDataValue
  else
    let last := address + quantity - 1 in
    if 65535 <? last then Err IllegalDataAddress else Ok tt.

(** [u16::from_be_bytes([pdu[i], pdu[i + 1]])]. *)
Definition be_at {E} (pdu : list Z) (i : nat) : outcome E Z :=
  let? hi := index pdu i in
  let? lo := index pdu (S i) in
  Ok (u16_from_be hi lo).

Definition parse_read_bits (function : FunctionCode) (pdu : list Z)
  : outcome ExceptionCode SemanticRequest :=
  let? _ := ensure_len pdu 5 in
  let? address := be_at pdu 1 in
  let? quantity := be_at pdu 3 in
  let? _ := ensure_quantity quantity 2000 in
  let? _ := ensure_span address quantity in
  match function with
  | FcReadCoils => Ok (ReqReadCoils address quantity)
  | FcReadDiscreteInputs => Ok (ReqReadDiscreteInputs address quantity)
  | _ => Panic
  end.

Definition parse_read_registers (function : FunctionCode) (pdu : list Z)
  : outcome ExceptionCode SemanticRequest :=
  let? _ := ensure_len pdu 5 in
  let? address := be_at pdu 1 in
  let? quantity := be_at pdu 3 in
  let? _ := ensure_quantity quantity 125 in
  let? _ := ensure_span address quantity in
  match function with
  | FcReadHoldingRegisters => Ok (ReqReadHoldingRegisters address quantity)
  | FcReadInputRegisters => Ok (ReqReadInputRegisters address quantity)
  | _ => Panic
  end.

Definition parse_write_single_coil (pdu : list Z) : outcome ExceptionCode SemanticRequest :=
  let? _ := ensure_len pdu 5 in
  let? address := be_at pdu 1 in
  let? raw_value := be_at pdu 3 in
  let? value :=
    (match raw_value with
     | 0x0000 => Ok false
     | 0xFF00 => Ok true
     | _ => Err IllegalDataValue
     end) in
  Ok (ReqWriteSingleCoil address value).

Definition parse_write_single_register (pdu : list Z) : outcome ExceptionCode SemanticRequest :=
  let? _ := ensure_len pdu 5 in
  let? address := be_at pdu 1 in
  let? value := be_at pdu 3 in
  Ok (ReqWriteSingleRegister address value).

Definition parse_write_multiple_coils (pdu : list Z) : outcome ExceptionCode SemanticRequest :=
  let? _ := ensure_len pdu 6 in
  let? address := be_at pdu 1 in
  let? quantity := be_at pdu 3 in
  let? _ := ensure_quantity quantity 1968 in
  let? _ := ensure_span address quantity in
  let? byte_count := index pdu 5 in
  let expected := div_ceil quantity 8 in
  if negb (byte_count =? expected) || (zlen pdu <? 6 + byte_count) then Err IllegalDataValue
  else
    let? data := slice pdu 6 (6 + byte_count) in
    let? values := unpack_bits data (Z.to_nat quantity) in
    Ok (ReqWriteMultipleCoils address values).

Definition parse_write_multiple_registers (pdu : list Z)
  : outcome ExceptionCode SemanticRequest :=
  let? _ := ensure_len pdu 6 in
  let? address := be_at pdu 1 in
  let? quantity := be_at pdu 3 in
  let? _ := ensure_quantity quantity 123 in
  let? _ := ensure_span address quantity in
  let? byte_count := index pdu 5 in
  let expected := quantity * 2 in
  if negb (byte_count =? expected) || (zlen pdu <? 6 + byte_count) then Err IllegalDataValue
  else
    let? data := slice pdu 6 (6 + byte_count) in
    Ok (ReqWriteMultipleRegisters address (words_of_bytes data)).

Definition parse_mask_write_register (pdu : list Z) : outcome ExceptionCode SemanticRequest :=
  let? _ := ensure_len pdu 7 in
  let? address := be_at pdu 1 in
  let? and_mask := be_at pdu 3 in
  let? or_mask := be_at pdu 5 in
  Ok (ReqMaskWriteRegister address and_mask or_mask).

Definition parse_read_write_multiple_registers (pdu : list Z)
  : outcome ExceptionCode SemanticRequest :=
  let? _ := ensure_len pdu 10 in
  let? read_address := be_at pdu 1 in
  let? read_quantity := be_at pdu 3 in
  let? _ := ensure_quantity read_quantity 125 in
  let? _ := ensure_span read_address read_quantity in
  let? write_address := be_at pdu 5 in
  let? write_quantity := be_at pdu 7 in
  let? _ := ensure_quantity write_quantity 121 in
  let? _ := ensure_span write_address write_quantity in
  let? byte_count := index pdu 9 in
  let expected := write_quantity * 2 in
  if negb (byte_count =? expected) || (zlen pdu <? 10 + byte_count) then Err IllegalDataValue
  else
    let? data := slice pdu 10 (10 + byte_count) in
    Ok (ReqReadWriteMultipleRegisters read_address read_quantity write_address
          (words_of_bytes data)).

Definition parse_semantic_request (pdu : list Z) (is_broadcast : bool)
  : outcome ExceptionCode SemanticRequest :=
  let? function_code := ok_or (head pdu) IllegalDataValue in
  let? request :=
    match FunctionCode_try_from function_code with
    | Ok FcReadCoils => parse_read_bits FcReadCoils pdu
    | Ok FcReadDiscreteInputs => parse_read_bits FcReadDiscreteInputs pdu
    | Ok FcReadHoldingRegisters => parse_read_registers FcReadHoldingRegisters pdu
    | Ok FcReadInputRegisters => parse_read_registers FcReadInputRegisters pdu
    | Ok FcWriteSingleCoil => parse_write_single_coil pdu
    | Ok FcWriteSingleRegister => parse_write_single_register pdu
    | Ok FcWriteMultipleCoils => parse_write_multiple_coils pdu
    | Ok FcWriteMultipleRegisters => parse_write_multiple_registers pdu
    | Ok FcMaskWriteRegister => parse_mask_write_register pdu
    | Ok FcReadWriteMultipleRegisters => parse_read_write_multiple_registers pdu
    | Err (InvalidFunction _) => Ok (ReqCustom function_code (drop 1 pdu))
    | Err _ => Err IllegalFunction
    | Panic => Panic
    end in
  if is_broadcast && negb (allows_broadcast request) then Err IllegalFunction
  else Ok request.

(* ------------------------------------------------------------------ *)
(** * Response encoder *)

Definition SemanticResponse_encode (r : SemanticResponse) : outcome ModbusError (list Z) :=
  match r with
  | RespBits function values =>
      let? packed := pack_bits values in
      ResponsePdu_new
        ([FunctionCode_as_u8 function; as_u8 (div_ceil (zlen values) 8)] ++ packed)
  | RespRegisters function values =>
      ResponsePdu_new
        ([FunctionCode_as_u8 function; as_u8 (zlen values * 2)] ++ bytes_of_words values)
  | RespWriteSingleCoilAck address value =>
      ResponsePdu_new
        ([FunctionCode_as_u8 FcWriteSingleCoil] ++ u16_to_be address
           ++ u16_to_be (if value then 0xFF00 else 0x0000))
  | RespWriteSingleRegisterAck address value =>
      ResponsePdu_new
        ([FunctionCode_as_u8 FcWriteSingleRegister] ++ u16_to_be address ++ u16_to_be value)
  | RespWriteMultipleAck function address quantity =>
      ResponsePdu_new
        ([FunctionCode_as_u8 function] ++ u16_to_be address ++ u16_to_be quantity)
  | RespMaskWriteAck address and_mask or_mask =>
      ResponsePdu_new
        ([FunctionCode_as_u8 FcMaskWriteRegister] ++ u16_to_be address ++ u16_to_be and_mask
           ++ u16_to_be or_mask)
  | RespCustom response => Ok response
  end.

#[global] Arguments pack_bits : simpl never.
#[global] Arguments unpack_bits : simpl never.
#[global] Arguments be_at : simpl never.
#[global] Arguments ensure_len : simpl never.
#[global] Arguments ensure_quantity : simpl never.
#[global] Arguments ensure_span : simpl never.

(* ------------------------------------------------------------------ *)
(** * Facts about bit packing *)

(** Bit [j] of a packed byte vector. *)
Definition bit_at (data : list Z) (j : nat) : bool :=
  Z.testbit (default 0 (data !! (j / 8)%nat)) (Z.of_nat (j mod 8)).

Lemma land_pow2_testbit b k : 0 ≤ k → negb (Z.land b (Z.shiftl 1 k) =? 0) = Z.testbit b k.
Proof.
  intros Hk. rewrite Z.shiftl_1_l.
  destruct (Z.testbit b k) eqn:Hb.
  - apply negb_true_iff, Z.eqb_neq. intros H0.
    assert (Z.testbit (Z.land b (2 ^ k)) k = true) as H1.
    { by rewrite Z.land_spec, Hb, Z.pow2_bits_true by lia. }
    rewrite H0, Z.bits_0 in H1. done.
  - apply negb_false_iff, Z.eqb_eq. apply Z.bits_inj'. intros i Hi.
    rewrite Z.land_spec, Z.bits_0. destruct (decide (i = k)) as [->|].
    + by rewrite Hb.
    + by rewrite Z.pow2_bits_false, andb_false_r by lia.
Qed.

Lemma unpack_bit_spec {E} data i :
  (i < 8 * length data)%nat → unpack_bit (E:=E) data i = Ok (bit_at data i).
Proof.
  intros Hi. unfold unpack_bit, bit_at.
  destruct (lookup_lt_is_Some_2 data (i / 8)) as [b Hb].
  { apply Nat.Div0.div_lt_upper_bound; lia. }
  rewrite (index_lookup _ _ _ Hb), Hb. simpl. by rewrite land_pow2_testbit by lia.
Qed.

Lemma unpack_bits_spec {E} data n :
  (n ≤ 8 * length data)%nat → unpack_bits (E:=E) data n = Ok (bit_at data <$> seq 0 n).
Proof.
  intros Hn. apply omapM_ok. intros i Hi%elem_of_seq. apply unpack_bit_spec. lia.
Qed.

Lemma set_bit_range b k : is_u8 b → 0 ≤ k < 8 → is_u8 (Z.lor b (Z.shiftl 1 k)).
Proof.
  intros Hb Hk. apply (lor_range _ _ 8); [lia|done|].
  rewrite Z.shiftl_1_l. split; [lia|]. apply Z.pow_lt_mono_r; lia.
Qed.

(** One iteration of the packing loop sets exactly bit [i]. *)
Lemma set_bit_spec packed i b :
  packed !! (i / 8)%nat = Some b →
  ∀ j, bit_at (<[(i / 8)%nat := Z.lor b (Z.shiftl 1 (Z.of_nat (i mod 8)))]> packed) j
       = (bool_decide (j = i) || bit_at packed j).
Proof.
  intros Hb j. unfold bit_at. rewrite Z.shiftl_1_l.
  pose proof (lookup_lt_Some _ _ _ Hb).
  destruct (decide (j / 8 = i / 8)%nat) as [Heq|Hne].
  - rewrite Heq, list_lookup_insert_eq, Hb by done. simpl.
    rewrite Z.lor_spec, Z.pow2_bits_eqb, orb_comm by lia. f_equal.
    destruct (decide (j = i)) as [->|Hj].
    + rewrite bool_decide_true by done. by apply Z.eqb_eq.
    + rewrite bool_decide_false by done. apply Z.eqb_neq. intros Hm. apply Hj.
      pose proof (Nat.div_mod_eq j 8). pose proof (Nat.div_mod_eq i 8). lia.
  - rewrite list_lookup_insert_ne by congruence.
    rewrite bool_decide_false; [done|]. congruence.
Qed.

Lemma pack_bits_from_spec {E} values : ∀ i packed,
  (i + length values ≤ 8 * length packed)%nat →
  (∀ j, (i ≤ j)%nat → bit_at packed j = false) →
  bytes_ok packed →
  ∃ packed', pack_bits_from (E:=E) i values packed = Ok packed'
    ∧ length packed' = length packed ∧ bytes_ok packed'
    ∧ ∀ j, bit_at packed' j = if decide (j < i)%nat then bit_at packed j
                              else default false (values !! (j - i)%nat).
Proof.
  induction values as [|v vs IH]; intros i packed Hlen Hzero Hok.
  - exists packed. repeat split; [done|]. intros j. case_decide; [done|].
    rewrite lookup_nil. simpl. apply Hzero. lia.
  - simpl in Hlen.
    destruct (lookup_lt_is_Some_2 packed (i / 8)) as [b Hb].
    { apply Nat.Div0.div_lt_upper_bound; lia. }
    pose (packed1 := if v then <[(i / 8)%nat := Z.lor b (Z.shiftl 1 (Z.of_nat (i mod 8)))]> packed
                     else packed).
    assert (Hbits : ∀ j, bit_at packed1 j = (v && bool_decide (j = i)) || bit_at packed j).
    { intros j. subst packed1. destruct v; [|done]. by rewrite set_bit_spec. }
    assert (Hl1 : length packed1 = length packed).
    { subst packed1. destruct v; [by rewrite length_insert|done]. }
    destruct (IH (S i) packed1) as (packed' & Hrun & Hl' & Hok' & Hbit').
    + lia.
    + intros j Hj. rewrite Hbits, bool_decide_false, andb_false_r by lia. apply Hzero. lia.
    + subst packed1. destruct v; [|done]. apply Forall_insert; [done|].
      apply set_bit_range; [by eapply bytes_ok_lookup|].
      pose proof (Nat.mod_upper_bound i 8). lia.
    + exists packed'. repeat split.
      * simpl. subst packed1. destruct v; simpl; [|done].
        rewrite (index_lookup _ _ _ Hb). simpl. unfold index_set.
        rewrite decide_True by (by eapply lookup_lt_Some). done.
      * by rewrite Hl'.
      * done.
      * intros j. rewrite Hbit'. destruct (decide (j < i)%nat).
        -- rewrite decide_True by lia. rewrite Hbits, bool_decide_false, andb_false_r by lia. done.
        -- destruct (decide (j = i)) as [->|].
           ++ rewrite decide_True by lia. rewrite Hbits, bool_decide_true by done.
              rewrite Nat.sub_diag, Hzero by lia. simpl. by destruct v.
           ++ rewrite decide_False by lia. replace (j - i)%nat with (S (j - S i))%nat by lia. done.
Qed.

Lemma div_ceil_8_bounds n : 0 ≤ n → n ≤ 8 * div_ceil n 8 < n + 8.
Proof. intros. int_lia. Qed.

Lemma pack_bits_spec {E} values :
  ∃ data, pack_bits (E:=E) values = Ok data
    ∧ length data = Z.to_nat (div_ceil (zlen values) 8) ∧ bytes_ok data
    ∧ ∀ j, bit_at data j = default false (values !! j).
Proof.
  unfold pack_bits. set (n := Z.to_nat _).
  pose proof (div_ceil_8_bounds (zlen values) (zlen_nonneg _)).
  destruct (pack_bits_from_spec (E:=E) values 0 (replicate n 0)) as (d & Hrun & Hl & Hok & Hb).
  - rewrite length_replicate. unfold zlen in *. lia.
  - intros j _. unfold bit_at. destruct (decide (j / 8 < n)%nat).
    + rewrite lookup_replicate_2 by done. simpl. by rewrite Z.bits_0.
    + rewrite (proj1 (lookup_replicate_None _ _ _)) by lia. simpl. by rewrite Z.bits_0.
  - apply Forall_replicate. int_lia.
  - exists d. rewrite Hl, length_replicate. repeat split; try done.
    intros j. rewrite Hb, decide_False by lia. by rewrite Nat.sub_0_r.
Qed.

(** The packing loop has no error path, so its result does not depend on the error type. *)
Lemma pack_bits_any_error {E F} values data :
  pack_bits (E:=E) values = Ok data → pack_bits (E:=F) values = Ok data.
Proof.
  unfold pack_bits. generalize (replicate (Z.to_nat (div_ceil (zlen values) 8)) 0). generalize 0%nat.
  induction values as [|v vs IH]; intros i packed; simpl; [by intros [= ->]|].
  destruct v; simpl; [|apply IH]. unfold index, index_set.
  destruct (packed !! (i / 8)%nat); simpl; [|done]. case_decide; simpl; [apply IH|done].
Qed.

Lemma bit_at_eq_map data values :
  (∀ j, bit_at data j = default false (values !! j)) →
  bit_at data <$> seq 0 (length values) = values.
Proof.
  intros H. apply list_eq. intros i. rewrite list_lookup_fmap.
  destruct (decide (i < length values)%nat).
  - rewrite lookup_seq_lt by done. simpl. rewrite H.
    by destruct (lookup_lt_is_Some_2 values i) as [v ->].
  - rewrite lookup_seq_ge, lookup_ge_None_2 by lia. done.
Qed.

Lemma unpack_pack_bits {E} values data :
  pack_bits (E:=E) values = Ok data →
  unpack_bits (E:=E) data (length values) = Ok values.
Proof.
  intros Hp. destruct (pack_bits_spec (E:=E) values) as (d & Hd & Hl & _ & Hb).
  rewrite Hp in Hd. injection Hd as <-.
  pose proof (div_ceil_8_bounds (zlen values) (zlen_nonneg _)).
  rewrite unpack_bits_spec.
  - by rewrite bit_at_eq_map.
  - rewrite Hl. unfold zlen in *. lia.
Qed.

(* ------------------------------------------------------------------ *)
(** * Facts about word vectors *)

Lemma words_of_bytes_of_words values : words_ok values → words_of_bytes (bytes_of_words values) = values.
Proof.
  induction 1 as [|x l Hx _ IH]; [done|]. simpl.
  by rewrite IH, u16_be_roundtrip.
Qed.

Lemma length_bytes_of_words values : length (bytes_of_words values) = (2 * length values)%nat.
Proof. induction values as [|x l IH]; [done|]. simpl. rewrite IH. lia. Qed.

Lemma bytes_of_words_ok values : bytes_ok (bytes_of_words values).
Proof.
  induction values as [|x l IH]; [constructor|]. apply bytes_ok_app. split; [apply u16_to_be_ok|done].
Qed.

Lemma words_of_bytes_ok data : bytes_ok data → words_ok (words_of_bytes data).
Proof.
  revert data. fix IH 1. intros [|hi [|lo data]] H; simpl; [constructor..|].
  apply bytes_ok_cons in H as [? H]. apply bytes_ok_cons in H as [? H].
  constructor; [by apply u16_from_be_range|by apply IH].
Qed.

Lemma length_words_of_bytes n : ∀ data, length data = (2 * n)%nat → length (words_of_bytes data) = n.
Proof.
  induction n as [|n IH]; intros [|hi [|lo data]] H; simpl in *; try lia.
  by rewrite IH by lia.
Qed.

(* ------------------------------------------------------------------ *)
(** * Well-formed requests and their wire format *)

Definition span_ok (address quantity max : Z) : Prop :=
  is_u16 address ∧ 1 ≤ quantity ≤ max ∧ address + quantity ≤ 65536.

(** What the Modbus application protocol allows in a request. *)
Definition request_wf (r : SemanticRequest) : Prop :=
  match r with
  | ReqReadCoils a q | ReqReadDiscreteInputs a q => span_ok a q 2000
  | ReqReadHoldingRegisters a q | ReqReadInputRegisters a q => span_ok a q 125
  | ReqWriteSingleCoil a _ => is_u16 a
  | ReqWriteSingleRegister a v => is_u16 a ∧ is_u16 v
  | ReqWriteMultipleCoils a vs => span_ok a (zlen vs) 1968
  | ReqWriteMultipleRegisters a vs => span_ok a (zlen vs) 123 ∧ words_ok vs
  | ReqMaskWriteRegister a am om => is_u16 a ∧ is_u16 am ∧ is_u16 om
  | ReqReadWriteMultipleRegisters ra rq wa vs =>
      span_ok ra rq 125 ∧ span_ok wa (zlen vs) 121 ∧ words_ok vs
  | ReqCustom _ _ => True
  end.

(** The request PDU layouts of the Modbus application protocol specification, as
    documented on the handlers ("Request PDU:"). *)
Definition request_wire (r : SemanticRequest) : list Z :=
  [SemanticRequest_function_code r] ++
  match r with
  | ReqReadCoils a q | ReqReadDiscreteInputs a q
  | ReqReadHoldingRegisters a q | ReqReadInputRegisters a q => u16_to_be a ++ u16_to_be q
  | ReqWriteSingleCoil a v => u16_to_be a ++ (if v then [0xFF; 0] else [0; 0])
  | ReqWriteSingleRegister a v => u16_to_be a ++ u16_to_be v
  | ReqWriteMultipleCoils a vs =>
      u16_to_be a ++ u16_to_be (zlen vs) ++ [div_ceil (zlen vs) 8]
        ++ match pack_bits (E:=Empty_set) vs with Ok d => d | _ => [] end
  | ReqWriteMultipleRegisters a vs =>
      u16_to_be a ++ u16_to_be (zlen vs) ++ [2 * zlen vs] ++ bytes_of_words vs
  | ReqMaskWriteRegister a am om => u16_to_be a ++ u16_to_be am ++ u16_to_be om
  | ReqReadWriteMultipleRegisters ra rq wa vs =>
      u16_to_be ra ++ u16_to_be rq ++ u16_to_be wa ++ u16_to_be (zlen vs)
        ++ [2 * zlen vs] ++ bytes_of_words vs
  | ReqCustom _ payload => payload
  end.

Definition is_custom (r : SemanticRequest) : bool :=
  match r with ReqCustom _ _ => true | _ => false end.

(* ------------------------------------------------------------------ *)
(** * The parser is sound and never panics *)

(** The exceptions a malformed request is answered with. *)
Definition parse_error (e : ExceptionCode) : Prop :=
  e = IllegalFunction ∨ e = IllegalDataAddress ∨ e = IllegalDataValue.

Lemma ensure_len_sat pdu n : osat (fun _ => n ≤ zlen pdu) parse_error (ensure_len pdu n).
Proof. unfold ensure_len, parse_error. case_if; simpl; bool_to_prop; auto; lia. Qed.

Lemma ensure_quantity_sat q m :
  is_u16 q → osat (fun _ => 1 ≤ q ≤ m) parse_error (ensure_quantity q m).
Proof. intros. unfold ensure_quantity, parse_error. case_if; simpl; bool_to_prop; auto; int_lia. Qed.

Lemma ensure_span_sat a q :
  1 ≤ q → osat (fun _ => a + q ≤ 65536) parse_error (ensure_span a q).
Proof.
  intros. unfold ensure_span, parse_error.
  case_if; simpl; bool_to_prop; [lia|]. case_if; simpl; bool_to_prop; auto; lia.
Qed.

Lemma be_at_sat {E} (Q : E → Prop) pdu i :
  bytes_ok pdu → Z.of_nat i + 2 ≤ zlen pdu → osat is_u16 Q (be_at pdu i).
Proof.
  intros Hok Hlen. unfold be_at, zlen in *.
  eapply osat_bind; [apply index_sat; [lia|done]|]. intros hi Hhi. simpl in Hhi.
  eapply osat_bind; [apply index_sat; [lia|done]|]. intros lo Hlo. simpl in Hlo.
  by apply u16_from_be_range.
Qed.

Lemma index_byte_sat {E} (Q : E → Prop) pdu i :
  bytes_ok pdu → Z.of_nat i + 1 ≤ zlen pdu → osat is_u8 Q (index pdu i).
Proof. intros. apply index_sat; [unfold zlen in *; lia|done]. Qed.

Lemma slice_sat {E} (Q : E → Prop) pdu a n :
  bytes_ok pdu → 0 ≤ a → 0 ≤ n → a + n ≤ zlen pdu →
  osat (fun d => length d = Z.to_nat n ∧ bytes_ok d) Q (slice pdu a (a + n)).
Proof.
  intros Hok ???. rewrite slice_ok by lia. simpl. split.
  - rewrite length_take, length_drop. unfold zlen in *. lia.
  - by apply Forall_take, Forall_drop.
Qed.

#[export] Hint Resolve ensure_len_sat ensure_quantity_sat ensure_span_sat be_at_sat
  index_byte_sat slice_sat : osat.

Definition parsed (fc : Z) (r : SemanticRequest) : Prop :=
  request_wf r ∧ SemanticRequest_function_code r = fc
  ∧ (is_ok (FunctionCode_try_from fc) = true → is_custom r = false).

(** One step of a parser: a check or a read whose postcondition is known. *)
Ltac parse_step :=
  eapply osat_bind;
  [ first [ apply ensure_len_sat
          | apply be_at_sat; [done|lia]
          | apply index_byte_sat; [done|lia]
          | apply ensure_quantity_sat; done
          | apply ensure_span_sat; lia ] |]; cbv beta.

Section parser_sat.
Context (pdu : list Z) (Hok : bytes_ok pdu).

Lemma parse_read_bits_sat f :
  f = FcReadCoils ∨ f = FcReadDiscreteInputs →
  osat (parsed (FunctionCode_as_u8 f)) parse_error (parse_read_bits f pdu).
Proof.
  intros Hf. unfold parse_read_bits.
  parse_step; intros _ ?. parse_step; intros a ?. parse_step; intros q ?.
  parse_step; intros _ ?. parse_step; intros _ ?.
  by destruct Hf as [->| ->].
Qed.

Lemma parse_read_registers_sat f :
  f = FcReadHoldingRegisters ∨ f = FcReadInputRegisters →
  osat (parsed (FunctionCode_as_u8 f)) parse_error (parse_read_registers f pdu).
Proof.
  intros Hf. unfold parse_read_registers.
  parse_step; intros _ ?. parse_step; intros a ?. parse_step; intros q ?.
  parse_step; intros _ ?. parse_step; intros _ ?.
  by destruct Hf as [->| ->].
Qed.

Lemma parse_write_single_coil_sat :
  osat (parsed 0x05) parse_error (parse_write_single_coil pdu).
Proof.
  unfold parse_write_single_coil.
  parse_step; intros _ ?. parse_step; intros a ?. parse_step; intros q ?.
  apply (osat_bind (fun _ => True)).
  - repeat case_match; simpl; unfold parse_error; auto.
  - done.
Qed.

Lemma parse_write_single_register_sat :
  osat (parsed 0x06) parse_error (parse_write_single_register pdu).
Proof.
  unfold parse_write_single_register.
  parse_step; intros _ ?. parse_step; intros a ?. by parse_step; intros q ?.
Qed.

Lemma parse_mask_write_register_sat :
  osat (parsed 0x16) parse_error (parse_mask_write_register pdu).
Proof.
  unfold parse_mask_write_register.
  parse_step; intros _ ?. parse_step; intros a ?. parse_step; intros am ?.
  by parse_step; intros om ?.
Qed.

Lemma parse_write_multiple_coils_sat :
  osat (parsed 0x0F) parse_error (parse_write_multiple_coils pdu).
Proof.
  unfold parse_write_multiple_coils.
  parse_step; intros _ ?. parse_step; intros a ?. parse_step; intros q ?.
  parse_step; intros _ ?. parse_step; intros _ ?. parse_step; intros bc Hbc.
  case_if; [by right; right|]. bool_to_prop. subst bc.
  pose proof (div_ceil_8_bounds q).
  eapply osat_bind; [apply slice_sat; [done|lia..]|]. intros d [Hd _].
  rewrite unpack_bits_spec by lia. simpl. split; [|done]. simpl.
  unfold span_ok, zlen. rewrite length_fmap, length_seq, Z2Nat.id by lia. done.
Qed.

Lemma parse_write_multiple_registers_sat :
  osat (parsed 0x10) parse_error (parse_write_multiple_registers pdu).
Proof.
  unfold parse_write_multiple_registers.
  parse_step; intros _ ?. parse_step; intros a ?. parse_step; intros q ?.
  parse_step; intros _ ?. parse_step; intros _ ?. parse_step; intros bc Hbc.
  case_if; [by right; right|]. bool_to_prop. subst bc.
  eapply osat_bind; [apply slice_sat; [done|lia..]|]. intros d [Hd Hdok]. simpl.
  split; [|done]. split; [|by apply words_of_bytes_ok].
  unfold span_ok, zlen. rewrite (length_words_of_bytes (Z.to_nat q)) by lia.
  by rewrite Z2Nat.id by lia.
Qed.

Lemma parse_read_write_multiple_registers_sat :
  osat (parsed 0x17) parse_error (parse_read_write_multiple_registers pdu).
Proof.
  unfold parse_read_write_multiple_registers.
  parse_step; intros _ ?. parse_step; intros ra ?. parse_step; intros rq ?.
  parse_step; intros _ ?. parse_step; intros _ ?.
  parse_step; intros wa ?. parse_step; intros wq ?.
  parse_step; intros _ ?. parse_step; intros _ ?. parse_step; intros bc Hbc.
  case_if; [by right; right|]. bool_to_prop. subst bc.
  eapply osat_bind; [apply slice_sat; [done|lia..]|]. intros d [Hd Hdok]. simpl.
  split; [|done]. split; [done|]. split; [|by apply words_of_bytes_ok].
  unfold span_ok, zlen. rewrite (length_words_of_bytes (Z.to_nat wq)) by lia.
  by rewrite Z2Nat.id by lia.
Qed.

(** A request accepted in broadcast mode is a write. *)
Definition accepted (is_broadcast : bool) (r : SemanticRequest) : Prop :=
  request_wf r ∧ head pdu = Some (SemanticRequest_function_code r)
  ∧ (is_broadcast = true → allows_broadcast r = true)
  ∧ (is_ok (FunctionCode_try_from (SemanticRequest_function_code r)) = true → is_custom r = false).

Lemma parse_semantic_request_sat b :
  osat (accepted b) parse_error (parse_semantic_request pdu b).
Proof.
  unfold parse_semantic_request.
  apply (osat_bind (fun fc => head pdu = Some fc)).
  { destruct (head pdu); simpl; [done|]. by right; right. }
  intros fc Hfc. apply (osat_bind (parsed fc)).
  - unfold FunctionCode_try_from.
    repeat case_match; simplify_eq; try done;
      eauto using parse_write_single_coil_sat, parse_write_single_register_sat,
        parse_mask_write_register_sat, parse_write_multiple_coils_sat,
        parse_write_multiple_registers_sat, parse_read_write_multiple_registers_sat;
      (apply parse_read_bits_sat || apply parse_read_registers_sat); auto.
  - intros r (Hwf & Hr & Hc). case_if; simpl.
    + by left.
    + split; [done|]. split; [by rewrite Hr|]. split; [|by rewrite Hr].
      intros ->. by destruct (allows_broadcast r).
Qed.

End parser_sat.

(* ------------------------------------------------------------------ *)
(** * The parser inverts the wire format *)

Lemma ensure_len_ok pdu n : n ≤ zlen pdu → ensure_len pdu n = Ok tt.
Proof. intros. unfold ensure_len. by rewrite (proj2 (Z.ltb_ge _ _)) by lia. Qed.

Lemma ensure_quantity_ok q m : 1 ≤ q ≤ m → ensure_quantity q m = Ok tt.
Proof.
  intros. unfold ensure_quantity.
  by rewrite (proj2 (Z.eqb_neq _ _)), (proj2 (Z.ltb_ge _ _)) by lia.
Qed.

Lemma ensure_span_ok a q : 1 ≤ q → a + q ≤ 65536 → ensure_span a q = Ok tt.
Proof.
  intros. unfold ensure_span.
  by rewrite (proj2 (Z.eqb_neq _ _)), (proj2 (Z.ltb_ge _ _)) by lia.
Qed.

Lemma slice_tail {E A} (pre data : list A) a b :
  a = zlen pre → b = a + zlen data → slice (E:=E) (pre ++ data) a b = Ok data.
Proof.
  intros -> ->. pose proof (zlen_nonneg pre). pose proof (zlen_nonneg data).
  rewrite slice_ok by (rewrite ?zlen_app; lia).
  replace (Z.to_nat (zlen pre + zlen data - zlen pre)) with (length data) by (unfold zlen; lia).
  unfold zlen. rewrite Nat2Z.id, drop_app_length.
  by rewrite take_ge.
Qed.

Lemma parse_wire_coils a vs :
  span_ok a (zlen vs) 1968 →
  parse_write_multiple_coils (request_wire (ReqWriteMultipleCoils a vs))
  = Ok (ReqWriteMultipleCoils a vs).
Proof.
  intros (Ha & Hq & Hs). unfold request_wire.
  destruct (pack_bits_spec (E:=Empty_set) vs) as (d & Hd & Hl & Hok & Hb). rewrite Hd. simpl.
  pose proof (div_ceil_8_bounds (zlen vs) (zlen_nonneg _)).
  assert (zlen d = div_ceil (zlen vs) 8) as Hzd by (unfold zlen at 1; lia).
  unfold parse_write_multiple_coils, be_at, index.
  rewrite ensure_len_ok by (rewrite !zlen_cons, Hzd; lia). simpl.
  rewrite !u16_be_roundtrip by (done || int_lia).
  rewrite ensure_quantity_ok, ensure_span_ok by lia. simpl.
  rewrite Z.eqb_refl, (proj2 (Z.ltb_ge _ _)) by (rewrite !zlen_cons, Hzd; lia). simpl.
  rewrite (slice_tail (0x0F :: u16_to_be a ++ u16_to_be (zlen vs) ++ [div_ceil (zlen vs) 8]) d)
    by (done || rewrite Hzd; lia). simpl.
  rewrite unpack_bits_spec by (unfold zlen in *; lia). simpl.
  replace (Z.to_nat (zlen vs)) with (length vs) by (unfold zlen; lia).
  by rewrite bit_at_eq_map.
Qed.

Lemma parse_wire_registers a vs :
  span_ok a (zlen vs) 123 → words_ok vs →
  parse_write_multiple_registers (request_wire (ReqWriteMultipleRegisters a vs))
  = Ok (ReqWriteMultipleRegisters a vs).
Proof.
  intros (Ha & Hq & Hs) Hvs. unfold request_wire. simpl.
  assert (zlen (bytes_of_words vs) = 2 * zlen vs) as Hzd
    by (unfold zlen; rewrite length_bytes_of_words; lia).
  unfold parse_write_multiple_registers, be_at, index.
  rewrite ensure_len_ok by (rewrite !zlen_cons, Hzd; lia). simpl.
  rewrite !u16_be_roundtrip by (done || int_lia).
  rewrite ensure_quantity_ok, ensure_span_ok by lia. simpl.
  rewrite (Z.mul_comm (zlen vs)), Z.eqb_refl,
    (proj2 (Z.ltb_ge _ _)) by (rewrite !zlen_cons, Hzd; lia). simpl.
  rewrite (slice_tail (0x10 :: u16_to_be a ++ u16_to_be (zlen vs) ++ [2 * zlen vs])
             (bytes_of_words vs)) by (done || rewrite Hzd; lia). simpl.
  by rewrite words_of_bytes_of_words.
Qed.

Lemma parse_wire_read_write ra rq wa vs :
  span_ok ra rq 125 → span_ok wa (zlen vs) 121 → words_ok vs →
  parse_read_write_multiple_registers
    (request_wire (ReqReadWriteMultipleRegisters ra rq wa vs))
  = Ok (ReqReadWriteMultipleRegisters ra rq wa vs).
Proof.
  intros (Hra & Hrq & Hrs) (Ha & Hq & Hs) Hvs. unfold request_wire. simpl.
  assert (zlen (bytes_of_words vs) = 2 * zlen vs) as Hzd
    by (unfold zlen; rewrite length_bytes_of_words; lia).
  unfold parse_read_write_multiple_registers, be_at, index.
  rewrite ensure_len_ok by (rewrite !zlen_cons, Hzd; lia). simpl.
  rewrite !u16_be_roundtrip by (done || int_lia).
  rewrite !ensure_quantity_ok, !ensure_span_ok by lia. simpl.
  rewrite (Z.mul_comm (zlen vs)), Z.eqb_refl,
    (proj2 (Z.ltb_ge _ _)) by (rewrite !zlen_cons, Hzd; lia). simpl.
  rewrite (slice_tail (0x17 :: u16_to_be ra ++ u16_to_be rq ++ u16_to_be wa
             ++ u16_to_be (zlen vs) ++ [2 * zlen vs]) (bytes_of_words vs)) by (done || rewrite Hzd; lia).
  simpl. by rewrite words_of_bytes_of_words.
Qed.

Lemma parse_wire_read a q m :
  span_ok a q m → m ≤ 65535 →
  u16_from_be ((a / 256) mod 256) (a mod 256) = a ∧
  u16_from_be ((q / 256) mod 256) (q mod 256) = q ∧
  ensure_quantity q m = Ok tt ∧ ensure_span a q = Ok tt.
Proof.
  intros (Ha & Hq & Hs) Hm. repeat split.
  - by apply u16_be_roundtrip.
  - apply u16_be_roundtrip. int_lia.
  - by apply ensure_quantity_ok.
  - apply ensure_span_ok; lia.
Qed.

Lemma parse_wire_lemma (r : SemanticRequest) :
  request_wf r → is_custom r = false →
  parse_semantic_request (request_wire r) false = Ok r.
Proof.
  intros Hwf Hc. unfold parse_semantic_request.
  destruct r as [a q|a q|a q|a q|a v|a v|a vs|a vs|a am om|ra rq wa vs|]; try done; simpl in Hwf.
  1-4: (destruct (parse_wire_read a q _ Hwf) as (Ea & Eq & Hq & Hs); [lia|]);
    simpl; unfold parse_read_bits, parse_read_registers, be_at, index; simpl;
    rewrite Ea, Eq, Hq; simpl; by rewrite Hs.
  - simpl. destruct v; unfold parse_write_single_coil, be_at, index; simpl;
      by rewrite u16_be_roundtrip.
  - destruct Hwf. simpl. unfold parse_write_single_register, be_at, index; simpl.
    by rewrite !u16_be_roundtrip.
  - by rewrite parse_wire_coils.
  - destruct Hwf. by rewrite parse_wire_registers.
  - destruct Hwf as (?&?&?). simpl. unfold parse_mask_write_register, be_at, index; simpl.
    by rewrite !u16_be_roundtrip.
  - destruct Hwf as (?&?&?). by rewrite parse_wire_read_write.
Qed.

(* ------------------------------------------------------------------ *)
(** * Properties *)

(** C19: the request parser is total and sound.  On any bytes it returns, without panicking, a
    request that meets every limit of the Modbus application protocol (quantities, spans
    inside the 16-bit address space, value ranges) and carries the PDU's function code, or
    one of the exceptions 1, 2 and 3; in broadcast mode it only accepts writes. *)
Theorem parser_sound (pdu : list Z) (is_broadcast : bool) :
  bytes_ok pdu →
  match parse_semantic_request pdu is_broadcast with
  | Ok r => request_wf r ∧ head pdu = Some (SemanticRequest_function_code r) ∧
            (is_broadcast = true → allows_broadcast r = true)
  | Err e => e = IllegalFunction ∨ e = IllegalDataAddress ∨ e = IllegalDataValue
  | Panic => False
  end.
Proof.
  intros Hok. pose proof (parse_semantic_request_sat pdu Hok is_broadcast) as Hsat.
  destruct (parse_semantic_request pdu is_broadcast) as [r|e|]; [|done|done].
  destruct Hsat as (?&?&?&_). done.
Qed.

Lemma parser_sound_witness :
  match parse_semantic_request [0x0F; 0; 0; 0; 10; 2; 0xAD; 0x03] true with
  | Ok r => r = ReqWriteMultipleCoils 0
                  [true; false; true; true; false; true; false; true; true; true]
            ∧ request_wf r
  | _ => False
  end.
Proof.
  pose proof (parser_sound [0x0F; 0; 0; 0; 10; 2; 0xAD; 0x03] true ltac:(closed)) as H.
  split; [reflexivity|]. exact (proj1 H).
Defined.

(** the parser inverts the documented wire format: every well-formed request, encoded as
    the handlers document it, parses back to itself. *)
Theorem parse_request_wire (r : SemanticRequest) :
  request_wf r → is_custom r = false →
  parse_semantic_request (request_wire r) false = Ok r.
Proof. apply parse_wire_lemma. Qed.

Lemma parse_request_wire_witness :
  parse_semantic_request (request_wire (ReqReadWriteMultipleRegisters 1 2 3 [4; 65535])) false
  = Ok (ReqReadWriteMultipleRegisters 1 2 3 [4; 65535]).
Proof. apply (parse_request_wire (ReqReadWriteMultipleRegisters 1 2 3 [4; 65535])); closed. Defined.
