(* ===== verification/ModbusSpace.v ===== *)
(** The [AddressSpace] trait of [context.rs]: the interface between the register stores
    and the request handlers.

    [AddressSpace] lists the trait's methods; [AddressSpaceSpec] states what they promise,
    as a refinement of an abstract register map [model] on which reads and writes are
    defined pointwise.  The request path is proved against [AddressSpaceSpec] only; the
    dense and the sparse store each discharge it. *)

From S2P Require Import Prelude ModbusPdu.

(* ------------------------------------------------------------------ *)
(** * The trait *)

Class AddressSpace (S : Type) : Type := {
  count : S → RegisterType → Z;
  read_coils : Z → Z → stM S ModbusError (list bool);
  write_coil : Z → bool → stM S ModbusError unit;
  write_coils : Z → list bool → stM S ModbusError unit;
  read_discrete_inputs : Z → Z → stM S ModbusError (list bool);
  set_discrete_input : Z → bool → stM S ModbusError unit;
  read_holding_registers : Z → Z → stM S ModbusError (list Z);
  write_holding_register : Z → Z → stM S ModbusError unit;
  write_holding_registers : Z → list Z → stM S ModbusError unit;
  read_input_registers : Z → Z → stM S ModbusError (list Z);
  set_input_register : Z → Z → stM S ModbusError unit;
  set_input_registers : Z → list Z → stM S ModbusError unit;
  mask_write_holding_register : Z → Z → Z → stM S ModbusError unit;
}.

(** [(current & and_mask) | (or_mask & !and_mask)]. *)
Definition mask_formula (current and_mask or_mask : Z) : Z :=
  Z.lor (Z.land current and_mask) (Z.land or_mask (u16_not and_mask)).

(** The trait's provided method: read one register, combine, write it back. *)
Definition default_mask_write_holding_register {S}
    (read : Z → Z → stM S ModbusError (list Z))
    (write : Z → Z → stM S ModbusError unit)
    (address and_mask or_mask : Z) : stM S ModbusError unit :=
  do? registers := read address 1 in
  do? current := st_lift (index registers 0) in
  write address (mask_formula current and_mask or_mask).

(* ------------------------------------------------------------------ *)
(** * The abstract register map *)

(** Which spans a store accepts, and the value of every register. *)
Record model : Type := {
  m_valid : RegisterType → Z → Z → bool;
  m_bits : RegisterType → Z → bool;
  m_words : RegisterType → Z → Z;
}.

(** Two maps are equivalent when they agree on every register and every span. *)
#[global] Instance model_equiv : Equiv model := fun m m' =>
  (∀ t a q, m_valid m t a q = m_valid m' t a q) ∧
  (∀ t a, m_bits m t a = m_bits m' t a) ∧
  (∀ t a, m_words m t a = m_words m' t a).

#[global] Instance model_equivalence : Equivalence (≡@{model}).
Proof.
  split.
  - done.
  - intros m m' (?&?&?). split; [|split]; intros; symmetry; auto.
  - intros m1 m2 m3 (?&?&?) (?&?&?). split; [|split]; intros; etrans; eauto.
Qed.

(** [f] overwritten by [vs] from address [a] on. *)
Definition overwrite {A} (f : Z → A) (a : Z) (vs : list A) (x : Z) : A :=
  if (a <=? x) && (x <? a + zlen vs) then default (f x) (vs !! Z.to_nat (x - a)) else f x.

Definition m_write_bits (m : model) (t : RegisterType) (a : Z) (vs : list bool) : model := {|
  m_valid := m_valid m;
  m_bits := fun t' => if decide (t' = t) then overwrite (m_bits m t) a vs else m_bits m t';
  m_words := m_words m;
|}.

Definition m_write_words (m : model) (t : RegisterType) (a : Z) (vs : list Z) : model := {|
  m_valid := m_valid m;
  m_bits := m_bits m;
  m_words := fun t' => if decide (t' = t) then overwrite (m_words m t) a vs else m_words m t';
|}.

Definition m_read_bits (m : model) (t : RegisterType) (a q : Z) : list bool :=
  m_bits m t <$> zrange a (Z.to_nat q).
Definition m_read_words (m : model) (t : RegisterType) (a q : Z) : list Z :=
  m_words m t <$> zrange a (Z.to_nat q).

#[global] Instance m_valid_proper : Proper ((≡) ==> eq ==> eq ==> eq ==> eq) m_valid.
Proof. intros m m' (H&_&_) ? t -> ? a -> ? q ->. apply H. Qed.
#[global] Instance m_bits_proper : Proper ((≡) ==> eq ==> eq ==> eq) m_bits.
Proof. intros m m' (_&H&_) ? t -> ? a ->. apply H. Qed.
#[global] Instance m_words_proper : Proper ((≡) ==> eq ==> eq ==> eq) m_words.
Proof. intros m m' (_&_&H) ? t -> ? a ->. apply H. Qed.
#[global] Instance m_read_bits_proper : Proper ((≡) ==> eq ==> eq ==> eq ==> eq) m_read_bits.
Proof. intros m m' (_&H&_) ? t -> ? a -> ? q ->. apply list_fmap_ext. intros. apply H. Qed.
#[global] Instance m_read_words_proper : Proper ((≡) ==> eq ==> eq ==> eq ==> eq) m_read_words.
Proof. intros m m' (_&_&H) ? t -> ? a -> ? q ->. apply list_fmap_ext. intros. apply H. Qed.

Lemma overwrite_ext {A} (f g : Z → A) a vs x : (∀ y, f y = g y) → overwrite f a vs x = overwrite g a vs x.
Proof. intros H. unfold overwrite. by rewrite H. Qed.

#[global] Instance m_write_bits_proper : Proper ((≡) ==> eq ==> eq ==> eq ==> (≡)) m_write_bits.
Proof.
  intros m m' (H1&H2&H3) ? t -> ? a -> ? vs ->. split; [|split]; simpl; auto.
  intros t' x. case_decide; [by apply overwrite_ext|auto].
Qed.
#[global] Instance m_write_words_proper : Proper ((≡) ==> eq ==> eq ==> eq ==> (≡)) m_write_words.
Proof.
  intros m m' (H1&H2&H3) ? t -> ? a -> ? vs ->. split; [|split]; simpl; auto.
  intros t' x. case_decide; [by apply overwrite_ext|auto].
Qed.

(** Reading back what was written, and reading elsewhere. *)
Lemma overwrite_inside {A} (f : Z → A) a vs :
  overwrite f a vs <$> zrange a (length vs) = vs.
Proof.
  apply list_eq. intros i. rewrite list_lookup_fmap, lookup_zrange. case_decide as Hi.
  - simpl. unfold overwrite, zlen.
    rewrite (proj2 (Z.leb_le _ _)), (proj2 (Z.ltb_lt _ _)) by lia. simpl.
    replace (a + Z.of_nat i - a) with (Z.of_nat i) by lia. rewrite Nat2Z.id.
    by destruct (lookup_lt_is_Some_2 vs i Hi) as [v ->].
  - by rewrite lookup_ge_None_2 by lia.
Qed.

Lemma overwrite_outside {A} (f : Z → A) a vs x :
  x < a ∨ a + zlen vs ≤ x → overwrite f a vs x = f x.
Proof.
  intros H. unfold overwrite. destruct ((a <=? x) && (x <? a + zlen vs)) eqn:E; [|done].
  bool_to_prop. lia.
Qed.

Lemma m_read_write_words m t a vs : m_read_words (m_write_words m t a vs) t a (zlen vs) = vs.
Proof.
  unfold m_read_words. simpl. rewrite decide_True by done.
  unfold zlen. rewrite Nat2Z.id. apply overwrite_inside.
Qed.

Lemma m_read_write_bits m t a vs : m_read_bits (m_write_bits m t a vs) t a (zlen vs) = vs.
Proof.
  unfold m_read_bits. simpl. rewrite decide_True by done.
  unfold zlen. rewrite Nat2Z.id. apply overwrite_inside.
Qed.

(* ------------------------------------------------------------------ *)
(** * What a store promises *)

Definition address_error (e : ModbusError) : Prop :=
  match e with InvalidAddress _ _ | InvalidQuantity _ _ => True | _ => False end.

(** The store answers [ok] when the span is valid, an address error otherwise. *)
Definition answers {A} (valid : bool) (ok : A) (r : outcome ModbusError A) : Prop :=
  if valid then r = Ok ok else ∃ e, r = Err e ∧ address_error e.

(** Largest quantity a Modbus request may carry. *)
Definition max_quantity : Z := 2000.

(** The spans a store is asked for.  A store whose bounds check adds address and quantity in 16
    bits ([full = false]) gives no promise for a span that begins inside the store, ends
    behind it and reaches the end of the address range. *)
Definition reach (full : bool) (m : model) (t : RegisterType) (a q : Z) : Prop :=
  m_valid m t a q = true ∨ m_valid m t a 1 = false ∨ full = true ∨ a + q < 65536.

#[global] Instance reach_proper full : Proper ((≡) ==> eq ==> eq ==> eq ==> iff) (reach full).
Proof. intros m m' Hm ? t -> ? a -> ? q ->. unfold reach. by rewrite !Hm. Qed.

Section spec.
Context {S : Type} (full : bool) (wf : S → Prop) (view : S → model).

(** A read of [q] registers from [a] returns the model's values and leaves the model as it is. *)
Definition read_law {A} (op : Z → Z → stM S ModbusError A) (t : RegisterType)
    (value : model → Z → Z → A) : Prop :=
  ∀ s a q, wf s → is_u16 a → 0 ≤ q ≤ max_quantity → reach full (view s) t a q →
    let '(r, s') := op a q s in
    answers (m_valid (view s) t a q) (value (view s) a q) r ∧ wf s' ∧ view s' ≡ view s.

(** A write of [n] registers from [a] performs the model's update, or none at all. *)
Definition write_law (op : stM S ModbusError unit) (t : RegisterType) (a n : Z)
    (update : model → model) : Prop :=
  ∀ s, wf s → is_u16 a → 0 ≤ n ≤ max_quantity → reach full (view s) t a n →
    let '(r, s') := op s in
    answers (m_valid (view s) t a n) tt r ∧ wf s' ∧
    view s' ≡ (if m_valid (view s) t a n then update (view s) else view s).
End spec.

Class AddressSpaceSpec (S : Type) `{AddressSpace S} : Type := {
  space_wf : S → Prop;
  full_range : bool;
  view : S → model;
  words_range : ∀ s t a, space_wf s → is_u16 (m_words (view s) t a);
  read_coils_spec : read_law full_range space_wf view read_coils Coil (fun m => m_read_bits m Coil);
  read_discrete_inputs_spec :
    read_law full_range space_wf view read_discrete_inputs DiscreteInput
      (fun m => m_read_bits m DiscreteInput);
  read_holding_registers_spec :
    read_law full_range space_wf view read_holding_registers HoldingRegister
      (fun m => m_read_words m HoldingRegister);
  read_input_registers_spec :
    read_law full_range space_wf view read_input_registers InputRegister
      (fun m => m_read_words m InputRegister);
  write_coil_spec : ∀ a v,
    write_law full_range space_wf view (write_coil a v) Coil a 1 (fun m => m_write_bits m Coil a [v]);
  write_coils_spec : ∀ a vs,
    write_law full_range space_wf view (write_coils a vs) Coil a (zlen vs)
      (fun m => m_write_bits m Coil a vs);
  write_holding_register_spec : ∀ a v, is_u16 v →
    write_law full_range space_wf view (write_holding_register a v) HoldingRegister a 1
      (fun m => m_write_words m HoldingRegister a [v]);
  write_holding_registers_spec : ∀ a vs, words_ok vs →
    write_law full_range space_wf view (write_holding_registers a vs) HoldingRegister a (zlen vs)
      (fun m => m_write_words m HoldingRegister a vs);
  mask_write_holding_register_spec : ∀ a am om, is_u16 am → is_u16 om →
    write_law full_range space_wf view (mask_write_holding_register a am om) HoldingRegister a 1
      (fun m => m_write_words m HoldingRegister a
                  [mask_formula (m_words m HoldingRegister a) am om]);
}.

(* ------------------------------------------------------------------ *)
(** * Mask write *)

Lemma mask_formula_range c am om : is_u16 c → is_u16 om → is_u16 (mask_formula c am om).
Proof.
  intros Hc Ho. apply (lor_range _ _ 16); [lia| |]; by apply land_range_l.
Qed.

Lemma mask_formula_testbit c am om i :
  0 ≤ i < 16 →
  Z.testbit (mask_formula c am om) i = if Z.testbit am i then Z.testbit c i else Z.testbit om i.
Proof.
  intros Hi. unfold mask_formula. rewrite Z.lor_spec, !Z.land_spec, u16_not_spec by done.
  by destruct (Z.testbit c i), (Z.testbit am i), (Z.testbit om i).
Qed.

(** The provided method meets the law of [mask_write_holding_register] on every store whose
    one-register read and write meet theirs. *)
Lemma default_mask_write_law {S} (full : bool) (wf : S → Prop) (vw : S → model) read write a am om :
  (∀ s t x, wf s → is_u16 (m_words (vw s) t x)) →
  read_law full wf vw read HoldingRegister (fun m => m_read_words m HoldingRegister) →
  (∀ x v, is_u16 v → write_law full wf vw (write x v) HoldingRegister x 1
            (fun m => m_write_words m HoldingRegister x [v])) →
  is_u16 om →
  write_law full wf vw (default_mask_write_holding_register read write a am om) HoldingRegister a 1
    (fun m => m_write_words m HoldingRegister a [mask_formula (m_words m HoldingRegister a) am om]).
Proof.
  intros Hrange Hread Hwrite Hom s Hwf Ha Hn Hreach.
  unfold default_mask_write_holding_register, st_bind, st_lift.
  specialize (Hread s a 1 Hwf Ha Hn Hreach). destruct (read a 1 s) as [r s1].
  destruct Hread as (Hr & Hwf1 & Hv1).
  destruct (m_valid (vw s) HoldingRegister a 1) eqn:Hvalid; simpl in Hr.
  - subst r. unfold m_read_words. change (Z.to_nat 1) with 1%nat.
    rewrite zrange_S. simpl. unfold index. simpl.
    pose proof (Hwrite a (mask_formula (m_words (vw s) HoldingRegister a) am om)) as Hw.
    specialize (Hw (mask_formula_range _ _ _ (Hrange _ _ _ Hwf) Hom) s1 Hwf1 Ha Hn ltac:(by rewrite Hv1)).
    destruct (write a _ s1) as [r2 s2]. destruct Hw as (Hr2 & Hwf2 & Hv2).
    assert (m_valid (vw s1) HoldingRegister a 1 = true) as Hvalid1 by by rewrite Hv1.
    rewrite Hvalid1 in Hr2, Hv2. simpl in *. split; [done|]. split; [done|].
    by rewrite Hv2, Hv1.
  - destruct Hr as (e & -> & He). split; [|done]. by exists e.
Qed.

(* ------------------------------------------------------------------ *)
(** * Consequences of the interface *)

Section consequences.
Context {S : Type} `{AddressSpaceSpec S}.

(** Registers written through any store read back as written. *)
Lemma write_read_holding s a vs :
  space_wf s → is_u16 a → zlen vs ≤ max_quantity → words_ok vs →
  m_valid (view s) HoldingRegister a (zlen vs) = true →
  ∃ s1, write_holding_registers a vs s = (Ok tt, s1) ∧ space_wf s1 ∧
    view s1 ≡ m_write_words (view s) HoldingRegister a vs ∧
    ∃ s2, read_holding_registers a (zlen vs) s1 = (Ok vs, s2) ∧ space_wf s2 ∧ view s2 ≡ view s1.
Proof.
  intros Hwf Ha Hq Hvs Hvalid. pose proof (zlen_nonneg vs).
  pose proof (write_holding_registers_spec a vs Hvs s Hwf Ha ltac:(lia) ltac:(by left)) as Hw.
  rewrite Hvalid in Hw. destruct (write_holding_registers a vs s) as [r s1].
  destruct Hw as (Hr & Hwf1 & Hv1). simpl in Hr. subst r. exists s1. split_and!; [done..|].
  pose proof (read_holding_registers_spec s1 a (zlen vs) Hwf1 Ha ltac:(lia) ltac:(left; by rewrite Hv1)) as Hrd.
  destruct (read_holding_registers a (zlen vs) s1) as [r s2].
  destruct Hrd as (Hr & Hwf2 & Hv2). exists s2. split_and!; [|done..].
  rewrite Hv1 in Hr. simpl m_valid in Hr. rewrite Hvalid in Hr. simpl in Hr. subst r.
  by rewrite m_read_write_words.
Qed.

Lemma write_read_coils s a vs :
  space_wf s → is_u16 a → zlen vs ≤ max_quantity →
  m_valid (view s) Coil a (zlen vs) = true →
  ∃ s1, write_coils a vs s = (Ok tt, s1) ∧ space_wf s1 ∧
    view s1 ≡ m_write_bits (view s) Coil a vs ∧
    ∃ s2, read_coils a (zlen vs) s1 = (Ok vs, s2) ∧ space_wf s2 ∧ view s2 ≡ view s1.
Proof.
  intros Hwf Ha Hq Hvalid. pose proof (zlen_nonneg vs).
  pose proof (write_coils_spec a vs s Hwf Ha ltac:(lia) ltac:(by left)) as Hw.
  rewrite Hvalid in Hw. destruct (write_coils a vs s) as [r s1].
  destruct Hw as (Hr & Hwf1 & Hv1). simpl in Hr. subst r. exists s1. split_and!; [done..|].
  pose proof (read_coils_spec s1 a (zlen vs) Hwf1 Ha ltac:(lia) ltac:(left; by rewrite Hv1)) as Hrd.
  destruct (read_coils a (zlen vs) s1) as [r s2].
  destruct Hrd as (Hr & Hwf2 & Hv2). exists s2. split_and!; [|done..].
  rewrite Hv1 in Hr. simpl m_valid in Hr. rewrite Hvalid in Hr. simpl in Hr. subst r.
  by rewrite m_read_write_bits.
Qed.
End consequences.
