(* ===== verification/ModbusDense.v ===== *)
(** The dense register store ([RegisterStore] of [register.rs]): four flat vectors behind
    reader-writer locks, and its implementation of [AddressSpace] ([context.rs]).

    Each method of the source takes one lock for the whole of its effect, so a method is
    one state transition here. *)

From S2P Require Import Prelude ModbusPdu ModbusSpace.

Record RegisterStore : Type := {
  coils : list bool;
  discrete_inputs : list bool;
  holding_registers : list Z;
  input_registers : list Z;
  coil_count : Z;
  discrete_input_count : Z;
  holding_register_count : Z;
  input_register_count : Z;
}.

Definition RegisterStore_new (nc nd nh ni : Z) : RegisterStore := {|
  coils := replicate (Z.to_nat nc) false;
  discrete_inputs := replicate (Z.to_nat nd) false;
  holding_registers := replicate (Z.to_nat nh) 0;
  input_registers := replicate (Z.to_nat ni) 0;
  coil_count := nc;
  discrete_input_count := nd;
  holding_register_count := nh;
  input_register_count := ni;
|}.

Definition RegisterStore_with_defaults : RegisterStore :=
  RegisterStore_new 10000 10000 10000 10000.

Definition RegisterStore_count (s : RegisterStore) (t : RegisterType) : Z :=
  match t with
  | Coil => coil_count s
  | DiscreteInput => discrete_input_count s
  | HoldingRegister => holding_register_count s
  | InputRegister => input_register_count s
  end.

(** Field updates. *)
Definition set_coils (s : RegisterStore) (l : list bool) : RegisterStore :=
  {| coils := l; discrete_inputs := discrete_inputs s;
     holding_registers := holding_registers s; input_registers := input_registers s;
     coil_count := coil_count s; discrete_input_count := discrete_input_count s;
     holding_register_count := holding_register_count s;
     input_register_count := input_register_count s |}.
Definition set_discrete (s : RegisterStore) (l : list bool) : RegisterStore :=
  {| coils := coils s; discrete_inputs := l;
     holding_registers := holding_registers s; input_registers := input_registers s;
     coil_count := coil_count s; discrete_input_count := discrete_input_count s;
     holding_register_count := holding_register_count s;
     input_register_count := input_register_count s |}.
Definition set_holding (s : RegisterStore) (l : list Z) : RegisterStore :=
  {| coils := coils s; discrete_inputs := discrete_inputs s;
     holding_registers := l; input_registers := input_registers s;
     coil_count := coil_count s; discrete_input_count := discrete_input_count s;
     holding_register_count := holding_register_count s;
     input_register_count := input_register_count s |}.
Definition set_input (s : RegisterStore) (l : list Z) : RegisterStore :=
  {| coils := coils s; discrete_inputs := discrete_inputs s;
     holding_registers := holding_registers s; input_registers := l;
     coil_count := coil_count s; discrete_input_count := discrete_input_count s;
     holding_register_count := holding_register_count s;
     input_register_count := input_register_count s |}.

(** A write method: the validation, then the mutation of one locked vector.  The vector keeps
    what the mutation did to it also when the mutation panics midway. *)
Definition commit {A} (get : RegisterStore → list A) (set : RegisterStore → list A → RegisterStore)
    (check : RegisterStore → outcome ModbusError unit) (body : stM (list A) ModbusError unit)
  : stM RegisterStore ModbusError unit := fun s =>
  match check s with
  | Ok _ => let '(r, l) := body (get s) in (r, set s l)
  | Err e => (Err e, s)
  | Panic => (Panic, s)
  end.

(** [registers[i] = value]. *)
Definition write_at {E A} (i : nat) (v : A) : stM (list A) E unit := fun l =>
  match index_set l i v with
  | Ok l' => (Ok tt, l')
  | Err e => (Err e, l)
  | Panic => (Panic, l)
  end.

(** [for (i, &value) in values.iter().enumerate() { registers[start + i] = value; }]. *)
Fixpoint write_loop {E A} (start : nat) (values : list A) : stM (list A) E unit :=
  match values with
  | [] => st_ret tt
  | v :: vs => do? _ := write_at start v in write_loop (S start) vs
  end.

(** [for chunk in bytes.chunks(2)]: a trailing odd byte is the high byte of a register. *)
Fixpoint registers_of_bytes (bytes : list Z) : list Z :=
  match bytes with
  | [] => []
  | [hi] => [u16_from_be hi 0]
  | hi :: lo :: rest => u16_from_be hi lo :: registers_of_bytes rest
  end.

Section ops.
Context `{BuildProfile}.

Definition RegisterStore_validate (s : RegisterStore) (t : RegisterType) (address quantity : Z)
  : outcome ModbusError unit :=
  let max := RegisterStore_count s t in
  if max <=? address then
    let? last := u16_sub max 1 in
    Err (InvalidAddress address last)
  else
    let? bad :=
      (if quantity =? 0 then Ok true
       else let? sum := u16_add address quantity in Ok (max <? sum)) in
    if bad then
      let? room := u16_sub max address in
      Err (InvalidQuantity quantity room)
    else Ok tt.

Definition RegisterStore_read_coils (address quantity : Z)
  : stM RegisterStore ModbusError (list bool) := fun s =>
  (let? _ := RegisterStore_validate s Coil address quantity in
   slice (coils s) address (address + quantity), s).

Definition RegisterStore_write_coil (address : Z) (value : bool)
  : stM RegisterStore ModbusError unit :=
  commit coils set_coils (fun s => RegisterStore_validate s Coil address 1)
    (write_at (Z.to_nat address) value).

Definition RegisterStore_write_coils (address : Z) (values : list bool)
  : stM RegisterStore ModbusError unit :=
  commit coils set_coils (fun s => RegisterStore_validate s Coil address (as_u16 (zlen values)))
    (write_loop (Z.to_nat address) values).

Definition RegisterStore_read_discrete_inputs (address quantity : Z)
  : stM RegisterStore ModbusError (list bool) := fun s =>
  (let? _ := RegisterStore_validate s DiscreteInput address quantity in
   slice (discrete_inputs s) address (address + quantity), s).

Definition RegisterStore_set_discrete_input (address : Z) (value : bool)
  : stM RegisterStore ModbusError unit :=
  commit discrete_inputs set_discrete (fun s => RegisterStore_validate s DiscreteInput address 1)
    (write_at (Z.to_nat address) value).

Definition RegisterStore_read_holding_registers (address quantity : Z)
  : stM RegisterStore ModbusError (list Z) := fun s =>
  (let? _ := RegisterStore_validate s HoldingRegister address quantity in
   slice (holding_registers s) address (address + quantity), s).

Definition RegisterStore_write_holding_register (address value : Z)
  : stM RegisterStore ModbusError unit :=
  commit holding_registers set_holding (fun s => RegisterStore_validate s HoldingRegister address 1)
    (write_at (Z.to_nat address) value).

Definition RegisterStore_write_holding_registers (address : Z) (values : list Z)
  : stM RegisterStore ModbusError unit :=
  commit holding_registers set_holding (fun s => RegisterStore_validate s HoldingRegister address (as_u16 (zlen values)))
    (write_loop (Z.to_nat address) values).

Definition RegisterStore_read_input_registers (address quantity : Z)
  : stM RegisterStore ModbusError (list Z) := fun s =>
  (let? _ := RegisterStore_validate s InputRegister address quantity in
   slice (input_registers s) address (address + quantity), s).

Definition RegisterStore_set_input_register (address value : Z)
  : stM RegisterStore ModbusError unit :=
  commit input_registers set_input (fun s => RegisterStore_validate s InputRegister address 1)
    (write_at (Z.to_nat address) value).

Definition RegisterStore_set_input_registers (address : Z) (values : list Z)
  : stM RegisterStore ModbusError unit :=
  commit input_registers set_input (fun s => RegisterStore_validate s InputRegister address (as_u16 (zlen values)))
    (write_loop (Z.to_nat address) values).

(** Reads the current value, applies the mask and writes the result under one lock; returns
    the new value. *)
Definition RegisterStore_mask_write_holding_register (address and_mask or_mask : Z)
  : stM RegisterStore ModbusError Z := fun s =>
  match (let? _ := RegisterStore_validate s HoldingRegister address 1 in
         let? current := index (holding_registers s) (Z.to_nat address) in
         let result := mask_formula current and_mask or_mask in
         let? l := index_set (holding_registers s) (Z.to_nat address) result in
         Ok (result, l)) with
  | Ok (result, l) => (Ok result, set_holding s l)
  | Err e => (Err e, s)
  | Panic => (Panic, s)
  end.

Definition RegisterStore_read_bytes (t : RegisterType) (address byte_count : Z)
  : stM RegisterStore ModbusError (list Z) :=
  let register_count := div_ceil byte_count 2 in
  do? registers :=
    (match t with
     | HoldingRegister => RegisterStore_read_holding_registers address (as_u16 register_count)
     | InputRegister => RegisterStore_read_input_registers address (as_u16 register_count)
     | _ => st_err (InvalidFunction (read_function t))
     end) in
  st_ret (take (Z.to_nat byte_count) (bytes_of_words registers)).

Definition RegisterStore_write_bytes (t : RegisterType) (address : Z) (bytes : list Z)
  : stM RegisterStore ModbusError unit :=
  if negb (is_writable t) || is_bit_type t then st_err (InvalidFunction 0)
  else RegisterStore_write_holding_registers address (registers_of_bytes bytes).

Definition RegisterStore_reset (s : RegisterStore) : RegisterStore :=
  {| coils := replicate (length (coils s)) false;
     discrete_inputs := replicate (length (discrete_inputs s)) false;
     holding_registers := replicate (length (holding_registers s)) 0;
     input_registers := replicate (length (input_registers s)) 0;
     coil_count := coil_count s; discrete_input_count := discrete_input_count s;
     holding_register_count := holding_register_count s;
     input_register_count := input_register_count s |}.

(** [impl AddressSpace for RegisterStore]. *)
#[global] Instance RegisterStore_AddressSpace : AddressSpace RegisterStore := {
  count := RegisterStore_count;
  read_coils := RegisterStore_read_coils;
  write_coil := RegisterStore_write_coil;
  write_coils := RegisterStore_write_coils;
  read_discrete_inputs := RegisterStore_read_discrete_inputs;
  set_discrete_input := RegisterStore_set_discrete_input;
  read_holding_registers := RegisterStore_read_holding_registers;
  write_holding_register := RegisterStore_write_holding_register;
  write_holding_registers := RegisterStore_write_holding_registers;
  read_input_registers := RegisterStore_read_input_registers;
  set_input_register := RegisterStore_set_input_register;
  set_input_registers := RegisterStore_set_input_registers;
  mask_write_holding_register := fun address and_mask or_mask =>
    st_map (fun _ => tt) (RegisterStore_mask_write_holding_register address and_mask or_mask);
}.

End ops.

(* ------------------------------------------------------------------ *)
(** * Invariant and abstraction *)

(** Every vector has the length its count records, counts are positive 16-bit numbers, and
    register values are 16-bit. *)
Definition count_ok {A} (l : list A) (n : Z) : Prop := zlen l = n ∧ 1 ≤ n ≤ 65535.

Definition dense_wf (s : RegisterStore) : Prop :=
  count_ok (coils s) (coil_count s) ∧ count_ok (discrete_inputs s) (discrete_input_count s) ∧
  count_ok (holding_registers s) (holding_register_count s) ∧
  count_ok (input_registers s) (input_register_count s) ∧
  words_ok (holding_registers s) ∧ words_ok (input_registers s).

Definition dense_valid (s : RegisterStore) (t : RegisterType) (a q : Z) : bool :=
  (0 <=? a) && (a <? RegisterStore_count s t) && (1 <=? q) && (a + q <=? RegisterStore_count s t).

Definition nth_z {A} (d : A) (l : list A) (a : Z) : A :=
  if 0 <=? a then default d (l !! Z.to_nat a) else d.

Definition dense_bits (s : RegisterStore) (t : RegisterType) : Z → bool :=
  match t with
  | Coil => nth_z false (coils s)
  | DiscreteInput => nth_z false (discrete_inputs s)
  | _ => fun _ => false
  end.

Definition dense_words (s : RegisterStore) (t : RegisterType) : Z → Z :=
  match t with
  | HoldingRegister => nth_z 0 (holding_registers s)
  | InputRegister => nth_z 0 (input_registers s)
  | _ => fun _ => 0
  end.

Definition dense_view (s : RegisterStore) : model := {|
  m_valid := dense_valid s;
  m_bits := dense_bits s;
  m_words := dense_words s;
|}.

(* ------------------------------------------------------------------ *)
(** * Vector lemmas *)

Lemma nth_z_lookup {A} (d : A) l i : (i < length l)%nat → l !! i = Some (nth_z d l (Z.of_nat i)).
Proof.
  intros Hi. unfold nth_z. rewrite (proj2 (Z.leb_le _ _)), Nat2Z.id by lia.
  by destruct (lookup_lt_is_Some_2 l i Hi) as [x ->].
Qed.

Lemma slice_nth_z {E A} (d : A) l a q :
  0 ≤ a → 0 ≤ q → a + q ≤ zlen l →
  slice (E:=E) l a (a + q) = Ok (nth_z d l <$> zrange a (Z.to_nat q)).
Proof.
  intros. rewrite slice_ok by lia. f_equal. replace (a + q - a) with q by lia.
  apply list_eq. intros i. rewrite list_lookup_fmap, lookup_zrange.
  destruct (decide (i < Z.to_nat q)%nat).
  - rewrite lookup_take_lt, lookup_drop by done. unfold zlen in *.
    rewrite (nth_z_lookup d) by lia. simpl. do 2 f_equal. lia.
  - by rewrite lookup_take_ge by lia.
Qed.

Lemma nth_z_insert {A} (d : A) l a v x :
  0 ≤ a < zlen l → nth_z d (<[Z.to_nat a := v]> l) x = overwrite (nth_z d l) a [v] x.
Proof.
  intros Ha. unfold overwrite, nth_z. change (zlen [v]) with 1.
  destruct (decide (x = a)) as [->|Hx].
  - rewrite !(proj2 (Z.leb_le _ _)), (proj2 (Z.ltb_lt _ _)), Z.sub_diag by lia. simpl.
    by rewrite list_lookup_insert_eq by (unfold zlen in *; lia).
  - assert ((a <=? x) && (x <? a + 1) = false) as -> by
      (destruct (Z.leb_spec a x), (Z.ltb_spec x (a + 1)); simpl; lia || done).
    destruct (Z.leb_spec 0 x); [|done]. by rewrite list_lookup_insert_ne by lia.
Qed.

Lemma overwrite_cons {A} (f : Z → A) a v vs x :
  overwrite (overwrite f a [v]) (a + 1) vs x = overwrite f a (v :: vs) x.
Proof.
  unfold overwrite. rewrite zlen_cons, zlen_cons, zlen_nil. pose proof (zlen_nonneg vs).
  destruct (decide (x = a)) as [->|Hx].
  - rewrite (proj2 (Z.leb_gt (a + 1) a)) by lia. simpl.
    rewrite !(proj2 (Z.leb_le a a)), !(proj2 (Z.ltb_lt a _)), Z.sub_diag by lia. done.
  - assert ((a <=? x) && (x <? a + (1 + 0)) = false) as -> by
      (destruct (Z.leb_spec a x), (Z.ltb_spec x (a + (1 + 0))); simpl; lia || done).
    replace (a + (1 + zlen vs)) with (a + 1 + zlen vs) by lia.
    destruct (Z.leb_spec (a + 1) x), (Z.leb_spec a x); try lia; try done. simpl.
    destruct (Z.ltb_spec x (a + 1 + zlen vs)); [|done].
    replace (Z.to_nat (x - a)) with (S (Z.to_nat (x - (a + 1)))) by lia. done.
Qed.

Lemma write_at_ok {E A} (l : list A) a v :
  0 ≤ a < zlen l → write_at (E:=E) (Z.to_nat a) v l = (Ok tt, <[Z.to_nat a := v]> l).
Proof. intros. unfold write_at, index_set. by rewrite decide_True by (unfold zlen in *; lia). Qed.

Lemma write_loop_spec {E A} (d : A) (P : A → Prop) vs : ∀ l a,
  0 ≤ a → a + zlen vs ≤ zlen l → Forall P vs → Forall P l →
  ∃ l', write_loop (E:=E) (Z.to_nat a) vs l = (Ok tt, l') ∧ zlen l' = zlen l ∧ Forall P l' ∧
    ∀ x, nth_z d l' x = overwrite (nth_z d l) a vs x.
Proof.
  induction vs as [|v vs IH]; intros l a Ha Hlen Hvs Hl.
  - exists l. repeat split; try done. intros x. unfold overwrite. rewrite zlen_nil.
    destruct (Z.leb_spec a x), (Z.ltb_spec x (a + 0)); simpl; lia || done.
  - rewrite zlen_cons in Hlen. pose proof (zlen_nonneg vs). inversion_clear Hvs.
    simpl. unfold st_bind. rewrite write_at_ok by lia.
    replace (S (Z.to_nat a)) with (Z.to_nat (a + 1)) by lia.
    destruct (IH (<[Z.to_nat a := v]> l) (a + 1)) as (l' & Hrun & Hl' & HP & Hx);
      [lia| |done| |].
    + unfold zlen in *. rewrite length_insert. lia.
    + by apply Forall_insert.
    + exists l'. repeat split; try done.
      * rewrite Hl'. unfold zlen. by rewrite length_insert.
      * intros x. rewrite Hx, <- overwrite_cons. apply overwrite_ext. intros y.
        apply nth_z_insert. lia.
Qed.

Lemma nth_z_range l a : words_ok l → is_u16 (nth_z 0 l a).
Proof.
  intros Hl. unfold nth_z. destruct (0 <=? a); [|int_lia].
  destruct (l !! Z.to_nat a) eqn:Hx; simpl; [|int_lia]. by eapply Forall_lookup_1 in Hl.
Qed.

(* ------------------------------------------------------------------ *)
(** * Validation *)

Lemma dense_count_bounds s t : dense_wf s → 1 ≤ RegisterStore_count s t ≤ 65535.
Proof. intros ((?&?)&(?&?)&(?&?)&(?&?)&_). by destruct t. Qed.

Lemma dense_validate_spec `{BuildProfile} s t a q :
  dense_wf s → is_u16 a → 0 ≤ q ≤ max_quantity → reach false (dense_view s) t a q →
  answers (dense_valid s t a q) tt (RegisterStore_validate s t a q).
Proof.
  intros Hwf Ha Hq Hreach. unfold max_quantity in *. pose proof (dense_count_bounds s t Hwf).
  unfold RegisterStore_validate, dense_valid, answers. unfold is_u16 in *.
  rewrite (proj2 (Z.leb_le 0 a)) by lia. simpl.
  destruct (Z.leb_spec (RegisterStore_count s t) a).
  { rewrite (proj2 (Z.ltb_ge a _)) by lia. simpl. rewrite u16_sub_exact by lia. by eexists. }
  rewrite (proj2 (Z.ltb_lt a _)) by lia. simpl.
  destruct (Z.eqb_spec q 0) as [->|].
  { simpl. rewrite u16_sub_exact by lia. by eexists. }
  rewrite (proj2 (Z.leb_le 1 q)) by lia. simpl.
  assert (a + q < 65536) as Hsum.
  { unfold reach, dense_view, dense_valid in Hreach. simpl in Hreach.
    destruct Hreach as [Hr|[Hr|[Hr|Hr]]]; bool_to_prop; try done; lia. }
  rewrite u16_add_exact by lia. simpl.
  destruct (Z.ltb_spec (RegisterStore_count s t) (a + q)).
  - rewrite (proj2 (Z.leb_gt _ _)) by lia. rewrite u16_sub_exact by lia. by eexists.
  - by rewrite (proj2 (Z.leb_le _ _)) by lia.
Qed.

Lemma dense_valid_bounds s t a q :
  dense_valid s t a q = true → 1 ≤ q ∧ a + q ≤ RegisterStore_count s t.
Proof. unfold dense_valid. intros. by bool_to_prop. Qed.

(* ------------------------------------------------------------------ *)
(** * The store meets the interface *)

(** A read of one vector [l] of kind [t]. *)
Lemma dense_read_law `{BuildProfile} {A} (d : A) (t : RegisterType) (get : RegisterStore → list A) s a q :
  dense_wf s → is_u16 a → 0 ≤ q ≤ max_quantity → reach false (dense_view s) t a q →
  zlen (get s) = RegisterStore_count s t →
  answers (dense_valid s t a q) (nth_z d (get s) <$> zrange a (Z.to_nat q))
    (let? _ := RegisterStore_validate s t a q in slice (get s) a (a + q)).
Proof.
  intros Hwf Ha Hq Hreach Hlen. pose proof (dense_validate_spec s t a q Hwf Ha Hq Hreach) as Hv.
  unfold answers in *. destruct (dense_valid s t a q) eqn:Hvalid.
  - apply dense_valid_bounds in Hvalid as [??]. rewrite Hv. simpl.
    apply slice_nth_z; unfold is_u16 in *; lia.
  - destruct Hv as (e & -> & He). by exists e.
Qed.

Definition dense_write `{BuildProfile} {A} get set (t : RegisterType) a (vs : list A) :=
  commit get set (fun s => RegisterStore_validate s t a (as_u16 (zlen vs)))
    (write_loop (Z.to_nat a) vs).

(** A write of the vector [get s] of kind [t]. *)
Lemma dense_write_spec `{BuildProfile} {A} (d : A) (P : A → Prop) t get set s a vs :
  dense_wf s → is_u16 a → zlen vs ≤ max_quantity → reach false (dense_view s) t a (zlen vs) →
  zlen (get s) = RegisterStore_count s t → Forall P vs → Forall P (get s) →
  if dense_valid s t a (zlen vs) then
    ∃ l', dense_write get set t a vs s = (Ok tt, set s l') ∧
      zlen l' = zlen (get s) ∧ Forall P l' ∧ ∀ x, nth_z d l' x = overwrite (nth_z d (get s)) a vs x
  else ∃ e, dense_write get set t a vs s = (Err e, s) ∧ address_error e.
Proof.
  intros Hwf Ha Hq Hreach Hlen HP HPl. pose proof (zlen_nonneg vs). unfold dense_write, commit.
  rewrite as_u16_id by (unfold max_quantity in *; int_lia).
  pose proof (dense_validate_spec s t a (zlen vs) Hwf Ha ltac:(lia) Hreach) as Hv. unfold answers in Hv.
  destruct (dense_valid s t a (zlen vs)) eqn:Hvalid.
  - apply dense_valid_bounds in Hvalid as [??]. rewrite Hv. unfold is_u16 in *.
    destruct (write_loop_spec (E:=ModbusError) d P vs (get s) a) as (l' & -> & ?); [lia..|done|done|].
    by exists l'.
  - destruct Hv as (e & -> & He). by exists e.
Qed.

Lemma write_one_is_write `{BuildProfile} {A} (get : RegisterStore → list A) set t a v s :
  commit get set (fun s => RegisterStore_validate s t a 1) (write_at (Z.to_nat a) v) s
  = dense_write get set t a [v] s.
Proof.
  unfold dense_write, commit. change (as_u16 (zlen [v])) with 1.
  destruct (RegisterStore_validate s t a 1); [|done..].
  simpl. unfold st_bind. by destruct (write_at _ _ _) as [[[]| |] ?].
Qed.

Lemma dense_write_coils_law `{BuildProfile} a vs :
  write_law false dense_wf dense_view (dense_write coils set_coils Coil a vs)
    Coil a (zlen vs) (fun m => m_write_bits m Coil a vs).
Proof.
  intros s Hwf Ha Hq Hreach. destruct (Hwf) as ((Hc&Hn)&Hwf').
  pose proof (dense_write_spec false (fun _ => True) Coil coils set_coils s a vs Hwf Ha
    ltac:(lia) Hreach Hc ltac:(by apply Forall_true) ltac:(by apply Forall_true)) as Hw.
  simpl m_valid. destruct (dense_valid s Coil a (zlen vs)).
  - destruct Hw as (l' & -> & Hl' & _ & Hx). split; [done|]. split.
    + split; [|done]. unfold count_ok in *. simpl. rewrite Hl'. done.
    + split; [|split]; [by intros []..|intros t x|by intros []]. simpl.
      case_decide; subst; [apply Hx|by destruct t].
  - destruct Hw as (e & -> & He). split; [by exists e|done].
Qed.

Lemma dense_write_holding_law `{BuildProfile} a vs :
  words_ok vs →
  write_law false dense_wf dense_view (dense_write holding_registers set_holding HoldingRegister a vs)
    HoldingRegister a (zlen vs) (fun m => m_write_words m HoldingRegister a vs).
Proof.
  intros Hvs s Hwf Ha Hq Hreach. destruct (Hwf) as (?&?&(Hc&Hn)&?&Hwords&?).
  pose proof (dense_write_spec 0 is_u16 HoldingRegister holding_registers set_holding s a vs Hwf Ha
    ltac:(lia) Hreach Hc Hvs Hwords) as Hw.
  simpl m_valid. destruct (dense_valid s HoldingRegister a (zlen vs)).
  - destruct Hw as (l' & -> & Hl' & HP & Hx). split; [done|]. split.
    + repeat (split; [done|]). split; [|done]. split; [simpl; by rewrite Hl'|done].
    + split; [|split]; [by intros []..|by intros []|intros t x]. simpl.
      case_decide; subst; [apply Hx|by destruct t].
  - destruct Hw as (e & -> & He). split; [by exists e|done].
Qed.

Lemma dense_mask_write_law `{BuildProfile} a am om :
  is_u16 am → is_u16 om →
  write_law false dense_wf dense_view
    (st_map (fun _ => tt) (RegisterStore_mask_write_holding_register a am om))
    HoldingRegister a 1
    (fun m => m_write_words m HoldingRegister a [mask_formula (m_words m HoldingRegister a) am om]).
Proof.
  intros Ham Hom s Hwf Ha Hq Hreach.
  set (v := mask_formula (m_words (dense_view s) HoldingRegister a) am om).
  assert (is_u16 v) as Hv.
  { apply mask_formula_range; [|done]. apply nth_z_range. apply Hwf. }
  pose proof (dense_write_holding_law a [v] ltac:(by constructor) s Hwf Ha Hq Hreach) as Hw.
  enough (st_map (fun _ => tt) (RegisterStore_mask_write_holding_register a am om) s
    = dense_write holding_registers set_holding HoldingRegister a [v] s) as -> by exact Hw.
  rewrite <- write_one_is_write. unfold st_map, RegisterStore_mask_write_holding_register, commit.
  pose proof (dense_validate_spec s HoldingRegister a 1 Hwf Ha Hq Hreach) as Hval. unfold answers in Hval.
  destruct (dense_valid s HoldingRegister a 1) eqn:E; [|by destruct Hval as (e & -> & _)].
  apply dense_valid_bounds in E as [_ E]. rewrite Hval. simpl.
  destruct (Hwf) as (?&?&(Hc&Hn)&?). simpl in E. unfold is_u16 in Ha.
  rewrite write_at_ok by lia.
  unfold index. rewrite (nth_z_lookup 0) by (unfold zlen in *; lia). simpl.
  unfold index_set. rewrite decide_True by (unfold zlen in *; lia). simpl.
  by rewrite Z2Nat.id by lia.
Qed.

#[global] Instance RegisterStore_spec `{BuildProfile} : AddressSpaceSpec RegisterStore.
Proof.
  refine {| space_wf := dense_wf; full_range := false; view := dense_view |}.
  - intros s t a Hwf. destruct Hwf as (?&?&?&?&?&?). destruct t; simpl;
      try (by apply nth_z_range); int_lia.
  - intros s a q Hwf Ha Hq Hreach. split; [|done].
    by apply (dense_read_law false Coil coils); [| | | |apply Hwf].
  - intros s a q Hwf Ha Hq Hreach. split; [|done].
    by apply (dense_read_law false DiscreteInput discrete_inputs); [| | | |apply Hwf].
  - intros s a q Hwf Ha Hq Hreach. split; [|done].
    by apply (dense_read_law 0 HoldingRegister holding_registers); [| | | |apply Hwf].
  - intros s a q Hwf Ha Hq Hreach. split; [|done].
    by apply (dense_read_law 0 InputRegister input_registers); [| | | |apply Hwf].
  - intros a v s Hwf Ha Hq Hreach. simpl. unfold RegisterStore_write_coil. rewrite write_one_is_write.
    by apply (dense_write_coils_law a [v]).
  - intros a vs. apply dense_write_coils_law.
  - intros a v Hv s Hwf Ha Hq Hreach. simpl. unfold RegisterStore_write_holding_register.
    rewrite write_one_is_write. by apply (dense_write_holding_law a [v] ltac:(by constructor)).
  - intros a vs Hvs. by apply dense_write_holding_law.
  - intros a am om Ham Hom. by apply dense_mask_write_law.
Defined.

(* ------------------------------------------------------------------ *)
(** * Construction, reset, byte access, overflow *)

Lemma RegisterStore_new_wf nc nd nh ni :
  1 ≤ nc ≤ 65535 → 1 ≤ nd ≤ 65535 → 1 ≤ nh ≤ 65535 → 1 ≤ ni ≤ 65535 →
  dense_wf (RegisterStore_new nc nd nh ni).
Proof.
  intros. unfold dense_wf, count_ok, zlen. simpl. rewrite !length_replicate.
  repeat split; try lia; apply Forall_replicate; int_lia.
Qed.

Lemma nth_z_replicate {A} (d : A) n x : nth_z d (replicate n d) x = d.
Proof.
  unfold nth_z. destruct (0 <=? x); [|done].
  destruct (replicate n d !! Z.to_nat x) eqn:E; [|done]. by apply lookup_replicate in E as [-> _].
Qed.

Lemma registers_of_bytes_ok bs : bytes_ok bs → words_ok (registers_of_bytes bs).
Proof.
  induction bs as [| |hi lo bs IH] using list_ind_2; [constructor|..];
    intros; rewrite ?bytes_ok_cons in *; destruct_and?; repeat constructor; try (apply IH; done);
    int_lia.
Qed.

Lemma registers_of_bytes_length bs : zlen (registers_of_bytes bs) = div_ceil (zlen bs) 2.
Proof.
  induction bs as [| |hi lo bs IH] using list_ind_2; [done|done|].
  simpl. rewrite !zlen_cons, IH. int_lia.
Qed.

Lemma bytes_of_registers_of_bytes bs :
  bytes_ok bs → take (length bs) (bytes_of_words (registers_of_bytes bs)) = bs.
Proof.
  induction bs as [|b|hi lo bs IH] using list_ind_2; [done|..]; intros Hok;
    rewrite ?bytes_ok_cons in Hok; destruct_and?.
  - cbn [registers_of_bytes bytes_of_words]. rewrite u16_to_from_be by int_lia. done.
  - cbn [registers_of_bytes bytes_of_words]. rewrite u16_to_from_be by done. simpl. by rewrite IH.
Qed.

(** Bytes written to holding registers read back, odd lengths included. *)
Lemma dense_read_written_bytes `{BuildProfile} s a bs :
  dense_wf s → is_u16 a → bytes_ok bs → zlen bs ≤ 4000 →
  dense_valid s HoldingRegister a (div_ceil (zlen bs) 2) = true →
  ∃ s', RegisterStore_write_bytes HoldingRegister a bs s = (Ok tt, s') ∧ dense_wf s' ∧
    RegisterStore_read_bytes HoldingRegister a (zlen bs) s' = (Ok bs, s').
Proof.
  intros Hwf Ha Hbs Hlen Hvalid. pose proof (zlen_nonneg bs).
  assert (0 ≤ div_ceil (zlen bs) 2 ≤ max_quantity) as Hq by (unfold max_quantity; int_lia).
  rewrite <- registers_of_bytes_length in *.
  destruct (@write_read_holding RegisterStore _ RegisterStore_spec s a (registers_of_bytes bs) Hwf Ha (proj2 Hq)
    (registers_of_bytes_ok _ Hbs) Hvalid) as (s1 & Hw & Hwf1 & _ & s2 & Hr & _).
  exists s1. split_and!; [exact Hw|done|].
  unfold RegisterStore_read_bytes, st_bind, st_ret. rewrite <- registers_of_bytes_length.
  rewrite as_u16_id by (unfold max_quantity in *; int_lia).
  change (read_holding_registers a) with (RegisterStore_read_holding_registers a) in Hr.
  assert (s2 = s1) as -> by (unfold RegisterStore_read_holding_registers in Hr; congruence).
  rewrite Hr. unfold zlen. rewrite Nat2Z.id. by rewrite bytes_of_registers_of_bytes.
Qed.

(** A span that starts inside the store and ends past [u16::MAX] panics: on the addition in
    a checked build, on the slice in a release build. *)
Lemma dense_read_overflow_panics `{BuildProfile} s a q :
  zlen (holding_registers s) = holding_register_count s → is_u16 (holding_register_count s) →
  0 ≤ a < holding_register_count s → is_u16 q → 65536 ≤ a + q →
  fst (RegisterStore_read_holding_registers a q s) = Panic.
Proof.
  intros Hlen Hcount Ha Hq Hover. unfold is_u16 in *. simpl.
  unfold RegisterStore_validate. simpl.
  rewrite (proj2 (Z.leb_gt _ a)), (proj2 (Z.eqb_neq q 0)) by lia.
  unfold u16_add, checked_op.
  rewrite (proj2 (Z.leb_le 0 _)), (proj2 (Z.ltb_ge (a + q) _)) by lia. simpl.
  destruct overflow_checks; [done|]. simpl.
  rewrite (proj2 (Z.ltb_ge _ ((a + q) mod 65536))) by int_lia. simpl.
  unfold slice. rewrite (proj2 (Z.leb_gt (a + q) _)) by lia. by rewrite andb_false_r.
Qed.

(* ------------------------------------------------------------------ *)
(** * Properties *)

(** bytes written through the byte interface of the dense store read back unchanged, odd
    lengths included, whenever the registers they occupy are a valid span. *)
Theorem dense_bytes_roundtrip `{BuildProfile} (s : RegisterStore) a bs :
  dense_wf s → is_u16 a → bytes_ok bs → zlen bs ≤ 4000 →
  dense_valid s HoldingRegister a (div_ceil (zlen bs) 2) = true →
  ∃ s', RegisterStore_write_bytes HoldingRegister a bs s = (Ok tt, s') ∧ dense_wf s' ∧
    RegisterStore_read_bytes HoldingRegister a (zlen bs) s' = (Ok bs, s').
Proof. apply dense_read_written_bytes. Qed.

Lemma dense_bytes_roundtrip_witness :
  let _ := debug_build in
  ∃ s', RegisterStore_write_bytes HoldingRegister 4 [1; 2; 3] (RegisterStore_new 8 8 8 8) = (Ok tt, s') ∧
    dense_wf s' ∧ RegisterStore_read_bytes HoldingRegister 4 3 s' = (Ok [1; 2; 3], s').
Proof.
  intros p. apply (dense_bytes_roundtrip (H:=p) (RegisterStore_new 8 8 8 8) 4 [1; 2; 3]).
  - apply RegisterStore_new_wf; lia.
  - closed.
  - closed.
  - vm_compute. congruence.
  - reflexivity.
Defined.

(** a read that starts inside the dense store and whose span passes address 65535 panics in
    every build, instead of being answered with an address exception: the sum of address and
    quantity overflows [u16] (a checked build) or wraps, passes the check and fails on the
    slice (a release build). *)
Theorem dense_overflow_panics `{BuildProfile} (s : RegisterStore) a q :
  zlen (holding_registers s) = holding_register_count s → is_u16 (holding_register_count s) →
  0 ≤ a < holding_register_count s → is_u16 q → 65536 ≤ a + q →
  fst (RegisterStore_read_holding_registers a q s) = Panic.
Proof. apply dense_read_overflow_panics. Qed.

Lemma dense_overflow_panics_witness :
  let _ := release_build in
  fst (RegisterStore_read_holding_registers 65530 6 (RegisterStore_new 1 1 65535 1)) = Panic.
Proof.
  intros p. apply (dense_overflow_panics (H:=p)); cbn [holding_registers holding_register_count RegisterStore_new].
  - unfold zlen. rewrite length_replicate. lia.
  - unfold is_u16. lia.
  - lia.
  - unfold is_u16. lia.
  - lia.
Defined.
