(* ===== verification/ModbusShards.v ===== *)
(** The sharded sparse map of [registers/sparse_store.rs]: [RegisterSegment] (64 values and a
    64-bit occupancy mask) and [ShardedRegisterMap] (64 shards of 16 optional segments and an
    entry counter).

    The map is proved to implement a finite map [gmap Z T]: [Rep m g] relates a sharded map
    to the finite map it stands for, and every operation is shown to compute the finite-map
    operation and to keep [Rep], the entry counter included.

    The source holds one shard lock per chunk, so a call that spans several chunks is several
    atomic steps; here a call runs its chunks in order, without interleaving. *)

From S2P Require Import Prelude.

(** [T::default()] of the source's type parameter. *)
Class RustDefault (T : Type) : Type := rust_default : T.
#[global] Instance bool_default : RustDefault bool := false.
#[global] Instance u16_default : RustDefault Z := 0.

Definition SHARD_COUNT : Z := 64.
Definition SHARD_MASK : Z := SHARD_COUNT - 1.
Definition SHARD_SHIFT : Z := 6.
Definition SEGMENT_SIZE : Z := 64.
Definition SEGMENT_MASK : Z := SEGMENT_SIZE - 1.
Definition TOTAL_SEGMENTS : Z := (65535 + 1) / SEGMENT_SIZE.
Definition SEGMENTS_PER_SHARD : Z := TOTAL_SEGMENTS / SHARD_COUNT.

(** [1u64 << offset] and [!mask] at type [u64]. *)
Definition u64_bit (offset : nat) : Z := Z.shiftl 1 (Z.of_nat offset).
Definition u64_not (x : Z) : Z := Z.lxor x (Z.ones 64).

(* ------------------------------------------------------------------ *)
(** * Segments *)

Record RegisterSegment (T : Type) : Type := { values : list T; occupancy : Z }.
Arguments values {T} r.
Arguments occupancy {T} r.
Arguments Build_RegisterSegment {T} values occupancy.

Section segment.
Context {T : Type} `{RustDefault T} {E : Type}.

Definition RegisterSegment_new : RegisterSegment T := {|
  values := replicate (Z.to_nat SEGMENT_SIZE) rust_default;
  occupancy := 0;
|}.

Definition RegisterSegment_contains (s : RegisterSegment T) (offset : nat) : bool :=
  negb (Z.land (occupancy s) (u64_bit offset) =? 0).

(** [then_some] evaluates [values[offset]] whether or not the bit is set. *)
Definition RegisterSegment_get (s : RegisterSegment T) (offset : nat) : outcome E (option T) :=
  let? v := index (values s) offset in
  Ok (if RegisterSegment_contains s offset then Some v else None).

Definition RegisterSegment_set (offset : nat) (value : T)
  : stM (RegisterSegment T) E (option T) := fun s =>
  let mask := u64_bit offset in
  match (let? previous :=
           (if negb (Z.land (occupancy s) mask =? 0)
            then let? v := index (values s) offset in Ok (Some v) else Ok None) in
         let? vs := index_set (values s) offset value in
         Ok (previous, {| values := vs; occupancy := Z.lor (occupancy s) mask |})) with
  | Ok (previous, s') => (Ok previous, s')
  | Err e => (Err e, s)
  | Panic => (Panic, s)
  end.

Definition RegisterSegment_remove (offset : nat)
  : stM (RegisterSegment T) E (option T) := fun s =>
  let mask := u64_bit offset in
  if Z.land (occupancy s) mask =? 0 then (Ok None, s)
  else
    let s' := {| values := values s; occupancy := Z.land (occupancy s) (u64_not mask) |} in
    (let? v := index (values s) offset in Ok (Some v), s').

Definition RegisterSegment_is_empty (s : RegisterSegment T) : bool := occupancy s =? 0.

End segment.

(* ------------------------------------------------------------------ *)
(** * The sharded map *)

Record ShardedRegisterMap (T : Type) : Type := {
  shards : list (list (option (RegisterSegment T)));
  len : Z;
}.
Arguments shards {T} s.
Arguments len {T} s.
Arguments Build_ShardedRegisterMap {T} shards len.

Definition split_address (address : Z) : Z * nat :=
  (as_u16 (address / SEGMENT_SIZE), Z.to_nat (Z.land address SEGMENT_MASK)).
Definition shard_index (segment : Z) : nat := Z.to_nat (Z.land segment SHARD_MASK).
Definition slot_index (segment : Z) : nat := Z.to_nat (Z.shiftr segment SHARD_SHIFT).
Definition next_boundary (address : Z) : Z := (address / SEGMENT_SIZE + 1) * SEGMENT_SIZE.

#[global] Arguments split_address : simpl never.
#[global] Arguments shard_index : simpl never.
#[global] Arguments slot_index : simpl never.
#[global] Arguments next_boundary : simpl never.

Section sharded.
Context {T : Type} `{RustDefault T} {E : Type}.

Definition ShardedRegisterMap_new : ShardedRegisterMap T := {|
  shards := replicate (Z.to_nat SHARD_COUNT) (replicate (Z.to_nat SEGMENTS_PER_SHARD) None);
  len := 0;
|}.

(** Runs [f] on the slot of a segment, under its shard's lock. *)
Definition at_slot {A} (segment_key : Z) (f : stM (option (RegisterSegment T)) E A)
  : stM (ShardedRegisterMap T) E A := fun m =>
  match shards m !! shard_index segment_key with
  | Some shard =>
      match shard !! slot_index segment_key with
      | Some slot =>
          let '(r, slot') := f slot in
          (r, {| shards := <[shard_index segment_key :=
                               <[slot_index segment_key := slot']> shard]> (shards m);
                 len := len m |})
      | None => (Panic, m)
      end
  | None => (Panic, m)
  end.

(** [slot.get_or_insert_with(RegisterSegment::new)]. *)
Definition get_or_insert {A} (f : stM (RegisterSegment T) E A)
  : stM (option (RegisterSegment T)) E A := fun slot =>
  let '(r, s) := f (default RegisterSegment_new slot) in (r, Some s).

(** The slot of a segment, as a shared reference. *)
Definition read_slot (m : ShardedRegisterMap T) (segment_key : Z)
  : outcome E (option (RegisterSegment T)) :=
  let? shard := index (shards m) (shard_index segment_key) in
  index shard (slot_index segment_key).

(** [self.len.fetch_add(n)] and [self.len.fetch_sub(n)]: wrapping. *)
Definition fetch_add (n : Z) : stM (ShardedRegisterMap T) E unit := fun m =>
  (Ok tt, {| shards := shards m; len := (len m + n) mod usize_modulus |}).
Definition fetch_sub (n : Z) : stM (ShardedRegisterMap T) E unit := fun m =>
  (Ok tt, {| shards := shards m; len := (len m - n) mod usize_modulus |}).

Definition ShardedRegisterMap_insert (address : Z) (value : T)
  : stM (ShardedRegisterMap T) E (option T) :=
  let '(segment_key, offset) := split_address address in
  do? previous := at_slot segment_key (get_or_insert (RegisterSegment_set offset value)) in
  do? _ := (if is_some previous then st_ret tt else fetch_add 1) in
  st_ret previous.

(** The [for] loop over one chunk: sets consecutive offsets and counts the new entries. *)
Fixpoint set_run (offset : nat) (vs : list T) (inserted : Z)
  : stM (RegisterSegment T) E Z :=
  match vs with
  | [] => st_ret inserted
  | v :: vs' =>
      do? previous := RegisterSegment_set offset v in
      set_run (S offset) vs' (if is_some previous then inserted else inserted + 1)
  end.

Definition add_inserted (inserted : Z) : stM (ShardedRegisterMap T) E unit :=
  if 0 <? inserted then fetch_add inserted else st_ret tt.

(** [while current < end_exclusive] of [write_range]; [fuel] bounds the iterations. *)
Fixpoint write_range_loop (fuel : nat) (address : Z) (vs : list T) (current end_exclusive : Z)
  : stM (ShardedRegisterMap T) E unit :=
  if current <? end_exclusive then
    match fuel with
    | O => st_lift Panic
    | S fuel' =>
        let chunk_end := Z.min (next_boundary current) end_exclusive in
        let start_offset := current - address in
        let end_offset := start_offset + (chunk_end - current) in
        let '(segment_key, segment_offset) := split_address (as_u16 current) in
        do? chunk := st_lift (slice vs start_offset end_offset) in
        do? inserted := at_slot segment_key (get_or_insert (set_run segment_offset chunk 0)) in
        do? _ := add_inserted inserted in
        write_range_loop fuel' address vs chunk_end end_exclusive
    end
  else st_ret tt.

Definition ShardedRegisterMap_write_range (address : Z) (vs : list T)
  : stM (ShardedRegisterMap T) E unit :=
  match vs with
  | [] => st_ret tt
  | _ =>
      let end_exclusive := address + zlen vs in
      write_range_loop (length vs) address vs address end_exclusive
  end.

(** The chunk loop of [populate_range]: the value of each address comes from the [FnMut]
    closure [value_for], whose captured state [x] is threaded through. *)
Section populate.
Context {X : Type} (value_for : X → Z → T * X).

Fixpoint populate_run (x : X) (raw_addr : Z) (offset : nat) (n : nat) (inserted : Z)
  : stM (RegisterSegment T) E (Z * X) :=
  match n with
  | O => st_ret (inserted, x)
  | S n' =>
      let '(v, x') := value_for x (as_u16 raw_addr) in
      do? previous := RegisterSegment_set offset v in
      populate_run x' (raw_addr + 1) (S offset) n' (if is_some previous then inserted else inserted + 1)
  end.

Fixpoint populate_range_loop (fuel : nat) (x : X) (current end_exclusive : Z)
  : stM (ShardedRegisterMap T) E X :=
  if current <? end_exclusive then
    match fuel with
    | O => st_lift Panic
    | S fuel' =>
        let chunk_end := Z.min (next_boundary current) end_exclusive in
        let '(segment_key, start_offset) := split_address (as_u16 current) in
        do? (inserted, x') := at_slot segment_key (get_or_insert
           (populate_run x current start_offset (Z.to_nat (chunk_end - current)) 0)) in
        do? _ := add_inserted inserted in
        populate_range_loop fuel' x' chunk_end end_exclusive
    end
  else st_ret x.

Definition ShardedRegisterMap_populate_range (x : X) (start end_inclusive : Z)
  : stM (ShardedRegisterMap T) E X :=
  let end_exclusive := end_inclusive + 1 in
  populate_range_loop (Z.to_nat (end_exclusive - start)) x start end_exclusive.
End populate.

Fixpoint read_chunk (s : RegisterSegment T) (segment_offset result_offset n : nat)
    (result : list T) : outcome E (list T) :=
  match n with
  | O => Ok result
  | S n' =>
      let? value := RegisterSegment_get s segment_offset in
      let? result' :=
        (match value with
         | Some v => index_set result result_offset v
         | None => Ok result
         end) in
      read_chunk s (S segment_offset) (S result_offset) n' result'
  end.

Fixpoint read_range_loop (fuel : nat) (m : ShardedRegisterMap T) (address current end_exclusive : Z)
    (result : list T) : outcome E (list T) :=
  if current <? end_exclusive then
    match fuel with
    | O => Panic
    | S fuel' =>
        let chunk_end := Z.min (next_boundary current) end_exclusive in
        let '(segment_key, start_offset) := split_address (as_u16 current) in
        let? slot := read_slot m segment_key in
        let? result' :=
          (match slot with
           | Some s => read_chunk s start_offset (Z.to_nat (current - address))
                         (Z.to_nat (chunk_end - current)) result
           | None => Ok result
           end) in
        read_range_loop fuel' m address chunk_end end_exclusive result'
    end
  else Ok result.

Definition ShardedRegisterMap_read_range (m : ShardedRegisterMap T) (address quantity : Z) (d : T)
  : outcome E (list T) :=
  read_range_loop (Z.to_nat quantity) m address address (address + quantity)
    (replicate (Z.to_nat quantity) d).

Definition ShardedRegisterMap_read_one (m : ShardedRegisterMap T) (address : Z) (d : T)
  : outcome E T :=
  let '(segment_key, offset) := split_address address in
  let? slot := read_slot m segment_key in
  let? value := (match slot with Some s => RegisterSegment_get s offset | None => Ok None end) in
  Ok (default d value).

Definition ShardedRegisterMap_clear (m : ShardedRegisterMap T) : ShardedRegisterMap T := {|
  shards := map (map (fun _ => None)) (shards m);
  len := 0;
|}.

Definition ShardedRegisterMap_len (m : ShardedRegisterMap T) : Z := len m.

Definition ShardedRegisterMap_active_shard_count (m : ShardedRegisterMap T) : Z :=
  zlen (filter (fun shard => existsb is_some shard = true)
          (shards m)).

Definition ShardedRegisterMap_contains_key (m : ShardedRegisterMap T) (address : Z)
  : outcome E bool :=
  let '(segment_key, offset) := split_address address in
  let? slot := read_slot m segment_key in
  Ok (match slot with Some s => RegisterSegment_contains s offset | None => false end).

(** Removes the entry and, when it was the segment's last, the segment. *)
Definition remove_from_slot (offset : nat)
  : stM (option (RegisterSegment T)) E (option T) := fun slot =>
  match slot with
  | None => (Ok None, None)
  | Some s =>
      match RegisterSegment_remove offset s with
      | (Ok (Some v), s') => (Ok (Some v), if RegisterSegment_is_empty s' then None else Some s')
      | (r, s') => (r, Some s')
      end
  end.

Definition ShardedRegisterMap_remove (address : Z)
  : stM (ShardedRegisterMap T) E (option T) :=
  let '(segment_key, offset) := split_address address in
  do? previous := at_slot segment_key (remove_from_slot offset) in
  do? _ := (if is_some previous then fetch_sub 1 else st_ret tt) in
  st_ret previous.

Definition segment_entries (base : Z) (s : RegisterSegment T) : outcome E (list (Z * T)) :=
  let? l := omapM (fun offset =>
    let? value := RegisterSegment_get s offset in
    Ok (match value with
        | Some v => [(as_u16 (base + Z.of_nat offset), v)]
        | None => []
        end)) (seq 0 (Z.to_nat SEGMENT_SIZE)) in
  Ok (concat l).

Definition shard_entries (shard_idx : nat) (shard : list (option (RegisterSegment T)))
  : outcome E (list (Z * T)) :=
  let? l := omapM (fun '(slot_idx, segment) =>
    match segment with
    | Some s =>
        let segment_key := Z.lor (Z.shiftl (Z.of_nat slot_idx) SHARD_SHIFT) (Z.of_nat shard_idx) in
        segment_entries (segment_key * SEGMENT_SIZE) s
    | None => Ok []
    end) (imap (fun i y => (i, y)) shard) in
  Ok (concat l).

Definition ShardedRegisterMap_snapshot (m : ShardedRegisterMap T) : outcome E (list (Z * T)) :=
  let? l := omapM (fun '(shard_idx, shard) => shard_entries shard_idx shard)
              (imap (fun i y => (i, y)) (shards m)) in
  Ok (concat l).

End sharded.

(* ------------------------------------------------------------------ *)
(** * Segment lemmas *)

Section segment_lemmas.
Context {T : Type} `{RustDefault T} {E : Type}.
Implicit Types s : RegisterSegment T.

(** The entry of a segment at an offset. *)
Definition seg_lookup (s : RegisterSegment T) (off : nat) : option T :=
  if Z.testbit (occupancy s) (Z.of_nat off) then values s !! off else None.

Definition seg_ok (s : RegisterSegment T) : Prop :=
  length (values s) = 64%nat ∧ 0 ≤ occupancy s < 2 ^ 64.

Lemma land_u64_bit x off :
  negb (Z.land x (u64_bit off) =? 0) = Z.testbit x (Z.of_nat off).
Proof.
  unfold u64_bit. destruct (Z.testbit x (Z.of_nat off)) eqn:Hb.
  - apply negb_true_iff, Z.eqb_neq. intros H0.
    assert (Z.testbit (Z.land x (Z.shiftl 1 (Z.of_nat off))) (Z.of_nat off) = true) as H1.
    { rewrite Z.land_spec, Hb, Z.shiftl_spec, Z.sub_diag by lia. done. }
    by rewrite H0, Z.bits_0 in H1.
  - apply negb_false_iff, Z.eqb_eq, Z.bits_inj'. intros i Hi.
    rewrite Z.land_spec, Z.shiftl_spec, Z.bits_0 by lia.
    destruct (decide (i = Z.of_nat off)) as [->|Hne]; [by rewrite Hb|].
    destruct (decide (i < Z.of_nat off)); [by rewrite (Z.testbit_neg_r 1), andb_false_r by lia|].
    rewrite (testbit_high 1 1) by lia. apply andb_false_r.
Qed.

Lemma lor_u64_bit x off i :
  Z.testbit (Z.lor x (u64_bit off)) (Z.of_nat i)
  = (bool_decide (i = off) || Z.testbit x (Z.of_nat i)).
Proof.
  unfold u64_bit. rewrite Z.lor_spec, Z.shiftl_spec, orb_comm by lia. f_equal.
  case_bool_decide; subst; [by rewrite Z.sub_diag|].
  destruct (decide (i < off)%nat); [by rewrite Z.testbit_neg_r by lia|].
  apply (testbit_high 1 1); lia.
Qed.

Lemma clear_u64_bit x off i :
  (i < 64)%nat →
  Z.testbit (Z.land x (u64_not (u64_bit off))) (Z.of_nat i)
  = (negb (bool_decide (i = off)) && Z.testbit x (Z.of_nat i)).
Proof.
  intros Hi. unfold u64_not.
  rewrite Z.land_spec, Z.lxor_spec, Z.ones_spec_low, xorb_true_r, andb_comm by lia. do 2 f_equal.
  pose proof (lor_u64_bit 0 off i) as Hl. by rewrite Z.lor_0_l, Z.bits_0, orb_false_r in Hl.
Qed.

Lemma u64_bit_range off : (off < 64)%nat → 0 ≤ u64_bit off < 2 ^ 64.
Proof.
  intros. unfold u64_bit. rewrite Z.shiftl_mul_pow2, Z.mul_1_l by lia.
  split; [lia|]. apply Z.pow_lt_mono_r; lia.
Qed.

Lemma seg_new_ok : seg_ok RegisterSegment_new.
Proof. split; [done|simpl; lia]. Qed.
Lemma seg_lookup_new off : seg_lookup RegisterSegment_new off = None.
Proof. unfold seg_lookup. simpl. by rewrite Z.bits_0. Qed.

Lemma seg_contains_spec s off :
  seg_ok s → (off < 64)%nat → RegisterSegment_contains s off = is_some (seg_lookup s off).
Proof.
  intros [Hl _] Ho. unfold RegisterSegment_contains, seg_lookup. rewrite land_u64_bit.
  destruct (Z.testbit _ _); [|done].
  by destruct (lookup_lt_is_Some_2 (values s) off) as [v ->]; [lia|].
Qed.

Lemma seg_get_spec s off :
  seg_ok s → (off < 64)%nat → RegisterSegment_get (E:=E) s off = Ok (seg_lookup s off).
Proof.
  intros [Hl _] Ho. unfold RegisterSegment_get, RegisterSegment_contains, seg_lookup, index.
  rewrite land_u64_bit. by destruct (lookup_lt_is_Some_2 (values s) off) as [v ->]; [lia|].
Qed.

Lemma seg_set_spec s off v :
  seg_ok s → (off < 64)%nat →
  ∃ s', RegisterSegment_set (E:=E) off v s = (Ok (seg_lookup s off), s') ∧ seg_ok s' ∧
    ∀ i, seg_lookup s' i = if decide (i = off) then Some v else seg_lookup s i.
Proof.
  intros [Hl Hocc] Ho. unfold RegisterSegment_set, index, index_set.
  rewrite land_u64_bit. destruct (lookup_lt_is_Some_2 (values s) off) as [w Hw]; [lia|].
  rewrite Hw, decide_True by lia. unfold seg_lookup at 1. rewrite Hw.
  exists {| values := <[off:=v]> (values s); occupancy := Z.lor (occupancy s) (u64_bit off) |}.
  split; [by destruct (Z.testbit _ _)|]. split.
  - split; simpl; [by rewrite length_insert|]. apply lor_range; [lia|done|by apply u64_bit_range].
  - intros i. unfold seg_lookup. simpl. rewrite lor_u64_bit.
    case_decide; subst.
    + rewrite bool_decide_true by done. simpl. by rewrite list_lookup_insert_eq by lia.
    + rewrite bool_decide_false by done. simpl. by rewrite list_lookup_insert_ne by done.
Qed.

Lemma seg_remove_spec s off :
  seg_ok s → (off < 64)%nat →
  ∃ s', RegisterSegment_remove (E:=E) off s = (Ok (seg_lookup s off), s') ∧ seg_ok s' ∧
    ∀ i, (i < 64)%nat → seg_lookup s' i = if decide (i = off) then None else seg_lookup s i.
Proof.
  intros [Hl Hocc] Ho. unfold RegisterSegment_remove, index.
  pose proof (land_u64_bit (occupancy s) off) as Hb.
  destruct (lookup_lt_is_Some_2 (values s) off) as [w Hw]; [lia|].
  destruct (Z.land (occupancy s) (u64_bit off) =? 0); simpl in Hb.
  - exists s. unfold seg_lookup at 1. rewrite <- Hb. split; [done|]. split; [done|].
    intros i Hi. case_decide; [subst|done]. unfold seg_lookup. by rewrite <- Hb.
  - rewrite Hw. eexists. unfold seg_lookup at 1. rewrite <- Hb, Hw. split; [done|]. split.
    + split; [done|]. by apply land_range_l.
    + intros i Hi. unfold seg_lookup. simpl. rewrite clear_u64_bit by done.
      case_decide; subst; [by rewrite bool_decide_true|by rewrite bool_decide_false].
Qed.

(** A segment with no bit set has no entry. *)
Lemma seg_empty_lookup s i : RegisterSegment_is_empty s = true → seg_lookup s i = None.
Proof.
  unfold RegisterSegment_is_empty, seg_lookup. intros ->%Z.eqb_eq. by rewrite Z.bits_0.
Qed.

End segment_lemmas.

(* ------------------------------------------------------------------ *)
(** * Addresses *)

Definition key_ok (k : Z) : Prop := 0 ≤ k < 1024.

Lemma split_address_spec a :
  is_u16 a → split_address a = (a / 64, Z.to_nat (a mod 64)) ∧ key_ok (a / 64) ∧
    (Z.to_nat (a mod 64) < 64)%nat.
Proof.
  intros Ha. unfold split_address, key_ok, SEGMENT_MASK, SEGMENT_SIZE.
  change (64 - 1) with 63. rewrite land_63, as_u16_id by int_lia. repeat split; int_lia.
Qed.

Lemma shard_index_spec k : shard_index k = Z.to_nat (k mod 64).
Proof. unfold shard_index, SHARD_MASK, SHARD_COUNT. change (64 - 1) with 63. by rewrite land_63. Qed.

Lemma slot_index_spec k : slot_index k = Z.to_nat (k / 64).
Proof. unfold slot_index, SHARD_SHIFT. by rewrite shiftr_div by lia. Qed.

Lemma key_bounds k : key_ok k → (shard_index k < 64)%nat ∧ (slot_index k < 16)%nat.
Proof. unfold key_ok. rewrite shard_index_spec, slot_index_spec. intros. int_lia. Qed.

(** Shard and slot together determine the segment. *)
Lemma key_inj k k' :
  key_ok k → key_ok k' → shard_index k = shard_index k' → slot_index k = slot_index k' → k = k'.
Proof. unfold key_ok. rewrite !shard_index_spec, !slot_index_spec. intros. int_lia. Qed.

Lemma address_inj a b : a / 64 = b / 64 → Z.to_nat (a mod 64) = Z.to_nat (b mod 64) → a = b.
Proof. int_lia. Qed.

(* ------------------------------------------------------------------ *)
(** * Refinement of finite maps *)

Section refinement.
Context {T : Type} `{RustDefault T} {E : Type}.
Implicit Types (m : ShardedRegisterMap T) (g : gmap Z T) (s : RegisterSegment T).

Definition seg_at (m : ShardedRegisterMap T) (k : Z) : option (RegisterSegment T) :=
  shard ← shards m !! shard_index k; slot ← shard !! slot_index k; slot.

Definition put_slot (m : ShardedRegisterMap T) (k : Z) (o : option (RegisterSegment T))
  : ShardedRegisterMap T := {|
  shards := <[shard_index k := <[slot_index k := o]> (default [] (shards m !! shard_index k))]> (shards m);
  len := len m;
|}.

Definition shape (m : ShardedRegisterMap T) : Prop :=
  length (shards m) = 64%nat ∧ Forall (fun shard => length shard = 16%nat) (shards m) ∧
  ∀ k s, key_ok k → seg_at m k = Some s → seg_ok s.

(** The entry stored for an address. *)
Definition entry (m : ShardedRegisterMap T) (a : Z) : option T :=
  s ← seg_at m (a / 64); seg_lookup s (Z.to_nat (a mod 64)).

(** [m] stores [g], with [n] entries not yet counted by [len]. *)
Definition RepN (n : Z) (m : ShardedRegisterMap T) (g : gmap Z T) : Prop :=
  shape m ∧ (∀ a, is_u16 a → entry m a = g !! a) ∧ (∀ a, is_Some (g !! a) → is_u16 a) ∧
  len m + n = Z.of_nat (size g) ∧ 0 ≤ n.

Definition Rep : ShardedRegisterMap T → gmap Z T → Prop := RepN 0.

Lemma shard_lookup m k :
  shape m → key_ok k → ∃ shard, shards m !! shard_index k = Some shard ∧ length shard = 16%nat.
Proof.
  intros (Hl & Hf & _) Hk. destruct (key_bounds k Hk).
  destruct (lookup_lt_is_Some_2 (shards m) (shard_index k)) as [shard Hs]; [lia|].
  exists shard. split; [done|]. by eapply Forall_lookup_1 in Hf.
Qed.

Lemma slot_lookup m k :
  shape m → key_ok k →
  ∃ shard, shards m !! shard_index k = Some shard ∧ shard !! slot_index k = Some (seg_at m k).
Proof.
  intros Hm Hk. destruct (shard_lookup m k Hm Hk) as (shard & Hs & Hl). exists shard. split; [done|].
  destruct (key_bounds k Hk). unfold seg_at. rewrite Hs. simpl.
  by destruct (lookup_lt_is_Some_2 shard (slot_index k)) as [o ->]; [lia|].
Qed.

Lemma at_slot_spec {A} m k (f : stM (option (RegisterSegment T)) E A) :
  shape m → key_ok k →
  at_slot k f m = (fst (f (seg_at m k)), put_slot m k (snd (f (seg_at m k)))).
Proof.
  intros Hm Hk. destruct (slot_lookup m k Hm Hk) as (shard & Hs & Ho).
  unfold at_slot, put_slot. rewrite Hs, Ho. simpl. by destruct (f (seg_at m k)).
Qed.

Lemma read_slot_spec m k : shape m → key_ok k → read_slot (E:=E) m k = Ok (seg_at m k).
Proof.
  intros Hm Hk. destruct (slot_lookup m k Hm Hk) as (shard & Hs & Ho).
  unfold read_slot, index. rewrite Hs. simpl. by rewrite Ho.
Qed.

Lemma seg_at_put m k o k' :
  shape m → key_ok k → key_ok k' →
  seg_at (put_slot m k o) k' = if decide (k' = k) then o else seg_at m k'.
Proof.
  intros Hm Hk Hk'. destruct (shard_lookup m k Hm Hk) as (shard & Hs & Hl).
  destruct (key_bounds k Hk). destruct Hm as [Hlen _]. unfold seg_at, put_slot. simpl. rewrite Hs. simpl.
  destruct (decide (shard_index k' = shard_index k)) as [Hsi|Hsi].
  - rewrite Hsi, list_lookup_insert_eq by lia. simpl.
    destruct (decide (slot_index k' = slot_index k)) as [Hsl|Hsl].
    + rewrite Hsl, list_lookup_insert_eq by lia. rewrite decide_True by (by apply key_inj). by destruct o.
    + rewrite list_lookup_insert_ne by done. rewrite decide_False by congruence. by rewrite Hs.
  - rewrite list_lookup_insert_ne by done. by rewrite decide_False by congruence.
Qed.

Lemma shape_put m k o :
  shape m → key_ok k → (∀ s, o = Some s → seg_ok s) → shape (put_slot m k o).
Proof.
  intros Hm Hk Ho. destruct (shard_lookup m k Hm Hk) as (shard & Hs & Hl).
  split; [|split].
  - simpl. rewrite length_insert. apply Hm.
  - simpl. apply Forall_insert; [apply Hm|]. rewrite Hs. simpl. by rewrite length_insert.
  - intros k' s Hk'. rewrite seg_at_put by done. case_decide; [apply Ho|by apply Hm].
Qed.

Lemma entry_put m k o a :
  shape m → key_ok k → is_u16 a →
  entry (put_slot m k o) a =
    if decide (a / 64 = k) then s ← o; seg_lookup s (Z.to_nat (a mod 64)) else entry m a.
Proof.
  intros Hm Hk Ha. unfold entry. rewrite seg_at_put by (done || (unfold key_ok; int_lia)).
  by case_decide.
Qed.

(** Replacing a slot by a segment with the same entries changes nothing. *)
Lemma RepN_get_or_insert n m g k :
  RepN n m g → key_ok k → RepN n (put_slot m k (Some (default RegisterSegment_new (seg_at m k)))) g.
Proof.
  intros (Hm & He & Hd & Hn & ?) Hk. split; [|split; [|done]].
  - apply shape_put; [done..|]. intros s [= <-].
    destruct (seg_at m k) eqn:Hs; [by eapply Hm|apply seg_new_ok].
  - intros a Ha. rewrite entry_put by done. case_decide as Hak; [|by apply He].
    rewrite <- He by done. unfold entry. rewrite Hak.
    destruct (seg_at m k); [done|]. simpl. by rewrite seg_lookup_new.
Qed.

(** One [set] in the segment of address [a]. *)
Lemma RepN_set n m g s a v :
  RepN n (put_slot m (a / 64) (Some s)) g → shape m → seg_ok s → is_u16 a →
  ∃ s', RegisterSegment_set (E:=E) (Z.to_nat (a mod 64)) v s = (Ok (g !! a), s') ∧ seg_ok s' ∧
    RepN (if is_some (g !! a) then n else n + 1) (put_slot m (a / 64) (Some s')) (<[a := v]> g).
Proof.
  intros (Hm & He & Hd & Hn & ?) Hm0 Hs Ha. destruct (split_address_spec a Ha) as (_ & Hk & Ho).
  destruct (seg_set_spec (E:=E) s _ v Hs Ho) as (s' & Hset & Hs' & Hl').
  assert (seg_lookup s (Z.to_nat (a mod 64)) = g !! a) as Hga.
  { rewrite <- He, entry_put by done. by rewrite decide_True by done. }
  exists s'. rewrite Hset, Hga. split; [done|]. split; [done|]. split; [|split; [|split; [|split]]].
  - apply shape_put; [done..|]. by intros ? [= <-].
  - intros b Hb. rewrite entry_put by done. case_decide as Hbk.
    + simpl. rewrite Hl'. case_decide as Hbo.
      * rewrite (address_inj b a) by done. by rewrite lookup_insert_eq.
      * rewrite lookup_insert_ne by congruence. rewrite <- He, entry_put by done.
        by rewrite decide_True.
    + rewrite lookup_insert_ne by congruence. rewrite <- He, entry_put by done.
      by rewrite decide_False.
  - intros b. rewrite lookup_insert_is_Some. intros [->|[_ Hb]]; [done|by apply Hd].
  - rewrite map_size_insert. simpl in *. destruct (g !! a); simpl; lia.
  - destruct (g !! a); simpl; lia.
Qed.

(** Writing [vs] at consecutive addresses. *)
Fixpoint insert_run (g : gmap Z T) (a : Z) (vs : list T) : gmap Z T :=
  match vs with
  | [] => g
  | v :: vs' => insert_run (<[a := v]> g) (a + 1) vs'
  end.

Lemma insert_run_app g a vs ws :
  insert_run g a (vs ++ ws) = insert_run (insert_run g a vs) (a + zlen vs) ws.
Proof.
  revert g a. induction vs as [|v vs IH]; intros g a; simpl.
  - by rewrite zlen_nil, Z.add_0_r.
  - rewrite IH, zlen_cons. f_equal. lia.
Qed.

Lemma set_run_spec vs : ∀ n m g s a c,
  RepN n (put_slot m (a / 64) (Some s)) g → shape m → seg_ok s → is_u16 a →
  a mod 64 + zlen vs ≤ 64 →
  ∃ s' d, set_run (E:=E) (Z.to_nat (a mod 64)) vs c s = (Ok (c + d), s') ∧ 0 ≤ d ∧ seg_ok s' ∧
    RepN (n + d) (put_slot m (a / 64) (Some s')) (insert_run g a vs).
Proof.
  induction vs as [|v vs IH]; intros n m g s a c HR Hm Hs Ha Hlen.
  - exists s, 0. simpl. rewrite !Z.add_0_r. done.
  - destruct (RepN_set n m g s a v HR Hm Hs Ha) as (s1 & Hset & Hs1 & HR1).
    simpl. unfold st_bind. rewrite Hset. rewrite zlen_cons in Hlen. pose proof (zlen_nonneg vs).
    destruct vs as [|w vs].
    { exists s1, (if is_some (g !! a) then 0 else 1). simpl. unfold st_ret.
      destruct (is_some (g !! a)); rewrite ?Z.add_0_r;
        (split; [done|]; split; [lia|]; done). }
    rewrite zlen_cons in Hlen. pose proof (zlen_nonneg vs).
    replace (S (Z.to_nat (a mod 64))) with (Z.to_nat ((a + 1) mod 64)) by int_lia.
    assert ((a + 1) / 64 = a / 64) as Hdiv by int_lia.
    destruct (IH (if is_some (g !! a) then n else n + 1) m (<[a:=v]> g) s1 (a + 1)
      (if is_some (g !! a) then c else c + 1)) as (s2 & d & Hrun & Hd & Hs2 & HR2).
    + by rewrite Hdiv.
    + done.
    + done.
    + int_lia.
    + rewrite zlen_cons. int_lia.
    + rewrite Hrun, Hdiv in *. exists s2, (if is_some (g !! a) then d else 1 + d).
      destruct (is_some (g !! a)); [done|].
      replace (c + 1 + d) with (c + (1 + d)) by lia.
      replace (n + 1 + d) with (n + (1 + d)) in HR2 by lia.
      split; [done|]. split; [lia|]. done.
Qed.

Lemma RepN_size n m g : RepN n m g → Z.of_nat (size g) ≤ 65536.
Proof.
  intros (_ & _ & Hd & _). rewrite <- size_dom.
  transitivity (Z.of_nat (size (list_to_set (C:=gset Z) (zrange 0 (Z.to_nat 65536))))).
  - apply inj_le, subseteq_size. intros a Ha. apply elem_of_list_to_set, elem_of_zrange.
    apply elem_of_dom, Hd in Ha. rewrite Z2Nat.id by lia. int_lia.
  - rewrite size_list_to_set; [rewrite length_zrange; lia|]. unfold zrange.
    apply NoDup_fmap_2_strong; [intros; lia|apply NoDup_seq].
Qed.

Lemma RepN_add n m g : RepN n m g → Rep {| shards := shards m; len := (len m + n) mod usize_modulus |} g.
Proof.
  intros HR. pose proof (RepN_size _ _ _ HR). destruct HR as (Hm & He & Hd & Hn & Hpos).
  split; [exact Hm|split; [exact He|split; [exact Hd|]]]. simpl. rewrite Hn.
  rewrite Z.mod_small by int_lia. lia.
Qed.

Lemma add_inserted_spec n m g :
  RepN n m g → ∃ m', add_inserted (E:=E) n m = (Ok tt, m') ∧ Rep m' g.
Proof.
  intros HR. unfold add_inserted. destruct (Z.ltb_spec 0 n).
  - eexists. split; [done|]. by apply RepN_add.
  - exists m. split; [done|]. assert (n = 0) as -> by (destruct HR as (_&_&_&_&?); lia). done.
Qed.

(** ** Operations *)

Lemma seg_at_new k : seg_at ShardedRegisterMap_new k = None.
Proof.
  unfold seg_at, ShardedRegisterMap_new. cbn [shards].
  destruct (_ !! shard_index k) as [shard|] eqn:Hs; [|done]. cbn.
  apply lookup_replicate in Hs as [-> _].
  destruct (_ !! slot_index k) as [o|] eqn:Ho; [|done]. by apply lookup_replicate in Ho as [-> _].
Qed.

Lemma Rep_new : Rep ShardedRegisterMap_new ∅.
Proof.
  split; [|split; [|split; [|done]]].
  - split; [done|]. split; [by apply Forall_replicate|]. intros k s _. by rewrite seg_at_new.
  - intros a _. unfold entry. rewrite seg_at_new. by rewrite lookup_empty.
  - intros a. rewrite lookup_empty. by intros [].
Qed.

(** A chunk that stays inside the segment of [a]. *)
Lemma write_chunk_spec m g a vs :
  Rep m g → is_u16 a → a mod 64 + zlen vs ≤ 64 →
  ∃ m1 d m2, at_slot (a / 64) (get_or_insert (set_run (E:=E) (Z.to_nat (a mod 64)) vs 0)) m
             = (Ok d, m1) ∧ add_inserted (E:=E) d m1 = (Ok tt, m2) ∧ Rep m2 (insert_run g a vs).
Proof.
  intros HR Ha Hlen. destruct (split_address_spec a Ha) as (_ & Hk & _).
  assert (shape m) as Hm by apply HR.
  pose proof (RepN_get_or_insert 0 m g _ HR Hk) as HR0.
  destruct (set_run_spec vs _ _ _ _ _ 0 HR0 Hm) as (s' & d & Hrun & Hd & _ & HR1); [|done..|].
  { destruct (seg_at m (a / 64)) eqn:Hs; [by eapply Hm|apply seg_new_ok]. }
  destruct (add_inserted_spec _ _ _ HR1) as (m2 & Hadd & HR2).
  eexists _, d, m2. split; [|split; [exact Hadd|done]].
  rewrite at_slot_spec by done. unfold get_or_insert. by rewrite Hrun.
Qed.

Lemma Rep_insert m g a v :
  Rep m g → is_u16 a →
  ∃ m', ShardedRegisterMap_insert (E:=E) a v m = (Ok (g !! a), m') ∧ Rep m' (<[a := v]> g).
Proof.
  intros HR Ha. destruct (split_address_spec a Ha) as (Hsplit & Hk & _).
  assert (shape m) as Hm by apply HR.
  pose proof (RepN_get_or_insert 0 m g _ HR Hk) as HR0.
  destruct (RepN_set 0 m g _ a v HR0 Hm) as (s' & Hset & _ & HR1); [|done|].
  { destruct (seg_at m (a / 64)) eqn:Hs; [by eapply Hm|apply seg_new_ok]. }
  unfold ShardedRegisterMap_insert. rewrite Hsplit. unfold st_bind. rewrite at_slot_spec by done.
  unfold get_or_insert. rewrite Hset. simpl. destruct (g !! a); simpl in *.
  - eexists. split; [done|]. exact HR1.
  - eexists. split; [done|]. exact (RepN_add 1 _ _ HR1).
Qed.

Lemma chunk_facts current end_exclusive :
  0 ≤ current < end_exclusive → end_exclusive ≤ 65536 →
  let chunk_end := Z.min (next_boundary current) end_exclusive in
  is_u16 current ∧ as_u16 current = current ∧ current < chunk_end ≤ end_exclusive ∧
  current mod 64 + (chunk_end - current) ≤ 64.
Proof. unfold next_boundary, SEGMENT_SIZE. intros. repeat split; int_lia. Qed.

Lemma write_range_loop_spec fuel : ∀ m g address vs current,
  Rep m g → 0 ≤ address ≤ current → current ≤ address + zlen vs ≤ 65536 →
  address + zlen vs - current ≤ Z.of_nat fuel →
  ∃ m', write_range_loop (E:=E) fuel address vs current (address + zlen vs) m = (Ok tt, m') ∧
    Rep m' (insert_run g current (drop (Z.to_nat (current - address)) vs)).
Proof.
  induction fuel as [|fuel IH]; intros m g address vs current HR Haddr Hcur Hfuel.
  { simpl. rewrite (proj2 (Z.ltb_ge _ _)) by lia. exists m. split; [done|].
    by rewrite drop_ge by (unfold zlen in *; lia). }
  cbn [write_range_loop]. destruct (Z.ltb_spec current (address + zlen vs)).
  2: { exists m. split; [done|]. by rewrite drop_ge by (unfold zlen in *; lia). }
  destruct (chunk_facts current (address + zlen vs)) as (Hu16 & Has & Hend & Hfit); [lia..|].
  set (chunk_end := Z.min (next_boundary current) (address + zlen vs)) in *.
  rewrite Has, (proj1 (split_address_spec _ Hu16)).
  unfold st_bind at 1. unfold st_lift. rewrite slice_ok by lia.
  set (chunk := take _ (drop _ vs)).
  assert (zlen chunk = chunk_end - current) as Hchunk.
  { unfold chunk, zlen in *. rewrite length_take, length_drop. lia. }
  destruct (write_chunk_spec m g current chunk) as (m1 & d & m2 & Hrun & Hadd & HR2); [done..|lia|].
  unfold st_bind. rewrite Hrun, Hadd.
  destruct (IH m2 (insert_run g current chunk) address vs chunk_end) as (m' & Hloop & HR'); [done|lia..|].
  exists m'. split; [done|]. rewrite <- (take_drop (length chunk) (drop (Z.to_nat (current - address)) vs)).
  rewrite drop_drop, insert_run_app.
  replace (take (length chunk) _) with chunk.
  2: { unfold chunk. rewrite length_take, length_drop. f_equal. unfold zlen in *. lia. }
  rewrite Hchunk. replace (current + (chunk_end - current)) with chunk_end by lia.
  replace (Z.to_nat (current - address) + length chunk)%nat with (Z.to_nat (chunk_end - address))
    by (unfold zlen in *; lia). done.
Qed.

Lemma Rep_write_range m g a vs :
  Rep m g → 0 ≤ a → a + zlen vs ≤ 65536 →
  ∃ m', ShardedRegisterMap_write_range (E:=E) a vs m = (Ok tt, m') ∧ Rep m' (insert_run g a vs).
Proof.
  intros HR Ha Hlen. unfold ShardedRegisterMap_write_range. destruct vs as [|v vs].
  { by exists m. }
  destruct (write_range_loop_spec (length (v :: vs)) m g a (v :: vs) a) as (m' & Hrun & HR');
    [done|lia|rewrite zlen_cons in *; pose proof (zlen_nonneg vs); lia|unfold zlen; lia|].
  exists m'. split; [done|]. rewrite Z.sub_diag in HR'. exact HR'.
Qed.

(** The values a stateful closure produces for consecutive addresses. *)
Fixpoint generate {X} (value_for : X → Z → T * X) (x : X) (a : Z) (n : nat) : list T * X :=
  match n with
  | O => ([], x)
  | S n' =>
      let '(v, x1) := value_for x a in
      let '(vs, x2) := generate value_for x1 (a + 1) n' in (v :: vs, x2)
  end.

Lemma generate_length {X} (value_for : X → Z → T * X) n : ∀ x a,
  length (fst (generate value_for x a n)) = n.
Proof.
  induction n as [|n IH]; intros x a; [done|]. simpl. destruct (value_for x a) as [v x1].
  specialize (IH x1 (a + 1)). destruct (generate _ _ _ _). simpl in *. lia.
Qed.

Lemma generate_add {X} (value_for : X → Z → T * X) n n' : ∀ x a,
  generate value_for x a (n + n') =
  let '(vs, x1) := generate value_for x a n in
  let '(ws, x2) := generate value_for x1 (a + Z.of_nat n) n' in (vs ++ ws, x2).
Proof.
  induction n as [|n IH]; intros x a.
  - simpl. rewrite Z.add_0_r. by destruct (generate _ _ _ _).
  - simpl. destruct (value_for x a) as [v x1]. rewrite IH.
    replace (a + Z.of_nat (S n)) with (a + 1 + Z.of_nat n) by lia.
    destruct (generate value_for x1 (a + 1) n) as [vs x2]. by destruct (generate _ _ _ _).
Qed.

Lemma populate_run_set_run {X} (value_for : X → Z → T * X) n : ∀ x a off c s,
  0 ≤ a → a + Z.of_nat n ≤ 65536 →
  populate_run (E:=E) value_for x a off n c s =
  let '(vs, x') := generate value_for x a n in
  match set_run off vs c s with
  | (Ok d, s') => (Ok (d, x'), s')
  | (Err e, s') => (Err e, s')
  | (Panic, s') => (Panic, s')
  end.
Proof.
  induction n as [|n IH]; intros x a off c s Ha Hn; [done|]. simpl.
  rewrite as_u16_id by int_lia. destruct (value_for x a) as [v x1]. unfold st_bind.
  destruct (RegisterSegment_set off v s) as [[p|e|] s1] eqn:Hset.
  - rewrite IH by lia. destruct (generate value_for x1 (a + 1) n) as [vs x2]. simpl.
    unfold st_bind. by rewrite Hset.
  - destruct (generate value_for x1 (a + 1) n). simpl. unfold st_bind. by rewrite Hset.
  - destruct (generate value_for x1 (a + 1) n). simpl. unfold st_bind. by rewrite Hset.
Qed.

Lemma populate_range_loop_spec {X} (value_for : X → Z → T * X) fuel : ∀ m g x current end_exclusive,
  Rep m g → 0 ≤ current → end_exclusive ≤ 65536 →
  end_exclusive - current ≤ Z.of_nat fuel →
  let '(vs, x') := generate value_for x current (Z.to_nat (end_exclusive - current)) in
  ∃ m', populate_range_loop (E:=E) value_for fuel x current end_exclusive m = (Ok x', m') ∧
    Rep m' (insert_run g current vs).
Proof.
  induction fuel as [|fuel IH]; intros m g x current end_exclusive HR Hcur Hend Hfuel.
  { replace (Z.to_nat (end_exclusive - current)) with 0%nat by lia. simpl.
    rewrite (proj2 (Z.ltb_ge _ _)) by lia. by exists m. }
  cbn [populate_range_loop]. destruct (Z.ltb_spec current end_exclusive).
  2: { replace (Z.to_nat (end_exclusive - current)) with 0%nat by lia. by exists m. }
  destruct (chunk_facts current end_exclusive) as (Hu16 & Has & Hce & Hfit); [lia..|].
  set (chunk_end := Z.min (next_boundary current) end_exclusive) in *.
  rewrite Has, (proj1 (split_address_spec _ Hu16)).
  replace (Z.to_nat (end_exclusive - current))
    with (Z.to_nat (chunk_end - current) + Z.to_nat (end_exclusive - chunk_end))%nat by lia.
  rewrite generate_add.
  pose proof (generate_length value_for (Z.to_nat (chunk_end - current)) x current) as Hl.
  pose proof (populate_run_set_run value_for (Z.to_nat (chunk_end - current)) x current
    (Z.to_nat (current mod 64)) 0 (default RegisterSegment_new (seg_at m (current / 64)))
    ltac:(lia) ltac:(lia)) as Hpop.
  destruct (generate value_for x current (Z.to_nat (chunk_end - current))) as [vs x1] eqn:Hgen.
  simpl in Hl. rewrite Z2Nat.id by lia. replace (current + (chunk_end - current)) with chunk_end by lia.
  destruct (write_chunk_spec m g current vs) as (m1 & d & m2 & Hrun & Hadd & HR2);
    [done..|unfold zlen; lia|].
  assert (shape m) as Hm by apply HR. destruct (split_address_spec _ Hu16) as (_ & Hk & _).
  rewrite at_slot_spec in Hrun by done. unfold st_bind. rewrite at_slot_spec by done.
  unfold get_or_insert in *. rewrite Hpop.
  destruct (set_run _ vs 0 _) as [r s']. simpl in Hrun. simplify_eq. simpl. rewrite Hadd.
  specialize (IH m2 (insert_run g current vs) x1 chunk_end end_exclusive HR2
    ltac:(lia) ltac:(lia) ltac:(lia)).
  destruct (generate value_for x1 chunk_end _) as [ws x2].
  destruct IH as (m' & Hloop & HR'). exists m'. split; [done|].
  rewrite insert_run_app. unfold zlen. rewrite Hl, Z2Nat.id by lia.
  by replace (current + (chunk_end - current)) with chunk_end by lia.
Qed.

Lemma Rep_populate_range {X} (value_for : X → Z → T * X) m g x a b :
  Rep m g → is_u16 a → is_u16 b →
  let '(vs, x') := generate value_for x a (Z.to_nat (b + 1 - a)) in
  ∃ m', ShardedRegisterMap_populate_range (E:=E) value_for x a b m = (Ok x', m') ∧
    Rep m' (insert_run g a vs).
Proof.
  intros HR Ha Hb. unfold is_u16 in *.
  pose proof (populate_range_loop_spec value_for (Z.to_nat (b + 1 - a)) m g x a (b + 1) HR
    ltac:(lia) ltac:(lia) ltac:(lia)) as Hloop. exact Hloop.
Qed.

Lemma lookup_insert_run vs : ∀ g a x,
  insert_run g a vs !! x =
    if decide (a ≤ x < a + zlen vs) then vs !! Z.to_nat (x - a) else g !! x.
Proof.
  induction vs as [|v vs IH]; intros g a x; simpl.
  - rewrite zlen_nil, decide_False by lia. done.
  - rewrite IH, zlen_cons. pose proof (zlen_nonneg vs).
    destruct (decide (x = a)) as [->|Hne].
    + rewrite decide_False, decide_True, Z.sub_diag, lookup_insert_eq by lia. done.
    + rewrite lookup_insert_ne by done. repeat case_decide; try lia; [|done].
      by replace (Z.to_nat (x - a)) with (S (Z.to_nat (x - (a + 1)))) by lia.
Qed.

Lemma Rep_read_one m g a d :
  Rep m g → is_u16 a → ShardedRegisterMap_read_one (E:=E) m a d = Ok (default d (g !! a)).
Proof.
  intros (Hm & He & _) Ha. destruct (split_address_spec a Ha) as (Hsplit & Hk & Ho).
  unfold ShardedRegisterMap_read_one. rewrite Hsplit, read_slot_spec, <- He by done. simpl.
  unfold entry. destruct (seg_at m (a / 64)) as [s|] eqn:Hs; [|done]. simpl.
  by rewrite seg_get_spec by (done || by eapply Hm).
Qed.

Lemma Rep_contains_key m g a :
  Rep m g → is_u16 a → ShardedRegisterMap_contains_key (E:=E) m a = Ok (is_some (g !! a)).
Proof.
  intros (Hm & He & _) Ha. destruct (split_address_spec a Ha) as (Hsplit & Hk & Ho).
  unfold ShardedRegisterMap_contains_key. rewrite Hsplit, read_slot_spec, <- He by done. simpl.
  unfold entry. destruct (seg_at m (a / 64)) as [s|] eqn:Hs; [|done]. simpl.
  by rewrite seg_contains_spec by (done || by eapply Hm).
Qed.

Lemma read_chunk_spec s n : ∀ off roff (result : list T),
  seg_ok s → (off + n ≤ 64)%nat → (roff + n ≤ length result)%nat →
  ∃ result', read_chunk (E:=E) s off roff n result = Ok result' ∧ length result' = length result ∧
    ∀ i, result' !! i =
      if decide (roff ≤ i < roff + n)%nat
      then (match seg_lookup s (off + (i - roff)) with Some v => Some v | None => result !! i end)
      else result !! i.
Proof.
  induction n as [|n IH]; intros off roff result Hs Ho Hr.
  { exists result. split; [done|]. split; [done|]. intros i. by rewrite decide_False by lia. }
  simpl. rewrite seg_get_spec by (done || lia). simpl.
  set (r1 := match seg_lookup s off with Some v => <[roff := v]> result | None => result end).
  assert (length r1 = length result) as Hl1.
  { unfold r1. destruct (seg_lookup s off); [by rewrite length_insert|done]. }
  destruct (IH (S off) (S roff) r1 Hs) as (r' & Hrun & Hl' & Hi'); [lia..|].
  exists r'. split; [|split; [lia|]].
  - unfold index_set. unfold r1 in Hrun. destruct (seg_lookup s off).
    + by rewrite decide_True by lia.
    + done.
  - intros i. rewrite Hi'. destruct (decide (i = roff)) as [->|Hne].
    + rewrite decide_False, decide_True, Nat.sub_diag, Nat.add_0_r by lia. unfold r1.
      destruct (seg_lookup s off); [by rewrite list_lookup_insert_eq by lia|done].
    + assert (r1 !! i = result !! i) as ->.
      { unfold r1. destruct (seg_lookup s off); [by rewrite list_lookup_insert_ne|done]. }
      repeat case_decide; try lia; [|done].
      by replace (S off + (i - S roff))%nat with (off + (i - roff))%nat by lia.
Qed.

(** [result] after the chunks below [current]. *)
Definition read_inv (g : gmap Z T) (d : T) (address : Z) (q : nat) (current : Z) (result : list T)
  : Prop :=
  length result = q ∧ ∀ i, (i < q)%nat →
    result !! i = Some (if decide (address + Z.of_nat i < current)
                        then default d (g !! (address + Z.of_nat i)) else d).

Lemma read_slot_chunk m g d address q current chunk_end result :
  Rep m g → read_inv g d address q current result → 0 ≤ address ≤ current →
  is_u16 current → current < chunk_end ≤ address + Z.of_nat q → chunk_end ≤ 65536 →
  current mod 64 + (chunk_end - current) ≤ 64 →
  ∃ result',
    (match seg_at m (current / 64) with
     | Some s => read_chunk (E:=E) s (Z.to_nat (current mod 64)) (Z.to_nat (current - address))
                   (Z.to_nat (chunk_end - current)) result
     | None => Ok result
     end) = Ok result' ∧ read_inv g d address q chunk_end result'.
Proof.
  intros (Hm & He & _) [Hl Hi] Haddr Hu16 Hce Hmax Hfit.
  assert (∀ i, (i < q)%nat → current ≤ address + Z.of_nat i < chunk_end →
    g !! (address + Z.of_nat i) =
    s ← seg_at m (current / 64);
      seg_lookup s (Z.to_nat (current mod 64) + (i - Z.to_nat (current - address)))) as Hg.
  { intros i Hq Hin. rewrite <- He by int_lia. unfold entry.
    replace ((address + Z.of_nat i) / 64) with (current / 64) by int_lia.
    destruct (seg_at m (current / 64)); [|done]. simpl. f_equal. int_lia. }
  destruct (seg_at m (current / 64)) as [s|] eqn:Hs.
  - destruct (split_address_spec _ Hu16) as (_ & Hk & _).
    destruct (read_chunk_spec s (Z.to_nat (chunk_end - current)) (Z.to_nat (current mod 64))
      (Z.to_nat (current - address)) result) as (r' & Hrun & Hl' & Hi'); [by eapply Hm|int_lia|lia|].
    exists r'. split; [done|]. split; [lia|]. intros i Hq. rewrite Hi', Hi by done.
    repeat case_decide; try lia; try done.
    + rewrite Hg by lia. simpl. by destruct (seg_lookup s _).
  - exists result. split; [done|]. split; [done|]. intros i Hq. rewrite Hi by done.
    repeat case_decide; try lia; try done. by rewrite Hg by lia.
Qed.

Lemma read_range_loop_spec fuel : ∀ m g d address q current result,
  Rep m g → read_inv g d address q current result →
  0 ≤ address ≤ current → current ≤ address + Z.of_nat q ≤ 65536 →
  address + Z.of_nat q - current ≤ Z.of_nat fuel →
  ∃ result', read_range_loop (E:=E) fuel m address current (address + Z.of_nat q) result = Ok result' ∧
    read_inv g d address q (address + Z.of_nat q) result'.
Proof.
  induction fuel as [|fuel IH]; intros m g d address q current result HR Hinv Haddr Hcur Hfuel.
  { simpl. rewrite (proj2 (Z.ltb_ge _ _)) by lia. exists result. split; [done|].
    by replace (address + Z.of_nat q) with current by lia. }
  cbn [read_range_loop]. destruct (Z.ltb_spec current (address + Z.of_nat q)).
  2: { exists result. split; [done|]. by replace (address + Z.of_nat q) with current by lia. }
  destruct (chunk_facts current (address + Z.of_nat q)) as (Hu16 & Has & Hend & Hfit); [lia..|].
  set (chunk_end := Z.min (next_boundary current) (address + Z.of_nat q)) in *.
  destruct (split_address_spec _ Hu16) as (Hsplit & Hk & _).
  rewrite Has, Hsplit, read_slot_spec by (done || apply HR). cbn [obind].
  destruct (read_slot_chunk m g d address q current chunk_end result) as (r' & Hrun & Hinv');
    [done|done|done|done|lia|lia|done|].
  rewrite Hrun. cbn [obind]. apply (IH m g d); [done..|lia|lia|lia].
Qed.

Lemma Rep_read_range m g a q d :
  Rep m g → 0 ≤ a → 0 ≤ q → a + q ≤ 65536 →
  ShardedRegisterMap_read_range (E:=E) m a q d =
    Ok ((fun x => default d (g !! x)) <$> zrange a (Z.to_nat q)).
Proof.
  intros HR Ha Hq Hlen. unfold ShardedRegisterMap_read_range.
  destruct (read_range_loop_spec (Z.to_nat q) m g d a (Z.to_nat q) a (replicate (Z.to_nat q) d))
    as (r' & Hrun & [Hl Hi]); [done| |lia|lia|lia|].
  - split; [by rewrite length_replicate|]. intros i Hiq. rewrite lookup_replicate_2 by done.
    by rewrite decide_False by lia.
  - rewrite Z2Nat.id in Hrun by lia. rewrite Hrun. f_equal. apply list_eq. intros i.
    rewrite list_lookup_fmap, lookup_zrange. case_decide as Hiq; simpl.
    + rewrite Hi by done. by rewrite decide_True by lia.
    + apply lookup_ge_None_2. lia.
Qed.

Lemma seg_at_clear m k : seg_at (ShardedRegisterMap_clear m) k = None.
Proof.
  unfold seg_at, ShardedRegisterMap_clear. cbn [shards].
  rewrite (list_lookup_fmap (map (fun _ => None)) (shards m)).
  destruct (shards m !! shard_index k) as [shard|]; [|done]. cbn.
  rewrite (list_lookup_fmap (fun _ => None) shard). by destruct (shard !! slot_index k).
Qed.

Lemma Rep_clear m g : Rep m g → Rep (ShardedRegisterMap_clear m) ∅.
Proof.
  intros (Hm & _). split; [|split; [|split; [|done]]].
  - destruct Hm as (Hl & Hf & _). split; [by simpl; rewrite length_map|]. split.
    + simpl. apply Forall_map. eapply Forall_impl; [exact Hf|]. simpl. intros ??. by rewrite length_map.
    + intros k s _. by rewrite seg_at_clear.
  - intros a _. unfold entry. rewrite seg_at_clear. by rewrite lookup_empty.
  - intros a. rewrite lookup_empty. by intros [].
Qed.

(** A slot whose segment has lost the entry of [a]. *)
Lemma Rep_delete m g a o v :
  Rep m g → is_u16 a → g !! a = Some v → (∀ s, o = Some s → seg_ok s) →
  (∀ i, (i < 64)%nat → (s ← o; seg_lookup s i)
     = if decide (i = Z.to_nat (a mod 64)) then None else (s ← seg_at m (a / 64); seg_lookup s i)) →
  Rep {| shards := shards (put_slot m (a / 64) o); len := (len m - 1) mod usize_modulus |} (delete a g).
Proof.
  intros HR Ha Hga Ho Hi. pose proof (RepN_size _ _ _ HR). destruct HR as (Hm & He & Hd & Hn & _).
  destruct (split_address_spec a Ha) as (_ & Hk & _).
  assert (shape (put_slot m (a / 64) o)) as Hm' by by apply shape_put.
  split; [exact Hm'|]. split; [|split; [|split; [|done]]].
  - intros b Hb. change (entry (put_slot m (a / 64) o) b = delete a g !! b).
    rewrite entry_put by done. case_decide as Hbk.
    + rewrite Hi by int_lia. case_decide as Hbo.
      * rewrite (address_inj b a) by done. by rewrite lookup_delete_eq.
      * rewrite lookup_delete_ne by congruence. rewrite <- He by done. unfold entry. by rewrite Hbk.
    + rewrite lookup_delete_ne by congruence. by apply He.
  - intros b [w Hb]. apply Hd. apply lookup_delete_Some in Hb as [_ Hb]. by exists w.
  - simpl. rewrite map_size_delete_Some by done.
    assert (size g ≠ 0%nat) by (intros Hz%map_size_empty_inv; by rewrite Hz, lookup_empty in Hga).
    rewrite Z.mod_small by (unfold usize_modulus; lia). lia.
Qed.

Lemma Rep_remove m g a :
  Rep m g → is_u16 a →
  ∃ m', ShardedRegisterMap_remove (E:=E) a m = (Ok (g !! a), m') ∧ Rep m' (delete a g).
Proof.
  intros HR Ha. destruct (split_address_spec a Ha) as (Hsplit & Hk & Ho). assert (shape m) as Hm by apply HR.
  unfold ShardedRegisterMap_remove. rewrite Hsplit. unfold st_bind. rewrite at_slot_spec by done.
  assert (g !! a = s ← seg_at m (a / 64); seg_lookup s (Z.to_nat (a mod 64))) as Hga
    by by rewrite <- (proj1 (proj2 HR)).
  assert (put_slot m (a / 64) (seg_at m (a / 64)) = m) as Hself.
  { destruct (slot_lookup m _ Hm Hk) as (shard & Hs & Hsl). unfold put_slot. rewrite Hs. simpl.
    rewrite (list_insert_id shard), list_insert_id by done. by destruct m. }
  destruct (seg_at m (a / 64)) as [s|] eqn:Hs; cycle 1.
  { simpl in *. exists m. rewrite Hself, Hga. split; [done|]. by rewrite delete_id. }
  assert (seg_ok s) as Hok by by eapply Hm. simpl in Hga.
  destruct (seg_remove_spec (E:=E) s _ Hok Ho) as (s' & Hrm & Hs' & Hl').
  unfold remove_from_slot. rewrite Hrm, <- Hga. destruct (g !! a) as [v|] eqn:Hgv; simpl.
  - eexists. split; [done|]. eapply Rep_delete; [done..| |].
    + intros s1. destruct (RegisterSegment_is_empty s'); [done|]. by intros [= <-].
    + intros i Hi. rewrite Hs. simpl. rewrite <- Hl' by done.
      destruct (RegisterSegment_is_empty s') eqn:He; [by rewrite seg_empty_lookup|done].
  - assert (s' = s) as ->.
    { unfold RegisterSegment_remove in Hrm. destruct (Z.land _ _ =? 0); [congruence|].
      unfold index in Hrm. destruct (values s !! _); simpl in Hrm; congruence. }
    exists m. rewrite Hself. split; [done|]. by rewrite delete_id.
Qed.

(** ** Snapshots *)

Lemma omapM_concat {A B} (f : A → outcome E (list B)) (P : A → B → Prop) (l : list A) :
  (∀ x, x ∈ l → ∃ k, f x = Ok k ∧ ∀ b, b ∈ k ↔ P x b) →
  ∃ k, (let? ks := omapM f l in Ok (concat ks)) = Ok k ∧ ∀ b, b ∈ k ↔ ∃ x, x ∈ l ∧ P x b.
Proof.
  induction l as [|x l IH]; intros Hf.
  - exists []. split; [done|]. intros b. rewrite elem_of_nil. split; [done|].
    by intros (? & ?%elem_of_nil & _).
  - destruct (Hf x) as (k & Hk & HP); [by constructor|].
    destruct IH as (ks & Hks & HPs); [intros; apply Hf; by constructor|].
    simpl. rewrite Hk. simpl. destruct (omapM f l) as [kl| |]; simplify_eq/=.
    exists (k ++ concat kl). split; [done|]. intros b. rewrite elem_of_app, HP, HPs. split.
    + intros [?|(y & ? & ?)]; [exists x|exists y]; (split; [by constructor|done]).
    + intros (y & [->|?]%elem_of_cons & ?); [by left|right; by exists y].
Qed.

Lemma segment_entries_spec s base :
  seg_ok s → 0 ≤ base → base + 64 ≤ 65536 →
  ∃ l, segment_entries (E:=E) base s = Ok l ∧
    ∀ a v, (a, v) ∈ l ↔ base ≤ a < base + 64 ∧ seg_lookup s (Z.to_nat (a - base)) = Some v.
Proof.
  intros Hs Hb Hmax. unfold segment_entries. change (Z.to_nat SEGMENT_SIZE) with 64%nat.
  edestruct (omapM_concat (fun offset =>
      let? value := RegisterSegment_get (E:=E) s offset in
      Ok (match value with Some v => [(as_u16 (base + Z.of_nat offset), v)] | None => [] end))
    (fun off b => b.1 = base + Z.of_nat off ∧ seg_lookup s off = Some b.2) (seq 0 64))
    as (l & Hl & HP).
  { intros off [? Hoff]%elem_of_seq. rewrite seg_get_spec by (done || lia). simpl.
    eexists. split; [done|]. intros [a v]. rewrite as_u16_id by int_lia. simpl.
    destruct (seg_lookup s off) as [w|].
    - rewrite list_elem_of_singleton. split; [by intros [= -> ->]|by intros [-> [= ->]]].
    - rewrite elem_of_nil. split; [done|by intros [_ ?]]. }
  exists l. split; [exact Hl|]. intros a v. rewrite HP. cbn [fst snd]. split.
  - intros (off & [? Hoff]%elem_of_seq & -> & Hv). split; [lia|].
    by replace (Z.to_nat (base + Z.of_nat off - base)) with off by lia.
  - intros [Ha Hv]. exists (Z.to_nat (a - base)). split; [apply elem_of_seq; lia|]. split; [lia|done].
Qed.

Lemma elem_of_imap_pair {A} (l : list A) i x : (i, x) ∈ imap (fun i y => (i, y)) l ↔ l !! i = Some x.
Proof.
  rewrite list_elem_of_lookup. split.
  - intros (j & Hj). rewrite list_lookup_imap in Hj. apply fmap_Some in Hj as (y & Hy & [= -> ->]). done.
  - intros Hi. exists i. by rewrite list_lookup_imap, Hi.
Qed.

(** The segment number a snapshot rebuilds from its shard and slot. *)
Lemma snapshot_key i j :
  (i < 64)%nat → (j < 16)%nat →
  let k := Z.lor (Z.shiftl (Z.of_nat j) SHARD_SHIFT) (Z.of_nat i) in
  k = Z.of_nat j * 64 + Z.of_nat i ∧ key_ok k ∧ shard_index k = i ∧ slot_index k = j.
Proof.
  intros Hi Hj k. assert (k = Z.of_nat j * 64 + Z.of_nat i) as Hk.
  { unfold k, SHARD_SHIFT. rewrite lor_shiftl_add by lia. done. }
  rewrite shard_index_spec, slot_index_spec. unfold key_ok. rewrite Hk. repeat split; int_lia.
Qed.

(** [b] is an entry of segment [o], in slot [j] of shard [i]. *)
Definition slot_has (i j : nat) (o : option (RegisterSegment T)) (b : Z * T) : Prop :=
  (Z.of_nat j * 64 + Z.of_nat i) * 64 ≤ b.1 < (Z.of_nat j * 64 + Z.of_nat i) * 64 + 64 ∧
  (s ← o; seg_lookup s (Z.to_nat (b.1 mod 64))) = Some b.2.

Lemma shard_entries_spec m i shard :
  shape m → shards m !! i = Some shard →
  ∃ k, shard_entries (E:=E) i shard = Ok k ∧
    ∀ b, b ∈ k ↔ ∃ j o, shard !! j = Some o ∧ slot_has i j o b.
Proof.
  intros (Hlen & Hf & Hok) Hi. pose proof (lookup_lt_Some _ _ _ Hi) as Hi64.
  assert (length shard = 16%nat) as Hsl by by eapply Forall_lookup_1 in Hf.
  edestruct (omapM_concat (fun '(slot_idx, segment) => match segment with
      | Some s => segment_entries (E:=E)
          (Z.lor (Z.shiftl (Z.of_nat slot_idx) SHARD_SHIFT) (Z.of_nat i) * SEGMENT_SIZE) s
      | None => Ok [] end)
    (fun x b => slot_has i x.1 x.2 b) (imap (fun i y => (i, y)) shard)) as (k & Hk & HPk); cycle 1.
  { exists k. split; [exact Hk|]. intros b. rewrite HPk. split.
    - intros ([j o] & Hj%elem_of_imap_pair & ?). by exists j, o.
    - intros (j & o & Hj & ?). exists (j, o). split; [by apply elem_of_imap_pair|done]. }
  intros [j o] Hj%elem_of_imap_pair. pose proof (lookup_lt_Some _ _ _ Hj) as Hj16. simpl.
  destruct o as [s|].
  2: { exists []. split; [done|]. intros b. rewrite elem_of_nil. split; [done|]. by intros [_ ?]. }
  destruct (snapshot_key i j) as (Hkey & Hkok & Hsi & Hso); [lia..|].
  unfold SEGMENT_SIZE. rewrite Hkey in *. unfold key_ok in Hkok.
  destruct (segment_entries_spec s ((Z.of_nat j * 64 + Z.of_nat i) * 64)) as (k & Hk & Hin); [|lia..|].
  { apply (Hok (Z.of_nat j * 64 + Z.of_nat i)); [done|]. unfold seg_at.
    rewrite Hsi, Hi. simpl. by rewrite Hso, Hj. }
  exists k. split; [done|]. intros [a v]. rewrite Hin. unfold slot_has. simpl.
  split; intros [Ha <-]; (split; [done|f_equal; int_lia]).
Qed.

Lemma Rep_snapshot m g :
  Rep m g →
  ∃ l, ShardedRegisterMap_snapshot (E:=E) m = Ok l ∧ ∀ a v, (a, v) ∈ l ↔ g !! a = Some v.
Proof.
  intros (Hm & He & Hd & _). destruct (Hm) as (Hlen & Hf & _).
  edestruct (omapM_concat (fun '(i, shard) => shard_entries (E:=E) i shard)
    (fun x b => ∃ j o, x.2 !! j = Some o ∧ slot_has x.1 j o b)
    (imap (fun i y => (i, y)) (shards m))) as (l & Hl & HP).
  { intros [i shard] Hi%elem_of_imap_pair. by apply (shard_entries_spec m). }
  exists l. split; [exact Hl|]. intros a v. rewrite HP. split.
  - intros ([i shard] & Hi%elem_of_imap_pair & j & o & Hj & Ha & Hv). simpl in *.
    assert (length shard = 16%nat) as Hsl by by eapply Forall_lookup_1 in Hf.
    pose proof (lookup_lt_Some _ _ _ Hi). pose proof (lookup_lt_Some _ _ _ Hj).
    destruct (snapshot_key i j) as (Hkey & Hkok & Hsi & Hso); [lia..|]. rewrite Hkey in *.
    unfold key_ok in Hkok. rewrite <- He by int_lia. unfold entry, seg_at.
    replace (a / 64) with (Z.of_nat j * 64 + Z.of_nat i) by int_lia.
    rewrite Hsi, Hi. simpl. by rewrite Hso, Hj.
  - intros Hga. assert (is_u16 a) as Ha by (apply Hd; by exists v).
    destruct (split_address_spec a Ha) as (_ & Hk & _).
    destruct (slot_lookup m _ Hm Hk) as (shard & Hs & Hsl).
    exists (shard_index (a / 64), shard). split; [by apply elem_of_imap_pair|].
    exists (slot_index (a / 64)), (seg_at m (a / 64)). split; [done|].
    rewrite <- He in Hga by done. split; [|done].
    cbn [fst]. rewrite shard_index_spec, slot_index_spec. unfold key_ok in Hk. int_lia.
Qed.

(** Inserting the entries of a list, in order. *)
Definition insert_all (l : list (Z * T)) (g : gmap Z T) : gmap Z T :=
  foldl (fun g' '(a, v) => <[a := v]> g') g l.

Lemma insert_all_exact l g :
  (∀ a v, (a, v) ∈ l ↔ g !! a = Some v) → insert_all l ∅ = g.
Proof.
  intros Hl. apply map_eq. intros a.
  assert (∀ k g0, (∀ b w, (b, w) ∈ k → g !! b = Some w) →
    insert_all k g0 !! a = if decide (a ∈ k.*1) then g !! a else g0 !! a) as Haux.
  { induction k as [|[b w] k IH]; intros g0 Hk; [done|]. unfold insert_all in *. simpl.
    rewrite IH by (intros; apply Hk; by constructor).
    destruct (decide (a = b)) as [->|Hne].
    - rewrite lookup_insert_eq, (Hk b w) by constructor. repeat case_decide; rewrite ?elem_of_cons in *; naive_solver.
    - rewrite lookup_insert_ne by done. repeat case_decide; rewrite ?elem_of_cons in *; naive_solver. }
  rewrite Haux by (intros; by apply Hl). case_decide as Hin; [done|].
  rewrite lookup_empty. destruct (g !! a) as [v|] eqn:Hv; [|done].
  exfalso. apply Hin, list_elem_of_fmap. exists (a, v). split; [done|]. by apply Hl.
Qed.

End refinement.

(* ------------------------------------------------------------------ *)
(** * Trace refinement *)

(** A call on the map and the answer it gives. *)
Inductive map_op (T : Type) : Type :=
| MInsert (a : Z) (v : T)
| MRemove (a : Z)
| MWriteRange (a : Z) (vs : list T)
| MPopulate (a b : Z) (f : Z → T)
| MClear
| MReadOne (a : Z) (d : T)
| MReadRange (a q : Z) (d : T)
| MContains (a : Z)
| MLen.
Arguments MInsert {T}. Arguments MRemove {T}. Arguments MWriteRange {T}. Arguments MPopulate {T}.
Arguments MClear {T}. Arguments MReadOne {T}. Arguments MReadRange {T}. Arguments MContains {T}.
Arguments MLen {T}.

Inductive map_answer (T : Type) : Type :=
| AUnit
| APrevious (o : option T)
| AValues (vs : list T)
| ABool (b : bool)
| ALen (n : Z).
Arguments AUnit {T}. Arguments APrevious {T}. Arguments AValues {T}. Arguments ABool {T}.
Arguments ALen {T}.

Section traces.
Context {T : Type} `{RustDefault T} {E : Type}.

(** The calls the store makes: 16-bit addresses, spans that end inside the address space. *)
Definition map_op_ok (op : map_op T) : Prop :=
  match op with
  | MInsert a _ | MRemove a | MReadOne a _ | MContains a => is_u16 a
  | MWriteRange a vs => 0 ≤ a ∧ a + zlen vs ≤ 65536
  | MPopulate a b _ => is_u16 a ∧ is_u16 b
  | MReadRange a q _ => 0 ≤ a ∧ 0 ≤ q ∧ a + q ≤ 65536
  | MClear | MLen => True
  end.

Definition map_exec (op : map_op T) : stM (ShardedRegisterMap T) E (map_answer T) :=
  match op with
  | MInsert a v => st_map APrevious (ShardedRegisterMap_insert a v)
  | MRemove a => st_map APrevious (ShardedRegisterMap_remove a)
  | MWriteRange a vs => st_map (fun _ => AUnit) (ShardedRegisterMap_write_range a vs)
  | MPopulate a b f =>
      st_map (fun _ => AUnit) (ShardedRegisterMap_populate_range (fun x a => (f a, x)) tt a b)
  | MClear => fun m => (Ok AUnit, ShardedRegisterMap_clear m)
  | MReadOne a d => fun m =>
      (omap_ok (fun v => AValues [v]) (ShardedRegisterMap_read_one m a d), m)
  | MReadRange a q d => fun m => (omap_ok AValues (ShardedRegisterMap_read_range m a q d), m)
  | MContains a => fun m => (omap_ok ABool (ShardedRegisterMap_contains_key m a), m)
  | MLen => fun m => (Ok (ALen (ShardedRegisterMap_len m)), m)
  end.

(** The same call on a finite map. *)
Definition gmap_exec (op : map_op T) (g : gmap Z T) : map_answer T * gmap Z T :=
  match op with
  | MInsert a v => (APrevious (g !! a), <[a := v]> g)
  | MRemove a => (APrevious (g !! a), delete a g)
  | MWriteRange a vs => (AUnit, insert_run g a vs)
  | MPopulate a b f => (AUnit, insert_run g a (f <$> zrange a (Z.to_nat (b + 1 - a))))
  | MClear => (AUnit, ∅)
  | MReadOne a d => (AValues [default d (g !! a)], g)
  | MReadRange a q d => (AValues ((fun x => default d (g !! x)) <$> zrange a (Z.to_nat q)), g)
  | MContains a => (ABool (is_some (g !! a)), g)
  | MLen => (ALen (Z.of_nat (size g)), g)
  end.

Fixpoint map_exec_all (ops : list (map_op T)) : stM (ShardedRegisterMap T) E (list (map_answer T)) :=
  match ops with
  | [] => st_ret []
  | op :: ops' => do? r := map_exec op in do? rs := map_exec_all ops' in st_ret (r :: rs)
  end.

Fixpoint gmap_exec_all (ops : list (map_op T)) (g : gmap Z T) : list (map_answer T) * gmap Z T :=
  match ops with
  | [] => ([], g)
  | op :: ops' =>
      let '(r, g1) := gmap_exec op g in
      let '(rs, g2) := gmap_exec_all ops' g1 in (r :: rs, g2)
  end.

Lemma generate_pure (f : Z → T) n : ∀ a,
  generate (fun (x : unit) a => (f a, x)) tt a n = (f <$> zrange a n, tt).
Proof.
  induction n as [|n IH]; intros a; [done|]. cbn [generate]. rewrite IH. by rewrite zrange_S.
Qed.

Lemma map_exec_spec op m g :
  Rep m g → map_op_ok op →
  ∃ m', map_exec op m = (Ok (fst (gmap_exec op g)), m') ∧ Rep m' (snd (gmap_exec op g)).
Proof.
  intros HR Hop. destruct op as [a v|a|a vs|a b f| |a d|a q d|a|]; simpl in *; unfold st_map.
  - destruct (Rep_insert (E:=E) m g a v HR Hop) as (m' & -> & ?). by exists m'.
  - destruct (Rep_remove (E:=E) m g a HR Hop) as (m' & -> & ?). by exists m'.
  - destruct Hop. destruct (Rep_write_range (E:=E) m g a vs HR) as (m' & -> & ?); [done..|]. by exists m'.
  - destruct Hop as [Ha Hb].
    pose proof (Rep_populate_range (E:=E) (fun (x : unit) a => (f a, x)) m g tt a b HR Ha Hb) as Hp.
    rewrite generate_pure in Hp. destruct Hp as (m' & -> & ?). by exists m'.
  - eexists. split; [done|]. by eapply Rep_clear.
  - rewrite (Rep_read_one m g) by done. by exists m.
  - destruct Hop as (?&?&?). rewrite (Rep_read_range m g) by done. by exists m.
  - rewrite (Rep_contains_key m g) by done. by exists m.
  - exists m. split; [|done]. destruct HR as (_ & _ & _ & Hn & _).
    unfold ShardedRegisterMap_len. do 3 f_equal. lia.
Qed.

Lemma map_exec_all_spec ops : ∀ m g,
  Rep m g → Forall map_op_ok ops →
  ∃ m', map_exec_all ops m = (Ok (fst (gmap_exec_all ops g)), m') ∧ Rep m' (snd (gmap_exec_all ops g)).
Proof.
  induction ops as [|op ops IH]; intros m g HR Hops; [by exists m|].
  apply Forall_cons in Hops as [Hop Hops].
  destruct (map_exec_spec op m g HR Hop) as (m1 & Hrun & HR1). simpl. unfold st_bind. rewrite Hrun.
  destruct (gmap_exec op g) as [r g1]. destruct (IH m1 g1 HR1 Hops) as (m2 & Hrun2 & HR2).
  rewrite Hrun2. simpl in *. destruct (gmap_exec_all ops g1) as [rs g2]. by exists m2.
Qed.

End traces.

(** [load_snapshot]'s loop over one kind of register. *)
Fixpoint insert_entries {T} `{RustDefault T} {E} (l : list (Z * T))
  : stM (ShardedRegisterMap T) E unit :=
  match l with
  | [] => st_ret tt
  | (a, v) :: l' => do? _ := ShardedRegisterMap_insert a v in insert_entries l'
  end.

Lemma Rep_insert_entries {T} `{RustDefault T} {E} (l : list (Z * T)) : ∀ m g,
  Rep m g → Forall (fun e => is_u16 e.1) l →
  ∃ m', insert_entries (E:=E) l m = (Ok tt, m') ∧ Rep m' (insert_all l g).
Proof.
  induction l as [|[a v] l IH]; intros m g HR Hl; [by exists m|].
  apply Forall_cons in Hl as [Ha Hl]. destruct (Rep_insert (E:=E) m g a v HR Ha) as (m1 & Hi & HR1).
  destruct (IH m1 _ HR1 Hl) as (m2 & Hrun & HR2). exists m2. simpl. unfold st_bind. by rewrite Hi.
Qed.

(* ------------------------------------------------------------------ *)
(** * Properties *)

(** C2: the sharded sparse map refines a finite map.  Whatever sequence of calls is made on a
    fresh map, no call panics, every answer (previous values, values read, membership, the
    atomic entry counter) is the one a finite map gives, and the final state stands for the
    final finite map. *)
Theorem sharded_map_refines_gmap (ops : list (map_op Z)) :
  Forall map_op_ok ops →
  ∃ m', map_exec_all (E:=Empty_set) ops ShardedRegisterMap_new
          = (Ok (fst (gmap_exec_all ops ∅)), m') ∧
    Rep m' (snd (gmap_exec_all ops ∅)).
Proof. apply map_exec_all_spec, Rep_new. Qed.

Definition sample_ops : list (map_op Z) :=
  [MWriteRange 60 [1; 2; 3; 4; 5; 6; 7; 8]; MInsert 4096 9; MInsert 61 10; MRemove 63; MLen;
   MReadRange 59 10 0; MContains 63; MRemove 63; MClear; MLen].

Lemma sharded_map_refines_gmap_witness :
  Forall map_op_ok sample_ops ∧
  fst (gmap_exec_all sample_ops ∅) =
    [AUnit; APrevious None; APrevious (Some 2); APrevious (Some 4); ALen 8;
     AValues [0; 1; 10; 3; 0; 5; 6; 7; 8; 0]; ABool false; APrevious None; AUnit; ALen 0] ∧
  ∃ m', map_exec_all (E:=Empty_set) sample_ops ShardedRegisterMap_new
          = (Ok (fst (gmap_exec_all sample_ops ∅)), m') ∧
    Rep m' (snd (gmap_exec_all sample_ops ∅)).
Proof.
  assert (Forall map_op_ok sample_ops) as Hok by (repeat constructor; vm_compute; congruence).
  split; [exact Hok|]. split; [vm_compute; reflexivity|].
  exact (sharded_map_refines_gmap sample_ops Hok).
Defined.

(** a snapshot lists exactly the stored registers, and loading it into a fresh map restores
    the finite map the original stood for, entry counter included. *)
Theorem snapshot_restores (m : ShardedRegisterMap Z) (g : gmap Z Z) :
  Rep m g →
  ∃ entries m', ShardedRegisterMap_snapshot (E:=Empty_set) m = Ok entries ∧
    (∀ a v, (a, v) ∈ entries ↔ g !! a = Some v) ∧
    insert_entries (E:=Empty_set) entries ShardedRegisterMap_new = (Ok tt, m') ∧
    Rep m' g ∧ len m' = len m.
Proof.
  intros HR. destruct (Rep_snapshot (E:=Empty_set) m g HR) as (l & Hl & Hin).
  destruct (Rep_insert_entries (E:=Empty_set) l _ _ Rep_new) as (m' & Hrun & HR').
  { apply Forall_forall. intros [a v] Ha%Hin. apply HR. by exists v. }
  rewrite (insert_all_exact l g Hin) in HR'. exists l, m'. split_and!; [done..|].
  destruct HR as (_&_&_&?&_), HR' as (_&_&_&?&_). lia.
Qed.

Lemma snapshot_restores_witness :
  let m := snd (map_exec_all (E:=Empty_set) [MWriteRange 62 [7; 8; 9]] ShardedRegisterMap_new) in
  let g := insert_run ∅ 62 [7; 8; 9] in
  ∃ entries m', ShardedRegisterMap_snapshot (E:=Empty_set) m = Ok entries ∧
    (∀ a v, (a, v) ∈ entries ↔ g !! a = Some v) ∧
    insert_entries (E:=Empty_set) entries ShardedRegisterMap_new = (Ok tt, m') ∧
    Rep m' g ∧ len m' = len m.
Proof.
  intros m g. apply (snapshot_restores m g).
  destruct (map_exec_all_spec (E:=Empty_set) [MWriteRange 62 [7; 8; 9]] _ ∅ Rep_new) as (m' & Hrun & HR).
  - repeat constructor; vm_compute; congruence.
  - unfold m. rewrite Hrun. exact HR.
Defined.
