(* ===== verification/ModbusSparse.v ===== *)
(** The sparse register store: configuration ([registers/config.rs]), observation callbacks
    ([registers/callback.rs]) and [SparseRegisterStore] ([registers/sparse_store.rs]), with its
    implementation of [AddressSpace] ([context.rs]).

    Callbacks are code of the embedding program: the model records, in order, which callback
    is invoked with which arguments.  Random defaults are derived from the system clock by
    the source; the clock's readings are a parameter. *)

From stdpp Require Import sorting.
From S2P Require Import Prelude ModbusPdu ModbusSpace ModbusDense ModbusShards.

(* ------------------------------------------------------------------ *)
(** * Configuration *)

Record AddressRange : Type := { range_start : Z; range_end : Z }.

Definition AddressRange_new {E} (start end_ : Z) : outcome E AddressRange :=
  if start <=? end_ then Ok {| range_start := start; range_end := end_ |} else Panic.

Definition AddressRange_from_count (count : Z) : AddressRange :=
  {| range_start := 0; range_end := Z.max 0 (count - 1) |}.

(** [(end as u32) - (start as u32) + 1]. *)
Definition AddressRange_count `{BuildProfile} {E} (r : AddressRange) : outcome E Z :=
  let? d := checked_op 4294967296 (range_end r - range_start r) in
  checked_op 4294967296 (d + 1).

Definition AddressRange_contains (r : AddressRange) (address : Z) : bool :=
  (range_start r <=? address) && (address <=? range_end r).

(** [start.checked_add(count.saturating_sub(1))]. *)
Definition last_address (start count : Z) : option Z :=
  let e := start + Z.max 0 (count - 1) in if e <? 65536 then Some e else None.

Definition AddressRange_contains_range (r : AddressRange) (start count : Z) : bool :=
  if count =? 0 then false
  else match last_address start count with
       | None => false
       | Some e => (range_start r <=? start) && (e <=? range_end r)
       end.

Inductive AddressRangeError : Type :=
| ZeroQuantity
| Overflow
| BelowMinimum (address minimum : Z)
| AboveMaximum (address maximum : Z).

Definition AddressRange_validate (r : AddressRange) (start count : Z)
  : outcome AddressRangeError unit :=
  if count =? 0 then Err ZeroQuantity
  else
    let? e := ok_or (last_address start count) Overflow in
    if start <? range_start r then Err (BelowMinimum start (range_start r))
    else if range_end r <? e then Err (AboveMaximum e (range_end r))
    else Ok tt.

Inductive DefaultValue : Type :=
| DZero
| DValue (v : Z)
| DRandom
| DRandomRange (min max : Z).

(** The n-th reading of [SystemTime::now()], as nanoseconds since the epoch; [None] when the
    clock is set before it. *)
Class SystemClock : Type := { now : nat → option Z }.

Section defaults.
Context `{SystemClock}.

(** Each takes the number of clock readings made so far and returns the next one. *)
Definition rand_bool (tick : nat) : bool * nat :=
  (match now tick with Some d => d mod 2 =? 0 | None => false end, S tick).
Definition rand_u16 (tick : nat) : Z * nat :=
  (match now tick with Some d => as_u16 (Z.land d 65535) | None => 0 end, S tick).
Definition rand_range (min max : Z) (tick : nat) : Z * nat :=
  if max <=? min then (min, tick)
  else
    let range := max - min + 1 in
    let '(random, tick') := rand_u16 tick in
    (min + as_u16 (random mod range), tick').

Definition DefaultValue_get_bool (d : DefaultValue) (tick : nat) : bool * nat :=
  match d with
  | DZero => (false, tick)
  | DValue v => (negb (v =? 0), tick)
  | DRandom | DRandomRange _ _ => rand_bool tick
  end.

Definition DefaultValue_get_word (d : DefaultValue) (tick : nat) : Z * nat :=
  match d with
  | DZero => (0, tick)
  | DValue v => (v, tick)
  | DRandom => rand_u16 tick
  | DRandomRange min max => rand_range min max tick
  end.

End defaults.

Record RegisterRangeConfig : Type := {
  cfg_range : AddressRange;
  default_value : DefaultValue;
  cfg_enabled : bool;
}.

Record RegisterSnapshot : Type := {
  snap_coils : list (Z * bool);
  snap_discrete_inputs : list (Z * bool);
  snap_holding_registers : list (Z * Z);
  snap_input_registers : list (Z * Z);
}.

Inductive InitializationMode : Type :=
| Eager
| Lazy
| Pattern (pattern : list Z)
| Snapshot (s : RegisterSnapshot).

Record RegisterStoreConfig : Type := {
  cfg_coils : RegisterRangeConfig;
  cfg_discrete_inputs : RegisterRangeConfig;
  cfg_holding_registers : RegisterRangeConfig;
  cfg_input_registers : RegisterRangeConfig;
  initialization : InitializationMode;
  callbacks_enabled : bool;
}.

Definition RegisterRangeConfig_new (r : AddressRange) (d : DefaultValue) : RegisterRangeConfig :=
  {| cfg_range := r; default_value := d; cfg_enabled := true |}.

Definition RegisterStoreConfig_new (c d h i : AddressRange) : RegisterStoreConfig := {|
  cfg_coils := RegisterRangeConfig_new c DZero;
  cfg_discrete_inputs := RegisterRangeConfig_new d DZero;
  cfg_holding_registers := RegisterRangeConfig_new h DZero;
  cfg_input_registers := RegisterRangeConfig_new i DZero;
  initialization := Lazy;
  callbacks_enabled := true;
|}.

(** [AddressRange::new(0, max)] does not panic on a [u16]. *)
Definition RegisterStoreConfig_with_max_addresses (max : Z) : RegisterStoreConfig :=
  let range := {| range_start := 0; range_end := max |} in
  RegisterStoreConfig_new range range range range.

Definition RegisterStoreConfig_default : RegisterStoreConfig :=
  RegisterStoreConfig_with_max_addresses 9999.

Definition get_range_config (c : RegisterStoreConfig) (t : RegisterType) : RegisterRangeConfig :=
  match t with
  | Coil => cfg_coils c
  | DiscreteInput => cfg_discrete_inputs c
  | HoldingRegister => cfg_holding_registers c
  | InputRegister => cfg_input_registers c
  end.

Definition get_range (c : RegisterStoreConfig) (t : RegisterType) : AddressRange :=
  cfg_range (get_range_config c t).

Definition validate_range (c : RegisterStoreConfig) (t : RegisterType) (start count : Z)
  : outcome AddressRangeError unit :=
  AddressRange_validate (get_range c t) start count.

(* ------------------------------------------------------------------ *)
(** * Callbacks *)

Inductive RegisterValue : Type := VBool (b : bool) | VWord (w : Z).

Inductive CallbackPriority : Type := PriorityLow | PriorityNormal | PriorityHigh.

Definition priority_rank (p : CallbackPriority) : Z :=
  match p with PriorityLow => 0 | PriorityNormal => 50 | PriorityHigh => 100 end.

Record ReadContext : Type := { rc_type : RegisterType; rc_address : Z; rc_count : Z }.

Record WriteContext : Type := {
  wc_type : RegisterType;
  wc_address : Z;
  old_value : RegisterValue;
  new_value : RegisterValue;
}.

Record CallbackEntry : Type := { cb_priority : CallbackPriority; cb_id : string }.

Record CallbackManager : Type := {
  read_callbacks : list CallbackEntry;
  write_callbacks : list CallbackEntry;
  read_callback_count : Z;
  write_callback_count : Z;
  enabled : bool;
}.

Definition CallbackManager_new : CallbackManager :=
  {| read_callbacks := []; write_callbacks := []; read_callback_count := 0;
     write_callback_count := 0; enabled := true |}.

Definition CallbackManager_set_enabled (m : CallbackManager) (b : bool) : CallbackManager :=
  {| read_callbacks := read_callbacks m; write_callbacks := write_callbacks m;
     read_callback_count := read_callback_count m;
     write_callback_count := write_callback_count m; enabled := b |}.

(** [sort_by(|a, b| b.priority.cmp(&a.priority))]: a stable sort, highest priority first. *)
Fixpoint insert_by_priority (e : CallbackEntry) (l : list CallbackEntry) : list CallbackEntry :=
  match l with
  | [] => [e]
  | x :: l' =>
      if priority_rank (cb_priority x) <=? priority_rank (cb_priority e) then e :: l
      else x :: insert_by_priority e l'
  end.
Definition sort_by_priority (l : list CallbackEntry) : list CallbackEntry :=
  foldr insert_by_priority [] l.

Definition CallbackManager_add_read_callback (m : CallbackManager) (e : CallbackEntry)
  : CallbackManager :=
  let callbacks := sort_by_priority (read_callbacks m ++ [e]) in
  {| read_callbacks := callbacks; write_callbacks := write_callbacks m;
     read_callback_count := zlen callbacks;
     write_callback_count := write_callback_count m; enabled := enabled m |}.

Definition CallbackManager_add_write_callback (m : CallbackManager) (e : CallbackEntry)
  : CallbackManager :=
  let callbacks := sort_by_priority (write_callbacks m ++ [e]) in
  {| read_callbacks := read_callbacks m; write_callbacks := callbacks;
     read_callback_count := read_callback_count m;
     write_callback_count := zlen callbacks; enabled := enabled m |}.

Definition CallbackManager_remove_read_callback (m : CallbackManager) (id : string)
  : bool * CallbackManager :=
  let callbacks := filter (fun e => cb_id e ≠ id) (read_callbacks m) in
  (zlen callbacks <? zlen (read_callbacks m),
   {| read_callbacks := callbacks; write_callbacks := write_callbacks m;
      read_callback_count := zlen callbacks;
      write_callback_count := write_callback_count m; enabled := enabled m |}).

Definition CallbackManager_remove_write_callback (m : CallbackManager) (id : string)
  : bool * CallbackManager :=
  let callbacks := filter (fun e => cb_id e ≠ id) (write_callbacks m) in
  (zlen callbacks <? zlen (write_callbacks m),
   {| read_callbacks := read_callbacks m; write_callbacks := callbacks;
      read_callback_count := read_callback_count m;
      write_callback_count := zlen callbacks; enabled := enabled m |}).

Definition CallbackManager_clear (m : CallbackManager) : CallbackManager :=
  {| read_callbacks := []; write_callbacks := []; read_callback_count := 0;
     write_callback_count := 0; enabled := enabled m |}.

Definition has_read_callbacks (m : CallbackManager) : bool :=
  enabled m && (0 <? read_callback_count m).
Definition has_write_callbacks (m : CallbackManager) : bool :=
  enabled m && (0 <? write_callback_count m).

(** An invocation of a callback. *)
Inductive notification : Type :=
| OnRead (id : string) (ctx : ReadContext) (values : list RegisterValue)
| OnWrite (id : string) (ctx : WriteContext).

Definition CallbackManager_notify_read (m : CallbackManager) (ctx : ReadContext)
    (values : list RegisterValue) : list notification :=
  if negb (has_read_callbacks m) then []
  else (fun e => OnRead (cb_id e) ctx values) <$> read_callbacks m.

Definition CallbackManager_notify_write (m : CallbackManager) (ctx : WriteContext)
  : list notification :=
  if negb (has_write_callbacks m) then []
  else (fun e => OnWrite (cb_id e) ctx) <$> write_callbacks m.

(* ------------------------------------------------------------------ *)
(** * The store *)

Record SparseRegisterStore : Type := {
  sp_config : RegisterStoreConfig;
  sp_coils : ShardedRegisterMap bool;
  sp_discrete_inputs : ShardedRegisterMap bool;
  sp_holding_registers : ShardedRegisterMap Z;
  sp_input_registers : ShardedRegisterMap Z;
  sp_callbacks : CallbackManager;
  sp_ticks : nat;               (* clock readings made so far *)
  sp_log : list notification;   (* callback invocations, oldest first *)
}.

Definition with_coils (s : SparseRegisterStore) (m : ShardedRegisterMap bool) : SparseRegisterStore :=
  {| sp_config := sp_config s; sp_coils := m; sp_discrete_inputs := sp_discrete_inputs s;
     sp_holding_registers := sp_holding_registers s; sp_input_registers := sp_input_registers s;
     sp_callbacks := sp_callbacks s; sp_ticks := sp_ticks s; sp_log := sp_log s |}.
Definition with_discrete (s : SparseRegisterStore) (m : ShardedRegisterMap bool) : SparseRegisterStore :=
  {| sp_config := sp_config s; sp_coils := sp_coils s; sp_discrete_inputs := m;
     sp_holding_registers := sp_holding_registers s; sp_input_registers := sp_input_registers s;
     sp_callbacks := sp_callbacks s; sp_ticks := sp_ticks s; sp_log := sp_log s |}.
Definition with_holding (s : SparseRegisterStore) (m : ShardedRegisterMap Z) : SparseRegisterStore :=
  {| sp_config := sp_config s; sp_coils := sp_coils s; sp_discrete_inputs := sp_discrete_inputs s;
     sp_holding_registers := m; sp_input_registers := sp_input_registers s;
     sp_callbacks := sp_callbacks s; sp_ticks := sp_ticks s; sp_log := sp_log s |}.
Definition with_input (s : SparseRegisterStore) (m : ShardedRegisterMap Z) : SparseRegisterStore :=
  {| sp_config := sp_config s; sp_coils := sp_coils s; sp_discrete_inputs := sp_discrete_inputs s;
     sp_holding_registers := sp_holding_registers s; sp_input_registers := m;
     sp_callbacks := sp_callbacks s; sp_ticks := sp_ticks s; sp_log := sp_log s |}.
Definition with_callbacks (s : SparseRegisterStore) (m : CallbackManager) : SparseRegisterStore :=
  {| sp_config := sp_config s; sp_coils := sp_coils s; sp_discrete_inputs := sp_discrete_inputs s;
     sp_holding_registers := sp_holding_registers s; sp_input_registers := sp_input_registers s;
     sp_callbacks := m; sp_ticks := sp_ticks s; sp_log := sp_log s |}.
Definition with_ticks (s : SparseRegisterStore) (n : nat) : SparseRegisterStore :=
  {| sp_config := sp_config s; sp_coils := sp_coils s; sp_discrete_inputs := sp_discrete_inputs s;
     sp_holding_registers := sp_holding_registers s; sp_input_registers := sp_input_registers s;
     sp_callbacks := sp_callbacks s; sp_ticks := n; sp_log := sp_log s |}.
Definition add_log (s : SparseRegisterStore) (ns : list notification) : SparseRegisterStore :=
  {| sp_config := sp_config s; sp_coils := sp_coils s; sp_discrete_inputs := sp_discrete_inputs s;
     sp_holding_registers := sp_holding_registers s; sp_input_registers := sp_input_registers s;
     sp_callbacks := sp_callbacks s; sp_ticks := sp_ticks s; sp_log := sp_log s ++ ns |}.

(** A call on one of the four maps of the store. *)
Definition on_map {T E A} (get : SparseRegisterStore → ShardedRegisterMap T)
    (set : SparseRegisterStore → ShardedRegisterMap T → SparseRegisterStore)
    (op : stM (ShardedRegisterMap T) E A) : stM SparseRegisterStore E A := fun s =>
  let '(r, m) := op (get s) in (r, set s m).

(** A default, drawn from the clock when it is random. *)
Definition draw {T E} (f : nat → T * nat) : stM SparseRegisterStore E T := fun s =>
  let '(v, tick) := f (sp_ticks s) in (Ok v, with_ticks s tick).

Definition notify {E} (ns : SparseRegisterStore → list notification)
  : stM SparseRegisterStore E unit := fun s => (Ok tt, add_log s (ns s)).

Section sparse_ops.
Context `{BuildProfile} `{SystemClock}.

Definition sparse_validate (s : SparseRegisterStore) (t : RegisterType) (address quantity : Z)
  : outcome ModbusError unit :=
  map_err (fun e =>
    match e with
    | ZeroQuantity => InvalidQuantity 0 1
    | Overflow => InvalidAddress address 65535
    | BelowMinimum a _ | AboveMaximum a _ =>
        InvalidAddress a (range_end (get_range (sp_config s) t))
    end) (validate_range (sp_config s) t address quantity).

(** The read methods: validate, take the default, read one or a range, notify. *)
Definition sparse_read {T} (t : RegisterType) (get : SparseRegisterStore → ShardedRegisterMap T)
    (dflt : SparseRegisterStore → nat → T * nat) (wrap : T → RegisterValue) (address quantity : Z)
  : stM SparseRegisterStore ModbusError (list T) :=
  do? _ := (fun s => (sparse_validate s t address quantity, s)) in
  do? d := (fun s => draw (dflt s) s) in
  do? result := (fun s =>
    (if quantity =? 1
     then (let? v := ShardedRegisterMap_read_one (get s) address d in Ok [v])
     else ShardedRegisterMap_read_range (get s) address quantity d, s)) in
  do? _ := (fun s =>
    if has_read_callbacks (sp_callbacks s) then
      notify (fun s => CallbackManager_notify_read (sp_callbacks s)
                {| rc_type := t; rc_address := address; rc_count := quantity |}
                (wrap <$> result)) s
    else (Ok tt, s)) in
  st_ret result.

Definition SparseRegisterStore_read_coils (address quantity : Z) :=
  sparse_read Coil sp_coils
    (fun s => DefaultValue_get_bool (default_value (cfg_coils (sp_config s))))
    VBool address quantity.
Definition SparseRegisterStore_read_discrete_inputs (address quantity : Z) :=
  sparse_read DiscreteInput sp_discrete_inputs
    (fun s => DefaultValue_get_bool (default_value (cfg_discrete_inputs (sp_config s))))
    VBool address quantity.
Definition SparseRegisterStore_read_holding_registers (address quantity : Z) :=
  sparse_read HoldingRegister sp_holding_registers
    (fun s => DefaultValue_get_word (default_value (cfg_holding_registers (sp_config s))))
    VWord address quantity.
Definition SparseRegisterStore_read_input_registers (address quantity : Z) :=
  sparse_read InputRegister sp_input_registers
    (fun s => DefaultValue_get_word (default_value (cfg_input_registers (sp_config s))))
    VWord address quantity.

(** One observed write: the old value reported for an absent entry is the type's zero. *)
Definition observed_insert {T} `{RustDefault T} (t : RegisterType)
    (get : SparseRegisterStore → ShardedRegisterMap T)
    (set : SparseRegisterStore → ShardedRegisterMap T → SparseRegisterStore)
    (wrap : T → RegisterValue) (address : Z) (value : T)
  : stM SparseRegisterStore ModbusError unit :=
  do? previous := on_map get set (ShardedRegisterMap_insert address value) in
  notify (fun s => CallbackManager_notify_write (sp_callbacks s)
            {| wc_type := t; wc_address := address;
               old_value := wrap (default rust_default previous); new_value := wrap value |}).

Definition sparse_write_one {T} `{RustDefault T} (t : RegisterType)
    (get : SparseRegisterStore → ShardedRegisterMap T)
    (set : SparseRegisterStore → ShardedRegisterMap T → SparseRegisterStore)
    (wrap : T → RegisterValue) (address : Z) (value : T)
  : stM SparseRegisterStore ModbusError unit :=
  do? _ := (fun s => (sparse_validate s t address 1, s)) in
  fun s =>
    if has_write_callbacks (sp_callbacks s) then observed_insert t get set wrap address value s
    else st_map (fun _ => tt) (on_map get set (ShardedRegisterMap_insert address value)) s.

(** [for (offset, value) in values.iter().copied().enumerate()]. *)
Fixpoint observed_insert_loop {T} `{RustDefault T} (t : RegisterType)
    (get : SparseRegisterStore → ShardedRegisterMap T)
    (set : SparseRegisterStore → ShardedRegisterMap T → SparseRegisterStore)
    (wrap : T → RegisterValue) (address offset : Z) (values : list T)
  : stM SparseRegisterStore ModbusError unit :=
  match values with
  | [] => st_ret tt
  | value :: values' =>
      do? addr := st_lift (u16_add address (as_u16 offset)) in
      do? _ := observed_insert t get set wrap addr value in
      observed_insert_loop t get set wrap address (offset + 1) values'
  end.

Definition sparse_write_many {T} `{RustDefault T} (t : RegisterType)
    (get : SparseRegisterStore → ShardedRegisterMap T)
    (set : SparseRegisterStore → ShardedRegisterMap T → SparseRegisterStore)
    (wrap : T → RegisterValue) (address : Z) (values : list T)
  : stM SparseRegisterStore ModbusError unit :=
  do? _ := (fun s => (sparse_validate s t address (as_u16 (zlen values)), s)) in
  fun s =>
    if has_write_callbacks (sp_callbacks s)
    then observed_insert_loop t get set wrap address 0 values s
    else on_map get set (ShardedRegisterMap_write_range address values) s.

Definition SparseRegisterStore_write_coil (address : Z) (value : bool) :=
  sparse_write_one Coil sp_coils with_coils VBool address value.
Definition SparseRegisterStore_write_coils (address : Z) (values : list bool) :=
  sparse_write_many Coil sp_coils with_coils VBool address values.
Definition SparseRegisterStore_write_holding_register (address value : Z) :=
  sparse_write_one HoldingRegister sp_holding_registers with_holding VWord address value.
Definition SparseRegisterStore_write_holding_registers (address : Z) (values : list Z) :=
  sparse_write_many HoldingRegister sp_holding_registers with_holding VWord address values.

(** The simulator's own setters do not notify. *)
Definition SparseRegisterStore_set_discrete_input (address : Z) (value : bool)
  : stM SparseRegisterStore ModbusError unit :=
  do? _ := (fun s => (sparse_validate s DiscreteInput address 1, s)) in
  st_map (fun _ => tt)
    (on_map sp_discrete_inputs with_discrete (ShardedRegisterMap_insert address value)).
Definition SparseRegisterStore_set_discrete_inputs (address : Z) (values : list bool)
  : stM SparseRegisterStore ModbusError unit :=
  do? _ := (fun s => (sparse_validate s DiscreteInput address (as_u16 (zlen values)), s)) in
  on_map sp_discrete_inputs with_discrete (ShardedRegisterMap_write_range address values).
Definition SparseRegisterStore_set_input_register (address value : Z)
  : stM SparseRegisterStore ModbusError unit :=
  do? _ := (fun s => (sparse_validate s InputRegister address 1, s)) in
  st_map (fun _ => tt)
    (on_map sp_input_registers with_input (ShardedRegisterMap_insert address value)).
Definition SparseRegisterStore_set_input_registers (address : Z) (values : list Z)
  : stM SparseRegisterStore ModbusError unit :=
  do? _ := (fun s => (sparse_validate s InputRegister address (as_u16 (zlen values)), s)) in
  on_map sp_input_registers with_input (ShardedRegisterMap_write_range address values).

(** ** Initialisation *)

Definition populate_if {T} `{RustDefault T} {X}
    (get : SparseRegisterStore → ShardedRegisterMap T)
    (set : SparseRegisterStore → ShardedRegisterMap T → SparseRegisterStore)
    (c : RegisterRangeConfig) (value_for : X → Z → T * X) (x : X)
  : stM SparseRegisterStore ModbusError X :=
  if cfg_enabled c
  then on_map get set (ShardedRegisterMap_populate_range value_for x
                         (range_start (cfg_range c)) (range_end (cfg_range c)))
  else st_ret x.

(** A closure that draws a default for each address: its state is the clock position. *)
Definition populate_default {T} `{RustDefault T}
    (get : SparseRegisterStore → ShardedRegisterMap T)
    (set : SparseRegisterStore → ShardedRegisterMap T → SparseRegisterStore)
    (c : RegisterRangeConfig) (pick : DefaultValue → nat → T * nat)
  : stM SparseRegisterStore ModbusError unit := fun s =>
  match populate_if get set c (fun tick _ => pick (default_value c) tick) (sp_ticks s) s with
  | (Ok tick, s') => (Ok tt, with_ticks s' tick)
  | (Err e, s') => (Err e, s')
  | (Panic, s') => (Panic, s')
  end.

Definition initialize_eager : stM SparseRegisterStore ModbusError unit := fun s =>
  (do? _ := populate_default sp_coils with_coils (cfg_coils (sp_config s)) DefaultValue_get_bool in
   do? _ := populate_default sp_discrete_inputs with_discrete
              (cfg_discrete_inputs (sp_config s)) DefaultValue_get_bool in
   do? _ := populate_default sp_holding_registers with_holding
              (cfg_holding_registers (sp_config s)) DefaultValue_get_word in
   populate_default sp_input_registers with_input
     (cfg_input_registers (sp_config s)) DefaultValue_get_word) s.

(** The pattern closure: its state is [pattern_idx]; [pattern] is not empty here. *)
Definition pattern_value (pattern : list Z) (pattern_idx : nat) (_ : Z) : Z * nat :=
  (u16_from_be (default 0 (pattern !! (pattern_idx mod length pattern)%nat))
               (default 0 (pattern !! ((pattern_idx + 1) mod length pattern)%nat)),
   (pattern_idx + 2)%nat).

Definition initialize_pattern (pattern : list Z) : stM SparseRegisterStore ModbusError unit := fun s =>
  match pattern with
  | [] => (Ok tt, s)
  | _ =>
      (do? _ := populate_if sp_holding_registers with_holding
                  (cfg_holding_registers (sp_config s)) (pattern_value pattern) 0%nat in
       do? _ := populate_if sp_input_registers with_input
                  (cfg_input_registers (sp_config s)) (pattern_value pattern) 0%nat in
       st_ret tt) s
  end.

Definition load_snapshot (snapshot : RegisterSnapshot) : stM SparseRegisterStore ModbusError unit :=
  do? _ := on_map sp_coils with_coils (insert_entries (snap_coils snapshot)) in
  do? _ := on_map sp_discrete_inputs with_discrete (insert_entries (snap_discrete_inputs snapshot)) in
  do? _ := on_map sp_holding_registers with_holding
             (insert_entries (snap_holding_registers snapshot)) in
  on_map sp_input_registers with_input (insert_entries (snap_input_registers snapshot)).

Definition apply_initialization : stM SparseRegisterStore ModbusError unit :=
  do? _ := (fun s =>
    match initialization (sp_config s) with
    | Lazy => (Ok tt, s)
    | Eager => initialize_eager s
    | Pattern pattern => initialize_pattern pattern s
    | Snapshot snapshot => load_snapshot snapshot s
    end) in
  fun s => (Ok tt, with_callbacks s
    (CallbackManager_set_enabled (sp_callbacks s) (callbacks_enabled (sp_config s)))).

Definition empty_store (config : RegisterStoreConfig) : SparseRegisterStore := {|
  sp_config := config;
  sp_coils := ShardedRegisterMap_new;
  sp_discrete_inputs := ShardedRegisterMap_new;
  sp_holding_registers := ShardedRegisterMap_new;
  sp_input_registers := ShardedRegisterMap_new;
  sp_callbacks := CallbackManager_new;
  sp_ticks := 0;
  sp_log := [];
|}.

Definition SparseRegisterStore_new (config : RegisterStoreConfig)
  : outcome ModbusError unit * SparseRegisterStore :=
  apply_initialization (empty_store config).

(** ** Byte access and utilities *)

Definition SparseRegisterStore_read_bytes (t : RegisterType) (address byte_count : Z)
  : stM SparseRegisterStore ModbusError (list Z) :=
  let register_count := div_ceil byte_count 2 in
  do? registers :=
    (match t with
     | HoldingRegister => SparseRegisterStore_read_holding_registers address (as_u16 register_count)
     | InputRegister => SparseRegisterStore_read_input_registers address (as_u16 register_count)
     | _ => st_err (InvalidFunction (read_function t))
     end) in
  st_ret (take (Z.to_nat byte_count) (bytes_of_words registers)).

Definition SparseRegisterStore_write_bytes (address : Z) (bytes : list Z)
  : stM SparseRegisterStore ModbusError unit :=
  SparseRegisterStore_write_holding_registers address (registers_of_bytes bytes).

Definition SparseRegisterStore_count (s : SparseRegisterStore) (t : RegisterType)
  : outcome ModbusError Z := AddressRange_count (get_range (sp_config s) t).

Definition SparseRegisterStore_entry_count_for (s : SparseRegisterStore) (t : RegisterType) : Z :=
  match t with
  | Coil => ShardedRegisterMap_len (sp_coils s)
  | DiscreteInput => ShardedRegisterMap_len (sp_discrete_inputs s)
  | HoldingRegister => ShardedRegisterMap_len (sp_holding_registers s)
  | InputRegister => ShardedRegisterMap_len (sp_input_registers s)
  end.

Definition SparseRegisterStore_entry_count (s : SparseRegisterStore) : Z :=
  ShardedRegisterMap_len (sp_coils s) + ShardedRegisterMap_len (sp_discrete_inputs s)
  + ShardedRegisterMap_len (sp_holding_registers s) + ShardedRegisterMap_len (sp_input_registers s).

Definition SparseRegisterStore_memory_usage (s : SparseRegisterStore) : Z :=
  let mem {T} (m : ShardedRegisterMap T) (entry_size : Z) :=
    ShardedRegisterMap_active_shard_count m * 24 + ShardedRegisterMap_len m * entry_size in
  256 + mem (sp_coils s) 16 + mem (sp_discrete_inputs s) 16
  + mem (sp_holding_registers s) 24 + mem (sp_input_registers s) 24.

Definition SparseRegisterStore_reset : stM SparseRegisterStore ModbusError unit := fun s =>
  apply_initialization
    (with_input (with_holding (with_discrete (with_coils s
       (ShardedRegisterMap_clear (sp_coils s)))
       (ShardedRegisterMap_clear (sp_discrete_inputs s)))
       (ShardedRegisterMap_clear (sp_holding_registers s)))
       (ShardedRegisterMap_clear (sp_input_registers s))).

Definition SparseRegisterStore_snapshot (s : SparseRegisterStore)
  : outcome ModbusError RegisterSnapshot :=
  let? c := ShardedRegisterMap_snapshot (sp_coils s) in
  let? d := ShardedRegisterMap_snapshot (sp_discrete_inputs s) in
  let? h := ShardedRegisterMap_snapshot (sp_holding_registers s) in
  let? i := ShardedRegisterMap_snapshot (sp_input_registers s) in
  Ok {| snap_coils := c; snap_discrete_inputs := d;
        snap_holding_registers := h; snap_input_registers := i |}.

Definition SparseRegisterStore_exists (s : SparseRegisterStore) (t : RegisterType) (address : Z)
  : outcome ModbusError bool :=
  match t with
  | Coil => ShardedRegisterMap_contains_key (sp_coils s) address
  | DiscreteInput => ShardedRegisterMap_contains_key (sp_discrete_inputs s) address
  | HoldingRegister => ShardedRegisterMap_contains_key (sp_holding_registers s) address
  | InputRegister => ShardedRegisterMap_contains_key (sp_input_registers s) address
  end.

Definition SparseRegisterStore_remove (t : RegisterType) (address : Z)
  : stM SparseRegisterStore ModbusError bool :=
  match t with
  | Coil => st_map is_some (on_map sp_coils with_coils (ShardedRegisterMap_remove address))
  | DiscreteInput =>
      st_map is_some (on_map sp_discrete_inputs with_discrete (ShardedRegisterMap_remove address))
  | HoldingRegister =>
      st_map is_some (on_map sp_holding_registers with_holding (ShardedRegisterMap_remove address))
  | InputRegister =>
      st_map is_some (on_map sp_input_registers with_input (ShardedRegisterMap_remove address))
  end.

(** [impl AddressSpace for SparseRegisterStore]: the saturating register count, and the
    trait's own read-then-write mask write. *)
Definition sparse_trait_count (s : SparseRegisterStore) (t : RegisterType) : Z :=
  let range := get_range (sp_config s) t in
  Z.min 65535 (Z.max 0 (range_end range - range_start range) + 1).

#[global] Instance SparseRegisterStore_AddressSpace : AddressSpace SparseRegisterStore := {
  count := sparse_trait_count;
  read_coils := SparseRegisterStore_read_coils;
  write_coil := SparseRegisterStore_write_coil;
  write_coils := SparseRegisterStore_write_coils;
  read_discrete_inputs := SparseRegisterStore_read_discrete_inputs;
  set_discrete_input := SparseRegisterStore_set_discrete_input;
  read_holding_registers := SparseRegisterStore_read_holding_registers;
  write_holding_register := SparseRegisterStore_write_holding_register;
  write_holding_registers := SparseRegisterStore_write_holding_registers;
  read_input_registers := SparseRegisterStore_read_input_registers;
  set_input_register := SparseRegisterStore_set_input_register;
  set_input_registers := SparseRegisterStore_set_input_registers;
  mask_write_holding_register :=
    default_mask_write_holding_register SparseRegisterStore_read_holding_registers
      SparseRegisterStore_write_holding_register;
}.

End sparse_ops.

(* ------------------------------------------------------------------ *)
(** * Invariant and abstraction *)

(** Defaults that do not depend on the clock. *)
Definition deterministic (d : DefaultValue) : Prop :=
  match d with DZero => True | DValue v => is_u16 v | _ => False end.
Definition bool_of_default (d : DefaultValue) : bool :=
  match d with DValue v => negb (v =? 0) | _ => false end.
Definition word_of_default (d : DefaultValue) : Z :=
  match d with DValue v => v | _ => 0 end.

Definition range_ok (r : AddressRange) : Prop := is_u16 (range_start r) ∧ is_u16 (range_end r).

(** [m] stands for a finite map whose values satisfy [P]. *)
Definition stores {T} (P : T → Prop) (m : ShardedRegisterMap T) : Prop :=
  ∃ g, Rep m g ∧ map_Forall (fun _ v => P v) g.

Definition config_ok (c : RegisterStoreConfig) : Prop :=
  ∀ t, range_ok (get_range c t) ∧ deterministic (default_value (get_range_config c t)).

Definition sparse_wf (s : SparseRegisterStore) : Prop :=
  config_ok (sp_config s) ∧
  stores (fun _ => True) (sp_coils s) ∧ stores (fun _ => True) (sp_discrete_inputs s) ∧
  stores is_u16 (sp_holding_registers s) ∧ stores is_u16 (sp_input_registers s).

Definition sparse_valid (s : SparseRegisterStore) (t : RegisterType) (a q : Z) : bool :=
  (1 <=? q) && (range_start (get_range (sp_config s) t) <=? a)
  && (a + q - 1 <=? range_end (get_range (sp_config s) t)).

(** The value of an address: the stored one, or the configured default. *)
Definition stored {T} (d : T) (m : ShardedRegisterMap T) (a : Z) : T :=
  if decide (is_u16 a) then default d (entry m a) else d.

Definition sparse_default (s : SparseRegisterStore) (t : RegisterType) : DefaultValue :=
  default_value (get_range_config (sp_config s) t).

Definition sparse_bits (s : SparseRegisterStore) (t : RegisterType) : Z → bool :=
  match t with
  | Coil => stored (bool_of_default (sparse_default s Coil)) (sp_coils s)
  | DiscreteInput => stored (bool_of_default (sparse_default s DiscreteInput)) (sp_discrete_inputs s)
  | _ => fun _ => false
  end.
Definition sparse_words (s : SparseRegisterStore) (t : RegisterType) : Z → Z :=
  match t with
  | HoldingRegister => stored (word_of_default (sparse_default s HoldingRegister)) (sp_holding_registers s)
  | InputRegister => stored (word_of_default (sparse_default s InputRegister)) (sp_input_registers s)
  | _ => fun _ => 0
  end.

Definition sparse_view (s : SparseRegisterStore) : model := {|
  m_valid := sparse_valid s;
  m_bits := sparse_bits s;
  m_words := sparse_words s;
|}.

(* ------------------------------------------------------------------ *)
(** * The store meets the interface *)

(** One of the four maps as a field of the store. *)
Class MapField {T} (get : SparseRegisterStore → ShardedRegisterMap T)
    (set : SparseRegisterStore → ShardedRegisterMap T → SparseRegisterStore) : Prop := {
  get_set : ∀ s m, get (set s m) = m;
  set_set : ∀ s m m', set (set s m) m' = set s m';
  set_get : ∀ s, set s (get s) = s;
  get_log : ∀ s ns, get (add_log s ns) = get s;
  set_log : ∀ s m ns, set (add_log s ns) m = add_log (set s m) ns;
  config_set : ∀ s m, sp_config (set s m) = sp_config s;
  callbacks_set : ∀ s m, sp_callbacks (set s m) = sp_callbacks s;
  ticks_set : ∀ s m, sp_ticks (set s m) = sp_ticks s;
}.

#[global] Instance coils_field : MapField sp_coils with_coils.
Proof. by split; try intros []. Qed.
#[global] Instance discrete_field : MapField sp_discrete_inputs with_discrete.
Proof. by split; try intros []. Qed.
#[global] Instance holding_field : MapField sp_holding_registers with_holding.
Proof. by split; try intros []. Qed.
#[global] Instance input_field : MapField sp_input_registers with_input.
Proof. by split; try intros []. Qed.

Lemma add_log_add s ns ns' : add_log (add_log s ns) ns' = add_log s (ns ++ ns').
Proof. destruct s. unfold add_log. simpl. by rewrite app_assoc. Qed.

Lemma add_log_nil s : add_log s [] = s.
Proof. destruct s. unfold add_log. simpl. by rewrite app_nil_r. Qed.

Lemma sparse_validate_spec s t a q :
  config_ok (sp_config s) → is_u16 a → 0 ≤ q →
  answers (sparse_valid s t a q) tt (sparse_validate s t a q).
Proof.
  intros Hcfg Ha Hq. destruct (Hcfg t) as [[Hs He] _]. unfold is_u16 in *.
  unfold sparse_validate, validate_range, AddressRange_validate, sparse_valid, answers, last_address.
  destruct (Z.eqb_spec q 0) as [->|]; [by eexists|].
  rewrite (proj2 (Z.leb_le 1 q)) by lia. simpl. rewrite Z.max_r by lia.
  destruct (Z.ltb_spec (a + (q - 1)) 65536); simpl.
  - destruct (Z.ltb_spec a (range_start (get_range (sp_config s) t))).
    { rewrite (proj2 (Z.leb_gt _ a)) by lia. by eexists. }
    rewrite (proj2 (Z.leb_le _ a)) by lia. simpl.
    destruct (Z.ltb_spec (range_end (get_range (sp_config s) t)) (a + (q - 1))).
    { rewrite (proj2 (Z.leb_gt (a + q - 1) _)) by lia. by eexists. }
    by rewrite (proj2 (Z.leb_le (a + q - 1) _)) by lia.
  - rewrite (proj2 (Z.leb_gt (a + q - 1) _)), andb_false_r by lia. by eexists.
Qed.

Lemma sparse_valid_bounds s t a q :
  config_ok (sp_config s) → sparse_valid s t a q = true → 1 ≤ q ∧ 0 ≤ a ∧ a + q ≤ 65536.
Proof.
  intros Hcfg. destruct (Hcfg t) as [[Hs He] _]. unfold sparse_valid, is_u16 in *. intros. bool_to_prop. lia.
Qed.

Lemma stored_rep {T} (d : T) m g a : Rep m g → is_u16 a → stored d m a = default d (g !! a).
Proof.
  intros (_ & He & _) Ha. unfold stored. by rewrite decide_True, He.
Qed.

Lemma stored_insert_run {T} (d : T) m m' g a vs x :
  Rep m g → Rep m' (insert_run g a vs) → 0 ≤ a → a + zlen vs ≤ 65536 →
  stored d m' x = overwrite (stored d m) a vs x.
Proof.
  intros HR HR' Ha Hlen. unfold overwrite.
  destruct (decide (is_u16 x)) as [Hx|Hx].
  - rewrite (stored_rep d m' _ x HR' Hx), lookup_insert_run.
    destruct (Z.leb_spec a x), (Z.ltb_spec x (a + zlen vs)); simpl;
      case_decide; try lia; try (by rewrite (stored_rep d m g)).
    destruct (lookup_lt_is_Some_2 vs (Z.to_nat (x - a))) as [v ->]; [unfold zlen in *; lia|done].
  - assert ((a <=? x) && (x <? a + zlen vs) = false) as ->.
    { unfold is_u16 in Hx. destruct (Z.leb_spec a x), (Z.ltb_spec x (a + zlen vs)); simpl; lia || done. }
    unfold stored. by rewrite !decide_False.
Qed.

Section laws.
Context `{BuildProfile} `{SystemClock}.

Lemma sparse_read_law {T} (t : RegisterType) (get : SparseRegisterStore → ShardedRegisterMap T)
    dflt wrap (d : T) s a q :
  config_ok (sp_config s) → is_u16 a → 0 ≤ q →
  (∃ g, Rep (get s) g) → (∀ s tick, get (with_ticks s tick) = get s) →
  (∀ n, dflt s n = (d, n)) →
  ∃ ns, let '(r, s') := sparse_read t get dflt wrap a q s in
    answers (sparse_valid s t a q) (stored d (get s) <$> zrange a (Z.to_nat q)) r ∧ s' = add_log s ns.
Proof.
  intros Hcfg Ha Hq (g & HR) Htick Hd. pose proof (sparse_validate_spec s t a q Hcfg Ha Hq) as Hv.
  unfold sparse_read, st_bind, answers in *. destruct (sparse_valid s t a q) eqn:Hvalid.
  2: { destruct Hv as (e & -> & He). exists []. rewrite add_log_nil. split; [by exists e|done]. }
  destruct (sparse_valid_bounds s t a q Hcfg Hvalid) as (? & ? & ?). rewrite Hv.
  unfold draw. rewrite Hd. assert (with_ticks s (sp_ticks s) = s) as -> by by destruct s.
  assert ((if q =? 1 then let? v := ShardedRegisterMap_read_one (get s) a d in Ok [v]
           else ShardedRegisterMap_read_range (get s) a q d)
          = @Ok ModbusError _ (stored d (get s) <$> zrange a (Z.to_nat q))) as ->.
  { destruct (Z.eqb_spec q 1) as [->|].
    - rewrite (Rep_read_one _ g) by done. cbn [obind]. change (Z.to_nat 1) with 1%nat.
      rewrite zrange_S. cbn. by rewrite (stored_rep d _ g).
    - rewrite (Rep_read_range _ g) by lia || done. f_equal. apply list_fmap_ext.
      intros i x Hx. rewrite lookup_zrange in Hx. case_decide; simplify_eq.
      symmetry. apply stored_rep; [done|]. unfold is_u16 in *. lia. }
  destruct (has_read_callbacks (sp_callbacks s)).
  - eexists. split; [done|]. reflexivity.
  - exists []. rewrite add_log_nil. done.
Qed.

Section writes.
Context {T : Type} `{RustDefault T}.
Context (get : SparseRegisterStore → ShardedRegisterMap T).
Context (set : SparseRegisterStore → ShardedRegisterMap T → SparseRegisterStore).
Context `{!MapField get set}.

Lemma observed_insert_spec t wrap s g a v :
  Rep (get s) g → is_u16 a →
  ∃ m' ns, observed_insert t get set wrap a v s = (Ok tt, add_log (set s m') ns) ∧
    Rep m' (<[a := v]> g).
Proof.
  intros HR Ha. destruct (Rep_insert (E:=ModbusError) (get s) g a v HR Ha) as (m' & Hi & HR').
  unfold observed_insert, st_bind, on_map, notify. rewrite Hi. by eexists m', _.
Qed.

Lemma observed_insert_loop_spec t wrap vs : ∀ s g a off,
  Rep (get s) g → 0 ≤ a → 0 ≤ off → a + off + zlen vs ≤ 65536 →
  ∃ m' ns, observed_insert_loop t get set wrap a off vs s = (Ok tt, add_log (set s m') ns) ∧
    Rep m' (insert_run g (a + off) vs).
Proof.
  induction vs as [|v vs IH]; intros s g a off HR Ha Hoff Hlen.
  { exists (get s), []. by rewrite set_get, add_log_nil. }
  rewrite zlen_cons in Hlen. pose proof (zlen_nonneg vs).
  simpl. unfold st_bind at 1. unfold st_lift. rewrite as_u16_id by (unfold is_u16; lia).
  rewrite u16_add_exact by lia.
  destruct (observed_insert_spec t wrap s g (a + off) v HR) as (m1 & ns1 & Hi & HR1);
    [unfold is_u16; lia|].
  unfold st_bind. rewrite Hi.
  destruct (IH (add_log (set s m1) ns1) (<[a + off := v]> g) a (off + 1)) as (m2 & ns2 & Hrun & HR2);
    [by rewrite get_log, get_set|lia..|].
  exists m2, (ns1 ++ ns2). rewrite Hrun, set_log, set_set, add_log_add. split; [done|].
  by replace (a + off + 1) with (a + (off + 1)) by lia.
Qed.

Lemma sparse_write_many_spec t wrap s g a vs :
  config_ok (sp_config s) → Rep (get s) g → is_u16 a → zlen vs ≤ max_quantity →
  if sparse_valid s t a (zlen vs) then
    ∃ m' ns, sparse_write_many t get set wrap a vs s = (Ok tt, add_log (set s m') ns) ∧
      Rep m' (insert_run g a vs) ∧ 0 ≤ a ∧ a + zlen vs ≤ 65536
  else ∃ e, sparse_write_many t get set wrap a vs s = (Err e, s) ∧ address_error e.
Proof.
  intros Hcfg HR Ha Hq. pose proof (zlen_nonneg vs).
  pose proof (sparse_validate_spec s t a (zlen vs) Hcfg Ha ltac:(lia)) as Hv.
  unfold sparse_write_many, st_bind, answers in *.
  rewrite as_u16_id by (unfold is_u16, max_quantity in *; lia).
  destruct (sparse_valid s t a (zlen vs)) eqn:Hvalid.
  2: { destruct Hv as (e & -> & He). by exists e. }
  destruct (sparse_valid_bounds s t a _ Hcfg Hvalid) as (? & ? & ?). rewrite Hv.
  destruct (has_write_callbacks (sp_callbacks s)).
  - destruct (observed_insert_loop_spec t wrap vs s g a 0) as (m' & ns & Hrun & HR'); [done|lia..|].
    exists m', ns. rewrite Z.add_0_r in HR'. done.
  - destruct (Rep_write_range (E:=ModbusError) (get s) g a vs HR) as (m' & Hrun & HR'); [lia..|].
    exists m', []. unfold on_map. rewrite Hrun, add_log_nil. done.
Qed.

Lemma sparse_write_one_spec t wrap s g a v :
  config_ok (sp_config s) → Rep (get s) g → is_u16 a →
  if sparse_valid s t a 1 then
    ∃ m' ns, sparse_write_one t get set wrap a v s = (Ok tt, add_log (set s m') ns) ∧
      Rep m' (<[a := v]> g)
  else ∃ e, sparse_write_one t get set wrap a v s = (Err e, s) ∧ address_error e.
Proof.
  intros Hcfg HR Ha. pose proof (sparse_validate_spec s t a 1 Hcfg Ha ltac:(lia)) as Hv.
  unfold sparse_write_one, st_bind, answers in *.
  destruct (sparse_valid s t a 1) eqn:Hvalid.
  2: { destruct Hv as (e & -> & He). by exists e. }
  rewrite Hv. destruct (has_write_callbacks (sp_callbacks s)).
  - by apply observed_insert_spec.
  - destruct (Rep_insert (E:=ModbusError) (get s) g a v HR Ha) as (m' & Hi & HR').
    exists m', []. unfold st_map, on_map. rewrite Hi, add_log_nil. done.
Qed.
End writes.
End laws.

Lemma map_Forall_insert_run {T} (P : T → Prop) vs : ∀ (g : gmap Z T) a,
  map_Forall (fun _ v => P v) g → Forall P vs → map_Forall (fun _ v => P v) (insert_run g a vs).
Proof.
  induction vs as [|v vs IH]; intros g a Hg Hvs; [done|]. apply Forall_cons in Hvs as [Hv Hvs].
  simpl. apply IH; [|done]. by apply map_Forall_insert_2.
Qed.

Section spec_instance.
Context `{BuildProfile} `{SystemClock}.

Lemma sparse_view_log s ns : sparse_view (add_log s ns) = sparse_view s.
Proof. done. Qed.
Lemma sparse_wf_log s ns : sparse_wf s → sparse_wf (add_log s ns).
Proof. done. Qed.

Lemma sparse_coils_update s m' g a vs :
  sparse_wf s → Rep (sp_coils s) g → Rep m' (insert_run g a vs) → 0 ≤ a → a + zlen vs ≤ 65536 →
  sparse_wf (with_coils s m') ∧
  sparse_view (with_coils s m') ≡ m_write_bits (sparse_view s) Coil a vs.
Proof.
  intros (Hcfg & _ & ? & ? & ?) HR HR' Ha Hlen. split.
  - split; [done|]. split; [|done]. by eexists; split; [|apply map_Forall_lookup].
  - split; [|split]; [by intros []| |by intros []]. intros t x. simpl.
    case_decide; subst; [|by destruct t]. by apply (stored_insert_run _ _ _ g).
Qed.

Lemma sparse_holding_update s m' g a vs :
  sparse_wf s → Rep (sp_holding_registers s) g → map_Forall (fun _ v => is_u16 v) g → words_ok vs →
  Rep m' (insert_run g a vs) → 0 ≤ a → a + zlen vs ≤ 65536 →
  sparse_wf (with_holding s m') ∧
  sparse_view (with_holding s m') ≡ m_write_words (sparse_view s) HoldingRegister a vs.
Proof.
  intros (Hcfg & ? & ? & _ & ?) HR HP Hvs HR' Ha Hlen. split.
  - do 3 (split; [done|]). split; [|done]. eexists. split; [done|]. by apply map_Forall_insert_run.
  - split; [|split]; [by intros []|by intros []|]. intros t x. simpl.
    case_decide; subst; [|by destruct t]. by apply (stored_insert_run _ _ _ g).
Qed.

Lemma sparse_default_bool s t n : sparse_wf s →
  DefaultValue_get_bool (sparse_default s t) n = (bool_of_default (sparse_default s t), n).
Proof. intros (Hcfg & _). destruct (Hcfg t) as [_ Hd]. unfold sparse_default. by destruct (default_value _). Qed.
Lemma sparse_default_word s t n : sparse_wf s →
  DefaultValue_get_word (sparse_default s t) n = (word_of_default (sparse_default s t), n).
Proof. intros (Hcfg & _). destruct (Hcfg t) as [_ Hd]. unfold sparse_default. by destruct (default_value _). Qed.

(** A read keeps the store but for the log. *)
Lemma sparse_read_keeps {T} t (get : SparseRegisterStore → ShardedRegisterMap T) dflt wrap d value s a q :
  sparse_wf s → is_u16 a → 0 ≤ q ≤ max_quantity → stores (fun _ => True) (get s) ∨ (∃ g, Rep (get s) g) →
  (∀ s tick, get (with_ticks s tick) = get s) → (∀ n, dflt s n = (d, n)) →
  value = stored d (get s) <$> zrange a (Z.to_nat q) →
  let '(r, s') := sparse_read t get dflt wrap a q s in
  answers (m_valid (sparse_view s) t a q) value r ∧ sparse_wf s' ∧ sparse_view s' ≡ sparse_view s.
Proof.
  intros Hwf Ha Hq Hg Htick Hd ->.
  destruct (sparse_read_law t get dflt wrap d s a q) as (ns & Hr); [apply Hwf|done|lia| |done..|].
  { destruct Hg as [(g & ? & _)|?]; [by exists g|done]. }
  destruct (sparse_read t get dflt wrap a q s) as [r s']. destruct Hr as [Hr ->].
  split; [done|]. split; [by apply sparse_wf_log|by rewrite sparse_view_log].
Qed.

Lemma stores_rep {T} (P : T → Prop) m : stores P m → ∃ g, Rep m g.
Proof. intros (g & ? & _). by exists g. Qed.

Lemma sparse_read_holding_law :
  read_law true sparse_wf sparse_view SparseRegisterStore_read_holding_registers HoldingRegister
    (fun m => m_read_words m HoldingRegister).
Proof.
  intros s a q Hwf Ha Hq _.
  eapply sparse_read_keeps; [done..|right; eapply stores_rep, Hwf|done| |reflexivity].
  intros n. by apply (sparse_default_word s HoldingRegister).
Qed.

Lemma sparse_write_holding_law a v : is_u16 v →
  write_law true sparse_wf sparse_view (SparseRegisterStore_write_holding_register a v) HoldingRegister a 1
    (fun m => m_write_words m HoldingRegister a [v]).
Proof.
  intros Hv s Hwf Ha Hq _. destruct (Hwf) as (Hcfg & _ & _ & (g & HR & HP) & _).
  pose proof (sparse_write_one_spec sp_holding_registers with_holding HoldingRegister VWord s g a v
    Hcfg HR Ha) as Hw.
  unfold SparseRegisterStore_write_holding_register. simpl m_valid.
  destruct (sparse_valid s HoldingRegister a 1) eqn:Hvalid.
  - destruct (sparse_valid_bounds s HoldingRegister a 1 Hcfg Hvalid) as (_ & ? & ?).
    destruct Hw as (m' & ns & -> & HR').
    destruct (sparse_holding_update s m' g a [v]) as [? ?];
      [done..|by constructor|done|lia|by change (zlen [v]) with 1|].
    split; [done|]. split; [by apply sparse_wf_log|]. by rewrite sparse_view_log.
  - destruct Hw as (e & -> & He). split; [by exists e|done].
Qed.

Lemma sparse_words_range s t a : sparse_wf s → is_u16 (sparse_words s t a).
Proof.
  intros (Hcfg & _ & _ & (gh & HRh & HPh) & (gi & HRi & HPi)).
  assert (∀ t, is_u16 (word_of_default (sparse_default s t))) as Hd.
  { intros t'. destruct (Hcfg t') as [_ Hdet]. unfold sparse_default.
    destruct (default_value _); try done; simpl; int_lia. }
  destruct t; simpl; try int_lia; unfold stored; case_decide as Ha; try apply Hd.
  - rewrite (proj1 (proj2 HRh)) by done. destruct (gh !! a) eqn:Hx; [by eapply HPh|apply Hd].
  - rewrite (proj1 (proj2 HRi)) by done. destruct (gi !! a) eqn:Hx; [by eapply HPi|apply Hd].
Qed.

#[global] Instance SparseRegisterStore_spec : AddressSpaceSpec SparseRegisterStore.
Proof.
  refine {| space_wf := sparse_wf; full_range := true; view := sparse_view |}.
  - intros s t a. apply sparse_words_range.
  - intros s a q Hwf Ha Hq _. eapply sparse_read_keeps; [done..|left; apply Hwf|done| |reflexivity].
    intros n. by apply (sparse_default_bool s Coil).
  - intros s a q Hwf Ha Hq _. eapply sparse_read_keeps; [done..|left; apply Hwf|done| |reflexivity].
    intros n. by apply (sparse_default_bool s DiscreteInput).
  - apply sparse_read_holding_law.
  - intros s a q Hwf Ha Hq _.
    eapply sparse_read_keeps; [done..|right; eapply stores_rep, Hwf|done| |reflexivity].
    intros n. by apply (sparse_default_word s InputRegister).
  - intros a v s Hwf Ha Hq _. destruct (Hwf) as (Hcfg & (g & HR & _) & _).
    pose proof (sparse_write_one_spec sp_coils with_coils Coil VBool s g a v Hcfg HR Ha) as Hw.
    simpl. unfold SparseRegisterStore_write_coil.
    destruct (sparse_valid s Coil a 1) eqn:Hvalid.
    + destruct (sparse_valid_bounds s Coil a 1 Hcfg Hvalid) as (_ & ? & ?).
      destruct Hw as (m' & ns & -> & HR').
      destruct (sparse_coils_update s m' g a [v]) as [? ?]; [done..|lia|by change (zlen [v]) with 1|].
      split; [done|]. split; [by apply sparse_wf_log|]. by rewrite sparse_view_log.
    + destruct Hw as (e & -> & He). split; [by exists e|done].
  - intros a vs s Hwf Ha Hq _. destruct (Hwf) as (Hcfg & (g & HR & _) & _).
    pose proof (sparse_write_many_spec sp_coils with_coils Coil VBool s g a vs Hcfg HR Ha ltac:(lia)) as Hw.
    simpl. unfold SparseRegisterStore_write_coils.
    destruct (sparse_valid s Coil a (zlen vs)) eqn:Hvalid.
    + destruct Hw as (m' & ns & -> & HR' & ? & ?).
      destruct (sparse_coils_update s m' g a vs) as [? ?]; [done..|].
      split; [done|]. split; [by apply sparse_wf_log|]. by rewrite sparse_view_log.
    + destruct Hw as (e & -> & He). split; [by exists e|done].
  - apply sparse_write_holding_law.
  - intros a vs Hvs s Hwf Ha Hq _. destruct (Hwf) as (Hcfg & _ & _ & (g & HR & HP) & _).
    pose proof (sparse_write_many_spec sp_holding_registers with_holding HoldingRegister VWord s g a vs
      Hcfg HR Ha ltac:(lia)) as Hw.
    simpl. unfold SparseRegisterStore_write_holding_registers.
    destruct (sparse_valid s HoldingRegister a (zlen vs)) eqn:Hvalid.
    + destruct Hw as (m' & ns & -> & HR' & ? & ?).
      destruct (sparse_holding_update s m' g a vs) as [? ?]; [done..|].
      split; [done|]. split; [by apply sparse_wf_log|]. by rewrite sparse_view_log.
    + destruct Hw as (e & -> & He). split; [by exists e|done].
  - intros a am om Ham Hom. apply default_mask_write_law; [| |apply sparse_write_holding_law|done].
    + intros s t x. apply sparse_words_range.
    + apply sparse_read_holding_law.
Defined.

End spec_instance.

(* ------------------------------------------------------------------ *)
(** * Callback order *)

Definition rank_of (e : CallbackEntry) : Z := priority_rank (cb_priority e).

(** Highest priority first. *)
Definition by_priority (l : list CallbackEntry) : Prop :=
  StronglySorted (fun x y => rank_of y ≤ rank_of x) l.

(** The callbacks of one priority, in list order. *)
Definition at_rank (r : Z) (l : list CallbackEntry) : list CallbackEntry :=
  filter (fun e => rank_of e = r) l.

Lemma elem_of_insert_by_priority e l x : x ∈ insert_by_priority e l ↔ x = e ∨ x ∈ l.
Proof.
  induction l as [|y l IH]; simpl; [by rewrite list_elem_of_singleton, elem_of_nil; naive_solver|].
  case_if; rewrite !elem_of_cons; [done|]. rewrite IH. naive_solver.
Qed.

Lemma insert_by_priority_sorted e l : by_priority l → by_priority (insert_by_priority e l).
Proof.
  induction 1 as [|y l Hl IH Hy]; simpl; [repeat constructor|].
  destruct (Z.leb_spec (priority_rank (cb_priority y)) (priority_rank (cb_priority e))).
  - constructor; [by constructor|]. constructor; [done|].
    eapply Forall_impl; [exact Hy|]. unfold rank_of in *. simpl. intros. lia.
  - constructor; [done|]. apply Forall_forall. intros x [->|Hx]%elem_of_insert_by_priority.
    + unfold rank_of. lia.
    + by eapply Forall_forall in Hy.
Qed.

Lemma at_rank_insert r e l :
  by_priority l → at_rank r (insert_by_priority e l) = at_rank r (e :: l).
Proof.
  unfold at_rank. induction 1 as [|y l Hl IH Hy]; simpl; [done|].
  destruct (Z.leb_spec (priority_rank (cb_priority y)) (priority_rank (cb_priority e))) as [|Hlt]; [done|].
  rewrite !filter_cons in *. rewrite IH. unfold rank_of in *. repeat case_decide; try done. lia.
Qed.

Lemma sort_by_priority_sorted l : by_priority (sort_by_priority l).
Proof. induction l; simpl; [constructor|by apply insert_by_priority_sorted]. Qed.

Lemma at_rank_sort r l : at_rank r (sort_by_priority l) = at_rank r l.
Proof.
  induction l as [|e l IH]; [done|]. simpl. rewrite at_rank_insert by apply sort_by_priority_sorted.
  unfold at_rank in *. rewrite !filter_cons. by rewrite IH.
Qed.

(** Lists in priority order whose lengths the cached counters record. *)
Definition callbacks_wf (m : CallbackManager) : Prop :=
  by_priority (read_callbacks m) ∧ by_priority (write_callbacks m) ∧
  read_callback_count m = zlen (read_callbacks m) ∧
  write_callback_count m = zlen (write_callbacks m).

Lemma by_priority_filter P `{∀ x, Decision (P x)} l : by_priority l → by_priority (filter P l).
Proof.
  induction 1 as [|y l Hl IH Hy]; [constructor|]. rewrite filter_cons. case_decide; [|done].
  constructor; [done|]. apply Forall_forall. intros x [_ Hx]%list_elem_of_filter.
  by eapply Forall_forall in Hy.
Qed.

Lemma callbacks_wf_ops m e id :
  callbacks_wf m →
  callbacks_wf (CallbackManager_add_read_callback m e) ∧
  callbacks_wf (CallbackManager_add_write_callback m e) ∧
  callbacks_wf (snd (CallbackManager_remove_read_callback m id)) ∧
  callbacks_wf (snd (CallbackManager_remove_write_callback m id)) ∧
  callbacks_wf (CallbackManager_clear m).
Proof.
  intros (?&?&?&?). unfold callbacks_wf. simpl.
  repeat split; try done; try apply sort_by_priority_sorted; try (by apply by_priority_filter); constructor.
Qed.

(* ------------------------------------------------------------------ *)
(** * Initialisation *)

Section init.
Context `{BuildProfile} `{SystemClock}.

Lemma empty_store_wf c : config_ok c → sparse_wf (empty_store c).
Proof.
  intros Hc. split; [done|]. repeat split; exists ∅; (split; [apply Rep_new|done]).
Qed.

Lemma generate_const {T} (pick : nat → T * nat) d tick n : ∀ a,
  (∀ k, pick k = (d, k)) → generate (fun tick _ => pick tick) tick a n = (replicate n d, tick).
Proof.
  intros a Hp. revert a. induction n as [|n IH]; intros a; [done|]. simpl. rewrite Hp. by rewrite IH.
Qed.

(** Populating an empty map with its own default changes no value. *)
Lemma stored_populated {T} (d : T) m n a x :
  Rep m (insert_run ∅ a (replicate n d)) → stored d m x = d.
Proof.
  intros HR. unfold stored. case_decide as Hx; [|done]. rewrite (proj1 (proj2 HR)) by done.
  rewrite lookup_insert_run. case_decide; [|by rewrite lookup_empty].
  destruct (replicate n d !! _) eqn:E; [|done]. by apply lookup_replicate in E as [-> _].
Qed.

Lemma populate_default_spec {T} `{RustDefault T} get set `{!MapField get set} pick s (d : T) t
    (P : T → Prop) :
  config_ok (sp_config s) → Rep (get s) ∅ → (∀ k, pick (sparse_default s t) k = (d, k)) → P d →
  ∃ m', populate_default get set (get_range_config (sp_config s) t) pick s = (Ok tt, set s m') ∧
    stores P m' ∧ (∀ x, stored d m' x = d).
Proof.
  intros Hcfg HR Hpick HP. unfold populate_default, populate_if.
  assert (∀ s', with_ticks s' (sp_ticks s') = s') as Hticks by by intros [].
  destruct (cfg_enabled (get_range_config (sp_config s) t)).
  - destruct (Hcfg t) as [[Hs He] _].
    pose proof (Rep_populate_range (E:=ModbusError) (fun tick _ => pick (sparse_default s t) tick)
      (get s) ∅ (sp_ticks s) _ _ HR Hs He) as Hp.
    rewrite (generate_const _ d) in Hp by done. destruct Hp as (m' & Hrun & HR').
    exists m'. unfold on_map. unfold get_range, sparse_default in *. rewrite Hrun.
    split; [by rewrite <- (ticks_set s m'), Hticks|]. split.
    + eexists. split; [done|]. by apply map_Forall_insert_run, Forall_replicate.
    + intros x. by eapply stored_populated.
  - exists (get s). rewrite set_get. unfold st_ret. rewrite Hticks. split; [done|].
    split; [by exists ∅|]. intros x. by apply (stored_populated d _ 0 0).
Qed.
Lemma initialize_eager_spec c :
  config_ok c →
  ∃ s', initialize_eager (empty_store c) = (Ok tt, s') ∧ sparse_wf s' ∧
    sparse_view s' ≡ sparse_view (empty_store c).
Proof.
  intros Hc. pose proof (empty_store_wf c Hc) as Hwf. set (s0 := empty_store c) in *.
  destruct (populate_default_spec sp_coils with_coils DefaultValue_get_bool s0
    (bool_of_default (sparse_default s0 Coil)) Coil (fun _ => True))
    as (m1 & H1 & Hs1 & Hv1); [done|apply Rep_new|intros; by apply sparse_default_bool|done|].
  set (s1 := with_coils s0 m1) in *.
  destruct (populate_default_spec sp_discrete_inputs with_discrete DefaultValue_get_bool s1
    (bool_of_default (sparse_default s0 DiscreteInput)) DiscreteInput (fun _ => True))
    as (m2 & H2 & Hs2 & Hv2); [done|apply Rep_new|intros; by apply (sparse_default_bool s0)|done|].
  set (s2 := with_discrete s1 m2) in *.
  destruct (populate_default_spec sp_holding_registers with_holding DefaultValue_get_word s2
    (word_of_default (sparse_default s0 HoldingRegister)) HoldingRegister is_u16)
    as (m3 & H3 & Hs3 & Hv3);
    [done|apply Rep_new|intros; by apply (sparse_default_word s0)
    |by apply (sparse_words_range s0 HoldingRegister (-1))|].
  set (s3 := with_holding s2 m3) in *.
  destruct (populate_default_spec sp_input_registers with_input DefaultValue_get_word s3
    (word_of_default (sparse_default s0 InputRegister)) InputRegister is_u16)
    as (m4 & H4 & Hs4 & Hv4);
    [done|apply Rep_new|intros; by apply (sparse_default_word s0)
    |by apply (sparse_words_range s0 InputRegister (-1))|].
  exists (with_input s3 m4). split; [|split].
  - cbn [get_range_config] in H1, H2, H3, H4. change (sp_config s1) with (sp_config s0) in H2.
    change (sp_config s2) with (sp_config s0) in H3. change (sp_config s3) with (sp_config s0) in H4.
    unfold initialize_eager, st_bind. by rewrite H1, H2, H3, H4.
  - split; [exact Hc|]. split; [exact Hs1|]. split; [exact Hs2|]. split; [exact Hs3|exact Hs4].
  - assert (∀ (T : Type) (d : T) x, stored d ShardedRegisterMap_new x = d) as Hnew.
    { intros T d x. unfold stored, entry. rewrite seg_at_new. by case_decide. }
    split; [done|]. split; intros [] x; cbn [m_bits m_words sparse_view sparse_bits sparse_words];
      solve [done | etrans; [exact (Hv1 x)|symmetry; apply Hnew] | etrans; [exact (Hv2 x)|symmetry; apply Hnew]
            | etrans; [exact (Hv3 x)|symmetry; apply Hnew] | etrans; [exact (Hv4 x)|symmetry; apply Hnew]].
Qed.
End init.

(* ------------------------------------------------------------------ *)
(** * Properties *)

(** callbacks run highest priority first and, within one priority, in the order they were
    registered, and the cached counters the hot path tests stay equal to the list lengths:
    adding a callback keeps the order of the others, and every operation of the manager
    preserves the invariant. *)
Theorem callback_order (m : CallbackManager) (e : CallbackEntry) (id : string) :
  callbacks_wf m →
  (∀ r, at_rank r (write_callbacks (CallbackManager_add_write_callback m e))
        = at_rank r (write_callbacks m ++ [e])) ∧
  callbacks_wf (CallbackManager_add_read_callback m e) ∧
  callbacks_wf (CallbackManager_add_write_callback m e) ∧
  callbacks_wf (snd (CallbackManager_remove_read_callback m id)) ∧
  callbacks_wf (snd (CallbackManager_remove_write_callback m id)) ∧
  callbacks_wf (CallbackManager_clear m).
Proof.
  intros Hwf. split; [|by apply callbacks_wf_ops].
  intros r. apply at_rank_sort.
Qed.

Lemma callback_order_witness :
  callbacks_wf (CallbackManager_add_write_callback CallbackManager_new
    {| cb_priority := PriorityHigh; cb_id := "metrics" |}).
Proof.
  apply (callback_order CallbackManager_new {| cb_priority := PriorityHigh; cb_id := "metrics" |} "x").
  repeat split; constructor.
Defined.
