(* ===== verification/ModbusSemantic.v ===== *)
(** The built-in request executor of [semantic.rs]: [SemanticFailure], [execute_builtin] and
    [execute_builtin_write_only].

    The executor is written against the [AddressSpace] interface.  [model_exec] is what a
    request means on the abstract register map; every store that meets [AddressSpaceSpec]
    is shown to answer and to change exactly as [model_exec] says. *)

From S2P Require Import Prelude ModbusPdu ModbusSpace.

Inductive SemanticFailure : Set :=
| SfIllegalFunction
| SfIllegalDataAddress
| SfIllegalDataValue
| SfSlaveDeviceFailure.

Definition SemanticFailure_exception_code (f : SemanticFailure) : ExceptionCode :=
  match f with
  | SfIllegalFunction => IllegalFunction
  | SfIllegalDataAddress => IllegalDataAddress
  | SfIllegalDataValue => IllegalDataValue
  | SfSlaveDeviceFailure => SlaveDeviceFailure
  end.

Definition from_modbus_error (e : ModbusError) : SemanticFailure :=
  match e with
  | InvalidAddress _ _ | DeviceNotFound _ => SfIllegalDataAddress
  | InvalidQuantity _ _ => SfIllegalDataAddress
  | InvalidData => SfIllegalDataValue
  | _ => SfSlaveDeviceFailure
  end.

Definition SemanticFailure_from_exception (e : ExceptionCode) : SemanticFailure :=
  match e with
  | IllegalFunction => SfIllegalFunction
  | IllegalDataAddress => SfIllegalDataAddress
  | IllegalDataValue => SfIllegalDataValue
  | _ => SfSlaveDeviceFailure
  end.

Section executor.
Context {S : Type} `{AddressSpace S}.

Definition execute_builtin (request : SemanticRequest) : stM S SemanticFailure SemanticResponse :=
  match request with
  | ReqReadCoils address quantity =>
      st_map_err from_modbus_error (st_map (RespBits FcReadCoils) (read_coils address quantity))
  | ReqReadDiscreteInputs address quantity =>
      st_map_err from_modbus_error
        (st_map (RespBits FcReadDiscreteInputs) (read_discrete_inputs address quantity))
  | ReqReadHoldingRegisters address quantity =>
      st_map_err from_modbus_error
        (st_map (RespRegisters FcReadHoldingRegisters) (read_holding_registers address quantity))
  | ReqReadInputRegisters address quantity =>
      st_map_err from_modbus_error
        (st_map (RespRegisters FcReadInputRegisters) (read_input_registers address quantity))
  | ReqWriteSingleCoil address value =>
      do? _ := st_map_err from_modbus_error (write_coil address value) in
      st_ret (RespWriteSingleCoilAck address value)
  | ReqWriteSingleRegister address value =>
      do? _ := st_map_err from_modbus_error (write_holding_register address value) in
      st_ret (RespWriteSingleRegisterAck address value)
  | ReqWriteMultipleCoils address values =>
      do? _ := st_map_err from_modbus_error (write_coils address values) in
      st_ret (RespWriteMultipleAck FcWriteMultipleCoils address (as_u16 (zlen values)))
  | ReqWriteMultipleRegisters address values =>
      do? _ := st_map_err from_modbus_error (write_holding_registers address values) in
      st_ret (RespWriteMultipleAck FcWriteMultipleRegisters address (as_u16 (zlen values)))
  | ReqMaskWriteRegister address and_mask or_mask =>
      do? _ := st_map_err from_modbus_error
                 (mask_write_holding_register address and_mask or_mask) in
      st_ret (RespMaskWriteAck address and_mask or_mask)
  | ReqReadWriteMultipleRegisters read_address read_quantity write_address values =>
      do? _ := st_map_err from_modbus_error (write_holding_registers write_address values) in
      do? registers := st_map_err from_modbus_error
                         (read_holding_registers read_address read_quantity) in
      st_ret (RespRegisters FcReadWriteMultipleRegisters registers)
  | ReqCustom _ _ => st_err SfIllegalFunction
  end.

Definition execute_builtin_write_only (request : SemanticRequest) : stM S SemanticFailure unit :=
  match request with
  | ReqWriteSingleCoil address value =>
      st_map_err from_modbus_error (write_coil address value)
  | ReqWriteSingleRegister address value =>
      st_map_err from_modbus_error (write_holding_register address value)
  | ReqWriteMultipleCoils address values =>
      st_map_err from_modbus_error (write_coils address values)
  | ReqWriteMultipleRegisters address values =>
      st_map_err from_modbus_error (write_holding_registers address values)
  | ReqMaskWriteRegister address and_mask or_mask =>
      st_map_err from_modbus_error (mask_write_holding_register address and_mask or_mask)
  | _ => st_err SfIllegalFunction
  end.

End executor.

(** The acknowledgement of a broadcast write ([execute_broadcast] after its loop). *)
Definition broadcast_ack (request : SemanticRequest) : outcome SemanticFailure SemanticResponse :=
  match request with
  | ReqWriteSingleCoil address value => Ok (RespWriteSingleCoilAck address value)
  | ReqWriteSingleRegister address value => Ok (RespWriteSingleRegisterAck address value)
  | ReqWriteMultipleCoils address values =>
      Ok (RespWriteMultipleAck FcWriteMultipleCoils address (as_u16 (zlen values)))
  | ReqWriteMultipleRegisters address values =>
      Ok (RespWriteMultipleAck FcWriteMultipleRegisters address (as_u16 (zlen values)))
  | ReqMaskWriteRegister address and_mask or_mask => Ok (RespMaskWriteAck address and_mask or_mask)
  | _ => Err SfIllegalFunction
  end.

(* ------------------------------------------------------------------ *)
(** * What a request means *)

(** A read of the model. *)
Definition model_read (m : model) (t : RegisterType) (a q : Z) (resp : SemanticResponse)
  : outcome SemanticFailure SemanticResponse * model :=
  (if m_valid m t a q then Ok resp else Err SfIllegalDataAddress, m).

(** A write of the model. *)
Definition model_write (m : model) (t : RegisterType) (a n : Z) (m' : model) (resp : SemanticResponse)
  : outcome SemanticFailure SemanticResponse * model :=
  if m_valid m t a n then (Ok resp, m') else (Err SfIllegalDataAddress, m).

Definition model_exec (request : SemanticRequest) (m : model)
  : outcome SemanticFailure SemanticResponse * model :=
  match request with
  | ReqReadCoils a q => model_read m Coil a q (RespBits FcReadCoils (m_read_bits m Coil a q))
  | ReqReadDiscreteInputs a q =>
      model_read m DiscreteInput a q (RespBits FcReadDiscreteInputs (m_read_bits m DiscreteInput a q))
  | ReqReadHoldingRegisters a q =>
      model_read m HoldingRegister a q
        (RespRegisters FcReadHoldingRegisters (m_read_words m HoldingRegister a q))
  | ReqReadInputRegisters a q =>
      model_read m InputRegister a q
        (RespRegisters FcReadInputRegisters (m_read_words m InputRegister a q))
  | ReqWriteSingleCoil a v =>
      model_write m Coil a 1 (m_write_bits m Coil a [v]) (RespWriteSingleCoilAck a v)
  | ReqWriteSingleRegister a v =>
      model_write m HoldingRegister a 1 (m_write_words m HoldingRegister a [v])
        (RespWriteSingleRegisterAck a v)
  | ReqWriteMultipleCoils a vs =>
      model_write m Coil a (zlen vs) (m_write_bits m Coil a vs)
        (RespWriteMultipleAck FcWriteMultipleCoils a (zlen vs))
  | ReqWriteMultipleRegisters a vs =>
      model_write m HoldingRegister a (zlen vs) (m_write_words m HoldingRegister a vs)
        (RespWriteMultipleAck FcWriteMultipleRegisters a (zlen vs))
  | ReqMaskWriteRegister a am om =>
      model_write m HoldingRegister a 1
        (m_write_words m HoldingRegister a [mask_formula (m_words m HoldingRegister a) am om])
        (RespMaskWriteAck a am om)
  | ReqReadWriteMultipleRegisters ra rq wa vs =>
      if m_valid m HoldingRegister wa (zlen vs) then
        let m' := m_write_words m HoldingRegister wa vs in
        model_read m' HoldingRegister ra rq
          (RespRegisters FcReadWriteMultipleRegisters (m_read_words m' HoldingRegister ra rq))
      else (Err SfIllegalDataAddress, m)
  | ReqCustom _ _ => (Err SfIllegalFunction, m)
  end.

(** The executor's meaning does not distinguish equivalent maps. *)
Definition same_result (x y : outcome SemanticFailure SemanticResponse * model) : Prop :=
  fst x = fst y ∧ snd x ≡ snd y.

#[global] Instance same_result_equivalence : Equivalence same_result.
Proof.
  split.
  - by intros [r m].
  - intros [r m] [r' m'] [??]. by split; symmetry.
  - intros [r1 m1] [r2 m2] [r3 m3] [??] [??]. split; by etrans.
Qed.

Lemma model_read_proper m m' t a q resp resp' :
  m ≡ m' → resp = resp' → same_result (model_read m t a q resp) (model_read m' t a q resp').
Proof. intros Hm ->. split; [|done]. simpl. by rewrite Hm. Qed.

Lemma model_write_proper m m' t a n w w' resp :
  m ≡ m' → w ≡ w' → same_result (model_write m t a n w resp) (model_write m' t a n w' resp).
Proof.
  intros Hm Hw. unfold model_write. rewrite Hm. by destruct (m_valid m' t a n).
Qed.

#[global] Instance model_exec_proper r : Proper ((≡) ==> same_result) (model_exec r).
Proof.
  intros m m' Hm. destruct r; simpl;
    try (apply model_read_proper; [done|by rewrite Hm]);
    try (apply model_write_proper; [done|by rewrite Hm]).
  - rewrite Hm. destruct (m_valid m' _ _ _); [|done]. apply model_read_proper; by rewrite Hm.
  - done.
Qed.

(* ------------------------------------------------------------------ *)
(** * The spans of a request *)

(** Every span the request touches is one the store is asked for ([reach]). *)
Definition request_reach (full : bool) (m : model) (r : SemanticRequest) : Prop :=
  match r with
  | ReqReadCoils a q => reach full m Coil a q
  | ReqReadDiscreteInputs a q => reach full m DiscreteInput a q
  | ReqReadHoldingRegisters a q => reach full m HoldingRegister a q
  | ReqReadInputRegisters a q => reach full m InputRegister a q
  | ReqWriteSingleCoil a _ => reach full m Coil a 1
  | ReqWriteSingleRegister a _ | ReqMaskWriteRegister a _ _ => reach full m HoldingRegister a 1
  | ReqWriteMultipleCoils a vs => reach full m Coil a (zlen vs)
  | ReqWriteMultipleRegisters a vs => reach full m HoldingRegister a (zlen vs)
  | ReqReadWriteMultipleRegisters ra rq wa vs =>
      reach full m HoldingRegister ra rq ∧ reach full m HoldingRegister wa (zlen vs)
  | ReqCustom _ _ => True
  end.

Lemma request_reach_valid full m m' r :
  m_valid m = m_valid m' → request_reach full m r ↔ request_reach full m' r.
Proof. intros Hm. destruct r; unfold request_reach, reach; by rewrite ?Hm. Qed.

#[global] Instance request_reach_proper full : Proper ((≡) ==> eq ==> iff) (request_reach full).
Proof. intros m m' Hm ? r ->. destruct r; simpl; by rewrite ?Hm. Qed.

Lemma model_exec_spans r m : m_valid (snd (model_exec r m)) = m_valid m.
Proof.
  destruct r; simpl; unfold model_read, model_write; try done;
    destruct (m_valid m _ _ _); try done; simpl; by destruct (m_valid m _ _ _).
Qed.

Lemma request_reach_exec full m r r' : request_reach full m r → request_reach full (snd (model_exec r' m)) r.
Proof. apply request_reach_valid. apply model_exec_spans. Qed.

Lemma request_reach_full m r : request_reach true m r.
Proof. destruct r; simpl; try split; try done; right; right; by left. Qed.

(* ------------------------------------------------------------------ *)
(** * Every store executes requests as the model does *)

Section refinement.
Context {S : Type} `{AddressSpaceSpec S}.

Definition refines (x : outcome SemanticFailure SemanticResponse * S)
    (y : outcome SemanticFailure SemanticResponse * model) : Prop :=
  fst x = fst y ∧ space_wf (snd x) ∧ view (snd x) ≡ snd y.

Lemma answers_err {A} (v : A) r valid :
  answers valid v r →
  map_err from_modbus_error r = if valid then Ok v else Err SfIllegalDataAddress.
Proof.
  unfold answers. destruct valid; [by intros ->|]. intros (e & -> & He). by destruct e.
Qed.

Lemma read_refines {A} (op : Z → Z → stM S ModbusError A) t value mk s a q :
  read_law full_range space_wf view op t value → space_wf s → is_u16 a → 0 ≤ q ≤ max_quantity →
  reach full_range (view s) t a q →
  refines (st_map_err from_modbus_error (st_map mk (op a q)) s)
    (model_read (view s) t a q (mk (value (view s) a q))).
Proof.
  intros Hlaw Hwf Ha Hq Hreach. specialize (Hlaw s a q Hwf Ha Hq Hreach). unfold st_map_err, st_map, refines.
  destruct (op a q s) as [r s']. destruct Hlaw as (Hr & Hwf' & Hv). simpl.
  apply answers_err in Hr. split; [|done].
  destruct r, (m_valid (view s) t a q); simpl in *; congruence.
Qed.

Lemma write_refines (op : stM S ModbusError unit) t a n update resp s :
  write_law full_range space_wf view op t a n update → space_wf s → is_u16 a → 0 ≤ n ≤ max_quantity →
  reach full_range (view s) t a n →
  refines ((do? _ := st_map_err from_modbus_error op in st_ret resp) s)
    (model_write (view s) t a n (update (view s)) resp).
Proof.
  intros Hlaw Hwf Ha Hn Hreach. specialize (Hlaw s Hwf Ha Hn Hreach). unfold st_bind, st_map_err, refines, model_write.
  destruct (op s) as [r s']. destruct Hlaw as (Hr & Hwf' & Hv). apply answers_err in Hr. rewrite Hr.
  by destruct (m_valid (view s) t a n).
Qed.

Lemma execute_builtin_refines r s :
  space_wf s → request_wf r → request_reach full_range (view s) r →
  refines (execute_builtin r s) (model_exec r (view s)).
Proof.
  intros Hwf Hr Hreach. unfold span_ok, max_quantity in *.
  destruct r as [a q|a q|a q|a q|a v|a v|a vs|a vs|a am om|ra rq wa vs|]; simpl in Hr, Hreach |- *.
  - apply (read_refines read_coils Coil (fun m => m_read_bits m Coil));
      [apply read_coils_spec|done|apply Hr|unfold max_quantity, span_ok in *; lia|done].
  - apply (read_refines read_discrete_inputs DiscreteInput (fun m => m_read_bits m DiscreteInput));
      [apply read_discrete_inputs_spec|done|apply Hr|unfold max_quantity, span_ok in *; lia|done].
  - apply (read_refines read_holding_registers HoldingRegister (fun m => m_read_words m HoldingRegister));
      [apply read_holding_registers_spec|done|apply Hr|unfold max_quantity, span_ok in *; lia|done].
  - apply (read_refines read_input_registers InputRegister (fun m => m_read_words m InputRegister));
      [apply read_input_registers_spec|done|apply Hr|unfold max_quantity, span_ok in *; lia|done].
  - apply (write_refines (write_coil a v) Coil a 1 (fun m => m_write_bits m Coil a [v]));
      [apply write_coil_spec|done|done|unfold max_quantity; lia|done].
  - destruct Hr as [Ha Hv].
    apply (write_refines (write_holding_register a v) HoldingRegister a 1
      (fun m => m_write_words m HoldingRegister a [v]));
      [by apply write_holding_register_spec|done|done|unfold max_quantity; lia|done].
  - destruct Hr as (Ha & Hq & _). rewrite as_u16_id by int_lia.
    apply (write_refines (write_coils a vs) Coil a (zlen vs) (fun m => m_write_bits m Coil a vs));
      [apply write_coils_spec|done|done|unfold max_quantity; lia|done].
  - destruct Hr as ((Ha & Hq & _) & Hvs). rewrite as_u16_id by int_lia.
    apply (write_refines (write_holding_registers a vs) HoldingRegister a (zlen vs)
      (fun m => m_write_words m HoldingRegister a vs));
      [by apply write_holding_registers_spec|done|done|unfold max_quantity; lia|done].
  - destruct Hr as (Ha & Ham & Hom).
    apply (write_refines (mask_write_holding_register a am om) HoldingRegister a 1 (fun m =>
        m_write_words m HoldingRegister a [mask_formula (m_words m HoldingRegister a) am om]));
      [by apply mask_write_holding_register_spec|done|done|unfold max_quantity; lia|done].
  - destruct Hr as ((Hra & Hrq & _) & (Hwa & Hwq & _) & Hvs).
    destruct Hreach as [Hrr Hrw].
    pose proof (write_holding_registers_spec wa vs Hvs s Hwf Hwa ltac:(unfold max_quantity; lia) Hrw) as Hw.
    unfold st_bind at 1. unfold st_map_err at 1.
    destruct (write_holding_registers wa vs s) as [r1 s1]. destruct Hw as (Hr1 & Hwf1 & Hv1).
    apply answers_err in Hr1. rewrite Hr1. destruct (m_valid (view s) HoldingRegister wa (zlen vs)).
    + destruct (read_refines read_holding_registers HoldingRegister
        (fun m => m_read_words m HoldingRegister) (RespRegisters FcReadWriteMultipleRegisters) s1 ra rq
        read_holding_registers_spec Hwf1 Hra ltac:(unfold max_quantity; lia) ltac:(by rewrite Hv1)) as (E1 & E2 & E3).
      set (m' := m_write_words (view s) HoldingRegister wa vs) in *.
      unfold st_map_err, st_map in *. unfold st_bind, st_ret.
      destruct (read_holding_registers ra rq s1) as [r2 s2]. simpl in *.
      split; [|split]; [| |by destruct r2; simpl; rewrite E3].
      * rewrite !Hv1 in E1. by destruct r2.
      * by destruct r2.
    + done.
  - done.
Qed.

(** A sequence of requests. *)
Fixpoint execute_all (rs : list SemanticRequest) (s : S)
  : list (outcome SemanticFailure SemanticResponse) * S :=
  match rs with
  | [] => ([], s)
  | r :: rs' =>
      let '(x, s1) := execute_builtin r s in
      let '(xs, s2) := execute_all rs' s1 in (x :: xs, s2)
  end.
End refinement.

Fixpoint model_exec_all (rs : list SemanticRequest) (m : model)
  : list (outcome SemanticFailure SemanticResponse) * model :=
  match rs with
  | [] => ([], m)
  | r :: rs' =>
      let '(x, m1) := model_exec r m in
      let '(xs, m2) := model_exec_all rs' m1 in (x :: xs, m2)
  end.

Lemma model_exec_all_proper rs : ∀ m m',
  m ≡ m' → fst (model_exec_all rs m) = fst (model_exec_all rs m') ∧
           snd (model_exec_all rs m) ≡ snd (model_exec_all rs m').
Proof.
  induction rs as [|r rs IH]; intros m m' Hm; [done|]. simpl.
  destruct (model_exec_proper r m m' Hm) as [Hx Hm1].
  destruct (model_exec r m) as [x m1], (model_exec r m') as [x' m1']. simpl in *. subst x'.
  specialize (IH m1 m1' Hm1).
  destruct (model_exec_all rs m1), (model_exec_all rs m1'). simpl in *. destruct IH. by subst.
Qed.

Lemma execute_all_refines {S} `{AddressSpaceSpec S} rs : ∀ s,
  space_wf s → Forall request_wf rs → Forall (request_reach full_range (view s)) rs →
  fst (execute_all rs s) = fst (model_exec_all rs (view s)) ∧
  space_wf (snd (execute_all rs s)) ∧ view (snd (execute_all rs s)) ≡ snd (model_exec_all rs (view s)).
Proof.
  induction rs as [|r rs IH]; intros s Hwf Hrs Hreach; [done|].
  apply Forall_cons in Hrs as [Hr Hrs]. apply Forall_cons in Hreach as [Hx1 Hreach]. simpl.
  destruct (execute_builtin_refines r s Hwf Hr Hx1) as (Hx & Hwf1 & Hv1).
  pose proof (fun r' => request_reach_exec full_range (view s) r' r) as Hre.
  destruct (execute_builtin r s) as [x s1]. destruct (model_exec r (view s)) as [y m1]. simpl in *. subst y.
  assert (Forall (request_reach full_range (view s1)) rs) as Hreach1.
  { eapply Forall_impl; [exact Hreach|]. intros r'. rewrite Hv1. apply Hre. }
  destruct (IH s1 Hwf1 Hrs Hreach1) as (Hxs & Hwf2 & Hv2).
  destruct (model_exec_all_proper rs _ _ Hv1) as [Hp1 Hp2].
  destruct (execute_all rs s1) as [xs s2], (model_exec_all rs (view s1)), (model_exec_all rs m1).
  simpl in *. subst. split; [done|]. split; [done|]. by rewrite Hv2.
Qed.
