(* ===== verification/ModbusHandlers.v ===== *)
(** The per-function-code request handlers ([handler/traits.rs], [handler/read.rs],
    [handler/write.rs]) and their registry ([handler/registry.rs]).

    The handlers decode, execute and encode a request on their own, beside the semantic core.
    They are shown to answer a well-formed request exactly as the semantic core does. *)

From S2P Require Import Prelude ModbusPdu ModbusSpace ModbusDense ModbusSemantic.

(** The parts of [HandlerContext] the registry looks at; the register space is the state. *)
Record HandlerContext : Type := { hc_unit_id : Z; hc_transaction_id : Z; hc_is_broadcast : bool }.

Definition HandlerContext_new (unit_id transaction_id : Z) : HandlerContext :=
  {| hc_unit_id := unit_id; hc_transaction_id := transaction_id;
     hc_is_broadcast := unit_id =? 0 |}.

(** A [FunctionHandler] trait object. *)
Record FunctionHandler (S : Type) : Type := {
  function_code : Z;
  handle : list Z → HandlerContext → stM S ExceptionCode (list Z);
  name : string;
  min_pdu_length : Z;
  supports_broadcast : bool;
}.
Arguments function_code {S} f.
Arguments handle {S} f.
Arguments name {S} f.
Arguments min_pdu_length {S} f.
Arguments supports_broadcast {S} f.

Definition validate_pdu_length (min : Z) (pdu : list Z) : outcome ExceptionCode unit :=
  if zlen pdu <? min then Err IllegalDataValue else Ok tt.

(** [parse_address] and [parse_quantity]. *)
Definition parse_u16 (pdu : list Z) (offset : nat) : outcome ExceptionCode Z :=
  if zlen pdu <? Z.of_nat offset + 2 then Err IllegalDataValue else be_at pdu offset.

Definition validate_read_quantity (quantity : Z) (t : RegisterType) : outcome ExceptionCode unit :=
  if quantity =? 0 then Err IllegalDataValue
  else if max_read_quantity t <? quantity then Err IllegalDataValue
  else Ok tt.

Definition validate_write_quantity (quantity : Z) (t : RegisterType) : outcome ExceptionCode unit :=
  if quantity =? 0 then Err IllegalDataValue
  else if max_write_quantity t <? quantity then Err IllegalDataValue
  else Ok tt.

(** [for i in 0..quantity { values.push(from_be_bytes([data[i * 2], data[i * 2 + 1]])) }]. *)
Definition words_at {E} (data : list Z) (quantity : nat) : outcome E (list Z) :=
  omapM (fun i => be_at data (i * 2)%nat) (seq 0 quantity).

Section handlers.
Context {S : Type} `{BuildProfile} `{AddressSpace S}.

(** [.map_err(|_| ExceptionCode::IllegalDataAddress)]. *)
Definition or_address {A} (c : stM S ModbusError A) : stM S ExceptionCode A :=
  st_map_err (fun _ => IllegalDataAddress) c.

(** The body shared by the two bit readers. *)
Definition handle_read_bits (fc : Z) (t : RegisterType)
    (read : Z → Z → stM S ModbusError (list bool)) (pdu : list Z)
  : stM S ExceptionCode (list Z) :=
  do? _ := st_lift (validate_pdu_length 5 pdu) in
  do? address := st_lift (parse_u16 pdu 1) in
  do? quantity := st_lift (parse_u16 pdu 3) in
  do? _ := st_lift (validate_read_quantity quantity t) in
  do? bits := or_address (read address quantity) in
  let byte_count := as_u8 (div_ceil quantity 8) in
  do? bytes := st_lift (pack_bits_from 0 bits (replicate (Z.to_nat byte_count) 0)) in
  st_ret ([fc; byte_count] ++ bytes).

Definition ReadCoilsHandler_handle (pdu : list Z) := handle_read_bits 0x01 Coil read_coils pdu.
Definition ReadDiscreteInputsHandler_handle (pdu : list Z) :=
  handle_read_bits 0x02 DiscreteInput read_discrete_inputs pdu.

(** The body shared by the two register readers. *)
Definition handle_read_registers (fc : Z) (t : RegisterType)
    (read : Z → Z → stM S ModbusError (list Z)) (pdu : list Z)
  : stM S ExceptionCode (list Z) :=
  do? _ := st_lift (validate_pdu_length 5 pdu) in
  do? address := st_lift (parse_u16 pdu 1) in
  do? quantity := st_lift (parse_u16 pdu 3) in
  do? _ := st_lift (validate_read_quantity quantity t) in
  do? values := or_address (read address quantity) in
  do? twice := st_lift (u16_mul quantity 2) in
  st_ret ([fc; as_u8 twice] ++ bytes_of_words values).

Definition ReadHoldingRegistersHandler_handle (pdu : list Z) :=
  handle_read_registers 0x03 HoldingRegister read_holding_registers pdu.
Definition ReadInputRegistersHandler_handle (pdu : list Z) :=
  handle_read_registers 0x04 InputRegister read_input_registers pdu.

Definition WriteSingleCoilHandler_handle (pdu : list Z) : stM S ExceptionCode (list Z) :=
  do? _ := st_lift (validate_pdu_length 5 pdu) in
  do? address := st_lift (parse_u16 pdu 1) in
  do? value := st_lift (be_at pdu 3) in
  if negb (value =? 0x0000) && negb (value =? 0xFF00) then st_err IllegalDataValue
  else
    do? _ := or_address (write_coil address (value =? 0xFF00)) in
    st_ret pdu.

Definition WriteSingleRegisterHandler_handle (pdu : list Z) : stM S ExceptionCode (list Z) :=
  do? _ := st_lift (validate_pdu_length 5 pdu) in
  do? address := st_lift (parse_u16 pdu 1) in
  do? value := st_lift (be_at pdu 3) in
  do? _ := or_address (write_holding_register address value) in
  st_ret pdu.

Definition WriteMultipleCoilsHandler_handle (pdu : list Z) : stM S ExceptionCode (list Z) :=
  do? _ := st_lift (validate_pdu_length 6 pdu) in
  do? address := st_lift (parse_u16 pdu 1) in
  do? quantity := st_lift (parse_u16 pdu 3) in
  do? _ := st_lift (validate_write_quantity quantity Coil) in
  let expected_bytes := div_ceil quantity 8 in
  do? byte_count := st_lift (index pdu 5) in
  if negb (byte_count =? expected_bytes) then st_err IllegalDataValue
  else if zlen pdu <? 6 + byte_count then st_err IllegalDataValue
  else
    do? data := st_lift (slice pdu 6 (6 + byte_count)) in
    do? coils := st_lift (unpack_bits data (Z.to_nat quantity)) in
    do? _ := or_address (write_coils address coils) in
    st_ret ([0x0F] ++ u16_to_be address ++ u16_to_be quantity).

Definition WriteMultipleRegistersHandler_handle (pdu : list Z) : stM S ExceptionCode (list Z) :=
  do? _ := st_lift (validate_pdu_length 6 pdu) in
  do? address := st_lift (parse_u16 pdu 1) in
  do? quantity := st_lift (parse_u16 pdu 3) in
  do? _ := st_lift (validate_write_quantity quantity HoldingRegister) in
  do? expected_bytes := st_lift (u16_mul quantity 2) in
  do? byte_count := st_lift (index pdu 5) in
  if negb (byte_count =? expected_bytes) then st_err IllegalDataValue
  else if zlen pdu <? 6 + byte_count then st_err IllegalDataValue
  else
    do? data := st_lift (slice pdu 6 (6 + byte_count)) in
    do? values := st_lift (words_at data (Z.to_nat quantity)) in
    do? _ := or_address (write_holding_registers address values) in
    st_ret ([0x10] ++ u16_to_be address ++ u16_to_be quantity).

Definition ReadWriteMultipleRegistersHandler_handle (pdu : list Z) : stM S ExceptionCode (list Z) :=
  do? _ := st_lift (validate_pdu_length 10 pdu) in
  do? read_address := st_lift (parse_u16 pdu 1) in
  do? read_quantity := st_lift (parse_u16 pdu 3) in
  do? write_address := st_lift (parse_u16 pdu 5) in
  do? write_quantity := st_lift (parse_u16 pdu 7) in
  if (read_quantity =? 0) || (125 <? read_quantity) then st_err IllegalDataValue
  else if (write_quantity =? 0) || (121 <? write_quantity) then st_err IllegalDataValue
  else
    do? expected_bytes := st_lift (u16_mul write_quantity 2) in
    do? byte_count := st_lift (index pdu 9) in
    if negb (byte_count =? expected_bytes) then st_err IllegalDataValue
    else if zlen pdu <? 10 + byte_count then st_err IllegalDataValue
    else
      do? data := st_lift (slice pdu 10 (10 + byte_count)) in
      do? write_values := st_lift (words_at data (Z.to_nat write_quantity)) in
      do? _ := or_address (write_holding_registers write_address write_values) in
      do? read_values := or_address (read_holding_registers read_address read_quantity) in
      do? twice := st_lift (u16_mul read_quantity 2) in
      st_ret ([0x17; as_u8 twice] ++ bytes_of_words read_values).

Definition MaskWriteRegisterHandler_handle (pdu : list Z) : stM S ExceptionCode (list Z) :=
  do? _ := st_lift (validate_pdu_length 7 pdu) in
  do? address := st_lift (parse_u16 pdu 1) in
  do? and_mask := st_lift (be_at pdu 3) in
  do? or_mask := st_lift (be_at pdu 5) in
  do? _ := or_address (mask_write_holding_register address and_mask or_mask) in
  st_ret pdu.

Definition mk_handler (fc : Z) (nm : string) (min : Z) (bc : bool)
    (h : list Z → stM S ExceptionCode (list Z)) : FunctionHandler S :=
  {| function_code := fc; handle := fun pdu _ => h pdu; name := nm; min_pdu_length := min;
     supports_broadcast := bc |}.

Definition default_handlers : list (FunctionHandler S) :=
  [ mk_handler 0x01 "Read Coils" 5 false ReadCoilsHandler_handle;
    mk_handler 0x02 "Read Discrete Inputs" 5 false ReadDiscreteInputsHandler_handle;
    mk_handler 0x03 "Read Holding Registers" 5 false ReadHoldingRegistersHandler_handle;
    mk_handler 0x04 "Read Input Registers" 5 false ReadInputRegistersHandler_handle;
    mk_handler 0x05 "Write Single Coil" 5 true WriteSingleCoilHandler_handle;
    mk_handler 0x06 "Write Single Register" 5 true WriteSingleRegisterHandler_handle;
    mk_handler 0x0F "Write Multiple Coils" 6 true WriteMultipleCoilsHandler_handle;
    mk_handler 0x10 "Write Multiple Registers" 6 true WriteMultipleRegistersHandler_handle;
    mk_handler 0x17 "Read/Write Multiple Registers" 10 false
      ReadWriteMultipleRegistersHandler_handle;
    mk_handler 0x16 "Mask Write Register" 7 true MaskWriteRegisterHandler_handle ].

(** [HandlerRegistry]: a map from function codes to handlers. *)
Definition HandlerRegistry : Type := gmap Z (FunctionHandler S).

Definition HandlerRegistry_new : HandlerRegistry := ∅.
Definition HandlerRegistry_register (h : FunctionHandler S) (r : HandlerRegistry)
  : option (FunctionHandler S) * HandlerRegistry :=
  (r !! function_code h, <[function_code h := h]> r).
Definition HandlerRegistry_unregister (fc : Z) (r : HandlerRegistry)
  : option (FunctionHandler S) * HandlerRegistry := (r !! fc, delete fc r).
Definition HandlerRegistry_get (r : HandlerRegistry) (fc : Z) : option (FunctionHandler S) := r !! fc.
Definition HandlerRegistry_has_handler (r : HandlerRegistry) (fc : Z) : bool := is_some (r !! fc).
Definition HandlerRegistry_with_defaults : HandlerRegistry :=
  foldl (fun r h => snd (HandlerRegistry_register h r)) HandlerRegistry_new default_handlers.

Definition function_supports_broadcast (fc : Z) (h : option (FunctionHandler S)) : bool :=
  match h with
  | Some handler => supports_broadcast handler
  | None =>
      match FunctionCode_try_from fc with
      | Ok FcWriteSingleCoil | Ok FcWriteSingleRegister | Ok FcWriteMultipleCoils
      | Ok FcWriteMultipleRegisters | Ok FcMaskWriteRegister => true
      | _ => false
      end
  end.

Definition HandlerRegistry_dispatch (r : HandlerRegistry) (pdu : list Z) (ctx : HandlerContext)
  : stM S ExceptionCode (list Z) :=
  match pdu with
  | [] => st_err IllegalFunction
  | fc :: _ =>
      match r !! fc with
      | Some handler =>
          if (hc_unit_id ctx =? 0) && negb (function_supports_broadcast fc (Some handler))
          then st_err IllegalFunction
          else if zlen pdu <? min_pdu_length handler then st_err IllegalDataValue
          else handle handler pdu ctx
      | None => st_err IllegalFunction
      end
  end.

End handlers.

(* ------------------------------------------------------------------ *)
(** * Agreement with the semantic core *)

Section agreement.
Context {S : Type} `{BP : BuildProfile} `{SP : AddressSpaceSpec S}.

(** The answer of the semantic core as a PDU: the encoded response, or the exception code. *)
Definition to_pdu (c : stM S SemanticFailure SemanticResponse) : stM S ExceptionCode (list Z) := fun s =>
  match c s with
  | (Ok resp, s') => (map_err (fun _ => SlaveDeviceFailure) (SemanticResponse_encode resp), s')
  | (Err f, s') => (Err (SemanticFailure_exception_code f), s')
  | (Panic, s') => (Panic, s')
  end.

Definition semantic_pdu (r : SemanticRequest) : stM S ExceptionCode (list Z) :=
  to_pdu (execute_builtin r).

Lemma validate_pdu_length_ok min pdu : min ≤ zlen pdu → validate_pdu_length min pdu = Ok tt.
Proof. intros. unfold validate_pdu_length. by rewrite (proj2 (Z.ltb_ge _ _)) by lia. Qed.

Lemma parse_u16_at pdu off x :
  pdu !! off = Some ((x / 256) mod 256) → pdu !! Datatypes.S off = Some (x mod 256) → is_u16 x →
  parse_u16 pdu off = Ok x.
Proof.
  intros H1 H2 Hx. unfold parse_u16, be_at. pose proof (lookup_lt_Some _ _ _ H2).
  rewrite (proj2 (Z.ltb_ge _ _)) by (unfold zlen; lia).
  unfold index. rewrite H1, H2. simpl. by rewrite u16_be_roundtrip.
Qed.

Lemma be_at_u16 {E} pdu off x :
  pdu !! off = Some ((x / 256) mod 256) → pdu !! Datatypes.S off = Some (x mod 256) → is_u16 x →
  be_at (E:=E) pdu off = Ok x.
Proof. intros H1 H2 Hx. unfold be_at, index. rewrite H1, H2. simpl. by rewrite u16_be_roundtrip. Qed.

Lemma validate_read_quantity_ok q t : 1 ≤ q ≤ max_read_quantity t → validate_read_quantity q t = Ok tt.
Proof.
  intros. unfold validate_read_quantity.
  by rewrite (proj2 (Z.eqb_neq _ _)), (proj2 (Z.ltb_ge _ _)) by lia.
Qed.
Lemma validate_write_quantity_ok q t : 1 ≤ q ≤ max_write_quantity t → validate_write_quantity q t = Ok tt.
Proof.
  intros. unfold validate_write_quantity.
  by rewrite (proj2 (Z.eqb_neq _ _)), (proj2 (Z.ltb_ge _ _)) by lia.
Qed.

Lemma words_at_spec {E} n : ∀ data,
  length data = (2 * n)%nat → words_at (E:=E) data n = Ok (words_of_bytes data).
Proof.
  intros data Hl. unfold words_at.
  assert (∀ pre (d : list Z), length d = (2 * n)%nat →
    omapM (E:=E) (fun i => be_at (pre ++ d) (length pre + i * 2)%nat) (seq 0 n)
    = Ok (words_of_bytes d)) as Haux.
  { clear. induction n as [|n IH]; intros pre [|hi [|lo d]] Hl; simpl in Hl; try lia; [done|].
    cbn [seq omapM]. unfold be_at at 1. unfold index.
    rewrite !lookup_app_r by lia.
    replace (length pre + 0 * 2 - length pre)%nat with 0%nat by lia.
    replace (Datatypes.S (length pre + 0 * 2) - length pre)%nat with 1%nat by lia. simpl.
    rewrite <- seq_shift.
    assert (omapM (E:=E) (λ i : nat, be_at (pre ++ hi :: lo :: d) (length pre + i * 2)) (map Datatypes.S (seq 0 n))
      = omapM (E:=E) (fun i => be_at ((pre ++ [hi; lo]) ++ d) (length (pre ++ [hi; lo]) + i * 2)%nat) (seq 0 n)) as ->.
    { rewrite <- app_assoc. simpl. generalize (seq 0 n). induction l as [|i l IHl]; [done|].
      simpl. rewrite IHl. rewrite length_app. simpl.
      by replace (length pre + Datatypes.S (Datatypes.S (i * 2)))%nat with (length pre + 2 + i * 2)%nat by lia. }
    rewrite IH by lia. done. }
  exact (Haux [] data Hl).
Qed.

(** A write followed by continuations that agree. *)
Lemma write_then_agrees (op : stM S ModbusError unit) t a n update
    (k1 : stM S ExceptionCode (list Z)) (k2 : stM S SemanticFailure SemanticResponse) s :
  write_law full_range space_wf view op t a n update → space_wf s → is_u16 a → 0 ≤ n ≤ max_quantity →
  reach full_range (view s) t a n →
  (∀ s', space_wf s' → view s' ≡ update (view s) → k1 s' = to_pdu k2 s') →
  (do? _ := or_address op in k1) s = to_pdu (do? _ := st_map_err from_modbus_error op in k2) s.
Proof.
  intros Hlaw Hwf Ha Hn Hreach Hk. specialize (Hlaw s Hwf Ha Hn Hreach).
  unfold or_address, st_bind, st_map_err. destruct (op s) as [r s'] eqn:Hop.
  destruct Hlaw as (Hr & Hwf' & Hv). unfold answers in Hr. unfold to_pdu. rewrite Hop.
  destruct (m_valid (view s) t a n).
  - subst r. simpl. by rewrite Hk.
  - destruct Hr as (e & -> & He). by destruct e.
Qed.

(** A write whose acknowledgement encodes to [pdu]. *)
Lemma write_agrees (op : stM S ModbusError unit) t a n update resp pdu s :
  write_law full_range space_wf view op t a n update → space_wf s → is_u16 a → 0 ≤ n ≤ max_quantity →
  reach full_range (view s) t a n →
  SemanticResponse_encode resp = Ok pdu →
  (do? _ := or_address op in st_ret pdu) s
  = to_pdu (do? _ := st_map_err from_modbus_error op in st_ret resp) s.
Proof.
  intros Hlaw Hwf Ha Hn Hreach Henc. eapply write_then_agrees; [done..|].
  intros s' _ _. unfold to_pdu, st_ret. by rewrite Henc.
Qed.

(** A read whose values are encoded by [enc]. *)
Lemma read_agrees {A} (op : Z → Z → stM S ModbusError A) t value mk
    (enc : A → stM S ExceptionCode (list Z)) s a q :
  read_law full_range space_wf view op t value → space_wf s → is_u16 a → 0 ≤ q ≤ max_quantity →
  reach full_range (view s) t a q →
  (∀ s', enc (value (view s) a q) s'
     = (map_err (fun _ => SlaveDeviceFailure) (SemanticResponse_encode (mk (value (view s) a q))), s')) →
  (do? v := or_address (op a q) in enc v) s
  = to_pdu (st_map_err from_modbus_error (st_map mk (op a q))) s.
Proof.
  intros Hlaw Hwf Ha Hn Hreach Henc. specialize (Hlaw s a q Hwf Ha Hn Hreach).
  unfold to_pdu, or_address, st_bind, st_map_err, st_map. destruct (op a q s) as [r s'].
  destruct Hlaw as (Hr & _). unfold answers in Hr. destruct (m_valid (view s) t a q).
  - subst r. simpl. by rewrite Henc.
  - destruct Hr as (e & -> & He). by destruct e.
Qed.

Lemma m_read_bits_length m t a q : 0 ≤ q → zlen (m_read_bits m t a q) = q.
Proof. intros. unfold m_read_bits, zlen. rewrite length_fmap, length_zrange. lia. Qed.
Lemma m_read_words_length m t a q : 0 ≤ q → zlen (m_read_words m t a q) = q.
Proof. intros. unfold m_read_words, zlen. rewrite length_fmap, length_zrange. lia. Qed.

Lemma read_bits_agrees fc f t (read : Z → Z → stM S ModbusError (list bool)) s a q :
  FunctionCode_as_u8 f = fc → is_bit_type t = true →
  read_law full_range space_wf view read t (fun m => m_read_bits m t) → space_wf s → span_ok a q 2000 →
  reach full_range (view s) t a q →
  handle_read_bits fc t read (fc :: u16_to_be a ++ u16_to_be q) s
  = to_pdu (st_map_err from_modbus_error (st_map (RespBits f) (read a q))) s.
Proof.
  intros <- Ht Hlaw Hwf (Ha & Hq & _) Hreach. unfold handle_read_bits. unfold st_bind at 1.
  unfold st_lift at 1. rewrite validate_pdu_length_ok by done.
  unfold st_bind at 1. unfold st_lift at 1. rewrite (parse_u16_at _ _ a) by done.
  unfold st_bind at 1. unfold st_lift at 1. rewrite (parse_u16_at _ _ q) by (done || int_lia).
  unfold st_bind at 1. unfold st_lift at 1.
  rewrite validate_read_quantity_ok by (unfold max_read_quantity; rewrite Ht; lia).
  apply (read_agrees read t (fun m => m_read_bits m t) (RespBits f)
    (fun bits => do? bytes := st_lift (pack_bits_from 0 bits
       (replicate (Z.to_nat (as_u8 (div_ceil q 8))) 0)) in
       st_ret ([FunctionCode_as_u8 f; as_u8 (div_ceil q 8)] ++ bytes)));
    [done..|unfold max_quantity; lia|done|].
  intros s'. unfold SemanticResponse_encode. rewrite m_read_bits_length by lia.
  destruct (pack_bits_spec (E:=ModbusError) (m_read_bits (view s) t a q)) as (d & Hd & _).
  rewrite Hd. apply (pack_bits_any_error (F:=ExceptionCode)) in Hd. unfold pack_bits in Hd.
  rewrite m_read_bits_length in Hd by lia. rewrite as_u8_id by int_lia.
  unfold st_bind, st_lift. by rewrite Hd.
Qed.

Lemma read_registers_agrees fc f t (read : Z → Z → stM S ModbusError (list Z)) s a q :
  FunctionCode_as_u8 f = fc → is_bit_type t = false →
  read_law full_range space_wf view read t (fun m => m_read_words m t) → space_wf s → span_ok a q 125 →
  reach full_range (view s) t a q →
  handle_read_registers fc t read (fc :: u16_to_be a ++ u16_to_be q) s
  = to_pdu (st_map_err from_modbus_error (st_map (RespRegisters f) (read a q))) s.
Proof.
  intros <- Ht Hlaw Hwf (Ha & Hq & _) Hreach. unfold handle_read_registers. unfold st_bind at 1.
  unfold st_lift at 1. rewrite validate_pdu_length_ok by done.
  unfold st_bind at 1. unfold st_lift at 1. rewrite (parse_u16_at _ _ a) by done.
  unfold st_bind at 1. unfold st_lift at 1. rewrite (parse_u16_at _ _ q) by (done || int_lia).
  unfold st_bind at 1. unfold st_lift at 1.
  rewrite validate_read_quantity_ok by (unfold max_read_quantity; rewrite Ht; lia).
  apply (read_agrees read t (fun m => m_read_words m t) (RespRegisters f)
    (fun values => do? twice := st_lift (u16_mul q 2) in
       st_ret ([FunctionCode_as_u8 f; as_u8 twice] ++ bytes_of_words values)));
    [done..|unfold max_quantity; lia|done|].
  intros s'. unfold SemanticResponse_encode. rewrite m_read_words_length by lia.
  unfold st_bind, st_lift. by rewrite u16_mul_exact by lia.
Qed.

(** Runs the leading checks of a handler on a request whose layout is known. *)
Ltac handler_step :=
  unfold st_bind at 1; unfold st_lift at 1;
  first [ rewrite validate_pdu_length_ok
            by len_lia
        | erewrite parse_u16_at by (reflexivity || done || int_lia)
        | erewrite be_at_u16 by (reflexivity || done || int_lia)
        | rewrite validate_write_quantity_ok by (unfold max_write_quantity; simpl; lia)
        | erewrite index_lookup by reflexivity
        | rewrite u16_mul_exact by lia ].

Lemma write_multiple_coils_agrees a vs s :
  space_wf s → span_ok a (zlen vs) 1968 → reach full_range (view s) Coil a (zlen vs) →
  WriteMultipleCoilsHandler_handle (request_wire (ReqWriteMultipleCoils a vs)) s
  = semantic_pdu (ReqWriteMultipleCoils a vs) s.
Proof.
  intros Hwf (Ha & Hq & Hs) Hreach. unfold request_wire.
  destruct (pack_bits_spec (E:=Empty_set) vs) as (d & Hd & Hl & _). rewrite Hd. simpl app.
  pose proof (div_ceil_8_bounds (zlen vs) (zlen_nonneg _)).
  assert (zlen d = div_ceil (zlen vs) 8) as Hzd by (unfold zlen at 1; lia).
  apply (pack_bits_any_error (F:=ExceptionCode)), unpack_pack_bits in Hd.
  unfold WriteMultipleCoilsHandler_handle. do 5 handler_step.
  rewrite Z.eqb_refl, (proj2 (Z.ltb_ge _ _)) by (rewrite !zlen_cons, Hzd; lia). simpl negb. cbv iota.
  unfold st_bind at 1. unfold st_lift at 1.
  rewrite (slice_tail (0x0F :: u16_to_be a ++ u16_to_be (zlen vs) ++ [div_ceil (zlen vs) 8]) d)
    by (done || rewrite Hzd; lia).
  unfold st_bind at 1. unfold st_lift at 1.
  replace (Z.to_nat (zlen vs)) with (length vs) by (unfold zlen; lia). rewrite Hd.
  unfold semantic_pdu. cbn [execute_builtin]. rewrite as_u16_id by int_lia.
  by apply (write_agrees _ Coil a (zlen vs) (fun m => m_write_bits m Coil a vs));
    [apply write_coils_spec| | |unfold max_quantity; lia| |].
Qed.

Lemma write_multiple_registers_agrees a vs s :
  space_wf s → span_ok a (zlen vs) 123 → words_ok vs → reach full_range (view s) HoldingRegister a (zlen vs) →
  WriteMultipleRegistersHandler_handle (request_wire (ReqWriteMultipleRegisters a vs)) s
  = semantic_pdu (ReqWriteMultipleRegisters a vs) s.
Proof.
  intros Hwf (Ha & Hq & Hs) Hvs Hreach. unfold request_wire. simpl app.
  assert (zlen (bytes_of_words vs) = 2 * zlen vs) as Hzd
    by (unfold zlen; rewrite length_bytes_of_words; lia).
  unfold WriteMultipleRegistersHandler_handle. do 6 handler_step.
  rewrite (Z.mul_comm (zlen vs)), Z.eqb_refl, (proj2 (Z.ltb_ge _ _)) by (rewrite !zlen_cons, Hzd; lia).
  simpl negb. cbv iota. unfold st_bind at 1. unfold st_lift at 1.
  rewrite (slice_tail (0x10 :: u16_to_be a ++ u16_to_be (zlen vs) ++ [2 * zlen vs])
             (bytes_of_words vs)) by (done || rewrite Hzd; lia).
  unfold st_bind at 1. unfold st_lift at 1.
  rewrite words_at_spec by (rewrite length_bytes_of_words; unfold zlen; lia).
  rewrite words_of_bytes_of_words by done.
  unfold semantic_pdu. cbn [execute_builtin]. rewrite as_u16_id by int_lia.
  by apply (write_agrees _ HoldingRegister a (zlen vs) (fun m => m_write_words m HoldingRegister a vs));
    [apply write_holding_registers_spec| | |unfold max_quantity; lia| |].
Qed.

Lemma read_write_agrees ra rq wa vs s :
  space_wf s → span_ok ra rq 125 → span_ok wa (zlen vs) 121 → words_ok vs →
  reach full_range (view s) HoldingRegister ra rq → reach full_range (view s) HoldingRegister wa (zlen vs) →
  ReadWriteMultipleRegistersHandler_handle (request_wire (ReqReadWriteMultipleRegisters ra rq wa vs)) s
  = semantic_pdu (ReqReadWriteMultipleRegisters ra rq wa vs) s.
Proof.
  intros Hwf (Hra & Hrq & _) (Hwa & Hwq & _) Hvs Hrr Hrw. unfold request_wire. simpl app.
  assert (zlen (bytes_of_words vs) = 2 * zlen vs) as Hzd
    by (unfold zlen; rewrite length_bytes_of_words; lia).
  unfold ReadWriteMultipleRegistersHandler_handle. do 5 handler_step.
  rewrite !(proj2 (Z.eqb_neq _ 0)), !(proj2 (Z.ltb_ge _ _)) by lia. cbn [orb]. do 2 handler_step.
  rewrite (Z.mul_comm (zlen vs)), Z.eqb_refl, (proj2 (Z.ltb_ge _ _)) by (rewrite !zlen_cons, Hzd; lia).
  simpl negb. cbv iota. unfold st_bind at 1. unfold st_lift at 1.
  rewrite (slice_tail (0x17 :: u16_to_be ra ++ u16_to_be rq ++ u16_to_be wa
             ++ u16_to_be (zlen vs) ++ [2 * zlen vs]) (bytes_of_words vs)) by (done || rewrite Hzd; lia).
  unfold st_bind at 1. unfold st_lift at 1.
  rewrite words_at_spec by (rewrite length_bytes_of_words; unfold zlen; lia).
  rewrite words_of_bytes_of_words by done.
  unfold semantic_pdu. cbn [execute_builtin].
  eapply write_then_agrees; [by apply write_holding_registers_spec|done|done|unfold max_quantity; lia|done|].
  intros s1 Hwf1 Hv1.
  rewrite (read_agrees read_holding_registers HoldingRegister (fun m => m_read_words m HoldingRegister)
    (RespRegisters FcReadWriteMultipleRegisters)
    (fun values => do? twice := st_lift (u16_mul rq 2) in
       st_ret ([0x17; as_u8 twice] ++ bytes_of_words values)));
    [|apply read_holding_registers_spec|done|done|unfold max_quantity; lia|by rewrite Hv1|].
  - unfold to_pdu, st_bind, st_map, st_map_err, st_ret.
    by destruct (read_holding_registers ra rq s1) as [[] ?].
  - intros s'. unfold SemanticResponse_encode. rewrite m_read_words_length by lia.
    unfold st_bind, st_lift. by rewrite u16_mul_exact by lia.
Qed.

Lemma registry_handle r fc :
  SemanticRequest_function_code r = fc → is_custom r = false →
  ∃ h, HandlerRegistry_with_defaults !! fc = Some h ∧ min_pdu_length h ≤ zlen (request_wire r) ∧
    supports_broadcast h = allows_broadcast r ∧
    ∀ ctx, handle h (request_wire r) ctx =
      match r with
      | ReqReadCoils _ _ => ReadCoilsHandler_handle (request_wire r)
      | ReqReadDiscreteInputs _ _ => ReadDiscreteInputsHandler_handle (request_wire r)
      | ReqReadHoldingRegisters _ _ => ReadHoldingRegistersHandler_handle (request_wire r)
      | ReqReadInputRegisters _ _ => ReadInputRegistersHandler_handle (request_wire r)
      | ReqWriteSingleCoil _ _ => WriteSingleCoilHandler_handle (request_wire r)
      | ReqWriteSingleRegister _ _ => WriteSingleRegisterHandler_handle (request_wire r)
      | ReqWriteMultipleCoils _ _ => WriteMultipleCoilsHandler_handle (request_wire r)
      | ReqWriteMultipleRegisters _ _ => WriteMultipleRegistersHandler_handle (request_wire r)
      | ReqMaskWriteRegister _ _ _ => MaskWriteRegisterHandler_handle (request_wire r)
      | ReqReadWriteMultipleRegisters _ _ _ _ => ReadWriteMultipleRegistersHandler_handle (request_wire r)
      | ReqCustom _ _ => st_err IllegalFunction
      end.
Proof.
  intros <- Hc. destruct r; try done; eexists; (split; [reflexivity|]); (split; [|done]);
    unfold request_wire; cbn [min_pdu_length mk_handler]; try destruct value; len_lia.
Qed.

Lemma dispatch_found (reg : HandlerRegistry (S:=S)) pdu fc h ctx :
  head pdu = Some fc → reg !! fc = Some h → min_pdu_length h ≤ zlen pdu →
  HandlerRegistry_dispatch reg pdu ctx
  = if (hc_unit_id ctx =? 0) && negb (supports_broadcast h) then st_err IllegalFunction else handle h pdu ctx.
Proof.
  intros Hpdu Hget Hmin. destruct pdu as [|x pdu]; simplify_eq/=.
  rewrite Hget. cbn [function_supports_broadcast]. destruct (_ && _); [done|].
  by rewrite (proj2 (Z.ltb_ge _ _)) by lia.
Qed.

Lemma registry_no_other fc : (∀ code, FunctionCode_try_from fc ≠ Ok code) → HandlerRegistry_with_defaults (S:=S) !! fc = None.
Proof.
  intros Hfc.
  assert (∀ (m : gmap Z (FunctionHandler S)) h, m !! fc = None → function_code h ≠ fc →
    (<[function_code h := h]> m) !! fc = None) as Hins by (intros; by rewrite lookup_insert_ne).
  unfold HandlerRegistry_with_defaults, default_handlers. cbn [foldl].
  repeat (apply Hins; [|intros <-; eapply Hfc; reflexivity]). done.
Qed.

Lemma handlers_agree_lemma r s unit_id tid :
  space_wf s → request_wf r → request_reach full_range (view s) r → is_custom r = false →
  HandlerRegistry_dispatch HandlerRegistry_with_defaults (request_wire r) (HandlerContext_new unit_id tid) s
  = if (unit_id =? 0) && negb (allows_broadcast r) then (Err IllegalFunction, s) else semantic_pdu r s.
Proof.
  intros Hwf Hr Hreach Hc. destruct (registry_handle r _ eq_refl Hc) as (h & Hget & Hmin & Hsb & Hh).
  rewrite (dispatch_found _ _ _ h), Hsb by done. cbn [hc_unit_id HandlerContext_new].
  destruct (_ && _); [done|]. rewrite Hh. clear Hget Hmin Hh Hsb.
  destruct r as [a q|a q|a q|a q|a v|a v|a vs|a vs|a am om|ra rq wa vs|]; try done; simpl in Hr, Hreach.
  - by apply (read_bits_agrees 0x01 FcReadCoils Coil read_coils); [| |apply read_coils_spec| | |].
  - by apply (read_bits_agrees 0x02 FcReadDiscreteInputs DiscreteInput read_discrete_inputs);
      [| |apply read_discrete_inputs_spec| | |].
  - by apply (read_registers_agrees 0x03 FcReadHoldingRegisters HoldingRegister read_holding_registers);
      [| |apply read_holding_registers_spec| | |].
  - by apply (read_registers_agrees 0x04 FcReadInputRegisters InputRegister read_input_registers);
      [| |apply read_input_registers_spec| | |].
  - unfold request_wire. destruct v; simpl app; unfold WriteSingleCoilHandler_handle; do 2 handler_step;
      unfold st_bind at 1; unfold st_lift at 1;
      [rewrite (be_at_u16 _ 3 0xFF00) by (reflexivity || int_lia)
      |rewrite (be_at_u16 _ 3 0) by (reflexivity || int_lia)];
      (eapply write_agrees; [apply write_coil_spec|done|done|unfold max_quantity; lia|done|done]).
  - destruct Hr as [Ha Hv]. unfold request_wire. simpl app.
    unfold WriteSingleRegisterHandler_handle. do 3 handler_step.
    by apply (write_agrees _ HoldingRegister a 1 (fun m => m_write_words m HoldingRegister a [v]));
      [apply write_holding_register_spec| | |unfold max_quantity; lia| |].
  - by apply write_multiple_coils_agrees.
  - destruct Hr. by apply write_multiple_registers_agrees.
  - destruct Hr as (Ha & Ham & Hom). unfold request_wire. simpl app.
    unfold MaskWriteRegisterHandler_handle. do 4 handler_step.
    by apply (write_agrees _ HoldingRegister a 1 (fun m =>
        m_write_words m HoldingRegister a [mask_formula (m_words m HoldingRegister a) am om]));
      [apply mask_write_holding_register_spec| | |unfold max_quantity; lia| |].
  - destruct Hr as (?&?&?), Hreach. by apply read_write_agrees.
Qed.
End agreement.

(* ------------------------------------------------------------------ *)
(** * Properties *)

(** C14: the function-code handlers and the semantic core agree.  On a dense store, and on a sparse one
    with fixed defaults, dispatching the
    wire form of any well-formed request through the default handler registry gives the very
    bytes, the very exception and the very registers that the semantic core gives, also for
    requests of other function codes, which both refuse; with one exception: a request to unit
    0 that is not a write (or is a read/write) is refused with an illegal function and changes
    nothing, where the semantic core would serve it.  For a dense store the spans of the
    request are those of [reach]: none begins inside the store, leaves it and ends at 65536,
    where the dense store panics ([dense_overflow_panics]). *)
Theorem handlers_agree_with_semantic_core {S} `{BuildProfile} `{AddressSpaceSpec S} r (s : S) u tid :
  space_wf s → request_wf r → request_reach full_range (view s) r →
  (is_custom r = true → ∀ code, FunctionCode_try_from (SemanticRequest_function_code r) ≠ Ok code) →
  HandlerRegistry_dispatch HandlerRegistry_with_defaults (request_wire r) (HandlerContext_new u tid) s
  = if (u =? 0) && negb (allows_broadcast r) then (Err IllegalFunction, s) else semantic_pdu r s.
Proof.
  intros Hwf Hr Hreach Hc. destruct (is_custom r) eqn:Hcustom; [|by apply handlers_agree_lemma].
  destruct r as [| | | | | | | | | |fc payload]; try done. unfold request_wire. cbn [SemanticRequest_function_code app] in *.
  cbn [HandlerRegistry_dispatch]. rewrite registry_no_other by (by apply Hc). by destruct (_ && _).
Qed.

Lemma handlers_agree_with_semantic_core_witness :
  let _ := debug_build in
  let s := RegisterStore_new 20 20 20 20 in
  HandlerRegistry_dispatch HandlerRegistry_with_defaults
    (request_wire (ReqWriteMultipleCoils 3 [true; false; true])) (HandlerContext_new 0 9) s
  = semantic_pdu (ReqWriteMultipleCoils 3 [true; false; true]) s.
Proof.
  intros p s.
  apply (@handlers_agree_with_semantic_core _ p _ RegisterStore_spec (ReqWriteMultipleCoils 3 [true; false; true]) s 0 9).
  - apply RegisterStore_new_wf; lia.
  - closed.
  - left. reflexivity.
  - discriminate.
Defined.
