(* ===== verification/ModbusService.v ===== *)
(** From a raw PDU to a reply: the server context ([context.rs]), the transport-neutral
    service ([service.rs]) and the transport request runtime ([transport_runtime.rs]).

    Register spaces are shared ([Arc<dyn AddressSpace>]): devices hold locations of a heap of
    stores, so two units that share a space are two devices with one location.  Extension
    handlers are code of the embedding program, represented by the functions of their trait.
    The iteration order of the [DashMap] of units and the timer of [tokio::time::timeout]
    are parameters. *)

From S2P Require Import Prelude ModbusPdu ModbusSpace ModbusDense ModbusSemantic ModbusHandlers.

(* ------------------------------------------------------------------ *)
(** * Server context *)

Abbreviation loc := nat (only parsing).

Inductive BroadcastPolicy : Type :=
| WriteAll
| Disabled
| SelectiveList (units : list Z)
| EchoToUnit (unit_id : Z).

Record DeviceContext : Type := {
  dc_unit_id : Z;
  dc_name : string;
  dc_address_space : loc;
  broadcast_enabled : bool;
}.

Definition DeviceContext_new (unit_id : Z) (nm : string) (space : loc) : DeviceContext :=
  {| dc_unit_id := unit_id; dc_name := nm; dc_address_space := space; broadcast_enabled := true |}.
Definition DeviceContext_with_broadcast (d : DeviceContext) (b : bool) : DeviceContext :=
  {| dc_unit_id := dc_unit_id d; dc_name := dc_name d; dc_address_space := dc_address_space d;
     broadcast_enabled := b |}.

Record RequestTarget : Type := {
  rt_unit_id : Z;
  rt_device : option DeviceContext;
  rt_address_space : loc;
}.

Record ServerContext : Type := {
  units : gmap Z DeviceContext;
  default_space : loc;
  broadcast_policy : BroadcastPolicy;
}.

Definition ServerContext_new (space : loc) : ServerContext :=
  {| units := ∅; default_space := space; broadcast_policy := WriteAll |}.
Definition ServerContext_register (c : ServerContext) (d : DeviceContext)
  : option DeviceContext * ServerContext :=
  (units c !! dc_unit_id d,
   {| units := <[dc_unit_id d := d]> (units c); default_space := default_space c;
      broadcast_policy := broadcast_policy c |}).
Definition ServerContext_remove (c : ServerContext) (unit_id : Z)
  : option DeviceContext * ServerContext :=
  (units c !! unit_id,
   {| units := delete unit_id (units c); default_space := default_space c;
      broadcast_policy := broadcast_policy c |}).
Definition ServerContext_set_broadcast_policy (c : ServerContext) (p : BroadcastPolicy)
  : ServerContext :=
  {| units := units c; default_space := default_space c; broadcast_policy := p |}.
Definition ServerContext_set_broadcast_enabled (c : ServerContext) (b : bool) : ServerContext :=
  ServerContext_set_broadcast_policy c (if b then WriteAll else Disabled).
Definition ServerContext_broadcast_enabled (c : ServerContext) : bool :=
  match broadcast_policy c with Disabled => false | _ => true end.

Definition target_of (unit_id : Z) (d : DeviceContext) : RequestTarget :=
  {| rt_unit_id := unit_id; rt_device := Some d; rt_address_space := dc_address_space d |}.

Definition target_for_unit (c : ServerContext) (unit_id : Z) : option RequestTarget :=
  if unit_id =? 0 then None
  else match units c !! unit_id with
       | Some device => Some (target_of unit_id device)
       | None => None
       end.

(** [target.device().map(|device| device.broadcast_enabled()).unwrap_or(false)]. *)
Definition target_broadcasts (t : RequestTarget) : bool :=
  match rt_device t with Some device => broadcast_enabled device | None => false end.

Definition fallback_target (c : ServerContext) (unit_id : Z) : RequestTarget :=
  {| rt_unit_id := unit_id; rt_device := None; rt_address_space := default_space c |}.

(** The order in which [DashMap::iter] visits the units: some order of the entries. *)
Class DashMapOrder : Type := {
  dash_iter : gmap Z DeviceContext → list (Z * DeviceContext);
  dash_iter_perm : ∀ m, dash_iter m ≡ₚ map_to_list m;
}.

Section context.
Context `{DashMapOrder}.

Definition ServerContext_devices (c : ServerContext) : list DeviceContext :=
  snd <$> dash_iter (units c).

Definition broadcast_targets (c : ServerContext) : list RequestTarget :=
  match broadcast_policy c with
  | WriteAll =>
      (fun device => target_of (dc_unit_id device) device) <$>
        filter (fun device => broadcast_enabled device = true) (ServerContext_devices c)
  | Disabled => []
  | SelectiveList unit_ids =>
      filter (fun t => target_broadcasts t = true) (omap (target_for_unit c) unit_ids)
  | EchoToUnit unit_id =>
      match target_for_unit c unit_id with
      | Some t => if target_broadcasts t then [t] else []
      | None => []
      end
  end.

End context.

(* ------------------------------------------------------------------ *)
(** * Service *)

Inductive ServiceOutcome : Type :=
| Reply (response : list Z)
| Ignore
| Exception (code : ExceptionCode).

Inductive TransportDisposition : Type :=
| TdReply (response : list Z)
| TdBroadcastSuppressed (response : list Z)
| TdIgnore.

(** [exception_response]: an exception PDU is never empty, so [expect] does not panic. *)
Definition exception_response {E} (function_code : Z) (code : ExceptionCode) : outcome E (list Z) :=
  match ResponsePdu_new (build_exception_pdu function_code code) with
  | Ok response => Ok response
  | _ => Panic
  end.

Definition into_transport_disposition {E} (o : ServiceOutcome) (function_code : Z)
    (is_broadcast : bool) : outcome E TransportDisposition :=
  let? disposition :=
    (match o with
     | Reply response => Ok (TdReply response)
     | Ignore => Ok TdIgnore
     | Exception code =>
         let? response := exception_response function_code code in Ok (TdReply response)
     end) in
  Ok (if is_broadcast then
        match disposition with
        | TdReply response | TdBroadcastSuppressed response => TdBroadcastSuppressed response
        | TdIgnore => TdIgnore
        end
      else disposition).

Record ExtensionRequest : Type := {
  ex_function_code : Z;
  ex_payload : list Z;
  ex_transaction_id : Z;
  ex_unit_id : Z;
  ex_is_broadcast : bool;
}.

Definition raw_pdu (r : ExtensionRequest) : list Z := ex_function_code r :: ex_payload r.

Record ExtensionContext : Type := {
  ec_unit_id : Z;
  ec_transaction_id : Z;
  ec_is_broadcast : bool;
}.

(** An [ExtensionHandler] trait object.  [ext_execute] acts on the register space of the
    target. *)
Record ExtensionHandler (S : Type) : Type := {
  ext_function_code : Z;
  ext_supports_broadcast : bool;
  ext_decode : list Z → Z → Z → bool → outcome ExceptionCode ExtensionRequest;
  ext_execute : ExtensionRequest → ExtensionContext → stM S Empty_set ServiceOutcome;
}.
Arguments ext_function_code {S} e.
Arguments ext_supports_broadcast {S} e.
Arguments ext_decode {S} e.
Arguments ext_execute {S} e.

Abbreviation heap S := (gmap nat S).

Inductive ServiceTargets : Type :=
| Unicast (target : RequestTarget)
| Broadcast (targets : list RequestTarget).

Definition targets_broadcast (t : ServiceTargets) : bool :=
  match t with Broadcast _ => true | Unicast _ => false end.

Section service.
Context {S : Type} `{AddressSpace S}.

(** An operation on the store a location refers to.  A location held by a device is always
    allocated. *)
Definition at_space {E A} (l : loc) (op : stM S E A) : stM (heap S) E A := fun h =>
  match h !! l with
  | Some s => let '(r, s') := op s in (r, <[l := s']> h)
  | None => (Panic, h)
  end.

Definition execute_unicast (request : SemanticRequest) (target : RequestTarget)
  : stM (heap S) SemanticFailure SemanticResponse :=
  at_space (rt_address_space target) (execute_builtin request).

Fixpoint write_targets (request : SemanticRequest) (targets : list RequestTarget)
  : stM (heap S) SemanticFailure unit :=
  match targets with
  | [] => st_ret tt
  | target :: targets' =>
      do? _ := at_space (rt_address_space target) (execute_builtin_write_only request) in
      write_targets request targets'
  end.

Definition execute_broadcast (request : SemanticRequest) (targets : list RequestTarget)
  : stM (heap S) SemanticFailure SemanticResponse :=
  do? _ := write_targets request targets in
  st_lift (broadcast_ack request).

(** [ExtensionRegistry]. *)
Definition ExtensionRegistry : Type := gmap Z (ExtensionHandler S).

Definition ExtensionRegistry_register (h : ExtensionHandler S) (r : ExtensionRegistry)
  : option (ExtensionHandler S) * ExtensionRegistry :=
  (r !! ext_function_code h, <[ext_function_code h := h]> r).
Definition ExtensionRegistry_unregister (fc : Z) (r : ExtensionRegistry)
  : option (ExtensionHandler S) * ExtensionRegistry := (r !! fc, delete fc r).

(** The loop over the broadcast targets: stops at the first exception. *)
Fixpoint execute_extension_targets (h : ExtensionHandler S) (request : ExtensionRequest)
    (ctx : ExtensionContext) (outcome_so_far : ServiceOutcome) (targets : list RequestTarget)
  : stM (heap S) Empty_set ServiceOutcome :=
  match targets with
  | [] => st_ret outcome_so_far
  | target :: targets' =>
      do? o := at_space (rt_address_space target) (ext_execute h request ctx) in
      match o with
      | Exception _ => st_ret o
      | _ => execute_extension_targets h request ctx o targets'
      end
  end.

Definition ExtensionRegistry_dispatch (r : ExtensionRegistry) (unit_id transaction_id : Z)
    (pdu : list Z) (targets : ServiceTargets) : stM (heap S) Empty_set ServiceOutcome :=
  match head pdu with
  | None => st_ret (Exception IllegalDataValue)
  | Some fc =>
      match r !! fc with
      | None => st_ret (Exception IllegalFunction)
      | Some handler =>
          match ext_decode handler pdu unit_id transaction_id (targets_broadcast targets) with
          | Err error => st_ret (Exception error)
          | Panic => st_lift Panic
          | Ok request =>
              match targets with
              | Broadcast ts =>
                  if negb (ext_supports_broadcast handler) then st_ret (Exception IllegalFunction)
                  else
                    execute_extension_targets handler request
                      {| ec_unit_id := unit_id; ec_transaction_id := transaction_id;
                         ec_is_broadcast := true |} Ignore ts
              | Unicast t =>
                  at_space (rt_address_space t)
                    (ext_execute handler request
                       {| ec_unit_id := unit_id; ec_transaction_id := transaction_id;
                          ec_is_broadcast := false |})
              end
          end
      end
  end.

(** [LegacyExtensionHandler]: a function handler as an extension. *)
Definition LegacyExtensionHandler (h : FunctionHandler S) : ExtensionHandler S := {|
  ext_function_code := function_code h;
  ext_supports_broadcast := supports_broadcast h;
  ext_decode := fun pdu unit_id transaction_id is_broadcast =>
    if zlen pdu <? min_pdu_length h then Err IllegalDataValue
    else if is_broadcast && negb (supports_broadcast h) then Err IllegalFunction
    else
      let? fc := ok_or (head pdu) IllegalDataValue in
      Ok {| ex_function_code := fc; ex_payload := drop 1 pdu;
            ex_transaction_id := transaction_id; ex_unit_id := unit_id;
            ex_is_broadcast := is_broadcast |};
  ext_execute := fun request ctx s =>
    match handle h (raw_pdu request) (HandlerContext_new (ec_unit_id ctx) (ec_transaction_id ctx)) s with
    | (Ok response, s') =>
        (Ok (match ResponsePdu_new response with
             | Ok response' => Reply response'
             | Err e => Exception (SemanticFailure_exception_code (from_modbus_error e))
             | Panic => Ignore
             end), s')
    | (Err error, s') => (Ok (Exception error), s')
    | (Panic, s') => (Panic, s')
    end;
|}.

(** [ExtensionRegistry::from(HandlerRegistry)]. *)
Definition ExtensionRegistry_from (r : HandlerRegistry (S:=S)) : ExtensionRegistry :=
  LegacyExtensionHandler <$> r.

Record StandardModbusService : Type := { custom_extensions : option ExtensionRegistry }.

Definition StandardModbusService_new (handlers : HandlerRegistry (S:=S)) : StandardModbusService :=
  {| custom_extensions := Some (ExtensionRegistry_from handlers) |}.

Definition dispatch_custom_raw (sv : StandardModbusService) (unit_id transaction_id : Z)
    (pdu : list Z) (targets : ServiceTargets) : stM (heap S) Empty_set ServiceOutcome :=
  match custom_extensions sv with
  | Some extensions => ExtensionRegistry_dispatch extensions unit_id transaction_id pdu targets
  | None => st_ret (Exception IllegalFunction)
  end.

(** The execution of a parsed request on its targets. *)
Definition execute_on (request : SemanticRequest) (targets : ServiceTargets)
  : stM (heap S) SemanticFailure SemanticResponse :=
  match targets with
  | Broadcast ts => execute_broadcast request ts
  | Unicast t => execute_unicast request t
  end.

Definition dispatch_request (sv : StandardModbusService) (unit_id transaction_id : Z)
    (pdu : list Z) (targets : ServiceTargets) : stM (heap S) Empty_set ServiceOutcome := fun h =>
  match head pdu with
  | None => (Ok (Exception IllegalDataValue), h)
  | Some fc =>
      if negb (is_ok (FunctionCode_try_from fc))
      then dispatch_custom_raw sv unit_id transaction_id pdu targets h
      else
        match parse_semantic_request pdu (targets_broadcast targets) with
        | Err error => (Ok (Exception error), h)
        | Panic => (Panic, h)
        | Ok semantic =>
            match execute_on semantic targets h with
            | (Err error, h') => (Ok (Exception (SemanticFailure_exception_code error)), h')
            | (Panic, h') => (Panic, h')
            | (Ok response, h') =>
                match SemanticResponse_encode response with
                | Ok response' => (Ok (Reply response'), h')
                | Err _ => (Ok (Exception SlaveDeviceFailure), h')
                | Panic => (Panic, h')
                end
            end
        end
  end.

(* ------------------------------------------------------------------ *)
(** * Transport runtime *)

Inductive UnknownUnitBehavior : Type :=
| UnknownIgnore
| UnknownException (code : ExceptionCode).

Record TransportServicePolicy : Type := {
  request_timeout : option Z;
  unknown_unit_behavior : UnknownUnitBehavior;
}.

Record ExecutedTransportRequest : Type := {
  etr_function_code : Z;
  etr_unit_id : Z;
  timed_out : bool;
  disposition : TransportDisposition;
}.

Context `{DashMapOrder}.

(** [tokio::time::timeout(duration, async { call })]: the call's outcome, or [None] when the
    deadline passed. *)
Variable tokio_timeout : Z → stM (heap S) Empty_set ServiceOutcome →
  stM (heap S) Empty_set (option ServiceOutcome).

Definition finish_request (function_code unit_id : Z) (is_broadcast : bool) (o : ServiceOutcome)
    (late : bool) : stM (heap S) Empty_set ExecutedTransportRequest :=
  do? d := st_lift (into_transport_disposition o function_code is_broadcast) in
  st_ret {| etr_function_code := function_code; etr_unit_id := unit_id; timed_out := late;
            disposition := d |}.

Definition execute_transport_request (sv : StandardModbusService) (c : ServerContext)
    (unit_id transaction_id : Z) (pdu : list Z) (policy : TransportServicePolicy)
  : stM (heap S) Empty_set ExecutedTransportRequest :=
  let function_code := default 0 (head pdu) in
  let is_broadcast := unit_id =? 0 in
  match pdu with
  | [] => finish_request function_code unit_id is_broadcast (Exception IllegalDataValue) false
  | _ =>
      let targets :=
        if is_broadcast then Some (Broadcast (broadcast_targets c))
        else Unicast <$> target_for_unit c unit_id in
      match targets with
      | None =>
          finish_request function_code unit_id is_broadcast
            (match unknown_unit_behavior policy with
             | UnknownIgnore => Ignore
             | UnknownException code => Exception code
             end) false
      | Some ts =>
          let call := dispatch_request sv (if is_broadcast then 0 else unit_id) transaction_id pdu ts in
          do? (o, late) :=
            (match request_timeout policy with
             | Some timeout =>
                 do? r := tokio_timeout timeout call in
                 st_ret (match r with
                         | Some o => (o, false)
                         | None => (Exception SlaveDeviceBusy, true)
                         end)
             | None => do? o := call in st_ret (o, false)
             end) in
          finish_request function_code unit_id is_broadcast o late
      end
  end.

End service.

(* ------------------------------------------------------------------ *)
(** * Replies *)

(** The service's answer to an executed request. *)
Definition outcome_of (r : outcome SemanticFailure SemanticResponse) : ServiceOutcome :=
  match r with
  | Ok resp => match SemanticResponse_encode resp with Ok pdu => Reply pdu | _ => Exception SlaveDeviceFailure end
  | Err f => Exception (SemanticFailure_exception_code f)
  | Panic => Ignore
  end.

(** A reply PDU that echoes the function code and fits a Modbus PDU, or one of the three
    exceptions a server raises itself. *)
Definition reply_ok (fc : Z) (o : ServiceOutcome) : Prop :=
  match o with
  | Reply pdu => head pdu = Some fc ∧ bytes_ok pdu ∧ 2 ≤ zlen pdu ≤ 253
  | Exception e => parse_error e
  | Ignore => False
  end.

(** The responses a well-formed request can have. *)
Definition response_ok (fc : Z) (resp : SemanticResponse) : Prop :=
  match resp with
  | RespBits f vs => FunctionCode_as_u8 f = fc ∧ zlen vs ≤ 2000
  | RespRegisters f vs => FunctionCode_as_u8 f = fc ∧ zlen vs ≤ 125
  | RespWriteSingleCoilAck _ _ => fc = 0x05
  | RespWriteSingleRegisterAck _ _ => fc = 0x06
  | RespWriteMultipleAck f _ _ => FunctionCode_as_u8 f = fc
  | RespMaskWriteAck _ _ _ => fc = 0x16
  | RespCustom _ => False
  end.

Lemma FunctionCode_as_u8_range f : is_u8 (FunctionCode_as_u8 f).
Proof. by destruct f. Qed.

Lemma encode_ok fc resp :
  response_ok fc resp →
  ∃ pdu, SemanticResponse_encode resp = Ok pdu ∧ head pdu = Some fc ∧ bytes_ok pdu ∧ 2 ≤ zlen pdu ≤ 253.
Proof.
  assert (∀ x y, bytes_ok (u16_to_be x ++ u16_to_be y)) as Hpair
    by (intros; apply bytes_ok_app; split; apply u16_to_be_ok).
  destruct resp as [f vs|f vs|a v|a v|f a q|a am om|]; simpl response_ok; [..|done].
  - intros [<- Hlen]. simpl. destruct (pack_bits_spec (E:=ModbusError) vs) as (d & -> & Hl & Hok & _).
    pose proof (zlen_nonneg vs). pose proof (div_ceil_8_bounds (zlen vs) (zlen_nonneg vs)). simpl.
    eexists. split; [done|]. split; [done|]. split.
    + repeat (apply bytes_ok_cons; split); [apply FunctionCode_as_u8_range|apply as_u8_range|done].
    + rewrite !zlen_cons. assert (zlen d = div_ceil (zlen vs) 8) by (unfold zlen at 1; lia). lia.
  - intros [<- Hlen]. eexists. split; [done|]. split; [done|]. split.
    + repeat (apply bytes_ok_cons; split);
        [apply FunctionCode_as_u8_range|apply as_u8_range|apply bytes_of_words_ok].
    + autorewrite with lens. unfold zlen in *. rewrite length_bytes_of_words. lia.
  - intros ->. eexists. split; [done|]. split; [done|]. split; [|by destruct v].
    apply bytes_ok_cons. split; [closed|apply Hpair].
  - intros ->. eexists. split; [done|]. split; [done|]. split; [|done].
    apply bytes_ok_cons. split; [closed|apply Hpair].
  - intros <-. eexists. split; [done|]. split; [done|]. split; [|done].
    apply bytes_ok_cons. split; [apply FunctionCode_as_u8_range|apply Hpair].
  - intros ->. eexists. split; [done|]. split; [done|]. split; [|done].
    apply bytes_ok_cons. split; [closed|]. apply bytes_ok_app. split; [apply u16_to_be_ok|apply Hpair].
Qed.

(** The model answers a well-formed built-in request with a well-formed response or an
    address exception. *)
Lemma model_exec_response r m :
  request_wf r → is_custom r = false →
  osat (response_ok (SemanticRequest_function_code r)) (fun f => f = SfIllegalDataAddress)
    (fst (model_exec r m)).
Proof.
  intros Hr Hc. destruct r as [a q|a q|a q|a q|a v|a v|a vs|a vs|a am om|ra rq wa vs|];
    try done; simpl in Hr |- *; unfold model_read, model_write, span_ok in *; simpl;
    repeat case_match; simpl; try done; (split; [done|]);
    rewrite ?m_read_bits_length, ?m_read_words_length by lia; lia.
Qed.

Lemma reply_ok_outcome r m :
  request_wf r → is_custom r = false →
  reply_ok (SemanticRequest_function_code r) (outcome_of (fst (model_exec r m))).
Proof.
  intros Hr Hc. pose proof (model_exec_response r m Hr Hc) as Hsat.
  destruct (fst (model_exec r m)) as [resp|f|]; simpl in *; [|subst f; right; by left|done].
  destruct (encode_ok _ _ Hsat) as (pdu & -> & ?). done.
Qed.

(* ------------------------------------------------------------------ *)
(** * Unicast requests *)

Section unicast.
Context {S : Type} `{AddressSpaceSpec S}.

Lemma dispatch_unicast_spec (sv : StandardModbusService (S:=S)) unit_id tid pdu fc t h s :
  bytes_ok pdu → head pdu = Some fc → is_ok (FunctionCode_try_from fc) = true →
  h !! rt_address_space t = Some s → space_wf s →
  (∀ r, parse_semantic_request pdu false = Ok r → request_reach full_range (view s) r) →
  ∃ o s', dispatch_request sv unit_id tid pdu (Unicast t) h
            = (Ok o, <[rt_address_space t := s']> h) ∧
    space_wf s' ∧ reply_ok fc o ∧
    match parse_semantic_request pdu false with
    | Ok r => o = outcome_of (fst (model_exec r (view s))) ∧ view s' ≡ snd (model_exec r (view s))
    | Err e => o = Exception e ∧ s' = s
    | Panic => False
    end.
Proof.
  intros Hpdu Hfc Hbuiltin Hs Hwf Hreach. unfold dispatch_request. rewrite Hfc, Hbuiltin. cbn [negb targets_broadcast].
  pose proof (parse_semantic_request_sat pdu Hpdu false) as Hsat.
  destruct (parse_semantic_request pdu false) as [r|e|]; [| |done].
  2: { exists (Exception e), s. rewrite insert_id by done. done. }
  destruct Hsat as (Hr & Hhead & _ & Hc). rewrite Hfc in Hhead. injection Hhead as ->.
  specialize (Hc Hbuiltin). destruct (execute_builtin_refines r s Hwf Hr (Hreach r eq_refl)) as (Hres & Hwf' & Hv').
  pose proof (model_exec_response r (view s) Hr Hc) as Hresp.
  cbn [execute_on]. unfold execute_unicast, at_space. rewrite Hs.
  destruct (execute_builtin r s) as [res s']. simpl in *. subst res.
  pose proof (reply_ok_outcome r (view s) Hr Hc) as Hreply.
  exists (outcome_of (fst (model_exec r (view s)))), s'. split; [|done].
  destruct (fst (model_exec r (view s))) as [resp|f|]; simpl in *; [|done|done].
  by destruct (encode_ok _ _ Hresp) as (bytes & -> & _).
Qed.

(** An operation at one location leaves the others alone. *)
Lemma at_space_others {E A} l (op : stM S E A) h l' :
  l' ≠ l → snd (at_space l op h) !! l' = h !! l'.
Proof.
  intros Hl. unfold at_space. destruct (h !! l); [|done]. destruct (op s). simpl.
  by rewrite lookup_insert_ne.
Qed.

Lemma dispatch_unicast_others (sv : StandardModbusService (S:=S)) unit_id tid pdu t h l :
  l ≠ rt_address_space t →
  snd (dispatch_request sv unit_id tid pdu (Unicast t) h) !! l = h !! l.
Proof.
  intros Hl. unfold dispatch_request. destruct (head pdu) as [fc|] eqn:Hfc; [|done].
  destruct (negb _).
  - unfold dispatch_custom_raw. destruct (custom_extensions sv) as [ext|]; [|done].
    unfold ExtensionRegistry_dispatch. rewrite Hfc. destruct (ext !! fc) as [eh|]; [|done].
    destruct (ext_decode eh _ _ _ _); [|done..]. by apply at_space_others.
  - destruct (parse_semantic_request _ _) as [r| |]; [|done..].
    pose proof (at_space_others (rt_address_space t) (execute_builtin r) h l Hl) as Ho.
    cbn [execute_on]. unfold execute_unicast.
    destruct (at_space _ _ h) as [[resp| |] h']; simpl in *; [|done..].
    by destruct (SemanticResponse_encode resp).
Qed.
End unicast.

(* ------------------------------------------------------------------ *)
(** * Broadcast requests *)

Section broadcast.
Context {S : Type} `{AddressSpaceSpec S}.

(** Where the writes of a broadcastable request go. *)
Definition write_span (r : SemanticRequest) : RegisterType * Z * Z :=
  match r with
  | ReqWriteSingleCoil a _ => (Coil, a, 1)
  | ReqWriteMultipleCoils a vs => (Coil, a, zlen vs)
  | ReqWriteMultipleRegisters a vs => (HoldingRegister, a, zlen vs)
  | ReqWriteSingleRegister a _ | ReqMaskWriteRegister a _ _ => (HoldingRegister, a, 1)
  | _ => (Coil, 0, 0)
  end.

Definition span_valid (m : model) (r : SemanticRequest) : bool :=
  let '(t, a, n) := write_span r in m_valid m t a n.

Lemma write_only_refines r s :
  space_wf s → request_wf r → request_reach full_range (view s) r → allows_broadcast r = true →
  ∃ s', execute_builtin_write_only r s
        = (if span_valid (view s) r then Ok tt else Err SfIllegalDataAddress, s') ∧
    space_wf s' ∧ view s' ≡ snd (model_exec r (view s)).
Proof.
  intros Hwf Hr Hreach Hb. pose proof (execute_builtin_refines r s Hwf Hr Hreach) as (Hx & Hwf' & Hv').
  destruct r; try done; unfold execute_builtin in *; unfold execute_builtin_write_only;
    unfold st_bind, st_ret in *;
    match goal with |- context [st_map_err _ ?op s] => destruct (st_map_err from_modbus_error op s) as [[[]|f|] s1] end;
    exists s1; simpl in *; unfold model_write, span_valid in *; simpl in *;
    destruct (m_valid _ _ _ _); simpl in *; simplify_eq; done.
Qed.

(** Writing the same request twice is writing it once. *)
Lemma overwrite_idem {A} (f : Z → A) a vs x : overwrite (overwrite f a vs) a vs x = overwrite f a vs x.
Proof.
  unfold overwrite. destruct ((a <=? x) && (x <? a + zlen vs)) eqn:E; [|done].
  by destruct (vs !! Z.to_nat (x - a)).
Qed.

Lemma mask_formula_idem c am om :
  mask_formula (mask_formula c am om) am om = mask_formula c am om.
Proof.
  unfold mask_formula. apply Z.bits_inj'. intros i Hi.
  rewrite !Z.lor_spec, !Z.land_spec, !Z.lor_spec, !Z.land_spec.
  unfold u16_not. rewrite !Z.lxor_spec.
  by destruct (Z.testbit c i), (Z.testbit am i), (Z.testbit om i), (Z.testbit 65535 i).
Qed.

Lemma overwrite_one_at {A} (f : Z → A) a v : overwrite f a [v] a = v.
Proof.
  unfold overwrite. change (zlen [v]) with 1.
  by rewrite (proj2 (Z.leb_le a a)), (proj2 (Z.ltb_lt a _)), Z.sub_diag by lia.
Qed.

Lemma model_write_idem r m :
  allows_broadcast r = true → snd (model_exec r (snd (model_exec r m))) ≡ snd (model_exec r m).
Proof.
  intros Hb. destruct r; try done; simpl; unfold model_write;
    (destruct (m_valid m _ _ _) eqn:E; simpl; rewrite E; [|done]);
    (split; [done|split]; [intros t x|intros t x]); simpl; try done;
    case_decide; try done; subst; rewrite ?decide_True by done; try apply overwrite_idem.
  rewrite overwrite_one_at, mask_formula_idem. apply overwrite_idem.
Qed.

Lemma model_exec_valid r m : allows_broadcast r = true → span_valid (snd (model_exec r m)) r = span_valid m r.
Proof.
  intros Hb. destruct r; try done; unfold span_valid; simpl; unfold model_write;
    destruct (m_valid m _ _ _) eqn:E; simpl; by rewrite E.
Qed.

Lemma span_valid_reach full m r : allows_broadcast r = true → span_valid m r = true → request_reach full m r.
Proof. intros Hb Hv. destruct r; try done; left; exact Hv. Qed.

(** Every target's store is allocated and accepts the span of [r]. *)
Definition ready (h : heap S) (r : SemanticRequest) (t : RequestTarget) : Prop :=
  ∃ s, h !! rt_address_space t = Some s ∧ space_wf s ∧ span_valid (view s) r = true.

(** [h'] is [h] with [r] written once to the spaces in [ls]. *)
Definition written (r : SemanticRequest) (ls : list loc) (h h' : heap S) : Prop :=
  ∀ l, match h !! l with
       | None => h' !! l = None
       | Some s => if decide (l ∈ ls)
                   then ∃ s', h' !! l = Some s' ∧ space_wf s' ∧ view s' ≡ snd (model_exec r (view s))
                   else h' !! l = Some s
       end.

Lemma write_targets_spec r ts : ∀ h,
  request_wf r → allows_broadcast r = true → Forall (ready h r) ts →
  ∃ h', write_targets r ts h = (Ok tt, h') ∧ written r (rt_address_space <$> ts) h h'.
Proof.
  induction ts as [|t ts IH]; intros h Hr Hb Hts.
  { exists h. split; [done|]. intros l. destruct (h !! l); [|done].
    by rewrite decide_False by (apply not_elem_of_nil). }
  apply Forall_cons in Hts as [(s & Hs & Hwf & Hvalid) Hts].
  destruct (write_only_refines r s Hwf Hr (span_valid_reach _ _ _ Hb Hvalid) Hb) as (s1 & Hrun & Hwf1 & Hv1). rewrite Hvalid in Hrun.
  set (l0 := rt_address_space t) in *. set (h1 := <[l0 := s1]> h).
  destruct (IH h1 Hr Hb) as (h' & Hrun' & Hw).
  { eapply Forall_impl; [exact Hts|]. intros t' (s' & Hs' & Hwf' & Hvalid').
    destruct (decide (rt_address_space t' = l0)) as [Hl|Hl]; unfold ready.
    - exists s1. rewrite Hl in *. unfold h1. rewrite lookup_insert_eq. split; [done|]. split; [done|].
      assert (s' = s) as -> by congruence. unfold span_valid in *. destruct (write_span r) as [[??]?] eqn:Hsp.
      rewrite Hv1. pose proof (model_exec_valid r (view s) Hb) as Hm. unfold span_valid in Hm.
      rewrite Hsp in Hm. by rewrite Hm.
    - exists s'. unfold h1. by rewrite lookup_insert_ne. }
  exists h'. split.
  - simpl. unfold st_bind, at_space. fold l0. rewrite Hs, Hrun. exact Hrun'.
  - intros l. specialize (Hw l). unfold h1 in Hw.
    assert (l ∈ rt_address_space <$> t :: ts ↔ l = l0 ∨ l ∈ rt_address_space <$> ts) as Hin
      by (rewrite fmap_cons; apply elem_of_cons).
    destruct (decide (l = l0)) as [->|Hl].
    + rewrite lookup_insert_eq in Hw. rewrite Hs.
      destruct (decide (l0 ∈ rt_address_space <$> t :: ts)); [|exfalso; naive_solver].
      destruct (decide (l0 ∈ rt_address_space <$> ts)); [|by exists s1].
      destruct Hw as (s' & ? & ? & Hv'). exists s'. split; [done|]. split; [done|].
      rewrite Hv'. destruct (model_exec_proper r _ _ Hv1) as [_ Hp]. rewrite Hp.
      by apply model_write_idem.
    + rewrite lookup_insert_ne in Hw by done. destruct (h !! l); [|done].
      destruct (decide (l ∈ rt_address_space <$> t :: ts)), (decide (l ∈ rt_address_space <$> ts));
        naive_solver.
Qed.
End broadcast.

(* ------------------------------------------------------------------ *)
(** * Properties *)

(** What [tokio::time::timeout] documents: the inner future's output if it completes in time, and
    otherwise an elapsed error; the late future may have been cancelled before it ran or after. *)
Definition timeout_law {S} (tokio_timeout : Z → stM (heap S) Empty_set ServiceOutcome →
    stM (heap S) Empty_set (option ServiceOutcome)) : Prop :=
  ∀ d c h, tokio_timeout d c h = (omap_ok Some (fst (c h)), snd (c h)) ∨
    tokio_timeout d c h = (Ok None, h) ∨ tokio_timeout d c h = (Ok None, snd (c h)).

(** The PDU sent for a service outcome. *)
Definition wire_of (fc : Z) (o : ServiceOutcome) : list Z :=
  match o with Reply pdu => pdu | Exception e => build_exception_pdu fc e | Ignore => [] end.

(** A response on the wire: the function code echoed, or with the high bit set and an
    exception code; at most 253 bytes. *)
Definition wire_ok (fc : Z) (pdu : list Z) : Prop :=
  (head pdu = Some fc ∨ ∃ e, pdu = [Z.lor fc 0x80; ExceptionCode_as_u8 e] ∧ parse_error e) ∧
  2 ≤ zlen pdu ≤ 253.

Lemma wire_ok_reply fc o : reply_ok fc o → wire_ok fc (wire_of fc o).
Proof.
  destruct o as [pdu| |e]; simpl; [|done|].
  - intros (? & ? & ?). split; [by left|done].
  - intros He. split; [|done]. right. by exists e.
Qed.

Lemma disposition_unicast {E} fc o :
  o ≠ Ignore → into_transport_disposition (E:=E) o fc false = Ok (TdReply (wire_of fc o)).
Proof. by destruct o. Qed.

Section properties.
Context {S : Type} `{AddressSpaceSpec S} `{DashMapOrder}.
Variable tokio_timeout : Z → stM (heap S) Empty_set ServiceOutcome →
  stM (heap S) Empty_set (option ServiceOutcome).

(** C8: a request with a built-in function code sent to a registered unit is always answered.
    Either the answer is in time: a PDU of at most 253 bytes that echoes the function code or is
    a Modbus exception; the answer and the unit's registers afterwards are what the abstract
    register map prescribes for the parsed request, and a request that does not parse changes
    nothing.  Or, only where the transport sets a time limit, the limit has passed: the answer is
    the busy exception, flagged as timed out, and the unit's registers are as before or as
    after the request.  No other register space changes.  The store is a dense one, or a sparse one
    with fixed defaults; for a dense store the spans of the request are those of [reach]: none begins inside the store, leaves it and ends at 65536,
    where the dense store panics ([dense_overflow_panics]). *)
Theorem unicast_request_served (sv : StandardModbusService (S:=S)) c u tid pdu policy h d s fc :
  timeout_law tokio_timeout →
  bytes_ok pdu → head pdu = Some fc → is_ok (FunctionCode_try_from fc) = true →
  u ≠ 0 → units c !! u = Some d → h !! dc_address_space d = Some s → space_wf s →
  (∀ r, parse_semantic_request pdu false = Ok r → request_reach full_range (view s) r) →
  ∃ response s',
    wire_ok fc response ∧ space_wf s' ∧
    match parse_semantic_request pdu false with
    | Ok r => response = wire_of fc (outcome_of (fst (model_exec r (view s)))) ∧
              view s' ≡ snd (model_exec r (view s))
    | Err e => response = build_exception_pdu fc e ∧ s' = s
    | Panic => False
    end ∧
    let answer late reply := Ok {| etr_function_code := fc; etr_unit_id := u; timed_out := late; disposition := TdReply reply |} in
    (execute_transport_request tokio_timeout sv c u tid pdu policy h = (answer false response, <[dc_address_space d := s']> h) ∨
     request_timeout policy ≠ None ∧
     ∃ s'', (s'' = s ∨ s'' = s') ∧
       execute_transport_request tokio_timeout sv c u tid pdu policy h
       = (answer true (build_exception_pdu fc SlaveDeviceBusy), <[dc_address_space d := s'']> h)).
Proof.
  intros Hlaw Hpdu Hfc Hb Hu Hd Hs Hwf Hreach.
  destruct (dispatch_unicast_spec sv u tid pdu fc (target_of u d) h s Hpdu Hfc Hb Hs Hwf Hreach)
    as (o & s' & Hrun & Hwf' & Hreply & Hspec).
  exists (wire_of fc o), s'. split; [by apply wire_ok_reply|]. split; [done|]. split.
  { destruct (parse_semantic_request pdu false); [..|done].
    - by destruct Hspec as [-> ?].
    - by destruct Hspec as [-> ->]. }
  assert (o ≠ Ignore) as Hni by (by destruct o).
  unfold execute_transport_request. destruct pdu as [|b pdu]; simplify_eq/=.
  rewrite (proj2 (Z.eqb_neq u 0)) by done. unfold target_for_unit.
  rewrite (proj2 (Z.eqb_neq u 0)), Hd by done. cbn [fmap option_fmap option_map].
  unfold st_bind, st_ret, finish_request, st_bind, st_lift. cbn [rt_address_space target_of] in *.
  destruct (request_timeout policy) as [dl|].
  2: { left. rewrite Hrun. cbv beta iota. by rewrite disposition_unicast. }
  destruct (Hlaw dl (dispatch_request sv u tid (fc :: pdu) (Unicast (target_of u d))) h) as [-> | [-> | ->]].
  - left. rewrite Hrun. cbn [fst snd omap_ok]. by rewrite disposition_unicast.
  - right. split; [done|]. exists s. split; [by left|]. rewrite disposition_unicast by done.
    by rewrite insert_id.
  - right. split; [done|]. exists s'. split; [by right|]. rewrite Hrun, disposition_unicast by done. done.
Qed.

(** units are isolated.  A request to unit [u], whatever its function code (custom
    extensions included) and whatever the timeout policy, leaves every register space other
    than that unit's own as it was; a request to an unregistered unit changes nothing. *)
Theorem unit_isolation (sv : StandardModbusService (S:=S)) c u tid pdu policy h l :
  timeout_law tokio_timeout → u ≠ 0 →
  (∀ d, units c !! u = Some d → l ≠ dc_address_space d) →
  snd (execute_transport_request tokio_timeout sv c u tid pdu policy h) !! l = h !! l.
Proof.
  intros Hlaw Hu Hl. unfold execute_transport_request.
  rewrite (proj2 (Z.eqb_neq u 0)) by done.
  assert (∀ fc b o late (h' : heap S), snd (finish_request fc u b o late h') = h') as Hfin.
  { intros. unfold finish_request, st_bind, st_lift.
    by destruct (into_transport_disposition o fc b). }
  destruct pdu as [|b pdu]; [by rewrite Hfin|]. unfold target_for_unit.
  rewrite (proj2 (Z.eqb_neq u 0)) by done.
  destruct (units c !! u) as [d|] eqn:Hd; cbn [fmap option_fmap option_map]; [|by rewrite Hfin].
  pose proof (dispatch_unicast_others sv u tid (b :: pdu) (target_of u d) h l (Hl d eq_refl)) as Ho.
  set (call := dispatch_request sv u tid (b :: pdu) (Unicast (target_of u d))) in *.
  unfold st_bind, st_ret. destruct (request_timeout policy) as [dl|].
  - destruct (Hlaw dl call h) as [-> | [-> | ->]]; [|by rewrite Hfin|by rewrite Hfin].
    destruct (call h) as [[o| |] h']; simpl in *; [by rewrite Hfin|done|done].
  - destruct (call h) as [[o| |] h']; simpl in *; [by rewrite Hfin|done|done].
Qed.

(** a broadcast is never answered on the wire, whatever the function code, the targets,
    the extensions and the timeout: the disposition is suppressed or ignored. *)
Theorem broadcast_never_replies (sv : StandardModbusService (S:=S)) c tid pdu policy h r h' :
  execute_transport_request tokio_timeout sv c 0 tid pdu policy h = (Ok r, h') →
  (∀ response, disposition r ≠ TdReply response) ∧ etr_unit_id r = 0.
Proof.
  intros Hrun.
  assert (∀ fc o late (h1 h2 : heap S), finish_request fc 0 true o late h1 = (Ok r, h2) →
    (∀ response, disposition r ≠ TdReply response) ∧ etr_unit_id r = 0) as Hfin.
  { intros fc o late h1 h2. unfold finish_request, st_bind, st_lift, st_ret, into_transport_disposition.
    by destruct o; simpl; intros; simplify_eq. }
  unfold execute_transport_request in Hrun. destruct pdu as [|b pdu]; [by eapply Hfin|].
  cbn [Z.eqb] in Hrun. unfold st_bind in Hrun.
  repeat case_match; simplify_eq; by eapply Hfin.
Qed.

(** a broadcast write reaches every selected unit.  When the space of every target
    accepts the span, the request succeeds, every targeted space holds the registers the
    abstract map prescribes for one execution of the request (also when several units share
    a space), and no other space changes. *)
Theorem broadcast_write_reaches_all r (targets : list RequestTarget) (h : heap S) :
  request_wf r → allows_broadcast r = true → Forall (ready h r) targets →
  ∃ resp h', execute_broadcast r targets h = (Ok resp, h') ∧ broadcast_ack r = Ok resp ∧
    written r (rt_address_space <$> targets) h h'.
Proof.
  intros Hr Hb Hts. destruct (write_targets_spec r targets h Hr Hb Hts) as (h' & Hrun & Hw).
  assert (∃ resp, broadcast_ack r = Ok resp) as (resp & Hack) by (destruct r; try done; by eexists).
  exists resp, h'. split; [|done]. unfold execute_broadcast, st_bind, st_lift. by rewrite Hrun, Hack.
Qed.
End properties.

(** A server with two units on one dense store and a third unit on another. *)
Section witnesses.
#[local] Instance wit_profile : BuildProfile := debug_build.
#[local] Instance wit_order : DashMapOrder := {| dash_iter := map_to_list; dash_iter_perm := fun m => reflexivity _ |}.

Definition wit_timeout (d : Z) (c : stM (heap RegisterStore) Empty_set ServiceOutcome)
  : stM (heap RegisterStore) Empty_set (option ServiceOutcome) := st_map Some c.
Definition wit_store : RegisterStore := RegisterStore_new 16 16 16 16.
Definition wit_heap : heap RegisterStore := {[0%nat := wit_store; 1%nat := wit_store]}.
Definition wit_server : ServerContext :=
  {| units := {[1 := DeviceContext_new 1 "a" 0; 2 := DeviceContext_new 2 "b" 0; 3 := DeviceContext_new 3 "c" 1]};
     default_space := 0; broadcast_policy := WriteAll |}.
Definition wit_service : StandardModbusService (S:=RegisterStore) := {| custom_extensions := None |}.
Definition wit_policy : TransportServicePolicy :=
  {| request_timeout := None; unknown_unit_behavior := UnknownIgnore |}.
Definition wit_pdu : list Z := [0x10; 0; 3; 0; 2; 4; 1; 2; 3; 4].
Definition wit_request : SemanticRequest := ReqMaskWriteRegister 3 0xFF00 0x0056.

Lemma wit_store_wf : dense_wf wit_store.
Proof. apply RegisterStore_new_wf; lia. Qed.

Definition wit_policy_limited : TransportServicePolicy :=
  {| request_timeout := Some 5; unknown_unit_behavior := UnknownIgnore |}.
Lemma wit_timeout_law : timeout_law wit_timeout.
Proof. intros d c h. left. unfold wit_timeout, st_map. by destruct (c h). Qed.

Lemma unicast_request_served_witness :
  ∃ response, wire_ok 0x10 response ∧ response = [0x10; 0; 3; 0; 2] ∧
    fst (execute_transport_request wit_timeout wit_service wit_server 1 7 wit_pdu wit_policy_limited wit_heap)
    = Ok {| etr_function_code := 0x10; etr_unit_id := 1; timed_out := false; disposition := TdReply response |}.
Proof.
  destruct (unicast_request_served wit_timeout wit_service wit_server 1 7 wit_pdu wit_policy_limited wit_heap
    (DeviceContext_new 1 "a" 0) wit_store 0x10) as (response & s' & Hok & _ & Hspec & Hrun).
  - exact wit_timeout_law.
  - closed.
  - reflexivity.
  - reflexivity.
  - discriminate.
  - reflexivity.
  - reflexivity.
  - exact wit_store_wf.
  - intros r [= <-]. left. reflexivity.
  - exists response. split; [exact Hok|]. split; [exact (proj1 Hspec)|].
    rewrite (proj1 Hspec). vm_compute. reflexivity.
Defined.

Lemma unit_isolation_witness :
  snd (execute_transport_request wit_timeout wit_service wit_server 1 7 wit_pdu wit_policy wit_heap)
    !! 1%nat = Some wit_store.
Proof.
  rewrite (unit_isolation wit_timeout wit_service wit_server 1 7 wit_pdu wit_policy wit_heap 1%nat).
  - reflexivity.
  - exact wit_timeout_law.
  - discriminate.
  - intros d [= <-]. discriminate.
Defined.

Lemma broadcast_never_replies_witness :
  ∃ r, execute_transport_request wit_timeout wit_service wit_server 0 7 [0x03; 0; 0; 0; 1] wit_policy
         wit_heap = (Ok r, wit_heap) ∧
       ((∀ response, disposition r ≠ TdReply response) ∧ etr_unit_id r = 0).
Proof.
  exists {| etr_function_code := 0x03; etr_unit_id := 0; timed_out := false;
            disposition := TdBroadcastSuppressed [0x83; 0x01] |}.
  split; [reflexivity|].
  exact (broadcast_never_replies wit_timeout wit_service wit_server 7 [0x03; 0; 0; 0; 1] wit_policy
           wit_heap _ wit_heap eq_refl).
Defined.

Lemma broadcast_write_reaches_all_witness :
  ∃ resp h', execute_broadcast wit_request (broadcast_targets wit_server) wit_heap = (Ok resp, h') ∧
    broadcast_ack wit_request = Ok resp ∧
    written wit_request (rt_address_space <$> broadcast_targets wit_server) wit_heap h'.
Proof.
  apply (broadcast_write_reaches_all wit_request (broadcast_targets wit_server) wit_heap).
  - closed.
  - reflexivity.
  - change (broadcast_targets wit_server) with
      [target_of 3 (DeviceContext_new 3 "c" 1); target_of 2 (DeviceContext_new 2 "b" 0);
       target_of 1 (DeviceContext_new 1 "a" 0)].
    repeat constructor; (exists wit_store; split; [reflexivity|split; [exact wit_store_wf|reflexivity]]).
Defined.
End witnesses.
