(* ===== verification/ModbusStores.v ===== *)
(** Properties of the register stores seen through the semantic core: any store that meets the
    interface, the dense and the sparse one side by side, and the two calls of the trait's
    provided mask write under interleaving. *)

From S2P Require Import Prelude ModbusPdu ModbusSpace ModbusDense ModbusShards ModbusSparse ModbusSemantic.

(* ------------------------------------------------------------------ *)
(** * Interleaved mask writes *)

Section interleaving.
Context {S : Type} `{AddressSpace S}.

(** The two store calls of [default_mask_write_holding_register]. *)
Definition mask_fetch (a : Z) : stM S ModbusError Z :=
  do? registers := read_holding_registers a 1 in st_lift (index registers 0).
Definition mask_store (a current am om : Z) : stM S ModbusError unit :=
  write_holding_register a (mask_formula current am om).

(** Client A fetches, client B runs its whole mask write, client A stores. *)
Definition interleaved_mask_writes (a amA omA amB omB : Z) : stM S ModbusError unit :=
  do? currentA := mask_fetch a in
  do? _ := default_mask_write_holding_register read_holding_registers write_holding_register a amB omB in
  mask_store a currentA amA omA.
End interleaving.

Section interleaving_spec.
Context {S : Type} `{AddressSpaceSpec S}.

Lemma mask_fetch_spec s a :
  space_wf s → is_u16 a → m_valid (view s) HoldingRegister a 1 = true →
  ∃ s', mask_fetch a s = (Ok (m_words (view s) HoldingRegister a), s') ∧ space_wf s' ∧ view s' ≡ view s.
Proof.
  intros Hwf Ha Hv. unfold mask_fetch, st_bind, st_lift.
  pose proof (read_holding_registers_spec s a 1 Hwf Ha ltac:(unfold max_quantity; lia) ltac:(by left)) as Hr.
  destruct (read_holding_registers a 1 s) as [r s']. destruct Hr as (Hr & ? & ?).
  rewrite Hv in Hr. simpl in Hr. subst r. exists s'. split; [|done].
  unfold m_read_words. change (Z.to_nat 1) with 1%nat. by rewrite zrange_S.
Qed.

Lemma write_one_spec s a v :
  space_wf s → is_u16 a → is_u16 v → m_valid (view s) HoldingRegister a 1 = true →
  ∃ s', write_holding_register a v s = (Ok tt, s') ∧ space_wf s' ∧
    view s' ≡ m_write_words (view s) HoldingRegister a [v].
Proof.
  intros Hwf Ha Hval Hv.
  pose proof (write_holding_register_spec a v Hval s Hwf Ha ltac:(unfold max_quantity; lia) ltac:(by left)) as Hw.
  destruct (write_holding_register a v s) as [r s']. destruct Hw as (Hr & ? & ?).
  rewrite Hv in *. simpl in Hr. subst r. by exists s'.
Qed.

Lemma m_write_one_at m a v : m_words (m_write_words m HoldingRegister a [v]) HoldingRegister a = v.
Proof.
  simpl. unfold overwrite. change (zlen [v]) with 1.
  by rewrite (proj2 (Z.leb_le a a)), (proj2 (Z.ltb_lt a _)), Z.sub_diag by lia.
Qed.

Lemma interleaved_spec s a amA omA amB omB :
  space_wf s → is_u16 a → is_u16 omA → is_u16 omB → m_valid (view s) HoldingRegister a 1 = true →
  ∃ s', interleaved_mask_writes a amA omA amB omB s = (Ok tt, s') ∧
    m_words (view s') HoldingRegister a = mask_formula (m_words (view s) HoldingRegister a) amA omA.
Proof.
  intros Hwf Ha HoA HoB Hv.
  assert (∀ m t x y, m_valid (m_write_words m t x y) = m_valid m) as Hkeep by done.
  destruct (mask_fetch_spec s a Hwf Ha Hv) as (s1 & H1 & Hwf1 & Hv1).
  assert (m_valid (view s1) HoldingRegister a 1 = true) as Hval1 by by rewrite Hv1.
  destruct (mask_fetch_spec s1 a Hwf1 Ha Hval1) as (s2 & H2 & Hwf2 & Hv2).
  assert (m_valid (view s2) HoldingRegister a 1 = true) as Hval2 by by rewrite Hv2.
  destruct (write_one_spec s2 a (mask_formula (m_words (view s1) HoldingRegister a) amB omB) Hwf2 Ha
    (mask_formula_range _ _ _ (words_range _ _ _ Hwf1) HoB) Hval2) as (s3 & H3 & Hwf3 & Hv3).
  assert (m_valid (view s3) HoldingRegister a 1 = true) as Hval3 by by rewrite Hv3, Hkeep.
  destruct (write_one_spec s3 a (mask_formula (m_words (view s) HoldingRegister a) amA omA) Hwf3 Ha
    (mask_formula_range _ _ _ (words_range _ _ _ Hwf) HoA) Hval3) as (s4 & H4 & _ & Hv4).
  exists s4. split; [|by rewrite Hv4, m_write_one_at].
  unfold interleaved_mask_writes, st_bind at 1. rewrite H1.
  unfold default_mask_write_holding_register. unfold mask_fetch, st_bind in H2. unfold st_bind, st_lift in *.
  destruct (read_holding_registers a 1 s1) as [[regs| |] s2']; [|done..].
  injection H2 as Hidx ->. rewrite Hidx, H3. exact H4.
Qed.
End interleaving_spec.

(* ------------------------------------------------------------------ *)
(** * Properties *)

(** On a dense store of at most 63536 registers of each kind every well-formed request is within
    reach. *)
Lemma small_dense_reach s r :
  (∀ t, RegisterStore_count s t ≤ 63536) → request_wf r → request_reach false (dense_view s) r.
Proof.
  intros Hc Hr.
  assert (∀ t a q, is_u16 a → q ≤ 2000 → a + q ≤ 65536 → reach false (dense_view s) t a q) as Hreach.
  { intros t a q Ha Hq Hs. destruct (decide (a + q < 65536)); [by do 3 right|]. right; left. simpl. unfold dense_valid.
    specialize (Hc t). rewrite (proj2 (Z.ltb_ge a _)) by lia. by rewrite andb_false_r. }
  destruct r; simpl in *; unfold span_ok, is_u16 in *; try split; try (apply Hreach; unfold is_u16; lia); done.
Qed.

(** C1: both stores implement the abstract register map.  Every store that meets the interface
    executes any sequence of well-formed requests exactly as the abstract register map does: same
    responses, same failures, same registers afterwards, and never a panic.  The sparse store
    meets it when its defaults are fixed and its ranges in order, with any 16-bit spans.  The
    dense store, of 1 to 65535 registers of each kind, meets it for requests none of which begins
    inside the store, leaves it and ends at 65536 ([reach]); there its bounds check panics
    ([dense_overflow_panics]).  With at most 63536 registers of each kind there is no such
    request ([small_dense_reach]). *)
Theorem semantic_core_refines_model {S} `{AddressSpaceSpec S} (rs : list SemanticRequest) (s : S) :
  space_wf s → Forall request_wf rs → Forall (request_reach full_range (view s)) rs →
  fst (execute_all rs s) = fst (model_exec_all rs (view s)) ∧
  space_wf (snd (execute_all rs s)) ∧
  view (snd (execute_all rs s)) ≡ snd (model_exec_all rs (view s)).
Proof. apply execute_all_refines. Qed.

(** C13: the dense and the sparse store are interchangeable.  A dense store (1 to 65535 registers of
    each kind) and a sparse store (with fixed defaults) that hold the same registers and accept
    the same spans answer every sequence of well-formed requests alike, and hold the same
    registers afterwards, as long as no request begins inside the store, leaves it and ends at
    65536 ([reach]): there the sparse store answers an address error and the dense one panics
    ([dense_overflow_panics]). *)
Theorem dense_sparse_equivalent `{BuildProfile} `{SystemClock} (d : RegisterStore)
    (s : SparseRegisterStore) (rs : list SemanticRequest) :
  dense_wf d → sparse_wf s → dense_view d ≡ sparse_view s → Forall request_wf rs →
  Forall (request_reach false (dense_view d)) rs →
  fst (execute_all rs d) = fst (execute_all rs s) ∧
  dense_view (snd (execute_all rs d)) ≡ sparse_view (snd (execute_all rs s)).
Proof.
  intros Hd Hs Heq Hrs Hreach.
  destruct (@execute_all_refines _ _ RegisterStore_spec rs d Hd Hrs Hreach) as (Hd1 & _ & Hd2).
  destruct (@execute_all_refines _ _ SparseRegisterStore_spec rs s Hs Hrs
    ltac:(apply Forall_true; apply request_reach_full)) as (Hs1 & _ & Hs2).
  destruct (model_exec_all_proper rs _ _ Heq) as [Hm1 Hm2]. split.
  - rewrite Hd1, Hs1. exact Hm1.
  - etrans; [exact Hd2|]. etrans; [exact Hm2|]. symmetry. exact Hs2.
Qed.

(** what FC16 writes, FC03 reads.  On every store, a write of multiple registers to a
    valid span is acknowledged, a read of that span returns the values written, and a read
    of any span disjoint from it returns what it returned before. *)
Theorem write_registers_read_back {S} `{AddressSpaceSpec S} (s : S) a vs b q :
  space_wf s → request_wf (ReqWriteMultipleRegisters a vs) → request_wf (ReqReadHoldingRegisters b q) →
  reach full_range (view s) HoldingRegister b q →
  m_valid (view s) HoldingRegister a (zlen vs) = true → b + q ≤ a ∨ a + zlen vs ≤ b →
  let '(r1, s1) := execute_builtin (ReqWriteMultipleRegisters a vs) s in
  let '(r2, s2) := execute_builtin (ReqReadHoldingRegisters a (zlen vs)) s1 in
  r1 = Ok (RespWriteMultipleAck FcWriteMultipleRegisters a (zlen vs)) ∧
  r2 = Ok (RespRegisters FcReadHoldingRegisters vs) ∧
  fst (execute_builtin (ReqReadHoldingRegisters b q) s2) = fst (execute_builtin (ReqReadHoldingRegisters b q) s).
Proof.
  intros Hwf Hw Hb Hreach Hvalid Hdis.
  assert (request_wf (ReqReadHoldingRegisters a (zlen vs))) as Hrd.
  { destruct Hw as ((Ha & Hq & Hsp) & _). split; [done|]. split; [lia|done]. }
  destruct (execute_builtin_refines _ s Hwf Hw ltac:(by left)) as (Hr1 & Hwf1 & Hv1).
  destruct (execute_builtin (ReqWriteMultipleRegisters a vs) s) as [r1 s1]. cbn [fst snd] in *.
  simpl in Hr1, Hv1. unfold model_write in Hr1, Hv1. rewrite Hvalid in Hr1, Hv1. cbn [fst snd] in Hr1, Hv1.
  destruct (execute_builtin_refines _ s1 Hwf1 Hrd ltac:(left; by rewrite Hv1)) as (Hr2 & Hwf2 & Hv2).
  destruct (execute_builtin (ReqReadHoldingRegisters a (zlen vs)) s1) as [r2 s2]. cbn [fst snd] in *.
  simpl in Hr2, Hv2. rewrite !Hv1 in Hr2. rewrite Hv1 in Hv2. simpl m_valid in Hr2. rewrite Hvalid, m_read_write_words in Hr2.
  split; [done|]. split; [done|].
  destruct (execute_builtin_refines _ s2 Hwf2 Hb ltac:(simpl; by rewrite Hv2)) as (-> & _).
  destruct (execute_builtin_refines _ s Hwf Hb Hreach) as (-> & _).
  destruct (model_exec_proper (ReqReadHoldingRegisters b q) _ _ Hv2) as [-> _]. simpl.
  destruct (m_valid (view s) HoldingRegister b q); [|done]. do 2 f_equal.
  apply list_fmap_ext. intros i x Hx. rewrite lookup_zrange in Hx. case_decide; simplify_eq. simpl.
  apply overwrite_outside. destruct Hb as (_ & ? & _). lia.
Qed.

(** mask write (FC22) sets, on every store, exactly the bits the AND mask clears, to the OR
    mask's, and keeps every other bit of that register and every other register. *)
Theorem mask_write_bits {S} `{AddressSpaceSpec S} (s : S) a am om i x :
  space_wf s → request_wf (ReqMaskWriteRegister a am om) →
  m_valid (view s) HoldingRegister a 1 = true → 0 ≤ i < 16 →
  let '(r, s') := execute_builtin (ReqMaskWriteRegister a am om) s in
  r = Ok (RespMaskWriteAck a am om) ∧
  Z.testbit (m_words (view s') HoldingRegister x) i =
    if decide (x = a)
    then (if Z.testbit am i then Z.testbit (m_words (view s) HoldingRegister x) i else Z.testbit om i)
    else Z.testbit (m_words (view s) HoldingRegister x) i.
Proof.
  intros Hwf Hr Hvalid Hi. destruct (execute_builtin_refines _ s Hwf Hr ltac:(by left)) as (Hr1 & _ & Hv1).
  destruct (execute_builtin (ReqMaskWriteRegister a am om) s) as [r s']. simpl in Hr1, Hv1.
  unfold model_write in Hr1, Hv1. rewrite Hvalid in Hr1, Hv1. split; [done|]. rewrite Hv1. cbn [snd].
  case_decide as Hx.
  - subst x. rewrite m_write_one_at. by apply mask_formula_testbit.
  - simpl. rewrite overwrite_outside by (rewrite zlen_cons, zlen_nil; lia). done.
Qed.

(** read/write multiple registers (FC23) is not all-or-nothing: when the write span is
    valid and the read span is not, the client gets an address exception and the write has
    been performed. *)
Theorem read_write_keeps_write {S} `{AddressSpaceSpec S} (s : S) ra rq wa vs :
  space_wf s → request_wf (ReqReadWriteMultipleRegisters ra rq wa vs) →
  m_valid (view s) HoldingRegister wa (zlen vs) = true → m_valid (view s) HoldingRegister ra rq = false →
  reach full_range (view s) HoldingRegister ra rq →
  let '(r, s') := execute_builtin (ReqReadWriteMultipleRegisters ra rq wa vs) s in
  r = Err SfIllegalDataAddress ∧ view s' ≡ m_write_words (view s) HoldingRegister wa vs.
Proof.
  intros Hwf Hr Hw Hrd Hreach. destruct (execute_builtin_refines _ s Hwf Hr ltac:(split; [done|by left])) as (Hr1 & _ & Hv1).
  destruct (execute_builtin (ReqReadWriteMultipleRegisters ra rq wa vs) s) as [r s']. simpl in Hr1, Hv1.
  rewrite Hw in Hr1, Hv1. unfold model_read in Hr1, Hv1. simpl in Hr1, Hv1. by rewrite Hrd in Hr1.
Qed.

(** the provided mask write of the trait, which the sparse store uses, is not atomic.  When
    client B's mask write runs between client A's two store calls, both calls succeed and
    B's change is lost: the register holds A's mask applied to the value before B. *)
Theorem mask_write_lost_update `{BuildProfile} `{SystemClock} (s : SparseRegisterStore) a amA omA amB omB :
  sparse_wf s → is_u16 a → is_u16 omA → is_u16 omB → sparse_valid s HoldingRegister a 1 = true →
  ∃ s', interleaved_mask_writes a amA omA amB omB s = (Ok tt, s') ∧
    sparse_words s' HoldingRegister a = mask_formula (sparse_words s HoldingRegister a) amA omA.
Proof. intros. by apply (@interleaved_spec _ _ SparseRegisterStore_spec s a amA omA amB omB). Qed.

(** eager initialisation is only an optimisation: with fixed defaults, a store whose ranges
    were populated at creation holds, for every address, what the lazily initialised store
    answers with its defaults, and meets the interface. *)
Theorem eager_equals_lazy `{BuildProfile} `{SystemClock} (c : RegisterStoreConfig) :
  config_ok c → initialization c = Eager →
  ∃ s, SparseRegisterStore_new c = (Ok tt, s) ∧ sparse_wf s ∧
    sparse_view s ≡ sparse_view (empty_store c).
Proof.
  intros Hc Hi. destruct (initialize_eager_spec c Hc) as (s & Hrun & Hwf & Hv).
  unfold SparseRegisterStore_new, apply_initialization, st_bind. simpl initialization.
  rewrite Hi, Hrun. by eexists.
Qed.

(* ------------------------------------------------------------------ *)
(** * Witnesses *)

Section witnesses.
#[local] Instance wit_profile : BuildProfile := release_build.
#[local] Instance wit_clock : SystemClock := {| now := fun _ => None |}.

Definition wit_dense : RegisterStore := RegisterStore_new 10 10 10 10.
Definition wit_config (mode : InitializationMode) : RegisterStoreConfig :=
  let r := {| range_start := 0; range_end := 9 |} in
  let c := RegisterStoreConfig_new r r r r in
  {| cfg_coils := cfg_coils c; cfg_discrete_inputs := cfg_discrete_inputs c;
     cfg_holding_registers := cfg_holding_registers c; cfg_input_registers := cfg_input_registers c;
     initialization := mode; callbacks_enabled := true |}.
Definition wit_sparse : SparseRegisterStore := empty_store (wit_config Lazy).
Definition wit_requests : list SemanticRequest :=
  [ReqWriteMultipleRegisters 3 [10; 20]; ReqMaskWriteRegister 3 0xFF00 0x55;
   ReqReadHoldingRegisters 2 4; ReqReadHoldingRegisters 8 3; ReqWriteSingleCoil 0 true].

Lemma wit_dense_wf : dense_wf wit_dense.
Proof. apply RegisterStore_new_wf; lia. Qed.
Lemma wit_config_ok mode : config_ok (wit_config mode).
Proof. intros []; closed. Qed.
Lemma wit_sparse_wf : sparse_wf wit_sparse.
Proof. apply empty_store_wf, wit_config_ok. Qed.
Lemma wit_requests_wf : Forall request_wf wit_requests.
Proof. repeat constructor; vm_compute; congruence. Qed.
Lemma wit_requests_reach : Forall (request_reach false (dense_view wit_dense)) wit_requests.
Proof.
  eapply Forall_impl; [exact wit_requests_wf|]. intros r. apply small_dense_reach. by intros [].
Qed.

Lemma semantic_core_refines_model_witness :
  fst (execute_all wit_requests wit_dense) =
    [Ok (RespWriteMultipleAck FcWriteMultipleRegisters 3 2); Ok (RespMaskWriteAck 3 0xFF00 0x55);
     Ok (RespRegisters FcReadHoldingRegisters [0; 0x55; 20; 0]); Err SfIllegalDataAddress;
     Ok (RespWriteSingleCoilAck 0 true)].
Proof.
  rewrite (proj1 (@semantic_core_refines_model _ _ RegisterStore_spec wit_requests wit_dense
    wit_dense_wf wit_requests_wf wit_requests_reach)).
  reflexivity.
Defined.

Lemma stored_new (T : Type) (v : T) x : stored v ShardedRegisterMap_new x = v.
Proof. unfold stored, entry. rewrite seg_at_new. by case_decide. Qed.

Lemma wit_same_view : dense_view wit_dense ≡ sparse_view wit_sparse.
Proof.
  split; [|split].
  - intros t a q. simpl. unfold dense_valid, sparse_valid.
    assert (get_range (sp_config wit_sparse) t = {| range_start := 0; range_end := 9 |}) as -> by by destruct t.
    assert (RegisterStore_count wit_dense t = 10) as -> by by destruct t. simpl.
    destruct (Z.leb_spec 1 q), (Z.ltb_spec a 10), (Z.leb_spec 0 a), (Z.leb_spec (a + q) 10),
      (Z.leb_spec (a + q - 1) 9); simpl; try lia; try done.
  - intros [] a; try done; simpl; rewrite (nth_z_replicate false 10); symmetry; apply stored_new.
  - intros [] a; try done; simpl; rewrite (nth_z_replicate 0 10); symmetry; apply stored_new.
Qed.

Lemma dense_sparse_equivalent_witness :
  fst (execute_all wit_requests wit_dense) = fst (execute_all wit_requests wit_sparse).
Proof.
  exact (proj1 (dense_sparse_equivalent wit_dense wit_sparse wit_requests wit_dense_wf wit_sparse_wf
    wit_same_view wit_requests_wf wit_requests_reach)).
Defined.

Lemma write_registers_read_back_witness :
  fst (execute_builtin (ReqReadHoldingRegisters 3 2)
    (snd (execute_builtin (ReqWriteMultipleRegisters 3 [10; 20]) wit_sparse)))
  = Ok (RespRegisters FcReadHoldingRegisters [10; 20]).
Proof.
  pose proof (@write_registers_read_back _ _ SparseRegisterStore_spec wit_sparse 3 [10; 20] 5 2
    wit_sparse_wf ltac:(repeat constructor; vm_compute; congruence)
    ltac:(repeat constructor; vm_compute; congruence) ltac:(right; right; left; reflexivity) ltac:(reflexivity)
    ltac:(right; vm_compute; congruence)) as Hrb.
  destruct (execute_builtin (ReqWriteMultipleRegisters 3 [10; 20]) wit_sparse) as [r1 s1].
  cbn [snd]. change (zlen [10; 20]) with 2 in Hrb.
  destruct (execute_builtin (ReqReadHoldingRegisters 3 2) s1) as [r2 s2]. exact (proj1 (proj2 Hrb)).
Defined.

Lemma mask_write_bits_witness :
  let s' := snd (execute_builtin (ReqMaskWriteRegister 3 0xFF00 0x55) wit_dense) in
  Z.testbit (m_words (dense_view s') HoldingRegister 3) 4 = true.
Proof.
  pose proof (@mask_write_bits _ _ RegisterStore_spec wit_dense 3 0xFF00 0x55 4 3
    wit_dense_wf ltac:(repeat constructor; vm_compute; congruence) ltac:(reflexivity) ltac:(lia)) as Hb.
  destruct (execute_builtin (ReqMaskWriteRegister 3 0xFF00 0x55) wit_dense) as [r s'].
  exact (proj2 Hb).
Defined.

Lemma read_write_keeps_write_witness :
  fst (execute_builtin (ReqReadWriteMultipleRegisters 9 5 2 [7]) wit_dense) = Err SfIllegalDataAddress.
Proof.
  pose proof (@read_write_keeps_write _ _ RegisterStore_spec wit_dense 9 5 2 [7]
    wit_dense_wf ltac:(repeat constructor; vm_compute; congruence) ltac:(reflexivity) ltac:(reflexivity)
    ltac:(right; right; right; lia)) as Hp.
  destruct (execute_builtin (ReqReadWriteMultipleRegisters 9 5 2 [7]) wit_dense) as [r s'].
  exact (proj1 Hp).
Defined.

(** Two clients that set different bytes: sequentially both bytes are set, interleaved one is lost. *)
Lemma mask_write_lost_update_witness :
  mask_formula (mask_formula 0 0x00FF 0xBB00) 0xFF00 0x00AA = 0xBBAA ∧
  ∃ s', interleaved_mask_writes 3 0xFF00 0x00AA 0x00FF 0xBB00 wit_sparse = (Ok tt, s') ∧
    sparse_words s' HoldingRegister 3 = 0x00AA.
Proof.
  split; [reflexivity|].
  exact (mask_write_lost_update wit_sparse 3 0xFF00 0x00AA 0x00FF 0xBB00 wit_sparse_wf
    ltac:(closed) ltac:(closed) ltac:(closed) ltac:(reflexivity)).
Defined.

Lemma eager_equals_lazy_witness :
  ∃ s, SparseRegisterStore_new (wit_config Eager) = (Ok tt, s) ∧ sparse_wf s ∧
    sparse_view s ≡ sparse_view (empty_store (wit_config Eager)).
Proof. exact (eager_equals_lazy (wit_config Eager) (wit_config_ok Eager) eq_refl). Defined.
End witnesses.
