(* ===== verification/ModbusRtu.v ===== *)
(** Modbus RTU framing ([rtu/frame.rs]) and the RTU server's receive step
    ([try_parse_frame] of [rtu/server.rs]): CRC-16, frame encoding and decoding, frame length
    estimation. *)

From S2P Require Import Prelude ModbusPdu.

Definition RTU_MIN_FRAME_SIZE : Z := 4.
Definition RTU_MAX_FRAME_SIZE : Z := 256.
Definition RTU_MAX_PDU_SIZE : Z := 253.
Definition CRC_POLYNOMIAL : Z := 0xA001.

(* ------------------------------------------------------------------ *)
(** * CRC-16 *)

(** One turn of the bit loop. *)
Definition crc_bit (crc : Z) : Z :=
  if negb (Z.land crc 0x0001 =? 0) then Z.lxor (Z.shiftr crc 1) CRC_POLYNOMIAL
  else Z.shiftr crc 1.

(** The loop of eight turns. *)
Fixpoint crc_bits (n : nat) (crc : Z) : Z :=
  match n with O => crc | S n' => crc_bits n' (crc_bit crc) end.

Definition generate_crc_table : list Z := crc_bits 8 <$> zrange 0 256.
Definition CRC_TABLE : list Z := generate_crc_table.

Definition crc_step {E} (crc byte : Z) : outcome E Z :=
  let i := Z.land (Z.lxor crc byte) 0xFF in
  let? entry := index CRC_TABLE (Z.to_nat i) in
  Ok (Z.lxor (Z.shiftr crc 8) entry).

Fixpoint crc_loop {E} (crc : Z) (data : list Z) : outcome E Z :=
  match data with
  | [] => Ok crc
  | byte :: data' => let? crc' := crc_step crc byte in crc_loop crc' data'
  end.

Definition calculate_crc {E} (data : list Z) : outcome E Z := crc_loop 0xFFFF data.

Definition calculate_crc_slow (data : list Z) : Z :=
  foldl (fun crc byte => crc_bits 8 (Z.lxor crc byte)) 0xFFFF data.

Definition verify_crc {E} (frame : list Z) : outcome E bool :=
  if zlen frame <? RTU_MIN_FRAME_SIZE then Ok false
  else
    let data_len := (length frame - 2)%nat in
    let? lo := index frame data_len in
    let? hi := index frame (data_len + 1)%nat in
    let? calculated := calculate_crc (take data_len frame) in
    Ok (u16_from_le lo hi =? calculated).

Definition append_crc {E} (buf : list Z) : outcome E (list Z) :=
  let? crc := calculate_crc buf in Ok (buf ++ u16_to_le crc).

(* ------------------------------------------------------------------ *)
(** * Frames *)

Inductive RtuFrameError : Set :=
| TooShort (actual minimum : Z)
| TooLong (actual maximum : Z)
| CrcMismatch (expected received : Z)
| InvalidUnitId (unit_id : Z)
| InvalidFunctionCode (function_code : Z)
| Incomplete (have need : Z).

Record RtuFrame : Set := { rtu_unit_id : Z; rtu_pdu : list Z; rtu_crc : Z }.

Definition RtuFrame_new {E} (unit_id : Z) (pdu : list Z) : outcome E RtuFrame :=
  let? crc := calculate_crc (unit_id :: pdu) in
  Ok {| rtu_unit_id := unit_id; rtu_pdu := pdu; rtu_crc := crc |}.

Definition RtuFrame_response {E} (request : RtuFrame) (pdu : list Z) : outcome E RtuFrame :=
  RtuFrame_new (rtu_unit_id request) pdu.
Definition RtuFrame_exception {E} (unit_id function_code exception_code : Z) : outcome E RtuFrame :=
  RtuFrame_new unit_id [Z.lor function_code 0x80; exception_code].
Definition RtuFrame_is_exception (f : RtuFrame) : bool :=
  match head (rtu_pdu f) with Some fc => negb (Z.land fc 0x80 =? 0) | None => false end.
Definition RtuFrame_function_code (f : RtuFrame) : option Z := head (rtu_pdu f).
Definition RtuFrame_exception_code (f : RtuFrame) : option Z :=
  if RtuFrame_is_exception f then rtu_pdu f !! 1%nat else None.
Definition RtuFrame_data (f : RtuFrame) : list Z :=
  if 1 <? zlen (rtu_pdu f) then drop 1 (rtu_pdu f) else [].
Definition RtuFrame_frame_size (f : RtuFrame) : Z := 1 + zlen (rtu_pdu f) + 2.

Definition RtuFrame_encode (f : RtuFrame) : list Z :=
  [rtu_unit_id f] ++ rtu_pdu f ++ u16_to_le (rtu_crc f).

Definition RtuFrame_decode (data : list Z) : outcome RtuFrameError RtuFrame :=
  if zlen data <? RTU_MIN_FRAME_SIZE then Err (TooShort (zlen data) RTU_MIN_FRAME_SIZE)
  else if RTU_MAX_FRAME_SIZE <? zlen data then Err (TooLong (zlen data) RTU_MAX_FRAME_SIZE)
  else
    let data_len := (length data - 2)%nat in
    let? lo := index data data_len in
    let? hi := index data (data_len + 1)%nat in
    let received_crc := u16_from_le lo hi in
    let? prefix := slice data 0 (Z.of_nat data_len) in
    let? calculated_crc := calculate_crc prefix in
    if negb (received_crc =? calculated_crc) then Err (CrcMismatch calculated_crc received_crc)
    else
      let? unit_id := index data 0 in
      let? pdu := slice data 1 (Z.of_nat data_len) in
      match pdu with
      | [] => Err (TooShort (zlen data) (RTU_MIN_FRAME_SIZE + 1))
      | _ => Ok {| rtu_unit_id := unit_id; rtu_pdu := pdu; rtu_crc := received_crc |}
      end.

Definition estimate_frame_length {E} (data : list Z) : outcome E (option Z) :=
  if zlen data <? 2 then Ok None
  else
    let? function_code := index data 1 in
    if negb (Z.land function_code 0x80 =? 0) then Ok (Some 5)
    else
      match function_code with
      | 0x01 | 0x02 | 0x03 | 0x04 =>
          if 3 <=? zlen data then
            let? third_byte := index data 2 in
            if 8 <=? zlen data then Ok (Some 8)
            else if 3 + third_byte + 2 <=? zlen data then Ok (Some (3 + third_byte + 2))
            else Ok (Some 8)
          else Ok (Some 8)
      | 0x05 | 0x06 => Ok (Some 8)
      | 0x16 => Ok (Some 10)
      | 0x0F | 0x10 =>
          if 7 <=? zlen data then
            let? byte_count := index data 6 in Ok (Some (7 + byte_count + 2))
          else Ok None
      | _ => Ok None
      end.

Definition RtuFrame_try_decode (data : list Z) : outcome RtuFrameError (option RtuFrame) :=
  if zlen data <? RTU_MIN_FRAME_SIZE then Ok None
  else
    let? expected := estimate_frame_length data in
    match expected with
    | Some expected_len =>
        if zlen data <? expected_len then Ok None
        else
          let? prefix := slice data 0 expected_len in
          omap_ok Some (RtuFrame_decode prefix)
    | None => Ok None
    end.

(** The two packing helpers of this file; the second tolerates short input. *)
Definition rtu_unpack_bit (bytes : list Z) (i : nat) : bool :=
  match bytes !! (i / 8)%nat with
  | Some b => negb (Z.land (Z.shiftr b (Z.of_nat (i mod 8))) 1 =? 0)
  | None => false
  end.
Definition rtu_unpack_bits (bytes : list Z) (count : nat) : list bool :=
  rtu_unpack_bit bytes <$> seq 0 count.
Definition rtu_pack_bits {E} (bits : list bool) : outcome E (list Z) :=
  pack_bits_from 0 bits (replicate ((length bits + 7) / 8)%nat 0).

(* ------------------------------------------------------------------ *)
(** * The server's receive step *)

(** What the step reports beside the frame: the error counters it bumps. *)
Inductive ReceiveEvent : Set := EvNone | EvFrame | EvCrcError | EvFramingError.

(** The receive buffer is the state. *)
Definition RtuServer_try_parse_frame
  : stM (list Z) RtuFrameError (option RtuFrame * ReceiveEvent) := fun buffer =>
  if zlen buffer <? 4 then (Ok (None, EvNone), buffer)
  else
    match RtuFrame_try_decode buffer with
    | Ok (Some frame) =>
        (Ok (Some frame, EvFrame), drop (Z.to_nat (RtuFrame_frame_size frame)) buffer)
    | Ok None => (Ok (None, EvNone), buffer)
    | Err (CrcMismatch _ _) => (Ok (None, EvCrcError), [])
    | Err _ => (Ok (None, EvFramingError), [])
    | Panic => (Panic, buffer)
    end.

(* ------------------------------------------------------------------ *)
(** * CRC algebra *)

Lemma crc_bit_spec crc :
  crc_bit crc = if Z.testbit crc 0 then Z.lxor (Z.shiftr crc 1) CRC_POLYNOMIAL else Z.shiftr crc 1.
Proof.
  unfold crc_bit. rewrite <- (land_pow2_testbit crc 0) by lia. done.
Qed.

(** The bit step is linear for exclusive or. *)
Lemma crc_bit_lxor x y : crc_bit (Z.lxor x y) = Z.lxor (crc_bit x) (crc_bit y).
Proof.
  rewrite !crc_bit_spec, Z.lxor_spec, Z.shiftr_lxor.
  destruct (Z.testbit x 0), (Z.testbit y 0); simpl.
  - rewrite (Z.lxor_comm (Z.shiftr y 1)), <- !Z.lxor_assoc.
    rewrite (Z.lxor_assoc (Z.shiftr x 1) CRC_POLYNOMIAL), Z.lxor_nilpotent. by rewrite Z.lxor_0_r.
  - by rewrite !Z.lxor_assoc, (Z.lxor_comm (Z.shiftr y 1)).
  - by rewrite Z.lxor_assoc.
  - done.
Qed.

Lemma crc_bits_lxor n : ∀ x y, crc_bits n (Z.lxor x y) = Z.lxor (crc_bits n x) (crc_bits n y).
Proof. induction n as [|n IH]; intros; [done|]. simpl. by rewrite crc_bit_lxor, IH. Qed.

(** Zero bits are shifted out unchanged. *)
Lemma crc_bits_shift n : ∀ z, crc_bits n (z * 2 ^ Z.of_nat n) = z.
Proof.
  induction n as [|n IH]; intros z.
  - simpl. lia.
  - simpl. rewrite crc_bit_spec. replace (2 ^ Z.of_nat (S n)) with (2 * 2 ^ Z.of_nat n)
      by (rewrite Nat2Z.inj_succ, Z.pow_succ_r; lia).
    replace (z * (2 * 2 ^ Z.of_nat n)) with (2 * (z * 2 ^ Z.of_nat n)) by lia.
    rewrite Z.testbit_even_0, shiftr_div by lia. change (2 ^ 1) with 2.
    rewrite (Z.mul_comm 2), Z.div_mul by lia. apply IH.
Qed.

Lemma crc_bit_range x : is_u16 x → is_u16 (crc_bit x).
Proof.
  intros Hx. rewrite crc_bit_spec, shiftr_div by lia. change (2 ^ 1) with 2. case_if; [|int_lia].
  apply (lxor_range _ _ 16); unfold CRC_POLYNOMIAL; int_lia.
Qed.

Lemma crc_bits_range n : ∀ x, is_u16 x → is_u16 (crc_bits n x).
Proof. induction n as [|n IH]; intros x Hx; [done|]. apply IH, crc_bit_range, Hx. Qed.

(** On 16-bit states only zero is sent to zero: the top bit of the polynomial records the
    bit that was shifted out. *)
Lemma crc_bit_kernel x : is_u16 x → crc_bit x = 0 → x = 0.
Proof.
  intros Hx. rewrite crc_bit_spec, shiftr_div by lia. change (2 ^ 1) with 2.
  destruct (Z.testbit x 0) eqn:Hb; intros H0.
  - apply Z.lxor_eq in H0. unfold CRC_POLYNOMIAL in H0. int_lia.
  - rewrite Z.bit0_odd in Hb. apply (f_equal negb) in Hb. rewrite Z.negb_odd in Hb.
    apply Z.even_spec in Hb as [y ->]. int_lia.
Qed.

Lemma crc_bits_kernel n : ∀ x, is_u16 x → crc_bits n x = 0 → x = 0.
Proof.
  induction n as [|n IH]; intros x Hx H0; [done|].
  apply crc_bit_kernel; [done|]. apply IH; [by apply crc_bit_range|done].
Qed.

Lemma crc_bits_add n m : ∀ x, crc_bits (n + m) x = crc_bits m (crc_bits n x).
Proof. induction n as [|n IH]; intros; [done|]. apply IH. Qed.

Lemma crc_bits_zero n : crc_bits n 0 = 0.
Proof. induction n as [|n IH]; [done|]. simpl. by rewrite crc_bit_spec. Qed.

Lemma lxor_shifted b m n : 0 ≤ n → 0 ≤ b < 2 ^ n → b + m * 2 ^ n = Z.lxor b (m * 2 ^ n).
Proof.
  intros Hn Hb. apply Z.add_nocarry_lxor. rewrite <- Z.shiftl_mul_pow2 by lia.
  apply Z.bits_inj'. intros i Hi. rewrite Z.land_spec, Z.bits_0.
  destruct (decide (i < n)).
  - by rewrite Z.shiftl_spec_low, andb_false_r by lia.
  - by rewrite (testbit_high b n) by lia.
Qed.

(** Consuming [n] low bits leaves the others untouched. *)
Lemma crc_bits_low n x b m :
  0 ≤ b < 2 ^ Z.of_nat n →
  crc_bits n (Z.lxor x (b + m * 2 ^ Z.of_nat n)) = Z.lxor (crc_bits n (Z.lxor x b)) m.
Proof.
  intros Hb. rewrite lxor_shifted, <- Z.lxor_assoc by lia.
  by rewrite (crc_bits_lxor n (Z.lxor x b)), crc_bits_shift.
Qed.

(** ** The table-driven loop computes the bitwise definition *)

Lemma CRC_TABLE_lookup i : 0 ≤ i < 256 → CRC_TABLE !! Z.to_nat i = Some (crc_bits 8 i).
Proof.
  intros. unfold CRC_TABLE, generate_crc_table. rewrite list_lookup_fmap, lookup_zrange.
  rewrite decide_True, Z2Nat.id by lia. done.
Qed.

Lemma crc_step_spec {E} crc byte :
  is_u8 byte → crc_step (E:=E) crc byte = Ok (crc_bits 8 (Z.lxor crc byte)).
Proof.
  intros Hb. unfold crc_step. set (x := Z.lxor crc byte). rewrite land_255.
  rewrite (index_lookup _ _ (crc_bits 8 (x mod 256))) by (apply CRC_TABLE_lookup; int_lia).
  cbn [obind]. f_equal.
  assert (Z.shiftr crc 8 = x / 256) as ->.
  { change 256 with (2 ^ 8). rewrite <- shiftr_div by lia. unfold x.
    rewrite Z.shiftr_lxor, (shiftr_div byte) by lia. change (2 ^ 8) with 256.
    rewrite (Z.div_small byte) by apply Hb. by rewrite Z.lxor_0_r. }
  pose proof (crc_bits_low 8 0 (x mod 256) (x / 256)) as H. change (2 ^ Z.of_nat 8) with 256 in H.
  rewrite !Z.lxor_0_l, (Z.mul_comm (x / 256)), (Z.add_comm (x mod 256)), <- Z.div_mod in H by lia.
  rewrite H by (apply Z.mod_pos_bound; lia). apply Z.lxor_comm.
Qed.

Lemma crc_loop_spec {E} data : ∀ crc,
  bytes_ok data →
  crc_loop (E:=E) crc data
  = Ok (foldl (fun crc byte => crc_bits 8 (Z.lxor crc byte)) crc data).
Proof.
  induction data as [|b data IH]; intros crc Hok; [done|].
  apply bytes_ok_cons in Hok as [Hb Hok]. cbn [crc_loop]. rewrite crc_step_spec by done. by apply IH.
Qed.

Lemma calculate_crc_spec {E} data :
  bytes_ok data → calculate_crc (E:=E) data = Ok (calculate_crc_slow data).
Proof. apply crc_loop_spec. Qed.

(** ** The check value as a function of the message's bits *)

(** The message as one integer, the first transmitted bit lowest. *)
Fixpoint le_num (data : list Z) : Z :=
  match data with [] => 0 | b :: data' => b + le_num data' * 2 ^ 8 end.

Lemma le_num_range data : bytes_ok data → 0 ≤ le_num data < 2 ^ (8 * zlen data).
Proof.
  induction data as [|b data IH]; intros Hok; [done|].
  apply bytes_ok_cons in Hok as [Hb Hok]. specialize (IH Hok). cbn [le_num].
  rewrite zlen_cons, Z.mul_add_distr_l, Z.pow_add_r by (pose proof (zlen_nonneg data); lia).
  change (8 * 1) with 8. change (2 ^ 8) with 256. int_lia.
Qed.

Lemma le_num_app data1 data2 :
  le_num (data1 ++ data2) = le_num data1 + le_num data2 * 2 ^ (8 * zlen data1).
Proof.
  induction data1 as [|b data1 IH]; [cbn [le_num app]; change (2 ^ _) with 1; lia|].
  cbn [le_num app]. rewrite IH.
  rewrite zlen_cons, Z.mul_add_distr_l, Z.pow_add_r by (pose proof (zlen_nonneg data1); lia).
  change (8 * 1) with 8. lia.
Qed.

Lemma crc_fold_num data : ∀ c,
  bytes_ok data →
  foldl (fun crc byte => crc_bits 8 (Z.lxor crc byte)) c data
  = crc_bits (8 * length data) (Z.lxor c (le_num data)).
Proof.
  induction data as [|b data IH]; intros c Hok.
  - simpl. by rewrite Z.lxor_0_r.
  - apply bytes_ok_cons in Hok as [Hb Hok]. cbn [foldl le_num length]. rewrite IH by done.
    replace (8 * S (length data))%nat with (8 + 8 * length data)%nat by lia.
    rewrite crc_bits_add. f_equal. symmetry. apply (crc_bits_low 8). apply Hb.
Qed.

(** ** Frames as body and check value *)

(** The body of a frame and the two bytes that follow it. *)
Lemma split_frame (data : list Z) :
  (2 ≤ length data)%nat →
  ∃ body lo hi, data = body ++ [lo; hi] ∧ length body = (length data - 2)%nat.
Proof.
  intros Hl. exists (take (length data - 2) data).
  assert (length (drop (length data - 2) data) = 2%nat) as Hd by (rewrite length_drop; lia).
  destruct (drop (length data - 2) data) as [|lo [|hi [|]]] eqn:E; try discriminate.
  exists lo, hi. split; [by rewrite <- E, take_drop|]. rewrite length_take. lia.
Qed.

Lemma crc_slow_range data : bytes_ok data → is_u16 (calculate_crc_slow data).
Proof.
  intros Hok. unfold calculate_crc_slow. revert Hok.
  assert (is_u16 0xFFFF) as H0 by int_lia. revert H0. generalize 0xFFFF.
  induction data as [|b data IH]; intros c Hc Hok; [done|].
  apply bytes_ok_cons in Hok as [Hb Hok]. apply IH; [|done].
  apply crc_bits_range, (lxor_range _ _ 16); int_lia.
Qed.

Lemma verify_crc_split {E} body lo hi :
  (2 ≤ length body)%nat → bytes_ok (body ++ [lo; hi]) →
  verify_crc (E:=E) (body ++ [lo; hi]) = Ok (u16_from_le lo hi =? calculate_crc_slow body).
Proof.
  intros Hl Hok. apply bytes_ok_app in Hok as [Hbody Hcrc]. unfold verify_crc.
  rewrite (proj2 (Z.ltb_ge _ _)) by (unfold RTU_MIN_FRAME_SIZE; len_lia || (unfold zlen; rewrite length_app; simpl; lia)).
  rewrite length_app. simpl length. replace (length body + 2 - 2)%nat with (length body) by lia.
  rewrite (index_lookup _ _ lo) by (by rewrite lookup_app_r, Nat.sub_diag by lia).
  rewrite (index_lookup _ _ hi)
    by (by rewrite lookup_app_r, Nat.add_comm, Nat.add_sub by lia).
  cbn [obind]. rewrite take_app_length, calculate_crc_spec by done. done.
Qed.

(** A frame verifies exactly when the check value of the whole frame is zero. *)
Lemma verify_crc_residue {E} frame :
  4 ≤ zlen frame → bytes_ok frame →
  verify_crc (E:=E) frame
  = Ok (crc_bits (8 * length frame) (Z.lxor 0xFFFF (le_num frame)) =? 0).
Proof.
  intros Hl Hok. destruct (split_frame frame) as (body & lo & hi & -> & Hb); [int_lia|].
  rewrite verify_crc_split by (done || (unfold zlen in Hl; rewrite length_app in *; simpl in *; lia)).
  apply bytes_ok_app in Hok as [Hbody Hcrc].
  apply bytes_ok_cons in Hcrc as [Hlo Hcrc]. apply bytes_ok_cons in Hcrc as [Hhi _].
  rewrite le_num_app, length_app. simpl length.
  replace (8 * (length body + 2))%nat with (8 * length body + 16)%nat by lia.
  rewrite crc_bits_add.
  pose proof (le_num_range body Hbody) as Hr.
  replace (8 * zlen body) with (Z.of_nat (8 * length body)) in * by int_lia.
  rewrite crc_bits_low by done. rewrite <- crc_fold_num by done.
  change (foldl _ 0xFFFF body) with (calculate_crc_slow body).
  replace (le_num [lo; hi]) with (u16_from_le lo hi) by (cbn [le_num]; unfold u16_from_le; lia).
  pose proof (crc_slow_range body Hbody) as Hc. assert (is_u16 (u16_from_le lo hi)) as Hu by int_lia.
  f_equal. destruct (Z.eqb_spec (u16_from_le lo hi) (calculate_crc_slow body)) as [->|Hne].
  - by rewrite Z.lxor_nilpotent, crc_bits_zero.
  - symmetry. apply Z.eqb_neq. intros H0. apply crc_bits_kernel in H0.
    + apply Z.lxor_eq in H0. by rewrite H0 in Hne.
    + apply (lxor_range _ _ 16); [lia|apply Hc|apply Hu].
Qed.

Lemma crc_bits_shifted w k n :
  (k ≤ n)%nat → crc_bits n (w * 2 ^ Z.of_nat k) = crc_bits (n - k) w.
Proof.
  intros. replace n with (k + (n - k))%nat at 1 by lia. by rewrite crc_bits_add, crc_bits_shift.
Qed.

(* ------------------------------------------------------------------ *)
(** * Correctness of the CRC *)

(** the table-driven CRC never indexes out of the table and computes exactly the bitwise
    definition. *)
Theorem crc_table_equals_bitwise (data : list Z) :
  bytes_ok data → calculate_crc (E:=RtuFrameError) data = Ok (calculate_crc_slow data).
Proof. apply calculate_crc_spec. Qed.

Lemma crc_table_equals_bitwise_witness :
  calculate_crc (E:=RtuFrameError) [1; 3; 0; 0; 0; 10] = Ok 0xCDC5.
Proof. exact (crc_table_equals_bitwise [1; 3; 0; 0; 0; 10] ltac:(closed)). Defined.

(** C35: the CRC detects every error burst of up to 16 bits: if a frame verifies and another
    one of the same length differs from it by a non-zero 16-bit pattern [w] at any bit offset
    [k] (bits in transmission order, check bytes included), then the other one is rejected. *)
Theorem crc_detects_bursts (frame frame' : list Z) (w : Z) (k : nat) :
  bytes_ok frame → bytes_ok frame' → zlen frame' = zlen frame →
  verify_crc (E:=RtuFrameError) frame = Ok true →
  0 < w < 65536 → le_num frame' = Z.lxor (le_num frame) (w * 2 ^ Z.of_nat k) →
  verify_crc (E:=RtuFrameError) frame' = Ok false.
Proof.
  intros Hok Hok' Hlen Hv Hw Hdiff.
  assert (4 ≤ zlen frame) as Hl.
  { unfold verify_crc in Hv. destruct (zlen frame <? RTU_MIN_FRAME_SIZE) eqn:E; [done|].
    bool_to_prop. done. }
  rewrite verify_crc_residue in Hv |- * by (done || lia).
  assert (crc_bits (8 * length frame) (Z.lxor 0xFFFF (le_num frame)) = 0) as Hz
    by (apply Z.eqb_eq; congruence).
  f_equal. apply Z.eqb_neq. intros H0.
  rewrite Hdiff, <- Z.lxor_assoc, crc_bits_lxor in H0.
  replace (length frame') with (length frame) in H0 by (unfold zlen in Hlen; lia).
  rewrite Hz, Z.lxor_0_l in H0.
  assert ((k ≤ 8 * length frame)%nat) as Hk.
  { pose proof (le_num_range frame Hok) as Hr. pose proof (le_num_range frame' Hok') as Hr'.
    rewrite Hlen, Hdiff in Hr'.
    assert (w * 2 ^ Z.of_nat k < 2 ^ (8 * zlen frame)) as Hlt.
    { replace (w * 2 ^ Z.of_nat k)
        with (Z.lxor (le_num frame) (Z.lxor (le_num frame) (w * 2 ^ Z.of_nat k))).
      - apply lxor_range; [pose proof (zlen_nonneg frame); lia|done..].
      - by rewrite <- Z.lxor_assoc, Z.lxor_nilpotent, Z.lxor_0_l. }
    assert (2 ^ Z.of_nat k < 2 ^ (8 * zlen frame)) as Hp by nia.
    apply Z.pow_lt_mono_r_iff in Hp; [unfold zlen in Hp; lia|lia|unfold zlen; lia]. }
  rewrite crc_bits_shifted in H0 by done. apply crc_bits_kernel in H0; int_lia.
Qed.

Lemma crc_detects_bursts_witness :
  verify_crc (E:=RtuFrameError) [1; 3; 0; 0; 0; 10; 0xC5; 0xCD] = Ok true ∧
  verify_crc (E:=RtuFrameError) [1; 3; 0; 0x80; 0xFF; 0x75; 0xC5; 0xCD] = Ok false.
Proof.
  split; [vm_compute; reflexivity|].
  apply (crc_detects_bursts [1; 3; 0; 0; 0; 10; 0xC5; 0xCD]
           [1; 3; 0; 0x80; 0xFF; 0x75; 0xC5; 0xCD] 0xFFFF 31); closed.
Defined.

(* ------------------------------------------------------------------ *)
(** * Frames *)

Lemma RtuFrame_new_ok {E} unit_id pdu :
  bytes_ok (unit_id :: pdu) →
  RtuFrame_new (E:=E) unit_id pdu
  = Ok {| rtu_unit_id := unit_id; rtu_pdu := pdu;
          rtu_crc := calculate_crc_slow (unit_id :: pdu) |}.
Proof. intros. unfold RtuFrame_new. by rewrite calculate_crc_spec. Qed.

(** Decoding, on a frame split into unit, PDU and check bytes. *)
Lemma RtuFrame_decode_split unit_id pdu lo hi :
  1 ≤ zlen pdu ≤ 253 → bytes_ok (unit_id :: pdu) →
  RtuFrame_decode ((unit_id :: pdu) ++ [lo; hi])
  = if u16_from_le lo hi =? calculate_crc_slow (unit_id :: pdu)
    then Ok {| rtu_unit_id := unit_id; rtu_pdu := pdu; rtu_crc := u16_from_le lo hi |}
    else Err (CrcMismatch (calculate_crc_slow (unit_id :: pdu)) (u16_from_le lo hi)).
Proof.
  intros Hl Hok. unfold RtuFrame_decode, RTU_MIN_FRAME_SIZE, RTU_MAX_FRAME_SIZE.
  rewrite !(proj2 (Z.ltb_ge _ _)) by len_lia.
  replace (length ((unit_id :: pdu) ++ [lo; hi]) - 2)%nat with (length (unit_id :: pdu))
    by (rewrite length_app; simpl; lia).
  rewrite (index_lookup _ _ lo) by (by rewrite lookup_app_r, Nat.sub_diag by lia).
  rewrite (index_lookup _ _ hi)
    by (by rewrite lookup_app_r, Nat.add_comm, Nat.add_sub by lia).
  cbn [obind]. rewrite slice_app by done. cbn [obind]. rewrite calculate_crc_spec by done.
  cbn [obind]. destruct (_ =? _); [|done]. cbn [negb].
  change (index ((unit_id :: pdu) ++ [lo; hi]) 0) with (@Ok RtuFrameError Z unit_id).
  cbn [obind]. change ((unit_id :: pdu) ++ [lo; hi]) with ([unit_id] ++ (pdu ++ [lo; hi])).
  rewrite slice_ok by (cbn [length] in *; unfold zlen in *; rewrite ?length_app; simpl; lia).
  cbn [obind]. replace (Z.to_nat (Z.of_nat (length (unit_id :: pdu)) - 1)) with (length pdu)
    by (simpl; lia).
  change (drop (Z.to_nat 1) _) with (pdu ++ [lo; hi]). rewrite take_app_length.
  destruct pdu; [unfold zlen in Hl; simpl in Hl; lia|done].
Qed.

Lemma decode_short data :
  zlen data < 4 ∨ 256 < zlen data →
  ∃ e, RtuFrame_decode data = Err e.
Proof.
  intros H. unfold RtuFrame_decode, RTU_MIN_FRAME_SIZE, RTU_MAX_FRAME_SIZE.
  destruct (zlen data <? 4) eqn:?; [eauto|].
  destruct (256 <? zlen data) eqn:?; [eauto|]. bool_to_prop. lia.
Qed.

Lemma frame_shape data :
  4 ≤ zlen data ≤ 256 → bytes_ok data →
  ∃ unit_id pdu lo hi, data = (unit_id :: pdu) ++ [lo; hi] ∧ 1 ≤ zlen pdu ≤ 253 ∧
    bytes_ok (unit_id :: pdu) ∧ is_u8 lo ∧ is_u8 hi.
Proof.
  intros Hl Hok. destruct (split_frame data) as (body & lo & hi & -> & Hb); [int_lia|].
  apply bytes_ok_app in Hok as [Hbody Hcrc].
  apply bytes_ok_cons in Hcrc as [Hlo Hcrc]. apply bytes_ok_cons in Hcrc as [Hhi _].
  rewrite zlen_app in Hl. change (zlen [lo; hi]) with 2 in Hl.
  destruct body as [|unit_id pdu]; [by rewrite zlen_nil in Hl; lia|].
  rewrite zlen_cons in Hl. exists unit_id, pdu, lo, hi. split; [done|]. split; [lia|]. done.
Qed.

Lemma u16_le_roundtrip x : is_u16 x → u16_from_le (x mod 256) ((x / 256) mod 256) = x.
Proof. int_lia. Qed.

Lemma encode_body_ok unit_id pdu f :
  RtuFrame_new (E:=RtuFrameError) unit_id pdu = Ok f → bytes_ok (RtuFrame_encode f) →
  bytes_ok (unit_id :: pdu).
Proof.
  unfold RtuFrame_new. intros Hn Hok. destruct (calculate_crc _); simplify_eq/=.
  apply bytes_ok_app in Hok as [Hu Hok]. apply bytes_ok_app in Hok as [Hp _].
  by apply (bytes_ok_app [unit_id] pdu).
Qed.

Lemma decode_encode unit_id pdu f :
  1 ≤ zlen pdu ≤ 253 → RtuFrame_new (E:=RtuFrameError) unit_id pdu = Ok f →
  bytes_ok (RtuFrame_encode f) → RtuFrame_decode (RtuFrame_encode f) = Ok f.
Proof.
  intros Hl Hn Hok. pose proof (encode_body_ok _ _ _ Hn Hok) as Hb. revert Hn.
  rewrite RtuFrame_new_ok by done. intros [= <-].
  unfold RtuFrame_encode, u16_to_le. cbn [rtu_unit_id rtu_pdu rtu_crc].
  change ([unit_id] ++ pdu ++ ?x) with ((unit_id :: pdu) ++ x).
  rewrite RtuFrame_decode_split, u16_le_roundtrip, Z.eqb_refl by (done || by apply crc_slow_range).
  done.
Qed.

(** decoding is the exact inverse of encoding. Decoding any byte string never panics, and
    it yields a frame exactly when the string is the encoding of the frame that [RtuFrame::new]
    builds from some unit and some PDU of 1 to 253 bytes. *)
Theorem rtu_decode_exact (data : list Z) (f : RtuFrame) :
  bytes_ok data →
  RtuFrame_decode data ≠ Panic ∧
  (RtuFrame_decode data = Ok f ↔
   ∃ unit_id pdu, 1 ≤ zlen pdu ≤ 253 ∧
     RtuFrame_new (E:=RtuFrameError) unit_id pdu = Ok f ∧ data = RtuFrame_encode f).
Proof.
  intros Hok.
  enough (RtuFrame_decode data ≠ Panic ∧
    (RtuFrame_decode data = Ok f →
     ∃ unit_id pdu, 1 ≤ zlen pdu ≤ 253 ∧
       RtuFrame_new (E:=RtuFrameError) unit_id pdu = Ok f ∧ data = RtuFrame_encode f)) as [? ?].
  { split; [done|]. split; [done|]. intros (u & pdu & Hp & Hn & ->). by eapply decode_encode. }
  destruct (decide (4 ≤ zlen data ≤ 256)) as [Hl|Hl].
  - destruct (frame_shape data Hl Hok) as (u & pdu & lo & hi & -> & Hp & Hb & Hlo & Hhi).
    rewrite RtuFrame_decode_split by done.
    destruct (Z.eqb_spec (u16_from_le lo hi) (calculate_crc_slow (u :: pdu))) as [Hc|Hc];
      (split; [done|]); [|done].
    intros [= <-]. exists u, pdu. rewrite RtuFrame_new_ok, Hc by done. split; [done|].
    split; [done|]. unfold RtuFrame_encode. cbn [rtu_unit_id rtu_pdu rtu_crc].
    rewrite <- Hc, u16_to_from_le by done. done.
  - destruct (decode_short data) as [e ->]; [lia|]. done.
Qed.

Lemma rtu_decode_exact_witness :
  RtuFrame_decode [1; 3; 0; 0; 0; 10; 0xC5; 0xCD]
  = Ok {| rtu_unit_id := 1; rtu_pdu := [3; 0; 0; 0; 10]; rtu_crc := 0xCDC5 |}.
Proof.
  apply (rtu_decode_exact [1; 3; 0; 0; 0; 10; 0xC5; 0xCD]); [closed|].
  exists 1, [3; 0; 0; 0; 10]. split; [closed|]. split; vm_compute; reflexivity.
Defined.

(* ------------------------------------------------------------------ *)
(** * Framing at the server *)

(** The payload of a coil write: packed bits. *)
Lemma packed_coils vs :
  ∃ d, pack_bits (E:=Empty_set) vs = Ok d ∧ zlen d = div_ceil (zlen vs) 8 ∧ bytes_ok d.
Proof.
  destruct (pack_bits_spec (E:=Empty_set) vs) as (d & Hd & Hl & Hok & _). exists d.
  pose proof (zlen_nonneg vs). pose proof (div_ceil_8_bounds (zlen vs) (zlen_nonneg _)).
  split; [done|]. split; [unfold zlen at 1; rewrite Hl; lia|done].
Qed.

Lemma zlen_bytes_of_words vs : zlen (bytes_of_words vs) = 2 * zlen vs.
Proof. unfold zlen. rewrite length_bytes_of_words. lia. Qed.

(** Every well-formed request fits a frame. *)
Lemma request_wire_ok r :
  request_wf r → is_custom r = false →
  bytes_ok (request_wire r) ∧ 1 ≤ zlen (request_wire r) ≤ 253.
Proof.
  intros Hwf Hc. unfold request_wire.
  destruct r as [a q|a q|a q|a q|a v|a v|a vs|a vs|a am om|ra rq wa vs|]; try done; simpl in Hwf.
  1-4,6,9: split; [bytes_split; simpl; int_lia|len_lia].
  - destruct v; split; [bytes_split; simpl; int_lia|len_lia|bytes_split; simpl; int_lia|len_lia].
  - destruct (packed_coils vs) as (d & -> & Hd & Hok). destruct Hwf as (Ha & Hq & _).
    split; [|autorewrite with lens; rewrite Hd; int_lia].
    bytes_split; simpl; int_lia.
  - destruct Hwf as ((Ha & Hq & _) & _). pose proof (zlen_bytes_of_words vs) as Hd.
    split; [|autorewrite with lens; rewrite Hd; int_lia].
    bytes_split; try apply bytes_of_words_ok; simpl; int_lia.
  - destruct Hwf as (_ & (Ha & Hq & _) & _). pose proof (zlen_bytes_of_words vs) as Hd.
    split; [|autorewrite with lens; rewrite Hd; int_lia].
    bytes_split; try apply bytes_of_words_ok; simpl; int_lia.
Qed.

Definition is_read_write (r : SemanticRequest) : bool :=
  match r with ReqReadWriteMultipleRegisters _ _ _ _ => true | _ => false end.

(** The length estimate on a buffer that starts with a whole request frame. *)
Lemma estimate_request {E} unit_id r tail :
  request_wf r → is_custom r = false → 2 ≤ zlen tail →
  estimate_frame_length (E:=E) (unit_id :: request_wire r ++ tail)
  = Ok (if is_read_write r then None else Some (1 + zlen (request_wire r) + 2)).
Proof.
  intros Hwf Hc Ht. unfold estimate_frame_length.
  rewrite (proj2 (Z.ltb_ge _ _)) by (pose proof (proj2 (request_wire_ok r Hwf Hc)); len_lia).
  destruct r as [a q|a q|a q|a q|a v|a v|a vs|a vs|a am om|ra rq wa vs|]; try done; simpl in Hwf.
  1-4: unfold index; cbn [request_wire app lookup list_lookup obind u16_to_be];
    rewrite !(proj2 (Z.leb_le _ _)) by len_lia; simpl; do 2 f_equal; len_lia.
  - destruct v; reflexivity.
  - destruct (packed_coils vs) as (d & E1 & Hd & Hok). unfold request_wire. rewrite E1.
    unfold index. simpl. rewrite (proj2 (Z.leb_le _ _)) by len_lia. simpl. do 2 f_equal.
    autorewrite with lens. rewrite Hd. lia.
  - unfold request_wire, index. simpl. rewrite (proj2 (Z.leb_le _ _)) by len_lia. simpl. do 2 f_equal.
    autorewrite with lens. rewrite zlen_bytes_of_words. lia.
Qed.

Lemma try_decode_prefix f rest n :
  4 ≤ n → n = zlen (RtuFrame_encode f) →
  estimate_frame_length (E:=RtuFrameError) (RtuFrame_encode f ++ rest) = Ok (Some n) →
  RtuFrame_try_decode (RtuFrame_encode f ++ rest) = omap_ok Some (RtuFrame_decode (RtuFrame_encode f)).
Proof.
  intros Hn Hl He. unfold RtuFrame_try_decode. rewrite He. unfold RTU_MIN_FRAME_SIZE.
  rewrite (proj2 (Z.ltb_ge _ _)) by len_lia. cbn [obind].
  rewrite (proj2 (Z.ltb_ge _ _)) by len_lia. by rewrite slice_app.
Qed.

(** framing at the serial server. When a frame that carries a well-formed request is at
    the front of the receive buffer, the server extracts exactly that frame and leaves
    exactly the bytes behind it, whatever they are, for every built-in function except Read/Write
    Multiple Registers (0x17), whose frames it never recognises and keeps in the buffer. *)
Theorem rtu_server_framing (unit_id : Z) (r : SemanticRequest) (rest : list Z) :
  is_u8 unit_id → request_wf r → is_custom r = false →
  ∃ f, RtuFrame_new (E:=RtuFrameError) unit_id (request_wire r) = Ok f ∧
    RtuServer_try_parse_frame (RtuFrame_encode f ++ rest)
    = if is_read_write r then (Ok (None, EvNone), RtuFrame_encode f ++ rest)
      else (Ok (Some f, EvFrame), rest).
Proof.
  intros Hu Hwf Hc. destruct (request_wire_ok r Hwf Hc) as [Hok Hl].
  pose proof (RtuFrame_new_ok (E:=RtuFrameError) unit_id (request_wire r)) as Hnew.
  rewrite Hnew by (by apply bytes_ok_cons). eexists. split; [done|].
  set (f := {| rtu_unit_id := _ |}) in *.
  assert (zlen (RtuFrame_encode f) = 1 + zlen (request_wire r) + 2) as Hf
    by (unfold f, RtuFrame_encode, u16_to_le; cbn [rtu_unit_id rtu_pdu rtu_crc]; len_lia).
  pose proof (estimate_request (E:=RtuFrameError) unit_id r (u16_to_le (rtu_crc f) ++ rest) Hwf Hc) as He.
  assert (unit_id :: request_wire r ++ u16_to_le (rtu_crc f) ++ rest = RtuFrame_encode f ++ rest) as Heq
    by (unfold RtuFrame_encode; by rewrite <- !app_assoc).
  rewrite Heq in He. specialize (He ltac:(unfold u16_to_le; len_lia)).
  unfold RtuServer_try_parse_frame. rewrite (proj2 (Z.ltb_ge _ _)) by len_lia.
  destruct (is_read_write r).
  - unfold RtuFrame_try_decode. rewrite He. cbn [obind]. by case_if.
  - rewrite (try_decode_prefix f rest (1 + zlen (request_wire r) + 2) ltac:(lia) (eq_sym Hf) He).
    rewrite (decode_encode unit_id (request_wire r) f); [|lia|by rewrite Hnew by (by apply bytes_ok_cons)|].
    + cbn [omap_ok]. f_equal. unfold RtuFrame_frame_size. cbn [rtu_pdu f].
      replace (1 + zlen (request_wire r) + 2) with (zlen (RtuFrame_encode f)).
      unfold zlen. by rewrite Nat2Z.id, drop_app_length.
    + unfold RtuFrame_encode. bytes_split; done.
Qed.

Lemma rtu_server_framing_witness :
  (∃ f, RtuFrame_new (E:=RtuFrameError) 1 [6; 0; 1; 0; 3] = Ok f ∧
    RtuServer_try_parse_frame (RtuFrame_encode f ++ [2; 3]) = (Ok (Some f, EvFrame), [2; 3])) ∧
  (∃ f, RtuFrame_new (E:=RtuFrameError) 1 [0x17; 0; 1; 0; 2; 0; 3; 0; 1; 2; 0; 4] = Ok f ∧
    RtuServer_try_parse_frame (RtuFrame_encode f) = (Ok (None, EvNone), RtuFrame_encode f)).
Proof.
  split.
  - exact (rtu_server_framing 1 (ReqWriteSingleRegister 1 3) [2; 3] ltac:(closed) ltac:(closed) eq_refl).
  - destruct (rtu_server_framing 1 (ReqReadWriteMultipleRegisters 1 2 3 [4]) []
                ltac:(closed) ltac:(closed) eq_refl) as (f & Hf & Hp).
    exists f. rewrite app_nil_r in Hp. split; [exact Hf|exact Hp].
Defined.

(** a read request that arrives in two pieces, the first of five to seven bytes, with an
    address below 256: the server takes the first piece for a five-byte response. Unless
    its fourth and fifth byte happen to be the check value of the first three, it counts a
    CRC error and discards the piece. *)
Theorem rtu_fragment_discarded (unit_id fc lo qhi : Z) (more : list Z) :
  bytes_ok [unit_id; fc; lo; qhi] → fc ∈ [1; 2; 3; 4] → zlen more ≤ 2 →
  u16_from_le lo qhi ≠ calculate_crc_slow [unit_id; fc; 0] →
  RtuServer_try_parse_frame ([unit_id; fc; 0; lo; qhi] ++ more) = (Ok (None, EvCrcError), []).
Proof.
  intros Hok Hfc Hm Hne. unfold RtuServer_try_parse_frame, RtuFrame_try_decode, RTU_MIN_FRAME_SIZE.
  rewrite (proj2 (Z.ltb_ge _ _)) by len_lia.
  assert (estimate_frame_length (E:=RtuFrameError) ([unit_id; fc; 0; lo; qhi] ++ more) = Ok (Some 5)) as ->.
  { unfold estimate_frame_length, index. rewrite (proj2 (Z.ltb_ge _ _)) by len_lia.
    repeat (apply elem_of_cons in Hfc as [->|Hfc]; [cbn [app lookup list_lookup obind];
      cbn; rewrite (proj2 (Z.leb_le _ _)) by len_lia;
      rewrite (proj2 (Z.leb_gt _ _)) by len_lia;
      rewrite (proj2 (Z.leb_le _ _)) by len_lia; done|]).
    by apply elem_of_nil in Hfc. }
  cbn [obind]. rewrite (proj2 (Z.ltb_ge _ _)) by len_lia.
  rewrite slice_app by done. cbn [obind].
  change [unit_id; fc; 0; lo; qhi] with ([unit_id; fc; 0] ++ [lo; qhi]).
  rewrite (RtuFrame_decode_split unit_id [fc; 0] lo qhi).
  - apply Z.eqb_neq in Hne. by rewrite Hne.
  - vm_compute. split; congruence.
  - rewrite !bytes_ok_cons in Hok. destruct Hok as (?&?&_). bytes_split; [done|done|int_lia].
Qed.

Lemma rtu_fragment_discarded_witness :
  RtuServer_try_parse_frame [1; 3; 0; 16; 0; 2] = (Ok (None, EvCrcError), []).
Proof. apply (rtu_fragment_discarded 1 3 16 0 [2]); [closed|set_solver|closed|closed]. Defined.
