(* ===== verification/ModbusMbap.v ===== *)
(** Modbus TCP framing ([tcp/codec.rs]): the MBAP header, frames, and the incremental codec the
    TCP server runs over its byte stream. *)

From S2P Require Import Prelude ModbusPdu.

Definition MBAP_HEADER_SIZE : Z := 7.
Definition MAX_MBAP_LENGTH : Z := 253.
Definition MAX_PDU_SIZE : Z := 253.

(* ------------------------------------------------------------------ *)
(** * Headers and frames *)

Record MbapHeader : Set := {
  transaction_id : Z;
  protocol_id : Z;
  mbap_length : Z;
  mbap_unit_id : Z;
}.

Definition MbapHeader_new (tid unit_id pdu_length : Z) : MbapHeader :=
  {| transaction_id := tid; protocol_id := 0;
     mbap_length := as_u16 (pdu_length + 1); mbap_unit_id := unit_id |}.

Definition MbapHeader_parse (bytes : list Z) : outcome ModbusError MbapHeader :=
  if zlen bytes <? MBAP_HEADER_SIZE then Err InvalidData
  else
    let? b0 := index bytes 0 in let? b1 := index bytes 1 in
    let? b2 := index bytes 2 in let? b3 := index bytes 3 in
    let? b4 := index bytes 4 in let? b5 := index bytes 5 in
    let? unit_id := index bytes 6 in
    let tid := u16_from_be b0 b1 in
    let pid := u16_from_be b2 b3 in
    let len := u16_from_be b4 b5 in
    if negb (pid =? 0) then Err InvalidData
    else if (len =? 0) || (MAX_MBAP_LENGTH <? len) then Err InvalidData
    else Ok {| transaction_id := tid; protocol_id := pid; mbap_length := len;
               mbap_unit_id := unit_id |}.

(** The bytes the header appends to a buffer. *)
Definition MbapHeader_encode (h : MbapHeader) (buf : list Z) : list Z :=
  buf ++ u16_to_be (transaction_id h) ++ u16_to_be (protocol_id h)
      ++ u16_to_be (mbap_length h) ++ [mbap_unit_id h].

(** [saturating_sub]. *)
Definition pdu_length (h : MbapHeader) : Z := Z.max 0 (mbap_length h - 1).
Definition total_frame_length (h : MbapHeader) : Z := MBAP_HEADER_SIZE + pdu_length h.

Record MbapFrame : Set := { header : MbapHeader; mbap_pdu : list Z }.

Definition MbapFrame_new (tid unit_id : Z) (pdu : list Z) : MbapFrame :=
  {| header := MbapHeader_new tid unit_id (zlen pdu); mbap_pdu := pdu |}.
Definition MbapFrame_response (request : MbapFrame) (response_pdu : list Z) : MbapFrame :=
  MbapFrame_new (transaction_id (header request)) (mbap_unit_id (header request)) response_pdu.
Definition MbapFrame_function_code (f : MbapFrame) : option Z := head (mbap_pdu f).
Definition MbapFrame_is_exception (f : MbapFrame) : bool :=
  match head (mbap_pdu f) with Some fc => negb (Z.land fc 0x80 =? 0) | None => false end.
Definition MbapFrame_frame_size (f : MbapFrame) : Z := MBAP_HEADER_SIZE + zlen (mbap_pdu f).
Definition MbapFrame_encode (f : MbapFrame) (buf : list Z) : list Z :=
  MbapHeader_encode (header f) buf ++ mbap_pdu f.
Definition MbapFrame_to_bytes (f : MbapFrame) : list Z := MbapFrame_encode f [].

(* ------------------------------------------------------------------ *)
(** * The codec *)

Inductive DecodeState : Set := WaitingForHeader | WaitingForPdu (h : MbapHeader).

(** [BytesMut::advance] and [BytesMut::split_to]: both panic past the end. *)
Definition advance {E} (src : list Z) (n : Z) : outcome E (list Z) :=
  if n <=? zlen src then Ok (drop (Z.to_nat n) src) else Panic.
Definition split_to {E} (src : list Z) (n : Z) : outcome E (list Z * list Z) :=
  if n <=? zlen src then Ok (take (Z.to_nat n) src, drop (Z.to_nat n) src) else Panic.

(** The codec's state and the receive buffer it works on. *)
Definition codec : Type := DecodeState * list Z.
Definition MbapCodec_new : DecodeState := WaitingForHeader.

(** The body of the decode loop: [Some r] returns [r], [None] goes round again. *)
Definition decode_body : stM codec ModbusError (option (option MbapFrame)) := fun '(st, src) =>
  match st with
  | WaitingForHeader =>
      if zlen src <? MBAP_HEADER_SIZE then (Ok (Some None), (st, src))
      else
        match obind (slice src 0 MBAP_HEADER_SIZE) MbapHeader_parse with
        | Ok h =>
            let pdu_len := pdu_length h in
            if pdu_len =? 0 then (Err InvalidData, (st, src))
            else if MAX_PDU_SIZE <? pdu_len then (Err InvalidData, (st, src))
            else (Ok None, (WaitingForPdu h, src))
        | Err e => (Err e, (st, src))
        | Panic => (Panic, (st, src))
        end
  | WaitingForPdu h =>
      let total_len := total_frame_length h in
      if zlen src <? total_len then (Ok (Some None), (st, src))
      else
        match advance src MBAP_HEADER_SIZE with
        | Ok src1 =>
            match split_to src1 (pdu_length h) with
            | Ok (pdu, src2) =>
                (Ok (Some (Some {| header := h; mbap_pdu := pdu |})), (WaitingForHeader, src2))
            | Err e => (Err e, (st, src1))
            | Panic => (Panic, (st, src1))
            end
        | Err e => (Err e, (st, src))
        | Panic => (Panic, (st, src))
        end
  end.

(** The loop, with the number of turns it may take; [None] when they do not suffice. *)
Fixpoint decode_loop (fuel : nat) (c : codec) : option (outcome ModbusError (option MbapFrame) * codec) :=
  match fuel with
  | O => None
  | S fuel' =>
      match decode_body c with
      | (Ok (Some r), c') => Some (Ok r, c')
      | (Ok None, c') => decode_loop fuel' c'
      | (Err e, c') => Some (Err e, c')
      | (Panic, c') => Some (Panic, c')
      end
  end.

(** Two turns always suffice ([decode_loop_total]). *)
Definition MbapCodec_decode : stM codec ModbusError (option MbapFrame) := fun c =>
  default (Panic, c) (decode_loop 2 c).

Definition MbapCodec_encode (item : MbapFrame) (dst : list Z) : outcome ModbusError (list Z) :=
  match mbap_pdu item with
  | [] => Err InvalidData
  | _ =>
      if MAX_PDU_SIZE <? zlen (mbap_pdu item) then Err InvalidData
      else Ok (MbapFrame_encode item dst)
  end.

(* ------------------------------------------------------------------ *)
(** * The reading side of a connection *)

(** What the framed stream does with the codec when a chunk of bytes arrives: append it, then
    decode until the codec asks for more.  At most one frame per buffered byte, so the
    length of the buffer bounds the number of turns. *)
Fixpoint drain (fuel : nat) (c : codec) : outcome ModbusError (list MbapFrame) * codec :=
  match fuel with
  | O => (Ok [], c)
  | S fuel' =>
      match MbapCodec_decode c with
      | (Ok (Some f), c') =>
          let '(r, c'') := drain fuel' c' in (omap_ok (cons f) r, c'')
      | (Ok None, c') => (Ok [], c')
      | (Err e, c') => (Err e, c')
      | (Panic, c') => (Panic, c')
      end
  end.

Definition receive (c : codec) (chunk : list Z) : outcome ModbusError (list MbapFrame) * codec :=
  let src := c.2 ++ chunk in drain (S (length src)) (c.1, src).

Fixpoint receive_all (c : codec) (chunks : list (list Z))
  : outcome ModbusError (list MbapFrame) * codec :=
  match chunks with
  | [] => (Ok [], c)
  | chunk :: chunks' =>
      match receive c chunk with
      | (Ok fs, c') => let '(r, c'') := receive_all c' chunks' in (omap_ok (app fs) r, c'')
      | (Err e, c') => (Err e, c')
      | (Panic, c') => (Panic, c')
      end
  end.

(* ------------------------------------------------------------------ *)
(** * Headers *)

(** The headers the codec lets through. *)
Definition header_ok (h : MbapHeader) : Prop :=
  is_u16 (transaction_id h) ∧ protocol_id h = 0 ∧ 2 ≤ mbap_length h ≤ 253 ∧
  is_u8 (mbap_unit_id h).

Lemma pdu_length_pos h : 1 ≤ mbap_length h → pdu_length h = mbap_length h - 1.
Proof. unfold pdu_length. lia. Qed.

(** Seven bytes parse to [h] exactly when they are the encoding of [h]. *)
Lemma parse_sound bytes :
  bytes_ok bytes → zlen bytes = 7 →
  match MbapHeader_parse bytes with
  | Ok h => bytes = MbapHeader_encode h [] ∧ is_u16 (transaction_id h) ∧ protocol_id h = 0 ∧
            1 ≤ mbap_length h ≤ 253 ∧ is_u8 (mbap_unit_id h)
  | Err e => e = InvalidData
  | Panic => False
  end.
Proof.
  intros Hok Hl.
  destruct bytes as [|b0 [|b1 [|b2 [|b3 [|b4 [|b5 [|b6 [|]]]]]]]]; try (unfold zlen in Hl; simpl in Hl; lia).
  rewrite !bytes_ok_cons in Hok. destruct Hok as (?&?&?&?&?&?&?&_).
  unfold MbapHeader_parse, index. rewrite Hl. cbn [lookup list_lookup obind Z.ltb].
  change (7 <? MBAP_HEADER_SIZE) with false. cbv iota.
  destruct (u16_from_be b2 b3 =? 0) eqn:Hp; [|done]. cbn [negb].
  destruct (u16_from_be b4 b5 =? 0) eqn:Hz; [done|].
  destruct (MAX_MBAP_LENGTH <? u16_from_be b4 b5) eqn:Hm; [done|]. cbn [orb].
  unfold MAX_MBAP_LENGTH in Hm. bool_to_prop. unfold MbapHeader_encode.
  cbn [transaction_id protocol_id mbap_length mbap_unit_id].
  rewrite !u16_to_from_be by done. split; [done|].
  split; [by apply u16_from_be_range|]. split; [done|]. split; [int_lia|done].
Qed.

Lemma parse_encode h :
  header_ok h → MbapHeader_parse (MbapHeader_encode h []) = Ok h.
Proof.
  intros (Ht & Hp & Hl & Hu). unfold MbapHeader_parse, MbapHeader_encode, index, u16_to_be.
  cbn [app lookup list_lookup obind]. change (zlen _ <? MBAP_HEADER_SIZE) with false. cbv iota.
  rewrite !u16_be_roundtrip by (done || rewrite ?Hp; int_lia). rewrite Hp. cbn [Z.eqb negb].
  unfold MAX_MBAP_LENGTH. rewrite (proj2 (Z.eqb_neq _ 0)), (proj2 (Z.ltb_ge _ _)) by lia.
  cbn [orb]. destruct h; simpl in *. by subst.
Qed.

Lemma zlen_header h : zlen (MbapHeader_encode h []) = 7.
Proof. unfold MbapHeader_encode. len_lia. Qed.

(** The header at the front of a buffer is unique. *)
Lemma header_unique h h' r r' :
  header_ok h → header_ok h' →
  MbapHeader_encode h [] ++ r = MbapHeader_encode h' [] ++ r' → h = h' ∧ r = r'.
Proof.
  intros Hh Hh' Heq. apply app_inj_1 in Heq as [He ->].
  - split; [|done]. apply (f_equal MbapHeader_parse) in He.
    rewrite !parse_encode in He by done. by injection He.
  - pose proof (zlen_header h). pose proof (zlen_header h'). unfold zlen in *. lia.
Qed.

(* ------------------------------------------------------------------ *)
(** * One call of the decoder *)

(** A frame the codec can deliver. *)
Definition frame_ok (f : MbapFrame) : Prop :=
  header_ok (header f) ∧ zlen (mbap_pdu f) = mbap_length (header f) - 1.

(** The state invariant: a remembered header is valid and still at the front of the buffer. *)
Definition codec_ok (c : codec) : Prop :=
  match c.1 with
  | WaitingForHeader => True
  | WaitingForPdu h => header_ok h ∧ ∃ rest, c.2 = MbapHeader_encode h [] ++ rest
  end.

Lemma to_bytes_split f : MbapFrame_to_bytes f = MbapHeader_encode (header f) [] ++ mbap_pdu f.
Proof. done. Qed.

Lemma zlen_to_bytes f : frame_ok f → zlen (MbapFrame_to_bytes f) = total_frame_length (header f).
Proof.
  intros ((_ & _ & Hl & _) & Hp). rewrite to_bytes_split, zlen_app, zlen_header, Hp.
  unfold total_frame_length. rewrite pdu_length_pos by lia. done.
Qed.

Lemma body_header_ok h rest :
  header_ok h →
  decode_body (WaitingForHeader, MbapHeader_encode h [] ++ rest)
  = (Ok None, (WaitingForPdu h, MbapHeader_encode h [] ++ rest)).
Proof.
  intros Hh. unfold decode_body, MBAP_HEADER_SIZE, MAX_PDU_SIZE.
  rewrite (proj2 (Z.ltb_ge _ _)) by (rewrite zlen_app, zlen_header; pose proof (zlen_nonneg rest); lia).
  rewrite slice_app by (by rewrite zlen_header). cbn [obind]. rewrite parse_encode by done.
  destruct Hh as (_ & _ & Hl & _). rewrite pdu_length_pos by lia.
  by rewrite (proj2 (Z.eqb_neq _ _)), (proj2 (Z.ltb_ge _ _)) by lia.
Qed.

(** The header step: it only looks at the first seven bytes. *)
Lemma body_header src :
  7 ≤ zlen src → bytes_ok src →
  (∃ h rest, header_ok h ∧ src = MbapHeader_encode h [] ++ rest ∧
     decode_body (WaitingForHeader, src) = (Ok None, (WaitingForPdu h, src)))
  ∨ ((∀ h rest, header_ok h → src ≠ MbapHeader_encode h [] ++ rest) ∧
     decode_body (WaitingForHeader, src) = (Err InvalidData, (WaitingForHeader, src))).
Proof.
  intros Hl Hok.
  enough ((∃ h rest, header_ok h ∧ src = MbapHeader_encode h [] ++ rest) ∨
    decode_body (WaitingForHeader, src) = (Err InvalidData, (WaitingForHeader, src)))
    as [(h & rest & Hh & ->)|He].
  { left. exists h, rest. split; [done|]. split; [done|]. by apply body_header_ok. }
  { right. split; [|done]. intros h rest Hh ->. by rewrite body_header_ok in He. }
  unfold decode_body, MBAP_HEADER_SIZE. rewrite (proj2 (Z.ltb_ge _ _)) by lia.
  rewrite <- (take_drop 7 src) in Hok. apply bytes_ok_app in Hok as [Hok _].
  assert (zlen (take 7 src) = 7) as Ht by (unfold zlen in *; rewrite length_take; lia).
  rewrite slice_ok by lia. cbn [obind].
  change (take _ (drop _ src)) with (take 7 src).
  pose proof (parse_sound _ Hok Ht) as Hp.
  destruct (MbapHeader_parse (take 7 src)) as [h|e|]; [|subst; by right|done].
  destruct Hp as (He & Htid & Hpid & Hlen & Huid). rewrite pdu_length_pos by lia.
  destruct (_ =? 0) eqn:Hz; [by right|]. bool_to_prop. left. exists h, (drop 7 src).
  split; [split; [done|]; split; [done|]; split; [lia|done]|]. rewrite <- He. by rewrite take_drop.
Qed.

(** The body step, with a valid header at the front of the buffer. *)
Lemma body_pdu h rest :
  header_ok h →
  decode_body (WaitingForPdu h, MbapHeader_encode h [] ++ rest)
  = if zlen rest <? pdu_length h
    then (Ok (Some None), (WaitingForPdu h, MbapHeader_encode h [] ++ rest))
    else (Ok (Some (Some {| header := h; mbap_pdu := take (Z.to_nat (pdu_length h)) rest |})),
          (WaitingForHeader, drop (Z.to_nat (pdu_length h)) rest)).
Proof.
  intros (_ & _ & Hl & _). cbn [decode_body]. unfold total_frame_length, MBAP_HEADER_SIZE.
  rewrite zlen_app, zlen_header.
  destruct (zlen rest <? pdu_length h) eqn:Hz; bool_to_prop.
  - by rewrite (proj2 (Z.ltb_lt _ _)) by lia.
  - rewrite (proj2 (Z.ltb_ge _ _)) by lia. unfold advance.
    rewrite (proj2 (Z.leb_le _ _)) by (rewrite zlen_app, zlen_header; pose proof (zlen_nonneg rest); lia).
    change (Z.to_nat 7) with (length (MbapHeader_encode h [])). rewrite drop_app_length.
    unfold split_to. by rewrite (proj2 (Z.leb_le _ _)) by lia.
Qed.

(** The three results a call can have, on any buffer of bytes: the decoder never panics and two
    turns of its loop suffice. *)
Inductive decoded (src : list Z) : outcome ModbusError (option MbapFrame) * codec → Prop :=
| decoded_frame f rest :
    frame_ok f → src = MbapFrame_to_bytes f ++ rest →
    decoded src (Ok (Some f), (WaitingForHeader, rest))
| decoded_short :
    zlen src < 7 → decoded src (Ok None, (WaitingForHeader, src))
| decoded_partial h rest :
    header_ok h → src = MbapHeader_encode h [] ++ rest → zlen src < total_frame_length h →
    decoded src (Ok None, (WaitingForPdu h, src))
| decoded_error :
    7 ≤ zlen src → (∀ h rest, header_ok h → src ≠ MbapHeader_encode h [] ++ rest) →
    decoded src (Err InvalidData, (WaitingForHeader, src)).

Lemma decode_loop_pdu fuel h rest :
  header_ok h →
  ∃ r, decode_loop (S fuel) (WaitingForPdu h, MbapHeader_encode h [] ++ rest) = Some r ∧
       decoded (MbapHeader_encode h [] ++ rest) r.
Proof.
  intros Hh. cbn [decode_loop]. rewrite body_pdu by done.
  destruct (zlen rest <? pdu_length h) eqn:Hz; bool_to_prop.
  - eexists. split; [done|]. eapply decoded_partial; [done..|].
    unfold total_frame_length, MBAP_HEADER_SIZE. rewrite zlen_app, zlen_header. lia.
  - eexists. split; [done|]. apply decoded_frame.
    + split; [done|]. cbn [header mbap_pdu]. destruct Hh as (_ & _ & Hl & _).
      rewrite <- pdu_length_pos by lia. unfold zlen in *. rewrite length_take.
      pose proof (pdu_length_pos h). lia.
    + rewrite to_bytes_split. cbn [header mbap_pdu]. by rewrite <- app_assoc, take_drop.
Qed.

Lemma decode_loop_total fuel c :
  codec_ok c → bytes_ok c.2 →
  ∃ r, decode_loop (2 + fuel) c = Some r ∧ decoded c.2 r.
Proof.
  destruct c as [[|h] src]; unfold codec_ok; cbn [fst snd]; intros Hc Hok.
  - destruct (zlen src <? MBAP_HEADER_SIZE) eqn:Hz; bool_to_prop.
    + eexists. split; [|by apply decoded_short].
      change (2 + fuel)%nat with (S (S fuel)). remember (S fuel) as n. cbn [decode_loop].
      unfold decode_body. by rewrite (proj2 (Z.ltb_lt _ _)) by done.
    + destruct (body_header src) as [(h & rest & Hh & Hs & Hb)|[Hno Hb]]; [done|done| |].
      * change (2 + fuel)%nat with (S (S fuel)). remember (S fuel) as n. cbn [decode_loop].
        rewrite Hb, Hs. subst n. by apply decode_loop_pdu.
      * eexists. split; [|by apply decoded_error]. change (2 + fuel)%nat with (S (S fuel)).
        remember (S fuel) as n. cbn [decode_loop]. by rewrite Hb.
  - destruct Hc as (Hh & rest & Heq). simpl in Heq. subst src. by apply decode_loop_pdu.
Qed.

Lemma decode_spec c : codec_ok c → bytes_ok c.2 → decoded c.2 (MbapCodec_decode c).
Proof.
  intros Hc Hok. destruct (decode_loop_total 0 c Hc Hok) as (r & Hr & Hd).
  unfold MbapCodec_decode. change (2 + 0)%nat with 2%nat in Hr. by rewrite Hr.
Qed.

(** A complete frame at the front of the buffer is delivered. *)
Lemma decode_complete c f rest :
  codec_ok c → bytes_ok c.2 → frame_ok f → c.2 = MbapFrame_to_bytes f ++ rest →
  MbapCodec_decode c = (Ok (Some f), (WaitingForHeader, rest)).
Proof.
  intros Hc Hok Hf Hs. pose proof (decode_spec c Hc Hok) as Hd. pose proof (zlen_to_bytes f Hf) as Hz.
  assert (zlen c.2 = zlen (MbapFrame_to_bytes f) + zlen rest) as Hl by (by rewrite Hs, zlen_app).
  pose proof (zlen_nonneg rest). rewrite to_bytes_split, <- app_assoc in Hs.
  destruct Hd as [f' rest' [Hh' Hp'] Hs'|Hlt|h rest' Hh Hs' Hlt|_ Hno].
  - rewrite Hs', to_bytes_split, <- app_assoc in Hs. apply header_unique in Hs as [Hhd Hs]; [|done|apply Hf].
    destruct f' as [hd' pdu'], f as [hd pdu], Hf as [_ Hp]. simpl in *. subst hd'.
    apply app_inj_1 in Hs as [-> ->]; [done|]. unfold zlen in *. lia.
  - exfalso. destruct Hf as [(_ & _ & ? & _) _]. unfold total_frame_length, pdu_length, MBAP_HEADER_SIZE in *. lia.
  - exfalso. rewrite Hs' in Hs. apply header_unique in Hs as [-> _]; [|done|apply Hf]. lia.
  - exfalso. apply (Hno (header f) (mbap_pdu f ++ rest)); [apply Hf|done].
Qed.

(** A proper prefix of a frame makes the codec wait, with the buffer untouched. *)
Lemma decode_wait c f more :
  codec_ok c → bytes_ok c.2 → frame_ok f → MbapFrame_to_bytes f = c.2 ++ more → more ≠ [] →
  ∃ st, MbapCodec_decode c = (Ok None, (st, c.2)) ∧ codec_ok (st, c.2).
Proof.
  intros Hc Hok Hf Hs Hm. pose proof (decode_spec c Hc Hok) as Hd.
  pose proof (zlen_to_bytes f Hf) as Hz. rewrite Hs, zlen_app in Hz.
  assert (0 < zlen more) by (destruct more; [done|rewrite zlen_cons; pose proof (zlen_nonneg more); lia]).
  destruct Hd as [f' rest' [Hh' Hp'] Hs'|Hlt|h rest' Hh Hs' Hlt|Hge Hno].
  - exfalso. rewrite Hs', <- app_assoc, !to_bytes_split, <- app_assoc in Hs.
    apply header_unique in Hs as [Hhd _]; [|apply Hf|done].
    rewrite Hs', zlen_app, zlen_to_bytes, Hhd in Hz by done. pose proof (zlen_nonneg rest'). lia.
  - by exists WaitingForHeader.
  - exists (WaitingForPdu h). split; [done|]. split; [done|]. by exists rest'.
  - exfalso. rewrite to_bytes_split in Hs.
    apply (Hno (header f) (drop 7 c.2)); [apply Hf|].
    rewrite <- (take_drop 7 c.2) at 1. f_equal.
    apply (f_equal (take 7)) in Hs. rewrite take_app_le in Hs by (pose proof (zlen_header (header f)); unfold zlen in *; lia).
    rewrite take_app_le in Hs by (unfold zlen in *; lia). by rewrite <- Hs.
Qed.

(* ------------------------------------------------------------------ *)
(** * Streams of frames *)

Definition stream (fs : list MbapFrame) : list Z := concat (MbapFrame_to_bytes <$> fs).

Lemma app_prefix {A} (l1 l2 k1 k2 : list A) :
  l1 ++ l2 = k1 ++ k2 →
  (∃ m, l1 = k1 ++ m ∧ k2 = m ++ l2) ∨ (∃ m, m ≠ [] ∧ k1 = l1 ++ m ∧ l2 = m ++ k2).
Proof.
  intros H. destruct (decide (length k1 ≤ length l1)%nat) as [Hl|Hl].
  - left. apply app_eq_app in H as (m & [[-> ->]|[-> ->]]); [eauto|].
    rewrite length_app in Hl. destruct m; [|simpl in Hl; lia]. exists []. by rewrite !app_nil_r.
  - right. apply app_eq_app in H as (m & [[-> ->]|[-> ->]]).
    + rewrite length_app in Hl. lia.
    + exists m. split; [|done]. intros ->. rewrite length_app in Hl. simpl in Hl. lia.
Qed.

Lemma drain_nil fuel st :
  codec_ok (st, []) → st = WaitingForHeader ∧ drain (S fuel) (st, []) = (Ok [], (st, [])).
Proof.
  destruct st as [|h]; intros Hc; [done|]. destruct Hc as (_ & rest & H). exfalso.
  apply (f_equal zlen) in H. cbn [snd] in H. rewrite zlen_app, zlen_header, zlen_nil in H.
  pose proof (zlen_nonneg rest). lia.
Qed.

(** Draining delivers the frames that are complete and keeps the rest. *)
Lemma drain_spec fs : ∀ fuel st buf future,
  (length buf < fuel)%nat → codec_ok (st, buf) → bytes_ok buf → Forall frame_ok fs →
  buf ++ future = stream fs →
  ∃ fs1 fs2 st' buf', fs = fs1 ++ fs2 ∧ drain fuel (st, buf) = (Ok fs1, (st', buf')) ∧
    codec_ok (st', buf') ∧ bytes_ok buf' ∧ buf' ++ future = stream fs2 ∧
    (future = [] → fs2 = []).
Proof.
  induction fs as [|f fs IH]; intros [|fuel] st buf future Hfuel Hc Hok Hfs Heq; try lia.
  - apply app_nil in Heq as [-> ->]. destruct (drain_nil fuel st Hc) as [-> Hd].
    exists [], [], WaitingForHeader, []. by rewrite Hd.
  - apply Forall_cons in Hfs as [Hf Hfs].
    apply app_prefix in Heq as [(m & -> & Heq)|(m & Hm & Hf' & ->)].
    + apply bytes_ok_app in Hok as [Hok1 Hok2].
      cbn [drain]. rewrite (decode_complete _ f m) by (done || by apply bytes_ok_app).
      destruct (IH fuel WaitingForHeader m future) as (fs1 & fs2 & st' & buf' & -> & Hd & Hrest); [|done..|].
      * pose proof (zlen_to_bytes f Hf). rewrite length_app in Hfuel.
        unfold total_frame_length, pdu_length, MBAP_HEADER_SIZE, zlen in *. lia.
      * exists (f :: fs1), fs2, st', buf'. rewrite Hd. done.
    + destruct (decode_wait (st, buf) f m Hc Hok Hf Hf' Hm) as (st' & Hd & Hc').
      exists [], (f :: fs), st', buf. cbn [drain]. rewrite Hd. split; [done|]. split; [done|].
      split; [done|]. split; [done|]. unfold stream. cbn [fmap list_fmap concat].
      split; [by rewrite Hf', <- app_assoc|]. intros H. apply app_nil in H as [-> _]. done.
Qed.

Lemma receive_all_spec chunks : ∀ fs st buf,
  codec_ok (st, buf) → bytes_ok (buf ++ concat chunks) → Forall frame_ok fs →
  buf ++ concat chunks = stream fs → (chunks = [] → fs = []) →
  receive_all (st, buf) chunks = (Ok fs, (WaitingForHeader, [])).
Proof.
  induction chunks as [|chunk chunks IH]; intros fs st buf Hc Hok Hfs Heq Hnil.
  - rewrite (Hnil eq_refl) in Heq |- *. apply app_nil in Heq as [-> _].
    destruct (drain_nil 0 st Hc) as [-> _]. done.
  - cbn [concat] in *. rewrite app_assoc in Heq, Hok. apply bytes_ok_app in Hok as [Hok1 Hok2].
    assert (codec_ok (st, buf ++ chunk)) as Hc'.
    { destruct st as [|h]; [done|]. destruct Hc as (Hh & rest & Hb). cbn [snd] in Hb. split; [done|].
      exists (rest ++ chunk). cbn [snd]. by rewrite Hb, <- app_assoc. }
    destruct (drain_spec fs (S (length (buf ++ chunk))) st (buf ++ chunk) (concat chunks))
      as (fs1 & fs2 & st' & buf' & -> & Hd & Hc2 & Hok' & Heq' & Hnil'); [lia|done..|].
    cbn [receive_all]. unfold receive. cbn [fst snd]. rewrite Hd.
    apply Forall_app in Hfs as [_ Hfs2].
    rewrite (IH fs2 st' buf'); [done|done|by apply bytes_ok_app|done|done|].
    intros ->. by apply Hnil'.
Qed.

(* ------------------------------------------------------------------ *)
(** * Correctness of the TCP framing *)

(** on any buffer and in any state its own calls can leave it in, the decoder's loop ends
    after at most two turns without a panic. It delivers a frame exactly as encoded at
    the front of the buffer and removes just those bytes, or waits with the buffer untouched
    because fewer bytes than the header announces have arrived, or rejects the header; and it leaves the
    state invariant intact. *)
Theorem mbap_decode_total (c : codec) :
  codec_ok c → bytes_ok c.2 →
  ∃ r, (∀ fuel, (2 ≤ fuel)%nat → decode_loop fuel c = Some r) ∧ MbapCodec_decode c = r ∧
    decoded c.2 r ∧ codec_ok r.2.
Proof.
  intros Hc Hok. destruct (decode_loop_total 0 c Hc Hok) as (r & Hr & Hd). exists r.
  assert (∀ n, decode_loop (2 + n) c = Some r) as Hn.
  { intros n. cbn [decode_loop plus] in Hr |- *.
    destruct (decode_body c) as [[[r1|]|e|] c1]; [done| |done|done].
    destruct (decode_body c1) as [[[r2|]|e|] c2]; done. }
  split; [intros [|[|n]] ?; [lia..|apply Hn]|].
  split; [unfold MbapCodec_decode; change 2%nat with (2 + 0)%nat; by rewrite Hn|]. split; [done|].
  destruct Hd as [| |h rest Hh Hs|]; [done|done| |done]. split; [done|]. by exists rest.
Qed.

Lemma mbap_decode_total_witness :
  ∃ r, (∀ fuel, (2 ≤ fuel)%nat →
          decode_loop fuel (WaitingForHeader, [0; 1; 0; 0; 0; 3; 9; 4; 5; 7]) = Some r) ∧
       MbapCodec_decode (WaitingForHeader, [0; 1; 0; 0; 0; 3; 9; 4; 5; 7]) = r ∧
       r = (Ok (Some (MbapFrame_new 1 9 [4; 5])), (WaitingForHeader, [7])).
Proof.
  destruct (mbap_decode_total (WaitingForHeader, [0; 1; 0; 0; 0; 3; 9; 4; 5; 7]) I ltac:(closed))
    as (r & H1 & H2 & _).
  exists r. split; [exact H1|]. split; [exact H2|]. rewrite <- H2. vm_compute. reflexivity.
Defined.

(** What a peer sends: frames with PDUs of 1 to 252 bytes. *)
Definition sendable (f : MbapFrame) : Prop :=
  ∃ tid unit_id pdu, f = MbapFrame_new tid unit_id pdu ∧ is_u16 tid ∧ is_u8 unit_id ∧
    bytes_ok pdu ∧ 1 ≤ zlen pdu ≤ 252.

(** Frames encoded one after the other into the same buffer. *)
Fixpoint encode_all (fs : list MbapFrame) (dst : list Z) : outcome ModbusError (list Z) :=
  match fs with
  | [] => Ok dst
  | f :: fs' => let? dst' := MbapCodec_encode f dst in encode_all fs' dst'
  end.

Lemma sendable_ok f : sendable f → frame_ok f ∧ bytes_ok (MbapFrame_to_bytes f).
Proof.
  intros (tid & u & pdu & -> & Ht & Hu & Hp & Hl). unfold MbapFrame_new, MbapHeader_new. split.
  - split; [split; [done|split; [done|]]|]; cbn [header mbap_pdu mbap_length]; [|int_lia].
    split; [int_lia|done].
  - rewrite to_bytes_split. unfold MbapHeader_encode. cbn [header mbap_pdu mbap_unit_id].
    bytes_split; done.
Qed.

Lemma encode_sendable f dst :
  sendable f → MbapCodec_encode f dst = Ok (dst ++ MbapFrame_to_bytes f).
Proof.
  intros (tid & u & pdu & -> & Ht & Hu & Hp & Hl). unfold MbapCodec_encode, MAX_PDU_SIZE.
  cbn [mbap_pdu MbapFrame_new]. rewrite (proj2 (Z.ltb_ge _ _)) by lia.
  destruct pdu; [unfold zlen in Hl; simpl in Hl; lia|].
  unfold MbapFrame_to_bytes, MbapFrame_encode, MbapHeader_encode. cbn [app]. by rewrite <- !app_assoc.
Qed.

Lemma encode_all_stream fs : ∀ dst,
  Forall sendable fs → encode_all fs dst = Ok (dst ++ stream fs).
Proof.
  induction fs as [|f fs IH]; intros dst Hfs; [by rewrite app_nil_r|].
  apply Forall_cons in Hfs as [Hf Hfs]. cbn [encode_all]. rewrite encode_sendable by done.
  cbn [obind]. rewrite IH by done. unfold stream. cbn [fmap list_fmap concat]. by rewrite <- app_assoc.
Qed.

(** C6: streaming round trip. Any sequence of frames with PDUs of 1 to 252 bytes is accepted by
    the encoder, and however the resulting byte stream is cut into chunks on its way, the codec
    that receives the chunks one by one delivers exactly those frames, in order, and
    ends in its initial state with an empty buffer. *)
Theorem mbap_stream_roundtrip (fs : list MbapFrame) :
  Forall sendable fs →
  ∃ bytes, encode_all fs [] = Ok bytes ∧
    ∀ chunks, concat chunks = bytes →
      receive_all (MbapCodec_new, []) chunks = (Ok fs, (MbapCodec_new, [])).
Proof.
  intros Hfs. exists (stream fs). split; [by apply encode_all_stream|]. intros chunks Hch.
  assert (Forall frame_ok fs ∧ bytes_ok (stream fs)) as [Hf Hok].
  { clear Hch. induction Hfs as [|f fs Hf _ [IH1 IH2]]; [split; constructor|].
    apply sendable_ok in Hf as [Hf1 Hf2]. split; [by constructor|]. apply bytes_ok_app. by split. }
  apply receive_all_spec; [done|by rewrite Hch|done|by rewrite Hch|]. intros ->. simpl in Hch.
  destruct fs as [|f fs]; [done|]. exfalso. apply (f_equal zlen) in Hch. revert Hch.
  unfold stream. cbn [fmap list_fmap concat]. rewrite to_bytes_split, !zlen_app, zlen_header, zlen_nil.
  pose proof (zlen_nonneg (mbap_pdu f)). pose proof (zlen_nonneg (concat (MbapFrame_to_bytes <$> fs))). lia.
Qed.

Lemma mbap_stream_roundtrip_witness :
  receive_all (MbapCodec_new, []) [[0; 1; 0; 0]; [0; 3; 9; 4]; [5; 0; 2; 0; 0; 0]; [2; 1; 7]]
  = (Ok [MbapFrame_new 1 9 [4; 5]; MbapFrame_new 2 1 [7]], (MbapCodec_new, [])).
Proof.
  destruct (mbap_stream_roundtrip [MbapFrame_new 1 9 [4; 5]; MbapFrame_new 2 1 [7]]) as (bytes & He & H).
  - constructor; [exists 1, 9, [4; 5]|constructor; [exists 2, 1, [7]|constructor]];
      (split; [reflexivity|split; [closed|split; [closed|split; closed]]]).
  - apply H. vm_compute in He. injection He as <-. vm_compute. reflexivity.
Defined.

(** the encoder's and the decoder's limits disagree at the top. A frame with the largest
    PDU the encoder accepts, 253 bytes, is encoded with the length field 254, which the
    decoder of the same codec rejects. *)
Theorem mbap_largest_pdu_rejected (tid unit_id : Z) (pdu : list Z) :
  is_u16 tid → is_u8 unit_id → zlen pdu = 253 →
  ∃ bytes, MbapCodec_encode (MbapFrame_new tid unit_id pdu) [] = Ok bytes ∧
    MbapCodec_decode (MbapCodec_new, bytes) = (Err InvalidData, (MbapCodec_new, bytes)).
Proof.
  intros Ht Hu Hl. exists (MbapFrame_to_bytes (MbapFrame_new tid unit_id pdu)). split.
  - unfold MbapCodec_encode, MAX_PDU_SIZE. cbn [mbap_pdu MbapFrame_new].
    rewrite (proj2 (Z.ltb_ge _ _)) by lia. destruct pdu; [unfold zlen in Hl; simpl in Hl; lia|done].
  - unfold MbapCodec_decode, MbapCodec_new. cbn [decode_loop].
    assert (decode_body (WaitingForHeader, MbapFrame_to_bytes (MbapFrame_new tid unit_id pdu))
            = (Err InvalidData, (WaitingForHeader, MbapFrame_to_bytes (MbapFrame_new tid unit_id pdu)))) as ->.
    { rewrite to_bytes_split. unfold decode_body, MBAP_HEADER_SIZE.
      rewrite (proj2 (Z.ltb_ge _ _)) by (rewrite zlen_app, zlen_header; pose proof (zlen_nonneg pdu); simpl; lia).
      rewrite slice_app by (by rewrite zlen_header). cbn [obind header MbapFrame_new].
      rewrite Hl. unfold MbapHeader_parse, MbapHeader_encode, index, u16_to_be. simpl. done. }
    done.
Qed.

Lemma mbap_largest_pdu_rejected_witness :
  ∃ bytes, MbapCodec_encode (MbapFrame_new 1 1 (replicate 253 7)) [] = Ok bytes ∧
    MbapCodec_decode (MbapCodec_new, bytes) = (Err InvalidData, (MbapCodec_new, bytes)).
Proof. apply (mbap_largest_pdu_rejected 1 1 (replicate 253 7)); closed. Defined.
