(* ===== verification/ModbusTypes.v ===== *)
(** Typed values in Modbus registers ([mabi-modbus/src/types/]): word orders
    ([word_order.rs]), data types ([data_type.rs]) and the converter ([converter.rs]).

    A [String] is the list of its UTF-8 bytes and a float its bit pattern: the converter only
    moves them. *)

From S2P Require Import Prelude Text.

(* ------------------------------------------------------------------ *)
(** * Word orders *)

Inductive WordOrder : Set := BigEndian | LittleEndian | BigEndianWordSwap | LittleEndianWordSwap.

Definition WordOrder_default : WordOrder := BigEndian.
Definition is_big_endian (o : WordOrder) : bool := match o with BigEndian | BigEndianWordSwap => true | _ => false end.
Definition is_little_endian (o : WordOrder) : bool := match o with LittleEndian | LittleEndianWordSwap => true | _ => false end.
Definition has_word_swap (o : WordOrder) : bool := match o with BigEndianWordSwap | LittleEndianWordSwap => true | _ => false end.

Definition bytes4 : Set := Z * Z * Z * Z.
Definition regs4 : Set := Z * Z * Z * Z.

Definition bytes_to_registers_32 (o : WordOrder) (bytes : bytes4) : Z * Z :=
  let '(b0, b1, b2, b3) := bytes in
  match o with
  | BigEndian => (u16_from_be b0 b1, u16_from_be b2 b3)
  | LittleEndian => (u16_from_le b3 b2, u16_from_le b1 b0)
  | BigEndianWordSwap => (u16_from_be b2 b3, u16_from_be b0 b1)
  | LittleEndianWordSwap => (u16_from_le b1 b0, u16_from_le b3 b2)
  end.

Definition be_bytes (r : Z) : Z * Z := ((r / 256) mod 256, r mod 256).
Definition le_bytes (r : Z) : Z * Z := (r mod 256, (r / 256) mod 256).

Definition registers_to_bytes_32 (o : WordOrder) (registers : Z * Z) : bytes4 :=
  let '(r0, r1) := registers in
  match o with
  | BigEndian => let '(hi0, hi1) := be_bytes r0 in let '(lo0, lo1) := be_bytes r1 in (hi0, hi1, lo0, lo1)
  | LittleEndian => let '(hi0, hi1) := le_bytes r1 in let '(lo0, lo1) := le_bytes r0 in (hi1, hi0, lo1, lo0)
  | BigEndianWordSwap => let '(hi0, hi1) := be_bytes r1 in let '(lo0, lo1) := be_bytes r0 in (hi0, hi1, lo0, lo1)
  | LittleEndianWordSwap => let '(hi0, hi1) := le_bytes r0 in let '(lo0, lo1) := le_bytes r1 in (hi1, hi0, lo1, lo0)
  end.

Definition bytes_to_registers_64 (o : WordOrder) (bytes : bytes4 * bytes4) : regs4 :=
  let '(h0, h1) := bytes_to_registers_32 o bytes.1 in
  let '(l0, l1) := bytes_to_registers_32 o bytes.2 in
  match o with
  | BigEndian | LittleEndianWordSwap => (h0, h1, l0, l1)
  | LittleEndian | BigEndianWordSwap => (l0, l1, h0, h1)
  end.
Definition registers_to_bytes_64 (o : WordOrder) (registers : regs4) : bytes4 * bytes4 :=
  let '(r0, r1, r2, r3) := registers in
  match o with
  | BigEndian | LittleEndianWordSwap => (registers_to_bytes_32 o (r0, r1), registers_to_bytes_32 o (r2, r3))
  | LittleEndian | BigEndianWordSwap => (registers_to_bytes_32 o (r2, r3), registers_to_bytes_32 o (r0, r1))
  end.

(** [x.to_be_bytes()] of a 32-bit and of a 64-bit number, and back. *)
Definition to_be4 (x : Z) : bytes4 := ((x / 16777216) mod 256, (x / 65536) mod 256, (x / 256) mod 256, x mod 256).
Definition from_be4 (b : bytes4) : Z := let '(b0, b1, b2, b3) := b in ((b0 * 256 + b1) * 256 + b2) * 256 + b3.
Definition to_be8 (x : Z) : bytes4 * bytes4 := (to_be4 (x / 4294967296), to_be4 x).
Definition from_be8 (b : bytes4 * bytes4) : Z := from_be4 b.1 * 4294967296 + from_be4 b.2.

(* ------------------------------------------------------------------ *)
(** * Data types *)

Inductive RegisterDataType : Set :=
| DtBool | DtInt16 | DtUInt16 | DtInt32 | DtUInt32 | DtFloat32 | DtInt64 | DtUInt64 | DtFloat64
| DtString (n : Z) | DtBytes (n : Z).

Definition RegisterDataType_default : RegisterDataType := DtUInt16.
Definition register_count (t : RegisterDataType) : Z :=
  match t with
  | DtBool | DtInt16 | DtUInt16 => 1
  | DtInt32 | DtUInt32 | DtFloat32 => 2
  | DtInt64 | DtUInt64 | DtFloat64 => 4
  | DtString n | DtBytes n => n
  end.
Definition byte_count `{BuildProfile} {E} (t : RegisterDataType) : outcome E Z := u16_mul (register_count t) 2.
Definition is_single_register (t : RegisterDataType) : bool := register_count t =? 1.
Definition is_multi_register (t : RegisterDataType) : bool := 1 <? register_count t.
Definition is_numeric (t : RegisterDataType) : bool := match t with DtString _ | DtBytes _ | DtBool => false | _ => true end.
Definition is_integer (t : RegisterDataType) : bool :=
  match t with DtInt16 | DtUInt16 | DtInt32 | DtUInt32 | DtInt64 | DtUInt64 => true | _ => false end.
Definition is_float (t : RegisterDataType) : bool := match t with DtFloat32 | DtFloat64 => true | _ => false end.
Definition is_signed (t : RegisterDataType) : bool :=
  match t with DtInt16 | DtInt32 | DtInt64 | DtFloat32 | DtFloat64 => true | _ => false end.
Definition min_value (t : RegisterDataType) : option Z :=
  match t with
  | DtBool | DtUInt16 | DtUInt32 | DtUInt64 => Some 0
  | DtInt16 => Some (- 2 ^ 15) | DtInt32 => Some (- 2 ^ 31) | DtInt64 => Some (- 2 ^ 63)
  | _ => None
  end.
Definition max_value (t : RegisterDataType) : option Z :=
  match t with
  | DtBool => Some 1
  | DtInt16 => Some (2 ^ 15 - 1) | DtUInt16 => Some (2 ^ 16 - 1)
  | DtInt32 => Some (2 ^ 31 - 1) | DtUInt32 => Some (2 ^ 32 - 1)
  | DtInt64 => Some (2 ^ 63 - 1) | DtUInt64 => Some (2 ^ 64 - 1)
  | _ => None
  end.
Definition string_with_chars `{BuildProfile} {E} (chars : Z) : outcome E RegisterDataType :=
  let? c := u16_add chars 1 in Ok (DtString (c / 2)).
Definition bytes_with_capacity `{BuildProfile} {E} (bytes : Z) : outcome E RegisterDataType :=
  let? c := u16_add bytes 1 in Ok (DtBytes (c / 2)).

(* ------------------------------------------------------------------ *)
(** * The converter *)

Inductive TypedValue : Set :=
| TvBool (v : bool)
| TvInt16 (v : Z) | TvUInt16 (v : Z)
| TvInt32 (v : Z) | TvUInt32 (v : Z) | TvFloat32 (v : Z)
| TvInt64 (v : Z) | TvUInt64 (v : Z) | TvFloat64 (v : Z)
| TvString (v : list Z)
| TvBytes (v : list Z).

(** The lengths are computed in [usize] and cut to [u16]. *)
Definition data_type (v : TypedValue) : RegisterDataType :=
  match v with
  | TvBool _ => DtBool | TvInt16 _ => DtInt16 | TvUInt16 _ => DtUInt16
  | TvInt32 _ => DtInt32 | TvUInt32 _ => DtUInt32 | TvFloat32 _ => DtFloat32
  | TvInt64 _ => DtInt64 | TvUInt64 _ => DtUInt64 | TvFloat64 _ => DtFloat64
  | TvString s => DtString (as_u16 ((zlen s + 1) / 2))
  | TvBytes b => DtBytes (as_u16 ((zlen b + 1) / 2))
  end.

Record RegisterConverter : Set := { word_order : WordOrder }.
Definition RegisterConverter_new (o : WordOrder) : RegisterConverter := {| word_order := o |}.
Definition with_word_order (o : WordOrder) (c : RegisterConverter) : RegisterConverter := {| word_order := o |}.

Section Converter.
Variable c : RegisterConverter.

Definition bool_to_register (v : bool) : Z := if v then 0xFF00 else 0.
Definition register_to_bool (r : Z) : bool := negb (r =? 0).
Definition i16_to_register (v : Z) : Z := to_unsigned 16 v.
Definition register_to_i16 (r : Z) : Z := to_signed 16 r.

Definition pair_to_list (r : Z * Z) : list Z := [r.1; r.2].
Definition quad_to_list (r : regs4) : list Z := let '(r0, r1, r2, r3) := r in [r0; r1; r2; r3].

Definition u32_to_registers (v : Z) : list Z := pair_to_list (bytes_to_registers_32 (word_order c) (to_be4 v)).
Definition i32_to_registers (v : Z) : list Z := pair_to_list (bytes_to_registers_32 (word_order c) (to_be4 (to_unsigned 32 v))).
Definition f32_to_registers (v : Z) : list Z := u32_to_registers v.
Definition u64_to_registers (v : Z) : list Z := quad_to_list (bytes_to_registers_64 (word_order c) (to_be8 v)).
Definition i64_to_registers (v : Z) : list Z := quad_to_list (bytes_to_registers_64 (word_order c) (to_be8 (to_unsigned 64 v))).
Definition f64_to_registers (v : Z) : list Z := u64_to_registers v.

(** The [assert!] on the number of registers panics. *)
Definition registers_to_u32 {E} (registers : list Z) : outcome E Z :=
  match registers with
  | r0 :: r1 :: _ => Ok (from_be4 (registers_to_bytes_32 (word_order c) (r0, r1)))
  | _ => Panic
  end.
Definition registers_to_i32 {E} (registers : list Z) : outcome E Z := omap_ok (to_signed 32) (registers_to_u32 registers).
Definition registers_to_f32 {E} (registers : list Z) : outcome E Z := registers_to_u32 registers.
Definition registers_to_u64 {E} (registers : list Z) : outcome E Z :=
  match registers with
  | r0 :: r1 :: r2 :: r3 :: _ => Ok (from_be8 (registers_to_bytes_64 (word_order c) (r0, r1, r2, r3)))
  | _ => Panic
  end.
Definition registers_to_i64 {E} (registers : list Z) : outcome E Z := omap_ok (to_signed 64) (registers_to_u64 registers).
Definition registers_to_f64 {E} (registers : list Z) : outcome E Z := registers_to_u64 registers.

(** Strings and bytes go into the registers high byte first, whatever the word order. *)
Definition string_to_registers (value : list Z) (count : nat) : list Z :=
  (fun i => u16_from_be (default 0 (value !! (2 * i)%nat)) (default 0 (value !! (2 * i + 1)%nat))) <$> seq 0 count.
Fixpoint string_bytes (registers : list Z) : list Z :=
  match registers with
  | [] => []
  | r :: rest =>
      let '(hi, lo) := be_bytes r in
      if hi =? 0 then [] else if lo =? 0 then [hi] else hi :: lo :: string_bytes rest
  end.
Definition registers_to_string (registers : list Z) : list Z := from_utf8_lossy (string_bytes registers).
Definition registers_to_string_trimmed (registers : list Z) : list Z := trim_end (registers_to_string registers).
Fixpoint bytes_to_registers (bytes : list Z) : list Z :=
  match bytes with
  | [] => []
  | [hi] => [u16_from_be hi 0]
  | hi :: lo :: rest => u16_from_be hi lo :: bytes_to_registers rest
  end.
Definition registers_to_bytes (registers : list Z) : list Z :=
  flat_map (fun r => let '(hi, lo) := be_bytes r in [hi; lo]) registers.

Definition value_to_registers (t : RegisterDataType) (v : TypedValue) : list Z :=
  match v with
  | TvBool v => [bool_to_register v]
  | TvInt16 v => [i16_to_register v]
  | TvUInt16 v => [v]
  | TvInt32 v => i32_to_registers v
  | TvUInt32 v => u32_to_registers v
  | TvFloat32 v => f32_to_registers v
  | TvInt64 v => i64_to_registers v
  | TvUInt64 v => u64_to_registers v
  | TvFloat64 v => f64_to_registers v
  | TvString v => string_to_registers v (Z.to_nat (register_count t))
  | TvBytes v => bytes_to_registers v
  end.
Definition registers_to_value {E} (t : RegisterDataType) (registers : list Z) : outcome E TypedValue :=
  match t with
  | DtBool => omap_ok (fun r => TvBool (register_to_bool r)) (index registers 0)
  | DtInt16 => omap_ok (fun r => TvInt16 (register_to_i16 r)) (index registers 0)
  | DtUInt16 => omap_ok TvUInt16 (index registers 0)
  | DtInt32 => omap_ok TvInt32 (registers_to_i32 registers)
  | DtUInt32 => omap_ok TvUInt32 (registers_to_u32 registers)
  | DtFloat32 => omap_ok TvFloat32 (registers_to_f32 registers)
  | DtInt64 => omap_ok TvInt64 (registers_to_i64 registers)
  | DtUInt64 => omap_ok TvUInt64 (registers_to_u64 registers)
  | DtFloat64 => omap_ok TvFloat64 (registers_to_f64 registers)
  | DtString _ => Ok (TvString (registers_to_string_trimmed registers))
  | DtBytes _ => Ok (TvBytes (registers_to_bytes registers))
  end.
End Converter.

(* ------------------------------------------------------------------ *)
(** * Lemmas *)

Definition bytes4_ok (b : bytes4) : Prop := let '(b0, b1, b2, b3) := b in is_u8 b0 ∧ is_u8 b1 ∧ is_u8 b2 ∧ is_u8 b3.

Lemma to_be4_ok x : bytes4_ok (to_be4 x).
Proof. unfold to_be4, bytes4_ok, is_u8. split_and!; Z.div_mod_to_equations; lia. Qed.
Lemma be4_roundtrip x : 0 <= x < 4294967296 → from_be4 (to_be4 x) = x.
Proof. intros Hx. unfold from_be4, to_be4. Z.div_mod_to_equations. lia. Qed.
Lemma byte_of_mod x k j : 0 < k → 4294967296 = j * 256 * k → (x mod 4294967296 / k) mod 256 = (x / k) mod 256.
Proof.
  intros Hk Hj. rewrite (Z.div_mod x 4294967296) at 2 by lia.
  replace (4294967296 * (x / 4294967296)) with (x / 4294967296 * j * 256 * k) by (generalize (x / 4294967296); intros q; rewrite Hj; ring).
  rewrite Z.div_add_l by lia. by rewrite Z.add_comm, Z.mod_add.
Qed.
Lemma to_be4_mod x : to_be4 (x mod 4294967296) = to_be4 x.
Proof.
  unfold to_be4. rewrite (byte_of_mod x 16777216 1), (byte_of_mod x 65536 256), (byte_of_mod x 256 65536) by lia.
  f_equal. pose proof (byte_of_mod x 1 16777216). rewrite !Z.div_1_r in *. lia.
Qed.
Lemma be8_roundtrip x : 0 <= x < 18446744073709551616 → from_be8 (to_be8 x) = x.
Proof.
  intros Hx. unfold from_be8, to_be8. cbn [fst snd]. rewrite <- (to_be4_mod x), !be4_roundtrip by (Z.div_mod_to_equations; lia).
  Z.div_mod_to_equations. lia.
Qed.

Lemma be_of_bytes hi lo : is_u8 hi → is_u8 lo → be_bytes (u16_from_be hi lo) = (hi, lo).
Proof. unfold is_u8, be_bytes, u16_from_be. intros. f_equal; Z.div_mod_to_equations; lia. Qed.
Lemma le_of_bytes lo hi : is_u8 hi → is_u8 lo → le_bytes (u16_from_le lo hi) = (lo, hi).
Proof. unfold is_u8, le_bytes, u16_from_le. intros. f_equal; Z.div_mod_to_equations; lia. Qed.

Lemma word_order_roundtrip_32 o b : bytes4_ok b → registers_to_bytes_32 o (bytes_to_registers_32 o b) = b.
Proof.
  destruct b as [[[b0 b1] b2] b3]. intros (H0 & H1 & H2 & H3).
  destruct o; cbn [registers_to_bytes_32 bytes_to_registers_32]; rewrite ?be_of_bytes, ?le_of_bytes by done; done.
Qed.
Lemma word_order_roundtrip_64 o b : bytes4_ok b.1 → bytes4_ok b.2 → registers_to_bytes_64 o (bytes_to_registers_64 o b) = b.
Proof.
  destruct b as [h l]. intros Hh Hl. cbn [fst snd] in *. unfold bytes_to_registers_64. cbn [fst snd].
  pose proof (word_order_roundtrip_32 o h Hh) as Eh. pose proof (word_order_roundtrip_32 o l Hl) as El.
  destruct (bytes_to_registers_32 o h) as [h0 h1], (bytes_to_registers_32 o l) as [l0 l1].
  destruct o; unfold registers_to_bytes_64; rewrite Eh, El; done.
Qed.

Lemma registers_32_ok o b : bytes4_ok b → words_ok (pair_to_list (bytes_to_registers_32 o b)).
Proof.
  destruct b as [[[b0 b1] b2] b3]. intros (H0 & H1 & H2 & H3). unfold is_u8 in *.
  unfold words_ok, pair_to_list. destruct o; cbn [bytes_to_registers_32 fst snd]; rewrite !Forall_cons, Forall_nil; unfold is_u16, u16_from_be, u16_from_le; lia.
Qed.
Lemma registers_64_ok o b : bytes4_ok b.1 → bytes4_ok b.2 → words_ok (quad_to_list (bytes_to_registers_64 o b)).
Proof.
  destruct b as [h l]. cbn [fst snd]. intros Hh Hl. pose proof (registers_32_ok o h Hh) as Eh. pose proof (registers_32_ok o l Hl) as El.
  unfold bytes_to_registers_64. cbn [fst snd].
  destruct (bytes_to_registers_32 o h) as [h0 h1], (bytes_to_registers_32 o l) as [l0 l1]. unfold words_ok, pair_to_list in *.
  cbn [fst snd] in *. rewrite !Forall_cons in Eh, El. destruct o; cbn; rewrite !Forall_cons; naive_solver.
Qed.

(** ** Numbers *)

Lemma u32_roundtrip {E} c x : 0 <= x < 2 ^ 32 → registers_to_u32 (E:=E) c (u32_to_registers c x) = Ok x.
Proof.
  intros Hx. unfold registers_to_u32, u32_to_registers, pair_to_list. rewrite <- surjective_pairing.
  rewrite word_order_roundtrip_32 by apply to_be4_ok. by rewrite be4_roundtrip.
Qed.
Lemma u64_roundtrip {E} c x : 0 <= x < 2 ^ 64 → registers_to_u64 (E:=E) c (u64_to_registers c x) = Ok x.
Proof.
  intros Hx. pose proof (word_order_roundtrip_64 (word_order c) (to_be8 x) (to_be4_ok _) (to_be4_ok _)) as Hr.
  unfold registers_to_u64, u64_to_registers, quad_to_list. destruct (bytes_to_registers_64 _ _) as [[[r0 r1] r2] r3].
  rewrite Hr. by rewrite be8_roundtrip.
Qed.
Lemma u32_registers_ok c x : zlen (u32_to_registers c x) = 2 ∧ words_ok (u32_to_registers c x).
Proof. split; [done|]. apply registers_32_ok, to_be4_ok. Qed.
Lemma u64_registers_ok c x : zlen (u64_to_registers c x) = 4 ∧ words_ok (u64_to_registers c x).
Proof.
  split; [|apply registers_64_ok; apply to_be4_ok].
  unfold u64_to_registers, quad_to_list. by destruct (bytes_to_registers_64 _ _) as [[[? ?] ?] ?].
Qed.
Lemma i32_roundtrip {E} c x : - 2 ^ 31 <= x < 2 ^ 31 → registers_to_i32 (E:=E) c (i32_to_registers c x) = Ok x.
Proof.
  intros Hx. unfold registers_to_i32. change (i32_to_registers c x) with (u32_to_registers c (to_unsigned 32 x)).
  rewrite u32_roundtrip by (by apply to_unsigned_range). cbn [omap_ok]. by rewrite signed_roundtrip.
Qed.
Lemma i64_roundtrip {E} c x : - 2 ^ 63 <= x < 2 ^ 63 → registers_to_i64 (E:=E) c (i64_to_registers c x) = Ok x.
Proof.
  intros Hx. unfold registers_to_i64. change (i64_to_registers c x) with (u64_to_registers c (to_unsigned 64 x)).
  rewrite u64_roundtrip by (by apply to_unsigned_range). cbn [omap_ok]. by rewrite signed_roundtrip.
Qed.

(** ** Text *)

Lemma string_to_registers_cons a b v n : string_to_registers (a :: b :: v) (S n) = u16_from_be a b :: string_to_registers v n.
Proof.
  unfold string_to_registers. cbn [seq fmap list_fmap]. f_equal. rewrite <- fmap_S_seq, <- list_fmap_compose.
  apply list_fmap_ext. intros k i _. unfold compose. by replace (2 * S i)%nat with (S (S (2 * i))) by lia.
Qed.

Definition text_byte (b : Z) : Prop := 0 < b < 256.

Lemma string_bytes_nil n : string_bytes (string_to_registers [] n) = [].
Proof. by destruct n. Qed.

Lemma string_bytes_roundtrip v n :
  Forall text_byte v → (length v ≤ 2 * n)%nat → string_bytes (string_to_registers v n) = v.
Proof.
  revert n. induction v as [|a|a b v IH] using list_ind_2; intros n Hv Hn; [apply string_bytes_nil| |].
  - rewrite Forall_singleton in Hv. destruct n; [cbn in Hn; lia|]. unfold text_byte in Hv.
    assert (∃ l, string_to_registers [a] (S n) = u16_from_be a 0 :: l) as [l ->] by (by eexists). cbn [string_bytes].
    rewrite be_of_bytes by (unfold is_u8; lia). rewrite (proj2 (Z.eqb_neq a 0)) by lia. done.
  - apply Forall_cons in Hv as [Ha [Hb Hv]%Forall_cons]. destruct n; [cbn in Hn; lia|]. unfold text_byte in *.
    rewrite string_to_registers_cons. cbn [string_bytes]. rewrite be_of_bytes by (unfold is_u8; lia).
    rewrite !(proj2 (Z.eqb_neq _ 0)) by lia. rewrite IH; [done|done|cbn in Hn; lia].
Qed.

(** ** Bytes *)

Lemma bytes_roundtrip l : bytes_ok l → Nat.Even (length l) → registers_to_bytes (bytes_to_registers l) = l.
Proof.
  induction l as [|a|a b l IH] using list_ind_2; intros Hl He; [done|exfalso; destruct He as [k Hk]; cbn in Hk; lia|].
  apply Forall_cons in Hl as [Ha [Hb Hl]%Forall_cons]. cbn [bytes_to_registers]. unfold registers_to_bytes. cbn [flat_map].
  rewrite be_of_bytes by done. cbn [app]. do 2 f_equal. apply IH; [exact Hl|]. destruct He as [k Hk]. exists (k - 1)%nat. cbn in Hk. lia.
Qed.
Lemma bytes_registers_ok l : bytes_ok l → words_ok (bytes_to_registers l) ∧ length (bytes_to_registers l) = ((length l + 1) / 2)%nat.
Proof.
  induction l as [|a|a b l IH] using list_ind_2; intros Hl; [split; [constructor|reflexivity]| |].
  - unfold bytes_ok in Hl. rewrite Forall_singleton in Hl. unfold is_u8 in Hl. split; [|reflexivity].
    constructor; [unfold is_u16, u16_from_be; lia|constructor].
  - apply Forall_cons in Hl as [Ha [Hb Hl]%Forall_cons]. unfold is_u8 in *. destruct (IH Hl) as [IH1 IH2]. split.
    + constructor; [unfold is_u16, u16_from_be; lia|done].
    + cbn [bytes_to_registers length]. rewrite IH2. replace (S (S (length l)) + 1)%nat with (length l + 1 + 1 * 2)%nat by lia.
      rewrite Nat.div_add by lia. lia.
Qed.
Lemma string_registers_ok v n : bytes_ok v → words_ok (string_to_registers v n) ∧ length (string_to_registers v n) = n.
Proof.
  intros Hv. split; [|unfold string_to_registers; by rewrite length_fmap, length_seq].
  apply Forall_fmap, Forall_forall. intros i _. unfold compose, u16_from_be.
  assert (∀ k, is_u8 (default 0 (v !! k))) as Hk.
  { intros k. destruct (v !! k) as [b|] eqn:Hb; [by apply (bytes_ok_lookup v k)|]. unfold is_u8. cbn. lia. }
  pose proof (Hk (2 * i)%nat). pose proof (Hk (2 * i + 1)%nat). unfold is_u8, is_u16 in *. lia.
Qed.

(* ------------------------------------------------------------------ *)
(** * Properties *)

(** A value and a type it is stored as.  A string may have more room than it needs; it must not
    contain U+0000 nor end in whitespace, which reading trims. *)
Definition fits (t : RegisterDataType) (v : TypedValue) : Prop :=
  match v with
  | TvBool _ => t = DtBool
  | TvInt16 x => t = DtInt16 ∧ - 2 ^ 15 <= x < 2 ^ 15
  | TvUInt16 x => t = DtUInt16 ∧ is_u16 x
  | TvInt32 x => t = DtInt32 ∧ - 2 ^ 31 <= x < 2 ^ 31
  | TvUInt32 x => t = DtUInt32 ∧ 0 <= x < 2 ^ 32
  | TvFloat32 x => t = DtFloat32 ∧ 0 <= x < 2 ^ 32
  | TvInt64 x => t = DtInt64 ∧ - 2 ^ 63 <= x < 2 ^ 63
  | TvUInt64 x => t = DtUInt64 ∧ 0 <= x < 2 ^ 64
  | TvFloat64 x => t = DtFloat64 ∧ 0 <= x < 2 ^ 64
  | TvString s => ∃ n, t = DtString n ∧ zlen s <= 2 * n ∧ Forall text_byte s ∧ is_utf8 s = true ∧ trailing s = None
  | TvBytes b => ∃ n, t = DtBytes n ∧ zlen b = 2 * n ∧ bytes_ok b
  end.

(** C21: A typed value written to registers is read back unchanged, in every word order. For
    every value and every type it fits (numbers in their range, floats bit for bit, text without
    NUL and trailing whitespace, whole registers of bytes), the converter fills exactly the
    registers the type announces with 16-bit words, and converting them back gives the value. *)
Theorem typed_value_roundtrip {E} c t v :
  fits t v →
  registers_to_value (E:=E) c t (value_to_registers c t v) = Ok v ∧
  zlen (value_to_registers c t v) = register_count t ∧ words_ok (value_to_registers c t v).
Proof.
  destruct v as [b|x|x|x|x|x|x|x|x|s|l]; cbn [fits value_to_registers].
  - intros ->. split_and!; [by destruct b|done|destruct b; repeat constructor; unfold bool_to_register; lia].
  - intros [-> Hx]. split; [|split; [done|constructor; [apply (to_unsigned_range 16); lia|constructor]]].
    change (registers_to_value c DtInt16 _) with (Ok (E:=E) (TvInt16 (register_to_i16 (i16_to_register x)))).
    unfold register_to_i16, i16_to_register. by rewrite signed_roundtrip.
  - intros [-> Hx]. split_and!; [done|done|constructor; [done|constructor]].
  - intros [-> Hx]. split; [|apply u32_registers_ok]. cbn [registers_to_value]. by rewrite i32_roundtrip.
  - intros [-> Hx]. split; [|apply u32_registers_ok]. cbn [registers_to_value]. by rewrite u32_roundtrip.
  - intros [-> Hx]. split; [|apply u32_registers_ok]. cbn [registers_to_value]. unfold registers_to_f32, f32_to_registers.
    by rewrite u32_roundtrip.
  - intros [-> Hx]. split; [|apply u64_registers_ok]. cbn [registers_to_value]. by rewrite i64_roundtrip.
  - intros [-> Hx]. split; [|apply u64_registers_ok]. cbn [registers_to_value]. by rewrite u64_roundtrip.
  - intros [-> Hx]. split; [|apply u64_registers_ok]. cbn [registers_to_value]. unfold registers_to_f64, f64_to_registers.
    by rewrite u64_roundtrip.
  - intros (n & -> & Hn & Ht & Hu & Htr). cbn [registers_to_value register_count]. pose proof (zlen_nonneg s).
    assert (bytes_ok s) as Hs by (eapply Forall_impl; [exact Ht|]; unfold text_byte, is_u8; lia).
    destruct (string_registers_ok s (Z.to_nat n) Hs) as [Hok Hlen]. split_and!; [|unfold zlen; rewrite Hlen; lia|done].
    unfold registers_to_string_trimmed, registers_to_string. rewrite string_bytes_roundtrip by (done || unfold zlen in *; lia).
    by rewrite lossy_valid, trim_none.
  - intros (n & -> & Hn & Hl). cbn [registers_to_value register_count]. destruct (bytes_registers_ok l Hl) as [Hok Hlen].
    unfold zlen in Hn. replace (length l + 1)%nat with (1 + Z.to_nat n * 2)%nat in Hlen by lia. rewrite Nat.div_add in Hlen by lia.
    change (1 / 2)%nat with 0%nat in Hlen. split_and!; [|unfold zlen; lia|done].
    rewrite bytes_roundtrip; [done|done|]. exists (Z.to_nat n). lia.
Qed.

(** The little-endian word orders are the big-endian ones under other names. For all bytes
    and registers, "little endian" (documented as DC BA) gives and reads the registers of "big
    endian with word swap" (CD AB), and "little endian with word swap" (BA DC) those of "big
    endian" (AB CD): no order ever swaps the bytes of a register. *)
Theorem word_orders_collapse b b' r r' :
  bytes_to_registers_32 LittleEndian b = bytes_to_registers_32 BigEndianWordSwap b ∧
  bytes_to_registers_32 LittleEndianWordSwap b = bytes_to_registers_32 BigEndian b ∧
  registers_to_bytes_32 LittleEndian r = registers_to_bytes_32 BigEndianWordSwap r ∧
  registers_to_bytes_32 LittleEndianWordSwap r = registers_to_bytes_32 BigEndian r ∧
  bytes_to_registers_64 LittleEndian (b, b') = bytes_to_registers_64 BigEndianWordSwap (b, b') ∧
  bytes_to_registers_64 LittleEndianWordSwap (b, b') = bytes_to_registers_64 BigEndian (b, b') ∧
  registers_to_bytes_64 LittleEndian r' = registers_to_bytes_64 BigEndianWordSwap r' ∧
  registers_to_bytes_64 LittleEndianWordSwap r' = registers_to_bytes_64 BigEndian r'.
Proof.
  destruct b as [[[b0 b1] b2] b3], b' as [[[c0 c1] c2] c3], r as [r0 r1], r' as [[[q0 q1] q2] q3]. split_and!; reflexivity.
Qed.

Lemma typed_value_roundtrip_witness :
  registers_to_value (E:=unit) (RegisterConverter_new BigEndianWordSwap) DtInt32
    (value_to_registers (RegisterConverter_new BigEndianWordSwap) DtInt32 (TvInt32 (-12345))) = Ok (TvInt32 (-12345)) ∧
  registers_to_value (E:=unit) (RegisterConverter_new BigEndian) (DtString 4)
    (value_to_registers (RegisterConverter_new BigEndian) (DtString 4) (TvString [0x50; 0xC3; 0xBC; 0x6D; 0x70])) =
    Ok (TvString [0x50; 0xC3; 0xBC; 0x6D; 0x70]).
Proof.
  split; apply typed_value_roundtrip; cbn; [split; [reflexivity|lia]|].
  exists 4. split_and!; [reflexivity|vm_compute; discriminate|repeat constructor|reflexivity|vm_compute; reflexivity].
Defined.
