(* ===== verification/ModbusConnections.v ===== *)
(** The connection table of the Modbus TCP server: shard routing and the compact set of unit
    identifiers ([connection_core.rs]), the records of the connections and the sharded
    [ConnectionPool] with its limit, counters and events ([tcp/connection.rs]).

    Clock readings are arguments: [utc] (nanoseconds of calendar time) and [now] (nanoseconds of
    the monotonic clock).  The hash of an address is a parameter, and so is the order in which a
    concurrent map visits its entries.  What the pool sends on its event channel is recorded, in
    order, when there is a subscriber. *)

From S2P Require Import Prelude Float.
From Stdlib Require Import Floats.SpecFloat.

Definition u64_max : Z := 18446744073709551615.
Definition u64_modulus : Z := 18446744073709551616.
(** [AtomicU64::fetch_add] and [fetch_sub], and those of [AtomicUsize], wrap. *)
Definition atomic_add (x n : Z) : Z := (x + n) mod u64_modulus.
Definition atomic_sub (x n : Z) : Z := (x - n) mod u64_modulus.

(* ------------------------------------------------------------------ *)
(** * Shard routing *)

Record ShardRouter : Set := { sr_shard_count : Z; shard_mask : option Z }.

Definition is_power_of_two (n : Z) : bool := (0 <? n) && (Z.land n (n - 1) =? 0).
Definition ShardRouter_new {E} (shard_count : Z) : outcome E ShardRouter :=
  if 0 <? shard_count
  then Ok {| sr_shard_count := shard_count;
             shard_mask := if is_power_of_two shard_count then Some (shard_count - 1) else None |}
  else Panic.
Definition index_for_id (r : ShardRouter) (id : Z) : Z :=
  match shard_mask r with Some mask => Z.land id mask | None => id mod sr_shard_count r end.

(** An IP address and a port. *)
Definition SocketAddr : Type := list Z * Z.
Class AddrHash : Type := { addr_hash : SocketAddr → Z; addr_hash_u64 : ∀ a, 0 ≤ addr_hash a < u64_modulus }.
Definition index_for_addr `{AddrHash} (r : ShardRouter) (addr : SocketAddr) : Z := index_for_id r (addr_hash addr).

(* ------------------------------------------------------------------ *)
(** * Unit identifiers *)

Record UnitIdSet : Set := { bitmap : list Z; ordered : list Z }.
Definition UnitIdSet_default : UnitIdSet := {| bitmap := [0; 0; 0; 0]; ordered := [] |}.
Definition UnitIdSet_record {E} (unit_id : Z) (s : UnitIdSet) : outcome E (bool * UnitIdSet) :=
  let bucket := Z.to_nat (unit_id / 64) in
  let bit := Z.shiftl 1 (unit_id mod 64) in
  let? word := index (bitmap s) bucket in
  if negb (Z.land word bit =? 0) then Ok (false, s)
  else
    let? map := index_set (bitmap s) bucket (Z.lor word bit) in
    Ok (true, {| bitmap := map; ordered := ordered s ++ [unit_id] |}).

(* ------------------------------------------------------------------ *)
(** * Connections *)

Inductive ConnectionState : Set := Active | Idle | Closing.

Record ConnectionInfo : Type := {
  ci_peer_addr : SocketAddr;
  ci_connected_at : Z;
  ci_connected_instant : Z;
  ci_state : ConnectionState;
  ci_requests_processed : Z;
  ci_requests_success : Z;
  ci_requests_failed : Z;
  ci_last_activity : Z;
  ci_accessed_unit_ids : list Z;
  ci_bytes_received : Z;
  ci_bytes_sent : Z;
}.

Record RequestRecordOptions : Set := { update_last_activity : bool; track_unit_access : bool; emit_event : bool }.
Definition RequestRecordOptions_default : RequestRecordOptions :=
  {| update_last_activity := true; track_unit_access := true; emit_event := true |}.
Record LifecycleEventOptions : Set := { emit_connected : bool; emit_disconnected : bool; emit_rejected : bool }.
Definition LifecycleEventOptions_enabled : LifecycleEventOptions :=
  {| emit_connected := true; emit_disconnected := true; emit_rejected := true |}.
Definition LifecycleEventOptions_disabled : LifecycleEventOptions :=
  {| emit_connected := false; emit_disconnected := false; emit_rejected := false |}.

Record ConnectionRecord : Type := {
  cr_peer_addr : SocketAddr;
  cr_connected_at : Z;
  cr_connected_instant : Z;
  cr_state : ConnectionState;
  cr_requests_processed : Z;
  cr_requests_success : Z;
  cr_requests_failed : Z;
  cr_last_activity_tick_us : Z;
  cr_accessed_units : UnitIdSet;
  cr_bytes_received : Z;
  cr_bytes_sent : Z;
}.

Definition ConnectionRecord_new (peer_addr : SocketAddr) (utc now : Z) : ConnectionRecord :=
  {| cr_peer_addr := peer_addr; cr_connected_at := utc; cr_connected_instant := now; cr_state := Active;
     cr_requests_processed := 0; cr_requests_success := 0; cr_requests_failed := 0; cr_last_activity_tick_us := 0;
     cr_accessed_units := UnitIdSet_default; cr_bytes_received := 0; cr_bytes_sent := 0 |}.

(** The fields a request changes. *)
Definition cr_counters (r : ConnectionRecord) (processed success failed received sent : Z) : ConnectionRecord :=
  {| cr_peer_addr := cr_peer_addr r; cr_connected_at := cr_connected_at r; cr_connected_instant := cr_connected_instant r;
     cr_state := cr_state r; cr_requests_processed := processed; cr_requests_success := success;
     cr_requests_failed := failed; cr_last_activity_tick_us := cr_last_activity_tick_us r;
     cr_accessed_units := cr_accessed_units r; cr_bytes_received := received; cr_bytes_sent := sent |}.
Definition cr_activity (r : ConnectionRecord) (s : ConnectionState) (tick : Z) (units : UnitIdSet) : ConnectionRecord :=
  {| cr_peer_addr := cr_peer_addr r; cr_connected_at := cr_connected_at r; cr_connected_instant := cr_connected_instant r;
     cr_state := s; cr_requests_processed := cr_requests_processed r; cr_requests_success := cr_requests_success r;
     cr_requests_failed := cr_requests_failed r; cr_last_activity_tick_us := tick;
     cr_accessed_units := units; cr_bytes_received := cr_bytes_received r; cr_bytes_sent := cr_bytes_sent r |}.

(** [Instant::elapsed] does not go below zero. *)
Definition instant_elapsed (since now : Z) : Z := Z.max 0 (now - since).
Definition elapsed_tick_us (r : ConnectionRecord) (now : Z) : Z :=
  Z.min (instant_elapsed (cr_connected_instant r) now / 1000) u64_max.
Definition touch (now : Z) (r : ConnectionRecord) : ConnectionRecord :=
  cr_activity r (cr_state r) (elapsed_tick_us r now) (cr_accessed_units r).
Definition last_activity (r : ConnectionRecord) : Z :=
  cr_connected_at r + Z.min (cr_last_activity_tick_us r) 9223372036854775807 * 1000.
Definition idle_duration (r : ConnectionRecord) (now : Z) : Z :=
  Z.max 0 (instant_elapsed (cr_connected_instant r) now - cr_last_activity_tick_us r * 1000).

Definition snapshot (r : ConnectionRecord) : ConnectionInfo :=
  {| ci_peer_addr := cr_peer_addr r; ci_connected_at := cr_connected_at r; ci_connected_instant := cr_connected_instant r;
     ci_state := cr_state r; ci_requests_processed := cr_requests_processed r; ci_requests_success := cr_requests_success r;
     ci_requests_failed := cr_requests_failed r; ci_last_activity := last_activity r;
     ci_accessed_unit_ids := ordered (cr_accessed_units r); ci_bytes_received := cr_bytes_received r;
     ci_bytes_sent := cr_bytes_sent r |}.

(** [Duration::as_secs_f64] *)
Definition as_secs_f64 (d : Z) : spec_float :=
  f64_add (f64_of_Z (d / 1000000000)) (f64_div (f64_of_Z (d mod 1000000000)) (f64_of_Z 1000000000)).

Section records.
Context `{BuildProfile} {E : Type}.

(** [self.field += n] on a [u64] field: the build decides between a panic and wrapping. *)
Definition add_u64 (x n : Z) : outcome E Z := checked_op u64_modulus (x + n).
Definition add_field (get : ConnectionRecord → Z) (set : ConnectionRecord → Z → ConnectionRecord) (n : Z)
  : stM ConnectionRecord E unit := fun r =>
  match add_u64 (get r) n with
  | Ok v => (Ok tt, set r v)
  | Err e => (Err e, r)
  | Panic => (Panic, r)
  end.
Definition add_processed (n : Z) := add_field cr_requests_processed
  (fun r v => cr_counters r v (cr_requests_success r) (cr_requests_failed r) (cr_bytes_received r) (cr_bytes_sent r)) n.
Definition add_success (n : Z) := add_field cr_requests_success
  (fun r v => cr_counters r (cr_requests_processed r) v (cr_requests_failed r) (cr_bytes_received r) (cr_bytes_sent r)) n.
Definition add_failed (n : Z) := add_field cr_requests_failed
  (fun r v => cr_counters r (cr_requests_processed r) (cr_requests_success r) v (cr_bytes_received r) (cr_bytes_sent r)) n.
Definition add_received (n : Z) := add_field cr_bytes_received
  (fun r v => cr_counters r (cr_requests_processed r) (cr_requests_success r) (cr_requests_failed r) v (cr_bytes_sent r)) n.
Definition add_sent (n : Z) := add_field cr_bytes_sent
  (fun r v => cr_counters r (cr_requests_processed r) (cr_requests_success r) (cr_requests_failed r) (cr_bytes_received r) v) n.

Definition activate (options : RequestRecordOptions) (now : Z) (r : ConnectionRecord) : ConnectionRecord :=
  let r := cr_activity r Active (cr_last_activity_tick_us r) (cr_accessed_units r) in
  if update_last_activity options then touch now r else r.

Definition record_success (unit_id bytes_in bytes_out : Z) (options : RequestRecordOptions) (now : Z)
  : stM ConnectionRecord E unit :=
  do? _ := add_processed 1 in
  do? _ := add_success 1 in
  do? _ := add_received bytes_in in
  do? _ := add_sent bytes_out in
  fun r =>
    let r := activate options now r in
    if track_unit_access options then
      match UnitIdSet_record unit_id (cr_accessed_units r) with
      | Ok (_, units) => (Ok tt, cr_activity r (cr_state r) (cr_last_activity_tick_us r) units)
      | Err e => (Err e, r)
      | Panic => (Panic, r)
      end
    else (Ok tt, r).

Definition record_failure (bytes_in : Z) (options : RequestRecordOptions) (now : Z) : stM ConnectionRecord E unit :=
  do? _ := add_processed 1 in
  do? _ := add_failed 1 in
  do? _ := add_received bytes_in in
  fun r => (Ok tt, activate options now r).
End records.

(** The methods of [ConnectionInfo] itself keep a plain list of units. *)
Section info.
Context `{BuildProfile} {E : Type}.

Definition ci_update (i : ConnectionInfo) (processed success failed received sent last : Z) (units : list Z) : ConnectionInfo :=
  {| ci_peer_addr := ci_peer_addr i; ci_connected_at := ci_connected_at i; ci_connected_instant := ci_connected_instant i;
     ci_state := ci_state i; ci_requests_processed := processed; ci_requests_success := success;
     ci_requests_failed := failed; ci_last_activity := last; ci_accessed_unit_ids := units;
     ci_bytes_received := received; ci_bytes_sent := sent |}.
Definition info_record_success_with_options (unit_id bytes_in bytes_out : Z) (options : RequestRecordOptions) (utc : Z)
    (i : ConnectionInfo) : outcome E ConnectionInfo :=
  let? processed := add_u64 (ci_requests_processed i) 1 in
  let? success := add_u64 (ci_requests_success i) 1 in
  let? received := add_u64 (ci_bytes_received i) bytes_in in
  let? sent := add_u64 (ci_bytes_sent i) bytes_out in
  Ok (ci_update i processed success (ci_requests_failed i) received sent
        (if update_last_activity options then utc else ci_last_activity i)
        (if track_unit_access options && negb (existsb (Z.eqb unit_id) (ci_accessed_unit_ids i))
         then ci_accessed_unit_ids i ++ [unit_id] else ci_accessed_unit_ids i)).
Definition info_record_failure_with_options (bytes_in : Z) (options : RequestRecordOptions) (utc : Z)
    (i : ConnectionInfo) : outcome E ConnectionInfo :=
  let? processed := add_u64 (ci_requests_processed i) 1 in
  let? failed := add_u64 (ci_requests_failed i) 1 in
  let? received := add_u64 (ci_bytes_received i) bytes_in in
  Ok (ci_update i processed (ci_requests_success i) failed received (ci_bytes_sent i)
        (if update_last_activity options then utc else ci_last_activity i) (ci_accessed_unit_ids i)).
End info.

(* ------------------------------------------------------------------ *)
(** * Shards *)

Record ConnectionShard : Type := {
  connections : gmap Z ConnectionRecord;
  addr_to_id : gmap SocketAddr Z;
  sh_active_count : Z;
}.

Definition ConnectionShard_new : ConnectionShard := {| connections := ∅; addr_to_id := ∅; sh_active_count := 0 |}.
Definition ConnectionShard_insert (connection_id : Z) (peer_addr : SocketAddr) (utc now : Z) (s : ConnectionShard) : ConnectionShard :=
  {| connections := <[connection_id := ConnectionRecord_new peer_addr utc now]> (connections s);
     addr_to_id := <[peer_addr := connection_id]> (addr_to_id s);
     sh_active_count := atomic_add (sh_active_count s) 1 |}.
Definition ConnectionShard_remove (connection_id : Z) (s : ConnectionShard) : option ConnectionRecord * ConnectionShard :=
  match connections s !! connection_id with
  | Some record =>
      (Some record,
       {| connections := delete connection_id (connections s); addr_to_id := delete (cr_peer_addr record) (addr_to_id s);
          sh_active_count := atomic_sub (sh_active_count s) 1 |})
  | None => (None, s)
  end.
Definition ConnectionShard_get (s : ConnectionShard) (connection_id : Z) : option ConnectionInfo :=
  snapshot <$> connections s !! connection_id.
Definition ConnectionShard_get_by_addr (s : ConnectionShard) (addr : SocketAddr) : option ConnectionInfo :=
  addr_to_id s !! addr ≫= ConnectionShard_get s.
Definition ConnectionShard_update {E} (connection_id : Z) (f : stM ConnectionRecord E unit) (s : ConnectionShard)
  : outcome E (option SocketAddr) * ConnectionShard :=
  match connections s !! connection_id with
  | Some record =>
      let '(r, record') := f record in
      (let? _ := r in Ok (Some (cr_peer_addr record')),
       {| connections := <[connection_id := record']> (connections s); addr_to_id := addr_to_id s;
          sh_active_count := sh_active_count s |})
  | None => (Ok None, s)
  end.

Class ConnectionOrder : Type := {
  conn_iter : gmap Z ConnectionRecord → list (Z * ConnectionRecord);
  conn_iter_perm : ∀ m, conn_iter m ≡ₚ map_to_list m;
}.
Definition idle_connections `{ConnectionOrder} (s : ConnectionShard) (threshold now : Z) : list Z :=
  (filter (fun e => threshold < idle_duration e.2 now) (conn_iter (connections s))).*1.
Definition snapshots `{ConnectionOrder} (s : ConnectionShard) : list (Z * ConnectionInfo) :=
  (fun e => (e.1, snapshot e.2)) <$> conn_iter (connections s).

(* ------------------------------------------------------------------ *)
(** * The pool *)

(** [next_power_of_two] of a number far below the largest, and [clamp(4, 64)]. *)
Definition next_power_of_two (n : Z) : Z := 2 ^ Z.log2_up n.
Definition shard_count_for_capacity (max_connections : Z) : Z :=
  Z.max 4 (Z.min 64 (next_power_of_two (Z.max (max_connections / 256) 1))).

Inductive ConnectionEvent : Type :=
| Connected (peer_addr : SocketAddr) (connection_id : Z)
| Disconnected (peer_addr : SocketAddr) (connection_id : Z) (duration_secs : spec_float) (requests_processed : Z)
| RequestProcessed (peer_addr : SocketAddr) (connection_id unit_id function_code : Z) (success : bool) (duration_us : Z)
| Rejected (peer_addr : SocketAddr) (max_connections : Z).

Record ConnectionPool : Type := {
  cp_shards : list ConnectionShard;
  cp_router : ShardRouter;
  cp_next_id : Z;
  cp_max_connections : Z;
  cp_receivers : Z;                    (* subscribers of the event channel *)
  cp_events : list ConnectionEvent;    (* events sent, oldest first *)
  cp_total_connections : Z;
  cp_total_rejected : Z;
  cp_active_connections : Z;
}.

Definition ConnectionPool_new {E} (max_connections : Z) : outcome E ConnectionPool :=
  let shard_count := shard_count_for_capacity max_connections in
  let? router := ShardRouter_new shard_count in
  Ok {| cp_shards := replicate (Z.to_nat shard_count) ConnectionShard_new; cp_router := router; cp_next_id := 1;
        cp_max_connections := max_connections; cp_receivers := 0; cp_events := []; cp_total_connections := 0;
        cp_total_rejected := 0; cp_active_connections := 0 |}.

Definition cp_with_shards (p : ConnectionPool) (shards : list ConnectionShard) : ConnectionPool :=
  {| cp_shards := shards; cp_router := cp_router p; cp_next_id := cp_next_id p; cp_max_connections := cp_max_connections p;
     cp_receivers := cp_receivers p; cp_events := cp_events p; cp_total_connections := cp_total_connections p;
     cp_total_rejected := cp_total_rejected p; cp_active_connections := cp_active_connections p |}.
Definition cp_with_counts (p : ConnectionPool) (next total rejected active : Z) : ConnectionPool :=
  {| cp_shards := cp_shards p; cp_router := cp_router p; cp_next_id := next; cp_max_connections := cp_max_connections p;
     cp_receivers := cp_receivers p; cp_events := cp_events p; cp_total_connections := total;
     cp_total_rejected := rejected; cp_active_connections := active |}.
Definition send_event (e : ConnectionEvent) (p : ConnectionPool) : ConnectionPool :=
  {| cp_shards := cp_shards p; cp_router := cp_router p; cp_next_id := cp_next_id p; cp_max_connections := cp_max_connections p;
     cp_receivers := cp_receivers p; cp_events := cp_events p ++ [e]; cp_total_connections := cp_total_connections p;
     cp_total_rejected := cp_total_rejected p; cp_active_connections := cp_active_connections p |}.
Definition emit_lifecycle_event (should_emit : bool) (e : ConnectionEvent) (p : ConnectionPool) : ConnectionPool :=
  if should_emit && (0 <? cp_receivers p) then send_event e p else p.

(** [self.shards[i]], on which a method is called. *)
Definition on_shard {E A} (i : Z) (op : ConnectionShard → outcome E A * ConnectionShard) : stM ConnectionPool E A := fun p =>
  match cp_shards p !! Z.to_nat i with
  | Some s => let '(r, s') := op s in (r, cp_with_shards p (<[Z.to_nat i := s']> (cp_shards p)))
  | None => (Panic, p)
  end.

(** ** Registration *)

(** The two halves of [try_register]: the limit is tested first, the table changed later. *)
Definition at_limit (p : ConnectionPool) : bool := cp_max_connections p <=? cp_active_connections p.
Definition reject_connection (peer_addr : SocketAddr) (options : LifecycleEventOptions) (p : ConnectionPool) : ConnectionPool :=
  emit_lifecycle_event (emit_rejected options) (Rejected peer_addr (cp_max_connections p))
    (cp_with_counts p (cp_next_id p) (cp_total_connections p) (atomic_add (cp_total_rejected p) 1) (cp_active_connections p)).
Definition admit_connection {E} (peer_addr : SocketAddr) (options : LifecycleEventOptions) (utc now : Z)
  : stM ConnectionPool E Z := fun p =>
  let connection_id := cp_next_id p in
  let p := cp_with_counts p (atomic_add connection_id 1) (cp_total_connections p) (cp_total_rejected p) (cp_active_connections p) in
  (do? _ := on_shard (index_for_id (cp_router p) connection_id)
              (fun s => (Ok tt, ConnectionShard_insert connection_id peer_addr utc now s)) in
   fun p =>
     let p := cp_with_counts p (cp_next_id p) (atomic_add (cp_total_connections p) 1) (cp_total_rejected p)
                (atomic_add (cp_active_connections p) 1) in
     (Ok connection_id, emit_lifecycle_event (emit_connected options) (Connected peer_addr connection_id) p)) p.

Definition try_register_with_options {E} (peer_addr : SocketAddr) (options : LifecycleEventOptions) (utc now : Z)
  : stM ConnectionPool E (option Z) := fun p =>
  if at_limit p then (Ok None, reject_connection peer_addr options p)
  else st_map Some (admit_connection peer_addr options utc now) p.
Definition try_register {E} (peer_addr : SocketAddr) (utc now : Z) : stM ConnectionPool E (option Z) :=
  try_register_with_options peer_addr LifecycleEventOptions_enabled utc now.

Definition unregister_with_options {E} (connection_id : Z) (options : LifecycleEventOptions) (now : Z)
  : stM ConnectionPool E (option ConnectionInfo) := fun p =>
  (do? removed := on_shard (index_for_id (cp_router p) connection_id)
                    (fun s => let '(r, s') := ConnectionShard_remove connection_id s in (Ok r, s')) in
   match removed with
   | Some record => fun p =>
       let p := cp_with_counts p (cp_next_id p) (cp_total_connections p) (cp_total_rejected p)
                  (atomic_sub (cp_active_connections p) 1) in
       let info := snapshot record in
       (Ok (Some info),
        emit_lifecycle_event (emit_disconnected options)
          (Disconnected (ci_peer_addr info) connection_id (as_secs_f64 (instant_elapsed (ci_connected_instant info) now))
             (ci_requests_processed info)) p)
   | None => st_ret None
   end) p.
Definition unregister {E} (connection_id now : Z) : stM ConnectionPool E (option ConnectionInfo) :=
  unregister_with_options connection_id LifecycleEventOptions_enabled now.

(** ** Requests and queries *)

Record request_data : Set := {
  rd_unit_id : Z;
  rd_function_code : Z;
  rd_success : bool;
  rd_duration_us : Z;
  rd_bytes_in : Z;
  rd_bytes_out : Z;
}.
Section pool.
Context `{BuildProfile} `{AddrHash} `{ConnectionOrder}.

Definition record_update {E} (d : request_data) (options : RequestRecordOptions) (now : Z) : stM ConnectionRecord E unit :=
  if rd_success d then record_success (rd_unit_id d) (rd_bytes_in d) (rd_bytes_out d) options now
  else record_failure (rd_bytes_in d) options now.
Definition record_request_with_options {E} (connection_id : Z) (d : request_data) (options : RequestRecordOptions) (now : Z)
  : stM ConnectionPool E unit := fun p =>
  (do? peer := on_shard (index_for_id (cp_router p) connection_id)
                 (ConnectionShard_update connection_id (record_update d options now)) in
   fun p =>
     match peer with
     | Some peer_addr =>
         (Ok tt, if emit_event options && (0 <? cp_receivers p)
                 then send_event (RequestProcessed peer_addr connection_id (rd_unit_id d) (rd_function_code d) (rd_success d) (rd_duration_us d)) p
                 else p)
     | None => (Ok tt, p)
     end) p.
Definition record_request {E} (connection_id : Z) (d : request_data) (now : Z) : stM ConnectionPool E unit :=
  record_request_with_options connection_id d RequestRecordOptions_default now.

Definition pool_get {E} (p : ConnectionPool) (connection_id : Z) : outcome E (option ConnectionInfo) :=
  let? s := index (cp_shards p) (Z.to_nat (index_for_id (cp_router p) connection_id)) in
  Ok (ConnectionShard_get s connection_id).

(** The likely shard first, then the others in order. *)
Fixpoint search_shards (addr : SocketAddr) (skip i : nat) (shards : list ConnectionShard) : option ConnectionInfo :=
  match shards with
  | [] => None
  | s :: shards =>
      if (i =? skip)%nat then search_shards addr skip (S i) shards
      else match ConnectionShard_get_by_addr s addr with
           | Some info => Some info
           | None => search_shards addr skip (S i) shards
           end
  end.
Definition get_by_addr {E} (p : ConnectionPool) (addr : SocketAddr) : outcome E (option ConnectionInfo) :=
  let likely_shard := Z.to_nat (index_for_addr (cp_router p) addr) in
  let? s := index (cp_shards p) likely_shard in
  Ok (match ConnectionShard_get_by_addr s addr with
      | Some info => Some info
      | None => search_shards addr likely_shard 0 (cp_shards p)
      end).

Definition list_all (p : ConnectionPool) : list (Z * ConnectionInfo) := cp_shards p ≫= snapshots.
Definition get_idle_connections (p : ConnectionPool) (idle_threshold now : Z) : list Z :=
  cp_shards p ≫= fun s => idle_connections s idle_threshold now.
Definition subscribe (p : ConnectionPool) : ConnectionPool :=
  {| cp_shards := cp_shards p; cp_router := cp_router p; cp_next_id := cp_next_id p; cp_max_connections := cp_max_connections p;
     cp_receivers := cp_receivers p + 1; cp_events := cp_events p; cp_total_connections := cp_total_connections p;
     cp_total_rejected := cp_total_rejected p; cp_active_connections := cp_active_connections p |}.
End pool.

(* ------------------------------------------------------------------ *)
(** * The abstract connection table *)

(** One table of live connections, and the counters. *)
Record pool_model : Type := {
  pm_live : gmap Z ConnectionRecord;
  pm_next : Z;
  pm_max : Z;
  pm_receivers : Z;
  pm_events : list ConnectionEvent;
  pm_total : Z;
  pm_rejected : Z;
}.

Definition pm_emit (should_emit : bool) (e : ConnectionEvent) (m : pool_model) : list ConnectionEvent :=
  if should_emit && (0 <? pm_receivers m) then pm_events m ++ [e] else pm_events m.

Definition m_register (addr : SocketAddr) (options : LifecycleEventOptions) (utc now : Z) (m : pool_model) : option Z * pool_model :=
  if pm_max m <=? Z.of_nat (size (pm_live m)) then
    (None, {| pm_live := pm_live m; pm_next := pm_next m; pm_max := pm_max m; pm_receivers := pm_receivers m;
              pm_events := pm_emit (emit_rejected options) (Rejected addr (pm_max m)) m;
              pm_total := pm_total m; pm_rejected := atomic_add (pm_rejected m) 1 |})
  else
    (Some (pm_next m),
     {| pm_live := <[pm_next m := ConnectionRecord_new addr utc now]> (pm_live m); pm_next := pm_next m + 1; pm_max := pm_max m;
        pm_receivers := pm_receivers m; pm_events := pm_emit (emit_connected options) (Connected addr (pm_next m)) m;
        pm_total := atomic_add (pm_total m) 1; pm_rejected := pm_rejected m |}).

Definition m_unregister (id : Z) (options : LifecycleEventOptions) (now : Z) (m : pool_model) : option ConnectionInfo * pool_model :=
  match pm_live m !! id with
  | Some r =>
      (Some (snapshot r),
       {| pm_live := delete id (pm_live m); pm_next := pm_next m; pm_max := pm_max m; pm_receivers := pm_receivers m;
          pm_events := pm_emit (emit_disconnected options)
            (Disconnected (cr_peer_addr r) id (as_secs_f64 (instant_elapsed (cr_connected_instant r) now)) (cr_requests_processed r)) m;
          pm_total := pm_total m; pm_rejected := pm_rejected m |})
  | None => (None, m)
  end.

Definition m_record `{BuildProfile} {E} (id : Z) (d : request_data) (options : RequestRecordOptions) (now : Z) (m : pool_model)
  : outcome E unit * pool_model :=
  match pm_live m !! id with
  | Some r =>
      let '(res, r') := record_update (E:=E) d options now r in
      (res,
       {| pm_live := <[id := r']> (pm_live m); pm_next := pm_next m; pm_max := pm_max m; pm_receivers := pm_receivers m;
          pm_events := match res with
                       | Ok _ => pm_emit (emit_event options)
                           (RequestProcessed (cr_peer_addr r) id (rd_unit_id d) (rd_function_code d) (rd_success d) (rd_duration_us d)) m
                       | _ => pm_events m
                       end;
          pm_total := pm_total m; pm_rejected := pm_rejected m |})
  | None => (Ok tt, m)
  end.

(** No live connection has the address. *)
Definition addr_free (m : pool_model) (addr : SocketAddr) : Prop := map_Forall (fun _ r => cr_peer_addr r ≠ addr) (pm_live m).

(* ------------------------------------------------------------------ *)
(** * The pool stands for the table *)

Definition router_ok (r : ShardRouter) : Prop :=
  ∃ k, 0 ≤ k ∧ sr_shard_count r = 2 ^ k ∧ shard_mask r = Some (2 ^ k - 1).

(** [u]: no two connections of one address have been live together.  Then the address index of a shard
    finds every connection of the shard; it never finds a wrong one. *)
Definition shard_rep (u : Prop) (r : ShardRouter) (live : gmap Z ConnectionRecord) (i : nat) (s : ConnectionShard) : Prop :=
  (∀ id, connections s !! id = if decide (index_for_id r id = Z.of_nat i) then live !! id else None) ∧
  (∀ a id, addr_to_id s !! a = Some id → ∃ rec, connections s !! id = Some rec ∧ cr_peer_addr rec = a) ∧
  (u → ∀ id rec, connections s !! id = Some rec → addr_to_id s !! cr_peer_addr rec = Some id).

Record pool_rep (u : Prop) (p : ConnectionPool) (m : pool_model) : Prop := {
  rep_router : router_ok (cp_router p);
  rep_length : Z.of_nat (length (cp_shards p)) = sr_shard_count (cp_router p);
  rep_shards : ∀ i s, cp_shards p !! i = Some s → shard_rep u (cp_router p) (pm_live m) i s;
  rep_unique : u → ∀ id id' r r', pm_live m !! id = Some r → pm_live m !! id' = Some r' → cr_peer_addr r = cr_peer_addr r' → id = id';
  rep_ids : map_Forall (fun id _ => 0 < id < pm_next m) (pm_live m);
  rep_next : 0 < pm_next m ∧ cp_next_id p = pm_next m;
  rep_active : cp_active_connections p = Z.of_nat (size (pm_live m)) ∧ Z.of_nat (size (pm_live m)) ≤ Z.max 0 (pm_max m);
  rep_max : cp_max_connections p = pm_max m ∧ pm_max m < u64_modulus - 1;
  rep_events : cp_receivers p = pm_receivers m ∧ cp_events p = pm_events m;
  rep_totals : cp_total_connections p = pm_total m ∧ cp_total_rejected p = pm_rejected m;
}.

(** ** Routing *)

Lemma land_pow2_pred k x : 0 ≤ k → Z.land x (2 ^ k - 1) = x mod 2 ^ k.
Proof. intros Hk. rewrite <- (Z.land_ones x k Hk). f_equal. rewrite Z.ones_equiv. lia. Qed.

Lemma router_index r id : router_ok r → index_for_id r id = id mod sr_shard_count r ∧ 0 ≤ index_for_id r id < sr_shard_count r.
Proof.
  intros (k & Hk & Hc & Hm). unfold index_for_id. rewrite Hm, Hc, land_pow2_pred by done.
  split; [done|]. apply Z.mod_pos_bound. by apply Z.pow_pos_nonneg.
Qed.

Lemma power_of_two_mask k : 0 ≤ k → is_power_of_two (2 ^ k) = true.
Proof.
  intros Hk. unfold is_power_of_two. pose proof (Z.pow_pos_nonneg 2 k ltac:(lia) Hk).
  rewrite (proj2 (Z.ltb_lt _ _)), land_pow2_pred, Z.mod_same by lia. done.
Qed.

Lemma shard_count_power n : ∃ k, 2 ≤ k ≤ 6 ∧ shard_count_for_capacity n = 2 ^ k.
Proof.
  unfold shard_count_for_capacity, next_power_of_two. set (x := Z.max (n / 256) 1).
  pose proof (Z.log2_up_nonneg x) as Hl.
  destruct (Z.le_gt_cases (Z.log2_up x) 2) as [H2|H2].
  - exists 2. split; [lia|]. pose proof (Z.pow_le_mono_r 2 _ _ ltac:(lia) H2). change (2 ^ 2) with 4 in *. lia.
  - destruct (Z.le_gt_cases (Z.log2_up x) 6) as [H6|H6].
    + exists (Z.log2_up x). split; [lia|]. pose proof (Z.pow_le_mono_r 2 _ _ ltac:(lia) H6).
      pose proof (Z.pow_le_mono_r 2 2 (Z.log2_up x) ltac:(lia) ltac:(lia)). change (2 ^ 6) with 64 in *. change (2 ^ 2) with 4 in *. lia.
    + exists 6. split; [lia|]. pose proof (Z.pow_le_mono_r 2 6 (Z.log2_up x) ltac:(lia) ltac:(lia)). change (2 ^ 6) with 64 in *. lia.
Qed.

Lemma rep_shard u p m id : pool_rep u p m → ∃ s, cp_shards p !! Z.to_nat (index_for_id (cp_router p) id) = Some s ∧
  connections s !! id = pm_live m !! id.
Proof.
  intros Hrep. destruct (router_index _ id (rep_router _ _ _ Hrep)) as [_ Hi]. pose proof (rep_length _ _ _ Hrep).
  destruct (lookup_lt_is_Some_2 (cp_shards p) (Z.to_nat (index_for_id (cp_router p) id))) as [s Hs]; [lia|].
  exists s. split; [done|]. rewrite (proj1 (rep_shards _ _ _ Hrep _ _ Hs)). rewrite Z2Nat.id by lia. by rewrite decide_True.
Qed.

(** A change of one connection, in its shard and in the table. *)
Lemma shards_update u p m id s s' live' :
  pool_rep u p m → cp_shards p !! Z.to_nat (index_for_id (cp_router p) id) = Some s →
  (∀ id', id' ≠ id → live' !! id' = pm_live m !! id') →
  shard_rep u (cp_router p) live' (Z.to_nat (index_for_id (cp_router p) id)) s' →
  ∀ i x, <[Z.to_nat (index_for_id (cp_router p) id) := s']> (cp_shards p) !! i = Some x → shard_rep u (cp_router p) live' i x.
Proof.
  intros Hrep Hs Hlive Hs' i x Hx. destruct (router_index _ id (rep_router _ _ _ Hrep)) as [_ Hidx].
  destruct (decide (i = Z.to_nat (index_for_id (cp_router p) id))) as [->|Hne].
  - rewrite list_lookup_insert_eq in Hx by (by eapply lookup_lt_Some). by simplify_eq.
  - rewrite list_lookup_insert_ne in Hx by done. destruct (rep_shards _ _ _ Hrep _ _ Hx) as [Hc Ha]. split; [|exact Ha].
    intros id'. rewrite Hc. case_decide as Hi; [|done]. symmetry. apply Hlive. intros ->. apply Hne. rewrite Hi. by rewrite Nat2Z.id.
Qed.

Lemma atomic_add_exact x n : 0 ≤ x + n < u64_modulus → atomic_add x n = x + n.
Proof. apply Z.mod_small. Qed.
Lemma atomic_sub_exact x n : 0 ≤ x - n < u64_modulus → atomic_sub x n = x - n.
Proof. apply Z.mod_small. Qed.

(** ** Registration *)

Lemma shard_insert_rep u r live i s id addr utc now :
  shard_rep u r live i s → index_for_id r id = Z.of_nat i → live !! id = None →
  (u → map_Forall (fun _ rec => cr_peer_addr rec ≠ addr) live) →
  shard_rep u r (<[id := ConnectionRecord_new addr utc now]> live) i (ConnectionShard_insert id addr utc now s).
Proof.
  intros (Hc & Ha & Hall) Hi Hn Hfree. assert (connections s !! id = None) as Hns by (rewrite Hc; by case_decide). split_and!.
  - intros id'. cbn [connections ConnectionShard_insert]. destruct (decide (id' = id)) as [->|Hne].
    + rewrite !lookup_insert_eq. by rewrite decide_True.
    + rewrite !lookup_insert_ne by done. apply Hc.
  - intros a id'. cbn [connections addr_to_id ConnectionShard_insert]. destruct (decide (a = addr)) as [->|Hna].
    + rewrite lookup_insert_eq. intros [= <-]. eexists. by rewrite lookup_insert_eq.
    + rewrite lookup_insert_ne by done. intros (rec & Hr & Hp)%Ha. exists rec. rewrite lookup_insert_ne; [done|]. intros ->. congruence.
  - intros Hu id' rec. cbn [connections addr_to_id ConnectionShard_insert]. destruct (decide (id' = id)) as [->|Hne].
    + rewrite lookup_insert_eq. intros [= <-]. apply lookup_insert_eq.
    + rewrite lookup_insert_ne by done. intros Hr. rewrite lookup_insert_ne; [by apply Hall|].
      intros Heq. rewrite Hc in Hr. case_decide; [|done]. by destruct (Hfree Hu id' rec Hr).
Qed.

(** An event is the last thing an operation does. *)
Definition pm_with_events (m : pool_model) (es : list ConnectionEvent) : pool_model :=
  {| pm_live := pm_live m; pm_next := pm_next m; pm_max := pm_max m; pm_receivers := pm_receivers m; pm_events := es;
     pm_total := pm_total m; pm_rejected := pm_rejected m |}.
Lemma rep_emit u p m b e : pool_rep u p m → pool_rep u (emit_lifecycle_event b e p) (pm_with_events m (pm_emit b e m)).
Proof.
  intros [Hr Hl Hs Hu Hi Hn Ha Hm [He1 He2] Ht]. unfold emit_lifecycle_event, pm_emit. rewrite He1.
  destruct (b && (0 <? pm_receivers m)); (split; [done..|split; [done|]|done]); cbn [send_event cp_events pm_with_events pm_events];
    [by rewrite He2|done].
Qed.

Lemma unique_insert (live : gmap Z ConnectionRecord) (id : Z) (rec : ConnectionRecord) :
  (∀ i i' r r', live !! i = Some r → live !! i' = Some r' → cr_peer_addr r = cr_peer_addr r' → i = i') →
  (∀ i r, i ≠ id → live !! i = Some r → cr_peer_addr r ≠ cr_peer_addr rec) →
  ∀ i i' r r', <[id := rec]> live !! i = Some r → <[id := rec]> live !! i' = Some r' → cr_peer_addr r = cr_peer_addr r' → i = i'.
Proof.
  intros Hu Hne i i' r r' H1 H2 H3. rewrite lookup_insert_Some in H1, H2.
  destruct H1 as [[<- <-]|[? H1]], H2 as [[<- <-]|[? H2]]; [done| | |by eapply Hu].
  - symmetry in H3. by destruct (Hne _ _ (not_eq_sym H) H2).
  - by destruct (Hne _ _ (not_eq_sym H) H1).
Qed.

Lemma register_refines {E} u p m addr options utc now :
  pool_rep u p m → (u → addr_free m addr) → pm_next m < u64_max →
  ∃ p', try_register_with_options (E:=E) addr options utc now p = (Ok (fst (m_register addr options utc now m)), p') ∧
    pool_rep u p' (snd (m_register addr options utc now m)).
Proof.
  intros Hrep Hfree Hnext. unfold try_register_with_options, m_register, at_limit.
  rewrite (proj1 (rep_active _ _ _ Hrep)), (proj1 (rep_max _ _ _ Hrep)).
  destruct (Z.leb_spec (pm_max m) (Z.of_nat (size (pm_live m)))) as [Hfull|Hroom].
  - eexists. split; [reflexivity|]. cbn [snd]. unfold reject_connection. rewrite (proj1 (rep_max _ _ _ Hrep)).
    set (m1 := {| pm_live := pm_live m; pm_next := pm_next m; pm_max := pm_max m; pm_receivers := pm_receivers m;
                  pm_events := pm_events m; pm_total := pm_total m; pm_rejected := atomic_add (pm_rejected m) 1 |}).
    apply (rep_emit _ _ m1). destruct Hrep as [Hr Hl Hs Hu Hi Hn Ha Hm He [Ht1 Ht2]].
    split; [done..|]. split; [done|]. cbn [cp_with_counts cp_total_rejected]. by rewrite Ht2.
  - unfold st_map, admit_connection. cbn [cp_with_counts cp_router]. rewrite (proj2 (rep_next _ _ _ Hrep)).
    destruct (rep_shard u p m (pm_next m) Hrep) as (s & Hs & Hcs).
    assert (pm_live m !! pm_next m = None) as Hfresh.
    { destruct (pm_live m !! pm_next m) eqn:El; [|done]. apply (rep_ids _ _ _ Hrep) in El. lia. }
    unfold st_bind, on_shard. cbn [cp_with_counts cp_router cp_shards]. rewrite Hs.
    eexists. split; [reflexivity|]. cbn [snd].
    set (live' := <[pm_next m := ConnectionRecord_new addr utc now]> (pm_live m)).
    set (m1 := {| pm_live := live'; pm_next := pm_next m + 1; pm_max := pm_max m; pm_receivers := pm_receivers m;
                  pm_events := pm_events m; pm_total := atomic_add (pm_total m) 1; pm_rejected := pm_rejected m |}).
    apply (rep_emit _ _ m1).
    destruct (router_index _ (pm_next m) (rep_router _ _ _ Hrep)) as [_ Hidx].
    pose proof (shards_update u p m (pm_next m) s (ConnectionShard_insert (pm_next m) addr utc now s) live' Hrep Hs) as Hupd.
    specialize (Hupd ltac:(intros; by apply lookup_insert_ne)).
    specialize (Hupd ltac:(apply shard_insert_rep; [by apply (rep_shards _ _ _ Hrep)|lia|done|done])).
    destruct Hrep as [Hr Hl Hsh Hu Hi [Hn1 Hn2] [Ha1 Ha2] Hm He [Ht1 Ht2]].
    assert (size live' = S (size (pm_live m))) as Hsize by by apply map_size_insert_None.
    split; cbn [cp_with_counts cp_with_shards cp_router cp_shards cp_next_id cp_active_connections cp_max_connections
                cp_receivers cp_events cp_total_connections cp_total_rejected m1 pm_live pm_next pm_max pm_receivers pm_events
                pm_total pm_rejected]; [done| |exact Hupd| | | | |done|done|].
    + by rewrite length_insert.
    + intros Huu. apply unique_insert; [exact (Hu Huu)|]. intros i r _ Hr'. by apply (Hfree Huu i r).
    + apply map_Forall_insert_2; [lia|]. eapply map_Forall_impl; [exact Hi|]. intros ? ? [? ?]. lia.
    + split; [lia|]. apply atomic_add_exact. unfold u64_max, u64_modulus in *. lia.
    + rewrite Hsize, Ha1. split; [|lia]. rewrite atomic_add_exact; [lia|]. destruct Hm. lia.
    + by rewrite Ht1.
Qed.

(** ** Removal and requests *)

Lemma shard_remove_rep u r live i s id rec :
  shard_rep u r live i s → live !! id = Some rec → connections s !! id = Some rec →
  (u → ∀ id' r', live !! id' = Some r' → cr_peer_addr r' = cr_peer_addr rec → id' = id) →
  shard_rep u r (delete id live) i (snd (ConnectionShard_remove id s)).
Proof.
  intros (Hc & Ha & Hall) Hl Hs Hu. unfold ConnectionShard_remove. rewrite Hs. split_and!; cbn [snd connections addr_to_id].
  - intros id'. destruct (decide (id' = id)) as [->|Hne].
    + rewrite !lookup_delete_eq. by case_decide.
    + rewrite !lookup_delete_ne by done. apply Hc.
  - intros a id' [Hna (rec' & Hr & Hp)%Ha]%lookup_delete_Some. exists rec'. rewrite lookup_delete_ne; [done|]. intros ->. congruence.
  - intros Huu id' rec' [Hne Hr]%lookup_delete_Some. rewrite lookup_delete_ne; [by apply Hall|].
    intros Heq. rewrite Hc in Hr. case_decide; [|done]. apply Hne. symmetry. by apply (Hu Huu id' rec' Hr).
Qed.

Lemma unregister_refines {E} u p m id options now : pool_rep u p m →
  ∃ p', unregister_with_options (E:=E) id options now p = (Ok (fst (m_unregister id options now m)), p') ∧
    pool_rep u p' (snd (m_unregister id options now m)).
Proof.
  intros Hrep. destruct (rep_shard u p m id Hrep) as (s & Hs & Hc).
  unfold unregister_with_options, m_unregister, st_bind, on_shard. rewrite Hs. unfold ConnectionShard_remove. rewrite Hc.
  destruct (pm_live m !! id) as [rec|] eqn:El.
  - eexists. split; [reflexivity|]. cbn [snd].
    set (m1 := {| pm_live := delete id (pm_live m); pm_next := pm_next m; pm_max := pm_max m; pm_receivers := pm_receivers m;
                  pm_events := pm_events m; pm_total := pm_total m; pm_rejected := pm_rejected m |}).
    apply (rep_emit _ _ m1).
    pose proof (shards_update u p m id s (snd (ConnectionShard_remove id s)) (delete id (pm_live m)) Hrep Hs) as Hupd.
    specialize (Hupd ltac:(intros; by apply lookup_delete_ne)).
    specialize (Hupd ltac:(apply (shard_remove_rep _ _ _ _ _ _ rec); [by apply (rep_shards _ _ _ Hrep)|done|congruence
      |intros Hu id' r' Hl Hp; by apply (rep_unique _ _ _ Hrep Hu id' id r' rec)])).
    unfold ConnectionShard_remove in Hupd. rewrite Hc in Hupd. cbn [snd] in Hupd.
    destruct Hrep as [Hr Hl Hsh Hu Hi Hn [Ha1 Ha2] Hm He Ht].
    assert (S (size (delete id (pm_live m))) = size (pm_live m)) as Hsize.
    { rewrite map_size_delete, El. simpl. assert (size (pm_live m) ≠ 0%nat); [|lia]. intros Hz%map_size_empty_iff. by rewrite Hz in El. }
    split; cbn [cp_with_counts cp_with_shards cp_router cp_shards cp_next_id cp_active_connections cp_max_connections
                cp_receivers cp_events cp_total_connections cp_total_rejected m1 pm_live pm_next pm_max pm_receivers pm_events
                pm_total pm_rejected]; [done| |exact Hupd| | |done| |done..].
    + by rewrite length_insert.
    + intros Huu i i' r r' H1 H2. apply lookup_delete_Some in H1 as [_ H1], H2 as [_ H2]. by eapply (Hu Huu).
    + by apply map_Forall_delete.
    + rewrite Ha1. split; [|lia]. rewrite atomic_sub_exact by (unfold u64_modulus in *; destruct Hm; lia). lia.
  - eexists. split; [reflexivity|]. cbn [snd]. rewrite list_insert_id by done. by destruct p.
Qed.

Lemma add_field_keeps `{BuildProfile} {E} get set n r :
  (∀ r v, cr_peer_addr (set r v) = cr_peer_addr r) → cr_peer_addr (snd (add_field (E:=E) get set n r)) = cr_peer_addr r.
Proof. intros Hs. unfold add_field. destruct (add_u64 _ _); cbn [snd]; auto. Qed.

Lemma record_keeps_bind {E A} (c : stM ConnectionRecord E A) (k : A → stM ConnectionRecord E unit) :
  (∀ r, cr_peer_addr (snd (c r)) = cr_peer_addr r) → (∀ a r, cr_peer_addr (snd (k a r)) = cr_peer_addr r) →
  ∀ r, cr_peer_addr (snd (st_bind c k r)) = cr_peer_addr r.
Proof. intros Hc Hk r. unfold st_bind. specialize (Hc r). destruct (c r) as [[]]; cbn [snd] in *; by rewrite ?Hk. Qed.

Lemma record_update_keeps `{BuildProfile} {E} d options now r :
  cr_peer_addr (snd (record_update (E:=E) d options now r)) = cr_peer_addr r.
Proof.
  assert (∀ r, cr_peer_addr (activate options now r) = cr_peer_addr r) as Hact by (intros; unfold activate; by case_match).
  unfold record_update. destruct (rd_success d).
  - revert r. do 4 (apply record_keeps_bind; [intros; by apply add_field_keeps|intros _]).
    intros r. cbv beta zeta. destruct (track_unit_access options); [|apply Hact].
    destruct (UnitIdSet_record (rd_unit_id d) _) as [[]| |]; cbn [snd]; by rewrite <- (Hact r).
  - revert r. do 3 (apply record_keeps_bind; [intros; by apply add_field_keeps|intros _]). intros r. apply Hact.
Qed.

Lemma record_refines `{BuildProfile} {E} u p m id d options now : pool_rep u p m →
  ∃ p', record_request_with_options (E:=E) id d options now p = (fst (m_record (E:=E) id d options now m), p') ∧
    pool_rep u p' (snd (m_record (E:=E) id d options now m)).
Proof.
  intros Hrep. destruct (rep_shard u p m id Hrep) as (s & Hs & Hc).
  unfold record_request_with_options, m_record, st_bind, on_shard. rewrite Hs. unfold ConnectionShard_update. rewrite Hc.
  destruct (pm_live m !! id) as [rec|] eqn:El.
  2:{ eexists. split; [reflexivity|]. cbn [snd]. rewrite list_insert_id by done. by destruct p. }
  pose proof (record_update_keeps (E:=E) d options now rec) as Hk.
  destruct (record_update (E:=E) d options now rec) as [res rec'] eqn:Er. cbn [snd] in Hk.
  set (live' := <[id := rec']> (pm_live m)).
  set (s' := {| connections := <[id := rec']> (connections s); addr_to_id := addr_to_id s; sh_active_count := sh_active_count s |}).
  assert (pool_rep u (cp_with_shards p (<[Z.to_nat (index_for_id (cp_router p) id) := s']> (cp_shards p)))
    {| pm_live := live'; pm_next := pm_next m; pm_max := pm_max m; pm_receivers := pm_receivers m;
       pm_events := pm_events m; pm_total := pm_total m; pm_rejected := pm_rejected m |}) as Hrep'.
  { pose proof (shards_update u p m id s s' live' Hrep Hs ltac:(intros; by apply lookup_insert_ne)) as Hupd.
    destruct (router_index _ id (rep_router _ _ _ Hrep)) as [_ Hidx].
    assert (shard_rep u (cp_router p) live' (Z.to_nat (index_for_id (cp_router p) id)) s') as Hsr.
    { destruct (rep_shards _ _ _ Hrep _ _ Hs) as (Hcc & Haa & Hall). split_and!.
      - intros id'. cbn [s' connections]. unfold live'. destruct (decide (id' = id)) as [->|Hne].
        + rewrite !lookup_insert_eq. rewrite decide_True by lia. done.
        + rewrite !lookup_insert_ne by done. apply Hcc.
      - intros a id' (r & Hr & Hp)%Haa. cbn [s' connections]. destruct (decide (id' = id)) as [->|Hne].
        + rewrite lookup_insert_eq. exists rec'. split; [done|]. congruence.
        + rewrite lookup_insert_ne by done. by exists r.
      - intros Hu id' r. cbn [s' connections addr_to_id]. destruct (decide (id' = id)) as [->|Hne].
        + rewrite lookup_insert_eq. intros [= <-]. rewrite Hk. apply (Hall Hu). congruence.
        + rewrite lookup_insert_ne by done. by apply Hall. }
    specialize (Hupd Hsr). destruct Hrep as [Hr Hl Hsh Hu Hi Hn Ha Hm He Ht].
    split; cbn [cp_with_shards cp_router cp_shards pm_live pm_next]; [done| |exact Hupd| | |done| |done..].
    - by rewrite length_insert.
    - intros Huu. apply unique_insert; [exact (Hu Huu)|]. intros i r Hne Hli Hp. apply Hne, (Hu Huu i id r rec Hli El). congruence.
    - apply map_Forall_insert_2; [exact (Hi id rec El)|done].
    - unfold live'. cbn [cp_with_shards cp_active_connections pm_max]. by rewrite map_size_insert_Some. }
  destruct res as [[]|e|]; cbn [obind].
  - eexists. split; [reflexivity|]. cbn [snd]. rewrite Hk. exact (rep_emit _ _ _ (emit_event options) _ Hrep').
  - by eexists.
  - by eexists.
Qed.

(** ** Queries *)

Section queries.
Context `{AddrHash} `{ConnectionOrder}.

Lemma get_refines {E} u p m id : pool_rep u p m → pool_get (E:=E) p id = Ok (snapshot <$> pm_live m !! id).
Proof.
  intros Hrep. destruct (rep_shard u p m id Hrep) as (s & Hs & Hc). unfold pool_get, index. rewrite Hs. cbn [obind].
  unfold ConnectionShard_get. by rewrite Hc.
Qed.

(** What a shard answers for an address. *)
Lemma shard_by_addr u p m i s addr : pool_rep u p m → cp_shards p !! i = Some s →
  match ConnectionShard_get_by_addr s addr with
  | Some info => ∃ id rec, pm_live m !! id = Some rec ∧ cr_peer_addr rec = addr ∧ info = snapshot rec ∧
                   index_for_id (cp_router p) id = Z.of_nat i
  | None => u → ∀ id rec, pm_live m !! id = Some rec → cr_peer_addr rec = addr → index_for_id (cp_router p) id ≠ Z.of_nat i
  end.
Proof.
  intros Hrep Hs. destruct (rep_shards _ _ _ Hrep _ _ Hs) as (Hc & Ha & Hall). unfold ConnectionShard_get_by_addr, ConnectionShard_get.
  destruct (addr_to_id s !! addr) as [id|] eqn:E; cbn [mbind option_bind].
  - destruct (Ha _ _ E) as (rec & Hr & Hp). rewrite Hr. cbn. rewrite Hc in Hr.
    case_decide; [|done]. by exists id, rec.
  - intros Hu id rec Hl Hp Hi. assert (addr_to_id s !! addr = Some id) as Hx; [|congruence].
    rewrite <- Hp. apply (Hall Hu). rewrite Hc. by rewrite decide_True.
Qed.

Lemma search_shards_spec u p m addr skip : pool_rep u p m → ∀ l k, (∀ i s, l !! i = Some s → cp_shards p !! (k + i)%nat = Some s) →
  match search_shards addr skip k l with
  | Some info => ∃ id rec, pm_live m !! id = Some rec ∧ cr_peer_addr rec = addr ∧ info = snapshot rec
  | None => u → ∀ id rec, pm_live m !! id = Some rec → cr_peer_addr rec = addr →
              ∀ i, (i < length l)%nat → (k + i)%nat ≠ skip → index_for_id (cp_router p) id ≠ Z.of_nat (k + i)
  end.
Proof.
  intros Hrep. induction l as [|s l IH]; intros k Hl; cbn [search_shards]; [intros; simpl in *; lia|].
  assert (∀ i s, l !! i = Some s → cp_shards p !! (S k + i)%nat = Some s) as Hl'.
  { intros i x Hx. replace (S k + i)%nat with (k + S i)%nat by lia. by apply Hl. }
  specialize (IH (S k) Hl'). pose proof (Hl 0%nat s eq_refl) as Hs. rewrite Nat.add_0_r in Hs.
  assert (∀ (o : option ConnectionInfo), o = search_shards addr skip (S k) l →
    (k ≠ skip → ConnectionShard_get_by_addr s addr = None) →
    match o with
    | Some info => ∃ id rec, pm_live m !! id = Some rec ∧ cr_peer_addr rec = addr ∧ info = snapshot rec
    | None => u → ∀ id rec, pm_live m !! id = Some rec → cr_peer_addr rec = addr →
                ∀ i, (i < length (s :: l))%nat → (k + i)%nat ≠ skip → index_for_id (cp_router p) id ≠ Z.of_nat (k + i)
    end) as Hrest.
  { intros o -> Hnone. destruct (search_shards addr skip (S k) l); [done|]. intros Hu id rec Hlive Hp i Hi Hne.
    destruct i as [|i].
    - rewrite Nat.add_0_r in *. pose proof (shard_by_addr u p m k s addr Hrep Hs) as Hsp. rewrite (Hnone Hne) in Hsp. by eapply Hsp.
    - replace (k + S i)%nat with (S k + i)%nat by lia. apply (IH Hu id rec Hlive Hp); simpl in Hi; lia. }
  destruct (Nat.eqb_spec k skip) as [Hk|Hk]; [by apply Hrest|].
  pose proof (shard_by_addr u p m k s addr Hrep Hs) as Hsp.
  destruct (ConnectionShard_get_by_addr s addr) as [info|] eqn:Eg.
  - destruct Hsp as (id & rec & ? & ? & ? & _). by exists id, rec.
  - by apply Hrest.
Qed.

Lemma by_addr_refines {E} u p m addr : pool_rep u p m →
  ∃ o, get_by_addr (E:=E) p addr = Ok o ∧
    match o with
    | Some info => ∃ id rec, pm_live m !! id = Some rec ∧ cr_peer_addr rec = addr ∧ info = snapshot rec
    | None => u → addr_free m addr
    end.
Proof.
  intros Hrep. unfold get_by_addr, index_for_addr.
  destruct (router_index _ (addr_hash addr) (rep_router _ _ _ Hrep)) as [_ Hi]. pose proof (rep_length _ _ _ Hrep) as Hl.
  set (likely := Z.to_nat (index_for_id (cp_router p) (addr_hash addr))).
  destruct (lookup_lt_is_Some_2 (cp_shards p) likely) as [s Hs]; [lia|].
  unfold index. rewrite Hs. cbn [obind]. eexists. split; [reflexivity|].
  pose proof (shard_by_addr u p m likely s addr Hrep Hs) as Hlk.
  destruct (ConnectionShard_get_by_addr s addr) as [info|].
  - destruct Hlk as (id & rec & ? & ? & ? & _). by exists id, rec.
  - pose proof (search_shards_spec u p m addr likely Hrep (cp_shards p) 0 ltac:(done)) as Hse.
    destruct (search_shards addr likely 0 (cp_shards p)); [done|].
    intros Hu id rec Hlive Hp. destruct (router_index _ id (rep_router _ _ _ Hrep)) as [_ Hi'].
    set (i := Z.to_nat (index_for_id (cp_router p) id)).
    destruct (decide (i = likely)) as [Heq|Hne].
    + apply (Hlk Hu id rec Hlive Hp). lia.
    + apply (Hse Hu id rec Hlive Hp i); lia.
Qed.

Lemma elem_of_shards u p m id rec : pool_rep u p m →
  (id, rec) ∈ (cp_shards p ≫= fun s => conn_iter (connections s)) ↔ pm_live m !! id = Some rec.
Proof.
  intros Hrep. rewrite list_elem_of_bind. split.
  - intros (s & Hin & Hs). rewrite conn_iter_perm, elem_of_map_to_list in Hin. apply list_elem_of_lookup in Hs as [i Hs].
    rewrite (proj1 (rep_shards _ _ _ Hrep _ _ Hs)) in Hin. by case_decide.
  - intros Hl. destruct (rep_shard u p m id Hrep) as (s & Hs & Hc). exists s. rewrite conn_iter_perm, elem_of_map_to_list, Hc.
    split; [done|]. by eapply list_elem_of_lookup_2.
Qed.

Lemma shards_nodup (f : Z → Z) l : ∀ k,
  (∀ i s, l !! i = Some s → ∀ id rec, connections s !! id = Some rec → f id = Z.of_nat (k + i)) →
  NoDup (l ≫= fun s => conn_iter (connections s)).
Proof.
  induction l as [|s l IH]; intros k Hl; [constructor|]. rewrite bind_cons. apply NoDup_app. split; [|split].
  - rewrite conn_iter_perm. apply NoDup_map_to_list.
  - intros [id rec] H1 H2. rewrite conn_iter_perm, elem_of_map_to_list in H1. pose proof (Hl 0%nat s eq_refl id rec H1) as Hf.
    apply list_elem_of_bind in H2 as (s' & H2 & Hs'). rewrite conn_iter_perm, elem_of_map_to_list in H2.
    apply list_elem_of_lookup in Hs' as [i Hi]. pose proof (Hl (S i) s' Hi id rec H2). lia.
  - apply (IH (S k)). intros i x Hx id rec Hr. replace (S k + i)%nat with (k + S i)%nat by lia. by apply (Hl (S i) x Hx id rec).
Qed.

(** The shards together hold the entries of the table, each once. *)
Lemma shards_entries u p m : pool_rep u p m → (cp_shards p ≫= fun s => conn_iter (connections s)) ≡ₚ map_to_list (pm_live m).
Proof.
  intros Hrep. apply NoDup_Permutation; [|apply NoDup_map_to_list|].
  - apply (shards_nodup (index_for_id (cp_router p)) _ 0). intros i s Hs id rec Hr.
    rewrite (proj1 (rep_shards _ _ _ Hrep _ _ Hs)) in Hr. by case_decide.
  - intros [id rec]. by rewrite elem_of_map_to_list, (elem_of_shards u p m).
Qed.

Lemma bind_fmap_out {A B C} (f : B → C) (g : A → list B) l : (l ≫= fun x => f <$> g x) = f <$> (l ≫= g).
Proof. induction l as [|x l IH]; [done|]. rewrite !bind_cons, fmap_app. by rewrite IH. Qed.
Lemma bind_filter_out {A B} (P : B → Prop) `{∀ x, Decision (P x)} (g : A → list B) l : (l ≫= fun x => filter P (g x)) = filter P (l ≫= g).
Proof. induction l as [|x l IH]; [done|]. rewrite !bind_cons, filter_app. by rewrite IH. Qed.

Lemma list_all_refines u p m : pool_rep u p m → list_all p ≡ₚ (fun e => (e.1, snapshot e.2)) <$> map_to_list (pm_live m).
Proof. intros Hrep. unfold list_all, snapshots. by rewrite bind_fmap_out, (shards_entries u p m Hrep). Qed.
Lemma idle_refines u p m threshold now : pool_rep u p m →
  get_idle_connections p threshold now ≡ₚ (filter (fun e => threshold < idle_duration e.2 now) (map_to_list (pm_live m))).*1.
Proof.
  intros Hrep. unfold get_idle_connections, idle_connections. by rewrite bind_fmap_out, bind_filter_out, (shards_entries u p m Hrep).
Qed.
End queries.

(* ------------------------------------------------------------------ *)
(** * The set of units *)

Definition units_ok (s : UnitIdSet) : Prop :=
  length (bitmap s) = 4%nat ∧ Forall is_u8 (ordered s) ∧
  ∀ id, is_u8 id → ∃ w, bitmap s !! Z.to_nat (id / 64) = Some w ∧ Z.testbit w (id mod 64) = bool_decide (id ∈ ordered s).

(** The list without repetitions, in the order of first occurrence. *)
Definition push_new (l : list Z) (x : Z) : list Z := if existsb (Z.eqb x) l then l else l ++ [x].

Lemma existsb_elem x l : existsb (Z.eqb x) l = bool_decide (x ∈ l).
Proof.
  destruct (existsb (Z.eqb x) l) eqn:E; symmetry.
  - apply bool_decide_true. apply existsb_exists in E as (y & Hy & ->%Z.eqb_eq). by apply list_elem_of_In.
  - apply bool_decide_false. intros Hx. assert (existsb (Z.eqb x) l = true); [|congruence].
    apply existsb_exists. exists x. split; [by apply list_elem_of_In|apply Z.eqb_refl].
Qed.

Lemma testbit_land_bit w k : 0 ≤ k → (Z.land w (Z.shiftl 1 k) =? 0) = negb (Z.testbit w k).
Proof.
  intros Hk. destruct (Z.testbit w k) eqn:E; cbn [negb].
  - apply Z.eqb_neq. intros H0. assert (Z.testbit (Z.land w (Z.shiftl 1 k)) k = false) as Hf by (rewrite H0; apply Z.bits_0).
    rewrite Z.land_spec, E, Z.shiftl_spec, Z.sub_diag in Hf by lia. done.
  - apply Z.eqb_eq, Z.bits_inj'. intros n Hn. rewrite Z.land_spec, Z.bits_0, Z.shiftl_spec by lia.
    destruct (Z.eqb_spec n k) as [->|Hne]; [by rewrite E|].
    destruct (Z.lt_trichotomy (n - k) 0) as [Hl|[Hz|Hg]]; [rewrite (Z.testbit_neg_r 1 (n - k)) by lia; apply andb_false_r|lia|].
    rewrite (Z.bits_above_log2 1 (n - k)) by (simpl; lia). apply andb_false_r.
Qed.

Lemma testbit_lor_bit w k j : 0 ≤ k → 0 ≤ j → Z.testbit (Z.lor w (Z.shiftl 1 k)) j = Z.testbit w j || (j =? k).
Proof.
  intros Hk Hj. rewrite Z.lor_spec, Z.shiftl_spec by lia. f_equal. destruct (Z.eqb_spec j k) as [->|Hne]; [by rewrite Z.sub_diag|].
  destruct (Z.lt_ge_cases (j - k) 0); [by apply Z.testbit_neg_r|]. apply Z.bits_above_log2; simpl; lia.
Qed.

Lemma unit_record_spec {E} id s : is_u8 id → units_ok s →
  ∃ s', UnitIdSet_record (E:=E) id s = Ok (negb (bool_decide (id ∈ ordered s)), s') ∧ units_ok s' ∧
    ordered s' = push_new (ordered s) id.
Proof.
  intros Hid (Hl & Hu & Hb). destruct (Hb id Hid) as (w & Hw & Ht). unfold UnitIdSet_record, index. rewrite Hw. cbn [obind].
  assert (0 ≤ id mod 64 < 64) by (apply Z.mod_pos_bound; lia). rewrite testbit_land_bit, negb_involutive, Ht by lia.
  unfold push_new. rewrite existsb_elem. destruct (bool_decide (id ∈ ordered s)) eqn:Ed.
  { by exists s. }
  unfold index_set. rewrite decide_True by (by eapply lookup_lt_Some). cbn [obind]. eexists. split; [reflexivity|].
  split; [|done]. split; [by cbn [bitmap]; rewrite length_insert|]. cbn [bitmap ordered]. split; [apply Forall_app; split; [done|by constructor]|].
  intros j Hj. destruct (Hb j Hj) as (w' & Hw' & Ht'). rewrite bool_decide_eq_false in Ed.
  assert (0 ≤ j mod 64 < 64) by (apply Z.mod_pos_bound; lia). unfold is_u8 in *.
  assert (j = id ↔ j / 64 = id / 64 ∧ j mod 64 = id mod 64) as Hji.
  { split; [by intros ->|]. intros [H1 H2]. rewrite (Z.div_mod j 64), (Z.div_mod id 64) by lia. lia. }
  assert (bool_decide (j ∈ ordered s ++ [id]) = bool_decide (j ∈ ordered s) || bool_decide (j = id)) as Hsplit.
  { rewrite <- bool_decide_or. apply bool_decide_ext. rewrite elem_of_app, list_elem_of_singleton. done. }
  rewrite Hsplit. destruct (decide (j / 64 = id / 64)) as [Heq|Hne].
  - rewrite Heq in Hw' |- *. assert (w' = w) as -> by congruence. exists (Z.lor w (Z.shiftl 1 (id mod 64))).
    rewrite list_lookup_insert_eq by (by eapply lookup_lt_Some). split; [done|].
    rewrite testbit_lor_bit, Ht' by lia. f_equal. destruct (Z.eqb_spec (j mod 64) (id mod 64)); symmetry.
    + apply bool_decide_true. tauto.
    + apply bool_decide_false. tauto.
  - exists w'. rewrite list_lookup_insert_ne; [|intros Hz; apply Hne; apply Z2Nat.inj in Hz; [congruence|apply Z.div_pos; lia|apply Z.div_pos; lia]].
    split; [done|]. rewrite Ht', (bool_decide_false (j = id)), orb_false_r by tauto. done.
Qed.

Lemma units_default_ok : units_ok UnitIdSet_default.
Proof.
  split; [done|]. split; [constructor|]. intros id Hid. exists 0. rewrite Z.bits_0, bool_decide_false by set_solver. split; [|done].
  assert (0 ≤ id / 64 < 4) as Hd by (unfold is_u8 in Hid; split; [apply Z.div_pos; lia|apply Z.div_lt_upper_bound; lia]).
  cbn [UnitIdSet_default bitmap]. assert (id / 64 = 0 ∨ id / 64 = 1 ∨ id / 64 = 2 ∨ id / 64 = 3) as [-> |[-> |[-> | ->]]] by lia; done.
Qed.

(* ------------------------------------------------------------------ *)
(** * Sequences of operations *)

Inductive pool_op : Type :=
| OpRegister (addr : SocketAddr) (options : LifecycleEventOptions) (utc now : Z)
| OpUnregister (id : Z) (options : LifecycleEventOptions) (now : Z)
| OpRecord (id : Z) (d : request_data) (options : RequestRecordOptions) (now : Z)
| OpSubscribe.
Inductive pool_reply : Type := GotId (o : option Z) | GotInfo (o : option ConnectionInfo) | Recorded | Subscribed.

Section traces.
Context `{BuildProfile}.

Definition pool_exec (op : pool_op) (p : ConnectionPool) : outcome Empty_set pool_reply * ConnectionPool :=
  match op with
  | OpRegister addr options utc now => st_map GotId (try_register_with_options addr options utc now) p
  | OpUnregister id options now => st_map GotInfo (unregister_with_options id options now) p
  | OpRecord id d options now => st_map (fun _ => Recorded) (record_request_with_options id d options now) p
  | OpSubscribe => (Ok Subscribed, subscribe p)
  end.
(** Only recording a request can fail: its counters overflow in a debug build, and the task that called
    it panics. *)
Definition model_exec (op : pool_op) (m : pool_model) : outcome Empty_set pool_reply * pool_model :=
  match op with
  | OpRegister addr options utc now => let '(r, m) := m_register addr options utc now m in (Ok (GotId r), m)
  | OpUnregister id options now => let '(r, m) := m_unregister id options now m in (Ok (GotInfo r), m)
  | OpRecord id d options now => let '(r, m) := m_record id d options now m in (omap_ok (fun _ => Recorded) r, m)
  | OpSubscribe =>
      (Ok Subscribed, {| pm_live := pm_live m; pm_next := pm_next m; pm_max := pm_max m; pm_receivers := pm_receivers m + 1;
                      pm_events := pm_events m; pm_total := pm_total m; pm_rejected := pm_rejected m |})
  end.
(** One operation after the other; a panic stops the task that called it, not the pool. *)
Fixpoint pool_exec_all (ops : list pool_op) (p : ConnectionPool) : list (outcome Empty_set pool_reply) * ConnectionPool :=
  match ops with
  | [] => ([], p)
  | op :: ops => let '(r, p) := pool_exec op p in let '(rs, p) := pool_exec_all ops p in (r :: rs, p)
  end.
Fixpoint model_exec_all (ops : list pool_op) (m : pool_model) : list (outcome Empty_set pool_reply) * pool_model :=
  match ops with
  | [] => ([], m)
  | op :: ops => let '(r, m) := model_exec op m in let '(rs, m) := model_exec_all ops m in (r :: rs, m)
  end.

(** A peer that connects is not connected already: an address and port name one connection. *)
Definition op_allowed (op : pool_op) (m : pool_model) : Prop :=
  match op with OpRegister addr _ _ _ => addr_free m addr | _ => True end.
Fixpoint ops_allowed (ops : list pool_op) (m : pool_model) : Prop :=
  match ops with
  | [] => True
  | op :: ops => op_allowed op m ∧ ops_allowed ops (snd (model_exec op m))
  end.

Definition model_new (max_connections : Z) : pool_model :=
  {| pm_live := ∅; pm_next := 1; pm_max := max_connections; pm_receivers := 0; pm_events := []; pm_total := 0; pm_rejected := 0 |}.

Lemma pool_new_rep max_connections : 0 ≤ max_connections < u64_modulus - 1 →
  ∃ p, ConnectionPool_new (E:=Empty_set) max_connections = Ok p ∧ ∀ u, pool_rep u p (model_new max_connections).
Proof.
  intros Hm. unfold ConnectionPool_new. destruct (shard_count_power max_connections) as (k & Hk & Hc). rewrite Hc.
  unfold ShardRouter_new. rewrite (proj2 (Z.ltb_lt _ _)) by (apply Z.pow_pos_nonneg; lia).
  rewrite power_of_two_mask by lia. cbn [obind]. eexists. split; [reflexivity|]. intros u.
  split; cbn [cp_router cp_shards sr_shard_count cp_next_id cp_active_connections cp_max_connections cp_receivers cp_events
              cp_total_connections cp_total_rejected model_new pm_live pm_next pm_max pm_receivers pm_events pm_total pm_rejected].
  - exists k. split; [lia|done].
  - rewrite length_replicate, Z2Nat.id; [done|]. apply Z.pow_nonneg. lia.
  - intros i s [-> _]%lookup_replicate. split_and!.
    + intros id. cbn. by case_decide.
    + by intros a id.
    + by intros _ id rec.
  - done.
  - done.
  - done.
  - rewrite map_size_empty. split; [done|]. simpl. lia.
  - split; [done|lia].
  - done.
  - done.
Qed.

Lemma model_exec_next op m : pm_next m ≤ pm_next (snd (model_exec op m)) ≤ pm_next m + 1.
Proof.
  destruct op; cbn [model_exec].
  - unfold m_register. destruct (_ <=? _); cbn [snd pm_next]; lia.
  - unfold m_unregister. destruct (pm_live m !! id); cbn [snd pm_next]; lia.
  - unfold m_record. destruct (pm_live m !! id) as [rec|]; [|cbn; lia]. destruct (record_update d options now rec). cbn [snd pm_next]. lia.
  - cbn. lia.
Qed.

Lemma pool_exec_refines u op p m : pool_rep u p m → (u → op_allowed op m) → pm_next m < u64_max →
  ∃ p', pool_exec op p = (fst (model_exec op m), p') ∧ pool_rep u p' (snd (model_exec op m)).
Proof.
  intros Hrep Hop Hn. destruct op as [addr options utc now|id options now|id d options now|]; cbn [pool_exec model_exec].
  - destruct (register_refines (E:=Empty_set) u p m addr options utc now Hrep Hop Hn) as (p' & Hr & Hrep').
    unfold st_map. rewrite Hr. destruct (m_register addr options utc now m). by exists p'.
  - destruct (unregister_refines (E:=Empty_set) u p m id options now Hrep) as (p' & Hr & Hrep').
    unfold st_map. rewrite Hr. destruct (m_unregister id options now m). by exists p'.
  - destruct (record_refines (E:=Empty_set) u p m id d options now Hrep) as (p' & Hr & Hrep').
    unfold st_map. rewrite Hr. destruct (m_record id d options now m) as [[]]; by exists p'.
  - eexists. split; [reflexivity|]. destruct Hrep as [Hr Hl Hs Hu Hi Hx Ha Hm [He1 He2] Ht]. split; try done.
    split; [|done]. cbn. by rewrite He1.
Qed.

Lemma pool_exec_all_refines u ops : ∀ p m, pool_rep u p m → (u → ops_allowed ops m) → pm_next m + zlen ops ≤ u64_max →
  ∃ p', pool_exec_all ops p = (fst (model_exec_all ops m), p') ∧ pool_rep u p' (snd (model_exec_all ops m)).
Proof.
  induction ops as [|op ops IH]; intros p m Hrep Hops Hn; [by exists p|].
  rewrite zlen_cons in Hn. pose proof (zlen_nonneg ops).
  destruct (pool_exec_refines u op p m Hrep (fun h => proj1 (Hops h)) ltac:(lia)) as (p1 & Hr & Hrep1). cbn [pool_exec_all model_exec_all]. rewrite Hr.
  assert (u → ops_allowed ops (snd (model_exec op m))) as Hops' by (intros Hu; apply (Hops Hu)).
  pose proof (model_exec_next op m) as Hnx. destruct (model_exec op m) as [r m1]. cbn [fst snd] in *.
  destruct (IH p1 m1 Hrep1 Hops' ltac:(lia)) as (p2 & Hrs & Hrep2). rewrite Hrs.
  destruct (model_exec_all ops m1) as [rs m2]. by exists p2.
Qed.
Lemma model_max ops : ∀ m, pm_max (snd (model_exec_all ops m)) = pm_max m.
Proof.
  induction ops as [|op ops IH]; intros m; [done|]. cbn [model_exec_all].
  assert (pm_max (snd (model_exec op m)) = pm_max m) as Hone.
  { destruct op; cbn [model_exec]; unfold m_register, m_unregister, m_record; try done.
    - by destruct (_ <=? _).
    - by destruct (pm_live m !! id).
    - destruct (pm_live m !! id) as [rec|]; [|done]. by destruct (record_update d options now rec). }
  destruct (model_exec op m) as [r m1]. specialize (IH m1). destruct (model_exec_all ops m1). cbn [snd] in *. congruence.
Qed.
Lemma model_outcomes ops : ∀ m i op, ops !! i = Some op →
  (∃ reply, (model_exec_all ops m).1 !! i = Some (Ok reply)) ∨
  (model_exec_all ops m).1 !! i = Some Panic ∧ ∃ id d options now, op = OpRecord id d options now.
Proof.
  induction ops as [|op ops IH]; intros m i op' Hi; [done|]. cbn [model_exec_all].
  assert ((∃ reply, (model_exec op m).1 = Ok reply) ∨ (model_exec op m).1 = Panic ∧ ∃ id d options now, op = OpRecord id d options now) as Hone.
  { destruct op; cbn [model_exec].
    - left. destruct (m_register _ _ _ _ m). by eexists.
    - left. destruct (m_unregister _ _ _ m). by eexists.
    - destruct (m_record (E:=Empty_set) id d options now m) as [[x|[]|] m']; [left; by eexists|right; eauto 10].
    - left. by eexists. }
  destruct (model_exec op m) as [r m1]. specialize (IH m1). destruct (model_exec_all ops m1) as [rs m2]. cbn [fst] in *.
  destruct i as [|i]; [injection Hi as <-|by apply IH]. destruct Hone as [[reply ->]|[-> Hop]]; [left; by eexists|by right].
Qed.
End traces.

(** Admission without the limit: what one call adds to the counters. *)
Lemma admit_counts {E} p addr options utc now :
  router_ok (cp_router p) → Z.of_nat (length (cp_shards p)) = sr_shard_count (cp_router p) →
  ∃ p', admit_connection (E:=E) addr options utc now p = (Ok (cp_next_id p), p') ∧ cp_router p' = cp_router p ∧
    length (cp_shards p') = length (cp_shards p) ∧ cp_active_connections p' = atomic_add (cp_active_connections p) 1 ∧
    cp_max_connections p' = cp_max_connections p ∧ cp_next_id p' = atomic_add (cp_next_id p) 1.
Proof.
  intros Hr Hl. destruct (router_index _ (cp_next_id p) Hr) as [_ Hi].
  destruct (lookup_lt_is_Some_2 (cp_shards p) (Z.to_nat (index_for_id (cp_router p) (cp_next_id p)))) as [s Hs]; [lia|].
  unfold admit_connection, st_bind, on_shard. cbn [cp_with_counts cp_router cp_shards]. rewrite Hs.
  eexists. split; [reflexivity|]. unfold emit_lifecycle_event.
  destruct (_ && _); cbn [send_event cp_with_counts cp_with_shards cp_router cp_shards cp_active_connections cp_max_connections cp_next_id];
    by rewrite length_insert.
Qed.

(* ------------------------------------------------------------------ *)
(** * Properties *)

Section properties.
Context `{BuildProfile} `{AddrHash} `{ConnectionOrder}.

(** C26: the sharded connection pool is one table.  Whatever sequence of registrations, removals and
    requests a new pool receives, every outcome and every event is the one a single table of
    connections gives, and afterwards every query agrees with that table: a connection by
    number, the list of all, the idle ones, and the number of active connections, which is at most
    the limit.  Only recording a request can panic, where a counter of the connection overflows in a debug build.  The query by
    address returns a live connection of that address, or nothing; that nothing means that there is
    none is shown for the sequences in which a peer registers only while none of its address is live (two
    live connections of one address in a shard share an entry of the address index, which the
    removal of either one deletes). *)
Theorem connection_pool_refines_table (max_connections : Z) (ops : list pool_op) :
  0 ≤ max_connections < u64_modulus - 1 → zlen ops < u64_max →
  ∃ p0 p, ConnectionPool_new (E:=Empty_set) max_connections = Ok p0 ∧
    let '(rs, m) := model_exec_all ops (model_new max_connections) in
    pool_exec_all ops p0 = (rs, p) ∧
    (∀ i op, ops !! i = Some op → (∃ reply, rs !! i = Some (Ok reply)) ∨ rs !! i = Some Panic ∧ ∃ id d options now, op = OpRecord id d options now) ∧
    cp_events p = pm_events m ∧
    cp_active_connections p = Z.of_nat (size (pm_live m)) ∧ cp_active_connections p ≤ max_connections ∧
    (∀ id, pool_get (E:=Empty_set) p id = Ok (snapshot <$> pm_live m !! id)) ∧
    (∀ addr, ∃ o, get_by_addr (E:=Empty_set) p addr = Ok o ∧
       match o with
       | Some info => ∃ id rec, pm_live m !! id = Some rec ∧ cr_peer_addr rec = addr ∧ info = snapshot rec
       | None => ops_allowed ops (model_new max_connections) → addr_free m addr
       end) ∧
    list_all p ≡ₚ (fun e => (e.1, snapshot e.2)) <$> map_to_list (pm_live m) ∧
    ∀ threshold now, get_idle_connections p threshold now ≡ₚ
      (filter (fun e => threshold < idle_duration e.2 now) (map_to_list (pm_live m))).*1.
Proof.
  intros Hmax Hlen. destruct (pool_new_rep max_connections Hmax) as (p0 & Hp0 & Hrep).
  destruct (pool_exec_all_refines (ops_allowed ops (model_new max_connections)) ops p0 (model_new max_connections) (Hrep _) ltac:(done)
    ltac:(cbn [model_new pm_next]; lia)) as (p & Hrun & Hrep').
  exists p0, p. split; [done|].
  pose proof (model_outcomes ops (model_new max_connections)) as Hout. pose proof (model_max ops (model_new max_connections)) as Hkeep.
  destruct (model_exec_all ops (model_new max_connections)) as [rs m]. cbn [fst snd] in *.
  split; [done|]. split; [exact Hout|]. split; [apply (proj2 (rep_events _ _ _ Hrep'))|]. destruct (rep_active _ _ _ Hrep') as [Ha1 Ha2].
  split; [done|]. split; [rewrite Ha1; rewrite Hkeep in Ha2; cbn [model_new pm_max] in Ha2; lia|].
  split; [intros; by eapply get_refines|]. split; [intros; by apply by_addr_refines|].
  split; [by eapply list_all_refines|]. intros. by eapply idle_refines.
Qed.

(** the connection limit is tested before the table changes, in a step of its own: when two
    clients pass the test while one place is left, both are admitted and the pool holds one
    connection more than the limit. *)
Theorem connection_limit_race (p : ConnectionPool) (m : pool_model) (a1 a2 : SocketAddr) (options : LifecycleEventOptions) (utc now : Z) :
  pool_rep False p m → Z.of_nat (size (pm_live m)) = pm_max m - 1 →
  at_limit p = false ∧
  ∃ id1 id2 p1 p2, admit_connection (E:=Empty_set) a1 options utc now p = (Ok id1, p1) ∧
    admit_connection (E:=Empty_set) a2 options utc now p1 = (Ok id2, p2) ∧
    cp_active_connections p2 = cp_max_connections p2 + 1.
Proof.
  intros Hrep Hsize. destruct (rep_active _ _ _ Hrep) as [Ha _], (rep_max _ _ _ Hrep) as [Hm Hlt]. unfold u64_modulus in *.
  split; [unfold at_limit; rewrite Ha, Hm; apply Z.leb_gt; lia|].
  destruct (admit_counts (E:=Empty_set) p a1 options utc now (rep_router _ _ _ Hrep) (rep_length _ _ _ Hrep))
    as (p1 & Hadm1 & Hr1 & Hl1 & Ha1 & Hm1 & _).
  destruct (admit_counts (E:=Empty_set) p1 a2 options utc now) as (p2 & Hadm2 & _ & _ & Ha2 & Hm2 & _).
  { rewrite Hr1. apply (rep_router _ _ _ Hrep). }
  { rewrite Hr1, Hl1. apply (rep_length _ _ _ Hrep). }
  exists (cp_next_id p), (cp_next_id p1), p1, p2. split; [done|]. split; [done|].
  rewrite Ha2, Ha1, Hm2, Hm1, Ha, Hm, !atomic_add_exact; unfold u64_modulus; try lia.
  rewrite atomic_add_exact; unfold u64_modulus; lia.
Qed.

(** the compact set of units is the plain list: a connection that records successful requests in
    its bitmap shows the counters and the units that the list-based record of the public
    interface would show, in the order of first use. *)
Theorem unit_bitmap_equals_list (r : ConnectionRecord) (unit_id bytes_in bytes_out : Z) (options : RequestRecordOptions) (now utc : Z) :
  units_ok (cr_accessed_units r) → is_u8 unit_id →
  match record_success (E:=Empty_set) unit_id bytes_in bytes_out options now r with
  | (Ok _, r') =>
      units_ok (cr_accessed_units r') ∧
      ∃ i, info_record_success_with_options (E:=Empty_set) unit_id bytes_in bytes_out options utc (snapshot r) = Ok i ∧
        ci_accessed_unit_ids (snapshot r') = ci_accessed_unit_ids i ∧
        ci_requests_processed (snapshot r') = ci_requests_processed i ∧ ci_requests_success (snapshot r') = ci_requests_success i ∧
        ci_requests_failed (snapshot r') = ci_requests_failed i ∧
        ci_bytes_received (snapshot r') = ci_bytes_received i ∧ ci_bytes_sent (snapshot r') = ci_bytes_sent i
  | (Err _, _) => False
  | (Panic, _) => info_record_success_with_options (E:=Empty_set) unit_id bytes_in bytes_out options utc (snapshot r) = Panic
  end.
Proof.
  intros Hu Hid. unfold record_success, info_record_success_with_options, add_processed, add_success, add_received, add_sent, add_field, st_bind.
  cbn [snapshot ci_requests_processed ci_requests_success ci_bytes_received ci_bytes_sent].
  destruct (add_u64 (cr_requests_processed r) 1) as [n1|e|]; [|by destruct e|done]. cbn [obind cr_counters cr_requests_success].
  destruct (add_u64 (cr_requests_success r) 1) as [n2|e|]; [|by destruct e|done]. cbn [obind cr_counters cr_bytes_received].
  destruct (add_u64 (cr_bytes_received r) bytes_in) as [n3|e|]; [|by destruct e|done]. cbn [obind cr_counters cr_bytes_sent].
  destruct (add_u64 (cr_bytes_sent r) bytes_out) as [n4|e|]; [|by destruct e|done]. cbn [obind].
  set (r1 := activate options now _).
  assert (cr_accessed_units r1 = cr_accessed_units r ∧ cr_requests_processed r1 = n1 ∧ cr_requests_success r1 = n2 ∧
    cr_requests_failed r1 = cr_requests_failed r ∧ cr_bytes_received r1 = n3 ∧ cr_bytes_sent r1 = n4) as (Hk & G1 & G2 & G3 & G4 & G5).
  { subst r1. unfold activate. by destruct (update_last_activity options). }
  destruct (track_unit_access options).
  - destruct (unit_record_spec (E:=Empty_set) unit_id (cr_accessed_units r1) Hid ltac:(by rewrite Hk)) as (s' & Hr & Hok & Ho). rewrite Hr.
    split; [done|]. eexists. split; [reflexivity|].
    cbn [snapshot cr_activity cr_accessed_units ci_accessed_unit_ids ci_update ci_requests_processed ci_requests_success ci_requests_failed
         ci_bytes_received ci_bytes_sent cr_requests_processed cr_requests_success cr_requests_failed cr_bytes_received cr_bytes_sent andb].
    rewrite G1, G2, G3, G4, G5. split; [|done]. rewrite Ho, Hk. unfold push_new. by destruct (existsb _ _).
  - split; [by rewrite Hk|]. eexists. split; [reflexivity|].
    cbn [snapshot ci_accessed_unit_ids ci_update ci_requests_processed ci_requests_success ci_requests_failed ci_bytes_received ci_bytes_sent andb].
    by rewrite Hk, G1, G2, G3, G4, G5.
Qed.
End properties.

(* ------------------------------------------------------------------ *)
(** * Witnesses *)

Section witnesses.
#[local] Instance conn_profile : BuildProfile := debug_build.
#[local] Instance conn_hash : AddrHash.
Proof. refine {| addr_hash := fun a => Z.abs (snd a) mod u64_modulus |}. intros a. apply Z.mod_pos_bound. done. Defined.
#[local] Instance conn_order : ConnectionOrder := {| conn_iter := map_to_list; conn_iter_perm _ := Permutation_refl _ |}.

Definition sample_peer (port : Z) : SocketAddr := ([127; 0; 0; 1], port).
Definition sample_data : request_data :=
  {| rd_unit_id := 7; rd_function_code := 3; rd_success := true; rd_duration_us := 40; rd_bytes_in := 12; rd_bytes_out := 13 |}.
Definition sample_pool_ops : list pool_op :=
  [OpSubscribe; OpRegister (sample_peer 5000) LifecycleEventOptions_enabled 0 0;
   OpRecord 1 sample_data RequestRecordOptions_default 1000;
   OpRegister (sample_peer 5001) LifecycleEventOptions_enabled 2000 2000;
   OpUnregister 1 LifecycleEventOptions_enabled 3000; OpRegister (sample_peer 5000) LifecycleEventOptions_enabled 4000 4000].

Lemma connection_pool_refines_table_witness :
  ∃ p0 p, ConnectionPool_new (E:=Empty_set) 2 = Ok p0 ∧
    let '(rs, m) := model_exec_all sample_pool_ops (model_new 2) in
    pool_exec_all sample_pool_ops p0 = (rs, p) ∧ cp_active_connections p ≤ 2.
Proof.
  destruct (connection_pool_refines_table 2 sample_pool_ops ltac:(vm_compute; split; congruence) ltac:(closed))
    as (p0 & p & Hp & Hrest).
  exists p0, p. split; [exact Hp|]. destruct (model_exec_all sample_pool_ops (model_new 2)) as [rs m].
  destruct Hrest as (H1 & _ & _ & _ & H2 & _). split; [exact H1|exact H2].
Defined.
(** The quirk of the address index: two live connections of one address in a shard (their numbers differ by the
    number of shards), and one of them removed. *)
Definition shared_address_ops : list pool_op :=
  OpRegister (sample_peer 1) LifecycleEventOptions_disabled 0 0 :: ((fun k => OpRegister (sample_peer (2 + Z.of_nat k)) LifecycleEventOptions_disabled 0 0) <$> seq 0 3)
  ++ [OpRegister (sample_peer 1) LifecycleEventOptions_disabled 0 0; OpUnregister 1 LifecycleEventOptions_disabled 0].
Example shared_address_lost :
  match ConnectionPool_new (E:=Empty_set) 5 with
  | Ok p0 => let p := (pool_exec_all shared_address_ops p0).2 in
             get_by_addr (E:=Empty_set) p (sample_peer 1) = Ok None ∧ (cr_peer_addr <$> pm_live (model_exec_all shared_address_ops (model_new 5)).2 !! 5) = Some (sample_peer 1)
  | _ => False
  end.
Proof. vm_compute. split; reflexivity. Qed.

Lemma connection_limit_race_witness :
  ∃ p, ConnectionPool_new (E:=Empty_set) 1 = Ok p ∧ at_limit p = false ∧
    ∃ id1 id2 p1 p2, admit_connection (E:=Empty_set) (sample_peer 1) LifecycleEventOptions_enabled 0 0 p = (Ok id1, p1) ∧
      admit_connection (E:=Empty_set) (sample_peer 2) LifecycleEventOptions_enabled 0 0 p1 = (Ok id2, p2) ∧
      cp_active_connections p2 = cp_max_connections p2 + 1.
Proof.
  destruct (pool_new_rep 1 ltac:(vm_compute; split; congruence)) as (p & Hp & Hrep). exists p. split; [exact Hp|].
  exact (connection_limit_race p (model_new 1) (sample_peer 1) (sample_peer 2) LifecycleEventOptions_enabled 0 0 (Hrep False) eq_refl).
Defined.

Lemma unit_bitmap_equals_list_witness :
  ∃ i, info_record_success_with_options (E:=Empty_set) 7 12 13 RequestRecordOptions_default 5
         (snapshot (ConnectionRecord_new (sample_peer 1) 0 0)) = Ok i ∧
    ci_accessed_unit_ids (snapshot (snd (record_success (E:=Empty_set) 7 12 13 RequestRecordOptions_default 5 (ConnectionRecord_new (sample_peer 1) 0 0)))) =
    ci_accessed_unit_ids i.
Proof.
  pose proof (unit_bitmap_equals_list (ConnectionRecord_new (sample_peer 1) 0 0) 7 12 13 RequestRecordOptions_default 5 5 units_default_ok
    ltac:(closed)) as Hb.
  destruct (record_success 7 12 13 RequestRecordOptions_default 5 (ConnectionRecord_new (sample_peer 1) 0 0)) as [[x|e|] r'] eqn:E.
  - destruct Hb as (_ & i & Hi & Hc & _). exists i. split; [exact Hi|exact Hc].
  - destruct e.
  - vm_compute in E. discriminate.
Defined.
End witnesses.
