(* ===== verification/ModbusRtuCodec.v ===== *)
(** The second RTU codec ([rtu/codec.rs]): character timing, [RtuCodec], which finds the end of a
    frame from its function code or from a silent gap on the line, and [StreamingRtuCodec],
    which takes one byte at a time.

    Frames and their check sums are those of [ModbusRtu].  Every reading of the clock is an
    argument, in nanoseconds; a [BytesMut] is the list of its bytes. *)

From S2P Require Import Prelude Float ModbusPdu ModbusRtu.
From Stdlib Require Import Floats.SpecFloat.

(* ------------------------------------------------------------------ *)
(** * Timing *)

(** Durations in nanoseconds. *)
Definition from_micros (us : Z) : Z := us * 1000.
(** [Duration::as_secs_f32] *)
Definition as_secs_f32 (d : Z) : spec_float :=
  SFadd 24 128 (f32_of_Z (d / 1000000000)) (f32_div (f32_of_Z (d mod 1000000000)) (f32_of_Z 1000000000)).
(** [Duration::from_secs_f32]: to the nearest nanosecond, ties to even; a negative, infinite or
    undefined number of seconds and one of 2^64 or more panics. *)
Definition round_half_even (num den : Z) : Z :=
  let q := num / den in
  let r := num mod den in
  if (2 * r <? den) || ((2 * r =? den) && Z.even q) then q else q + 1.
Definition from_secs_f32 {E} (f : spec_float) : outcome E Z :=
  match f with
  | S754_zero _ => Ok 0
  | S754_finite false m e =>
      let nanos := if 0 <=? e then Zpos m * 2 ^ e * 1000000000 else round_half_even (Zpos m * 1000000000) (2 ^ (- e)) in
      if nanos <? 18446744073709551616 * 1000000000 then Ok nanos else Panic
  | _ => Panic
  end.
Definition mul_f32 {E} (d : Z) (factor : spec_float) : outcome E Z := from_secs_f32 (f32_mul factor (as_secs_f32 d)).

Record RtuTiming : Set := { char_time : Z; inter_char_timeout : Z; inter_frame_timeout : Z }.

(** [bits_per_char as u64 * 1_000_000 / baud_rate as u64]: no overflow, a division by zero panics. *)
Definition from_baud_rate_with_bits {E} (baud_rate bits_per_char : Z) : outcome E RtuTiming :=
  if baud_rate =? 0 then Panic
  else
    let char_time := from_micros (bits_per_char * 1000000 / baud_rate) in
    let? gaps :=
      (if 19200 <? baud_rate then Ok (from_micros 750, from_micros 1750)
       else
         let? inter_char := mul_f32 char_time (f32_literal 3 2) in
         let? inter_frame := mul_f32 char_time (f32_literal 7 2) in
         Ok (inter_char, inter_frame)) in
    Ok {| char_time := char_time; inter_char_timeout := fst gaps; inter_frame_timeout := snd gaps |}.
Definition from_baud_rate {E} (baud_rate : Z) : outcome E RtuTiming := from_baud_rate_with_bits baud_rate 11.
(** [char_time * bytes as u32]: panics when the seconds exceed 64 bits. *)
Definition transmission_time {E} (t : RtuTiming) (bytes : Z) : outcome E Z :=
  let d := char_time t * (bytes mod 4294967296) in
  if d / 1000000000 <? 18446744073709551616 then Ok d else Panic.

(** [Instant::elapsed] and [duration_since] do not go below zero. *)
Definition elapsed (since now : Z) : Z := Z.max 0 (now - since).

(* ------------------------------------------------------------------ *)
(** * The codec *)

Inductive DecodeState : Type :=
| Idle
| Receiving (last_byte_time : Z) (expected_length : option Z)
| Complete.

Record RtuCodec : Type := {
  cd_timing : RtuTiming;
  cd_state : DecodeState;
  cd_buffer : list Z;
  cd_strict_timing : bool;
  cd_unit_id_filter : option (list Z);
}.

Definition RtuCodec_with_timing (t : RtuTiming) : RtuCodec :=
  {| cd_timing := t; cd_state := Idle; cd_buffer := []; cd_strict_timing := false; cd_unit_id_filter := None |}.
Definition RtuCodec_strict_timing (c : RtuCodec) (b : bool) : RtuCodec :=
  {| cd_timing := cd_timing c; cd_state := cd_state c; cd_buffer := cd_buffer c; cd_strict_timing := b;
     cd_unit_id_filter := cd_unit_id_filter c |}.
Definition RtuCodec_unit_id_filter (c : RtuCodec) (ids : list Z) : RtuCodec :=
  {| cd_timing := cd_timing c; cd_state := cd_state c; cd_buffer := cd_buffer c;
     cd_strict_timing := cd_strict_timing c; cd_unit_id_filter := Some ids |}.
Definition cd_update (c : RtuCodec) (s : DecodeState) (buffer : list Z) : RtuCodec :=
  {| cd_timing := cd_timing c; cd_state := s; cd_buffer := buffer; cd_strict_timing := cd_strict_timing c;
     cd_unit_id_filter := cd_unit_id_filter c |}.
Definition RtuCodec_reset (c : RtuCodec) : RtuCodec := cd_update c Idle [].

Definition RtuCodec_estimate_frame_length {E} (buffer : list Z) : outcome E (option Z) :=
  if zlen buffer <? 2 then Ok None
  else
    let? function_code := index buffer 1 in
    if negb (Z.land function_code 0x80 =? 0) then Ok (Some 5)
    else
      match function_code with
      | 0x01 | 0x02 | 0x03 | 0x04 | 0x05 | 0x06 => Ok (Some 8)
      | 0x16 => Ok (Some 10)
      | 0x0F | 0x10 =>
          if 7 <=? zlen buffer then let? byte_count := index buffer 6 in Ok (Some (7 + byte_count + 2)) else Ok None
      | 0x07 => Ok (Some 4)
      | 0x08 => Ok (Some 8)
      | 0x0B | 0x0C => Ok (Some 4)
      | 0x11 =>
          if 3 <=? zlen buffer then let? byte_count := index buffer 2 in Ok (Some (3 + byte_count + 2)) else Ok None
      | 0x17 =>
          if 11 <=? zlen buffer then let? write_byte_count := index buffer 10 in Ok (Some (11 + write_byte_count + 2))
          else Ok None
      | _ => Ok None
      end.

(** [filter.contains(&frame.unit_id) || frame.unit_id == 0]: a broadcast passes every filter. *)
Definition filter_accepts (filter : option (list Z)) (unit_id : Z) : bool :=
  match filter with
  | Some ids => existsb (Z.eqb unit_id) ids || (unit_id =? 0)
  | None => true
  end.

Definition RtuCodec_try_parse_frame : stM RtuCodec ModbusError (option RtuFrame) := fun c =>
  let buffer := cd_buffer c in
  if zlen buffer <? RTU_MIN_FRAME_SIZE then (Ok None, c)
  else
    match RtuCodec_estimate_frame_length buffer with
    | Panic => (Panic, c)
    | Err e => (Err e, c)
    | Ok (Some len) =>
        if len <=? zlen buffer then
          let c := cd_update c Idle (drop (Z.to_nat len) buffer) in
          match RtuFrame_decode (take (Z.to_nat len) buffer) with
          | Ok frame => (Ok (if filter_accepts (cd_unit_id_filter c) (rtu_unit_id frame) then Some frame else None), c)
          | Err _ => (Err InvalidData, c)
          | Panic => (Panic, c)
          end
        else (Ok None, c)
    | Ok None =>
        if RTU_MAX_FRAME_SIZE <=? zlen buffer then (Err InvalidData, RtuCodec_reset c) else (Ok None, c)
    end.

Definition check_frame_timeout (c : RtuCodec) (now : Z) : bool :=
  if negb (cd_strict_timing c) then false
  else
    match cd_state c with
    | Receiving last_byte_time _ => inter_frame_timeout (cd_timing c) <=? elapsed last_byte_time now
    | _ => false
    end.

(** [Decoder::decode] on the bytes read from the line: the clock is read once for the time-out
    and once when bytes are taken.  The second component of the state is [src]. *)
Definition RtuCodec_decode (t_check t_receive : Z) (src : list Z) (c : RtuCodec)
  : outcome ModbusError (option RtuFrame) * RtuCodec * list Z :=
  let receive (c : RtuCodec) :=
    match src with
    | [] => (Ok None, c, src)
    | _ =>
        let buffer := cd_buffer c ++ src in
        match RtuCodec_estimate_frame_length buffer with
        | Ok expected =>
            let '(r, c) := RtuCodec_try_parse_frame (cd_update c (Receiving t_receive expected) buffer) in (r, c, [])
        | Err e => (Err e, cd_update c (cd_state c) buffer, [])
        | Panic => (Panic, cd_update c (cd_state c) buffer, [])
        end
    end in
  if check_frame_timeout c t_check && negb (zlen (cd_buffer c) =? 0) then
    match (if RTU_MIN_FRAME_SIZE <=? zlen (cd_buffer c) then verify_crc (cd_buffer c) else Ok false) with
    | Ok true => let '(r, c) := RtuCodec_try_parse_frame c in (r, c, src)
    | Ok false => receive (RtuCodec_reset c)
    | Err e => (Err e, c, src)
    | Panic => (Panic, c, src)
    end
  else receive c.

Definition RtuCodec_encode (item : RtuFrame) (dst : list Z) : outcome ModbusError (list Z) :=
  if zlen (rtu_pdu item) =? 0 then Err InvalidData
  else if RTU_MAX_PDU_SIZE <? zlen (rtu_pdu item) then Err InvalidData
  else Ok (dst ++ RtuFrame_encode item).

(* ------------------------------------------------------------------ *)
(** * One byte at a time *)

Record StreamingRtuCodec : Type := {
  st_inner : RtuCodec;
  st_partial_frame : list Z;
  st_last_byte_time : option Z;
}.

Definition StreamingRtuCodec_new (t : RtuTiming) : StreamingRtuCodec :=
  {| st_inner := RtuCodec_strict_timing (RtuCodec_with_timing t) true; st_partial_frame := []; st_last_byte_time := None |}.
Definition st_update (s : StreamingRtuCodec) (partial : list Z) (last : option Z) : StreamingRtuCodec :=
  {| st_inner := st_inner s; st_partial_frame := partial; st_last_byte_time := last |}.

(** [RtuFrame::decode(..).map(Some).map_err(..)] *)
Definition emitted (data : list Z) : outcome ModbusError (option RtuFrame) :=
  map_err (fun _ => InvalidData) (omap_ok Some (RtuFrame_decode data)).

Definition gap_elapsed (s : StreamingRtuCodec) (now : Z) : bool :=
  match st_last_byte_time s with
  | Some last => inter_frame_timeout (cd_timing (st_inner s)) <=? elapsed last now
  | None => false
  end.
Definition whole_frame {E} (data : list Z) : outcome E bool :=
  if RTU_MIN_FRAME_SIZE <=? zlen data then verify_crc data else Ok false.

(** The second half of [process_byte]: take the byte, look for a whole frame, bound the buffer.
    The estimate is the inner codec's, on the inner codec's buffer. *)
Definition take_byte (now byte : Z) : stM StreamingRtuCodec ModbusError (option RtuFrame) := fun s =>
  let s := st_update s (st_partial_frame s ++ [byte]) (Some now) in
  let partial := st_partial_frame s in
  let overflow (s : StreamingRtuCodec) :=
    if RTU_MAX_FRAME_SIZE <=? zlen partial then (Err InvalidData, st_update s [] (st_last_byte_time s)) else (Ok None, s) in
  if RTU_MIN_FRAME_SIZE <=? zlen partial then
    match RtuCodec_estimate_frame_length (cd_buffer (st_inner s)) with
    | Ok (Some expected_len) =>
        match (if expected_len <=? zlen partial then verify_crc (take (Z.to_nat expected_len) partial) else Ok false) with
        | Ok true => (emitted (take (Z.to_nat expected_len) partial), st_update s (drop (Z.to_nat expected_len) partial) (Some now))
        | Ok false => overflow s
        | Err e => (Err e, s)
        | Panic => (Panic, s)
        end
    | Ok None => overflow s
    | Err e => (Err e, s)
    | Panic => (Panic, s)
    end
  else overflow s.

Definition process_byte (now byte : Z) : stM StreamingRtuCodec ModbusError (option RtuFrame) := fun s =>
  if gap_elapsed s now && negb (zlen (st_partial_frame s) =? 0) then
    match whole_frame (st_partial_frame s) with
    | Ok true => (emitted (st_partial_frame s), st_update s [byte] (Some now))
    | Ok false => take_byte now byte (st_update s [] (st_last_byte_time s))
    | Err e => (Err e, s)
    | Panic => (Panic, s)
    end
  else take_byte now byte s.

Definition check_timeout (now : Z) : stM StreamingRtuCodec ModbusError (option RtuFrame) := fun s =>
  if gap_elapsed s now then
    match whole_frame (st_partial_frame s) with
    | Ok true => (emitted (st_partial_frame s), st_update s [] None)
    | Ok false => (Ok None, if zlen (st_partial_frame s) =? 0 then s else st_update s [] None)
    | Err e => (Err e, s)
    | Panic => (Panic, s)
    end
  else (Ok None, s).

Definition StreamingRtuCodec_reset (s : StreamingRtuCodec) : StreamingRtuCodec :=
  {| st_inner := RtuCodec_reset (st_inner s); st_partial_frame := []; st_last_byte_time := None |}.

Fixpoint process_bytes (input : list (Z * Z)) (s : StreamingRtuCodec)
  : list (outcome ModbusError (option RtuFrame)) * StreamingRtuCodec :=
  match input with
  | [] => ([], s)
  | (now, byte) :: input => let '(r, s) := process_byte now byte s in let '(rs, s) := process_bytes input s in (r :: rs, s)
  end.

(* ------------------------------------------------------------------ *)
(** * The length estimate on requests *)

(** How many bytes of a request's frame the codec must see to know its length. *)
Definition header_length (r : SemanticRequest) : Z :=
  match r with
  | ReqWriteMultipleCoils _ _ | ReqWriteMultipleRegisters _ _ => 7
  | ReqReadWriteMultipleRegisters _ _ _ _ => 11
  | _ => 2
  end.
Definition request_frame_length (r : SemanticRequest) : Z := 1 + zlen (request_wire r) + 2.

Lemma index_prefix {E A} (l p t : list A) i x : l = p ++ t → (i < length p)%nat → l !! i = Some x → index (E:=E) p i = Ok x.
Proof. intros -> Hi Hx. rewrite lookup_app_l in Hx by done. unfold index. by rewrite Hx. Qed.

(** On any prefix of a frame that carries a well-formed request, and on anything that starts
    with such a frame, the estimate is the frame's length, once the header is there. *)
Lemma codec_estimate_request {E} unit_id r tail p t :
  request_wf r → is_custom r = false → unit_id :: request_wire r ++ tail = p ++ t →
  RtuCodec_estimate_frame_length (E:=E) p =
    Ok (if header_length r <=? zlen p then Some (request_frame_length r) else None).
Proof.
  intros Hwf Hc Heq. unfold RtuCodec_estimate_frame_length.
  assert (2 ≤ header_length r) by (destruct r; simpl; lia).
  destruct (Z.ltb_spec (zlen p) 2) as [Hs|Hl].
  { by rewrite (proj2 (Z.leb_gt _ _)) by lia. }
  assert (index (E:=E) p 1 = Ok (SemanticRequest_function_code r)) as ->.
  { apply (index_prefix _ p t 1 _ Heq); [unfold zlen in Hl; lia|]. by destruct r. }
  assert (∀ (n : nat) h x k, header_length r = h → h = Z.of_nat n + 1 →
    (unit_id :: request_wire r ++ tail) !! n = Some x → k + x + 2 = request_frame_length r →
    (if h <=? zlen p then let? v := index (E:=E) p n in Ok (Some (k + v + 2)) else Ok None) =
    Ok (if header_length r <=? zlen p then Some (request_frame_length r) else None)) as Hvar.
  { intros n h x k Hh Hn Hx Hk. rewrite Hh. destruct (Z.leb_spec h (zlen p)) as [Hle|]; [|done].
    rewrite (index_prefix _ p t n x Heq); [|unfold zlen in Hle; lia|done]. cbn [obind]. by rewrite Hk. }
  destruct r as [a q|a q|a q|a q|a v|a v|a vs|a vs|a am om|ra rq wa vs|]; try done.
  1-6,9: cbn [obind]; cbn; rewrite (proj2 (Z.leb_le _ _)) by lia; do 2 f_equal; unfold request_frame_length, request_wire; try (match goal with b : bool |- _ => destruct b end); len_lia.
  - cbn [obind]. cbn [SemanticRequest_function_code]. destruct (packed_coils vs) as (d & E1 & Hd & _).
    apply (Hvar 6%nat 7 (div_ceil (zlen vs) 8) 7); [done|lia|done|].
    unfold request_frame_length, request_wire. rewrite E1. len_lia.
  - cbn [obind]. apply (Hvar 6%nat 7 (2 * zlen vs) 7); [done|lia|done|].
    unfold request_frame_length, request_wire. autorewrite with lens. rewrite zlen_bytes_of_words. len_lia.
  - cbn [obind]. apply (Hvar 10%nat 11 (2 * zlen vs) 11); [done|lia|done|].
    unfold request_frame_length, request_wire. autorewrite with lens. rewrite zlen_bytes_of_words. len_lia.
Qed.

(* ------------------------------------------------------------------ *)
(** * Reassembly *)

(** A frame that carries a request. *)
Definition request_frame (unit_id : Z) (r : SemanticRequest) : RtuFrame :=
  {| rtu_unit_id := unit_id; rtu_pdu := request_wire r; rtu_crc := calculate_crc_slow (unit_id :: request_wire r) |}.
Definition request_bytes (unit_id : Z) (r : SemanticRequest) : list Z := RtuFrame_encode (request_frame unit_id r).
Definition servable (r : SemanticRequest) : Prop := request_wf r ∧ is_custom r = false.

Lemma request_frame_new {E} unit_id r : is_u8 unit_id → servable r →
  RtuFrame_new (E:=E) unit_id (request_wire r) = Ok (request_frame unit_id r).
Proof. intros Hu [Hwf Hc]. apply RtuFrame_new_ok, bytes_ok_cons. by destruct (request_wire_ok r Hwf Hc). Qed.

Lemma request_bytes_length unit_id r : zlen (request_bytes unit_id r) = request_frame_length r.
Proof. unfold request_bytes, RtuFrame_encode, request_frame_length, u16_to_le. cbn [request_frame rtu_unit_id rtu_pdu rtu_crc]. len_lia. Qed.

Lemma request_length_bounds r : servable r → 4 ≤ request_frame_length r ≤ 256 ∧ header_length r ≤ request_frame_length r.
Proof.
  intros [Hwf Hc]. destruct (request_wire_ok r Hwf Hc) as [_ Hl]. unfold request_frame_length. split; [lia|].
  destruct r; try done; simpl header_length; unfold request_wire; try len_lia;
    autorewrite with lens; try rewrite zlen_bytes_of_words; pose proof (zlen_nonneg values); try lia.
Qed.

Lemma request_bytes_decode unit_id r : is_u8 unit_id → servable r →
  RtuFrame_decode (request_bytes unit_id r) = Ok (request_frame unit_id r).
Proof.
  intros Hu [Hwf Hc]. destruct (request_wire_ok r Hwf Hc) as [Hok Hl]. apply (decode_encode unit_id (request_wire r)); [done|by apply request_frame_new|].
  unfold RtuFrame_encode, request_frame. cbn [rtu_unit_id rtu_pdu rtu_crc].
  bytes_split; try done.
Qed.

Lemma codec_estimate_bytes {E} unit_id r rest p t : servable r → request_bytes unit_id r ++ rest = p ++ t →
  RtuCodec_estimate_frame_length (E:=E) p = Ok (if header_length r <=? zlen p then Some (request_frame_length r) else None).
Proof.
  intros [Hwf Hc] Heq. apply (codec_estimate_request unit_id r (u16_to_le (rtu_crc (request_frame unit_id r)) ++ rest) p t Hwf Hc).
  rewrite <- Heq. unfold request_bytes, RtuFrame_encode. by rewrite <- !app_assoc.
Qed.

(** A part of a frame is kept; a whole frame is taken, whatever follows it. *)
Lemma parse_part unit_id r c t : servable r → request_bytes unit_id r = cd_buffer c ++ t → t ≠ [] →
  RtuCodec_try_parse_frame c = (Ok None, c).
Proof.
  intros Hr Heq Ht. unfold RtuCodec_try_parse_frame. destruct (_ <? _) eqn:Hmin; [done|].
  rewrite (codec_estimate_bytes unit_id r [] (cd_buffer c) t) by (rewrite ?app_nil_r; done).
  destruct (request_length_bounds r Hr) as [Hb Hh]. pose proof (request_bytes_length unit_id r) as Hl. rewrite Heq, zlen_app in Hl.
  assert (0 < zlen t) by (destruct t; [done|len_lia]).
  destruct (_ <=? zlen (cd_buffer c)).
  - by rewrite (proj2 (Z.leb_gt _ _)) by lia.
  - unfold RTU_MAX_FRAME_SIZE. by rewrite (proj2 (Z.leb_gt _ _)) by lia.
Qed.

Lemma parse_whole unit_id r c rest : is_u8 unit_id → servable r → cd_buffer c = request_bytes unit_id r ++ rest →
  RtuCodec_try_parse_frame c =
    (Ok (if filter_accepts (cd_unit_id_filter c) unit_id then Some (request_frame unit_id r) else None), cd_update c Idle rest).
Proof.
  intros Hu Hr Heq. destruct (request_length_bounds r Hr) as [Hb Hh]. pose proof (request_bytes_length unit_id r) as Hl.
  unfold RtuCodec_try_parse_frame, RTU_MIN_FRAME_SIZE.
  assert (request_frame_length r ≤ zlen (cd_buffer c)) by (rewrite Heq, zlen_app; pose proof (zlen_nonneg rest); lia).
  rewrite (proj2 (Z.ltb_ge _ _)) by lia.
  rewrite (codec_estimate_bytes unit_id r rest (cd_buffer c) []) by (rewrite ?app_nil_r; done).
  rewrite !(proj2 (Z.leb_le _ _)) by lia. rewrite Heq.
  replace (Z.to_nat (request_frame_length r)) with (length (request_bytes unit_id r)) by (unfold zlen in Hl; lia).
  rewrite take_app_length, drop_app_length, request_bytes_decode by done. done.
Qed.

(** A run of the decoder: what a call leaves in [src] is still there at the next call. *)
Fixpoint decode_chunks (chunks : list (Z * Z * list Z)) (unread : list Z) (c : RtuCodec)
  : list (outcome ModbusError (option RtuFrame)) * RtuCodec * list Z :=
  match chunks with
  | [] => ([], c, unread)
  | (t1, t2, bytes) :: chunks =>
      let '(r, c, unread) := RtuCodec_decode t1 t2 (unread ++ bytes) c in
      let '(rs, c, unread) := decode_chunks chunks unread c in
      (r :: rs, c, unread)
  end.

Definition lax (c : RtuCodec) : Prop := cd_strict_timing c = false.
Definition chunks_ok (chunks : list (Z * Z * list Z)) : Prop := Forall (fun ch => ch.2 ≠ []) chunks.
Definition chunk_bytes (chunks : list (Z * Z * list Z)) : list Z := concat (snd <$> chunks).

Lemma decode_lax t1 t2 src c : lax c → src ≠ [] →
  (∃ e, RtuCodec_estimate_frame_length (E:=ModbusError) (cd_buffer c ++ src) = Ok e) →
  ∃ st, RtuCodec_decode t1 t2 src c = (let '(r, c') := RtuCodec_try_parse_frame (cd_update c st (cd_buffer c ++ src)) in (r, c', [])).
Proof.
  intros Hc Hs [e He]. unfold RtuCodec_decode, check_frame_timeout. rewrite Hc. cbn [negb andb].
  destruct src as [|b src]; [done|]. rewrite He. by eexists.
Qed.

(** A frame in any number of pieces: nothing until the last piece, then the frame; what follows
    it in the last piece stays in the buffer. *)
Lemma frame_reassembled unit_id r rest : is_u8 unit_id → servable r → ∀ chunks c,
  lax c → chunks_ok chunks → cd_buffer c ++ chunk_bytes chunks = request_bytes unit_id r ++ rest →
  (∀ chunks' last, chunks = chunks' ++ [last] → zlen (cd_buffer c ++ chunk_bytes chunks') < request_frame_length r) →
  chunks ≠ [] →
  ∃ c', decode_chunks chunks [] c =
      (replicate (length chunks - 1) (Ok None) ++
         [Ok (if filter_accepts (cd_unit_id_filter c) unit_id then Some (request_frame unit_id r) else None)], c', []) ∧
    lax c' ∧ cd_buffer c' = rest ∧ cd_unit_id_filter c' = cd_unit_id_filter c ∧ cd_state c' = Idle.
Proof.
  intros Hu Hr chunks. induction chunks as [|[[t1 t2] b] chunks IH]; intros c Hc Hok Heq Hlast Hne; [done|].
  apply Forall_cons in Hok as [Hb Hok]. cbn [snd] in Hb. unfold chunk_bytes in Heq. cbn [fmap list_fmap concat snd] in Heq.
  fold (chunk_bytes chunks) in Heq. cbn [decode_chunks app].
  destruct (decode_lax t1 t2 b c Hc Hb) as [st Hd].
  { eexists. apply (codec_estimate_bytes unit_id r rest _ (chunk_bytes chunks) Hr). by rewrite <- app_assoc. }
  rewrite Hd. destruct chunks as [|ch chunks].
  - change (chunk_bytes []) with (@nil Z) in Heq. rewrite app_nil_r in Heq.
    rewrite (parse_whole unit_id r (cd_update c st (cd_buffer c ++ b)) rest Hu Hr Heq). by eexists.
  - set (c1 := cd_update c st (cd_buffer c ++ b)).
    assert (∃ t, request_bytes unit_id r = cd_buffer c1 ++ t ∧ t ≠ []) as (t & Ht & Htn).
    { assert (∃ cs last, ch :: chunks = cs ++ [last]) as (cs & last & Hcs).
      { destruct (exists_last (l:=ch :: chunks)) as (cs & last & ?); [done|]. by exists cs, last. }
      specialize (Hlast ((t1, t2, b) :: cs) last). rewrite Hcs in Hlast. specialize (Hlast eq_refl).
      unfold chunk_bytes in Hlast. cbn [fmap list_fmap concat snd] in Hlast.
      assert (zlen (cd_buffer c1) < request_frame_length r) as Hlt.
      { subst c1. cbn [cd_buffer cd_update]. rewrite !zlen_app in *. pose proof (zlen_nonneg (concat (snd <$> cs))). lia. }
      rewrite app_assoc in Heq. change (cd_buffer c ++ b) with (cd_buffer c1) in Heq.
      rewrite <- (request_bytes_length unit_id r) in Hlt. apply app_eq_inv in Heq as [(k & Hk & _)|(k & Hk & _)].
      - rewrite Hk, zlen_app in Hlt. pose proof (zlen_nonneg k). lia.
      - exists k. split; [done|]. intros ->. rewrite app_nil_r in Hk. rewrite Hk in Hlt. lia. }
    rewrite (parse_part unit_id r c1 t Hr Ht Htn).
    destruct (IH c1) as (c' & Hrun & H'); [done|done| | |done|].
    { subst c1. cbn [cd_buffer cd_update]. by rewrite <- app_assoc. }
    { intros cs last Hcs. specialize (Hlast ((t1, t2, b) :: cs) last). rewrite Hcs in Hlast. specialize (Hlast eq_refl).
      unfold chunk_bytes in Hlast |- *. cbn [fmap list_fmap concat snd] in Hlast. subst c1. cbn [cd_buffer cd_update]. by rewrite <- app_assoc. }
    exists c'. split; [|exact H']. rewrite Hrun. cbn [length Nat.sub]. by rewrite Nat.sub_0_r.
Qed.

(** A request on the line: the unit it is for, and the pieces its frame arrives in. *)
Record exchange : Type := { ex_unit : Z; ex_request : SemanticRequest; ex_chunks : list (Z * Z * list Z) }.
Definition exchange_ok (e : exchange) : Prop :=
  is_u8 (ex_unit e) ∧ servable (ex_request e) ∧ chunks_ok (ex_chunks e) ∧
  chunk_bytes (ex_chunks e) = request_bytes (ex_unit e) (ex_request e).
(** Nothing for each piece but the last, then the frame, unless the filter drops it. *)
Definition exchange_results (filter : option (list Z)) (e : exchange) : list (outcome ModbusError (option RtuFrame)) :=
  replicate (length (ex_chunks e) - 1) (Ok None) ++
  [Ok (if filter_accepts filter (ex_unit e) then Some (request_frame (ex_unit e) (ex_request e)) else None)].

Lemma decode_chunks_app cs1 cs2 : ∀ unread c,
  decode_chunks (cs1 ++ cs2) unread c =
  let '(rs1, c1, unread1) := decode_chunks cs1 unread c in
  let '(rs2, c2, unread2) := decode_chunks cs2 unread1 c1 in (rs1 ++ rs2, c2, unread2).
Proof.
  induction cs1 as [|[[t1 t2] b] cs1 IH]; intros unread c; simpl.
  - by destruct (decode_chunks cs2 unread c) as [[? ?] ?].
  - destruct (RtuCodec_decode t1 t2 (unread ++ b) c) as [[r c1] u1]. rewrite IH.
    destruct (decode_chunks cs1 u1 c1) as [[rs1 c2] u2]. by destruct (decode_chunks cs2 u2 c2) as [[? ?] ?].
Qed.

Lemma exchange_delivered e c : exchange_ok e → lax c → cd_buffer c = [] →
  ∃ c', decode_chunks (ex_chunks e) [] c = (exchange_results (cd_unit_id_filter c) e, c', []) ∧
    lax c' ∧ cd_buffer c' = [] ∧ cd_unit_id_filter c' = cd_unit_id_filter c.
Proof.
  intros (Hu & Hr & Hok & Hb) Hc He.
  destruct (frame_reassembled (ex_unit e) (ex_request e) [] Hu Hr (ex_chunks e) c Hc Hok) as (c' & Hrun & ? & ? & ? & _).
  - by rewrite He, app_nil_r.
  - intros cs last Hcs. rewrite He. cbn [app]. rewrite <- (request_bytes_length (ex_unit e)), <- Hb, Hcs.
    unfold chunk_bytes. rewrite fmap_app, concat_app, zlen_app. rewrite Hcs in Hok. apply Forall_app in Hok as [_ Hok].
    apply Forall_cons in Hok as [Hok _]. cbn [fmap list_fmap concat]. rewrite app_nil_r. destruct last as [tt b]. simpl in *. destruct b; [congruence|len_lia].
  - intros Hn. rewrite Hn in Hb. pose proof (request_bytes_length (ex_unit e) (ex_request e)) as Hl. rewrite <- Hb in Hl.
    destruct (request_length_bounds _ Hr). change (zlen (chunk_bytes [])) with 0 in Hl. lia.
  - by exists c'.
Qed.

Lemma exchanges_delivered es : ∀ c, Forall exchange_ok es → lax c → cd_buffer c = [] →
  ∃ c', decode_chunks (es ≫= ex_chunks) [] c = (es ≫= exchange_results (cd_unit_id_filter c), c', []) ∧ cd_buffer c' = [].
Proof.
  induction es as [|e es IH]; intros c Hes Hc Hb; [by exists c|]. apply Forall_cons in Hes as [He Hes].
  destruct (exchange_delivered e c He Hc Hb) as (c1 & Hrun & Hc1 & Hb1 & Hf).
  destruct (IH c1 Hes Hc1 Hb1) as (c2 & Hrun2 & Hb2). exists c2. split; [|done].
  rewrite !bind_cons, decode_chunks_app, Hrun, Hrun2, Hf. done.
Qed.

(* ------------------------------------------------------------------ *)
(** * Frames of unknown functions *)

(** The function codes whose frames the estimate does not know. *)
Definition unknown_function (fc : Z) : bool :=
  (Z.land fc 0x80 =? 0) &&
  negb (existsb (Z.eqb fc) [0x01; 0x02; 0x03; 0x04; 0x05; 0x06; 0x07; 0x08; 0x0B; 0x0C; 0x0F; 0x10; 0x11; 0x16; 0x17]).

Lemma estimate_unknown {E} u fc l : is_u8 fc → unknown_function fc = true →
  RtuCodec_estimate_frame_length (E:=E) (u :: fc :: l) = Ok None.
Proof.
  intros Hr Hf. unfold RtuCodec_estimate_frame_length. rewrite (proj2 (Z.ltb_ge _ _)) by len_lia.
  cbn [index lookup list_lookup obind].
  assert (Forall (fun fc => unknown_function fc = true →
    ∀ B, (if negb (Z.land fc 0x80 =? 0) then Ok (Some 5) else
      match fc with
      | 0x01 | 0x02 | 0x03 | 0x04 | 0x05 | 0x06 => Ok (Some 8)
      | 0x16 => Ok (Some 10)
      | 0x0F | 0x10 => B 0
      | 0x07 => Ok (Some 4)
      | 0x08 => Ok (Some 8)
      | 0x0B | 0x0C => Ok (Some 4)
      | 0x11 => B 1
      | 0x17 => B 2
      | _ => @Ok E _ None
      end) = Ok None) (zrange 0 256)) as Hall.
  { unfold zrange. apply Forall_fmap, Forall_seq. intros j Hj. do 256 (destruct j as [|j]; [by vm_compute|]). lia. }
  rewrite Forall_forall in Hall. specialize (Hall fc ltac:(apply elem_of_zrange; unfold is_u8 in Hr; lia) Hf
    (fun i => if i =? 0 then if 7 <=? zlen (u :: fc :: l) then let? b := index (u :: fc :: l) 6 in Ok (Some (7 + b + 2)) else Ok None
              else if i =? 1 then if 3 <=? zlen (u :: fc :: l) then let? b := index (u :: fc :: l) 2 in Ok (Some (3 + b + 2)) else Ok None
              else if 11 <=? zlen (u :: fc :: l) then let? b := index (u :: fc :: l) 10 in Ok (Some (11 + b + 2)) else Ok None)).
  exact Hall.
Qed.

(* ------------------------------------------------------------------ *)
(** * Bytes one at a time *)

(** Each byte follows the one before it within the silent gap. *)
Fixpoint paced (timeout last : Z) (input : list (Z * Z)) : Prop :=
  match input with
  | [] => True
  | (now, _) :: input => elapsed last now < timeout ∧ paced timeout now input
  end.
Definition last_time (last : Z) (input : list (Z * Z)) : Z := foldl (fun _ e => fst e) last input.

Lemma take_byte_quiet now byte s : cd_buffer (st_inner s) = [] →
  take_byte now byte s =
    if 255 <=? zlen (st_partial_frame s) then (Err InvalidData, st_update s [] (Some now))
    else (Ok None, st_update s (st_partial_frame s ++ [byte]) (Some now)).
Proof.
  intros Hi. unfold take_byte. cbn [st_update st_inner st_partial_frame st_last_byte_time]. rewrite Hi.
  change (RtuCodec_estimate_frame_length []) with (@Ok ModbusError (option Z) None).
  unfold RTU_MAX_FRAME_SIZE. autorewrite with lens.
  destruct (Z.leb_spec 255 (zlen (st_partial_frame s))), (Z.leb_spec 256 (zlen (st_partial_frame s) + (1 + 0))); try lia;
    by destruct (RTU_MIN_FRAME_SIZE <=? _).
Qed.

(** While bytes keep coming and the buffer does not fill up, nothing is reported. *)
Lemma process_bytes_paced input : ∀ s last,
  cd_buffer (st_inner s) = [] → st_last_byte_time s = Some last →
  paced (inter_frame_timeout (cd_timing (st_inner s))) last input → zlen (st_partial_frame s) + zlen input < 256 →
  process_bytes input s = (replicate (length input) (Ok None),
    st_update s (st_partial_frame s ++ input.*2) (Some (last_time last input))).
Proof.
  induction input as [|[now b] input IH]; intros s last Hi Hl Hp Hn.
  { simpl. rewrite app_nil_r, <- Hl. by destruct s. }
  destruct Hp as [Hg Hp]. rewrite zlen_cons in Hn. pose proof (zlen_nonneg input). cbn [process_bytes]. unfold process_byte.
  assert (gap_elapsed s now = false) as ->.
  { unfold gap_elapsed. rewrite Hl. apply Z.leb_gt. lia. }
  cbn [andb]. rewrite take_byte_quiet by done. rewrite (proj2 (Z.leb_gt _ _)) by lia.
  rewrite (IH _ now); [|done|done|done|cbn [st_update st_partial_frame]; autorewrite with lens; lia].
  cbn [st_update st_inner st_partial_frame length replicate fmap list_fmap]. by rewrite <- app_assoc.
Qed.

Lemma process_bytes_app l1 l2 : ∀ s,
  process_bytes (l1 ++ l2) s =
  let '(rs1, s1) := process_bytes l1 s in let '(rs2, s2) := process_bytes l2 s1 in (rs1 ++ rs2, s2).
Proof.
  induction l1 as [|[now b] l1 IH]; intros s; simpl; [by destruct (process_bytes l2 s)|].
  destruct (process_byte now b s) as [r s1]. rewrite IH. destruct (process_bytes l1 s1) as [rs1 s2].
  by destruct (process_bytes l2 s2).
Qed.

(** From an empty buffer the first byte is taken whatever the time. *)
Lemma process_bytes_from_empty now b input s :
  cd_buffer (st_inner s) = [] → st_partial_frame s = [] →
  paced (inter_frame_timeout (cd_timing (st_inner s))) now input → 1 + zlen input < 256 →
  process_bytes ((now, b) :: input) s = (replicate (S (length input)) (Ok None),
    st_update s (b :: input.*2) (Some (last_time now input))).
Proof.
  intros Hi He Hp Hn. cbn [process_bytes]. unfold process_byte. rewrite He. change (negb (zlen [] =? 0)) with false.
  rewrite andb_false_r, take_byte_quiet, He by done. change (255 <=? zlen []) with false. cbn iota.
  rewrite (process_bytes_paced input _ now); [|done|done|done|cbn [st_update st_partial_frame app]; rewrite zlen_cons, zlen_nil; lia].
  done.
Qed.

Lemma whole_frame_encode {E} u pdu f : 1 ≤ zlen pdu ≤ 253 → bytes_ok (u :: pdu) →
  RtuFrame_new (E:=RtuFrameError) u pdu = Ok f → whole_frame (E:=E) (RtuFrame_encode f) = Ok true ∧ emitted (RtuFrame_encode f) = Ok (Some f).
Proof.
  intros Hl Hb Hn. pose proof Hn as Hn'. rewrite RtuFrame_new_ok in Hn by done. injection Hn as <-.
  assert (is_u16 (calculate_crc_slow (u :: pdu))) as Hc by by apply crc_slow_range.
  split.
  - unfold whole_frame, RtuFrame_encode, u16_to_le, RTU_MIN_FRAME_SIZE. cbn [rtu_unit_id rtu_pdu rtu_crc].
    rewrite (proj2 (Z.leb_le _ _)) by len_lia. change ([u] ++ pdu ++ ?x) with ((u :: pdu) ++ x).
    rewrite verify_crc_split; [by rewrite u16_le_roundtrip, Z.eqb_refl|unfold zlen in Hl; simpl; lia|].
    apply bytes_ok_app. split; [done|]. by apply u16_to_le_ok.
  - unfold emitted. rewrite (decode_encode u pdu); [done|done|done|].
    unfold RtuFrame_encode. cbn [rtu_unit_id rtu_pdu rtu_crc]. apply bytes_ok_cons in Hb as [? ?]. bytes_split; done.
Qed.

(* ------------------------------------------------------------------ *)
(** * Properties *)

(** C36: the codec reassembles requests.  Without strict timing, whatever pieces the frames of a
    sequence of well-formed requests arrive in (each piece of one frame, as on a line where one
    side waits for the answer), the codec reports nothing for every piece but the last of a
    frame, then exactly that frame, or nothing when the filter drops its unit, and holds no
    bytes at the end.  This covers every built-in function, Read/Write Multiple Registers too. *)
Theorem codec_delivers_requests (es : list exchange) (c : RtuCodec) :
  Forall exchange_ok es → cd_strict_timing c = false → cd_buffer c = [] →
  ∃ c', decode_chunks (es ≫= ex_chunks) [] c = (es ≫= exchange_results (cd_unit_id_filter c), c', []) ∧ cd_buffer c' = [].
Proof. intros Hes Hc Hb. by apply exchanges_delivered. Qed.

(** a frame that arrives behind another one in the same piece is withheld: the call that
    receives both reports the first, every later call without new bytes reports nothing, and
    the second frame stays in the buffer until a byte of a third one comes. *)
Theorem pipelined_frame_withheld (c : RtuCodec) (u1 u2 : Z) (r1 r2 : SemanticRequest) (t1 t2 : Z) (polls : list (Z * Z)) :
  is_u8 u1 → is_u8 u2 → servable r1 → servable r2 → cd_strict_timing c = false → cd_buffer c = [] → cd_unit_id_filter c = None →
  ∃ c1, RtuCodec_decode t1 t2 (request_bytes u1 r1 ++ request_bytes u2 r2) c = (Ok (Some (request_frame u1 r1)), c1, []) ∧
    decode_chunks ((fun t => (t.1, t.2, [])) <$> polls) [] c1 = (replicate (length polls) (Ok None), c1, []) ∧
    ∀ t3 t4 b rest, ∃ c2, RtuCodec_decode t3 t4 (b :: rest) c1 = (Ok (Some (request_frame u2 r2)), c2, []) ∧ cd_buffer c2 = b :: rest.
Proof.
  intros Hu1 Hu2 Hr1 Hr2 Hc Hb Hf.
  assert (∀ u r, servable r → request_bytes u r ≠ []) as Hne by done.
  destruct (decode_lax t1 t2 (request_bytes u1 r1 ++ request_bytes u2 r2) c Hc) as [st Hd]; [done| |].
  { eexists. apply (codec_estimate_bytes u1 r1 (request_bytes u2 r2) _ [] Hr1). by rewrite Hb, app_nil_r. }
  rewrite Hd, Hb. cbn [app].
  rewrite (parse_whole u1 r1 (cd_update c st (request_bytes u1 r1 ++ request_bytes u2 r2)) (request_bytes u2 r2) Hu1 Hr1 eq_refl).
  set (c1 := cd_update (cd_update c st (request_bytes u1 r1 ++ request_bytes u2 r2)) Idle (request_bytes u2 r2)).
  assert (cd_unit_id_filter c1 = None) as Hf1 by done. change (cd_unit_id_filter (cd_update c st _)) with (cd_unit_id_filter c1).
  rewrite Hf1. exists c1. split; [reflexivity|]. assert (lax c1) as Hc1 by done.
  assert (∀ t3 t4, RtuCodec_decode t3 t4 [] c1 = (Ok None, c1, [])) as Hpoll.
  { intros t3 t4. unfold RtuCodec_decode, check_frame_timeout. by rewrite Hc1. }
  split.
  - induction polls as [|[t3 t4] polls IH]; [done|]. cbn [fmap list_fmap decode_chunks app fst snd]. rewrite Hpoll.
    cbn [fmap] in IH. rewrite IH. done.
  - intros t3 t4 b rest. destruct (decode_lax t3 t4 (b :: rest) c1 Hc1) as [st' Hd']; [done| |].
    { eexists. apply (codec_estimate_bytes u2 r2 (b :: rest) _ [] Hr2). by rewrite app_nil_r. }
    rewrite Hd'. rewrite (parse_whole u2 r2 (cd_update c1 st' (cd_buffer c1 ++ b :: rest)) (b :: rest) Hu2 Hr2 eq_refl).
    change (cd_unit_id_filter (cd_update c1 st' _)) with (cd_unit_id_filter c1). rewrite Hf1. by eexists.
Qed.

(** a damaged frame costs itself only: when the check value at the end of a request's frame is
    wrong, the codec reports an error, and continues with the bytes behind the frame. *)
Theorem damaged_frame_skipped (c : RtuCodec) (u : Z) (r : SemanticRequest) (lo hi : Z) (rest : list Z) (t1 t2 : Z) :
  is_u8 u → servable r → cd_strict_timing c = false → cd_buffer c = [] →
  u16_from_le lo hi ≠ calculate_crc_slow (u :: request_wire r) →
  ∃ c', RtuCodec_decode t1 t2 ((u :: request_wire r ++ [lo; hi]) ++ rest) c = (Err InvalidData, c', []) ∧ cd_buffer c' = rest.
Proof.
  intros Hu [Hwf Hcu] Hc Hb Hcrc. set (data := u :: request_wire r ++ [lo; hi]).
  destruct (request_wire_ok r Hwf Hcu) as [Hok Hl]. destruct (request_length_bounds r (conj Hwf Hcu)) as [Hlb Hh].
  assert (zlen data = request_frame_length r) as Hd by (unfold data, request_frame_length; len_lia).
  pose proof (codec_estimate_request (E:=ModbusError) u r ([lo; hi] ++ rest) (data ++ rest) [] Hwf Hcu) as He.
  rewrite app_nil_r in He. specialize (He ltac:(unfold data; cbn [app]; by rewrite <- app_assoc)).
  rewrite (proj2 (Z.leb_le _ _)) in He by (rewrite zlen_app; pose proof (zlen_nonneg rest); lia).
  destruct (decode_lax t1 t2 (data ++ rest) c Hc) as [st Hrun]; [done|rewrite Hb; by eexists|].
  rewrite Hrun, Hb. cbn [app]. unfold RtuCodec_try_parse_frame, RTU_MIN_FRAME_SIZE. cbn [cd_buffer cd_update].
  rewrite (proj2 (Z.ltb_ge _ _)), He by (rewrite zlen_app; pose proof (zlen_nonneg rest); lia).
  rewrite (proj2 (Z.leb_le _ _)) by (rewrite zlen_app; pose proof (zlen_nonneg rest); lia).
  replace (Z.to_nat (request_frame_length r)) with (length data) by (unfold zlen in Hd; lia).
  rewrite take_app_length, drop_app_length. unfold data.
  change (u :: request_wire r ++ [lo; hi]) with ((u :: request_wire r) ++ [lo; hi]).
  rewrite RtuFrame_decode_split by (lia || by apply bytes_ok_cons). apply Z.eqb_neq in Hcrc. rewrite Hcrc. by eexists.
Qed.

(** with strict timing, a whole and undamaged frame of a function the codec does not know wedges
    it: once the line has been silent for the gap, every call, whatever bytes have been read
    since, reports nothing, takes nothing and leaves the codec as it was. *)
Theorem strict_timing_wedges (c : RtuCodec) (u fc : Z) (data : list Z) (since : Z) (expected : option Z)
    (t1 t2 : Z) (src : list Z) :
  bytes_ok (u :: fc :: data) → unknown_function fc = true → zlen data < 252 →
  cd_strict_timing c = true → cd_state c = Receiving since expected →
  cd_buffer c = (u :: fc :: data) ++ u16_to_le (calculate_crc_slow (u :: fc :: data)) →
  inter_frame_timeout (cd_timing c) ≤ elapsed since t1 →
  RtuCodec_decode t1 t2 src c = (Ok None, c, src).
Proof.
  intros Hok Hf Hl Hs Hst Hb Ht. unfold RtuCodec_decode, check_frame_timeout. rewrite Hs, Hst. cbn [negb].
  rewrite (proj2 (Z.leb_le _ _) Ht). pose proof (zlen_nonneg data).
  assert (zlen (cd_buffer c) = zlen data + 4) as Hz by (rewrite Hb; unfold u16_to_le; len_lia).
  rewrite Hz. unfold RTU_MIN_FRAME_SIZE. rewrite (proj2 (Z.eqb_neq _ _)), (proj2 (Z.leb_le _ _)) by lia. cbn [negb andb].
  assert (verify_crc (E:=ModbusError) (cd_buffer c) = Ok true) as ->.
  { rewrite Hb. unfold u16_to_le. rewrite verify_crc_split; [|simpl; lia|].
    - by rewrite u16_le_roundtrip, Z.eqb_refl by by apply crc_slow_range.
    - apply bytes_ok_app. split; [done|]. apply u16_to_le_ok. }
  unfold RtuCodec_try_parse_frame, RTU_MIN_FRAME_SIZE, RTU_MAX_FRAME_SIZE. rewrite (proj2 (Z.ltb_ge _ _)) by lia.
  assert (RtuCodec_estimate_frame_length (E:=ModbusError) (cd_buffer c) = Ok None) as ->.
  { rewrite Hb. apply (estimate_unknown u fc); [|done]. apply bytes_ok_cons in Hok as [_ Hok]. by apply bytes_ok_cons in Hok as [? _]. }
  by rewrite (proj2 (Z.leb_gt _ _)) by lia.
Qed.

(** the streaming codec finds frames by silence only.  The bytes of a frame of up to 255 bytes,
    each within the gap of the one before, are taken without a report; the frame is reported
    when the gap has passed, by [check_timeout] or by the first byte of the next frame. *)
Theorem streaming_frame_by_gap (t : RtuTiming) (s : StreamingRtuCodec) (u : Z) (pdu : list Z) (f : RtuFrame)
    (times : list Z) (t0 now byte : Z) :
  cd_buffer (st_inner s) = [] → st_partial_frame s = [] → cd_timing (st_inner s) = t →
  1 ≤ zlen pdu ≤ 252 → bytes_ok (u :: pdu) → RtuFrame_new (E:=RtuFrameError) u pdu = Ok f →
  length times = length (tail (RtuFrame_encode f)) → paced (inter_frame_timeout t) t0 (zip times (tail (RtuFrame_encode f))) →
  inter_frame_timeout t ≤ elapsed (last_time t0 (zip times (tail (RtuFrame_encode f)))) now →
  ∃ s', process_bytes ((t0, u) :: zip times (tail (RtuFrame_encode f))) s = (replicate (length (RtuFrame_encode f)) (Ok None), s') ∧
    check_timeout now s' = (Ok (Some f), st_update s' [] None) ∧
    process_byte now byte s' = (Ok (Some f), st_update s' [byte] (Some now)).
Proof.
  intros Hi He Ht Hl Hok Hn Hlen Hp Hgap. subst t.
  assert (RtuFrame_encode f = u :: tail (RtuFrame_encode f)) as Hf.
  { rewrite RtuFrame_new_ok in Hn by done. by injection Hn as <-. }
  assert (zlen (RtuFrame_encode f) = zlen pdu + 3) as Hz.
  { rewrite RtuFrame_new_ok in Hn by done. injection Hn as <-. unfold RtuFrame_encode, u16_to_le. cbn [rtu_unit_id rtu_pdu rtu_crc]. len_lia. }
  set (tl := tail (RtuFrame_encode f)) in *.
  assert (zlen (zip times tl) = zlen pdu + 2) as Hzip.
  { unfold zlen in *. rewrite length_zip_with, Hlen, Nat.min_id. rewrite Hf in Hz. simpl in Hz. lia. }
  rewrite (process_bytes_from_empty t0 u (zip times tl) s Hi He Hp) by lia.
  assert ((zip times tl).*2 = tl) as Hs2 by (apply snd_zip; lia).
  destruct (whole_frame_encode (E:=ModbusError) u pdu f) as [Hw Hem]; [lia|done|done|].
  eexists. split; [|split].
  - f_equal. f_equal. rewrite Hf. cbn [length]. f_equal. rewrite length_zip_with, Hlen. apply Nat.min_id.
  - unfold check_timeout, gap_elapsed. cbn [st_update st_inner st_partial_frame st_last_byte_time].
    rewrite (proj2 (Z.leb_le _ _) Hgap), Hs2, <- Hf, Hw, Hem. done.
  - unfold process_byte, gap_elapsed. cbn [st_update st_inner st_partial_frame st_last_byte_time].
    rewrite (proj2 (Z.leb_le _ _) Hgap), Hs2, <- Hf, Hw, Hem, Hz. rewrite (proj2 (Z.eqb_neq _ _)) by lia. done.
Qed.

(** a frame of the greatest size, 256 bytes, never gets through the streaming codec: its last
    byte fills the buffer, which is cleared with an error. *)
Theorem maximal_frame_lost (s : StreamingRtuCodec) (input : list (Z * Z)) (t0 b0 t_last b_last : Z) :
  cd_buffer (st_inner s) = [] → st_partial_frame s = [] → zlen input = 254 →
  paced (inter_frame_timeout (cd_timing (st_inner s))) t0 (input ++ [(t_last, b_last)]) →
  process_bytes ((t0, b0) :: input ++ [(t_last, b_last)]) s = (replicate 255 (Ok None) ++ [Err InvalidData], st_update s [] (Some t_last)).
Proof.
  intros Hi He Hl Hp.
  assert (∀ l last x, paced (inter_frame_timeout (cd_timing (st_inner s))) last (l ++ [x]) →
    paced (inter_frame_timeout (cd_timing (st_inner s))) last l ∧
    elapsed (last_time last l) x.1 < inter_frame_timeout (cd_timing (st_inner s))) as Hsplit.
  { induction l as [|[n b] l IH]; intros last [n' b'] H; simpl in *; [tauto|]. destruct H as [? H]. apply IH in H as [? ?]. tauto. }
  apply Hsplit in Hp as [Hp Hg]. cbn [fst] in Hg. rewrite app_comm_cons, process_bytes_app, (process_bytes_from_empty t0 b0 input s Hi He Hp) by lia.
  cbn [process_bytes]. unfold process_byte, gap_elapsed. cbn [st_update st_inner st_partial_frame st_last_byte_time].
  rewrite (proj2 (Z.leb_gt _ _) Hg). cbn [andb]. rewrite take_byte_quiet by done. cbn [st_update st_inner st_partial_frame].
  rewrite (proj2 (Z.leb_le _ _)) by (rewrite zlen_cons; unfold zlen in *; rewrite length_fmap; lia).
  replace (S (length input)) with 255%nat by (unfold zlen in Hl; lia). done.
Qed.

(** the silent gap for the usual rates: at 1200 to 19200 baud it is three and a half characters
    to the microsecond, at any higher rate 1750 microseconds; no rate panics but zero. *)
Theorem timing_of_usual_rates (baud : Z) :
  19200 < baud →
  (∃ t, from_baud_rate (E:=Empty_set) baud = Ok t ∧ inter_frame_timeout t = 1750000 ∧ inter_char_timeout t = 750000) ∧
  Forall (fun b => match from_baud_rate (E:=Empty_set) b with
                   | Ok t => Z.abs (2 * inter_frame_timeout t - 7 * char_time t) <= 2000 ∧
                             Z.abs (2 * inter_char_timeout t - 3 * char_time t) <= 2000
                   | _ => False
                   end) [1200; 2400; 4800; 9600; 14400; 19200] ∧
  from_baud_rate (E:=Empty_set) 0 = Panic.
Proof.
  intros Hb. split; [|split; [|done]].
  - unfold from_baud_rate, from_baud_rate_with_bits. rewrite (proj2 (Z.eqb_neq _ _)), (proj2 (Z.ltb_lt _ _)) by lia. by eexists.
  - repeat (apply Forall_cons; split; [vm_compute; split; congruence|]). constructor.
Qed.

(* ------------------------------------------------------------------ *)
(** * Witnesses *)

Definition sample_timing : RtuTiming := {| char_time := 1145000; inter_char_timeout := 1717500; inter_frame_timeout := 4007500 |}.
Definition sample_codec : RtuCodec := RtuCodec_with_timing sample_timing.
Definition sample_request : SemanticRequest := ReqReadHoldingRegisters 0 10.
Definition sample_write : SemanticRequest := ReqReadWriteMultipleRegisters 1 2 3 [4].

Lemma sample_request_ok : servable sample_request ∧ servable sample_write.
Proof. split; (split; [closed|reflexivity]). Qed.

Definition sample_exchanges : list exchange :=
  [{| ex_unit := 1; ex_request := sample_request;
      ex_chunks := [(0, 0, take 3 (request_bytes 1 sample_request)); (5, 5, drop 3 (request_bytes 1 sample_request))] |};
   {| ex_unit := 7; ex_request := sample_write; ex_chunks := [(9, 9, request_bytes 7 sample_write)] |}].

Lemma sample_exchanges_ok : Forall exchange_ok sample_exchanges.
Proof.
  destruct sample_request_ok.
  repeat (apply Forall_cons; split); try done; (split; [closed|]); (split; [done|]); (split; [|vm_compute; reflexivity]);
    repeat (apply Forall_cons; split); try done; vm_compute; congruence.
Qed.

Lemma codec_delivers_requests_witness :
  ∃ c', decode_chunks (sample_exchanges ≫= ex_chunks) [] sample_codec =
    ([Ok None; Ok (Some (request_frame 1 sample_request)); Ok (Some (request_frame 7 sample_write))], c', []) ∧ cd_buffer c' = [].
Proof. exact (codec_delivers_requests sample_exchanges sample_codec sample_exchanges_ok eq_refl eq_refl). Defined.

Lemma pipelined_frame_withheld_witness :
  ∃ c1, RtuCodec_decode 0 0 (request_bytes 1 sample_request ++ request_bytes 1 sample_write) sample_codec =
      (Ok (Some (request_frame 1 sample_request)), c1, []) ∧
    decode_chunks [(1, 1, []); (2, 2, [])] [] c1 = ([Ok None; Ok None], c1, []).
Proof.
  destruct (pipelined_frame_withheld sample_codec 1 1 sample_request sample_write 0 0 [(1, 1); (2, 2)]
    ltac:(closed) ltac:(closed) (proj1 sample_request_ok) (proj2 sample_request_ok) eq_refl eq_refl eq_refl) as (c1 & H1 & H2 & _).
  exists c1. split; [exact H1|exact H2].
Defined.

Lemma damaged_frame_skipped_witness :
  ∃ c', RtuCodec_decode 0 0 ([1; 3; 0; 0; 0; 10; 0; 0] ++ [9; 9]) sample_codec = (Err InvalidData, c', []) ∧ cd_buffer c' = [9; 9].
Proof.
  exact (damaged_frame_skipped sample_codec 1 sample_request 0 0 [9; 9] 0 0 ltac:(closed) (proj1 sample_request_ok) eq_refl eq_refl
    ltac:(vm_compute; congruence)).
Defined.

(** Read Device Identification (0x2B), whole and undamaged, and a request behind it. *)
Definition wedged_codec : RtuCodec :=
  cd_update (RtuCodec_strict_timing sample_codec true) (Receiving 0 None)
    ([1; 0x2B; 14; 1; 0] ++ u16_to_le (calculate_crc_slow [1; 0x2B; 14; 1; 0])).
Lemma strict_timing_wedges_witness :
  RtuCodec_decode 5000000 5000000 (request_bytes 1 sample_request) wedged_codec =
    (Ok None, wedged_codec, request_bytes 1 sample_request).
Proof.
  exact (strict_timing_wedges wedged_codec 1 0x2B [14; 1; 0] 0 None 5000000 5000000 (request_bytes 1 sample_request)
    ltac:(closed) eq_refl ltac:(closed) eq_refl eq_refl eq_refl ltac:(vm_compute; congruence)).
Defined.

Lemma streaming_frame_by_gap_witness :
  ∃ s', process_bytes [(0, 1); (1, 3); (2, 0); (3, 0); (4, 0); (5, 10); (6, 0xC5); (7, 0xCD)] (StreamingRtuCodec_new sample_timing) =
      (replicate 8 (Ok None), s') ∧
    fst (check_timeout 5000000 s') = Ok (Some (request_frame 1 sample_request)).
Proof.
  destruct (streaming_frame_by_gap sample_timing (StreamingRtuCodec_new sample_timing) 1 [3; 0; 0; 0; 10]
    (request_frame 1 sample_request) [1; 2; 3; 4; 5; 6; 7] 0 5000000 1) as (s' & H1 & H2 & _);
    [reflexivity..|closed|closed|vm_compute; reflexivity|reflexivity|vm_compute; tauto|vm_compute; congruence|].
  exists s'. split; [exact H1|]. rewrite H2. reflexivity.
Defined.

Lemma maximal_frame_lost_witness :
  snd (process_bytes ((0, 1) :: replicate 254 (0, 2) ++ [(0, 3)]) (StreamingRtuCodec_new sample_timing)) =
    st_update (StreamingRtuCodec_new sample_timing) [] (Some 0).
Proof.
  rewrite (maximal_frame_lost (StreamingRtuCodec_new sample_timing) (replicate 254 (0, 2)) 0 1 0 3 eq_refl eq_refl eq_refl);
    [reflexivity|]. vm_compute. tauto.
Defined.

Lemma timing_of_usual_rates_witness :
  ∃ t, from_baud_rate (E:=Empty_set) 115200 = Ok t ∧ inter_frame_timeout t = 1750000 ∧ inter_char_timeout t = 750000.
Proof. exact (proj1 (timing_of_usual_rates 115200 ltac:(lia))). Defined.
