(* ===== verification/ModbusUnits.v ===== *)
(** The multi-unit manager of the Modbus simulator ([unit/config.rs], [unit/manager.rs]): many
    slave units behind one manager, each with a register store, a word order and counters of
    its own; requests to one unit, and broadcast writes to unit 0.

    A unit's store is a [SparseRegisterStore]; its operations enter the proofs through the laws
    of the interface [AddressSpaceSpec] only.  Creation times, which no operation reads, are
    left out; the order in which the concurrent map visits the units is a parameter. *)

From S2P Require Import Prelude ModbusPdu ModbusSpace ModbusDense ModbusShards ModbusSparse ModbusTypes ModbusSemantic ModbusHandlers ModbusService Text.

(* ------------------------------------------------------------------ *)
(** * Configuration *)

Record UnitManagerConfig : Type := {
  max_units : Z;
  default_word_order : WordOrder;
  broadcast_mode : BroadcastPolicy;
  auto_create_units : bool;
  default_register_config : RegisterStoreConfig;
  enable_unit_metrics : bool;
}.

Definition UnitManagerConfig_default : UnitManagerConfig :=
  {| max_units := 247; default_word_order := BigEndian; broadcast_mode := WriteAll; auto_create_units := false;
     default_register_config := RegisterStoreConfig_default; enable_unit_metrics := true |}.
Definition UnitManagerConfig_with_max_units (c : UnitManagerConfig) (n : Z) : UnitManagerConfig :=
  {| max_units := n; default_word_order := default_word_order c; broadcast_mode := broadcast_mode c;
     auto_create_units := auto_create_units c; default_register_config := default_register_config c;
     enable_unit_metrics := enable_unit_metrics c |}.
Definition UnitManagerConfig_with_word_order (c : UnitManagerConfig) (o : WordOrder) : UnitManagerConfig :=
  {| max_units := max_units c; default_word_order := o; broadcast_mode := broadcast_mode c;
     auto_create_units := auto_create_units c; default_register_config := default_register_config c;
     enable_unit_metrics := enable_unit_metrics c |}.
Definition UnitManagerConfig_with_broadcast_mode (c : UnitManagerConfig) (b : BroadcastPolicy) : UnitManagerConfig :=
  {| max_units := max_units c; default_word_order := default_word_order c; broadcast_mode := b;
     auto_create_units := auto_create_units c; default_register_config := default_register_config c;
     enable_unit_metrics := enable_unit_metrics c |}.
Definition UnitManagerConfig_with_auto_create (c : UnitManagerConfig) (b : bool) : UnitManagerConfig :=
  {| max_units := max_units c; default_word_order := default_word_order c; broadcast_mode := broadcast_mode c;
     auto_create_units := b; default_register_config := default_register_config c;
     enable_unit_metrics := enable_unit_metrics c |}.
Definition UnitManagerConfig_with_register_config (c : UnitManagerConfig) (r : RegisterStoreConfig) : UnitManagerConfig :=
  {| max_units := max_units c; default_word_order := default_word_order c; broadcast_mode := broadcast_mode c;
     auto_create_units := auto_create_units c; default_register_config := r;
     enable_unit_metrics := enable_unit_metrics c |}.

(** [RegisterStoreConfig::minimal] and [large_scale], which two presets of the manager use. *)
Definition RegisterStoreConfig_minimal : RegisterStoreConfig :=
  let range := {| range_start := 0; range_end := 99 |} in RegisterStoreConfig_new range range range range.
Definition RegisterStoreConfig_without_callbacks (c : RegisterStoreConfig) : RegisterStoreConfig :=
  {| cfg_coils := cfg_coils c; cfg_discrete_inputs := cfg_discrete_inputs c;
     cfg_holding_registers := cfg_holding_registers c; cfg_input_registers := cfg_input_registers c;
     initialization := initialization c; callbacks_enabled := false |}.
Definition RegisterStoreConfig_large_scale : RegisterStoreConfig :=
  let range := {| range_start := 0; range_end := 9999 |} in
  RegisterStoreConfig_without_callbacks (RegisterStoreConfig_new range range range range).

Definition UnitManagerConfig_for_testing : UnitManagerConfig :=
  {| max_units := 10; default_word_order := BigEndian; broadcast_mode := WriteAll; auto_create_units := true;
     default_register_config := RegisterStoreConfig_minimal; enable_unit_metrics := false |}.
Definition UnitManagerConfig_for_large_scale : UnitManagerConfig :=
  {| max_units := 247; default_word_order := BigEndian; broadcast_mode := WriteAll; auto_create_units := false;
     default_register_config := RegisterStoreConfig_large_scale; enable_unit_metrics := true |}.

(** Names and descriptions are text, as [Text] represents it. *)
Record UnitConfig : Type := {
  uc_name : list Z;
  uc_description : list Z;
  uc_word_order : option WordOrder;
  uc_register_config : option RegisterStoreConfig;
  uc_broadcast_enabled : bool;
  uc_response_delay_us : Z;
  uc_enabled : bool;
  uc_metadata : gmap (list Z) (list Z);
}.

Definition UnitConfig_default : UnitConfig :=
  {| uc_name := str "Unnamed Unit"; uc_description := []; uc_word_order := None; uc_register_config := None;
     uc_broadcast_enabled := true; uc_response_delay_us := 0; uc_enabled := true; uc_metadata := ∅ |}.
Definition UnitConfig_new (name : list Z) : UnitConfig :=
  {| uc_name := name; uc_description := uc_description UnitConfig_default;
     uc_word_order := uc_word_order UnitConfig_default; uc_register_config := uc_register_config UnitConfig_default;
     uc_broadcast_enabled := uc_broadcast_enabled UnitConfig_default;
     uc_response_delay_us := uc_response_delay_us UnitConfig_default;
     uc_enabled := uc_enabled UnitConfig_default; uc_metadata := uc_metadata UnitConfig_default |}.
Definition UnitConfig_set_word_order (c : UnitConfig) (o : option WordOrder) : UnitConfig :=
  {| uc_name := uc_name c; uc_description := uc_description c; uc_word_order := o;
     uc_register_config := uc_register_config c; uc_broadcast_enabled := uc_broadcast_enabled c;
     uc_response_delay_us := uc_response_delay_us c; uc_enabled := uc_enabled c; uc_metadata := uc_metadata c |}.
Definition UnitConfig_with_word_order (name : list Z) (o : WordOrder) : UnitConfig :=
  UnitConfig_set_word_order (UnitConfig_new name) (Some o).
Definition UnitConfig_with_description (c : UnitConfig) (d : list Z) : UnitConfig :=
  {| uc_name := uc_name c; uc_description := d; uc_word_order := uc_word_order c;
     uc_register_config := uc_register_config c; uc_broadcast_enabled := uc_broadcast_enabled c;
     uc_response_delay_us := uc_response_delay_us c; uc_enabled := uc_enabled c; uc_metadata := uc_metadata c |}.
Definition UnitConfig_with_register_config (c : UnitConfig) (r : RegisterStoreConfig) : UnitConfig :=
  {| uc_name := uc_name c; uc_description := uc_description c; uc_word_order := uc_word_order c;
     uc_register_config := Some r; uc_broadcast_enabled := uc_broadcast_enabled c;
     uc_response_delay_us := uc_response_delay_us c; uc_enabled := uc_enabled c; uc_metadata := uc_metadata c |}.
Definition UnitConfig_with_response_delay_us (c : UnitConfig) (delay : Z) : UnitConfig :=
  {| uc_name := uc_name c; uc_description := uc_description c; uc_word_order := uc_word_order c;
     uc_register_config := uc_register_config c; uc_broadcast_enabled := uc_broadcast_enabled c;
     uc_response_delay_us := delay; uc_enabled := uc_enabled c; uc_metadata := uc_metadata c |}.
Definition UnitConfig_with_broadcast (c : UnitConfig) (b : bool) : UnitConfig :=
  {| uc_name := uc_name c; uc_description := uc_description c; uc_word_order := uc_word_order c;
     uc_register_config := uc_register_config c; uc_broadcast_enabled := b;
     uc_response_delay_us := uc_response_delay_us c; uc_enabled := uc_enabled c; uc_metadata := uc_metadata c |}.
Definition UnitConfig_with_enabled (c : UnitConfig) (b : bool) : UnitConfig :=
  {| uc_name := uc_name c; uc_description := uc_description c; uc_word_order := uc_word_order c;
     uc_register_config := uc_register_config c; uc_broadcast_enabled := uc_broadcast_enabled c;
     uc_response_delay_us := uc_response_delay_us c; uc_enabled := b; uc_metadata := uc_metadata c |}.
Definition UnitConfig_with_metadata (c : UnitConfig) (k v : list Z) : UnitConfig :=
  {| uc_name := uc_name c; uc_description := uc_description c; uc_word_order := uc_word_order c;
     uc_register_config := uc_register_config c; uc_broadcast_enabled := uc_broadcast_enabled c;
     uc_response_delay_us := uc_response_delay_us c; uc_enabled := uc_enabled c;
     uc_metadata := <[k := v]> (uc_metadata c) |}.
Definition effective_word_order (c : UnitConfig) (dflt : WordOrder) : WordOrder :=
  default dflt (uc_word_order c).

(* ------------------------------------------------------------------ *)
(** * Units *)

Record UnitInfo : Type := {
  ui_unit_id : Z;
  ui_config : UnitConfig;
  ui_registers : SparseRegisterStore;
  ui_converter : RegisterConverter;
  ui_read_count : Z;
  ui_write_count : Z;
  ui_error_count : Z;
}.

Definition UnitInfo_word_order (u : UnitInfo) : WordOrder := word_order (ui_converter u).
Definition UnitInfo_is_enabled (u : UnitInfo) : bool := uc_enabled (ui_config u).
Definition UnitInfo_broadcast_enabled (u : UnitInfo) : bool := uc_broadcast_enabled (ui_config u).

Definition ui_with_config (u : UnitInfo) (c : UnitConfig) : UnitInfo :=
  {| ui_unit_id := ui_unit_id u; ui_config := c; ui_registers := ui_registers u; ui_converter := ui_converter u;
     ui_read_count := ui_read_count u; ui_write_count := ui_write_count u; ui_error_count := ui_error_count u |}.
Definition ui_with_registers (u : UnitInfo) (s : SparseRegisterStore) : UnitInfo :=
  {| ui_unit_id := ui_unit_id u; ui_config := ui_config u; ui_registers := s; ui_converter := ui_converter u;
     ui_read_count := ui_read_count u; ui_write_count := ui_write_count u; ui_error_count := ui_error_count u |}.
Definition ui_with_counts (u : UnitInfo) (r w e : Z) : UnitInfo :=
  {| ui_unit_id := ui_unit_id u; ui_config := ui_config u; ui_registers := ui_registers u;
     ui_converter := ui_converter u; ui_read_count := r; ui_write_count := w; ui_error_count := e |}.

(** [AtomicU64::fetch_add(1)] wraps. *)
Definition bump (n : Z) : Z := (n + 1) mod 18446744073709551616.
Definition record_read (u : UnitInfo) : UnitInfo :=
  ui_with_counts u (bump (ui_read_count u)) (ui_write_count u) (ui_error_count u).
Definition record_write (u : UnitInfo) : UnitInfo :=
  ui_with_counts u (ui_read_count u) (bump (ui_write_count u)) (ui_error_count u).
Definition record_error (u : UnitInfo) : UnitInfo :=
  ui_with_counts u (ui_read_count u) (ui_write_count u) (bump (ui_error_count u)).

Record MultiUnitManager : Type := {
  mu_config : UnitManagerConfig;
  mu_units : gmap Z UnitInfo;
  total_requests : Z;
  broadcast_count : Z;
}.

Definition MultiUnitManager_new (c : UnitManagerConfig) : MultiUnitManager :=
  {| mu_config := c; mu_units := ∅; total_requests := 0; broadcast_count := 0 |}.
Definition mu_with_units (m : MultiUnitManager) (us : gmap Z UnitInfo) : MultiUnitManager :=
  {| mu_config := mu_config m; mu_units := us; total_requests := total_requests m;
     broadcast_count := broadcast_count m |}.
Definition put_unit (m : MultiUnitManager) (id : Z) (u : UnitInfo) : MultiUnitManager :=
  mu_with_units m (<[id := u]> (mu_units m)).

Definition unit_count (m : MultiUnitManager) : Z := Z.of_nat (size (mu_units m)).
Definition has_unit (m : MultiUnitManager) (id : Z) : bool := bool_decide (is_Some (mu_units m !! id)).

(** The order in which [DashMap::iter] visits the units: some order of the entries. *)
Class UnitOrder : Type := {
  unit_iter : gmap Z UnitInfo → list (Z * UnitInfo);
  unit_iter_perm : ∀ m, unit_iter m ≡ₚ map_to_list m;
}.

Section manager.
Context `{BuildProfile} `{SystemClock} `{UnitOrder}.

(** [SparseRegisterStore::new] returns a store or panics. *)
Definition UnitInfo_new (unit_id : Z) (config : UnitConfig) (default_order : WordOrder)
    (default_registers : RegisterStoreConfig) : outcome ModbusError UnitInfo :=
  let '(r, store) := SparseRegisterStore_new (default default_registers (uc_register_config config)) in
  let? _ := r in
  Ok {| ui_unit_id := unit_id; ui_config := config; ui_registers := store;
        ui_converter := RegisterConverter_new (effective_word_order config default_order);
        ui_read_count := 0; ui_write_count := 0; ui_error_count := 0 |}.

Definition unit_ids (m : MultiUnitManager) : list Z := (unit_iter (mu_units m)).*1.

Definition add_unit (unit_id : Z) (config : UnitConfig) : stM MultiUnitManager ModbusError unit := fun m =>
  if unit_id =? 0 then (Err (InvalidUnitId 0), m)
  else if max_units (mu_config m) <=? unit_count m then (Err (UnitLimitReached (max_units (mu_config m))), m)
  else if has_unit m unit_id then (Err (UnitAlreadyExists unit_id), m)
  else
    match UnitInfo_new unit_id config (default_word_order (mu_config m)) (default_register_config (mu_config m)) with
    | Ok info => (Ok tt, put_unit m unit_id info)
    | Err e => (Err e, m)
    | Panic => (Panic, m)
    end.

Definition remove_unit (unit_id : Z) (m : MultiUnitManager) : option UnitInfo * MultiUnitManager :=
  (mu_units m !! unit_id, mu_with_units m (delete unit_id (mu_units m))).

(** The reference handed out is the unit's key in the map. *)
Definition get_unit (unit_id : Z) : stM MultiUnitManager ModbusError (option UnitInfo) := fun m =>
  if unit_id =? 0 then (Ok None, m)
  else
    match mu_units m !! unit_id with
    | Some u => (Ok (Some u), m)
    | None =>
        if auto_create_units (mu_config m) then
          match add_unit unit_id (UnitConfig_new (str "Auto-created Unit " ++ decimal unit_id)) m with
          | (Ok _, m') => (Ok (mu_units m' !! unit_id), m')
          | (Err _, m') => (Ok None, m')
          | (Panic, m') => (Panic, m')
          end
        else (Ok None, m)
    end.

Definition update_unit (unit_id : Z) (update_fn : UnitConfig → UnitConfig)
  : stM MultiUnitManager ModbusError unit := fun m =>
  match mu_units m !! unit_id with
  | Some u => (Ok tt, put_unit m unit_id (ui_with_config u (update_fn (ui_config u))))
  | None => (Err (UnitNotFound unit_id), m)
  end.

(** ** Requests to one unit *)

Definition count_request (m : MultiUnitManager) : MultiUnitManager :=
  {| mu_config := mu_config m; mu_units := mu_units m; total_requests := bump (total_requests m);
     broadcast_count := broadcast_count m |}.
Definition count_broadcast (m : MultiUnitManager) : MultiUnitManager :=
  {| mu_config := mu_config m; mu_units := mu_units m; total_requests := total_requests m;
     broadcast_count := bump (broadcast_count m) |}.

(** What the eight request methods share once the unit is chosen: find it, refuse it when it is
    disabled, count, and call the store. *)
Definition on_unit {A} (unit_id : Z) (record : UnitInfo → UnitInfo) (op : stM SparseRegisterStore ModbusError A)
  : stM MultiUnitManager ModbusError A :=
  do? found := get_unit unit_id in
  match found with
  | None => st_err (UnitNotFound unit_id)
  | Some u => fun m =>
      if negb (UnitInfo_is_enabled u) then (Err (UnitDisabled unit_id), put_unit m unit_id (record_error u))
      else
        let '(r, store) := op (ui_registers u) in
        (r, put_unit m unit_id (ui_with_registers (record u) store))
  end.

Definition mu_read_holding_registers (unit_id address quantity : Z) : stM MultiUnitManager ModbusError (list Z) :=
  fun m => on_unit unit_id record_read (SparseRegisterStore_read_holding_registers address quantity) (count_request m).
Definition mu_read_input_registers (unit_id address quantity : Z) : stM MultiUnitManager ModbusError (list Z) :=
  fun m => on_unit unit_id record_read (SparseRegisterStore_read_input_registers address quantity) (count_request m).
Definition mu_read_coils (unit_id address quantity : Z) : stM MultiUnitManager ModbusError (list bool) :=
  fun m => on_unit unit_id record_read (SparseRegisterStore_read_coils address quantity) (count_request m).
Definition mu_read_discrete_inputs (unit_id address quantity : Z) : stM MultiUnitManager ModbusError (list bool) :=
  fun m => on_unit unit_id record_read (SparseRegisterStore_read_discrete_inputs address quantity) (count_request m).

(** ** Broadcasts *)

Definition get_broadcast_targets (m : MultiUnitManager) : list Z :=
  match broadcast_mode (mu_config m) with
  | WriteAll => unit_ids m
  | Disabled => []
  | SelectiveList ids => ids
  | EchoToUnit id => [id]
  end.

(** [for unit_id in units { ... }]: the store's answer is dropped ([let _ =]). *)
Fixpoint broadcast_loop (op : stM SparseRegisterStore ModbusError unit) (ids : list Z)
  : stM MultiUnitManager ModbusError unit :=
  match ids with
  | [] => st_ret tt
  | id :: ids' => fun m =>
      match mu_units m !! id with
      | Some u =>
          if UnitInfo_is_enabled u && UnitInfo_broadcast_enabled u then
            let '(r, store) := op (ui_registers u) in
            match r with
            | Panic => (Panic, put_unit m id (ui_with_registers u store))
            | _ => broadcast_loop op ids' (put_unit m id (record_write (ui_with_registers u store)))
            end
          else broadcast_loop op ids' m
      | None => broadcast_loop op ids' m
      end
  end.

(** What the four broadcast methods share. *)
Definition broadcast (op : stM SparseRegisterStore ModbusError unit) : stM MultiUnitManager ModbusError unit := fun m =>
  let m := count_broadcast m in broadcast_loop op (get_broadcast_targets m) m.

Definition broadcast_write_holding_register (address value : Z) : stM MultiUnitManager ModbusError unit :=
  broadcast (SparseRegisterStore_write_holding_register address value).
Definition broadcast_write_holding_registers (address : Z) (values : list Z) : stM MultiUnitManager ModbusError unit :=
  broadcast (SparseRegisterStore_write_holding_registers address values).
Definition broadcast_write_coil (address : Z) (value : bool) : stM MultiUnitManager ModbusError unit :=
  broadcast (SparseRegisterStore_write_coil address value).
Definition broadcast_write_coils (address : Z) (values : list bool) : stM MultiUnitManager ModbusError unit :=
  broadcast (SparseRegisterStore_write_coils address values).

(** ** Writes: unit 0 is the broadcast address *)

Definition mu_write_holding_register (unit_id address value : Z) : stM MultiUnitManager ModbusError unit := fun m =>
  let m := count_request m in
  if unit_id =? 0 then broadcast_write_holding_register address value m
  else on_unit unit_id record_write (SparseRegisterStore_write_holding_register address value) m.
Definition mu_write_holding_registers (unit_id address : Z) (values : list Z) : stM MultiUnitManager ModbusError unit := fun m =>
  let m := count_request m in
  if unit_id =? 0 then broadcast_write_holding_registers address values m
  else on_unit unit_id record_write (SparseRegisterStore_write_holding_registers address values) m.
Definition mu_write_coil (unit_id address : Z) (value : bool) : stM MultiUnitManager ModbusError unit := fun m =>
  let m := count_request m in
  if unit_id =? 0 then broadcast_write_coil address value m
  else on_unit unit_id record_write (SparseRegisterStore_write_coil address value) m.
Definition mu_write_coils (unit_id address : Z) (values : list bool) : stM MultiUnitManager ModbusError unit := fun m =>
  let m := count_request m in
  if unit_id =? 0 then broadcast_write_coils address values m
  else on_unit unit_id record_write (SparseRegisterStore_write_coils address values) m.

(** ** Statistics *)

Record UnitStatistics : Type := {
  us_unit_id : Z;
  us_name : list Z;
  us_enabled : bool;
  us_read_count : Z;
  us_write_count : Z;
  us_error_count : Z;
  us_register_count : Z;
}.

Definition unit_statistics (m : MultiUnitManager) : list UnitStatistics :=
  (fun '(id, u) =>
     {| us_unit_id := id; us_name := uc_name (ui_config u); us_enabled := UnitInfo_is_enabled u;
        us_read_count := ui_read_count u; us_write_count := ui_write_count u; us_error_count := ui_error_count u;
        us_register_count := SparseRegisterStore_entry_count (ui_registers u) |}) <$> unit_iter (mu_units m).

Definition reset_statistics (m : MultiUnitManager) : MultiUnitManager :=
  {| mu_config := mu_config m; mu_units := (fun u => ui_with_counts u 0 0 0) <$> mu_units m;
     total_requests := 0; broadcast_count := 0 |}.

End manager.

(* ------------------------------------------------------------------ *)
(** * Requests and their effect on a register map *)

Inductive unit_write : Type :=
| WriteHolding (address value : Z)
| WriteHoldings (address : Z) (values : list Z)
| WriteCoil (address : Z) (value : bool)
| WriteCoils (address : Z) (values : list bool).

Inductive unit_read : Type :=
| ReadHolding (address quantity : Z)
| ReadInput (address quantity : Z)
| ReadCoils (address quantity : Z)
| ReadDiscrete (address quantity : Z).

Inductive unit_values : Type := Words (l : list Z) | Bits (l : list bool).

(** The span a request covers. *)
Definition write_span (w : unit_write) : RegisterType * Z * Z :=
  match w with
  | WriteHolding a _ => (HoldingRegister, a, 1)
  | WriteHoldings a vs => (HoldingRegister, a, zlen vs)
  | WriteCoil a _ => (Coil, a, 1)
  | WriteCoils a vs => (Coil, a, zlen vs)
  end.
Definition read_span (r : unit_read) : RegisterType * Z * Z :=
  match r with
  | ReadHolding a q => (HoldingRegister, a, q)
  | ReadInput a q => (InputRegister, a, q)
  | ReadCoils a q => (Coil, a, q)
  | ReadDiscrete a q => (DiscreteInput, a, q)
  end.
Definition span_ok (sp : RegisterType * Z * Z) : Prop := is_u16 sp.1.2 ∧ 0 ≤ sp.2 ≤ max_quantity.
Definition span_valid (v : model) (sp : RegisterType * Z * Z) : bool := m_valid v sp.1.1 sp.1.2 sp.2.

Definition write_ok (w : unit_write) : Prop :=
  span_ok (write_span w) ∧
  match w with WriteHolding _ v => is_u16 v | WriteHoldings _ vs => words_ok vs | _ => True end.

Definition write_model (w : unit_write) (v : model) : model :=
  match w with
  | WriteHolding a x => m_write_words v HoldingRegister a [x]
  | WriteHoldings a xs => m_write_words v HoldingRegister a xs
  | WriteCoil a x => m_write_bits v Coil a [x]
  | WriteCoils a xs => m_write_bits v Coil a xs
  end.
(** A store performs a write to a valid span, and refuses any other. *)
Definition applied (w : unit_write) (v : model) : model :=
  if span_valid v (write_span w) then write_model w v else v.
Definition read_model (r : unit_read) (v : model) : unit_values :=
  match r with
  | ReadHolding a q => Words (m_read_words v HoldingRegister a q)
  | ReadInput a q => Words (m_read_words v InputRegister a q)
  | ReadCoils a q => Bits (m_read_bits v Coil a q)
  | ReadDiscrete a q => Bits (m_read_bits v DiscreteInput a q)
  end.

#[global] Instance write_model_proper w : Proper ((≡) ==> (≡)) (write_model w).
Proof. intros v v' Hv. destruct w; simpl; by rewrite Hv. Qed.
#[global] Instance span_valid_proper : Proper ((≡) ==> eq ==> eq) span_valid.
Proof. intros v v' Hv ? sp ->. unfold span_valid. by rewrite Hv. Qed.
#[global] Instance applied_proper w : Proper ((≡) ==> (≡)) (applied w).
Proof. intros v v' Hv. unfold applied. rewrite (span_valid_proper v v' Hv _ _ eq_refl). destruct (span_valid v' _); [by rewrite Hv|done]. Qed.
#[global] Instance read_model_proper r : Proper ((≡) ==> eq) (read_model r).
Proof. intros v v' Hv. destruct r; simpl; by rewrite Hv. Qed.

Lemma overwrite_twice {A} (f : Z → A) a vs x : overwrite (overwrite f a vs) a vs x = overwrite f a vs x.
Proof. unfold overwrite. destruct (_ && _); [|done]. by destruct (vs !! _). Qed.

Lemma applied_twice w v : applied w (applied w v) ≡ applied w v.
Proof.
  unfold applied. destruct (span_valid v (write_span w)) eqn:Hv; [|by rewrite Hv].
  assert (span_valid (write_model w v) (write_span w) = true) as -> by by destruct w.
  destruct w; (split; [done|split]); intros; simpl; try done; case_decide; try done; apply overwrite_twice.
Qed.

Section laws.
Context `{BuildProfile} `{SystemClock} `{UnitOrder}.

(** The call each request makes on a store, and on the manager. *)
Definition store_write (w : unit_write) : stM SparseRegisterStore ModbusError unit :=
  match w with
  | WriteHolding a v => SparseRegisterStore_write_holding_register a v
  | WriteHoldings a vs => SparseRegisterStore_write_holding_registers a vs
  | WriteCoil a v => SparseRegisterStore_write_coil a v
  | WriteCoils a vs => SparseRegisterStore_write_coils a vs
  end.
Definition store_read (r : unit_read) : stM SparseRegisterStore ModbusError unit_values :=
  match r with
  | ReadHolding a q => st_map Words (SparseRegisterStore_read_holding_registers a q)
  | ReadInput a q => st_map Words (SparseRegisterStore_read_input_registers a q)
  | ReadCoils a q => st_map Bits (SparseRegisterStore_read_coils a q)
  | ReadDiscrete a q => st_map Bits (SparseRegisterStore_read_discrete_inputs a q)
  end.
Definition manager_write (id : Z) (w : unit_write) : stM MultiUnitManager ModbusError unit :=
  match w with
  | WriteHolding a v => mu_write_holding_register id a v
  | WriteHoldings a vs => mu_write_holding_registers id a vs
  | WriteCoil a v => mu_write_coil id a v
  | WriteCoils a vs => mu_write_coils id a vs
  end.
Definition manager_read (id : Z) (r : unit_read) : stM MultiUnitManager ModbusError unit_values :=
  match r with
  | ReadHolding a q => st_map Words (mu_read_holding_registers id a q)
  | ReadInput a q => st_map Words (mu_read_input_registers id a q)
  | ReadCoils a q => st_map Bits (mu_read_coils id a q)
  | ReadDiscrete a q => st_map Bits (mu_read_discrete_inputs id a q)
  end.

Lemma store_write_law w s : write_ok w → sparse_wf s →
  let '(r, s') := store_write w s in
  answers (span_valid (sparse_view s) (write_span w)) tt r ∧ sparse_wf s' ∧ sparse_view s' ≡ applied w (sparse_view s).
Proof.
  intros [[Ha Hq] Hv] Hs. destruct w as [a v|a vs|a v|a vs]; simpl in *.
  - exact (@write_holding_register_spec _ _ SparseRegisterStore_spec a v Hv s Hs Ha Hq (or_intror (or_intror (or_introl eq_refl)))).
  - exact (@write_holding_registers_spec _ _ SparseRegisterStore_spec a vs Hv s Hs Ha Hq (or_intror (or_intror (or_introl eq_refl)))).
  - exact (@write_coil_spec _ _ SparseRegisterStore_spec a v s Hs Ha Hq (or_intror (or_intror (or_introl eq_refl)))).
  - exact (@write_coils_spec _ _ SparseRegisterStore_spec a vs s Hs Ha Hq (or_intror (or_intror (or_introl eq_refl)))).
Qed.

Lemma answers_map {A B} (f : A → B) valid v r :
  answers valid v r → answers valid (f v) (let? x := r in Ok (f x)).
Proof. destruct valid; simpl; [by intros ->|]. intros (e & -> & He). by exists e. Qed.

Lemma read_law_map {A} (f : A → unit_values) (op : stM SparseRegisterStore ModbusError A) v valid s :
  (let '(r, s') := op s in answers valid v r ∧ sparse_wf s' ∧ sparse_view s' ≡ sparse_view s) →
  let '(r, s') := st_map f op s in answers valid (f v) r ∧ sparse_wf s' ∧ sparse_view s' ≡ sparse_view s.
Proof.
  unfold st_map. destruct (op s) as [[x|e|] s']; intros (Ha & Hk); (split; [|done]); by apply (answers_map f) in Ha.
Qed.

Lemma store_read_law rd s : span_ok (read_span rd) → sparse_wf s →
  let '(r, s') := store_read rd s in
  answers (span_valid (sparse_view s) (read_span rd)) (read_model rd (sparse_view s)) r ∧ sparse_wf s' ∧
  sparse_view s' ≡ sparse_view s.
Proof.
  intros [Ha Hq] Hs. destruct rd as [a q|a q|a q|a q]; simpl in *; apply read_law_map.
  - exact (@read_holding_registers_spec _ _ SparseRegisterStore_spec s a q Hs Ha Hq (or_intror (or_intror (or_introl eq_refl)))).
  - exact (@read_input_registers_spec _ _ SparseRegisterStore_spec s a q Hs Ha Hq (or_intror (or_intror (or_introl eq_refl)))).
  - exact (@read_coils_spec _ _ SparseRegisterStore_spec s a q Hs Ha Hq (or_intror (or_intror (or_introl eq_refl)))).
  - exact (@read_discrete_inputs_spec _ _ SparseRegisterStore_spec s a q Hs Ha Hq (or_intror (or_intror (or_introl eq_refl)))).
Qed.

(** The request methods are the common path at the store's call. *)
Lemma manager_write_broadcast w m : manager_write 0 w m = broadcast (store_write w) (count_request m).
Proof. by destruct w. Qed.
Lemma manager_write_unit id w m : id ≠ 0 →
  manager_write id w m = on_unit id record_write (store_write w) (count_request m).
Proof. intros Hid. destruct w; unfold manager_write, mu_write_holding_register, mu_write_holding_registers, mu_write_coil, mu_write_coils; by rewrite (proj2 (Z.eqb_neq id 0) Hid). Qed.
Lemma on_unit_map {A B} (f : A → B) id rec (op : stM SparseRegisterStore ModbusError A) m :
  st_map f (on_unit id rec op) m = on_unit id rec (st_map f op) m.
Proof.
  unfold st_map, on_unit, st_bind. destruct (get_unit id m) as [[[u|]|e|] m']; try done.
  destruct (negb _); [done|]. by destruct (op (ui_registers u)) as [[x|e|] s].
Qed.
Lemma manager_read_unit id rd m : manager_read id rd m = on_unit id record_read (store_read rd) (count_request m).
Proof. destruct rd; exact (on_unit_map _ _ _ _ _). Qed.
End laws.

(* ------------------------------------------------------------------ *)
(** * Fresh stores *)

(** What a register configuration must satisfy for a store built from it to meet the interface:
    fixed defaults, ranges of 16-bit addresses, and initial contents of the right width. *)
Definition fresh_ok (c : RegisterStoreConfig) : Prop :=
  config_ok c ∧
  match initialization c with
  | Lazy | Eager => True
  | Pattern p => bytes_ok p
  | Snapshot s =>
      Forall (fun e => is_u16 e.1) (snap_coils s) ∧ Forall (fun e => is_u16 e.1) (snap_discrete_inputs s) ∧
      Forall (fun e => is_u16 e.1 ∧ is_u16 e.2) (snap_holding_registers s) ∧
      Forall (fun e => is_u16 e.1 ∧ is_u16 e.2) (snap_input_registers s)
  end.

Section fresh.
Context `{BuildProfile} `{SystemClock}.

Lemma generate_all {T X} (P : T → Prop) (value_for : X → Z → T * X) n : ∀ x a,
  (∀ y b, P (fst (value_for y b))) → Forall P (fst (generate value_for x a n)).
Proof.
  induction n as [|n IH]; intros x a HP; [constructor|]. simpl. specialize (HP x a) as Hv.
  destruct (value_for x a) as [v x1]. specialize (IH x1 (a + 1) HP). destruct (generate value_for x1 (a + 1) n).
  by constructor.
Qed.

Lemma pattern_value_range p i b : bytes_ok p → is_u16 (fst (pattern_value p i b)).
Proof.
  intros Hp. simpl. assert (∀ j, is_u8 (default 0 (p !! j))) as Hd.
  { intros j. destruct (p !! j) eqn:E; [by eapply Forall_lookup_1 in E|simpl; int_lia]. }
  apply u16_from_be_range; apply Hd.
Qed.

Lemma populate_if_stores {T X} `{RustDefault T} (P : T → Prop) get set `{!MapField get set} s t
    (value_for : X → Z → T * X) x :
  config_ok (sp_config s) → stores P (get s) → (∀ y b, P (fst (value_for y b))) →
  ∃ x' m', populate_if get set (get_range_config (sp_config s) t) value_for x s = (Ok x', set s m') ∧ stores P m'.
Proof.
  intros Hc (g & HR & HP) Hv. unfold populate_if. destruct (cfg_enabled _).
  - destruct (Hc t) as [[Hs He] _]. unfold get_range in Hs, He.
    pose proof (Rep_populate_range (E:=ModbusError) value_for (get s) g x _ _ HR Hs He) as Hp.
    match type of Hp with context [generate value_for x ?a ?n] =>
      pose proof (generate_all P value_for n x a Hv) as Hall; destruct (generate value_for x a n) as [vs x'] end.
    destruct Hp as (m' & Hrun & HR'). exists x', m'. unfold on_map. rewrite Hrun. split; [done|].
    eexists. split; [done|]. by apply map_Forall_insert_run.
  - exists x, (get s). rewrite set_get. split; [done|]. by exists g.
Qed.

Lemma insert_all_forall {T} (P : T → Prop) (l : list (Z * T)) : ∀ g,
  map_Forall (fun _ v => P v) g → Forall (fun e => P e.2) l → map_Forall (fun _ v => P v) (insert_all l g).
Proof.
  induction l as [|[a v] l IH]; intros g Hg Hl; [done|]. apply Forall_cons in Hl as [Hv Hl].
  simpl. apply IH; [|done]. by apply map_Forall_insert_2.
Qed.

Lemma insert_entries_stores {T} `{RustDefault T} (P : T → Prop) get set `{!MapField get set} l s :
  stores P (get s) → Forall (fun e => is_u16 e.1 ∧ P e.2) l →
  ∃ m', on_map get set (insert_entries (E:=ModbusError) l) s = (Ok tt, set s m') ∧ stores P m'.
Proof.
  intros (g & HR & HP) Hl. destruct (Rep_insert_entries (E:=ModbusError) l (get s) g HR) as (m' & Hrun & HR').
  { eapply Forall_impl; [done|]. by intros ? []. }
  exists m'. unfold on_map. rewrite Hrun. split; [done|]. eexists. split; [done|].
  apply insert_all_forall; [done|]. eapply Forall_impl; [done|]. by intros ? [].
Qed.

Lemma initialize_pattern_wf p s : sparse_wf s → bytes_ok p →
  ∃ s', initialize_pattern p s = (Ok tt, s') ∧ sparse_wf s'.
Proof.
  intros (Hc & H1 & H2 & H3 & H4) Hp. destruct p as [|b p]; [by exists s|]. set (pat := b :: p) in *.
  destruct (populate_if_stores is_u16 sp_holding_registers with_holding s HoldingRegister (pattern_value pat) 0%nat
    Hc H3) as (x1 & m1 & Hr1 & Hs1); [intros; by apply pattern_value_range|].
  destruct (populate_if_stores is_u16 sp_input_registers with_input (with_holding s m1) InputRegister
    (pattern_value pat) 0%nat Hc H4) as (x2 & m2 & Hr2 & Hs2); [intros; by apply pattern_value_range|].
  exists (with_input (with_holding s m1) m2). split; [|exact (conj Hc (conj H1 (conj H2 (conj Hs1 Hs2))))].
  unfold initialize_pattern. subst pat. cbn [get_range_config] in *. unfold st_bind. rewrite Hr1.
  change (sp_config (with_holding s m1)) with (sp_config s) in Hr2. by rewrite Hr2.
Qed.

Lemma load_snapshot_wf sn s : sparse_wf s →
  Forall (fun e => is_u16 e.1) (snap_coils sn) → Forall (fun e => is_u16 e.1) (snap_discrete_inputs sn) →
  Forall (fun e => is_u16 e.1 ∧ is_u16 e.2) (snap_holding_registers sn) →
  Forall (fun e => is_u16 e.1 ∧ is_u16 e.2) (snap_input_registers sn) →
  ∃ s', load_snapshot sn s = (Ok tt, s') ∧ sparse_wf s'.
Proof.
  intros (Hc & H1 & H2 & H3 & H4) Hs1 Hs2 Hs3 Hs4.
  assert (∀ l : list (Z * bool), Forall (fun e => is_u16 e.1) l → Forall (fun e => is_u16 e.1 ∧ True) l) as Hb
    by (intros l Hl; eapply Forall_impl; [done|]; done).
  destruct (insert_entries_stores (fun _ => True) sp_coils with_coils _ s H1 (Hb _ Hs1)) as (m1 & Hr1 & Hm1).
  set (s1 := with_coils s m1) in *.
  destruct (insert_entries_stores (fun _ => True) sp_discrete_inputs with_discrete _ s1 H2 (Hb _ Hs2)) as (m2 & Hr2 & Hm2).
  set (s2 := with_discrete s1 m2) in *.
  destruct (insert_entries_stores is_u16 sp_holding_registers with_holding _ s2 H3 Hs3) as (m3 & Hr3 & Hm3).
  set (s3 := with_holding s2 m3) in *.
  destruct (insert_entries_stores is_u16 sp_input_registers with_input _ s3 H4 Hs4) as (m4 & Hr4 & Hm4).
  exists (with_input s3 m4). unfold load_snapshot, st_bind. rewrite Hr1, Hr2, Hr3, Hr4.
  split; [done|]. exact (conj Hc (conj Hm1 (conj Hm2 (conj Hm3 Hm4)))).
Qed.

Lemma sparse_new_wf c : fresh_ok c → ∃ s, SparseRegisterStore_new c = (Ok tt, s) ∧ sparse_wf s.
Proof.
  intros [Hc Hi]. pose proof (empty_store_wf c Hc) as Hwf.
  unfold SparseRegisterStore_new, apply_initialization, st_bind. change (sp_config (empty_store c)) with c.
  destruct (initialization c) as [| |p|sn].
  - destruct (initialize_eager_spec c Hc) as (s & -> & Hs & _). by eexists.
  - by eexists.
  - destruct (initialize_pattern_wf p _ Hwf Hi) as (s & -> & Hs). by eexists.
  - destruct Hi as (H1&H2&H3&H4). destruct (load_snapshot_wf sn _ Hwf H1 H2 H3 H4) as (s & -> & Hs). by eexists.
Qed.
End fresh.

(* ------------------------------------------------------------------ *)
(** * Invariant *)

Definition unit_ok (id : Z) (u : UnitInfo) : Prop :=
  0 < id < 256 ∧ ui_unit_id u = id ∧ sparse_wf (ui_registers u).
Definition manager_ok (m : MultiUnitManager) : Prop :=
  map_Forall unit_ok (mu_units m) ∧ unit_count m ≤ max_units (mu_config m) ∧
  fresh_ok (default_register_config (mu_config m)).
Definition unit_config_ok (c : UnitConfig) : Prop := ∀ r, uc_register_config c = Some r → fresh_ok r.

(** The unit [u] became [u']: everything but the registers and the counters is as before. *)
Definition same_unit (u u' : UnitInfo) : Prop :=
  ui_unit_id u' = ui_unit_id u ∧ ui_config u' = ui_config u ∧ ui_converter u' = ui_converter u.

(** A unit that takes part in broadcasts, and what [k] deliveries of a write make of it. *)
Definition eligible (u : UnitInfo) : bool := UnitInfo_is_enabled u && UnitInfo_broadcast_enabled u.
Definition delivered (w : unit_write) (k : nat) (u u' : UnitInfo) : Prop :=
  if eligible u && (0 <? k)%nat then
    same_unit u u' ∧ sparse_view (ui_registers u') ≡ applied w (sparse_view (ui_registers u)) ∧
    ui_read_count u' = ui_read_count u ∧ ui_error_count u' = ui_error_count u ∧
    ui_write_count u' = (ui_write_count u + Z.of_nat k) mod 18446744073709551616
  else u' = u.

Definition occurrences (id : Z) (ids : list Z) : nat := length (filter (fun j => j = id) ids).

Lemma occurrences_cons id i ids :
  occurrences id (i :: ids) = if decide (i = id) then S (occurrences id ids) else occurrences id ids.
Proof. unfold occurrences. rewrite filter_cons. by case_decide. Qed.

Lemma delivered_compose w k u u1 u2 : eligible u = true →
  delivered w 1 u u1 → delivered w k u1 u2 → delivered w (S k) u u2.
Proof.
  unfold delivered. intros He. rewrite He. simpl. intros (Hs & Hv & Hr & Hx & Hc) Hd.
  assert (eligible u1 = true) as He1.
  { unfold eligible, UnitInfo_is_enabled, UnitInfo_broadcast_enabled in *. by rewrite (proj1 (proj2 Hs)). }
  rewrite He1 in Hd. destruct (Nat.ltb_spec 0 k) as [Hk|Hk]; simpl in Hd.
  - destruct Hd as (Hs2 & Hv2 & Hr2 & Hx2 & Hc2). split; [|split; [|split_and!; try congruence]].
    + destruct Hs as (?&?&?), Hs2 as (?&?&?). by split_and!; etrans.
    + by rewrite Hv2, Hv, applied_twice.
    + rewrite Hc2, Hc, Zplus_mod_idemp_l. f_equal. lia.
  - subst u2. assert (k = 0%nat) as -> by lia. by split_and!.
Qed.

Section invariant.
Context `{BuildProfile} `{SystemClock} `{UnitOrder}.

Lemma manager_ok_ext m m' :
  mu_units m' = mu_units m → mu_config m' = mu_config m → manager_ok m → manager_ok m'.
Proof. unfold manager_ok, unit_count. by intros -> ->. Qed.

Lemma put_unit_ok m id u u' : manager_ok m → mu_units m !! id = Some u → unit_ok id u' → manager_ok (put_unit m id u').
Proof.
  intros (Hu & Hn & Hf) Hid Hok. split_and!; [by apply map_Forall_insert_2| |done].
  unfold unit_count in *. simpl. by rewrite map_size_insert_Some.
Qed.

Lemma UnitInfo_new_spec id c o r : fresh_ok (default r (uc_register_config c)) → 0 < id < 256 →
  ∃ u, UnitInfo_new id c o r = Ok u ∧ unit_ok id u ∧ ui_config u = c ∧
    UnitInfo_word_order u = effective_word_order c o ∧
    SparseRegisterStore_new (default r (uc_register_config c)) = (Ok tt, ui_registers u).
Proof.
  intros Hf Hid. destruct (sparse_new_wf _ Hf) as (s & Hs & Hwf). unfold UnitInfo_new. rewrite Hs. simpl.
  eexists. split; [done|]. by split_and!.
Qed.

(** [add_unit] refuses unit 0, a full manager and an existing unit, in this order, and changes
    nothing then; otherwise it adds the unit and nothing else. *)
Lemma add_unit_spec m id c : manager_ok m → unit_config_ok c → 0 ≤ id < 256 →
  if id =? 0 then add_unit id c m = (Err (InvalidUnitId 0), m)
  else if max_units (mu_config m) <=? unit_count m then
    add_unit id c m = (Err (UnitLimitReached (max_units (mu_config m))), m)
  else match mu_units m !! id with
       | Some _ => add_unit id c m = (Err (UnitAlreadyExists id), m)
       | None => ∃ u, add_unit id c m = (Ok tt, put_unit m id u) ∧ manager_ok (put_unit m id u) ∧
           ui_config u = c ∧ UnitInfo_word_order u = effective_word_order c (default_word_order (mu_config m)) ∧
           SparseRegisterStore_new (default (default_register_config (mu_config m)) (uc_register_config c)) = (Ok tt, ui_registers u)
       end.
Proof.
  intros (Hu & Hn & Hf) Hc Hid. unfold add_unit. destruct (Z.eqb_spec id 0) as [|Hz]; [done|].
  destruct (Z.leb_spec (max_units (mu_config m)) (unit_count m)) as [|Hlt]; [done|].
  unfold has_unit. destruct (mu_units m !! id) as [u|] eqn:E; [by rewrite bool_decide_true by done|].
  rewrite bool_decide_false by (by intros []).
  destruct (UnitInfo_new_spec id c (default_word_order (mu_config m)) (default_register_config (mu_config m)))
    as (u & -> & Hok & Hcfg & Ho & Hs); [|lia|].
  { destruct (uc_register_config c) eqn:Er; simpl; [by apply Hc|done]. }
  exists u. split; [done|]. split_and!; [|done..]. split_and!; [by apply map_Forall_insert_2| |done].
  unfold unit_count in *. simpl. rewrite map_size_insert_None by done. lia.
Qed.

Definition auto_config (id : Z) : UnitConfig := UnitConfig_new (str "Auto-created Unit " ++ decimal id).

(** [get_unit]: an existing unit as it is; otherwise a new one, when units are created on demand
    and there is room for it. *)
Lemma get_unit_spec m id : manager_ok m → 0 < id < 256 →
  match mu_units m !! id with
  | Some u => get_unit id m = (Ok (Some u), m)
  | None =>
      if auto_create_units (mu_config m) && (unit_count m <? max_units (mu_config m)) then
        ∃ u, get_unit id m = (Ok (Some u), put_unit m id u) ∧ manager_ok (put_unit m id u) ∧
          ui_config u = auto_config id ∧
          UnitInfo_word_order u = default_word_order (mu_config m) ∧
          SparseRegisterStore_new (default_register_config (mu_config m)) = (Ok tt, ui_registers u)
      else get_unit id m = (Ok None, m)
  end.
Proof.
  intros Hm Hid. unfold get_unit. rewrite (proj2 (Z.eqb_neq id 0)) by lia.
  destruct (mu_units m !! id) as [u|] eqn:E; [done|].
  destruct (auto_create_units (mu_config m)) eqn:Ea; [|done]. cbn [andb].
  pose proof (add_unit_spec m id (auto_config id) Hm ltac:(done) ltac:(lia)) as Ha.
  rewrite (proj2 (Z.eqb_neq id 0)) in Ha by lia. rewrite E in Ha. unfold auto_config in Ha.
  destruct (Z.leb_spec (max_units (mu_config m)) (unit_count m)), (Z.ltb_spec (unit_count m) (max_units (mu_config m))); try lia.
  - by rewrite Ha.
  - destruct Ha as (u & -> & Hok & ? & ? & ?). exists u. split; [|done]. simpl. by rewrite lookup_insert_eq.
Qed.

Lemma delivered_one w u s : write_ok w → eligible u = true → sparse_wf (ui_registers u) →
  store_write w (ui_registers u) = s →
  s.1 ≠ Panic ∧ sparse_wf s.2 ∧ delivered w 1 u (record_write (ui_with_registers u s.2)).
Proof.
  intros Hw He Hs <-. pose proof (store_write_law w (ui_registers u) Hw Hs) as Hl.
  destruct (store_write w (ui_registers u)) as [r s]. destruct Hl as (Ha & Hwf & Hv). split_and!; [|done|].
  - unfold answers in Ha. destruct (span_valid _ _); [by subst r|]. by destruct Ha as (e & -> & _).
  - unfold delivered. rewrite He. by split_and!.
Qed.

Lemma broadcast_loop_spec w ids : write_ok w → ∀ m, manager_ok m →
  ∃ m', broadcast_loop (store_write w) ids m = (Ok tt, m') ∧ manager_ok m' ∧ mu_config m' = mu_config m ∧
    total_requests m' = total_requests m ∧ broadcast_count m' = broadcast_count m ∧
    ∀ id, match mu_units m !! id with
          | None => mu_units m' !! id = None
          | Some u => ∃ u', mu_units m' !! id = Some u' ∧ delivered w (occurrences id ids) u u'
          end.
Proof.
  intros Hw. assert (∀ w (u : UnitInfo), delivered w 0 u u) as Hzero.
  { intros w' u. unfold delivered. by rewrite andb_false_r. }
  induction ids as [|i ids IH]; intros m Hm.
  { exists m. do 5 (split; [done|]). intros id. destruct (mu_units m !! id) as [u|]; [|done]. by exists u. }
  assert (∀ u, mu_units m !! i = Some u → eligible u = true → unit_ok i u) as Hok by (intros; by apply (proj1 Hm)).
  assert ((∀ u, mu_units m !! i = Some u → eligible u = false) →
    broadcast_loop (store_write w) (i :: ids) m = broadcast_loop (store_write w) ids m) as Hskip.
  { intros Hn. simpl. destruct (mu_units m !! i) as [u|] eqn:E; [|done]. specialize (Hn u eq_refl).
    unfold eligible in Hn. by rewrite Hn. }
  destruct (mu_units m !! i) as [u|] eqn:E; [destruct (eligible u) eqn:He|].
  - destruct (Hok u eq_refl He) as (Hi & Hid & Hs).
    destruct (delivered_one w u _ Hw He Hs eq_refl) as (Hnp & Hwf & Hd).
    set (u1 := record_write (ui_with_registers u (store_write w (ui_registers u)).2)) in *.
    destruct (IH (put_unit m i u1)) as (m' & Hrun & Hm' & Hc & Ht & Hb & Hall); [by apply (put_unit_ok m i u)|].
    exists m'. split.
    { simpl. rewrite E. unfold eligible in He. rewrite He. subst u1.
      destruct (store_write w (ui_registers u)) as [[]]; done. }
    do 4 (split; [done|]). intros id. specialize (Hall id). simpl in Hall. rewrite occurrences_cons.
    destruct (decide (i = id)) as [->|Hne].
    + rewrite lookup_insert_eq in Hall. rewrite E. destruct Hall as (u' & Hu' & Hd'). exists u'. split; [done|].
      by eapply delivered_compose.
    + by rewrite lookup_insert_ne in Hall by done.
  - destruct (IH m Hm) as (m' & Hrun & Hm' & Hc & Ht & Hb & Hall). exists m'.
    rewrite Hskip by (intros; simplify_eq; done). do 5 (split; [done|]). intros id. specialize (Hall id).
    destruct (decide (i = id)) as [->|Hne].
    + rewrite E in *. destruct Hall as (u' & Hu' & Hd'). exists u'. split; [done|].
      unfold delivered in *. rewrite He in *. done.
    + by rewrite occurrences_cons, decide_False.
  - destruct (IH m Hm) as (m' & Hrun & Hm' & Hc & Ht & Hb & Hall). exists m'.
    rewrite Hskip by (intros; simplify_eq). do 5 (split; [done|]). intros id. specialize (Hall id).
    destruct (decide (i = id)) as [->|Hne]; [by rewrite E in *|].
    by rewrite occurrences_cons, decide_False.
Qed.
End invariant.

(* ------------------------------------------------------------------ *)
(** * Sequences of calls *)

Inductive unit_call : Type :=
| CallAdd (id : Z) (c : UnitConfig)
| CallRemove (id : Z)
| CallUpdate (id : Z) (f : UnitConfig → UnitConfig)
| CallRead (id : Z) (r : unit_read)
| CallWrite (id : Z) (w : unit_write)
| CallBroadcast (w : unit_write)
| CallReset.

Definition is_unit_id (id : Z) : Prop := 0 ≤ id < 256.
Definition call_ok (c : unit_call) : Prop :=
  match c with
  | CallAdd id c => is_unit_id id ∧ unit_config_ok c
  | CallRemove id | CallUpdate id _ => is_unit_id id
  | CallRead id r => is_unit_id id ∧ span_ok (read_span r)
  | CallWrite id w => is_unit_id id ∧ write_ok w
  | CallBroadcast w => write_ok w
  | CallReset => True
  end.

(** How many times a broadcast delivers its write to the unit [id]. *)
Definition deliveries (mode : BroadcastPolicy) (id : Z) : nat :=
  match mode with
  | WriteAll => 1
  | Disabled => 0
  | SelectiveList ids => occurrences id ids
  | EchoToUnit j => if decide (j = id) then 1 else 0
  end.

Section calls.
Context `{BuildProfile} `{SystemClock} `{UnitOrder}.

Definition run_call (c : unit_call) : stM MultiUnitManager ModbusError unit := fun m =>
  match c with
  | CallAdd id c => add_unit id c m
  | CallRemove id => (Ok tt, snd (remove_unit id m))
  | CallUpdate id f => update_unit id f m
  | CallRead id r => st_map (fun _ => tt) (manager_read id r) m
  | CallWrite id w => manager_write id w m
  | CallBroadcast w => broadcast (store_write w) m
  | CallReset => (Ok tt, reset_statistics m)
  end.
Fixpoint run_calls (cs : list unit_call) (m : MultiUnitManager) : list (outcome ModbusError unit) * MultiUnitManager :=
  match cs with
  | [] => ([], m)
  | c :: cs => let '(r, m1) := run_call c m in let '(rs, m2) := run_calls cs m1 in (r :: rs, m2)
  end.

Lemma targets_deliveries m id u : mu_units m !! id = Some u →
  occurrences id (get_broadcast_targets m) = deliveries (broadcast_mode (mu_config m)) id.
Proof.
  intros Hu. unfold get_broadcast_targets. destruct (broadcast_mode (mu_config m)) as [| |ids|j]; try done.
  - unfold occurrences, unit_ids. rewrite unit_iter_perm. change (length (filter (λ j, j = id) (map_to_list (mu_units m)).*1) = 1%nat).
    assert (filter (λ j, j = id) (map_to_list (mu_units m)).*1 ≡ₚ [id]) as ->; [|done].
    apply NoDup_Permutation; [apply NoDup_filter, NoDup_fst_map_to_list|apply NoDup_singleton|].
    intros x. rewrite list_elem_of_filter, list_elem_of_singleton. split; [by intros [-> _]|]. intros ->. split; [done|].
    apply list_elem_of_fmap. exists (id, u). by rewrite elem_of_map_to_list.
  - rewrite occurrences_cons. simpl. by destruct (decide (j = id)).
Qed.

Lemma broadcast_spec w m : write_ok w → manager_ok m →
  ∃ m', broadcast (store_write w) m = (Ok tt, m') ∧ manager_ok m' ∧ mu_config m' = mu_config m ∧
    total_requests m' = total_requests m ∧ broadcast_count m' = bump (broadcast_count m) ∧
    ∀ id, match mu_units m !! id with
          | None => mu_units m' !! id = None
          | Some u => ∃ u', mu_units m' !! id = Some u' ∧ delivered w (deliveries (broadcast_mode (mu_config m)) id) u u'
          end.
Proof.
  intros Hw Hm. set (m1 := count_broadcast m). unfold broadcast. fold m1.
  destruct (broadcast_loop_spec w (get_broadcast_targets m1) Hw m1) as (m' & Hrun & Hm' & Hc & Ht & Hb & Hall).
  { by apply (manager_ok_ext m). }
  exists m'. do 5 (split; [done|]). intros id. specialize (Hall id). change (mu_units m1) with (mu_units m) in Hall.
  destruct (mu_units m !! id) as [u|] eqn:E; [|done].
  by rewrite (targets_deliveries m1 id u E) in Hall.
Qed.

(** A request to a unit that exists, whatever it does to the store. *)
Lemma on_unit_present {A} id rec (op : stM SparseRegisterStore ModbusError A) m u :
  id ≠ 0 → mu_units m !! id = Some u →
  on_unit id rec op m =
    if UnitInfo_is_enabled u
    then ((op (ui_registers u)).1, put_unit m id (ui_with_registers (rec u) (op (ui_registers u)).2))
    else (Err (UnitDisabled id), put_unit m id (record_error u)).
Proof.
  intros Hid Hu. unfold on_unit, st_bind, get_unit. rewrite (proj2 (Z.eqb_neq id 0) Hid), Hu.
  destruct (UnitInfo_is_enabled u); [|done]. simpl. by destruct (op (ui_registers u)).
Qed.

Lemma on_unit_absent {A} id rec (op : stM SparseRegisterStore ModbusError A) m :
  id = 0 ∨ (mu_units m !! id = None ∧ auto_create_units (mu_config m) = false) →
  on_unit id rec op m = (Err (UnitNotFound id), m).
Proof.
  intros Hid. unfold on_unit, st_bind, get_unit. destruct (Z.eqb_spec id 0); [done|].
  destruct Hid as [?|[-> ->]]; done.
Qed.

(** On demand: the request is answered as if the unit had been added just before. *)
Lemma on_unit_created {A} id rec (op : stM SparseRegisterStore ModbusError A) m :
  manager_ok m → 0 < id < 256 → mu_units m !! id = None → auto_create_units (mu_config m) = true →
  if unit_count m <? max_units (mu_config m)
  then ∃ u, add_unit id (auto_config id) m = (Ok tt, put_unit m id u) ∧ manager_ok (put_unit m id u) ∧
         on_unit id rec op m = on_unit id rec op (put_unit m id u)
  else on_unit id rec op m = (Err (UnitNotFound id), m).
Proof.
  intros Hm Hid Hn Ha. pose proof (get_unit_spec m id Hm Hid) as Hg. rewrite Hn, Ha in Hg. cbn [andb] in Hg.
  destruct (Z.ltb_spec (unit_count m) (max_units (mu_config m))) as [Hlt|Hge].
  - destruct Hg as (u & Hg & Hok & Hc & _). exists u. split; [|split; [done|]].
    + unfold get_unit in Hg. rewrite (proj2 (Z.eqb_neq id 0)), Hn, Ha in Hg by lia. fold (auto_config id) in Hg.
      pose proof (add_unit_spec m id (auto_config id) Hm ltac:(done) ltac:(lia)) as Hs.
      rewrite (proj2 (Z.eqb_neq id 0)), (proj2 (Z.leb_gt _ _) Hlt), Hn in Hs by lia.
      destruct Hs as (u' & Hs & _). rewrite Hs in *. simpl in Hg. rewrite lookup_insert_eq in Hg.
      by simplify_eq.
    + unfold on_unit, st_bind. rewrite Hg. unfold get_unit. rewrite (proj2 (Z.eqb_neq id 0)) by lia.
      simpl. by rewrite lookup_insert_eq.
  - unfold on_unit, st_bind. by rewrite Hg.
Qed.

Lemma on_unit_keeps_ok {A} id rec (op : stM SparseRegisterStore ModbusError A) m :
  manager_ok m → is_unit_id id → (∀ u, ui_unit_id (rec u) = ui_unit_id u) →
  (∀ s, sparse_wf s → (op s).1 ≠ Panic ∧ sparse_wf (op s).2) →
  (on_unit id rec op m).1 ≠ Panic ∧ manager_ok (on_unit id rec op m).2 ∧ mu_config (on_unit id rec op m).2 = mu_config m.
Proof.
  intros Hm Hid Hrec Hop.
  assert (∀ m u, manager_ok m → mu_units m !! id = Some u → id ≠ 0 →
    (on_unit id rec op m).1 ≠ Panic ∧ manager_ok (on_unit id rec op m).2 ∧ mu_config (on_unit id rec op m).2 = mu_config m) as Hpresent.
  { intros m' u Hm' Hu Hz. rewrite (on_unit_present id rec op m' u Hz Hu).
    destruct (proj1 Hm' id u Hu) as (Hi & He & Hs). destruct (Hop _ Hs).
    destruct (UnitInfo_is_enabled u); (split; [done|]); (split; [|done]); apply (put_unit_ok m' id u); try done.
    split; [done|]. split; [|done]. simpl. by rewrite Hrec. }
  destruct (decide (id = 0)) as [->|Hz]; [rewrite on_unit_absent by auto; done|].
  destruct (mu_units m !! id) as [u|] eqn:E; [by eapply Hpresent|].
  destruct (auto_create_units (mu_config m)) eqn:Ha; [|rewrite on_unit_absent by auto; done].
  pose proof (on_unit_created id rec op m Hm ltac:(unfold is_unit_id in Hid; lia) E Ha) as Hc.
  destruct (unit_count m <? _); [|by rewrite Hc].
  destruct Hc as (u & _ & Hok & ->). change (mu_config m) with (mu_config (put_unit m id u)).
  apply (Hpresent _ u); [done| |done]. simpl. apply lookup_insert_eq.
Qed.

Lemma answers_no_panic {A} valid (v : A) r : answers valid v r → r ≠ Panic.
Proof. destruct valid; simpl; [by intros ->|]. by intros (e & -> & _). Qed.

Lemma run_call_ok c m : manager_ok m → call_ok c →
  (run_call c m).1 ≠ Panic ∧ manager_ok (run_call c m).2 ∧ mu_config (run_call c m).2 = mu_config m.
Proof.
  intros Hm Hc. assert (manager_ok (count_request m)) as Hr by by apply (manager_ok_ext m).
  assert (∀ w, write_ok w → (broadcast (store_write w) m).1 ≠ Panic ∧ manager_ok (broadcast (store_write w) m).2 ∧
    mu_config (broadcast (store_write w) m).2 = mu_config m) as Hbc.
  { intros w Hw. by destruct (broadcast_spec w m Hw Hm) as (m' & -> & ? & ? & _). }
  destruct c as [id c|id|id f|id r|id w|w|]; simpl in *.
  - destruct Hc as [Hid Hc]. pose proof (add_unit_spec m id c Hm Hc Hid) as Ha.
    destruct (id =? 0); [by rewrite Ha|]. destruct (_ <=? _); [by rewrite Ha|].
    destruct (mu_units m !! id); [by rewrite Ha|]. by destruct Ha as (u & -> & ? & _).
  - split; [done|]. split; [|done]. destruct Hm as (Hu & Hn & Hf). split_and!; [by apply map_Forall_delete| |done].
    unfold unit_count in *. simpl. rewrite map_size_delete. destruct (mu_units m !! id); simpl; lia.
  - unfold update_unit. destruct (mu_units m !! id) as [u|] eqn:E; [|done]. split; [done|]. split; [|done].
    apply (put_unit_ok m id u); [done..|]. exact (proj1 Hm id u E).
  - destruct Hc as [Hid Hr']. unfold st_map. rewrite manager_read_unit.
    destruct (on_unit_keeps_ok id record_read (store_read r) (count_request m) Hr Hid) as (Hp & Hok & Hcfg); [done| |].
    { intros s Hs. pose proof (store_read_law r s Hr' Hs) as Hl. destruct (store_read r s) as [x s'].
      destruct Hl as (Ha & ? & _). split; [by eapply answers_no_panic|done]. }
    destruct (on_unit id record_read _ _) as [[]]; done.
  - destruct Hc as [Hid Hw]. destruct (decide (id = 0)) as [->|Hz].
    { rewrite manager_write_broadcast. by destruct (broadcast_spec w _ Hw Hr) as (m' & -> & ? & ? & _). }
    rewrite manager_write_unit by done. change (mu_config m) with (mu_config (count_request m)).
    apply on_unit_keeps_ok; [done..|].
    intros s Hs. pose proof (store_write_law w s Hw Hs) as Hl. destruct (store_write w s) as [x s'].
    destruct Hl as (Ha & ? & _). split; [by eapply answers_no_panic|done].
  - by apply Hbc.
  - split; [done|]. split; [|done]. destruct Hm as (Hu & Hn & Hf). split_and!; [|by unfold unit_count in *; simpl; rewrite map_size_fmap|done].
    intros id u. simpl. rewrite lookup_fmap_Some. intros (u' & <- & Hu'). exact (Hu id u' Hu').
Qed.

Lemma run_calls_ok cs : ∀ m, manager_ok m → Forall call_ok cs →
  Forall (fun r => r ≠ Panic) (run_calls cs m).1 ∧ manager_ok (run_calls cs m).2 ∧ mu_config (run_calls cs m).2 = mu_config m.
Proof.
  induction cs as [|c cs IH]; intros m Hm Hcs; [done|]. apply Forall_cons in Hcs as [Hc Hcs]. simpl.
  destruct (run_call_ok c m Hm Hc) as (Hp & Hm1 & Hcfg). destruct (run_call c m) as [r m1]. simpl in *.
  destruct (IH m1 Hm1 Hcs) as (Hps & Hm2 & Hcfg2). destruct (run_calls cs m1) as [rs m2]. simpl in *.
  split; [by constructor|]. split; [done|congruence].
Qed.
End calls.

(* ------------------------------------------------------------------ *)
(** * Properties *)

Section properties.
Context `{BuildProfile} `{SystemClock} `{UnitOrder}.

(** whatever sequence of calls a manager receives from its creation on, no call panics, there
    are never more units than configured, unit 0 never exists, every unit is stored under its
    own number and every store meets the interface of a register store. *)
Theorem manager_safe (c : UnitManagerConfig) (cs : list unit_call) :
  fresh_ok (default_register_config c) → 0 ≤ max_units c → Forall call_ok cs →
  let '(rs, m) := run_calls cs (MultiUnitManager_new c) in
  Forall (fun r => r ≠ Panic) rs ∧ unit_count m ≤ max_units c ∧ mu_units m !! 0 = None ∧
  ∀ id u, mu_units m !! id = Some u → ui_unit_id u = id ∧ sparse_wf (ui_registers u).
Proof.
  intros Hf Hmax Hcs. assert (manager_ok (MultiUnitManager_new c)) as Hm by by split_and!.
  destruct (run_calls_ok cs _ Hm Hcs) as (Hp & (Hu & Hn & _) & Hcfg).
  destruct (run_calls cs (MultiUnitManager_new c)) as [rs m]. simpl in *. split; [done|].
  split; [by rewrite Hcfg in Hn|]. split.
  - destruct (mu_units m !! 0) as [u|] eqn:E; [|done]. destruct (Hu 0 u E) as [? _]. lia.
  - intros id u E. by destruct (Hu id u E) as (_ & ? & ?).
Qed.

(** C34: a write to unit 0 reaches exactly the units it is meant for.  It always succeeds; every unit
    the broadcast mode names that is enabled and takes part in broadcasts holds the written
    registers afterwards, when the span is valid in its own store, and has counted the writes
    delivered to it; every other unit is unchanged, to the last counter. *)
Theorem broadcast_delivered (m : MultiUnitManager) (w : unit_write) :
  manager_ok m → write_ok w →
  ∃ m', manager_write 0 w m = (Ok tt, m') ∧ manager_ok m' ∧
    total_requests m' = bump (total_requests m) ∧ broadcast_count m' = bump (broadcast_count m) ∧
    ∀ id, match mu_units m !! id with
          | None => mu_units m' !! id = None
          | Some u => ∃ u', mu_units m' !! id = Some u' ∧
              if (UnitInfo_is_enabled u && UnitInfo_broadcast_enabled u) &&
                 (0 <? deliveries (broadcast_mode (mu_config m)) id)%nat
              then same_unit u u' ∧ sparse_view (ui_registers u') ≡ applied w (sparse_view (ui_registers u)) ∧
                   ui_read_count u' = ui_read_count u ∧ ui_error_count u' = ui_error_count u ∧
                   ui_write_count u' =
                     (ui_write_count u + Z.of_nat (deliveries (broadcast_mode (mu_config m)) id)) mod 18446744073709551616
              else u' = u
          end.
Proof.
  intros Hm Hw. rewrite manager_write_broadcast.
  destruct (broadcast_spec w (count_request m) Hw (manager_ok_ext m _ eq_refl eq_refl Hm))
    as (m' & Hrun & Hm' & _ & Ht & Hb & Hall). by exists m'.
Qed.

(** a request to one unit concerns that unit only.  A unit that exists and is enabled answers
    as its register map does and counts the request; a disabled unit answers with an error and
    counts it; no other unit changes. *)
Theorem unit_request_confined (m : MultiUnitManager) (id : Z) (u : UnitInfo) (w : unit_write) (rd : unit_read) :
  manager_ok m → mu_units m !! id = Some u → write_ok w → span_ok (read_span rd) →
  (let '(r, m') := manager_write id w m in
   manager_ok m' ∧ (∀ j, j ≠ id → mu_units m' !! j = mu_units m !! j) ∧
   ∃ u', mu_units m' !! id = Some u' ∧
     if UnitInfo_is_enabled u
     then answers (span_valid (sparse_view (ui_registers u)) (write_span w)) tt r ∧ same_unit u u' ∧
          sparse_view (ui_registers u') ≡ applied w (sparse_view (ui_registers u)) ∧ ui_write_count u' = bump (ui_write_count u)
     else r = Err (UnitDisabled id) ∧ u' = record_error u) ∧
  (let '(r, m') := manager_read id rd m in
   manager_ok m' ∧ (∀ j, j ≠ id → mu_units m' !! j = mu_units m !! j) ∧
   ∃ u', mu_units m' !! id = Some u' ∧
     if UnitInfo_is_enabled u
     then answers (span_valid (sparse_view (ui_registers u)) (read_span rd)) (read_model rd (sparse_view (ui_registers u))) r ∧
          same_unit u u' ∧ sparse_view (ui_registers u') ≡ sparse_view (ui_registers u) ∧ ui_read_count u' = bump (ui_read_count u)
     else r = Err (UnitDisabled id) ∧ u' = record_error u).
Proof.
  intros Hm Hu Hw Hr. destruct (proj1 Hm id u Hu) as (Hi & He & Hs).
  assert (∀ u', unit_ok id u' → manager_ok (put_unit (count_request m) id u') ∧
    (∀ j, j ≠ id → mu_units (put_unit (count_request m) id u') !! j = mu_units m !! j) ∧
    mu_units (put_unit (count_request m) id u') !! id = Some u') as Hput.
  { intros u' Hok. split; [apply (put_unit_ok _ id u); [by apply (manager_ok_ext m)|done..]|].
    split; [intros j Hj; by apply lookup_insert_ne|apply lookup_insert_eq]. }
  rewrite manager_write_unit by lia. rewrite manager_read_unit.
  rewrite !(on_unit_present id _ _ (count_request m) u) by (lia || done).
  destruct (UnitInfo_is_enabled u).
  - pose proof (store_write_law w _ Hw Hs) as Hlw. pose proof (store_read_law rd _ Hr Hs) as Hlr.
    destruct (store_write w (ui_registers u)) as [rw sw], (store_read rd (ui_registers u)) as [rr sr].
    destruct Hlw as (? & Hsw & ?), Hlr as (? & Hsr & ?). cbn [fst snd]. split.
    + destruct (Hput (ui_with_registers (record_write u) sw) (conj Hi (conj He Hsw))) as (? & ? & ?).
      split; [done|]. split; [done|]. eexists. split; [done|]. by split_and!.
    + destruct (Hput (ui_with_registers (record_read u) sr) (conj Hi (conj He Hsr))) as (? & ? & ?).
      split; [done|]. split; [done|]. eexists. split; [done|]. by split_and!.
  - destruct (Hput (record_error u)) as (? & ? & ?); [done|]. split; (split; [done|split; [done|by eexists]]).
Qed.

(** what is broadcast can be read from every unit: after a write of registers to unit 0, each
    unit that received it answers a read of the same registers with the values written. *)
Theorem broadcast_then_read (m : MultiUnitManager) (id : Z) (u : UnitInfo) (a : Z) (vs : list Z) :
  manager_ok m → mu_units m !! id = Some u → write_ok (WriteHoldings a vs) →
  UnitInfo_is_enabled u = true → UnitInfo_broadcast_enabled u = true →
  (0 < deliveries (broadcast_mode (mu_config m)) id)%nat →
  m_valid (sparse_view (ui_registers u)) HoldingRegister a (zlen vs) = true →
  ∃ m1 m2, mu_write_holding_registers 0 a vs m = (Ok tt, m1) ∧ mu_read_holding_registers id a (zlen vs) m1 = (Ok vs, m2).
Proof.
  intros Hm Hu Hw He Hb Hd Hv.
  destruct (broadcast_spec (WriteHoldings a vs) (count_request m) Hw (manager_ok_ext m _ eq_refl eq_refl Hm))
    as (m1 & Hrun & Hm1 & _ & _ & _ & Hall). exists m1.
  specialize (Hall id). simpl in Hall. rewrite Hu in Hall. destruct Hall as (u1 & Hu1 & Hdel).
  unfold delivered, eligible in Hdel. rewrite He, Hb, (proj2 (Nat.ltb_lt _ _) Hd) in Hdel.
  destruct Hdel as ((_ & Hcfg & _) & Hview & _). destruct (proj1 Hm1 id u1 Hu1) as (Hi & _ & Hs1).
  pose proof (@read_holding_registers_spec _ _ SparseRegisterStore_spec (ui_registers u1) a (zlen vs) Hs1 (proj1 (proj1 Hw)) (proj2 (proj1 Hw))
    (or_intror (or_intror (or_introl eq_refl)))) as Hrd.
  unfold mu_read_holding_registers. rewrite (on_unit_present id _ _ (count_request m1) u1) by (lia || done).
  assert (UnitInfo_is_enabled u1 = true) as -> by (unfold UnitInfo_is_enabled in *; by rewrite Hcfg).
  change (read_holding_registers a (zlen vs) (ui_registers u1)) with (SparseRegisterStore_read_holding_registers a (zlen vs) (ui_registers u1)) in Hrd.
  destruct (SparseRegisterStore_read_holding_registers a (zlen vs) (ui_registers u1)) as [r s]. destruct Hrd as (Hans & _).
  change (@view _ _ SparseRegisterStore_spec) with sparse_view in Hans. rewrite Hview in Hans. unfold applied, span_valid in Hans.
  simpl write_span in Hans. cbn [fst snd] in Hans. rewrite Hv in Hans. simpl write_model in Hans. cbn [m_valid m_write_words] in Hans.
  rewrite Hv in Hans. cbn [answers] in Hans. rewrite m_read_write_words in Hans. subst r.
  eexists. split; [exact Hrun|reflexivity].
Qed.

(** with units created on demand, a request to an absent unit is answered as if the unit had
    been added just before, while there is room; otherwise, and for unit 0 when it reads, the
    answer is that there is no such unit, and nothing changes but the request counter. *)
Theorem units_on_demand (m : MultiUnitManager) (id : Z) (rd : unit_read) (w : unit_write) :
  manager_ok m → 0 < id < 256 → mu_units m !! id = None →
  manager_read 0 rd m = (Err (UnitNotFound 0), count_request m) ∧
  if auto_create_units (mu_config m) && (unit_count m <? max_units (mu_config m))
  then ∃ u, add_unit id (auto_config id) m = (Ok tt, put_unit m id u) ∧ manager_ok (put_unit m id u) ∧
         UnitInfo_is_enabled u = true ∧ UnitInfo_word_order u = default_word_order (mu_config m) ∧
         manager_read id rd m = manager_read id rd (put_unit m id u) ∧
         manager_write id w m = manager_write id w (put_unit m id u)
  else manager_read id rd m = (Err (UnitNotFound id), count_request m) ∧
       manager_write id w m = (Err (UnitNotFound id), count_request m).
Proof.
  intros Hm Hid Hn. rewrite !manager_read_unit, !manager_write_unit by lia.
  rewrite (on_unit_absent 0) by auto. split; [done|].
  destruct (auto_create_units (mu_config m)) eqn:Ha; [|rewrite !on_unit_absent by auto; done]. cbn [andb].
  pose proof (get_unit_spec m id Hm Hid) as Hg. rewrite Hn, Ha in Hg. cbn [andb] in Hg.
  pose proof (get_unit_spec (count_request m) id (manager_ok_ext m _ eq_refl eq_refl Hm) Hid) as Hg'.
  cbn [count_request mu_units mu_config] in Hg'. rewrite Hn, Ha in Hg'. cbn [andb] in Hg'.
  change (unit_count (count_request m)) with (unit_count m) in Hg'.
  destruct (Z.ltb_spec (unit_count m) (max_units (mu_config m))) as [Hlt|Hge].
  - pose proof (add_unit_spec m id (auto_config id) Hm ltac:(done) ltac:(lia)) as Hs.
    rewrite (proj2 (Z.eqb_neq id 0)), (proj2 (Z.leb_gt _ _) Hlt), Hn in Hs by lia.
    destruct Hs as (u & Hadd & Hok & Hc & Ho & Hst). exists u. split; [done|]. split; [done|].
    split; [unfold UnitInfo_is_enabled; by rewrite Hc|]. split; [done|].
    assert (get_unit id (count_request m) = (Ok (Some u), count_request (put_unit m id u))) as Hget.
    { unfold get_unit. rewrite (proj2 (Z.eqb_neq id 0)) by lia. cbn [count_request mu_units mu_config]. rewrite Hn, Ha.
      fold (auto_config id). unfold add_unit in Hadd |- *.
      rewrite (proj2 (Z.eqb_neq id 0)) in Hadd |- * by lia. cbn [count_request mu_config].
      change (unit_count (count_request m)) with (unit_count m).
      change (has_unit (count_request m) id) with (has_unit m id).
      rewrite (proj2 (Z.leb_gt _ _) Hlt) in Hadd |- *. destruct (has_unit m id); [done|].
      destruct (UnitInfo_new id (auto_config id) _ _) as [u'| |]; [|done..]. simpl.
      assert (u' = u) as ->; [|by rewrite lookup_insert_eq].
      injection Hadd as Heq. apply (f_equal (.!! id)) in Heq. rewrite !lookup_insert_eq in Heq. by simplify_eq. }
    assert (∀ A rec (op : stM SparseRegisterStore ModbusError A),
      on_unit id rec op (count_request m) = on_unit id rec op (count_request (put_unit m id u))) as Hsame; [|rewrite manager_read_unit, manager_write_unit by lia; split; apply Hsame].
    intros A rec op. unfold on_unit, st_bind. rewrite Hget. unfold get_unit. rewrite (proj2 (Z.eqb_neq id 0)) by lia.
    cbn [count_request mu_units put_unit mu_with_units]. by rewrite lookup_insert_eq.
  - unfold on_unit, st_bind. by rewrite Hg'.
Qed.

(** the word order of a unit is fixed when the unit is added: changing it through [update_unit]
    changes the configuration the unit reports and leaves its converter as it was. *)
Theorem word_order_fixed_at_creation (m : MultiUnitManager) (id : Z) (u : UnitInfo) (o : WordOrder) :
  mu_units m !! id = Some u →
  ∃ m' u', update_unit id (fun c => UnitConfig_set_word_order c (Some o)) m = (Ok tt, m') ∧ mu_units m' !! id = Some u' ∧
    effective_word_order (ui_config u') (default_word_order (mu_config m')) = o ∧ UnitInfo_word_order u' = UnitInfo_word_order u.
Proof.
  intros Hu. unfold update_unit. rewrite Hu. do 2 eexists. split; [done|]. simpl. rewrite lookup_insert_eq. done.
Qed.
End properties.

(* ------------------------------------------------------------------ *)
(** * Witnesses *)

Section witnesses.
#[local] Instance unit_profile : BuildProfile := release_build.
#[local] Instance unit_clock : SystemClock := {| now := fun _ => None |}.
#[local] Instance unit_order : UnitOrder := {| unit_iter := map_to_list; unit_iter_perm _ := Permutation_refl _ |}.

Lemma minimal_fresh : fresh_ok RegisterStoreConfig_minimal.
Proof. split; [|done]. intros []; (split; [closed|done]). Qed.

Definition sample_calls : list unit_call :=
  [CallAdd 1 (UnitConfig_new (str "A")); CallAdd 2 (UnitConfig_with_broadcast (UnitConfig_new (str "B")) false);
   CallWrite 0 (WriteHoldings 5 [7; 8]); CallRead 1 (ReadHolding 5 2); CallRead 3 (ReadCoils 0 1)].

Lemma sample_calls_ok : Forall call_ok sample_calls.
Proof.
  repeat (apply Forall_cons; split); try done; try (split; [closed|done]); repeat (apply Forall_cons; split); try done; closed.
Qed.

Lemma manager_safe_witness :
  Forall (fun r => r ≠ Panic) (fst (run_calls sample_calls (MultiUnitManager_new UnitManagerConfig_for_testing))).
Proof.
  pose proof (manager_safe UnitManagerConfig_for_testing sample_calls minimal_fresh ltac:(simpl; lia) sample_calls_ok) as Hs.
  destruct (run_calls sample_calls (MultiUnitManager_new UnitManagerConfig_for_testing)). exact (proj1 Hs).
Defined.

(** Two units: the first takes part in broadcasts, the second does not. *)
Definition sample_manager : MultiUnitManager :=
  snd (run_calls (take 2 sample_calls) (MultiUnitManager_new UnitManagerConfig_for_testing)).
Definition sample_unit (id : Z) : UnitInfo :=
  match UnitInfo_new id (UnitConfig_with_broadcast (UnitConfig_new (str (if id =? 1 then "A" else "B"))) (id =? 1))
          BigEndian RegisterStoreConfig_minimal with
  | Ok u => u
  | _ => {| ui_unit_id := 0; ui_config := UnitConfig_default; ui_registers := empty_store RegisterStoreConfig_minimal;
            ui_converter := RegisterConverter_new BigEndian; ui_read_count := 0; ui_write_count := 0; ui_error_count := 0 |}
  end.

Lemma sample_manager_ok : manager_ok sample_manager.
Proof.
  unfold sample_manager. apply run_calls_ok; [|apply Forall_take, sample_calls_ok].
  split_and!; [done|vm_compute; congruence|apply minimal_fresh].
Qed.
Lemma sample_manager_unit : mu_units sample_manager !! 1 = Some (sample_unit 1).
Proof. vm_compute. reflexivity. Qed.
Lemma sample_write_ok : write_ok (WriteHoldings 5 [7; 8]).
Proof. split; [closed|]. repeat constructor; closed. Qed.

Lemma broadcast_delivered_witness :
  ∃ m', manager_write 0 (WriteHoldings 5 [7; 8]) sample_manager = (Ok tt, m') ∧ manager_ok m' ∧
    broadcast_count m' = 1 ∧ mu_units m' !! 2 = mu_units sample_manager !! 2.
Proof.
  destruct (broadcast_delivered sample_manager (WriteHoldings 5 [7; 8]) sample_manager_ok sample_write_ok)
    as (m' & Hrun & Hok & _ & Hb & Hall).
  exists m'. split; [exact Hrun|]. split; [exact Hok|]. split; [rewrite Hb; vm_compute; reflexivity|].
  specialize (Hall 2). destruct (mu_units sample_manager !! 2) as [u|] eqn:E; [|exact Hall].
  destruct Hall as (u' & Hu' & Hd). rewrite Hu'. f_equal.
  assert (u = sample_unit 2) as -> by (vm_compute in E |- *; congruence). exact Hd.
Defined.

Lemma unit_request_confined_witness :
  ∃ r m', manager_write 1 (WriteHoldings 5 [7; 8]) sample_manager = (r, m') ∧ manager_ok m' ∧
    mu_units m' !! 2 = mu_units sample_manager !! 2.
Proof.
  pose proof (unit_request_confined sample_manager 1 (sample_unit 1) (WriteHoldings 5 [7; 8]) (ReadHolding 5 2)
    sample_manager_ok sample_manager_unit sample_write_ok ltac:(closed)) as [Hw _].
  destruct (manager_write 1 (WriteHoldings 5 [7; 8]) sample_manager) as [r m'].
  exists r, m'. split; [reflexivity|]. split; [exact (proj1 Hw)|]. apply (proj1 (proj2 Hw)). discriminate.
Defined.

Lemma broadcast_then_read_witness :
  ∃ m1 m2, mu_write_holding_registers 0 5 [7; 8] sample_manager = (Ok tt, m1) ∧
    mu_read_holding_registers 1 5 2 m1 = (Ok [7; 8], m2).
Proof.
  exact (broadcast_then_read sample_manager 1 (sample_unit 1) 5 [7; 8] sample_manager_ok sample_manager_unit
    sample_write_ok eq_refl eq_refl ltac:(vm_compute; lia) ltac:(vm_compute; reflexivity)).
Defined.

Lemma units_on_demand_witness :
  ∃ u, add_unit 3 (auto_config 3) sample_manager = (Ok tt, put_unit sample_manager 3 u) ∧ UnitInfo_is_enabled u = true.
Proof.
  destruct (units_on_demand sample_manager 3 (ReadHolding 5 2) (WriteHoldings 5 [7; 8]) sample_manager_ok ltac:(lia)
    ltac:(vm_compute; reflexivity)) as [_ Hd].
  destruct (auto_create_units (mu_config sample_manager) && (unit_count sample_manager <? max_units (mu_config sample_manager))) eqn:E.
  - destruct Hd as (u & Ha & _ & He & _). exists u. split; [exact Ha|exact He].
  - vm_compute in E. discriminate.
Defined.

Lemma word_order_fixed_at_creation_witness :
  ∃ m' u', update_unit 1 (fun c => UnitConfig_set_word_order c (Some LittleEndian)) sample_manager = (Ok tt, m') ∧
    mu_units m' !! 1 = Some u' ∧ effective_word_order (ui_config u') (default_word_order (mu_config m')) = LittleEndian ∧
    UnitInfo_word_order u' = UnitInfo_word_order (sample_unit 1).
Proof. exact (word_order_fixed_at_creation sample_manager 1 (sample_unit 1) LittleEndian sample_manager_unit). Defined.
End witnesses.
