(* ===== verification/ModbusFaults.v ===== *)
(** Fault injection of the Modbus servers ([fault_injection/]): which requests a fault targets,
    the ten faults, the pipeline that composes them, connection disruption and RTU timing plans,
    and what the servers put on the wire for each action ([tcp/server.rs], [rtu/server.rs]).

    Random draws and clock readings come from an environment: draw number [n] is a value in the
    range asked for, and a counter of draws is threaded through the code.  Durations are in
    nanoseconds.  Probabilities and percentages are binary64 numbers. *)

From S2P Require Import Prelude Float ModbusPdu ModbusRtu ModbusMbap.
From Stdlib Require Import Floats.SpecFloat.

(** [rng.gen_range(lo..=hi)], [rng.gen::<f64>()] and the clock, by number of the call.  The
    generator does not return one value for ever: among [patience] draws in a row from a range
    of at least two values there is one different from any given value. *)
Class FaultEnv : Type := {
  gen_range : nat → Z → Z → Z;
  gen_range_spec : ∀ n lo hi, lo ≤ hi → lo ≤ gen_range n lo hi ≤ hi;
  gen_f64 : nat → spec_float;
  patience : nat;
  patience_spec : ∀ n lo hi x, lo < hi → ∃ k, (k < patience)%nat ∧ gen_range (n + k) lo hi ≠ x;
  epoch_ms : nat → Z;
}.

Definition wrap64 (x : Z) : Z := x mod 18446744073709551616.

(* ------------------------------------------------------------------ *)
(** * Statistics *)

Record FaultStats : Set := {
  fs_checks : Z;
  fs_activations : Z;
  fs_affected_requests : Z;
  fs_enabled : bool;
  fs_last_activation_ms : Z;
}.
Definition FaultStats_new : FaultStats :=
  {| fs_checks := 0; fs_activations := 0; fs_affected_requests := 0; fs_enabled := true; fs_last_activation_ms := 0 |}.
Definition record_check (s : FaultStats) : FaultStats :=
  {| fs_checks := wrap64 (fs_checks s + 1); fs_activations := fs_activations s; fs_affected_requests := fs_affected_requests s;
     fs_enabled := fs_enabled s; fs_last_activation_ms := fs_last_activation_ms s |}.
Definition record_activation (now_ms : Z) (s : FaultStats) : FaultStats :=
  {| fs_checks := fs_checks s; fs_activations := wrap64 (fs_activations s + 1); fs_affected_requests := fs_affected_requests s;
     fs_enabled := fs_enabled s; fs_last_activation_ms := now_ms |}.
Definition record_affected (s : FaultStats) : FaultStats :=
  {| fs_checks := fs_checks s; fs_activations := fs_activations s; fs_affected_requests := wrap64 (fs_affected_requests s + 1);
     fs_enabled := fs_enabled s; fs_last_activation_ms := fs_last_activation_ms s |}.
Definition stats_set_enabled (b : bool) (s : FaultStats) : FaultStats :=
  {| fs_checks := fs_checks s; fs_activations := fs_activations s; fs_affected_requests := fs_affected_requests s;
     fs_enabled := b; fs_last_activation_ms := fs_last_activation_ms s |}.
Definition stats_reset (s : FaultStats) : FaultStats :=
  {| fs_checks := 0; fs_activations := 0; fs_affected_requests := 0; fs_enabled := fs_enabled s; fs_last_activation_ms := 0 |}.

(* ------------------------------------------------------------------ *)
(** * Targets *)

Record FaultTarget : Set := {
  ft_unit_ids : list Z;
  ft_function_codes : list Z;
  ft_probability : spec_float;
  ft_skip_count : Z;
  ft_max_activations : option Z;
  ft_check_counter : Z;
  ft_activation_counter : Z;
}.
Definition f64_one : spec_float := f64_of_Z 1.
Definition f64_epsilon : spec_float := f64_div f64_one (f64_of_Z 4503599627370496).

Definition FaultTarget_new : FaultTarget :=
  {| ft_unit_ids := []; ft_function_codes := []; ft_probability := f64_one; ft_skip_count := 0; ft_max_activations := None;
     ft_check_counter := 0; ft_activation_counter := 0 |}.
Definition ft_configure (t : FaultTarget) (ids codes : list Z) (p : spec_float) (skip : Z) (max : option Z) : FaultTarget :=
  {| ft_unit_ids := ids; ft_function_codes := codes; ft_probability := p; ft_skip_count := skip; ft_max_activations := max;
     ft_check_counter := ft_check_counter t; ft_activation_counter := ft_activation_counter t |}.
Definition FaultTarget_with_unit_ids (ids : list Z) (t : FaultTarget) : FaultTarget :=
  ft_configure t ids (ft_function_codes t) (ft_probability t) (ft_skip_count t) (ft_max_activations t).
Definition FaultTarget_with_function_codes (codes : list Z) (t : FaultTarget) : FaultTarget :=
  ft_configure t (ft_unit_ids t) codes (ft_probability t) (ft_skip_count t) (ft_max_activations t).
Definition FaultTarget_with_probability (p : spec_float) (t : FaultTarget) : FaultTarget :=
  ft_configure t (ft_unit_ids t) (ft_function_codes t) (float_clamp (S754_zero false) f64_one p) (ft_skip_count t) (ft_max_activations t).
Definition FaultTarget_with_skip_count (n : Z) (t : FaultTarget) : FaultTarget :=
  ft_configure t (ft_unit_ids t) (ft_function_codes t) (ft_probability t) n (ft_max_activations t).
Definition FaultTarget_with_max_activations (n : Z) (t : FaultTarget) : FaultTarget :=
  ft_configure t (ft_unit_ids t) (ft_function_codes t) (ft_probability t) (ft_skip_count t) (Some n).
Definition ft_set_counters (t : FaultTarget) (checks activations : Z) : FaultTarget :=
  {| ft_unit_ids := ft_unit_ids t; ft_function_codes := ft_function_codes t; ft_probability := ft_probability t;
     ft_skip_count := ft_skip_count t; ft_max_activations := ft_max_activations t; ft_check_counter := checks;
     ft_activation_counter := activations |}.
(** [Clone] starts the counters afresh. *)
Definition FaultTarget_clone (t : FaultTarget) : FaultTarget := ft_set_counters t 0 0.
Definition reset_counters (t : FaultTarget) : FaultTarget := ft_set_counters t 0 0.

(** The list is empty, or contains the value. *)
Definition listed (l : list Z) (x : Z) : bool := match l with [] => true | _ => existsb (Z.eqb x) l end.

Section faults.
Context `{FaultEnv}.

(** The probability roll, and the number of draws it took. *)
Definition roll (p : spec_float) (tick : nat) : bool * nat :=
  if float_lt (f64_abs (f64_sub p f64_one)) f64_epsilon then (true, tick)
  else if SFleb p (S754_zero false) then (false, tick)
  else (float_lt (gen_f64 tick) p, S tick).

Definition FaultTarget_should_activate (unit_id function_code : Z) (t : FaultTarget) (tick : nat) : bool * FaultTarget * nat :=
  if negb (listed (ft_unit_ids t) unit_id) then (false, t, tick)
  else if negb (listed (ft_function_codes t) function_code) then (false, t, tick)
  else
    let check_num := ft_check_counter t in
    let t := ft_set_counters t (wrap64 (check_num + 1)) (ft_activation_counter t) in
    if check_num <? ft_skip_count t then (false, t, tick)
    else if match ft_max_activations t with Some max => max <=? ft_activation_counter t | None => false end then (false, t, tick)
    else
      let '(activated, tick) := roll (ft_probability t) tick in
      (activated,
       if activated then ft_set_counters t (ft_check_counter t) (wrap64 (ft_activation_counter t + 1)) else t, tick).

(* ------------------------------------------------------------------ *)
(** * Faults *)

Inductive TransportKind : Set := Tcp | Rtu.
Inductive CrcCorruptionMode : Set := CrcZero | CrcInvert | CrcRandomXor | CrcSetValue | CrcSwapBytes.
Inductive UnitIdCorruptionMode : Set := UnitFixed | UnitIncrement | UnitRandom | UnitSwap.
Inductive FcCorruptionMode : Set := FcFixed | FcIncrement | FcRandom | FcSwapRW.
Inductive TidCorruptionMode : Set := TidFixed | TidIncrement | TidRandom | TidSwapBytes.
Inductive TruncationMode : Set := FixedBytes | TruncPercentage | RemoveLastN | HeaderOnly.
Inductive ExtraDataMode : Set := AppendBytes | AppendRandom | DuplicateLastN.
Inductive PartialFrameMode : Set := FixedCount | PartPercentage | UpToFc | UpToData.

(** The types that implement the trait, with their own fields. *)
Inductive fault_kind : Type :=
| CrcCorruption (mode : CrcCorruptionMode) (fixed_crc : Z)
| WrongUnitId (mode : UnitIdCorruptionMode) (fixed_id : Z)
| WrongFunctionCode (mode : FcCorruptionMode) (fixed_fc : Z)
| WrongTransactionId (mode : TidCorruptionMode) (fixed_tid : Z)
| TruncatedResponse (mode : TruncationMode) (byte_count : Z) (percentage : spec_float)
| ExtraData (mode : ExtraDataMode) (bytes : list Z) (count : Z)
| DelayedResponse (base_delay jitter : Z)
| NoResponse (consecutive_drops : Z)
| ExceptionInjection (exception_code : Z)
| PartialFrame (mode : PartialFrameMode) (byte_count : Z) (percentage : spec_float).

Record ModbusFault : Type := { mf_kind : fault_kind; mf_target : FaultTarget; mf_stats : FaultStats }.

Inductive FaultAction : Type :=
| SendResponse (pdu : list Z)
| DropResponse
| DelayThenSend (delay : Z) (response : list Z)
| SendPartial (bytes : list Z)
| SendRawBytes (bytes : list Z)
| OverrideTransactionId (transaction_id : Z) (response : list Z).

Record ModbusFaultContext : Type := {
  fc_transport : TransportKind;
  fc_unit_id : Z;
  fc_function_code : Z;
  fc_request_pdu : list Z;
  fc_response_pdu : list Z;
  fc_transaction_id : Z;
  fc_is_broadcast : bool;
  fc_request_number : Z;
}.
Definition ModbusFaultContext_rtu (unit_id function_code : Z) (request_pdu response_pdu : list Z) (number : Z) : ModbusFaultContext :=
  {| fc_transport := Rtu; fc_unit_id := unit_id; fc_function_code := function_code; fc_request_pdu := request_pdu;
     fc_response_pdu := response_pdu; fc_transaction_id := 0; fc_is_broadcast := unit_id =? 0; fc_request_number := number |}.
Definition ModbusFaultContext_tcp (unit_id function_code : Z) (request_pdu response_pdu : list Z) (tid number : Z) : ModbusFaultContext :=
  {| fc_transport := Tcp; fc_unit_id := unit_id; fc_function_code := function_code; fc_request_pdu := request_pdu;
     fc_response_pdu := response_pdu; fc_transaction_id := tid; fc_is_broadcast := unit_id =? 0; fc_request_number := number |}.
Definition with_response (c : ModbusFaultContext) (pdu : list Z) : ModbusFaultContext :=
  {| fc_transport := fc_transport c; fc_unit_id := fc_unit_id c; fc_function_code := fc_function_code c;
     fc_request_pdu := fc_request_pdu c; fc_response_pdu := pdu; fc_transaction_id := fc_transaction_id c;
     fc_is_broadcast := fc_is_broadcast c; fc_request_number := fc_request_number c |}.

Definition is_short_circuit (k : fault_kind) : bool :=
  match k with NoResponse _ | PartialFrame _ _ _ => true | _ => false end.
Definition compatible_transport (k : fault_kind) : option TransportKind :=
  match k with
  | CrcCorruption _ _ | PartialFrame _ _ _ => Some Rtu
  | WrongTransactionId _ _ => Some Tcp
  | _ => None
  end.

(** [loop { let candidate = ...; if candidate != original { return candidate } }] *)
Fixpoint draw_other (fuel : nat) (lo hi original : Z) (tick : nat) : Z * nat :=
  let candidate := gen_range tick lo hi in
  if negb (candidate =? original) then (candidate, S tick)
  else match fuel with O => (candidate, S tick) | S fuel => draw_other fuel lo hi original (S tick) end.

(** ** Corruption *)

(** [compute_crc], in three files: the bitwise check value. *)
Definition compute_crc (data : list Z) : Z := calculate_crc_slow data.
Definition u16_swap (x : Z) : Z := Z.lor (Z.shiftl (Z.land x 0xFF) 8) (Z.land (Z.shiftr x 8) 0xFF).
Definition corrupt_crc (mode : CrcCorruptionMode) (fixed_crc correct_crc : Z) (tick : nat) : Z * nat :=
  match mode with
  | CrcZero => (0, tick)
  | CrcInvert => (u16_not correct_crc, tick)
  | CrcRandomXor => (Z.lxor correct_crc (gen_range tick 1 0xFFFF), S tick)
  | CrcSetValue => (fixed_crc, tick)
  | CrcSwapBytes => (u16_swap correct_crc, tick)
  end.
Definition corrupt_unit_id (mode : UnitIdCorruptionMode) (fixed_id original : Z) (tick : nat) : Z * nat :=
  match mode with
  | UnitFixed => (fixed_id, tick)
  | UnitIncrement => ((original + 1) mod 256, tick)
  | UnitRandom => draw_other patience 0 255 original tick
  | UnitSwap => ((255 - original) mod 256, tick)
  end.
Definition swap_rw (original : Z) : Z :=
  match original with
  | 0x01 => 0x05 | 0x02 => 0x0F | 0x03 => 0x10 | 0x04 => 0x06 | 0x05 => 0x01 | 0x06 => 0x04
  | 0x0F => 0x02 | 0x10 => 0x03 | 0x16 => 0x03 | 0x17 => 0x03
  | _ => (original + 1) mod 256
  end.
Definition corrupt_fc (mode : FcCorruptionMode) (fixed_fc original : Z) (tick : nat) : Z * nat :=
  match mode with
  | FcFixed => (fixed_fc, tick)
  | FcIncrement => ((original + 1) mod 256, tick)
  | FcRandom => draw_other patience 1 0x7F original tick
  | FcSwapRW => (swap_rw original, tick)
  end.
Definition corrupt_tid (mode : TidCorruptionMode) (fixed_tid original : Z) (tick : nat) : Z * nat :=
  match mode with
  | TidFixed => (fixed_tid, tick)
  | TidIncrement => ((original + 1) mod 65536, tick)
  | TidRandom => draw_other patience 0 65535 original tick
  | TidSwapBytes => (u16_swap original, tick)
  end.

(** [x.ceil() as usize]: saturating, 0 for a NaN. *)
Definition ceil_as_usize (f : spec_float) : Z :=
  match f with
  | S754_infinity false => 18446744073709551615
  | S754_finite false m e => Z.min 18446744073709551615 (if 0 <=? e then Zpos m * 2 ^ e else - ((- Zpos m) / 2 ^ (- e)))
  | _ => 0
  end.
Definition percentage_of (len : Z) (percentage : spec_float) : Z :=
  Z.min (Z.max (ceil_as_usize (f64_mul (f64_of_Z len) percentage)) 1) len.

Definition truncate (mode : TruncationMode) (byte_count : Z) (percentage : spec_float) (pdu : list Z) : list Z :=
  match pdu with
  | [] => []
  | _ =>
      match mode with
      | FixedBytes => take (Z.to_nat (Z.min byte_count (zlen pdu))) pdu
      | TruncPercentage => take (Z.to_nat (percentage_of (zlen pdu) percentage)) pdu
      | RemoveLastN =>
          let keep := zlen pdu - Z.min byte_count (zlen pdu) in
          if keep =? 0 then take 1 pdu else take (Z.to_nat keep) pdu
      | HeaderOnly => take 1 pdu
      end
  end.

Definition random_bytes (n : nat) (tick : nat) : list Z * nat :=
  ((fun i => gen_range (tick + i) 0 255) <$> seq 0 n, (tick + n)%nat).
Definition generate_extra (mode : ExtraDataMode) (bytes : list Z) (count : Z) (pdu : list Z) (tick : nat) : list Z * nat :=
  match mode with
  | AppendBytes => (match bytes with [] => replicate (Z.to_nat count) 0 | _ => bytes end, tick)
  | AppendRandom => random_bytes (Z.to_nat count) tick
  | DuplicateLastN =>
      (match pdu with [] => [] | _ => drop (Z.to_nat (zlen pdu - Z.min count (zlen pdu))) pdu end, tick)
  end.

(** [Duration + Duration] panics beyond 64 bits of seconds. *)
Definition duration_add {E} (a b : Z) : outcome E Z :=
  if (a + b) / 1000000000 <? 18446744073709551616 then Ok (a + b) else Panic.
Definition from_millis (ms : Z) : Z := ms * 1000000.
Definition compute_delay {E} (base_delay jitter : Z) (tick : nat) : outcome E Z * nat :=
  if jitter =? 0 then (Ok base_delay, tick)
  else (duration_add base_delay (from_millis (gen_range tick 0 (wrap64 (jitter / 1000000)))), S tick).

Definition raw_frame (unit_id : Z) (pdu : list Z) (crc : Z) : list Z :=
  unit_id :: pdu ++ [Z.land crc 0xFF; Z.shiftr crc 8].
Definition build_partial (mode : PartialFrameMode) (byte_count : Z) (percentage : spec_float) (unit_id : Z) (pdu : list Z) : list Z :=
  let full_frame := raw_frame unit_id pdu (compute_crc (unit_id :: pdu)) in
  let total_len := zlen full_frame in
  let keep :=
    match mode with
    | FixedCount => Z.max (Z.min byte_count total_len) 1
    | PartPercentage => percentage_of total_len percentage
    | UpToFc => Z.min 2 total_len
    | UpToData => if 2 <? total_len then total_len - 2 else total_len
    end in
  take (Z.to_nat keep) full_frame.

(** [1 + ctx.response_pdu.len() as u16], a sum on 16 bits. *)
Definition raw_mbap `{BuildProfile} {E} (tid unit_id : Z) (pdu : list Z) : outcome E (list Z) :=
  let? length := u16_add 1 (as_u16 (zlen pdu)) in
  Ok ([Z.shiftr tid 8; Z.land tid 0xFF; 0; 0; Z.shiftr length 8; Z.land length 0xFF; unit_id] ++ pdu).

(** ** The trait's methods *)

Definition mf_with_stats (f : ModbusFault) (s : FaultStats) : ModbusFault :=
  {| mf_kind := mf_kind f; mf_target := mf_target f; mf_stats := s |}.
Definition fault_set_enabled (b : bool) (f : ModbusFault) : ModbusFault := mf_with_stats f (stats_set_enabled b (mf_stats f)).
Definition fault_reset_stats (f : ModbusFault) : ModbusFault :=
  {| mf_kind := match mf_kind f with NoResponse _ => NoResponse 0 | k => k end; mf_target := mf_target f;
     mf_stats := stats_reset (mf_stats f) |}.
Definition reset_consecutive (f : ModbusFault) : ModbusFault :=
  {| mf_kind := match mf_kind f with NoResponse _ => NoResponse 0 | k => k end; mf_target := mf_target f; mf_stats := mf_stats f |}.

Definition fault_should_activate (ctx : ModbusFaultContext) (f : ModbusFault) (tick : nat) : bool * ModbusFault * nat :=
  let '(b, t, tick) := FaultTarget_should_activate (fc_unit_id ctx) (fc_function_code ctx) (mf_target f) tick in
  (b, {| mf_kind := mf_kind f; mf_target := t; mf_stats := record_check (mf_stats f) |}, tick).

(** The action of each fault on a response, as its [apply] builds it. *)
Definition CrcCorruptionFault_action {E} (mode : CrcCorruptionMode) (fixed_crc : Z) (ctx : ModbusFaultContext) (tick : nat)
  : outcome E FaultAction * nat :=
  let pdu := fc_response_pdu ctx in
  let '(bad_crc, tick) := corrupt_crc mode fixed_crc (compute_crc (fc_unit_id ctx :: pdu)) tick in
  (Ok (SendRawBytes (raw_frame (fc_unit_id ctx) pdu bad_crc)), tick).
Definition WrongUnitIdFault_action `{BuildProfile} {E} (mode : UnitIdCorruptionMode) (fixed_id : Z) (ctx : ModbusFaultContext)
    (tick : nat) : outcome E FaultAction * nat :=
  let pdu := fc_response_pdu ctx in
  let '(bad_id, tick) := corrupt_unit_id mode fixed_id (fc_unit_id ctx) tick in
  match fc_transport ctx with
  | Rtu => (Ok (SendRawBytes (raw_frame bad_id pdu (compute_crc (bad_id :: pdu)))), tick)
  | Tcp => (omap_ok SendRawBytes (raw_mbap (fc_transaction_id ctx) bad_id pdu), tick)
  end.
Definition WrongFunctionCodeFault_action {E} (mode : FcCorruptionMode) (fixed_fc : Z) (ctx : ModbusFaultContext) (tick : nat)
  : outcome E FaultAction * nat :=
  match fc_response_pdu ctx with
  | [] => (Ok (SendResponse []), tick)
  | _ :: data => let '(bad_fc, tick) := corrupt_fc mode fixed_fc (fc_function_code ctx) tick in (Ok (SendResponse (bad_fc :: data)), tick)
  end.
Definition WrongTransactionIdFault_action {E} (mode : TidCorruptionMode) (fixed_tid : Z) (ctx : ModbusFaultContext) (tick : nat)
  : outcome E FaultAction * nat :=
  let '(bad_tid, tick) := corrupt_tid mode fixed_tid (fc_transaction_id ctx) tick in
  (Ok (OverrideTransactionId bad_tid (fc_response_pdu ctx)), tick).
Definition TruncatedResponseFault_action (mode : TruncationMode) (byte_count : Z) (percentage : spec_float)
    (ctx : ModbusFaultContext) : FaultAction := SendResponse (truncate mode byte_count percentage (fc_response_pdu ctx)).
Definition ExtraDataFault_action {E} (mode : ExtraDataMode) (bytes : list Z) (count : Z) (ctx : ModbusFaultContext) (tick : nat)
  : outcome E FaultAction * nat :=
  let '(extra, tick) := generate_extra mode bytes count (fc_response_pdu ctx) tick in
  (Ok (SendResponse (fc_response_pdu ctx ++ extra)), tick).
Definition DelayedResponseFault_action {E} (base_delay jitter : Z) (ctx : ModbusFaultContext) (tick : nat)
  : outcome E FaultAction * nat :=
  let '(delay, tick) := compute_delay base_delay jitter tick in
  (let? d := delay in Ok (DelayThenSend d (fc_response_pdu ctx)), tick).
Definition ExceptionInjectionFault_action (code : Z) (ctx : ModbusFaultContext) : FaultAction :=
  SendResponse [Z.lor (fc_function_code ctx) 0x80; code].
Definition PartialFrameFault_action (mode : PartialFrameMode) (byte_count : Z) (percentage : spec_float)
    (ctx : ModbusFaultContext) : FaultAction :=
  SendPartial (build_partial mode byte_count percentage (fc_unit_id ctx) (fc_response_pdu ctx)).

Definition fault_action `{BuildProfile} {E} (k : fault_kind) (ctx : ModbusFaultContext) (tick : nat) : outcome E FaultAction * nat :=
  match k with
  | CrcCorruption mode fixed_crc => CrcCorruptionFault_action mode fixed_crc ctx tick
  | WrongUnitId mode fixed_id => WrongUnitIdFault_action mode fixed_id ctx tick
  | WrongFunctionCode mode fixed_fc => WrongFunctionCodeFault_action mode fixed_fc ctx tick
  | WrongTransactionId mode fixed_tid => WrongTransactionIdFault_action mode fixed_tid ctx tick
  | TruncatedResponse mode byte_count percentage => (Ok (TruncatedResponseFault_action mode byte_count percentage ctx), tick)
  | ExtraData mode bytes count => ExtraDataFault_action mode bytes count ctx tick
  | DelayedResponse base_delay jitter => DelayedResponseFault_action base_delay jitter ctx tick
  | NoResponse _ => (Ok DropResponse, tick)
  | ExceptionInjection code => (Ok (ExceptionInjectionFault_action code ctx), tick)
  | PartialFrame mode byte_count percentage => (Ok (PartialFrameFault_action mode byte_count percentage ctx), tick)
  end.

(** [apply]: counters first, then the action. *)
Definition fault_apply `{BuildProfile} {E} (ctx : ModbusFaultContext) (f : ModbusFault) (tick : nat)
  : outcome E FaultAction * ModbusFault * nat :=
  let stats := record_affected (record_activation (epoch_ms tick) (mf_stats f)) in
  let kind := match mf_kind f with NoResponse n => NoResponse (wrap64 (n + 1)) | k => k end in
  let '(a, tick) := fault_action (mf_kind f) ctx (S tick) in
  (a, {| mf_kind := kind; mf_target := mf_target f; mf_stats := stats |}, tick).

(* ------------------------------------------------------------------ *)
(** * The pipeline *)

Record FaultPipeline : Type := { fp_faults : list ModbusFault; fp_enabled : bool }.
Definition FaultPipeline_new : FaultPipeline := {| fp_faults := []; fp_enabled := true |}.
Definition FaultPipeline_with_fault (p : FaultPipeline) (f : ModbusFault) : FaultPipeline :=
  {| fp_faults := fp_faults p ++ [f]; fp_enabled := fp_enabled p |}.
Definition FaultPipeline_with_faults (p : FaultPipeline) (fs : list ModbusFault) : FaultPipeline :=
  {| fp_faults := fp_faults p ++ fs; fp_enabled := fp_enabled p |}.
Definition FaultPipeline_set_enabled (p : FaultPipeline) (b : bool) : FaultPipeline := {| fp_faults := fp_faults p; fp_enabled := b |}.
Definition reset_all_stats (p : FaultPipeline) : FaultPipeline :=
  {| fp_faults := fault_reset_stats <$> fp_faults p; fp_enabled := fp_enabled p |}.

#[local] Instance TransportKind_eq_dec : EqDecision TransportKind.
Proof. solve_decision. Defined.
Definition transport_fits (k : fault_kind) (t : TransportKind) : bool :=
  match compatible_transport k with Some required => bool_decide (required = t) | None => true end.

(** Phase 1: the first short-circuit fault that activates decides. *)
Fixpoint short_circuit_phase `{BuildProfile} {E} (ctx : ModbusFaultContext) (fs : list ModbusFault) (tick : nat)
  : outcome E (option FaultAction) * list ModbusFault * nat :=
  match fs with
  | [] => (Ok None, [], tick)
  | f :: fs =>
      if fs_enabled (mf_stats f) && is_short_circuit (mf_kind f) && transport_fits (mf_kind f) (fc_transport ctx) then
        let '(b, f, tick) := fault_should_activate ctx f tick in
        if b then let '(a, f, tick) := fault_apply ctx f tick in (omap_ok Some a, f :: fs, tick)
        else let '(r, fs, tick) := short_circuit_phase ctx fs tick in (r, f :: fs, tick)
      else let '(r, fs, tick) := short_circuit_phase ctx fs tick in (r, f :: fs, tick)
  end.

(** Phase 2: what the faults applied so far have accumulated. *)
Record mutation : Type := {
  mu_response : list Z;
  mu_activated : bool;
  mu_delay : Z;
  mu_tid : option Z;
  mu_raw : bool;
}.
Definition initial_mutation (ctx : ModbusFaultContext) : mutation :=
  {| mu_response := fc_response_pdu ctx; mu_activated := false; mu_delay := 0; mu_tid := None; mu_raw := false |}.
(** [match action { ... }]: a dropped or partial response ends the loop. *)
Definition accumulate {E} (a : FaultAction) (m : mutation) : outcome E (mutation + FaultAction) :=
  match a with
  | SendResponse pdu =>
      Ok (inl {| mu_response := pdu; mu_activated := true; mu_delay := mu_delay m; mu_tid := mu_tid m; mu_raw := mu_raw m |})
  | DelayThenSend delay response =>
      let? total := duration_add (mu_delay m) delay in
      Ok (inl {| mu_response := response; mu_activated := true; mu_delay := total; mu_tid := mu_tid m; mu_raw := mu_raw m |})
  | OverrideTransactionId tid response =>
      Ok (inl {| mu_response := response; mu_activated := true; mu_delay := mu_delay m; mu_tid := Some tid; mu_raw := mu_raw m |})
  | SendRawBytes bytes =>
      Ok (inl {| mu_response := bytes; mu_activated := true; mu_delay := mu_delay m; mu_tid := mu_tid m; mu_raw := true |})
  | DropResponse => Ok (inr DropResponse)
  | SendPartial bytes => Ok (inr (SendPartial bytes))
  end.
Fixpoint mutation_phase `{BuildProfile} {E} (ctx : ModbusFaultContext) (fs : list ModbusFault) (m : mutation) (tick : nat)
  : outcome E (mutation + FaultAction) * list ModbusFault * nat :=
  match fs with
  | [] => (Ok (inl m), [], tick)
  | f :: fs =>
      if fs_enabled (mf_stats f) && negb (is_short_circuit (mf_kind f)) && transport_fits (mf_kind f) (fc_transport ctx) then
        let '(b, f, tick) := fault_should_activate ctx f tick in
        if b then
          let '(a, f, tick) := fault_apply (with_response ctx (mu_response m)) f tick in
          match (let? a := a in accumulate a m) with
          | Ok (inl m) => let '(r, fs, tick) := mutation_phase ctx fs m tick in (r, f :: fs, tick)
          | Ok (inr a) => (Ok (inr a), f :: fs, tick)
          | Err e => (Err e, f :: fs, tick)
          | Panic => (Panic, f :: fs, tick)
          end
        else let '(r, fs, tick) := mutation_phase ctx fs m tick in (r, f :: fs, tick)
      else let '(r, fs, tick) := mutation_phase ctx fs m tick in (r, f :: fs, tick)
  end.

Definition final_action (m : mutation) : option FaultAction :=
  if negb (mu_activated m) then None
  else Some
    (if mu_raw m then
       if 0 <? mu_delay m then DelayThenSend (mu_delay m) (mu_response m) else SendRawBytes (mu_response m)
     else
       match mu_tid m with
       | Some tid =>
           if 0 <? mu_delay m then DelayThenSend (mu_delay m) (mu_response m) else OverrideTransactionId tid (mu_response m)
       | None => if 0 <? mu_delay m then DelayThenSend (mu_delay m) (mu_response m) else SendResponse (mu_response m)
       end).

Definition FaultPipeline_apply `{BuildProfile} {E} (ctx : ModbusFaultContext) (p : FaultPipeline) (tick : nat)
  : outcome E (option FaultAction) * FaultPipeline * nat :=
  if negb (fp_enabled p) then (Ok None, p, tick)
  else
    match short_circuit_phase ctx (fp_faults p) tick with
    | (Ok None, fs, tick) =>
        let '(r, fs, tick) := mutation_phase ctx fs (initial_mutation ctx) tick in
        (let? o := r in Ok (match o with inl m => final_action m | inr a => Some a end),
         {| fp_faults := fs; fp_enabled := fp_enabled p |}, tick)
    | (r, fs, tick) => (r, {| fp_faults := fs; fp_enabled := fp_enabled p |}, tick)
    end.

(* ------------------------------------------------------------------ *)
(** * Configuration *)

Inductive FaultType : Set :=
| FtCrcCorruption | FtWrongUnitId | FtWrongFunctionCode | FtWrongTransactionId | FtTruncatedResponse
| FtExtraData | FtDelayedResponse | FtNoResponse | FtExceptionInjection | FtPartialFrame.
Record FaultTypeConfig : Set := {
  crc_mode : option CrcCorruptionMode;
  unit_id_mode : option UnitIdCorruptionMode;
  fixed_unit_id : option Z;
  fc_mode : option FcCorruptionMode;
  fixed_fc : option Z;
  tid_mode : option TidCorruptionMode;
  fixed_tid : option Z;
  truncation_mode : option TruncationMode;
  truncation_bytes : option Z;
  truncation_percentage : option spec_float;
  extra_data_mode : option ExtraDataMode;
  extra_bytes : option (list Z);
  extra_count : option Z;
  delay_ms : option Z;
  jitter_ms : option Z;
  exception_code : option Z;
  partial_mode : option PartialFrameMode;
  partial_bytes : option Z;
  partial_percentage : option spec_float;
}.
Definition FaultTypeConfig_default : FaultTypeConfig :=
  {| crc_mode := None; unit_id_mode := None; fixed_unit_id := None; fc_mode := None; fixed_fc := None; tid_mode := None;
     fixed_tid := None; truncation_mode := None; truncation_bytes := None; truncation_percentage := None;
     extra_data_mode := None; extra_bytes := None; extra_count := None; delay_ms := None; jitter_ms := None;
     exception_code := None; partial_mode := None; partial_bytes := None; partial_percentage := None |}.
Record FaultConfig : Set := { fault_type : FaultType; fault_target : FaultTarget; fault_config : FaultTypeConfig }.
Record FaultInjectionConfig : Set := { fi_enabled : bool; fi_faults : list FaultConfig }.
Definition FaultInjectionConfig_default : FaultInjectionConfig := {| fi_enabled := true; fi_faults := [] |}.
Definition f64_half : spec_float := f64_div f64_one (f64_of_Z 2).

(** The [from_config] constructors of the ten types. *)
Definition CrcCorruption_from_config (o : FaultTypeConfig) : fault_kind := CrcCorruption (default CrcInvert (crc_mode o)) 0xDEAD.
Definition WrongUnitId_from_config (o : FaultTypeConfig) : fault_kind :=
  WrongUnitId (default UnitIncrement (unit_id_mode o)) (default 0xFF (fixed_unit_id o)).
Definition WrongFunctionCode_from_config (o : FaultTypeConfig) : fault_kind :=
  WrongFunctionCode (default FcIncrement (fc_mode o)) (default 0xFF (fixed_fc o)).
Definition WrongTransactionId_from_config (o : FaultTypeConfig) : fault_kind :=
  WrongTransactionId (default TidIncrement (tid_mode o)) (default 0xFFFF (fixed_tid o)).
Definition TruncatedResponse_from_config (o : FaultTypeConfig) : fault_kind :=
  TruncatedResponse (default HeaderOnly (truncation_mode o)) (default 1 (truncation_bytes o))
    (default f64_half (truncation_percentage o)).
Definition ExtraData_from_config (o : FaultTypeConfig) : fault_kind :=
  ExtraData (default AppendRandom (extra_data_mode o)) (default [] (extra_bytes o)) (default 4 (extra_count o)).
Definition DelayedResponse_from_config (o : FaultTypeConfig) : fault_kind :=
  DelayedResponse (from_millis (default 1000 (delay_ms o))) (from_millis (default 0 (jitter_ms o))).
Definition ExceptionInjection_from_config (o : FaultTypeConfig) : fault_kind :=
  ExceptionInjection (default 0x04 (exception_code o)).
Definition PartialFrame_from_config (o : FaultTypeConfig) : fault_kind :=
  PartialFrame (default UpToFc (partial_mode o)) (default 2 (partial_bytes o)) (default f64_half (partial_percentage o)).
Definition kind_from_config (c : FaultConfig) : fault_kind :=
  let o := fault_config c in
  match fault_type c with
  | FtCrcCorruption => CrcCorruption_from_config o
  | FtWrongUnitId => WrongUnitId_from_config o
  | FtWrongFunctionCode => WrongFunctionCode_from_config o
  | FtWrongTransactionId => WrongTransactionId_from_config o
  | FtTruncatedResponse => TruncatedResponse_from_config o
  | FtExtraData => ExtraData_from_config o
  | FtDelayedResponse => DelayedResponse_from_config o
  | FtNoResponse => NoResponse 0
  | FtExceptionInjection => ExceptionInjection_from_config o
  | FtPartialFrame => PartialFrame_from_config o
  end.
Definition fault_from_config (c : FaultConfig) : ModbusFault :=
  {| mf_kind := kind_from_config c; mf_target := FaultTarget_clone (fault_target c); mf_stats := FaultStats_new |}.
Definition FaultPipeline_from_config (c : FaultInjectionConfig) : FaultPipeline :=
  if negb (fi_enabled c) then {| fp_faults := []; fp_enabled := false |}
  else FaultPipeline_with_faults FaultPipeline_new (fault_from_config <$> fi_faults c).

(* ------------------------------------------------------------------ *)
(** * Timing plans of the RTU server *)

Inductive GapPosition : Set := FixedOffset (offset : Z) | RandomPosition | AfterFunctionCode | BeforeCrc.
Record InterCharGapConfig : Set := { gap_position : GapPosition; gap_duration : Z }.
Inductive CollisionMode : Set := GarbageInject | OverlapResponse | EchoFrame.
Record BusCollisionConfig : Set := { collision_mode : CollisionMode; garbage_byte_count : Z; collision_probability : spec_float }.
Record ByteJitterConfig : Set := { min_delay : Z; max_delay : Z; interval : Z }.
Record RtuTimingFaultConfig : Set := {
  violate_interframe_delay : option Z;
  inject_interchar_gap : option InterCharGapConfig;
  bus_collision : option BusCollisionConfig;
  byte_jitter : option ByteJitterConfig;
}.
Record TimingSegment : Set := { seg_data : list Z; seg_delay_before : Z }.

Definition BusCollisionConfig_garbage (count : Z) (p : spec_float) : BusCollisionConfig :=
  {| collision_mode := GarbageInject; garbage_byte_count := count; collision_probability := float_clamp (S754_zero false) f64_one p |}.
Definition BusCollisionConfig_overlap (p : spec_float) : BusCollisionConfig :=
  {| collision_mode := OverlapResponse; garbage_byte_count := 0; collision_probability := float_clamp (S754_zero false) f64_one p |}.
Definition should_collide (c : BusCollisionConfig) (tick : nat) : bool * nat := roll (collision_probability c) tick.
Definition generate_garbage (c : BusCollisionConfig) (tick : nat) : list Z * nat := random_bytes (Z.to_nat (garbage_byte_count c)) tick.

Definition compute_offset (g : InterCharGapConfig) (frame_length : Z) (tick : nat) : Z * nat :=
  match gap_position g with
  | FixedOffset offset => (Z.min offset (Z.max 0 (frame_length - 1)), tick)
  | RandomPosition => if frame_length <=? 2 then (1, tick) else (gen_range tick 1 (frame_length - 2), S tick)
  | AfterFunctionCode => (Z.min 2 (Z.max 0 (frame_length - 1)), tick)
  | BeforeCrc => (Z.max 0 (frame_length - 2), tick)
  end.
(** [gen_range] panics on an empty range, which the truncation of the microseconds can give. *)
Definition jitter_delay {E} (j : ByteJitterConfig) (tick : nat) : outcome E Z * nat :=
  if max_delay j <=? min_delay j then (Ok (min_delay j), tick)
  else
    let min_us := wrap64 (min_delay j / 1000) in
    let max_us := wrap64 (max_delay j / 1000) in
    if max_us <? min_us then (Panic, tick) else (Ok (gen_range tick min_us max_us * 1000), S tick).

(** The two segments around the gap, when its offset lies inside the frame. *)
Definition gap_segments (g : InterCharGapConfig) (frame : list Z) (delay offset : Z) : option (list TimingSegment) :=
  if (0 <? offset) && (offset <? zlen frame) then
    Some [{| seg_data := take (Z.to_nat offset) frame; seg_delay_before := delay |};
          {| seg_data := drop (Z.to_nat offset) frame; seg_delay_before := gap_duration g |}]
  else None.
Definition add_frame_segments (c : RtuTimingFaultConfig) (frame : list Z) (delay : Z) (tick : nat) : list TimingSegment * nat :=
  let whole := [{| seg_data := frame; seg_delay_before := delay |}] in
  match inject_interchar_gap c with
  | Some g => let '(offset, tick) := compute_offset g (zlen frame) tick in (default whole (gap_segments g frame delay offset), tick)
  | None => (whole, tick)
  end.
Fixpoint jitter_segments {E} (j : ByteJitterConfig) (i delay : Z) (frame : list Z) (tick : nat) : outcome E (list TimingSegment) * nat :=
  match frame with
  | [] => (Ok [], tick)
  | byte :: frame =>
      let '(next, tick) :=
        if (0 <? interval j) && ((i + 1) mod interval j =? 0) then jitter_delay j tick else (Ok 0, tick) in
      match next with
      | Ok next =>
          let '(segs, tick) := jitter_segments j (i + 1) next frame tick in
          (omap_ok (cons {| seg_data := [byte]; seg_delay_before := delay |}) segs, tick)
      | Err e => (Err e, tick)
      | Panic => (Panic, tick)
      end
  end.
(** The plan without a collision. *)
Definition plain_plan {E} (c : RtuTimingFaultConfig) (frame : list Z) (delay : Z) (tick : nat) : outcome E (list TimingSegment) * nat :=
  let after_gap (tick : nat) :=
    match byte_jitter c with
    | Some j => jitter_segments j 0 delay frame tick
    | None => (Ok [{| seg_data := frame; seg_delay_before := delay |}], tick)
    end in
  match inject_interchar_gap c with
  | Some g =>
      let '(offset, tick) := compute_offset g (zlen frame) tick in
      match gap_segments g frame delay offset with Some segs => (Ok segs, tick) | None => after_gap tick end
  | None => after_gap tick
  end.
Definition build_timing_plan {E} (c : RtuTimingFaultConfig) (frame : list Z) (tick : nat) : outcome E (list TimingSegment) * nat :=
  let initial_delay := default 0 (violate_interframe_delay c) in
  match bus_collision c with
  | Some collision =>
      let '(b, tick) := should_collide collision tick in
      if b then
        let '(garbage, tick) := generate_garbage collision tick in
        match garbage with
        | [] => plain_plan c frame initial_delay tick
        | _ =>
            let '(segs, tick) := add_frame_segments c frame 500000 tick in
            (Ok ({| seg_data := garbage; seg_delay_before := initial_delay |} :: segs), tick)
        end
      else plain_plan c frame initial_delay tick
  | None => plain_plan c frame initial_delay tick
  end.

(* ------------------------------------------------------------------ *)
(** * Connection disruption *)

Record ConnectionDisruptionConfig : Set := {
  drop_after_requests : option Z;
  drop_mid_frame : bool;
  rst_after_partial : bool;
  partial_byte_count : Z;
  hold_open_timeout : option Z;
  periodic_drop : option Z;
  close_delay : option Z;
  use_rst : bool;
}.
Definition ConnectionDisruptionConfig_default : ConnectionDisruptionConfig :=
  {| drop_after_requests := None; drop_mid_frame := false; rst_after_partial := false; partial_byte_count := 4;
     hold_open_timeout := None; periodic_drop := None; close_delay := None; use_rst := false |}.
Record ConnectionDisruptionState : Set := { cds_config : ConnectionDisruptionConfig; request_count : Z; holding_open : bool }.
Definition ConnectionDisruptionState_new (c : ConnectionDisruptionConfig) : ConnectionDisruptionState :=
  {| cds_config := c; request_count := 0; holding_open := false |}.
Definition set_holding_open (b : bool) (s : ConnectionDisruptionState) : ConnectionDisruptionState :=
  {| cds_config := cds_config s; request_count := request_count s; holding_open := b |}.
Definition cds_reset (s : ConnectionDisruptionState) : ConnectionDisruptionState := ConnectionDisruptionState_new (cds_config s).
Inductive DisruptionAction : Set :=
| NoDisruption
| Disconnect (delay : option Z) (rst : bool)
| DropMidFrame (delay : option Z) (rst : bool)
| RstAfterPartial (byte_count : Z) (delay : option Z) (rst : bool)
| HoldOpen (duration : Z).
Definition build_disconnect_action (c : ConnectionDisruptionConfig) : DisruptionAction :=
  if rst_after_partial c then RstAfterPartial (partial_byte_count c) (close_delay c) (use_rst c)
  else if drop_mid_frame c then DropMidFrame (close_delay c) (use_rst c)
  else Disconnect (close_delay c) (use_rst c).
Definition u64_MAX : Z := 18446744073709551615.
(** [fetch_add] wraps; the [+ 1] after it overflows. *)
Definition record_request `{BuildProfile} {E} (s : ConnectionDisruptionState)
  : outcome E (DisruptionAction * ConnectionDisruptionState) :=
  let c := cds_config s in
  let? count := checked_op 18446744073709551616 (request_count s + 1) in
  let s := {| cds_config := c; request_count := wrap64 (request_count s + 1); holding_open := holding_open s |} in
  let act :=
    if match drop_after_requests c with Some threshold => threshold <=? count | None => false end then build_disconnect_action c
    else if match periodic_drop c with Some period => (0 <? period) && (count mod period =? 0) | None => false end then
      build_disconnect_action c
    else match hold_open_timeout c with
         | Some d => if default u64_MAX (drop_after_requests c) <=? count then HoldOpen d else NoDisruption
         | None => NoDisruption
         end in
  Ok (act, s).

(* ------------------------------------------------------------------ *)
(** * What reaches the wire *)

(** What a TCP connection writes for a reply, each piece with the pause before it. *)
Definition with_transaction_id (tid : Z) (f : MbapFrame) : MbapFrame :=
  {| header := {| transaction_id := tid; protocol_id := protocol_id (header f); mbap_length := mbap_length (header f);
                  mbap_unit_id := mbap_unit_id (header f) |}; mbap_pdu := mbap_pdu f |}.
Definition tcp_transmit (request : MbapFrame) (response_pdu : list Z) (a : option FaultAction)
  : outcome ModbusError (list TimingSegment) :=
  let after (delay : Z) (bytes : list Z) := [{| seg_data := bytes; seg_delay_before := delay |}] in
  match a with
  | Some DropResponse => Ok []
  | Some (DelayThenSend delay pdu) => omap_ok (after delay) (MbapCodec_encode (MbapFrame_response request pdu) [])
  | Some (OverrideTransactionId tid pdu) =>
      omap_ok (after 0) (MbapCodec_encode (with_transaction_id tid (MbapFrame_response request pdu)) [])
  | Some (SendRawBytes bytes) | Some (SendPartial bytes) => Ok (after 0 bytes)
  | Some (SendResponse pdu) => omap_ok (after 0) (MbapCodec_encode (MbapFrame_response request pdu) [])
  | None => omap_ok (after 0) (MbapCodec_encode (MbapFrame_response request response_pdu) [])
  end.

(** What the disruption adds once the reply is out, and whether the connection is closed. *)
Definition disruption_writes (a : DisruptionAction) : list Z * bool :=
  match a with
  | NoDisruption => ([], false)
  | Disconnect _ _ | DropMidFrame _ _ | HoldOpen _ => ([], true)
  | RstAfterPartial n _ _ => ((fun i => i mod 256) <$> zrange 0 (Z.to_nat n), true)
  end.

(** The tail of the request loop of a connection with a fault pipeline or a disruption: what is
    written, whether the connection is closed, and the states left.  A dropped response skips
    the disruption; an error of the encoder closes the connection. *)
Definition tcp_reply `{BuildProfile} (request : MbapFrame) (response_pdu : list Z) (number : Z) (pipeline : option FaultPipeline)
    (disruption : option ConnectionDisruptionState) (tick : nat)
  : outcome ModbusError (list TimingSegment * list Z * bool) * option FaultPipeline * option ConnectionDisruptionState * nat :=
  let '(action, pipeline, tick) :=
    match pipeline with
    | Some p =>
        let '(a, p, tick) :=
          FaultPipeline_apply
            (ModbusFaultContext_tcp (mbap_unit_id (header request)) (default 0 (MbapFrame_function_code request))
               (mbap_pdu request) response_pdu (transaction_id (header request)) number) p tick in
        (a, Some p, tick)
    | None => (Ok None, None, tick)
    end in
  match action with
  | Ok (Some DropResponse) => (Ok ([], [], false), pipeline, disruption, tick)
  | Ok action =>
      match tcp_transmit request response_pdu action with
      | Ok sent =>
          match disruption with
          | Some s =>
              match record_request s with
              | Ok (act, s) => let '(extra, closed) := disruption_writes act in (Ok (sent, extra, closed), pipeline, Some s, tick)
              | Err e => (Err e, pipeline, disruption, tick)
              | Panic => (Panic, pipeline, disruption, tick)
              end
          | None => (Ok (sent, [], false), pipeline, disruption, tick)
          end
      | Err _ => (Ok ([], [], true), pipeline, disruption, tick)
      | Panic => (Panic, pipeline, disruption, tick)
      end
  | Err e => (Err e, pipeline, disruption, tick)
  | Panic => (Panic, pipeline, disruption, tick)
  end.

(** [send_response_bytes] of the RTU server on a line that accepts every write;
    [response_delay] is the simulated delay for a number of bytes, when it is simulated, and [timing]
    the timing faults, when the hooks apply them. *)
Definition send_response_bytes {E} (response_delay : Z → option Z) (timing : option RtuTimingFaultConfig) (bytes : list Z)
    (allow_timing_faults : bool) (tick : nat) : outcome E (list TimingSegment) * nat :=
  let plain := Ok [{| seg_data := bytes; seg_delay_before := default 0 (response_delay (zlen bytes)) |}] in
  if allow_timing_faults then
    match timing with Some c => build_timing_plan c bytes tick | None => (plain, tick) end
  else (plain, tick).
Definition encode_response {E} (request : RtuFrame) (pdu : list Z) : outcome E (list Z) :=
  omap_ok RtuFrame_encode (RtuFrame_response request pdu).
(** The bytes the RTU server hands over for an action, the pause before them, and whether
    timing faults apply to them. *)
Definition rtu_bytes {E} (request response : RtuFrame) (a : option FaultAction) : outcome E (option (Z * list Z * bool)) :=
  match a with
  | Some DropResponse => Ok None
  | Some (DelayThenSend delay pdu) => let? b := encode_response request pdu in Ok (Some (delay, b, false))
  | Some (SendRawBytes bytes) => Ok (Some (0, bytes, true))
  | Some (SendPartial bytes) => Ok (Some (0, bytes, false))
  | Some (SendResponse pdu) => let? b := encode_response request pdu in Ok (Some (0, b, false))
  | Some (OverrideTransactionId _ _) => Ok (Some (0, RtuFrame_encode response, false))
  | None => Ok (Some (0, RtuFrame_encode response, true))
  end.
Definition rtu_transmit {E} (response_delay : Z → option Z) (timing : option RtuTimingFaultConfig) (request response : RtuFrame)
    (a : option FaultAction) (tick : nat) : outcome E (list TimingSegment) * nat :=
  match rtu_bytes request response a with
  | Ok None => (Ok [], tick)
  | Ok (Some (delay, bytes, timed)) =>
      let '(segs, tick) := send_response_bytes response_delay timing bytes timed tick in
      (omap_ok (fun segs => if delay =? 0 then segs else {| seg_data := []; seg_delay_before := delay |} :: segs) segs, tick)
  | Err e => (Err e, tick)
  | Panic => (Panic, tick)
  end.
End faults.

(* ------------------------------------------------------------------ *)
(** * An environment *)

(** Draws that alternate between the two ends of the range. *)
Program Definition alternating : FaultEnv := {|
  gen_range := fun n lo hi => if Nat.even n then lo else hi;
  gen_f64 := fun _ => S754_zero false;
  patience := 2;
  epoch_ms := fun n => Z.of_nat n;
|}.
Next Obligation. intros n lo hi ?. simpl. destruct (Nat.even n); lia. Qed.
Next Obligation.
  intros n lo hi x ?. destruct (decide ((if Nat.even n then lo else hi) = x)) as [Heq|].
  - exists 1%nat. split; [lia|]. rewrite Nat.add_1_r, Nat.even_succ, <- Nat.negb_even.
    destruct (Nat.even n); simpl; lia.
  - exists 0%nat. split; [lia|]. by rewrite Nat.add_0_r.
Qed.

(* ------------------------------------------------------------------ *)
(** * Corrupted values *)

Section corruption.
Context `{FaultEnv}.

Lemma draw_other_differs fuel : ∀ lo hi x tick,
  lo ≤ hi → (∃ k, (k ≤ fuel)%nat ∧ gen_range (tick + k) lo hi ≠ x) →
  (draw_other fuel lo hi x tick).1 ≠ x ∧ lo ≤ (draw_other fuel lo hi x tick).1 ≤ hi.
Proof.
  induction fuel as [|fuel IH]; intros lo hi x tick Hr (k & Hk & Hne); cbn [draw_other];
    destruct (Z.eqb_spec (gen_range tick lo hi) x) as [Heq|Heq]; cbn [negb fst];
    try (split; [done|by apply gen_range_spec]).
  - exfalso. replace k with 0%nat in Hne by lia. by rewrite Nat.add_0_r in Hne.
  - apply IH; [done|]. destruct k as [|k]; [by rewrite Nat.add_0_r in Hne|].
    exists k. split; [lia|]. by rewrite Nat.add_succ_comm.
Qed.

Lemma draw_other_ok lo hi x tick :
  lo < hi → (draw_other patience lo hi x tick).1 ≠ x ∧ lo ≤ (draw_other patience lo hi x tick).1 ≤ hi.
Proof.
  intros Hr. apply draw_other_differs; [lia|].
  destruct (patience_spec tick lo hi x Hr) as (k & Hk & Hne). exists k. split; [lia|done].
Qed.

Lemma corrupt_unit_id_ok mode fixed id tick :
  is_u8 id → mode ≠ UnitFixed →
  (corrupt_unit_id mode fixed id tick).1 ≠ id ∧ is_u8 (corrupt_unit_id mode fixed id tick).1.
Proof.
  intros Hid Hm. unfold is_u8 in *. destruct mode; cbn [corrupt_unit_id fst]; [done| | |].
  - split; [|apply Z.mod_pos_bound; lia].
    destruct (decide (id = 255)) as [->|]; [done|]. rewrite Z.mod_small; lia.
  - pose proof (draw_other_ok 0 255 id tick ltac:(lia)). intuition lia.
  - rewrite Z.mod_small by lia. lia.
Qed.
End corruption.

Lemma lxor_ne a b : b ≠ 0 → Z.lxor a b ≠ a.
Proof. intros Hb He. apply Hb. rewrite <- (Z.lxor_0_l b), <- (Z.lxor_nilpotent a), Z.lxor_assoc, He. by rewrite Z.lxor_nilpotent. Qed.

Lemma raw_frame_decode u pdu crc :
  is_u8 u → bytes_ok pdu → 1 ≤ zlen pdu ≤ 253 → is_u16 crc →
  RtuFrame_decode (raw_frame u pdu crc) =
    if crc =? compute_crc (u :: pdu) then Ok {| rtu_unit_id := u; rtu_pdu := pdu; rtu_crc := crc |}
    else Err (CrcMismatch (compute_crc (u :: pdu)) crc).
Proof.
  intros Hu Hp Hl Hc. unfold raw_frame. rewrite land_255, Z.shiftr_div_pow2 by lia. change (2 ^ 8) with 256.
  change (u :: pdu ++ ?x) with ((u :: pdu) ++ x).
  rewrite RtuFrame_decode_split by (done || by apply bytes_ok_cons).
  replace (u16_from_le (crc mod 256) (crc / 256)) with crc by int_lia. done.
Qed.

Lemma raw_mbap_frame `{BuildProfile} {E} tid u pdu :
  is_u16 tid → 1 ≤ zlen pdu ≤ 65534 → raw_mbap (E:=E) tid u pdu = Ok (MbapFrame_to_bytes (MbapFrame_new tid u pdu)).
Proof.
  intros Ht Hl. unfold raw_mbap. replace (as_u16 (zlen pdu)) with (zlen pdu) by int_lia.
  rewrite u16_add_exact by lia. cbn [obind]. f_equal.
  unfold MbapFrame_to_bytes, MbapFrame_encode, MbapHeader_encode, MbapFrame_new, MbapHeader_new.
  cbn [header mbap_pdu transaction_id protocol_id mbap_length mbap_unit_id app].
  unfold u16_to_be, as_u16. rewrite !land_255, !Z.shiftr_div_pow2 by lia. change (2 ^ 8) with 256.
  cbn [app]. rewrite (Z.mod_small (zlen pdu + 1) 65536) by lia. replace (1 + zlen pdu) with (zlen pdu + 1) by lia.
  rewrite (Z.mod_small (tid / 256) 256) by int_lia.
  rewrite (Z.mod_small ((zlen pdu + 1) / 256) 256) by int_lia. done.
Qed.

Lemma corrupt_crc_range `{FaultEnv} mode fixed crc tick :
  is_u16 fixed → is_u16 crc → is_u16 (corrupt_crc mode fixed crc tick).1.
Proof.
  intros Hf Hc. unfold is_u16 in *.
  destruct mode; cbn [corrupt_crc fst]; [lia| | |done|].
  - unfold u16_not. apply (lxor_range _ _ 16); lia.
  - apply (lxor_range _ _ 16); [lia..|]. pose proof (gen_range_spec tick 1 0xFFFF ltac:(lia)). lia.
  - unfold u16_swap. rewrite !land_255, Z.shiftl_mul_pow2, Z.shiftr_div_pow2 by lia.
    apply (lor_range _ _ 16); int_lia.
Qed.

(** C33: A corrupted check value is noticed.  Whatever the mode, the bytes the CRC fault sends are the
    frame of the response with the corrupted value at its end: the receiver rejects them with
    the mismatch as soon as that value is not the right one, which is always so for the
    modes that invert the value or combine it with a random one. *)
Theorem crc_fault_rejected `{FaultEnv, BuildProfile} (E : Type) mode fixed ctx tick :
  is_u8 (fc_unit_id ctx) → bytes_ok (fc_response_pdu ctx) → 1 ≤ zlen (fc_response_pdu ctx) ≤ 253 → is_u16 fixed →
  let crc := compute_crc (fc_unit_id ctx :: fc_response_pdu ctx) in
  ∃ bytes bad,
    (fault_action (E:=E) (CrcCorruption mode fixed) ctx tick).1 = Ok (SendRawBytes bytes) ∧
    (mode = CrcInvert ∨ mode = CrcRandomXor → bad ≠ crc) ∧
    (mode = CrcZero → bad = 0) ∧ (mode = CrcSetValue → bad = fixed) ∧
    RtuFrame_decode bytes =
      if bad =? crc then Ok {| rtu_unit_id := fc_unit_id ctx; rtu_pdu := fc_response_pdu ctx; rtu_crc := bad |}
      else Err (CrcMismatch crc bad).
Proof.
  intros Hu Hp Hl Hf crc.
  assert (is_u16 crc) as Hcrc by (by apply crc_slow_range, bytes_ok_cons).
  exists (raw_frame (fc_unit_id ctx) (fc_response_pdu ctx) (corrupt_crc mode fixed crc tick).1), (corrupt_crc mode fixed crc tick).1.
  cbn [fault_action]. unfold CrcCorruptionFault_action. fold crc. split; [by destruct (corrupt_crc mode fixed crc tick)|].
  split; [|split; [by intros ->|split; [by intros ->|]]].
  - intros [-> | ->]; cbn [corrupt_crc fst]; apply lxor_ne; [done|].
    pose proof (gen_range_spec tick 1 0xFFFF ltac:(lia)). lia.
  - apply raw_frame_decode; [done..|]. by apply corrupt_crc_range.
Qed.

Lemma crc_fault_rejected_witness :
  let ctx := ModbusFaultContext_rtu 1 3 [3; 0; 0; 0; 1] [3; 2; 0; 100] 1 in
  ∃ bytes, (@fault_action alternating release_build ModbusError
              (CrcCorruption CrcRandomXor 0) ctx 4).1 = Ok (SendRawBytes bytes) ∧
    ∃ e, RtuFrame_decode bytes = Err e.
Proof.
  intros ctx.
  destruct (@crc_fault_rejected alternating release_build ModbusError CrcRandomXor 0 ctx 4)
    as (bytes & bad & Ha & Hne & _ & _ & Hd); [done|by repeat constructor|done|done|].
  exists bytes. split; [exact Ha|]. rewrite Hd. specialize (Hne (or_intror eq_refl)).
  rewrite (proj2 (Z.eqb_neq _ _) Hne). eexists. reflexivity.
Defined.

(** An answer for another unit is a well-formed one.  In every mode but a fixed identifier, the
    unit-id fault replaces the identifier with a different one; the RTU receiver decodes the
    bytes as a valid frame of that unit with the response unchanged, and the TCP bytes are
    the MBAP frame of that unit under the request's transaction identifier. *)
Theorem wrong_unit_well_formed `{FaultEnv, BuildProfile} (E : Type) mode fixed ctx tick :
  mode ≠ UnitFixed → is_u8 (fc_unit_id ctx) → bytes_ok (fc_response_pdu ctx) → 1 ≤ zlen (fc_response_pdu ctx) ≤ 253 →
  is_u16 (fc_transaction_id ctx) →
  ∃ bytes bad, (fault_action (E:=E) (WrongUnitId mode fixed) ctx tick).1 = Ok (SendRawBytes bytes) ∧
    bad ≠ fc_unit_id ctx ∧ is_u8 bad ∧
    match fc_transport ctx with
    | Rtu => ∃ f, RtuFrame_decode bytes = Ok f ∧ rtu_unit_id f = bad ∧ rtu_pdu f = fc_response_pdu ctx
    | Tcp => bytes = MbapFrame_to_bytes (MbapFrame_new (fc_transaction_id ctx) bad (fc_response_pdu ctx))
    end.
Proof.
  intros Hm Hu Hp Hl Ht. destruct (corrupt_unit_id_ok mode fixed (fc_unit_id ctx) tick Hu Hm) as [Hne Hb].
  cbn [fault_action]. unfold WrongUnitIdFault_action. destruct (corrupt_unit_id mode fixed (fc_unit_id ctx) tick) as [bad tick']. cbn [fst] in *.
  destruct (fc_transport ctx).
  - rewrite raw_mbap_frame by (done || lia). cbn [omap_ok fst]. eauto 6.
  - cbn [fst]. eexists _, bad. split; [done|]. split; [done|]. split; [done|].
    rewrite raw_frame_decode by (done || by apply crc_slow_range, bytes_ok_cons).
    rewrite Z.eqb_refl. eexists. split; [done|]. done.
Qed.

Lemma wrong_unit_well_formed_witness :
  let ctx := ModbusFaultContext_rtu 7 3 [3; 0; 0; 0; 1] [3; 2; 0; 100] 1 in
  ∃ bytes f, (@fault_action alternating release_build ModbusError
                (WrongUnitId UnitRandom 0) ctx 0).1 = Ok (SendRawBytes bytes) ∧
    RtuFrame_decode bytes = Ok f ∧ rtu_unit_id f ≠ 7.
Proof.
  intros ctx.
  destruct (@wrong_unit_well_formed alternating release_build ModbusError UnitRandom 0 ctx 0)
    as (bytes & bad & Ha & Hne & _ & f & Hd & Hu & _); [done|done|by repeat constructor|done|done|].
  exists bytes, f. split; [exact Ha|]. split; [exact Hd|]. rewrite Hu. exact Hne.
Defined.

(* ------------------------------------------------------------------ *)
(** * Which requests are hit *)

Section targets.
Context `{FaultEnv}.

Definition in_scope (t : FaultTarget) (r : Z * Z) : bool := listed (ft_unit_ids t) r.1 && listed (ft_function_codes t) r.2.
(** The decisions on a sequence of requests, given as unit and function code. *)
Fixpoint run_target (rs : list (Z * Z)) (t : FaultTarget) (tick : nat) : list bool * FaultTarget * nat :=
  match rs with
  | [] => ([], t, tick)
  | r :: rs =>
      let '(b, t, tick) := FaultTarget_should_activate r.1 r.2 t tick in
      let '(bs, t, tick) := run_target rs t tick in (b :: bs, t, tick)
  end.

Lemma roll_certain tick : roll f64_one tick = (true, tick).
Proof. unfold roll. by replace (float_lt (f64_abs (f64_sub f64_one f64_one)) f64_epsilon) with true by (vm_compute; reflexivity). Qed.

Lemma out_of_scope t r tick : in_scope t r = false → FaultTarget_should_activate r.1 r.2 t tick = (false, t, tick).
Proof.
  unfold in_scope, FaultTarget_should_activate. intros Hs.
  destruct (listed (ft_unit_ids t) r.1); [|done]. cbn in Hs |- *. by rewrite Hs.
Qed.

(** One decision within the scope: the configuration stays, the counters move. *)
Lemma activation_step t r tick b t' tick' :
  in_scope t r = true → 0 ≤ ft_check_counter t → ft_check_counter t + 1 < 2 ^ 64 →
  FaultTarget_should_activate r.1 r.2 t tick = (b, t', tick') →
  t' = ft_set_counters t (ft_check_counter t + 1) (if b then wrap64 (ft_activation_counter t + 1) else ft_activation_counter t) ∧
  (b = true → ft_skip_count t ≤ ft_check_counter t ∧
              match ft_max_activations t with Some max => ft_activation_counter t < max | None => True end) ∧
  (ft_probability t = f64_one →
   b = (ft_skip_count t <=? ft_check_counter t)
       && match ft_max_activations t with Some max => ft_activation_counter t <? max | None => true end).
Proof.
  intros Hs Hc Hw. unfold FaultTarget_should_activate. apply andb_true_iff in Hs as [-> ->]. cbn [negb].
  assert (wrap64 (ft_check_counter t + 1) = ft_check_counter t + 1) as Hw1 by (unfold wrap64; apply Z.mod_small; lia).
  cbv zeta. rewrite !Hw1.
  cbn [ft_skip_count ft_max_activations ft_activation_counter ft_check_counter ft_probability ft_set_counters].
  destruct (Z.ltb_spec (ft_check_counter t) (ft_skip_count t)).
  { intros [= <- <- <-]. split; [done|]. split; [done|]. intros _. symmetry. apply andb_false_iff. left. lia. }
  rewrite (proj2 (Z.leb_le _ _)) by lia. cbn [andb].
  destruct (ft_max_activations t) as [max|].
  1: destruct (Z.leb_spec max (ft_activation_counter t)).
  1: { intros [= <- <- <-]. split; [done|]. split; [done|]. intros _. symmetry. apply Z.ltb_ge. lia. }
  1: rewrite (proj2 (Z.ltb_lt _ _)) by lia.
  all: destruct (roll (ft_probability t) tick) as [act tk] eqn:Hr; intros [= <- <- <-];
    (split; [by destruct act|]); (split; [done|]); intros Hp; rewrite Hp, roll_certain in Hr; congruence.
Qed.
End targets.

(** A fault fires at most as often as it may.  On any sequence of requests, with any
    probability and any draws, a target with a limit of [max] activations says yes at most
    [max] times, and never to a request outside its units and function codes. *)
Theorem fault_budget `{FaultEnv} (t : FaultTarget) (rs : list (Z * Z)) (max : Z) (tick : nat) :
  ft_max_activations t = Some max → 0 ≤ ft_check_counter t → 0 ≤ ft_activation_counter t ≤ max → max < 2 ^ 64 →
  ft_check_counter t + zlen rs < 2 ^ 64 →
  let '(bs, _, _) := run_target rs t tick in
  zlen (filter (fun b => b = true) bs) ≤ max - ft_activation_counter t ∧
  ∀ i r, rs !! i = Some r → bs !! i = Some true → in_scope t r = true.
Proof.
  intros Hm. revert t tick Hm. induction rs as [|r rs IH]; intros t tick Hm Hc Ha Hmax Hl; cbn [run_target].
  { rewrite zlen_nil in *. split; [lia|]. done. }
  rewrite zlen_cons in Hl. pose proof (zlen_nonneg rs) as Hn.
  destruct (FaultTarget_should_activate r.1 r.2 t tick) as [[b t'] tick'] eqn:Hs.
  destruct (in_scope t r) eqn:Hscope.
  - apply activation_step in Hs as (-> & Hb & _); [|done|lia|lia]. rewrite Hm in Hb.
    assert (b = true → wrap64 (ft_activation_counter t + 1) = ft_activation_counter t + 1) as Hw.
    { intros Ht. destruct (Hb Ht). unfold wrap64. apply Z.mod_small. lia. }
    set (t' := ft_set_counters _ _ _). specialize (IH t' tick').
    assert (ft_activation_counter t' = ft_activation_counter t + (if b then 1 else 0) ∧ ft_activation_counter t' ≤ max) as [Ha' ?].
    { subst t'. cbn [ft_set_counters ft_activation_counter]. destruct b; [|lia]. rewrite Hw by done. destruct (Hb eq_refl). lia. }
    destruct (run_target rs t' tick') as [[bs tt] tk]. destruct IH as [Hlen Hin]; [done| | |done| |].
    1,3: subst t'; cbn [ft_set_counters ft_check_counter]; lia.
    1: destruct b; lia.
    split.
    + rewrite filter_cons. destruct b; (destruct (decide _); [|done]) || (destruct (decide _); [done|]); rewrite ?zlen_cons; lia.
    + intros [|i] r'; cbn [lookup list_lookup]; [by intros [= <-]|apply Hin].
  - rewrite out_of_scope in Hs by done. injection Hs as <- <- <-. specialize (IH t tick Hm Hc Ha Hmax ltac:(lia)).
    destruct (run_target rs t tick) as [[bs tt] tk]. destruct IH as [Hlen Hin]. split; [done|].
    intros [|i] r'; cbn [lookup list_lookup]; [done|apply Hin].
Qed.

Lemma fault_budget_witness :
  let t := FaultTarget_with_max_activations 2 (FaultTarget_with_unit_ids [1; 2] FaultTarget_new) in
  let rs := [(1, 3); (3, 3); (2, 6); (1, 3)] in
  let '(bs, _, _) := @run_target alternating rs t 0 in
  bs = [true; false; true; false] ∧ zlen (filter (fun b => b = true) bs) ≤ 2.
Proof.
  intros t rs. pose proof (@fault_budget alternating t rs 2 0 eq_refl ltac:(done) ltac:(done) ltac:(done) ltac:(done)) as Hb.
  replace (@run_target alternating rs t 0) with ([true; false; true; false], (@run_target alternating rs t 0).1.2, (@run_target alternating rs t 0).2) in Hb |- * by (vm_compute; reflexivity).
  split; [reflexivity|]. exact (proj1 Hb).
Defined.

Lemma certain_window `{FaultEnv} rs : ∀ (t : FaultTarget) (max : Z) (tick : nat),
  ft_probability t = f64_one → ft_max_activations t = Some max → 0 ≤ max < 2 ^ 64 → 0 ≤ ft_skip_count t →
  0 ≤ ft_check_counter t → ft_check_counter t + zlen rs < 2 ^ 64 →
  ft_activation_counter t = Z.min max (Z.max 0 (ft_check_counter t - ft_skip_count t)) →
  Forall (fun r => in_scope t r = true) rs →
  (run_target rs t tick).1.1
  = (fun i => (ft_skip_count t <=? i) && (i <? ft_skip_count t + max)) <$> zrange (ft_check_counter t) (length rs).
Proof.
  induction rs as [|r rs IH]; intros t max tick Hp Hm Hmax Hs Hc Hl Ha Hin; cbn [run_target]; [done|].
  apply Forall_cons in Hin as [Hr Hin]. rewrite zlen_cons in Hl. pose proof (zlen_nonneg rs) as Hn.
  destruct (FaultTarget_should_activate r.1 r.2 t tick) as [[b t'] tick'] eqn:Hd.
  apply activation_step in Hd as (-> & Hb & Hpb); [|done|lia|lia]. rewrite Hm in Hb, Hpb. specialize (Hpb Hp).
  set (t' := ft_set_counters _ _ _). specialize (IH t' max tick').
  destruct (run_target rs t' tick') as [[bs tt] tk]. cbn [fst] in *. cbn [length]. rewrite zrange_S. cbn [fmap list_fmap].
  f_equal.
  - rewrite Hpb. apply eq_true_iff_eq. rewrite !andb_true_iff, !Z.leb_le, !Z.ltb_lt. lia.
  - apply IH; [done|done|done|done| | | |done]; subst t'; cbn [ft_set_counters ft_check_counter ft_activation_counter ft_skip_count];
      [lia|lia|].
    destruct b; symmetry in Hpb; [apply andb_true_iff in Hpb; rewrite Z.leb_le, Z.ltb_lt in Hpb; unfold wrap64; rewrite Z.mod_small; lia|].
    apply andb_false_iff in Hpb. rewrite Z.leb_gt, Z.ltb_ge in Hpb. lia.
Qed.

(** A fault without chance hits a window.  A fresh copy of a target with probability 1, a
    number of requests to skip and a limit says yes, among the requests it covers, to exactly
    those numbered [skip] to [skip + max - 1]. *)
Theorem fault_window `{FaultEnv} (t : FaultTarget) (rs : list (Z * Z)) (max : Z) (tick : nat) :
  ft_probability t = f64_one → ft_max_activations t = Some max → 0 ≤ max < 2 ^ 64 → 0 ≤ ft_skip_count t →
  zlen rs < 2 ^ 64 → Forall (fun r => in_scope t r = true) rs →
  (run_target rs (FaultTarget_clone t) tick).1.1
  = (fun i => (ft_skip_count t <=? i) && (i <? ft_skip_count t + max)) <$> zrange 0 (length rs).
Proof.
  intros Hp Hm Hmax Hs Hl Hin.
  apply (certain_window rs (FaultTarget_clone t) max tick); try done; cbn [FaultTarget_clone ft_set_counters ft_check_counter ft_activation_counter ft_skip_count]; lia.
Qed.

Lemma fault_window_witness :
  (@run_target alternating [(1, 3); (1, 3); (1, 3); (1, 3)]
     (FaultTarget_clone (FaultTarget_with_max_activations 2 (FaultTarget_with_skip_count 1 FaultTarget_new))) 0).1.1
  = [false; true; true; false].
Proof.
  rewrite (@fault_window alternating (FaultTarget_with_max_activations 2 (FaultTarget_with_skip_count 1 FaultTarget_new)) _ 2 0);
    [reflexivity|reflexivity|reflexivity|done|done|done|by repeat constructor].
Defined.

(* ------------------------------------------------------------------ *)
(** * The pipeline *)

(** The fault is enabled, covers the request and fires every time. *)
Definition certain (ctx : ModbusFaultContext) (f : ModbusFault) : Prop :=
  fs_enabled (mf_stats f) = true ∧ in_scope (mf_target f) (fc_unit_id ctx, fc_function_code ctx) = true ∧
  ft_probability (mf_target f) = f64_one ∧ ft_skip_count (mf_target f) = 0 ∧ ft_max_activations (mf_target f) = None ∧
  0 ≤ ft_check_counter (mf_target f) < 2 ^ 64 - 1.

Section pipeline.
Context `{FaultEnv, BuildProfile}.

Lemma certain_activates ctx f tick :
  certain ctx f → ∃ f', fault_should_activate ctx f tick = (true, f', tick) ∧ mf_kind f' = mf_kind f.
Proof.
  intros (_ & Hs & Hp & Hk & Hm & Hc). unfold fault_should_activate, FaultTarget_should_activate.
  apply andb_true_iff in Hs as [H1 H2]. cbn [fst snd] in H1, H2. rewrite H1, H2. cbn [negb]. cbv zeta.
  cbn [ft_skip_count ft_max_activations ft_activation_counter ft_check_counter ft_probability ft_set_counters].
  rewrite Hk, Hm, Hp, roll_certain, (proj2 (Z.ltb_ge _ _)) by lia. eexists. split; [reflexivity|done].
Qed.

Lemma fault_should_activate_kind ctx f tick b f' tick' :
  fault_should_activate ctx f tick = (b, f', tick') → mf_kind f' = mf_kind f.
Proof.
  unfold fault_should_activate.
  destruct (FaultTarget_should_activate (fc_unit_id ctx) (fc_function_code ctx) (mf_target f) tick) as [[b1 t1] tk1].
  by intros [= _ <- _].
Qed.

(** On TCP only a dropped response ends the first phase. *)
Lemma short_circuit_tcp {E} ctx fs : ∀ tick,
  fc_transport ctx = Tcp →
  ∃ o fs' tick', short_circuit_phase (E:=E) ctx fs tick = (Ok o, fs', tick') ∧ (o = None ∨ o = Some DropResponse) ∧
    (Exists (fun f => certain ctx f ∧ ∃ n, mf_kind f = NoResponse n) fs → o = Some DropResponse).
Proof.
  induction fs as [|f fs IH]; intros tick Ht; cbn [short_circuit_phase].
  { eexists _, _, _. split; [reflexivity|]. split; [by left|]. intros Hx. by apply Exists_nil in Hx. }
  destruct (fs_enabled (mf_stats f) && is_short_circuit (mf_kind f) && transport_fits (mf_kind f) (fc_transport ctx)) eqn:Hg.
  - rewrite Ht in Hg. assert (∃ n, mf_kind f = NoResponse n) as [n Hn].
    { destruct (mf_kind f); cbn in Hg; rewrite ?andb_false_r in Hg; try done. eauto. }
    destruct (fault_should_activate ctx f tick) as [[b f'] tick1] eqn:Ha.
    pose proof (fault_should_activate_kind _ _ _ _ _ _ Ha) as Hk. destruct b.
    + unfold fault_apply. rewrite Hk, Hn. cbn [fault_action omap_ok]. eexists _, _, _. split; [reflexivity|]. split; [by right|done].
    + destruct (IH tick1 Ht) as (o & fs' & tk & -> & Ho & Hx). eexists _, _, _. split; [reflexivity|]. split; [done|].
      intros [[Hc _]|He]%Exists_cons; [|by apply Hx]. destruct (certain_activates ctx f tick Hc) as (? & He & _). congruence.
  - destruct (IH tick Ht) as (o & fs' & tk & -> & Ho & Hx). eexists _, _, _. split; [reflexivity|]. split; [done|].
    intros [[(He & _) [n Hn]]|Hl]%Exists_cons; [|by apply Hx]. rewrite He, Hn in Hg. done.
Qed.
End pipeline.

(** A dropped response is silence.  On TCP, when a no-response fault that fires every time is
    anywhere in an enabled pipeline, whatever the other faults are: nothing is written, the
    connection stays open, and a disruption is not counted forward. *)
Theorem drop_is_silent `{FaultEnv, BuildProfile} (request : MbapFrame) (response_pdu : list Z) (number : Z) (p : FaultPipeline)
    (d : option ConnectionDisruptionState) (tick : nat) :
  let ctx := ModbusFaultContext_tcp (mbap_unit_id (header request)) (default 0 (MbapFrame_function_code request))
               (mbap_pdu request) response_pdu (transaction_id (header request)) number in
  fp_enabled p = true → Exists (fun f => certain ctx f ∧ ∃ n, mf_kind f = NoResponse n) (fp_faults p) →
  ∃ p' tick', tcp_reply request response_pdu number (Some p) d tick = (Ok ([], [], false), Some p', d, tick').
Proof.
  intros ctx He Hx. unfold tcp_reply, FaultPipeline_apply. rewrite He. cbn [negb]. fold ctx.
  destruct (short_circuit_tcp (E:=ModbusError) ctx (fp_faults p) tick eq_refl) as (o & fs' & tk & -> & _ & Ho).
  rewrite (Ho Hx). eauto.
Qed.

Definition sure (k : fault_kind) : ModbusFault := {| mf_kind := k; mf_target := FaultTarget_new; mf_stats := FaultStats_new |}.
Lemma sure_certain ctx k : certain ctx (sure k).
Proof. repeat split; done. Qed.

Lemma drop_is_silent_witness :
  let request := MbapFrame_new 9 1 [3; 0; 0; 0; 1] in
  let p := FaultPipeline_with_faults FaultPipeline_new [sure (ExceptionInjection 4); sure (NoResponse 0)] in
  let d := Some (ConnectionDisruptionState_new ConnectionDisruptionConfig_default) in
  ∃ p' tick', @tcp_reply alternating release_build request [3; 2; 0; 100] 1 (Some p) d 0 = (Ok ([], [], false), Some p', d, tick').
Proof.
  intros request p d. apply (@drop_is_silent alternating release_build); [reflexivity|].
  apply Exists_cons. right. apply Exists_cons. left. split; [apply sure_certain|]. exists 0. reflexivity.
Defined.

Section delays.
Context `{FaultEnv, BuildProfile}.

Definition is_tid_fault (k : fault_kind) : bool := match k with WrongTransactionId _ _ => true | _ => false end.
(** Delays without jitter, and transaction-id faults. *)
Definition slows_or_retags (f : ModbusFault) : Prop :=
  match mf_kind f with DelayedResponse base jitter => 0 ≤ base ∧ jitter = 0 | WrongTransactionId _ _ => True | _ => False end.
Definition base_of (f : ModbusFault) : Z := match mf_kind f with DelayedResponse base _ => base | _ => 0 end.
Definition total_delay (fs : list ModbusFault) : Z := foldr (fun f n => base_of f + n) 0 fs.

Lemma total_delay_nonneg fs : Forall slows_or_retags fs → 0 ≤ total_delay fs.
Proof.
  induction 1 as [|f fs Hf _ IH]; unfold total_delay; [done|]. cbn [foldr]. fold (total_delay fs).
  unfold slows_or_retags, base_of in *. destruct (mf_kind f); (done || lia).
Qed.

Lemma mutation_delays {E} ctx fs : ∀ m tick,
  fc_transport ctx = Tcp → Forall (certain ctx) fs → Forall slows_or_retags fs →
  0 ≤ mu_delay m → mu_delay m + total_delay fs < 2 ^ 64 →
  ∃ m' fs' tick', mutation_phase (E:=E) ctx fs m tick = (Ok (inl m'), fs', tick') ∧
    mu_response m' = mu_response m ∧ mu_delay m' = mu_delay m + total_delay fs ∧ mu_raw m' = mu_raw m ∧
    (mu_activated m = true ∨ fs ≠ [] → mu_activated m' = true).
Proof.
  induction fs as [|f fs IH]; intros m tick Ht Hc Hk Hd Hb; cbn [mutation_phase].
  { eexists _, _, _. split; [reflexivity|]. unfold total_delay. cbn [foldr]. rewrite Z.add_0_r. repeat (split; [done|]). by intros [?|?]. }
  apply Forall_cons in Hc as [Hc Hcs]. apply Forall_cons in Hk as [Hk Hks].
  pose proof (total_delay_nonneg fs Hks) as Hn.
  unfold total_delay in Hb. cbn [foldr] in Hb. fold (total_delay fs) in Hb.
  destruct (certain_activates ctx f tick Hc) as (f' & -> & Hf'). destruct Hc as (He & _).
  assert (∃ m1 f1 tick1, (let '(a, f0, tick0) := fault_apply (E:=E) (with_response ctx (mu_response m)) f' tick in
             ((let? a := a in accumulate a m), f0, tick0)) = (Ok (inl m1), f1, tick1) ∧ mu_response m1 = mu_response m ∧
             mu_delay m1 = mu_delay m + base_of f ∧ mu_raw m1 = mu_raw m ∧ mu_activated m1 = true) as (m1 & f1 & tick1 & Ha & Hr & Hdl & Hw & Hact).
  { unfold fault_apply. rewrite Hf'. unfold slows_or_retags, base_of in *. destruct (mf_kind f) as [| | |mode fixed| | |base jitter| | |]; try done.
    - cbn [fault_action]. unfold WrongTransactionIdFault_action. destruct (corrupt_tid _ _ _ _) as [bad tk]. cbn [obind accumulate]. eexists _, _, _. split; [reflexivity|]. by rewrite Z.add_0_r.
    - destruct Hk as [Hbase ->]. cbn [fault_action]. unfold DelayedResponseFault_action. cbn [compute_delay Z.eqb obind accumulate]. unfold duration_add.
      rewrite (proj2 (Z.ltb_lt _ _)) by (apply Z.div_lt_upper_bound; lia). cbn [obind]. by eexists _, _, _. }
  assert (fs_enabled (mf_stats f) && negb (is_short_circuit (mf_kind f)) && transport_fits (mf_kind f) (fc_transport ctx) = true) as ->.
  { rewrite He, Ht. unfold slows_or_retags in Hk. by destruct (mf_kind f). }
  destruct (fault_apply _ f' tick) as [[a f0] tick0]. injection Ha as -> -> ->.
  destruct (IH m1 tick1 Ht Hcs Hks) as (m' & fs' & tick' & -> & Hr' & Hd' & Hw' & Hact').
  { rewrite Hdl. unfold slows_or_retags, base_of in *. destruct (mf_kind f); (done || lia). }
  { rewrite Hdl. lia. }
  eexists _, _, _. split; [reflexivity|]. split; [congruence|]. split; [|split; [congruence|]].
  - rewrite Hd', Hdl. unfold total_delay. cbn [foldr]. lia.
  - intros _. apply Hact'. by left.
Qed.

(** No fault of the list acts in the first phase. *)
Lemma no_short_circuit {E} ctx fs : ∀ tick,
  Forall (fun f => is_short_circuit (mf_kind f) = false) fs → short_circuit_phase (E:=E) ctx fs tick = (Ok None, fs, tick).
Proof.
  induction fs as [|f fs IH]; intros tick Hf; cbn [short_circuit_phase]; [done|]. apply Forall_cons in Hf as [Hf Hfs].
  rewrite Hf, andb_false_r. cbn [andb]. by rewrite IH.
Qed.
End delays.

(** A delay undoes a wrong transaction identifier.  When every fault of a TCP pipeline fires and
    is a delay without jitter or a transaction-id fault, and the delays add up to a
    positive time, the client receives after that time the response under the request's own
    transaction identifier, as if there were no transaction-id fault. *)
Theorem delay_cancels_tid `{FaultEnv, BuildProfile} (request : MbapFrame) (response_pdu : list Z) (number : Z)
    (fs : list ModbusFault) (tick : nat) :
  let ctx := ModbusFaultContext_tcp (mbap_unit_id (header request)) (default 0 (MbapFrame_function_code request))
               (mbap_pdu request) response_pdu (transaction_id (header request)) number in
  Forall (certain ctx) fs → Forall slows_or_retags fs → 0 < total_delay fs < 2 ^ 64 → 1 ≤ zlen response_pdu ≤ 253 →
  ∃ p' tick', tcp_reply request response_pdu number (Some (FaultPipeline_with_faults FaultPipeline_new fs)) None tick
    = (Ok ([{| seg_data := MbapFrame_to_bytes (MbapFrame_response request response_pdu); seg_delay_before := total_delay fs |}],
           [], false), Some p', None, tick').
Proof.
  intros ctx Hc Hk Hd Hl. unfold tcp_reply, FaultPipeline_apply. cbn [fp_enabled negb fp_faults FaultPipeline_with_faults FaultPipeline_new app].
  fold ctx. rewrite no_short_circuit.
  2: { eapply Forall_impl; [exact Hk|]. intros f Hf. unfold slows_or_retags in Hf. by destruct (mf_kind f). }
  destruct (mutation_delays (E:=ModbusError) ctx fs (initial_mutation ctx) tick eq_refl Hc Hk)
    as (m & fs' & tick' & -> & Hr & Hdl & Hw & Hact); [done|cbn [initial_mutation mu_delay]; lia|].
  cbn [obind]. unfold final_action. rewrite Hact, Hw, Hdl, Hr.
  2: { right. intros ->. unfold total_delay in Hd. cbn [foldr] in Hd. lia. }
  cbn [negb initial_mutation mu_raw mu_delay mu_response]. rewrite Z.add_0_l, (proj2 (Z.ltb_lt _ _)) by lia.
  replace (match mu_tid m with Some tid => _ | None => _ end) with (DelayThenSend (total_delay fs) (fc_response_pdu ctx)) by (by destruct (mu_tid m)).
  cbn [tcp_transmit]. unfold MbapCodec_encode, MAX_PDU_SIZE. cbn [mbap_pdu MbapFrame_response MbapFrame_new fc_response_pdu ctx ModbusFaultContext_tcp].
  rewrite (proj2 (Z.ltb_ge _ _)) by lia. destruct response_pdu; [rewrite zlen_nil in Hl; lia|]. cbn [omap_ok]. eauto.
Qed.

Lemma delay_cancels_tid_witness :
  let request := MbapFrame_new 9 1 [3; 0; 0; 0; 1] in
  ∃ p' tick', @tcp_reply alternating release_build request [3; 2; 0; 100] 1
      (Some (FaultPipeline_with_faults FaultPipeline_new [sure (DelayedResponse 5000000 0); sure (WrongTransactionId TidIncrement 0)])) None 0
    = (Ok ([{| seg_data := [0; 9; 0; 0; 0; 5; 1; 3; 2; 0; 100]; seg_delay_before := 5000000 |}], [], false), Some p', None, tick').
Proof.
  intros request.
  apply (@delay_cancels_tid alternating release_build request [3; 2; 0; 100] 1
           [sure (DelayedResponse 5000000 0); sure (WrongTransactionId TidIncrement 0)] 0).
  - repeat (apply List.Forall_cons; [apply sure_certain|]). apply List.Forall_nil.
  - by repeat constructor.
  - done.
  - done.
Defined.

(** A delay frames a frame.  A wrong unit identifier followed by a delay on TCP: the client
    receives, after the delay, a frame under its own transaction and unit identifiers whose PDU is
    the whole faulty MBAP frame. *)
Theorem delay_reframes_raw `{FaultEnv, BuildProfile} (request : MbapFrame) (response_pdu : list Z) (number : Z)
    (mode : UnitIdCorruptionMode) (fixed base : Z) (tick : nat) :
  0 < base < 2 ^ 64 → 1 ≤ zlen response_pdu ≤ 246 → is_u16 (transaction_id (header request)) →
  ∃ bad p' tick', tcp_reply request response_pdu number
      (Some (FaultPipeline_with_faults FaultPipeline_new [sure (WrongUnitId mode fixed); sure (DelayedResponse base 0)])) None tick
    = (Ok ([{| seg_data := MbapFrame_to_bytes (MbapFrame_response request
                             (MbapFrame_to_bytes (MbapFrame_new (transaction_id (header request)) bad response_pdu)));
               seg_delay_before := base |}], [], false), Some p', None, tick').
Proof.
  intros Hb Hl Ht. unfold tcp_reply, FaultPipeline_apply. cbn [fp_enabled negb fp_faults FaultPipeline_with_faults FaultPipeline_new app].
  set (ctx := ModbusFaultContext_tcp _ _ _ _ _ _). rewrite no_short_circuit by (repeat constructor).
  cbn [mutation_phase fs_enabled sure mf_stats FaultStats_new mf_kind is_short_circuit negb andb transport_fits compatible_transport].
  destruct (certain_activates ctx (sure (WrongUnitId mode fixed)) tick (sure_certain _ _)) as (f1 & -> & Hf1).
  unfold fault_apply at 1. rewrite Hf1. cbn [sure mf_kind fault_action]. unfold WrongUnitIdFault_action.
  destruct (corrupt_unit_id mode fixed _ (S tick)) as [bad tick1].
  cbn [fc_transport with_response ctx ModbusFaultContext_tcp fc_transaction_id fc_response_pdu initial_mutation mu_response].
  rewrite raw_mbap_frame by (done || lia). cbn [omap_ok obind accumulate mu_response].
  set (raw := MbapFrame_to_bytes _).
  destruct (certain_activates ctx (sure (DelayedResponse base 0)) tick1 (sure_certain _ _)) as (f2 & -> & Hf2).
  unfold fault_apply. rewrite Hf2. cbn [sure mf_kind fault_action]. unfold DelayedResponseFault_action. cbn [compute_delay Z.eqb obind accumulate mu_delay with_response fc_response_pdu].
  change (mu_delay (initial_mutation ctx)) with 0. unfold duration_add. rewrite (proj2 (Z.ltb_lt _ _)) by (apply Z.div_lt_upper_bound; lia).
  cbn [obind final_action mu_activated negb mu_raw mu_delay mu_response]. rewrite Z.add_0_l, (proj2 (Z.ltb_lt _ _)) by lia.
  cbn [tcp_transmit]. unfold MbapCodec_encode, MAX_PDU_SIZE. cbn [mbap_pdu MbapFrame_response MbapFrame_new].
  assert (zlen raw = zlen response_pdu + 7) as Hraw.
  { subst raw. rewrite to_bytes_split, zlen_app, zlen_header. cbn [mbap_pdu MbapFrame_new]. lia. }
  rewrite (proj2 (Z.ltb_ge _ _)) by lia. destruct raw as [|r0 raw'] eqn:Hr; [rewrite zlen_nil in Hraw; lia|].
  cbn [omap_ok]. exists bad. subst raw. rewrite Hr. eauto.
Qed.

Lemma delay_reframes_raw_witness :
  let request := MbapFrame_new 9 1 [3; 0; 0; 0; 1] in
  ∃ bad p' tick', @tcp_reply alternating release_build request [3; 2; 0; 100] 1
      (Some (FaultPipeline_with_faults FaultPipeline_new [sure (WrongUnitId UnitIncrement 0); sure (DelayedResponse 1000 0)])) None 0
    = (Ok ([{| seg_data := MbapFrame_to_bytes (MbapFrame_response request (MbapFrame_to_bytes (MbapFrame_new 9 bad [3; 2; 0; 100])));
               seg_delay_before := 1000 |}], [], false), Some p', None, tick').
Proof. intros request. apply (@delay_reframes_raw alternating release_build request [3; 2; 0; 100] 1 UnitIncrement 0 1000 0); done. Defined.

(* ------------------------------------------------------------------ *)
(** * Timing plans *)

Section plans.
Context `{FaultEnv}.

Lemma gap_segments_data g frame delay offset segs :
  gap_segments g frame delay offset = Some segs → concat (seg_data <$> segs) = frame.
Proof. unfold gap_segments. case_match; [|done]. intros [= <-]. cbn [fmap list_fmap seg_data concat]. by rewrite app_nil_r, take_drop. Qed.

Lemma jitter_segments_data {E} j frame : ∀ i delay tick segs tick',
  jitter_segments (E:=E) j i delay frame tick = (Ok segs, tick') → concat (seg_data <$> segs) = frame.
Proof.
  induction frame as [|byte frame IH]; intros i delay tick segs tick'; cbn [jitter_segments]; [by intros [= <- _]|].
  destruct (if (0 <? interval j) && ((i + 1) mod interval j =? 0) then jitter_delay (E:=E) j tick else (Ok 0, tick)) as [[next| |] tick1]; [|done..].
  destruct (jitter_segments j (i + 1) next frame tick1) as [[segs1| |] tick2] eqn:Hs; [|done..].
  intros [= <- _]. cbn [fmap list_fmap seg_data concat app]. by rewrite (IH _ _ _ _ _ Hs).
Qed.

Lemma jitter_segments_ok {E} j frame : ∀ i delay tick,
  min_delay j / 1000 < 2 ^ 64 → max_delay j / 1000 < 2 ^ 64 → 0 ≤ min_delay j →
  ∃ segs tick', jitter_segments (E:=E) j i delay frame tick = (Ok segs, tick').
Proof.
  induction frame as [|byte frame IH]; intros i delay tick Hmin Hmax Hpos; cbn [jitter_segments]; [eauto|].
  assert (∃ next tick1, (if (0 <? interval j) && ((i + 1) mod interval j =? 0) then jitter_delay (E:=E) j tick else (Ok 0, tick))
           = (Ok next, tick1)) as (next & tick1 & ->).
  { case_match; [|eauto]. unfold jitter_delay. destruct (Z.leb_spec (max_delay j) (min_delay j)); [eauto|].
    unfold wrap64. rewrite !Z.mod_small by (split; [apply Z.div_pos; lia|lia]).
    rewrite (proj2 (Z.ltb_ge _ _)) by (apply Z.div_le_mono; lia). eauto. }
  destruct (IH (i + 1) next tick1 Hmin Hmax Hpos) as (segs & tick' & ->). eauto.
Qed.

Lemma plain_plan_ok {E} c frame delay tick :
  match byte_jitter c with Some j => min_delay j / 1000 < 2 ^ 64 ∧ max_delay j / 1000 < 2 ^ 64 ∧ 0 ≤ min_delay j | None => True end →
  ∃ segs tick', plain_plan (E:=E) c frame delay tick = (Ok segs, tick') ∧ concat (seg_data <$> segs) = frame.
Proof.
  intros Hj. unfold plain_plan. cbv zeta.
  assert (∀ tick, ∃ segs tick', match byte_jitter c with
      | Some j => jitter_segments (E:=E) j 0 delay frame tick
      | None => (Ok [{| seg_data := frame; seg_delay_before := delay |}], tick) end = (Ok segs, tick')
      ∧ concat (seg_data <$> segs) = frame) as Hafter.
  { intros tk. destruct (byte_jitter c) as [j|].
    - destruct Hj as (? & ? & ?). destruct (jitter_segments_ok (E:=E) j frame 0 delay tk) as (segs & tick' & Hs); [done..|].
      exists segs, tick'. split; [done|]. by eapply jitter_segments_data.
    - eexists _, _. split; [reflexivity|]. cbn [fmap list_fmap seg_data concat]. by rewrite app_nil_r. }
  destruct (inject_interchar_gap c) as [g|]; [|apply Hafter].
  destruct (compute_offset g (zlen frame) tick) as [offset tk].
  destruct (gap_segments g frame delay offset) as [segs|] eqn:Hg; [|apply Hafter].
  eexists _, _. split; [reflexivity|]. by eapply gap_segments_data.
Qed.

Lemma add_frame_segments_data c frame delay tick : concat (seg_data <$> (add_frame_segments c frame delay tick).1) = frame.
Proof.
  assert (concat (seg_data <$> [{| seg_data := frame; seg_delay_before := delay |}]) = frame) as Hw
    by (cbn [fmap list_fmap seg_data concat]; by rewrite app_nil_r).
  unfold add_frame_segments. destruct (inject_interchar_gap c) as [g|]; [|done].
  destruct (compute_offset g (zlen frame) tick) as [offset tk]. cbn [fst].
  destruct (gap_segments g frame delay offset) as [segs|] eqn:Hg; [|done]. by eapply gap_segments_data.
Qed.
End plans.

(** Timing faults change when, not what.  For any configuration whose jitter bounds are below
    2^64 microseconds, and any frame, building the plan does not panic, and the bytes of its
    segments in order are the frame, after the collision's garbage if there is any. *)
Theorem timing_plan_preserves_frame `{FaultEnv} (E : Type) (c : RtuTimingFaultConfig) (frame : list Z) (tick : nat) :
  match byte_jitter c with Some j => min_delay j / 1000 < 2 ^ 64 ∧ max_delay j / 1000 < 2 ^ 64 ∧ 0 ≤ min_delay j | None => True end →
  ∃ segs tick' garbage, build_timing_plan (E:=E) c frame tick = (Ok segs, tick') ∧
    concat (seg_data <$> segs) = garbage ++ frame ∧
    match bus_collision c with
    | Some b => garbage = [] ∨ zlen garbage = garbage_byte_count b
    | None => garbage = []
    end.
Proof.
  intros Hj. unfold build_timing_plan. cbv zeta.
  assert (∀ tk, ∃ segs tick' garbage, plain_plan (E:=E) c frame (default 0 (violate_interframe_delay c)) tk = (Ok segs, tick') ∧
            concat (seg_data <$> segs) = garbage ++ frame ∧ garbage = []) as Hplain.
  { intros tk. destruct (plain_plan_ok (E:=E) c frame (default 0 (violate_interframe_delay c)) tk Hj) as (segs & tk' & Hp & Hd).
    exists segs, tk', []. done. }
  destruct (bus_collision c) as [b|]; [|apply Hplain].
  destruct (should_collide b tick) as [hit tk]. destruct hit.
  2: { destruct (Hplain tk) as (segs & tk' & g & ? & ? & ->). eexists _, _, []. eauto. }
  unfold generate_garbage, random_bytes. cbv zeta.
  destruct ((fun i => gen_range (tk + i) 0 255) <$> seq 0 (Z.to_nat (garbage_byte_count b))) as [|g0 garbage] eqn:Hg.
  { destruct (Hplain (tk + Z.to_nat (garbage_byte_count b))%nat) as (segs & tk' & g & ? & ? & ->). eexists _, _, []. eauto. }
  pose proof (add_frame_segments_data c frame 500000 (tk + Z.to_nat (garbage_byte_count b))) as Hd.
  destruct (add_frame_segments c frame 500000 _) as [segs tk']. cbn [fst] in Hd.
  eexists _, _, (g0 :: garbage). split; [reflexivity|]. cbn [fmap list_fmap seg_data concat]. rewrite Hd.
  split; [done|]. right. apply (f_equal length) in Hg. rewrite length_fmap, length_seq in Hg. unfold zlen. rewrite <- Hg.
  cbn [length] in Hg. lia.
Qed.

Lemma timing_plan_preserves_frame_witness :
  let c := {| violate_interframe_delay := Some 100; inject_interchar_gap := None; bus_collision := Some (BusCollisionConfig_garbage 2 f64_one);
              byte_jitter := Some {| min_delay := 1000; max_delay := 5000; interval := 1 |} |} in
  ∃ segs tick' garbage, @build_timing_plan alternating ModbusError c [1; 3; 2; 0; 100; 185; 175] 0 = (Ok segs, tick') ∧
    concat (seg_data <$> segs) = garbage ++ [1; 3; 2; 0; 100; 185; 175] ∧ (garbage = [] ∨ zlen garbage = 2).
Proof. intros c. apply (@timing_plan_preserves_frame alternating ModbusError c). done. Defined.

(* ------------------------------------------------------------------ *)
(** * Disruption *)

(** The request, by its number on the connection, that the disruption closes the connection on. *)
Definition closes_at (c : ConnectionDisruptionConfig) (count : Z) : bool :=
  match drop_after_requests c with Some threshold => threshold <=? count | None => false end
  || match periodic_drop c with Some period => (0 <? period) && (count mod period =? 0) | None => false end.

Lemma record_request_spec `{BuildProfile} {E} s :
  0 ≤ request_count s → request_count s + 1 < u64_MAX →
  record_request (E:=E) s =
    Ok (if closes_at (cds_config s) (request_count s + 1) then build_disconnect_action (cds_config s) else NoDisruption,
        {| cds_config := cds_config s; request_count := request_count s + 1; holding_open := holding_open s |}).
Proof.
  unfold u64_MAX. intros Hc Hm. unfold record_request. rewrite checked_op_exact by lia. cbn [obind]. unfold wrap64.
  rewrite (Z.mod_small (request_count s + 1)) by lia. do 2 f_equal. unfold closes_at, u64_MAX.
  destruct (drop_after_requests (cds_config s)) as [n|]; cbn [default from_option id].
  - destruct (n <=? request_count s + 1) eqn:Hn; [done|]. cbn [orb]. case_match; [done|]. destruct (hold_open_timeout _); [|done]. by rewrite ?Hn.
  - cbn [orb]. case_match; [done|]. destruct (hold_open_timeout _); [|done]. by rewrite (proj2 (Z.leb_gt _ _)) by lia.
Qed.

(** Disruption acts between replies.  Without a fault pipeline, on a connection that has carried
    fewer than 2^64 - 2 requests, whatever the disruption configuration: the whole response
    frame is written; then the connection is closed exactly when the count has reached the
    threshold or a multiple of the period, with the numbered garbage bytes before it only for a
    partial reset.  No reply is cut in the middle, and holding the connection open never happens. *)
Theorem disruption_after_reply `{FaultEnv, BuildProfile} (request : MbapFrame) (response_pdu : list Z) (number : Z)
    (s : ConnectionDisruptionState) (tick : nat) :
  1 ≤ zlen response_pdu ≤ 253 → 0 ≤ request_count s → request_count s + 1 < u64_MAX →
  let c := cds_config s in
  let closed := closes_at c (request_count s + 1) in
  tcp_reply request response_pdu number None (Some s) tick
  = (Ok ([{| seg_data := MbapFrame_to_bytes (MbapFrame_response request response_pdu); seg_delay_before := 0 |}],
         (if closed && rst_after_partial c then (fun i => i mod 256) <$> zrange 0 (Z.to_nat (partial_byte_count c)) else []),
         closed),
     None, Some {| cds_config := c; request_count := request_count s + 1; holding_open := holding_open s |}, tick).
Proof.
  intros Hl Hc Hm c closed. unfold tcp_reply, tcp_transmit, MbapCodec_encode, MAX_PDU_SIZE.
  cbn [mbap_pdu MbapFrame_response MbapFrame_new]. rewrite (proj2 (Z.ltb_ge _ _)) by lia.
  destruct response_pdu as [|b l] eqn:Hr; [rewrite zlen_nil in Hl; lia|]. cbn [omap_ok].
  rewrite record_request_spec by done. fold c. fold closed. unfold build_disconnect_action.
  destruct closed, (rst_after_partial c), (drop_mid_frame c); done.
Qed.

Lemma disruption_after_reply_witness :
  let request := MbapFrame_new 9 1 [3; 0; 0; 0; 1] in
  let c := {| drop_after_requests := Some 1; drop_mid_frame := true; rst_after_partial := false; partial_byte_count := 4;
              hold_open_timeout := Some 1000; periodic_drop := None; close_delay := None; use_rst := true |} in
  (@tcp_reply alternating release_build request [3; 2; 0; 100] 1 None (Some (ConnectionDisruptionState_new c)) 0).1.1.1
  = Ok ([{| seg_data := [0; 9; 0; 0; 0; 5; 1; 3; 2; 0; 100]; seg_delay_before := 0 |}], [], true).
Proof. intros request c. rewrite (@disruption_after_reply alternating release_build); [reflexivity|done|done|done]. Defined.

(* ------------------------------------------------------------------ *)
(** * Responses under faults, on the line *)

(** The RTU server without faults sends the frame of the response, whatever the timing
    configuration makes of its instants; with a dropped response it sends nothing. *)
Lemma rtu_transmit_plain `{FaultEnv} {E} response_delay timing request response tick :
  match timing with
  | Some c => match byte_jitter c with Some j => min_delay j / 1000 < 2 ^ 64 ∧ max_delay j / 1000 < 2 ^ 64 ∧ 0 ≤ min_delay j | None => True end
              ∧ bus_collision c = None
  | None => True end →
  ∃ segs tick', rtu_transmit (E:=E) response_delay timing request response None tick = (Ok segs, tick') ∧
    concat (seg_data <$> segs) = RtuFrame_encode response.
Proof.
  intros Ht. unfold rtu_transmit, rtu_bytes, send_response_bytes. destruct timing as [c|].
  - destruct Ht as [Hj Hb]. unfold build_timing_plan. rewrite Hb. cbv zeta.
    destruct (plain_plan_ok (E:=E) c (RtuFrame_encode response) (default 0 (violate_interframe_delay c)) tick Hj) as (segs & tk & -> & Hd).
    by eexists _, _.
  - eexists _, _. split; [reflexivity|]. cbn -[RtuFrame_encode]. apply app_nil_r.
Qed.
