(* ===== verification/KnxFrame.v ===== *)
(** KNXnet/IP frames ([mabi-knx/src/frame/*.rs]): the frame header, service types, endpoint
    addresses (HPAI) and whole frames; and individual and group addresses ([address.rs]). *)

From S2P Require Import Prelude.

(* ------------------------------------------------------------------ *)
(** * Errors *)

(** The variants of [KnxError]; message strings are dropped. *)
Inductive KnxError : Set :=
| InvalidGroupAddress
| InvalidIndividualAddress
| AddressOutOfRange
| InvalidDpt
| DptEncoding
| DptDecoding
| DptValueOutOfRange
| FrameTooShort (expected actual : Z)
| InvalidHeader
| InvalidProtocolVersion (expected actual : Z)
| UnknownServiceType (value : Z)
| FrameLengthMismatch (header_length actual_length : Z)
| InvalidHpai
| UnknownMessageCode (code : Z)
| InvalidCemi
| UnknownApci (value : Z)
| ConnectionFailed
| ConnectionTimeout (timeout_ms : Z)
| ConnectionClosed
| NoMoreConnections (max : Z)
| InvalidChannel (channel_id : Z)
| SequenceError (expected actual : Z)
| DuplicateFrame (sequence expected : Z)
| OutOfOrderFrame (sequence expected distance : Z)
| FatalDesyncError (sequence expected distance : Z)
| SendErrorThresholdExceeded (consecutive_errors threshold : Z)
| TunnelError
| TunnelTimeout (channel_id : Z)
| TunnelAckError (status : Z)
| AckTimeout (channel_id sequence attempts : Z)
| ConfirmationNack (channel_id : Z)
| ConfirmationTimeout (channel_id sequence : Z)
| InvalidStateTransition
| ChannelMismatch (expected actual : Z)
| FlowControlDrop
| FlowControlQueued (channel_id : Z)
| CircuitBreakerOpen (consecutive_failures threshold : Z)
| PaceFilterDelayExceeded (delay_ms max_delay_ms : Z)
| GroupObjectNotFound
| GroupObjectWriteNotAllowed
| GroupObjectReadNotAllowed
| KnxServerError
| ServerNotRunning
| ServerAlreadyRunning
| BindError
| KnxConfig
| InvalidConfigValue
| KnxIo
| KnxCore
| KnxInternal.

(* ------------------------------------------------------------------ *)
(** * Reading from a buffer *)

(** [Buf::get_u8] and [Buf::get_u16] on a byte slice: they panic when too few bytes are left. *)
Definition get_u8 {E} : stM (list Z) E Z := fun buf =>
  match buf with
  | b :: buf' => (Ok b, buf')
  | [] => (Panic, buf)
  end.
Definition get_u16 {E} : stM (list Z) E Z := fun buf =>
  match buf with
  | hi :: lo :: buf' => (Ok (u16_from_be hi lo), buf')
  | _ => (Panic, buf)
  end.

(** Runs a reader on a slice whose cursor is local to the function. *)
Definition read_from {E A} (buf : list Z) (c : stM (list Z) E A) : outcome E A := fst (c buf).

(* ------------------------------------------------------------------ *)
(** * Addresses *)

Record IndividualAddress : Set := { area : Z; line : Z; device : Z }.

Definition IndividualAddress_new {E} (a l d : Z) : outcome E IndividualAddress :=
  if (a <=? 15) && (l <=? 15) then Ok {| area := a; line := l; device := d |} else Panic.
Definition IndividualAddress_try_new (a l d : Z) : outcome KnxError IndividualAddress :=
  if 15 <? a then Err AddressOutOfRange
  else if 15 <? l then Err AddressOutOfRange
  else Ok {| area := a; line := l; device := d |}.
Definition IndividualAddress_encode (x : IndividualAddress) : Z :=
  Z.lor (Z.lor (Z.shiftl (area x) 12) (Z.shiftl (line x) 8)) (device x).
Definition IndividualAddress_decode (value : Z) : IndividualAddress :=
  {| area := as_u8 (Z.land (Z.shiftr value 12) 0x0F);
     line := as_u8 (Z.land (Z.shiftr value 8) 0x0F);
     device := as_u8 (Z.land value 0xFF) |}.
Definition IndividualAddress_is_broadcast (x : IndividualAddress) : bool :=
  (area x =? 0) && (line x =? 0) && (device x =? 0).

Record GroupAddress : Set := { raw : Z }.

Definition three_level {E} (main middle sub : Z) : outcome E GroupAddress :=
  if (main <=? 31) && (middle <=? 7) then
    Ok {| raw := Z.lor (Z.lor (Z.shiftl (Z.land main 0x1F) 11) (Z.shiftl (Z.land middle 0x07) 8))
                       (Z.land sub 0xFF) |}
  else Panic.
Definition try_three_level (main middle sub : Z) : outcome KnxError GroupAddress :=
  if 31 <? main then Err AddressOutOfRange
  else if 7 <? middle then Err AddressOutOfRange
  else three_level main middle sub.
Definition two_level {E} (main sub : Z) : outcome E GroupAddress :=
  if (main <=? 31) && (sub <=? 0x07FF) then
    Ok {| raw := Z.lor (Z.shiftl (Z.land main 0x1F) 11) (Z.land sub 0x07FF) |}
  else Panic.
Definition from_raw (r : Z) : GroupAddress := {| raw := r |}.
Definition as_three_level (x : GroupAddress) : Z * Z * Z :=
  (as_u8 (Z.land (Z.shiftr (raw x) 11) 0x1F), as_u8 (Z.land (Z.shiftr (raw x) 8) 0x07),
   as_u8 (Z.land (raw x) 0xFF)).
Definition as_two_level (x : GroupAddress) : Z * Z :=
  (as_u8 (Z.land (Z.shiftr (raw x) 11) 0x1F), Z.land (raw x) 0x07FF).

Inductive AddressType : Set := Individual | Group.
#[global] Instance AddressType_eq_dec : EqDecision AddressType.
Proof. solve_decision. Defined.
Definition AddressType_from_bit (bit : bool) : AddressType := if bit then Group else Individual.
Definition AddressType_to_bit (t : AddressType) : bool :=
  match t with Group => true | Individual => false end.

(** [GroupAddressRange]. *)
Record GroupAddressRange : Set := { ga_start : GroupAddress; ga_end : GroupAddress }.
Definition GroupAddressRange_contains (r : GroupAddressRange) (x : GroupAddress) : bool :=
  (raw (ga_start r) <=? raw x) && (raw x <=? raw (ga_end r)).
Definition GroupAddressRange_len `{BuildProfile} {E} (r : GroupAddressRange) : outcome E Z :=
  let? d := u16_sub (raw (ga_end r)) (raw (ga_start r)) in u16_add d 1.
Definition GroupAddressRange_is_empty (r : GroupAddressRange) : bool :=
  raw (ga_end r) <? raw (ga_start r).

(* ------------------------------------------------------------------ *)
(** * Service types *)

Inductive ServiceType : Set :=
| SvSearchRequest | SvSearchResponse | SvDescriptionRequest | SvDescriptionResponse
| SvConnectRequest | SvConnectResponse | SvConnectionStateRequest | SvConnectionStateResponse
| SvDisconnectRequest | SvDisconnectResponse | SvSearchRequestExtended | SvSearchResponseExtended
| SvDeviceConfigurationRequest | SvDeviceConfigurationAck
| SvTunnellingRequest | SvTunnellingAck | SvTunnellingFeatureGet | SvTunnellingFeatureResponse
| SvTunnellingFeatureSet | SvTunnellingFeatureInfo
| SvRoutingIndication | SvRoutingLostMessage | SvRoutingBusy | SvRoutingSystemBroadcast
| SvRemoteDiagnosticRequest | SvRemoteDiagnosticResponse | SvRemoteBasicConfigRequest
| SvRemoteResetRequest | SvObjectServerRequest.

Definition ServiceType_as_u16 (s : ServiceType) : Z :=
  match s with
  | SvSearchRequest => 0x0201 | SvSearchResponse => 0x0202
  | SvDescriptionRequest => 0x0203 | SvDescriptionResponse => 0x0204
  | SvConnectRequest => 0x0205 | SvConnectResponse => 0x0206
  | SvConnectionStateRequest => 0x0207 | SvConnectionStateResponse => 0x0208
  | SvDisconnectRequest => 0x0209 | SvDisconnectResponse => 0x020A
  | SvSearchRequestExtended => 0x020B | SvSearchResponseExtended => 0x020C
  | SvDeviceConfigurationRequest => 0x0310 | SvDeviceConfigurationAck => 0x0311
  | SvTunnellingRequest => 0x0420 | SvTunnellingAck => 0x0421
  | SvTunnellingFeatureGet => 0x0422 | SvTunnellingFeatureResponse => 0x0423
  | SvTunnellingFeatureSet => 0x0424 | SvTunnellingFeatureInfo => 0x0425
  | SvRoutingIndication => 0x0530 | SvRoutingLostMessage => 0x0531
  | SvRoutingBusy => 0x0532 | SvRoutingSystemBroadcast => 0x0533
  | SvRemoteDiagnosticRequest => 0x0740 | SvRemoteDiagnosticResponse => 0x0741
  | SvRemoteBasicConfigRequest => 0x0742 | SvRemoteResetRequest => 0x0743
  | SvObjectServerRequest => 0x0800
  end.

Definition ServiceType_try_from (value : Z) : outcome KnxError ServiceType :=
  match value with
  | 0x0201 => Ok SvSearchRequest | 0x0202 => Ok SvSearchResponse
  | 0x0203 => Ok SvDescriptionRequest | 0x0204 => Ok SvDescriptionResponse
  | 0x0205 => Ok SvConnectRequest | 0x0206 => Ok SvConnectResponse
  | 0x0207 => Ok SvConnectionStateRequest | 0x0208 => Ok SvConnectionStateResponse
  | 0x0209 => Ok SvDisconnectRequest | 0x020A => Ok SvDisconnectResponse
  | 0x020B => Ok SvSearchRequestExtended | 0x020C => Ok SvSearchResponseExtended
  | 0x0310 => Ok SvDeviceConfigurationRequest | 0x0311 => Ok SvDeviceConfigurationAck
  | 0x0420 => Ok SvTunnellingRequest | 0x0421 => Ok SvTunnellingAck
  | 0x0422 => Ok SvTunnellingFeatureGet | 0x0423 => Ok SvTunnellingFeatureResponse
  | 0x0424 => Ok SvTunnellingFeatureSet | 0x0425 => Ok SvTunnellingFeatureInfo
  | 0x0530 => Ok SvRoutingIndication | 0x0531 => Ok SvRoutingLostMessage
  | 0x0532 => Ok SvRoutingBusy | 0x0533 => Ok SvRoutingSystemBroadcast
  | 0x0740 => Ok SvRemoteDiagnosticRequest | 0x0741 => Ok SvRemoteDiagnosticResponse
  | 0x0742 => Ok SvRemoteBasicConfigRequest | 0x0743 => Ok SvRemoteResetRequest
  | 0x0800 => Ok SvObjectServerRequest
  | _ => Err (UnknownServiceType value)
  end.

(* ------------------------------------------------------------------ *)
(** * Frames *)

Definition HEADER_SIZE : Z := 0x06.
Definition PROTOCOL_VERSION : Z := 0x10.

Record KnxNetIpHeader : Set := { hdr_service_type : ServiceType; hdr_total_length : Z }.

Definition KnxNetIpHeader_new (s : ServiceType) (body_length : Z) : KnxNetIpHeader :=
  {| hdr_service_type := s; hdr_total_length := as_u16 (HEADER_SIZE + body_length) |}.
Definition KnxNetIpHeader_body_length `{BuildProfile} {E} (h : KnxNetIpHeader) : outcome E Z :=
  usize_sub (hdr_total_length h) HEADER_SIZE.
Definition KnxNetIpHeader_encode (h : KnxNetIpHeader) : list Z :=
  [HEADER_SIZE; PROTOCOL_VERSION] ++ u16_to_be (ServiceType_as_u16 (hdr_service_type h))
    ++ u16_to_be (hdr_total_length h).

(** The validation both decoders start with. *)
Definition read_header : stM (list Z) KnxError KnxNetIpHeader :=
  do? header_size := get_u8 in
  if negb (header_size =? HEADER_SIZE) then st_err InvalidHeader
  else
    do? version := get_u8 in
    if negb (version =? PROTOCOL_VERSION) then st_err (InvalidProtocolVersion PROTOCOL_VERSION version)
    else
      do? code := get_u16 in
      do? service_type := st_lift (ServiceType_try_from code) in
      do? total_length := get_u16 in
      st_ret {| hdr_service_type := service_type; hdr_total_length := total_length |}.

Definition KnxNetIpHeader_decode (data : list Z) : outcome KnxError KnxNetIpHeader :=
  if zlen data <? HEADER_SIZE then Err (FrameTooShort HEADER_SIZE (zlen data))
  else read_from data read_header.

Record KnxFrame : Set := { service_type : ServiceType; body : list Z }.

Definition KnxFrame_empty (s : ServiceType) : KnxFrame := {| service_type := s; body := [] |}.
Definition KnxFrame_total_length (f : KnxFrame) : Z := HEADER_SIZE + zlen (body f).
Definition KnxFrame_encode (f : KnxFrame) : list Z :=
  [HEADER_SIZE; PROTOCOL_VERSION] ++ u16_to_be (ServiceType_as_u16 (service_type f))
    ++ u16_to_be (as_u16 (KnxFrame_total_length f)) ++ body f.

Definition KnxFrame_decode `{BuildProfile} (data : list Z) : outcome KnxError KnxFrame :=
  if zlen data <? HEADER_SIZE then Err (FrameTooShort HEADER_SIZE (zlen data))
  else
    read_from data (
      do? h := read_header in
      let total_length := hdr_total_length h in
      if zlen data <? total_length then st_err (FrameLengthMismatch total_length (zlen data))
      else
        fun buf =>
          (let? body_len := usize_sub total_length HEADER_SIZE in
           let? b := slice buf 0 body_len in
           Ok {| service_type := hdr_service_type h; body := b |}, buf)).

Definition KnxFrame_frame_length {E} (data : list Z) : outcome E (option Z) :=
  if zlen data <? HEADER_SIZE then Ok None
  else
    let? hi := index data 4 in
    let? lo := index data 5 in
    Ok (Some (u16_from_be hi lo)).

(* ------------------------------------------------------------------ *)
(** * Endpoints *)

Definition HPAI_SIZE : Z := 8.
Inductive HostProtocol : Set := Udp4 | Tcp4.
Definition HostProtocol_as_u8 (p : HostProtocol) : Z :=
  match p with Udp4 => 0x01 | Tcp4 => 0x02 end.
Definition HostProtocol_from_u8 (value : Z) : option HostProtocol :=
  match value with 0x01 => Some Udp4 | 0x02 => Some Tcp4 | _ => None end.

(** An IPv4 address is its four octets. *)
Record Hpai : Set := { protocol : HostProtocol; ip_address : Z * Z * Z * Z; port : Z }.

Definition Hpai_nat : Hpai := {| protocol := Udp4; ip_address := (0, 0, 0, 0); port := 0 |}.
Definition Hpai_is_nat (h : Hpai) : bool :=
  bool_decide (ip_address h = (0, 0, 0, 0)) && (port h =? 0).
Definition Hpai_encode (h : Hpai) : list Z :=
  let '(a, b, c, d) := ip_address h in
  [HPAI_SIZE; HostProtocol_as_u8 (protocol h); a; b; c; d] ++ u16_to_be (port h).
Definition Hpai_decode (data : list Z) : outcome KnxError Hpai :=
  if zlen data <? HPAI_SIZE then Err (FrameTooShort HPAI_SIZE (zlen data))
  else
    read_from data (
      do? length := get_u8 in
      if negb (length =? HPAI_SIZE) then st_err InvalidHpai
      else
        do? protocol_code := get_u8 in
        do? p := st_lift (ok_or (HostProtocol_from_u8 protocol_code) InvalidHpai) in
        do? a := get_u8 in do? b := get_u8 in do? c := get_u8 in do? d := get_u8 in
        do? pt := get_u16 in
        st_ret {| protocol := p; ip_address := (a, b, c, d); port := pt |}).

(* ------------------------------------------------------------------ *)
(** * Addresses: lemmas *)

(** Two bit fields packed side by side. *)
Lemma pack_fields a b n :
  0 ≤ n → 0 ≤ b < 2 ^ n → Z.lor (Z.shiftl a n) b = a * 2 ^ n + b.
Proof. apply lor_shiftl_add. Qed.

Lemma individual_encode_spec x :
  0 ≤ area x ≤ 15 → 0 ≤ line x ≤ 15 → is_u8 (device x) →
  IndividualAddress_encode x = area x * 4096 + line x * 256 + device x.
Proof.
  intros Ha Hl Hd. unfold IndividualAddress_encode.
  replace (Z.shiftl (area x) 12) with (Z.shiftl (Z.shiftl (area x) 4) 8)
    by (rewrite Z.shiftl_shiftl by lia; done).
  rewrite <- Z.shiftl_lor, pack_fields by (lia || apply Hd).
  rewrite pack_fields by lia. change (2 ^ 8) with 256. change (2 ^ 4) with 16. lia.
Qed.

Lemma individual_decode_encode x :
  0 ≤ area x ≤ 15 → 0 ≤ line x ≤ 15 → is_u8 (device x) →
  IndividualAddress_decode (IndividualAddress_encode x) = x.
Proof.
  intros Ha Hl Hd. rewrite individual_encode_spec by done. unfold IndividualAddress_decode.
  autorewrite with bits. change (2 ^ 12) with 4096. change (2 ^ 8) with 256.
  destruct x as [a l d]; simpl in *. f_equal; int_lia.
Qed.

Lemma individual_encode_decode v :
  is_u16 v → IndividualAddress_encode (IndividualAddress_decode v) = v.
Proof.
  intros Hv. rewrite individual_encode_spec; unfold IndividualAddress_decode; simpl;
    autorewrite with bits; change (2 ^ 12) with 4096; change (2 ^ 8) with 256; int_lia.
Qed.

Lemma three_level_spec {E} main middle sub :
  0 ≤ main ≤ 31 → 0 ≤ middle ≤ 7 → is_u8 sub →
  three_level (E:=E) main middle sub = Ok {| raw := main * 2048 + middle * 256 + sub |}.
Proof.
  intros Hm Hi Hs. unfold three_level. rewrite !(proj2 (Z.leb_le _ _)) by lia. cbn [andb].
  autorewrite with bits. rewrite !Z.mod_small by int_lia.
  replace (Z.shiftl main 11) with (Z.shiftl (Z.shiftl main 3) 8)
    by (rewrite Z.shiftl_shiftl by lia; done).
  rewrite <- Z.shiftl_lor, pack_fields by (lia || apply Hs).
  rewrite pack_fields by lia. change (2 ^ 8) with 256. change (2 ^ 3) with 8. do 2 f_equal. lia.
Qed.

Lemma two_level_spec {E} main sub :
  0 ≤ main ≤ 31 → 0 ≤ sub ≤ 2047 →
  two_level (E:=E) main sub = Ok {| raw := main * 2048 + sub |}.
Proof.
  intros Hm Hs. unfold two_level. rewrite !(proj2 (Z.leb_le _ _)) by lia. cbn [andb].
  autorewrite with bits. rewrite !Z.mod_small by int_lia.
  rewrite pack_fields by lia. change (2 ^ 11) with 2048. done.
Qed.

(* ------------------------------------------------------------------ *)
(** * Frames: lemmas *)

Lemma service_code_range s : is_u16 (ServiceType_as_u16 s).
Proof. destruct s; unfold is_u16; simpl; lia. Qed.

Lemma service_try_from_as s : ServiceType_try_from (ServiceType_as_u16 s) = Ok s.
Proof. by destruct s. Qed.

(** [ServiceType_try_from] is a search in a table of codes. *)
Lemma service_try_from_inv v s : ServiceType_try_from v = Ok s → v = ServiceType_as_u16 s.
Proof.
  unfold ServiceType_try_from. intros H.
  repeat match type of H with
    | match ?x with _ => _ end = Ok _ => destruct x; try discriminate H
    end; by injection H as <-.
Qed.

Lemma service_try_from_total v :
  (∃ s, ServiceType_try_from v = Ok s) ∨ ServiceType_try_from v = Err (UnknownServiceType v).
Proof.
  unfold ServiceType_try_from.
  repeat match goal with
    | |- context [match ?x with _ => _ end] => destruct x; try (by left; eexists); try (by right)
    end.
Qed.

(** The first six bytes of a frame with a valid header. *)
Definition header_bytes (s : ServiceType) (total : Z) : list Z :=
  [HEADER_SIZE; PROTOCOL_VERSION] ++ u16_to_be (ServiceType_as_u16 s) ++ u16_to_be total.

Lemma zlen_header_bytes s total : zlen (header_bytes s total) = 6.
Proof. done. Qed.

Lemma read_header_ok s total rest :
  is_u16 total →
  read_header (header_bytes s total ++ rest)
  = (Ok {| hdr_service_type := s; hdr_total_length := total |}, rest).
Proof.
  intros Ht. unfold read_header, header_bytes, st_bind, get_u8, get_u16, u16_to_be, st_lift, st_ret.
  cbn [app]. cbv beta iota. cbn [Z.eqb negb HEADER_SIZE PROTOCOL_VERSION Pos.eqb].
  rewrite !u16_be_roundtrip by (done || apply service_code_range).
  by rewrite service_try_from_as.
Qed.

(** Reading a header from at least six bytes: valid headers are exactly [header_bytes]. *)
Lemma read_header_cases data :
  6 ≤ zlen data → bytes_ok data →
  (∃ s total rest, is_u16 total ∧ data = header_bytes s total ++ rest) ∨
  (∃ e, fst (read_header data) = Err e ∧
        ∀ s total rest, is_u16 total → data ≠ header_bytes s total ++ rest).
Proof.
  intros Hl Hok. destruct (fst (read_header data)) as [h|e|] eqn:Hr.
  - left. revert Hr.
    do 6 (destruct data as [|? data]; [unfold zlen in Hl; simpl in Hl; lia|]).
    rewrite !bytes_ok_cons in Hok. destruct Hok as (?&?&?&?&?&?&?).
    unfold read_header, st_bind, get_u8, get_u16, st_lift, st_ret, st_err.
    destruct (_ =? HEADER_SIZE) eqn:E1; [|done]. cbn [negb].
    destruct (_ =? PROTOCOL_VERSION) eqn:E2; [|done]. cbn [negb].
    destruct (ServiceType_try_from _) as [s|e|] eqn:E3; [|done|done]. intros _.
    apply Z.eqb_eq in E1, E2. apply service_try_from_inv in E3. subst.
    exists s, (u16_from_be z3 z4), data. split; [by apply u16_from_be_range|].
    unfold header_bytes. rewrite <- E3, !u16_to_from_be by done. done.
  - right. exists e. split; [done|]. intros s total rest Ht ->.
    by rewrite read_header_ok in Hr.
  - exfalso. revert Hr.
    do 6 (destruct data as [|? data]; [unfold zlen in Hl; simpl in Hl; lia|]).
    unfold read_header, st_bind, get_u8, get_u16, st_lift, st_ret, st_err.
    destruct (_ =? HEADER_SIZE); [|done]. cbn [negb].
    destruct (_ =? PROTOCOL_VERSION); [|done]. cbn [negb].
    destruct (service_try_from_total (u16_from_be z1 z2)) as [[s ->]| ->]; done.
Qed.

Lemma KnxFrame_decode_header `{BuildProfile} s total rest :
  is_u16 total → 6 + zlen rest < usize_modulus →
  KnxFrame_decode (header_bytes s total ++ rest)
  = if 6 + zlen rest <? total then Err (FrameLengthMismatch total (6 + zlen rest))
    else if total <? 6 then Panic
    else Ok {| service_type := s; body := take (Z.to_nat (total - 6)) rest |}.
Proof.
  intros Ht Hmax. unfold KnxFrame_decode, HEADER_SIZE. pose proof (zlen_nonneg rest).
  rewrite zlen_app, zlen_header_bytes, (proj2 (Z.ltb_ge _ _)) by lia.
  unfold read_from, st_bind. rewrite read_header_ok by done. cbn [hdr_total_length hdr_service_type].
  destruct (6 + zlen rest <? total) eqn:E1; [done|]. bool_to_prop. cbn [fst].
  unfold usize_sub, checked_op. destruct (total <? 6) eqn:E2; bool_to_prop.
  - rewrite (proj2 (Z.leb_gt _ _)) by lia. cbn [andb]. destruct overflow_checks; [done|].
    cbn [obind]. unfold slice. rewrite (proj2 (Z.leb_gt _ (zlen rest))).
    + by rewrite andb_false_r.
    + rewrite <- (Z.mod_unique_pos (total - 6) usize_modulus (-1) (total - 6 + usize_modulus)) by int_lia.
      int_lia.
  - rewrite (proj2 (Z.leb_le _ _)), (proj2 (Z.ltb_lt _ _)) by (int_lia). cbn [andb obind].
    rewrite slice_ok by lia. cbn [obind]. by rewrite Z.sub_0_r.
Qed.

Lemma KnxFrame_encode_split f :
  KnxFrame_encode f = header_bytes (service_type f) (as_u16 (KnxFrame_total_length f)) ++ body f.
Proof. unfold KnxFrame_encode, header_bytes. by rewrite <- !app_assoc. Qed.

Lemma knx_frame_roundtrip `{BuildProfile} f :
  zlen (body f) <= 65529 → KnxFrame_decode (KnxFrame_encode f) = Ok f.
Proof.
  intros Hl. pose proof (zlen_nonneg (body f)). rewrite KnxFrame_encode_split.
  unfold KnxFrame_total_length, HEADER_SIZE, as_u16. rewrite Z.mod_small by lia.
  rewrite KnxFrame_decode_header; [|int_lia|unfold usize_modulus; lia].
  rewrite !(proj2 (Z.ltb_ge _ _)) by lia.
  rewrite take_ge; [by destruct f|]. unfold zlen in *. lia.
Qed.

Lemma header_bytes_inj s1 s2 t1 t2 r1 r2 :
  is_u16 t1 → is_u16 t2 → header_bytes s1 t1 ++ r1 = header_bytes s2 t2 ++ r2 →
  s1 = s2 ∧ t1 = t2 ∧ r1 = r2.
Proof.
  intros H1 H2 Heq. apply (f_equal read_header) in Heq. rewrite !read_header_ok in Heq by done.
  by injection Heq.
Qed.

(* ------------------------------------------------------------------ *)
(** * Endpoints: lemmas *)

Definition hpai_ok (h : Hpai) : Prop :=
  let '(a, b, c, d) := ip_address h in bytes_ok [a; b; c; d] ∧ is_u16 (port h).

Lemma zlen_hpai h : zlen (Hpai_encode h) = 8.
Proof. by destruct h as [p [[[a b] c] d] pt]. Qed.

Lemma hpai_roundtrip h rest : hpai_ok h → Hpai_decode (Hpai_encode h ++ rest) = Ok h.
Proof.
  destruct h as [p [[[a b] c] d] pt]. intros [_ Hp]. unfold Hpai_decode.
  rewrite (proj2 (Z.ltb_ge _ _)) by (unfold HPAI_SIZE; rewrite zlen_app, zlen_hpai;
    pose proof (zlen_nonneg rest); lia).
  unfold Hpai_encode, read_from, st_bind, get_u8, get_u16, st_lift, st_ret, u16_to_be.
  cbn [ip_address protocol port app] in *. cbv beta iota.
  change (negb (HPAI_SIZE =? HPAI_SIZE)) with false. cbv iota.
  destruct p; cbn [HostProtocol_as_u8 HostProtocol_from_u8 ok_or fst]; by rewrite u16_be_roundtrip.
Qed.

Lemma decode_header_ok_iff `{BuildProfile} s total rest f :
  is_u16 total → 6 + zlen rest < usize_modulus →
  KnxFrame_decode (header_bytes s total ++ rest) = Ok f ↔
  ∃ rest', header_bytes s total ++ rest = KnxFrame_encode f ++ rest' ∧ zlen (body f) ≤ 65529.
Proof.
  intros Ht Hmax. rewrite KnxFrame_decode_header by done. split.
  - destruct (6 + zlen rest <? total) eqn:E1; [done|]. destruct (total <? 6) eqn:E2; [done|].
    bool_to_prop. intros [= <-]. exists (drop (Z.to_nat (total - 6)) rest).
    rewrite KnxFrame_encode_split, <- app_assoc. cbn [service_type body].
    rewrite take_drop. unfold KnxFrame_total_length. cbn [body].
    assert (zlen (take (Z.to_nat (total - 6)) rest) = total - 6) as Hz
      by (unfold zlen in *; rewrite length_take; lia).
    rewrite Hz. split; [|int_lia]. unfold HEADER_SIZE.
    replace (6 + (total - 6)) with total by lia. by rewrite as_u16_id.
  - intros (rest' & Heq & Hb). rewrite KnxFrame_encode_split, <- app_assoc in Heq.
    pose proof (zlen_nonneg (body f)). pose proof (zlen_nonneg rest').
    assert (is_u16 (KnxFrame_total_length f)) as Htl
      by (unfold KnxFrame_total_length, HEADER_SIZE; int_lia).
    rewrite as_u16_id in Heq by done.
    apply header_bytes_inj in Heq as (-> & -> & ->); [|done..].
    unfold KnxFrame_total_length, HEADER_SIZE in *. rewrite zlen_app.
    rewrite !(proj2 (Z.ltb_ge _ _)) by lia.
    replace (Z.to_nat (6 + zlen (body f) - 6)) with (length (body f)) by int_lia.
    rewrite take_app_length. by destruct f.
Qed.

Lemma decode_header_panic_iff `{BuildProfile} s total rest :
  is_u16 total → 6 + zlen rest < usize_modulus →
  KnxFrame_decode (header_bytes s total ++ rest) = Panic ↔
  ∃ s' len rest', header_bytes s total ++ rest = header_bytes s' len ++ rest' ∧ 0 ≤ len < 6.
Proof.
  intros Ht Hmax. rewrite KnxFrame_decode_header by done. split.
  - destruct (6 + zlen rest <? total) eqn:E1; [done|]. destruct (total <? 6) eqn:E2; [|done].
    bool_to_prop. intros _. exists s, total, rest. split; [done|]. unfold is_u16 in Ht. lia.
  - intros (s' & len & rest' & Heq & Hlen).
    apply header_bytes_inj in Heq as (-> & -> & ->); [|done|int_lia].
    by rewrite (proj2 (Z.ltb_ge _ _)), (proj2 (Z.ltb_lt _ _)) by (pose proof (zlen_nonneg rest'); lia).
Qed.

(** Datagrams without a valid header are answered with an error. *)
Lemma KnxFrame_decode_no_header `{BuildProfile} data :
  bytes_ok data →
  (∀ s total rest, is_u16 total → data ≠ header_bytes s total ++ rest) →
  ∃ e, KnxFrame_decode data = Err e.
Proof.
  intros Hok Hno. unfold KnxFrame_decode, HEADER_SIZE.
  destruct (zlen data <? 6) eqn:Hl; [by eexists|]. bool_to_prop.
  destruct (read_header_cases data Hl Hok) as [(s & t & r & Ht & ->)|(e & He & _)].
  - by destruct (Hno s t r Ht).
  - exists e. unfold read_from, st_bind. destruct (read_header data). simpl in He. by subst.
Qed.

(* ------------------------------------------------------------------ *)
(** * Properties *)

(** decoding a KNXnet/IP frame is exact in every build. A datagram decodes to a frame exactly when
    it starts with that frame's encoding (with at most 65529 bytes of body, the most the
    length field can hold), and the decoder panics exactly when the header is valid and its length field
    is smaller than the header itself. *)
Theorem knx_frame_decode_exact `{BuildProfile} (data : list Z) (f : KnxFrame) :
  bytes_ok data → zlen data < usize_modulus →
  (KnxFrame_decode data = Ok f ↔
   ∃ rest, data = KnxFrame_encode f ++ rest ∧ zlen (body f) ≤ 65529) ∧
  (KnxFrame_decode data = Panic ↔
   ∃ s len rest, data = header_bytes s len ++ rest ∧ 0 ≤ len < 6).
Proof.
  intros Hok Hmax.
  assert ((∃ s t r, is_u16 t ∧ data = header_bytes s t ++ r) ∨
          (∀ s t r, is_u16 t → data ≠ header_bytes s t ++ r)) as [(s & t & r & Ht & ->)|Hno].
  { destruct (decide (6 ≤ zlen data)) as [Hl|Hl].
    - destruct (read_header_cases data Hl Hok) as [?|(e & _ & ?)]; [by left|by right].
    - right. intros s t r _ ->. apply Hl. rewrite zlen_app, zlen_header_bytes.
      pose proof (zlen_nonneg r). lia. }
  - rewrite zlen_app, zlen_header_bytes in Hmax.
    split; [by apply decode_header_ok_iff|by apply decode_header_panic_iff].
  - destruct (KnxFrame_decode_no_header data Hok Hno) as [e ->].
    split; (split; [done|]).
    + intros (rest & Heq & _). rewrite KnxFrame_encode_split, <- app_assoc in Heq.
      by apply Hno in Heq; [|apply as_u16_range].
    + intros (s & len & rest & Heq & Hlen). by apply Hno in Heq; [|int_lia].
Qed.

(** both kinds of KNX addresses are their sixteen bits: encoding and decoding an individual
    address are mutually inverse, and so are building and reading a group address in its three-level
    and its two-level form, for all components in range. *)
Theorem knx_addresses_roundtrip (v : Z) :
  is_u16 v →
  IndividualAddress_encode (IndividualAddress_decode v) = v ∧
  (∀ x, 0 ≤ area x ≤ 15 → 0 ≤ line x ≤ 15 → is_u8 (device x) →
     IndividualAddress_decode (IndividualAddress_encode x) = x) ∧
  (let '(main, middle, sub) := as_three_level (from_raw v) in
   three_level (E:=KnxError) main middle sub = Ok (from_raw v)) ∧
  (let '(main, sub) := as_two_level (from_raw v) in
   two_level (E:=KnxError) main sub = Ok (from_raw v)) ∧
  (∀ main middle sub, 0 ≤ main ≤ 31 → 0 ≤ middle ≤ 7 → is_u8 sub →
     ∃ g, try_three_level main middle sub = Ok g ∧ as_three_level g = (main, middle, sub)).
Proof.
  intros Hv. split; [by apply individual_encode_decode|]. split; [apply individual_decode_encode|].
  unfold as_three_level, as_two_level, from_raw. cbn [raw]. autorewrite with bits.
  change (2 ^ 11) with 2048. change (2 ^ 8) with 256.
  split; [rewrite three_level_spec by int_lia; do 2 f_equal; int_lia|].
  split; [rewrite two_level_spec by int_lia; do 2 f_equal; int_lia|].
  intros main middle sub Hm Hi Hs. unfold try_three_level. rewrite !(proj2 (Z.ltb_ge _ _)) by lia.
  rewrite three_level_spec by done. eexists. split; [done|]. cbn [raw]. autorewrite with bits.
  change (2 ^ 11) with 2048. change (2 ^ 8) with 256. f_equal; [f_equal|]; int_lia.
Qed.

Lemma knx_frame_decode_exact_witness :
  (@KnxFrame_decode debug_build [6; 0x10; 2; 1; 0; 8; 1; 2; 3]
     = Ok {| service_type := SvSearchRequest; body := [1; 2] |}) ∧
  (@KnxFrame_decode release_build [6; 0x10; 2; 1; 0; 5; 1; 2; 3] = Panic).
Proof.
  split.
  - apply (@knx_frame_decode_exact debug_build [6; 0x10; 2; 1; 0; 8; 1; 2; 3]); [closed|closed|].
    exists [3]. split; [reflexivity|closed].
  - apply (@knx_frame_decode_exact release_build [6; 0x10; 2; 1; 0; 5; 1; 2; 3]
             (KnxFrame_empty SvSearchRequest)); [closed|closed|].
    exists SvSearchRequest, 5, [1; 2; 3]. split; [reflexivity|lia].
Defined.

Lemma knx_addresses_roundtrip_witness :
  IndividualAddress_encode (IndividualAddress_decode 0x1203) = 0x1203 ∧
  three_level (E:=KnxError) 1 2 3 = Ok (from_raw 0x0A03).
Proof.
  destruct (knx_addresses_roundtrip 0x1203 ltac:(closed)) as (H1 & _).
  destruct (knx_addresses_roundtrip 0x0A03 ltac:(closed)) as (_ & _ & H3 & _).
  split; [exact H1|exact H3].
Defined.
