(* ===== verification/KnxCemi.v ===== *)
(** Common EMI frames ([mabi-knx/src/cemi.rs]): message codes, priorities, APCI, additional
    information, and the L_Data, property, reset and bus-monitor frame formats. *)

From S2P Require Import Prelude KnxFrame.

(* ------------------------------------------------------------------ *)
(** * Message codes, priorities, APCI *)

Inductive MessageCode : Set :=
| LDataReq | LDataCon | LDataInd | LBusmonInd | LRawReq | LRawInd | LRawCon
| MPropReadReq | MPropReadCon | MPropWriteReq | MPropWriteCon | MResetReq | MResetInd.
#[global] Instance MessageCode_eq_dec : EqDecision MessageCode.
Proof. solve_decision. Defined.

Definition MessageCode_as_u8 (m : MessageCode) : Z :=
  match m with
  | LDataReq => 0x11 | LDataCon => 0x2E | LDataInd => 0x29 | LBusmonInd => 0x2B
  | LRawReq => 0x10 | LRawInd => 0x2D | LRawCon => 0x2F
  | MPropReadReq => 0xFC | MPropReadCon => 0xFB | MPropWriteReq => 0xF6 | MPropWriteCon => 0xF5
  | MResetReq => 0xF1 | MResetInd => 0xF0
  end.
Definition MessageCode_try_from_u8 (value : Z) : option MessageCode :=
  match value with
  | 0x11 => Some LDataReq | 0x2E => Some LDataCon | 0x29 => Some LDataInd | 0x2B => Some LBusmonInd
  | 0x10 => Some LRawReq | 0x2D => Some LRawInd | 0x2F => Some LRawCon
  | 0xFC => Some MPropReadReq | 0xFB => Some MPropReadCon
  | 0xF6 => Some MPropWriteReq | 0xF5 => Some MPropWriteCon
  | 0xF1 => Some MResetReq | 0xF0 => Some MResetInd
  | _ => None
  end.
Definition is_property_service (m : MessageCode) : bool :=
  match m with MPropReadReq | MPropReadCon | MPropWriteReq | MPropWriteCon => true | _ => false end.
Definition is_reset_service (m : MessageCode) : bool :=
  match m with MResetReq | MResetInd => true | _ => false end.
Definition to_confirmation (m : MessageCode) : option MessageCode :=
  match m with
  | LDataReq => Some LDataCon | LRawReq => Some LRawCon | MPropReadReq => Some MPropReadCon
  | MPropWriteReq => Some MPropWriteCon | MResetReq => Some MResetInd | _ => None
  end.

Inductive Priority : Set := PrSystem | PrNormal | PrUrgent | PrLow.
Definition Priority_from_bits (value : Z) : Priority :=
  match Z.land value 0x03 with 0 => PrSystem | 1 => PrNormal | 2 => PrUrgent | _ => PrLow end.
Definition Priority_to_bits (p : Priority) : Z :=
  match p with PrSystem => 0 | PrNormal => 1 | PrUrgent => 2 | PrLow => 3 end.

Inductive Apci : Set :=
| GroupValueRead | GroupValueResponse | GroupValueWrite
| IndividualAddressWrite | IndividualAddressRead | IndividualAddressResponse
| AdcRead | AdcResponse | MemoryRead | MemoryResponse | MemoryWrite | UserMessage
| DeviceDescriptorRead | DeviceDescriptorResponse | Restart | Escape
| Unknown (value : Z).

Definition in_range (lo hi x : Z) : bool := (lo <=? x) && (x <=? hi).

Definition Apci_decode (value : Z) : Apci :=
  let apci := Z.land value 0x03FF in
  if apci =? 0x0000 then GroupValueRead
  else if in_range 0x0040 0x007F apci then GroupValueResponse
  else if in_range 0x0080 0x00FF apci then GroupValueWrite
  else if in_range 0x0100 0x013F apci then IndividualAddressWrite
  else if in_range 0x0140 0x017F apci then IndividualAddressRead
  else if in_range 0x0180 0x01BF apci then IndividualAddressResponse
  else if in_range 0x01C0 0x01FF apci then AdcRead
  else if in_range 0x0200 0x023F apci then AdcResponse
  else if in_range 0x0240 0x027F apci then MemoryRead
  else if in_range 0x0280 0x02BF apci then MemoryResponse
  else if in_range 0x02C0 0x02FF apci then MemoryWrite
  else if in_range 0x0300 0x033F apci then UserMessage
  else if in_range 0x0340 0x037F apci then DeviceDescriptorRead
  else if in_range 0x0380 0x03BF apci then DeviceDescriptorResponse
  else if in_range 0x03C0 0x03DF apci then Restart
  else if in_range 0x03E0 0x03FF apci then Escape
  else Unknown value.

Definition Apci_encode (a : Apci) : Z :=
  match a with
  | GroupValueRead => 0x0000 | GroupValueResponse => 0x0040 | GroupValueWrite => 0x0080
  | IndividualAddressWrite => 0x0100 | IndividualAddressRead => 0x0100
  | IndividualAddressResponse => 0x0140
  | AdcRead => 0x0180 | AdcResponse => 0x01C0
  | MemoryRead => 0x0200 | MemoryResponse => 0x0240 | MemoryWrite => 0x0280
  | UserMessage => 0x02C0
  | DeviceDescriptorRead => 0x0300 | DeviceDescriptorResponse => 0x0340
  | Restart => 0x0380 | Escape => 0x03C0
  | Unknown v => v
  end.

(* ------------------------------------------------------------------ *)
(** * Additional information *)

Record AdditionalInfo : Set := { info_type : Z; info_data : list Z }.

Definition AdditionalInfo_encode (i : AdditionalInfo) : list Z :=
  [info_type i; as_u8 (zlen (info_data i))] ++ info_data i.
Definition AdditionalInfo_encoded_len (i : AdditionalInfo) : Z := 2 + zlen (info_data i).

(** [buf.len()], and [buf[..n].to_vec()] followed by [buf = &buf[n..]]. *)
Definition remaining {E} : stM (list Z) E Z := fun buf => (Ok (zlen buf), buf).
Definition take_bytes {E} (n : Z) : stM (list Z) E (list Z) := fun buf =>
  match slice buf 0 n with
  | Ok d => (Ok d, drop (Z.to_nat n) buf)
  | Err e => (Err e, buf)
  | Panic => (Panic, buf)
  end.

Definition AdditionalInfo_decode : stM (list Z) KnxError AdditionalInfo :=
  do? have := remaining in
  if have <? 2 then st_err (FrameTooShort 2 have)
  else
    do? t := get_u8 in
    do? length := get_u8 in
    do? have' := remaining in
    if have' <? length then st_err (FrameTooShort length have')
    else
      do? d := take_bytes length in
      st_ret {| info_type := t; info_data := d |}.

(** [while !add_info_buf.is_empty()]; every turn consumes at least two bytes. *)
Fixpoint decode_infos (fuel : nat) (buf : list Z) : outcome KnxError (list AdditionalInfo) :=
  match buf with
  | [] => Ok []
  | _ =>
      match fuel with
      | O => Panic
      | S fuel' =>
          match AdditionalInfo_decode buf with
          | (Ok i, buf') => let? rest := decode_infos fuel' buf' in Ok (i :: rest)
          | (Err e, _) => Err e
          | (Panic, _) => Panic
          end
      end
  end.

(* ------------------------------------------------------------------ *)
(** * Frames *)

Record CemiFrame : Set := {
  message_code : MessageCode;
  additional_info : list AdditionalInfo;
  source : IndividualAddress;
  destination : Z;
  address_type : AddressType;
  hop_count : Z;
  priority : Priority;
  confirm : bool;
  ack_request : bool;
  system_broadcast : bool;
  apci : Apci;
  data : list Z;
}.

(** The common shape of the three group-service constructors. *)
Definition group_frame (src : IndividualAddress) (dst : GroupAddress) (a : Apci) (d : list Z) : CemiFrame :=
  {| message_code := LDataInd; additional_info := []; source := src; destination := raw dst;
     address_type := Group; hop_count := 6; priority := PrLow; confirm := false;
     ack_request := false; system_broadcast := false; apci := a; data := d |}.
Definition group_value_write src dst d := group_frame src dst GroupValueWrite d.
Definition group_value_read src dst := group_frame src dst GroupValueRead [].
Definition group_value_response src dst d := group_frame src dst GroupValueResponse d.

(** Property, reset and bus-monitor frames carry no addresses. *)
Definition no_address : IndividualAddress := {| area := 0; line := 0; device := 0 |}.
Definition management_frame (m : MessageCode) (infos : list AdditionalInfo) (d : list Z) : CemiFrame :=
  {| message_code := m; additional_info := infos; source := no_address; destination := 0;
     address_type := Individual; hop_count := 7; priority := PrSystem; confirm := false;
     ack_request := false; system_broadcast := false; apci := Unknown 0; data := d |}.
Definition busmon_frame (infos : list AdditionalInfo) (d : list Z) : CemiFrame :=
  {| message_code := LBusmonInd; additional_info := infos; source := no_address; destination := 0;
     address_type := Group; hop_count := 7; priority := PrLow; confirm := false;
     ack_request := false; system_broadcast := false; apci := Unknown 0; data := d |}.
Definition bus_monitor_indication (raw_frame : list Z) (status timestamp_ms : Z) : CemiFrame :=
  busmon_frame [{| info_type := 0x03; info_data := [status] |};
                {| info_type := 0x04; info_data := u16_to_be timestamp_ms |}] raw_frame.
Definition reset_ind : CemiFrame := management_frame MResetInd [] [].

(** Number of elements (4 bits) and start index (12 bits), in a [u16]. *)
Definition count_index (count start_index : Z) : Z :=
  Z.lor (as_u16 (Z.shiftl count 12)) (Z.land start_index 0x0FFF).
Definition prop_read_con (object_index property_id count start_index : Z) (value : list Z) : CemiFrame :=
  management_frame MPropReadCon []
    (u16_to_be object_index ++ u16_to_be property_id ++ u16_to_be (count_index count start_index) ++ value).
Definition prop_write_con (object_index property_id count start_index : Z) (success : bool) : CemiFrame :=
  let d := u16_to_be object_index ++ u16_to_be property_id
             ++ u16_to_be (count_index (if success then count else 0) start_index) in
  {| message_code := MPropWriteCon; additional_info := []; source := no_address; destination := 0;
     address_type := Individual; hop_count := 7; priority := PrSystem; confirm := negb success;
     ack_request := false; system_broadcast := false; apci := Unknown 0; data := d |}.

Definition parse_property_request (f : CemiFrame) : option (Z * Z * Z * Z * list Z) :=
  match data f with
  | o1 :: o0 :: p1 :: p0 :: c1 :: c0 :: rest =>
      let ci := u16_from_be c1 c0 in
      Some (u16_from_be o1 o0, u16_from_be p1 p0, as_u8 (Z.shiftr ci 12), as_u8 (Z.land ci 0x0FFF), rest)
  | _ => None
  end.

Definition destination_group (f : CemiFrame) : option GroupAddress :=
  match address_type f with Group => Some (from_raw (destination f)) | Individual => None end.
Definition is_group_value (a : Apci) : bool :=
  match a with GroupValueRead | GroupValueResponse | GroupValueWrite => true | _ => false end.

Definition encode_infos (infos : list AdditionalInfo) : list Z :=
  concat (AdditionalInfo_encode <$> infos).
Definition infos_len (infos : list AdditionalInfo) : Z :=
  foldr (fun i n => AdditionalInfo_encoded_len i + n) 0 infos.

Definition ctrl1_byte (f : CemiFrame) : Z :=
  Z.lor (Z.lor (Z.lor 0x80 (if ack_request f then 0x00 else 0x20))
               (if negb (confirm f) then 0x00 else 0x01))
        (Z.shiftl (Z.land (Priority_to_bits (priority f)) 0x03) 2).
Definition ctrl2_byte (f : CemiFrame) : Z :=
  Z.lor (if decide (address_type f = Group) then 0x80 else 0x00) (Z.land (hop_count f) 0x07).

Definition encode_npdu (a : Apci) (d : list Z) : list Z :=
  let apci_byte := as_u8 (Apci_encode a) in
  match d with
  | [] => [1; apci_byte]
  | [x] => if x <=? 0x3F then [1; Z.lor apci_byte (Z.land x 0x3F)]
           else [as_u8 (zlen d + 1); apci_byte] ++ d
  | _ => [as_u8 (zlen d + 1); apci_byte] ++ d
  end.

Definition encode_prefix (m : MessageCode) (infos : list AdditionalInfo) : list Z :=
  [MessageCode_as_u8 m; as_u8 (infos_len infos)] ++ encode_infos infos.

Definition CemiFrame_encode (f : CemiFrame) : list Z :=
  let prefix := encode_prefix (message_code f) (additional_info f) in
  if is_property_service (message_code f) || is_reset_service (message_code f) then prefix ++ data f
  else if decide (message_code f = LBusmonInd) then prefix ++ data f
  else
    prefix ++ [ctrl1_byte f; ctrl2_byte f]
      ++ u16_to_be (IndividualAddress_encode (source f)) ++ u16_to_be (destination f)
      ++ encode_npdu (apci f) (data f).

(** The payload embedded in the low six bits of an APCI byte. *)
Definition small_data (byte : Z) : list Z :=
  let small := Z.land byte 0x3F in if negb (small =? 0) then [small] else [].

Definition read_npdu `{BuildProfile} : stM (list Z) KnxError (Apci * list Z) :=
  do? npdu_len := get_u8 in
  do? have := remaining in
  if have <? npdu_len then st_err (FrameTooShort npdu_len have)
  else
    do? apci_byte1 := get_u8 in
    if (2 <=? npdu_len) && (Z.land apci_byte1 0xFC =? 0) then
      do? apci_byte2 := get_u8 in
      let a := Apci_decode (Z.lor (Z.shiftl (Z.land apci_byte1 0x03) 8) apci_byte2) in
      do? remaining_len := st_lift (usize_sub npdu_len 2) in
      if remaining_len =? 0 then st_ret (a, small_data apci_byte2)
      else do? d := take_bytes remaining_len in st_ret (a, d)
    else
      let a := Apci_decode apci_byte1 in
      if npdu_len <=? 1 then st_ret (a, small_data apci_byte1)
      else
        do? n := st_lift (usize_sub npdu_len 1) in
        do? d := take_bytes n in st_ret (a, d).

(** An L_Data body, after the additional information. *)
Definition read_ldata `{BuildProfile} (m : MessageCode) (infos : list AdditionalInfo)
  : stM (list Z) KnxError CemiFrame :=
  do? have := remaining in
  if have <? 7 then st_err (FrameTooShort 7 have)
  else
    do? ctrl1 := get_u8 in
    do? ctrl2 := get_u8 in
    do? src := get_u16 in
    do? dst := get_u16 in
    do? (a, d) := read_npdu in
    st_ret {| message_code := m; additional_info := infos;
              source := IndividualAddress_decode src; destination := dst;
              address_type := AddressType_from_bit (negb (Z.land ctrl2 0x80 =? 0));
              hop_count := Z.land ctrl2 0x07;
              priority := Priority_from_bits (Z.land (Z.shiftr ctrl1 2) 0x03);
              confirm := negb (Z.land ctrl1 0x01 =? 0);
              ack_request := Z.land ctrl1 0x20 =? 0;
              system_broadcast := negb (Z.land ctrl1 0x10 =? 0);
              apci := a; data := d |}.

Definition read_infos : stM (list Z) KnxError (list AdditionalInfo) :=
  do? add_info_len := get_u8 in
  if 0 <? add_info_len then
    do? have := remaining in
    if have <? add_info_len then st_err (FrameTooShort add_info_len have)
    else
      do? add := take_bytes add_info_len in
      st_lift (decode_infos (length add) add)
  else st_ret [].

(** The body format depends on the message code. *)
Definition read_body `{BuildProfile} (m : MessageCode) (infos : list AdditionalInfo)
  : stM (list Z) KnxError CemiFrame :=
  if is_property_service m || is_reset_service m then fun buf => (Ok (management_frame m infos buf), buf)
  else if decide (m = LBusmonInd) then fun buf => (Ok (busmon_frame infos buf), buf)
  else read_ldata m infos.

Definition CemiFrame_decode `{BuildProfile} (bytes : list Z) : outcome KnxError CemiFrame :=
  if zlen bytes <? 2 then Err (FrameTooShort 2 (zlen bytes))
  else
    read_from bytes (
      do? code := get_u8 in
      do? m := st_lift (ok_or (MessageCode_try_from_u8 code) (UnknownMessageCode code)) in
      do? infos := read_infos in
      read_body m infos).

(* ------------------------------------------------------------------ *)
(** * Lemmas *)

#[global] Instance Apci_eq_dec : EqDecision Apci.
Proof. solve_decision. Defined.
#[global] Instance Priority_eq_dec : EqDecision Priority.
Proof. solve_decision. Defined.

(** A test that holds on a finite range of integers, by evaluation. *)
Lemma check_range (P : Z → bool) a n :
  forallb P (zrange a n) = true → ∀ x, a ≤ x < a + Z.of_nat n → P x = true.
Proof.
  intros H x Hx. rewrite forallb_forall in H. apply H, list_elem_of_In, elem_of_zrange, Hx.
Qed.

Lemma message_code_roundtrip m : MessageCode_try_from_u8 (MessageCode_as_u8 m) = Some m.
Proof. by destruct m. Qed.

Lemma take_bytes_app {E} (d rest : list Z) n :
  n = zlen d → take_bytes (E:=E) n (d ++ rest) = (Ok d, rest).
Proof.
  intros ->. unfold take_bytes. rewrite slice_app by done. unfold zlen.
  by rewrite Nat2Z.id, drop_app_length.
Qed.

(** ** Additional information *)

Definition info_ok (i : AdditionalInfo) : Prop := zlen (info_data i) ≤ 255.

Lemma info_roundtrip i rest :
  info_ok i → AdditionalInfo_decode (AdditionalInfo_encode i ++ rest) = (Ok i, rest).
Proof.
  intros Hi. unfold info_ok in Hi. unfold AdditionalInfo_decode, AdditionalInfo_encode, st_bind, remaining, get_u8.
  cbn [app]. pose proof (zlen_nonneg (info_data i)). pose proof (zlen_nonneg rest).
  rewrite (proj2 (Z.ltb_ge _ _)) by len_lia. cbv beta iota.
  rewrite as_u8_id by (unfold is_u8; lia).
  rewrite (proj2 (Z.ltb_ge _ _)) by len_lia. rewrite take_bytes_app by done. by destruct i.
Qed.

Lemma zlen_encode_infos infos : zlen (encode_infos infos) = infos_len infos.
Proof.
  induction infos as [|i infos IH]; [done|]. unfold encode_infos in *.
  cbn [fmap list_fmap concat infos_len foldr]. rewrite zlen_app, IH. fold (infos_len infos).
  unfold AdditionalInfo_encode, AdditionalInfo_encoded_len. len_lia.
Qed.

Lemma decode_encode_infos infos : ∀ fuel,
  Forall info_ok infos → (length (encode_infos infos) ≤ fuel)%nat →
  decode_infos fuel (encode_infos infos) = Ok infos.
Proof.
  induction infos as [|i infos IH]; intros fuel Hok Hf; [by destruct fuel|].
  apply Forall_cons in Hok as [Hi Hok]. unfold encode_infos in *. cbn [fmap list_fmap concat] in *.
  rewrite length_app in Hf. assert (2 ≤ length (AdditionalInfo_encode i))%nat by (simpl; lia).
  destruct fuel as [|fuel]; [lia|].
  assert (decode_infos (S fuel) (AdditionalInfo_encode i ++ concat (AdditionalInfo_encode <$> infos))
    = match AdditionalInfo_decode (AdditionalInfo_encode i ++ concat (AdditionalInfo_encode <$> infos)) with
      | (Ok i, buf') => let? rest := decode_infos fuel buf' in Ok (i :: rest)
      | (Err e, _) => Err e | (Panic, _) => Panic end) as -> by done.
  rewrite info_roundtrip by done. rewrite IH; [done|done|lia].
Qed.

Lemma read_infos_encoded infos rest :
  Forall info_ok infos → infos_len infos ≤ 255 →
  read_infos (as_u8 (infos_len infos) :: encode_infos infos ++ rest) = (Ok infos, rest).
Proof.
  intros Hok Hl. pose proof (zlen_encode_infos infos) as Hz. pose proof (zlen_nonneg (encode_infos infos)).
  rewrite as_u8_id by (unfold is_u8; lia). unfold read_infos, st_bind, get_u8, remaining.
  destruct (0 <? infos_len infos) eqn:Hp; bool_to_prop.
  - rewrite (proj2 (Z.ltb_ge _ _)) by (rewrite zlen_app; pose proof (zlen_nonneg rest); lia).
    rewrite take_bytes_app by done. unfold st_lift. by rewrite decode_encode_infos.
  - destruct infos as [|i infos]; [done|]. exfalso. cbn [infos_len foldr] in Hp, Hz.
    unfold AdditionalInfo_encoded_len in Hp. fold (infos_len infos) in Hp.
    rewrite <- zlen_encode_infos in Hp. pose proof (zlen_nonneg (info_data i)).
    pose proof (zlen_nonneg (encode_infos infos)). lia.
Qed.

(** ** The APCI and the payload *)

(** What the compact NPDU layout can carry. *)
Definition npdu_ok (a : Apci) (d : list Z) : Prop :=
  match a with
  | GroupValueRead => d = []
  | GroupValueResponse | GroupValueWrite => bytes_ok d ∧ zlen d ≤ 254
  | _ => False
  end.

(** The payload as it arrives: a single zero byte is indistinguishable from none. *)
Definition received_data (d : list Z) : list Z := if decide (d = [0]) then [] else d.

Definition small_ok (a : Apci) (x : Z) : bool :=
  let byte := Z.lor (as_u8 (Apci_encode a)) (Z.land x 0x3F) in
  bool_decide (Apci_decode byte = a) && bool_decide (small_data byte = received_data [x]).

Lemma small_payload a x :
  a = GroupValueResponse ∨ a = GroupValueWrite → 0 ≤ x ≤ 63 → small_ok a x = true.
Proof.
  intros [-> | ->] Hx; apply (check_range (small_ok _) 0 64); [vm_compute; reflexivity|lia|vm_compute; reflexivity|lia].
Qed.

Section decoding.
Context `{BuildProfile}.

Lemma npdu_small a x :
  a = GroupValueResponse ∨ a = GroupValueWrite → 0 ≤ x ≤ 63 →
  read_npdu [1; Z.lor (as_u8 (Apci_encode a)) (Z.land x 0x3F)] = (Ok (a, received_data [x]), []).
Proof.
  intros Ha Hx. pose proof (small_payload a x Ha Hx) as Hs. unfold small_ok in Hs.
  apply andb_true_iff in Hs as [H1 H2]. apply bool_decide_eq_true in H1, H2.
  unfold read_npdu, st_bind, get_u8, remaining, st_ret. cbn [andb].
  change (zlen [_] <? 1) with false. cbv iota. change (2 <=? 1) with false. cbn [andb].
  change (1 <=? 1) with true. cbv iota. by rewrite H1, H2.
Qed.

Lemma npdu_large a d :
  a = GroupValueResponse ∨ a = GroupValueWrite → 1 ≤ zlen d ≤ 254 →
  read_npdu ([as_u8 (zlen d + 1); as_u8 (Apci_encode a)] ++ d) = (Ok (a, d), []).
Proof.
  intros Ha Hd. rewrite (as_u8_id (zlen d + 1)) by (unfold is_u8; lia).
  unfold read_npdu, st_bind, get_u8, remaining, st_lift, st_ret. cbn [app].
  rewrite (proj2 (Z.ltb_ge _ _)) by len_lia. cbv beta iota.
  assert ((Z.land (as_u8 (Apci_encode a)) 0xFC =? 0) = false) as -> by (by destruct Ha as [-> | ->]).
  rewrite andb_false_r. rewrite (proj2 (Z.leb_gt _ _)) by lia.
  unfold usize_sub. rewrite checked_op_exact by int_lia. cbv beta iota.
  rewrite <- (app_nil_r d) at 2. rewrite take_bytes_app by lia. by destruct Ha as [-> | ->].
Qed.

Lemma npdu_roundtrip a d :
  npdu_ok a d → read_npdu (encode_npdu a d) = (Ok (a, received_data d), []).
Proof.
  intros Hok. destruct a; try done; simpl in Hok; [by subst d| |]; destruct Hok as [Hb Hl];
    destruct d as [|x [|y d]]; try done; unfold encode_npdu.
  1,3: destruct (x <=? 0x3F) eqn:Hx; bool_to_prop; apply bytes_ok_cons in Hb as [Hb _];
    [apply npdu_small; [tauto|unfold is_u8 in Hb; lia]|].
  1,2: rewrite npdu_large; [|tauto|done]; unfold received_data;
    rewrite decide_False; [done|intros [= ->]; lia].
  all: rewrite npdu_large; [|tauto|split; [len_lia|done]]; unfold received_data;
    by rewrite decide_False.
Qed.

(** ** L_Data frames *)

(** What the L_Data layout can carry. *)
Definition ldata_ok (f : CemiFrame) : Prop :=
  (0 ≤ area (source f) ≤ 15 ∧ 0 ≤ line (source f) ≤ 15 ∧ is_u8 (device (source f))) ∧
  is_u16 (destination f) ∧ 0 ≤ hop_count f ≤ 7 ∧
  npdu_ok (apci f) (data f).

(** The L_Data frame as it arrives: the layout has no place for the system-broadcast flag. *)
Definition with_data (f : CemiFrame) (d : list Z) : CemiFrame :=
  {| message_code := message_code f; additional_info := additional_info f; source := source f;
     destination := destination f; address_type := address_type f; hop_count := hop_count f;
     priority := priority f; confirm := confirm f; ack_request := ack_request f;
     system_broadcast := false; apci := apci f; data := d |}.

Lemma ctrl1_fields f :
  Priority_from_bits (Z.land (Z.shiftr (ctrl1_byte f) 2) 0x03) = priority f ∧
  negb (Z.land (ctrl1_byte f) 0x01 =? 0) = confirm f ∧
  (Z.land (ctrl1_byte f) 0x20 =? 0) = ack_request f ∧
  negb (Z.land (ctrl1_byte f) 0x10 =? 0) = false.
Proof.
  unfold ctrl1_byte. destruct (priority f), (confirm f), (ack_request f); vm_compute; auto.
Qed.

Definition ctrl2_ok (t : AddressType) (hop : Z) : bool :=
  let byte := Z.lor (if decide (t = Group) then 0x80 else 0x00) (Z.land hop 0x07) in
  bool_decide (AddressType_from_bit (negb (Z.land byte 0x80 =? 0)) = t) && (Z.land byte 0x07 =? hop).

Lemma ctrl2_fields f :
  0 ≤ hop_count f ≤ 7 →
  AddressType_from_bit (negb (Z.land (ctrl2_byte f) 0x80 =? 0)) = address_type f ∧
  Z.land (ctrl2_byte f) 0x07 = hop_count f.
Proof.
  intros Hh. assert (ctrl2_ok (address_type f) (hop_count f) = true) as Hc.
  { apply (check_range (ctrl2_ok (address_type f)) 0 8); [|lia].
    destruct (address_type f); vm_compute; reflexivity. }
  unfold ctrl2_ok in Hc. apply andb_true_iff in Hc as [H1 H2].
  apply bool_decide_eq_true in H1. apply Z.eqb_eq in H2. split; [exact H1|exact H2].
Qed.

Lemma individual_encode_range x :
  0 ≤ area x ≤ 15 → 0 ≤ line x ≤ 15 → is_u8 (device x) → is_u16 (IndividualAddress_encode x).
Proof. intros. rewrite individual_encode_spec by done. int_lia. Qed.

Lemma zlen_encode_npdu a d : 2 ≤ zlen (encode_npdu a d).
Proof.
  unfold encode_npdu. destruct d as [|x [|y d]]; [done| |len_lia].
  destruct (x <=? 0x3F); len_lia.
Qed.

Lemma read_ldata_encoded f :
  ldata_ok f →
  fst (read_ldata (message_code f) (additional_info f)
    ([ctrl1_byte f; ctrl2_byte f] ++ u16_to_be (IndividualAddress_encode (source f))
       ++ u16_to_be (destination f) ++ encode_npdu (apci f) (data f)))
  = Ok (with_data f (received_data (data f))).
Proof.
  intros ((Ha & Hl & Hd) & Hdst & Hhop & Hnpdu).
  unfold read_ldata, st_bind, remaining, get_u8, get_u16, st_ret.
  pose proof (zlen_encode_npdu (apci f) (data f)) as Hn.
  rewrite (proj2 (Z.ltb_ge _ _)) by len_lia. unfold u16_to_be. cbn [app]. cbv beta iota.
  rewrite npdu_roundtrip by done. cbn [fst]. f_equal. unfold with_data.
  rewrite !u16_be_roundtrip by (done || by apply individual_encode_range).
  rewrite individual_decode_encode by done.
  destruct (ctrl1_fields f) as (-> & -> & -> & ->), (ctrl2_fields f Hhop) as [-> ->].
  done.
Qed.
End decoding.

Lemma decode_prefix `{BuildProfile} m infos tail :
  Forall info_ok infos → infos_len infos ≤ 255 →
  CemiFrame_decode (encode_prefix m infos ++ tail) = fst (read_body m infos tail).
Proof.
  intros Hok Hlen. unfold CemiFrame_decode, encode_prefix. pose proof (zlen_nonneg (encode_infos infos)).
  rewrite (proj2 (Z.ltb_ge _ _)) by len_lia.
  unfold read_from, st_bind at 1, get_u8. cbn [app].
  unfold st_bind at 1, st_lift. rewrite message_code_roundtrip. cbn [ok_or].
  unfold st_bind. by rewrite read_infos_encoded.
Qed.

(** A frame the layouts can carry.  Property, reset and bus-monitor frames are their message code, additional
    information and payload; the other kinds must fit the L_Data layout. *)
Definition cemi_ok (f : CemiFrame) : Prop :=
  is_property_service (message_code f) || is_reset_service (message_code f) = true ∨ message_code f = LBusmonInd ∨ ldata_ok f.

(** What arrives when [f] is sent. *)
Definition received (f : CemiFrame) : CemiFrame :=
  if is_property_service (message_code f) || is_reset_service (message_code f) then management_frame (message_code f) (additional_info f) (data f)
  else if decide (message_code f = LBusmonInd) then busmon_frame (additional_info f) (data f)
  else with_data f (received_data (data f)).

(** C40: What a cEMI frame is after encoding and decoding, in every build.  A property, reset or
    bus-monitor frame, whatever its other fields, arrives with its message code, additional information and
    payload; the other fields are not encoded and arrive as fixed defaults (so the confirm flag of a failed
    property write is lost).  An L_Data frame that carries a group service (a read without payload, a response
    or write of up to 254 bytes), with any priority, confirm and acknowledge flags, additional
    information and addresses and hop count within their fields, arrives unchanged but for two things: the system-broadcast flag, which is not encoded, arrives
    cleared, and a payload of one zero byte arrives as an empty payload. *)
Theorem cemi_roundtrip `{BuildProfile} (f : CemiFrame) :
  cemi_ok f → Forall info_ok (additional_info f) → infos_len (additional_info f) ≤ 255 →
  CemiFrame_decode (CemiFrame_encode f) = Ok (received f).
Proof.
  intros Hf Hinfos Hlen. unfold CemiFrame_encode, received. cbv zeta.
  destruct (is_property_service (message_code f) || is_reset_service (message_code f)) eqn:Hm.
  { rewrite decode_prefix by done. unfold read_body. by rewrite Hm. }
  destruct (decide (message_code f = LBusmonInd)) as [Hb|Hb].
  { rewrite Hb, decode_prefix by done. done. }
  destruct Hf as [Hf|[Hf|Hld]]; [congruence..|]. rewrite decode_prefix by done. unfold read_body.
  rewrite Hm, decide_False by done. by apply read_ldata_encoded.
Qed.

Definition sample_frame (d : list Z) : CemiFrame :=
  group_value_write {| area := 1; line := 1; device := 7 |} (from_raw 0x0A03) d.

Lemma cemi_roundtrip_witness :
  @CemiFrame_decode debug_build (CemiFrame_encode (sample_frame [12; 34])) = Ok (sample_frame [12; 34]) ∧
  @CemiFrame_decode debug_build (CemiFrame_encode (sample_frame [0])) = Ok (sample_frame []).
Proof.
  split.
  - apply (@cemi_roundtrip debug_build (sample_frame [12; 34])); [|constructor|closed]. right. right. closed.
  - apply (@cemi_roundtrip debug_build (sample_frame [0])); [|constructor|closed]. right. right. closed.
Defined.

(* ------------------------------------------------------------------ *)
(** * When decoding panics *)

Lemma take_bytes_inv {E} n buf :
  0 ≤ n ≤ zlen buf →
  take_bytes (E:=E) n buf = (Ok (take (Z.to_nat n) buf), drop (Z.to_nat n) buf).
Proof.
  intros Hn. unfold take_bytes. rewrite slice_ok by lia. by rewrite Z.sub_0_r.
Qed.

Lemma zlen_take {A} n (l : list A) : 0 ≤ n ≤ zlen l → zlen (take (Z.to_nat n) l) = n.
Proof. intros. unfold zlen in *. rewrite length_take. lia. Qed.

Lemma info_decode_inv buf :
  bytes_ok buf →
  match AdditionalInfo_decode buf with
  | (Ok i, rest) => buf = AdditionalInfo_encode i ++ rest ∧ info_ok i
  | (Err _, _) => True
  | (Panic, _) => False
  end.
Proof.
  intros Hok. unfold AdditionalInfo_decode, st_bind, remaining, st_err, st_ret.
  destruct (zlen buf <? 2) eqn:Hl; [done|]. bool_to_prop.
  destruct buf as [|t [|n buf]]; [unfold zlen in Hl; simpl in Hl; lia..|].
  rewrite !bytes_ok_cons in Hok. destruct Hok as (Ht & Hn & Hok). cbn [get_u8].
  destruct (zlen buf <? n) eqn:Hb; [done|]. bool_to_prop.
  assert (0 ≤ n ≤ zlen buf) as Hnb by (unfold is_u8 in Hn; lia).
  rewrite take_bytes_inv by done. unfold AdditionalInfo_encode, info_ok. cbn [info_type info_data].
  rewrite zlen_take, as_u8_id by done. split; [cbn [app]; by rewrite take_drop|unfold is_u8 in Hn; lia].
Qed.

Lemma decode_infos_inv fuel : ∀ buf,
  bytes_ok buf → (length buf ≤ fuel)%nat →
  match decode_infos fuel buf with
  | Ok infos => buf = encode_infos infos ∧ Forall info_ok infos
  | Err _ => True
  | Panic => False
  end.
Proof.
  induction fuel as [|fuel IH]; intros buf Hok Hf; (destruct buf as [|b buf]; [done|]).
  { simpl in Hf. lia. }
  cbn [decode_infos]. pose proof (info_decode_inv (b :: buf) Hok) as Hi.
  destruct (AdditionalInfo_decode (b :: buf)) as [[i|e|] rest]; [|done|done].
  destruct Hi as [Hb Hi]. rewrite Hb in Hok, Hf. apply bytes_ok_app in Hok as [_ Hok].
  rewrite length_app in Hf. specialize (IH rest Hok).
  destruct (decode_infos fuel rest) as [infos|e|]; simpl; [|done|].
  - destruct IH as [-> Hall]; [simpl in Hf; lia|]. split; [|by constructor]. by rewrite Hb.
  - apply IH. simpl in Hf. lia.
Qed.

Lemma read_infos_inv buf :
  bytes_ok buf → buf ≠ [] →
  match read_infos buf with
  | (Ok infos, rest) => buf = as_u8 (infos_len infos) :: encode_infos infos ++ rest ∧
                        Forall info_ok infos ∧ infos_len infos ≤ 255
  | (Err _, _) => True
  | (Panic, _) => False
  end.
Proof.
  intros Hok Hne. destruct buf as [|n buf]; [done|]. apply bytes_ok_cons in Hok as [Hn Hok].
  unfold read_infos, st_bind, remaining. cbn [get_u8]. unfold is_u8 in Hn.
  destruct (0 <? n) eqn:Hp; bool_to_prop.
  - destruct (zlen buf <? n) eqn:Hb; [done|]. bool_to_prop. rewrite take_bytes_inv by lia.
    unfold st_lift. rewrite <- (take_drop (Z.to_nat n) buf) in Hok. apply bytes_ok_app in Hok as [Hok _].
    pose proof (decode_infos_inv (length (take (Z.to_nat n) buf)) _ Hok (le_n _)) as Hi.
    destruct (decode_infos _ _) as [infos|e|]; [|done|done]. destruct Hi as [Hi Hall].
    assert (infos_len infos = n) as Hlen by (rewrite <- zlen_encode_infos, <- Hi; apply zlen_take; lia).
    rewrite Hlen, <- Hi, take_drop, as_u8_id by (unfold is_u8; lia). split; [done|]. split; [done|lia].
  - assert (n = 0) as -> by lia. cbn [st_ret]. done.
Qed.

(** An L_Data body whose NPDU is announced as empty and has no bytes at all. *)
Definition empty_npdu (tail : list Z) : Prop :=
  ∃ c1 c2 s1 s2 d1 d2, tail = [c1; c2; s1; s2; d1; d2; 0].

Section panics.
Context `{BuildProfile}.

Lemma read_npdu_panic n buf :
  is_u8 n → fst (read_npdu (n :: buf)) = Panic ↔ n = 0 ∧ buf = [].
Proof.
  intros Hn. unfold is_u8 in Hn. unfold read_npdu, st_bind, remaining, st_err, st_ret, st_lift. cbn [get_u8].
  destruct (zlen buf <? n) eqn:Hl; bool_to_prop.
  { split; [done|]. intros [-> ->]. done. }
  destruct buf as [|b buf]; [change (zlen (@nil Z)) with 0 in Hl; split; [split; [lia|done]|done]|].
  split; [|by intros [? ?]]. cbn [get_u8]. rewrite zlen_cons in Hl.
  destruct ((2 <=? n) && (Z.land b 0xFC =? 0)) eqn:Hc; bool_to_prop.
  - destruct buf as [|b2 buf]; [change (zlen (@nil Z)) with 0 in Hl; lia|]. cbn [get_u8].
    rewrite zlen_cons in Hl. unfold usize_sub. rewrite checked_op_exact by int_lia. cbv beta iota.
    destruct (n - 2 =? 0); [done|]. by rewrite take_bytes_inv by lia.
  - destruct (n <=? 1) eqn:H1; [done|]. bool_to_prop. unfold usize_sub.
    rewrite checked_op_exact by int_lia. cbv beta iota. by rewrite take_bytes_inv by lia.
Qed.

Lemma read_ldata_panic m infos tail :
  bytes_ok tail → fst (read_ldata m infos tail) = Panic ↔ empty_npdu tail.
Proof.
  intros Hok. unfold read_ldata, empty_npdu, st_bind at 1, remaining.
  destruct (zlen tail <? 7) eqn:Hl; bool_to_prop.
  { split; [done|]. intros (c1 & c2 & s1 & s2 & d1 & d2 & ->). done. }
  do 7 (destruct tail as [|? tail]; [unfold zlen in Hl; simpl in Hl; lia|]).
  rewrite !bytes_ok_cons in Hok. destruct Hok as (_&_&_&_&_&_&Hz&_).
  unfold st_bind, get_u16, st_ret. cbn [get_u8].
  pose proof (read_npdu_panic z5 tail Hz) as Hn.
  destruct (read_npdu (z5 :: tail)) as [[[a d]|e|] rest]; cbn [fst] in *.
  - split; [done|]. intros (c1 & c2 & s1 & s2 & d1 & d2 & [= -> -> -> -> -> -> -> ->]).
    by discriminate (proj2 Hn (conj eq_refl eq_refl)).
  - split; [done|]. intros (c1 & c2 & s1 & s2 & d1 & d2 & [= -> -> -> -> -> -> -> ->]).
    by discriminate (proj2 Hn (conj eq_refl eq_refl)).
  - destruct Hn as [[-> ->] _]; [done|]. split; [|done]. intros _. by do 6 eexists.
Qed.

Lemma read_body_panic m infos tail :
  bytes_ok tail →
  fst (read_body m infos tail) = Panic ↔
  is_property_service m = false ∧ is_reset_service m = false ∧ m ≠ LBusmonInd ∧ empty_npdu tail.
Proof.
  intros Hok. unfold read_body.
  destruct (is_property_service m) eqn:E1; [split; [done|by intros (?&?)]|].
  destruct (is_reset_service m) eqn:E2; [split; [done|by intros (?&?&?)]|]. cbn [orb].
  destruct (decide (m = LBusmonInd)) as [->|Hb]; [split; [done|by intros (?&?&?&?)]|].
  rewrite read_ldata_panic by done. tauto.
Qed.

Lemma message_code_inv v m : MessageCode_try_from_u8 v = Some m → v = MessageCode_as_u8 m.
Proof.
  unfold MessageCode_try_from_u8. intros Hm.
  repeat match type of Hm with
    | match ?x with _ => _ end = Some _ => destruct x; try discriminate Hm
    end; by injection Hm as <-.
Qed.

(** Every datagram that gets past the message code and the additional information. *)
Lemma decode_shape bytes :
  bytes_ok bytes →
  (∃ e, CemiFrame_decode bytes = Err e) ∨
  (∃ m infos tail, bytes = encode_prefix m infos ++ tail ∧ Forall info_ok infos ∧ infos_len infos ≤ 255).
Proof.
  intros Hok. unfold CemiFrame_decode. destruct (zlen bytes <? 2) eqn:Hl; [by left; eexists|]. bool_to_prop.
  destruct bytes as [|code buf]; [unfold zlen in Hl; simpl in Hl; lia|].
  apply bytes_ok_cons in Hok as [Hc Hok]. rewrite zlen_cons in Hl.
  unfold read_from, st_bind at 1. cbn [get_u8]. unfold st_bind at 1, st_lift.
  destruct (MessageCode_try_from_u8 code) as [m|] eqn:Hm; [|by left; eexists]. cbn [ok_or].
  unfold st_bind.
  assert (buf ≠ []) as Hne by (intros ->; change (zlen (@nil Z)) with 0 in Hl; lia).
  pose proof (read_infos_inv buf Hok Hne) as Hi.
  destruct (read_infos buf) as [[infos|e|] tail]; [|by left; eexists|done].
  destruct Hi as (-> & Hall & Hlen). right. exists m, infos, tail.
  apply message_code_inv in Hm. by subst code.
Qed.
End panics.

(** decoding a cEMI frame panics, in every build, on exactly one kind of input: a link-layer frame with
    well-formed additional information whose NPDU length byte is zero and is the last byte of the
    datagram. Every other byte string is decoded or rejected. *)
Theorem cemi_decode_panic_iff `{BuildProfile} (bytes : list Z) :
  bytes_ok bytes →
  CemiFrame_decode bytes = Panic ↔
  ∃ m infos tail,
    bytes = encode_prefix m infos ++ tail ∧ Forall info_ok infos ∧ infos_len infos ≤ 255 ∧
    is_property_service m = false ∧ is_reset_service m = false ∧ m ≠ LBusmonInd ∧ empty_npdu tail.
Proof.
  intros Hok. split.
  - intros Hp. destruct (decode_shape bytes Hok) as [[e He]|(m & infos & tail & -> & Hall & Hlen)];
      [congruence|].
    rewrite decode_prefix in Hp by done. apply bytes_ok_app in Hok as [_ Hok].
    apply read_body_panic in Hp as (?&?&?&?); [|done]. exists m, infos, tail. done.
  - intros (m & infos & tail & -> & Hall & Hlen & Hbody). rewrite decode_prefix by done.
    apply read_body_panic; [|done]. by apply bytes_ok_app in Hok as [_ Hok].
Qed.

Lemma cemi_decode_panic_iff_witness :
  @CemiFrame_decode release_build [0x29; 0; 0xBC; 0xE0; 0x11; 0x01; 0x0A; 0x03; 0] = Panic.
Proof.
  apply (@cemi_decode_panic_iff release_build); [closed|].
  exists LDataInd, [], [0xBC; 0xE0; 0x11; 0x01; 0x0A; 0x03; 0].
  split; [reflexivity|]. split; [constructor|]. split; [closed|]. split; [reflexivity|]. split; [reflexivity|].
  split; [discriminate|]. do 6 eexists. reflexivity.
Defined.

(** the APCI tables used for encoding and for decoding disagree: of the sixteen named services only
    the three group-value services and Individual Address Write survive encoding and
    decoding; every other one comes back as a different service. *)
Theorem apci_roundtrip_iff (a : Apci) :
  (∀ v, a ≠ Unknown v) →
  Apci_decode (Apci_encode a) = a ↔
  a = GroupValueRead ∨ a = GroupValueResponse ∨ a = GroupValueWrite ∨ a = IndividualAddressWrite.
Proof.
  intros Ha. destruct a; try (split; [by vm_compute|by intuition]); try (split; [by auto|by vm_compute]).
  by destruct (Ha value).
Qed.

Lemma apci_roundtrip_iff_witness : Apci_decode (Apci_encode MemoryRead) ≠ MemoryRead.
Proof.
  intros H. apply (apci_roundtrip_iff MemoryRead) in H; [|discriminate].
  destruct H as [H|[H|[H|H]]]; discriminate H.
Defined.
