(* ===== verification/KnxMessages.v ===== *)
(** Bodies of the KNXnet/IP connection and tunnelling services
    ([mabi-knx/src/tunnel/connection.rs]). *)

From S2P Require Import Prelude KnxFrame KnxCemi.

(* ------------------------------------------------------------------ *)
(** * Connection types, layers, status codes *)

Inductive ConnectionType : Set :=
| DeviceManagement | Tunnel | RemoteLogging | RemoteConfiguration | ObjectServer.
Definition ConnectionType_as_u8 (c : ConnectionType) : Z :=
  match c with
  | DeviceManagement => 0x03 | Tunnel => 0x04 | RemoteLogging => 0x06
  | RemoteConfiguration => 0x07 | ObjectServer => 0x08
  end.
Definition ConnectionType_from_u8 (value : Z) : option ConnectionType :=
  match value with
  | 0x03 => Some DeviceManagement | 0x04 => Some Tunnel | 0x06 => Some RemoteLogging
  | 0x07 => Some RemoteConfiguration | 0x08 => Some ObjectServer | _ => None
  end.

Inductive KnxLayer : Set := LinkLayer | RawLayer | BusMonitor.
Definition KnxLayer_as_u8 (l : KnxLayer) : Z :=
  match l with LinkLayer => 0x02 | RawLayer => 0x04 | BusMonitor => 0x80 end.
Definition KnxLayer_from_u8 (value : Z) : option KnxLayer :=
  match value with 0x02 => Some LinkLayer | 0x04 => Some RawLayer | 0x80 => Some BusMonitor | _ => None end.

Inductive ConnectStatus : Set :=
| CsNoError | CsConnectionType | CsConnectionOption | CsNoMoreConnections
| CsNoMoreUniqueConnections | CsDataConnection | CsKnxConnection | CsTunnellingLayer.
#[global] Instance ConnectStatus_eq_dec : EqDecision ConnectStatus.
Proof. solve_decision. Defined.
Definition ConnectStatus_as_u8 (s : ConnectStatus) : Z :=
  match s with
  | CsNoError => 0x00 | CsConnectionType => 0x22 | CsConnectionOption => 0x23
  | CsNoMoreConnections => 0x24 | CsNoMoreUniqueConnections => 0x25
  | CsDataConnection => 0x26 | CsKnxConnection => 0x27 | CsTunnellingLayer => 0x29
  end.
Definition ConnectStatus_from_u8 (value : Z) : ConnectStatus :=
  match value with
  | 0x00 => CsNoError | 0x22 => CsConnectionType | 0x23 => CsConnectionOption
  | 0x24 => CsNoMoreConnections | 0x25 => CsNoMoreUniqueConnections
  | 0x26 => CsDataConnection | 0x27 => CsKnxConnection | 0x29 => CsTunnellingLayer
  | _ => CsNoError
  end.
Definition ConnectStatus_is_success (s : ConnectStatus) : bool :=
  match s with CsNoError => true | _ => false end.

(* ------------------------------------------------------------------ *)
(** * Connecting *)

Record ConnectionRequestInfo : Set := { connection_type : ConnectionType; knx_layer : KnxLayer }.
Definition ConnectionRequestInfo_encode (c : ConnectionRequestInfo) : list Z :=
  [4; ConnectionType_as_u8 (connection_type c); KnxLayer_as_u8 (knx_layer c); 0x00].
Definition ConnectionRequestInfo_decode (bytes : list Z) : outcome KnxError ConnectionRequestInfo :=
  if zlen bytes <? 4 then Err (FrameTooShort 4 (zlen bytes))
  else
    read_from bytes (
      do? length := get_u8 in
      if negb (length =? 4) then st_err InvalidHeader
      else
        do? ct := get_u8 in
        do? c := st_lift (ok_or (ConnectionType_from_u8 ct) InvalidHeader) in
        do? l := get_u8 in
        do? _ := get_u8 in
        st_ret {| connection_type := c; knx_layer := default LinkLayer (KnxLayer_from_u8 l) |}).

Record ConnectionResponseData : Set := { crd_individual_address : IndividualAddress }.
Definition ConnectionResponseData_encode (c : ConnectionResponseData) : list Z :=
  [4; ConnectionType_as_u8 Tunnel] ++ u16_to_be (IndividualAddress_encode (crd_individual_address c)).
Definition ConnectionResponseData_decode (bytes : list Z) : outcome KnxError ConnectionResponseData :=
  if zlen bytes <? 4 then Err (FrameTooShort 4 (zlen bytes))
  else
    read_from bytes (
      do? _ := get_u8 in do? _ := get_u8 in
      do? a := get_u16 in
      st_ret {| crd_individual_address := IndividualAddress_decode a |}).

Record ConnectRequest : Set := {
  control_endpoint : Hpai; data_endpoint : Hpai; cri : ConnectionRequestInfo }.
Definition ConnectRequest_encode (r : ConnectRequest) : list Z :=
  Hpai_encode (control_endpoint r) ++ Hpai_encode (data_endpoint r)
    ++ ConnectionRequestInfo_encode (cri r).
Definition ConnectRequest_decode (bytes : list Z) : outcome KnxError ConnectRequest :=
  if zlen bytes <? 20 then Err (FrameTooShort 20 (zlen bytes))
  else
    let? c := Hpai_decode bytes in
    let? d8 := slice bytes 8 (zlen bytes) in
    let? d := Hpai_decode d8 in
    let? d16 := slice bytes 16 (zlen bytes) in
    let? i := ConnectionRequestInfo_decode d16 in
    Ok {| control_endpoint := c; data_endpoint := d; cri := i |}.

Record ConnectResponse : Set := {
  cr_channel_id : Z; cr_status : ConnectStatus; cr_data_endpoint : Hpai;
  crd : option ConnectionResponseData }.
Definition ConnectResponse_success (ch : Z) (ep : Hpai) (c : ConnectionResponseData) : ConnectResponse :=
  {| cr_channel_id := ch; cr_status := CsNoError; cr_data_endpoint := ep; crd := Some c |}.
Definition ConnectResponse_error (s : ConnectStatus) : ConnectResponse :=
  {| cr_channel_id := 0; cr_status := s; cr_data_endpoint := Hpai_nat; crd := None |}.
Definition ConnectResponse_encode (r : ConnectResponse) : list Z :=
  [cr_channel_id r; ConnectStatus_as_u8 (cr_status r)] ++ Hpai_encode (cr_data_endpoint r)
    ++ match crd r with Some c => ConnectionResponseData_encode c | None => [] end.
Definition ConnectResponse_decode (bytes : list Z) : outcome KnxError ConnectResponse :=
  if zlen bytes <? 2 then Err (FrameTooShort 2 (zlen bytes))
  else
    read_from bytes (
      do? ch := get_u8 in
      do? st := get_u8 in
      let status := ConnectStatus_from_u8 st in
      if negb (ConnectStatus_is_success status) then st_ret (ConnectResponse_error status)
      else
        do? have := remaining in
        if have <? 8 then st_err (FrameTooShort 10 (zlen bytes))
        else fun buf =>
          (let? ep := Hpai_decode buf in
           let? c := (if 12 <=? zlen buf
                      then let? b := slice buf 8 (zlen buf) in
                           omap_ok Some (ConnectionResponseData_decode b)
                      else Ok None) in
           Ok {| cr_channel_id := ch; cr_status := status; cr_data_endpoint := ep; crd := c |}, buf)).

(* ------------------------------------------------------------------ *)
(** * Tunnelling *)

Record TunnellingRequest : Set := { tr_channel_id : Z; sequence_counter : Z; cemi : CemiFrame }.
Definition TunnellingRequest_encode (r : TunnellingRequest) : list Z :=
  [4; tr_channel_id r; sequence_counter r; 0] ++ CemiFrame_encode (cemi r).
Definition TunnellingRequest_decode `{BuildProfile} (bytes : list Z) : outcome KnxError TunnellingRequest :=
  if zlen bytes <? 4 then Err (FrameTooShort 4 (zlen bytes))
  else
    read_from bytes (
      do? _ := get_u8 in
      do? ch := get_u8 in
      do? seq := get_u8 in
      do? _ := get_u8 in
      fun buf =>
        (let? c := CemiFrame_decode buf in
         Ok {| tr_channel_id := ch; sequence_counter := seq; cemi := c |}, buf)).

Record TunnellingAck : Set := { ack_channel_id : Z; ack_sequence : Z; ack_status : Z }.
Definition TunnellingAck_ok (ch seq : Z) : TunnellingAck :=
  {| ack_channel_id := ch; ack_sequence := seq; ack_status := 0 |}.
Definition TunnellingAck_error (ch seq status : Z) : TunnellingAck :=
  {| ack_channel_id := ch; ack_sequence := seq; ack_status := status |}.
Definition TunnellingAck_encode (a : TunnellingAck) : list Z :=
  [4; ack_channel_id a; ack_sequence a; ack_status a].
Definition TunnellingAck_decode (bytes : list Z) : outcome KnxError TunnellingAck :=
  if zlen bytes <? 4 then Err (FrameTooShort 4 (zlen bytes))
  else
    read_from bytes (
      do? _ := get_u8 in
      do? ch := get_u8 in
      do? seq := get_u8 in
      do? st := get_u8 in
      st_ret {| ack_channel_id := ch; ack_sequence := seq; ack_status := st |}).

(* ------------------------------------------------------------------ *)
(** * Heartbeat and disconnect *)

(** [ConnectionStateRequest] and [DisconnectRequest] have one layout, and so do their responses. *)
Record ChannelRequest : Set := { chr_channel_id : Z; chr_control_endpoint : Hpai }.
Definition ChannelRequest_encode (r : ChannelRequest) : list Z :=
  [chr_channel_id r; 0] ++ Hpai_encode (chr_control_endpoint r).
Definition ChannelRequest_decode (bytes : list Z) : outcome KnxError ChannelRequest :=
  if zlen bytes <? 10 then Err (FrameTooShort 10 (zlen bytes))
  else
    read_from bytes (
      do? ch := get_u8 in
      do? _ := get_u8 in
      fun buf => (let? ep := Hpai_decode buf in
                  Ok {| chr_channel_id := ch; chr_control_endpoint := ep |}, buf)).
Record ChannelResponse : Set := { chs_channel_id : Z; chs_status : Z }.
Definition ChannelResponse_encode (r : ChannelResponse) : list Z := [chs_channel_id r; chs_status r].
Definition ChannelResponse_decode (bytes : list Z) : outcome KnxError ChannelResponse :=
  if zlen bytes <? 2 then Err (FrameTooShort 2 (zlen bytes))
  else
    let? ch := index bytes 0 in
    let? st := index bytes 1 in
    Ok {| chs_channel_id := ch; chs_status := st |}.

(* ------------------------------------------------------------------ *)
(** * Round trips *)

Lemma cri_roundtrip c rest :
  ConnectionRequestInfo_decode (ConnectionRequestInfo_encode c ++ rest) = Ok c.
Proof.
  unfold ConnectionRequestInfo_decode. rewrite (proj2 (Z.ltb_ge _ _))
    by (unfold ConnectionRequestInfo_encode; pose proof (zlen_nonneg rest); len_lia).
  by destruct c as [[] []].
Qed.

Lemma crd_roundtrip c rest :
  0 ≤ area (crd_individual_address c) ≤ 15 → 0 ≤ line (crd_individual_address c) ≤ 15 →
  is_u8 (device (crd_individual_address c)) →
  ConnectionResponseData_decode (ConnectionResponseData_encode c ++ rest) = Ok c.
Proof.
  intros Ha Hl Hd. unfold ConnectionResponseData_decode, ConnectionResponseData_encode.
  rewrite (proj2 (Z.ltb_ge _ _)) by (pose proof (zlen_nonneg rest); len_lia).
  unfold read_from, st_bind, get_u8, get_u16, st_ret, u16_to_be. cbn [app fst].
  rewrite u16_be_roundtrip by (by apply individual_encode_range).
  rewrite individual_decode_encode by done. by destruct c.
Qed.

Lemma slice_rest {E} (pre rest : list Z) n m :
  n = zlen pre → m = zlen (pre ++ rest) → slice (E:=E) (pre ++ rest) n m = Ok rest.
Proof.
  intros -> ->. rewrite zlen_app. pose proof (zlen_nonneg pre). pose proof (zlen_nonneg rest).
  rewrite slice_ok by (rewrite ?zlen_app; lia). f_equal.
  unfold zlen. rewrite Nat2Z.id, drop_app_length, take_ge by lia. done.
Qed.

Lemma connect_request_roundtrip r :
  hpai_ok (control_endpoint r) → hpai_ok (data_endpoint r) →
  ConnectRequest_decode (ConnectRequest_encode r) = Ok r.
Proof.
  intros Hc Hd. unfold ConnectRequest_decode, ConnectRequest_encode.
  set (c := Hpai_encode (control_endpoint r)). set (d := Hpai_encode (data_endpoint r)).
  pose proof (zlen_hpai (control_endpoint r)) as Hzc. pose proof (zlen_hpai (data_endpoint r)) as Hzd.
  fold c in Hzc. fold d in Hzd.
  rewrite (proj2 (Z.ltb_ge _ _)) by (unfold ConnectionRequestInfo_encode; len_lia).
  unfold c at 1. rewrite hpai_roundtrip by done. cbn [obind].
  rewrite slice_rest by done. cbn [obind]. unfold d at 1. rewrite hpai_roundtrip by done. cbn [obind].
  rewrite app_assoc, slice_rest by (rewrite ?zlen_app; (done || lia)). cbn [obind].
  rewrite <- (app_nil_r (ConnectionRequestInfo_encode _)), cri_roundtrip. by destruct r.
Qed.

Definition crd_ok (c : ConnectionResponseData) : Prop :=
  0 ≤ area (crd_individual_address c) ≤ 15 ∧ 0 ≤ line (crd_individual_address c) ≤ 15 ∧
  is_u8 (device (crd_individual_address c)).

Lemma connect_response_roundtrip ch ep c :
  hpai_ok ep → crd_ok c →
  ConnectResponse_decode (ConnectResponse_encode (ConnectResponse_success ch ep c))
  = Ok (ConnectResponse_success ch ep c).
Proof.
  intros Hep (Ha & Hl & Hd). unfold ConnectResponse_decode, ConnectResponse_encode.
  cbn [cr_channel_id cr_status cr_data_endpoint crd ConnectResponse_success ConnectStatus_as_u8].
  pose proof (zlen_hpai ep) as Hz. assert (zlen (ConnectionResponseData_encode c) = 4) as Hzc by done.
  rewrite (proj2 (Z.ltb_ge _ _)) by len_lia.
  unfold read_from, st_bind, get_u8, remaining. cbn [app ConnectStatus_from_u8 ConnectStatus_is_success negb].
  rewrite (proj2 (Z.ltb_ge _ _)) by (rewrite zlen_app; lia). cbn [fst].
  rewrite hpai_roundtrip by done. cbn [obind].
  rewrite (proj2 (Z.leb_le _ _)) by (rewrite zlen_app; lia).
  rewrite slice_rest by done. cbn [obind].
  rewrite <- (app_nil_r (ConnectionResponseData_encode c)), crd_roundtrip by done. done.
Qed.

Lemma tunnelling_ack_roundtrip a rest :
  TunnellingAck_decode (TunnellingAck_encode a ++ rest) = Ok a.
Proof.
  unfold TunnellingAck_decode, TunnellingAck_encode. rewrite (proj2 (Z.ltb_ge _ _))
    by (pose proof (zlen_nonneg rest); len_lia). by destruct a.
Qed.

Lemma tunnelling_request_decode `{BuildProfile} ch seq buf c :
  CemiFrame_decode buf = Ok c →
  TunnellingRequest_decode ([4; ch; seq; 0] ++ buf)
  = Ok {| tr_channel_id := ch; sequence_counter := seq; cemi := c |}.
Proof.
  intros Hc. unfold TunnellingRequest_decode. rewrite (proj2 (Z.ltb_ge _ _))
    by (pose proof (zlen_nonneg buf); len_lia).
  unfold read_from, st_bind, get_u8. cbn [app fst]. by rewrite Hc.
Qed.

Lemma channel_request_roundtrip r :
  hpai_ok (chr_control_endpoint r) → ChannelRequest_decode (ChannelRequest_encode r) = Ok r.
Proof.
  intros Hep. unfold ChannelRequest_decode, ChannelRequest_encode.
  pose proof (zlen_hpai (chr_control_endpoint r)) as Hz.
  rewrite (proj2 (Z.ltb_ge _ _)) by len_lia. unfold read_from, st_bind, get_u8. cbn [app fst].
  rewrite <- (app_nil_r (Hpai_encode _)), hpai_roundtrip by done. by destruct r.
Qed.

(** The decoder takes every status it does not know for success. *)
Lemma unknown_status_is_success v :
  v ∉ [0x22; 0x23; 0x24; 0x25; 0x26; 0x27; 0x29] → ConnectStatus_from_u8 v = CsNoError.
Proof.
  intros Hv. destruct (ConnectStatus_from_u8 v) eqn:E; try done; exfalso; apply Hv;
    unfold ConnectStatus_from_u8 in E;
    repeat match type of E with
      | match ?x with _ => _ end = _ => destruct x; try discriminate E
      end; set_solver.
Qed.
