(* ===== verification/KnxTunnel.v ===== *)
(** KNXnet/IP tunnelling: sequence numbers ([tunnel/sequence.rs]), the connection state machine
    ([tunnel/fsm.rs]) and the connection table ([server.rs]). *)

From S2P Require Import Prelude KnxFrame KnxCemi KnxMessages.

(* ------------------------------------------------------------------ *)
(** * Sequence numbers *)

Definition FATAL_DESYNC_THRESHOLD : Z := 5.
Definition FORWARD_BOUNDARY : Z := 128.

Inductive ReceivedValidation : Set :=
| Valid (sequence : Z)
| Duplicate (sequence expected : Z)
| OutOfOrder (sequence expected distance : Z)
| FatalDesync (sequence expected distance : Z).

Definition should_process (v : ReceivedValidation) : bool :=
  match v with Valid _ | OutOfOrder _ _ _ => true | _ => false end.
Definition should_ack (v : ReceivedValidation) : bool :=
  match v with FatalDesync _ _ _ => false | _ => true end.
Definition requires_restart (v : ReceivedValidation) : bool :=
  match v with FatalDesync _ _ _ => true | _ => false end.

Inductive AckValidation : Set := AckValid | AckMismatch (expected actual : Z).

(** [AtomicU64::fetch_add(1)] wraps around. *)
Definition u64_incr (n : Z) : Z := (n + 1) mod 18446744073709551616.

Record SequenceStats : Set := {
  frames_sent : Z; frames_received : Z; duplicates_detected : Z;
  out_of_order_detected : Z; fatal_desyncs : Z; resets : Z }.
Definition SequenceStats_default : SequenceStats :=
  {| frames_sent := 0; frames_received := 0; duplicates_detected := 0;
     out_of_order_detected := 0; fatal_desyncs := 0; resets := 0 |}.

Record SequenceTracker : Set := {
  sno : Z; rno : Z; fatal_desync_threshold : Z; seq_stats : SequenceStats }.

Definition SequenceTracker_new : SequenceTracker :=
  {| sno := 0; rno := 0; fatal_desync_threshold := FATAL_DESYNC_THRESHOLD;
     seq_stats := SequenceStats_default |}.
Definition with_desync_threshold (threshold : Z) : SequenceTracker :=
  {| sno := 0; rno := 0; fatal_desync_threshold := Z.max threshold 2;
     seq_stats := SequenceStats_default |}.

(** The compare-and-swap loop, run by one thread: the first exchange succeeds. *)
Definition next_sno (t : SequenceTracker) : Z * SequenceTracker :=
  let st := seq_stats t in
  (sno t,
   {| sno := u8_wrapping_add (sno t) 1; rno := rno t;
      fatal_desync_threshold := fatal_desync_threshold t;
      seq_stats := {| frames_sent := u64_incr (frames_sent st); frames_received := frames_received st;
                      duplicates_detected := duplicates_detected st;
                      out_of_order_detected := out_of_order_detected st;
                      fatal_desyncs := fatal_desyncs st; resets := resets st |} |}).

Definition count_valid (t : SequenceTracker) : SequenceTracker :=
  let st := seq_stats t in
  {| sno := sno t; rno := rno t; fatal_desync_threshold := fatal_desync_threshold t;
     seq_stats := {| frames_sent := frames_sent st; frames_received := u64_incr (frames_received st);
                     duplicates_detected := duplicates_detected st;
                     out_of_order_detected := out_of_order_detected st;
                     fatal_desyncs := fatal_desyncs st; resets := resets st |} |}.
Definition count_duplicate (t : SequenceTracker) : SequenceTracker :=
  let st := seq_stats t in
  {| sno := sno t; rno := rno t; fatal_desync_threshold := fatal_desync_threshold t;
     seq_stats := {| frames_sent := frames_sent st; frames_received := frames_received st;
                     duplicates_detected := u64_incr (duplicates_detected st);
                     out_of_order_detected := out_of_order_detected st;
                     fatal_desyncs := fatal_desyncs st; resets := resets st |} |}.
Definition count_out_of_order (t : SequenceTracker) : SequenceTracker :=
  let st := seq_stats t in
  {| sno := sno t; rno := rno t; fatal_desync_threshold := fatal_desync_threshold t;
     seq_stats := {| frames_sent := frames_sent st; frames_received := frames_received st;
                     duplicates_detected := duplicates_detected st;
                     out_of_order_detected := u64_incr (out_of_order_detected st);
                     fatal_desyncs := fatal_desyncs st; resets := resets st |} |}.
Definition count_fatal (t : SequenceTracker) : SequenceTracker :=
  let st := seq_stats t in
  {| sno := sno t; rno := rno t; fatal_desync_threshold := fatal_desync_threshold t;
     seq_stats := {| frames_sent := frames_sent st; frames_received := frames_received st;
                     duplicates_detected := duplicates_detected st;
                     out_of_order_detected := out_of_order_detected st;
                     fatal_desyncs := u64_incr (fatal_desyncs st); resets := resets st |} |}.

Definition set_rno (t : SequenceTracker) (n : Z) : SequenceTracker :=
  {| sno := sno t; rno := n; fatal_desync_threshold := fatal_desync_threshold t;
     seq_stats := seq_stats t |}.

Definition validate_received (sequence : Z) (t : SequenceTracker) : ReceivedValidation * SequenceTracker :=
  let expected := rno t in
  if sequence =? expected then
    (Valid sequence, count_valid (set_rno t (u8_wrapping_add expected 1)))
  else if u8_wrapping_add sequence 1 =? expected then
    (Duplicate sequence expected, count_duplicate t)
  else
    let distance := u8_wrapping_sub sequence expected in
    if distance <? FORWARD_BOUNDARY then
      if fatal_desync_threshold t <=? distance then
        (FatalDesync sequence expected distance, count_fatal t)
      else (OutOfOrder sequence expected distance, count_out_of_order t)
    else (Duplicate sequence expected, count_duplicate t).

Definition validate_ack (acked_sequence : Z) (t : SequenceTracker) : AckValidation :=
  let last_sent := u8_wrapping_sub (sno t) 1 in
  if acked_sequence =? last_sent then AckValid else AckMismatch last_sent acked_sequence.

Definition SequenceTracker_reset (t : SequenceTracker) : SequenceTracker :=
  let st := seq_stats t in
  {| sno := 0; rno := 0; fatal_desync_threshold := fatal_desync_threshold t;
     seq_stats := {| frames_sent := frames_sent st; frames_received := frames_received st;
                     duplicates_detected := duplicates_detected st;
                     out_of_order_detected := out_of_order_detected st;
                     fatal_desyncs := fatal_desyncs st; resets := u64_incr (resets st) |} |}.

(* ------------------------------------------------------------------ *)
(** * The connection state machine *)

Inductive TunnelErrorReason : Set :=
| HandshakeFailed
| MaxReconnectExceeded (attempts : Z)
| SequenceDesync (expected actual : Z)
| GatewayRefused (status : Z)
| SendErrorThreshold (errors threshold : Z).

(** Send times are left out. *)
Inductive TunnelState : Set :=
| Disconnected
| Connecting
| Idle
| WaitingForAck (sequence retry_count : Z)
| WaitingForConfirmation (sequence : Z)
| Reconnecting (attempt : Z)
| TunnelErrorState (reason : TunnelErrorReason).

Definition can_send (s : TunnelState) : bool := match s with Idle => true | _ => false end.
Definition is_connected (s : TunnelState) : bool :=
  match s with Idle | WaitingForAck _ _ | WaitingForConfirmation _ => true | _ => false end.

Record TunnelFsm : Set := { fsm_state : TunnelState; transitions : Z }.
Definition TunnelFsm_new : TunnelFsm := {| fsm_state := Disconnected; transitions := 0 |}.
Definition TunnelFsm_connecting : TunnelFsm := {| fsm_state := Connecting; transitions := 0 |}.

(** Every transition method overwrites the state and counts. *)
Definition fsm_goto (s : TunnelState) (m : TunnelFsm) : TunnelFsm :=
  {| fsm_state := s; transitions := u64_incr (transitions m) |}.
Definition on_connected := fsm_goto Idle.
Definition on_frame_sent (sequence : Z) := fsm_goto (WaitingForAck sequence 0).
Definition on_retry (sequence retry_count : Z) := fsm_goto (WaitingForAck sequence retry_count).
Definition on_ack_received (sequence : Z) := fsm_goto (WaitingForConfirmation sequence).
Definition on_ack_received_simple := fsm_goto Idle.
Definition on_confirmation_received := fsm_goto Idle.
Definition on_disconnected := fsm_goto Disconnected.
Definition on_connection_lost (attempt : Z) := fsm_goto (Reconnecting attempt).
Definition on_error (reason : TunnelErrorReason) := fsm_goto (TunnelErrorState reason).
Definition force_idle := fsm_goto Idle.

(* ------------------------------------------------------------------ *)
(** * Connections *)

Definition SocketAddr : Type := (Z * Z * Z * Z) * Z.

(** The activity clock and the channel for incoming acknowledgements are left out. *)
Record TunnelConnection : Type := {
  tc_channel_id : Z;
  client_addr : SocketAddr;
  tc_data_endpoint : SocketAddr;
  individual_address : IndividualAddress;
  sequence_tracker : SequenceTracker;
  fsm : TunnelFsm;
}.

Definition with_tracker (c : TunnelConnection) (t : SequenceTracker) : TunnelConnection :=
  {| tc_channel_id := tc_channel_id c; client_addr := client_addr c;
     tc_data_endpoint := tc_data_endpoint c; individual_address := individual_address c;
     sequence_tracker := t; fsm := fsm c |}.

Record ConnectionManager : Type := {
  connections : gmap Z TunnelConnection;
  next_channel_id : Z;
  max_connections : Z;
  individual_address_base : IndividualAddress;
  desync_threshold : Z;
}.

Definition with_connections (m : ConnectionManager) (cs : gmap Z TunnelConnection) : ConnectionManager :=
  {| connections := cs; next_channel_id := next_channel_id m; max_connections := max_connections m;
     individual_address_base := individual_address_base m; desync_threshold := desync_threshold m |}.
Definition with_next_channel (m : ConnectionManager) (n : Z) : ConnectionManager :=
  {| connections := connections m; next_channel_id := n; max_connections := max_connections m;
     individual_address_base := individual_address_base m; desync_threshold := desync_threshold m |}.

(** [for _ in 0..255]: the candidates are consecutive values of the wrapping counter. *)
Fixpoint allocate_loop (n : nat) (m : ConnectionManager) : option Z * ConnectionManager :=
  match n with
  | O => (None, m)
  | S n' =>
      let channel_id := next_channel_id m in
      let m' := with_next_channel m (u8_wrapping_add channel_id 1) in
      if negb (channel_id =? 0) && negb (is_some (connections m !! channel_id))
      then (Some channel_id, m')
      else allocate_loop n' m'
  end.

Definition allocate_channel (m : ConnectionManager) : option Z * ConnectionManager :=
  if max_connections m <=? Z.of_nat (size (connections m)) then (None, m)
  else allocate_loop 255 m.

Definition create_connection `{BuildProfile} {E} (channel_id : Z) (client ep : SocketAddr)
  : stM ConnectionManager E TunnelConnection := fun m =>
  match (let? dev := checked_op 256 (100 + channel_id) in
         IndividualAddress_new (area (individual_address_base m)) (line (individual_address_base m)) dev) with
  | Ok ia =>
      let c := {| tc_channel_id := channel_id; client_addr := client; tc_data_endpoint := ep;
                  individual_address := ia;
                  sequence_tracker := with_desync_threshold (desync_threshold m);
                  fsm := on_connected TunnelFsm_connecting |} in
      (Ok c, with_connections m (<[channel_id := c]> (connections m)))
  | Err e => (Err e, m)
  | Panic => (Panic, m)
  end.

Definition ConnectionManager_remove (channel_id : Z) (m : ConnectionManager) : ConnectionManager :=
  with_connections m (delete channel_id (connections m)).

(* ------------------------------------------------------------------ *)
(** * Lemmas *)

(** A sequence number up to 128 behind the expected one is a duplicate. *)
Lemma validate_behind t m k :
  rno t = Z.of_nat m mod 256 → (k < m ≤ k + 128)%nat →
  validate_received (Z.of_nat k mod 256) t = (Duplicate (Z.of_nat k mod 256) (rno t), count_duplicate t).
Proof.
  intros Hr Hk. unfold validate_received, FORWARD_BOUNDARY. rewrite Hr.
  rewrite (proj2 (Z.eqb_neq _ _)) by (Z.div_mod_to_equations; lia).
  destruct (u8_wrapping_add _ 1 =? _); [done|].
  rewrite (proj2 (Z.ltb_ge _ _)) by int_lia. done.
Qed.

Lemma validate_expected t m :
  rno t = Z.of_nat m mod 256 →
  validate_received (Z.of_nat m mod 256) t
  = (Valid (Z.of_nat m mod 256), count_valid (set_rno t (Z.of_nat (S m) mod 256))).
Proof.
  intros Hr. unfold validate_received. rewrite Hr, Z.eqb_refl. do 3 f_equal. int_lia.
Qed.

(** A sequence number a little ahead of the expected one is out of order. *)
Lemma validate_ahead t m d :
  rno t = Z.of_nat m mod 256 → (0 < d < 128)%nat → Z.of_nat d < fatal_desync_threshold t →
  validate_received (Z.of_nat (m + d) mod 256) t
  = (OutOfOrder (Z.of_nat (m + d) mod 256) (rno t) (Z.of_nat d), count_out_of_order t).
Proof.
  intros Hr Hd Ht. unfold validate_received, FORWARD_BOUNDARY. rewrite Hr.
  assert (u8_wrapping_sub (Z.of_nat (m + d) mod 256) (Z.of_nat m mod 256) = Z.of_nat d) as -> by int_lia.
  rewrite !(proj2 (Z.eqb_neq _ _)) by int_lia.
  rewrite (proj2 (Z.ltb_lt _ _)), (proj2 (Z.leb_gt _ _)) by lia. done.
Qed.

(** The channels the allocation loop looks at, from the counter's value on. *)
Definition candidate (start : Z) (i : nat) : Z := (start + Z.of_nat i) mod 256.

Lemma candidate_S start i : candidate (u8_wrapping_add start 1) i = candidate start (S i).
Proof. unfold candidate. int_lia. Qed.

Lemma allocate_loop_some n m id m' :
  is_u8 (next_channel_id m) → allocate_loop n m = (Some id, m') →
  1 <= id <= 255 ∧ connections m !! id = None ∧ m' = with_next_channel m (u8_wrapping_add id 1).
Proof.
  revert m. induction n as [|n IH]; intros m Hu; cbn [allocate_loop]; [done|].
  destruct (negb _ && negb _) eqn:E.
  - intros [= <- <-]. apply andb_true_iff in E as [E1 E2].
    apply negb_true_iff, Z.eqb_neq in E1. destruct (connections m !! next_channel_id m); [done|].
    unfold is_u8 in Hu. split; [lia|done].
  - intros Hl. apply IH in Hl; [done|]. cbn. int_lia.
Qed.

Lemma allocate_loop_none n m m' i :
  is_u8 (next_channel_id m) → allocate_loop n m = (None, m') → (i < n)%nat →
  candidate (next_channel_id m) i ∈ {[0]} ∪ dom (connections m).
Proof.
  revert m i. induction n as [|n IH]; intros m i Hu; cbn [allocate_loop]; [lia|].
  destruct (negb _ && negb _) eqn:E; [done|]. intros Hl Hi. destruct i as [|i].
  - unfold candidate. rewrite Z.add_0_r, Z.mod_small by int_lia.
    apply andb_false_iff in E as [E|E]; apply negb_false_iff in E.
    + apply elem_of_union_l, elem_of_singleton. lia.
    + apply elem_of_union_r, elem_of_dom. by destruct (connections m !! _).
  - rewrite <- candidate_S.
    apply (IH (with_next_channel m (u8_wrapping_add (next_channel_id m) 1))); [|done|lia]. cbn. int_lia.
Qed.

Lemma candidates_size start : size (list_to_set (candidate start <$> seq 0 255) : gset Z) = 255%nat.
Proof.
  rewrite size_list_to_set; [by rewrite length_fmap, length_seq|].
  apply NoDup_fmap_2_strong; [|apply NoDup_seq].
  intros i j [_ Hi]%elem_of_seq [_ Hj]%elem_of_seq. unfold candidate. Z.div_mod_to_equations. lia.
Qed.

(** With at most 253 connections one of 255 candidates is free. *)
Lemma allocate_loop_total m :
  is_u8 (next_channel_id m) → (size (connections m) < 254)%nat →
  ∃ id m', allocate_loop 255 m = (Some id, m').
Proof.
  intros Hu Hs. destruct (allocate_loop 255 m) as [[id|] m'] eqn:E; [by eauto|]. exfalso.
  assert (list_to_set (candidate (next_channel_id m) <$> seq 0 255) ⊆@{gset Z} {[0]} ∪ dom (connections m)) as Hsub.
  { intros c [i [-> [_ Hi]%elem_of_seq]]%elem_of_list_to_set%list_elem_of_fmap.
    by eapply allocate_loop_none. }
  clear E.
  apply subseteq_size in Hsub. rewrite candidates_size in Hsub.
  pose proof (size_union_alt {[0]} (dom (connections m) : gset Z)) as Hun.
  pose proof (subseteq_size (dom (connections m) ∖ {[0]}) (dom (connections m)) (subseteq_difference_l _ _ _ (reflexivity _))) as Hd.
  rewrite size_singleton in Hun. rewrite size_dom in Hd. lia.
Qed.

(** The individual address given to a channel. *)
Lemma create_connection_address `{BuildProfile} {E} m ch client ep :
  is_u8 ch → 0 <= area (individual_address_base m) <= 15 → 0 <= line (individual_address_base m) <= 15 →
  create_connection (E:=E) ch client ep m
  = if overflow_checks && (156 <=? ch) then (Panic, m)
    else
      let c := {| tc_channel_id := ch; client_addr := client; tc_data_endpoint := ep;
                  individual_address := {| area := area (individual_address_base m);
                                           line := line (individual_address_base m);
                                           device := (100 + ch) mod 256 |};
                  sequence_tracker := with_desync_threshold (desync_threshold m);
                  fsm := on_connected TunnelFsm_connecting |} in
      (Ok c, with_connections m (<[ch := c]> (connections m))).
Proof.
  intros Hch Ha Hl. unfold create_connection, checked_op.
  rewrite (proj2 (Z.leb_le 0 _)) by int_lia. cbn [andb].
  assert (IndividualAddress_new (E:=E) (area (individual_address_base m)) (line (individual_address_base m))
    ((100 + ch) mod 256) = Ok {| area := area (individual_address_base m);
      line := line (individual_address_base m); device := (100 + ch) mod 256 |}) as Hnew.
  { unfold IndividualAddress_new. by rewrite !(proj2 (Z.leb_le _ _)) by lia. }
  destruct (100 + ch <? 256) eqn:Hlt.
  - rewrite (proj2 (Z.leb_gt 156 ch)) by lia. rewrite andb_false_r. cbn [obind].
    rewrite Z.mod_small in * by int_lia. by rewrite Hnew.
  - rewrite (proj2 (Z.leb_le 156 ch)) by lia. rewrite andb_true_r.
    destruct overflow_checks; cbn [obind]; [done|]. by rewrite Hnew.
Qed.

(* ------------------------------------------------------------------ *)
(** * Properties *)

(** Channel allocation on a server configured for at most 254 connections.  A free slot
    always yields a channel: its number is between 1 and 255, no connection uses it, and the
    connection table stays as it is.  Allocation fails exactly when the configured number of
    connections is reached, and then changes nothing. *)
Theorem allocate_channel_fresh (m : ConnectionManager) :
  is_u8 (next_channel_id m) → max_connections m <= 254 →
  (Z.of_nat (size (connections m)) < max_connections m ∧
   ∃ id m', allocate_channel m = (Some id, m') ∧ 1 <= id <= 255 ∧ connections m !! id = None ∧
     connections m' = connections m ∧ next_channel_id m' = u8_wrapping_add id 1) ∨
  (max_connections m <= Z.of_nat (size (connections m)) ∧ allocate_channel m = (None, m)).
Proof.
  intros Hu Hmax. unfold allocate_channel. destruct (_ <=? _) eqn:E; [right; split; [lia|done]|left].
  split; [lia|]. destruct (allocate_loop_total m Hu) as (id & m' & Hl); [lia|].
  destruct (allocate_loop_some _ _ _ _ Hu Hl) as (Hid & Hfree & ->). by exists id, (with_next_channel m (u8_wrapping_add id 1)).
Qed.

Definition sample_connection : TunnelConnection :=
  {| tc_channel_id := 255; client_addr := (127, 0, 0, 1, 3671); tc_data_endpoint := (127, 0, 0, 1, 3671);
     individual_address := {| area := 1; line := 1; device := 99 |};
     sequence_tracker := SequenceTracker_new; fsm := TunnelFsm_connecting |}.

Definition sample_manager : ConnectionManager :=
  {| connections := {[255 := sample_connection]}; next_channel_id := 255; max_connections := 5;
     individual_address_base := {| area := 1; line := 1; device := 1 |}; desync_threshold := 5 |}.

(** The counter passes the used channel 255 and the reserved channel 0. *)
Lemma allocate_channel_fresh_witness :
  allocate_channel sample_manager = (Some 1, with_next_channel sample_manager 2) ∧
  connections sample_manager !! 1 = None.
Proof.
  destruct (allocate_channel_fresh sample_manager) as [[_ (id & m' & Ha & _ & Hf & _)]|[Hfull _]];
    [split; cbn; lia|cbn; lia| |vm_compute in Hfull; by destruct Hfull].
  vm_compute in Ha. injection Ha as <- <-. split; [vm_compute; reflexivity|exact Hf].
Defined.
