(* ===== verification/KnxFlow.v ===== *)
(** Flow control of the KNX server ([filter/]): the priority queue with back-pressure
    ([queue.rs]), bus pacing ([pace.rs]), the circuit breaker ([retry.rs]) and the chain that
    runs a frame through the three ([chain.rs]).

    Instants and durations are nanoseconds.  Every operation that reads the clock takes the
    reading as an argument [now].  Statistics and message strings are left out. *)

From stdpp Require Import sorting.
From S2P Require Import Prelude KnxFrame KnxCemi KnxMessages KnxTunnel.

Definition millis (n : Z) : Z := n * 1000000.
Definition micros (n : Z) : Z := n * 1000.

(** [instant.saturating_duration_since(now)]. *)
Definition saturating_since (instant now : Z) : Z := Z.max 0 (instant - now).

(* ------------------------------------------------------------------ *)
(** * Envelopes and filter results *)

Inductive QueuePriority : Set := QLow | QNormal | QHigh.

#[global] Instance QueuePriority_eq_dec : EqDecision QueuePriority.
Proof. solve_decision. Defined.

Definition classify (m : MessageCode) : QueuePriority :=
  match m with
  | LDataCon | LDataReq | MResetInd | MResetReq => QHigh
  | LDataInd | MPropReadReq | MPropWriteReq | MPropReadCon | MPropWriteCon => QNormal
  | LBusmonInd | LRawReq | LRawCon | LRawInd => QLow
  end.

Record FrameEnvelope : Type := {
  env_cemi : CemiFrame;
  env_channel_id : Z;
  target_addr : SocketAddr;
  env_priority : QueuePriority;
  enqueued_at : Z;
  accumulated_delay : Z;
  retry_count : Z;
  requires_ack : bool;
  frame_size_bytes : Z;
}.

Definition FrameEnvelope_new (now : Z) (c : CemiFrame) (ch : Z) (addr : SocketAddr) : FrameEnvelope :=
  {| env_cemi := c; env_channel_id := ch; target_addr := addr; env_priority := QNormal;
     enqueued_at := now; accumulated_delay := 0; retry_count := 0; requires_ack := true;
     frame_size_bytes := zlen (CemiFrame_encode c) |}.

Definition with_env_priority (e : FrameEnvelope) (p : QueuePriority) : FrameEnvelope :=
  {| env_cemi := env_cemi e; env_channel_id := env_channel_id e; target_addr := target_addr e;
     env_priority := p; enqueued_at := enqueued_at e; accumulated_delay := accumulated_delay e;
     retry_count := retry_count e; requires_ack := requires_ack e;
     frame_size_bytes := frame_size_bytes e |}.

(** [envelope.accumulated_delay += delay]. *)
Definition add_delay (e : FrameEnvelope) (d : Z) : FrameEnvelope :=
  {| env_cemi := env_cemi e; env_channel_id := env_channel_id e; target_addr := target_addr e;
     env_priority := env_priority e; enqueued_at := enqueued_at e;
     accumulated_delay := accumulated_delay e + d;
     retry_count := retry_count e; requires_ack := requires_ack e;
     frame_size_bytes := frame_size_bytes e |}.

(** Why a frame was dropped; the source has a message string here. *)
Inductive DropReason : Set :=
| QueueFullNothingToEvict | QueueFull | TotalFrameLimit | PaceDelayTooLong | CircuitOpen.

Inductive FilterResult : Set :=
| FPass (delay : Z)
| FQueued
| FDropped (reason : DropReason)
| FError.

Definition should_continue (r : FilterResult) : bool :=
  match r with FPass _ => true | _ => false end.

(* ------------------------------------------------------------------ *)
(** * The priority queue *)

Record ChannelQueueState : Type := {
  waiting_for_ack : bool;
  queue_low : list FrameEnvelope;
  queue_normal : list FrameEnvelope;
  queue_high : list FrameEnvelope;
}.

Definition ChannelQueueState_new : ChannelQueueState :=
  {| waiting_for_ack := false; queue_low := []; queue_normal := []; queue_high := [] |}.

Definition queue_of (p : QueuePriority) (s : ChannelQueueState) : list FrameEnvelope :=
  match p with QLow => queue_low s | QNormal => queue_normal s | QHigh => queue_high s end.

Definition set_queue (p : QueuePriority) (q : list FrameEnvelope) (s : ChannelQueueState) : ChannelQueueState :=
  match p with
  | QLow => {| waiting_for_ack := waiting_for_ack s; queue_low := q;
               queue_normal := queue_normal s; queue_high := queue_high s |}
  | QNormal => {| waiting_for_ack := waiting_for_ack s; queue_low := queue_low s;
                  queue_normal := q; queue_high := queue_high s |}
  | QHigh => {| waiting_for_ack := waiting_for_ack s; queue_low := queue_low s;
                queue_normal := queue_normal s; queue_high := q |}
  end.

Definition set_waiting (b : bool) (s : ChannelQueueState) : ChannelQueueState :=
  {| waiting_for_ack := b; queue_low := queue_low s; queue_normal := queue_normal s;
     queue_high := queue_high s |}.

Definition total_queued (s : ChannelQueueState) : nat :=
  length (queue_low s) + (length (queue_normal s) + length (queue_high s)).

(** [while result.len() < max_count]: pop from the front while there is room. *)
Fixpoint pop_into (room : nat) (q result : list FrameEnvelope) : list FrameEnvelope * list FrameEnvelope :=
  match room, q with
  | S room', e :: q' => pop_into room' q' (result ++ [e])
  | _, _ => (result, q)
  end.

Fixpoint drain_queues (ps : list QueuePriority) (max_count : nat) (result : list FrameEnvelope)
    (s : ChannelQueueState) : list FrameEnvelope * ChannelQueueState :=
  match ps with
  | [] => (result, s)
  | p :: ps' =>
      let '(result', q') := pop_into (max_count - length result) (queue_of p s) result in
      let s' := set_queue p q' s in
      if Nat.leb max_count (length result') then (result', s')
      else drain_queues ps' max_count result' s'
  end.

Definition ChannelQueueState_drain (max_count : nat) (s : ChannelQueueState)
  : list FrameEnvelope * ChannelQueueState :=
  drain_queues [QHigh; QNormal; QLow] max_count [] s.

Definition evict_lowest (s : ChannelQueueState) : option QueuePriority * ChannelQueueState :=
  match queue_low s with
  | _ :: q => (Some QLow, set_queue QLow q s)
  | [] =>
      match queue_normal s with
      | _ :: q => (Some QNormal, set_queue QNormal q s)
      | [] => (None, s)
      end
  end.

Record QueueFilterConfig : Set := {
  queue_enabled : bool;
  max_queue_depth : nat;
  backpressure_enabled : bool;
  priority_eviction_enabled : bool;
  max_total_frames : nat;
}.

Record QueueFilter : Type := {
  queue_config : QueueFilterConfig;
  channels : gmap Z ChannelQueueState;
}.

Definition QueueFilter_new (c : QueueFilterConfig) : QueueFilter :=
  {| queue_config := c; channels := ∅ |}.

Definition set_channel (ch : Z) (s : ChannelQueueState) (q : QueueFilter) : QueueFilter :=
  {| queue_config := queue_config q; channels := <[ch := s]> (channels q) |}.

(** [channels.entry(ch).or_insert_with(ChannelQueueState::new)]. *)
Definition channel_or_new (ch : Z) (q : QueueFilter) : ChannelQueueState :=
  default ChannelQueueState_new (channels q !! ch).

Definition total_pending (q : QueueFilter) : nat :=
  map_fold (fun _ s n => (total_queued s + n)%nat) 0%nat (channels q).

Definition enqueue_frame (cfg : QueueFilterConfig) (s : ChannelQueueState) (e : FrameEnvelope)
    (total : nat) : FilterResult * ChannelQueueState :=
  let p := env_priority e in
  let '(room, s) :=
    (if Nat.leb (max_queue_depth cfg) (length (queue_of p s)) then
       if priority_eviction_enabled cfg then
         match evict_lowest s with
         | (Some _, s') => (None, s')
         | (None, s') => (Some QueueFullNothingToEvict, s')
         end
       else (Some QueueFull, s)
     else (None, s)) in
  match room with
  | Some r => (FDropped r, s)
  | None =>
      if Nat.ltb 0 (max_total_frames cfg) && Nat.leb (max_total_frames cfg) total
      then (FDropped TotalFrameLimit, s)
      else (FQueued, set_queue p (queue_of p s ++ [e]) s)
  end.

Definition QueueFilter_process_send (e : FrameEnvelope) (q : QueueFilter)
  : FilterResult * FrameEnvelope * QueueFilter :=
  if negb (queue_enabled (queue_config q)) then (FPass 0, e, q)
  else
    let e := with_env_priority e (classify (message_code (env_cemi e))) in
    if backpressure_enabled (queue_config q) then
      let total := total_pending q in
      let s := channel_or_new (env_channel_id e) q in
      if waiting_for_ack s then
        let '(r, s') := enqueue_frame (queue_config q) s e total in
        (r, e, set_channel (env_channel_id e) s' q)
      else (FPass 0, e, set_channel (env_channel_id e) s q)
    else (FPass 0, e, q).

Definition set_waiting_for_ack (ch : Z) (waiting : bool) (q : QueueFilter) : QueueFilter :=
  if negb (queue_enabled (queue_config q)) || negb (backpressure_enabled (queue_config q)) then q
  else set_channel ch (set_waiting waiting (channel_or_new ch q)) q.

Definition QueueFilter_on_ack_received (ch : Z) (q : QueueFilter) : QueueFilter :=
  if negb (queue_enabled (queue_config q)) then q
  else match channels q !! ch with
       | Some s => set_channel ch (set_waiting false s) q
       | None => q
       end.

Definition QueueFilter_has_pending (ch : Z) (q : QueueFilter) : bool :=
  match channels q !! ch with Some s => Nat.ltb 0 (total_queued s) | None => false end.

Definition QueueFilter_drain (ch : Z) (max_count : nat) (q : QueueFilter) : list FrameEnvelope * QueueFilter :=
  if negb (queue_enabled (queue_config q)) then ([], q)
  else match channels q !! ch with
       | Some s => let '(r, s') := ChannelQueueState_drain max_count s in (r, set_channel ch s' q)
       | None => ([], q)
       end.

Definition clear_channel (ch : Z) (q : QueueFilter) : QueueFilter :=
  {| queue_config := queue_config q; channels := delete ch (channels q) |}.

(* ------------------------------------------------------------------ *)
(** * Bus pacing *)

Definition KNX_TP1_BYTE_TIME_US : Z := 1000000 * 11 / 9600.

Inductive PaceState : Set :=
| PDown
| PBusy (busy_until : Z)
| PIdle (idle_until : Z).

Definition remaining_delay (now : Z) (s : PaceState) : Z :=
  match s with
  | PDown => 0
  | PBusy t | PIdle t => if t <=? now then 0 else t - now
  end.

Record PaceFilterConfig : Set := {
  pace_enabled : bool;
  margin_ms : Z;
  byte_time_override_us : Z;
  max_delay_ms : Z;
  auto_transition : bool;
}.

Definition byte_time_us (c : PaceFilterConfig) : Z :=
  if 0 <? byte_time_override_us c then byte_time_override_us c else KNX_TP1_BYTE_TIME_US.
Definition margin (c : PaceFilterConfig) : Z := millis (margin_ms c).
Definition max_delay (c : PaceFilterConfig) : Z := millis (max_delay_ms c).
Definition frame_time `{BuildProfile} {E} (c : PaceFilterConfig) (size : Z) : outcome E Z :=
  let? us := checked_op 18446744073709551616 (byte_time_us c * size) in Ok (micros us).

Record PaceFilter : Set := { pace_config : PaceFilterConfig; pace_state : PaceState }.

Definition PaceFilter_new (c : PaceFilterConfig) : PaceFilter :=
  {| pace_config := c; pace_state := PDown |}.
Definition set_pace (s : PaceState) (f : PaceFilter) : PaceFilter :=
  {| pace_config := pace_config f; pace_state := s |}.

(** [PaceFilter::state], which may move the state machine. *)
Definition PaceFilter_state (now : Z) (f : PaceFilter) : PaceState * PaceFilter :=
  if auto_transition (pace_config f) then
    match pace_state f with
    | PBusy busy_until =>
        if busy_until <=? now
        then let s := PIdle (busy_until + margin (pace_config f)) in (s, set_pace s f)
        else (pace_state f, f)
    | PIdle idle_until =>
        if idle_until <=? now then (PDown, set_pace PDown f) else (pace_state f, f)
    | PDown => (PDown, f)
    end
  else (pace_state f, f).

(** The transitions [process_send] makes before it looks at the state. *)
Definition pace_settle (now : Z) (c : PaceFilterConfig) (s : PaceState) : PaceState :=
  match s with
  | PBusy busy_until =>
      if busy_until <=? now then
        let idle_until := busy_until + margin c in
        if idle_until <=? now then PDown else PIdle idle_until
      else s
  | PIdle idle_until => if idle_until <=? now then PDown else s
  | PDown => s
  end.

Definition exceeds_max_delay (c : PaceFilterConfig) (delay : Z) : bool :=
  (0 <? max_delay_ms c) && (max_delay c <? delay).

Definition PaceFilter_process_send `{BuildProfile} {E} (now : Z) (e : FrameEnvelope)
  : stM PaceFilter E FilterResult := fun f =>
  let c := pace_config f in
  if negb (pace_enabled c) then (Ok (FPass 0), f)
  else
    match frame_time c (frame_size_bytes e) with
    | Err x => (Err x, f)
    | Panic => (Panic, f)
    | Ok frame_time =>
        match pace_settle now c (pace_state f) with
        | PDown => (Ok (FPass 0), set_pace (PBusy (now + frame_time)) f)
        | PBusy busy_until =>
            let delay := saturating_since busy_until now + margin c in
            if exceeds_max_delay c delay
            then (Ok (FDropped PaceDelayTooLong), set_pace (PBusy busy_until) f)
            else (Ok (FPass delay), set_pace (PBusy (busy_until + margin c + frame_time)) f)
        | PIdle idle_until =>
            let delay := saturating_since idle_until now in
            if exceeds_max_delay c delay
            then (Ok (FDropped PaceDelayTooLong), set_pace (PIdle idle_until) f)
            else (Ok (FPass delay), set_pace (PBusy (idle_until + frame_time)) f)
        end
    end.

Definition on_frame_completed (now : Z) (f : PaceFilter) : PaceFilter :=
  if negb (pace_enabled (pace_config f)) then f
  else match pace_state f with
       | PBusy busy_until =>
           if busy_until <=? now then set_pace (PIdle (now + margin (pace_config f))) f else f
       | _ => f
       end.

(* ------------------------------------------------------------------ *)
(** * The circuit breaker *)

Inductive CircuitBreakerState : Set :=
| CbClosed
| CbOpen (opened_at : Z)
| CbHalfOpen.

Definition allows_traffic (s : CircuitBreakerState) : bool :=
  match s with CbOpen _ => false | _ => true end.

Record RetryFilterConfig : Set := {
  retry_enabled : bool;
  max_retries : Z;
  retry_delay_ms : Z;
  exponential_backoff : bool;
  max_retry_delay_ms : Z;
  failure_threshold : Z;
  recovery_timeout_ms : Z;
  success_threshold : Z;
}.

(** [base.saturating_mul(1u64 << attempt.min(10))], capped. *)
Definition retry_delay (c : RetryFilterConfig) (attempt : Z) : Z :=
  let delay :=
    if exponential_backoff c
    then Z.min 18446744073709551615 (retry_delay_ms c * Z.shiftl 1 (Z.min attempt 10))
    else retry_delay_ms c in
  millis (Z.min delay (max_retry_delay_ms c)).

Record RetryFilter : Set := {
  retry_config : RetryFilterConfig;
  circuit : CircuitBreakerState;
  failure_count : Z;
  success_count : Z;
}.

Definition RetryFilter_new (c : RetryFilterConfig) : RetryFilter :=
  {| retry_config := c; circuit := CbClosed; failure_count := 0; success_count := 0 |}.

Definition set_circuit (s : CircuitBreakerState) (fc sc : Z) (f : RetryFilter) : RetryFilter :=
  {| retry_config := retry_config f; circuit := s; failure_count := fc; success_count := sc |}.

(** [circuit_state]: an open circuit becomes half-open after the recovery timeout. *)
Definition circuit_state (now : Z) (f : RetryFilter) : CircuitBreakerState * RetryFilter :=
  match circuit f with
  | CbOpen opened_at =>
      if millis (recovery_timeout_ms (retry_config f)) <=? saturating_since now opened_at
      then (CbHalfOpen, set_circuit CbHalfOpen (failure_count f) 0 f)
      else (circuit f, f)
  | s => (s, f)
  end.

Definition RetryFilter_process_send (now : Z) (e : FrameEnvelope) (f : RetryFilter) : FilterResult * RetryFilter :=
  if negb (retry_enabled (retry_config f)) then (FPass 0, f)
  else
    let '(s, f) := circuit_state now f in
    match s with
    | CbClosed =>
        (FPass (if 0 <? retry_count e then retry_delay (retry_config f) (retry_count e - 1) else 0), f)
    | CbOpen _ => (FDropped CircuitOpen, f)
    | CbHalfOpen => (FPass 0, f)
    end.

(** [x += 1] at type [u32]. *)
Definition u32_incr `{BuildProfile} {E} (x : Z) : outcome E Z := checked_op 4294967296 (x + 1).

Definition RetryFilter_on_success `{BuildProfile} {E} : stM RetryFilter E unit := fun f =>
  if negb (retry_enabled (retry_config f)) then (Ok tt, f)
  else
    match circuit f with
    | CbClosed => (Ok tt, set_circuit CbClosed 0 (success_count f) f)
    | CbHalfOpen =>
        match u32_incr (success_count f) with
        | Ok sc =>
            if success_threshold (retry_config f) <=? sc
            then (Ok tt, set_circuit CbClosed 0 0 f)
            else (Ok tt, set_circuit CbHalfOpen (failure_count f) sc f)
        | Err e => (Err e, f)
        | Panic => (Panic, f)
        end
    | CbOpen _ => (Ok tt, f)
    end.

Definition RetryFilter_on_failure `{BuildProfile} {E} (now : Z) : stM RetryFilter E unit := fun f =>
  if negb (retry_enabled (retry_config f)) then (Ok tt, f)
  else
    match circuit f with
    | CbClosed =>
        match u32_incr (failure_count f) with
        | Ok fc =>
            (Ok tt, set_circuit (if failure_threshold (retry_config f) <=? fc then CbOpen now else CbClosed)
                      fc (success_count f) f)
        | Err e => (Err e, f)
        | Panic => (Panic, f)
        end
    | CbHalfOpen => (Ok tt, set_circuit (CbOpen now) (failure_count f) 0 f)
    | CbOpen t =>
        match u32_incr (failure_count f) with
        | Ok fc => (Ok tt, set_circuit (CbOpen t) fc (success_count f) f)
        | Err e => (Err e, f)
        | Panic => (Panic, f)
        end
    end.

Definition can_retry (now : Z) (e : FrameEnvelope) (f : RetryFilter) : bool * RetryFilter :=
  if negb (retry_enabled (retry_config f)) then (false, f)
  else if retry_count e <? max_retries (retry_config f)
  then let '(s, f') := circuit_state now f in (allows_traffic s, f')
  else (false, f).

(* ------------------------------------------------------------------ *)
(** * The chain *)

Record FilterChain : Type := {
  chain_enabled : bool;
  queue_filter : QueueFilter;
  pace_filter : PaceFilter;
  retry_filter : RetryFilter;
}.

Definition with_queue (q : QueueFilter) (c : FilterChain) : FilterChain :=
  {| chain_enabled := chain_enabled c; queue_filter := q; pace_filter := pace_filter c;
     retry_filter := retry_filter c |}.
Definition with_pace (p : PaceFilter) (c : FilterChain) : FilterChain :=
  {| chain_enabled := chain_enabled c; queue_filter := queue_filter c; pace_filter := p;
     retry_filter := retry_filter c |}.
Definition with_retry (r : RetryFilter) (c : FilterChain) : FilterChain :=
  {| chain_enabled := chain_enabled c; queue_filter := queue_filter c;
     pace_filter := pace_filter c; retry_filter := r |}.

(** Runs an operation of one filter inside the chain. *)
Definition on_queue {A} (op : QueueFilter → A * QueueFilter) {E} : stM FilterChain E A := fun c =>
  let '(a, q) := op (queue_filter c) in (Ok a, with_queue q c).
Definition on_pace {E A} (op : stM PaceFilter E A) : stM FilterChain E A := fun c =>
  let '(a, p) := op (pace_filter c) in (a, with_pace p c).
Definition on_retry_filter {E A} (op : stM RetryFilter E A) : stM FilterChain E A := fun c =>
  let '(a, r) := op (retry_filter c) in (a, with_retry r c).

(** [FilterChain::send]: the result and the envelope, which the filters update.  [now] is the
    clock reading of the pace filter, [now'] that of the circuit breaker. *)
Definition FilterChain_send `{BuildProfile} {E} (now now' : Z) (e : FrameEnvelope)
  : stM FilterChain E (FilterResult * FrameEnvelope) := fun c =>
  if negb (chain_enabled c) then (Ok (FPass 0, e), c)
  else
    (do? (queue_result, e) := on_queue (QueueFilter_process_send e) in
     if negb (should_continue queue_result) then st_ret (queue_result, e)
     else
       do? pace_result := on_pace (PaceFilter_process_send now e) in
       match pace_result with
       | FPass d =>
           let e := add_delay e d in
           do? retry_result := on_retry_filter (fun f => let '(r, f') := RetryFilter_process_send now' e f in (Ok r, f')) in
           match retry_result with
           | FPass d' => let e := add_delay e d' in st_ret (FPass (accumulated_delay e), e)
           | _ => st_ret (retry_result, e)
           end
       | _ => st_ret (pace_result, e)
       end) c.

Definition FilterChain_on_send_success `{BuildProfile} {E} (now ch : Z) : stM FilterChain E unit := fun c =>
  if negb (chain_enabled c) then (Ok tt, c)
  else
    (do? _ := on_retry_filter RetryFilter_on_success in
     do? _ := on_pace (fun p => (Ok tt, on_frame_completed now p)) in
     on_queue (fun q => (tt, QueueFilter_on_ack_received ch q))) c.

Definition FilterChain_on_send_failure `{BuildProfile} {E} (now : Z) : stM FilterChain E unit := fun c =>
  if negb (chain_enabled c) then (Ok tt, c)
  else on_retry_filter (RetryFilter_on_failure now) c.

Definition drain_pending (ch : Z) (max_count : nat) (c : FilterChain) : list FrameEnvelope * FilterChain :=
  if negb (chain_enabled c) then ([], c)
  else let '(r, q) := QueueFilter_drain ch max_count (queue_filter c) in (r, with_queue q c).

(* ------------------------------------------------------------------ *)
(** * Pacing: lemmas *)

(** What happens to a pace filter: frames, completions and state queries, each with its clock
    reading. *)
Inductive PaceEvent : Type :=
| PeSend (now : Z) (e : FrameEnvelope)
| PeCompleted (now : Z)
| PeQuery (now : Z).
Definition pe_now (ev : PaceEvent) : Z :=
  match ev with PeSend now _ | PeCompleted now | PeQuery now => now end.

Record Transmission : Set := { requested : Z; started : Z; ended : Z }.

(** The transmissions on the bus: a frame passed with a delay starts after the delay and takes
    its frame time. *)
Fixpoint pace_run `{BuildProfile} (evs : list PaceEvent) (f : PaceFilter) : list Transmission :=
  match evs with
  | [] => []
  | PeSend now e :: evs' =>
      match PaceFilter_process_send (E:=Empty_set) now e f,
            frame_time (E:=Empty_set) (pace_config f) (frame_size_bytes e) with
      | (Ok (FPass d), f'), Ok t =>
          {| requested := now; started := now + d; ended := now + d + t |} :: pace_run evs' f'
      | (_, f'), _ => pace_run evs' f'
      end
  | PeCompleted now :: evs' => pace_run evs' (on_frame_completed now f)
  | PeQuery now :: evs' => pace_run evs' (snd (PaceFilter_state now f))
  end.

(** The bus is free for the next frame at [free] at the earliest. *)
Definition pace_free_from (now : Z) (f : PaceFilter) (free : Z) : Prop :=
  match pace_state f with
  | PDown => free <= now
  | PBusy t => free <= t + margin (pace_config f)
  | PIdle t => free <= t
  end.

Lemma pace_free_from_later now now' f free :
  now <= now' → pace_free_from now f free → pace_free_from now' f free.
Proof. unfold pace_free_from. destruct (pace_state f); lia. Qed.

Lemma pace_settle_free now f free :
  pace_free_from now f free →
  pace_free_from now (set_pace (pace_settle now (pace_config f) (pace_state f)) f) free.
Proof.
  unfold pace_free_from, pace_settle. destruct (pace_state f) as [|t|t]; cbn; [done| |].
  - destruct (t <=? now) eqn:E1; cbn; [|done]. destruct (_ + _ <=? _) eqn:E2; cbn; lia.
  - destruct (t <=? now) eqn:E1; cbn; lia.
Qed.

Lemma on_frame_completed_free now f free :
  0 <= margin (pace_config f) → pace_free_from now f free → pace_free_from now (on_frame_completed now f) free.
Proof.
  intros Hm Hf. unfold on_frame_completed. destruct (negb _); [done|].
  destruct (pace_state f) as [|t|t] eqn:E; [done| |done].
  destruct (t <=? now) eqn:E1; [|done]. revert Hf. unfold pace_free_from. rewrite E. cbn. lia.
Qed.

Lemma PaceFilter_state_free now f free :
  pace_free_from now f free → pace_free_from now (snd (PaceFilter_state now f)) free.
Proof.
  intros Hf. unfold PaceFilter_state. destruct (auto_transition _); [|done].
  revert Hf. unfold pace_free_from. destruct (pace_state f) as [|t|t] eqn:E; cbn; [by rewrite E| |];
    destruct (t <=? now) eqn:E1; cbn; rewrite ?E; cbn; lia.
Qed.

Lemma pace_settle_pending now c s b :
  pace_settle now c s = PBusy b ∨ pace_settle now c s = PIdle b → now < b.
Proof.
  unfold pace_settle. destruct s as [|t|t]; [naive_solver| |]; destruct (t <=? now) eqn:E1;
    try (destruct (_ + _ <=? _) eqn:E2); intros [[=]|[=]]; lia.
Qed.

(** A frame that passes starts no earlier than the bus is free and is not delayed for longer than
    the configured limit; the bus is then free again after the frame and the margin. *)
Lemma pace_send_free `{BuildProfile} {E} now e f free d f' t :
  pace_enabled (pace_config f) = true → 0 <= margin (pace_config f) → pace_free_from now f free →
  PaceFilter_process_send (E:=E) now e f = (Ok (FPass d), f') →
  frame_time (E:=E) (pace_config f) (frame_size_bytes e) = Ok t →
  0 <= d ∧ free <= now + d ∧ pace_config f' = pace_config f ∧
  pace_free_from now f' (now + d + t + margin (pace_config f)) ∧
  (0 < max_delay_ms (pace_config f) → d <= max_delay (pace_config f)).
Proof.
  intros Hen Hm Hf. unfold PaceFilter_process_send. rewrite Hen. cbn [negb]. intros Hs Ht.
  rewrite Ht in Hs. apply pace_settle_free in Hf. revert Hf.
  destruct (pace_settle now (pace_config f) (pace_state f)) as [|b|b] eqn:Eset;
    unfold pace_free_from; cbn; intros Hf.
  - injection Hs as <- <-. cbn. unfold max_delay, millis. repeat split; lia.
  - assert (now < b) by (eapply pace_settle_pending; eauto).
    unfold saturating_since, exceeds_max_delay in Hs. destruct (_ && _) eqn:Ex; [done|].
    injection Hs as <- <-. cbn. repeat split; lia.
  - assert (now < b) by (eapply pace_settle_pending; eauto).
    unfold saturating_since, exceeds_max_delay in Hs. destruct (_ && _) eqn:Ex; [done|].
    injection Hs as <- <-. cbn. repeat split; lia.
Qed.

(** A frame that is dropped leaves the bus as it is. *)
Lemma pace_drop_free `{BuildProfile} {E} now e f free r f' :
  pace_free_from now f free → PaceFilter_process_send (E:=E) now e f = (r, f') →
  (∀ d, r ≠ Ok (FPass d)) → pace_free_from now f' free ∧ pace_config f' = pace_config f.
Proof.
  intros Hf. unfold PaceFilter_process_send. destruct (negb _); [naive_solver|].
  destruct (frame_time _ _); [|naive_solver..]. apply pace_settle_free in Hf.
  destruct (pace_settle now (pace_config f) (pace_state f)) as [|b|b] eqn:Eset; [naive_solver| |];
    destruct (exceeds_max_delay _ _); intros [= <- <-] Hr; first [by destruct (Hr _ eq_refl)|by split].
Qed.

Lemma frame_time_nonneg `{BuildProfile} {E} c size t : frame_time (E:=E) c size = Ok t → 0 <= t.
Proof.
  unfold frame_time, checked_op, micros. destruct (_ && _) eqn:E1.
  - intros [= <-]. lia.
  - destruct overflow_checks; [done|]. intros [= <-].
    pose proof (Z.mod_pos_bound (byte_time_us c * size) 18446744073709551616 ltac:(lia)). lia.
Qed.

Lemma pace_config_completed now f : pace_config (on_frame_completed now f) = pace_config f.
Proof.
  unfold on_frame_completed. destruct (negb _); [done|]. destruct (pace_state f); try done.
  by destruct (_ <=? _).
Qed.
Lemma pace_config_query now f : pace_config (snd (PaceFilter_state now f)) = pace_config f.
Proof.
  unfold PaceFilter_state. destruct (auto_transition _); [|done].
  destruct (pace_state f); try done; by destruct (_ <=? _).
Qed.

(** The transmissions of a run start when the bus is free, leave the margin between each other,
    and wait no longer than the limit. *)
Lemma pace_run_spaced `{BuildProfile} c evs f now free :
  pace_config f = c → pace_enabled c = true → 0 <= margin c →
  pace_free_from now f free → Sorted Z.le (now :: (pe_now <$> evs)) →
  Forall (fun x => free <= started x ∧ started x <= ended x) (pace_run evs f) ∧
  StronglySorted (fun x y => ended x + margin c <= started y) (pace_run evs f) ∧
  (0 < max_delay_ms c → Forall (fun x => started x - requested x <= max_delay c) (pace_run evs f)).
Proof.
  intros Hc Hen Hm. revert f now free Hc. induction evs as [|ev evs IH]; intros f now free Hc Hfree Hs.
  { repeat constructor. }
  apply Sorted_inv in Hs as [Hs Hle]. apply HdRel_inv in Hle.
  apply (pace_free_from_later now (pe_now ev)) in Hfree; [|done].
  destruct ev as [now' e|now'|now']; cbn [pace_run pe_now] in *.
  2:{ apply (IH _ now'); [by rewrite pace_config_completed|by apply on_frame_completed_free; subst|done]. }
  2:{ apply (IH _ now'); [by rewrite pace_config_query|by apply PaceFilter_state_free|done]. }
  destruct (PaceFilter_process_send now' e f) as [r f'] eqn:Er.
  assert ((∃ d, r = Ok (FPass d)) ∨ (∀ d, r ≠ Ok (FPass d))) as [[d ->]|Hno]
    by (destruct r as [[]|?|]; naive_solver).
  - destruct (frame_time (pace_config f) (frame_size_bytes e)) as [t|[]|] eqn:Et.
    2:{ unfold PaceFilter_process_send in Er. rewrite Hc, Hen in Er. cbn [negb] in Er.
        rewrite <- Hc, Et in Er. done. }
    destruct (pace_send_free (E:=Empty_set) now' e f free d f' t) as (Hd & Hstart & Hcfg & Hfree' & Hmax);
      [by rewrite Hc|by rewrite Hc|done..|].
    apply frame_time_nonneg in Et. rewrite Hc in *.
    destruct (IH f' now' _ Hcfg Hfree' Hs) as (H1 & H2 & H3). split_and!.
    + constructor; [cbn; lia|]. eapply Forall_impl; [exact H1|]. cbn. lia.
    + constructor; [done|]. eapply Forall_impl; [exact H1|]. cbn. lia.
    + intros Hpos. constructor; [cbn; specialize (Hmax Hpos); lia|by apply H3].
  - destruct (pace_drop_free (E:=Empty_set) now' e f free r f' Hfree Er Hno) as [Hfree' Hcfg].
    rewrite <- Hcfg in Hc. specialize (IH f' now' free Hc Hfree' Hs).
    destruct r as [[]|?|]; try done. by destruct (Hno delay).
Qed.

(* ------------------------------------------------------------------ *)
(** * The priority queue: lemmas *)

(** The frames of a channel in the order in which they leave. *)
Definition pending (s : ChannelQueueState) : list FrameEnvelope :=
  queue_high s ++ queue_normal s ++ queue_low s.

Lemma pop_into_take room q result :
  pop_into room q result = (result ++ take room q, drop room q).
Proof.
  revert q result. induction room as [|room IH]; intros q result; destruct q; cbn;
    rewrite ?app_nil_r; try done. by rewrite IH, <- app_assoc.
Qed.

Lemma queue_of_set p p' q s :
  queue_of p (set_queue p' q s) = if decide (p = p') then q else queue_of p s.
Proof. by destruct p, p'. Qed.

Lemma set_queue_id p s : set_queue p (queue_of p s) s = s.
Proof. by destruct p, s. Qed.

(** [drain] without its early exits. *)
Fixpoint drain_all (ps : list QueuePriority) (n : nat) (result : list FrameEnvelope)
    (s : ChannelQueueState) : list FrameEnvelope * ChannelQueueState :=
  match ps with
  | [] => (result, s)
  | p :: ps' => drain_all ps' n (result ++ take (n - length result) (queue_of p s))
                  (set_queue p (drop (n - length result) (queue_of p s)) s)
  end.

Lemma drain_all_full ps n result s : (n ≤ length result)%nat → drain_all ps n result s = (result, s).
Proof.
  intros Hn. revert s. induction ps as [|p ps IH]; intros s; [done|]. cbn [drain_all].
  replace (n - length result)%nat with 0%nat by lia.
  by rewrite take_0, drop_0, app_nil_r, set_queue_id, IH.
Qed.

Lemma drain_queues_all ps n result s : drain_queues ps n result s = drain_all ps n result s.
Proof.
  revert result s. induction ps as [|p ps IH]; intros result s; [done|].
  cbn [drain_queues drain_all]. rewrite pop_into_take. destruct (Nat.leb _ _) eqn:E; [|apply IH].
  apply Nat.leb_le in E. by rewrite drain_all_full.
Qed.

(** Draining takes a prefix of the pending frames. *)
Lemma drain_pending_prefix n s :
  fst (ChannelQueueState_drain n s) = take n (pending s) ∧
  pending (snd (ChannelQueueState_drain n s)) = drop n (pending s).
Proof.
  unfold ChannelQueueState_drain. rewrite drain_queues_all. unfold pending. cbn. rewrite Nat.sub_0_r.
  rewrite !take_app, !drop_app, !length_app, !length_take.
  replace (n - n `min` length (queue_high s))%nat with (n - length (queue_high s))%nat by lia.
  rewrite <- !app_assoc. split; do 2 f_equal; f_equal; lia.
Qed.

Lemma total_pending_set ch s s' q :
  channels q !! ch = Some s →
  (total_pending (set_channel ch s' q) + total_queued s = total_pending q + total_queued s')%nat.
Proof.
  intros Hs. unfold total_pending, set_channel. cbn.
  assert (∀ x, map_fold (fun (_ : Z) s n => (total_queued s + n)%nat) 0%nat (<[ch := x]> (channels q))
    = (total_queued x + map_fold (fun (_ : Z) s n => (total_queued s + n)%nat) 0%nat (delete ch (channels q)))%nat) as Hins.
  { intros x. rewrite <- insert_delete_eq, map_fold_insert_L; [done|intros; lia|apply lookup_delete_eq]. }
  rewrite Hins. rewrite <- (insert_id (channels q) ch s Hs) at 2. rewrite Hins. lia.
Qed.

(** Several frames sent one after the other. *)
Fixpoint send_all (es : list FrameEnvelope) (q : QueueFilter) : list FilterResult * QueueFilter :=
  match es with
  | [] => ([], q)
  | e :: es' =>
      let '(r, _, q') := QueueFilter_process_send e q in
      let '(rs, q'') := send_all es' q' in (r :: rs, q'')
  end.

Definition classified (e : FrameEnvelope) : FrameEnvelope :=
  with_env_priority e (classify (message_code (env_cemi e))).
Definition of_priority (p : QueuePriority) (es : list FrameEnvelope) : list FrameEnvelope :=
  filter (fun e => env_priority e = p) (classified <$> es).

(** Back-pressure is on for the channel. *)
Definition holding (q : QueueFilter) (ch : Z) (s : ChannelQueueState) : Prop :=
  queue_enabled (queue_config q) = true ∧ backpressure_enabled (queue_config q) = true ∧
  channels q !! ch = Some s ∧ waiting_for_ack s = true.

Lemma send_holding q e s :
  holding q (env_channel_id e) s →
  QueueFilter_process_send e q =
  let '(r, s') := enqueue_frame (queue_config q) s (classified e) (total_pending q) in
  (r, classified e, set_channel (env_channel_id e) s' q).
Proof.
  intros (Hen & Hbp & Hs & Hw). unfold QueueFilter_process_send, channel_or_new.
  rewrite Hen, Hbp. cbn [negb env_channel_id with_env_priority]. by rewrite Hs; cbn [default from_option id]; rewrite Hw.
Qed.

Lemma waiting_set p l s : waiting_for_ack (set_queue p l s) = waiting_for_ack s.
Proof. by destruct p. Qed.

Lemma total_queued_push p s e :
  total_queued (set_queue p (queue_of p s ++ [e]) s) = S (total_queued s).
Proof. unfold total_queued. destruct p; cbn; rewrite length_app; cbn; lia. Qed.

(** There is room for [n] more frames of every priority. *)
Definition room_for (q : QueueFilter) (s : ChannelQueueState) (n : nat) : Prop :=
  (∀ p, (length (queue_of p s) + n ≤ max_queue_depth (queue_config q))%nat) ∧
  (max_total_frames (queue_config q) = 0%nat ∨
   (total_pending q + n ≤ max_total_frames (queue_config q))%nat).

Lemma enqueue_room q s n e :
  room_for q s (S n) →
  enqueue_frame (queue_config q) s e (total_pending q)
  = (FQueued, set_queue (env_priority e) (queue_of (env_priority e) s ++ [e]) s).
Proof.
  intros [Hd Ht]. unfold enqueue_frame. rewrite (proj2 (Nat.leb_gt _ _)) by (specialize (Hd (env_priority e)); lia).
  destruct (Nat.ltb _ _ && _) eqn:E; [|done].
  apply andb_true_iff in E as [E1 E2]. apply Nat.ltb_lt in E1. apply Nat.leb_le in E2. lia.
Qed.

Lemma send_all_queued ch es q s :
  holding q ch s → Forall (fun e => env_channel_id e = ch) es → room_for q s (length es) →
  ∃ q' s', send_all es q = (replicate (length es) FQueued, q') ∧ holding q' ch s' ∧
    ∀ p, queue_of p s' = queue_of p s ++ of_priority p es.
Proof.
  revert q s. induction es as [|e es IH]; intros q s Hh Hch Hroom.
  { exists q, s. split_and!; [done..|]. intros p. by rewrite app_nil_r. }
  apply Forall_cons in Hch as [Hce Hch]. pose proof (send_holding q e s) as Hsend. rewrite Hce in Hsend.
  rewrite (enqueue_room q s (length es)) in Hsend by done. specialize (Hsend Hh).
  destruct Hh as (Hen & Hbp & Hs & Hw).
  set (p := env_priority (classified e)) in *. set (s1 := set_queue p _ s) in *.
  destruct (IH (set_channel ch s1 q) s1) as (q' & s' & Hrun & Hh' & Hq).
  - split_and!; [done..|apply lookup_insert_eq|by unfold s1; rewrite waiting_set].
  - done.
  - destruct Hroom as [Hd Ht]. split.
    + intros p'. specialize (Hd p'). cbn [length queue_config set_channel] in *.
      unfold s1. rewrite queue_of_set. case_decide; [subst p'; rewrite length_app; cbn [length]; lia|lia].
    + pose proof (total_pending_set ch s s1 q Hs) as Hsum.
      assert (total_queued s1 = S (total_queued s)) as Hpush by apply total_queued_push.
      cbn [queue_config set_channel length] in *. lia.
  - exists q', s'. cbn [send_all]. rewrite Hsend, Hrun. split_and!; [done..|].
    intros p'. rewrite Hq. unfold s1, of_priority. cbn [fmap list_fmap]. rewrite queue_of_set, filter_cons.
    fold p. repeat case_decide; subst; try done. by rewrite <- app_assoc.
Qed.

Lemma drain_holding q ch s n :
  holding q ch s →
  ∃ s', QueueFilter_drain ch n q = (take n (pending s), set_channel ch s' q) ∧
    holding (set_channel ch s' q) ch s' ∧ pending s' = drop n (pending s).
Proof.
  intros (Hen & Hbp & Hs & Hw). unfold QueueFilter_drain. rewrite Hen, Hs. cbn [negb].
  pose proof (drain_pending_prefix n s) as [Hf Hr].
  assert (waiting_for_ack (snd (ChannelQueueState_drain n s)) = true) as Hw'
    by (unfold ChannelQueueState_drain; rewrite drain_queues_all; exact Hw).
  destruct (ChannelQueueState_drain n s) as [r s']. cbn [fst snd] in *. subst r.
  exists s'. split; [done|]. split; [|done]. split; [done|]. split; [done|]. split; [apply lookup_insert_eq|done].
Qed.

Lemma of_priority_perm es :
  of_priority QHigh es ++ of_priority QNormal es ++ of_priority QLow es ≡ₚ classified <$> es.
Proof.
  unfold of_priority. induction es as [|e es IH]; [done|]. cbn [fmap list_fmap].
  rewrite !filter_cons, <- IH.
  destruct (env_priority (classified e)); repeat case_decide; try done; solve_Permutation.
Qed.

(* ------------------------------------------------------------------ *)
(** * Properties *)

(** Frames held back while a channel waits for an acknowledgement leave in priority order,
    confirmations and resets before data before monitoring frames, and in order of arrival within
    a priority; nothing is lost as long as the queue limits are not reached. *)
Theorem queue_priority_order (q : QueueFilter) (ch : Z) (es : list FrameEnvelope) (n : nat) :
  holding q ch (set_waiting true ChannelQueueState_new) →
  Forall (fun e => env_channel_id e = ch) es →
  (length es ≤ max_queue_depth (queue_config q))%nat →
  (max_total_frames (queue_config q) = 0 ∨ total_pending q + length es ≤ max_total_frames (queue_config q))%nat →
  let order := of_priority QHigh es ++ of_priority QNormal es ++ of_priority QLow es in
  order ≡ₚ classified <$> es ∧
  ∃ q1 q2 q3, send_all es q = (replicate (length es) FQueued, q1) ∧
    QueueFilter_drain ch n q1 = (take n order, q2) ∧
    QueueFilter_drain ch (length es) q2 = (drop n order, q3).
Proof.
  intros Hh Hch Hd Ht order. pose proof (of_priority_perm es) as Hperm. split; [done|].
  destruct (send_all_queued ch es q _ Hh Hch) as (q1 & s1 & Hrun & Hh1 & Hq).
  { split; [intros p; by destruct p|done]. }
  assert (pending s1 = order) as Hp.
  { change (pending s1) with (queue_of QHigh s1 ++ queue_of QNormal s1 ++ queue_of QLow s1).
    by rewrite !Hq. }
  destruct (drain_holding q1 ch s1 n Hh1) as (s2 & Hd1 & Hh2 & Hp2).
  destruct (drain_holding _ ch s2 (length es) Hh2) as (s3 & Hd2 & _ & _).
  exists q1, (set_channel ch s2 q1), (set_channel ch s3 (set_channel ch s2 q1)).
  rewrite Hd1, Hd2, Hp2, Hp. split_and!; [done..|]. do 2 f_equal. apply take_ge.
  apply Permutation_length in Hperm. rewrite length_fmap in Hperm. rewrite length_drop. unfold order. lia.
Qed.

Definition sample_addr : SocketAddr := ((127, 0, 0, 1), 3671).
Definition monitor_frame : CemiFrame := bus_monitor_indication [] 0 0.
Definition sample_envelope (c : CemiFrame) : FrameEnvelope := FrameEnvelope_new 0 c 1 sample_addr.
Definition sample_queue (depth : nat) : QueueFilter :=
  set_waiting_for_ack 1 true
    (QueueFilter_new {| queue_enabled := true; max_queue_depth := depth; backpressure_enabled := true;
                        priority_eviction_enabled := true; max_total_frames := 0 |}).

(** A monitoring frame, then a reset: the reset leaves first. *)
Lemma queue_priority_order_witness :
  ∃ q1 q2 q3, send_all [sample_envelope monitor_frame; sample_envelope reset_ind] (sample_queue 4)
    = ([FQueued; FQueued], q1) ∧
    QueueFilter_drain 1 1 q1 = ([classified (sample_envelope reset_ind)], q2) ∧
    QueueFilter_drain 1 2 q2 = ([classified (sample_envelope monitor_frame)], q3).
Proof.
  destruct (queue_priority_order (sample_queue 4) 1
    [sample_envelope monitor_frame; sample_envelope reset_ind] 1) as [_ Hq];
    [split_and!; done|repeat constructor|cbn; lia|by left|]. exact Hq.
Defined.

(** A round of one monitoring frame and one reset. *)
Fixpoint rounds (n : nat) : list FrameEnvelope :=
  match n with
  | O => []
  | S n' => sample_envelope monitor_frame :: sample_envelope reset_ind :: rounds n'
  end.

(** Sending a frame that is queued, whatever it evicts. *)
Lemma enqueue_evicting cfg s e total :
  priority_eviction_enabled cfg = true → max_total_frames cfg = 0%nat → queue_low s ≠ [] →
  env_priority e = QHigh → ∃ s', enqueue_frame cfg s e total = (FQueued, s') ∧
    length (queue_high s') = S (length (queue_high s)) ∧ waiting_for_ack s' = waiting_for_ack s.
Proof.
  intros Hev Ht Hl He. unfold enqueue_frame. rewrite He, Hev, Ht. cbn [andb Nat.ltb Nat.leb].
  unfold evict_lowest. destruct (queue_low s) as [|x l]; [done|].
  destruct (Nat.leb _ _); cbn; (eexists; split; [done|]); cbn; rewrite length_app; cbn; split; (lia || done).
Qed.

Lemma enqueue_low cfg s e total :
  priority_eviction_enabled cfg = true → max_total_frames cfg = 0%nat →
  (0 < max_queue_depth cfg)%nat → env_priority e = QLow →
  ∃ s', enqueue_frame cfg s e total = (FQueued, s') ∧ queue_low s' ≠ [] ∧
    queue_high s' = queue_high s ∧ waiting_for_ack s' = waiting_for_ack s.
Proof.
  intros Hev Ht Hd He. unfold enqueue_frame. rewrite He, Hev, Ht. cbn [andb Nat.ltb Nat.leb queue_of].
  destruct (Nat.leb _ _) eqn:Efull.
  - apply Nat.leb_le in Efull. unfold evict_lowest. destruct (queue_low s) as [|x l]; [cbn in Efull; lia|].
    eexists. split; [done|]. cbn. by destruct l.
  - eexists. split; [done|]. cbn. by destruct (queue_low s).
Qed.

Lemma rounds_grow n q s :
  holding q 1 s → priority_eviction_enabled (queue_config q) = true →
  max_total_frames (queue_config q) = 0%nat → (0 < max_queue_depth (queue_config q))%nat →
  ∃ q' s', send_all (rounds n) q = (replicate (2 * n) FQueued, q') ∧ holding q' 1 s' ∧
    length (queue_high s') = (length (queue_high s) + n)%nat.
Proof.
  revert q s. induction n as [|n IH]; intros q s Hh Hev Ht Hd.
  { exists q, s. split_and!; [done..|]. lia. }
  replace (2 * S n)%nat with (S (S (2 * n))) by lia. cbn [rounds send_all replicate].
  rewrite (send_holding q _ s) by done. cbn [env_channel_id sample_envelope FrameEnvelope_new].
  destruct (enqueue_low (queue_config q) s (classified (sample_envelope monitor_frame)) (total_pending q))
    as (s1 & -> & Hlow & Hhigh & Hw1); [done..|].
  destruct Hh as (Hen & Hbp & Hs & Hw).
  set (q1 := set_channel 1 s1 q).
  assert (holding q1 1 s1) as Hh1 by (split_and!; [done..|apply lookup_insert_eq|by rewrite Hw1]).
  rewrite (send_holding q1 _ s1) by done. cbn [env_channel_id sample_envelope FrameEnvelope_new].
  destruct (enqueue_evicting (queue_config q1) s1 (classified (sample_envelope reset_ind)) (total_pending q1))
    as (s2 & -> & Hlen & Hw2); [done..|].
  destruct (IH (set_channel 1 s2 q1) s2) as (q' & s' & -> & Hh' & Hn); [|done..|].
  { split_and!; [done..|apply lookup_insert_eq|by rewrite Hw2, Hw1]. }
  exists q', s'. split_and!; [done..|]. rewrite Hn, Hlen, Hhigh. lia.
Qed.

(** The queue depth limit does not bound a queue.  When the high-priority queue is full a frame
    of a lower queue is evicted to make room, so alternating monitoring frames and resets, all of
    which are accepted, makes the high-priority queue of a waiting channel as long as one likes,
    whatever the configured depth. *)
Theorem queue_depth_unbounded (depth n : nat) :
  (0 < depth)%nat →
  ∃ q s, send_all (rounds n) (sample_queue depth) = (replicate (2 * n) FQueued, q) ∧
    max_queue_depth (queue_config (sample_queue depth)) = depth ∧
    channels q !! 1 = Some s ∧ length (queue_high s) = n.
Proof.
  intros Hd. destruct (rounds_grow n (sample_queue depth) (set_waiting true ChannelQueueState_new))
    as (q & s & Hrun & (_ & _ & Hs & _) & Hlen); [split_and!; done|done|done|done|].
  by exists q, s.
Qed.

(** One frame of depth, three frames in the queue. *)
Lemma queue_depth_unbounded_witness :
  ∃ q s, send_all (rounds 3) (sample_queue 1) = (replicate 6 FQueued, q) ∧
    max_queue_depth (queue_config (sample_queue 1)) = 1%nat ∧
    channels q !! 1 = Some s ∧ length (queue_high s) = 3%nat.
Proof. apply (queue_depth_unbounded 1 3). lia. Defined.

(** Pacing.  Whatever frames arrive and whenever completions are reported, the frames the filter
    lets through do not overlap on the bus: each starts at least the margin after the end of every
    earlier one; and none waits longer than the configured limit. *)
Theorem pace_spacing `{BuildProfile} (c : PaceFilterConfig) (evs : list PaceEvent) :
  pace_enabled c = true → 0 <= margin_ms c → Sorted Z.le (pe_now <$> evs) →
  StronglySorted (fun x y => ended x + margin c <= started y) (pace_run evs (PaceFilter_new c)) ∧
  (0 < max_delay_ms c →
   Forall (fun x => started x - requested x <= max_delay c) (pace_run evs (PaceFilter_new c))).
Proof.
  intros Hen Hm Hs. destruct evs as [|ev evs]; [repeat constructor|].
  apply (pace_run_spaced c (ev :: evs) (PaceFilter_new c) (pe_now ev) (pe_now ev)); [done|done| | |].
  - unfold margin, millis. lia.
  - cbn. lia.
  - constructor; [done|]. constructor. done.
Qed.

Definition sample_pace : PaceFilterConfig :=
  {| pace_enabled := true; margin_ms := 50; byte_time_override_us := 0; max_delay_ms := 5000;
     auto_transition := true |}.

(** Three frames at once: the second and the third are delayed. *)
Definition sample_traffic : list PaceEvent :=
  [PeSend 0 (sample_envelope reset_ind); PeSend 0 (sample_envelope reset_ind); PeQuery 1000;
   PeSend 1000 (sample_envelope reset_ind)].

Lemma pace_spacing_witness :
  length (@pace_run debug_build sample_traffic (PaceFilter_new sample_pace)) = 3%nat ∧
  StronglySorted (fun x y => ended x + margin sample_pace <= started y)
    (@pace_run debug_build sample_traffic (PaceFilter_new sample_pace)).
Proof.
  split; [vm_compute; reflexivity|].
  apply (@pace_spacing debug_build sample_pace sample_traffic); [reflexivity|cbn; lia|].
  repeat constructor; cbn; lia.
Defined.

(* ------------------------------------------------------------------ *)
(** * The circuit breaker: lemmas *)

(** Outcomes of transmissions, with the time of each. *)
Definition failed (o : bool * Z) : Prop := fst o = false.

Definition breaker_outcome `{BuildProfile} (o : bool * Z) : stM RetryFilter Empty_set unit :=
  if fst o then RetryFilter_on_success else RetryFilter_on_failure (snd o).

Fixpoint breaker_run `{BuildProfile} (os : list (bool * Z)) : stM RetryFilter Empty_set unit :=
  match os with
  | [] => st_ret tt
  | o :: os' => do? _ := breaker_outcome o in breaker_run os'
  end.

Lemma breaker_run_app `{BuildProfile} os1 os2 f :
  breaker_run (os1 ++ os2) f = (do? _ := breaker_run os1 in breaker_run os2) f.
Proof.
  revert f. induction os1 as [|o os1 IH]; intros f; [done|]. cbn [app breaker_run]. unfold st_bind in *.
  destruct (breaker_outcome o f) as [[]]; [apply IH|done..].
Qed.

(** [thr] failures in a row somewhere in the outcomes. *)
Definition run_of_failures (thr : nat) (os : list (bool * Z)) : Prop :=
  ∃ pre fs post, os = pre ++ fs ++ post ∧ length fs = thr ∧ Forall failed fs.

(** Closed with [k] failures since the last success. *)
Definition closed_with (c : RetryFilterConfig) (f : RetryFilter) (k : nat) : Prop :=
  retry_config f = c ∧ circuit f = CbClosed ∧ failure_count f = Z.of_nat k.

Lemma breaker_success `{BuildProfile} c f k t :
  retry_enabled c = true → closed_with c f k →
  ∃ f', breaker_outcome (true, t) f = (Ok tt, f') ∧ closed_with c f' 0.
Proof.
  intros Hen (Hc & Hs & _). unfold breaker_outcome, RetryFilter_on_success. cbn [fst].
  rewrite Hc, Hen, Hs. eexists. split; [done|]. done.
Qed.

Lemma breaker_failure `{BuildProfile} c f k t :
  retry_enabled c = true → closed_with c f k → Z.of_nat k + 1 < 4294967296 →
  ∃ f', breaker_outcome (false, t) f = (Ok tt, f') ∧ retry_config f' = c ∧
    failure_count f' = Z.of_nat (S k) ∧
    circuit f' = if failure_threshold c <=? Z.of_nat (S k) then CbOpen t else CbClosed.
Proof.
  intros Hen (Hc & Hs & Hk) Hb. unfold breaker_outcome, RetryFilter_on_failure, u32_incr, checked_op.
  cbn [fst snd]. rewrite Hc, Hen, Hs, Hk. replace (Z.of_nat k + 1) with (Z.of_nat (S k)) in * by lia.
  rewrite (proj2 (Z.leb_le _ _)), (proj2 (Z.ltb_lt _ _)) by lia. cbn. eexists. split; [done|]. done.
Qed.

Lemma run_of_failures_suffix thr pre fs os :
  os = pre ++ fs → (thr ≤ length fs)%nat → Forall failed fs → run_of_failures thr os.
Proof.
  intros -> Hl Hf. exists (pre ++ take (length fs - thr) fs), (drop (length fs - thr) fs), [].
  split_and!.
  - by rewrite app_nil_r, <- app_assoc, take_drop.
  - rewrite length_drop. lia.
  - by apply Forall_drop.
Qed.

(** As long as no run of failures is long enough, the circuit is closed and counts the
    failures at the end. *)
Lemma breaker_closed `{BuildProfile} c os :
  retry_enabled c = true → Z.of_nat (length os) < 4294967296 → 1 <= failure_threshold c →
  ¬ run_of_failures (Z.to_nat (failure_threshold c)) os →
  ∃ f k pre fs, breaker_run os (RetryFilter_new c) = (Ok tt, f) ∧ closed_with c f k ∧
    os = pre ++ fs ∧ length fs = k ∧ Forall failed fs ∧
    (∀ pre' fs', os = pre' ++ fs' → Forall failed fs' → (length fs' ≤ k)%nat).
Proof.
  intros Hen. induction os as [|[ok t] os IH] using rev_ind; intros Hlen Hthr Hno.
  { exists (RetryFilter_new c), 0%nat, [], []. split_and!; [done..|constructor|].
    intros pre' fs' Hnil%eq_sym _. apply app_eq_nil in Hnil as [_ ->]. done. }
  rewrite length_app in Hlen. cbn in Hlen.
  destruct IH as (f & k & pre & fs & Hrun & Hcl & Hos & Hk & Hfs & Hmax); [lia|done| |].
  { intros (a & b & d & -> & Hb & Hfb). apply Hno. exists a, b, (d ++ [(ok, t)]). by rewrite !app_assoc. }
  rewrite breaker_run_app. unfold st_bind at 1. rewrite Hrun. cbn [breaker_run]. unfold st_bind at 1.
  destruct ok.
  - destruct (breaker_success c f k t Hen Hcl) as (f' & -> & Hcl').
    exists f', 0%nat, (os ++ [(true, t)]), []. split_and!; [done..|by rewrite app_nil_r|done|constructor|].
    intros pre' fs' Heq Hf'. destruct fs' as [|x fs' _] using rev_ind; [done|].
    rewrite app_assoc in Heq. apply app_inj_tail in Heq as [_ <-]. apply Forall_app in Hf' as [_ Hf'].
    apply Forall_cons_1 in Hf' as [Hf' _]. discriminate Hf'.
  - assert (k ≤ length os)%nat by (subst os; rewrite length_app; lia).
    destruct (breaker_failure c f k t Hen Hcl) as (f' & -> & Hc' & Hk' & Hs'); [lia|].
    destruct (failure_threshold c <=? Z.of_nat (S k)) eqn:Etrip.
    { exfalso. apply Hno. apply (run_of_failures_suffix _ pre (fs ++ [(false, t)])).
      - by rewrite Hos, app_assoc.
      - rewrite length_app. cbn [length]. apply Z.leb_le in Etrip. lia.
      - apply Forall_app_2; [done|by repeat constructor]. }
    exists f', (S k), pre, (fs ++ [(false, t)]). split_and!.
    + done.
    + split_and!; done.
    + by rewrite Hos, app_assoc.
    + rewrite length_app. cbn. lia.
    + apply Forall_app_2; [done|by repeat constructor].
    + intros pre' fs' Heq Hf'. destruct fs' as [|x fs' _] using rev_ind; [cbn; lia|].
      rewrite app_assoc in Heq. apply app_inj_tail in Heq as [Heq _]. apply Forall_app in Hf' as [Hf' _].
      rewrite length_app. specialize (Hmax pre' fs' Heq Hf'). cbn. lia.
Qed.

(** Once open the circuit stays open, whatever outcomes are still reported. *)
Lemma breaker_stays_open `{BuildProfile} c os f t :
  retry_enabled c = true → retry_config f = c → circuit f = CbOpen t →
  0 <= failure_count f → failure_count f + Z.of_nat (length os) < 4294967296 →
  ∃ f', breaker_run os f = (Ok tt, f') ∧ retry_config f' = c ∧ circuit f' = CbOpen t.
Proof.
  intros Hen. revert f. induction os as [|[ok t'] os IH]; intros f Hc Hs H0 Hb; [by exists f|].
  cbn [breaker_run length] in *. unfold st_bind, breaker_outcome.
  destruct ok; cbn [fst snd]; unfold RetryFilter_on_success, RetryFilter_on_failure;
    rewrite Hc, Hen, Hs; cbn [negb].
  - apply IH; lia || done.
  - unfold u32_incr, checked_op. rewrite (proj2 (Z.leb_le _ _)), (proj2 (Z.ltb_lt _ _)) by lia. cbn [andb].
    apply IH; cbn; lia || done.
Qed.

(** What an open circuit does to a frame. *)
Lemma open_circuit_send f t now e :
  retry_enabled (retry_config f) = true → circuit f = CbOpen t → t <= now →
  fst (RetryFilter_process_send now e f)
  = if now <? t + millis (recovery_timeout_ms (retry_config f)) then FDropped CircuitOpen else FPass 0.
Proof.
  intros Hen Hs Ht. unfold RetryFilter_process_send, circuit_state, saturating_since. rewrite Hen, Hs.
  cbn [negb]. rewrite Z.max_r by lia. destruct (_ <=? _) eqn:E1, (_ <? _) eqn:E2; (lia || done).
Qed.

(** The circuit breaker, for fewer than 2^32 reported outcomes.  As long as the outcomes hold
    no run of [failure_threshold] failures in a row the circuit is closed and every frame passes.  The
    failure that completes the first such run opens it: from then on, whatever outcomes are
    still reported, frames are dropped until the recovery timeout has passed since that failure,
    and the next frame passes again. *)
Theorem circuit_breaker_trips `{BuildProfile} (c : RetryFilterConfig) (os : list (bool * Z)) :
  let thr := Z.to_nat (failure_threshold c) in
  retry_enabled c = true → 1 <= failure_threshold c → Z.of_nat (length os) < 4294967296 →
  (¬ run_of_failures thr os →
   ∃ f, breaker_run os (RetryFilter_new c) = (Ok tt, f) ∧
     ∀ now e, ∃ d, fst (RetryFilter_process_send now e f) = FPass d) ∧
  (∀ pre fs t post, os = (pre ++ fs) ++ (false, t) :: post → S (length fs) = thr → Forall failed fs →
     ¬ run_of_failures thr (pre ++ fs) →
     ∃ f, breaker_run os (RetryFilter_new c) = (Ok tt, f) ∧
       ∀ now e, t <= now →
         fst (RetryFilter_process_send now e f)
         = if now <? t + millis (recovery_timeout_ms c) then FDropped CircuitOpen else FPass 0).
Proof.
  intros thr Hen Hthr Hlen. split.
  - intros Hno. destruct (breaker_closed c os Hen Hlen Hthr Hno) as (f & k & _ & _ & Hrun & (Hc & Hs & _) & _).
    exists f. split; [done|]. intros now e. unfold RetryFilter_process_send, circuit_state.
    rewrite Hc, Hen, Hs. by eexists.
  - intros pre fs t post -> Hfs Hf Hno. rewrite length_app in Hlen. cbn [length] in Hlen.
    destruct (breaker_closed c (pre ++ fs)) as (f & k & pre0 & fs0 & Hrun & Hcl & Hos & Hk0 & _ & Hmax);
      [done|lia|done|done|].
    specialize (Hmax pre fs eq_refl Hf).
    assert (k ≤ length (pre ++ fs))%nat as Hk by (rewrite Hos, length_app; lia).
    destruct (breaker_failure c f k t Hen Hcl) as (f1 & Hrun1 & Hc1 & Hk1 & Hs1); [lia|].
    rewrite (proj2 (Z.leb_le _ _)) in Hs1 by lia.
    destruct (breaker_stays_open c post f1 t) as (f2 & Hrun2 & Hc2 & Hs2); [done..|lia|lia|].
    exists f2. split.
    { rewrite breaker_run_app. unfold st_bind. rewrite Hrun. cbn [breaker_run]. unfold st_bind.
      by rewrite Hrun1, Hrun2. }
    intros now e Ht. rewrite (open_circuit_send f2 t) by (rewrite ?Hc2; done). by rewrite Hc2.
Qed.

Definition sample_retry : RetryFilterConfig :=
  {| retry_enabled := true; max_retries := 3; retry_delay_ms := 100; exponential_backoff := true;
     max_retry_delay_ms := 5000; failure_threshold := 2; recovery_timeout_ms := 100; success_threshold := 1 |}.

(** A success between two failures keeps the circuit closed; two failures in a row open it for
    100 ms, although a late success is still reported. *)
Lemma circuit_breaker_trips_witness :
  (∃ f, @breaker_run debug_build [(false, 0); (true, 5); (false, 10)] (RetryFilter_new sample_retry) = (Ok tt, f) ∧
     ∀ now e, ∃ d, fst (RetryFilter_process_send now e f) = FPass d) ∧
  (∃ f, @breaker_run debug_build [(false, 0); (false, 10); (true, 20)] (RetryFilter_new sample_retry) = (Ok tt, f) ∧
     ∀ now e, 10 <= now → fst (RetryFilter_process_send now e f)
       = if now <? 10 + millis 100 then FDropped CircuitOpen else FPass 0).
Proof.
  split.
  - apply (@circuit_breaker_trips debug_build sample_retry); [done|done|done|].
    intros (pre & fs & post & Heq & Hl & Hf). change (length fs = 2%nat) in Hl.
    destruct fs as [|a [|b [|]]]; [done|done| |done]. apply Forall_cons_1 in Hf as [Ha Hf].
    apply Forall_cons_1 in Hf as [Hb _]. unfold failed in Ha, Hb.
    destruct pre as [|? [|? [|? [|]]]]; injection Heq; intros; subst; done.
  - apply (@circuit_breaker_trips debug_build sample_retry [(false, 0); (false, 10); (true, 20)]
             eq_refl ltac:(cbn; lia) ltac:(cbn; lia) ) with (pre := []) (fs := [(false, 0)]) (post := [(true, 20)]);
      [done|done|by repeat constructor|].
    intros (pre & fs & post & Heq & Hl & Hf). change (length fs = 2%nat) in Hl.
    apply (f_equal length) in Heq. rewrite !length_app in Heq. cbn in Heq. lia.
Defined.
