(* ===== verification/KnxGroup.v ===== *)
(** Group objects ([group.rs]) and the group value cache ([group_cache.rs]) of the KNX server.

    A group address is its raw 16-bit value.  Object names, datapoint codecs and the events for
    subscribers are left out: the server only moves raw bytes. *)

From S2P Require Import Prelude KnxFrame.

(* ------------------------------------------------------------------ *)
(** * Iteration over a concurrent map *)

(** [DashMap::iter] visits every entry once, in an order of its own. *)
Class MapOrder (V : Type) : Type := {
  map_iter : gmap Z V → list (Z * V);
  map_iter_perm : ∀ m, map_iter m ≡ₚ map_to_list m;
}.

Definition natural_order (V : Type) : MapOrder V :=
  {| map_iter := map_to_list; map_iter_perm := fun m => reflexivity _ |}.

(* ------------------------------------------------------------------ *)
(** * Group objects *)

Record GroupObjectFlags : Set := {
  gf_communication : bool; gf_read : bool; gf_write : bool; gf_transmit : bool; gf_update : bool }.
Definition flags_read_write : GroupObjectFlags :=
  {| gf_communication := true; gf_read := true; gf_write := true; gf_transmit := true; gf_update := true |}.
Definition flags_read_only : GroupObjectFlags :=
  {| gf_communication := true; gf_read := true; gf_write := false; gf_transmit := true; gf_update := false |}.
Definition flags_write_only : GroupObjectFlags :=
  {| gf_communication := true; gf_read := false; gf_write := true; gf_transmit := false; gf_update := true |}.

Record GroupObject : Set := { go_address : Z; go_flags : GroupObjectFlags; go_value : list Z }.

Definition can_read (o : GroupObject) : bool := gf_communication (go_flags o) && gf_read (go_flags o).
Definition can_write (o : GroupObject) : bool := gf_communication (go_flags o) && gf_write (go_flags o).

Definition write_raw (d : list Z) : stM GroupObject KnxError unit := fun o =>
  if negb (gf_write (go_flags o)) then (Err GroupObjectWriteNotAllowed, o)
  else (Ok tt, {| go_address := go_address o; go_flags := go_flags o; go_value := d |}).

(** [GroupObjectTable]: [objects]. *)
Definition GroupObjectTable : Type := gmap Z GroupObject.

Definition GroupObjectTable_add (o : GroupObject) (t : GroupObjectTable) : GroupObjectTable :=
  <[go_address o := o]> t.
Definition GroupObjectTable_remove (a : Z) (t : GroupObjectTable) : option GroupObject * GroupObjectTable :=
  (t !! a, delete a t).

Definition GroupObjectTable_read (a : Z) (t : GroupObjectTable) : outcome KnxError (list Z) :=
  match t !! a with
  | None => Err GroupObjectNotFound
  | Some o => if negb (can_read o) then Err GroupObjectReadNotAllowed else Ok (go_value o)
  end.

Definition GroupObjectTable_write (a : Z) (d : list Z) : stM GroupObjectTable KnxError unit := fun t =>
  match t !! a with
  | None => (Err GroupObjectNotFound, t)
  | Some o => let '(r, o') := write_raw d o in (r, <[a := o']> t)
  end.

(* ------------------------------------------------------------------ *)
(** * The group value cache *)

(** The writer's address, a string in the source, is an individual address here. *)
Record CacheEntry : Set := {
  ce_address : Z; ce_value : list Z; ce_source : option IndividualAddress;
  updated_at : Z; accessed_at : Z; update_count : Z; access_count : Z }.

Definition CacheEntry_new (now : Z) (a : Z) (v : list Z) (src : option IndividualAddress) : CacheEntry :=
  {| ce_address := a; ce_value := v; ce_source := src; updated_at := now; accessed_at := now;
     update_count := 1; access_count := 0 |}.

(** Instants and durations are nanoseconds; a zero time-to-live means no expiry. *)
Definition CacheEntry_is_expired (now ttl : Z) (e : CacheEntry) : bool :=
  if ttl =? 0 then false else ttl <? Z.max 0 (now - updated_at e).

Record GroupValueCacheConfig : Set := {
  cache_enabled : bool; max_entries : nat; ttl_ms : Z;
  auto_update_on_indication : bool; auto_update_on_write : bool }.
Definition cache_ttl (c : GroupValueCacheConfig) : Z := ttl_ms c * 1000000.

Record GroupValueCache : Type := { cache_config : GroupValueCacheConfig; entries : gmap Z CacheEntry }.
Definition GroupValueCache_new (c : GroupValueCacheConfig) : GroupValueCache :=
  {| cache_config := c; entries := ∅ |}.
Definition with_entries (c : GroupValueCache) (m : gmap Z CacheEntry) : GroupValueCache :=
  {| cache_config := cache_config c; entries := m |}.

Inductive UpdateSource : Set := UsWrite | UsIndication.

Section cache.
Context `{BuildProfile} `{MapOrder CacheEntry}.

(** [access_count += 1] and [update_count += 1] at type [u64]. *)
Definition u64_count {E} (n : Z) : outcome E Z := checked_op 18446744073709551616 (n + 1).

Definition GroupValueCache_get {E} (now a : Z) : stM GroupValueCache E (option (list Z)) := fun c =>
  if negb (cache_enabled (cache_config c)) then (Ok None, c)
  else
    match entries c !! a with
    | None => (Ok None, c)
    | Some e =>
        if CacheEntry_is_expired now (cache_ttl (cache_config c)) e
        then (Ok None, with_entries c (delete a (entries c)))
        else
          match u64_count (access_count e) with
          | Ok n =>
              (Ok (Some (ce_value e)),
               with_entries c (<[a := {| ce_address := ce_address e; ce_value := ce_value e;
                 ce_source := ce_source e; updated_at := updated_at e; accessed_at := now;
                 update_count := update_count e; access_count := n |}]> (entries c)))
          | Err x => (Err x, c)
          | Panic => (Panic, c)
          end
    end.

(** [min_by_key]: the first of the smallest. *)
Fixpoint min_by_accessed (l : list (Z * CacheEntry)) : option (Z * CacheEntry) :=
  match l with
  | [] => None
  | x :: l' =>
      match min_by_accessed l' with
      | None => Some x
      | Some y => if accessed_at (snd y) <? accessed_at (snd x) then Some y else Some x
      end
  end.

Definition evict_if_needed (c : GroupValueCache) : GroupValueCache :=
  if Nat.ltb (size (entries c)) (max_entries (cache_config c)) then c
  else
    match min_by_accessed (map_iter (entries c)) with
    | Some (a, _) => with_entries c (delete a (entries c))
    | None => c
    end.

Definition GroupValueCache_update {E} (now a : Z) (v : list Z) (src : option IndividualAddress)
    (us : UpdateSource) : stM GroupValueCache E unit := fun c =>
  let cfg := cache_config c in
  if negb (cache_enabled cfg) then (Ok tt, c)
  else if match us with UsWrite => negb (auto_update_on_write cfg)
                      | UsIndication => negb (auto_update_on_indication cfg) end
  then (Ok tt, c)
  else
    match entries c !! a with
    | Some e =>
        match u64_count (update_count e) with
        | Ok n =>
            (Ok tt, with_entries c (<[a := {| ce_address := ce_address e; ce_value := v;
               ce_source := src; updated_at := now; accessed_at := now;
               update_count := n; access_count := access_count e |}]> (entries c)))
        | Err x => (Err x, c)
        | Panic => (Panic, c)
        end
    | None =>
        let c' := evict_if_needed c in
        (Ok tt, with_entries c' (<[a := CacheEntry_new now a v src]> (entries c')))
    end.

Definition on_indication {E} (now a : Z) v src : stM GroupValueCache E unit :=
  GroupValueCache_update now a v src UsIndication.
Definition on_write {E} (now a : Z) v src : stM GroupValueCache E unit :=
  GroupValueCache_update now a v src UsWrite.

Definition invalidate (a : Z) (c : GroupValueCache) : bool * GroupValueCache :=
  (is_some (entries c !! a), with_entries c (delete a (entries c))).
Definition invalidate_all (c : GroupValueCache) : GroupValueCache := with_entries c ∅.

Definition purge_expired (now : Z) (c : GroupValueCache) : nat * GroupValueCache :=
  let ttl := cache_ttl (cache_config c) in
  if ttl =? 0 then (0%nat, c)
  else
    let expired := (fst <$> filter (fun x => CacheEntry_is_expired now ttl (snd x) = true) (map_iter (entries c))) in
    (length expired, with_entries c (foldl (fun m a => delete a m) (entries c) expired)).

(* ------------------------------------------------------------------ *)
(** * Lemmas *)

Lemma min_by_accessed_spec l a e :
  min_by_accessed l = Some (a, e) → (a, e) ∈ l ∧ ∀ b e', (b, e') ∈ l → accessed_at e <= accessed_at e'.
Proof.
  revert a e. induction l as [|[b0 e0] l IH]; intros a e; cbn; [done|].
  destruct (min_by_accessed l) as [[y ey]|] eqn:E.
  - destruct (IH y ey eq_refl) as [Hin Hmin]. cbn.
    destruct (accessed_at ey <? accessed_at e0) eqn:Elt; intros [= <- <-].
    + split; [by apply list_elem_of_further|]. intros b e' [[= -> ->]|Hb]%elem_of_cons; [lia|by eapply Hmin].
    + split; [apply list_elem_of_here|]. intros b e' [[= -> ->]|Hb]%elem_of_cons; [lia|].
      specialize (Hmin _ _ Hb). lia.
  - intros [= <- <-]. destruct l; [|cbn in E; by repeat case_match].
    split; [apply list_elem_of_here|]. by intros b e' [[= -> ->]|Hb%elem_of_nil]%elem_of_cons.
Qed.

Lemma min_by_accessed_some l : l ≠ [] → ∃ x, min_by_accessed l = Some x.
Proof. destruct l; [done|]. intros _. cbn. repeat case_match; eauto. Qed.

Lemma map_iter_elem {V} `{MapOrder V} (m : gmap Z V) k v : (k, v) ∈ map_iter m ↔ m !! k = Some v.
Proof. rewrite map_iter_perm. apply elem_of_map_to_list. Qed.

(** Eviction makes room, and removes an entry that was used least recently. *)
Lemma evict_spec c :
  (size (entries c) ≤ max_entries (cache_config c))%nat → (0 < max_entries (cache_config c))%nat →
  (size (entries (evict_if_needed c)) < max_entries (cache_config c))%nat ∧
  cache_config (evict_if_needed c) = cache_config c ∧
  (entries (evict_if_needed c) = entries c ∨
   ∃ v e, entries c !! v = Some e ∧ entries (evict_if_needed c) = delete v (entries c) ∧
     ∀ b e', entries c !! b = Some e' → accessed_at e <= accessed_at e').
Proof.
  intros Hle Hpos. unfold evict_if_needed. destruct (Nat.ltb _ _) eqn:E.
  { apply Nat.ltb_lt in E. auto. }
  apply Nat.ltb_ge in E.
  destruct (min_by_accessed_some (map_iter (entries c))) as [[v e] Hmin].
  { intros Hnil. apply (f_equal length) in Hnil. rewrite map_iter_perm, length_map_to_list in Hnil. cbn in Hnil. lia. }
  rewrite Hmin. apply min_by_accessed_spec in Hmin as [Hin Hall]. apply map_iter_elem in Hin.
  cbn [cache_config entries with_entries]. split; [|split; [done|right]].
  - rewrite map_size_delete_Some by eauto. lia.
  - exists v, e. split; [done|]. split; [done|]. intros b e' Hb. by eapply Hall, map_iter_elem.
Qed.
End cache.
