(* ===== verification/KnxDpt.v ===== *)
(** Datapoint types of KNX ([dpt/*.rs]): values, codecs, the codec registry, and the group objects
    of [group.rs] with their codecs and events.

    A codec is a record of operations, as the trait object of the source; its laws are the class
    [LawfulDpt], met by every standard codec.  Floats are bit patterns, names and units text. *)

From Stdlib Require Import Floats.SpecFloat.
From S2P Require Import Prelude Text Float KnxFrame KnxGroup.

(* ------------------------------------------------------------------ *)
(** * Values *)

Inductive HvacMode : Set := Auto | Comfort | Standby | Economy | BuildingProtection.
Definition HvacMode_to_raw (m : HvacMode) : Z :=
  match m with Auto => 0 | Comfort => 1 | Standby => 2 | Economy => 3 | BuildingProtection => 4 end.
Definition HvacMode_from_raw (x : Z) : option HvacMode :=
  match x with
  | 0 => Some Auto | 1 => Some Comfort | 2 => Some Standby | 3 => Some Economy | 4 => Some BuildingProtection
  | _ => None
  end.

Inductive DptValue : Set :=
| DvBool (v : bool)
| DvU8 (v : Z)
| DvI8 (v : Z)
| DvU16 (v : Z)
| DvI16 (v : Z)
| DvU32 (v : Z)
| DvI32 (v : Z)
| DvF16 (v : Z)
| DvF32 (v : Z)
| DvTime (weekday : option Z) (hour minute second : Z)
| DvDate (year month day : Z)
| DvDateTime (year month day : Z) (weekday : option Z) (hour minute second : Z)
| DvString (s : list Z)
| DvScene (number : Z) (learn : bool)
| DvHvacMode (m : HvacMode)
| DvColorRgb (r g b : Z)
| DvColorRgbw (r g b w : Z)
| DvDimmingControl (direction : bool) (step_code : Z)
| DvBlindsControl (direction : bool) (step_code : Z)
| DvPriorityControl (control value : bool)
| DvRaw (bytes : list Z).
#[global] Instance HvacMode_eq : EqDecision HvacMode.
Proof. solve_decision. Defined.
#[global] Instance DptValue_eq : EqDecision DptValue.
Proof. solve_decision. Defined.

Definition dv_is_bool (v : DptValue) : bool := match v with DvBool _ => true | _ => false end.
Definition dv_is_numeric (v : DptValue) : bool :=
  match v with DvU8 _ | DvI8 _ | DvU16 _ | DvI16 _ | DvU32 _ | DvI32 _ | DvF16 _ | DvF32 _ => true | _ => false end.
Definition dv_is_string (v : DptValue) : bool := match v with DvString _ => true | _ => false end.
Definition dv_as_bool (v : DptValue) : option bool :=
  match v with
  | DvBool b => Some b
  | DvU8 x | DvI8 x => Some (negb (x =? 0))
  | _ => None
  end.
Definition dv_as_f64 (v : DptValue) : option spec_float :=
  match v with
  | DvU8 x | DvI8 x | DvU16 x | DvI16 x | DvU32 x | DvI32 x => Some (f64_of_Z x)
  | DvF16 x | DvF32 x => Some (f32_as_f64 x)
  | _ => None
  end.
Definition dv_as_str (v : DptValue) : option (list Z) := match v with DvString s => Some s | _ => None end.
Definition dv_as_raw (v : DptValue) : option (list Z) := match v with DvRaw l => Some l | _ => None end.
Definition DptValue_default : DptValue := DvBool false.

(* ------------------------------------------------------------------ *)
(** * Identifiers *)

Record DptId : Set := { dpt_main : Z; dpt_sub : Z }.
#[global] Instance DptId_eq : EqDecision DptId.
Proof. solve_decision. Defined.
#[global] Instance DptId_countable : Countable DptId.
Proof.
  apply (inj_countable' (fun i => (dpt_main i, dpt_sub i)) (fun p => {| dpt_main := p.1; dpt_sub := p.2 |})). by intros [].
Defined.
Definition DptId_new (main sub : Z) : DptId := {| dpt_main := main; dpt_sub := sub |}.
Definition main_only (main : Z) : DptId := DptId_new main 0.
Definition is_main_only (i : DptId) : bool := dpt_sub i =? 0.
Definition main_type (i : DptId) : DptId := main_only (dpt_main i).

(** [Display]: the subtype has at least three digits. *)
Definition pad3 (l : list Z) : list Z := replicate (3 - length l) 48 ++ l.
Definition DptId_to_string (i : DptId) : list Z :=
  if dpt_sub i =? 0 then str "DPT " ++ decimal (dpt_main i)
  else str "DPT " ++ decimal (dpt_main i) ++ str "." ++ pad3 (decimal (dpt_sub i)).

(** [str::trim] on ASCII text, [str::strip_prefix], [str::split_once] and [str::parse::<u16>]: an
    optional plus sign, then digits, without overflow. *)
Definition is_space (c : Z) : bool := (c =? 32) || in_range 9 13 c.
Fixpoint trim_start (l : list Z) : list Z :=
  match l with c :: l' => if is_space c then trim_start l' else l | [] => [] end.
Definition trim (l : list Z) : list Z := reverse (trim_start (reverse (trim_start l))).
Definition strip_prefix (p l : list Z) : option (list Z) :=
  if bool_decide (take (length p) l = p) then Some (drop (length p) l) else None.
Fixpoint split_once (c : Z) (l : list Z) : option (list Z * list Z) :=
  match l with
  | [] => None
  | x :: l => if x =? c then Some ([], l) else (fun p => (x :: p.1, p.2)) <$> split_once c l
  end.
Fixpoint parse_digits (acc : Z) (l : list Z) : option Z :=
  match l with
  | [] => Some acc
  | c :: l => if in_range 48 57 c then let acc := acc * 10 + (c - 48) in if acc <? 65536 then parse_digits acc l else None else None
  end.
Definition parse_u16 (l : list Z) : option Z :=
  match l with
  | [] => None
  | [43] => None
  | 43 :: l => parse_digits 0 l
  | _ => parse_digits 0 l
  end.
Definition or_else {A} (o : option A) (k : option A) : option A := match o with Some a => Some a | None => k end.
Definition DptId_from_str (s : list Z) : outcome KnxError DptId :=
  let s := trim (default s (or_else (strip_prefix (str "DPT ") (trim s))
             (or_else (strip_prefix (str "dpt ") s) (or_else (strip_prefix (str "DPT") s) (strip_prefix (str "dpt") s))))) in
  match split_once 46 s with
  | Some (main, sub) =>
      let? main := ok_or (parse_u16 main) InvalidDpt in
      let? sub := ok_or (parse_u16 sub) InvalidDpt in Ok (DptId_new main sub)
  | None => let? main := ok_or (parse_u16 s) InvalidDpt in Ok (main_only main)
  end.

Example parse_examples : (DptId_from_str ∘ str) <$> ["9.001"; "DPT 9.001"; "dpt 1"; "1"; " DPT 5.1 "; "DPT9.x"; "70000"]%string =
  [Ok (DptId_new 9 1); Ok (DptId_new 9 1); Ok (main_only 1); Ok (main_only 1); Ok (DptId_new 5 1); Err InvalidDpt; Err InvalidDpt].
Proof. by vm_compute. Qed.

(* ------------------------------------------------------------------ *)
(** * The codec interface *)

Record DptCodec : Type := {
  dc_id : DptId;
  dc_name : list Z;
  dc_size : Z;
  dc_encode : DptValue → outcome KnxError (list Z);
  dc_decode : list Z → outcome KnxError DptValue;
  dc_default_value : DptValue;
  dc_unit : option (list Z);
  dc_min_value : option Z;
  dc_max_value : option Z;
  dc_is_small : bool;
}.
(** The methods a codec must have; the others have their defaults. *)
Definition basic_codec (id : DptId) (name : list Z) (size : Z) (enc : DptValue → outcome KnxError (list Z))
    (dec : list Z → outcome KnxError DptValue) : DptCodec :=
  {| dc_id := id; dc_name := name; dc_size := size; dc_encode := enc; dc_decode := dec; dc_default_value := DptValue_default;
     dc_unit := None; dc_min_value := None; dc_max_value := None; dc_is_small := size =? 0 |}.
Definition with_default_value (v : DptValue) (c : DptCodec) : DptCodec :=
  {| dc_id := dc_id c; dc_name := dc_name c; dc_size := dc_size c; dc_encode := dc_encode c; dc_decode := dc_decode c;
     dc_default_value := v; dc_unit := dc_unit c; dc_min_value := dc_min_value c; dc_max_value := dc_max_value c;
     dc_is_small := dc_is_small c |}.
Definition with_range (unit : option (list Z)) (lo hi : Z) (c : DptCodec) : DptCodec :=
  {| dc_id := dc_id c; dc_name := dc_name c; dc_size := dc_size c; dc_encode := dc_encode c; dc_decode := dc_decode c;
     dc_default_value := dc_default_value c; dc_unit := unit; dc_min_value := Some lo; dc_max_value := Some hi;
     dc_is_small := dc_is_small c |}.
Definition dpt_validate (c : DptCodec) (v : DptValue) : outcome KnxError unit := omap_ok (fun _ => tt) (dc_encode c v).
Definition validate_length (data : list Z) (expected : Z) : outcome KnxError unit :=
  if zlen data <? expected then Err DptDecoding else Ok tt.
(** [data.first().copied().unwrap_or(0)]. *)
Definition first_or_0 (data : list Z) : Z := default 0 (head data).
(** A value with [n] bytes, once their number is validated. *)
Definition decode_1 (f : Z → DptValue) (data : list Z) : outcome KnxError DptValue :=
  let? _ := validate_length data 1 in let? a := index data 0 in Ok (f a).
Definition decode_2 (f : Z → Z → DptValue) (data : list Z) : outcome KnxError DptValue :=
  let? _ := validate_length data 2 in let? a := index data 0 in let? b := index data 1 in Ok (f a b).
Definition decode_4 (f : Z → DptValue) (data : list Z) : outcome KnxError DptValue :=
  let? _ := validate_length data 4 in
  let? a := index data 0 in let? b := index data 1 in let? c := index data 2 in let? d := index data 3 in
  Ok (f (u16_from_be a b * 65536 + u16_from_be c d)).

(* ------------------------------------------------------------------ *)
(** * The standard codecs *)

Definition bit_if (b : bool) (mask : Z) : Z := if b then mask else 0.
Definition has_bit (byte mask : Z) : bool := negb (Z.land byte mask =? 0).

Definition switch_encode (v : DptValue) : outcome KnxError (list Z) :=
  match v with
  | DvBool b => Ok [bit_if b 1]
  | DvU8 x => Ok [bit_if (negb (x =? 0)) 1]
  | _ => Err DptEncoding
  end.
Definition switch_decode (data : list Z) : outcome KnxError DptValue := Ok (DvBool (has_bit (first_or_0 data) 1)).
Definition Dpt1Switch : DptCodec := basic_codec (DptId_new 1 1) (str "Switch") 0 switch_encode switch_decode.
Definition Dpt1Bool : DptCodec := basic_codec (DptId_new 1 2) (str "Bool") 0 (dc_encode Dpt1Switch) (dc_decode Dpt1Switch).
Definition Dpt1UpDown : DptCodec := basic_codec (DptId_new 1 8) (str "Up/Down") 0 (dc_encode Dpt1Switch) (dc_decode Dpt1Switch).

Definition Dpt2SwitchControl : DptCodec :=
  basic_codec (DptId_new 2 1) (str "Switch Control") 0
    (fun v => match v with DvPriorityControl c x => Ok [Z.lor (bit_if c 2) (bit_if x 1)] | _ => Err DptEncoding end)
    (fun data => let byte := first_or_0 data in Ok (DvPriorityControl (has_bit byte 2) (has_bit byte 1))).

Definition Dpt3DimmingControl : DptCodec :=
  basic_codec (DptId_new 3 7) (str "Dimming Control") 0
    (fun v => match v with DvDimmingControl d s => Ok [Z.lor (bit_if d 8) (Z.land s 7)] | _ => Err DptEncoding end)
    (fun data => let byte := first_or_0 data in Ok (DvDimmingControl (has_bit byte 8) (Z.land byte 7))).
Definition Dpt3BlindsControl : DptCodec :=
  basic_codec (DptId_new 3 8) (str "Blinds Control") 0
    (fun v => match v with DvBlindsControl d s => Ok [Z.lor (bit_if d 8) (Z.land s 7)] | _ => Err DptEncoding end)
    (fun data => let byte := first_or_0 data in Ok (DvBlindsControl (has_bit byte 8) (Z.land byte 7))).

Definition scaling_encode (x : Z) : Z :=
  f32_as_u8 (f32_mul (float_clamp (f32_of_Z 0) (f32_of_Z 100) (f32_val x)) (f32_literal 255 100)).
Definition scaling_decode (b : Z) : Z := f32_bits (f32_div (f32_of_Z b) (f32_literal 255 100)).
Definition Dpt5Scaling : DptCodec :=
  with_default_value (DvF16 0) (with_range (Some (str "%")) 0 100 (basic_codec (DptId_new 5 1) (str "Scaling") 1
    (fun v => match v with DvU8 x => Ok [x] | DvF16 x | DvF32 x => Ok [scaling_encode x] | _ => Err DptEncoding end)
    (decode_1 (fun b => DvF16 (scaling_decode b))))).
Definition angle_encode (x : Z) : Z :=
  f32_as_u8 (f32_mul (float_clamp (f32_of_Z 0) (f32_of_Z 360) (f32_val x)) (f32_div (f32_of_Z 255) (f32_of_Z 360))).
Definition angle_decode (b : Z) : Z := f32_bits (f32_mul (f32_of_Z b) (f32_div (f32_of_Z 360) (f32_of_Z 255))).
Definition Dpt5Angle : DptCodec :=
  with_range (Some [0xC2; 0xB0]) 0 360 (basic_codec (DptId_new 5 3) (str "Angle") 1
    (fun v => match v with DvU8 x => Ok [x] | DvF16 x | DvF32 x => Ok [angle_encode x] | _ => Err DptEncoding end)
    (decode_1 (fun b => DvF16 (angle_decode b)))).
Definition Dpt5Counter : DptCodec :=
  with_range None 0 255 (basic_codec (DptId_new 5 10) (str "Counter Pulses") 1
    (fun v => match v with DvU8 x => Ok [x] | _ => Err DptEncoding end) (decode_1 DvU8)).
Definition Dpt6Percent : DptCodec :=
  with_range (Some (str "%")) (-128) 127 (basic_codec (DptId_new 6 1) (str "Percent (Signed)") 1
    (fun v => match v with DvI8 x => Ok [to_unsigned 8 x] | _ => Err DptEncoding end) (decode_1 (fun b => DvI8 (to_signed 8 b)))).
Definition Dpt7Pulses : DptCodec :=
  with_range None 0 65535 (basic_codec (DptId_new 7 1) (str "Pulses") 2
    (fun v => match v with DvU16 x => Ok (u16_to_be x) | _ => Err DptEncoding end)
    (decode_2 (fun a b => DvU16 (u16_from_be a b)))).
Definition Dpt8PulsesDiff : DptCodec :=
  with_range None (-32768) 32767 (basic_codec (DptId_new 8 1) (str "Pulses Difference") 2
    (fun v => match v with DvI16 x => Ok (u16_to_be (to_unsigned 16 x)) | _ => Err DptEncoding end)
    (decode_2 (fun a b => DvI16 (to_signed 16 (u16_from_be a b))))).

Section dpt9.
Context `{BuildProfile}.

(** [i32::abs], which overflows at the least number. *)
Definition i32_abs {E} (x : Z) : outcome E Z :=
  if x =? - 2 ^ 31 then if overflow_checks then Panic else Ok x else Ok (Z.abs x).
(** The loop that halves the mantissa; the exponent, below 15 in every turn, bounds the turns. *)
Fixpoint dpt9_normalize {E} (fuel : nat) (mantissa exp : Z) : outcome E (Z * Z) :=
  let? a := i32_abs mantissa in
  if (2047 <? a) && (exp <? 15) then
    match fuel with O => Panic | S fuel => dpt9_normalize fuel (Z.quot mantissa 2) (exp + 1) end
  else Ok (mantissa, exp).
Definition dpt9_pack (mantissa exp : Z) : Z :=
  let sign := if mantissa <? 0 then 1 else 0 in
  let mantissa := as_u16 (if sign =? 1 then mantissa + 2048 else mantissa) in
  Z.lor (Z.lor (Z.shiftl sign 15) (Z.shiftl (Z.land exp 15) 11)) (Z.land mantissa 2047).
Definition encode_dpt9 {E} (value : spec_float) : outcome E Z :=
  if float_eq value (f32_of_Z 0) then Ok 0
  else
    let? p := dpt9_normalize 15 (f32_as_i32 (f32_mul value (f32_of_Z 100))) 0 in
    Ok (dpt9_pack p.1 p.2).
(** The mantissa and the exponent of a pattern; [powi] of 2.0 is exact for these exponents. *)
Definition dpt9_fields (raw : Z) : Z * Z :=
  let sign := Z.land (Z.shiftr raw 15) 1 in
  let mantissa := Z.land raw 2047 in
  (if sign =? 1 then mantissa - 2048 else mantissa, Z.land (Z.shiftr raw 11) 15).
Definition decode_dpt9 (raw : Z) : spec_float :=
  let '(mantissa, exp) := dpt9_fields raw in
  f32_mul (f32_mul (f32_literal 1 100) (f32_of_Z mantissa)) (f32_of_Z (2 ^ exp)).

Definition dpt9_encode (v : DptValue) : outcome KnxError (list Z) :=
  let? f := match v with
            | DvF16 x | DvF32 x => Ok (f32_val x)
            | DvI16 x | DvU16 x => Ok (f32_of_Z x)
            | _ => Err DptEncoding
            end in
  let? raw := encode_dpt9 f in Ok (u16_to_be raw).
Definition Dpt9Temperature : DptCodec :=
  with_default_value (DvF16 0x41A00000) (with_range (Some (0xC2 :: 0xB0 :: str "C")) (-273) 670760 (basic_codec (DptId_new 9 1) (str "Temperature") 2
    dpt9_encode (decode_2 (fun a b => DvF16 (f32_bits (decode_dpt9 (u16_from_be a b))))))).
Definition Dpt9Lux : DptCodec :=
  with_range (Some (str "lux")) 0 670760 (basic_codec (DptId_new 9 4) (str "Lux") 2 (dc_encode Dpt9Temperature) (dc_decode Dpt9Temperature)).
Definition Dpt9Humidity : DptCodec :=
  with_range (Some (str "%")) 0 100 (basic_codec (DptId_new 9 7) (str "Humidity") 2 (dc_encode Dpt9Temperature) (dc_decode Dpt9Temperature)).
End dpt9.

Definition Dpt12Counter : DptCodec :=
  basic_codec (DptId_new 12 1) (str "Counter Value") 4
    (fun v => match v with DvU32 x => Ok (u32_to_be x) | _ => Err DptEncoding end) (decode_4 DvU32).
Definition Dpt13Counter : DptCodec :=
  basic_codec (DptId_new 13 1) (str "Counter Value (Signed)") 4
    (fun v => match v with DvI32 x => Ok (u32_to_be (to_unsigned 32 x)) | _ => Err DptEncoding end)
    (decode_4 (fun x => DvI32 (to_signed 32 x))).
Definition Dpt14Float : DptCodec :=
  basic_codec (main_only 14) (str "Float (32-bit)") 4
    (fun v => match v with DvF32 x | DvF16 x => Ok (u32_to_be x) | _ => Err DptEncoding end) (decode_4 DvF32).

(** [iter().position(|&b| b == 0)]. *)
Fixpoint position_zero (l : list Z) : option nat :=
  match l with [] => None | x :: l => if x =? 0 then Some O else S <$> position_zero l end.
Definition Dpt16String : DptCodec :=
  with_default_value (DvString []) (basic_codec (DptId_new 16 1) (str "String (ASCII)") 14
    (fun v => match v with DvString s => Ok (take 14 s ++ replicate (14 - length s) 0) | _ => Err DptEncoding end)
    (fun data =>
       let? _ := validate_length data 14 in
       let? s := slice data 0 (Z.of_nat (default 14%nat (position_zero data))) in Ok (DvString (from_utf8_lossy s)))).

Definition scene_number (n : Z) (byte : Z) : outcome KnxError (list Z) := if 63 <? n then Err DptValueOutOfRange else Ok [byte].
Definition Dpt17Scene : DptCodec :=
  with_range None 0 63 (basic_codec (DptId_new 17 1) (str "Scene Number") 1
    (fun v => match v with DvU8 n | DvScene n _ => scene_number n n | _ => Err DptEncoding end)
    (decode_1 (fun b => DvScene (Z.land b 63) false))).
Definition Dpt18SceneControl : DptCodec :=
  basic_codec (DptId_new 18 1) (str "Scene Control") 1
    (fun v => match v with DvScene n learn => scene_number n (Z.lor (bit_if learn 128) (Z.land n 63)) | _ => Err DptEncoding end)
    (decode_1 (fun b => DvScene (Z.land b 63) (has_bit b 128))).
Definition Dpt20HvacMode : DptCodec :=
  basic_codec (DptId_new 20 102) (str "HVAC Mode") 1
    (fun v => match v with DvHvacMode m => Ok [HvacMode_to_raw m] | DvU8 x => Ok [x] | _ => Err DptEncoding end)
    (decode_1 (fun b => match HvacMode_from_raw b with Some m => DvHvacMode m | None => DvU8 b end)).
Definition Dpt232Rgb : DptCodec :=
  basic_codec (DptId_new 232 600) (str "Color RGB") 3
    (fun v => match v with DvColorRgb r g b => Ok [r; g; b] | _ => Err DptEncoding end)
    (fun data => let? _ := validate_length data 3 in
       let? r := index data 0 in let? g := index data 1 in let? b := index data 2 in Ok (DvColorRgb r g b)).

(* ------------------------------------------------------------------ *)
(** * The registry *)

Record DptRegistry : Type := { dr_codecs : gmap DptId DptCodec; dr_main_type_fallbacks : gmap Z DptCodec }.
Definition DptRegistry_empty : DptRegistry := {| dr_codecs := ∅; dr_main_type_fallbacks := ∅ |}.
Definition dpt_register (c : DptCodec) (r : DptRegistry) : DptRegistry :=
  {| dr_codecs := <[dc_id c := c]> (dr_codecs r); dr_main_type_fallbacks := dr_main_type_fallbacks r |}.
Definition register_fallback (main : Z) (c : DptCodec) (r : DptRegistry) : DptRegistry :=
  {| dr_codecs := dr_codecs r; dr_main_type_fallbacks := <[main := c]> (dr_main_type_fallbacks r) |}.
Definition dpt_get (id : DptId) (r : DptRegistry) : option DptCodec :=
  match dr_codecs r !! id with Some c => Some c | None => dr_main_type_fallbacks r !! dpt_main id end.
Definition get_or_err (id : DptId) (r : DptRegistry) : outcome KnxError DptCodec := ok_or (dpt_get id r) InvalidDpt.
Definition get_by_str (s : list Z) (r : DptRegistry) : option DptCodec :=
  match DptId_from_str s with Ok id => dpt_get id r | _ => None end.
Definition dpt_contains (id : DptId) (r : DptRegistry) : bool :=
  is_some (dr_codecs r !! id) || is_some (dr_main_type_fallbacks r !! dpt_main id).
Definition dpt_count (r : DptRegistry) : Z := Z.of_nat (size (dr_codecs r)).

Definition standard_codecs `{BuildProfile} : list DptCodec :=
  [Dpt1Switch; Dpt1Bool; Dpt1UpDown; Dpt2SwitchControl; Dpt3DimmingControl; Dpt3BlindsControl; Dpt5Scaling; Dpt5Angle;
   Dpt5Counter; Dpt6Percent; Dpt7Pulses; Dpt8PulsesDiff; Dpt9Temperature; Dpt9Lux; Dpt9Humidity; Dpt12Counter; Dpt13Counter;
   Dpt14Float; Dpt16String; Dpt17Scene; Dpt18SceneControl; Dpt20HvacMode; Dpt232Rgb].
Definition register_standard_types `{BuildProfile} (r : DptRegistry) : DptRegistry :=
  register_fallback 14 Dpt14Float (register_fallback 9 Dpt9Temperature (register_fallback 5 Dpt5Counter
    (register_fallback 1 Dpt1Switch (foldl (fun r c => dpt_register c r) r standard_codecs)))).
Definition DptRegistry_new `{BuildProfile} : DptRegistry := register_standard_types DptRegistry_empty.

(* ------------------------------------------------------------------ *)
(** * Group objects with their codecs *)

(** The raw part is the [GroupObject] the server works on. *)
Record TypedObject : Type := {
  to_object : GroupObject; to_name : list Z; to_description : list Z; to_codec : DptCodec; to_last_update : Z }.
Definition set_value (now : Z) (d : list Z) (o : TypedObject) : TypedObject :=
  {| to_object := {| go_address := go_address (to_object o); go_flags := go_flags (to_object o); go_value := d |};
     to_name := to_name o; to_description := to_description o; to_codec := to_codec o; to_last_update := now |}.
Definition set_flags (f : GroupObjectFlags) (o : TypedObject) : TypedObject :=
  {| to_object := {| go_address := go_address (to_object o); go_flags := f; go_value := go_value (to_object o) |};
     to_name := to_name o; to_description := to_description o; to_codec := to_codec o; to_last_update := to_last_update o |}.
Definition set_description (d : list Z) (o : TypedObject) : TypedObject :=
  {| to_object := to_object o; to_name := to_name o; to_description := d; to_codec := to_codec o; to_last_update := to_last_update o |}.

(** [unwrap_or_default] turns a refused default value into no bytes at all. *)
Definition GroupObject_new (now address : Z) (name : list Z) (c : DptCodec) : outcome KnxError TypedObject :=
  let? encoded := match dc_encode c (dc_default_value c) with Err _ => Ok [] | r => r end in
  Ok {| to_object := {| go_address := address; go_flags := flags_read_write; go_value := encoded |};
        to_name := name; to_description := []; to_codec := c; to_last_update := now |}.
Definition object_read_value (o : TypedObject) : outcome KnxError DptValue := dc_decode (to_codec o) (go_value (to_object o)).
Definition object_write_raw (now : Z) (d : list Z) : stM TypedObject KnxError unit := fun o =>
  if negb (gf_write (go_flags (to_object o))) then (Err GroupObjectWriteNotAllowed, o) else (Ok tt, set_value now d o).
Definition object_write_value (now : Z) (v : DptValue) : stM TypedObject KnxError unit := fun o =>
  if negb (gf_write (go_flags (to_object o))) then (Err GroupObjectWriteNotAllowed, o)
  else match dc_encode (to_codec o) v with
       | Ok encoded => (Ok tt, set_value now encoded o)
       | Err e => (Err e, o)
       | Panic => (Panic, o)
       end.
Definition with_value (now : Z) (v : DptValue) (o : TypedObject) : outcome KnxError TypedObject :=
  let '(r, o) := object_write_value now v o in let? _ := r in Ok o.
Definition object_age (now : Z) (o : TypedObject) : Z := Z.max 0 (now - to_last_update o).

Inductive GroupEvent : Set :=
| GeValueWrite (address : Z) (value : list Z) (source : option (list Z))
| GeReadRequest (address : Z) (source : option (list Z))
| GeReadResponse (address : Z) (value : list Z)
| GeObjectCreated (address : Z)
| GeObjectRemoved (address : Z).
Definition event_address (e : GroupEvent) : Z :=
  match e with GeValueWrite a _ _ | GeReadRequest a _ | GeReadResponse a _ | GeObjectCreated a | GeObjectRemoved a => a end.

(** The table with its registry; the events sent so far stand for the broadcast channel. *)
Record ObjectTable : Type := { ot_objects : gmap Z TypedObject; ot_events : list GroupEvent; ot_registry : DptRegistry }.
Definition ObjectTable_with_registry (r : DptRegistry) : ObjectTable := {| ot_objects := ∅; ot_events := []; ot_registry := r |}.
Definition emit (ev : list GroupEvent) (t : ObjectTable) : ObjectTable :=
  {| ot_objects := ot_objects t; ot_events := ot_events t ++ ev; ot_registry := ot_registry t |}.
Definition set_objects (m : gmap Z TypedObject) (t : ObjectTable) : ObjectTable :=
  {| ot_objects := m; ot_events := ot_events t; ot_registry := ot_registry t |}.
Definition table_add (o : TypedObject) (t : ObjectTable) : ObjectTable :=
  let a := go_address (to_object o) in emit [GeObjectCreated a] (set_objects (<[a := o]> (ot_objects t)) t).
Definition table_create (now address : Z) (name : list Z) (id : DptId) : stM ObjectTable KnxError TypedObject := fun t =>
  match get_or_err id (ot_registry t) with
  | Ok c =>
      match GroupObject_new now address name c with
      | Ok o => (Ok o, emit [GeObjectCreated address] (set_objects (<[address := o]> (ot_objects t)) t))
      | Err e => (Err e, t)
      | Panic => (Panic, t)
      end
  | Err e => (Err e, t)
  | Panic => (Panic, t)
  end.
Definition table_remove (a : Z) (t : ObjectTable) : option TypedObject * ObjectTable :=
  match ot_objects t !! a with
  | Some o => (Some o, emit [GeObjectRemoved a] (set_objects (delete a (ot_objects t)) t))
  | None => (None, t)
  end.
Definition table_read (a : Z) (t : ObjectTable) : outcome KnxError (list Z) :=
  let? o := ok_or (ot_objects t !! a) GroupObjectNotFound in
  if negb (can_read (to_object o)) then Err GroupObjectReadNotAllowed else Ok (go_value (to_object o)).
Definition table_read_value (a : Z) (t : ObjectTable) : outcome KnxError DptValue :=
  let? o := ok_or (ot_objects t !! a) GroupObjectNotFound in
  if negb (can_read (to_object o)) then Err GroupObjectReadNotAllowed else object_read_value o.
(** An operation on the object at an address, then the events for what it leaves there. *)
Definition on_object (a : Z) (op : stM TypedObject KnxError unit) (ev : TypedObject → list GroupEvent) : stM ObjectTable KnxError unit := fun t =>
  match ot_objects t !! a with
  | None => (Err GroupObjectNotFound, t)
  | Some o =>
      let '(r, o') := op o in
      let t := set_objects (<[a := o']> (ot_objects t)) t in
      match r with Ok _ => (Ok tt, emit (ev o') t) | Err e => (Err e, t) | Panic => (Panic, t) end
  end.
Definition table_write (now a : Z) (d : list Z) (source : option (list Z)) : stM ObjectTable KnxError unit :=
  on_object a (object_write_raw now d) (fun _ => [GeValueWrite a d source]).
Definition table_write_value (now a : Z) (v : DptValue) (source : option (list Z)) : stM ObjectTable KnxError unit :=
  on_object a (object_write_value now v) (fun o => [GeValueWrite a (go_value (to_object o)) source]).
Definition handle_read_request (a : Z) (source : option (list Z)) : stM ObjectTable KnxError (list Z) := fun t =>
  let t := emit [GeReadRequest a source] t in
  match table_read a t with
  | Ok v => (Ok v, emit [GeReadResponse a v] t)
  | Err e => (Err e, t)
  | Panic => (Panic, t)
  end.
Definition table_range `{MapOrder TypedObject} (lo hi : Z) (t : ObjectTable) : list TypedObject :=
  snd <$> filter (fun p => lo <= p.1 <= hi) (map_iter (ot_objects t)).

(** [GroupObjectBuilder::build]. *)
Definition build_object (now address : Z) (name description : list Z) (id : DptId) (flags : GroupObjectFlags)
    (initial : option DptValue) (r : DptRegistry) : outcome KnxError TypedObject :=
  let? c := get_or_err id r in
  let? o := GroupObject_new now address name c in
  let o := set_flags flags (set_description description o) in
  match initial with Some v => with_value now v o | None => Ok o end.

(* ------------------------------------------------------------------ *)
(** * The laws of a codec *)

(** The range of the numbers a value is made of. *)
Definition dpt_value_ok (v : DptValue) : Prop :=
  match v with
  | DvU8 x | DvDimmingControl _ x | DvBlindsControl _ x | DvScene x _ => is_u8 x
  | DvU16 x => is_u16 x
  | DvU32 x | DvF16 x | DvF32 x => is_u32 x
  | DvString s => bytes_ok s
  | DvColorRgb r g b => is_u8 r ∧ is_u8 g ∧ is_u8 b
  | _ => True
  end.
(** The values a type carries without loss. *)
Definition carried_by (i : DptId) (v : DptValue) : Prop :=
  match v with
  | DvBool _ => dpt_main i = 1
  | DvPriorityControl _ _ => i = DptId_new 2 1
  | DvDimmingControl _ s => i = DptId_new 3 7 ∧ 0 <= s < 8
  | DvBlindsControl _ s => i = DptId_new 3 8 ∧ 0 <= s < 8
  | DvU8 x => is_u8 x ∧ (i = DptId_new 5 10 ∨ i = DptId_new 20 102 ∧ 5 <= x)
  | DvI8 x => i = DptId_new 6 1 ∧ -128 <= x < 128
  | DvU16 x => i = DptId_new 7 1 ∧ is_u16 x
  | DvI16 x => i = DptId_new 8 1 ∧ -32768 <= x < 32768
  | DvU32 x => i = DptId_new 12 1 ∧ is_u32 x
  | DvI32 x => i = DptId_new 13 1 ∧ - 2 ^ 31 <= x < 2 ^ 31
  | DvF32 x => i = main_only 14 ∧ is_u32 x
  | DvString s => i = DptId_new 16 1 ∧ zlen s <= 14 ∧ is_utf8 s = true ∧ Forall (fun b => b ≠ 0) s
  | DvScene n learn => 0 <= n <= 63 ∧ (i = DptId_new 17 1 ∧ learn = false ∨ i = DptId_new 18 1)
  | DvHvacMode _ => i = DptId_new 20 102
  | DvColorRgb _ _ _ => i = DptId_new 232 600
  | _ => False
  end.

Class LawfulDpt (c : DptCodec) : Prop := {
  dpt_decode_total data :
    (zlen data < dc_size c → dc_decode c data = Err DptDecoding) ∧ (dc_size c <= zlen data → ∃ v, dc_decode c data = Ok v);
  dpt_encode_shape v bytes : dpt_value_ok v → dc_encode c v = Ok bytes → bytes_ok bytes ∧ zlen bytes = Z.max 1 (dc_size c);
  dpt_carried v : carried_by (dc_id c) v → ∃ bytes, dc_encode c v = Ok bytes ∧ dc_decode c bytes = Ok v;
}.

Lemma validate_length_ok data n : n <= zlen data → validate_length data n = Ok tt.
Proof. intros Hn. unfold validate_length. by replace (zlen data <? n) with false by lia. Qed.
Lemma validate_length_short data n : zlen data < n → validate_length data n = Err DptDecoding.
Proof. intros Hn. unfold validate_length. by replace (zlen data <? n) with true by lia. Qed.
Lemma index_in {E A} (l : list A) i : Z.of_nat i < zlen l → ∃ x, index (E:=E) l i = Ok x ∧ l !! i = Some x.
Proof. intros Hi. unfold zlen in Hi. destruct (lookup_lt_is_Some_2 l i) as [x Hx]; [lia|]. exists x. split; [by apply index_lookup|done]. Qed.

Ltac decode_total_tac :=
  intros; split; intros;
  [by (rewrite validate_length_short by done)
  |rewrite validate_length_ok by done; cbn -[index slice Z.of_nat zlen];
   repeat (match goal with |- context [index ?l ?i] => let x := fresh in let H := fresh in
     destruct (index_in (E:=KnxError) l i) as (x & H & _); [lia|rewrite H; clear H; cbn -[index]] end); eauto].
Lemma decode_1_total f data :
  (zlen data < 1 → decode_1 f data = Err DptDecoding) ∧ (1 <= zlen data → ∃ v, decode_1 f data = Ok v).
Proof. unfold decode_1. decode_total_tac. Qed.
Lemma decode_2_total f data :
  (zlen data < 2 → decode_2 f data = Err DptDecoding) ∧ (2 <= zlen data → ∃ v, decode_2 f data = Ok v).
Proof. unfold decode_2. decode_total_tac. Qed.
Lemma decode_4_total f data :
  (zlen data < 4 → decode_4 f data = Err DptDecoding) ∧ (4 <= zlen data → ∃ v, decode_4 f data = Ok v).
Proof. unfold decode_4. decode_total_tac. Qed.
Lemma decode_4_be f x : is_u32 x → decode_4 f (u32_to_be x) = Ok (f x).
Proof. intros Hx. unfold decode_4. rewrite validate_length_ok by done. unfold u32_to_be, index. cbn. do 2 f_equal. int_lia. Qed.
Lemma u32_to_be_ok x : bytes_ok (u32_to_be x) ∧ zlen (u32_to_be x) = 4.
Proof. split; [|done]. unfold u32_to_be. bytes_split; int_lia. Qed.
Lemma position_zero_lt l i : position_zero l = Some i → (i < length l)%nat.
Proof. revert i. induction l as [|x l IH]; intros i Hi; simplify_eq/=. case_match; simplify_eq; [lia|]. destruct (position_zero l); simplify_eq/=. specialize (IH _ eq_refl). lia. Qed.
Lemma position_zero_app l k : Forall (fun b => b ≠ 0) l → position_zero (l ++ k) = (fun i => length l + i)%nat <$> position_zero k.
Proof.
  induction 1 as [|x l Hx Hl IH]; cbn; [by destruct (position_zero k)|].
  replace (x =? 0) with false by lia. rewrite IH. by destruct (position_zero k).
Qed.
Lemma has_bit_lor b m x : Z.land (Z.lor (bit_if b m) x) m = Z.lor (bit_if b m) (Z.land x m).
Proof. unfold bit_if. destruct b; rewrite Z.land_lor_distr_l, ?Z.land_diag; done. Qed.

Lemma bit_if_range b m n : 0 <= m < n → 0 < n → 0 <= bit_if b m < n.
Proof. destruct b; cbn; lia. Qed.
Lemma flagged_byte b m s n : is_u8 m → 0 <= n → Z.land s n < 256 → is_u8 (Z.lor (bit_if b m) (Z.land s n)).
Proof.
  intros Hm Hn Hs. apply (lor_range _ _ 8); [lia|apply bit_if_range; unfold is_u8 in Hm; lia|].
  split; [apply Z.land_nonneg; lia|done].
Qed.

(** The three laws of a codec, by cases on the value. *)
Ltac dpt_total := intros data; pose proof (zlen_nonneg data); cbn -[zlen decode_1 decode_2 decode_4];
  first [apply decode_1_total|apply decode_2_total|apply decode_4_total|split; [lia|eauto]].
Ltac dpt_shape := intros v bytes Hv He; cbn in He; destruct v; simplify_eq/=; (split; [|done]); bytes_split; int_lia.
Ltac dpt_cases := intros v Hv; cbn in Hv; destruct v; try (exfalso; naive_solver lia).
Ltac dpt_one := eexists; split; [reflexivity|]; cbn -[decode_1 decode_2 decode_4 zlen]; unfold decode_1, decode_2; rewrite validate_length_ok by done; unfold index; cbn.

#[global] Instance Dpt1Switch_lawful : LawfulDpt Dpt1Switch.
Proof.
  split; [dpt_total| |].
  - intros v bytes Hv He. cbn in He. destruct v; simplify_eq/=; (split; [|done]); bytes_split; by apply bit_if_range.
  - dpt_cases. destruct v; by eexists.
Qed.
Lemma switch_lawful c : dc_size c = 0 → dpt_main (dc_id c) = 1 → dc_encode c = switch_encode → dc_decode c = switch_decode → LawfulDpt c.
Proof.
  intros Hs Hi He Hd. destruct Dpt1Switch_lawful as [Ht Hp Hc]. cbn in Ht, Hp, Hc. split; rewrite ?Hs, ?He, ?Hd; [done|done|].
  intros v Hv. apply Hc. destruct v; cbn in *; try done; destruct_and?; destruct_or?; destruct_and?; try done;
  match goal with H : dc_id c = _ |- _ => rewrite H in Hi end; discriminate.
Qed.
#[global] Instance Dpt1Bool_lawful : LawfulDpt Dpt1Bool := switch_lawful Dpt1Bool eq_refl eq_refl eq_refl eq_refl.
#[global] Instance Dpt1UpDown_lawful : LawfulDpt Dpt1UpDown := switch_lawful Dpt1UpDown eq_refl eq_refl eq_refl eq_refl.
#[global] Instance Dpt2SwitchControl_lawful : LawfulDpt Dpt2SwitchControl.
Proof.
  split; [dpt_total| |].
  - intros v bytes Hv He. cbn in He. destruct v; simplify_eq/=; (split; [|done]). bytes_split. apply (lor_range _ _ 8); [lia|by apply bit_if_range..].
  - dpt_cases. destruct control, value; by eexists.
Qed.
Lemma step_byte_carried d s : 0 <= s < 8 → has_bit (Z.lor (bit_if d 8) (Z.land s 7)) 8 = d ∧ Z.land (Z.lor (bit_if d 8) (Z.land s 7)) 7 = s.
Proof.
  intros Hs. assert (s ∈ zrange 0 8) as Hin by (apply elem_of_zrange; lia).
  repeat (apply elem_of_cons in Hin as [->|Hin]; [by destruct d|]). by apply elem_of_nil in Hin.
Qed.
#[global] Instance Dpt3DimmingControl_lawful : LawfulDpt Dpt3DimmingControl.
Proof.
  split; [dpt_total| |].
  - intros v bytes Hv He. cbn in He. destruct v; simplify_eq/=; (split; [|done]). bytes_split. apply flagged_byte; [done|done|]. rewrite land_7. int_lia.
  - dpt_cases. eexists. split; [done|]. cbn. destruct (step_byte_carried direction step_code) as [-> ->]; [naive_solver|done].
Qed.
#[global] Instance Dpt3BlindsControl_lawful : LawfulDpt Dpt3BlindsControl.
Proof.
  split; [dpt_total| |].
  - intros v bytes Hv He. cbn in He. destruct v; simplify_eq/=; (split; [|done]). bytes_split. apply flagged_byte; [done|done|]. rewrite land_7. int_lia.
  - dpt_cases. eexists. split; [done|]. cbn. destruct (step_byte_carried direction step_code) as [-> ->]; [naive_solver|done].
Qed.
Lemma f32_as_u8_range f : is_u8 (f32_as_u8 f).
Proof. unfold is_u8, f32_as_u8, float_as_int. repeat case_match; lia. Qed.
#[global] Instance Dpt5Scaling_lawful : LawfulDpt Dpt5Scaling.
Proof.
  split; [dpt_total| |dpt_cases].
  intros v bytes Hv He. cbn -[scaling_encode] in He. destruct v; simplify_eq; (split; [|done]); bytes_split; [done|apply f32_as_u8_range..].
Qed.
#[global] Instance Dpt5Angle_lawful : LawfulDpt Dpt5Angle.
Proof.
  split; [dpt_total| |dpt_cases].
  intros v bytes Hv He. cbn -[angle_encode] in He. destruct v; simplify_eq; (split; [|done]); bytes_split; [done|apply f32_as_u8_range..].
Qed.
#[global] Instance Dpt5Counter_lawful : LawfulDpt Dpt5Counter.
Proof. split; [dpt_total|dpt_shape|]. dpt_cases. by dpt_one. Qed.
#[global] Instance Dpt6Percent_lawful : LawfulDpt Dpt6Percent.
Proof.
  split; [dpt_total| |].
  - intros v bytes Hv He. cbn in He. destruct v; simplify_eq/=; (split; [|done]). bytes_split. unfold to_unsigned. int_lia.
  - dpt_cases. dpt_one. rewrite signed_roundtrip; [done|lia|destruct Hv; lia].
Qed.
#[global] Instance Dpt7Pulses_lawful : LawfulDpt Dpt7Pulses.
Proof.
  split; [dpt_total|dpt_shape|]. dpt_cases. dpt_one. do 2 f_equal. destruct Hv. int_lia.
Qed.
#[global] Instance Dpt8PulsesDiff_lawful : LawfulDpt Dpt8PulsesDiff.
Proof.
  split; [dpt_total|dpt_shape|]. dpt_cases. dpt_one. destruct Hv as [_ Hv].
  rewrite u16_be_roundtrip by (unfold to_unsigned; int_lia). rewrite signed_roundtrip; [done|lia|lia].
Qed.

Section dpt9_laws.
Context `{BuildProfile}.

Lemma dpt9_encode_word v bytes : dpt9_encode v = Ok bytes → ∃ raw, bytes = u16_to_be raw.
Proof.
  unfold dpt9_encode. destruct (match v with DvF16 x => _ | _ => _ end) as [f| |]; cbn [obind]; [|done|done].
  destruct (encode_dpt9 f) as [raw| |]; cbn [obind]; [|done|done]. intros [= <-]. eauto.
Qed.
#[export] Instance Dpt9Temperature_lawful : LawfulDpt Dpt9Temperature.
Proof.
  split; [dpt_total| |dpt_cases].
  intros v bytes Hv He. apply dpt9_encode_word in He as [raw ->]. split; [apply u16_to_be_ok|done].
Qed.
Lemma dpt9_lawful c : dc_size c = 2 → dpt_main (dc_id c) = 9 → dc_encode c = dc_encode Dpt9Temperature → dc_decode c = dc_decode Dpt9Temperature → LawfulDpt c.
Proof.
  intros Hs Hi He Hd. destruct Dpt9Temperature_lawful as [Ht Hp Hc]. split; rewrite ?Hs, ?He, ?Hd; [done|done|].
  intros v Hv. exfalso. destruct v; cbn in *; destruct_and?; destruct_or?; destruct_and?; try lia; try done;
  match goal with H : dc_id c = _ |- _ => rewrite H in Hi end; discriminate.
Qed.
#[export] Instance Dpt9Lux_lawful : LawfulDpt Dpt9Lux := dpt9_lawful Dpt9Lux eq_refl eq_refl eq_refl eq_refl.
#[export] Instance Dpt9Humidity_lawful : LawfulDpt Dpt9Humidity := dpt9_lawful Dpt9Humidity eq_refl eq_refl eq_refl eq_refl.
End dpt9_laws.

Ltac dpt_words := intros v bytes Hv He; cbn in He; destruct v; simplify_eq; apply u32_to_be_ok.
Ltac dpt_word := eexists; split; [reflexivity|]; cbn -[decode_4]; rewrite decode_4_be; [|try done].
#[global] Instance Dpt12Counter_lawful : LawfulDpt Dpt12Counter.
Proof. split; [dpt_total|dpt_words|]. dpt_cases. destruct Hv. by dpt_word. Qed.
#[global] Instance Dpt13Counter_lawful : LawfulDpt Dpt13Counter.
Proof.
  split; [dpt_total|dpt_words|]. dpt_cases. destruct Hv. dpt_word; [by rewrite signed_roundtrip by lia|].
  pose proof (to_unsigned_range 32 v). unfold is_u32. lia.
Qed.
#[global] Instance Dpt14Float_lawful : LawfulDpt Dpt14Float.
Proof. split; [dpt_total|dpt_words|]. dpt_cases. destruct Hv. by dpt_word. Qed.
Lemma string_padded s : bytes_ok s → bytes_ok (take 14 s ++ replicate (14 - length s) 0) ∧ zlen (take 14 s ++ replicate (14 - length s) 0) = 14.
Proof.
  intros Hs. split; [|unfold zlen; rewrite length_app, length_take, length_replicate; lia].
  apply bytes_ok_app. split; [by apply Forall_take|by apply Forall_replicate].
Qed.
Lemma position_zero_replicate n : position_zero (replicate n 0) = if decide (n = 0%nat) then None else Some O.
Proof. by destruct n. Qed.
#[global] Instance Dpt16String_lawful : LawfulDpt Dpt16String.
Proof.
  split.
  - intros data. cbn -[zlen slice]. split; intros Hd; [by rewrite validate_length_short|].
    rewrite validate_length_ok by done. cbn -[zlen slice]. rewrite slice_ok; [eauto|lia|].
    destruct (position_zero data) eqn:E; cbn; [apply position_zero_lt in E|]; unfold zlen in *; lia.
  - intros v bytes Hv He. cbn in He. destruct v; simplify_eq/=. by apply string_padded.
  - dpt_cases. destruct Hv as (_ & Hl & Hu & Hz). eexists. split; [reflexivity|]. cbn -[zlen slice].
    rewrite take_ge by (unfold zlen in Hl; lia). rewrite validate_length_ok by (unfold zlen in *; rewrite length_app, length_replicate; lia).
    cbn -[zlen slice]. rewrite position_zero_app, position_zero_replicate by done.
    rewrite slice_app by (unfold zlen in *; case_decide; cbn; lia). cbn. by rewrite lossy_valid.
Qed.
Lemma scene_byte n : 0 <= n <= 63 → Z.land n 63 = n.
Proof. intros Hn. rewrite land_63. int_lia. Qed.
#[global] Instance Dpt17Scene_lawful : LawfulDpt Dpt17Scene.
Proof.
  split; [dpt_total| |].
  - intros v bytes Hv He. cbn in He. unfold scene_number in He. destruct v; try done; case_match; simplify_eq/=; (split; [|done]); by bytes_split.
  - dpt_cases. destruct Hv as [Hn Hl]. exists [number]. cbn -[decode_1]. unfold scene_number. replace (63 <? number) with false by lia.
    split; [done|]. unfold decode_1. rewrite validate_length_ok by done. unfold index. cbn. rewrite scene_byte by done. naive_solver.
Qed.
Lemma scene_control_carried n learn : 0 <= n <= 63 →
  Z.land (Z.lor (bit_if learn 128) (Z.land n 63)) 63 = n ∧ has_bit (Z.lor (bit_if learn 128) (Z.land n 63)) 128 = learn.
Proof.
  intros Hn. rewrite (scene_byte n) by done. unfold has_bit. rewrite !Z.land_lor_distr_l, (scene_byte n) by done.
  assert (Z.land n 128 = 0) as ->; [|by destruct learn].
  apply Z.bits_inj_0. intros i. rewrite Z.land_spec. destruct (decide (i = 7)) as [->|Hi].
  - rewrite (testbit_high n 6); [done|lia|lia].
  - change 128 with (2 ^ 7). destruct (decide (0 <= i)); [rewrite Z.pow2_bits_false by lia; by rewrite andb_false_r|by rewrite Z.testbit_neg_r by lia].
Qed.
#[global] Instance Dpt18SceneControl_lawful : LawfulDpt Dpt18SceneControl.
Proof.
  split; [dpt_total| |].
  - intros v bytes Hv He. cbn in He. unfold scene_number in He. destruct v; try done; case_match; simplify_eq/=; (split; [|done]); bytes_split.
    apply flagged_byte; [done|done|]. rewrite land_63. int_lia.
  - dpt_cases. destruct Hv as [Hn Hl]. eexists. cbn -[decode_1 bit_if]. unfold scene_number. replace (63 <? number) with false by lia.
    split; [done|]. unfold decode_1. rewrite validate_length_ok by done. unfold index. cbn -[bit_if].
    by destruct (scene_control_carried number learn) as [-> ->].
Qed.
#[global] Instance Dpt20HvacMode_lawful : LawfulDpt Dpt20HvacMode.
Proof.
  split; [dpt_total| |].
  - intros v bytes Hv He. cbn in He. destruct v; simplify_eq/=; (split; [|done]); bytes_split; [done|]. by destruct m.
  - dpt_cases; [|by destruct m; eexists].
    assert (5 <= v) as H5 by naive_solver. dpt_one.
    assert (HvacMode_from_raw v = None) as ->; [|done]. unfold HvacMode_from_raw. repeat case_match; first [done|lia].
Qed.
#[global] Instance Dpt232Rgb_lawful : LawfulDpt Dpt232Rgb.
Proof.
  split.
  - intros data. cbn -[index zlen]. decode_total_tac.
  - intros v bytes Hv He. cbn in He. destruct v; simplify_eq/=; (split; [|done]); bytes_split; naive_solver.
  - dpt_cases. by eexists.
Qed.

Lemma standard_lawful `{BuildProfile} c : c ∈ standard_codecs → LawfulDpt c.
Proof. unfold standard_codecs. intros Hc. repeat (apply elem_of_cons in Hc as [->|Hc]; [apply _|]). by apply elem_of_nil in Hc. Qed.

(** What a registry of standard types finds: the type itself, or the fallback of its main number. *)
Lemma standard_get `{BuildProfile} id c : dpt_get id DptRegistry_new = Some c → c ∈ standard_codecs ∧ dpt_main (dc_id c) = dpt_main id.
Proof.
  assert (map_Forall (fun id c => c ∈ standard_codecs ∧ dc_id c = id) (dr_codecs DptRegistry_new)) as Hc.
  { cbn [dr_codecs DptRegistry_new register_standard_types register_fallback].
    assert (∀ l r, (∀ c, c ∈ l → c ∈ standard_codecs) → map_Forall (fun id c => c ∈ standard_codecs ∧ dc_id c = id) (dr_codecs r) →
              map_Forall (fun id c => c ∈ standard_codecs ∧ dc_id c = id) (dr_codecs (foldl (fun r c => dpt_register c r) r l))) as Hl.
    { induction l as [|c' l IH]; intros r Hs Hr; [done|]. cbn [foldl]. apply IH; [intros; apply Hs; by right|].
      apply map_Forall_insert_2; [split; [apply Hs; by left|done]|done]. }
    apply Hl; [done|apply map_Forall_empty]. }
  unfold dpt_get. destruct (dr_codecs _ !! id) as [c'|] eqn:E; [intros [= <-]; by destruct (Hc _ _ E) as [? ->]|].
  cbn [dr_main_type_fallbacks DptRegistry_new register_standard_types register_fallback]. intros Hf.
  assert (dr_main_type_fallbacks (foldl (fun r c => dpt_register c r) DptRegistry_empty standard_codecs) = ∅) as Hnone by done.
  rewrite Hnone in Hf.
  repeat (apply lookup_insert_Some in Hf as [[Hk <-]|[_ Hf]]; [rewrite <- Hk; split; [unfold standard_codecs; repeat (first [by left|right])|done]|]).
  done.
Qed.

(* ------------------------------------------------------------------ *)
(** * The 16-bit float *)

Lemma quot_abs_pow x k : 0 <= k → Z.abs (Z.quot x (2 ^ k)) = Z.abs x / 2 ^ k.
Proof.
  intros Hk. assert (0 < 2 ^ k) by (apply Z.pow_pos_nonneg; lia). rewrite <- Z.quot_abs by lia. rewrite (Z.abs_eq (2 ^ k)) by lia. apply Z.quot_div_nonneg; lia.
Qed.
Lemma normalize_halves `{BuildProfile} {E} fuel x e : - 2 ^ 31 < x < 2 ^ 31 → 0 <= e → e + Z.of_nat fuel = 15 →
  ∃ k, dpt9_normalize (E:=E) fuel x e = Ok (Z.quot x (2 ^ k), e + k) ∧ 0 <= k ∧ e + k <= 15 ∧
       (k = 0 ∨ 1024 <= Z.abs (Z.quot x (2 ^ k))) ∧ (Z.abs (Z.quot x (2 ^ k)) <= 2047 ∨ e + k = 15).
Proof.
  revert x e. induction fuel as [|fuel IH]; intros x e Hx He Hf; cbn [dpt9_normalize]; unfold i32_abs;
    replace (x =? - 2 ^ 31) with false by lia; cbn [obind].
  - replace (e <? 15) with false by lia. rewrite andb_false_r. exists 0. rewrite Z.pow_0_r, Z.quot_1_r, Z.add_0_r. repeat split; [lia|lia|by left|right; lia].
  - destruct (Z.ltb_spec 2047 (Z.abs x)) as [Hb|Hb]; cbn [andb].
    2:{ exists 0. rewrite Z.pow_0_r, Z.quot_1_r, Z.add_0_r. repeat split; [lia|lia|by left|by left]. }
    replace (e <? 15) with true by lia.
    pose proof (quot_abs_pow x 1) as Ha. change (2 ^ 1) with 2 in Ha.
    destruct (IH (Z.quot x 2) (e + 1)) as (k & -> & Hk & Hk' & Hlow & Hup); [|lia|lia|].
    { assert (Z.abs (Z.quot x 2) < 2 ^ 31) by (rewrite Ha by lia; apply Z.div_lt_upper_bound; lia). lia. }
    exists (k + 1). rewrite Z.pow_add_r, Z.pow_1_r, (Z.mul_comm (2 ^ k)) by lia. rewrite <- Z.quot_quot by lia.
    repeat split; [do 2 f_equal; lia|lia|lia| |destruct Hup; [by left|right; lia]].
    right. destruct Hlow as [->|]; [|done]. rewrite Z.pow_0_r, Z.quot_1_r, Ha by lia. apply Z.div_le_lower_bound; lia.
Qed.
Lemma dpt9_pack_fields m e : -2047 <= m <= 2047 → 0 <= e <= 15 → is_u16 (dpt9_pack m e) ∧ dpt9_fields (dpt9_pack m e) = (m, e).
Proof.
  intros Hm He. set (s := if m <? 0 then 1 else 0). set (a := if m <? 0 then m + 2048 else m).
  assert (0 <= a < 2048 ∧ 0 <= s <= 1) as [Ha Hs] by (unfold a, s; case_match; lia).
  assert (dpt9_pack m e = s * 32768 + e * 2048 + a) as Hp.
  { unfold dpt9_pack. fold s. replace (if s =? 1 then m + 2048 else m) with a by (unfold s, a; by destruct (m <? 0)).
    rewrite land_2047, land_15. replace (as_u16 a mod 2048) with a by int_lia. replace (e mod 16) with e by int_lia.
    rewrite (lor_shiftl_add s (Z.shiftl e 11) 15); [|lia|rewrite Z.shiftl_mul_pow2 by lia; lia]. rewrite Z.shiftl_mul_pow2 by lia.
    replace (s * 2 ^ 15 + e * 2 ^ 11) with (Z.shiftl (s * 16 + e) 11) by (rewrite Z.shiftl_mul_pow2 by lia; lia).
    rewrite lor_shiftl_add by lia. lia. }
  rewrite Hp. split; [int_lia|]. unfold dpt9_fields. rewrite land_2047, land_1, land_15, !shiftr_div by lia.
  replace ((s * 32768 + e * 2048 + a) mod 2048) with a by int_lia. replace ((s * 32768 + e * 2048 + a) / 2 ^ 15 mod 2) with s by int_lia.
  replace ((s * 32768 + e * 2048 + a) / 2 ^ 11 mod 16) with e by int_lia.
  unfold s, a. destruct (Z.ltb_spec m 0); cbn; f_equal; lia.
Qed.

(** The hundredths a float stands for, as the encoder takes them. *)
Definition hundredths (value : Z) : Z := f32_as_i32 (f32_mul (f32_val value) (f32_of_Z 100)).
Lemma zero_hundredths value : float_eq (f32_val value) (f32_of_Z 0) = true → hundredths value = 0.
Proof. unfold hundredths, float_eq, SFeqb. by destruct (f32_val value) as [[]|[]| |[] m e]. Qed.

(** C27: The 16-bit float keeps eleven significant bits. For every number whose hundredths fit (up to
    671088.63 either way) the encoding is a word whose mantissa and exponent denote it with an
    error below one unit of its exponent, and the mantissa is at least 1024 when the exponent is
    not zero, so that the error is below a thousandth of the value. *)
Theorem dpt9_quantises `{BuildProfile} value : Z.abs (hundredths value) < 2048 * 2 ^ 15 →
  ∃ raw m e, encode_dpt9 (E:=KnxError) (f32_val value) = Ok raw ∧ is_u16 raw ∧ dpt9_fields raw = (m, e) ∧
    0 <= e <= 15 ∧ Z.abs m <= 2047 ∧ Z.abs (hundredths value - m * 2 ^ e) < 2 ^ e ∧ (e = 0 ∨ 1024 <= Z.abs m).
Proof.
  intros Hr. unfold encode_dpt9. destruct (float_eq (f32_val value) (f32_of_Z 0)) eqn:Ez.
  { exists 0, 0, 0. rewrite zero_hundredths by done. split_and!; try done. by left. }
  fold (hundredths value). set (x := hundredths value) in *.
  destruct (normalize_halves (E:=KnxError) 15 x 0) as (k & -> & Hk & Hk' & Hlow & Hup); [lia..|]. cbn [obind fst snd].
  rewrite Z.add_0_l in *. assert (0 < 2 ^ k) by (apply Z.pow_pos_nonneg; lia).
  assert (Z.abs (Z.quot x (2 ^ k)) <= 2047) as Hm.
  { destruct Hup as [|He]; [done|]. rewrite quot_abs_pow by lia. replace k with 15 by lia. apply Z.lt_succ_r, Z.div_lt_upper_bound; lia. }
  destruct (dpt9_pack_fields (Z.quot x (2 ^ k)) k) as [Hw Hf]; [lia|lia|].
  eexists _, _, _. split; [reflexivity|]. split; [done|]. split; [done|]. split_and!; [lia|lia|lia| |done].
  pose proof (Z.quot_rem x (2 ^ k) ltac:(lia)) as Hq. pose proof (Z.rem_bound_abs x (2 ^ k) ltac:(lia)). lia.
Qed.

(** Beyond its range the 16-bit float is wrong without notice. 671088.64 is encoded as zero, a
    value of -30000000 panics in a build with overflow checks and becomes -20.48 in one
    without. *)
Theorem dpt9_overflow_wraps :
  (∀ bp : BuildProfile, dpt9_encode (DvF32 0x4923D70A) = Ok [0x78; 0]) ∧ f32_bits (decode_dpt9 0x7800) = 0 ∧
  dpt9_encode (H := debug_build) (DvF32 0xCBE4E1C0) = Panic ∧
  dpt9_encode (H := release_build) (DvF32 0xCBE4E1C0) = Ok [0x80; 0] ∧ dpt9_fields 0x8000 = (-2048, 0).
Proof. split_and!; [by intros [[]]|by vm_compute..]. Qed.

(** Percentages and angles that are read and written back lose at most one step, once. For
    every byte, the value decoded from it is encoded as that byte or the one below, which then
    stays; some bytes do lose the step. *)
Theorem scaling_drift_bounded :
  (∀ b, is_u8 b → ∃ b', scaling_encode (scaling_decode b) = b' ∧ b - 1 <= b' <= b ∧ scaling_encode (scaling_decode b') = b') ∧
  (∀ b, is_u8 b → ∃ b', angle_encode (angle_decode b) = b' ∧ b - 1 <= b' <= b ∧ angle_encode (angle_decode b') = b') ∧
  scaling_encode (scaling_decode 15) = 14 ∧ angle_encode (angle_decode 7) = 6.
Proof.
  assert (∀ f : Z → Z, forallb (fun b => let b' := f b in (b - 1 <=? b') && (b' <=? b) && (f b' =? b')) (zrange 0 256) = true →
            ∀ b, is_u8 b → ∃ b', f b = b' ∧ b - 1 <= b' <= b ∧ f b' = b') as Hall.
  { intros f Hf b Hb. rewrite forallb_forall in Hf. specialize (Hf b). rewrite <- list_elem_of_In, elem_of_zrange in Hf.
    exists (f b). unfold is_u8 in Hb. cbn zeta in Hf. specialize (Hf ltac:(lia)). lia. }
  split_and!; [apply (Hall (fun b => scaling_encode (scaling_decode b))); by vm_compute|
    apply (Hall (fun b => angle_encode (angle_decode b))); by vm_compute|by vm_compute|by vm_compute].
Qed.

(* ------------------------------------------------------------------ *)
(** * Identifiers as text *)

Definition digit (c : Z) : Prop := 48 <= c <= 57.
Lemma decimal_digits_digits fuel x acc : 0 <= x → Forall digit acc → Forall digit (decimal_digits fuel x acc).
Proof.
  revert x acc. induction fuel as [|fuel IH]; intros x acc Hx Ha; [done|]. cbn [decimal_digits]. cbn zeta.
  assert (Forall digit (48 + x mod 10 :: acc)) as Hd by (constructor; [unfold digit; int_lia|done]).
  case_match; [done|]. apply IH; [int_lia|done].
Qed.
Lemma decimal_all_digits x : 0 <= x → Forall digit (decimal x).
Proof. intros Hx. by apply decimal_digits_digits. Qed.
Lemma decimal_digits_nonempty fuel x c acc : decimal_digits fuel x (c :: acc) ≠ [].
Proof. revert x c acc. induction fuel as [|fuel IH]; intros x c acc; [done|]. cbn. case_match; [done|apply IH]. Qed.
Lemma decimal_nonempty x : decimal x ≠ [].
Proof. unfold decimal. cbn. case_match; [done|apply decimal_digits_nonempty]. Qed.
Lemma parse_decimal_digits fuel x acc : 0 <= x < 65536 → x < 2 ^ Z.of_nat fuel →
  parse_digits 0 (decimal_digits fuel x acc) = parse_digits x acc.
Proof.
  revert x acc. induction fuel as [|fuel IH]; intros x acc Hx Hf.
  { change (2 ^ Z.of_nat 0) with 1 in Hf. by replace x with 0 by lia. }
  cbn [decimal_digits]. cbn zeta. rewrite Nat2Z.inj_succ, Z.pow_succ_r in Hf by lia.
  assert (parse_digits (x / 10) (48 + x mod 10 :: acc) = parse_digits x acc) as Hstep.
  { cbn [parse_digits]. cbn zeta. replace (in_range 48 57 (48 + x mod 10)) with true by (unfold in_range; int_lia).
    replace (x / 10 * 10 + (48 + x mod 10 - 48)) with x by int_lia. by replace (x <? 65536) with true by lia. }
  case_match eqn:E; [by rewrite <- Hstep; replace (x / 10) with 0 by lia|]. rewrite IH; [done|int_lia|].
  apply Z.div_lt_upper_bound; lia.
Qed.
Lemma parse_decimal x : 0 <= x < 65536 → parse_digits 0 (decimal x) = Some x.
Proof.
  intros Hx. unfold decimal. rewrite parse_decimal_digits; [done|done|]. rewrite Nat2Z.inj_succ, Z2Nat.id by apply Z.log2_nonneg.
  destruct (decide (x = 0)) as [->|]; [done|]. apply Z.log2_spec. lia.
Qed.
Lemma parse_u16_digits l : l ≠ [] → Forall digit l → parse_u16 l = parse_digits 0 l.
Proof.
  intros Hn Hd. destruct l as [|c l]; [done|]. inversion Hd as [|?? Hc _]; subst. unfold digit in Hc. unfold parse_u16.
  repeat (case_match; try done; try lia).
Qed.
Lemma parse_padded n l : parse_digits 0 (replicate n 48 ++ l) = parse_digits 0 l.
Proof. by induction n. Qed.
Lemma split_once_digits l k : Forall digit l → split_once 46 (l ++ 46 :: k) = Some (l, k).
Proof.
  induction 1 as [|x l Hx Hl IH]; [done|]. cbn. replace (x =? 46) with false by (unfold digit in Hx; lia). by rewrite IH.
Qed.
Lemma split_once_none l : Forall digit l → split_once 46 l = None.
Proof. induction 1 as [|x l Hx Hl IH]; [done|]. cbn. replace (x =? 46) with false by (unfold digit in Hx; lia). by rewrite IH. Qed.
Lemma trim_id l a b : head l = Some a → last l = Some b → is_space a = false → is_space b = false → trim l = l.
Proof.
  intros Ha Hb Hsa Hsb. unfold trim. destruct l as [|x l]; [done|]. simplify_eq/=. rewrite Hsa.
  rewrite <- head_reverse in Hb. destruct (reverse (a :: l)) as [|y k] eqn:E; [done|]. simplify_eq/=. rewrite Hsb, <- E. apply reverse_involutive.
Qed.
Lemma digits_ends l : l ≠ [] → Forall digit l → ∃ a b, head l = Some a ∧ last l = Some b ∧ is_space a = false ∧ is_space b = false.
Proof.
  intros Hn Hd. destruct l as [|a l]; [done|]. destruct (last (a :: l)) as [b|] eqn:Eb; [|by apply last_None in Eb].
  exists a, b. apply last_Some_elem_of in Eb. rewrite Forall_forall in Hd. pose proof (Hd a ltac:(by left)). specialize (Hd b Eb).
  unfold digit, is_space, in_range in *. split_and!; [done|done|lia|lia].
Qed.
Lemma from_str_body b a z : head b = Some a → last b = Some z → is_space a = false → is_space z = false →
  DptId_from_str (str "DPT " ++ b) =
    match split_once 46 b with
    | Some (main, sub) =>
        let? main := ok_or (parse_u16 main) InvalidDpt in
        let? sub := ok_or (parse_u16 sub) InvalidDpt in Ok (DptId_new main sub)
    | None => let? main := ok_or (parse_u16 b) InvalidDpt in Ok (main_only main)
    end.
Proof.
  intros Ha Hz Hsa Hsz. unfold DptId_from_str. rewrite (trim_id (str "DPT " ++ b) 68 z); [|done| |done|done].
  2:{ by rewrite last_app, Hz. }
  assert (strip_prefix (str "DPT ") (str "DPT " ++ b) = Some b) as Hp.
  { unfold strip_prefix. by rewrite take_app_length, drop_app_length, bool_decide_eq_true_2. }
  rewrite Hp. cbn [or_else from_option id]. by rewrite (trim_id b a z).
Qed.

(** An identifier is read back from its text. For every main number and subtype, parsing what
    [Display] prints (such as DPT 9.001) gives the identifier. *)
Theorem dpt_id_roundtrip main sub : is_u16 main → is_u16 sub → DptId_from_str (DptId_to_string (DptId_new main sub)) = Ok (DptId_new main sub).
Proof.
  intros Hm Hs. unfold is_u16 in *. unfold DptId_to_string. cbn [dpt_sub dpt_main DptId_new].
  pose proof (decimal_all_digits main ltac:(lia)) as Dm. pose proof (decimal_nonempty main) as Nm.
  destruct (Z.eqb_spec sub 0) as [->|Hn].
  { destruct (digits_ends _ Nm Dm) as (a & z & Ha & Hz & Hsa & Hsz). rewrite (from_str_body _ a z) by done.
    by rewrite split_once_none, parse_u16_digits, parse_decimal by done. }
  pose proof (decimal_all_digits sub ltac:(lia)) as Ds. pose proof (decimal_nonempty sub) as Ns.
  set (p := pad3 (decimal sub)). assert (Forall digit p) as Dp by (apply Forall_app; split; [apply Forall_replicate; unfold digit; lia|done]).
  assert (p ≠ []) as Np by (unfold p, pad3; destruct (decimal sub); [done|intros Hp; by apply app_eq_nil in Hp as [_ ?]]).
  destruct (digits_ends _ Nm Dm) as (a & _ & Ha & _ & Hsa & _). destruct (digits_ends _ Np Dp) as (_ & z & _ & Hz & _ & Hsz).
  rewrite (from_str_body _ a z); [|by destruct (decimal main)| |done|done].
  2:{ change (str ".") with [46]. by rewrite last_app, last_cons_cons || (rewrite !last_app, Hz). }
  change (str ".") with [46]. cbn [app]. rewrite split_once_digits by done.
  rewrite !parse_u16_digits, parse_decimal by done. cbn [ok_or obind]. unfold p, pad3. by rewrite parse_padded, parse_decimal by lia.
Qed.

(* ------------------------------------------------------------------ *)
(** * Datapoints and group objects *)

(** The standard datapoint types. Whatever type the registry finds for an identifier, its
    decoder answers every byte string without panicking, with an error exactly when it is
    shorter than the size of the type; encodings have that size (one byte for the small types);
    and every value the type can carry without loss is read back from its encoding. *)
Theorem standard_datapoints `{BuildProfile} id c : dpt_get id DptRegistry_new = Some c →
  (∀ data, (zlen data < dc_size c → dc_decode c data = Err DptDecoding) ∧ (dc_size c <= zlen data → ∃ v, dc_decode c data = Ok v)) ∧
  (∀ v bytes, dpt_value_ok v → dc_encode c v = Ok bytes → bytes_ok bytes ∧ zlen bytes = Z.max 1 (dc_size c)) ∧
  (∀ v, carried_by (dc_id c) v → ∃ bytes, dc_encode c v = Ok bytes ∧ dc_decode c bytes = Ok v).
Proof. intros Hc. apply standard_get in Hc as [Hc _]. by destruct (standard_lawful c Hc). Qed.

(** A value written to a group object is what is read. When the object may be written and read
    and its type carries the value, the write succeeds, reading gives the value, the raw value
    is its encoding, subscribers get exactly that encoding, and no other object changes. *)
Theorem typed_write_then_read `{BuildProfile} now a v source t o :
  ot_objects t !! a = Some o → to_codec o ∈ standard_codecs → gf_write (go_flags (to_object o)) = true → can_read (to_object o) = true →
  carried_by (dc_id (to_codec o)) v →
  ∃ bytes t', table_write_value now a v source t = (Ok tt, t') ∧ table_read_value a t' = Ok v ∧ table_read a t' = Ok bytes ∧
    dc_encode (to_codec o) v = Ok bytes ∧ ot_events t' = ot_events t ++ [GeValueWrite a bytes source] ∧
    ∀ other, other ≠ a → ot_objects t' !! other = ot_objects t !! other.
Proof.
  intros Ho Hc Hw Hr Hv. destruct (standard_lawful _ Hc) as [_ _ Hl]. destruct (Hl v Hv) as (bytes & He & Hd).
  unfold table_write_value, on_object, object_write_value. rewrite Ho, Hw, He. cbn [negb]. exists bytes. eexists. split; [reflexivity|].
  unfold table_read_value, table_read, object_read_value. cbn. rewrite lookup_insert_eq. cbn. unfold can_read in *. cbn. rewrite Hr. cbn.
  split_and!; [done|done|done|done|]. intros other Hn. by rewrite lookup_insert_ne.
Qed.

(** A refused write leaves no trace: when the object may not be written or its type refuses the
    value, objects and events stay as they were. *)
Theorem typed_write_refused now a v source t : is_ok (table_write_value now a v source t).1 = false →
  ot_objects (table_write_value now a v source t).2 = ot_objects t ∧ ot_events (table_write_value now a v source t).2 = ot_events t.
Proof.
  unfold table_write_value, on_object. destruct (ot_objects t !! a) as [o|] eqn:Ho; [|done]. unfold object_write_value.
  assert (<[a := o]> (ot_objects t) = ot_objects t) as Hid by (by apply insert_id).
  destruct (negb _); [by cbn; rewrite Hid|]. destruct (dc_encode (to_codec o) v); cbn; [done|by rewrite Hid|by rewrite Hid].
Qed.

Definition unreadable_ids : list DptId :=
  (fun p => DptId_new p.1 p.2) <$> [(5, 3); (5, 10); (6, 1); (7, 1); (8, 1); (9, 4); (9, 7); (12, 1); (13, 1); (14, 0); (17, 1); (18, 1); (20, 102); (232, 600)].

Lemma fresh_object_value now a name c enc : (match dc_encode c (dc_default_value c) with Err _ => Ok [] | r => r end) = Ok enc →
  ∃ o, GroupObject_new now a name c = Ok o ∧ object_read_value o = dc_decode c enc.
Proof. intros He. unfold GroupObject_new. rewrite He. by eexists. Qed.

(** Most new group objects cannot be read. A new object of a standard type holds the encoding
    of the type's default value, or nothing at all when the type refuses its own default, the
    boolean false: reading it then fails, for 14 of the 23 types. *)
Theorem fresh_object_readable `{BuildProfile} now a name id c : dpt_get id DptRegistry_new = Some c →
  ∃ o, GroupObject_new now a name c = Ok o ∧ is_ok (object_read_value o) = negb (bool_decide (dc_id c ∈ unreadable_ids)).
Proof.
  intros Hc. apply standard_get in Hc as [Hc _]. unfold standard_codecs in Hc.
  repeat (apply elem_of_cons in Hc as [->|Hc];
    [edestruct (fresh_object_value now a name) as (o & Hn & Hr); [|exists o; split; [exact Hn|rewrite Hr]]; [vm_compute; reflexivity|by vm_compute]|]).
  by apply elem_of_nil in Hc.
Qed.

(** A read-only object cannot be built with a value: the initial value goes through the write
    check, which the flags of a read-only object fail. *)
Theorem read_only_initial_refused `{BuildProfile} now a name description id v :
  is_ok (build_object now a name description id flags_read_only (Some v) DptRegistry_new) = false.
Proof.
  unfold build_object, get_or_err. destruct (dpt_get id DptRegistry_new) as [c|]; [|done]. cbn [ok_or obind].
  destruct (GroupObject_new now a name c) as [o| |]; cbn [obind]; done.
Qed.

(* ------------------------------------------------------------------ *)
(** * The theorems at work *)

Lemma dpt9_quantises_witness : Z.abs (hundredths 0x41AB3333) < 2048 * 2 ^ 15 ∧
  ∃ raw m e, encode_dpt9 (H := debug_build) (E:=KnxError) (f32_val 0x41AB3333) = Ok raw ∧ is_u16 raw ∧ dpt9_fields raw = (m, e) ∧
    0 <= e <= 15 ∧ Z.abs m <= 2047 ∧ Z.abs (hundredths 0x41AB3333 - m * 2 ^ e) < 2 ^ e ∧ (e = 0 ∨ 1024 <= Z.abs m).
Proof.
  assert (Z.abs (hundredths 0x41AB3333) < 2048 * 2 ^ 15) as Hh by (apply (bool_decide_unpack _); by vm_compute).
  split; [exact Hh|exact (@dpt9_quantises debug_build 0x41AB3333 Hh)].
Defined.

Lemma dpt_id_roundtrip_witness : DptId_from_str (DptId_to_string (DptId_new 232 600)) = Ok (DptId_new 232 600).
Proof. apply dpt_id_roundtrip; apply (bool_decide_unpack _); by vm_compute. Defined.

Lemma standard_datapoints_witness : ∃ bytes, dc_encode Dpt18SceneControl (DvScene 5 true) = Ok bytes ∧ dc_decode Dpt18SceneControl bytes = Ok (DvScene 5 true).
Proof.
  assert (dpt_get (DptId_new 18 1) (DptRegistry_new (H := release_build)) = Some Dpt18SceneControl) as Hg by reflexivity.
  apply (proj2 (proj2 (@standard_datapoints release_build (DptId_new 18 1) Dpt18SceneControl Hg))). split; [lia|by right].
Defined.

Definition demo_lamp : TypedObject :=
  {| to_object := {| go_address := 0x0A03; go_flags := flags_read_write; go_value := [0] |}; to_name := str "Lamp"; to_description := [];
     to_codec := Dpt5Counter; to_last_update := 0 |}.
Definition demo_table : ObjectTable := table_add demo_lamp (ObjectTable_with_registry DptRegistry_empty).

Lemma typed_write_then_read_witness : ∃ bytes t', table_write_value 1 0x0A03 (DvU8 200) None demo_table = (Ok tt, t') ∧
  table_read_value 0x0A03 t' = Ok (DvU8 200) ∧ table_read 0x0A03 t' = Ok bytes ∧ dc_encode Dpt5Counter (DvU8 200) = Ok bytes ∧
  ot_events t' = ot_events demo_table ++ [GeValueWrite 0x0A03 bytes None] ∧
  ∀ other, other ≠ 0x0A03 → ot_objects t' !! other = ot_objects demo_table !! other.
Proof.
  apply (@typed_write_then_read release_build 1 0x0A03 (DvU8 200) None demo_table demo_lamp); [reflexivity| |done|done|].
  - unfold standard_codecs. repeat (first [by left|right]).
  - split; [done|by left].
Defined.

Lemma typed_write_refused_witness :
  ot_objects (table_write_value 1 0x0A03 (DvBool true) None demo_table).2 = ot_objects demo_table ∧
  ot_events (table_write_value 1 0x0A03 (DvBool true) None demo_table).2 = ot_events demo_table.
Proof. apply (typed_write_refused 1 0x0A03 (DvBool true) None demo_table). reflexivity. Defined.

Lemma fresh_object_readable_witness : ∃ o, GroupObject_new 0 0x0A03 (str "Power") Dpt14Float = Ok o ∧ is_ok (object_read_value o) = false.
Proof.
  assert (dpt_get (DptId_new 14 56) (DptRegistry_new (H := release_build)) = Some Dpt14Float) as Hg by reflexivity.
  destruct (@fresh_object_readable release_build 0 0x0A03 (str "Power") (DptId_new 14 56) Dpt14Float Hg) as (o & Ho & Hr).
  exists o. split; [exact Ho|]. rewrite Hr. reflexivity.
Defined.
