(* ===== verification/KnxHealth.v ===== *)
(** The send error tracker ([error_tracker.rs]) and the heartbeat scheduler ([heartbeat.rs]) of the
    KNX server.

    Instants are nanoseconds, one clock reading per operation.  Error rates and fault
    probabilities are floating-point numbers in the source: the comparison of the error rate with its
    threshold and the draw of the random generator are parameters.  Global statistics are left
    out. *)

From S2P Require Import Prelude KnxFrame.

(* ------------------------------------------------------------------ *)
(** * Send errors *)

Inductive ErrorCategory : Set :=
| EcSendFailure | EcAckError | EcAckTimeout | EcConfirmationNack | EcConfirmationTimeout | EcFlowControlDrop.
(** [category as usize]. *)
Definition ErrorCategory_index (c : ErrorCategory) : nat :=
  match c with
  | EcSendFailure => 0 | EcAckError => 1 | EcAckTimeout => 2 | EcConfirmationNack => 3
  | EcConfirmationTimeout => 4 | EcFlowControlDrop => 5
  end.

Record ChannelErrorState : Set := {
  consecutive_errors : Z;
  recent_errors : list (Z * ErrorCategory);
  total_successes : Z;
  total_failures : Z;
  category_counts : list Z;
  last_success_at : option Z;
  last_error_at : option Z;
  restart_triggered : bool;
}.

Definition ChannelErrorState_new : ChannelErrorState :=
  {| consecutive_errors := 0; recent_errors := []; total_successes := 0; total_failures := 0;
     category_counts := replicate 6 0; last_success_at := None; last_error_at := None;
     restart_triggered := false |}.

(** [x += 1] at type [u64] and [u32]. *)
Definition add1 `{BuildProfile} {E} (modulus n : Z) : outcome E Z := checked_op modulus (n + 1).
Definition add1_u64 `{BuildProfile} {E} (n : Z) : outcome E Z := add1 18446744073709551616 n.
Definition add1_u32 `{BuildProfile} {E} (n : Z) : outcome E Z := add1 4294967296 n.

Definition record_success `{BuildProfile} {E} (now : Z) (s : ChannelErrorState) : outcome E ChannelErrorState :=
  let? n := add1_u64 (total_successes s) in
  Ok {| consecutive_errors := 0; recent_errors := recent_errors s; total_successes := n;
        total_failures := total_failures s; category_counts := category_counts s;
        last_success_at := Some now; last_error_at := last_error_at s; restart_triggered := false |}.

Definition record_failure `{BuildProfile} {E} (now : Z) (c : ErrorCategory) (s : ChannelErrorState)
  : outcome E ChannelErrorState :=
  let? k := add1_u32 (consecutive_errors s) in
  let? n := add1_u64 (total_failures s) in
  let? old := index (category_counts s) (ErrorCategory_index c) in
  let? m := add1_u64 old in
  Ok {| consecutive_errors := k; recent_errors := recent_errors s ++ [(now, c)];
        total_successes := total_successes s; total_failures := n;
        category_counts := <[ErrorCategory_index c := m]> (category_counts s);
        last_success_at := last_success_at s; last_error_at := Some now;
        restart_triggered := restart_triggered s |}.

(** [while let Some(front)]: pop events before the cut-off. *)
Fixpoint prune_from (cutoff : Z) (l : list (Z * ErrorCategory)) : list (Z * ErrorCategory) :=
  match l with
  | (t, c) :: l' => if t <? cutoff then prune_from cutoff l' else l
  | [] => []
  end.

Definition with_recent (s : ChannelErrorState) (l : list (Z * ErrorCategory)) (b : bool) : ChannelErrorState :=
  {| consecutive_errors := consecutive_errors s; recent_errors := l;
     total_successes := total_successes s; total_failures := total_failures s;
     category_counts := category_counts s; last_success_at := last_success_at s;
     last_error_at := last_error_at s; restart_triggered := b |}.

Definition prune_old_events (now window : Z) (s : ChannelErrorState) : ChannelErrorState :=
  with_recent s (prune_from (now - window) (recent_errors s)) (restart_triggered s).

Definition window_error_count (now window : Z) (s : ChannelErrorState) : nat :=
  length (filter (fun e => (now - window <=? fst e) = true) (recent_errors s)).

(** [rate_exceeds errors total]: whether the error rate [window_error_rate], zero when [total] is
    zero and [errors as f64 / total as f64] otherwise, exceeds the configured threshold. *)
Record SendErrorTrackerConfig : Type := {
  tracker_enabled : bool;
  consecutive_threshold : Z;
  window_ms : Z;
  rate_exceeds : Z → Z → bool;
  min_events_for_rate : Z;
}.
Definition tracker_window (c : SendErrorTrackerConfig) : Z := window_ms c * 1000000.

Inductive TrackingResult : Set :=
| TrRecorded
| TrConsecutiveThresholdExceeded (consecutive_errors threshold : Z)
| TrRateThresholdExceeded (error_count : Z).

Record SendErrorTracker : Type := {
  tracker_config : SendErrorTrackerConfig; tracked : gmap Z ChannelErrorState }.
Definition SendErrorTracker_new (c : SendErrorTrackerConfig) : SendErrorTracker :=
  {| tracker_config := c; tracked := ∅ |}.
Definition set_tracked (ch : Z) (s : ChannelErrorState) (t : SendErrorTracker) : SendErrorTracker :=
  {| tracker_config := tracker_config t; tracked := <[ch := s]> (tracked t) |}.
(** [ensure_channel]. *)
Definition tracked_or_new (ch : Z) (t : SendErrorTracker) : ChannelErrorState :=
  default ChannelErrorState_new (tracked t !! ch).

Definition SendErrorTracker_on_send_success `{BuildProfile} {E} (now ch : Z) : stM SendErrorTracker E unit := fun t =>
  if negb (tracker_enabled (tracker_config t)) then (Ok tt, t)
  else
    match record_success now (tracked_or_new ch t) with
    | Ok s => (Ok tt, set_tracked ch s t)
    | Err e => (Err e, t)
    | Panic => (Panic, t)
    end.

(** The thresholds, after the failure has been recorded and old events pruned. *)
Definition evaluate_thresholds `{BuildProfile} {E} (now : Z) (c : SendErrorTrackerConfig) (s : ChannelErrorState)
  : outcome E (TrackingResult * ChannelErrorState) :=
  if (consecutive_threshold c <=? consecutive_errors s) && negb (restart_triggered s) then
    Ok (TrConsecutiveThresholdExceeded (consecutive_errors s) (consecutive_threshold c),
        with_recent s (recent_errors s) true)
  else
    let? total := checked_op 18446744073709551616 (total_successes s + total_failures s) in
    let errors := Z.of_nat (window_error_count now (tracker_window c) s) in
    if (min_events_for_rate c <=? total) && rate_exceeds c errors total
    then Ok (TrRateThresholdExceeded errors, s)
    else Ok (TrRecorded, s).

Definition SendErrorTracker_on_send_failure `{BuildProfile} {E} (now ch : Z) (cat : ErrorCategory)
  : stM SendErrorTracker E TrackingResult := fun t =>
  if negb (tracker_enabled (tracker_config t)) then (Ok TrRecorded, t)
  else
    match (let? s := record_failure now cat (tracked_or_new ch t) in
           evaluate_thresholds now (tracker_config t)
             (prune_old_events now (tracker_window (tracker_config t)) s)) with
    | Ok (r, s) => (Ok r, set_tracked ch s t)
    | Err e => (Err e, t)
    | Panic => (Panic, t)
    end.

Definition reset_channel (ch : Z) (t : SendErrorTracker) : SendErrorTracker :=
  match tracked t !! ch with
  | None => t
  | Some s =>
      set_tracked ch {| consecutive_errors := 0; recent_errors := [];
        total_successes := total_successes s; total_failures := total_failures s;
        category_counts := category_counts s; last_success_at := last_success_at s;
        last_error_at := last_error_at s; restart_triggered := false |} t
  end.
Definition remove_channel (ch : Z) (t : SendErrorTracker) : SendErrorTracker :=
  {| tracker_config := tracker_config t; tracked := delete ch (tracked t) |}.

(* ------------------------------------------------------------------ *)
(** * Heartbeats *)

Inductive HeartbeatAction : Set :=
| HbContinue | HbImmediateReconnect | HbAbandonTunnel | HbDelayedReconnect | HbNoResponse.

Definition HeartbeatAction_status_code (a : HeartbeatAction) : option Z :=
  match a with
  | HbContinue => Some 0x00 | HbImmediateReconnect => Some 0x21 | HbAbandonTunnel => Some 0x27
  | HbDelayedReconnect => Some 0x29 | HbNoResponse => None
  end.
Definition HeartbeatAction_from_status_code (code : Z) : HeartbeatAction :=
  match code with
  | 0x00 => HbContinue | 0x21 => HbImmediateReconnect | 0x27 => HbAbandonTunnel
  | 0x29 => HbDelayedReconnect | _ => HbContinue
  end.
Definition HeartbeatAction_is_normal (a : HeartbeatAction) : bool :=
  match a with HbContinue => true | _ => false end.

(** [draw n]: whether the random number drawn at heartbeat [n] is below the probability. *)
Inductive HeartbeatSchedule : Type :=
| HsNormal
| HsOverride (action : HeartbeatAction)
| HsSequence (actions : list HeartbeatAction)
| HsPeriodic (action : HeartbeatAction) (interval : Z)
| HsProbabilistic (action : HeartbeatAction) (draw : Z → bool)
| HsCountdownToFailure (action : HeartbeatAction) (countdown : Z).

Record HeartbeatScheduler : Type := { schedule : HeartbeatSchedule; counter : Z; sequence_index : Z }.
Definition HeartbeatScheduler_new (s : HeartbeatSchedule) : HeartbeatScheduler :=
  {| schedule := s; counter := 0; sequence_index := 0 |}.

(** [AtomicU32::fetch_add(1)] wraps around. *)
Definition u32_wrapping_incr (n : Z) : Z := (n + 1) mod 4294967296.

Definition HeartbeatScheduler_next_action `{BuildProfile} {E} : stM HeartbeatScheduler E HeartbeatAction := fun h =>
  let count := counter h in
  let h' := {| schedule := schedule h; counter := u32_wrapping_incr count; sequence_index := sequence_index h |} in
  match schedule h with
  | HsNormal => (Ok HbContinue, h')
  | HsOverride action => (Ok action, h')
  | HsSequence actions =>
      let idx := sequence_index h in
      let h'' := {| schedule := schedule h; counter := u32_wrapping_incr count;
                    sequence_index := u32_wrapping_incr idx |} in
      (Ok (if idx <? zlen actions then default HbContinue (actions !! Z.to_nat idx)
           else default HbContinue (last actions)), h'')
  | HsPeriodic action interval =>
      match add1_u32 count with
      | Ok one_based =>
          if interval =? 0 then (Panic, h')
          else (Ok (if one_based mod interval =? 0 then action else HbContinue), h')
      | Err e => (Err e, h')
      | Panic => (Panic, h')
      end
  | HsProbabilistic action draw => (Ok (if draw count then action else HbContinue), h')
  | HsCountdownToFailure action countdown =>
      (Ok (if countdown <=? count then action else HbContinue), h')
  end.
