(* ===== verification/KnxServer.v ===== *)
(** The KNXnet/IP server ([server.rs]): discovery, connections, heartbeats, tunnelling requests
    and acknowledgements, and the processing of telegrams on top of the connection table, the
    group objects, the filter chain, the cache and the error tracker.

    The receive loop handles one packet at a time, so a handler is a state transformer.  Clock
    readings, results of socket sends and random draws come from the environment, numbered in the
    order in which the server asks for them; what the server sends and announces is appended to a
    log.  Sleeps, activity times of connections and the channel that would hand
    acknowledgements to a waiter (nobody takes its receiving end) are left out. *)

From S2P Require Import Prelude KnxFrame KnxCemi KnxMessages KnxTunnel KnxFlow KnxGroup KnxHealth.

(* ------------------------------------------------------------------ *)
(** * Configuration, environment and state *)

(** [confirmation_success_rate] compared with 1.0 and 0.0. *)
Inductive ConfirmationRate : Set := CrAlways | CrNever | CrSometimes.

Record TunnelBehaviorConfig : Set := {
  ldata_con_enabled : bool;
  confirmation_success_rate : ConfirmationRate;
  heartbeat_status_override : option Z;
  bus_monitor_enabled : bool;
  ldata_ind_broadcast_enabled : bool;
  property_service_enabled : bool;
  reset_service_enabled : bool;
  heartbeat_scheduler_enabled : bool;
}.

(** [bind_ip] is [None] for an IPv6 bind address. *)
Record KnxServerConfig : Set := {
  cfg_individual_address : IndividualAddress;
  serial_number : list Z;
  mac_address : list Z;
  device_name : list Z;
  bind_ip : option (Z * Z * Z * Z);
  tunnel_behavior : TunnelBehaviorConfig;
}.

Inductive ServerEvent : Type :=
| EvClientConnected (channel_id : Z) (address : SocketAddr)
| EvClientDisconnected (channel_id : Z)
| EvGroupValueWrite (address : GroupAddress) (value : list Z) (source : IndividualAddress)
| EvGroupValueRead (address : GroupAddress) (source : IndividualAddress)
| EvSequence (channel_id : Z) (validation : ReceivedValidation)
| EvConfirmationSent (channel_id : Z) (success : bool)
| EvBusMonitorFrameSent (channel_id : Z) (message_code : Z) (raw_frame_len : Z)
| EvPropertyRead (channel_id object_index property_id : Z)
| EvPropertyWrite (channel_id object_index property_id : Z)
| EvDeviceReset (channel_id : Z)
| EvDataIndBroadcast (source_channel_id : Z) (target_channel_count : Z) (group_address : GroupAddress)
| EvFrameDelayed (channel_id delay : Z)
| EvFrameQueued (channel_id : Z) (priority : QueuePriority) (queue_depth : nat)
| EvFrameDropped (channel_id : Z) (reason : option DropReason)
| EvQueueDrained (channel_id drained_count : Z)
| EvHeartbeatAction (channel_id : Z) (action : HeartbeatAction) (status_code : option Z)
| EvHeartbeatSuppressed (channel_id : Z)
| EvGroupValueCacheUpdated (address : GroupAddress) (cache_size : nat)
| EvSendErrorThreshold (channel_id consecutive_errors threshold : Z)
| EvSendErrorRateWarning (channel_id error_count : Z).

(** [SentTo]: bytes handed to the socket; [Processed] marks the point where a telegram enters
    [process_cemi]. *)
Inductive Action : Type :=
| SentTo (addr : SocketAddr) (bytes : list Z)
| Announced (event : ServerEvent)
| Processed (channel_id : Z) (frame : CemiFrame).

Class Environment : Type := {
  clock : nat → Z;
  send_succeeds : nat → bool;
  below_rate : nat → bool;
  local_addr : SocketAddr;
  connection_order :: MapOrder TunnelConnection;
  cache_order :: MapOrder CacheEntry;
}.

Record Server : Type := {
  config : KnxServerConfig;
  manager : ConnectionManager;
  group_objects : GroupObjectTable;
  filter_chain : FilterChain;
  heartbeat_scheduler : HeartbeatScheduler;
  group_value_cache : GroupValueCache;
  error_tracker : SendErrorTracker;
  clock_reads : nat;
  socket_sends : nat;
  draws : nat;
  log : list Action;
}.

Definition set_manager (x : ConnectionManager) (s : Server) : Server :=
  {| config := config s; manager := x; group_objects := group_objects s;
     filter_chain := filter_chain s; heartbeat_scheduler := heartbeat_scheduler s;
     group_value_cache := group_value_cache s; error_tracker := error_tracker s;
     clock_reads := clock_reads s; socket_sends := socket_sends s; draws := draws s;
     log := log s |}.
Definition set_group_objects (x : GroupObjectTable) (s : Server) : Server :=
  {| config := config s; manager := manager s; group_objects := x;
     filter_chain := filter_chain s; heartbeat_scheduler := heartbeat_scheduler s;
     group_value_cache := group_value_cache s; error_tracker := error_tracker s;
     clock_reads := clock_reads s; socket_sends := socket_sends s; draws := draws s;
     log := log s |}.
Definition set_filter_chain (x : FilterChain) (s : Server) : Server :=
  {| config := config s; manager := manager s; group_objects := group_objects s;
     filter_chain := x; heartbeat_scheduler := heartbeat_scheduler s;
     group_value_cache := group_value_cache s; error_tracker := error_tracker s;
     clock_reads := clock_reads s; socket_sends := socket_sends s; draws := draws s;
     log := log s |}.
Definition set_heartbeat_scheduler (x : HeartbeatScheduler) (s : Server) : Server :=
  {| config := config s; manager := manager s; group_objects := group_objects s;
     filter_chain := filter_chain s; heartbeat_scheduler := x;
     group_value_cache := group_value_cache s; error_tracker := error_tracker s;
     clock_reads := clock_reads s; socket_sends := socket_sends s; draws := draws s;
     log := log s |}.
Definition set_group_value_cache (x : GroupValueCache) (s : Server) : Server :=
  {| config := config s; manager := manager s; group_objects := group_objects s;
     filter_chain := filter_chain s; heartbeat_scheduler := heartbeat_scheduler s;
     group_value_cache := x; error_tracker := error_tracker s; clock_reads := clock_reads s;
     socket_sends := socket_sends s; draws := draws s; log := log s |}.
Definition set_error_tracker (x : SendErrorTracker) (s : Server) : Server :=
  {| config := config s; manager := manager s; group_objects := group_objects s;
     filter_chain := filter_chain s; heartbeat_scheduler := heartbeat_scheduler s;
     group_value_cache := group_value_cache s; error_tracker := x; clock_reads := clock_reads s;
     socket_sends := socket_sends s; draws := draws s; log := log s |}.
Definition set_clock_reads (x : nat) (s : Server) : Server :=
  {| config := config s; manager := manager s; group_objects := group_objects s;
     filter_chain := filter_chain s; heartbeat_scheduler := heartbeat_scheduler s;
     group_value_cache := group_value_cache s; error_tracker := error_tracker s;
     clock_reads := x; socket_sends := socket_sends s; draws := draws s; log := log s |}.
Definition set_socket_sends (x : nat) (s : Server) : Server :=
  {| config := config s; manager := manager s; group_objects := group_objects s;
     filter_chain := filter_chain s; heartbeat_scheduler := heartbeat_scheduler s;
     group_value_cache := group_value_cache s; error_tracker := error_tracker s;
     clock_reads := clock_reads s; socket_sends := x; draws := draws s; log := log s |}.
Definition set_draws (x : nat) (s : Server) : Server :=
  {| config := config s; manager := manager s; group_objects := group_objects s;
     filter_chain := filter_chain s; heartbeat_scheduler := heartbeat_scheduler s;
     group_value_cache := group_value_cache s; error_tracker := error_tracker s;
     clock_reads := clock_reads s; socket_sends := socket_sends s; draws := x; log := log s |}.
Definition set_log (x : list Action) (s : Server) : Server :=
  {| config := config s; manager := manager s; group_objects := group_objects s;
     filter_chain := filter_chain s; heartbeat_scheduler := heartbeat_scheduler s;
     group_value_cache := group_value_cache s; error_tracker := error_tracker s;
     clock_reads := clock_reads s; socket_sends := socket_sends s; draws := draws s; log := x |}.

Create HintDb keeps.

Definition M (A : Type) : Type := stM Server KnxError A.

Section server.
Context `{BuildProfile} `{Environment}.

Definition get_server : M Server := fun s => (Ok s, s).
Definition now : M Z := fun s => (Ok (clock (clock_reads s)), set_clock_reads (S (clock_reads s)) s).
Definition draw_below_rate : M bool := fun s => (Ok (below_rate (draws s)), set_draws (S (draws s)) s).
Definition act (a : Action) : M unit := fun s => (Ok tt, set_log (log s ++ [a]) s).
Definition announce (e : ServerEvent) : M unit := act (Announced e).

(** [socket.send_to(bytes, addr).await?]. *)
Definition send_to (addr : SocketAddr) (bytes : list Z) : M unit :=
  do? _ := act (SentTo addr bytes) in
  fun s => (if send_succeeds (socket_sends s) then Ok tt else Err KnxIo,
            set_socket_sends (S (socket_sends s)) s).

(** The result of a call as a value; a panic still unwinds. *)
Definition attempt {A} (c : M A) : M (KnxError + A) := fun s =>
  match c s with
  | (Ok a, s') => (Ok (inr a), s')
  | (Err e, s') => (Ok (inl e), s')
  | (Panic, s') => (Panic, s')
  end.

Definition on_manager {A} (c : stM ConnectionManager KnxError A) : M A := fun s =>
  let '(r, m) := c (manager s) in (r, set_manager m s).
Definition on_groups {A} (c : stM GroupObjectTable KnxError A) : M A := fun s =>
  let '(r, g) := c (group_objects s) in (r, set_group_objects g s).
Definition on_chain {A} (c : stM FilterChain KnxError A) : M A := fun s =>
  let '(r, f) := c (filter_chain s) in (r, set_filter_chain f s).
Definition on_heartbeat {A} (c : stM HeartbeatScheduler KnxError A) : M A := fun s =>
  let '(r, h) := c (heartbeat_scheduler s) in (r, set_heartbeat_scheduler h s).
Definition on_cache {A} (c : stM GroupValueCache KnxError A) : M A := fun s =>
  let '(r, g) := c (group_value_cache s) in (r, set_group_value_cache g s).
Definition on_tracker {A} (c : stM SendErrorTracker KnxError A) : M A := fun s =>
  let '(r, t) := c (error_tracker s) in (r, set_error_tracker t s).

(** An operation that cannot fail. *)
Definition pure_op {S A} (op : S → A * S) : stM S KnxError A := fun s => let '(a, s') := op s in (Ok a, s').
Definition update_op {S} (op : S → S) : stM S KnxError unit := fun s => (Ok tt, op s).

Fixpoint for_each {A} (l : list A) (body : A → M unit) : M unit :=
  match l with
  | [] => st_ret tt
  | x :: l' => do? _ := body x in for_each l' body
  end.

Definition when (b : bool) (c : M unit) : M unit := if b then c else st_ret tt.

(* ------------------------------------------------------------------ *)
(** * Sending telegrams to a client *)

(** [connection.next_send_sequence()].  A connection that has left the table is held by its
    handler alone. *)
Definition next_send_sequence (conn : TunnelConnection) : M Z :=
  on_manager (fun m =>
    match connections m !! tc_channel_id conn with
    | Some c =>
        let '(n, t) := next_sno (sequence_tracker c) in
        (Ok n, with_connections m (<[tc_channel_id conn := with_tracker c t]> (connections m)))
    | None => (Ok (sno (sequence_tracker conn)), m)
    end).

Definition tunnelling_request_bytes (ch seq : Z) (c : CemiFrame) : list Z :=
  KnxFrame_encode {| service_type := SvTunnellingRequest;
    body := TunnellingRequest_encode {| tr_channel_id := ch; sequence_counter := seq; cemi := c |} |}.

Definition set_backpressure (ch : Z) (b : bool) : M unit :=
  on_chain (update_op (fun c => with_queue (set_waiting_for_ack ch b (queue_filter c)) c)).

Definition send_tunnelling_request_raw (addr : SocketAddr) (conn : TunnelConnection) (c : CemiFrame) : M unit :=
  do? seq := next_send_sequence conn in
  do? s := get_server in
  do? _ := when (chain_enabled (filter_chain s)) (set_backpressure (tc_channel_id conn) true) in
  send_to addr (tunnelling_request_bytes (tc_channel_id conn) seq c).

Definition chain_on_send_success (ch : Z) : M unit :=
  do? t := now in on_chain (FilterChain_on_send_success t ch).
Definition chain_on_send_failure : M unit :=
  do? t := now in on_chain (FilterChain_on_send_failure t).
Definition tracker_on_send_success (ch : Z) : M unit :=
  do? t := now in on_tracker (SendErrorTracker_on_send_success t ch).

Definition handle_send_error_tracking (ch : Z) (cat : ErrorCategory) : M unit :=
  do? t := now in
  do? result := on_tracker (SendErrorTracker_on_send_failure t ch cat) in
  match result with
  | TrRecorded => st_ret tt
  | TrConsecutiveThresholdExceeded n threshold => announce (EvSendErrorThreshold ch n threshold)
  | TrRateThresholdExceeded n => announce (EvSendErrorRateWarning ch n)
  end.

Definition send_tunnelling_request (addr : SocketAddr) (conn : TunnelConnection) (c : CemiFrame) : M unit :=
  let ch := tc_channel_id conn in
  do? s := get_server in
  if chain_enabled (filter_chain s) then
    do? t0 := now in
    let envelope := FrameEnvelope_new t0 c ch addr in
    do? t1 := now in
    do? t2 := now in
    do? (result, envelope) := on_chain (FilterChain_send t1 t2 envelope) in
    match result with
    | FPass delay =>
        do? _ := when (0 <? delay) (announce (EvFrameDelayed ch delay)) in
        do? sent := attempt (send_tunnelling_request_raw addr conn c) in
        match sent with
        | inr _ =>
            do? _ := chain_on_send_success ch in
            tracker_on_send_success ch
        | inl e =>
            do? _ := chain_on_send_failure in
            do? _ := handle_send_error_tracking ch EcSendFailure in
            st_err e
        end
    | FQueued =>
        do? s := get_server in
        announce (EvFrameQueued ch (env_priority envelope) (total_pending (queue_filter (filter_chain s))))
    | FDropped reason => announce (EvFrameDropped ch (Some reason))
    | FError =>
        do? _ := announce (EvFrameDropped ch None) in
        st_err FlowControlDrop
    end
  else send_tunnelling_request_raw addr conn c.

(** The loop of [drain_queued_frames]; a failed send ends it. *)
Fixpoint drain_loop (conn : TunnelConnection) (envelopes : list FrameEnvelope) : M unit :=
  match envelopes with
  | [] => st_ret tt
  | e :: envelopes' =>
      do? t := now in
      do? _ := on_chain (on_pace (PaceFilter_process_send t e)) in
      do? sent := attempt (send_tunnelling_request_raw (target_addr e) conn (env_cemi e)) in
      match sent with
      | inl _ =>
          do? _ := chain_on_send_failure in
          handle_send_error_tracking (tc_channel_id conn) EcSendFailure
      | inr _ =>
          do? _ := chain_on_send_success (tc_channel_id conn) in
          do? _ := tracker_on_send_success (tc_channel_id conn) in
          drain_loop conn envelopes'
      end
  end.

Definition drain_queued_frames (conn : TunnelConnection) : M unit :=
  do? s := get_server in
  if negb (chain_enabled (filter_chain s)) then st_ret tt
  else
    do? envelopes := on_chain (pure_op (drain_pending (tc_channel_id conn) 16)) in
    match envelopes with
    | [] => st_ret tt
    | _ =>
        do? _ := drain_loop conn envelopes in
        announce (EvQueueDrained (tc_channel_id conn) (zlen envelopes))
    end.

(* ------------------------------------------------------------------ *)
(** * Processing of telegrams *)

Definition all_connections : M (list TunnelConnection) := fun s =>
  (Ok (snd <$> map_iter (connections (manager s))), s).

(** The frame a confirmation or an indication takes over from a request. *)
Definition reply_frame (original : CemiFrame) (code : MessageCode) (conf : bool) : CemiFrame :=
  {| message_code := code; additional_info := []; source := source original;
     destination := destination original; address_type := address_type original;
     hop_count := hop_count original; priority := priority original; confirm := conf;
     ack_request := false; system_broadcast := system_broadcast original; apci := apci original;
     data := data original |}.

Definition send_ldata_con (addr : SocketAddr) (conn : TunnelConnection) (original : CemiFrame)
    (success : bool) : M unit :=
  let code := default LDataCon (to_confirmation (message_code original)) in
  send_tunnelling_request addr conn (reply_frame original code (negb success)).

Definition compute_confirmation_success (bus_success : bool) : M bool :=
  do? s := get_server in
  match confirmation_success_rate (tunnel_behavior (config s)) with
  | CrAlways => st_ret bus_success
  | CrNever => st_ret false
  | CrSometimes => if bus_success then draw_below_rate else st_ret false
  end.

(** Returns whether the bus delivered the telegram. *)
Definition handle_ldata_data (addr : SocketAddr) (c : CemiFrame) (conn : TunnelConnection) : M bool :=
  if negb (is_group_value (apci c)) then st_ret true
  else
    match destination_group c with
    | None => st_ret true
    | Some group =>
        match apci c with
        | GroupValueWrite =>
            do? written := attempt (on_groups (GroupObjectTable_write (raw group) (data c))) in
            do? t := now in
            do? _ := on_cache (on_write t (raw group) (data c) (Some (source c))) in
            do? _ := announce (EvGroupValueWrite group (data c) (source c)) in
            st_ret (match written with inr _ => true | inl _ => false end)
        | GroupValueRead =>
            do? _ := announce (EvGroupValueRead group (source c)) in
            do? s := get_server in
            let response := match GroupObjectTable_read (raw group) (group_objects s) with
                            | Ok d => d | _ => [0] end in
            do? _ := send_tunnelling_request addr conn
                       (group_value_response (cfg_individual_address (config s)) group response) in
            st_ret true
        | GroupValueResponse =>
            do? _ := attempt (on_groups (GroupObjectTable_write (raw group) (data c))) in
            st_ret true
        | _ => st_ret true
        end
    end.

(** One target of [broadcast_ldata_ind]; the count of targets reached is threaded through. *)
Fixpoint broadcast_loop (original : CemiFrame) (ch : Z) (conns : list TunnelConnection) (count : Z) : M Z :=
  match conns with
  | [] => st_ret count
  | conn :: conns' =>
      if tc_channel_id conn =? ch then broadcast_loop original ch conns' count
      else
        do? sent := attempt (send_tunnelling_request (tc_data_endpoint conn) conn
                               (reply_frame original LDataInd false)) in
        broadcast_loop original ch conns' (match sent with inr _ => count + 1 | inl _ => count end)
  end.

Definition broadcast_ldata_ind (original : CemiFrame) (conn : TunnelConnection) (group : GroupAddress) : M unit :=
  do? conns := all_connections in
  do? target_count := broadcast_loop original (tc_channel_id conn) conns 0 in
  if 0 <? target_count then
    do? t := now in
    do? _ := on_cache (on_indication t (raw group) (data original) (Some (source original))) in
    do? _ := announce (EvDataIndBroadcast (tc_channel_id conn) target_count group) in
    do? s := get_server in
    announce (EvGroupValueCacheUpdated group (size (entries (group_value_cache s))))
  else st_ret tt.

Definition handle_ldata_req (addr : SocketAddr) (c : CemiFrame) (conn : TunnelConnection) : M unit :=
  do? bus_success := handle_ldata_data addr c conn in
  do? s := get_server in
  let behavior := tunnel_behavior (config s) in
  do? _ := when (ldata_con_enabled behavior) (
    do? confirm_success := compute_confirmation_success bus_success in
    do? _ := send_ldata_con addr conn c confirm_success in
    announce (EvConfirmationSent (tc_channel_id conn) confirm_success)) in
  when (ldata_ind_broadcast_enabled behavior)
    (match destination_group c with
     | Some group => broadcast_ldata_ind c conn group
     | None => st_ret tt
     end).

(** [read_property]: simulated interface object properties. *)
Definition read_property (cfg : KnxServerConfig) (object_index property_id : Z) : list Z :=
  let ia := cfg_individual_address cfg in
  match object_index, property_id with
  | 0, 1 => [0; 0]
  | 0, 11 => serial_number cfg
  | 0, 12 => [0; 0]
  | 0, 14 => [0]
  | 0, 15 => replicate 10 0
  | 0, 9 => [1]
  | 0, 7 => replicate 6 0
  | 0, 57 => [area ia]
  | 0, 58 => [device ia]
  | 0, 56 => [0x00; 0xFE]
  | 11, 52 => u16_to_be (IndividualAddress_encode ia)
  | 11, 55 => match bind_ip cfg with Some (a, b, c, d) => [a; b; c; d] | None => [0; 0; 0; 0] end
  | 11, 7 => take 30 (device_name cfg)
  | 11, 8 => mac_address cfg
  | _, _ => [0; 0]
  end.

Definition handle_prop_read_req (addr : SocketAddr) (c : CemiFrame) (conn : TunnelConnection) : M unit :=
  match parse_property_request c with
  | None => st_ret tt
  | Some (object_index, property_id, count, start_index, _) =>
      do? s := get_server in
      let value := read_property (config s) object_index property_id in
      do? _ := send_tunnelling_request addr conn
                 (prop_read_con object_index property_id count start_index value) in
      announce (EvPropertyRead (tc_channel_id conn) object_index property_id)
  end.

Definition handle_prop_write_req (addr : SocketAddr) (c : CemiFrame) (conn : TunnelConnection) : M unit :=
  match parse_property_request c with
  | None => st_ret tt
  | Some (object_index, property_id, count, start_index, _) =>
      do? _ := send_tunnelling_request addr conn
                 (prop_write_con object_index property_id count start_index true) in
      announce (EvPropertyWrite (tc_channel_id conn) object_index property_id)
  end.

Definition handle_reset_req (addr : SocketAddr) (conn : TunnelConnection) : M unit :=
  do? _ := send_tunnelling_request addr conn reset_ind in
  announce (EvDeviceReset (tc_channel_id conn)).

Definition emit_bus_monitor_frame (original : CemiFrame) (conn : TunnelConnection) : M unit :=
  let raw_frame := CemiFrame_encode original in
  let status := if confirm original then 0x80 else 0x00 in
  do? conns := all_connections in
  do? _ := for_each conns (fun target =>
    do? _ := attempt (send_tunnelling_request (tc_data_endpoint target) target
                        (bus_monitor_indication raw_frame status 0)) in
    st_ret tt) in
  announce (EvBusMonitorFrameSent (tc_channel_id conn) (MessageCode_as_u8 (message_code original)) (zlen raw_frame)).

Definition dispatch_cemi (addr : SocketAddr) (c : CemiFrame) (conn : TunnelConnection) : M unit :=
  do? s := get_server in
  let behavior := tunnel_behavior (config s) in
  do? _ := match message_code c with
           | LDataReq => handle_ldata_req addr c conn
           | LDataInd => do? _ := handle_ldata_data addr c conn in st_ret tt
           | MPropReadReq => when (property_service_enabled behavior) (handle_prop_read_req addr c conn)
           | MPropWriteReq => when (property_service_enabled behavior) (handle_prop_write_req addr c conn)
           | MResetReq => when (reset_service_enabled behavior) (handle_reset_req addr conn)
           | LRawReq => send_ldata_con addr conn c true
           | _ => st_ret tt
           end in
  when (bus_monitor_enabled behavior) (emit_bus_monitor_frame c conn).

Definition process_cemi (addr : SocketAddr) (c : CemiFrame) (conn : TunnelConnection) : M unit :=
  do? _ := act (Processed (tc_channel_id conn) c) in
  dispatch_cemi addr c conn.

(* ------------------------------------------------------------------ *)
(** * Packet handlers *)

Definition response_bytes (service : ServiceType) (payload : list Z) : list Z :=
  KnxFrame_encode {| service_type := service; body := payload |}.

Definition local_hpai : Hpai :=
  {| protocol := Udp4; ip_address := fst local_addr; port := snd local_addr |}.

(** [DibDeviceInfo::new(..).with_serial_number(..).with_mac_address(..).encode()]. *)
Definition device_info_bytes (cfg : KnxServerConfig) : list Z :=
  [54; 0x01; 0x02; 0x00] ++ u16_to_be (IndividualAddress_encode (cfg_individual_address cfg))
    ++ u16_to_be 0 ++ serial_number cfg ++ [224; 0; 23; 12] ++ mac_address cfg
    ++ take 30 (device_name cfg) ++ replicate (30 - length (take 30 (device_name cfg))) 0.

(** [SupportedServiceFamilies::default_families().encode()]. *)
Definition service_families_bytes : list Z := [8; 0x02; 0x02; 1; 0x03; 1; 0x04; 1].

Definition handle_search_request (addr : SocketAddr) : M unit :=
  do? s := get_server in
  send_to addr (response_bytes SvSearchResponse
    (Hpai_encode local_hpai ++ device_info_bytes (config s) ++ service_families_bytes)).

Definition handle_description_request (addr : SocketAddr) : M unit :=
  do? s := get_server in
  send_to addr (response_bytes SvDescriptionResponse (device_info_bytes (config s) ++ service_families_bytes)).

Definition handle_connect_request (bytes : list Z) (addr : SocketAddr) : M unit :=
  do? request := st_lift (ConnectRequest_decode bytes) in
  do? channel := on_manager (pure_op allocate_channel) in
  match channel with
  | None =>
      send_to addr (response_bytes SvConnectResponse
        (ConnectResponse_encode (ConnectResponse_error CsNoMoreConnections)))
  | Some ch =>
      let ep := if Hpai_is_nat (data_endpoint request) then addr
                else (ip_address (data_endpoint request), port (data_endpoint request)) in
      do? conn := on_manager (create_connection ch addr ep) in
      do? _ := send_to addr (response_bytes SvConnectResponse
                 (ConnectResponse_encode (ConnectResponse_success ch local_hpai
                    {| crd_individual_address := individual_address conn |}))) in
      announce (EvClientConnected ch addr)
  end.

Definition state_response (ch status : Z) : list Z :=
  response_bytes SvConnectionStateResponse (ChannelResponse_encode {| chs_channel_id := ch; chs_status := status |}).

Definition handle_connection_state_request (bytes : list Z) (addr : SocketAddr) : M unit :=
  do? request := st_lift (ChannelRequest_decode bytes) in
  let ch := chr_channel_id request in
  do? s := get_server in
  if heartbeat_scheduler_enabled (tunnel_behavior (config s)) then
    do? action := on_heartbeat HeartbeatScheduler_next_action in
    match HeartbeatAction_status_code action with
    | Some status =>
        do? _ := when (negb (HeartbeatAction_is_normal action))
                   (announce (EvHeartbeatAction ch action (Some status))) in
        send_to addr (state_response ch status)
    | None => announce (EvHeartbeatSuppressed ch)
    end
  else
    send_to addr (state_response ch
      (match heartbeat_status_override (tunnel_behavior (config s)) with
       | Some status => status
       | None => match connections (manager s) !! ch with Some _ => 0 | None => 0x21 end
       end)).

(** The queue state and the error counts of a channel that is closed. *)
Definition forget_channel (ch : Z) : M unit :=
  do? s := get_server in
  do? _ := when (chain_enabled (filter_chain s))
             (on_chain (update_op (fun c => with_queue (clear_channel ch (queue_filter c)) c))) in
  on_tracker (update_op (remove_channel ch)).

Definition handle_disconnect_request (bytes : list Z) (addr : SocketAddr) : M unit :=
  do? request := st_lift (ChannelRequest_decode bytes) in
  let ch := chr_channel_id request in
  do? _ := on_manager (update_op (ConnectionManager_remove ch)) in
  do? _ := forget_channel ch in
  do? _ := send_to addr (response_bytes SvDisconnectResponse
             (ChannelResponse_encode {| chs_channel_id := ch; chs_status := 0 |})) in
  announce (EvClientDisconnected ch).

Definition ack_bytes (a : TunnellingAck) : list Z := response_bytes SvTunnellingAck (TunnellingAck_encode a).

(** [connection.validate_recv_sequence(seq)] on a connection of the table. *)
Definition validate_recv_sequence (ch : Z) (conn : TunnelConnection) (seq : Z) : M ReceivedValidation :=
  on_manager (fun m =>
    let '(v, t) := validate_received seq (sequence_tracker conn) in
    (Ok v, with_connections m (<[ch := with_tracker conn t]> (connections m)))).

Definition handle_tunnelling_request (bytes : list Z) (addr : SocketAddr) : M unit :=
  do? request := st_lift (TunnellingRequest_decode bytes) in
  let ch := tr_channel_id request in
  let seq := sequence_counter request in
  do? s := get_server in
  match connections (manager s) !! ch with
  | None => send_to addr (ack_bytes (TunnellingAck_error ch seq 0x21))
  | Some conn =>
      do? validation := validate_recv_sequence ch conn seq in
      do? _ := announce (EvSequence ch validation) in
      do? _ := when (should_ack validation) (send_to addr (ack_bytes (TunnellingAck_ok ch seq))) in
      do? _ := when (should_process validation) (process_cemi addr (cemi request) conn) in
      when (requires_restart validation) (
        do? _ := forget_channel ch in
        do? _ := on_manager (update_op (ConnectionManager_remove ch)) in
        announce (EvClientDisconnected ch))
  end.

(** [drain]: the variant used when the filter chain is enabled also sends queued frames. *)
Definition handle_tunnelling_ack (drain : bool) (bytes : list Z) : M unit :=
  do? ack := st_lift (TunnellingAck_decode bytes) in
  let ch := ack_channel_id ack in
  do? s := get_server in
  match connections (manager s) !! ch with
  | None => st_ret tt
  | Some conn =>
      do? _ := on_manager (update_op (fun m => with_connections m
                 (<[ch := {| tc_channel_id := tc_channel_id conn; client_addr := client_addr conn;
                             tc_data_endpoint := tc_data_endpoint conn;
                             individual_address := individual_address conn;
                             sequence_tracker := sequence_tracker conn;
                             fsm := on_ack_received_simple (fsm conn) |}]> (connections m)))) in
      do? _ := when (chain_enabled (filter_chain s))
                 (if ack_status ack =? 0 then
                    do? _ := chain_on_send_success (tc_channel_id conn) in
                    when drain (drain_queued_frames conn)
                  else chain_on_send_failure) in
      if ack_status ack =? 0 then tracker_on_send_success (tc_channel_id conn)
      else handle_send_error_tracking (tc_channel_id conn) EcAckError
  end.

Definition handle_packet (bytes : list Z) (addr : SocketAddr) : M unit :=
  do? frame := st_lift (KnxFrame_decode bytes) in
  match service_type frame with
  | SvSearchRequest => handle_search_request addr
  | SvDescriptionRequest => handle_description_request addr
  | SvConnectRequest => handle_connect_request (body frame) addr
  | SvConnectionStateRequest => handle_connection_state_request (body frame) addr
  | SvDisconnectRequest => handle_disconnect_request (body frame) addr
  | SvTunnellingRequest => handle_tunnelling_request (body frame) addr
  | SvTunnellingAck =>
      do? s := get_server in handle_tunnelling_ack (chain_enabled (filter_chain s)) (body frame)
  | _ => st_ret tt
  end.

End server.

(* ------------------------------------------------------------------ *)
(** * What handlers preserve *)

Section preservation.
Context `{BuildProfile} `{Environment}.

(** [c] preserves [P] unless it panics. *)
Definition preserves {A} (P : Server → Prop) (c : M A) : Prop :=
  ∀ s r s', c s = (r, s') → r ≠ Panic → P s → P s'.

Lemma preserves_ret {A} P (a : A) : preserves P (st_ret a).
Proof. by intros s r s' [= <- <-]. Qed.
Lemma preserves_err {A} P e : preserves P (st_err e : M A).
Proof. by intros s r s' [= <- <-]. Qed.
Lemma preserves_lift {A} P (c : outcome KnxError A) : preserves P (st_lift c).
Proof. by intros s r s' [= <- <-]. Qed.
Lemma preserves_get P : preserves P get_server.
Proof. by intros s r s' [= <- <-]. Qed.
Lemma preserves_all P : preserves P all_connections.
Proof. by intros s r s' [= <- <-]. Qed.

Lemma preserves_bind {A B} P (c : M A) (k : A → M B) :
  preserves P c → (∀ a, preserves P (k a)) → preserves P (do? a := c in k a).
Proof.
  intros Hc Hk s r s'. unfold st_bind. destruct (c s) as [[a|e|] s1] eqn:E.
  - intros Hr Hnp HP. eapply Hk; [done|done|]. by eapply Hc.
  - intros [= <- <-] Hnp HP. by eapply Hc.
  - by intros [= <- <-].
Qed.

Lemma preserves_attempt {A} P (c : M A) : preserves P c → preserves P (attempt c).
Proof.
  intros Hc s r s'. unfold attempt. destruct (c s) as [[a|e|] s1] eqn:E; intros [= <- <-] Hnp HP;
    [by eapply Hc..|done].
Qed.

Lemma preserves_when P b c : preserves P c → preserves P (when b c).
Proof. intros Hc. destruct b; [done|apply preserves_ret]. Qed.

Lemma preserves_for_each {A} P (l : list A) body :
  (∀ x, preserves P (body x)) → preserves P (for_each l body).
Proof.
  intros Hb. induction l as [|x l IH]; cbn; [apply preserves_ret|]. by apply preserves_bind; [apply Hb|].
Qed.

(** [P] does not look at clock, socket, random draws, group objects, cache and error counts, nor
    at what is sent and announced. *)
Definition is_processed (a : Action) : bool := match a with Processed _ _ => true | _ => false end.
Class Unobserving (P : Server → Prop) : Prop := {
  un_clock s x : P s → P (set_clock_reads x s);
  un_sends s x : P s → P (set_socket_sends x s);
  un_draws s x : P s → P (set_draws x s);
  un_log s a : is_processed a = false → P s → P (set_log (log s ++ [a]) s);
  un_groups s x : P s → P (set_group_objects x s);
  un_cache s x : P s → P (set_group_value_cache x s);
  un_tracker s x : P s → P (set_error_tracker x s);
}.

Section unobserving.
Context (P : Server → Prop) `{!Unobserving P}.

Lemma preserves_now : preserves P now.
Proof. intros s r s' [= <- <-] _. apply un_clock. Qed.
Lemma preserves_draw : preserves P draw_below_rate.
Proof. intros s r s' [= <- <-] _. apply un_draws. Qed.
Lemma preserves_act a : is_processed a = false → preserves P (act a).
Proof. intros Ha s r s' [= <- <-] _. by apply un_log. Qed.
Lemma preserves_announce e : preserves P (announce e).
Proof. by apply preserves_act. Qed.
Lemma preserves_send_to addr bytes : preserves P (send_to addr bytes).
Proof. apply preserves_bind; [by apply preserves_act|]. intros _ s r s' [= <- <-] _. apply un_sends. Qed.
Lemma preserves_on_groups {A} (c : stM GroupObjectTable KnxError A) : preserves P (on_groups c).
Proof. intros s r s'. unfold on_groups. destruct (c _). intros [= <- <-] _. apply un_groups. Qed.
Lemma preserves_on_cache {A} (c : stM GroupValueCache KnxError A) : preserves P (on_cache c).
Proof. intros s r s'. unfold on_cache. destruct (c _). intros [= <- <-] _. apply un_cache. Qed.
Lemma preserves_on_tracker {A} (c : stM SendErrorTracker KnxError A) : preserves P (on_tracker c).
Proof. intros s r s'. unfold on_tracker. destruct (c _). intros [= <- <-] _. apply un_tracker. Qed.

End unobserving.
End preservation.

#[export] Hint Resolve preserves_ret preserves_err preserves_lift preserves_get preserves_all
  preserves_now preserves_draw preserves_announce preserves_send_to preserves_on_groups
  preserves_on_cache preserves_on_tracker : keeps.

(** Walks through a handler: sequences, calls, branches. *)
Ltac keep :=
  repeat (intros;
    lazymatch goal with
    | |- preserves _ (st_bind _ _) => apply preserves_bind
    | |- preserves _ (attempt _) => apply preserves_attempt
    | |- preserves _ (when _ _) => apply preserves_when
    | |- preserves _ (for_each _ _) => apply preserves_for_each
    | |- preserves _ (match ?x with _ => _ end) => destruct x
    | |- preserves _ _ => solve [eauto with keeps typeclass_instances]
    | |- Unobserving _ => apply _
    end).

Section dispatch.
Context `{BuildProfile} `{Environment} (P : Server → Prop) `{!Unobserving P}.

Lemma preserves_send_error_tracking ch cat : preserves P (handle_send_error_tracking ch cat).
Proof. unfold handle_send_error_tracking. keep. Qed.

Lemma preserves_tracker_success ch : preserves P (tracker_on_send_success ch).
Proof. unfold tracker_on_send_success. keep. Qed.

(** Whatever [send_tunnelling_request] preserves, the dispatch of a telegram preserves. *)
Context (Hsend : ∀ addr conn c, preserves P (send_tunnelling_request addr conn c)).
#[local] Hint Resolve Hsend : keeps.

Lemma preserves_ldata_data addr c conn : preserves P (handle_ldata_data addr c conn).
Proof. unfold handle_ldata_data. keep. Qed.

Lemma preserves_broadcast_loop c ch conns n : preserves P (broadcast_loop c ch conns n).
Proof. revert n. induction conns as [|conn conns IH]; intros n; cbn; keep; apply IH. Qed.

#[local] Hint Resolve preserves_ldata_data preserves_broadcast_loop : keeps.

Lemma preserves_dispatch_cemi addr c conn : preserves P (dispatch_cemi addr c conn).
Proof.
  unfold dispatch_cemi, handle_ldata_req, compute_confirmation_success, send_ldata_con,
    broadcast_ldata_ind, handle_prop_read_req, handle_prop_write_req, handle_reset_req,
    emit_bus_monitor_frame. keep.
Qed.
End dispatch.
