(* ===== verification/KnxSession.v ===== *)
(** A tunnelling client and the KNX server over an unreliable network: every telegram of the client is
    processed exactly once and in order, whatever other clients do. *)

From S2P Require Import Prelude KnxFrame KnxCemi KnxMessages KnxTunnel KnxFlow KnxGroup KnxHealth KnxServer.

(* ------------------------------------------------------------------ *)
(** * One channel of the server *)

(** The telegrams of the channel that were processed, according to the log. *)
Definition processed_on (ch : Z) (l : list Action) : list CemiFrame :=
  omap (fun a => match a with
                 | Processed ch' f => if decide (ch' = ch) then Some f else None
                 | _ => None
                 end) l.

(** Connections are stored under their channel. *)
Definition keyed (m : ConnectionManager) : Prop :=
  map_Forall (fun ch c => tc_channel_id c = ch) (connections m).

(** The receiving side of a connection: the sequence number it expects and its desync threshold. *)
Definition receiver (c : TunnelConnection) : Z * Z :=
  (rno (sequence_tracker c), fatal_desync_threshold (sequence_tracker c)).

(** The receiving side of the channel is [v], the server has processed [l] and has logged at least
    [l0]. *)
Definition expects (ch : Z) (v : Z * Z) (l : list CemiFrame) (l0 : list Action) (s : Server) : Prop :=
  (∃ c, connections (manager s) !! ch = Some c ∧ receiver c = v) ∧
  keyed (manager s) ∧ processed_on ch (log s) = l ∧ l0 `prefix_of` log s.

Section session.
Context `{BuildProfile} `{Environment} (channel : Z).

Lemma processed_on_app l1 l2 : processed_on channel (l1 ++ l2) = processed_on channel l1 ++ processed_on channel l2.
Proof. apply omap_app. Qed.

#[export] Instance expects_unobserving v l l0 : Unobserving (expects channel v l l0).
Proof.
  split; try (intros s x Hs; exact Hs).
  intros s a Ha (Hc & Hk & Hp & Hl). split_and!; [done..| |].
  - cbn [log set_log]. rewrite processed_on_app, Hp. destruct a; [apply app_nil_r..|done].
  - by apply prefix_app_r.
Qed.

(** Changing a connection without touching what it expects. *)
Lemma expects_insert v l l0 s ch c c' :
  expects channel v l l0 s → connections (manager s) !! ch = Some c →
  tc_channel_id c' = ch → receiver c' = receiver c →
  expects channel v l l0 (set_manager (with_connections (manager s) (<[ch := c']> (connections (manager s)))) s).
Proof.
  intros ((c0 & Hc0 & Hr) & Hk & Hp & Hl) Hc Hid Hrno. split_and!; [|by apply map_Forall_insert_2|done..].
  cbn. destruct (decide (ch = channel)) as [->|Hne].
  - exists c'. rewrite lookup_insert_eq. split; [done|]. congruence.
  - exists c0. by rewrite lookup_insert_ne.
Qed.

Lemma expects_on_chain {A} v l l0 (c : stM FilterChain KnxError A) : preserves (expects channel v l l0) (on_chain c).
Proof. intros s r s'. unfold on_chain. destruct (c _). intros [= <- <-] _ Hs. exact Hs. Qed.

Lemma expects_next_sequence v l l0 conn : preserves (expects channel v l l0) (next_send_sequence conn).
Proof.
  intros s r s'. unfold next_send_sequence, on_manager.
  destruct (connections (manager s) !! tc_channel_id conn) as [c|] eqn:Hc; intros [= <- <-] _ Hs.
  - eapply expects_insert; [done|exact Hc| |done]. destruct Hs as (_ & Hk & _). by apply Hk in Hc.
  - destruct s. exact Hs.
Qed.

#[local] Hint Resolve expects_on_chain expects_next_sequence preserves_send_error_tracking
  preserves_tracker_success : keeps.

Lemma expects_send v l l0 addr conn c : preserves (expects channel v l l0) (send_tunnelling_request addr conn c).
Proof.
  unfold send_tunnelling_request, send_tunnelling_request_raw, set_backpressure,
    chain_on_send_success, chain_on_send_failure. keep.
Qed.

Lemma expects_dispatch v l l0 addr c conn : preserves (expects channel v l l0) (dispatch_cemi addr c conn).
Proof. apply preserves_dispatch_cemi; [apply _|]. intros. apply expects_send. Qed.

(* ------------------------------------------------------------------ *)
(** * Packets of other clients *)

(** [c] preserves [P] when run in state [s]. *)
Definition preserves_at {A} (P : Server → Prop) (s : Server) (c : M A) : Prop :=
  ∀ r s', c s = (r, s') → r ≠ Panic → P s → P s'.

Lemma preserves_everywhere {A} P (c : M A) s : preserves P c → preserves_at P s c.
Proof. intros Hc r s'. apply Hc. Qed.

Lemma preserves_at_bind {A B} P (c : M A) (k : A → M B) s :
  preserves_at P s c → (∀ a, preserves P (k a)) → preserves_at P s (do? a := c in k a).
Proof.
  intros Hc Hk r s'. unfold st_bind. destruct (c s) as [[a|e|] s1] eqn:E.
  - intros Hr Hnp HP. eapply Hk; [done|done|]. by eapply Hc.
  - intros [= <- <-] Hnp HP. by eapply Hc.
  - by intros [= <- <-].
Qed.

Lemma preserves_get_bind {B} P (k : Server → M B) :
  (∀ s, P s → preserves_at P s (k s)) → preserves P (do? s := get_server in k s).
Proof. intros Hk s r s' Hr Hnp HP. by eapply (Hk s). Qed.

(** The packet is not a tunnelling or disconnect request for the channel. *)
Definition foreign (bytes : list Z) : Prop :=
  ∀ f, KnxFrame_decode bytes = Ok f →
    match service_type f with
    | SvTunnellingRequest => ∀ r, TunnellingRequest_decode (body f) = Ok r → tr_channel_id r ≠ channel
    | SvDisconnectRequest => ∀ r, ChannelRequest_decode (body f) = Ok r → chr_channel_id r ≠ channel
    | _ => True
    end.

Lemma preserves_lift_bind {A B} P (c : outcome KnxError A) (k : A → M B) :
  (∀ a, c = Ok a → preserves P (k a)) → preserves P (do? a := st_lift c in k a).
Proof.
  intros Hk s r s'. unfold st_bind, st_lift. destruct c as [a|e|]; [by apply Hk|by intros [= <- <-]..].
Qed.

Lemma expects_remove v l l0 ch :
  ch ≠ channel → preserves (expects channel v l l0) (on_manager (update_op (ConnectionManager_remove ch))).
Proof.
  intros Hne s r s' [= <- <-] _ ((c & Hc & Hr) & Hk & Hp & Hl). split_and!; [|by apply map_Forall_delete|done..].
  exists c. cbn. by rewrite lookup_delete_ne.
Qed.

Lemma expects_forget v l l0 ch : preserves (expects channel v l l0) (forget_channel ch).
Proof. unfold forget_channel. keep. Qed.

(** A channel the allocation loop returns is not in use. *)
Lemma allocate_loop_fresh n m ch m' : allocate_loop n m = (Some ch, m') → connections m !! ch = None ∧ connections m' = connections m.
Proof.
  revert m. induction n as [|n IH]; intros m; cbn [allocate_loop]; [done|].
  destruct (negb _ && negb _) eqn:E.
  - intros [= <- <-]. apply andb_true_iff in E as [_ E]. by destruct (connections m !! next_channel_id m).
  - intros Hl. by apply IH in Hl.
Qed.
Lemma allocate_loop_connections n m r m' : allocate_loop n m = (r, m') → connections m' = connections m.
Proof.
  revert m. induction n as [|n IH]; intros m; cbn [allocate_loop]; [by intros [= <- <-]|].
  destruct (negb _ && negb _); [by intros [= <- <-]|]. intros Hl. by apply IH in Hl.
Qed.

Lemma expects_same_table v l l0 s m :
  connections m = connections (manager s) → expects channel v l l0 s → expects channel v l l0 (set_manager m s).
Proof. intros Hm (Hc & Hk & Hp & Hl). unfold expects, keyed in *. cbn. by rewrite Hm. Qed.

Lemma expects_allocate v l l0 s ch m :
  expects channel v l l0 s → allocate_channel (manager s) = (ch, m) →
  expects channel v l l0 (set_manager m s) ∧
  (∀ id, ch = Some id → connections m !! id = None ∧ id ≠ channel).
Proof.
  intros Hs. unfold allocate_channel. destruct (_ <=? _); [by intros [= <- <-]; destruct s|]. intros Ha.
  assert (connections m = connections (manager s)) as Hm by (by eapply allocate_loop_connections).
  split; [by apply expects_same_table|]. intros id ->. apply allocate_loop_fresh in Ha as [Hfree _].
  rewrite Hm. split; [done|]. intros ->. destruct Hs as ((c & Hc & _) & _). congruence.
Qed.

Lemma expects_create v l l0 s ch addr ep :
  expects channel v l l0 s → connections (manager s) !! ch = None → ch ≠ channel →
  ∀ r s', on_manager (create_connection ch addr ep) s = (r, s') → expects channel v l l0 s'.
Proof.
  intros ((c & Hc & Hr) & Hk & Hp & Hl) Hfree Hne r s'. unfold on_manager, create_connection.
  destruct (obind _ _) as [ia|e|]; intros [= <- <-]; [|by destruct s; split_and!; eauto..].
  split_and!; [|by apply map_Forall_insert_2|done..]. exists c. cbn. by rewrite lookup_insert_ne.
Qed.

Lemma expects_connect v l l0 bytes addr : preserves (expects channel v l l0) (handle_connect_request bytes addr).
Proof.
  unfold handle_connect_request. apply preserves_lift_bind. intros request _ s r s'. unfold st_bind at 1, on_manager at 1, pure_op.
  destruct (allocate_channel (manager s)) as [ch m] eqn:Ha. intros Hrun Hnp Hs.
  destruct (expects_allocate v l l0 s ch m Hs Ha) as [Hs1 Hfresh]. revert Hrun Hnp Hs1.
  destruct ch as [ch|]; [|by eapply preserves_send_to; [apply _|..]].
  destruct (Hfresh ch eq_refl) as [Hfree Hne]. intros Hrun Hnp Hs1. revert Hrun. unfold st_bind at 1.
  destruct (on_manager _ _) as [[conn|e|] s2] eqn:Hc; [|by intros [= <- <-]; eapply expects_create in Hc..].
  intros Hrun. eapply expects_create in Hc; [|done..]. revert Hrun Hnp Hc.
  assert (preserves (expects channel v l l0) (do? _ := send_to addr (response_bytes SvConnectResponse
      (ConnectResponse_encode (ConnectResponse_success ch local_hpai
         {| crd_individual_address := individual_address conn |}))) in
    announce (EvClientConnected ch addr))) as Hrest by keep.
  apply Hrest.
Qed.

Lemma expects_on_heartbeat {A} v l l0 (c : stM HeartbeatScheduler KnxError A) :
  preserves (expects channel v l l0) (on_heartbeat c).
Proof. intros s r s'. unfold on_heartbeat. destruct (c _). intros [= <- <-] _ Hs. exact Hs. Qed.

Lemma expects_process v l l0 addr c conn :
  tc_channel_id conn ≠ channel → preserves (expects channel v l l0) (process_cemi addr c conn).
Proof.
  intros Hne. apply preserves_bind; [|intros _; apply expects_dispatch].
  intros s r s' [= <- <-] _ (Hc & Hk & Hp & Hl). split_and!; [done..| |by apply prefix_app_r].
  cbn [log set_log]. rewrite processed_on_app, Hp. cbn. rewrite decide_False by done. apply app_nil_r.
Qed.

Lemma expects_drain_loop v l l0 conn es : preserves (expects channel v l l0) (drain_loop conn es).
Proof.
  induction es as [|e es IH]; cbn [drain_loop];
    unfold send_tunnelling_request_raw, set_backpressure, chain_on_send_success, chain_on_send_failure; keep.
Qed.

#[local] Hint Resolve expects_on_heartbeat expects_drain_loop expects_connect expects_forget : keeps.

Lemma expects_foreign_request v l l0 bytes addr :
  (∀ r, TunnellingRequest_decode bytes = Ok r → tr_channel_id r ≠ channel) →
  preserves (expects channel v l l0) (handle_tunnelling_request bytes addr).
Proof.
  intros Hf. apply preserves_lift_bind. intros request Hreq. apply Hf in Hreq.
  apply preserves_get_bind. intros s Hs.
  destruct (connections (manager s) !! tr_channel_id request) as [conn|] eqn:Hconn;
    [|apply preserves_everywhere; keep].
  assert (tc_channel_id conn = tr_channel_id request) as Hid by (destruct Hs as (_ & Hk & _); by apply Hk in Hconn).
  apply preserves_at_bind.
  - intros r s' Hrun _ _. revert Hrun. unfold validate_recv_sequence, on_manager.
    destruct (validate_received _ _) as [v' t]. intros [= <- <-].
    destruct Hs as ((c & Hc & Hr) & Hk & Hp & Hl). split_and!; [|by apply map_Forall_insert_2|done..].
    exists c. cbn. by rewrite lookup_insert_ne.
  - intros validation. pose proof (expects_process v l l0 addr (cemi request) conn) as Hproc.
    rewrite Hid in Hproc. specialize (Hproc Hreq).
    pose proof (expects_remove v l l0 (tr_channel_id request) Hreq) as Hrem. keep.
Qed.

Lemma expects_ack v l l0 drain bytes : preserves (expects channel v l l0) (handle_tunnelling_ack drain bytes).
Proof.
  apply preserves_lift_bind. intros ack _. apply preserves_get_bind. intros s Hs.
  destruct (connections (manager s) !! ack_channel_id ack) as [conn|] eqn:Hconn;
    [|apply preserves_everywhere; keep].
  apply preserves_at_bind.
  - intros r s' [= <- <-] _ _. eapply expects_insert; [done|exact Hconn| |done].
    destruct Hs as (_ & Hk & _). by apply Hk in Hconn.
  - intros _. unfold drain_queued_frames, chain_on_send_success, chain_on_send_failure. keep.
Qed.

(** Packets for other channels, connects, heartbeats and acknowledgements leave the channel as it
    is. *)
Lemma expects_foreign v l l0 bytes addr :
  foreign bytes → preserves (expects channel v l l0) (handle_packet bytes addr).
Proof.
  intros Hf. apply preserves_lift_bind. intros f Hdec. specialize (Hf f Hdec).
  destruct (service_type f); try (by keep).
  - unfold handle_search_request. keep.
  - unfold handle_description_request. keep.
  - unfold handle_connection_state_request. keep.
  - unfold handle_disconnect_request. apply preserves_lift_bind. intros request Hreq. apply Hf in Hreq.
    pose proof (expects_remove v l l0 (chr_channel_id request) Hreq). keep.
  - by apply expects_foreign_request.
  - apply preserves_get_bind. intros s _. apply preserves_everywhere, expects_ack.
Qed.

(* ------------------------------------------------------------------ *)
(** * The client's own packets *)

(** The client's telegrams, numbered from zero, and the bytes it sends for each. *)
Context (frame : nat → CemiFrame) (cemi_bytes : nat → list Z) (threshold : Z).

Definition packet (k : nat) : list Z :=
  KnxFrame_encode {| service_type := SvTunnellingRequest;
                     body := [4; channel; Z.of_nat k mod 256; 0] ++ cemi_bytes k |}.
Definition ack_packet (k : nat) : list Z := ack_bytes (TunnellingAck_ok channel (Z.of_nat k mod 256)).

(** The bytes of each telegram decode to it and fit into a frame. *)
Definition client_ok : Prop :=
  ∀ k, CemiFrame_decode (cemi_bytes k) = Ok (frame k) ∧ zlen (cemi_bytes k) <= 65525.
(** The socket accepts every packet the server sends. *)
Definition socket_ok : Prop := ∀ n, send_succeeds n = true.

Context (Hclient : client_ok).

Lemma handle_own_packet k addr s :
  handle_packet (packet k) addr s
  = handle_tunnelling_request ([4; channel; Z.of_nat k mod 256; 0] ++ cemi_bytes k) addr s.
Proof.
  destruct (Hclient k) as [_ Hlen]. unfold handle_packet, st_bind at 1, st_lift at 1, packet.
  rewrite knx_frame_roundtrip; [done|]. cbn [body]. rewrite zlen_app. unfold zlen at 1. cbn [length]. lia.
Qed.

(** The state after the sequence number has been checked and the acknowledgement sent. *)
Definition acknowledged (conn : TunnelConnection) (v : ReceivedValidation) (t : SequenceTracker) (k : nat)
    (addr : SocketAddr) (s : Server) : Server :=
  let s1 := set_manager (with_connections (manager s) (<[channel := with_tracker conn t]> (connections (manager s)))) s in
  let s2 := set_log (log s1 ++ [Announced (EvSequence channel v)]) s1 in
  set_socket_sends (S (socket_sends s2)) (set_log (log s2 ++ [SentTo addr (ack_packet k)]) s2).

Lemma handle_own_request k addr s conn v t :
  connections (manager s) !! channel = Some conn →
  validate_received (Z.of_nat k mod 256) (sequence_tracker conn) = (v, t) →
  should_ack v = true → requires_restart v = false →
  handle_packet (packet k) addr s
  = if negb (send_succeeds (socket_sends s)) then (Err KnxIo, acknowledged conn v t k addr s)
    else (do? _ := when (should_process v) (process_cemi addr (frame k) conn) in st_ret tt) (acknowledged conn v t k addr s).
Proof.
  intros Hconn Hval Hack Hres. rewrite handle_own_packet. destruct (Hclient k) as [Hdec _].
  unfold handle_tunnelling_request, st_bind at 1, st_lift.
  rewrite (tunnelling_request_decode _ _ _ (frame k)) by done. cbn [tr_channel_id sequence_counter cemi].
  unfold st_bind at 1, get_server. rewrite Hconn. unfold st_bind at 1, validate_recv_sequence, on_manager.
  rewrite Hval. unfold st_bind at 1, announce, act at 1. unfold st_bind at 1. rewrite Hack. cbn [when].
  unfold send_to, act, st_bind at 1. cbn [log set_log set_manager socket_sends].
  destruct (send_succeeds (socket_sends s)); [by rewrite Hres|done].
Qed.

Lemma expects_acknowledged conn v t k addr s l l0 c :
  expects channel v l l0 s → connections (manager s) !! channel = Some conn →
  expects channel (receiver (with_tracker conn t)) l (log s ++ [Announced (EvSequence channel c); SentTo addr (ack_packet k)])
    (acknowledged conn c t k addr s).
Proof.
  intros (_ & Hk & Hp & _) Hconn. split_and!.
  - exists (with_tracker conn t). cbn. by rewrite lookup_insert_eq.
  - unfold keyed. cbn. apply map_Forall_insert_2; [by apply Hk in Hconn|done].
  - unfold acknowledged. cbn [log set_log set_socket_sends set_manager].
    rewrite <- app_assoc, processed_on_app, Hp. apply app_nil_r.
  - cbn. by rewrite <- app_assoc.
Qed.

(** Processing a telegram of the channel. *)
Lemma expects_process_own v l l0 addr c conn s r s' :
  tc_channel_id conn = channel → expects channel v l l0 s →
  process_cemi addr c conn s = (r, s') → r ≠ Panic → expects channel v (l ++ [c]) l0 s'.
Proof.
  intros Hid (Hc & Hk & Hp & Hl) Hrun Hnp.
  eapply (expects_dispatch v (l ++ [c]) l0 addr c conn); [exact Hrun|done|].
  split_and!; [done..| |by apply prefix_app_r].
  cbn [log set_log]. rewrite processed_on_app, Hp. cbn. by rewrite Hid, decide_True.
Qed.

(** The acknowledgement of the expected telegram cannot be sent: the server has advanced without
    processing the telegram. *)
Lemma arrive_unacknowledged s count l l0 addr :
  expects channel (Z.of_nat count mod 256, threshold) l l0 s → send_succeeds (socket_sends s) = false →
  ∃ s', handle_packet (packet count) addr s = (Err KnxIo, s') ∧ socket_sends s' = S (socket_sends s) ∧
    expects channel (Z.of_nat (S count) mod 256, threshold) l [] s'.
Proof.
  intros Hs Hfail. pose proof Hs as ((conn & Hconn & [= Hrno Hthr]) & _).
  rewrite (handle_own_request count addr s conn _ _ Hconn (validate_expected _ count Hrno)) by done.
  rewrite Hfail. cbn [negb]. eexists. split; [done|]. split; [done|].
  match goal with |- expects _ _ _ _ (acknowledged _ ?v ?t _ _ _) =>
    destruct (expects_acknowledged conn _ t count addr s l l0 v Hs Hconn) as ((c & Hc & Hrec) & Hk & Hp & _) end.
  split_and!; [|done..|apply prefix_nil]. exists c. split; [done|]. rewrite Hrec. unfold receiver. cbn. by rewrite Hthr.
Qed.

(** The arrival of an older telegram when its acknowledgement can be sent. *)
Lemma arrive_duplicate s count k l l0 addr :
  expects channel (Z.of_nat count mod 256, threshold) l l0 s → (k < count ≤ k + 128)%nat →
  send_succeeds (socket_sends s) = true →
  ∃ s' l1, handle_packet (packet k) addr s = (Ok tt, s') ∧
    expects channel (Z.of_nat count mod 256, threshold) l (log s ++ l1) s' ∧ SentTo addr (ack_packet k) ∈ l1.
Proof.
  intros Hs Hk Hok. pose proof Hs as ((conn & Hconn & Hrec) & _). pose proof Hrec as [= Hrno _].
  rewrite (handle_own_request k addr s conn _ _ Hconn (validate_behind _ count k Hrno Hk)) by done.
  rewrite Hok. cbn [negb].
  do 2 eexists. split; [done|]. split; [|apply list_elem_of_further, list_elem_of_here].
  rewrite <- Hrec.
  exact (expects_acknowledged conn _ (count_duplicate (sequence_tracker conn)) k addr s l l0 _ Hs Hconn).
Qed.

Context (Hsocket : socket_ok).

(** The arrival of the telegram the server expects. *)
Lemma arrive_expected s count l l0 addr r s' :
  expects channel (Z.of_nat count mod 256, threshold) l l0 s →
  handle_packet (packet count) addr s = (r, s') → r ≠ Panic →
  ∃ l1, expects channel (Z.of_nat (S count) mod 256, threshold) (l ++ [frame count]) (log s ++ l1) s' ∧
    SentTo addr (ack_packet count) ∈ l1.
Proof.
  intros Hs. pose proof Hs as ((conn & Hconn & [= Hrno Hthr]) & Hk & _). apply Hk in Hconn as Hid.
  rewrite (handle_own_request count addr s conn _ _ Hconn (validate_expected _ count Hrno)) by done.
  rewrite Hsocket. cbn [negb].
  cbn [should_process when]. set (v := Valid _). set (t := count_valid _).
  pose proof (expects_acknowledged conn _ t count addr s l l0 v Hs Hconn) as Hack.
  unfold st_bind. destruct (process_cemi _ _ _ _) as [r1 s1] eqn:Hproc. intros Hrun Hnp.
  eexists. split; [|apply list_elem_of_further, list_elem_of_here].
  assert (r1 ≠ Panic ∧ s1 = s') as [Hnp1 <-] by (destruct r1 as [[]|e|]; by injection Hrun as <- <-).
  replace (receiver (with_tracker conn t)) with (Z.of_nat (S count) mod 256, threshold) in Hack
    by (unfold receiver; cbn; by rewrite Hthr).
  by apply (expects_process_own _ _ _ _ _ _ _ _ _ Hid Hack Hproc).
Qed.

(** The arrival of a telegram after a gap: it is processed, and the server still expects the
    missing one. *)
Lemma arrive_ahead s count d l l0 addr r s' :
  expects channel (Z.of_nat count mod 256, threshold) l l0 s →
  (0 < d < 128)%nat → Z.of_nat d < threshold →
  handle_packet (packet (count + d)) addr s = (r, s') → r ≠ Panic →
  expects channel (Z.of_nat count mod 256, threshold) (l ++ [frame (count + d)]) [] s'.
Proof.
  intros Hs Hd Hlt. pose proof Hs as ((conn & Hconn & Hrec) & Hk & _). apply Hk in Hconn as Hid.
  pose proof Hrec as [= Hrno Hthr].
  rewrite (handle_own_request (count + d) addr s conn _ _ Hconn
    (validate_ahead _ count d Hrno Hd ltac:(lia))) by done.
  rewrite Hsocket. cbn [negb should_process when]. set (v := OutOfOrder _ _ _). set (t := count_out_of_order _).
  pose proof (expects_acknowledged conn _ t (count + d) addr s l l0 v Hs Hconn) as Hack.
  change (receiver (with_tracker conn t)) with (receiver conn) in Hack. rewrite Hrec in Hack.
  unfold st_bind. destruct (process_cemi _ _ _ _) as [r1 s1] eqn:Hproc. intros Hrun Hnp.
  assert (r1 ≠ Panic ∧ s1 = s') as [Hnp1 <-] by (destruct r1 as [[]|e|]; by injection Hrun as <- <-).
  pose proof (expects_process_own _ _ _ _ _ _ _ _ _ Hid Hack Hproc Hnp1) as (H1 & H2 & H3 & _).
  split_and!; [done..|apply prefix_nil].
Qed.

(* ------------------------------------------------------------------ *)
(** * Sessions *)

(** [sending]: the telegram the client is sending; [acked]: the telegrams for which an
    acknowledgement has left the server. *)
Record session : Type := { sending : nat; server : Server; acked : list nat }.

(** What handling a packet appended to the log. *)
Definition logged (s s' : Server) : list Action := drop (length (log s)) (log s').
(** Whether the acknowledgement of telegram [k] is among the actions. *)
Definition acks_in (k : nat) (l : list Action) : list nat :=
  if existsb (fun a => match a with SentTo _ b => bool_decide (b = ack_packet k) | _ => false end) l
  then [k] else [].

(** The network may lose, repeat and delay: any telegram sent so far may arrive at any time and
    any number of times, as long as it is not older than 127 telegrams; an acknowledgement may get
    lost, or be received, as long as it is not older than 255 telegrams.  The client moves on when
    it receives an acknowledgement with the current sequence number.  In between the server
    handles any packets of other clients.  A server that panics takes no further step. *)
Inductive step : session → session → Prop :=
| step_arrive s k addr r s' :
    (k ≤ sending s < k + 128)%nat →
    handle_packet (packet k) addr (server s) = (r, s') → r ≠ Panic →
    step s {| sending := sending s; server := s'; acked := acked s ++ acks_in k (logged (server s) s') |}
| step_other s bytes addr r s' :
    foreign bytes → handle_packet bytes addr (server s) = (r, s') → r ≠ Panic →
    step s {| sending := sending s; server := s'; acked := acked s |}
| step_advance s k :
    k ∈ acked s → (k ≤ sending s < k + 256)%nat →
    Z.of_nat k mod 256 = Z.of_nat (sending s) mod 256 →
    step s {| sending := S (sending s); server := server s; acked := acked s |}.

Inductive reachable (s : session) : session → Prop :=
| reach_refl : reachable s s
| reach_step s1 s2 : reachable s s1 → step s1 s2 → reachable s s2.

(** [count] telegrams have been processed, in order, once each. *)
Definition in_step (s : session) (count : nat) : Prop :=
  (sending s = count ∨ count = S (sending s)) ∧
  expects channel (Z.of_nat count mod 256, threshold) (frame <$> seq 0 count) [] (server s) ∧
  (∀ k, k ∈ acked s → (k < count)%nat).

Lemma expects_weaken v l l0 s : expects channel v l l0 s → expects channel v l [] s.
Proof. intros (? & ? & ? & ?). split_and!; [done..|apply prefix_nil]. Qed.

Lemma acks_in_bound k l j n : j ∈ acks_in k l → (k < n)%nat → (j < n)%nat.
Proof. unfold acks_in. destruct (existsb _ _); set_solver. Qed.

Lemma acks_in_logged k s s' l1 addr v l :
  expects channel v l (log s ++ l1) s' → SentTo addr (ack_packet k) ∈ l1 → acks_in k (logged s s') = [k].
Proof.
  intros (_ & _ & _ & [l2 Hlog]) Hin. unfold acks_in, logged. rewrite Hlog, <- app_assoc, drop_app_length.
  rewrite existsb_app. destruct (existsb _ l1) eqn:E; [done|]. exfalso.
  apply Bool.not_true_iff_false in E. apply E, existsb_exists. exists (SentTo addr (ack_packet k)).
  split; [by apply list_elem_of_In|by apply bool_decide_eq_true].
Qed.

(** One packet of the client. *)
Lemma in_step_arrive s count k addr r s' :
  in_step s count → (k ≤ sending s < k + 128)%nat → handle_packet (packet k) addr (server s) = (r, s') →
  r ≠ Panic →
  acks_in k (logged (server s) s') = [k] ∧
  in_step {| sending := sending s; server := s'; acked := acked s ++ acks_in k (logged (server s) s') |}
    (count `max` S k).
Proof.
  intros (Hn & Hs & Ha) Hk Hrun Hnp. destruct (decide (k = count)) as [->|Hne].
  - destruct (arrive_expected _ _ _ _ _ _ _ Hs Hrun Hnp) as (l1 & Hs' & Hin).
    split; [by eapply acks_in_logged|]. rewrite Nat.max_r by lia. split; [cbn; lia|]. split.
    + rewrite seq_S, fmap_app. by eapply expects_weaken.
    + intros j [Hj|Hj]%elem_of_app; [apply Ha in Hj; lia|eapply acks_in_bound; [done|lia]].
  - destruct (arrive_duplicate (server s) count k _ _ addr Hs) as (s1 & l1 & Hrun1 & Hs' & Hin); [lia|apply Hsocket|].
    rewrite Hrun in Hrun1. injection Hrun1 as -> ->.
    split; [by eapply acks_in_logged|]. rewrite Nat.max_l by lia. split; [done|]. split.
    + by eapply expects_weaken.
    + intros j [Hj|Hj]%elem_of_app; [by apply Ha|eapply acks_in_bound; [done|lia]].
Qed.

Lemma in_step_step s1 s2 count : in_step s1 count → step s1 s2 → ∃ count', in_step s2 count'.
Proof.
  intros Hin Hstep. destruct Hstep as [s k addr r s' Hk Hrun Hnp|s bytes addr r s' Hf Hrun Hnp|s k Hk Hage Hseq].
  - eexists. by eapply in_step_arrive.
  - exists count. destruct Hin as (Hn & Hs & Ha). split_and!; [done| |done].
    by eapply (expects_foreign _ _ _ bytes addr Hf).
  - exists count. destruct Hin as (Hn & Hs & Ha). assert (k = sending s) as -> by (Z.div_mod_to_equations; lia).
    apply Ha in Hk as Hlt. split; [cbn; lia|]. split; [done|]. done.
Qed.

Lemma in_step_reachable s1 s2 count : in_step s1 count → reachable s1 s2 → ∃ count', in_step s2 count'.
Proof.
  intros H1 Hr. induction Hr as [|s2 s3 _ IH Hstep]; [eauto|].
  destruct IH as [n Hn]. by eapply in_step_step.
Qed.
End session.

(* ------------------------------------------------------------------ *)
(** * Properties *)

(** C5: Telegrams of a tunnelling client are processed exactly once and in order.  The network may
    lose, duplicate and delay telegrams and acknowledgements (within half a turn of the sequence
    counter), and the server handles any packets of other clients in between, as long as its
    socket accepts what it sends.  At every moment the server has processed the client's first [n]
    telegrams, once each and in order, where [n] counts the telegrams the client knows to be
    acknowledged and possibly the one it is sending; every acknowledged telegram has been
    processed; and when the telegram the client is sending arrives it is acknowledged and has been
    processed. *)
Theorem tunnel_exactly_once `{BuildProfile} `{Environment} (channel threshold : Z)
    (frame : nat → CemiFrame) (cemi_bytes : nat → list Z) (s0 : Server) (s : session) :
  client_ok frame cemi_bytes → socket_ok → expects channel (0, threshold) [] [] s0 →
  reachable channel cemi_bytes {| sending := 0; server := s0; acked := [] |} s →
  ∃ n, (n = sending s ∨ n = S (sending s)) ∧
    processed_on channel (log (server s)) = frame <$> seq 0 n ∧
    (∀ k, k ∈ acked s → (k < n)%nat) ∧
    (∀ addr r s', handle_packet (packet channel cemi_bytes (sending s)) addr (server s) = (r, s') → r ≠ Panic →
       acks_in channel (sending s) (logged (server s) s') = [sending s] ∧
       processed_on channel (log s') = frame <$> seq 0 (S (sending s))).
Proof.
  intros Hclient Hsocket Hinit Hr.
  destruct (in_step_reachable channel frame cemi_bytes threshold Hclient Hsocket
    {| sending := 0; server := s0; acked := [] |} s 0%nat) as [n Hn].
  { split; [by left|]. split; [done|]. intros k Hk. by apply elem_of_nil in Hk. }
  { done. }
  pose proof Hn as (Hcount & (_ & _ & Hp & _) & Ha). exists n. split; [lia|]. split; [done|]. split; [done|].
  intros addr r s' Hrun Hnp.
  destruct (in_step_arrive channel frame cemi_bytes threshold Hclient Hsocket s n (sending s) addr r s' Hn)
    as (Hack & _ & (_ & _ & Hp' & _) & _); [lia|done|done|].
  split; [done|]. cbn [server] in Hp'. rewrite Hp'. do 2 f_equal. lia.
Qed.

(** After a lost telegram the following ones are processed more than once.  When a telegram up
    to the desync threshold ahead of the expected one arrives, the server acknowledges and processes
    it but still expects the missing one, so a retransmission is processed again. *)
Theorem gap_reprocessed `{BuildProfile} `{Environment} (channel threshold : Z)
    (frame : nat → CemiFrame) (cemi_bytes : nat → list Z) (count d : nat) (l : list CemiFrame)
    (addr : SocketAddr) (s s1 s2 : Server) (r1 r2 : outcome KnxError unit) :
  client_ok frame cemi_bytes → socket_ok → expects channel (Z.of_nat count mod 256, threshold) l [] s →
  (0 < d < 128)%nat → Z.of_nat d < threshold →
  handle_packet (packet channel cemi_bytes (count + d)) addr s = (r1, s1) → r1 ≠ Panic →
  handle_packet (packet channel cemi_bytes (count + d)) addr s1 = (r2, s2) → r2 ≠ Panic →
  processed_on channel (log s2) = l ++ [frame (count + d)%nat; frame (count + d)%nat].
Proof.
  intros Hclient Hsocket Hs Hd Hlt Hrun1 Hnp1 Hrun2 Hnp2.
  pose proof (arrive_ahead channel frame cemi_bytes threshold Hclient Hsocket _ _ _ _ _ _ _ _ Hs Hd Hlt Hrun1 Hnp1) as Hs1.
  pose proof (arrive_ahead channel frame cemi_bytes threshold Hclient Hsocket _ _ _ _ _ _ _ _ Hs1 Hd Hlt Hrun2 Hnp2) as Hs2.
  destruct Hs2 as (_ & _ & -> & _). by rewrite <- app_assoc.
Qed.

(** A telegram is lost when its acknowledgement cannot be sent.  The server advances its sequence
    number before it sends the acknowledgement and gives up on a failed send, so the telegram is not
    processed, and its retransmission is acknowledged as a duplicate without being processed
    either. *)
Theorem ack_failure_loses_telegram `{BuildProfile} `{Environment} (channel threshold : Z)
    (frame : nat → CemiFrame) (cemi_bytes : nat → list Z) (count : nat) (l : list CemiFrame)
    (addr : SocketAddr) (s : Server) :
  client_ok frame cemi_bytes → expects channel (Z.of_nat count mod 256, threshold) l [] s →
  send_succeeds (socket_sends s) = false → send_succeeds (S (socket_sends s)) = true →
  ∃ s1 s2, handle_packet (packet channel cemi_bytes count) addr s = (Err KnxIo, s1) ∧
    handle_packet (packet channel cemi_bytes count) addr s1 = (Ok tt, s2) ∧
    expects channel (Z.of_nat (S count) mod 256, threshold) l (log s1) s2 ∧
    SentTo addr (ack_packet channel count) ∈ logged s1 s2.
Proof.
  intros Hclient Hs Hfail Hok.
  destruct (arrive_unacknowledged channel frame cemi_bytes threshold Hclient s count l [] addr Hs Hfail)
    as (s1 & Hrun1 & Hsends & Hs1).
  destruct (arrive_duplicate channel frame cemi_bytes threshold Hclient s1 (S count) count l [] addr Hs1)
    as (s2 & l1 & Hrun2 & Hs2 & Hin); [lia|by rewrite Hsends|].
  exists s1, s2. split; [done|]. split; [done|]. destruct Hs2 as (H1 & H2 & H3 & [l2 Hl2]). split.
  - split_and!; [done..|]. exists (l1 ++ l2). by rewrite Hl2, app_assoc.
  - unfold logged. rewrite Hl2, <- app_assoc, drop_app_length. apply elem_of_app. by left.
Qed.

(* ------------------------------------------------------------------ *)
(** * Sample runs *)

Definition sample_env (ok : nat → bool) : Environment :=
  {| clock := Z.of_nat; send_succeeds := ok; below_rate := fun _ => true;
     local_addr := ((127, 0, 0, 1), 3671);
     connection_order := natural_order _; cache_order := natural_order _ |}.

Definition sample_behavior : TunnelBehaviorConfig :=
  {| ldata_con_enabled := true; confirmation_success_rate := CrAlways; heartbeat_status_override := None;
     bus_monitor_enabled := false; ldata_ind_broadcast_enabled := true; property_service_enabled := true;
     reset_service_enabled := true; heartbeat_scheduler_enabled := false |}.

Definition sample_config : KnxServerConfig :=
  {| cfg_individual_address := {| area := 1; line := 1; device := 1 |};
     serial_number := [0; 1; 2; 3; 4; 5]; mac_address := [0; 1; 2; 3; 4; 5]; device_name := [75; 78; 88];
     bind_ip := Some (127, 0, 0, 1); tunnel_behavior := sample_behavior |}.

Definition sample_chain (enabled : bool) : FilterChain :=
  {| chain_enabled := enabled; queue_filter := QueueFilter_new (queue_config (sample_queue 64));
     pace_filter := PaceFilter_new sample_pace; retry_filter := RetryFilter_new sample_retry |}.

Definition sample_table : GroupObjectTable :=
  {[ 2561 := {| go_address := 2561; go_flags := flags_read_write; go_value := [0] |} ]}.

(** A server with one client, on channel 1. *)
Definition sample_server (chain : bool) : Server :=
  {| config := sample_config;
     manager := {| connections := {[ 1 := {| tc_channel_id := 1; client_addr := sample_addr;
                     tc_data_endpoint := sample_addr; individual_address := {| area := 1; line := 1; device := 101 |};
                     sequence_tracker := SequenceTracker_new; fsm := on_connected TunnelFsm_connecting |} ]};
                   next_channel_id := 2; max_connections := 5;
                   individual_address_base := {| area := 1; line := 1; device := 1 |}; desync_threshold := 5 |};
     group_objects := sample_table; filter_chain := sample_chain chain;
     heartbeat_scheduler := HeartbeatScheduler_new HsNormal;
     group_value_cache := GroupValueCache_new {| cache_enabled := true; max_entries := 4096; ttl_ms := 60000;
       auto_update_on_indication := true; auto_update_on_write := true |};
     error_tracker := SendErrorTracker_new {| tracker_enabled := true; consecutive_threshold := 5;
       window_ms := 60000; rate_exceeds := fun e n => n <? 2 * e; min_events_for_rate := 10 |};
     clock_reads := 0; socket_sends := 0; draws := 0; log := [] |}.

Lemma sample_expects chain : expects 1 (0, 5) [] [] (sample_server chain).
Proof.
  split_and!; [|by apply map_Forall_singleton|done|done]. eexists. split; [apply lookup_singleton_eq|done].
Qed.

(** Every telegram writes two bytes to a group object. *)
Definition write_telegram (_ : nat) : CemiFrame :=
  {| message_code := LDataReq; additional_info := []; source := {| area := 1; line := 1; device := 101 |};
     destination := 2561; address_type := Group; hop_count := 6; priority := PrLow; confirm := false;
     ack_request := false; system_broadcast := false; apci := GroupValueWrite; data := [17; 1] |}.
Definition write_bytes (k : nat) : list Z := CemiFrame_encode (write_telegram k).

Lemma sample_client : @client_ok debug_build write_telegram write_bytes.
Proof. intros k. split; [vm_compute; reflexivity|vm_compute; discriminate]. Qed.

(** The session after the first telegram has arrived twice. *)
Definition sample_step (s : session) : session :=
  let s' := snd (@handle_packet debug_build (sample_env (fun _ => true)) (packet 1 write_bytes 0) sample_addr (server s)) in
  {| sending := sending s; server := s'; acked := acked s ++ acks_in 1 0 (logged (server s) s') |}.

Lemma sample_reachable :
  @reachable debug_build (sample_env (fun _ => true)) 1 write_bytes
    {| sending := 0; server := sample_server false; acked := [] |}
    (sample_step (sample_step {| sending := 0; server := sample_server false; acked := [] |})).
Proof.
  eapply reach_step; [eapply reach_step; [apply reach_refl|]|];
    (eapply (step_arrive 1 write_bytes _ 0 sample_addr (Ok tt)); [cbn; lia|vm_compute; reflexivity|done]).
Qed.

Lemma tunnel_exactly_once_witness :
  ∃ n, (n = 0%nat ∨ n = 1%nat) ∧
    processed_on 1 (log (server (sample_step (sample_step {| sending := 0; server := sample_server false; acked := [] |}))))
    = write_telegram <$> seq 0 n ∧
    (∀ k, k ∈ acked (sample_step (sample_step {| sending := 0; server := sample_server false; acked := [] |})) → (k < n)%nat).
Proof.
  destruct (@tunnel_exactly_once debug_build (sample_env (fun _ => true)) 1 5 write_telegram write_bytes
    (sample_server false) _ sample_client (fun _ => eq_refl) (sample_expects false) sample_reachable)
    as (n & Hn & Hp & Ha & _). exists n. split; [exact Hn|]. split; [exact Hp|exact Ha].
Defined.

(** Telegram 0 is lost; telegram 1 arrives twice and is processed twice. *)
Definition sample_gap (s : Server) : Server :=
  snd (@handle_packet debug_build (sample_env (fun _ => true)) (packet 1 write_bytes 1) sample_addr s).

Lemma gap_reprocessed_witness :
  processed_on 1 (log (sample_gap (sample_gap (sample_server false)))) = [write_telegram 1; write_telegram 1].
Proof.
  apply (@gap_reprocessed debug_build (sample_env (fun _ => true)) 1 5 write_telegram write_bytes 0 1 []
    sample_addr (sample_server false) (sample_gap (sample_server false))
    (sample_gap (sample_gap (sample_server false))) (Ok tt) (Ok tt) sample_client (fun _ => eq_refl)
    (sample_expects false)); [lia|lia|vm_compute; reflexivity|discriminate|vm_compute; reflexivity|discriminate].
Defined.

(** The first send fails, all others succeed. *)
Lemma ack_failure_loses_telegram_witness :
  ∃ s1 s2, @handle_packet debug_build (sample_env (fun n => Nat.ltb 0 n)) (packet 1 write_bytes 0) sample_addr
      (sample_server false) = (Err KnxIo, s1) ∧
    @handle_packet debug_build (sample_env (fun n => Nat.ltb 0 n)) (packet 1 write_bytes 0) sample_addr s1 = (Ok tt, s2) ∧
    expects 1 (1, 5) [] (log s1) s2 ∧ SentTo sample_addr (ack_packet 1 0) ∈ logged s1 s2.
Proof.
  apply (@ack_failure_loses_telegram debug_build (sample_env (fun n => Nat.ltb 0 n)) 1 5 write_telegram write_bytes
    0 [] sample_addr (sample_server false) sample_client (sample_expects false)); reflexivity.
Defined.
