(* ===== verification/KnxGateway.v ===== *)
(** The KNX server as a gateway for many clients: what becomes of back-pressure, and what happens
    to a server that has seen many connections. *)

From S2P Require Import Prelude KnxFrame KnxCemi KnxMessages KnxTunnel KnxFlow KnxGroup KnxHealth KnxServer KnxSession.

(* ------------------------------------------------------------------ *)
(** * Back-pressure: lemmas *)

(** No frame is queued, and only the channels in [X] wait for an acknowledgement. *)
Definition calm_queue (X : gset Z) (q : QueueFilter) : Prop :=
  map_Forall (fun ch s => total_queued s = 0%nat ∧
    (waiting_for_ack s = true → ch ∈ X ∧ queue_enabled (queue_config q) = true)) (channels q).
Definition calm (X : gset Z) (s : Server) : Prop := calm_queue X (queue_filter (filter_chain s)).

Lemma calm_mono X Y q : X ⊆ Y → calm_queue X q → calm_queue Y q.
Proof. intros Hsub Hq ch s Hs. destruct (Hq ch s Hs) as [? Hw]. split; [done|]. intros W. destruct (Hw W). set_solver. Qed.

Lemma calm_channel_or_new X q ch :
  calm_queue X q → total_queued (channel_or_new ch q) = 0%nat ∧
  (waiting_for_ack (channel_or_new ch q) = true → ch ∈ X ∧ queue_enabled (queue_config q) = true).
Proof.
  intros Hq. unfold channel_or_new. destruct (channels q !! ch) as [s|] eqn:E; [by apply Hq in E|].
  split; [done|]. discriminate.
Qed.

Lemma calm_set_channel X q ch s :
  calm_queue X q → total_queued s = 0%nat →
  (waiting_for_ack s = true → ch ∈ X ∧ queue_enabled (queue_config q) = true) → calm_queue X (set_channel ch s q).
Proof. intros Hq Ht Hw. by apply map_Forall_insert_2. Qed.

(** With no channel waiting, a frame is passed and the queue stays calm. *)
Lemma calm_process_send e q r e' q' :
  calm_queue ∅ q → QueueFilter_process_send e q = (r, e', q') → r = FPass 0 ∧ calm_queue ∅ q'.
Proof.
  intros Hq. unfold QueueFilter_process_send. destruct (negb _); [by intros [= <- <- <-]|].
  destruct (backpressure_enabled _); [|by intros [= <- <- <-]].
  destruct (calm_channel_or_new ∅ q (env_channel_id e) Hq) as [Ht Hw].
  cbn [env_channel_id with_env_priority].
  destruct (waiting_for_ack (channel_or_new _ q)) eqn:E; [set_solver|].
  intros [= <- <- <-]. split; [done|]. apply calm_set_channel; [done..|]. congruence.
Qed.

Lemma calm_set_waiting ch q : calm_queue ∅ q → calm_queue {[ch]} (set_waiting_for_ack ch true q).
Proof.
  intros Hq. unfold set_waiting_for_ack. destruct (negb _ || negb _) eqn:E; [by eapply calm_mono; [|done]; set_solver|].
  apply orb_false_iff in E as [E _]. apply negb_false_iff in E.
  apply calm_set_channel; [by eapply calm_mono; [|done]; set_solver| |].
  - by destruct (calm_channel_or_new ∅ q ch Hq).
  - intros _. split; [set_solver|done].
Qed.

Lemma calm_on_ack ch X q : calm_queue X q → X ⊆ {[ch]} → calm_queue ∅ (QueueFilter_on_ack_received ch q).
Proof.
  intros Hq HX. unfold QueueFilter_on_ack_received. destruct (negb _) eqn:E.
  { apply negb_true_iff in E. intros ch' s Hs. destruct (Hq ch' s Hs) as [? Hw]. split; [done|].
    intros W. destruct (Hw W). congruence. }
  destruct (channels q !! ch) as [s|] eqn:Hs.
  - intros ch' s'. cbn [channels set_channel queue_config]. destruct (decide (ch' = ch)) as [->|Hne].
    + rewrite lookup_insert_eq. intros [= <-]. split; [by apply Hq in Hs as [? _]|]. discriminate.
    + rewrite lookup_insert_ne by done. intros Hs'. destruct (Hq ch' s' Hs') as [? Hw]. split; [done|].
      intros W. destruct (Hw W). set_solver.
  - intros ch' s' Hs'. destruct (Hq ch' s' Hs') as [? Hw]. split; [done|]. intros W. destruct (Hw W) as [Hin _].
    assert (ch' = ch) as -> by set_solver. congruence.
Qed.

Section pressure.
Context `{BuildProfile} `{Environment} (Hsocket : socket_ok).

#[local] Instance calm_unobserving X : Unobserving (calm X).
Proof. split; intros; done. Qed.

Lemma calm_on_manager {A} X (c : stM ConnectionManager KnxError A) : preserves (calm X) (on_manager c).
Proof. intros s r s'. unfold on_manager. destruct (c _). intros [= <- <-] _ Hs. exact Hs. Qed.
Lemma calm_on_heartbeat {A} X (c : stM HeartbeatScheduler KnxError A) : preserves (calm X) (on_heartbeat c).
Proof. intros s r s'. unfold on_heartbeat. destruct (c _). intros [= <- <-] _ Hs. exact Hs. Qed.

(** Operations of the pace filter and the circuit breaker do not touch the queue. *)
Lemma calm_on_chain_pace {A} X (c : stM PaceFilter KnxError A) : preserves (calm X) (on_chain (on_pace c)).
Proof. intros s r s'. unfold on_chain, on_pace. destruct (c _). intros [= <- <-] _ Hs. exact Hs. Qed.

Lemma calm_chain_failure X : preserves (calm X) chain_on_send_failure.
Proof.
  apply preserves_bind; [apply preserves_now, _|]. intros t s r s'. unfold on_chain, FilterChain_on_send_failure.
  destruct (negb _); [by intros [= <- <-]; destruct s|]. unfold on_retry_filter.
  destruct (RetryFilter_on_failure t (retry_filter (filter_chain s))). intros [= <- <-] _ Hs. exact Hs.
Qed.

#[local] Hint Resolve calm_on_manager calm_on_heartbeat calm_on_chain_pace calm_chain_failure
  preserves_send_error_tracking preserves_tracker_success : keeps.

(** Sending releases the back-pressure it has just applied. *)
Lemma calm_chain_success ch s r s' :
  calm {[ch]} s → chain_enabled (filter_chain s) = true → chain_on_send_success ch s = (r, s') → r ≠ Panic → calm ∅ s'.
Proof.
  intros Hs Hen. unfold chain_on_send_success, st_bind, now, on_chain, FilterChain_on_send_success.
  cbn [filter_chain set_clock_reads]. rewrite Hen. cbn [negb]. unfold st_bind, on_retry_filter, on_pace, on_queue.
  destruct (RetryFilter_on_success _) as [[[]|e|] f] eqn:E; intros [= <- <-] Hnp; [| |done].
  - cbn. by eapply calm_on_ack.
  - exfalso. revert E. clear. unfold RetryFilter_on_success, u32_incr, checked_op. repeat case_match; try done.
    all: intros; simplify_eq/=. all: repeat case_match; simplify_eq/=; done.
Qed.

Lemma next_sequence_ok conn s : ∃ n m, next_send_sequence conn s = (Ok n, set_manager m s).
Proof.
  unfold next_send_sequence, on_manager. destruct (connections (manager s) !! tc_channel_id conn); by do 2 eexists.
Qed.

Lemma calm_send_raw addr conn c s :
  calm ∅ s → ∃ s', send_tunnelling_request_raw addr conn c s = (Ok tt, s') ∧
    chain_enabled (filter_chain s') = chain_enabled (filter_chain s) ∧
    (if chain_enabled (filter_chain s) then calm {[tc_channel_id conn]} s' else calm ∅ s').
Proof.
  intros Hs. unfold send_tunnelling_request_raw. unfold st_bind at 1.
  destruct (next_sequence_ok conn s) as (n & m & ->). unfold st_bind at 1, get_server. unfold st_bind at 1.
  cbn [filter_chain set_manager]. destruct (chain_enabled (filter_chain s)) eqn:Hen; cbn [when];
    unfold set_backpressure, on_chain, update_op, st_ret, send_to, st_bind, act; rewrite Hsocket;
    (eexists; split; [done|]).
  - split; [done|]. by apply calm_set_waiting.
  - split; [done|]. exact Hs.
Qed.

(** The queue passes every frame on, so the outcome is up to the other filters. *)
Lemma calm_chain_send t1 t2 e s r s' :
  calm ∅ s → chain_enabled (filter_chain s) = true → on_chain (FilterChain_send t1 t2 e) s = (r, s') →
  r ≠ Panic → calm ∅ s' ∧ chain_enabled (filter_chain s') = true ∧ (∀ e', r ≠ Ok (FQueued, e')).
Proof.
  intros Hs Hen. unfold on_chain, FilterChain_send. rewrite Hen. cbn [negb].
  unfold st_bind at 1, on_queue. destruct (QueueFilter_process_send _ _) as [[res e1] q] eqn:Hq.
  apply calm_process_send in Hq as [-> Hq]; [|done]. cbn [should_continue negb].
  unfold st_bind at 1, on_pace. cbn [pace_filter with_queue].
  destruct (PaceFilter_process_send t1 e1 _) as [[pr|x|] p] eqn:Hp; cycle 1.
  { intros [= <- <-] _. by split_and!. }
  { by intros [= <- <-]. }
  destruct pr as [d| | |]; [| |by intros [= <- <-] _; split_and!..].
  2:{ exfalso. revert Hp. clear. unfold PaceFilter_process_send. repeat case_match; congruence. }
  unfold st_bind, on_retry_filter. destruct (RetryFilter_process_send _ _ _) as [rr f] eqn:Hr.
  destruct rr; intros [= <- <-] _; split_and!; try done.
  exfalso. revert Hr. clear. unfold RetryFilter_process_send, circuit_state. repeat case_match; congruence.
Qed.

Lemma calm_send addr conn c : preserves (calm ∅) (send_tunnelling_request addr conn c).
Proof.
  apply preserves_get_bind. intros s Hs. destruct (chain_enabled (filter_chain s)) eqn:Hen; cycle 1.
  { intros r s' Hrun _ _. destruct (calm_send_raw addr conn c s Hs) as (s1 & Hraw & _ & Hc).
    rewrite Hraw in Hrun. injection Hrun as <- <-. by rewrite Hen in Hc. }
  intros r s' Hrun Hnp _. revert Hrun. unfold st_bind at 1, now at 1. unfold st_bind at 1, now at 1.
  unfold st_bind at 1, now at 1. set (e := FrameEnvelope_new _ _ _ _).
  match goal with |- st_bind _ _ ?s3 = _ → _ => assert (calm ∅ s3 ∧ chain_enabled (filter_chain s3) = true) as [Hs3 Hen3] by done;
    generalize dependent s3 end. intros s3 Hs3 Hen3. clear Hs Hen.
  unfold st_bind at 1. destruct (on_chain _ s3) as [[[res e']|x|] s4] eqn:Hchain; [| |by intros [= <- <-]];
    apply calm_chain_send in Hchain as (Hs4 & Hen4 & Hq); try done; [|by intros [= <- <-]].
  destruct res as [d| |reason|]; [|by destruct (Hq e')|by intros [= <- <-]|by intros [= <- <-]].
  unfold st_bind at 1. destruct (when _ _ s4) as [[[]|x|] s5] eqn:Hw; [|by destruct (0 <? d)..].
  assert (calm ∅ s5 ∧ chain_enabled (filter_chain s5) = true) as [Hs5 Hen5] by (by destruct (0 <? d); injection Hw as <-).
  unfold st_bind at 1, attempt. destruct (calm_send_raw addr conn c s5 Hs5) as (s6 & -> & Hen6 & Hs6).
  rewrite Hen5 in Hs6, Hen6. unfold st_bind at 1.
  destruct (chain_on_send_success (tc_channel_id conn) s6) as [r7 s7] eqn:H7. intros Hrun.
  assert (r7 ≠ Panic) as Hnp7 by (by destruct r7; [| |injection Hrun as <- <-]).
  apply calm_chain_success in H7; [|done..].
  destruct r7; [|by injection Hrun as <- <-|done].
  exact (preserves_tracker_success (calm ∅) (tc_channel_id conn) s7 r s' Hrun Hnp H7).
Qed.

Lemma calm_success ch : preserves (calm ∅) (chain_on_send_success ch).
Proof.
  intros s r s' Hrun Hnp Hs. destruct (chain_enabled (filter_chain s)) eqn:Hen.
  - eapply calm_chain_success; [|done..]. by eapply calm_mono; [|exact Hs].
  - revert Hrun. unfold chain_on_send_success, st_bind, now, on_chain, FilterChain_on_send_success.
    cbn [filter_chain set_clock_reads]. rewrite Hen. cbn [negb]. intros [= <- <-]. exact Hs.
Qed.

Lemma calm_process addr c conn : preserves (calm ∅) (process_cemi addr c conn).
Proof.
  apply preserves_bind; [by intros s r s' [= <- <-]|]. intros _.
  apply preserves_dispatch_cemi; [apply _|]. intros. apply calm_send.
Qed.

(** A queue without frames has nothing to drain. *)
Lemma calm_drain ch q n :
  calm_queue ∅ q → ∃ q', QueueFilter_drain ch n q = ([], q') ∧ calm_queue ∅ q'.
Proof.
  intros Hq. unfold QueueFilter_drain. destruct (negb _); [eauto|].
  destruct (channels q !! ch) as [s|] eqn:Hs; [|eauto]. destruct (Hq ch s Hs) as [Ht Hw].
  destruct s as [w lo no hi]. unfold total_queued in Ht. cbn in Ht.
  destruct lo, no, hi; cbn in Ht; try lia. unfold ChannelQueueState_drain. rewrite drain_queues_all.
  cbn. rewrite !take_nil, !drop_nil. eexists. split; [done|]. by apply calm_set_channel.
Qed.

Lemma calm_drain_queued conn : preserves (calm ∅) (drain_queued_frames conn).
Proof.
  apply preserves_get_bind. intros s Hs r s'. destruct (negb _); [by intros [= <- <-]|].
  unfold st_bind, on_chain, pure_op, drain_pending. destruct (negb _); [by intros [= <- <-]; destruct s|].
  destruct (calm_drain (tc_channel_id conn) _ 16 Hs) as (q & -> & Hq). intros [= <- <-] _ _. exact Hq.
Qed.

Lemma calm_forget ch : preserves (calm ∅) (forget_channel ch).
Proof.
  unfold forget_channel. apply preserves_bind; [apply preserves_get|]. intros s0.
  apply preserves_bind; [apply preserves_when|intros _; keep].
  intros s r s' [= <- <-] _ Hs. by apply map_Forall_delete.
Qed.

#[local] Hint Resolve calm_success calm_process calm_drain_queued calm_forget : keeps.

Lemma calm_packet bytes addr : preserves (calm ∅) (handle_packet bytes addr).
Proof.
  unfold handle_packet, handle_search_request, handle_description_request, handle_connect_request,
    handle_connection_state_request, handle_disconnect_request, handle_tunnelling_request,
    handle_tunnelling_ack, validate_recv_sequence. keep.
Qed.
End pressure.

(** The receive loop on a sequence of packets; [None] when the server has panicked.  Errors of a
    handler are logged and the loop goes on. *)
Fixpoint serve `{BuildProfile} `{Environment} (ps : list (list Z * SocketAddr)) (s : Server) : option Server :=
  match ps with
  | [] => Some s
  | (bytes, addr) :: ps' =>
      match handle_packet bytes addr s with
      | (Panic, _) => None
      | (_, s') => serve ps' s'
      end
  end.

(* ------------------------------------------------------------------ *)
(** * Many connections: lemmas *)

(** A client at the given address that asks for a tunnel, with the server answering to the sender's
    address, and one that leaves. *)
Definition connect_bytes : list Z :=
  ConnectRequest_encode {| control_endpoint := Hpai_nat; data_endpoint := Hpai_nat;
    cri := {| connection_type := Tunnel; knx_layer := LinkLayer |} |}.
Definition disconnect_bytes (ch : Z) : list Z :=
  ChannelRequest_encode {| chr_channel_id := ch; chr_control_endpoint := Hpai_nat |}.

(** No client is connected and the next channel is [ch]. *)
Definition vacant (ch : Z) (m : ConnectionManager) : Prop :=
  connections m = ∅ ∧ next_channel_id m = ch ∧ 0 < max_connections m ∧
  0 <= area (individual_address_base m) <= 15 ∧ 0 <= line (individual_address_base m) <= 15.

Lemma allocate_loop_first n m :
  next_channel_id m ≠ 0 → connections m !! next_channel_id m = None →
  allocate_loop (S n) m = (Some (next_channel_id m), with_next_channel m (u8_wrapping_add (next_channel_id m) 1)).
Proof. intros H0 Hf. cbn [allocate_loop]. rewrite Hf. by rewrite (proj2 (Z.eqb_neq _ 0)). Qed.

Lemma vacant_allocate ch m :
  vacant ch m → 1 <= ch <= 255 → allocate_channel m = (Some ch, with_next_channel m (u8_wrapping_add ch 1)).
Proof.
  intros (Hc & Hn & Hmax & _) Hch. unfold allocate_channel. rewrite Hc, map_size_empty.
  rewrite (proj2 (Z.leb_gt _ _)) by (cbn; lia). subst ch. change 255%nat with (S 254). generalize 254%nat as n.
  intros n. apply allocate_loop_first; [lia|]. by rewrite Hc, lookup_empty.
Qed.

Section churn.
Context `{BuildProfile} `{Environment} (addr : SocketAddr).

Lemma connect_decodes : ConnectRequest_decode connect_bytes =
  Ok {| control_endpoint := Hpai_nat; data_endpoint := Hpai_nat; cri := {| connection_type := Tunnel; knx_layer := LinkLayer |} |}.
Proof. reflexivity. Qed.
Lemma disconnect_decodes ch :
  ChannelRequest_decode (disconnect_bytes ch) = Ok {| chr_channel_id := ch; chr_control_endpoint := Hpai_nat |}.
Proof. reflexivity. Qed.

(** Sending and announcing leave the connection table alone. *)
Lemma manager_send_announce a bytes e s r s' :
  (do? _ := send_to a bytes in announce e) s = (r, s') → manager s' = manager s ∧ r ≠ Panic.
Proof.
  unfold send_to, announce, act, st_bind. cbn. destruct (send_succeeds _); intros [= <- <-]; done.
Qed.

(** A connect request on a vacant server. *)
Lemma connect_vacant ch s r s' :
  vacant ch (manager s) → 1 <= ch <= 255 → handle_connect_request connect_bytes addr s = (r, s') →
  if overflow_checks && (156 <=? ch) then r = Panic
  else r ≠ Panic ∧ ∃ c, connections (manager s') = {[ch := c]} ∧
    manager s' = with_connections (with_next_channel (manager s) (u8_wrapping_add ch 1)) {[ch := c]}.
Proof.
  intros Hv Hch. unfold handle_connect_request, st_bind at 1, st_lift. rewrite connect_decodes.
  unfold st_bind at 1, on_manager at 1, pure_op. rewrite (vacant_allocate ch) by done.
  destruct Hv as (Hc & Hn & Hmax & Ha & Hl). unfold st_bind at 1, on_manager.
  rewrite create_connection_address; [|split; lia|done..]. cbn [manager set_manager].
  destruct (overflow_checks && (156 <=? ch)); [by intros [= <- <-]|]. intros Hrun.
  apply manager_send_announce in Hrun as [Hm Hnp]. split; [done|]. eexists. rewrite Hm. cbn [manager set_manager].
  cbn [connections with_connections with_next_channel]. by rewrite Hc, insert_empty.
Qed.

(** The client leaves again. *)
Lemma disconnect_vacates ch c m s r s' :
  manager s = with_connections m {[ch := c]} → handle_disconnect_request (disconnect_bytes ch) addr s = (r, s') →
  manager s' = with_connections m ∅ ∧ r ≠ Panic.
Proof.
  intros Hm. unfold handle_disconnect_request, st_bind at 1, st_lift. rewrite disconnect_decodes.
  cbn [chr_channel_id]. unfold st_bind at 1, on_manager, update_op. rewrite Hm. unfold st_bind at 1, forget_channel.
  set (s1 := set_manager _ s). assert (manager s1 = with_connections m ∅) as Hm1.
  { unfold s1, ConnectionManager_remove. cbn. by rewrite delete_singleton_eq. }
  clearbody s1. unfold st_bind at 1, get_server. unfold st_bind at 1.
  destruct (chain_enabled (filter_chain s1)); cbn [when]; unfold on_chain, on_tracker, update_op, st_ret;
    intros Hrun; apply manager_send_announce in Hrun as [Hm' Hnp]; (split; [|done]); rewrite Hm'; exact Hm1.
Qed.

(** [n] clients that come one after the other, from channel [ch] on. *)
Fixpoint visits (n : nat) (ch : Z) (s : Server) : Server :=
  match n with
  | O => s
  | S n' =>
      let s1 := snd (handle_connect_request connect_bytes addr s) in
      let s2 := snd (handle_disconnect_request (disconnect_bytes ch) addr s1) in
      visits n' (ch + 1) s2
  end.

Lemma visits_vacant n ch s :
  vacant ch (manager s) → 1 <= ch → ch + Z.of_nat n <= 156 → vacant (ch + Z.of_nat n) (manager (visits n ch s)).
Proof.
  revert ch s. induction n as [|n IH]; intros ch s Hv H1 Hn; [by rewrite Z.add_0_r|].
  cbn [visits]. destruct (handle_connect_request connect_bytes addr s) as [r1 s1] eqn:H1run. cbn [snd].
  pose proof (connect_vacant ch s r1 s1 Hv ltac:(lia) H1run) as Hconn.
  rewrite (proj2 (Z.leb_gt _ _)), andb_false_r in Hconn by lia. destruct Hconn as (_ & c & _ & Hm1).
  destruct (handle_disconnect_request (disconnect_bytes ch) addr s1) as [r2 s2] eqn:H2run. cbn [snd].
  destruct (disconnect_vacates ch c _ s1 r2 s2 Hm1 H2run) as [Hm2 _].
  replace (ch + Z.of_nat (S n)) with (ch + 1 + Z.of_nat n) by lia. apply IH; [|lia|lia].
  destruct Hv as (Hc & Hnx & Hmax & Ha & Hl). unfold vacant. rewrite Hm2. cbn. split_and!; try done; [int_lia|lia..].
Qed.
End churn.

(* ------------------------------------------------------------------ *)
(** * Properties *)

(** Back-pressure never holds a frame back.  A server whose queues are empty and whose
    channels do not wait for acknowledgements stays so, whatever packets it handles, as long as its
    socket accepts what it sends: sending a telegram marks its channel as waiting, but the successful
    send is reported to the filter chain as an acknowledgement at once. *)
Theorem backpressure_never_holds `{BuildProfile} `{Environment} (ps : list (list Z * SocketAddr)) (s s' : Server) :
  socket_ok → calm ∅ s → serve ps s = Some s' → calm ∅ s'.
Proof.
  intros Hsocket. revert s. induction ps as [|[bytes addr] ps IH]; intros s Hs; cbn [serve]; [by intros [= <-]|].
  destruct (handle_packet bytes addr s) as [r s1] eqn:Hrun. destruct r; [apply IH|apply IH|done];
    by eapply (calm_packet Hsocket bytes addr).
Qed.

(** A server built with overflow checks does not survive its 156th client.  Clients that
    connect and leave one after the other are served 155 times; then the channel counter has reached
    156 and the connect request of the next client makes the server panic, although nobody is
    connected. *)
Theorem connections_exhausted `{BuildProfile} `{Environment} (addr : SocketAddr) (s : Server) (n : nat) :
  overflow_checks = true → vacant 1 (manager s) → (n ≤ 155)%nat →
  (fst (handle_connect_request connect_bytes addr (visits addr n 1 s)) = Panic ↔ n = 155%nat).
Proof.
  intros Hov Hv Hn.
  pose proof (visits_vacant addr n 1 s Hv ltac:(lia) ltac:(lia)) as Hvn.
  destruct (handle_connect_request connect_bytes addr (visits addr n 1 s)) as [r s'] eqn:Hrun. cbn [fst].
  apply (connect_vacant addr (1 + Z.of_nat n)) in Hrun; [|done|lia]. rewrite Hov in Hrun. cbn [andb] in Hrun.
  destruct (156 <=? 1 + Z.of_nat n) eqn:E; [split; [lia|done]|]. destruct Hrun as [Hnp _]. split; [done|lia].
Qed.

(* ------------------------------------------------------------------ *)
(** * Sample runs *)

Lemma sample_calm chain : calm ∅ (sample_server chain).
Proof. apply map_Forall_empty. Qed.

(** A telegram arrives at a server with the filter chain enabled; back-pressure is configured. *)
Lemma backpressure_never_holds_witness :
  ∃ s', @serve debug_build (sample_env (fun _ => true)) [(packet 1 write_bytes 0, sample_addr)] (sample_server true) = Some s' ∧
    calm ∅ s'.
Proof.
  eexists. split; [vm_compute; reflexivity|].
  apply (@backpressure_never_holds debug_build (sample_env (fun _ => true)) [(packet 1 write_bytes 0, sample_addr)]
    (sample_server true) _ (fun _ => eq_refl) (sample_calm true)). vm_compute; reflexivity.
Defined.

(** A server that has just started. *)
Definition fresh_server : Server :=
  set_manager (with_next_channel (with_connections (manager (sample_server false)) ∅) 1) (sample_server false).

Lemma connections_exhausted_witness :
  fst (@handle_connect_request debug_build (sample_env (fun _ => true)) connect_bytes sample_addr
    (@visits debug_build (sample_env (fun _ => true)) sample_addr 155 1 fresh_server)) = Panic.
Proof.
  apply (@connections_exhausted debug_build (sample_env (fun _ => true)) sample_addr fresh_server 155);
    [reflexivity| |lia|reflexivity].
  split_and!; [reflexivity|reflexivity|reflexivity|cbn; lia..].
Defined.
