(* ===== verification/BacnetSegment.v ===== *)
(** APDU segmentation of the BACnet stack ([mabi-bacnet/src/apdu/segmentation.rs]): splitting a
    message into numbered segments and assembling them again, with the sequence numbers at their
    width of eight bits. *)

From S2P Require Import Prelude.

(* ------------------------------------------------------------------ *)
(** * Segments *)

Definition DEFAULT_WINDOW_SIZE : Z := 1.
(** Ten seconds, in nanoseconds. *)
Definition DEFAULT_SEGMENT_TIMEOUT : Z := 10 * 1000000000.

Inductive SegmentationSupport : Set := SegNone | SegTransmitOnly | SegReceiveOnly | SegBoth.

Definition SegmentationSupport_from_u8 (value : Z) : option SegmentationSupport :=
  match value with
  | 0 => Some SegBoth | 1 => Some SegTransmitOnly | 2 => Some SegReceiveOnly | 3 => Some SegNone
  | _ => None
  end.
Definition SegmentationSupport_to_u8 (s : SegmentationSupport) : Z :=
  match s with SegBoth => 0 | SegTransmitOnly => 1 | SegReceiveOnly => 2 | SegNone => 3 end.
Definition can_transmit (s : SegmentationSupport) : bool :=
  match s with SegBoth | SegTransmitOnly => true | _ => false end.
Definition can_receive (s : SegmentationSupport) : bool :=
  match s with SegBoth | SegReceiveOnly => true | _ => false end.

Definition decode_max_segments (encoded : Z) : option Z :=
  match encoded with
  | 1 => Some 2 | 2 => Some 4 | 3 => Some 8 | 4 => Some 16 | 5 => Some 32 | 6 => Some 64
  | _ => None
  end.
Definition encode_max_segments (count : Z) : Z :=
  if count <=? 2 then 1 else if count <=? 4 then 2 else if count <=? 8 then 3
  else if count <=? 16 then 4 else if count <=? 32 then 5 else if count <=? 64 then 6 else 7.

Record SegmentHeader : Set := {
  segmented : bool; more_follows : bool; is_segment_ack : bool; sequence_number : Z; window_size : Z }.

Definition SegmentHeader_new (seq : Z) (more : bool) : SegmentHeader :=
  {| segmented := true; more_follows := more; is_segment_ack := false; sequence_number := seq;
     window_size := DEFAULT_WINDOW_SIZE |}.
Definition SegmentHeader_segment_ack (seq window : Z) : SegmentHeader :=
  {| segmented := false; more_follows := false; is_segment_ack := true; sequence_number := seq;
     window_size := window |}.
Definition is_first (h : SegmentHeader) : bool := segmented h && (sequence_number h =? 0).
Definition is_last (h : SegmentHeader) : bool := segmented h && negb (more_follows h).

Record Segment : Set := {
  seg_header : SegmentHeader; seg_data : list Z; seg_invoke_id : Z; seg_service_choice : option Z }.

Definition Segment_new (seq : Z) (more : bool) (id : Z) (d : list Z) : Segment :=
  {| seg_header := SegmentHeader_new seq more; seg_data := d; seg_invoke_id := id;
     seg_service_choice := None |}.
Definition with_service_choice (s : Segment) (sc : Z) : Segment :=
  {| seg_header := seg_header s; seg_data := seg_data s; seg_invoke_id := seg_invoke_id s;
     seg_service_choice := Some sc |}.

Inductive SegmentationError : Set :=
| SequenceError (expected received : Z)
| MissingSegment (seq : Z)
| IncompleteAssembly
| SegTimeout
| TooManySegments
| SegmentTooLarge.

(* ------------------------------------------------------------------ *)
(** * Assembly *)

Inductive AssemblyState : Set := AsIdle | AsReceiving | AsComplete | AsError.
#[global] Instance AssemblyState_eq_dec : EqDecision AssemblyState.
Proof. solve_decision. Defined.

Record AssemblyEntry : Set := {
  ae_segments : gmap Z (list Z); next_sequence : Z; ae_service_choice : option Z;
  ae_state : AssemblyState; last_activity : Z }.

Definition AssemblyEntry_new (now : Z) : AssemblyEntry :=
  {| ae_segments := ∅; next_sequence := 0; ae_service_choice := None; ae_state := AsIdle;
     last_activity := now |}.

Inductive AssemblyResult : Set := NeedAck (seq : Z) | ArComplete | ArDuplicate.

Definition touch (now : Z) (e : AssemblyEntry) : AssemblyEntry :=
  {| ae_segments := ae_segments e; next_sequence := next_sequence e; ae_service_choice := ae_service_choice e;
     ae_state := ae_state e; last_activity := now |}.

Definition add_segment (now : Z) (s : Segment) : stM AssemblyEntry SegmentationError AssemblyResult := fun e0 =>
  let e := touch now e0 in
  let seq := sequence_number (seg_header s) in
  if negb (seq =? next_sequence e) then
    if seq <? next_sequence e then (Ok ArDuplicate, e)
    else (Err (SequenceError (next_sequence e) seq), e)
  else
    let last := is_last (seg_header s) in
    let next := u8_wrapping_add (next_sequence e) 1 in
    let e' := {| ae_segments := <[seq := seg_data s]> (ae_segments e);
                 next_sequence := next;
                 ae_service_choice := if is_first (seg_header s) then seg_service_choice s else ae_service_choice e;
                 ae_state := if last then AsComplete else AsReceiving;
                 last_activity := last_activity e |} in
    (Ok (if last then ArComplete else NeedAck (u8_wrapping_sub next 1)), e').

(** The loop [for i in 0..self.next_sequence] from [i] on. *)
Fixpoint assemble_from (segments : gmap Z (list Z)) (i : Z) (n : nat) : outcome SegmentationError (list Z) :=
  match n with
  | O => Ok []
  | S n' =>
      match segments !! i with
      | Some d => let? rest := assemble_from segments (i + 1) n' in Ok (d ++ rest)
      | None => Err (MissingSegment i)
      end
  end.

Definition assemble (e : AssemblyEntry) : outcome SegmentationError (list Z) :=
  if decide (ae_state e = AsComplete) then assemble_from (ae_segments e) 0 (Z.to_nat (next_sequence e))
  else Err IncompleteAssembly.

(** Keyed by source hash and invoke id. *)
Record SegmentAssembler : Set := { entries : gmap (Z * Z) AssemblyEntry; timeout : Z }.

Definition SegmentAssembler_new (t : Z) : SegmentAssembler := {| entries := ∅; timeout := t |}.
Definition SegmentAssembler_default : SegmentAssembler := SegmentAssembler_new DEFAULT_SEGMENT_TIMEOUT.
Definition set_entries (a : SegmentAssembler) (m : gmap (Z * Z) AssemblyEntry) : SegmentAssembler :=
  {| entries := m; timeout := timeout a |}.

(** [Instant::elapsed], which never is negative. *)
Definition elapsed (now t : Z) : Z := Z.max 0 (now - t).

(** [clk i] is the [i]-th reading of the clock within the call: when an entry is created, when its
    age is checked, when it is reset and when the segment is added. *)
Definition process_segment (clk : nat → Z) (source_hash : Z) (s : Segment)
  : stM SegmentAssembler SegmentationError AssemblyResult := fun a =>
  let key := (source_hash, seg_invoke_id s) in
  let entry := default (AssemblyEntry_new (clk 0%nat)) (entries a !! key) in
  let entry := if timeout a <? elapsed (clk 1%nat) (last_activity entry)
               then AssemblyEntry_new (clk 2%nat) else entry in
  let '(r, entry') := add_segment (clk 3%nat) s entry in
  (r, set_entries a (<[key := entry']> (entries a))).

Definition get_complete (source_hash invoke_id : Z) (a : SegmentAssembler)
  : option (list Z * option Z) * SegmentAssembler :=
  let key := (source_hash, invoke_id) in
  match entries a !! key with
  | Some e =>
      if decide (ae_state e = AsComplete) then
        match assemble e with
        | Ok d => (Some (d, ae_service_choice e), set_entries a (delete key (entries a)))
        | _ => (None, a)
        end
      else (None, a)
  | None => (None, a)
  end.

(** Every entry's age is read once; the model reads the clock once for all of them. *)
Definition SegmentAssembler_cleanup (now : Z) (a : SegmentAssembler) : nat * SegmentAssembler :=
  let kept := filter (fun kv => elapsed now (last_activity kv.2) <= timeout a) (entries a) in
  ((size (entries a) - size kept)%nat, set_entries a kept).

(* ------------------------------------------------------------------ *)
(** * Transmission *)

Record SegmentTransmitter : Set := { max_segment_size : nat; proposed_window_size : Z }.

Definition SegmentTransmitter_new (size : nat) : SegmentTransmitter :=
  {| max_segment_size := size; proposed_window_size := DEFAULT_WINDOW_SIZE |}.

Definition needs_segmentation (t : SegmentTransmitter) (data_len : nat) : bool :=
  (max_segment_size t <? data_len)%nat.

(** The [while offset < data.len()] loop; [None] when the fuel runs out.  The sum [offset +
    max_segment_size] stays below twice the length of [data], which fits a [usize]. *)
Fixpoint segment_loop (fuel : nat) (size : nat) (d : list Z) (id : Z) (seq : Z) (offset : nat)
  : option (list Segment) :=
  if (offset <? length d)%nat then
    match fuel with
    | O => None
    | S fuel' =>
        let e := ((offset + size) `min` length d)%nat in
        let chunk := take (e - offset) (drop offset d) in
        let more := (e <? length d)%nat in
        rest ← segment_loop fuel' size d id (u8_wrapping_add seq 1) e;
        Some (Segment_new seq more id chunk :: rest)
    end
  else Some [].

Definition segment (t : SegmentTransmitter) (d : list Z) (id : Z) : option (list Segment) :=
  if negb (needs_segmentation t (length d)) then Some [Segment_new 0 false id d]
  else segment_loop (length d) (max_segment_size t) d id 0 0.

(** Division by a segment size of zero panics. *)
Definition calculate_segment_count {E} (t : SegmentTransmitter) (data_len : nat) : outcome E nat :=
  if (data_len =? 0)%nat then Ok 1%nat
  else if (max_segment_size t =? 0)%nat then Panic
  else Ok ((data_len + max_segment_size t - 1) / max_segment_size t)%nat.

(* ------------------------------------------------------------------ *)
(** * Segmentation: lemmas *)

(** Chunks as numbered segments, counted from [k]. *)
Fixpoint number (id : Z) (k : nat) (chunks : list (list Z)) : list Segment :=
  match chunks with
  | [] => []
  | c :: cs => Segment_new (Z.of_nat k mod 256) (negb (0 =? length cs)%nat) id c :: number id (S k) cs
  end.

Lemma length_number id k chunks : length (number id k chunks) = length chunks.
Proof. revert k. induction chunks as [|c cs IH]; intros k; [done|]. cbn. by rewrite IH. Qed.

Lemma lookup_number id k chunks i :
  number id k chunks !! i =
  (fun c => Segment_new (Z.of_nat (k + i) mod 256) (negb (S i =? length chunks)%nat) id c) <$> chunks !! i.
Proof.
  revert k i. induction chunks as [|c cs IH]; intros k [|i]; [done..| |].
  - cbn. by rewrite Nat.add_0_r.
  - cbn [number lookup list_lookup]. rewrite IH. cbn [length]. by rewrite <- plus_n_Sm.
Qed.

Definition chunk_ok (size : nat) (c : list Z) : Prop := (0 < length c ≤ size)%nat.

Lemma chunks_length size chunks :
  Forall (chunk_ok size) chunks → (length chunks ≤ length (concat chunks))%nat.
Proof. induction 1 as [|c cs Hc _ IH]; cbn; [lia|]. rewrite length_app. unfold chunk_ok in Hc. lia. Qed.

Lemma segment_loop_chunks fuel size d id k offset :
  (0 < size)%nat → (offset ≤ length d)%nat → (length d - offset ≤ fuel)%nat →
  ∃ chunks, segment_loop fuel size d id (Z.of_nat k mod 256) offset = Some (number id k chunks) ∧
    concat chunks = drop offset d ∧ Forall (chunk_ok size) chunks.
Proof.
  intros Hsize. revert k offset. induction fuel as [|fuel IH]; intros k offset Hoff Hfuel; cbn [segment_loop].
  { rewrite (proj2 (Nat.ltb_ge _ _)) by lia. exists []. split_and!; [done|by rewrite drop_ge by lia|constructor]. }
  destruct (Nat.ltb_spec offset (length d)); [|exists []; split_and!; [done|by rewrite drop_ge by lia|constructor]].
  set (e := ((offset + size) `min` length d)%nat).
  replace (u8_wrapping_add (Z.of_nat k mod 256) 1) with (Z.of_nat (S k) mod 256) by int_lia.
  destruct (IH (S k) e) as (chunks & -> & Hcat & Hok); [lia..|].
  exists (take (e - offset) (drop offset d) :: chunks). cbn [concat number mbind option_bind]. split_and!.
  - do 2 f_equal. destruct (Nat.ltb_spec e (length d)) as [He|He].
    + destruct chunks; [|done]. cbn in Hcat. apply (f_equal length) in Hcat. rewrite length_drop in Hcat. cbn in Hcat. lia.
    + destruct chunks as [|c cs]; [done|]. apply Forall_cons in Hok as [[Hc _] _].
      cbn in Hcat. rewrite drop_ge in Hcat by lia. apply app_nil in Hcat as [-> _]. cbn in Hc. lia.
  - rewrite Hcat. rewrite <- (take_drop (e - offset) (drop offset d)) at 2. rewrite drop_drop. do 2 f_equal. lia.
  - constructor; [|done]. unfold chunk_ok. rewrite length_take, length_drop. lia.
Qed.

Lemma segment_chunks t d id :
  (0 < max_segment_size t)%nat →
  ∃ chunks, segment t d id = Some (number id 0 chunks) ∧ concat chunks = d ∧ chunks ≠ [] ∧
    (Forall (chunk_ok (max_segment_size t)) chunks ∨ chunks = [d]).
Proof.
  intros Hsize. unfold segment, needs_segmentation. destruct (Nat.ltb_spec (max_segment_size t) (length d)); cbn [negb].
  - destruct (segment_loop_chunks (length d) (max_segment_size t) d id 0 0) as (chunks & Hl & Hcat & Hok); [lia..|].
    exists chunks. change (Z.of_nat 0 mod 256) with 0 in Hl. rewrite drop_0 in Hcat. split_and!; [done..| |by left].
    intros ->. cbn in Hcat. subst d. cbn in *. lia.
  - exists [d]. split_and!; [done|apply app_nil_r|done|by right].
Qed.

(** A segment size of zero makes no progress: the loop never ends. *)
Lemma segment_loop_stuck fuel d id k offset :
  (offset < length d)%nat → segment_loop fuel 0 d id k offset = None.
Proof.
  revert k. induction fuel as [|fuel IH]; intros k Hoff; cbn [segment_loop]; rewrite (proj2 (Nat.ltb_lt _ _)) by done; [done|].
  rewrite Nat.add_0_r, Nat.min_l by lia. by rewrite IH.
Qed.

(* ------------------------------------------------------------------ *)
(** * Assembly: lemmas *)

(** An assembly that has accepted the first [k] chunks in order.  Only those since the last turn of
    the sequence counter are still within its reach. *)
Definition holds (chunks : list (list Z)) (sc : option Z) (k : nat) (e : AssemblyEntry) : Prop :=
  next_sequence e = Z.of_nat k mod 256 ∧
  (∀ i, (i < k mod 256)%nat → ae_segments e !! Z.of_nat i = chunks !! (256 * (k / 256) + i)%nat) ∧
  ((0 < k)%nat → ae_service_choice e = sc) ∧
  (k = length chunks → ae_state e = AsComplete) .

Lemma holds_touch chunks sc k now e : holds chunks sc k e → holds chunks sc k (touch now e).
Proof. done. Qed.

Lemma assemble_from_chunks (segments : gmap Z (list Z)) chunks base n i :
  (∀ j, (j < n)%nat → segments !! Z.of_nat (i + j) = chunks !! (base + i + j)%nat) →
  (base + i + n ≤ length chunks)%nat →
  assemble_from segments (Z.of_nat i) n = Ok (concat (take n (drop (base + i) chunks))).
Proof.
  revert i. induction n as [|n IH]; intros i Hs Hlen; [done|]. cbn [assemble_from].
  destruct (lookup_lt_is_Some_2 chunks (base + i)) as [c Hc]; [lia|].
  rewrite <- (Nat.add_0_r i) at 1. rewrite Hs, Nat.add_0_r, Hc by lia.
  replace (Z.of_nat i + 1) with (Z.of_nat (S i)) by lia. rewrite IH; [| |lia].
  - cbn [obind]. rewrite (drop_S chunks c (base + i)) by done. cbn [take concat]. by rewrite <- plus_n_Sm.
  - intros j Hj. rewrite <- !plus_n_Sm, !plus_Sn_m. rewrite !plus_n_Sm. apply Hs. lia.
Qed.

Lemma holds_assemble chunks sc e :
  holds chunks sc (length chunks) e →
  assemble e = Ok (concat (drop (256 * (length chunks / 256)) chunks)).
Proof.
  intros (Hn & Hs & _ & Hst). unfold assemble. rewrite decide_True by auto.
  rewrite Hn. replace (Z.to_nat (Z.of_nat (length chunks) mod 256)) with (length chunks mod 256)%nat
    by (rewrite <- (Nat2Z.inj_mod _ 256), Nat2Z.id; done).
  pose proof (Nat.div_mod_eq (length chunks) 256).
  change 0 with (Z.of_nat 0). rewrite (assemble_from_chunks _ chunks (256 * (length chunks / 256)) _ 0); [| |lia].
  - rewrite Nat.add_0_r, take_ge by (rewrite length_drop; lia). done.
  - intros j Hj. rewrite Nat.add_0_r. by apply Hs.
Qed.

(** Segment [k] of a message with the given chunks, as the sender numbers it. *)
Definition is_segment (chunks : list (list Z)) (id : Z) (sc : option Z) (k : nat) (s : Segment) : Prop :=
  seg_header s = SegmentHeader_new (Z.of_nat k mod 256) (negb (S k =? length chunks)%nat) ∧
  chunks !! k = Some (seg_data s) ∧ seg_invoke_id s = id ∧
  ((k mod 256 = 0)%nat → seg_service_choice s = sc).

Lemma number_is_segment chunks id k s : number id 0 chunks !! k = Some s → is_segment chunks id None k s.
Proof. rewrite lookup_number, fmap_Some. intros (c & Hc & ->). by split_and!. Qed.

Lemma add_segment_next chunks id sc k s now e :
  holds chunks sc k e → is_segment chunks id sc k s →
  ∃ r e', add_segment now s e = (Ok r, e') ∧ holds chunks sc (S k) e' ∧ last_activity e' = now.
Proof.
  intros (Hn & Hs & Hsc & _) (Hh & Hd & _ & Hfirst). unfold add_segment.
  rewrite Hh. cbn [sequence_number SegmentHeader_new touch next_sequence is_first is_last segmented more_follows andb].
  rewrite Hn, Z.eqb_refl. cbn [negb]. eexists _, _. split; [done|]. split; [|done].
  pose proof (Nat.div_mod_eq k 256). pose proof (Nat.mod_upper_bound k 256 ltac:(lia)).
  assert (Z.of_nat k mod 256 = Z.of_nat (k mod 256)) as Hkm by (by rewrite Nat2Z.inj_mod).
  assert (S k = length chunks → (S k =? length chunks)%nat = true) as Hlast by (intros ->; apply Nat.eqb_refl).
  revert Hlast. generalize (S k =? length chunks)%nat as last. intros last Hlast.
  rewrite Hkm. unfold holds. cbn. split_and!.
  - rewrite <- Hkm. int_lia.
  - intros i Hi. destruct (decide (k mod 256 = 255)%nat) as [Hw|Hw].
    { replace (S k mod 256)%nat with 0%nat in Hi; [lia|]. apply (Nat.mod_unique _ _ (S (k / 256))); lia. }
    assert (S k mod 256 = S (k mod 256) ∧ S k / 256 = k / 256)%nat as [Hm Hq].
    { split; symmetry; [apply (Nat.mod_unique _ _ (k / 256))|apply (Nat.div_unique _ _ _ (S (k mod 256)))]; lia. }
    rewrite Hm in Hi. rewrite Hq. destruct (decide (i = k mod 256)%nat) as [->|Hne].
    + rewrite lookup_insert_eq, <- Hd. f_equal. lia.
    + rewrite lookup_insert_ne by lia. apply Hs. lia.
  - intros _. destruct (Z.eqb_spec (Z.of_nat (k mod 256)) 0) as [E|E]; [apply Hfirst; lia|]. apply Hsc.
    destruct k; [done|lia].
  - intros Hl. by rewrite (Hlast Hl).
Qed.

Lemma add_segment_repeat chunks id sc k j s now e :
  holds chunks sc k e → is_segment chunks id sc j s → (j < k ≤ 255)%nat →
  add_segment now s e = (Ok ArDuplicate, touch now e).
Proof.
  intros (Hn & _) (Hh & _) Hj. unfold add_segment. rewrite Hh.
  cbn [sequence_number SegmentHeader_new touch next_sequence]. rewrite Hn.
  rewrite (proj2 (Z.eqb_neq _ _)) by int_lia. cbn [negb]. by rewrite (proj2 (Z.ltb_lt _ _)) by int_lia.
Qed.

(** Segments as they arrive at the assembler: the clock readings, the source and the segment. *)
Definition arrival : Type := (nat → Z) * Z * Segment.

Fixpoint receive (l : list arrival) (a : SegmentAssembler) : SegmentAssembler :=
  match l with
  | [] => a
  | (clk, source, s) :: l' => receive l' (snd (process_segment clk source s a))
  end.

Section transfer.
Context (chunks : list (list Z)) (source id : Z) (sc : option Z) (limit : Z).

(** A transfer that goes on with segment [k], [t] being the time of the last segment: segments come
    in order, within the time limit; segments that have come already may come again as long as
  [repeats] allows it; segments of other transfers come in between. *)
Inductive transfer (repeats : bool) : nat → Z → list arrival → Prop :=
| tf_done t : transfer repeats (length chunks) t []
| tf_next k t clk s l :
    is_segment chunks id sc k s → ((0 < k)%nat → elapsed (clk 1%nat) t <= limit) →
  transfer repeats (S k) (clk 3%nat) l → transfer repeats k t ((clk, source, s) :: l)
| tf_repeat k j t clk s l :
    repeats = true → (j < k)%nat → is_segment chunks id sc j s → elapsed (clk 1%nat) t <= limit →
  transfer repeats k (clk 3%nat) l → transfer repeats k t ((clk, source, s) :: l)
| tf_other k t clk src s l :
    (src, seg_invoke_id s) ≠ (source, id) → transfer repeats k t l → transfer repeats k t ((clk, src, s) :: l).

(** The assembler after [k] segments, the last of them at time [t]. *)
Definition assembling (k : nat) (t : Z) (a : SegmentAssembler) : Prop :=
  timeout a = limit ∧
  match entries a !! (source, id) with
  | Some e => holds chunks sc k e ∧ last_activity e = t
  | None => k = 0%nat
  end.

Lemma holds_new now : chunks ≠ [] → holds chunks sc 0 (AssemblyEntry_new now).
Proof. intros Hne. split_and!; [done|intros i Hi; rewrite Nat.Div0.mod_0_l in Hi; lia|lia|]. by destruct chunks. Qed.

Lemma process_next k t clk s a :
  chunks ≠ [] → assembling k t a → is_segment chunks id sc k s → ((0 < k)%nat → elapsed (clk 1%nat) t <= limit) →
  assembling (S k) (clk 3%nat) (snd (process_segment clk source s a)).
Proof.
  intros Hne [Ht Ha] Hs Hclk. unfold process_segment. rewrite (proj1 (proj2 (proj2 Hs))). rewrite Ht.
  set (e := if limit <? _ then _ else _). assert (holds chunks sc k e) as He.
  { unfold e. destruct (entries a !! (source, id)) as [e0|]; cbn [from_option Datatypes.id].
    - destruct Ha as [H0 Hl]. rewrite Hl. destruct (Z.ltb_spec limit (elapsed (clk 1%nat) t)); [|done].
    destruct k; [by apply holds_new|specialize (Hclk ltac:(lia)); lia].
    - subst k. destruct (_ <? _); by apply holds_new. }
  destruct (add_segment_next chunks id sc k s (clk 3%nat) e He Hs) as (r & e' & -> & He' & Hl').
  cbn [snd]. split; [done|]. cbn [entries set_entries]. by rewrite lookup_insert_eq.
Qed.

Lemma process_repeat k j t clk s a :
  assembling k t a → is_segment chunks id sc j s → (j < k ≤ 255)%nat → elapsed (clk 1%nat) t <= limit →
  assembling k (clk 3%nat) (snd (process_segment clk source s a)).
Proof.
  intros [Ht Ha] Hs Hj Hclk. unfold process_segment. rewrite (proj1 (proj2 (proj2 Hs))), Ht.
  destruct (entries a !! (source, id)) as [e|] eqn:E; [|lia]. destruct Ha as [He Hl].
  cbn [from_option Datatypes.id]. rewrite Hl, (proj2 (Z.ltb_ge _ _)) by done.
  rewrite (add_segment_repeat chunks id sc k j s _ e He Hs Hj). cbn [snd]. split; [done|].
  cbn [entries set_entries]. by rewrite lookup_insert_eq.
Qed.

Lemma process_other k t clk src s a :
  (src, seg_invoke_id s) ≠ (source, id) → assembling k t a → assembling k t (snd (process_segment clk src s a)).
Proof.
  intros Hne Ha. unfold process_segment. destruct (add_segment _ _ _) as [r e]. cbn [snd].
  unfold assembling. cbn [timeout entries set_entries]. by rewrite lookup_insert_ne.
Qed.

Lemma transfer_assembles repeats k t l a :
  chunks ≠ [] → (repeats = true → length chunks ≤ 255)%nat → (k ≤ length chunks)%nat →
  transfer repeats k t l → assembling k t a → ∃ t', assembling (length chunks) t' (receive l a).
Proof.
  intros Hne Hrep Hk Hl. revert a. induction Hl as [|k t clk s l Hs Hclk Hl IH|k j t clk s l Hr Hj Hs Hclk Hl IH|k t clk src s l Ho Hl IH];
    intros a Ha; cbn [receive]; [by eexists|apply IH|apply IH|apply IH]; try done.
  - destruct Hs as (_ & Hd & _). apply lookup_lt_Some in Hd. lia.
  - by eapply process_next.
  - eapply process_repeat; [done..| |done]. specialize (Hrep Hr). lia.
  - by apply process_other.
Qed.

Lemma assembling_complete t a :
  chunks ≠ [] → assembling (length chunks) t a →
  get_complete source id a =
  (Some (concat (drop (256 * (length chunks / 256)) chunks), sc), set_entries a (delete (source, id) (entries a))).
Proof.
  intros Hne [_ Ha]. unfold get_complete. destruct (entries a !! (source, id)) as [e|].
  - destruct Ha as [He _]. pose proof He as (_ & _ & Hsc & Hst). rewrite decide_True by auto.
  rewrite (holds_assemble chunks sc e He). do 3 f_equal. apply Hsc. destruct chunks; [done|cbn; lia].
  - by destruct chunks.
Qed.
End transfer.

(* ------------------------------------------------------------------ *)
(** * Properties *)


(** A message of more than 255 segments is cut without an error.  The eight-bit sequence number
    starts again at 0, the assembler overwrites the segments it holds and reports success with only
    the data that came after the last turn of the counter. *)
Theorem segmentation_truncates (t : SegmentTransmitter) (d : list Z) (id source : Z) (sc : option Z)
    (l : list arrival) (a : SegmentAssembler) :
  (0 < max_segment_size t)%nat → entries a !! (source, id) = None →
  ∃ chunks, segment t d id = Some (number id 0 chunks) ∧ concat chunks = d ∧
    ((255 < length chunks)%nat → ∀ t0, transfer chunks source id sc (timeout a) false 0 t0 l →
     ∃ d' a', get_complete source id (receive l a) = (Some (d', sc), a') ∧
       d' = concat (drop (256 * (length chunks / 256)) chunks) ∧ (length d' < length d)%nat).
Proof.
  intros Hsize Hfresh. destruct (segment_chunks t d id Hsize) as (chunks & Hseg & Hcat & Hne & Hok).
  exists chunks. split; [done|]. split; [done|]. intros Hlen t0 Hl.
  destruct Hok as [Hok| ->]; [|cbn in Hlen; lia].
  destruct (transfer_assembles chunks source id sc (timeout a) false 0 t0 l a) as [t' Ha]; [done|done|lia|done| |].
  { split; [done|]. by rewrite Hfresh. }
  eexists _, _. split; [by apply (assembling_complete chunks source id sc (timeout a) t')|]. split; [done|].
  set (n := (256 * (length chunks / 256))%nat).
  assert (length d = length (concat (take n chunks)) + length (concat (drop n chunks)))%nat as Hsum.
  { by rewrite <- length_app, <- concat_app, take_drop, Hcat. }
  pose proof (chunks_length _ _ (Forall_take _ n _ Hok)) as Hc.
  rewrite length_take in Hc. pose proof (Nat.div_le_lower_bound (length chunks) 256 1 ltac:(lia) ltac:(lia)). lia.
Qed.

(** A three-byte message in segments of two bytes: the first segment comes twice, and a segment of
    another client in between. *)
Definition sample_transmitter : SegmentTransmitter := SegmentTransmitter_new 2.
Definition ticks (n : Z) : nat → Z := fun i => n + Z.of_nat i.
Definition sample_arrivals : list arrival :=
  [(ticks 0, 7, Segment_new 0 true 1 [10; 20]); (ticks 5, 8, Segment_new 0 true 1 [99]);
   (ticks 10, 7, Segment_new 0 true 1 [10; 20]); (ticks 20, 7, Segment_new 1 false 1 [30])].

Lemma sample_transfer : transfer [[10; 20]; [30]] 7 1 None DEFAULT_SEGMENT_TIMEOUT true 0 0 sample_arrivals.
Proof.
  apply tf_next; [by split_and!|lia|]. apply tf_other; [done|].
  apply (tf_repeat _ _ _ _ _ _ 1 0); [done|lia|by split_and!|vm_compute; discriminate|].
  apply tf_next; [by split_and!|intros _; vm_compute; discriminate|]. apply tf_done.
Qed.


(** 257 bytes in segments of one byte: only the last byte is left. *)
Definition long_message : list Z := zrange 0 257.
Definition long_arrivals : list arrival :=
  (fun '(i, c) => (ticks 0, 7, Segment_new (Z.of_nat i mod 256) (negb (i =? 256)%nat) 1 [c])) <$> zip (seq 0 257) long_message.

Lemma long_transfer chunks k t :
  chunks = (fun c => [c]) <$> long_message → (k ≤ 257)%nat → t = 0 ∨ t = 3 →
  transfer chunks 7 1 None DEFAULT_SEGMENT_TIMEOUT false k t (drop k long_arrivals).
Proof.
  intros Hc. assert (length chunks = 257%nat) as Hlen by (by rewrite Hc).
  remember (257 - k)%nat as n eqn:Hn. revert k t Hn. induction n as [|n IH]; intros k t Hn Hk Ht.
  { assert (drop k long_arrivals = []) as -> by (apply drop_ge; change (length long_arrivals) with 257%nat; lia).
    replace k with (length chunks) by lia. apply tf_done. }
  assert (long_arrivals !! k = Some (ticks 0, 7, Segment_new (Z.of_nat k mod 256) (negb (k =? 256)%nat) 1 [Z.of_nat k]))
    as Hlk.
  { unfold long_arrivals. rewrite list_lookup_fmap, lookup_zip_with, lookup_seq_lt by lia.
    unfold long_message. rewrite lookup_zrange, decide_True by lia. done. }
  assert (drop k long_arrivals = (ticks 0, 7, Segment_new (Z.of_nat k mod 256) (negb (k =? 256)%nat) 1 [Z.of_nat k])
            :: drop (S k) long_arrivals) as -> by exact (drop_S _ _ _ Hlk).
  apply tf_next.
  - split_and!; [|rewrite Hc, list_lookup_fmap; unfold long_message; rewrite lookup_zrange, decide_True by lia; done|done..].
    rewrite Hlen. done.
  - intros _. destruct Ht as [-> | ->]; vm_compute; discriminate.
  - apply IH; [lia|lia|by right].
Qed.

Lemma segmentation_truncates_witness :
  ∃ a', get_complete 7 1 (receive long_arrivals SegmentAssembler_default) = (Some ([256], None), a').
Proof.
  destruct (segmentation_truncates (SegmentTransmitter_new 1) long_message 1 7 None long_arrivals SegmentAssembler_default)
    as (chunks & Hseg & Hcat & Hrun); [vm_compute; lia|reflexivity|].
  assert (chunks = (fun c => [c]) <$> long_message) as ->.
  { apply (f_equal (fmap (M:=option) (fmap (M:=list) seg_data))) in Hseg.
    assert (∀ k, seg_data <$> number 1 k chunks = chunks) as Hd.
    { clear. induction chunks as [|c cs IH]; intros k; [done|]. cbn. by rewrite IH. }
    cbn [fmap option_fmap option_map] in Hseg. rewrite Hd in Hseg. vm_compute in Hseg. by injection Hseg as <-. }
  destruct (Hrun ltac:(vm_compute; lia) 0 (long_transfer _ 0 0 eq_refl ltac:(lia) ltac:(by left))) as (d' & a' & Hget & -> & _).
  exists a'. rewrite Hget. reflexivity.
Defined.
