(* ===== verification/BacnetNet.v ===== *)
(** The network layer of the BACnet/IP stack: BVLC messages ([mabi-bacnet/src/network/bvlc.rs]) and
    NPDUs ([network/npdu.rs]), with their codecs. *)

From S2P Require Import Prelude.

(* ------------------------------------------------------------------ *)
(** * Socket addresses *)

(** [Ipv4Addr] by its four octets, [SocketAddrV4] with its port. *)
Definition Ipv4Addr : Set := Z * Z * Z * Z.
Definition SocketAddrV4 : Set := Ipv4Addr * Z.
Definition octets (ip : Ipv4Addr) : list Z := let '(a, b, c, d) := ip in [a; b; c; d].

(** [std::net::SocketAddr]; an IPv6 address has its 128 bits, port, flow information and scope. *)
Inductive SocketAddr : Set :=
| V4 (addr : SocketAddrV4)
| V6 (ip port flowinfo scope_id : Z).

#[global] Instance SocketAddr_eq_dec : EqDecision SocketAddr.
Proof. solve_decision. Defined.
#[global] Instance SocketAddr_countable : Countable SocketAddr.
Proof.
  apply (inj_countable' (fun a => match a with V4 x => inl x | V6 i p f s => inr (i, p, f, s) end)
    (fun s => match s with inl x => V4 x | inr (i, p, f, s) => V6 i p f s end)). by intros [].
Defined.

Definition ipv4_ok (ip : Ipv4Addr) : Prop := bytes_ok (octets ip).
Definition addr_v4_ok (a : SocketAddrV4) : Prop := ipv4_ok a.1 ∧ is_u16 a.2.

(* ------------------------------------------------------------------ *)
(** * BVLC *)

Definition BVLC_TYPE : Z := 0x81.
Definition BVLC_HEADER_SIZE : Z := 4.

Inductive BvlcFunction : Set :=
| BvResult
| WriteBroadcastDistributionTable
| ReadBroadcastDistributionTable
| ReadBroadcastDistributionTableAck
| ForwardedNpdu
| RegisterForeignDevice
| ReadForeignDeviceTable
| ReadForeignDeviceTableAck
| DeleteForeignDeviceTableEntry
| DistributeBroadcastToNetwork
| OriginalUnicastNpdu
| OriginalBroadcastNpdu
| SecureBvll.

#[global] Instance BvlcFunction_eq_dec : EqDecision BvlcFunction.
Proof. solve_decision. Defined.

Definition BvlcFunction_as_u8 (f : BvlcFunction) : Z :=
  match f with
  | BvResult => 0x00
  | WriteBroadcastDistributionTable => 0x01
  | ReadBroadcastDistributionTable => 0x02
  | ReadBroadcastDistributionTableAck => 0x03
  | ForwardedNpdu => 0x04
  | RegisterForeignDevice => 0x05
  | ReadForeignDeviceTable => 0x06
  | ReadForeignDeviceTableAck => 0x07
  | DeleteForeignDeviceTableEntry => 0x08
  | DistributeBroadcastToNetwork => 0x09
  | OriginalUnicastNpdu => 0x0A
  | OriginalBroadcastNpdu => 0x0B
  | SecureBvll => 0x0C
  end.

Definition BvlcFunction_from_u8 (value : Z) : option BvlcFunction :=
  match value with
  | 0x00 => Some BvResult
  | 0x01 => Some WriteBroadcastDistributionTable
  | 0x02 => Some ReadBroadcastDistributionTable
  | 0x03 => Some ReadBroadcastDistributionTableAck
  | 0x04 => Some ForwardedNpdu
  | 0x05 => Some RegisterForeignDevice
  | 0x06 => Some ReadForeignDeviceTable
  | 0x07 => Some ReadForeignDeviceTableAck
  | 0x08 => Some DeleteForeignDeviceTableEntry
  | 0x09 => Some DistributeBroadcastToNetwork
  | 0x0A => Some OriginalUnicastNpdu
  | 0x0B => Some OriginalBroadcastNpdu
  | 0x0C => Some SecureBvll
  | _ => None
  end.

Definition has_npdu (f : BvlcFunction) : bool :=
  match f with ForwardedNpdu | OriginalUnicastNpdu | OriginalBroadcastNpdu => true | _ => false end.
Definition BvlcFunction_is_broadcast (f : BvlcFunction) : bool :=
  match f with OriginalBroadcastNpdu | DistributeBroadcastToNetwork => true | _ => false end.

Inductive BvlcResultCode : Set :=
| BvSuccess | WriteBdtNak | ReadBdtNak | RegisterForeignDeviceNak | ReadFdtNak | DeleteFdtEntryNak
| DistributeBroadcastNak.

Definition BvlcResultCode_as_u16 (c : BvlcResultCode) : Z :=
  match c with
  | BvSuccess => 0x0000 | WriteBdtNak => 0x0010 | ReadBdtNak => 0x0020 | RegisterForeignDeviceNak => 0x0030
  | ReadFdtNak => 0x0040 | DeleteFdtEntryNak => 0x0050 | DistributeBroadcastNak => 0x0060
  end.
Definition BvlcResultCode_from_u16 (value : Z) : option BvlcResultCode :=
  match value with
  | 0x0000 => Some BvSuccess | 0x0010 => Some WriteBdtNak | 0x0020 => Some ReadBdtNak
  | 0x0030 => Some RegisterForeignDeviceNak | 0x0040 => Some ReadFdtNak | 0x0050 => Some DeleteFdtEntryNak
  | 0x0060 => Some DistributeBroadcastNak
  | _ => None
  end.

Inductive BvlcError : Set :=
| BvTooShort (expected actual : Z) | BvInvalidType (t : Z) | BvUnknownFunction (f : Z) | BvInvalidFormat.

Record BvlcHeader : Set := { bv_function : BvlcFunction; bv_length : Z }.

Definition BvlcHeader_encode (h : BvlcHeader) : list Z :=
  [BVLC_TYPE; BvlcFunction_as_u8 (bv_function h)] ++ u16_to_be (bv_length h).

Definition BvlcHeader_decode (d : list Z) : outcome BvlcError BvlcHeader :=
  if zlen d <? BVLC_HEADER_SIZE then Err (BvTooShort BVLC_HEADER_SIZE (zlen d))
  else
    let? bvlc_type := index d 0 in
    if negb (bvlc_type =? BVLC_TYPE) then Err (BvInvalidType bvlc_type)
    else
      let? f := index d 1 in
      let? function := ok_or (BvlcFunction_from_u8 f) (BvUnknownFunction f) in
      let? hi := index d 2 in
      let? lo := index d 3 in
      Ok {| bv_function := function; bv_length := u16_from_be hi lo |}.

Record BvlcMessage : Set := {
  bv_header : BvlcHeader;
  bv_npdu : list Z;
  original_source : option SocketAddrV4;
  bv_result_code : option BvlcResultCode }.

Definition BvlcMessage_with_payload (f : BvlcFunction) (npdu : list Z) : BvlcMessage :=
  {| bv_header := {| bv_function := f; bv_length := as_u16 (BVLC_HEADER_SIZE + zlen npdu) |};
     bv_npdu := npdu; original_source := None; bv_result_code := None |}.
Definition original_unicast (npdu : list Z) : BvlcMessage := BvlcMessage_with_payload OriginalUnicastNpdu npdu.
Definition original_broadcast (npdu : list Z) : BvlcMessage := BvlcMessage_with_payload OriginalBroadcastNpdu npdu.
Definition forwarded_npdu (npdu : list Z) (src : SocketAddrV4) : BvlcMessage :=
  {| bv_header := {| bv_function := ForwardedNpdu; bv_length := as_u16 (BVLC_HEADER_SIZE + 6 + zlen npdu) |};
     bv_npdu := npdu; original_source := Some src; bv_result_code := None |}.
Definition BvlcMessage_result (c : BvlcResultCode) : BvlcMessage :=
  {| bv_header := {| bv_function := BvResult; bv_length := 6 |};
     bv_npdu := []; original_source := None; bv_result_code := Some c |}.

Definition BvlcMessage_encode (m : BvlcMessage) : list Z :=
  BvlcHeader_encode (bv_header m) ++
  match bv_function (bv_header m) with
  | BvResult => match bv_result_code m with Some c => u16_to_be (BvlcResultCode_as_u16 c) | None => [] end
  | ForwardedNpdu =>
      match original_source m with Some (ip, port) => octets ip ++ u16_to_be port | None => [] end ++ bv_npdu m
  | _ => bv_npdu m
  end.

Definition BvlcMessage_decode (d : list Z) : outcome BvlcError BvlcMessage :=
  let? header := BvlcHeader_decode d in
  if zlen d <? bv_length header then Err (BvTooShort (bv_length header) (zlen d))
  else
    let? cursor := slice d BVLC_HEADER_SIZE (zlen d) in
    match bv_function header with
    | BvResult =>
        match cursor with
        | hi :: lo :: _ =>
            Ok {| bv_header := header; bv_npdu := []; original_source := None;
                  bv_result_code := BvlcResultCode_from_u16 (u16_from_be hi lo) |}
        | _ => Err (BvTooShort 2 (zlen cursor))
        end
    | ForwardedNpdu =>
        match cursor with
        | a :: b :: c :: e :: hi :: lo :: rest =>
            Ok {| bv_header := header; bv_npdu := rest;
                  original_source := Some ((a, b, c, e), u16_from_be hi lo); bv_result_code := None |}
        | _ => Err (BvTooShort 6 (zlen cursor))
        end
    | _ => Ok {| bv_header := header; bv_npdu := cursor; original_source := None; bv_result_code := None |}
    end.

(** [BvlcMessage::npdu]. *)
Definition BvlcMessage_npdu (m : BvlcMessage) : option (list Z) :=
  if has_npdu (bv_function (bv_header m)) && negb (match bv_npdu m with [] => true | _ => false end)
  then Some (bv_npdu m) else None.
Definition BvlcMessage_is_broadcast (m : BvlcMessage) : bool := BvlcFunction_is_broadcast (bv_function (bv_header m)).
Definition effective_source (m : BvlcMessage) : option SocketAddr := V4 <$> original_source m.

(* ------------------------------------------------------------------ *)
(** * NPDU *)

Definition NPDU_VERSION : Z := 0x01.

Inductive Priority : Set := PrNormal | PrUrgent | PrCriticalEquipment | PrLifeSafety.
Definition Priority_as_u8 (p : Priority) : Z :=
  match p with PrNormal => 0 | PrUrgent => 1 | PrCriticalEquipment => 2 | PrLifeSafety => 3 end.
Definition Priority_from_bits (bits : Z) : Priority :=
  match Z.land bits 0x03 with
  | 0 => PrNormal | 1 => PrUrgent | 2 => PrCriticalEquipment | 3 => PrLifeSafety | _ => PrNormal
  end.

Inductive NetworkMessageType : Set :=
| WhoIsRouterToNetwork | IAmRouterToNetwork | ICouldBeRouterToNetwork | RejectMessageToNetwork
| RouterBusyToNetwork | RouterAvailableToNetwork | InitializeRoutingTable | InitializeRoutingTableAck
| EstablishConnectionToNetwork | DisconnectConnectionToNetwork | ChallengeRequest | SecurityPayload
| SecurityResponse | RequestKeyUpdate | UpdateKeySet | UpdateDistributionKey | RequestMasterKey
| SetMasterKey | WhatIsNetworkNumber | NetworkNumberIs.

Definition NetworkMessageType_as_u8 (t : NetworkMessageType) : Z :=
  match t with
  | WhoIsRouterToNetwork => 0x00 | IAmRouterToNetwork => 0x01 | ICouldBeRouterToNetwork => 0x02
  | RejectMessageToNetwork => 0x03 | RouterBusyToNetwork => 0x04 | RouterAvailableToNetwork => 0x05
  | InitializeRoutingTable => 0x06 | InitializeRoutingTableAck => 0x07 | EstablishConnectionToNetwork => 0x08
  | DisconnectConnectionToNetwork => 0x09 | ChallengeRequest => 0x0A | SecurityPayload => 0x0B
  | SecurityResponse => 0x0C | RequestKeyUpdate => 0x0D | UpdateKeySet => 0x0E | UpdateDistributionKey => 0x0F
  | RequestMasterKey => 0x10 | SetMasterKey => 0x11 | WhatIsNetworkNumber => 0x12 | NetworkNumberIs => 0x13
  end.

(** The security messages 0x0A to 0x11 are not recognised. *)
Definition NetworkMessageType_from_u8 (value : Z) : option NetworkMessageType :=
  match value with
  | 0x00 => Some WhoIsRouterToNetwork | 0x01 => Some IAmRouterToNetwork | 0x02 => Some ICouldBeRouterToNetwork
  | 0x03 => Some RejectMessageToNetwork | 0x04 => Some RouterBusyToNetwork | 0x05 => Some RouterAvailableToNetwork
  | 0x06 => Some InitializeRoutingTable | 0x07 => Some InitializeRoutingTableAck
  | 0x08 => Some EstablishConnectionToNetwork | 0x09 => Some DisconnectConnectionToNetwork
  | 0x12 => Some WhatIsNetworkNumber | 0x13 => Some NetworkNumberIs
  | _ => None
  end.

Record NpduControl : Set := {
  network_layer_message : bool; destination_specifier : bool; source_specifier : bool;
  expecting_reply : bool; np_priority : Priority }.

Definition NpduControl_default : NpduControl :=
  {| network_layer_message := false; destination_specifier := false; source_specifier := false;
     expecting_reply := false; np_priority := PrNormal |}.

Definition flag (b : bool) (mask : Z) : Z := if b then mask else 0.

Definition NpduControl_encode (c : NpduControl) : Z :=
  Z.lor (Z.lor (Z.lor (Z.lor (flag (network_layer_message c) 0x80) (flag (destination_specifier c) 0x20))
    (flag (source_specifier c) 0x08)) (flag (expecting_reply c) 0x04)) (Z.land (Priority_as_u8 (np_priority c)) 0x03).

Definition NpduControl_decode (byte : Z) : NpduControl :=
  {| network_layer_message := negb (Z.land byte 0x80 =? 0);
     destination_specifier := negb (Z.land byte 0x20 =? 0);
     source_specifier := negb (Z.land byte 0x08 =? 0);
     expecting_reply := negb (Z.land byte 0x04 =? 0);
     np_priority := Priority_from_bits byte |}.

Record BACnetAddress : Set := { ad_network : Z; ad_address : list Z }.

Definition BACnetAddress_broadcast : BACnetAddress := {| ad_network := 0xFFFF; ad_address := [] |}.
Definition BACnetAddress_is_broadcast (a : BACnetAddress) : bool :=
  (ad_network a =? 0xFFFF) || match ad_address a with [] => true | _ => false end.

Inductive NpduError : Set := NpTooShort | NpInvalidVersion (v : Z) | NpInvalidControl | NpInvalidAddress.

Definition BACnetAddress_encode (a : BACnetAddress) : list Z :=
  u16_to_be (ad_network a) ++ [as_u8 (zlen (ad_address a))] ++ ad_address a.

(** Returns the address and what is left of the cursor. *)
Definition BACnetAddress_decode (d : list Z) : outcome NpduError (BACnetAddress * list Z) :=
  match d with
  | hi :: lo :: len :: rest =>
      if zlen rest <? len then Err NpTooShort
      else Ok ({| ad_network := u16_from_be hi lo; ad_address := take (Z.to_nat len) rest |}, drop (Z.to_nat len) rest)
  | _ => Err NpTooShort
  end.

Record Npdu : Set := {
  np_control : NpduControl;
  np_destination : option BACnetAddress;
  np_source : option BACnetAddress;
  np_hop_count : option Z;
  network_message_type : option NetworkMessageType;
  np_vendor_id : option Z;
  np_data : list Z }.

Definition Npdu_simple (apdu : list Z) : Npdu :=
  {| np_control := {| network_layer_message := false; destination_specifier := false; source_specifier := false;
                      expecting_reply := true; np_priority := PrNormal |};
     np_destination := None; np_source := None; np_hop_count := None; network_message_type := None;
     np_vendor_id := None; np_data := apdu |}.
Definition Npdu_no_reply (apdu : list Z) : Npdu :=
  {| np_control := NpduControl_default; np_destination := None; np_source := None; np_hop_count := None;
     network_message_type := None; np_vendor_id := None; np_data := apdu |}.

Definition encode_opt_address (a : option BACnetAddress) : list Z :=
  match a with Some a => BACnetAddress_encode a | None => [] end.

Definition Npdu_encode (n : Npdu) : list Z :=
  [NPDU_VERSION; NpduControl_encode (np_control n)]
  ++ encode_opt_address (np_destination n)
  ++ encode_opt_address (np_source n)
  ++ (if destination_specifier (np_control n) then [default 255 (np_hop_count n)] else [])
  ++ (if network_layer_message (np_control n) then
        match network_message_type n with
        | Some t => [NetworkMessageType_as_u8 t]
                    ++ (if 0x80 <=? NetworkMessageType_as_u8 t then
                          match np_vendor_id n with Some v => u16_to_be v | None => [] end
                        else [])
        | None => []
        end
      else [])
  ++ np_data n.

Definition decode_opt_address (present : bool) (cursor : list Z) : outcome NpduError (option BACnetAddress * list Z) :=
  if present then let? (a, cursor) := BACnetAddress_decode cursor in Ok (Some a, cursor) else Ok (None, cursor).

Definition Npdu_decode (d : list Z) : outcome NpduError Npdu :=
  match d with
  | version :: ctrl :: cursor =>
      if negb (version =? NPDU_VERSION) then Err (NpInvalidVersion version)
      else
        let control := NpduControl_decode ctrl in
        let? (destination, cursor) := decode_opt_address (destination_specifier control) cursor in
        let? (source, cursor) := decode_opt_address (source_specifier control) cursor in
        let? (hop_count, cursor) :=
          (if destination_specifier control then
             match cursor with h :: cursor => Ok (Some h, cursor) | [] => Err NpTooShort end
           else Ok (None, cursor)) in
        let? (msg_type, vendor, cursor) :=
          (if network_layer_message control then
             match cursor with
             | [] => Err NpTooShort
             | t :: cursor =>
                 match cursor with
                 | hi :: lo :: rest =>
                     if 0x80 <=? t then Ok (NetworkMessageType_from_u8 t, Some (u16_from_be hi lo), rest)
                     else Ok (NetworkMessageType_from_u8 t, None, cursor)
                 | _ => Ok (NetworkMessageType_from_u8 t, None, cursor)
                 end
             end
           else Ok (None, None, cursor)) in
        Ok {| np_control := control; np_destination := destination; np_source := source; np_hop_count := hop_count;
              network_message_type := msg_type; np_vendor_id := vendor; np_data := cursor |}
  | _ => Err NpTooShort
  end.

(** [Npdu::apdu]. *)
Definition Npdu_apdu (n : Npdu) : list Z := if network_layer_message (np_control n) then [] else np_data n.

(* ------------------------------------------------------------------ *)
(** * Codecs: lemmas *)

Lemma BvlcFunction_roundtrip f : BvlcFunction_from_u8 (BvlcFunction_as_u8 f) = Some f.
Proof. by destruct f. Qed.
Lemma BvlcResultCode_roundtrip c : BvlcResultCode_from_u16 (BvlcResultCode_as_u16 c) = Some c.
Proof. by destruct c. Qed.
Lemma NpduControl_roundtrip c : NpduControl_decode (NpduControl_encode c) = c.
Proof. by destruct c as [[] [] [] [] []]. Qed.

Lemma BvlcHeader_roundtrip h rest :
  is_u16 (bv_length h) → BvlcHeader_decode (BvlcHeader_encode h ++ rest) = Ok h.
Proof.
  intros Hl. unfold BvlcHeader_decode. rewrite (proj2 (Z.ltb_ge _ _)) by (unfold BvlcHeader_encode, BVLC_HEADER_SIZE; len_lia).
  unfold BvlcHeader_encode, u16_to_be. cbn [app index lookup list_lookup obind]. unfold index. cbn [lookup list_lookup obind].
  rewrite Z.eqb_refl. cbn [negb]. rewrite BvlcFunction_roundtrip. cbn [ok_or obind].
  rewrite u16_be_roundtrip by done. by destruct h.
Qed.

(** Well-formed messages: what the constructors build, with a length that fits its field. *)
Definition wf_bvlc (m : BvlcMessage) : Prop :=
  bv_length (bv_header m) = zlen (BvlcMessage_encode m) ∧ is_u16 (bv_length (bv_header m)) ∧
  match bv_function (bv_header m) with
  | BvResult => bv_npdu m = [] ∧ original_source m = None ∧ bv_result_code m ≠ None
  | ForwardedNpdu => (∃ a, original_source m = Some a ∧ addr_v4_ok a) ∧ bv_result_code m = None
  | _ => original_source m = None ∧ bv_result_code m = None
  end.

Definition with_npdu (m : BvlcMessage) (d : list Z) : BvlcMessage :=
  {| bv_header := bv_header m; bv_npdu := d; original_source := original_source m; bv_result_code := bv_result_code m |}.

Lemma BvlcMessage_decode_payload h body :
  is_u16 (bv_length h) → bv_length h <= 4 + zlen body →
  BvlcMessage_decode (BvlcHeader_encode h ++ body) =
  match bv_function h with
  | BvResult =>
      match body with
      | hi :: lo :: _ =>
          Ok {| bv_header := h; bv_npdu := []; original_source := None;
                bv_result_code := BvlcResultCode_from_u16 (u16_from_be hi lo) |}
      | _ => Err (BvTooShort 2 (zlen body))
      end
  | ForwardedNpdu =>
      match body with
      | a :: b :: c :: e :: hi :: lo :: rest =>
          Ok {| bv_header := h; bv_npdu := rest;
                original_source := Some ((a, b, c, e), u16_from_be hi lo); bv_result_code := None |}
      | _ => Err (BvTooShort 6 (zlen body))
      end
  | _ => Ok {| bv_header := h; bv_npdu := body; original_source := None; bv_result_code := None |}
  end.
Proof.
  intros Hu Hlen. unfold BvlcMessage_decode. rewrite BvlcHeader_roundtrip by done. cbn [obind].
  assert (zlen (BvlcHeader_encode h ++ body) = 4 + zlen body) as Hl by (unfold BvlcHeader_encode; len_lia).
  rewrite (proj2 (Z.ltb_ge _ _)) by lia.
  rewrite slice_ok by (unfold BVLC_HEADER_SIZE; pose proof (zlen_nonneg body); lia).
  assert (take (Z.to_nat (zlen (BvlcHeader_encode h ++ body) - BVLC_HEADER_SIZE))
    (drop (Z.to_nat BVLC_HEADER_SIZE) (BvlcHeader_encode h ++ body)) = body) as ->.
  { rewrite take_ge; [done|]. rewrite length_drop. unfold BVLC_HEADER_SIZE, zlen. lia. }
  done.
Qed.

Lemma original_decodes f npdu :
  has_npdu f = true → f ≠ ForwardedNpdu → zlen npdu < 65532 →
  BvlcMessage_decode (BvlcMessage_encode (BvlcMessage_with_payload f npdu)) = Ok (BvlcMessage_with_payload f npdu).
Proof.
  intros Hf Hnf Hl. unfold BvlcMessage_encode. pose proof (zlen_nonneg npdu).
  assert (as_u16 (BVLC_HEADER_SIZE + zlen npdu) = 4 + zlen npdu) as Hlen by (unfold BVLC_HEADER_SIZE; apply as_u16_id; int_lia).
  destruct f; try done; (rewrite BvlcMessage_decode_payload; [done|cbn [bv_length bv_header bv_function bv_npdu BvlcMessage_with_payload]; rewrite Hlen; int_lia..]).
Qed.

(** ** NPDU *)

Definition address_ok (a : BACnetAddress) : Prop :=
  is_u16 (ad_network a) ∧ bytes_ok (ad_address a) ∧ zlen (ad_address a) <= 255.

Lemma BACnetAddress_roundtrip a rest :
  address_ok a → BACnetAddress_decode (BACnetAddress_encode a ++ rest) = Ok (a, rest).
Proof.
  intros (Hn & _ & Hl). unfold BACnetAddress_encode, u16_to_be. cbn [app BACnetAddress_decode].
  pose proof (zlen_nonneg (ad_address a)). rewrite as_u8_id by int_lia.
  rewrite (proj2 (Z.ltb_ge _ _)) by len_lia. unfold zlen. rewrite Nat2Z.id, take_app_length, drop_app_length.
  rewrite u16_be_roundtrip by done. by destruct a.
Qed.

Lemma BACnetAddress_decode_exact d :
  bytes_ok d → osat (fun '(a, rest) => address_ok a ∧ d = BACnetAddress_encode a ++ rest ∧ bytes_ok rest) (fun e => e = NpTooShort)
    (BACnetAddress_decode d).
Proof.
  intros Hd. destruct d as [|hi [|lo [|len rest]]]; [done..|]. cbn [BACnetAddress_decode].
  destruct (Z.ltb_spec (zlen rest) len); [done|]. cbn [osat].
  apply Forall_cons in Hd as [Hhi [Hlo [Hlen Hrest]%Forall_cons]%Forall_cons].
  assert (zlen (take (Z.to_nat len) rest) = len) as Ht by (unfold zlen in *; rewrite length_take; int_lia).
  split_and!.
  - split_and!; cbn; [by apply u16_from_be_range|by apply Forall_take|]. rewrite Ht. int_lia.
  - unfold BACnetAddress_encode. cbn [ad_network ad_address]. rewrite u16_to_from_be by done.
    rewrite Ht, as_u8_id by done. cbn [app]. by rewrite take_drop.
  - by apply Forall_drop.
Qed.

(** Well-formed NPDUs: the control flags agree with the fields. *)
Definition wf_npdu (n : Npdu) : Prop :=
  destination_specifier (np_control n) = is_some (np_destination n) ∧
  source_specifier (np_control n) = is_some (np_source n) ∧
  is_some (np_hop_count n) = is_some (np_destination n) ∧
  from_option address_ok True (np_destination n) ∧ from_option address_ok True (np_source n) ∧
  from_option is_u8 True (np_hop_count n) ∧ np_vendor_id n = None ∧
  (if network_layer_message (np_control n)
   then ∃ t, network_message_type n = Some t ∧ NetworkMessageType_from_u8 (NetworkMessageType_as_u8 t) = Some t
   else network_message_type n = None).

Lemma opt_address_roundtrip a present rest :
  present = is_some a → from_option address_ok True a →
  decode_opt_address present (encode_opt_address a ++ rest) = Ok (a, rest).
Proof.
  intros -> Ha. destruct a as [a|]; cbn [is_some decode_opt_address encode_opt_address]; [|done].
  by rewrite BACnetAddress_roundtrip.
Qed.

Lemma opt_address_exact present d :
  bytes_ok d →
  osat (fun '(a, rest) => present = is_some a ∧ from_option address_ok True a ∧ d = encode_opt_address a ++ rest ∧ bytes_ok rest)
    (fun e => e = NpTooShort) (decode_opt_address present d).
Proof.
  intros Hd. unfold decode_opt_address. destruct present; [|done].
  eapply osat_bind; [by apply BACnetAddress_decode_exact|]. intros [a rest] (Ha & He & Hr). done.
Qed.

Lemma bacnet_npdu_roundtrip n : wf_npdu n → Npdu_decode (Npdu_encode n) = Ok n.
Proof.
  intros (Hd & Hs & Hh & Had & Has & Hhop & Hv & Hm). unfold Npdu_encode, Npdu_decode. cbn [app].
  rewrite Z.eqb_refl, NpduControl_roundtrip. cbn [negb]. rewrite opt_address_roundtrip by done. cbn [obind].
  rewrite opt_address_roundtrip by done. cbn [obind]. rewrite Hd.
  destruct n as [c dest src hop mt v data]. cbn in *. subst v.
  destruct dest as [dest|], hop as [hop|]; try done; cbn [is_some app obind from_option id];
    (destruct (network_layer_message c) eqn:Hnl; cbn [app obind];
      [destruct Hm as (t & -> & Ht); destruct t; try discriminate Ht; destruct data as [|? [|? ?]]; done|by rewrite Hm]).
Qed.

(** An application message [n] made of exactly the bytes [d], up to reserved control bits. *)
Definition npdu_of_bytes (d : list Z) (n : Npdu) : Prop :=
  wf_npdu n ∧ ∃ ctrl rest, d = NPDU_VERSION :: ctrl :: rest ∧ np_control n = NpduControl_decode ctrl ∧
    Npdu_encode n = NPDU_VERSION :: NpduControl_encode (np_control n) :: rest.

Lemma npdu_decode_sound d :
  bytes_ok d → osat (fun n => network_layer_message (np_control n) = false → npdu_of_bytes d n) (fun _ => True) (Npdu_decode d).
Proof.
  intros Hd. destruct d as [|version [|ctrl cursor]]; [done..|]. unfold Npdu_decode.
  destruct (Z.eqb_spec version NPDU_VERSION) as [->|]; [|done]. cbn [negb].
  apply Forall_cons in Hd as [_ [Hctrl Hcur]%Forall_cons]. remember (NpduControl_decode ctrl) as control eqn:Hcontrol.
  eapply osat_bind; [eapply osat_weaken; [by apply opt_address_exact|by intros a Ha; exact Ha|done]|].
  intros [dest cur1] (Hdest & Hdok & -> & Hcur1).
  eapply osat_bind; [eapply osat_weaken; [by apply opt_address_exact|by intros a Ha; exact Ha|done]|].
  intros [src cur2] (Hsrc & Hsok & -> & Hcur2).
  eapply (osat_bind (fun '(hop, cur3) => is_some hop = is_some dest ∧ from_option is_u8 True hop ∧
    cur2 = (if destination_specifier control then [default 255 hop] else []) ++ cur3)).
  { rewrite Hdest. destruct dest; cbn [is_some]; [|done]. destruct cur2 as [|h cur3]; [done|].
    apply Forall_cons in Hcur2 as [Hh _]. done. }
  intros [hop cur3] (Hhop & Hhok & ->).
  destruct (network_layer_message control) eqn:Hnl.
  + destruct cur3 as [|t [|hi [|lo rest]]]; cbn [obind osat np_control]; try done; try (intros; congruence).
    destruct (_ <=? _); cbn [obind osat np_control]; intros; congruence.
  + cbn [obind osat np_control]. intros _. split.
    * unfold wf_npdu. cbn. rewrite Hnl. done.
    * exists ctrl. eexists. split; [done|]. split; [done|]. unfold Npdu_encode. cbn. by rewrite Hnl.
Qed.

(* ------------------------------------------------------------------ *)
(** * Properties *)

(** Every well-formed NPDU, with or without routing information, decodes to itself; and
    decoding any bytes never panics, and what it accepts as an application message is well formed
    and consists of exactly the bytes received, but for the reserved bits of the control byte. *)
Theorem npdu_codec_exact :
  (∀ n, wf_npdu n → Npdu_decode (Npdu_encode n) = Ok n) ∧
  (∀ d, bytes_ok d → osat
     (fun n => network_layer_message (np_control n) = false → npdu_of_bytes d n) (fun _ => True) (Npdu_decode d)).
Proof. split; [exact bacnet_npdu_roundtrip|exact npdu_decode_sound]. Qed.

(** A BVLC message decodes to itself, but the length field does not delimit it: bytes that follow
    the message in the datagram become part of the NPDU. *)
Theorem bvlc_length_ignored (m : BvlcMessage) (junk : list Z) :
  wf_bvlc m → bv_function (bv_header m) ≠ BvResult →
  BvlcMessage_decode (BvlcMessage_encode m ++ junk) = Ok (with_npdu m (bv_npdu m ++ junk)).
Proof.
  intros (Hlen & Hu & Hm) Hf. unfold BvlcMessage_encode in *. rewrite <- app_assoc.
  rewrite BvlcMessage_decode_payload; [|done|].
  - destruct m as [h npdu src rc]. cbn in *. destruct (bv_function h) eqn:E; try done;
      try (by destruct Hm as [-> ->]). destruct Hm as [([[[[a b] c] e] port] & -> & Ha & Hp) ->].
    cbn [app octets]. unfold u16_to_be. cbn [app]. by rewrite u16_be_roundtrip.
  - rewrite Hlen. unfold BvlcHeader_encode. pose proof (zlen_nonneg junk). len_lia.
Qed.

(** A broadcast with a source network and a hop count. *)
Definition sample_npdu : Npdu :=
  {| np_control := {| network_layer_message := false; destination_specifier := true; source_specifier := true;
                      expecting_reply := true; np_priority := PrUrgent |};
     np_destination := Some BACnetAddress_broadcast; np_source := Some {| ad_network := 5; ad_address := [1; 2; 3] |};
     np_hop_count := Some 254; network_message_type := None; np_vendor_id := None; np_data := [0x10; 0x08] |}.

Example sample_npdu_roundtrip : Npdu_decode (Npdu_encode sample_npdu) = Ok sample_npdu.
Proof. reflexivity. Qed.

Lemma bvlc_length_ignored_witness :
  BvlcMessage_decode (BvlcMessage_encode (original_unicast [1; 0; 0x10; 0x08]) ++ [0xFF])
  = Ok (with_npdu (original_unicast [1; 0; 0x10; 0x08]) [1; 0; 0x10; 0x08; 0xFF]).
Proof.
  apply (bvlc_length_ignored (original_unicast [1; 0; 0x10; 0x08]) [0xFF]); [|discriminate].
  split; [reflexivity|]. split; [closed|split; reflexivity].
Defined.
