(* ===== verification/BacnetTsm.v ===== *)
(** The server-side transaction state machine of the BACnet stack ([mabi-bacnet/src/service/tsm.rs]):
    duplicate detection with cached responses, capacity and expiry.  Time is a parameter of the
    operations that read the clock. *)

From S2P Require Import Prelude BacnetNet.

(* ------------------------------------------------------------------ *)
(** * State *)

(** The client and its invoke id. *)
Definition TransactionKey : Set := SocketAddr * Z.

Inductive TransactionState : Set := AwaitingResponse | ResponseReady | Completed.

Record TransactionEntry : Set := {
  created_at : Z;
  te_service_choice : Z;
  cached_response : option (list Z);
  te_duplicate_count : Z;
  te_state : TransactionState }.

(** [drop_threshold] is [(chaos_drop_probability * 1000.0) as u64] when the probability is positive. *)
Record TsmConfig : Set := {
  duplicate_window : Z; max_transactions : nat; chaos_delay : Z; drop_threshold : option Z }.

(** Ten seconds in nanoseconds. *)
Definition TsmConfig_default : TsmConfig :=
  {| duplicate_window := 10 * 1000000000; max_transactions := 256; chaos_delay := 0; drop_threshold := None |}.

Inductive TsmError : Set := DuplicateInProgress | AtCapacity.

Record ServerTsm : Set := {
  tsm_config : TsmConfig;
  transactions : gmap TransactionKey TransactionEntry;
  total_transactions : Z;
  duplicate_count : Z;
  dropped_count : Z;
  timeout_count : Z }.

Definition ServerTsm_with_config (c : TsmConfig) : ServerTsm :=
  {| tsm_config := c; transactions := ∅; total_transactions := 0; duplicate_count := 0; dropped_count := 0;
     timeout_count := 0 |}.
Definition ServerTsm_new : ServerTsm := ServerTsm_with_config TsmConfig_default.

Definition set_transactions (m : gmap TransactionKey TransactionEntry) (t : ServerTsm) : ServerTsm :=
  {| tsm_config := tsm_config t; transactions := m; total_transactions := total_transactions t;
     duplicate_count := duplicate_count t; dropped_count := dropped_count t; timeout_count := timeout_count t |}.

(** [AtomicU64::fetch_add], which wraps. *)
Definition u64_add (x y : Z) : Z := (x + y) mod 18446744073709551616.

Definition count_total (t : ServerTsm) : ServerTsm :=
  {| tsm_config := tsm_config t; transactions := transactions t; total_transactions := u64_add (total_transactions t) 1;
     duplicate_count := duplicate_count t; dropped_count := dropped_count t; timeout_count := timeout_count t |}.
Definition count_duplicate (t : ServerTsm) : ServerTsm :=
  {| tsm_config := tsm_config t; transactions := transactions t; total_transactions := total_transactions t;
     duplicate_count := u64_add (duplicate_count t) 1; dropped_count := dropped_count t; timeout_count := timeout_count t |}.
Definition count_dropped (t : ServerTsm) : ServerTsm :=
  {| tsm_config := tsm_config t; transactions := transactions t; total_transactions := total_transactions t;
     duplicate_count := duplicate_count t; dropped_count := u64_add (dropped_count t) 1; timeout_count := timeout_count t |}.
Definition count_timeouts (n : nat) (t : ServerTsm) : ServerTsm :=
  {| tsm_config := tsm_config t; transactions := transactions t; total_transactions := total_transactions t;
     duplicate_count := duplicate_count t; dropped_count := dropped_count t;
     timeout_count := u64_add (timeout_count t) (Z.of_nat n) |}.

(* ------------------------------------------------------------------ *)
(** * Operations *)

(** [now.duration_since(created_at)], which is never negative. *)
Definition age (now : Z) (e : TransactionEntry) : Z := Z.max 0 (now - created_at e).
Definition expired (c : TsmConfig) (now : Z) (e : TransactionEntry) : bool := duplicate_window c <? age now e.

Definition live_entries (c : TsmConfig) (now : Z) (m : gmap TransactionKey TransactionEntry)
  : gmap TransactionKey TransactionEntry := filter (fun kv => expired c now kv.2 = false) m.

(** The entry with one more duplicate; the counter is a [u32]. *)
Definition count_entry_duplicate `{BuildProfile} {E} (e : TransactionEntry) : outcome E TransactionEntry :=
  let? n := checked_op 4294967296 (te_duplicate_count e + 1) in
  Ok {| created_at := created_at e; te_service_choice := te_service_choice e; cached_response := cached_response e;
        te_duplicate_count := n; te_state := te_state e |}.

(** The second half of [begin_transaction], for a request that is no duplicate. *)
Definition admit_transaction (now : Z) (key : TransactionKey) (service_choice : Z)
  : stM ServerTsm TsmError (option (list Z)) := fun t =>
  let c := tsm_config t in
  let t := if (max_transactions c <=? size (transactions t))%nat then
             let live := live_entries c now (transactions t) in
             count_timeouts (size (transactions t) - size live) (set_transactions live t)
           else t in
  if (max_transactions c <=? size (transactions t))%nat then (Err AtCapacity, t)
  else
    let entry := {| created_at := now; te_service_choice := service_choice; cached_response := None;
                    te_duplicate_count := 0; te_state := AwaitingResponse |} in
    (Ok None, count_total (set_transactions (<[key := entry]> (transactions t)) t)).

Definition begin_transaction `{BuildProfile} (now : Z) (key : TransactionKey) (service_choice : Z)
  : stM ServerTsm TsmError (option (list Z)) := fun t =>
  match transactions t !! key with
  | Some entry =>
      if expired (tsm_config t) now entry then
        admit_transaction now key service_choice (set_transactions (delete key (transactions t)) t)
      else
        match count_entry_duplicate entry with
        | Ok entry' =>
            let t := count_duplicate (set_transactions (<[key := entry']> (transactions t)) t) in
            match te_state entry with
            | AwaitingResponse => (Err DuplicateInProgress, t)
            | ResponseReady | Completed => (Ok (cached_response entry), t)
            end
        | Err e => (Err e, t)
        | Panic => (Panic, t)
        end
  | None => admit_transaction now key service_choice t
  end.

(** The multiplication in [counter * 7 + 13] is a [u64] operation. *)
Definition complete_transaction `{BuildProfile} {E} (key : TransactionKey) (response : list Z)
  : stM ServerTsm E bool := fun t =>
  let t := match transactions t !! key with
           | Some entry =>
               set_transactions (<[key := {| created_at := created_at entry; te_service_choice := te_service_choice entry;
                 cached_response := Some response; te_duplicate_count := te_duplicate_count entry;
                 te_state := Completed |}]> (transactions t)) t
           | None => t
           end in
  match drop_threshold (tsm_config t) with
  | None => (Ok true, t)
  | Some threshold =>
      match checked_op 18446744073709551616 (total_transactions t * 7) with
      | Ok x =>
          match checked_op (E:=E) 18446744073709551616 (x + 13) with
          | Ok y => if y mod 1000 <? threshold then (Ok false, count_dropped t) else (Ok true, t)
          | Err e => (Err e, t)
          | Panic => (Panic, t)
          end
      | Err e => (Err e, t)
      | Panic => (Panic, t)
      end
  end.

Definition tsm_cleanup_expired (now : Z) (t : ServerTsm) : nat * ServerTsm :=
  let live := live_entries (tsm_config t) now (transactions t) in
  let removed := (size (transactions t) - size live)%nat in
  let t := set_transactions live t in
  (removed, if (0 <? removed)%nat then count_timeouts removed t else t).

(* ------------------------------------------------------------------ *)
(** * Runs: lemmas *)

Inductive TsmEvent : Set :=
| EvBegin (now : Z) (key : TransactionKey) (service_choice : Z)
| EvComplete (key : TransactionKey) (response : list Z)
| EvCleanup (now : Z).

Definition tsm_step `{BuildProfile} (ev : TsmEvent) (t : ServerTsm) : option ServerTsm :=
  match ev with
  | EvBegin now key sc => let '(r, t') := begin_transaction now key sc t in if is_panic r then None else Some t'
  | EvComplete key resp => let '(r, t') := complete_transaction (E:=Empty_set) key resp t in if is_panic r then None else Some t'
  | EvCleanup now => Some (snd (tsm_cleanup_expired now t))
  end.

(** The state after a sequence of operations; [None] when one of them panicked. *)
Fixpoint tsm_run `{BuildProfile} (evs : list TsmEvent) (t : ServerTsm) : option ServerTsm :=
  match evs with
  | [] => Some t
  | ev :: evs' => t' ← tsm_step ev t; tsm_run evs' t'
  end.

(** The clock readings of a sequence of operations lie in an interval. *)
Definition ev_within (lo hi : Z) (ev : TsmEvent) : Prop :=
  match ev with EvBegin now _ _ | EvCleanup now => lo <= now <= hi | EvComplete _ _ => True end.

(** The response a key was last completed with, [r] before. *)
Fixpoint last_response (key : TransactionKey) (evs : list TsmEvent) (r : option (list Z)) : option (list Z) :=
  match evs with
  | [] => r
  | EvComplete key' resp :: evs' => last_response key evs' (if decide (key' = key) then Some resp else r)
  | _ :: evs' => last_response key evs' r
  end.

(** The transaction [key], begun at [start] and completed with [r] if at all. *)
Definition tracks (c : TsmConfig) (key : TransactionKey) (start : Z) (r : option (list Z)) (n : Z) (t : ServerTsm) : Prop :=
  tsm_config t = c ∧ ∃ e, transactions t !! key = Some e ∧ created_at e = start ∧ 0 <= te_duplicate_count e <= n ∧
    te_state e = (match r with Some _ => Completed | None => AwaitingResponse end) ∧ cached_response e = r.

Lemma live_entries_lookup c now m key e :
  m !! key = Some e → expired c now e = false → live_entries c now m !! key = Some e.
Proof. intros He Hx. unfold live_entries. by apply map_lookup_filter_Some_2. Qed.

Lemma live_entries_size c now m : (size (live_entries c now m) ≤ size m)%nat.
Proof. unfold live_entries. apply map_subseteq_size, map_filter_subseteq. Qed.

Lemma not_expired c now start e :
  created_at e = start → 0 <= duplicate_window c → now <= start + duplicate_window c → expired c now e = false.
Proof. intros Hc Hw Hn. unfold expired, age. apply Z.ltb_ge. lia. Qed.

Lemma admit_tracks c key start r n now key' sc t res t' :
  tracks c key start r n t → 0 <= duplicate_window c → now <= start + duplicate_window c → key' ≠ key →
  admit_transaction now key' sc t = (res, t') → tracks c key start r n t' ∧ is_panic res = false.
Proof.
  intros (Hc & e & He & Hst & Hrest) Hw Hnow Hne. unfold admit_transaction. rewrite Hc.
  set (t1 := if (_ <=? _)%nat then _ else t). assert (tsm_config t1 = c ∧ transactions t1 !! key = Some e) as [Hc1 He1].
  { unfold t1. destruct (_ <=? _)%nat; [|done]. split; [done|]. cbn.
    apply live_entries_lookup; [done|]. by eapply not_expired. }
  clearbody t1. destruct (_ <=? _)%nat; intros [= <- <-]; (split; [|done]); (split; [done|]); exists e; split; try done.
  cbn. by rewrite lookup_insert_ne.
Qed.

Lemma begin_duplicate `{BuildProfile} c key start r n now sc t :
  tracks c key start r n t → n + 1 < 4294967296 → 0 <= duplicate_window c → now <= start + duplicate_window c →
  ∃ t', begin_transaction now key sc t = (match r with Some x => Ok (Some x) | None => Err DuplicateInProgress end, t') ∧
    tracks c key start r (n + 1) t'.
Proof.
  intros (Hc & e & He & Hst & Hcnt & Hstate & Hcache) Hn Hw Hnow. unfold begin_transaction. rewrite He, Hc.
  rewrite (not_expired c now start e) by done. unfold count_entry_duplicate. rewrite checked_op_exact by lia. cbn [obind].
  assert (∀ t1, transactions t1 = <[key := {| created_at := created_at e; te_service_choice := te_service_choice e;
      cached_response := r; te_duplicate_count := te_duplicate_count e + 1;
      te_state := match r with Some _ => Completed | None => AwaitingResponse end |}]> (transactions t) →
      tsm_config t1 = c → tracks c key start r (n + 1) t1) as Htr.
  { intros t1 Ht1 Hc1. split; [done|]. eexists. rewrite Ht1, lookup_insert_eq. split; [done|]. cbn. split_and!; try done; lia. }
  rewrite Hstate, Hcache. destruct r as [x|]; eexists; (split; [done|by apply Htr]).
Qed.

Lemma complete_tracks `{BuildProfile} {E} c key start r n key' resp t (res : outcome E bool) t' :
  tracks c key start r n t → complete_transaction key' resp t = (res, t') →
  tracks c key start (if decide (key' = key) then Some resp else r) n t'.
Proof.
  intros (Hc & e & He & Hst & Hcnt & Hstate & Hcache) Hrun. unfold complete_transaction in Hrun.
  set (t1 := match transactions t !! key' with Some _ => _ | None => t end) in Hrun.
  assert (tracks c key start (if decide (key' = key) then Some resp else r) n t1) as Ht1.
  { unfold t1. case_decide as Hk.
    - subst key'. rewrite He. split; [done|]. eexists. cbn. rewrite lookup_insert_eq. split; [done|]. done.
    - destruct (transactions t !! key'); (split; [done|]; exists e; split; [|done]); [|done]. cbn. by rewrite lookup_insert_ne. }
  clearbody t1. destruct (drop_threshold _); [|by injection Hrun as <- <-].
  destruct (checked_op _ _); [|by injection Hrun as <- <-..]. destruct (checked_op _ _); [|by injection Hrun as <- <-..].
  destruct (_ <? _); by injection Hrun as <- <-.
Qed.

Lemma step_tracks `{BuildProfile} c key start r n ev t t' :
  tracks c key start r n t → n + 1 < 4294967296 → 0 <= duplicate_window c →
  ev_within start (start + duplicate_window c) ev → tsm_step ev t = Some t' →
  tracks c key start (last_response key [ev] r) (n + 1) t'.
Proof.
  intros Ht Hn Hw Hev. assert (∀ r t', tracks c key start r n t' → tracks c key start r (n + 1) t') as Hmono.
  { intros r1 t1 (? & e & ? & ? & [? ?] & ? & ?). split; [done|]. exists e. split_and!; first [done|lia]. }
  destruct ev as [now key' sc|key' resp|now]; cbn [tsm_step last_response].
  - destruct (decide (key' = key)) as [->|Hne].
    + destruct (begin_duplicate c key start r n now sc t) as (t1 & -> & Ht1); [done..|cbn in Hev; lia|].
      destruct (is_panic _); [done|]. by intros [= <-].
    + destruct (begin_transaction now key' sc t) as [res t1] eqn:Hb. destruct (is_panic res) eqn:Hp; [done|].
      intros [= <-]. apply Hmono. unfold begin_transaction in Hb.
      destruct (transactions t !! key') as [e'|]; [|eapply admit_tracks in Hb; [apply Hb|done..|cbn in Hev; lia|done]].
      destruct (expired _ _ _).
      * eapply admit_tracks in Hb; [apply Hb| |done|cbn in Hev; lia|done].
        destruct Ht as (Hc & e & He & Hrest). split; [done|]. exists e. cbn. by rewrite lookup_delete_ne.
      * destruct (count_entry_duplicate e') as [e2|x|]; [|by injection Hb as <- <-|by injection Hb as <- <-].
        assert (tracks c key start r n (count_duplicate (set_transactions (<[key' := e2]> (transactions t)) t))) as Ht2.
        { destruct Ht as (Hc & e & He & Hrest). split; [done|]. exists e. cbn. by rewrite lookup_insert_ne. }
        destruct (te_state e'); by injection Hb as <- <-.
  - destruct (complete_transaction key' resp t) as [res t1] eqn:Hb. destruct (is_panic res); [done|]. intros [= <-].
    apply Hmono. by eapply complete_tracks.
  - intros [= <-]. apply Hmono. destruct Ht as (Hc & e & He & Hst & Hrest). unfold tsm_cleanup_expired. rewrite Hc.
    assert (live_entries c now (transactions t) !! key = Some e) as Hlive.
    { apply live_entries_lookup; [done|]. eapply not_expired; [done..|]. cbn in Hev. lia. }
    destruct (0 <? _)%nat; (split; [done|]); by exists e.
Qed.

Lemma run_tracks `{BuildProfile} c key start evs r n t t' :
  tracks c key start r n t → n + Z.of_nat (length evs) < 4294967296 → 0 <= duplicate_window c →
  Forall (ev_within start (start + duplicate_window c)) evs → tsm_run evs t = Some t' →
  tracks c key start (last_response key evs r) (n + Z.of_nat (length evs)) t'.
Proof.
  intros Ht Hn Hw Hevs. revert r n t Ht Hn. induction Hevs as [|ev evs Hev Hevs IH]; intros r n t Ht Hn; cbn [tsm_run].
  { intros [= <-]. cbn. by rewrite Z.add_0_r. }
  cbn [length] in *. destruct (tsm_step ev t) as [t1|] eqn:Hs; [|done]. cbn [mbind option_bind]. intros Hrun.
  apply (step_tracks c key start r n) in Hs; [|done|lia|done..].
  apply (IH _ _ _ Hs) in Hrun; [|lia]. replace (n + Z.of_nat (S (length evs))) with (n + 1 + Z.of_nat (length evs)) by lia.
  by destruct ev.
Qed.

(** A transaction that has just been admitted. *)
Lemma admitted_tracks now key sc t t' :
  admit_transaction now key sc t = (Ok None, t') → tracks (tsm_config t) key now None 0 t'.
Proof.
  unfold admit_transaction. set (t1 := if (_ <=? _)%nat then _ else t).
  assert (tsm_config t1 = tsm_config t) as Hc by (unfold t1; by destruct (_ <=? _)%nat).
  clearbody t1. destruct (_ <=? _)%nat; [done|]. intros [= <-]. split; [done|]. eexists. cbn. rewrite lookup_insert_eq.
  split; [done|]. cbn. split_and!; try done; lia.
Qed.

(** Entries carry a response exactly when they are completed, and the table keeps its capacity. *)
Definition tsm_ok (t : ServerTsm) : Prop :=
  (size (transactions t) ≤ max_transactions (tsm_config t))%nat ∧
  map_Forall (fun _ e => match te_state e with
                         | AwaitingResponse => cached_response e = None
                         | ResponseReady => False
                         | Completed => cached_response e ≠ None
                         end) (transactions t).

Lemma live_entries_ok c now t : tsm_ok t → tsm_config t = c → tsm_ok (set_transactions (live_entries c now (transactions t)) t).
Proof.
  intros [Hs Hf] _. split; cbn.
  - etrans; [apply live_entries_size|done].
  - intros k e [He _]%map_lookup_filter_Some. exact (Hf k e He).
Qed.

Lemma admit_ok now key sc t r t' :
  tsm_ok t → transactions t !! key = None → admit_transaction now key sc t = (r, t') → tsm_ok t'.
Proof.
  intros Hok Hfresh. unfold admit_transaction. set (t1 := if (_ <=? _)%nat then _ else t).
  assert (tsm_ok t1 ∧ transactions t1 !! key = None ∧ tsm_config t1 = tsm_config t) as (Hok1 & Hf1 & Hc1).
  { unfold t1. destruct (_ <=? _)%nat; [|done]. split; [|split]; [by apply live_entries_ok| |done].
    cbn. unfold live_entries. rewrite map_lookup_filter, Hfresh. done. }
  clearbody t1. destruct (Nat.leb_spec (max_transactions (tsm_config t)) (size (transactions t1))); intros [= <- <-]; [done|].
  destruct Hok1 as [Hs Hf]. split; cbn.
  - rewrite map_size_insert_None by done. rewrite Hc1. lia.
  - by apply map_Forall_insert_2.
Qed.

Lemma begin_ok `{BuildProfile} now key sc t r t' :
  tsm_ok t → begin_transaction now key sc t = (r, t') → tsm_ok t'.
Proof.
  intros Hok. unfold begin_transaction. destruct (transactions t !! key) as [e|] eqn:He; [|by apply admit_ok].
  destruct Hok as [Hs Hf]. destruct (expired _ _ _).
  - apply admit_ok; [|by cbn; rewrite lookup_delete_eq]. split; cbn.
    + etrans; [|exact Hs]. apply map_subseteq_size, delete_subseteq.
    + by apply map_Forall_delete.
  - unfold count_entry_duplicate. destruct (checked_op _ _) as [n|x|]; cbn [obind]; [|by intros [= <- <-]..].
    intros Hrun. assert (t' = count_duplicate (set_transactions (<[key := {| created_at := created_at e;
      te_service_choice := te_service_choice e; cached_response := cached_response e; te_duplicate_count := n;
      te_state := te_state e |}]> (transactions t)) t)) as -> by (by destruct (te_state e); injection Hrun as _ <-).
    split; cbn; [by rewrite map_size_insert_Some by eauto|]. apply map_Forall_insert_2; [|done]. exact (Hf key e He).
Qed.

Lemma complete_ok `{BuildProfile} {E} key resp t (r : outcome E bool) t' :
  tsm_ok t → complete_transaction key resp t = (r, t') → tsm_ok t'.
Proof.
  intros Hok Hrun. unfold complete_transaction in Hrun.
  set (t1 := match transactions t !! key with Some _ => _ | None => t end) in Hrun.
  assert (tsm_ok t1) as Hok1.
  { unfold t1. destruct (transactions t !! key) as [e|] eqn:He; [|done]. destruct Hok as [Hs Hf]. split; cbn.
    - by rewrite map_size_insert_Some by eauto.
    - by apply map_Forall_insert_2. }
  clearbody t1. destruct (drop_threshold _); [|by injection Hrun as <- <-].
  destruct (checked_op _ _); [|by injection Hrun as <- <-..]. destruct (checked_op _ _); [|by injection Hrun as <- <-..].
  destruct (_ <? _); by injection Hrun as <- <-.
Qed.

Lemma step_ok `{BuildProfile} ev t t' : tsm_ok t → tsm_step ev t = Some t' → tsm_ok t'.
Proof.
  intros Hok. destruct ev as [now key sc|key resp|now]; cbn [tsm_step].
  - destruct (begin_transaction now key sc t) as [r t1] eqn:Hb. destruct (is_panic r); [done|]. intros [= <-]. by eapply begin_ok.
  - destruct (complete_transaction key resp t) as [r t1] eqn:Hb. destruct (is_panic r); [done|]. intros [= <-]. by eapply complete_ok.
  - intros [= <-]. unfold tsm_cleanup_expired. pose proof (live_entries_ok (tsm_config t) now t Hok eq_refl).
    by destruct (0 <? _)%nat.
Qed.

Lemma run_ok `{BuildProfile} evs t t' : tsm_ok t → tsm_run evs t = Some t' → tsm_ok t'.
Proof.
  revert t. induction evs as [|ev evs IH]; intros t Hok; cbn [tsm_run]; [by intros [= <-]|].
  destruct (tsm_step ev t) as [t1|] eqn:Hs; [|done]. cbn. apply IH. by eapply step_ok.
Qed.

Lemma new_ok c : tsm_ok (ServerTsm_with_config c).
Proof. split; [cbn; rewrite map_size_empty; lia|apply map_Forall_empty]. Qed.

Lemma admit_config now key sc t : tsm_config (snd (admit_transaction now key sc t)) = tsm_config t.
Proof. unfold admit_transaction. by repeat case_match. Qed.

Lemma run_config `{BuildProfile} evs t t' : tsm_run evs t = Some t' → tsm_config t' = tsm_config t.
Proof.
  revert t. induction evs as [|ev evs IH]; intros t; cbn [tsm_run]; [by intros [= <-]|].
  destruct (tsm_step ev t) as [t1|] eqn:Hs; [|done]. cbn. intros Hrun. rewrite (IH _ Hrun). clear IH Hrun.
  destruct ev as [now key sc|key resp|now]; cbn [tsm_step] in Hs.
  - assert (tsm_config (snd (begin_transaction now key sc t)) = tsm_config t) as Hc.
    { unfold begin_transaction. repeat case_match; rewrite ?admit_config; done. }
    destruct (begin_transaction now key sc t). destruct (is_panic _); by simplify_eq/=.
  - assert (tsm_config (snd (complete_transaction (E:=Empty_set) key resp t)) = tsm_config t) as Hc.
    { unfold complete_transaction. by repeat case_match. }
    destruct (complete_transaction key resp t). destruct (is_panic _); by simplify_eq/=.
  - injection Hs as <-. unfold tsm_cleanup_expired. by destruct (0 <? _)%nat.
Qed.

(** A request is new exactly when it is admitted. *)
Lemma begin_new_admits `{BuildProfile} now key sc t t' :
  tsm_ok t → begin_transaction now key sc t = (Ok None, t') → tracks (tsm_config t) key now None 0 t'.
Proof.
  intros [_ Hf]. unfold begin_transaction. destruct (transactions t !! key) as [e|] eqn:He.
  - destruct (expired _ _ _); [by intros Ha%admitted_tracks|].
    destruct (count_entry_duplicate e); [|done..]. pose proof (Hf key e He) as Hce.
    cbn in Hce. destruct (te_state e) in Hce |- *; [by intros [=]|done|]. by intros [= Hn _].
  - by intros Ha%admitted_tracks.
Qed.

(* ------------------------------------------------------------------ *)
(** * Properties *)

(** Within the duplicate window a request is executed once.  After a request has been admitted as
    new, whatever the server does in the meantime, a request of the same client with the same invoke
    id is never new again until the window has passed: it gets the response the transaction was last
    completed with, or is reported as in progress.  The service it asks for plays no role. *)
Theorem tsm_executes_once `{BuildProfile} (c : TsmConfig) (before evs : list TsmEvent) (key : TransactionKey)
    (start now sc sc' : Z) (t1 t2 t3 : ServerTsm) :
  0 <= duplicate_window c → Z.of_nat (length evs) < 4294967295 →
  tsm_run before (ServerTsm_with_config c) = Some t1 → begin_transaction start key sc t1 = (Ok None, t2) →
  Forall (ev_within start (start + duplicate_window c)) evs → tsm_run evs t2 = Some t3 →
  now <= start + duplicate_window c →
  fst (begin_transaction now key sc' t3) =
  match last_response key evs None with Some r => Ok (Some r) | None => Err DuplicateInProgress end.
Proof.
  intros Hw Hlen Hbefore Hbegin Hevs Hrun Hnow.
  assert (tsm_config t1 = c) as Hc by (apply run_config in Hbefore; done).
  apply begin_new_admits in Hbegin; [|eapply run_ok; [apply new_ok|done]]. rewrite Hc in Hbegin.
  apply (run_tracks c key start evs None 0 t2 t3) in Hrun; [|done|lia|done..].
  destruct (begin_duplicate c key start _ _ now sc' t3 Hrun) as (t4 & -> & _); [lia|done..].
Qed.

(** The transaction table never exceeds its capacity and holds a response exactly for the
    completed transactions: whatever operations have been performed, in any order and at any
    time. *)
Theorem tsm_invariant `{BuildProfile} (c : TsmConfig) (evs : list TsmEvent) (t : ServerTsm) :
  tsm_run evs (ServerTsm_with_config c) = Some t → tsm_ok t.
Proof. apply run_ok, new_ok. Qed.

Definition sample_key : TransactionKey := (V4 ((10, 0, 0, 1), 47808), 7).
Definition other_key : TransactionKey := (V4 ((10, 0, 0, 2), 47808), 7).

(** A write is executed; one second later the client uses its invoke id for a read and gets the
    acknowledgement of the write. *)
Definition sample_tsm : ServerTsm :=
  default ServerTsm_new (@tsm_run debug_build [EvBegin 0 sample_key 15] ServerTsm_new).
Definition sample_tsm' : ServerTsm :=
  default ServerTsm_new (@tsm_run debug_build [EvBegin 5 other_key 12; EvComplete sample_key [0x20; 7; 15]] sample_tsm).

Lemma tsm_executes_once_witness :
  fst (@begin_transaction debug_build 1000000000 sample_key 12 sample_tsm') = Ok (Some [0x20; 7; 15]).
Proof.
  apply (@tsm_executes_once debug_build TsmConfig_default [] [EvBegin 5 other_key 12; EvComplete sample_key [0x20; 7; 15]]
    sample_key 0 1000000000 15 12 ServerTsm_new sample_tsm sample_tsm'); try reflexivity.
  - cbn. lia.
  - repeat constructor; cbn; lia.
  - cbn. lia.
Defined.

Lemma tsm_invariant_witness : tsm_ok sample_tsm'.
Proof.
  apply (@tsm_invariant debug_build TsmConfig_default
    [EvBegin 0 sample_key 15; EvBegin 5 other_key 12; EvComplete sample_key [0x20; 7; 15]]).
  vm_compute; reflexivity.
Defined.
