(* ===== verification/BacnetValue.v ===== *)
(** Data of the BACnet objects: object and property identifiers ([mabi-bacnet/src/object/types.rs],
    [object/property.rs]), property values with their IEEE 754 reals, and the nested value type. *)

From S2P Require Import Prelude.
From Stdlib Require Import SpecFloat.

(* ------------------------------------------------------------------ *)
(** * IEEE 754 numbers *)

(** An [f32] or [f64] is kept as its bit pattern; arithmetic goes through the standard
    library's specification of binary floating point. *)
Definition float_of_bits (prec ew bits : Z) : spec_float :=
  let mw := prec - 1 in
  let emin := 3 - 2 ^ (ew - 1) - prec in
  let s := Z.testbit bits (mw + ew) in
  let e := (bits / 2 ^ mw) mod 2 ^ ew in
  let m := bits mod 2 ^ mw in
  if e =? 0 then
    match m with Z.pos p => S754_finite s p emin | _ => S754_zero s end
  else if e =? 2 ^ ew - 1 then
    if m =? 0 then S754_infinity s else S754_nan
  else
    match m + 2 ^ mw with Z.pos p => S754_finite s p (e - 1 + emin) | _ => S754_nan end.

Definition bits_of_float (prec ew : Z) (f : spec_float) : Z :=
  let mw := prec - 1 in
  let emin := 3 - 2 ^ (ew - 1) - prec in
  let sign (s : bool) := if s then 2 ^ (mw + ew) else 0 in
  match f with
  | S754_zero s => sign s
  | S754_infinity s => sign s + (2 ^ ew - 1) * 2 ^ mw
  | S754_nan => (2 ^ ew - 1) * 2 ^ mw + 2 ^ (mw - 1)
  | S754_finite s m e =>
      if Z.pos m <? 2 ^ mw then sign s + Z.pos m
      else sign s + (e - emin + 1) * 2 ^ mw + (Z.pos m - 2 ^ mw)
  end.

Definition f32 (bits : Z) : spec_float := float_of_bits 24 8 bits.
Definition f64 (bits : Z) : spec_float := float_of_bits 53 11 bits.

(** [x as f32] for an integer and for an [f64]. *)
Definition f32_of_int (x : Z) : Z := bits_of_float 24 8 (binary_normalize 24 128 x 0 false).
Definition f32_of_f64 (bits : Z) : Z :=
  bits_of_float 24 8
    match f64 bits with
    | S754_finite s m e => binary_normalize 24 128 (if s then Z.neg m else Z.pos m) e s
    | f => f
    end.

(** [(a - b).abs() >= c] on [f32]. *)
Definition f32_differs_by (a b c : Z) : bool := SFleb (f32 c) (SFabs (SFsub 24 128 (f32 a) (f32 b))).

(** The constants 0.0 and 0.1. *)
Definition f32_zero : Z := 0.
Definition f32_tenth : Z := 0x3DCCCCCD.

(* ------------------------------------------------------------------ *)
(** * Object identifiers *)

Inductive ObjectType : Set :=
| OtAnalogInput | OtAnalogOutput | OtAnalogValue | OtBinaryInput | OtBinaryOutput | OtBinaryValue | OtCalendar
| OtCommand | OtDevice | OtEventEnrollment | OtFile | OtGroup | OtLoop | OtMultiStateInput | OtMultiStateOutput
| OtNotificationClass | OtProgram | OtSchedule | OtAveraging | OtMultiStateValue | OtTrendLog | OtLifeSafetyPoint
| OtLifeSafetyZone | OtAccumulator | OtPulseConverter | OtEventLog | OtGlobalGroup | OtTrendLogMultiple
| OtLoadControl | OtStructuredView | OtAccessDoor | OtTimer | OtAccessCredential | OtAccessPoint | OtAccessRights
| OtAccessUser | OtAccessZone | OtCredentialDataInput | OtNetworkSecurity | OtBitStringValue | OtCharacterStringValue
| OtDatePatternValue | OtDateValue | OtDatetimePatternValue | OtDatetimeValue | OtIntegerValue | OtLargeAnalogValue
| OtOctetStringValue | OtPositiveIntegerValue | OtTimePatternValue | OtTimeValue | OtNotificationForwarder
| OtAlertEnrollment | OtChannel | OtLightingOutput | OtBinaryLightingOutput | OtNetworkPort | OtElevatorGroup
| OtEscalator | OtLift.

Definition ObjectType_as_u16 (x : ObjectType) : Z :=
  match x with
  | OtAnalogInput => 0 | OtAnalogOutput => 1 | OtAnalogValue => 2 | OtBinaryInput => 3 | OtBinaryOutput => 4
  | OtBinaryValue => 5 | OtCalendar => 6 | OtCommand => 7 | OtDevice => 8 | OtEventEnrollment => 9 | OtFile => 10
  | OtGroup => 11 | OtLoop => 12 | OtMultiStateInput => 13 | OtMultiStateOutput => 14 | OtNotificationClass => 15
  | OtProgram => 16 | OtSchedule => 17 | OtAveraging => 18 | OtMultiStateValue => 19 | OtTrendLog => 20
  | OtLifeSafetyPoint => 21 | OtLifeSafetyZone => 22 | OtAccumulator => 23 | OtPulseConverter => 24
  | OtEventLog => 25 | OtGlobalGroup => 26 | OtTrendLogMultiple => 27 | OtLoadControl => 28 | OtStructuredView => 29
  | OtAccessDoor => 30 | OtTimer => 31 | OtAccessCredential => 32 | OtAccessPoint => 33 | OtAccessRights => 34
  | OtAccessUser => 35 | OtAccessZone => 36 | OtCredentialDataInput => 37 | OtNetworkSecurity => 38
  | OtBitStringValue => 39 | OtCharacterStringValue => 40 | OtDatePatternValue => 41 | OtDateValue => 42
  | OtDatetimePatternValue => 43 | OtDatetimeValue => 44 | OtIntegerValue => 45 | OtLargeAnalogValue => 46
  | OtOctetStringValue => 47 | OtPositiveIntegerValue => 48 | OtTimePatternValue => 49 | OtTimeValue => 50
  | OtNotificationForwarder => 51 | OtAlertEnrollment => 52 | OtChannel => 53 | OtLightingOutput => 54
  | OtBinaryLightingOutput => 55 | OtNetworkPort => 56 | OtElevatorGroup => 57 | OtEscalator => 58 | OtLift => 59
  end.

Definition ObjectType_from_u16 (value : Z) : option ObjectType :=
  match value with
  | 0 => Some OtAnalogInput | 1 => Some OtAnalogOutput | 2 => Some OtAnalogValue | 3 => Some OtBinaryInput
  | 4 => Some OtBinaryOutput | 5 => Some OtBinaryValue | 6 => Some OtCalendar | 7 => Some OtCommand
  | 8 => Some OtDevice | 9 => Some OtEventEnrollment | 10 => Some OtFile | 11 => Some OtGroup | 12 => Some OtLoop
  | 13 => Some OtMultiStateInput | 14 => Some OtMultiStateOutput | 15 => Some OtNotificationClass
  | 16 => Some OtProgram | 17 => Some OtSchedule | 18 => Some OtAveraging | 19 => Some OtMultiStateValue
  | 20 => Some OtTrendLog | 53 => Some OtChannel | 54 => Some OtLightingOutput | 56 => Some OtNetworkPort
  | _ => None
  end.

Definition ObjectType_all : list ObjectType :=
  [OtAnalogInput; OtAnalogOutput; OtAnalogValue; OtBinaryInput; OtBinaryOutput; OtBinaryValue; OtCalendar; OtCommand;
   OtDevice; OtEventEnrollment; OtFile; OtGroup; OtLoop; OtMultiStateInput; OtMultiStateOutput; OtNotificationClass;
   OtProgram; OtSchedule; OtAveraging; OtMultiStateValue; OtTrendLog; OtLifeSafetyPoint; OtLifeSafetyZone;
   OtAccumulator; OtPulseConverter; OtEventLog; OtGlobalGroup; OtTrendLogMultiple; OtLoadControl; OtStructuredView;
   OtAccessDoor; OtTimer; OtAccessCredential; OtAccessPoint; OtAccessRights; OtAccessUser; OtAccessZone;
   OtCredentialDataInput; OtNetworkSecurity; OtBitStringValue; OtCharacterStringValue; OtDatePatternValue;
   OtDateValue; OtDatetimePatternValue; OtDatetimeValue; OtIntegerValue; OtLargeAnalogValue; OtOctetStringValue;
   OtPositiveIntegerValue; OtTimePatternValue; OtTimeValue; OtNotificationForwarder; OtAlertEnrollment; OtChannel;
   OtLightingOutput; OtBinaryLightingOutput; OtNetworkPort; OtElevatorGroup; OtEscalator; OtLift].

Lemma ObjectType_all_find x : find (fun y => ObjectType_as_u16 y =? ObjectType_as_u16 x) ObjectType_all = Some x.
Proof. by destruct x. Qed.

#[global] Instance ObjectType_inj : Inj (=) (=) ObjectType_as_u16.
Proof.
  intros x y H. enough (Some x = Some y) by congruence.
  by rewrite <- (ObjectType_all_find x), <- (ObjectType_all_find y), H.
Qed.
#[global] Instance ObjectType_eq_dec : EqDecision ObjectType.
Proof. refine (fun x y => cast_if (decide (ObjectType_as_u16 x = ObjectType_as_u16 y))); [by apply (inj ObjectType_as_u16)|congruence]. Defined.
#[global] Instance ObjectType_countable : Countable ObjectType.
Proof.
  apply (inj_countable ObjectType_as_u16 (fun z => find (fun y => ObjectType_as_u16 y =? z) ObjectType_all)). exact ObjectType_all_find.
Defined.

Definition is_writable (t : ObjectType) : bool :=
  match t with
  | OtAnalogOutput | OtAnalogValue | OtBinaryOutput | OtBinaryValue | OtMultiStateOutput | OtMultiStateValue
  | OtCommand | OtSchedule | OtCalendar => true
  | _ => false
  end.

Definition supports_cov (t : ObjectType) : bool :=
  match t with
  | OtAnalogInput | OtAnalogOutput | OtAnalogValue | OtBinaryInput | OtBinaryOutput | OtBinaryValue
  | OtMultiStateInput | OtMultiStateOutput | OtMultiStateValue | OtLightingOutput | OtChannel => true
  | _ => false
  end.

Record ObjectId : Set := { object_type : ObjectType; instance : Z }.

#[global] Instance ObjectId_eq_dec : EqDecision ObjectId.
Proof. solve_decision. Defined.
#[global] Instance ObjectId_countable : Countable ObjectId.
Proof.
  apply (inj_countable' (fun i => (object_type i, instance i)) (fun p => {| object_type := p.1; instance := p.2 |})).
  by intros [].
Defined.

Definition MAX_INSTANCE : Z := 0x3FFFFF - 1.
Definition WILDCARD_INSTANCE : Z := 0x3FFFFF.

(** The [debug_assert!] is active in builds that also check overflow. *)
Definition ObjectId_new `{BuildProfile} {E} (t : ObjectType) (i : Z) : outcome E ObjectId :=
  if overflow_checks && (MAX_INSTANCE <? i) then Panic else Ok {| object_type := t; instance := i |}.

Definition ObjectId_encode (o : ObjectId) : Z :=
  Z.lor (Z.shiftl (ObjectType_as_u16 (object_type o)) 22) (Z.land (instance o) 0x3FFFFF).
Definition ObjectId_decode (value : Z) : option ObjectId :=
  let type_code := Z.shiftr value 22 in
  let i := Z.land value 0x3FFFFF in
  (fun t => {| object_type := t; instance := i |}) <$> ObjectType_from_u16 type_code.
Definition is_device (o : ObjectId) : bool := bool_decide (object_type o = OtDevice).

(* ------------------------------------------------------------------ *)
(** * Property identifiers *)

Inductive PropertyId : Set :=
| PiAckedTransitions | PiAckRequired | PiAction | PiActionText | PiActiveText | PiActiveVtSessions | PiAlarmValue
| PiAlarmValues | PiAll | PiAllWritesSuccessful | PiApduSegmentTimeout | PiApduTimeout | PiApplicationSoftwareVersion
| PiArchive | PiBias | PiChangeOfStateCount | PiChangeOfStateTime | PiNotificationClass
| PiControlledVariableReference | PiControlledVariableUnits | PiControlledVariableValue | PiCovIncrement | PiDateList
| PiDaylightSavingsStatus | PiDeadband | PiDerivativeConstant | PiDerivativeConstantUnits | PiDescription
| PiDescriptionOfHalt | PiDeviceAddressBinding | PiDeviceType | PiEffectivePeriod | PiElapsedActiveTime
| PiErrorLimit | PiEventEnable | PiEventState | PiEventType | PiExceptionSchedule | PiFaultValues | PiFeedbackValue
| PiFileAccessMethod | PiFileSize | PiFileType | PiFirmwareRevision | PiHighLimit | PiInactiveText | PiInProcess
| PiInstanceOf | PiIntegralConstant | PiIntegralConstantUnits | PiLimitEnable | PiListOfGroupMembers
| PiListOfObjectPropertyReferences | PiLocalDate | PiLocalTime | PiLocation | PiLowLimit
| PiManipulatedVariableReference | PiMaximumOutput | PiMaxApduLengthAccepted | PiMaxInfoFrames | PiMaxMaster
| PiMaxPresValue | PiMinimumOffTime | PiMinimumOnTime | PiMinimumOutput | PiMinPresValue | PiModelName
| PiModificationDate | PiNotifyType | PiNumberOfApduRetries | PiNumberOfStates | PiObjectIdentifier | PiObjectList
| PiObjectName | PiObjectPropertyReference | PiObjectType | PiOptional | PiOutOfService | PiOutputUnits
| PiEventParameters | PiPolarity | PiPresentValue | PiPriority | PiPriorityArray | PiPriorityForWriting
| PiProcessIdentifier | PiProgramChange | PiProgramLocation | PiProgramState | PiProportionalConstant
| PiProportionalConstantUnits | PiProtocolObjectTypesSupported | PiProtocolServicesSupported | PiProtocolVersion
| PiReadOnly | PiReasonForHalt | PiRecipient | PiRecipientList | PiReliability | PiRelinquishDefault | PiRequired
| PiResolution | PiSegmentationSupported | PiSetpoint | PiSetpointReference | PiStateText | PiStatusFlags
| PiSystemStatus | PiTimeDelay | PiTimeOfActiveTimeReset | PiTimeOfStateCountReset | PiTimeSynchronizationRecipients
| PiUnits | PiUpdateInterval | PiUtcOffset | PiVendorIdentifier | PiVendorName | PiVtClassesSupported
| PiWeeklySchedule | PiAttemptedSamples | PiAverageValue | PiBufferSize | PiClientCovIncrement
| PiCovResubscriptionInterval | PiEventTimeStamps | PiLogBuffer | PiLogDeviceObjectProperty | PiEnable
| PiLogInterval | PiMaximumValue | PiMinimumValue | PiNotificationThreshold | PiPreviousNotifyRecord
| PiProtocolRevision | PiRecordsSinceNotification | PiRecordCount | PiStartTime | PiStopTime | PiStopWhenFull
| PiTotalRecordCount | PiValidSamples | PiWindowInterval | PiWindowSamples | PiMaximumValueTimestamp
| PiMinimumValueTimestamp | PiVarianceValue | PiActiveCovSubscriptions | PiBackupFailureTimeout
| PiConfigurationFiles | PiDatabaseRevision | PiDirectReading | PiLastRestoreTime | PiMaintenanceRequired
| PiMemberOf | PiMode | PiOperationExpected | PiSetting | PiSilenced | PiTrackingValue | PiZoneMembers
| PiLifeSafetyAlarmValues | PiMaxSegmentsAccepted | PiProfileName | PiAutoSlaveDiscovery
| PiManualSlaveAddressBinding | PiSlaveAddressBinding | PiSlaveProxyEnable | PiLastNotifyRecord | PiScheduleDefault
| PiAcceptedModes | PiAdjustValue | PiCount | PiCountBeforeChange | PiCountChangeTime | PiCovPeriod
| PiInputReference | PiLimitMonitoringInterval | PiLoggingObject | PiLoggingRecord | PiPrescale | PiPulseRate
| PiScale | PiScaleFactor | PiUpdateTime | PiValueBeforeChange | PiValueSet | PiValueChangeTime.

Definition PropertyId_as_u32 (x : PropertyId) : Z :=
  match x with
  | PiAckedTransitions => 0 | PiAckRequired => 1 | PiAction => 2 | PiActionText => 3 | PiActiveText => 4
  | PiActiveVtSessions => 5 | PiAlarmValue => 6 | PiAlarmValues => 7 | PiAll => 8 | PiAllWritesSuccessful => 9
  | PiApduSegmentTimeout => 10 | PiApduTimeout => 11 | PiApplicationSoftwareVersion => 12 | PiArchive => 13
  | PiBias => 14 | PiChangeOfStateCount => 15 | PiChangeOfStateTime => 16 | PiNotificationClass => 17
  | PiControlledVariableReference => 19 | PiControlledVariableUnits => 20 | PiControlledVariableValue => 21
  | PiCovIncrement => 22 | PiDateList => 23 | PiDaylightSavingsStatus => 24 | PiDeadband => 25
  | PiDerivativeConstant => 26 | PiDerivativeConstantUnits => 27 | PiDescription => 28 | PiDescriptionOfHalt => 29
  | PiDeviceAddressBinding => 30 | PiDeviceType => 31 | PiEffectivePeriod => 32 | PiElapsedActiveTime => 33
  | PiErrorLimit => 34 | PiEventEnable => 35 | PiEventState => 36 | PiEventType => 37 | PiExceptionSchedule => 38
  | PiFaultValues => 39 | PiFeedbackValue => 40 | PiFileAccessMethod => 41 | PiFileSize => 42 | PiFileType => 43
  | PiFirmwareRevision => 44 | PiHighLimit => 45 | PiInactiveText => 46 | PiInProcess => 47 | PiInstanceOf => 48
  | PiIntegralConstant => 49 | PiIntegralConstantUnits => 50 | PiLimitEnable => 52 | PiListOfGroupMembers => 53
  | PiListOfObjectPropertyReferences => 54 | PiLocalDate => 56 | PiLocalTime => 57 | PiLocation => 58
  | PiLowLimit => 59 | PiManipulatedVariableReference => 60 | PiMaximumOutput => 61 | PiMaxApduLengthAccepted => 62
  | PiMaxInfoFrames => 63 | PiMaxMaster => 64 | PiMaxPresValue => 65 | PiMinimumOffTime => 66 | PiMinimumOnTime => 67
  | PiMinimumOutput => 68 | PiMinPresValue => 69 | PiModelName => 70 | PiModificationDate => 71 | PiNotifyType => 72
  | PiNumberOfApduRetries => 73 | PiNumberOfStates => 74 | PiObjectIdentifier => 75 | PiObjectList => 76
  | PiObjectName => 77 | PiObjectPropertyReference => 78 | PiObjectType => 79 | PiOptional => 80
  | PiOutOfService => 81 | PiOutputUnits => 82 | PiEventParameters => 83 | PiPolarity => 84 | PiPresentValue => 85
  | PiPriority => 86 | PiPriorityArray => 87 | PiPriorityForWriting => 88 | PiProcessIdentifier => 89
  | PiProgramChange => 90 | PiProgramLocation => 91 | PiProgramState => 92 | PiProportionalConstant => 93
  | PiProportionalConstantUnits => 94 | PiProtocolObjectTypesSupported => 96 | PiProtocolServicesSupported => 97
  | PiProtocolVersion => 98 | PiReadOnly => 99 | PiReasonForHalt => 100 | PiRecipient => 101 | PiRecipientList => 102
  | PiReliability => 103 | PiRelinquishDefault => 104 | PiRequired => 105 | PiResolution => 106
  | PiSegmentationSupported => 107 | PiSetpoint => 108 | PiSetpointReference => 109 | PiStateText => 110
  | PiStatusFlags => 111 | PiSystemStatus => 112 | PiTimeDelay => 113 | PiTimeOfActiveTimeReset => 114
  | PiTimeOfStateCountReset => 115 | PiTimeSynchronizationRecipients => 116 | PiUnits => 117
  | PiUpdateInterval => 118 | PiUtcOffset => 119 | PiVendorIdentifier => 120 | PiVendorName => 121
  | PiVtClassesSupported => 122 | PiWeeklySchedule => 123 | PiAttemptedSamples => 124 | PiAverageValue => 125
  | PiBufferSize => 126 | PiClientCovIncrement => 127 | PiCovResubscriptionInterval => 128 | PiEventTimeStamps => 130
  | PiLogBuffer => 131 | PiLogDeviceObjectProperty => 132 | PiEnable => 133 | PiLogInterval => 134
  | PiMaximumValue => 135 | PiMinimumValue => 136 | PiNotificationThreshold => 137 | PiPreviousNotifyRecord => 138
  | PiProtocolRevision => 139 | PiRecordsSinceNotification => 140 | PiRecordCount => 141 | PiStartTime => 142
  | PiStopTime => 143 | PiStopWhenFull => 144 | PiTotalRecordCount => 145 | PiValidSamples => 146
  | PiWindowInterval => 147 | PiWindowSamples => 148 | PiMaximumValueTimestamp => 149
  | PiMinimumValueTimestamp => 150 | PiVarianceValue => 151 | PiActiveCovSubscriptions => 152
  | PiBackupFailureTimeout => 153 | PiConfigurationFiles => 154 | PiDatabaseRevision => 155 | PiDirectReading => 156
  | PiLastRestoreTime => 157 | PiMaintenanceRequired => 158 | PiMemberOf => 159 | PiMode => 160
  | PiOperationExpected => 161 | PiSetting => 162 | PiSilenced => 163 | PiTrackingValue => 164 | PiZoneMembers => 165
  | PiLifeSafetyAlarmValues => 166 | PiMaxSegmentsAccepted => 167 | PiProfileName => 168
  | PiAutoSlaveDiscovery => 169 | PiManualSlaveAddressBinding => 170 | PiSlaveAddressBinding => 171
  | PiSlaveProxyEnable => 172 | PiLastNotifyRecord => 173 | PiScheduleDefault => 174 | PiAcceptedModes => 175
  | PiAdjustValue => 176 | PiCount => 177 | PiCountBeforeChange => 178 | PiCountChangeTime => 179
  | PiCovPeriod => 180 | PiInputReference => 181 | PiLimitMonitoringInterval => 182 | PiLoggingObject => 183
  | PiLoggingRecord => 184 | PiPrescale => 185 | PiPulseRate => 186 | PiScale => 187 | PiScaleFactor => 188
  | PiUpdateTime => 189 | PiValueBeforeChange => 190 | PiValueSet => 191 | PiValueChangeTime => 192
  end.

Definition PropertyId_from_u32 (value : Z) : option PropertyId :=
  match value with
  | 75 => Some PiObjectIdentifier | 77 => Some PiObjectName | 79 => Some PiObjectType | 85 => Some PiPresentValue
  | 28 => Some PiDescription | 111 => Some PiStatusFlags | 36 => Some PiEventState | 103 => Some PiReliability
  | 81 => Some PiOutOfService | 117 => Some PiUnits | 69 => Some PiMinPresValue | 65 => Some PiMaxPresValue
  | 106 => Some PiResolution | 22 => Some PiCovIncrement | 17 => Some PiNotificationClass | 45 => Some PiHighLimit
  | 59 => Some PiLowLimit | 25 => Some PiDeadband | 52 => Some PiLimitEnable | 35 => Some PiEventEnable
  | 72 => Some PiNotifyType | 130 => Some PiEventTimeStamps | 87 => Some PiPriorityArray
  | 104 => Some PiRelinquishDefault | 74 => Some PiNumberOfStates | 110 => Some PiStateText | 84 => Some PiPolarity
  | 4 => Some PiActiveText | 46 => Some PiInactiveText | 112 => Some PiSystemStatus | 121 => Some PiVendorName
  | 120 => Some PiVendorIdentifier | 70 => Some PiModelName | 44 => Some PiFirmwareRevision
  | 12 => Some PiApplicationSoftwareVersion | 98 => Some PiProtocolVersion | 139 => Some PiProtocolRevision
  | 97 => Some PiProtocolServicesSupported | 96 => Some PiProtocolObjectTypesSupported | 76 => Some PiObjectList
  | 62 => Some PiMaxApduLengthAccepted | 107 => Some PiSegmentationSupported | 11 => Some PiApduTimeout
  | 73 => Some PiNumberOfApduRetries | 155 => Some PiDatabaseRevision | 152 => Some PiActiveCovSubscriptions
  | 0 => Some PiAckedTransitions | 1 => Some PiAckRequired | 6 => Some PiAlarmValue | 7 => Some PiAlarmValues
  | 37 => Some PiEventType | 83 => Some PiEventParameters | 113 => Some PiTimeDelay | 41 => Some PiFileAccessMethod
  | 42 => Some PiFileSize | 43 => Some PiFileType | 71 => Some PiModificationDate | 99 => Some PiReadOnly
  | 123 => Some PiWeeklySchedule | 124 => Some PiAttemptedSamples | 125 => Some PiAverageValue
  | 126 => Some PiBufferSize | 127 => Some PiClientCovIncrement | 128 => Some PiCovResubscriptionInterval
  | 131 => Some PiLogBuffer | 132 => Some PiLogDeviceObjectProperty | 133 => Some PiEnable
  | 134 => Some PiLogInterval | 135 => Some PiMaximumValue | 136 => Some PiMinimumValue
  | 137 => Some PiNotificationThreshold | 138 => Some PiPreviousNotifyRecord | 140 => Some PiRecordsSinceNotification
  | 141 => Some PiRecordCount | 142 => Some PiStartTime | 143 => Some PiStopTime | 144 => Some PiStopWhenFull
  | 145 => Some PiTotalRecordCount | 146 => Some PiValidSamples | 147 => Some PiWindowInterval
  | 148 => Some PiWindowSamples | 149 => Some PiMaximumValueTimestamp | 150 => Some PiMinimumValueTimestamp
  | 151 => Some PiVarianceValue
  | _ => None
  end.

Definition PropertyId_all : list PropertyId :=
  [PiAckedTransitions; PiAckRequired; PiAction; PiActionText; PiActiveText; PiActiveVtSessions; PiAlarmValue;
   PiAlarmValues; PiAll; PiAllWritesSuccessful; PiApduSegmentTimeout; PiApduTimeout; PiApplicationSoftwareVersion;
   PiArchive; PiBias; PiChangeOfStateCount; PiChangeOfStateTime; PiNotificationClass; PiControlledVariableReference;
   PiControlledVariableUnits; PiControlledVariableValue; PiCovIncrement; PiDateList; PiDaylightSavingsStatus;
   PiDeadband; PiDerivativeConstant; PiDerivativeConstantUnits; PiDescription; PiDescriptionOfHalt;
   PiDeviceAddressBinding; PiDeviceType; PiEffectivePeriod; PiElapsedActiveTime; PiErrorLimit; PiEventEnable;
   PiEventState; PiEventType; PiExceptionSchedule; PiFaultValues; PiFeedbackValue; PiFileAccessMethod; PiFileSize;
   PiFileType; PiFirmwareRevision; PiHighLimit; PiInactiveText; PiInProcess; PiInstanceOf; PiIntegralConstant;
   PiIntegralConstantUnits; PiLimitEnable; PiListOfGroupMembers; PiListOfObjectPropertyReferences; PiLocalDate;
   PiLocalTime; PiLocation; PiLowLimit; PiManipulatedVariableReference; PiMaximumOutput; PiMaxApduLengthAccepted;
   PiMaxInfoFrames; PiMaxMaster; PiMaxPresValue; PiMinimumOffTime; PiMinimumOnTime; PiMinimumOutput; PiMinPresValue;
   PiModelName; PiModificationDate; PiNotifyType; PiNumberOfApduRetries; PiNumberOfStates; PiObjectIdentifier;
   PiObjectList; PiObjectName; PiObjectPropertyReference; PiObjectType; PiOptional; PiOutOfService; PiOutputUnits;
   PiEventParameters; PiPolarity; PiPresentValue; PiPriority; PiPriorityArray; PiPriorityForWriting;
   PiProcessIdentifier; PiProgramChange; PiProgramLocation; PiProgramState; PiProportionalConstant;
   PiProportionalConstantUnits; PiProtocolObjectTypesSupported; PiProtocolServicesSupported; PiProtocolVersion;
   PiReadOnly; PiReasonForHalt; PiRecipient; PiRecipientList; PiReliability; PiRelinquishDefault; PiRequired;
   PiResolution; PiSegmentationSupported; PiSetpoint; PiSetpointReference; PiStateText; PiStatusFlags;
   PiSystemStatus; PiTimeDelay; PiTimeOfActiveTimeReset; PiTimeOfStateCountReset; PiTimeSynchronizationRecipients;
   PiUnits; PiUpdateInterval; PiUtcOffset; PiVendorIdentifier; PiVendorName; PiVtClassesSupported; PiWeeklySchedule;
   PiAttemptedSamples; PiAverageValue; PiBufferSize; PiClientCovIncrement; PiCovResubscriptionInterval;
   PiEventTimeStamps; PiLogBuffer; PiLogDeviceObjectProperty; PiEnable; PiLogInterval; PiMaximumValue;
   PiMinimumValue; PiNotificationThreshold; PiPreviousNotifyRecord; PiProtocolRevision; PiRecordsSinceNotification;
   PiRecordCount; PiStartTime; PiStopTime; PiStopWhenFull; PiTotalRecordCount; PiValidSamples; PiWindowInterval;
   PiWindowSamples; PiMaximumValueTimestamp; PiMinimumValueTimestamp; PiVarianceValue; PiActiveCovSubscriptions;
   PiBackupFailureTimeout; PiConfigurationFiles; PiDatabaseRevision; PiDirectReading; PiLastRestoreTime;
   PiMaintenanceRequired; PiMemberOf; PiMode; PiOperationExpected; PiSetting; PiSilenced; PiTrackingValue;
   PiZoneMembers; PiLifeSafetyAlarmValues; PiMaxSegmentsAccepted; PiProfileName; PiAutoSlaveDiscovery;
   PiManualSlaveAddressBinding; PiSlaveAddressBinding; PiSlaveProxyEnable; PiLastNotifyRecord; PiScheduleDefault;
   PiAcceptedModes; PiAdjustValue; PiCount; PiCountBeforeChange; PiCountChangeTime; PiCovPeriod; PiInputReference;
   PiLimitMonitoringInterval; PiLoggingObject; PiLoggingRecord; PiPrescale; PiPulseRate; PiScale; PiScaleFactor;
   PiUpdateTime; PiValueBeforeChange; PiValueSet; PiValueChangeTime].

Lemma PropertyId_all_find x : find (fun y => PropertyId_as_u32 y =? PropertyId_as_u32 x) PropertyId_all = Some x.
Proof. by destruct x. Qed.

#[global] Instance PropertyId_inj : Inj (=) (=) PropertyId_as_u32.
Proof.
  intros x y H. enough (Some x = Some y) by congruence.
  by rewrite <- (PropertyId_all_find x), <- (PropertyId_all_find y), H.
Qed.
#[global] Instance PropertyId_eq_dec : EqDecision PropertyId.
Proof. refine (fun x y => cast_if (decide (PropertyId_as_u32 x = PropertyId_as_u32 y))); [by apply (inj PropertyId_as_u32)|congruence]. Defined.
#[global] Instance PropertyId_countable : Countable PropertyId.
Proof.
  apply (inj_countable PropertyId_as_u32 (fun z => find (fun y => PropertyId_as_u32 y =? z) PropertyId_all)). exact PropertyId_all_find.
Defined.

Definition is_required (p : PropertyId) : bool :=
  match p with PiObjectIdentifier | PiObjectName | PiObjectType => true | _ => false end.
Definition is_read_only (p : PropertyId) : bool :=
  match p with
  | PiObjectIdentifier | PiObjectType | PiObjectList | PiStatusFlags | PiEventState | PiProtocolVersion
  | PiProtocolRevision => true
  | _ => false
  end.

(* ------------------------------------------------------------------ *)
(** * Values *)

Record BACnetDate : Set := { year : Z; month : Z; day : Z; day_of_week : Z }.
Record BACnetTime : Set := { hour : Z; minute : Z; second : Z; hundredths : Z }.

(** Strings are kept as the bytes of their UTF-8 encoding. *)
Inductive BACnetValue : Set :=
| VNull
| VBoolean (v : bool)
| VUnsigned (v : Z)
| VUnsigned64 (v : Z)
| VSigned (v : Z)
| VSigned64 (v : Z)
| VReal (bits : Z)
| VDouble (bits : Z)
| VOctetString (v : list Z)
| VCharacterString (v : list Z)
| VBitString (v : list bool)
| VEnumerated (v : Z)
| VDate (v : BACnetDate)
| VTime (v : BACnetTime)
| VObjectIdentifier (v : ObjectId)
| VArray (v : list BACnetValue)
| VList (v : list BACnetValue).

Definition as_bool (v : BACnetValue) : option bool :=
  match v with VBoolean b => Some b | VEnumerated e => Some (negb (e =? 0)) | _ => None end.
Definition as_unsigned (v : BACnetValue) : option Z :=
  match v with
  | VUnsigned n => Some n | VEnumerated e => Some e | VBoolean b => Some (if b then 1 else 0) | _ => None
  end.
Definition as_real (v : BACnetValue) : option Z :=
  match v with
  | VReal f => Some f | VDouble f => Some (f32_of_f64 f) | VUnsigned n => Some (f32_of_int n)
  | VSigned n => Some (f32_of_int n) | _ => None
  end.
Definition is_null (v : BACnetValue) : bool := match v with VNull => true | _ => false end.

Record StatusFlags : Set := { in_alarm : bool; fault : bool; overridden : bool; sf_out_of_service : bool }.
Definition StatusFlags_to_bits (s : StatusFlags) : list bool :=
  [in_alarm s; fault s; overridden s; sf_out_of_service s].
Definition StatusFlags_from_bits (bits : list bool) : StatusFlags :=
  {| in_alarm := default false (bits !! 0%nat); fault := default false (bits !! 1%nat);
     overridden := default false (bits !! 2%nat); sf_out_of_service := default false (bits !! 3%nat) |}.

Inductive PropertyError : Set :=
| PeNotFound (p : PropertyId)
| PeWriteAccessDenied (p : PropertyId)
| PeInvalidDataType (p : PropertyId)
| PeValueOutOfRange (p : PropertyId)
| PeReadOnly (p : PropertyId)
| PeInvalidArrayIndex (i : Z).

(* ------------------------------------------------------------------ *)
(** * Lemmas *)

Example f32_one : f32_of_int 1 = 0x3F800000. Proof. reflexivity. Qed.
Example f32_rounds : f32_of_int 16777217 = 0x4B800000. Proof. reflexivity. Qed.
Example f32_narrows : f32_of_f64 0x3FB999999999999A = f32_tenth. Proof. reflexivity. Qed.
Example f32_negative : f32_of_int (-3) = 0xC0400000. Proof. reflexivity. Qed.
Example f32_nan_differs : f32_differs_by 0x7FC00000 0 f32_tenth = false. Proof. reflexivity. Qed.

Definition object_id_ok (o : ObjectId) : Prop :=
  ObjectType_from_u16 (ObjectType_as_u16 (object_type o)) = Some (object_type o) ∧ 0 <= instance o <= 0x3FFFFF.

Lemma ObjectType_range t : 0 <= ObjectType_as_u16 t < 1024.
Proof. by destruct t. Qed.

Lemma land_22 x : Z.land x 0x3FFFFF = x mod 4194304.
Proof. exact (land_mask x 22 ltac:(lia)). Qed.

Lemma ObjectId_encode_arith o : ObjectId_encode o = ObjectType_as_u16 (object_type o) * 4194304 + instance o mod 4194304.
Proof.
  unfold ObjectId_encode. rewrite land_22. rewrite lor_shiftl_add; [done|lia|].
  change (2 ^ 22) with 4194304. apply Z.mod_pos_bound. lia.
Qed.

Lemma ObjectId_encode_range o : is_u32 (ObjectId_encode o).
Proof. rewrite ObjectId_encode_arith. pose proof (ObjectType_range (object_type o)). int_lia. Qed.

Lemma ObjectId_roundtrip o : object_id_ok o → ObjectId_decode (ObjectId_encode o) = Some o.
Proof.
  intros [Ht Hi]. unfold ObjectId_decode. rewrite land_22, shiftr_div, ObjectId_encode_arith by lia.
  change (2 ^ 22) with 4194304.
  replace ((_ * 4194304 + _) / 4194304) with (ObjectType_as_u16 (object_type o)) by int_lia.
  replace ((_ * 4194304 + _) mod 4194304) with (instance o) by int_lia.
  rewrite Ht. cbn. by destruct o.
Qed.
