(* ===== verification/BacnetApdu.v ===== *)
(** BACnet APDUs: their types and error codes ([mabi-bacnet/src/apdu/types.rs]) and the tagged
    encoding of data with its decoder ([apdu/encoding.rs]). *)

From S2P Require Import Prelude BacnetValue.

(* ------------------------------------------------------------------ *)
(** * APDU types, services, errors *)

Inductive ApduType : Set :=
| AtConfirmedRequest | AtUnconfirmedRequest | AtSimpleAck | AtComplexAck | AtSegmentAck | AtError | AtReject
| AtAbort.

Definition ApduType_as_u8 (x : ApduType) : Z :=
  match x with
  | AtConfirmedRequest => 0 | AtUnconfirmedRequest => 1 | AtSimpleAck => 2 | AtComplexAck => 3 | AtSegmentAck => 4
  | AtError => 5 | AtReject => 6 | AtAbort => 7
  end.

Definition ApduType_from_nibble (value : Z) : option ApduType :=
  match value with
  | 0 => Some AtConfirmedRequest | 1 => Some AtUnconfirmedRequest | 2 => Some AtSimpleAck | 3 => Some AtComplexAck
  | 4 => Some AtSegmentAck | 5 => Some AtError | 6 => Some AtReject | 7 => Some AtAbort
  | _ => None
  end.

Inductive ConfirmedService : Set :=
| CsAcknowledgeAlarm | CsConfirmedCovNotification | CsConfirmedEventNotification | CsGetAlarmSummary
| CsGetEnrollmentSummary | CsSubscribeCov | CsAtomicReadFile | CsAtomicWriteFile | CsAddListElement
| CsRemoveListElement | CsCreateObject | CsDeleteObject | CsReadProperty | CsReadPropertyConditional
| CsReadPropertyMultiple | CsWriteProperty | CsWritePropertyMultiple | CsDeviceCommunicationControl
| CsConfirmedPrivateTransfer | CsConfirmedTextMessage | CsReinitializeDevice | CsVtOpen | CsVtClose | CsVtData
| CsAuthenticate | CsRequestKey | CsReadRange | CsLifeSafetyOperation | CsSubscribeCovProperty
| CsGetEventInformation | CsSubscribeCovPropertyMultiple | CsConfirmedCovNotificationMultiple.

Definition ConfirmedService_as_u8 (x : ConfirmedService) : Z :=
  match x with
  | CsAcknowledgeAlarm => 0 | CsConfirmedCovNotification => 1 | CsConfirmedEventNotification => 2
  | CsGetAlarmSummary => 3 | CsGetEnrollmentSummary => 4 | CsSubscribeCov => 5 | CsAtomicReadFile => 6
  | CsAtomicWriteFile => 7 | CsAddListElement => 8 | CsRemoveListElement => 9 | CsCreateObject => 10
  | CsDeleteObject => 11 | CsReadProperty => 12 | CsReadPropertyConditional => 13 | CsReadPropertyMultiple => 14
  | CsWriteProperty => 15 | CsWritePropertyMultiple => 16 | CsDeviceCommunicationControl => 17
  | CsConfirmedPrivateTransfer => 18 | CsConfirmedTextMessage => 19 | CsReinitializeDevice => 20 | CsVtOpen => 21
  | CsVtClose => 22 | CsVtData => 23 | CsAuthenticate => 24 | CsRequestKey => 25 | CsReadRange => 26
  | CsLifeSafetyOperation => 27 | CsSubscribeCovProperty => 28 | CsGetEventInformation => 29
  | CsSubscribeCovPropertyMultiple => 30 | CsConfirmedCovNotificationMultiple => 31
  end.

Definition ConfirmedService_from_u8 (value : Z) : option ConfirmedService :=
  match value with
  | 0 => Some CsAcknowledgeAlarm | 1 => Some CsConfirmedCovNotification | 2 => Some CsConfirmedEventNotification
  | 3 => Some CsGetAlarmSummary | 4 => Some CsGetEnrollmentSummary | 5 => Some CsSubscribeCov
  | 6 => Some CsAtomicReadFile | 7 => Some CsAtomicWriteFile | 8 => Some CsAddListElement
  | 9 => Some CsRemoveListElement | 10 => Some CsCreateObject | 11 => Some CsDeleteObject | 12 => Some CsReadProperty
  | 13 => Some CsReadPropertyConditional | 14 => Some CsReadPropertyMultiple | 15 => Some CsWriteProperty
  | 16 => Some CsWritePropertyMultiple | 17 => Some CsDeviceCommunicationControl
  | 18 => Some CsConfirmedPrivateTransfer | 19 => Some CsConfirmedTextMessage | 20 => Some CsReinitializeDevice
  | 21 => Some CsVtOpen | 22 => Some CsVtClose | 23 => Some CsVtData | 24 => Some CsAuthenticate
  | 25 => Some CsRequestKey | 26 => Some CsReadRange | 27 => Some CsLifeSafetyOperation
  | 28 => Some CsSubscribeCovProperty | 29 => Some CsGetEventInformation
  | _ => None
  end.

Inductive UnconfirmedService : Set :=
| UsIAm | UsIHave | UsUnconfirmedCovNotification | UsUnconfirmedEventNotification | UsUnconfirmedPrivateTransfer
| UsUnconfirmedTextMessage | UsTimeSynchronization | UsWhoHas | UsWhoIs | UsUtcTimeSynchronization | UsWriteGroup
| UsUnconfirmedCovNotificationMultiple.

Definition UnconfirmedService_as_u8 (x : UnconfirmedService) : Z :=
  match x with
  | UsIAm => 0 | UsIHave => 1 | UsUnconfirmedCovNotification => 2 | UsUnconfirmedEventNotification => 3
  | UsUnconfirmedPrivateTransfer => 4 | UsUnconfirmedTextMessage => 5 | UsTimeSynchronization => 6 | UsWhoHas => 7
  | UsWhoIs => 8 | UsUtcTimeSynchronization => 9 | UsWriteGroup => 10 | UsUnconfirmedCovNotificationMultiple => 11
  end.

Definition UnconfirmedService_from_u8 (value : Z) : option UnconfirmedService :=
  match value with
  | 0 => Some UsIAm | 1 => Some UsIHave | 2 => Some UsUnconfirmedCovNotification
  | 3 => Some UsUnconfirmedEventNotification | 4 => Some UsUnconfirmedPrivateTransfer
  | 5 => Some UsUnconfirmedTextMessage | 6 => Some UsTimeSynchronization | 7 => Some UsWhoHas | 8 => Some UsWhoIs
  | 9 => Some UsUtcTimeSynchronization | 10 => Some UsWriteGroup | 11 => Some UsUnconfirmedCovNotificationMultiple
  | _ => None
  end.

Inductive ErrorClass : Set :=
| EclDevice | EclObject | EclProperty | EclResources | EclSecurity | EclServices | EclVt | EclCommunication.

Definition ErrorClass_as_u32 (x : ErrorClass) : Z :=
  match x with
  | EclDevice => 0 | EclObject => 1 | EclProperty => 2 | EclResources => 3 | EclSecurity => 4 | EclServices => 5
  | EclVt => 6 | EclCommunication => 7
  end.

Definition ErrorClass_from_u32 (value : Z) : option ErrorClass :=
  match value with
  | 0 => Some EclDevice | 1 => Some EclObject | 2 => Some EclProperty | 3 => Some EclResources
  | 4 => Some EclSecurity | 5 => Some EclServices | 6 => Some EclVt | 7 => Some EclCommunication
  | _ => None
  end.

Inductive ErrorCode : Set :=
| EcOther | EcAuthenticationFailed | EcConfigurationInProgress | EcDeviceBusy | EcDynamicCreationNotSupported
| EcFileAccessDenied | EcInconsistentParameters | EcInconsistentSelectionCriterion | EcInvalidDataType
| EcInvalidFileAccessMethod | EcInvalidFileStartPosition | EcInvalidParameterDataType | EcInvalidTimeStamp
| EcMissingRequiredParameter | EcNoObjectsOfSpecifiedType | EcNoSpaceForObject | EcNoSpaceToAddListElement
| EcNoSpaceToWriteProperty | EcNoVtSessionsAvailable | EcPropertyIsNotAList | EcObjectDeletionNotPermitted
| EcObjectIdentifierAlreadyExists | EcOperationalProblem | EcPasswordFailure | EcReadAccessDenied
| EcServiceRequestDenied | EcTimeout | EcUnknownObject | EcUnknownProperty | EcUnknownVtClass | EcUnknownVtSession
| EcUnsupportedObjectType | EcValueOutOfRange | EcVtSessionAlreadyClosed | EcVtSessionTerminationFailure
| EcWriteAccessDenied | EcCharacterSetNotSupported | EcInvalidArrayIndex | EcCovSubscriptionFailed | EcNotCovProperty
| EcOptionalFunctionalityNotSupported | EcInvalidConfigurationData | EcDatatypeNotSupported | EcDuplicateName
| EcDuplicateObjectId | EcPropertyIsNotAnArray | EcAbortBufferOverflow | EcAbortInvalidApduInThisState
| EcAbortPreemptedByHigherPriorityTask | EcAbortSegmentationNotSupported | EcAbortProprietary | EcAbortOther
| EcInvalidTag | EcNetworkDown | EcRejectBufferOverflow | EcRejectInconsistentParameters
| EcRejectInvalidParameterDataType | EcRejectInvalidTag | EcRejectMissingRequiredParameter
| EcRejectParameterOutOfRange | EcRejectTooManyArguments | EcRejectUndefinedEnumeration | EcRejectUnrecognizedService
| EcRejectProprietary | EcRejectOther | EcUnknownDevice | EcUnknownRoute | EcValueNotInitialized
| EcInvalidEventState | EcNoAlarmConfigured | EcLogBufferFull | EcLoggedValuePurged | EcNoPropertySpecified
| EcNotConfiguredForTriggeredLogging | EcUnknownSubscription | EcParameterOutOfRange | EcListElementNotFound | EcBusy
| EcCommunicationDisabled.

Definition ErrorCode_as_u32 (x : ErrorCode) : Z :=
  match x with
  | EcOther => 0 | EcAuthenticationFailed => 1 | EcConfigurationInProgress => 2 | EcDeviceBusy => 3
  | EcDynamicCreationNotSupported => 4 | EcFileAccessDenied => 5 | EcInconsistentParameters => 7
  | EcInconsistentSelectionCriterion => 8 | EcInvalidDataType => 9 | EcInvalidFileAccessMethod => 10
  | EcInvalidFileStartPosition => 11 | EcInvalidParameterDataType => 13 | EcInvalidTimeStamp => 14
  | EcMissingRequiredParameter => 16 | EcNoObjectsOfSpecifiedType => 17 | EcNoSpaceForObject => 18
  | EcNoSpaceToAddListElement => 19 | EcNoSpaceToWriteProperty => 20 | EcNoVtSessionsAvailable => 21
  | EcPropertyIsNotAList => 22 | EcObjectDeletionNotPermitted => 23 | EcObjectIdentifierAlreadyExists => 24
  | EcOperationalProblem => 25 | EcPasswordFailure => 26 | EcReadAccessDenied => 27 | EcServiceRequestDenied => 29
  | EcTimeout => 30 | EcUnknownObject => 31 | EcUnknownProperty => 32 | EcUnknownVtClass => 34
  | EcUnknownVtSession => 35 | EcUnsupportedObjectType => 36 | EcValueOutOfRange => 37
  | EcVtSessionAlreadyClosed => 38 | EcVtSessionTerminationFailure => 39 | EcWriteAccessDenied => 40
  | EcCharacterSetNotSupported => 41 | EcInvalidArrayIndex => 42 | EcCovSubscriptionFailed => 43
  | EcNotCovProperty => 44 | EcOptionalFunctionalityNotSupported => 45 | EcInvalidConfigurationData => 46
  | EcDatatypeNotSupported => 47 | EcDuplicateName => 48 | EcDuplicateObjectId => 49 | EcPropertyIsNotAnArray => 50
  | EcAbortBufferOverflow => 51 | EcAbortInvalidApduInThisState => 52 | EcAbortPreemptedByHigherPriorityTask => 53
  | EcAbortSegmentationNotSupported => 54 | EcAbortProprietary => 55 | EcAbortOther => 56 | EcInvalidTag => 57
  | EcNetworkDown => 58 | EcRejectBufferOverflow => 59 | EcRejectInconsistentParameters => 60
  | EcRejectInvalidParameterDataType => 61 | EcRejectInvalidTag => 62 | EcRejectMissingRequiredParameter => 63
  | EcRejectParameterOutOfRange => 64 | EcRejectTooManyArguments => 65 | EcRejectUndefinedEnumeration => 66
  | EcRejectUnrecognizedService => 67 | EcRejectProprietary => 68 | EcRejectOther => 69 | EcUnknownDevice => 70
  | EcUnknownRoute => 71 | EcValueNotInitialized => 72 | EcInvalidEventState => 73 | EcNoAlarmConfigured => 74
  | EcLogBufferFull => 75 | EcLoggedValuePurged => 76 | EcNoPropertySpecified => 77
  | EcNotConfiguredForTriggeredLogging => 78 | EcUnknownSubscription => 79 | EcParameterOutOfRange => 80
  | EcListElementNotFound => 81 | EcBusy => 82 | EcCommunicationDisabled => 83
  end.

Definition ErrorCode_from_u32 (value : Z) : option ErrorCode :=
  match value with
  | 0 => Some EcOther | 9 => Some EcInvalidDataType | 27 => Some EcReadAccessDenied | 31 => Some EcUnknownObject
  | 32 => Some EcUnknownProperty | 37 => Some EcValueOutOfRange | 40 => Some EcWriteAccessDenied
  | 42 => Some EcInvalidArrayIndex | 43 => Some EcCovSubscriptionFailed | 44 => Some EcNotCovProperty
  | 47 => Some EcDatatypeNotSupported | 70 => Some EcUnknownDevice | 80 => Some EcParameterOutOfRange
  | _ => None
  end.

Inductive RejectReason : Set :=
| RrOther | RrBufferOverflow | RrInconsistentParameters | RrInvalidParameterDataType | RrInvalidTag
| RrMissingRequiredParameter | RrParameterOutOfRange | RrTooManyArguments | RrUndefinedEnumeration
| RrUnrecognizedService.

Definition RejectReason_as_u8 (x : RejectReason) : Z :=
  match x with
  | RrOther => 0 | RrBufferOverflow => 1 | RrInconsistentParameters => 2 | RrInvalidParameterDataType => 3
  | RrInvalidTag => 4 | RrMissingRequiredParameter => 5 | RrParameterOutOfRange => 6 | RrTooManyArguments => 7
  | RrUndefinedEnumeration => 8 | RrUnrecognizedService => 9
  end.

Definition RejectReason_from_u8 (value : Z) : option RejectReason :=
  match value with
  | 0 => Some RrOther | 1 => Some RrBufferOverflow | 2 => Some RrInconsistentParameters
  | 3 => Some RrInvalidParameterDataType | 4 => Some RrInvalidTag | 5 => Some RrMissingRequiredParameter
  | 6 => Some RrParameterOutOfRange | 7 => Some RrTooManyArguments | 8 => Some RrUndefinedEnumeration
  | 9 => Some RrUnrecognizedService
  | _ => None
  end.

Inductive AbortReason : Set :=
| ArOther | ArBufferOverflow | ArInvalidApduInThisState | ArPreemptedByHigherPriorityTask
| ArSegmentationNotSupported | ArSecurityError | ArInsufficientSecurity | ArWindowSizeOutOfRange
| ArApplicationExceededReplyTime | ArOutOfResources | ArTsmTimeout | ArApduTooLong.

Definition AbortReason_as_u8 (x : AbortReason) : Z :=
  match x with
  | ArOther => 0 | ArBufferOverflow => 1 | ArInvalidApduInThisState => 2 | ArPreemptedByHigherPriorityTask => 3
  | ArSegmentationNotSupported => 4 | ArSecurityError => 5 | ArInsufficientSecurity => 6
  | ArWindowSizeOutOfRange => 7 | ArApplicationExceededReplyTime => 8 | ArOutOfResources => 9 | ArTsmTimeout => 10
  | ArApduTooLong => 11
  end.

Definition AbortReason_from_u8 (value : Z) : option AbortReason :=
  match value with
  | 0 => Some ArOther | 1 => Some ArBufferOverflow | 2 => Some ArInvalidApduInThisState
  | 3 => Some ArPreemptedByHigherPriorityTask | 4 => Some ArSegmentationNotSupported | 5 => Some ArSecurityError
  | 6 => Some ArInsufficientSecurity | 7 => Some ArWindowSizeOutOfRange | 8 => Some ArApplicationExceededReplyTime
  | 9 => Some ArOutOfResources | 10 => Some ArTsmTimeout | 11 => Some ArApduTooLong
  | _ => None
  end.

Inductive ApduError : Set :=
| ApTooShort | ApInvalidType (t : Z) | ApUnknownService (s : Z) | ApInvalidTag (t : Z)
| ApInvalidObjectId | ApInvalidUtf8 | ApEncodeError.

(* ------------------------------------------------------------------ *)
(** * Encoder *)

Inductive TagNumber : Set :=
| TnNull | TnBoolean | TnUnsignedInt | TnSignedInt | TnReal | TnDouble | TnOctetString | TnCharacterString
| TnBitString | TnEnumerated | TnDate | TnTime | TnObjectIdentifier.
Definition TagNumber_as_u8 (t : TagNumber) : Z :=
  match t with
  | TnNull => 0 | TnBoolean => 1 | TnUnsignedInt => 2 | TnSignedInt => 3 | TnReal => 4 | TnDouble => 5
  | TnOctetString => 6 | TnCharacterString => 7 | TnBitString => 8 | TnEnumerated => 9 | TnDate => 10
  | TnTime => 11 | TnObjectIdentifier => 12
  end.

(** [x as u32], [put_u32], [put_u64]. *)
Definition as_u32 (x : Z) : Z := x mod 4294967296.
Definition u64_to_be (x : Z) : list Z := u32_to_be (x / 4294967296) ++ u32_to_be x.

(** The length octets that follow a tag octet with the length mark 5. *)
Definition extended_length (len : Z) : list Z :=
  if len <? 254 then [as_u8 len]
  else if len <? 65536 then 254 :: u16_to_be (as_u16 len)
  else 255 :: u32_to_be (as_u32 len).

(** What an encoder method appends to the buffer. *)
Definition encode_application_tag (tag : TagNumber) (len : Z) : list Z :=
  let tag_byte := as_u8 (Z.shiftl (TagNumber_as_u8 tag) 4) in
  if len <? 5 then [Z.lor tag_byte (as_u8 len)]
  else Z.lor tag_byte 5 :: extended_length len.

Definition encode_context_tag (tag_number len : Z) : list Z :=
  if tag_number <? 15 then
    if len <? 5 then [Z.lor (Z.lor (as_u8 (Z.shiftl tag_number 4)) 0x08) (as_u8 len)]
    else Z.lor (as_u8 (Z.shiftl tag_number 4)) 0x0D :: extended_length len
  else
    if len <? 5 then [Z.lor 0xF8 (as_u8 len); tag_number]
    else 0xFD :: tag_number :: extended_length len.

Definition encode_opening_tag (tag_number : Z) : list Z :=
  if tag_number <? 15 then [Z.lor (as_u8 (Z.shiftl tag_number 4)) 0x0E] else [0xFE; tag_number].
Definition encode_closing_tag (tag_number : Z) : list Z :=
  if tag_number <? 15 then [Z.lor (as_u8 (Z.shiftl tag_number 4)) 0x0F] else [0xFF; tag_number].

Definition encode_null : list Z := encode_application_tag TnNull 0.
Definition encode_boolean (v : bool) : list Z :=
  [Z.lor (as_u8 (Z.shiftl (TagNumber_as_u8 TnBoolean) 4)) (if v then 1 else 0)].

(** The shortest big-endian form of a [u32]. *)
Definition unsigned_bytes (value : Z) : list Z :=
  if value <? 0x100 then [as_u8 value]
  else if value <? 0x10000 then [as_u8 (Z.shiftr value 8); as_u8 value]
  else if value <? 0x1000000 then [as_u8 (Z.shiftr value 16); as_u8 (Z.shiftr value 8); as_u8 value]
  else [as_u8 (Z.shiftr value 24); as_u8 (Z.shiftr value 16); as_u8 (Z.shiftr value 8); as_u8 value].

Definition encode_unsigned (value : Z) : list Z :=
  encode_application_tag TnUnsignedInt (zlen (unsigned_bytes value)) ++ unsigned_bytes value.
Definition encode_context_unsigned (tag_number value : Z) : list Z :=
  encode_context_tag tag_number (zlen (unsigned_bytes value)) ++ unsigned_bytes value.
Definition encode_enumerated (value : Z) : list Z :=
  encode_application_tag TnEnumerated (zlen (unsigned_bytes value)) ++ unsigned_bytes value.
(** No three-byte form here. *)
Definition context_enumerated_bytes (value : Z) : list Z :=
  if value <? 0x100 then [as_u8 value]
  else if value <? 0x10000 then [as_u8 (Z.shiftr value 8); as_u8 value]
  else [as_u8 (Z.shiftr value 24); as_u8 (Z.shiftr value 16); as_u8 (Z.shiftr value 8); as_u8 value].
Definition encode_context_enumerated (tag_number value : Z) : list Z :=
  encode_context_tag tag_number (zlen (context_enumerated_bytes value)) ++ context_enumerated_bytes value.

Definition signed_length (value : Z) : nat :=
  if (-128 <=? value) && (value <? 128) then 1
  else if (-32768 <=? value) && (value <? 32768) then 2
  else if (-8388608 <=? value) && (value <? 8388608) then 3 else 4.
Definition encode_signed (value : Z) : list Z :=
  encode_application_tag TnSignedInt (Z.of_nat (signed_length value))
  ++ drop (4 - signed_length value) (u32_to_be value).

Definition encode_real (bits : Z) : list Z := encode_application_tag TnReal 4 ++ u32_to_be bits.
Definition encode_context_real (tag_number bits : Z) : list Z := encode_context_tag tag_number 4 ++ u32_to_be bits.
Definition encode_double (bits : Z) : list Z := encode_application_tag TnDouble 8 ++ u64_to_be bits.
Definition encode_octet_string (v : list Z) : list Z := encode_application_tag TnOctetString (zlen v) ++ v.
Definition encode_character_string (v : list Z) : list Z :=
  encode_application_tag TnCharacterString (zlen v + 1) ++ 0 :: v.
Definition encode_context_character_string (tag_number : Z) (v : list Z) : list Z :=
  encode_context_tag tag_number (zlen v + 1) ++ 0 :: v.

(** The loop over [bits.iter().enumerate()], with the index and the byte under construction. *)
Fixpoint bit_bytes (i : nat) (byte : Z) (bits : list bool) : list Z :=
  match bits with
  | [] => []
  | bit :: rest =>
      let byte := if bit then Z.lor byte (Z.shiftl 1 (7 - Z.of_nat i mod 8)) else byte in
      if ((i + 1) mod 8 =? 0)%nat || match rest with [] => true | _ => false end
      then byte :: bit_bytes (i + 1) 0 rest
      else bit_bytes (i + 1) byte rest
  end.
Definition bit_string_content (bits : list bool) : list Z :=
  as_u8 ((8 - zlen bits mod 8) mod 8) :: bit_bytes 0 0 bits.
Definition encode_bit_string (bits : list bool) : list Z :=
  encode_application_tag TnBitString ((zlen bits + 7) / 8 + 1) ++ bit_string_content bits.
Definition encode_context_bit_string (tag_number : Z) (bits : list bool) : list Z :=
  encode_context_tag tag_number ((zlen bits + 7) / 8 + 1) ++ bit_string_content bits.

Definition encode_object_identifier (o : ObjectId) : list Z :=
  encode_application_tag TnObjectIdentifier 4 ++ u32_to_be (ObjectId_encode o).
Definition encode_context_object_identifier (tag_number : Z) (o : ObjectId) : list Z :=
  encode_context_tag tag_number 4 ++ u32_to_be (ObjectId_encode o).

(** 64-bit integers, dates and times are left out without an error. *)
Fixpoint encode_value (v : BACnetValue) : list Z :=
  match v with
  | VNull => encode_null
  | VBoolean b => encode_boolean b
  | VUnsigned n => encode_unsigned n
  | VSigned n => encode_signed n
  | VReal f => encode_real f
  | VDouble f => encode_double f
  | VOctetString s => encode_octet_string s
  | VCharacterString s => encode_character_string s
  | VBitString b => encode_bit_string b
  | VEnumerated n => encode_enumerated n
  | VObjectIdentifier o => encode_object_identifier o
  | VArray l => flat_map encode_value l
  | VList l => flat_map encode_value l
  | VUnsigned64 _ | VSigned64 _ | VDate _ | VTime _ => []
  end.

Definition encode_context_value (tag_number : Z) (v : BACnetValue) : list Z :=
  encode_opening_tag tag_number ++ encode_value v ++ encode_closing_tag tag_number.

Definition encode_error_pdu (invoke_id service_choice error_class error_code : Z) : list Z :=
  [0x50; invoke_id; service_choice] ++ encode_enumerated error_class ++ encode_enumerated error_code.
Definition encode_reject_pdu (invoke_id reject_reason : Z) : list Z := [0x60; invoke_id; reject_reason].
Definition encode_abort_pdu (invoke_id abort_reason : Z) (sent_by_server : bool) : list Z :=
  [Z.lor 0x70 (if sent_by_server then 0x01 else 0x00); invoke_id; abort_reason].
Definition encode_segment_ack_pdu (invoke_id sequence_number actual_window_size : Z) (sent_by_server negative_ack : bool)
  : list Z :=
  let pdu_type := if negative_ack then Z.lor 0x40 0x02 else 0x40 in
  let pdu_type := if sent_by_server then Z.lor pdu_type 0x01 else pdu_type in
  [pdu_type; invoke_id; sequence_number; actual_window_size].
Definition encode_segmented_complex_ack_header (invoke_id sequence_number proposed_window_size : Z) (more : bool)
    (service_choice : Z) : list Z :=
  let pdu_type := Z.lor 0x30 0x08 in
  let pdu_type := if more then Z.lor pdu_type 0x04 else pdu_type in
  [pdu_type; invoke_id; sequence_number; proposed_window_size; service_choice].

(* ------------------------------------------------------------------ *)
(** * Decoder *)

(** A decoder is what is left of its input. *)
Definition Dec (A : Type) : Type := stM (list Z) ApduError A.

Definition dec_is_empty : Dec bool := fun d => (Ok (match d with [] => true | _ => false end), d).
Definition peek : Dec (option Z) := fun d => (Ok (head d), d).

Definition read_u8 : Dec Z := fun d =>
  match d with [] => (Err ApTooShort, d) | b :: d' => (Ok b, d') end.
Definition read_bytes (len : Z) : Dec (list Z) := fun d =>
  if zlen d <? len then (Err ApTooShort, d) else (Ok (take (Z.to_nat len) d), drop (Z.to_nat len) d).

Definition skip (len : Z) : Dec unit := fun d =>
  if zlen d <? len then (Err ApTooShort, d) else (Ok tt, drop (Z.to_nat len) d).

Definition u32_from_be (b3 b2 b1 b0 : Z) : Z := ((b3 * 256 + b2) * 256 + b1) * 256 + b0.
(** [copy_from_slice] into an array panics when the lengths differ. *)
Definition be16 {E} (l : list Z) : outcome E Z :=
  match l with [hi; lo] => Ok (u16_from_be hi lo) | _ => Panic end.
Definition be32 {E} (l : list Z) : outcome E Z :=
  match l with [b3; b2; b1; b0] => Ok (u32_from_be b3 b2 b1 b0) | _ => Panic end.
Definition be64 {E} (l : list Z) : outcome E Z :=
  match l with
  | [b7; b6; b5; b4; b3; b2; b1; b0] => Ok (u32_from_be b7 b6 b5 b4 * 4294967296 + u32_from_be b3 b2 b1 b0)
  | _ => Panic
  end.

(** The length octets after the length mark 5. *)
Definition decode_extended_length : Dec Z :=
  do? len_byte := read_u8 in
  if len_byte =? 254 then do? b := read_bytes 2 in st_lift (be16 b)
  else if len_byte =? 255 then do? b := read_bytes 4 in st_lift (be32 b)
  else st_ret len_byte.

(** Tag number, whether it is a context tag, and length; opening and closing tags have length 0. *)
Definition decode_tag_info : Dec (Z * bool * Z) :=
  do? tag_byte := read_u8 in
  let tag_number := Z.land (Z.shiftr tag_byte 4) 0x0F in
  let is_context := negb (Z.land tag_byte 0x08 =? 0) in
  let lvt := Z.land tag_byte 0x07 in
  do? tag_number := (if tag_number =? 0x0F then read_u8 else st_ret tag_number) in
  if is_context && (lvt =? 6) then st_ret (tag_number, true, 0)
  else if is_context && (lvt =? 7) then st_ret (tag_number, true, 0)
  else
    do? len := (if lvt =? 5 then decode_extended_length else st_ret lvt) in
    st_ret (tag_number, is_context, len).

Definition is_opening_tag (tag_number : Z) : Dec bool := fun d =>
  (Ok match head d with
      | Some byte => if tag_number <? 15 then byte =? Z.lor (as_u8 (Z.shiftl tag_number 4)) 0x0E else byte =? 0xFE
      | None => false
      end, d).
Definition is_closing_tag (tag_number : Z) : Dec bool := fun d =>
  (Ok match head d with
      | Some byte => if tag_number <? 15 then byte =? Z.lor (as_u8 (Z.shiftl tag_number 4)) 0x0F else byte =? 0xFF
      | None => false
      end, d).

(** Octets beyond the fourth push the first ones out. *)
Definition decode_unsigned_raw (bytes : list Z) : Z :=
  foldl (fun value b => Z.lor (as_u32 (Z.shiftl value 8)) b) 0 bytes.
Definition decode_unsigned (len : Z) : Dec Z :=
  do? bytes := read_bytes len in st_ret (decode_unsigned_raw bytes).

Definition to_i32 (x : Z) : Z := (x + 2147483648) mod 4294967296 - 2147483648.
(** An operation on [i32] with this exact result. *)
Definition i32_op `{BuildProfile} {E} (exact : Z) : outcome E Z :=
  if (-2147483648 <=? exact) && (exact <? 2147483648) then Ok exact
  else if overflow_checks then Panic else Ok (to_i32 exact).
(** [bytes[0]] panics on an empty slice. *)
Definition decode_signed (len : Z) : Dec Z :=
  do? bytes := read_bytes len in
  do? first := st_lift (index bytes 0) in
  let start := if negb (Z.land first 0x80 =? 0) then -1 else 0 in
  st_ret (foldl (fun value b => Z.lor (to_i32 (Z.shiftl value 8)) b) start bytes).

Definition decode_real : Dec Z := do? bytes := read_bytes 4 in st_lift (be32 bytes).
Definition decode_double : Dec Z := do? bytes := read_bytes 8 in st_lift (be64 bytes).
Definition decode_object_identifier : Dec ObjectId :=
  do? bytes := read_bytes 4 in
  do? value := st_lift (be32 bytes) in
  st_lift (ok_or (ObjectId_decode value) ApInvalidObjectId).

(** Well-formed UTF-8, as [String::from_utf8] accepts it. *)
Definition continuation (b : Z) : bool := (0x80 <=? b) && (b <=? 0xBF).
Fixpoint utf8_valid (l : list Z) : bool :=
  match l with
  | [] => true
  | b0 :: l =>
      if b0 <=? 0x7F then utf8_valid l
      else match l with
        | [] => false
        | b1 :: l =>
            if (0xC2 <=? b0) && (b0 <=? 0xDF) then continuation b1 && utf8_valid l
            else match l with
              | [] => false
              | b2 :: l =>
                  if (0xE0 <=? b0) && (b0 <=? 0xEF) then
                    (if b0 =? 0xE0 then (0xA0 <=? b1) && (b1 <=? 0xBF)
                     else if b0 =? 0xED then (0x80 <=? b1) && (b1 <=? 0x9F) else continuation b1)
                    && continuation b2 && utf8_valid l
                  else match l with
                    | [] => false
                    | b3 :: l =>
                        (0xF0 <=? b0) && (b0 <=? 0xF4)
                        && (if b0 =? 0xF0 then (0x90 <=? b1) && (b1 <=? 0xBF)
                            else if b0 =? 0xF4 then (0x80 <=? b1) && (b1 <=? 0x8F) else continuation b1)
                        && continuation b2 && continuation b3 && utf8_valid l
                    end
              end
        end
  end.

Definition decode_character_string (len : Z) : Dec (list Z) :=
  if len =? 0 then st_ret []
  else
    do? _ := read_u8 in
    do? bytes := read_bytes (len - 1) in
    if utf8_valid bytes then st_ret bytes else st_err ApInvalidUtf8.

(** The bits of a byte from the most significant on. *)
Definition byte_bits (n : nat) (byte : Z) : list bool := (fun j => Z.testbit byte (7 - Z.of_nat j)) <$> seq 0 n.
Fixpoint bits_of_bytes (unused : Z) (bytes : list Z) : list bool :=
  match bytes with
  | [] => []
  | [b] => byte_bits (Z.to_nat (8 - unused)) b
  | b :: rest => byte_bits 8 b ++ bits_of_bytes unused rest
  end.

(** [bytes.len() * 8 - unused_bits] underflows when there are fewer bits than unused ones: a build
    with overflow checks panics there, the others ask for a vector of that capacity, which panics too.
    [8 - unused_bits] underflows for more than eight unused bits: a panic, or a loop that no vector can
    hold the results of. *)
Definition decode_bit_string (len : Z) : Dec (list bool) :=
  if len =? 0 then st_ret []
  else
    do? unused_bits := read_u8 in
    do? bytes := read_bytes (len - 1) in
    if zlen bytes * 8 <? unused_bits then st_lift Panic
    else if 8 <? unused_bits then st_lift Panic
    else st_ret (bits_of_bytes unused_bits bytes).

(* ------------------------------------------------------------------ *)
(** * Lemmas *)

#[global] Arguments u32_to_be : simpl never.
#[global] Arguments u32_from_be : simpl never.
#[global] Arguments as_u32 : simpl never.

Lemma read_bytes_app n (l rest : list Z) : zlen l = n → read_bytes n (l ++ rest) = (Ok l, rest).
Proof.
  intros <-. unfold read_bytes. rewrite (proj2 (Z.ltb_ge _ _)) by len_lia.
  unfold zlen. by rewrite Nat2Z.id, take_app_length, drop_app_length.
Qed.

Lemma be16_roundtrip {E} x : is_u16 x → be16 (E:=E) (u16_to_be x) = Ok x.
Proof. intros. unfold be16, u16_to_be. by rewrite u16_be_roundtrip. Qed.
Lemma be32_roundtrip {E} x : is_u32 x → be32 (E:=E) (u32_to_be x) = Ok x.
Proof. intros. unfold be32, u32_to_be, u32_from_be. f_equal. int_lia. Qed.
Lemma be64_roundtrip {E} x : 0 <= x < 18446744073709551616 → be64 (E:=E) (u64_to_be x) = Ok x.
Proof. intros. unfold be64, u64_to_be, u32_to_be, u32_from_be. cbn [app]. f_equal. Z.div_mod_to_equations. lia. Qed.

Lemma extended_length_roundtrip len rest :
  0 <= len < 4294967296 → decode_extended_length (extended_length len ++ rest) = (Ok len, rest).
Proof.
  intros Hl. unfold decode_extended_length, extended_length, st_bind at 1.
  destruct (Z.ltb_spec len 254).
  { cbn [app read_u8]. rewrite as_u8_id by int_lia. by rewrite !(proj2 (Z.eqb_neq _ _)) by lia. }
  destruct (Z.ltb_spec len 65536); cbn [app read_u8].
  - change (254 =? 254) with true. cbv iota. unfold st_bind. rewrite read_bytes_app by done.
    rewrite as_u16_id by int_lia. unfold st_lift. by rewrite be16_roundtrip by int_lia.
  - change (255 =? 254) with false. change (255 =? 255) with true. cbv iota. unfold st_bind. rewrite read_bytes_app by done.
    unfold as_u32. rewrite Z.mod_small by lia. unfold st_lift. by rewrite be32_roundtrip by int_lia.
Qed.

(** A tag octet that announces extended length octets. *)
Lemma decode_tag_extended b tn ctx len rest :
  Z.land (Z.shiftr b 4) 0x0F = tn → tn <> 15 → negb (Z.land b 0x08 =? 0) = ctx → Z.land b 0x07 = 5 → 0 <= len < 4294967296 →
  decode_tag_info (b :: extended_length len ++ rest) = (Ok (tn, ctx, len), rest).
Proof.
  intros H1 Hne H2 H3 Hl. unfold decode_tag_info, st_bind at 1. cbn [read_u8]. rewrite H1, H2, H3.
  rewrite (proj2 (Z.eqb_neq tn 15)) by done. unfold st_bind at 1, st_ret at 1.
  change (5 =? 6) with false. change (5 =? 7) with false. change (5 =? 5) with true. rewrite andb_false_r.
  unfold st_bind. by rewrite extended_length_roundtrip.
Qed.

Lemma small_length len : 0 <= len < 5 → len = 0 ∨ len = 1 ∨ len = 2 ∨ len = 3 ∨ len = 4.
Proof. lia. Qed.

Lemma application_tag_roundtrip t len rest :
  0 <= len < 4294967296 →
  decode_tag_info (encode_application_tag t len ++ rest) = (Ok (TagNumber_as_u8 t, false, len), rest).
Proof.
  intros Hl. unfold encode_application_tag. destruct (Z.ltb_spec len 5).
  - destruct (small_length len ltac:(lia)) as [->|[->|[->|[->| ->]]]]; by destruct t.
  - cbn [app]. apply decode_tag_extended; [by destruct t..|done].
Qed.

Lemma context_tag_roundtrip tn len rest :
  0 <= tn < 15 → 0 <= len < 4294967296 →
  decode_tag_info (encode_context_tag tn len ++ rest) = (Ok (tn, true, len), rest).
Proof.
  intros Ht Hl. unfold encode_context_tag. rewrite (proj2 (Z.ltb_lt tn 15)) by lia.
  assert (tn = 0 ∨ tn = 1 ∨ tn = 2 ∨ tn = 3 ∨ tn = 4 ∨ tn = 5 ∨ tn = 6 ∨ tn = 7 ∨ tn = 8 ∨ tn = 9 ∨ tn = 10 ∨ tn = 11 ∨
    tn = 12 ∨ tn = 13 ∨ tn = 14) as Htn by lia.
  destruct (Z.ltb_spec len 5).
  - destruct (small_length len ltac:(lia)) as [->|[->|[->|[->| ->]]]]; by decompose [or] Htn; subst tn.
  - cbn [app]. apply decode_tag_extended; [by decompose [or] Htn; subst tn..|done].
Qed.

(** ** Integers *)

Lemma foldl_be_range l acc :
  0 <= acc → bytes_ok l → acc * 256 ^ zlen l + (256 ^ zlen l - 1) < 4294967296 →
  foldl (fun value b => Z.lor (as_u32 (Z.shiftl value 8)) b) acc l = foldl (fun value b => value * 256 + b) acc l.
Proof.
  revert acc. induction l as [|b l IH]; intros acc Ha Hl Hr; [done|]. apply Forall_cons in Hl as [Hb Hl].
  assert (256 ^ zlen (b :: l) = 256 * 256 ^ zlen l) as Hp.
  { rewrite zlen_cons, Z.pow_add_r by (pose proof (zlen_nonneg l); lia). done. }
  pose proof (Z.pow_pos_nonneg 256 (zlen l) ltac:(lia) (zlen_nonneg l)). rewrite Hp in Hr. unfold is_u8 in Hb.
  cbn [foldl]. assert (Z.lor (as_u32 (Z.shiftl acc 8)) b = acc * 256 + b) as ->.
  { unfold as_u32. rewrite Z.mod_small by (rewrite Z.shiftl_mul_pow2 by lia; nia). by rewrite lor_shiftl_add by lia. }
  apply IH; [lia|done|nia].
Qed.

Lemma unsigned_bytes_ok value : bytes_ok (unsigned_bytes value) ∧ 1 <= zlen (unsigned_bytes value) <= 4.
Proof.
  unfold unsigned_bytes. repeat case_match; (split; [repeat constructor; apply as_u8_range|]); vm_compute; split; discriminate.
Qed.

Lemma decode_unsigned_bytes l :
  bytes_ok l → zlen l <= 4 → decode_unsigned_raw l = foldl (fun value b => value * 256 + b) 0 l.
Proof.
  intros Hl Hlen. apply foldl_be_range; [lia|done|]. pose proof (zlen_nonneg l).
  pose proof (Z.pow_le_mono_r 256 (zlen l) 4 ltac:(lia) Hlen). lia.
Qed.

Lemma unsigned_bytes_roundtrip value : is_u32 value → decode_unsigned_raw (unsigned_bytes value) = value.
Proof.
  intros Hv. destruct (unsigned_bytes_ok value) as [Hok Hlen]. rewrite decode_unsigned_bytes by (done || lia).
  unfold unsigned_bytes. rewrite !shiftr_div by lia. repeat case_match; bool_to_prop; cbn [foldl]; int_lia.
Qed.

Lemma context_enumerated_roundtrip value :
  is_u32 value → decode_unsigned_raw (context_enumerated_bytes value) = value ∧ 1 <= zlen (context_enumerated_bytes value) <= 4.
Proof.
  intros Hv. assert (bytes_ok (context_enumerated_bytes value) ∧ 1 <= zlen (context_enumerated_bytes value) <= 4) as [Hok Hlen].
  { unfold context_enumerated_bytes. repeat case_match; (split; [repeat constructor; apply as_u8_range|]); vm_compute; split; discriminate. }
  split; [|done]. rewrite decode_unsigned_bytes by (done || lia).
  unfold context_enumerated_bytes. rewrite !shiftr_div by lia. repeat case_match; bool_to_prop; cbn [foldl]; int_lia.
Qed.

Lemma u8_forall (P : Z → bool) : forallb P (zrange 0 256) = true → ∀ b, is_u8 b → P b = true.
Proof.
  intros HP b Hb. rewrite forallb_forall in HP. apply HP, list_elem_of_In, elem_of_zrange. unfold is_u8 in Hb. lia.
Qed.

Lemma sign_bit b : is_u8 b → (Z.land b 0x80 =? 0) = (b <? 128).
Proof.
  intros Hb. apply (u8_forall (fun b => Bool.eqb (Z.land b 0x80 =? 0) (b <? 128))) in Hb; [by apply eqb_prop|].
  vm_compute. reflexivity.
Qed.

Lemma signed_step x b : is_u8 b → Z.lor (to_i32 (Z.shiftl x 8)) b = ((x + 8388608) mod 16777216 - 8388608) * 256 + b.
Proof.
  intros Hb. assert (to_i32 (Z.shiftl x 8) = Z.shiftl ((x + 8388608) mod 16777216 - 8388608) 8) as ->.
  { rewrite !Z.shiftl_mul_pow2 by lia. unfold to_i32. change (2 ^ 8) with 256. int_lia. }
  by rewrite lor_shiftl_add by (unfold is_u8 in Hb; lia).
Qed.

Definition is_i32 (x : Z) : Prop := -2147483648 <= x < 2147483648.
Lemma i32_op_ok `{BuildProfile} {E} x : is_i32 x → i32_op (E:=E) x = Ok x.
Proof. intros [? ?]. unfold i32_op. by rewrite (proj2 (Z.leb_le _ x)), (proj2 (Z.ltb_lt x _)) by lia. Qed.

Lemma signed_bytes_roundtrip value rest :
  is_i32 value →
  decode_signed (Z.of_nat (signed_length value)) (drop (4 - signed_length value) (u32_to_be value) ++ rest) = (Ok value, rest).
Proof.
  intros Hv. unfold is_i32 in Hv. assert (zlen (drop (4 - signed_length value) (u32_to_be value)) = Z.of_nat (signed_length value)) as Hlen.
  { unfold signed_length. by repeat case_match. }
  unfold decode_signed, st_bind at 1. rewrite read_bytes_app by done.
  unfold signed_length, u32_to_be. repeat case_match; bool_to_prop; cbn [Nat.sub drop app];
    unfold st_bind, st_lift, index, st_ret; cbn [lookup list_lookup foldl];
    rewrite sign_bit by int_lia; rewrite !signed_step by int_lia; do 2 f_equal;
    match goal with |- context [?x <? 128] => destruct (Z.ltb_spec x 128) end; cbn [negb]; Z.div_mod_to_equations; lia.
Qed.

(** ** Bit strings *)

Lemma bit_bytes_shift i byte bits : bit_bytes (i + 8) byte bits = bit_bytes i byte bits.
Proof.
  revert i byte. induction bits as [|b bits IH]; intros i byte; [done|]. cbn [bit_bytes].
  replace (i + 8 + 1)%nat with (i + 1 + 8)%nat by lia. rewrite !IH.
  replace ((i + 1 + 8) mod 8)%nat with ((i + 1) mod 8)%nat.
  2: { rewrite <- (Nat.Div0.add_mod_idemp_r (i + 1) 8). by rewrite Nat.add_0_r. }
  replace (Z.of_nat (i + 8) mod 8) with (Z.of_nat i mod 8); [done|].
  rewrite Nat2Z.inj_add. change (Z.of_nat 8) with (1 * 8). by rewrite Z.mod_add.
Qed.

(** All the bit lists of a length. *)
Fixpoint bit_lists (n : nat) : list (list bool) :=
  match n with O => [[]] | S n => ((cons true) <$> bit_lists n) ++ ((cons false) <$> bit_lists n) end.

Lemma elem_of_bit_lists (bits : list bool) : bits ∈ bit_lists (length bits).
Proof.
  induction bits as [|b bits IH]; [by apply list_elem_of_singleton|]. cbn [length bit_lists].
  rewrite elem_of_app, !list_elem_of_fmap. destruct b; [left|right]; eauto.
Qed.

Lemma bit_lists_forall (P : list bool → bool) n : forallb P (bit_lists n) = true → ∀ bits, length bits = n → P bits = true.
Proof. intros HP bits <-. rewrite forallb_forall in HP. apply HP, list_elem_of_In, elem_of_bit_lists. Qed.

(** One byte holds up to eight bits. *)
Lemma bits_short (bits : list bool) :
  bits ≠ [] → (length bits <= 8)%nat →
  ∃ b, bit_bytes 0 0 bits = [b] ∧ byte_bits (length bits) b = bits.
Proof.
  intros Hne Hlen.
  assert (forallb (fun bits => bool_decide (byte_bits (length bits) (default 0 (head (bit_bytes 0 0 bits))) = bits)
    && (length (bit_bytes 0 0 bits) =? 1)%nat) (flat_map bit_lists (seq 1 8)) = true) as Hall by (vm_compute; reflexivity).
  rewrite forallb_forall in Hall. specialize (Hall bits). rewrite <- list_elem_of_In in Hall.
  destruct (andb_prop _ _ (Hall ltac:(apply list_elem_of_In, in_flat_map; exists (length bits); split;
    [apply in_seq; destruct bits; [done|simpl in *; lia]|apply list_elem_of_In, elem_of_bit_lists]))) as [H1 H2].
  apply bool_decide_eq_true in H1. apply Nat.eqb_eq in H2.
  destruct (bit_bytes 0 0 bits) as [|b [|? ?]]; [done| |done]. by exists b.
Qed.

(** A full byte, then the rest. *)
Lemma bits_long b0 b1 b2 b3 b4 b5 b6 b7 bits :
  ∃ b, bit_bytes 0 0 (b0 :: b1 :: b2 :: b3 :: b4 :: b5 :: b6 :: b7 :: bits) = b :: bit_bytes 0 0 bits ∧
       byte_bits 8 b = [b0; b1; b2; b3; b4; b5; b6; b7].
Proof.
  eexists. split.
  - cbn [bit_bytes]. change (0 + 1 + 1 + 1 + 1 + 1 + 1 + 1 + 1)%nat with (0 + 8)%nat. rewrite bit_bytes_shift. reflexivity.
  - destruct b0, b1, b2, b3, b4, b5, b6, b7; reflexivity.
Qed.

Lemma bits_of_bytes_roundtrip (bits : list bool) :
  bits_of_bytes ((8 - zlen bits mod 8) mod 8) (bit_bytes 0 0 bits) = bits ∧
  zlen (bit_bytes 0 0 bits) = (zlen bits + 7) / 8.
Proof.
  remember (length bits) as n eqn:Hn. revert bits Hn.
  induction n as [n IH] using lt_wf_ind. intros bits Hn.
  destruct (decide (n <= 8)%nat) as [Hle|Hgt].
  - destruct bits as [|b bits]; [done|]. destruct (bits_short (b :: bits)) as (x & -> & Hx); [done|lia|].
    assert (1 <= zlen (b :: bits) <= 8) as Hz by (unfold zlen; simpl in *; lia). cbn [bits_of_bytes].
    replace (Z.to_nat (8 - (8 - zlen (b :: bits) mod 8) mod 8)) with (length (b :: bits)).
    2: { unfold zlen in *. Z.div_mod_to_equations. lia. }
    split; [done|]. change (zlen [x]) with 1. Z.div_mod_to_equations. lia.
  - destruct bits as [|b0 [|b1 [|b2 [|b3 [|b4 [|b5 [|b6 [|b7 bits]]]]]]]]; try (simpl in *; lia).
    assert (length bits < n)%nat as Hlt by (simpl in *; lia). destruct (IH _ Hlt bits eq_refl) as [Hr Hlen].
    destruct (bits_long b0 b1 b2 b3 b4 b5 b6 b7 bits) as (x & -> & Hx).
    assert (zlen (b0 :: b1 :: b2 :: b3 :: b4 :: b5 :: b6 :: b7 :: bits) = zlen bits + 8) as ->
      by (unfold zlen; simpl; lia).
    replace ((zlen bits + 8) mod 8) with (zlen bits mod 8) by (Z.div_mod_to_equations; lia).
    destruct (bit_bytes 0 0 bits) as [|y l] eqn:Hy.
    { exfalso. change (zlen []) with 0 in Hlen. unfold zlen in Hlen. simpl in Hn. Z.div_mod_to_equations. lia. }
    change (bits_of_bytes ((8 - zlen bits mod 8) mod 8) (x :: y :: l))
      with (byte_bits 8 x ++ bits_of_bytes ((8 - zlen bits mod 8) mod 8) (y :: l)).
    rewrite Hx, Hr. split; [done|]. rewrite zlen_cons, Hlen. Z.div_mod_to_equations. lia.
Qed.

Lemma bit_string_roundtrip bits rest :
  decode_bit_string ((zlen bits + 7) / 8 + 1) (bit_string_content bits ++ rest) = (Ok bits, rest).
Proof.
  destruct (bits_of_bytes_roundtrip bits) as [Hbits Hlen]. pose proof (zlen_nonneg bits).
  unfold decode_bit_string, bit_string_content. rewrite (proj2 (Z.eqb_neq _ 0)) by (Z.div_mod_to_equations; lia).
  unfold st_bind at 1. cbn [app read_u8]. unfold st_bind. rewrite read_bytes_app by lia.
  rewrite as_u8_id by (unfold is_u8; Z.div_mod_to_equations; lia).
  rewrite Hlen. rewrite (proj2 (Z.ltb_ge _ _)) by (Z.div_mod_to_equations; lia).
  rewrite (proj2 (Z.ltb_ge 8 _)) by (Z.div_mod_to_equations; lia). unfold st_ret. by rewrite Hbits.
Qed.
