(* ===== verification/BacnetObject.v ===== *)
(** The standard BACnet objects ([mabi-bacnet/src/object/standard.rs]): analog, binary and
    multi-state inputs, outputs and values, with their property stores ([object/property.rs]) and
    the object interface with its default methods ([object/traits.rs]).

    A field behind a lock or an atomic is a field of the state; every method takes the object and
    returns it changed.  [f32] values are bit patterns, strings are bytes. *)

From S2P Require Import Prelude BacnetValue.

(** The bytes of a string literal. *)
Definition str (s : string) : list Z := (fun a => Z.of_N (Ascii.N_of_ascii a)) <$> String.list_ascii_of_string s.

(* ------------------------------------------------------------------ *)
(** * What the nine objects share *)

Definition PropertyStore : Type := gmap PropertyId BACnetValue.

(** The eight fields every standard object has; [A] is the type of its present value. *)
Record Point (A : Type) : Type := {
  pt_id : ObjectId;
  pt_name : list Z;
  pt_description : list Z;
  pt_properties : PropertyStore;
  pt_present_value : A;
  pt_out_of_service : bool;
  pt_last_cov_value : A;
  pt_cov_changed : bool
}.
Arguments pt_id {A} _.
Arguments pt_name {A} _.
Arguments pt_description {A} _.
Arguments pt_properties {A} _.
Arguments pt_present_value {A} _.
Arguments pt_out_of_service {A} _.
Arguments pt_last_cov_value {A} _.
Arguments pt_cov_changed {A} _.

Section Points.
Context {A : Type}.
Implicit Types (p : Point A).

Definition point (id : ObjectId) (name : list Z) (properties : PropertyStore) (v : A) : Point A :=
  {| pt_id := id; pt_name := name; pt_description := []; pt_properties := properties; pt_present_value := v;
     pt_out_of_service := false; pt_last_cov_value := v; pt_cov_changed := false |}.
Definition with_description (desc : list Z) p : Point A :=
  {| pt_id := pt_id p; pt_name := pt_name p; pt_description := desc; pt_properties := pt_properties p;
     pt_present_value := pt_present_value p; pt_out_of_service := pt_out_of_service p;
     pt_last_cov_value := pt_last_cov_value p; pt_cov_changed := pt_cov_changed p |}.
Definition set_property (k : PropertyId) (v : BACnetValue) p : Point A :=
  {| pt_id := pt_id p; pt_name := pt_name p; pt_description := pt_description p;
     pt_properties := <[k := v]> (pt_properties p); pt_present_value := pt_present_value p;
     pt_out_of_service := pt_out_of_service p; pt_last_cov_value := pt_last_cov_value p;
     pt_cov_changed := pt_cov_changed p |}.
(** Stores a present value and raises the change flag when [cov] says so. *)
Definition set_value_cov (v : A) (cov : bool) p : Point A :=
  {| pt_id := pt_id p; pt_name := pt_name p; pt_description := pt_description p; pt_properties := pt_properties p;
     pt_present_value := v; pt_out_of_service := pt_out_of_service p; pt_last_cov_value := pt_last_cov_value p;
     pt_cov_changed := cov || pt_cov_changed p |}.
Definition set_initial_value (v : A) p : Point A :=
  {| pt_id := pt_id p; pt_name := pt_name p; pt_description := pt_description p; pt_properties := pt_properties p;
     pt_present_value := v; pt_out_of_service := pt_out_of_service p; pt_last_cov_value := v;
     pt_cov_changed := pt_cov_changed p |}.
Definition set_out_of_service (b : bool) p : Point A :=
  {| pt_id := pt_id p; pt_name := pt_name p; pt_description := pt_description p; pt_properties := pt_properties p;
     pt_present_value := pt_present_value p; pt_out_of_service := b; pt_last_cov_value := pt_last_cov_value p;
     pt_cov_changed := pt_cov_changed p |}.
Definition point_reset_cov p : Point A :=
  {| pt_id := pt_id p; pt_name := pt_name p; pt_description := pt_description p; pt_properties := pt_properties p;
     pt_present_value := pt_present_value p; pt_out_of_service := pt_out_of_service p;
     pt_last_cov_value := pt_present_value p; pt_cov_changed := false |}.

Definition description p : option (list Z) :=
  match pt_description p with [] => None | d => Some d end.
Definition status_flags p : StatusFlags :=
  {| in_alarm := false; fault := false; overridden := false; sf_out_of_service := pt_out_of_service p |}.
Definition read_stored p (k : PropertyId) : outcome PropertyError BACnetValue :=
  ok_or (pt_properties p !! k) (PeNotFound k).
(** The out-of-service branch of every [write_property]. *)
Definition write_out_of_service (k : PropertyId) (v : BACnetValue) p : outcome PropertyError unit * Point A :=
  match as_bool v with
  | Some b => (Ok tt, set_out_of_service b p)
  | None => (Err (PeInvalidDataType k), p)
  end.
End Points.

(** The value a priority array commands: its first entry, else the relinquish default. *)
Definition commanded {A} (pa : list (option A)) (relinquish_default : A) : A :=
  default relinquish_default (head (omap id pa)).

Definition no_commands {A} : list (option A) := replicate 16 None.

Definition pa_values {A} (f : A → BACnetValue) (pa : list (option A)) : list BACnetValue :=
  (fun o => match o with Some v => f v | None => VNull end) <$> pa.

Definition binary (b : bool) : BACnetValue := VEnumerated (if b then 1 else 0).

(** The value a binary object accepts for its present value. *)
Definition binary_value (v : BACnetValue) : option bool :=
  match v with VBoolean b => Some b | VEnumerated e => Some (negb (e =? 0)) | _ => None end.

(* ------------------------------------------------------------------ *)
(** * Analog objects *)

Record AnalogInput : Type := { ai_point : Point Z; ai_cov_increment : Z }.

Definition AnalogInput_new `{BuildProfile} {E} (inst : Z) (name : list Z) : outcome E AnalogInput :=
  let? id := ObjectId_new OtAnalogInput inst in
  Ok {| ai_point := point id name
          (<[PiReliability := VEnumerated 0]> (<[PiEventState := VEnumerated 0]> {[PiUnits := VEnumerated 95]})) f32_zero;
        ai_cov_increment := f32_tenth |}.
Definition AnalogInput_with_cov_increment (increment : Z) (o : AnalogInput) : AnalogInput :=
  {| ai_point := ai_point o; ai_cov_increment := increment |}.
Definition AnalogInput_with_units (units : Z) (o : AnalogInput) : AnalogInput :=
  {| ai_point := set_property PiUnits (VEnumerated units) (ai_point o); ai_cov_increment := ai_cov_increment o |}.
Definition AnalogInput_set_value (value : Z) (o : AnalogInput) : AnalogInput :=
  {| ai_point := set_value_cov value (f32_differs_by value (pt_last_cov_value (ai_point o)) (ai_cov_increment o)) (ai_point o);
     ai_cov_increment := ai_cov_increment o |}.

Definition AnalogInput_read_property (o : AnalogInput) (k : PropertyId) : outcome PropertyError BACnetValue :=
  let p := ai_point o in
  match k with
  | PiObjectIdentifier => Ok (VObjectIdentifier (pt_id p))
  | PiObjectName => Ok (VCharacterString (pt_name p))
  | PiObjectType => Ok (VEnumerated (ObjectType_as_u16 OtAnalogInput))
  | PiDescription => Ok (VCharacterString (pt_description p))
  | PiPresentValue => Ok (VReal (pt_present_value p))
  | PiStatusFlags => Ok (VBitString (StatusFlags_to_bits (status_flags p)))
  | PiOutOfService => Ok (VBoolean (pt_out_of_service p))
  | PiCovIncrement => Ok (VReal (ai_cov_increment o))
  | _ => read_stored p k
  end.

Definition AnalogInput_write_property (k : PropertyId) (v : BACnetValue) : stM AnalogInput PropertyError unit := fun o =>
  match k with
  | PiObjectIdentifier | PiObjectType => (Err (PeReadOnly k), o)
  | PiOutOfService =>
      let '(r, p) := write_out_of_service k v (ai_point o) in
      (r, {| ai_point := p; ai_cov_increment := ai_cov_increment o |})
  | PiCovIncrement =>
      match as_real v with
      | Some x => (Ok tt, {| ai_point := ai_point o; ai_cov_increment := x |})
      | None => (Err (PeInvalidDataType k), o)
      end
  | _ => (Ok tt, {| ai_point := set_property k v (ai_point o); ai_cov_increment := ai_cov_increment o |})
  end.

Definition AnalogInput_list_properties : list PropertyId :=
  [PiObjectIdentifier; PiObjectName; PiObjectType; PiDescription; PiPresentValue; PiStatusFlags; PiEventState;
   PiReliability; PiOutOfService; PiUnits; PiCovIncrement].
Definition AnalogInput_set_cov_increment (increment : Z) (o : AnalogInput) : AnalogInput :=
  {| ai_point := ai_point o; ai_cov_increment := increment |}.
Definition AnalogInput_reset_cov (o : AnalogInput) : AnalogInput :=
  {| ai_point := point_reset_cov (ai_point o); ai_cov_increment := ai_cov_increment o |}.

Record AnalogOutput : Type := {
  ao_point : Point Z;
  ao_relinquish_default : Z;
  ao_priority_array : list (option Z);
  ao_cov_increment : Z
}.

Definition AnalogOutput_new `{BuildProfile} {E} (inst : Z) (name : list Z) : outcome E AnalogOutput :=
  let? id := ObjectId_new OtAnalogOutput inst in
  Ok {| ao_point := point id name (<[PiEventState := VEnumerated 0]> {[PiUnits := VEnumerated 95]}) f32_zero;
        ao_relinquish_default := f32_zero; ao_priority_array := no_commands; ao_cov_increment := f32_tenth |}.

Definition ao_set_point (p : Point Z) (o : AnalogOutput) : AnalogOutput :=
  {| ao_point := p; ao_relinquish_default := ao_relinquish_default o; ao_priority_array := ao_priority_array o;
     ao_cov_increment := ao_cov_increment o |}.
Definition ao_set_array (pa : list (option Z)) (o : AnalogOutput) : AnalogOutput :=
  {| ao_point := ao_point o; ao_relinquish_default := ao_relinquish_default o; ao_priority_array := pa;
     ao_cov_increment := ao_cov_increment o |}.
Definition ao_set_default (v : Z) (o : AnalogOutput) : AnalogOutput :=
  {| ao_point := ao_point o; ao_relinquish_default := v; ao_priority_array := ao_priority_array o;
     ao_cov_increment := ao_cov_increment o |}.

Definition AnalogOutput_update_present_value (o : AnalogOutput) : AnalogOutput :=
  let new_value := commanded (ao_priority_array o) (ao_relinquish_default o) in
  let cov := f32_differs_by (pt_present_value (ao_point o)) new_value (ao_cov_increment o) in
  ao_set_point (set_value_cov new_value cov (ao_point o)) o.

Definition AnalogOutput_with_units (units : Z) (o : AnalogOutput) : AnalogOutput :=
  ao_set_point (set_property PiUnits (VEnumerated units) (ao_point o)) o.
Definition AnalogOutput_with_relinquish_default (v : Z) (o : AnalogOutput) : AnalogOutput :=
  AnalogOutput_update_present_value (ao_set_default v o).

Definition AnalogOutput_read_property (o : AnalogOutput) (k : PropertyId) : outcome PropertyError BACnetValue :=
  let p := ao_point o in
  match k with
  | PiObjectIdentifier => Ok (VObjectIdentifier (pt_id p))
  | PiObjectName => Ok (VCharacterString (pt_name p))
  | PiObjectType => Ok (VEnumerated (ObjectType_as_u16 OtAnalogOutput))
  | PiDescription => Ok (VCharacterString (pt_description p))
  | PiPresentValue => Ok (VReal (pt_present_value p))
  | PiStatusFlags => Ok (VBitString (StatusFlags_to_bits (status_flags p)))
  | PiOutOfService => Ok (VBoolean (pt_out_of_service p))
  | PiRelinquishDefault => Ok (VReal (ao_relinquish_default o))
  | PiPriorityArray => Ok (VArray (pa_values VReal (ao_priority_array o)))
  | PiCovIncrement => Ok (VReal (ao_cov_increment o))
  | _ => read_stored p k
  end.

(** [pa[i] = x] followed by [update_present_value]; the index panics outside the array. *)
Definition ao_command (i : nat) (x : option Z) : stM AnalogOutput PropertyError unit := fun o =>
  match index_set (ao_priority_array o) i x with
  | Ok pa => (Ok tt, AnalogOutput_update_present_value (ao_set_array pa o))
  | Err e => (Err e, o)
  | Panic => (Panic, o)
  end.

Definition AnalogOutput_write_property (k : PropertyId) (v : BACnetValue) : stM AnalogOutput PropertyError unit := fun o =>
  match k with
  | PiObjectIdentifier | PiObjectType => (Err (PeReadOnly k), o)
  | PiPresentValue =>
      match as_real v with Some x => ao_command 15 (Some x) o | None => (Err (PeInvalidDataType k), o) end
  | PiOutOfService => let '(r, p) := write_out_of_service k v (ao_point o) in (r, ao_set_point p o)
  | PiRelinquishDefault =>
      match as_real v with
      | Some x => (Ok tt, AnalogOutput_update_present_value (ao_set_default x o))
      | None => (Err (PeInvalidDataType k), o)
      end
  | _ => (Ok tt, ao_set_point (set_property k v (ao_point o)) o)
  end.

Definition AnalogOutput_list_properties : list PropertyId :=
  [PiObjectIdentifier; PiObjectName; PiObjectType; PiDescription; PiPresentValue; PiStatusFlags; PiEventState;
   PiOutOfService; PiUnits; PiPriorityArray; PiRelinquishDefault; PiCovIncrement].

Definition set_present_value_with_priority (v : BACnetValue) (priority : Z) : stM AnalogOutput PropertyError unit := fun o =>
  if (priority <? 1) || (16 <? priority) then (Err (PeValueOutOfRange PiPresentValue), o)
  else match as_real v with
  | Some x => ao_command (Z.to_nat (priority - 1)) (Some x) o
  | None =>
      if is_null v then ao_command (Z.to_nat (priority - 1)) None o else (Err (PeInvalidDataType PiPresentValue), o)
  end.
Definition relinquish (priority : Z) : stM AnalogOutput PropertyError unit := fun o =>
  if (priority <? 1) || (16 <? priority) then (Err (PeValueOutOfRange PiPriorityArray), o)
  else ao_command (Z.to_nat (priority - 1)) None o.
Definition AnalogOutput_reset_cov (o : AnalogOutput) : AnalogOutput := ao_set_point (point_reset_cov (ao_point o)) o.

Record AnalogValue : Type := { av_point : Point Z; av_cov_increment : Z }.

Definition AnalogValue_new `{BuildProfile} {E} (inst : Z) (name : list Z) : outcome E AnalogValue :=
  let? id := ObjectId_new OtAnalogValue inst in
  Ok {| av_point := point id name (<[PiEventState := VEnumerated 0]> {[PiUnits := VEnumerated 95]}) f32_zero;
        av_cov_increment := f32_tenth |}.
Definition AnalogValue_with_units (units : Z) (o : AnalogValue) : AnalogValue :=
  {| av_point := set_property PiUnits (VEnumerated units) (av_point o); av_cov_increment := av_cov_increment o |}.
Definition AnalogValue_with_initial_value (v : Z) (o : AnalogValue) : AnalogValue :=
  {| av_point := set_initial_value v (av_point o); av_cov_increment := av_cov_increment o |}.

Definition AnalogValue_read_property (o : AnalogValue) (k : PropertyId) : outcome PropertyError BACnetValue :=
  let p := av_point o in
  match k with
  | PiObjectIdentifier => Ok (VObjectIdentifier (pt_id p))
  | PiObjectName => Ok (VCharacterString (pt_name p))
  | PiObjectType => Ok (VEnumerated (ObjectType_as_u16 OtAnalogValue))
  | PiDescription => Ok (VCharacterString (pt_description p))
  | PiPresentValue => Ok (VReal (pt_present_value p))
  | PiStatusFlags => Ok (VBitString (StatusFlags_to_bits (status_flags p)))
  | PiOutOfService => Ok (VBoolean (pt_out_of_service p))
  | PiCovIncrement => Ok (VReal (av_cov_increment o))
  | _ => read_stored p k
  end.

Definition AnalogValue_write_property (k : PropertyId) (v : BACnetValue) : stM AnalogValue PropertyError unit := fun o =>
  let set_point p := {| av_point := p; av_cov_increment := av_cov_increment o |} in
  match k with
  | PiObjectIdentifier | PiObjectType => (Err (PeReadOnly k), o)
  | PiPresentValue =>
      match as_real v with
      | Some x =>
          let old := pt_present_value (av_point o) in
          (Ok tt, set_point (set_value_cov x (f32_differs_by x old (av_cov_increment o)) (av_point o)))
      | None => (Err (PeInvalidDataType k), o)
      end
  | PiOutOfService => let '(r, p) := write_out_of_service k v (av_point o) in (r, set_point p)
  | _ => (Ok tt, set_point (set_property k v (av_point o)))
  end.

Definition AnalogValue_list_properties : list PropertyId :=
  [PiObjectIdentifier; PiObjectName; PiObjectType; PiDescription; PiPresentValue; PiStatusFlags; PiEventState;
   PiOutOfService; PiUnits; PiCovIncrement].
Definition AnalogValue_reset_cov (o : AnalogValue) : AnalogValue :=
  {| av_point := point_reset_cov (av_point o); av_cov_increment := av_cov_increment o |}.

(* ------------------------------------------------------------------ *)
(** * Binary objects *)

Definition binary_texts (active inactive : string) (store : PropertyStore) : PropertyStore :=
  <[PiInactiveText := VCharacterString (str inactive)]> (<[PiActiveText := VCharacterString (str active)]>
    (<[PiEventState := VEnumerated 0]> store)).

Record BinaryInput : Type := { bi_point : Point bool }.

Definition BinaryInput_new `{BuildProfile} {E} (inst : Z) (name : list Z) : outcome E BinaryInput :=
  let? id := ObjectId_new OtBinaryInput inst in
  Ok {| bi_point := point id name (binary_texts "Active" "Inactive" {[PiPolarity := VEnumerated 0]}) false |}.
Definition BinaryInput_set_value (value : bool) (o : BinaryInput) : BinaryInput :=
  {| bi_point := set_value_cov value (negb (Bool.eqb (pt_present_value (bi_point o)) value)) (bi_point o) |}.

Definition BinaryInput_read_property (o : BinaryInput) (k : PropertyId) : outcome PropertyError BACnetValue :=
  let p := bi_point o in
  match k with
  | PiObjectIdentifier => Ok (VObjectIdentifier (pt_id p))
  | PiObjectName => Ok (VCharacterString (pt_name p))
  | PiObjectType => Ok (VEnumerated (ObjectType_as_u16 OtBinaryInput))
  | PiDescription => Ok (VCharacterString (pt_description p))
  | PiPresentValue => Ok (binary (pt_present_value p))
  | PiStatusFlags => Ok (VBitString (StatusFlags_to_bits (status_flags p)))
  | PiOutOfService => Ok (VBoolean (pt_out_of_service p))
  | _ => read_stored p k
  end.

Definition BinaryInput_write_property (k : PropertyId) (v : BACnetValue) : stM BinaryInput PropertyError unit := fun o =>
  match k with
  | PiObjectIdentifier | PiObjectType | PiPresentValue => (Err (PeReadOnly k), o)
  | PiOutOfService => let '(r, p) := write_out_of_service k v (bi_point o) in (r, {| bi_point := p |})
  | _ => (Ok tt, {| bi_point := set_property k v (bi_point o) |})
  end.

Definition BinaryInput_list_properties : list PropertyId :=
  [PiObjectIdentifier; PiObjectName; PiObjectType; PiDescription; PiPresentValue; PiStatusFlags; PiEventState;
   PiOutOfService; PiPolarity; PiActiveText; PiInactiveText].
Definition BinaryInput_reset_cov (o : BinaryInput) : BinaryInput := {| bi_point := point_reset_cov (bi_point o) |}.

Record BinaryOutput : Type := {
  bo_point : Point bool;
  bo_relinquish_default : bool;
  bo_priority_array : list (option bool)
}.

Definition BinaryOutput_new `{BuildProfile} {E} (inst : Z) (name : list Z) : outcome E BinaryOutput :=
  let? id := ObjectId_new OtBinaryOutput inst in
  Ok {| bo_point := point id name (binary_texts "On" "Off" {[PiPolarity := VEnumerated 0]}) false;
        bo_relinquish_default := false; bo_priority_array := no_commands |}.

Definition bo_set_point (p : Point bool) (o : BinaryOutput) : BinaryOutput :=
  {| bo_point := p; bo_relinquish_default := bo_relinquish_default o; bo_priority_array := bo_priority_array o |}.

Definition BinaryOutput_update_present_value (o : BinaryOutput) : BinaryOutput :=
  let new_value := commanded (bo_priority_array o) (bo_relinquish_default o) in
  let old := pt_present_value (bo_point o) in
  bo_set_point (set_value_cov new_value (negb (Bool.eqb old new_value)) (bo_point o)) o.

Definition BinaryOutput_read_property (o : BinaryOutput) (k : PropertyId) : outcome PropertyError BACnetValue :=
  let p := bo_point o in
  match k with
  | PiObjectIdentifier => Ok (VObjectIdentifier (pt_id p))
  | PiObjectName => Ok (VCharacterString (pt_name p))
  | PiObjectType => Ok (VEnumerated (ObjectType_as_u16 OtBinaryOutput))
  | PiDescription => Ok (VCharacterString (pt_description p))
  | PiPresentValue => Ok (binary (pt_present_value p))
  | PiStatusFlags => Ok (VBitString (StatusFlags_to_bits (status_flags p)))
  | PiOutOfService => Ok (VBoolean (pt_out_of_service p))
  | PiRelinquishDefault => Ok (binary (bo_relinquish_default o))
  | PiPriorityArray => Ok (VArray (pa_values binary (bo_priority_array o)))
  | _ => read_stored p k
  end.

Definition BinaryOutput_write_property (k : PropertyId) (v : BACnetValue) : stM BinaryOutput PropertyError unit := fun o =>
  match k with
  | PiObjectIdentifier | PiObjectType => (Err (PeReadOnly k), o)
  | PiPresentValue =>
      match binary_value v with
      | Some b =>
          match index_set (bo_priority_array o) 15 (Some b) with
          | Ok pa =>
              (Ok tt, BinaryOutput_update_present_value {| bo_point := bo_point o;
                        bo_relinquish_default := bo_relinquish_default o; bo_priority_array := pa |})
          | Err e => (Err e, o)
          | Panic => (Panic, o)
          end
      | None => (Err (PeInvalidDataType k), o)
      end
  | PiOutOfService => let '(r, p) := write_out_of_service k v (bo_point o) in (r, bo_set_point p o)
  | _ => (Ok tt, bo_set_point (set_property k v (bo_point o)) o)
  end.

Definition BinaryOutput_list_properties : list PropertyId :=
  [PiObjectIdentifier; PiObjectName; PiObjectType; PiDescription; PiPresentValue; PiStatusFlags; PiEventState;
   PiOutOfService; PiPolarity; PiPriorityArray; PiRelinquishDefault; PiActiveText; PiInactiveText].
Definition BinaryOutput_reset_cov (o : BinaryOutput) : BinaryOutput := bo_set_point (point_reset_cov (bo_point o)) o.

Record BinaryValue : Type := { bv_point : Point bool }.

Definition BinaryValue_new `{BuildProfile} {E} (inst : Z) (name : list Z) : outcome E BinaryValue :=
  let? id := ObjectId_new OtBinaryValue inst in
  Ok {| bv_point := point id name (binary_texts "Active" "Inactive" ∅) false |}.
Definition BinaryValue_with_initial_value (v : bool) (o : BinaryValue) : BinaryValue :=
  {| bv_point := set_initial_value v (bv_point o) |}.

Definition BinaryValue_read_property (o : BinaryValue) (k : PropertyId) : outcome PropertyError BACnetValue :=
  let p := bv_point o in
  match k with
  | PiObjectIdentifier => Ok (VObjectIdentifier (pt_id p))
  | PiObjectName => Ok (VCharacterString (pt_name p))
  | PiObjectType => Ok (VEnumerated (ObjectType_as_u16 OtBinaryValue))
  | PiDescription => Ok (VCharacterString (pt_description p))
  | PiPresentValue => Ok (binary (pt_present_value p))
  | PiStatusFlags => Ok (VBitString (StatusFlags_to_bits (status_flags p)))
  | PiOutOfService => Ok (VBoolean (pt_out_of_service p))
  | _ => read_stored p k
  end.

Definition BinaryValue_write_property (k : PropertyId) (v : BACnetValue) : stM BinaryValue PropertyError unit := fun o =>
  match k with
  | PiObjectIdentifier | PiObjectType => (Err (PeReadOnly k), o)
  | PiPresentValue =>
      match binary_value v with
      | Some b =>
          let old := pt_present_value (bv_point o) in
          (Ok tt, {| bv_point := set_value_cov b (negb (Bool.eqb old b)) (bv_point o) |})
      | None => (Err (PeInvalidDataType k), o)
      end
  | PiOutOfService => let '(r, p) := write_out_of_service k v (bv_point o) in (r, {| bv_point := p |})
  | _ => (Ok tt, {| bv_point := set_property k v (bv_point o) |})
  end.

Definition BinaryValue_list_properties : list PropertyId :=
  [PiObjectIdentifier; PiObjectName; PiObjectType; PiDescription; PiPresentValue; PiStatusFlags; PiEventState;
   PiOutOfService; PiActiveText; PiInactiveText].
Definition BinaryValue_reset_cov (o : BinaryValue) : BinaryValue := {| bv_point := point_reset_cov (bv_point o) |}.

(* ------------------------------------------------------------------ *)
(** * Multi-state objects *)

Definition multi_state_store (number_of_states : Z) : PropertyStore :=
  <[PiEventState := VEnumerated 0]> {[PiNumberOfStates := VUnsigned number_of_states]}.
Definition in_states (number_of_states v : Z) : bool := (1 <=? v) && (v <=? number_of_states).

Record MultiStateInput : Type := { msi_point : Point Z; msi_number_of_states : Z }.

Definition MultiStateInput_new `{BuildProfile} {E} (inst : Z) (name : list Z) (number_of_states : Z)
    : outcome E MultiStateInput :=
  let? id := ObjectId_new OtMultiStateInput inst in
  Ok {| msi_point := point id name (multi_state_store number_of_states) 1; msi_number_of_states := number_of_states |}.
Definition with_state_texts (texts : list (list Z)) (o : MultiStateInput) : MultiStateInput :=
  {| msi_point := set_property PiStateText (VArray (VCharacterString <$> texts)) (msi_point o);
     msi_number_of_states := msi_number_of_states o |}.
Definition MultiStateInput_set_value (value : Z) (o : MultiStateInput) : MultiStateInput :=
  if in_states (msi_number_of_states o) value then
    {| msi_point := set_value_cov value (negb (pt_present_value (msi_point o) =? value)) (msi_point o);
       msi_number_of_states := msi_number_of_states o |}
  else o.

Definition MultiStateInput_read_property (o : MultiStateInput) (k : PropertyId) : outcome PropertyError BACnetValue :=
  let p := msi_point o in
  match k with
  | PiObjectIdentifier => Ok (VObjectIdentifier (pt_id p))
  | PiObjectName => Ok (VCharacterString (pt_name p))
  | PiObjectType => Ok (VEnumerated (ObjectType_as_u16 OtMultiStateInput))
  | PiDescription => Ok (VCharacterString (pt_description p))
  | PiPresentValue => Ok (VUnsigned (pt_present_value p))
  | PiStatusFlags => Ok (VBitString (StatusFlags_to_bits (status_flags p)))
  | PiOutOfService => Ok (VBoolean (pt_out_of_service p))
  | PiNumberOfStates => Ok (VUnsigned (msi_number_of_states o))
  | _ => read_stored p k
  end.

Definition MultiStateInput_write_property (k : PropertyId) (v : BACnetValue)
    : stM MultiStateInput PropertyError unit := fun o =>
  let set_point p := {| msi_point := p; msi_number_of_states := msi_number_of_states o |} in
  match k with
  | PiObjectIdentifier | PiObjectType | PiPresentValue | PiNumberOfStates => (Err (PeReadOnly k), o)
  | PiOutOfService => let '(r, p) := write_out_of_service k v (msi_point o) in (r, set_point p)
  | _ => (Ok tt, set_point (set_property k v (msi_point o)))
  end.

Definition MultiStateInput_list_properties : list PropertyId :=
  [PiObjectIdentifier; PiObjectName; PiObjectType; PiDescription; PiPresentValue; PiStatusFlags; PiEventState;
   PiOutOfService; PiNumberOfStates; PiStateText].
Definition MultiStateInput_reset_cov (o : MultiStateInput) : MultiStateInput :=
  {| msi_point := point_reset_cov (msi_point o); msi_number_of_states := msi_number_of_states o |}.

Record MultiStateOutput : Type := {
  mso_point : Point Z;
  mso_relinquish_default : Z;
  mso_priority_array : list (option Z);
  mso_number_of_states : Z
}.

Definition MultiStateOutput_new `{BuildProfile} {E} (inst : Z) (name : list Z) (number_of_states : Z)
    : outcome E MultiStateOutput :=
  let? id := ObjectId_new OtMultiStateOutput inst in
  Ok {| mso_point := point id name (multi_state_store number_of_states) 1; mso_relinquish_default := 1;
        mso_priority_array := no_commands; mso_number_of_states := number_of_states |}.

Definition mso_set_point (p : Point Z) (o : MultiStateOutput) : MultiStateOutput :=
  {| mso_point := p; mso_relinquish_default := mso_relinquish_default o; mso_priority_array := mso_priority_array o;
     mso_number_of_states := mso_number_of_states o |}.

Definition MultiStateOutput_update_present_value (o : MultiStateOutput) : MultiStateOutput :=
  let new_value := commanded (mso_priority_array o) (mso_relinquish_default o) in
  let old := pt_present_value (mso_point o) in
  mso_set_point (set_value_cov new_value (negb (old =? new_value)) (mso_point o)) o.

Definition MultiStateOutput_read_property (o : MultiStateOutput) (k : PropertyId) : outcome PropertyError BACnetValue :=
  let p := mso_point o in
  match k with
  | PiObjectIdentifier => Ok (VObjectIdentifier (pt_id p))
  | PiObjectName => Ok (VCharacterString (pt_name p))
  | PiObjectType => Ok (VEnumerated (ObjectType_as_u16 OtMultiStateOutput))
  | PiDescription => Ok (VCharacterString (pt_description p))
  | PiPresentValue => Ok (VUnsigned (pt_present_value p))
  | PiStatusFlags => Ok (VBitString (StatusFlags_to_bits (status_flags p)))
  | PiOutOfService => Ok (VBoolean (pt_out_of_service p))
  | PiNumberOfStates => Ok (VUnsigned (mso_number_of_states o))
  | PiRelinquishDefault => Ok (VUnsigned (mso_relinquish_default o))
  | PiPriorityArray => Ok (VArray (pa_values VUnsigned (mso_priority_array o)))
  | _ => read_stored p k
  end.

Definition MultiStateOutput_write_property (k : PropertyId) (v : BACnetValue)
    : stM MultiStateOutput PropertyError unit := fun o =>
  match k with
  | PiObjectIdentifier | PiObjectType | PiNumberOfStates => (Err (PeReadOnly k), o)
  | PiPresentValue =>
      match as_unsigned v with
      | Some x =>
          if in_states (mso_number_of_states o) x then
            match index_set (mso_priority_array o) 15 (Some x) with
            | Ok pa =>
                (Ok tt, MultiStateOutput_update_present_value {| mso_point := mso_point o;
                          mso_relinquish_default := mso_relinquish_default o; mso_priority_array := pa;
                          mso_number_of_states := mso_number_of_states o |})
            | Err e => (Err e, o)
            | Panic => (Panic, o)
            end
          else (Err (PeValueOutOfRange k), o)
      | None => (Err (PeInvalidDataType k), o)
      end
  | PiOutOfService => let '(r, p) := write_out_of_service k v (mso_point o) in (r, mso_set_point p o)
  | _ => (Ok tt, mso_set_point (set_property k v (mso_point o)) o)
  end.

Definition MultiStateOutput_list_properties : list PropertyId :=
  [PiObjectIdentifier; PiObjectName; PiObjectType; PiDescription; PiPresentValue; PiStatusFlags; PiEventState;
   PiOutOfService; PiNumberOfStates; PiStateText; PiPriorityArray; PiRelinquishDefault].
Definition MultiStateOutput_reset_cov (o : MultiStateOutput) : MultiStateOutput :=
  mso_set_point (point_reset_cov (mso_point o)) o.

Record MultiStateValue : Type := { msv_point : Point Z; msv_number_of_states : Z }.

Definition MultiStateValue_new `{BuildProfile} {E} (inst : Z) (name : list Z) (number_of_states : Z)
    : outcome E MultiStateValue :=
  let? id := ObjectId_new OtMultiStateValue inst in
  Ok {| msv_point := point id name (multi_state_store number_of_states) 1; msv_number_of_states := number_of_states |}.
Definition MultiStateValue_with_initial_value (v : Z) (o : MultiStateValue) : MultiStateValue :=
  if in_states (msv_number_of_states o) v then
    {| msv_point := set_initial_value v (msv_point o); msv_number_of_states := msv_number_of_states o |}
  else o.

Definition MultiStateValue_read_property (o : MultiStateValue) (k : PropertyId) : outcome PropertyError BACnetValue :=
  let p := msv_point o in
  match k with
  | PiObjectIdentifier => Ok (VObjectIdentifier (pt_id p))
  | PiObjectName => Ok (VCharacterString (pt_name p))
  | PiObjectType => Ok (VEnumerated (ObjectType_as_u16 OtMultiStateValue))
  | PiDescription => Ok (VCharacterString (pt_description p))
  | PiPresentValue => Ok (VUnsigned (pt_present_value p))
  | PiStatusFlags => Ok (VBitString (StatusFlags_to_bits (status_flags p)))
  | PiOutOfService => Ok (VBoolean (pt_out_of_service p))
  | PiNumberOfStates => Ok (VUnsigned (msv_number_of_states o))
  | _ => read_stored p k
  end.

Definition MultiStateValue_write_property (k : PropertyId) (v : BACnetValue)
    : stM MultiStateValue PropertyError unit := fun o =>
  let set_point p := {| msv_point := p; msv_number_of_states := msv_number_of_states o |} in
  match k with
  | PiObjectIdentifier | PiObjectType | PiNumberOfStates => (Err (PeReadOnly k), o)
  | PiPresentValue =>
      match as_unsigned v with
      | Some x =>
          if in_states (msv_number_of_states o) x then
            let old := pt_present_value (msv_point o) in
            (Ok tt, set_point (set_value_cov x (negb (old =? x)) (msv_point o)))
          else (Err (PeValueOutOfRange k), o)
      | None => (Err (PeInvalidDataType k), o)
      end
  | PiOutOfService => let '(r, p) := write_out_of_service k v (msv_point o) in (r, set_point p)
  | _ => (Ok tt, set_point (set_property k v (msv_point o)))
  end.

Definition MultiStateValue_list_properties : list PropertyId :=
  [PiObjectIdentifier; PiObjectName; PiObjectType; PiDescription; PiPresentValue; PiStatusFlags; PiEventState;
   PiOutOfService; PiNumberOfStates; PiStateText].
Definition MultiStateValue_reset_cov (o : MultiStateValue) : MultiStateValue :=
  {| msv_point := point_reset_cov (msv_point o); msv_number_of_states := msv_number_of_states o |}.

(* ------------------------------------------------------------------ *)
(** * The object interface *)

(** [trait BACnetObject], without its downcast. *)
Class BACnetObject (O : Type) : Type := {
  object_identifier : O → ObjectId;
  object_name : O → list Z;
  read_property : O → PropertyId → outcome PropertyError BACnetValue;
  write_property : PropertyId → BACnetValue → stM O PropertyError unit;
  list_properties : O → list PropertyId;
  object_status_flags : O → StatusFlags
}.

Section Defaults.
Context {O : Type} `{BACnetObject O}.
Implicit Types (o : O).

Definition read_property_at o (k : PropertyId) (array_index : option Z) : outcome PropertyError BACnetValue :=
  let? value := read_property o k in
  match array_index with
  | Some i =>
      match value with
      | VArray arr =>
          if i =? 0 then Ok (VUnsigned (zlen arr mod 4294967296))
          else ok_or (arr !! Z.to_nat (i - 1)) (PeInvalidArrayIndex i)
      | _ => Err (PeInvalidArrayIndex i)
      end
  | None => Ok value
  end.
Definition write_property_at (k : PropertyId) (v : BACnetValue) (array_index priority : option Z)
    : stM O PropertyError unit := write_property k v.
Definition has_property o (k : PropertyId) : bool := existsb (fun k' => bool_decide (k = k')) (list_properties o).
Definition is_out_of_service o : bool := sf_out_of_service (object_status_flags o).
Definition present_value o : outcome PropertyError BACnetValue := read_property o PiPresentValue.
Definition cov_values o : list (PropertyId * BACnetValue) :=
  (match present_value o with Ok pv => [(PiPresentValue, pv)] | _ => [] end)
    ++ [(PiStatusFlags, VBitString (StatusFlags_to_bits (object_status_flags o)))].
End Defaults.

(** What the services rely on: writing an object keeps its identity; a refused write changes
    nothing; a write to a well-formed object does not panic and keeps it well-formed. *)
Class ObjectLaws (O : Type) `{BACnetObject O} : Type := {
  object_ok : O → Prop;
  write_identity k v o : object_identifier (write_property k v o).2 = object_identifier o ∧
                         object_name (write_property k v o).2 = object_name o;
  write_refused k v o e : (write_property k v o).1 = Err e → (write_property k v o).2 = o;
  write_ok k v o : object_ok o → (write_property k v o).1 ≠ Panic ∧ object_ok (write_property k v o).2;
  read_no_panic o k : read_property o k ≠ Panic
}.

(** The concrete types behind [dyn BACnetObject] that this file models. *)
Inductive StandardObject : Type :=
| SAnalogInput (o : AnalogInput)
| SAnalogOutput (o : AnalogOutput)
| SAnalogValue (o : AnalogValue)
| SBinaryInput (o : BinaryInput)
| SBinaryOutput (o : BinaryOutput)
| SBinaryValue (o : BinaryValue)
| SMultiStateInput (o : MultiStateInput)
| SMultiStateOutput (o : MultiStateOutput)
| SMultiStateValue (o : MultiStateValue).

(** Runs a method on the object inside a variant. *)
Definition within {S A B E} (f : S → B) (m : stM S E A) (s : S) : outcome E A * B := let '(r, s') := m s in (r, f s').

Definition standard_identifier (o : StandardObject) : ObjectId :=
  match o with
  | SAnalogInput o => pt_id (ai_point o) | SAnalogOutput o => pt_id (ao_point o) | SAnalogValue o => pt_id (av_point o)
  | SBinaryInput o => pt_id (bi_point o) | SBinaryOutput o => pt_id (bo_point o) | SBinaryValue o => pt_id (bv_point o)
  | SMultiStateInput o => pt_id (msi_point o) | SMultiStateOutput o => pt_id (mso_point o)
  | SMultiStateValue o => pt_id (msv_point o)
  end.
Definition standard_name (o : StandardObject) : list Z :=
  match o with
  | SAnalogInput o => pt_name (ai_point o) | SAnalogOutput o => pt_name (ao_point o)
  | SAnalogValue o => pt_name (av_point o) | SBinaryInput o => pt_name (bi_point o)
  | SBinaryOutput o => pt_name (bo_point o) | SBinaryValue o => pt_name (bv_point o)
  | SMultiStateInput o => pt_name (msi_point o) | SMultiStateOutput o => pt_name (mso_point o)
  | SMultiStateValue o => pt_name (msv_point o)
  end.
Definition standard_flags (o : StandardObject) : StatusFlags :=
  match o with
  | SAnalogInput o => status_flags (ai_point o) | SAnalogOutput o => status_flags (ao_point o)
  | SAnalogValue o => status_flags (av_point o) | SBinaryInput o => status_flags (bi_point o)
  | SBinaryOutput o => status_flags (bo_point o) | SBinaryValue o => status_flags (bv_point o)
  | SMultiStateInput o => status_flags (msi_point o) | SMultiStateOutput o => status_flags (mso_point o)
  | SMultiStateValue o => status_flags (msv_point o)
  end.
Definition standard_read (o : StandardObject) : PropertyId → outcome PropertyError BACnetValue :=
  match o with
  | SAnalogInput o => AnalogInput_read_property o
  | SAnalogOutput o => AnalogOutput_read_property o
  | SAnalogValue o => AnalogValue_read_property o
  | SBinaryInput o => BinaryInput_read_property o
  | SBinaryOutput o => BinaryOutput_read_property o
  | SBinaryValue o => BinaryValue_read_property o
  | SMultiStateInput o => MultiStateInput_read_property o
  | SMultiStateOutput o => MultiStateOutput_read_property o
  | SMultiStateValue o => MultiStateValue_read_property o
  end.
Definition standard_write (k : PropertyId) (v : BACnetValue) : stM StandardObject PropertyError unit := fun o =>
  match o with
  | SAnalogInput o => within SAnalogInput (AnalogInput_write_property k v) o
  | SAnalogOutput o => within SAnalogOutput (AnalogOutput_write_property k v) o
  | SAnalogValue o => within SAnalogValue (AnalogValue_write_property k v) o
  | SBinaryInput o => within SBinaryInput (BinaryInput_write_property k v) o
  | SBinaryOutput o => within SBinaryOutput (BinaryOutput_write_property k v) o
  | SBinaryValue o => within SBinaryValue (BinaryValue_write_property k v) o
  | SMultiStateInput o => within SMultiStateInput (MultiStateInput_write_property k v) o
  | SMultiStateOutput o => within SMultiStateOutput (MultiStateOutput_write_property k v) o
  | SMultiStateValue o => within SMultiStateValue (MultiStateValue_write_property k v) o
  end.
Definition standard_list (o : StandardObject) : list PropertyId :=
  match o with
  | SAnalogInput _ => AnalogInput_list_properties | SAnalogOutput _ => AnalogOutput_list_properties
  | SAnalogValue _ => AnalogValue_list_properties | SBinaryInput _ => BinaryInput_list_properties
  | SBinaryOutput _ => BinaryOutput_list_properties | SBinaryValue _ => BinaryValue_list_properties
  | SMultiStateInput _ => MultiStateInput_list_properties | SMultiStateOutput _ => MultiStateOutput_list_properties
  | SMultiStateValue _ => MultiStateValue_list_properties
  end.

#[global] Instance standard_object : BACnetObject StandardObject := {
  object_identifier := standard_identifier;
  object_name := standard_name;
  read_property := standard_read;
  write_property := standard_write;
  list_properties := standard_list;
  object_status_flags := standard_flags
}.

Definition check_cov (o : StandardObject) : bool :=
  match o with
  | SAnalogInput o => pt_cov_changed (ai_point o) | SAnalogOutput o => pt_cov_changed (ao_point o)
  | SAnalogValue o => pt_cov_changed (av_point o) | SBinaryInput o => pt_cov_changed (bi_point o)
  | SBinaryOutput o => pt_cov_changed (bo_point o) | SBinaryValue o => pt_cov_changed (bv_point o)
  | SMultiStateInput o => pt_cov_changed (msi_point o) | SMultiStateOutput o => pt_cov_changed (mso_point o)
  | SMultiStateValue o => pt_cov_changed (msv_point o)
  end.
Definition reset_cov (o : StandardObject) : StandardObject :=
  match o with
  | SAnalogInput o => SAnalogInput (AnalogInput_reset_cov o)
  | SAnalogOutput o => SAnalogOutput (AnalogOutput_reset_cov o)
  | SAnalogValue o => SAnalogValue (AnalogValue_reset_cov o)
  | SBinaryInput o => SBinaryInput (BinaryInput_reset_cov o)
  | SBinaryOutput o => SBinaryOutput (BinaryOutput_reset_cov o)
  | SBinaryValue o => SBinaryValue (BinaryValue_reset_cov o)
  | SMultiStateInput o => SMultiStateInput (MultiStateInput_reset_cov o)
  | SMultiStateOutput o => SMultiStateOutput (MultiStateOutput_reset_cov o)
  | SMultiStateValue o => SMultiStateValue (MultiStateValue_reset_cov o)
  end.
(** [WritableObject::set_present_value] of the outputs and values. *)
Definition set_present_value (v : BACnetValue) : stM StandardObject PropertyError unit := write_property PiPresentValue v.

(* ------------------------------------------------------------------ *)
(** * Well-formed objects *)

Definition commands_ok {A} (pa : list (option A)) (rd pv : A) : Prop := length pa = 16%nat ∧ pv = commanded pa rd.
Definition states_ok (n : Z) (pv : Z) : Prop := 1 <= n → in_states n pv = true.

Definition standard_ok (o : StandardObject) : Prop :=
  match o with
  | SAnalogInput o => object_type (pt_id (ai_point o)) = OtAnalogInput
  | SAnalogOutput o =>
      object_type (pt_id (ao_point o)) = OtAnalogOutput ∧
      commands_ok (ao_priority_array o) (ao_relinquish_default o) (pt_present_value (ao_point o))
  | SAnalogValue o => object_type (pt_id (av_point o)) = OtAnalogValue
  | SBinaryInput o => object_type (pt_id (bi_point o)) = OtBinaryInput
  | SBinaryOutput o =>
      object_type (pt_id (bo_point o)) = OtBinaryOutput ∧
      commands_ok (bo_priority_array o) (bo_relinquish_default o) (pt_present_value (bo_point o))
  | SBinaryValue o => object_type (pt_id (bv_point o)) = OtBinaryValue
  | SMultiStateInput o =>
      object_type (pt_id (msi_point o)) = OtMultiStateInput ∧ states_ok (msi_number_of_states o) (pt_present_value (msi_point o))
  | SMultiStateOutput o =>
      object_type (pt_id (mso_point o)) = OtMultiStateOutput ∧
      commands_ok (mso_priority_array o) (mso_relinquish_default o) (pt_present_value (mso_point o)) ∧
      states_ok (mso_number_of_states o) (mso_relinquish_default o) ∧
      Forall (fun c => ∀ v, c = Some v → states_ok (mso_number_of_states o) v) (mso_priority_array o)
  | SMultiStateValue o =>
      object_type (pt_id (msv_point o)) = OtMultiStateValue ∧ states_ok (msv_number_of_states o) (pt_present_value (msv_point o))
  end.

(** The objects a program can hold: built by a constructor, then changed by any of the methods. *)
Inductive standard_reachable `{BuildProfile} : StandardObject → Prop :=
| sr_ai i n o : AnalogInput_new (E:=PropertyError) i n = Ok o → standard_reachable (SAnalogInput o)
| sr_ao i n o : AnalogOutput_new (E:=PropertyError) i n = Ok o → standard_reachable (SAnalogOutput o)
| sr_av i n o : AnalogValue_new (E:=PropertyError) i n = Ok o → standard_reachable (SAnalogValue o)
| sr_bi i n o : BinaryInput_new (E:=PropertyError) i n = Ok o → standard_reachable (SBinaryInput o)
| sr_bo i n o : BinaryOutput_new (E:=PropertyError) i n = Ok o → standard_reachable (SBinaryOutput o)
| sr_bv i n o : BinaryValue_new (E:=PropertyError) i n = Ok o → standard_reachable (SBinaryValue o)
| sr_msi i n s o : MultiStateInput_new (E:=PropertyError) i n s = Ok o → standard_reachable (SMultiStateInput o)
| sr_mso i n s o : MultiStateOutput_new (E:=PropertyError) i n s = Ok o → standard_reachable (SMultiStateOutput o)
| sr_msv i n s o : MultiStateValue_new (E:=PropertyError) i n s = Ok o → standard_reachable (SMultiStateValue o)
| sr_ai_cov c o : standard_reachable (SAnalogInput o) → standard_reachable (SAnalogInput (AnalogInput_with_cov_increment c o))
| sr_ai_set v o : standard_reachable (SAnalogInput o) → standard_reachable (SAnalogInput (AnalogInput_set_value v o))
| sr_ao_default v o :
    standard_reachable (SAnalogOutput o) → standard_reachable (SAnalogOutput (AnalogOutput_with_relinquish_default v o))
| sr_ao_command v p o :
    standard_reachable (SAnalogOutput o) → standard_reachable (SAnalogOutput (set_present_value_with_priority v p o).2)
| sr_ao_relinquish p o : standard_reachable (SAnalogOutput o) → standard_reachable (SAnalogOutput (relinquish p o).2)
| sr_av_initial v o :
    standard_reachable (SAnalogValue o) → standard_reachable (SAnalogValue (AnalogValue_with_initial_value v o))
| sr_bi_set v o : standard_reachable (SBinaryInput o) → standard_reachable (SBinaryInput (BinaryInput_set_value v o))
| sr_bv_initial v o :
    standard_reachable (SBinaryValue o) → standard_reachable (SBinaryValue (BinaryValue_with_initial_value v o))
| sr_msi_set v o :
    standard_reachable (SMultiStateInput o) → standard_reachable (SMultiStateInput (MultiStateInput_set_value v o))
| sr_msi_texts t o : standard_reachable (SMultiStateInput o) → standard_reachable (SMultiStateInput (with_state_texts t o))
| sr_msv_initial v o :
    standard_reachable (SMultiStateValue o) → standard_reachable (SMultiStateValue (MultiStateValue_with_initial_value v o))
| sr_write k v o : standard_reachable o → standard_reachable (write_property k v o).2
| sr_reset o : standard_reachable o → standard_reachable (reset_cov o).

Lemma commanded_in {A} (P : A → Prop) pa rd : P rd → Forall (fun c => ∀ v, c = Some v → P v) pa → P (commanded pa rd).
Proof.
  intros Hrd Hpa. unfold commanded. destruct (omap id pa) as [|v l] eqn:Heq; [done|].
  assert (v ∈ omap id pa) as (c & Hc & Hv)%list_elem_of_omap by (rewrite Heq; left). simpl in *.
  rewrite Forall_forall in Hpa. by eapply Hpa.
Qed.

Lemma index_set_ok {E A} (l : list A) i x : (i < length l)%nat → index_set (E:=E) l i x = Ok (<[i := x]> l).
Proof. intros Hi. unfold index_set. by rewrite decide_True. Qed.

Lemma ao_command_ok i x o :
  standard_ok (SAnalogOutput o) → (i < 16)%nat →
  (ao_command i x o).1 = Ok tt ∧ standard_ok (SAnalogOutput (ao_command i x o).2) ∧
  ao_priority_array (ao_command i x o).2 = <[i := x]> (ao_priority_array o).
Proof.
  intros (Ht & Hlen & Hpv) Hi. unfold ao_command. rewrite index_set_ok by lia. simpl.
  repeat split; [done|by rewrite length_insert].
Qed.

Lemma ao_priority_ok p : (p <? 1) || (16 <? p) = false → (Z.to_nat (p - 1) < 16)%nat.
Proof. intros [? ?]%orb_false_iff. bool_to_prop. lia. Qed.

Lemma with_priority_ok v p o :
  standard_ok (SAnalogOutput o) →
  (set_present_value_with_priority v p o).1 ≠ Panic ∧ standard_ok (SAnalogOutput (set_present_value_with_priority v p o).2).
Proof.
  intros Ho. unfold set_present_value_with_priority. destruct (_ || _) eqn:Hp; [done|]. apply ao_priority_ok in Hp.
  destruct (as_real v); [|destruct (is_null v); [|done]];
    match goal with |- context [ao_command ?i ?x o] => destruct (ao_command_ok i x o Ho Hp) as (-> & ? & _) end; done.
Qed.

Lemma relinquish_ok p o :
  standard_ok (SAnalogOutput o) → (relinquish p o).1 ≠ Panic ∧ standard_ok (SAnalogOutput (relinquish p o).2).
Proof.
  intros Ho. unfold relinquish. destruct (_ || _) eqn:Hp; [done|]. apply ao_priority_ok in Hp.
  destruct (ao_command_ok _ None o Ho Hp) as (-> & ? & _). done.
Qed.

Lemma write_oos_point {A} k v (p : Point A) :
  pt_id (write_out_of_service k v p).2 = pt_id p ∧ pt_name (write_out_of_service k v p).2 = pt_name p ∧
  pt_present_value (write_out_of_service k v p).2 = pt_present_value p ∧
  (write_out_of_service k v p).1 ≠ Panic ∧
  (∀ e, (write_out_of_service k v p).1 = Err e → (write_out_of_service k v p).2 = p).
Proof. unfold write_out_of_service. destruct (as_bool v); done. Qed.

(** Splits a write by object and property; the generic branches are closed by [done]. *)
Ltac write_cases o k :=
  destruct o as [o|o|o|o|o|o|o|o|o]; destruct k; try done;
  cbn [write_property standard_object standard_write]; unfold within; cbn -[index_set];
  unfold write_out_of_service, ao_command.

Lemma standard_write_identity k v o :
  standard_identifier (standard_write k v o).2 = standard_identifier o ∧ standard_name (standard_write k v o).2 = standard_name o.
Proof. write_cases o k; repeat case_match; simplify_eq; done. Qed.

Lemma standard_write_refused k v o e : (standard_write k v o).1 = Err e → (standard_write k v o).2 = o.
Proof.
  write_cases o k; try (repeat case_match; simplify_eq; done).
  all: destruct o; repeat case_match; simplify_eq; done.
Qed.

Lemma standard_write_ok k v o :
  standard_ok o → (standard_write k v o).1 ≠ Panic ∧ standard_ok (standard_write k v o).2.
Proof.
  write_cases o k; try (intros; repeat case_match; simplify_eq; done).
  - intros (Ht & Hl & Hp). destruct (as_real v); [|done]. rewrite index_set_ok by lia. simpl.
    repeat split; [done..|by rewrite length_insert].
  - intros (Ht & Hl & Hp). destruct (as_real v); done.
  - intros (Ht & Hl & Hp). destruct (binary_value v); [|done]. rewrite index_set_ok by lia. simpl.
    repeat split; [done..|by rewrite length_insert].
  - intros (Ht & (Hl & Hp) & Hd & Hs). destruct (as_unsigned v) as [x|]; [|done].
    destruct (in_states _ x) eqn:Hx; [|done]. rewrite index_set_ok by lia. simpl.
    repeat split; [done..|by rewrite length_insert|done|].
    apply Forall_insert; [done|]. by intros ? [= <-] _.
  - intros (Ht & Hs). destruct (as_unsigned v) as [x|]; [|done]. by destruct (in_states _ x) eqn:Hx; [split; [|split; [|intros _]]|].
Qed.

Lemma standard_read_no_panic o k : standard_read o k ≠ Panic.
Proof.
  assert (∀ A (p : Point A) k, read_stored p k ≠ Panic) as Hs.
  { intros A p k'. unfold read_stored, ok_or. by destruct (_ !! _). }
  destruct o; destruct k; try done; apply Hs.
Qed.

#[global] Instance standard_laws : ObjectLaws StandardObject := {
  object_ok := standard_ok;
  write_identity := standard_write_identity;
  write_refused := standard_write_refused;
  write_ok := standard_write_ok;
  read_no_panic := standard_read_no_panic
}.

(** What an accepted write leaves to be read, as a table of the objects and their properties.  Some
    properties accept a write that has no effect: they are read from a field that [write_property]
    does not set. *)
Definition write_ignored (o : StandardObject) (k : PropertyId) : bool :=
  match k with
  | PiObjectName | PiDescription | PiStatusFlags => true
  | PiPresentValue => match o with SAnalogInput _ => true | _ => false end
  | PiCovIncrement => match o with SAnalogOutput _ | SAnalogValue _ => true | _ => false end
  | PiPriorityArray => match o with SAnalogOutput _ | SBinaryOutput _ | SMultiStateOutput _ => true | _ => false end
  | PiRelinquishDefault => match o with SBinaryOutput _ | SMultiStateOutput _ => true | _ => false end
  | _ => false
  end.
(** An output that a priority from 1 to 15 commands keeps its present value. *)
Definition outranked (o : StandardObject) : bool :=
  match o with
  | SAnalogOutput o => existsb (fun c => bool_decide (is_Some c)) (take 15 (ao_priority_array o))
  | SBinaryOutput o => existsb (fun c => bool_decide (is_Some c)) (take 15 (bo_priority_array o))
  | SMultiStateOutput o => existsb (fun c => bool_decide (is_Some c)) (take 15 (mso_priority_array o))
  | _ => false
  end.
Definition takes_effect (o : StandardObject) (k : PropertyId) : bool :=
  negb (write_ignored o k) && negb (bool_decide (k = PiPresentValue) && outranked o).
(** The written value in the type of the property. *)
Definition stored_value (o : StandardObject) (k : PropertyId) (v : BACnetValue) : BACnetValue :=
  let real := match as_real v with Some x => VReal x | None => v end in
  let bin := match v with VBoolean b => binary b | VEnumerated e => binary (negb (e =? 0)) | _ => v end in
  let state := match as_unsigned v with Some x => VUnsigned x | None => v end in
  match k, o with
  | PiPresentValue, (SAnalogOutput _ | SAnalogValue _) => real
  | PiPresentValue, (SBinaryOutput _ | SBinaryValue _) => bin
  | PiPresentValue, (SMultiStateOutput _ | SMultiStateValue _) => state
  | PiOutOfService, _ => match as_bool v with Some b => VBoolean b | None => v end
  | PiCovIncrement, SAnalogInput _ => real
  | PiRelinquishDefault, SAnalogOutput _ => real
  | _, _ => v
  end.

Lemma commanded_lowest {A} (pa : list (option A)) rd x : length pa = 16%nat →
  commanded (<[15%nat := Some x]> pa) rd =
  if existsb (fun c => bool_decide (is_Some c)) (take 15 pa) then commanded pa rd else x.
Proof.
  intros Hl. unfold commanded. do 16 (destruct pa as [|[?|] pa]; try discriminate; try reflexivity).
Qed.
Lemma stored_read {A} (p : Point A) k v : read_stored (set_property k v p) k = Ok v.
Proof. unfold read_stored, set_property. cbn [pt_properties]. by rewrite (lookup_insert_eq (pt_properties p : gmap PropertyId BACnetValue)). Qed.

(** What is read after an accepted write. *)
Lemma standard_write_read k v o o' : standard_ok o → standard_write k v o = (Ok tt, o') →
  standard_read o' k = if takes_effect o k then Ok (stored_value o k v) else standard_read o k.
Proof.
  intros Hok. unfold takes_effect. destruct o as [o|o|o|o|o|o|o|o|o]; destruct k;
    cbn [standard_write write_ignored stored_value outranked]; unfold within; cbn -[index_set existsb set_property read_stored commanded];
    unfold write_out_of_service, ao_command; intros Hw; try done;
    try (injection Hw as <-; first [reflexivity|apply stored_read]).
  all: try (destruct (as_bool v); [|done]; injection Hw as <-; reflexivity).
  all: try (destruct (as_real v); [|done]; injection Hw as <-; reflexivity).
  - destruct Hok as (_ & Hl & Hp). destruct (as_real v) as [x|]; [|done]. rewrite index_set_ok in Hw by lia. injection Hw as <-.
    cbn -[commanded existsb]. rewrite commanded_lowest, <- Hp by done. by destruct (existsb _ _).
  - destruct Hok as (_ & Hl & Hp). destruct v; try discriminate; cbn in Hw; rewrite index_set_ok in Hw by lia; injection Hw as <-;
      cbn -[commanded existsb]; rewrite commanded_lowest, <- Hp by done; by destruct (existsb _ _).
  - destruct v; try discriminate; by injection Hw as <-.
  - destruct Hok as (_ & (Hl & Hp) & _). destruct (as_unsigned v) as [x|]; [|done]. destruct (in_states _ x); [|done].
    rewrite index_set_ok in Hw by lia. injection Hw as <-. cbn -[commanded existsb]. rewrite commanded_lowest, <- Hp by done. by destruct (existsb _ _).
  - destruct (as_unsigned v) as [x|]; [|done]. destruct (in_states _ x); [|done]. by injection Hw as <-.
Qed.

Lemma unchanged_read k o : takes_effect o k = false → ∃ old, standard_read o k = Ok old.
Proof.
  unfold takes_effect. destruct o as [o|o|o|o|o|o|o|o|o]; destruct k; cbn [write_ignored outranked];
    first [rewrite bool_decide_false by done; discriminate|intros; eexists; reflexivity].
Qed.

(** Inversion of a constructor's result. *)
Ltac new_ok H := unfold AnalogInput_new, AnalogOutput_new, AnalogValue_new, BinaryInput_new, BinaryOutput_new,
    BinaryValue_new, MultiStateInput_new, MultiStateOutput_new, MultiStateValue_new, ObjectId_new in H;
  destruct (_ && _); simpl in H; [discriminate|]; injection H as <-.

Lemma reachable_ok `{BuildProfile} o : standard_reachable o → standard_ok o.
Proof.
  assert (∀ n, states_ok n 1) as Hone.
  { intros n Hn. unfold in_states. apply andb_true_iff. split; lia. }
  induction 1 as [??? Hn|??? Hn|??? Hn|??? Hn|??? Hn|??? Hn|i n s o Hn|i n s o Hn|i n s o Hn| | | | | | | | |v o _ IH| |v o _ IH|k v o _ IH|o _ IH];
    try (new_ok Hn; simpl; done); try (simpl in *; naive_solver).
  - new_ok Hn. simpl. split_and!; [done..|apply Hone|]. by apply Forall_replicate.
  - match goal with IH : standard_ok _ |- _ => destruct IH as (? & ? & ?) end. by repeat split.
  - by apply with_priority_ok.
  - by apply relinquish_ok.
  - unfold MultiStateInput_set_value. destruct (in_states _ v) eqn:Hv; [|done]. split; [apply IH|]. intros _. exact Hv.
  - unfold MultiStateValue_with_initial_value. destruct (in_states _ v) eqn:Hv; [|done]. split; [apply IH|]. intros _. exact Hv.
  - by apply standard_write_ok.
  - by destruct o.
Qed.

(* ------------------------------------------------------------------ *)
(** * Theorems *)

Definition number_of_states (o : StandardObject) : Z :=
  match o with
  | SMultiStateInput o => msi_number_of_states o | SMultiStateOutput o => mso_number_of_states o
  | SMultiStateValue o => msv_number_of_states o | _ => 0
  end.

(** The values a present value may have, by object type. *)
Definition present_value_typed (t : ObjectType) (states : Z) (v : BACnetValue) : Prop :=
  match t with
  | OtAnalogInput | OtAnalogOutput | OtAnalogValue => ∃ bits, v = VReal bits
  | OtBinaryInput | OtBinaryOutput | OtBinaryValue => v = VEnumerated 0 ∨ v = VEnumerated 1
  | OtMultiStateInput | OtMultiStateOutput | OtMultiStateValue => ∃ x, v = VUnsigned x ∧ (1 <= states → 1 <= x <= states)
  | _ => False
  end.

(** C37: Whatever sequence of writes, commands, relinquishments, simulated inputs and change
    resets a standard object has gone through, its object type property names the type in its
    identifier, and its present value has the data type of that type: a real for the analog
    objects, 0 or 1 for the binary ones, and for the multi-state ones an unsigned number within
    the states the object was created with. *)
Theorem standard_objects_typed `{BuildProfile} o :
  standard_reachable o →
  let t := object_type (object_identifier o) in
  read_property o PiObjectType = Ok (VEnumerated (ObjectType_as_u16 t)) ∧
  ∃ v, present_value o = Ok v ∧ present_value_typed t (number_of_states o) v.
Proof.
  intros Ho%reachable_ok.
  assert (∀ n x, states_ok n x → 1 <= n → 1 <= x <= n) as Hstates.
  { intros n x Hx Hn. specialize (Hx Hn). unfold in_states in Hx. lia. }
  destruct o as [o|o|o|o|o|o|o|o|o]; cbn in Ho |- *; destruct_and?;
    match goal with E : object_type _ = _ |- _ => rewrite E end; (split; [done|]);
    eexists; (split; [reflexivity|]); cbn; eauto.
  all: try match goal with |- context [binary ?b] => destruct b; by auto end.
  eexists; split; [done|]. apply Hstates. destruct_and?. destruct_and?.
  match goal with E : commands_ok _ _ _ |- _ => destruct E as [_ ->] end. by apply commanded_in.
Qed.

(** A multi-state value with four states, written 3 and then, in vain, 5. *)
Lemma standard_objects_typed_witness :
  ∃ o : StandardObject,
    standard_reachable (H:=debug_build) o ∧ present_value o = Ok (VUnsigned 3) ∧
    ∃ v, present_value o = Ok v ∧ present_value_typed OtMultiStateValue 4 v.
Proof.
  set (m := {| msv_point := point {| object_type := OtMultiStateValue; instance := 7 |} (str "Mode") (multi_state_store 4) 1;
               msv_number_of_states := 4 |}).
  set (w := fun v o => (write_property (O:=StandardObject) PiPresentValue (VUnsigned v) o).2).
  exists (w 5 (w 3 (SMultiStateValue m))).
  assert (standard_reachable (H:=debug_build) (w 5 (w 3 (SMultiStateValue m)))) as Hr
    by (apply sr_write, sr_write; apply (sr_msv (H:=debug_build) 7 (str "Mode") 4 m); reflexivity).
  split_and!; [exact Hr|reflexivity|]. apply (standard_objects_typed (H:=debug_build) _ Hr).
Defined.

(** ** The priority array *)

(** A command gives or relinquishes (with [None]) a value at a priority. *)
Definition command : Type := Z * option Z.
Definition command_ok (c : command) : Prop := 1 <= c.1 <= 16.

(** What the standard asks: the value of the last command at the highest priority that still
    holds one, else the relinquish default. *)
Definition last_command (p : Z) (log : list command) : option Z :=
  match find (fun c => c.1 =? p) (rev log) with Some c => c.2 | None => None end.
Fixpoint highest_command (ps : list Z) (log : list command) (rd : Z) : Z :=
  match ps with
  | [] => rd
  | p :: ps' => match last_command p log with Some v => v | None => highest_command ps' log rd end
  end.

Definition give_command (o : AnalogOutput) (c : command) : AnalogOutput :=
  (set_present_value_with_priority (match c.2 with Some x => VReal x | None => VNull end) c.1 o).2.

Lemma last_command_snoc p log q v :
  last_command p (log ++ [(q, v)]) = if q =? p then v else last_command p log.
Proof. unfold last_command. rewrite rev_app_distr. simpl. by destruct (q =? p). Qed.

Lemma commanded_cons {A} (c : option A) pa rd : commanded (c :: pa) rd = match c with Some v => v | None => commanded pa rd end.
Proof. unfold commanded. by destruct c. Qed.

Lemma highest_commanded ps log rd : commanded ((fun p => last_command p log) <$> ps) rd = highest_command ps log rd.
Proof. induction ps as [|p ps IH]; [done|]. cbn [fmap list_fmap highest_command]. rewrite commanded_cons, IH. done. Qed.

Definition priorities : list Z := zrange 1 16.

Lemma priorities_insert log q v :
  1 <= q <= 16 →
  <[Z.to_nat (q - 1) := v]> ((fun p => last_command p log) <$> priorities) =
  (fun p => last_command p (log ++ [(q, v)])) <$> priorities.
Proof.
  intros Hq. assert (∀ l, length ((fun p => last_command p l) <$> priorities) = 16%nat) as Hlen by done.
  apply list_eq. intros i. destruct (decide (i < 16)%nat) as [Hi|Hi].
  2: { rewrite !lookup_ge_None_2; rewrite ?length_insert, ?Hlen; [done|lia..]. }
  assert (priorities !! i = Some (1 + Z.of_nat i)) as Hp.
  { unfold priorities, zrange. rewrite list_lookup_fmap, lookup_seq_lt by done. done. }
  rewrite (list_lookup_fmap _ priorities), Hp. cbn [fmap option_fmap option_map]. rewrite last_command_snoc.
  destruct (decide (i = Z.to_nat (q - 1))) as [->|Hne].
  - rewrite list_lookup_insert_eq by (rewrite Hlen; lia). rewrite (proj2 (Z.eqb_eq _ _)) by lia. done.
  - rewrite list_lookup_insert_ne by done. rewrite list_lookup_fmap, Hp.
    by rewrite (proj2 (Z.eqb_neq q _)) by lia.
Qed.

Lemma AnalogOutput_new_ok `{BuildProfile} {E} i n o :
  AnalogOutput_new (E:=E) i n = Ok o → standard_ok (SAnalogOutput o) ∧ ao_priority_array o = no_commands.
Proof. intros Hn. new_ok Hn. done. Qed.

Lemma ao_command_default i x o : ao_relinquish_default (ao_command i x o).2 = ao_relinquish_default o.
Proof. unfold ao_command. by destruct (index_set _ _ _). Qed.

Lemma give_command_spec o c :
  command_ok c → give_command o c = (ao_command (Z.to_nat (c.1 - 1)) c.2 o).2.
Proof.
  destruct c as [p v]. intros [Hp1 Hp2]. simpl in Hp1, Hp2. unfold give_command, set_present_value_with_priority. cbn [fst snd].
  rewrite (proj2 (Z.ltb_ge p 1)), (proj2 (Z.ltb_ge 16 p)) by lia. by destruct v.
Qed.

Lemma commands_refine o log :
  standard_ok (SAnalogOutput o) → ao_priority_array o = no_commands → Forall command_ok log →
  let o' := foldl give_command o log in
  standard_ok (SAnalogOutput o') ∧ ao_relinquish_default o' = ao_relinquish_default o ∧
  ao_priority_array o' = (fun p => last_command p log) <$> priorities.
Proof.
  intros Ho Hpa. induction log as [|[q v] log IH] using rev_ind; intros Hlog; [done|].
  apply Forall_app in Hlog as [Hlog Hc%Forall_inv]. destruct (IH Hlog) as (Hok & Hrd & Harr).
  cbn zeta. rewrite foldl_app. cbn [foldl]. rewrite (give_command_spec _ (q, v)) by exact Hc.
  destruct (ao_command_ok (Z.to_nat (q - 1)) v _ Hok) as (_ & Hok' & Harr'); [unfold command_ok in Hc; simpl in Hc; lia|].
  split_and!; [done|by rewrite ao_command_default|]. cbn [fst snd]. rewrite Harr', Harr. by apply priorities_insert.
Qed.

(** C10: The priority array implements the standard's command prioritisation. After any sequence
    of commands and relinquishments at priorities 1 to 16, the present value that clients read is
    the value of the last command at the highest priority (the lowest number) that has not been
    relinquished since, and the relinquish default when no priority holds one. *)
Theorem analog_output_prioritises `{BuildProfile} {E} i n rd log o :
  AnalogOutput_new (E:=E) i n = Ok o → Forall command_ok log →
  present_value (SAnalogOutput (foldl give_command (AnalogOutput_with_relinquish_default rd o) log)) =
  Ok (VReal (highest_command priorities log rd)).
Proof.
  intros [(Ht & _) Hpa]%AnalogOutput_new_ok Hlog. set (o0 := AnalogOutput_with_relinquish_default rd o).
  assert (standard_ok (SAnalogOutput o0)) as Hok by (subst o0; repeat split; [done|by simpl; rewrite Hpa]).
  destruct (commands_refine o0 log Hok) as ((_ & _ & Hpv) & Hrd & Harr); [done|done|].
  cbn. rewrite Hpv, Harr, Hrd. by rewrite highest_commanded.
Qed.

Lemma analog_output_prioritises_witness :
  ∃ o, AnalogOutput_new (H:=release_build) (E:=unit) 1 (str "Damper") = Ok o ∧
  Forall command_ok [(16, Some 75); (8, Some 90); (8, None)] ∧
  present_value (SAnalogOutput (foldl give_command (AnalogOutput_with_relinquish_default 50 o)
    [(16, Some 75); (8, Some 90); (8, None)])) = Ok (VReal 75).
Proof.
  eexists. split; [reflexivity|]. assert (Forall command_ok [(16, Some 75); (8, Some 90); (8, None)]) as Hl
    by (repeat constructor; simpl; lia).
  split; [exact Hl|]. rewrite (analog_output_prioritises (H:=release_build) (E:=unit) 1 (str "Damper") 50 _ _ eq_refl Hl).
  reflexivity.
Defined.

(** ** Writes from the network *)

Definition network_write : Type := PropertyId * BACnetValue * option Z * option Z.
Definition perform_write (o : StandardObject) (w : network_write) : StandardObject :=
  let '(k, v, i, p) := w in (write_property_at k v i p o).2.
(** The last real written to the present value, at whatever priority. *)
Definition last_real (ws : list network_write) : option Z :=
  head (omap (fun w : network_write => let '(k, v, _, _) := w in if bool_decide (k = PiPresentValue) then as_real v else None) (rev ws)).

Lemma ao_write_array k v o :
  standard_ok (SAnalogOutput o) →
  ∃ o', (standard_write k v (SAnalogOutput o)).2 = SAnalogOutput o' ∧
    ao_priority_array o' = match (if bool_decide (k = PiPresentValue) then as_real v else None) with
                           | Some x => <[15%nat := Some x]> (ao_priority_array o)
                           | None => ao_priority_array o
                           end.
Proof.
  intros (Ht & Hl & Hp). destruct k; try (eexists; split; reflexivity).
  all: unfold standard_write, within, AnalogOutput_write_property, write_out_of_service, ao_command.
  - destruct (as_bool v); eexists; split; reflexivity.
  - destruct (as_real v) as [x|]; [rewrite index_set_ok by lia|]; eexists; split; reflexivity.
  - destruct (as_real v); eexists; split; reflexivity.
Qed.

Lemma network_array o ws :
  standard_ok (SAnalogOutput o) → ao_priority_array o = no_commands →
  ∃ o', foldl perform_write (SAnalogOutput o) ws = SAnalogOutput o' ∧ standard_ok (SAnalogOutput o') ∧
    ao_priority_array o' = replicate 15 None ++ [last_real ws].
Proof.
  intros Ho Hpa. induction ws as [|[[[k v] i] p] ws (o1 & Hf & Hok & Harr)] using rev_ind.
  { exists o. by rewrite Hpa. }
  rewrite foldl_app, Hf. cbn [foldl perform_write]. unfold write_property_at.
  change (write_property k v (SAnalogOutput o1)) with (standard_write k v (SAnalogOutput o1)).
  destruct (ao_write_array k v o1 Hok) as (o2 & He & Harr2). pose proof (standard_write_ok k v _ Hok) as [_ Hok2].
  rewrite He in Hok2 |- *. exists o2. split_and!; [done..|]. rewrite Harr2, Harr. unfold last_real. rewrite rev_app_distr. cbn.
  by destruct (if bool_decide (k = PiPresentValue) then as_real v else None).
Qed.

(** Over the network the priorities of an analog output have no effect. Whatever sequence of
    property writes a fresh output has received, with whatever priorities, the present value is
    the last real written to it, at any priority, even after a later NULL (which does not
    relinquish); every write lands in slot 16 and the other fifteen stay empty. *)
Theorem network_priority_ignored `{BuildProfile} {E} i n o ws x :
  AnalogOutput_new (E:=E) i n = Ok o → last_real ws = Some x →
  let o' := foldl perform_write (SAnalogOutput o) ws in
  present_value o' = Ok (VReal x) ∧
  read_property o' PiPriorityArray = Ok (VArray (replicate 15 VNull ++ [VReal x])).
Proof.
  intros [Ho Hpa]%AnalogOutput_new_ok Hx. destruct (network_array o ws Ho Hpa) as (o' & -> & (_ & _ & Hpv) & Harr).
  cbn. rewrite Hpv, Harr, Hx. done.
Qed.

Lemma network_priority_ignored_witness :
  ∃ o ws, AnalogOutput_new (H:=debug_build) (E:=unit) 1 (str "Valve") = Ok o ∧
  ws = [(PiPresentValue, VReal 90, None, Some 1); (PiPresentValue, VReal 75, None, Some 16); (PiPresentValue, VNull, None, Some 16)] ∧
  present_value (foldl perform_write (SAnalogOutput o) ws) = Ok (VReal 75).
Proof.
  do 2 eexists. split; [reflexivity|]. split; [reflexivity|].
  exact (proj1 (network_priority_ignored (H:=debug_build) (E:=unit) 1 (str "Valve") _
    [(PiPresentValue, VReal 90, None, Some 1); (PiPresentValue, VReal 75, None, Some 16); (PiPresentValue, VNull, None, Some 16)]
    75 eq_refl eq_refl)).
Defined.

(** ** Change of value *)

(** Some value is at least [inc] away from the one before it. *)
Fixpoint step_differs (inc prev : Z) (vs : list Z) : bool :=
  match vs with [] => false | v :: vs' => f32_differs_by v prev inc || step_differs inc v vs' end.

Definition write_real (o : AnalogValue) (v : Z) : AnalogValue := (AnalogValue_write_property PiPresentValue (VReal v) o).2.

Lemma ai_cov_fold vs o :
  let o' := foldl (fun o v => AnalogInput_set_value v o) o vs in
  pt_cov_changed (ai_point o') =
  existsb (fun v => f32_differs_by v (pt_last_cov_value (ai_point o)) (ai_cov_increment o)) vs || pt_cov_changed (ai_point o).
Proof.
  revert o. induction vs as [|v vs IH]; intros o; [done|]. cbn [foldl existsb]. cbn zeta in IH |- *. rewrite IH. cbn -[f32_differs_by].
  rewrite orb_assoc. f_equal. apply orb_comm.
Qed.

Lemma av_cov_fold vs o :
  pt_cov_changed (av_point (foldl write_real o vs)) =
  step_differs (av_cov_increment o) (pt_present_value (av_point o)) vs || pt_cov_changed (av_point o).
Proof.
  revert o. induction vs as [|v vs IH]; intros o; [done|]. cbn [foldl]. rewrite IH. cbn -[f32_differs_by].
  rewrite orb_assoc. f_equal. apply orb_comm.
Qed.

(** When a change of value is reported. After a notification (which resets the flag), an
    analog input raises its flag exactly when one of the values it has since been given lies the
    increment or more from the value last notified; an analog value compares each write with
    the one before it instead, so a value that drifts in small steps is never reported. *)
Theorem cov_flag_exact (ai : AnalogInput) (av : AnalogValue) vs :
  check_cov (SAnalogInput (foldl (fun o v => AnalogInput_set_value v o) (AnalogInput_reset_cov ai) vs)) =
    existsb (fun v => f32_differs_by v (pt_present_value (ai_point ai)) (ai_cov_increment ai)) vs ∧
  check_cov (SAnalogValue (foldl write_real (AnalogValue_reset_cov av) vs)) =
    step_differs (av_cov_increment av) (pt_present_value (av_point av)) vs.
Proof. cbn [check_cov]. rewrite ai_cov_fold, av_cov_fold. cbn -[f32_differs_by]. by rewrite !orb_false_r. Qed.

(** The reals 0.06, 0.12 and 0.18, starting from 0 with the default increment 0.1. *)
Example drift_by_small_steps :
  existsb (fun v => f32_differs_by v f32_zero f32_tenth) [0x3D75C28F; 0x3DF5C28F; 0x3E3851EC] = true ∧
  step_differs f32_tenth f32_zero [0x3D75C28F; 0x3DF5C28F; 0x3E3851EC] = false.
Proof. vm_compute. done. Qed.
