(* ===== verification/BacnetSchedule.v ===== *)
(** The Schedule and Calendar objects of BACnet ([mabi-bacnet/src/object/schedule.rs]): daily
    schedules, exceptions with priorities, date patterns, and the two objects behind the
    interface of [object/traits.rs].

    A field behind a lock or an atomic is a field of the state, as for the standard objects. *)

From stdpp Require Import sorting.
From S2P Require Import Prelude BacnetValue BacnetObject.

(* ------------------------------------------------------------------ *)
(** * Dates, times and entries *)

Record TimeValue : Type := { tv_time : BACnetTime; tv_value : BACnetValue }.
Definition TimeValue_with_seconds (h m s : Z) (v : BACnetValue) : TimeValue :=
  {| tv_time := {| hour := h; minute := m; second := s; hundredths := 0 |}; tv_value := v |}.
Definition TimeValue_new (h m : Z) (v : BACnetValue) : TimeValue := TimeValue_with_seconds h m 0 v.
Abbreviation DailySchedule := (list TimeValue).

Definition date_to_ordinal (d : BACnetDate) : Z := (year d + 1900) * 10000 + month d * 100 + day d.
Definition time_to_seconds (t : BACnetTime) : Z := hour t * 3600 + minute t * 60 + second t.

Record DateRange : Set := { dr_start : BACnetDate; dr_end : BACnetDate }.
Definition range_contains (r : DateRange) (d : BACnetDate) : bool :=
  (date_to_ordinal (dr_start r) <=? date_to_ordinal d) && (date_to_ordinal d <=? date_to_ordinal (dr_end r)).

(** [month % 2 == 0]. *)
Definition is_even (x : Z) : bool := x mod 2 =? 0.
Definition date_matches_pattern (c p : BACnetDate) : bool :=
  ((year p =? 255) || (year p =? year c)) &&
  ((month p =? 255) ||
   (if month p =? 13 then negb (is_even (month c)) else if month p =? 14 then is_even (month c) else month p =? month c)) &&
  ((day p =? 255) ||
   (if day p =? 33 then negb (is_even (day c)) else if day p =? 34 then is_even (day c)
    else if day p =? 32 then true else day p =? day c)) &&
  ((day_of_week p =? 255) || (day_of_week p =? day_of_week c)).

Inductive CalendarEntry : Set :=
| CeDate (d : BACnetDate)
| CeDateRange (r : DateRange)
| CeWeekNDay (month week_of_month day_of_week : Z).

Section evaluation.
Context `{BuildProfile}.

(** The week is computed only when it is asked for, with [day - 1] at type [u8]. *)
Definition week_matches {E} (week d : Z) : outcome E bool :=
  if week =? 255 then Ok true
  else
    let? before := checked_op 256 (d - 1) in
    if week =? 6 then Ok (21 <? d) else Ok (week =? before / 7 + 1).
Definition entry_matches {E} (e : CalendarEntry) (date : BACnetDate) : outcome E bool :=
  match e with
  | CeDate d => Ok (date_matches_pattern date d)
  | CeDateRange r => Ok (range_contains r date)
  | CeWeekNDay m week dow =>
      if negb (m =? 255) && negb (m =? month date) &&
         ((m =? 13) && is_even (month date) || (m =? 14) && negb (is_even (month date)) || (m <=? 12)) then Ok false
      else if negb (dow =? 255) && negb (dow =? day_of_week date) then Ok false
      else week_matches week (day date)
  end.

Fixpoint daily_loop (now : Z) (l : DailySchedule) (result : option BACnetValue) : option BACnetValue :=
  match l with
  | [] => result
  | e :: l => if time_to_seconds (tv_time e) <=? now then daily_loop now l (Some (tv_value e)) else result
  end.
Definition evaluate_daily_schedule (l : DailySchedule) (now : BACnetTime) : option BACnetValue := daily_loop (time_to_seconds now) l None.
Definition bacnet_day_of_week_to_index (d : Z) : option nat := if (1 <=? d) && (d <=? 7) then Some (Z.to_nat (d - 1)) else None.

Inductive SpecialEventPeriod : Type :=
| PeriodEntry (e : CalendarEntry)
| PeriodReference (id : ObjectId).
Record SpecialEvent : Type := { se_period : SpecialEventPeriod; se_schedule : DailySchedule; se_priority : Z }.
Definition period_matches {E} (p : SpecialEventPeriod) (date : BACnetDate) : outcome E bool :=
  match p with PeriodEntry e => entry_matches e date | PeriodReference _ => Ok false end.

(** [sort_by_key(|e| e.priority)] is stable. *)
Fixpoint insert_event (x : SpecialEvent) (l : list SpecialEvent) : list SpecialEvent :=
  match l with
  | [] => [x]
  | y :: l' => if se_priority x <=? se_priority y then x :: l else y :: insert_event x l'
  end.
Definition sort_events (l : list SpecialEvent) : list SpecialEvent := foldr insert_event [] l.

(* ------------------------------------------------------------------ *)
(** * The Schedule object *)

Record ObjectPropertyReference : Set := { or_object_id : ObjectId; or_property_id : PropertyId; or_array_index : option Z }.
Record Schedule : Type := {
  sh_id : ObjectId; sh_name : list Z; sh_description : list Z; sh_properties : PropertyStore;
  sh_weekly_schedule : list DailySchedule; sh_exception_schedule : list SpecialEvent; sh_effective_period : option DateRange;
  sh_schedule_default : BACnetValue; sh_references : list ObjectPropertyReference; sh_priority_for_writing : Z;
  sh_out_of_service : bool; sh_reliability : Z; sh_present_value : BACnetValue;
}.
Definition Schedule_new {E} (inst : Z) (name : list Z) : outcome E Schedule :=
  let? id := ObjectId_new OtSchedule inst in
  Ok {| sh_id := id; sh_name := name; sh_description := []; sh_properties := ∅; sh_weekly_schedule := replicate 7 [];
        sh_exception_schedule := []; sh_effective_period := None; sh_schedule_default := VNull; sh_references := [];
        sh_priority_for_writing := 16; sh_out_of_service := false; sh_reliability := 0; sh_present_value := VNull |}.

(** One setter for every group of fields the methods write. *)
Definition sh_with (weekly : list DailySchedule) (exceptions : list SpecialEvent) (period : option DateRange) (default : BACnetValue)
    (refs : list ObjectPropertyReference) (prio : Z) (s : Schedule) : Schedule :=
  {| sh_id := sh_id s; sh_name := sh_name s; sh_description := sh_description s; sh_properties := sh_properties s;
     sh_weekly_schedule := weekly; sh_exception_schedule := exceptions; sh_effective_period := period; sh_schedule_default := default;
     sh_references := refs; sh_priority_for_writing := prio; sh_out_of_service := sh_out_of_service s; sh_reliability := sh_reliability s;
     sh_present_value := sh_present_value s |}.
Definition sh_set_weekly (w : list DailySchedule) (s : Schedule) : Schedule :=
  sh_with w (sh_exception_schedule s) (sh_effective_period s) (sh_schedule_default s) (sh_references s) (sh_priority_for_writing s) s.
Definition sh_set_exceptions (e : list SpecialEvent) (s : Schedule) : Schedule :=
  sh_with (sh_weekly_schedule s) e (sh_effective_period s) (sh_schedule_default s) (sh_references s) (sh_priority_for_writing s) s.
Definition set_effective_period (p : option DateRange) (s : Schedule) : Schedule :=
  sh_with (sh_weekly_schedule s) (sh_exception_schedule s) p (sh_schedule_default s) (sh_references s) (sh_priority_for_writing s) s.
Definition set_schedule_default (v : BACnetValue) (s : Schedule) : Schedule :=
  sh_with (sh_weekly_schedule s) (sh_exception_schedule s) (sh_effective_period s) v (sh_references s) (sh_priority_for_writing s) s.
Definition sh_set_priority (p : Z) (s : Schedule) : Schedule :=
  sh_with (sh_weekly_schedule s) (sh_exception_schedule s) (sh_effective_period s) (sh_schedule_default s) (sh_references s) p s.
Definition add_output_reference (r : ObjectPropertyReference) (s : Schedule) : Schedule :=
  sh_with (sh_weekly_schedule s) (sh_exception_schedule s) (sh_effective_period s) (sh_schedule_default s) (sh_references s ++ [r])
    (sh_priority_for_writing s) s.
Definition sh_set_state (props : PropertyStore) (oos : bool) (rel : Z) (v : BACnetValue) (s : Schedule) : Schedule :=
  {| sh_id := sh_id s; sh_name := sh_name s; sh_description := sh_description s; sh_properties := props;
     sh_weekly_schedule := sh_weekly_schedule s; sh_exception_schedule := sh_exception_schedule s;
     sh_effective_period := sh_effective_period s; sh_schedule_default := sh_schedule_default s; sh_references := sh_references s;
     sh_priority_for_writing := sh_priority_for_writing s; sh_out_of_service := oos; sh_reliability := rel; sh_present_value := v |}.
Definition schedule_set_present_value (v : BACnetValue) (s : Schedule) : Schedule :=
  sh_set_state (sh_properties s) (sh_out_of_service s) (sh_reliability s) v s.
Definition schedule_set_property (k : PropertyId) (v : BACnetValue) (s : Schedule) : Schedule :=
  sh_set_state (<[k := v]> (sh_properties s)) (sh_out_of_service s) (sh_reliability s) (sh_present_value s) s.

(** [p.min(16).max(1)]. *)
Definition clamp_priority (p : Z) : Z := Z.max (Z.min p 16) 1.
Definition schedule_with_priority (p : Z) (s : Schedule) : Schedule := sh_set_priority (clamp_priority p) s.
Definition set_daily_schedule (i : nat) (d : DailySchedule) (s : Schedule) : Schedule :=
  if (i <? 7)%nat then sh_set_weekly (<[i := d]> (sh_weekly_schedule s)) s else s.
Definition get_daily_schedule (i : nat) (s : Schedule) : option DailySchedule := if (i <? 7)%nat then sh_weekly_schedule s !! i else None.
Definition add_exception (e : SpecialEvent) (s : Schedule) : Schedule :=
  sh_set_exceptions (sort_events (sh_exception_schedule s ++ [e])) s.
Definition clear_exceptions (s : Schedule) : Schedule := sh_set_exceptions [] s.
Definition exception_count (s : Schedule) : Z := zlen (sh_exception_schedule s).

(** The value of the first event that applies. *)
Fixpoint exception_value {E} (date : BACnetDate) (time : BACnetTime) (l : list SpecialEvent) : outcome E (option BACnetValue) :=
  match l with
  | [] => Ok None
  | e :: l =>
      let? m := period_matches (se_period e) date in
      match (if m : bool then evaluate_daily_schedule (se_schedule e) time else None) with
      | Some v => Ok (Some v)
      | None => exception_value date time l
      end
  end.
Definition weekly_value {E} (date : BACnetDate) (time : BACnetTime) (s : Schedule) : outcome E (option BACnetValue) :=
  match bacnet_day_of_week_to_index (day_of_week date) with
  | Some i => let? d := index (sh_weekly_schedule s) i in Ok (evaluate_daily_schedule d time)
  | None => Ok None
  end.
Definition in_effect (date : BACnetDate) (s : Schedule) : bool :=
  match sh_effective_period s with Some p => range_contains p date | None => true end.
Definition schedule_value {E} (date : BACnetDate) (time : BACnetTime) (s : Schedule) : outcome E BACnetValue :=
  if negb (in_effect date s) then Ok (sh_schedule_default s)
  else
    let? v := exception_value date time (sh_exception_schedule s) in
    match v with
    | Some v => Ok v
    | None => let? v := weekly_value date time s in Ok (default (sh_schedule_default s) v)
    end.
(** [Schedule::evaluate]: the value is also the new present value. *)
Definition evaluate {E} (date : BACnetDate) (time : BACnetTime) : stM Schedule E BACnetValue := fun s =>
  match schedule_value date time s with
  | Ok v => (Ok v, schedule_set_present_value v s)
  | Err e => (Err e, s)
  | Panic => (Panic, s)
  end.

Definition Schedule_status_flags (s : Schedule) : StatusFlags :=
  {| in_alarm := false; fault := negb (sh_reliability s =? 0); overridden := false; sf_out_of_service := sh_out_of_service s |}.
Definition time_value_array (t : TimeValue) : BACnetValue := VArray [VTime (tv_time t); tv_value t].
Definition schedule_stored (props : PropertyStore) (k : PropertyId) : outcome PropertyError BACnetValue := ok_or (props !! k) (PeNotFound k).
Definition Schedule_read_property (s : Schedule) (k : PropertyId) : outcome PropertyError BACnetValue :=
  match k with
  | PiObjectIdentifier => Ok (VObjectIdentifier (sh_id s))
  | PiObjectName => Ok (VCharacterString (sh_name s))
  | PiObjectType => Ok (VEnumerated (ObjectType_as_u16 OtSchedule))
  | PiDescription => Ok (VCharacterString (sh_description s))
  | PiPresentValue => Ok (sh_present_value s)
  | PiStatusFlags => Ok (VBitString (StatusFlags_to_bits (Schedule_status_flags s)))
  | PiEventState => Ok (VEnumerated 0)
  | PiReliability => Ok (VEnumerated (sh_reliability s))
  | PiOutOfService => Ok (VBoolean (sh_out_of_service s))
  | PiScheduleDefault => Ok (sh_schedule_default s)
  | PiPriorityForWriting => Ok (VUnsigned (sh_priority_for_writing s))
  | PiEffectivePeriod => match sh_effective_period s with Some r => Ok (VArray [VDate (dr_start r); VDate (dr_end r)]) | None => Ok VNull end
  | PiWeeklySchedule => Ok (VArray ((fun d => VList (time_value_array <$> d)) <$> sh_weekly_schedule s))
  | PiExceptionSchedule => Ok (VArray ((fun _ => VUnsigned 1) <$> sh_exception_schedule s))
  | PiListOfObjectPropertyReferences => Ok (VArray ((fun r => VObjectIdentifier (or_object_id r)) <$> sh_references s))
  | _ => schedule_stored (sh_properties s) k
  end.
Definition Schedule_write_property (k : PropertyId) (v : BACnetValue) : stM Schedule PropertyError unit := fun s =>
  match k, v with
  | (PiObjectIdentifier | PiObjectType | PiObjectName), _ => (Err (PeReadOnly k), s)
  | PiDescription, VCharacterString _ => (Ok tt, schedule_set_property k v s)
  | PiPresentValue, _ => (Ok tt, schedule_set_present_value v s)
  | PiOutOfService, VBoolean b => (Ok tt, sh_set_state (sh_properties s) b (sh_reliability s) (sh_present_value s) s)
  | PiScheduleDefault, _ => (Ok tt, set_schedule_default v s)
  | PiPriorityForWriting, VUnsigned p => (Ok tt, sh_set_priority (clamp_priority (as_u8 p)) s)
  | PiReliability, VEnumerated r => (Ok tt, sh_set_state (sh_properties s) (sh_out_of_service s) r (sh_present_value s) s)
  | (PiDescription | PiOutOfService | PiPriorityForWriting | PiReliability), _ => (Err (PeInvalidDataType k), s)
  | _, _ => (Ok tt, schedule_set_property k v s)
  end.
Definition Schedule_list_properties : list PropertyId :=
  [PiObjectIdentifier; PiObjectName; PiObjectType; PiDescription; PiPresentValue; PiStatusFlags; PiEventState; PiReliability;
   PiOutOfService; PiEffectivePeriod; PiWeeklySchedule; PiExceptionSchedule; PiScheduleDefault; PiListOfObjectPropertyReferences;
   PiPriorityForWriting].
(** The override of [has_property]. *)
Definition Schedule_has_property (s : Schedule) (k : PropertyId) : bool :=
  bool_decide (k ∈ Schedule_list_properties) || is_some (sh_properties s !! k).

(* ------------------------------------------------------------------ *)
(** * The Calendar object *)

Record Calendar : Type := {
  ca_id : ObjectId; ca_name : list Z; ca_description : list Z; ca_properties : PropertyStore;
  ca_date_list : list CalendarEntry; ca_present_value : bool }.
Definition Calendar_new {E} (inst : Z) (name : list Z) : outcome E Calendar :=
  let? id := ObjectId_new OtCalendar inst in
  Ok {| ca_id := id; ca_name := name; ca_description := []; ca_properties := ∅; ca_date_list := []; ca_present_value := false |}.
Definition ca_set (props : PropertyStore) (l : list CalendarEntry) (v : bool) (c : Calendar) : Calendar :=
  {| ca_id := ca_id c; ca_name := ca_name c; ca_description := ca_description c; ca_properties := props; ca_date_list := l;
     ca_present_value := v |}.
Definition add_entry (e : CalendarEntry) (c : Calendar) : Calendar := ca_set (ca_properties c) (ca_date_list c ++ [e]) (ca_present_value c) c.
Definition clear_entries (c : Calendar) : Calendar := ca_set (ca_properties c) [] (ca_present_value c) c.
Definition calendar_set_present_value (v : bool) (c : Calendar) : Calendar := ca_set (ca_properties c) (ca_date_list c) v c.
(** [iter().any(..)] stops at the first match. *)
Fixpoint any_matches {E} (date : BACnetDate) (l : list CalendarEntry) : outcome E bool :=
  match l with
  | [] => Ok false
  | e :: l => let? m := entry_matches e date in if m : bool then Ok true else any_matches date l
  end.
Definition calendar_evaluate {E} (date : BACnetDate) : stM Calendar E bool := fun c =>
  match any_matches date (ca_date_list c) with
  | Ok b => (Ok b, calendar_set_present_value b c)
  | Err e => (Err e, c)
  | Panic => (Panic, c)
  end.
Definition entry_value (e : CalendarEntry) : BACnetValue :=
  match e with
  | CeDate d => VDate d
  | CeDateRange r => VArray [VDate (dr_start r); VDate (dr_end r)]
  | CeWeekNDay m w d => VOctetString [m; w; d]
  end.
Definition Calendar_read_property (c : Calendar) (k : PropertyId) : outcome PropertyError BACnetValue :=
  match k with
  | PiObjectIdentifier => Ok (VObjectIdentifier (ca_id c))
  | PiObjectName => Ok (VCharacterString (ca_name c))
  | PiObjectType => Ok (VEnumerated (ObjectType_as_u16 OtCalendar))
  | PiDescription => Ok (VCharacterString (ca_description c))
  | PiPresentValue => Ok (VBoolean (ca_present_value c))
  | PiStatusFlags => Ok (VBitString [false; false; false; false])
  | PiDateList => Ok (VList (entry_value <$> ca_date_list c))
  | _ => schedule_stored (ca_properties c) k
  end.
Definition Calendar_write_property (k : PropertyId) (v : BACnetValue) : stM Calendar PropertyError unit := fun c =>
  let store := (Ok tt, ca_set (<[k := v]> (ca_properties c)) (ca_date_list c) (ca_present_value c) c) in
  match k, v with
  | (PiObjectIdentifier | PiObjectType | PiObjectName), _ => (Err (PeReadOnly k), c)
  | PiDescription, VCharacterString _ => store
  | PiPresentValue, VBoolean b => (Ok tt, calendar_set_present_value b c)
  | (PiDescription | PiPresentValue), _ => (Err (PeInvalidDataType k), c)
  | _, _ => store
  end.
Definition Calendar_list_properties : list PropertyId :=
  [PiObjectIdentifier; PiObjectName; PiObjectType; PiDescription; PiPresentValue; PiStatusFlags; PiDateList].
End evaluation.

#[global] Instance schedule_object : BACnetObject Schedule := {
  object_identifier := sh_id; object_name := sh_name; read_property := Schedule_read_property;
  write_property := Schedule_write_property; list_properties := fun _ => Schedule_list_properties;
  object_status_flags := Schedule_status_flags }.
#[global] Instance calendar_object : BACnetObject Calendar := {
  object_identifier := ca_id; object_name := ca_name; read_property := Calendar_read_property;
  write_property := Calendar_write_property; list_properties := fun _ => Calendar_list_properties;
  object_status_flags := fun _ => {| in_alarm := false; fault := false; overridden := false; sf_out_of_service := false |} }.

(* ------------------------------------------------------------------ *)
(** * The laws of the object interface *)

Definition schedule_ok (s : Schedule) : Prop := length (sh_weekly_schedule s) = 7%nat ∧ 1 <= sh_priority_for_writing s <= 16.
#[global] Instance schedule_laws : ObjectLaws Schedule.
Proof.
  exists schedule_ok.
  - intros k v s. cbn. destruct k; try done; destruct v; done.
  - intros k v s e. cbn. destruct k; try done; destruct v; done.
  - intros k v s Hs. cbn. destruct k; try done; destruct v; try done. split; [done|]. destruct Hs. split; [done|]. cbn. unfold clamp_priority. lia.
  - intros s k. cbn. destruct k; try done; cbn; unfold schedule_stored, ok_or; by case_match.
Defined.
#[global] Instance calendar_laws : ObjectLaws Calendar.
Proof.
  exists (fun _ => True).
  - intros k v c. cbn. destruct k; try done; destruct v; done.
  - intros k v c e. cbn. destruct k; try done; destruct v; done.
  - intros k v c _. cbn. destruct k; try done; destruct v; done.
  - intros c k. cbn. destruct k; try done; cbn; unfold schedule_stored, ok_or; by case_match.
Defined.

(* ------------------------------------------------------------------ *)
(** * What a daily schedule means *)

(** The second of the day. *)
Definition second_of_day (t : BACnetTime) : Z := (hour t * 60 + minute t) * 60 + second t.
Definition entry_secs (e : TimeValue) : Z := second_of_day (tv_time e).
Lemma seconds_of_day t : time_to_seconds t = second_of_day t.
Proof. unfold time_to_seconds, second_of_day. lia. Qed.
Definition day_sorted (l : list TimeValue) : Prop := StronglySorted (fun a b => entry_secs a <= entry_secs b) l.
(** The value in force at a time: that of the last entry at or before it. *)
Definition in_force (now : BACnetTime) (l : list TimeValue) : option BACnetValue :=
  tv_value <$> last (filter (fun e => entry_secs e <= second_of_day now) l).

Lemma daily_loop_in_force now (l : list TimeValue) r : day_sorted l →
  daily_loop now l r = match last (filter (fun e => entry_secs e <= now) l) with Some e => Some (tv_value e) | None => r end.
Proof.
  intros Hl. revert r. induction Hl as [|e l Hl IH Hle]; intros r; [done|]. cbn [daily_loop]. rewrite seconds_of_day. fold (entry_secs e).
  destruct (Z.leb_spec (entry_secs e) now) as [He|He].
  - rewrite filter_cons, decide_True by done. rewrite IH, last_cons. by destruct (last _).
  - rewrite filter_cons, decide_False by lia. rewrite filter_none; [done|]. eapply Forall_impl; [exact Hle|]. cbn. intros; lia.
Qed.
Lemma daily_in_force (l : list TimeValue) now : day_sorted l → evaluate_daily_schedule l now = in_force now l.
Proof. intros Hl. unfold evaluate_daily_schedule, in_force. rewrite daily_loop_in_force, seconds_of_day by done. by destruct (last _). Qed.

(* ------------------------------------------------------------------ *)
(** * The dates a period covers *)

(** Patterns of a single date: 255 stands for any; month 13 and day 33 for the odd ones, month 14 and day
    34 for the even ones; day 32 for every day. *)
Inductive month_fits : Z → Z → Prop :=
| month_any c : month_fits 255 c
| month_odd c : Z.Odd c → month_fits 13 c
| month_even c : Z.Even c → month_fits 14 c
| month_is c : c ≠ 255 → c ≠ 13 → c ≠ 14 → month_fits c c.
Inductive day_fits : Z → Z → Prop :=
| day_any c : day_fits 255 c
| day_odd c : Z.Odd c → day_fits 33 c
| day_even c : Z.Even c → day_fits 34 c
| day_every c : day_fits 32 c
| day_is c : c ≠ 255 → c ≠ 32 → c ≠ 33 → c ≠ 34 → day_fits c c.
Definition field_fits (p c : Z) : Prop := p = 255 ∨ p = c.
(** Months of a week-and-day pattern: every number from 15 on stands for any. *)
Definition week_month_fits (p c : Z) : Prop := p = c ∨ p = 13 ∧ Z.Odd c ∨ p = 14 ∧ Z.Even c ∨ 15 <= p.
(** The weeks of a month are its days 1 to 7, 8 to 14 and so on; week 6 is whatever is after the 21st. *)
Definition week_fits (w d : Z) : Prop := w = 255 ∨ w = 6 ∧ 21 < d ∨ w ≠ 6 ∧ 7 * (w - 1) < d <= 7 * w.
(** Dates compare as the numbers their digits write, yyyymmdd. *)
Definition yyyymmdd (d : BACnetDate) : Z := 10000 * (1900 + year d) + 100 * month d + day d.

Inductive period_covers (date : BACnetDate) : SpecialEventPeriod → Prop :=
| covers_date p : field_fits (year p) (year date) → month_fits (month p) (month date) → day_fits (day p) (day date) →
    field_fits (day_of_week p) (day_of_week date) → period_covers date (PeriodEntry (CeDate p))
| covers_range r : yyyymmdd (dr_start r) <= yyyymmdd date <= yyyymmdd (dr_end r) → period_covers date (PeriodEntry (CeDateRange r))
| covers_week m w dow : week_month_fits m (month date) → week_fits w (day date) → field_fits dow (day_of_week date) →
    period_covers date (PeriodEntry (CeWeekNDay m w dow)).

(** For dates of the calendar that order is the order of time. *)
Lemma yyyymmdd_order a b :
  1 <= month a <= 12 → 1 <= day a <= 31 → 1 <= month b <= 12 → 1 <= day b <= 31 →
  yyyymmdd a <= yyyymmdd b ↔
  year a < year b ∨ year a = year b ∧ (month a < month b ∨ month a = month b ∧ day a <= day b).
Proof. unfold yyyymmdd. lia. Qed.

Lemma is_even_spec x : is_even x = true ↔ Z.Even x.
Proof.
  unfold is_even. rewrite Z.eqb_eq. split; [intros Hx; exists (x / 2); Z.div_mod_to_equations; lia|intros [k ->]; Z.div_mod_to_equations; lia].
Qed.
Lemma is_odd_spec x : negb (is_even x) = true ↔ Z.Odd x.
Proof.
  unfold is_even. rewrite negb_true_iff, Z.eqb_neq. split; [intros Hx; exists (x / 2); Z.div_mod_to_equations; lia|intros [k ->]; Z.div_mod_to_equations; lia].
Qed.
Lemma month_fits_spec p c :
  (p =? 255) || (if p =? 13 then negb (is_even c) else if p =? 14 then is_even c else p =? c) = true ↔ month_fits p c.
Proof.
  split.
  - destruct (Z.eqb_spec p 255) as [->|]; [intros _; constructor|]. cbn [orb]. destruct (Z.eqb_spec p 13) as [->|]; [intros Hc%is_odd_spec; by constructor|].
    destruct (Z.eqb_spec p 14) as [->|]; [intros Hc%is_even_spec; by constructor|]. intros ->%Z.eqb_eq. by constructor.
  - intros [?|? ?%is_odd_spec|? ?%is_even_spec|x ? ? ?]; [done..|].
    by rewrite (proj2 (Z.eqb_neq x 255)), (proj2 (Z.eqb_neq x 13)), (proj2 (Z.eqb_neq x 14)), Z.eqb_refl.
Qed.
Lemma day_fits_spec p c :
  (p =? 255) || (if p =? 33 then negb (is_even c) else if p =? 34 then is_even c else if p =? 32 then true else p =? c) = true ↔ day_fits p c.
Proof.
  split.
  - destruct (Z.eqb_spec p 255) as [->|]; [intros _; constructor|]. cbn [orb]. destruct (Z.eqb_spec p 33) as [->|]; [intros Hc%is_odd_spec; by constructor|].
    destruct (Z.eqb_spec p 34) as [->|]; [intros Hc%is_even_spec; by constructor|]. destruct (Z.eqb_spec p 32) as [->|]; [constructor|].
    intros ->%Z.eqb_eq. by constructor.
  - intros [?|? ?%is_odd_spec|? ?%is_even_spec|?|x ? ? ? ?]; [done..|].
    by rewrite (proj2 (Z.eqb_neq x 255)), (proj2 (Z.eqb_neq x 33)), (proj2 (Z.eqb_neq x 34)), (proj2 (Z.eqb_neq x 32)), Z.eqb_refl.
Qed.
Lemma field_fits_spec p c : (p =? 255) || (p =? c) = true ↔ field_fits p c.
Proof. unfold field_fits. by rewrite orb_true_iff, !Z.eqb_eq. Qed.
Lemma range_contains_spec r d : range_contains r d = true ↔ yyyymmdd (dr_start r) <= yyyymmdd d <= yyyymmdd (dr_end r).
Proof. unfold range_contains, date_to_ordinal, yyyymmdd. rewrite andb_true_iff, !Z.leb_le. lia. Qed.
Lemma week_month_spec m c :
  negb (m =? 255) && negb (m =? c) && ((m =? 13) && is_even c || (m =? 14) && negb (is_even c) || (m <=? 12)) = false ↔ week_month_fits m c.
Proof.
  unfold week_month_fits. rewrite <- is_odd_spec, <- is_even_spec.
  destruct (Z.eqb_spec m 255), (Z.eqb_spec m c), (Z.eqb_spec m 13), (Z.eqb_spec m 14), (Z.leb_spec m 12), (is_even c); cbn; intuition (try discriminate; try lia).
Qed.
Lemma week_matches_spec `{BuildProfile} {E} w d : 1 <= d <= 255 → ∃ b, week_matches (E:=E) w d = Ok b ∧ (b = true ↔ week_fits w d).
Proof.
  intros Hd. unfold week_matches, week_fits. destruct (Z.eqb_spec w 255); [exists true; split; [done|split; [by left|done]]|].
  rewrite checked_op_exact by lia. cbn [obind]. destruct (Z.eqb_spec w 6).
  - eexists. split; [reflexivity|]. rewrite Z.ltb_lt. lia.
  - eexists. split; [reflexivity|]. rewrite Z.eqb_eq. Z.div_mod_to_equations; lia.
Qed.

(** What the code tests is what the period covers. *)
Lemma period_matches_spec `{BuildProfile} {E} p date : 1 <= day date <= 255 →
  ∃ b, period_matches (E:=E) p date = Ok b ∧ (b = true ↔ period_covers date p).
Proof.
  intros Hd. destruct p as [[d|r|m w dw]|id]; cbn [period_matches entry_matches].
  - eexists. split; [reflexivity|]. unfold date_matches_pattern.
    rewrite !andb_true_iff, month_fits_spec, day_fits_spec, !field_fits_spec. split; [intros [[[? ?] ?] ?]; by constructor|by inversion 1].
  - eexists. split; [reflexivity|]. rewrite range_contains_spec. split; [by constructor|by inversion 1].
  - pose proof (week_month_spec m (month date)) as Hm. pose proof (field_fits_spec dw (day_of_week date)) as Hw.
    destruct (negb (m =? 255) && _ && _).
    { exists false. split; [done|]. split; [done|]. inversion 1; subst. naive_solver. }
    rewrite <- negb_orb. destruct ((dw =? 255) || _); cbn [negb].
    + destruct (week_matches_spec (E:=E) w (day date) Hd) as (b & -> & Hb). exists b. split; [done|]. rewrite Hb.
      split; [intros; constructor; [by apply Hm|done|by apply Hw]|by inversion 1].
    + exists false. split; [done|]. split; [done|]. inversion 1; subst. naive_solver.
  - exists false. split; [done|]. split; [done|]. inversion 1.
Qed.

(* ------------------------------------------------------------------ *)
(** * Which exception wins *)

Section precedence.
Context `{BuildProfile}.

(** The value an event gives at a date and time, if it applies. *)
Definition event_value (date : BACnetDate) (time : BACnetTime) (e : SpecialEvent) : option BACnetValue :=
  match period_matches (E:=PropertyError) (se_period e) date with
  | Ok true => in_force time (se_schedule e)
  | _ => None
  end.
Lemma period_total {E} p date : 1 <= day date <= 255 → ∃ b, period_matches (E:=E) p date = Ok b.
Proof. intros Hd. destruct (period_matches_spec (E:=E) p date Hd) as (b & Hb & _). eauto. Qed.
Lemma period_same {E F} p date b : 1 <= day date <= 255 → period_matches (E:=E) p date = Ok b → period_matches (E:=F) p date = Ok b.
Proof.
  intros Hd Hb. destruct (period_matches_spec (E:=E) p date Hd) as (b1 & H1 & Hs1), (period_matches_spec (E:=F) p date Hd) as (b2 & H2 & Hs2).
  rewrite H2. f_equal. assert (b = b1) as -> by congruence. destruct b1, b2; naive_solver.
Qed.
(** An event yields a value: its period covers the date, and the value is in force in its list. *)
Definition event_yields (date : BACnetDate) (time : BACnetTime) (e : SpecialEvent) (v : BACnetValue) : Prop :=
  period_covers date (se_period e) ∧ in_force time (se_schedule e) = Some v.
Lemma event_value_yields date time e v : 1 <= day date <= 255 → event_value date time e = Some v ↔ event_yields date time e v.
Proof.
  intros Hd. unfold event_value, event_yields. destruct (period_matches_spec (E:=PropertyError) (se_period e) date Hd) as (b & -> & Hb).
  destruct b; split; [intros; by split; [apply Hb|]|by intros [_ ?]|done|]. intros [Hc _]. by apply Hb in Hc.
Qed.
Definition first_value (date : BACnetDate) (time : BACnetTime) (l : list SpecialEvent) : option SpecialEvent :=
  head (filter (fun e => is_Some (event_value date time e)) l).
Lemma exception_value_first {E} date time l : 1 <= day date <= 255 → Forall (fun e => day_sorted (se_schedule e)) l →
  exception_value (E:=E) date time l = Ok (first_value date time l ≫= event_value date time).
Proof.
  intros Hd. induction 1 as [|e l He Hl IH]; [done|]. cbn [exception_value]. unfold first_value.
  destruct (period_total (E:=E) (se_period e) date Hd) as [b Hb]. rewrite Hb. cbn [obind].
  pose proof (period_same (F:=PropertyError) _ _ _ Hd Hb) as Hb'. rewrite daily_in_force by done.
  assert (event_value date time e = if b : bool then in_force time (se_schedule e) else None) as Hv
    by (unfold event_value; rewrite Hb'; by destruct b).
  rewrite <- Hv. destruct (event_value date time e) as [v|] eqn:Ev.
  - rewrite filter_cons_True by (rewrite Ev; eauto). cbn. by rewrite Ev.
  - rewrite filter_cons_False by (by apply eq_None_not_Some). apply IH.
Qed.

(** The winner of a list in order of arrival: the least priority number, the earliest of equals. *)
Definition choose (date : BACnetDate) (time : BACnetTime) (e : SpecialEvent) (best : option SpecialEvent) : option SpecialEvent :=
  match event_value date time e with
  | None => best
  | Some _ => match best with Some b => if se_priority b <? se_priority e then Some b else Some e | None => Some e end
  end.
Lemma first_insert date time e l : StronglySorted (fun a b => se_priority a <= se_priority b) l →
  first_value date time (insert_event e l) = choose date time e (first_value date time l).
Proof.
  intros Hl. unfold first_value, choose. induction Hl as [|y l Hl IH Hy]; cbn [insert_event].
  { destruct (event_value date time e) eqn:Ee; [rewrite filter_cons_True by (rewrite Ee; eauto)|rewrite filter_cons_False by (by apply eq_None_not_Some)]; done. }
  destruct (Z.leb_spec (se_priority e) (se_priority y)) as [Hp|Hp].
  - destruct (event_value date time e) as [v|] eqn:Ee; [|by rewrite (filter_cons_False _ e) by (by apply eq_None_not_Some)].
    rewrite (filter_cons_True _ e) by (rewrite Ee; eauto). cbn [head].
    destruct (head (filter _ (y :: l))) as [b|] eqn:Eb; [|done].
    assert (b ∈ y :: l) as Hb. { apply head_Some in Eb as [k Hk]. eapply list_elem_of_filter. rewrite Hk. left. }
    assert (se_priority y <= se_priority b) by (apply elem_of_cons in Hb as [->|Hb]; [lia|by apply (proj1 (Forall_forall _ _) Hy)]).
    by replace (se_priority b <? se_priority e) with false by lia.
  - destruct (decide (is_Some (event_value date time y))) as [Hv|Hv].
    + rewrite !(filter_cons_True _ y) by done. cbn. replace (se_priority y <? se_priority e) with true by lia. by destruct (event_value date time e).
    + rewrite !(filter_cons_False _ y) by done. apply IH.
Qed.
Lemma insert_sorted e l : StronglySorted (fun a b => se_priority a <= se_priority b) l → StronglySorted (fun a b => se_priority a <= se_priority b) (insert_event e l).
Proof.
  intros Hl. induction Hl as [|y l Hl IH Hy]; cbn; [by repeat constructor|].
  destruct (Z.leb_spec (se_priority e) (se_priority y)) as [Hp|Hp].
  - constructor; [by constructor|]. constructor; [done|]. eapply Forall_impl; [exact Hy|]. cbn. intros; lia.
  - constructor; [done|]. clear IH Hl. induction Hy as [|z l Hz Hy IHy]; cbn; [constructor; [lia|done]|].
    case_match; constructor; [lia|by constructor|done|done].
Qed.
Lemma sort_sorted l : StronglySorted (fun a b => se_priority a <= se_priority b) (sort_events l).
Proof. induction l as [|e l IH]; [constructor|]. by apply insert_sorted. Qed.
Lemma first_sorted date time l : first_value date time (sort_events l) = foldr (choose date time) None l.
Proof. induction l as [|e l IH]; [done|]. change (sort_events (e :: l)) with (insert_event e (sort_events l)). rewrite first_insert by apply sort_sorted. by rewrite IH. Qed.

(** Sorting again after each addition is sorting once. *)
Lemma sort_sorted_id l : StronglySorted (fun a b => se_priority a <= se_priority b) l → sort_events l = l.
Proof.
  induction 1 as [|x l Hl IH Hx]; [done|]. change (sort_events (x :: l)) with (insert_event x (sort_events l)). rewrite IH. destruct l as [|y l]; [done|]. cbn.
  inversion Hx; subst. by replace (se_priority x <=? se_priority y) with true by lia.
Qed.
Lemma insert_comm x y l : se_priority y < se_priority x → insert_event x (insert_event y l) = insert_event y (insert_event x l).
Proof.
  intros Hxy. induction l as [|z l IH]; cbn.
  - by replace (se_priority x <=? se_priority y) with false by lia; replace (se_priority y <=? se_priority x) with true by lia.
  - destruct (Z.leb_spec (se_priority y) (se_priority z)), (Z.leb_spec (se_priority x) (se_priority z)); cbn.
    + replace (se_priority x <=? se_priority y) with false by lia. replace (se_priority y <=? se_priority x) with true by lia.
      by replace (se_priority x <=? se_priority z) with true by lia.
    + replace (se_priority x <=? se_priority y) with false by lia. replace (se_priority y <=? se_priority z) with true by lia.
      by replace (se_priority x <=? se_priority z) with false by lia.
    + lia.
    + replace (se_priority x <=? se_priority z) with false by lia. replace (se_priority y <=? se_priority z) with false by lia. by rewrite IH.
Qed.
Lemma foldr_insert x k l : foldr insert_event k (insert_event x l) = insert_event x (foldr insert_event k l).
Proof.
  induction l as [|y l IH]; [done|]. cbn [insert_event]. destruct (Z.leb_spec (se_priority x) (se_priority y)) as [|Hp]; [done|]. cbn [foldr].
  rewrite IH. symmetry. by apply insert_comm.
Qed.
Lemma sort_again l e : sort_events (sort_events l ++ [e]) = sort_events (l ++ [e]).
Proof.
  unfold sort_events. rewrite !foldr_app. generalize (foldr insert_event [] [e]). intros k.
  induction l as [|x l IH]; [done|]. cbn [foldr]. by rewrite foldr_insert, IH.
Qed.
(** The chosen event beats every other that applies. *)
Lemma choose_spec date time l :
  match foldr (choose date time) None l with
  | Some w => ∃ j v, l !! j = Some w ∧ event_value date time w = Some v ∧
      ∀ i e, l !! i = Some e → is_Some (event_value date time e) → se_priority w < se_priority e ∨ se_priority w = se_priority e ∧ (j <= i)%nat
  | None => Forall (fun e => event_value date time e = None) l
  end.
Proof.
  induction l as [|x l IH]; [constructor|]. cbn [foldr]. unfold choose at 1. destruct (event_value date time x) as [u|] eqn:Ex.
  - destruct (foldr _ None l) as [b|].
    + destruct IH as (j & v & Hj & Hv & Hall). destruct (Z.ltb_spec (se_priority b) (se_priority x)) as [Hlt|Hge].
      * exists (S j), v. split_and!; [done|done|]. intros [|i] e He Hs; simplify_eq/=; [by left|]. destruct (Hall i e He Hs); [by left|right; lia].
      * exists O, u. split_and!; [done|done|]. intros [|i] e He Hs; simplify_eq/=; [right; lia|]. specialize (Hall i e He Hs). lia.
    + exists O, u. split_and!; [done|done|]. intros [|i] e He Hs; simplify_eq/=; [right; lia|]. rewrite Forall_lookup in IH. rewrite (IH _ _ He) in Hs. by destruct Hs.
  - destruct (foldr _ None l) as [b|]; [|by constructor]. destruct IH as (j & v & Hj & Hv & Hall). exists (S j), v. split_and!; [done|done|].
    intros [|i] e He Hs; simplify_eq/=; [rewrite Ex in Hs; by destruct Hs|]. destruct (Hall i e He Hs); [by left|right; lia].
Qed.
End precedence.

(* ------------------------------------------------------------------ *)
(** * Schedules in use *)

Inductive ScheduleOp : Type :=
| OpDaily (i : nat) (d : list TimeValue)
| OpException (e : SpecialEvent)
| OpClear
| OpPeriod (p : option DateRange)
| OpReference (r : ObjectPropertyReference)
| OpWrite (k : PropertyId) (v : BACnetValue)
| OpEvaluate (date : BACnetDate) (time : BACnetTime).
Definition schedule_op `{BuildProfile} (s : Schedule) (op : ScheduleOp) : Schedule :=
  match op with
  | OpDaily i d => set_daily_schedule i d s
  | OpException e => add_exception e s
  | OpClear => clear_exceptions s
  | OpPeriod p => set_effective_period p s
  | OpReference r => add_output_reference r s
  | OpWrite k v => (write_property k v s).2
  | OpEvaluate date time => (evaluate (E:=PropertyError) date time s).2
  end.
(** The events added since the last clear, in order. *)
Definition event_log (ops : list ScheduleOp) : list SpecialEvent :=
  foldl (fun l op => match op with OpException e => l ++ [e] | OpClear => [] | _ => l end) [] ops.
Definition op_sorted (op : ScheduleOp) : Prop :=
  match op with OpDaily _ d => day_sorted d | OpException e => day_sorted (se_schedule e) | _ => True end.

Record schedule_inv (log : list SpecialEvent) (s : Schedule) : Prop := {
  inv_events : sh_exception_schedule s = sort_events log;
  inv_log : Forall (fun e => day_sorted (se_schedule e)) log;
  inv_days : Forall day_sorted (sh_weekly_schedule s);
  inv_ok : schedule_ok s;
}.
Lemma write_keeps_days k v s : sh_weekly_schedule (Schedule_write_property k v s).2 = sh_weekly_schedule s ∧
  sh_exception_schedule (Schedule_write_property k v s).2 = sh_exception_schedule s.
Proof. unfold Schedule_write_property. destruct k; try done; destruct v; done. Qed.
Lemma schedule_op_inv `{BuildProfile} log s op : schedule_inv log s → op_sorted op →
  schedule_inv (match op with OpException e => log ++ [e] | OpClear => [] | _ => log end) (schedule_op s op).
Proof.
  intros [He Hl Hd [H7 Hp]] Hop. destruct op as [i d|e| |p|r|k v|date time]; cbn [schedule_op].
  - unfold set_daily_schedule. destruct (Nat.ltb_spec i 7); [|by split]. split; cbn; [done|done|by apply Forall_insert|]. split; [etrans; [apply length_insert|done]|done].
  - split; cbn; [by rewrite He, sort_again|by apply Forall_app; split; [done|constructor]|done|by split].
  - by split.
  - by split.
  - by split.
  - pose proof (write_keeps_days k v s) as [Hw Hx]. assert (schedule_ok (Schedule_write_property k v s).2) as Hok
      by exact (proj2 (@write_ok Schedule _ schedule_laws k v s (conj H7 Hp))). cbn. by split; rewrite ?Hw, ?Hx.
  - unfold evaluate. destruct (schedule_value date time s); by split.
Qed.
Lemma schedule_run_inv `{BuildProfile} ops log s : schedule_inv log s → Forall op_sorted ops →
  schedule_inv (foldl (fun l op => match op with OpException e => l ++ [e] | OpClear => [] | _ => l end) log ops) (foldl schedule_op s ops).
Proof.
  intros Hs Ho. revert log s Hs. induction Ho as [|op ops Hop Ho IH]; intros log s Hs; [done|]. cbn [foldl]. apply IH. by apply schedule_op_inv.
Qed.

(** Whether a schedule is in effect on a date, and the list of the weekday, Monday the first. *)
Definition effective (date : BACnetDate) (s : Schedule) : Prop :=
  match sh_effective_period s with Some r => yyyymmdd (dr_start r) <= yyyymmdd date <= yyyymmdd (dr_end r) | None => True end.
Definition weekday_list (date : BACnetDate) (s : Schedule) : option (list TimeValue) :=
  if decide (1 <= day_of_week date <= 7) then sh_weekly_schedule s !! Z.to_nat (day_of_week date - 1) else None.
Lemma in_effect_spec date s : in_effect date s = true ↔ effective date s.
Proof. unfold in_effect, effective. destruct (sh_effective_period s); [apply range_contains_spec|done]. Qed.
Lemma weekday_index date s : (bacnet_day_of_week_to_index (day_of_week date) ≫= fun i => sh_weekly_schedule s !! i) = weekday_list date s.
Proof.
  unfold bacnet_day_of_week_to_index, weekday_list. case_decide as Hd.
  - by rewrite (proj2 (Z.leb_le _ _)), (proj2 (Z.leb_le _ _)) by lia.
  - by destruct (Z.leb_spec 1 (day_of_week date)), (Z.leb_spec (day_of_week date) 7); try lia.
Qed.


(** A calendar is active on exactly the dates of its entries: evaluating it on a date with a day
    of month returns, and leaves as present value, whether one of its entries matches. *)
Theorem calendar_exact `{BuildProfile} date c : 1 <= day date <= 255 →
  ∃ b, calendar_evaluate (E:=PropertyError) date c = (Ok b, calendar_set_present_value b c) ∧
    (b = true ↔ Exists (fun e => entry_matches (E:=PropertyError) e date = Ok true) (ca_date_list c)).
Proof.
  intros Hd. unfold calendar_evaluate.
  assert (∃ b, any_matches (E:=PropertyError) date (ca_date_list c) = Ok b ∧
    (b = true ↔ Exists (fun e => entry_matches (E:=PropertyError) e date = Ok true) (ca_date_list c))) as (b & -> & Hb); [|by exists b].
  induction (ca_date_list c) as [|e l IH]; [exists false; split; [done|split; [done|intros Hx; inversion Hx]]|]. cbn [any_matches].
  destruct (period_total (E:=PropertyError) (PeriodEntry e) date Hd) as [[] He]; cbn [period_matches] in He; rewrite He; cbn [obind].
  - exists true. split; [done|]. split; [by left|done].
  - destruct IH as (b & -> & Hb). exists b. split; [done|]. rewrite Hb, Exists_cons. split; [by right|intros [Hx|Hx]; [congruence|done]].
Qed.

(** The pattern for the last day of a month matches every day, and a month number that means
    nothing matches every month. *)
Theorem last_day_matches_every_day `{BuildProfile} date m : 1 <= month date <= 12 → 15 <= m <= 254 →
  entry_matches (E:=PropertyError) (CeDate {| year := 255; month := 255; day := 32; day_of_week := 255 |}) date = Ok true ∧
  entry_matches (E:=PropertyError) (CeWeekNDay m 255 255) date = Ok true.
Proof.
  intros Hd Hm. split; [done|]. cbn. replace (m =? 13) with false by lia. replace (m =? 14) with false by lia. replace (m <=? 12) with false by lia.
  by rewrite !andb_false_l, !orb_false_r, andb_false_r.
Qed.

(** Accepted writes that do nothing. Writing the description, the weekly or the exception
    schedule, the effective period, the references or the status of a schedule is accepted and
    kept aside: every listed property reads as before and the schedule evaluates as before. *)
Theorem schedule_writes_ignored `{BuildProfile} k v s :
  k ∈ [PiDescription; PiWeeklySchedule; PiExceptionSchedule; PiEffectivePeriod; PiListOfObjectPropertyReferences; PiStatusFlags; PiEventState] →
  (k = PiDescription → ∃ text, v = VCharacterString text) →
  (write_property k v s).1 = Ok tt ∧
  (∀ p, p ∈ Schedule_list_properties → read_property (write_property k v s).2 p = read_property s p) ∧
  ∀ date time, schedule_value (E:=PropertyError) date time (write_property k v s).2 = schedule_value date time s.
Proof.
  intros Hk Hv. assert (write_property k v s = (Ok tt, schedule_set_property k v s)) as ->.
  { repeat (apply elem_of_cons in Hk as [->|Hk]; [try done; by destruct (Hv eq_refl) as [text ->]|]). by apply elem_of_nil in Hk. }
  split; [done|]. split; [|done]. intros p Hp. repeat (apply elem_of_cons in Hp as [->|Hp]; [done|]). by apply elem_of_nil in Hp.
Qed.

(** A schedule that is out of service still overwrites its present value. *)
Theorem out_of_service_overwritten `{BuildProfile} date time v s :
  schedule_value (E:=PropertyError) date time s = Ok v → sh_out_of_service s = true →
  sh_present_value (evaluate (E:=PropertyError) date time s).2 = v ∧ sh_out_of_service (evaluate (E:=PropertyError) date time s).2 = true.
Proof. intros Hv Ho. unfold evaluate. by rewrite Hv. Qed.

(* ------------------------------------------------------------------ *)
(** * The theorems at work *)

Definition demo_day : list TimeValue := [TimeValue_new 8 0 (VReal 0x41A80000); TimeValue_new 18 0 (VReal 0x41800000)].
Definition demo_holiday : SpecialEvent :=
  {| se_period := PeriodEntry (CeDate {| year := 124; month := 12; day := 25; day_of_week := 255 |});
     se_schedule := [TimeValue_new 0 0 (VReal 0x41400000)]; se_priority := 4 |}.
Definition demo_ops : list ScheduleOp := [OpDaily 2 demo_day; OpException demo_holiday; OpWrite PiScheduleDefault (VReal 0)].
Definition christmas : BACnetDate := {| year := 124; month := 12; day := 25; day_of_week := 3 |}.
Definition noon : BACnetTime := {| hour := 12; minute := 0; second := 0; hundredths := 0 |}.
Definition demo_schedule : Schedule :=
  match Schedule_new (H := release_build) (E:=PropertyError) 1 (str "Heating") with
  | Ok s => foldl (schedule_op (H := release_build)) s demo_ops
  | _ => {| sh_id := {| object_type := OtSchedule; instance := 1 |}; sh_name := []; sh_description := []; sh_properties := ∅;
            sh_weekly_schedule := []; sh_exception_schedule := []; sh_effective_period := None; sh_schedule_default := VNull;
            sh_references := []; sh_priority_for_writing := 16; sh_out_of_service := false; sh_reliability := 0; sh_present_value := VNull |}
  end.

Lemma calendar_exact_witness : ∃ b, (calendar_evaluate (H := release_build) (E:=PropertyError) christmas
    {| ca_id := {| object_type := OtCalendar; instance := 1 |}; ca_name := []; ca_description := []; ca_properties := ∅;
       ca_date_list := [CeWeekNDay 12 255 3]; ca_present_value := false |}).1 = Ok b.
Proof.
  assert (1 <= day christmas <= 255) as Hd by (split; apply (bool_decide_unpack _); by vm_compute).
  edestruct (@calendar_exact release_build christmas) as (b & Hb & _); [exact Hd|]. exists b. rewrite Hb. reflexivity.
Defined.
Lemma last_day_matches_every_day_witness :
  entry_matches (H := release_build) (E:=PropertyError) (CeDate {| year := 255; month := 255; day := 32; day_of_week := 255 |}) christmas = Ok true.
Proof. apply (proj1 (@last_day_matches_every_day release_build christmas 99 ltac:(vm_compute; split; congruence) ltac:(vm_compute; split; congruence))). Defined.
Lemma schedule_writes_ignored_witness : (write_property PiDescription (VCharacterString (str "new")) demo_schedule).1 = Ok tt.
Proof. apply (proj1 (@schedule_writes_ignored release_build PiDescription (VCharacterString (str "new")) demo_schedule ltac:(by left) ltac:(by eexists))). Defined.
Lemma out_of_service_overwritten_witness :
  let s := (write_property PiOutOfService (VBoolean true) demo_schedule).2 in
  sh_present_value (evaluate (H := release_build) (E:=PropertyError) christmas noon s).2 = VReal 0x41400000 ∧
  sh_out_of_service (evaluate (H := release_build) (E:=PropertyError) christmas noon s).2 = true.
Proof.
  apply (@out_of_service_overwritten release_build christmas noon (VReal 0x41400000)
           (write_property PiOutOfService (VBoolean true) demo_schedule).2); reflexivity.
Defined.
