(* ===== verification/BacnetRegistry.v ===== *)
(** The object registry of a BACnet device ([mabi-bacnet/src/object/registry.rs]): objects by
    identifier, with an index by name and counts by type, over any implementation of the object
    interface.

    The concurrent maps are finite maps and each method runs as one step.  Objects are shared
    ([Arc]), so a write through any holder is a write to the entry here. *)

From S2P Require Import Prelude BacnetValue BacnetObject.
From stdpp Require Import pretty.
#[local] Open Scope Z_scope.

(** The [e.to_string()] of a property error is dropped. *)
Inductive RegistryError : Set := ReObjectNotFound (id : ObjectId) | RePropertyError.

Section Registry.
Context {O : Type} `{BACnetObject O}.

Record ObjectRegistry : Type := {
  objects : gmap ObjectId O;
  names : gmap (list Z) ObjectId;
  type_counts : gmap ObjectType Z
}.
Implicit Types (s : ObjectRegistry) (o : O) (id : ObjectId).

Definition ObjectRegistry_new : ObjectRegistry := {| objects := ∅; names := ∅; type_counts := ∅ |}.

(** [entry(t).and_modify(|c| *c = c.saturating_sub(1))] *)
Definition count_down (t : ObjectType) (m : gmap ObjectType Z) : gmap ObjectType Z :=
  match m !! t with Some c => <[t := Z.max 0 (c - 1)]> m | None => m end.
(** [entry(t).and_modify(|c| *c += 1).or_insert(1)] *)
Definition count_up (t : ObjectType) (m : gmap ObjectType Z) : gmap ObjectType Z :=
  match m !! t with Some c => <[t := c + 1]> m | None => <[t := 1]> m end.

(** The result is that of the final [insert], the entry having been removed before. *)
Definition register o s : option O * ObjectRegistry :=
  let id := object_identifier o in
  let name := object_name o in
  let t := object_type id in
  let s1 := match objects s !! id with
            | Some old => {| objects := delete id (objects s); names := delete (object_name old) (names s);
                             type_counts := count_down t (type_counts s) |}
            | None => s
            end in
  (objects s1 !! id,
   {| objects := <[id := o]> (objects s1); names := <[name := id]> (names s1);
      type_counts := count_up t (type_counts s1) |}).

Definition unregister id s : option O * ObjectRegistry :=
  match objects s !! id with
  | Some o => (Some o, {| objects := delete id (objects s); names := delete (object_name o) (names s);
                          type_counts := count_down (object_type id) (type_counts s) |})
  | None => (None, s)
  end.

Definition get s id : option O := objects s !! id.
Definition get_by_name s (name : list Z) : option O := names s !! name ≫= fun id => objects s !! id.
Definition contains s id : bool := is_some (objects s !! id).
Definition contains_name s (name : list Z) : bool := is_some (names s !! name).
Definition len s : Z := Z.of_nat (size (objects s)).
Definition registry_is_empty s : bool := len s =? 0.
Definition object_ids s : list ObjectId := (map_to_list (objects s)).*1.
Definition object_ids_by_type s (t : ObjectType) : list ObjectId :=
  filter (fun id => object_type id = t) (object_ids s).
Definition count_by_type s (t : ObjectType) : Z := default 0 (type_counts s !! t).
Definition registry_clear : ObjectRegistry := ObjectRegistry_new.

Definition registry_read_property s id (k : PropertyId) : outcome RegistryError BACnetValue :=
  let? o := ok_or (get s id) (ReObjectNotFound id) in
  map_err (fun _ => RePropertyError) (read_property o k).
(** A method that changes the shared object behind an identifier. *)
Definition on_object {E A} id (m : stM O E A) (missing : E) : stM ObjectRegistry E A := fun s =>
  match objects s !! id with
  | Some o => let '(r, o') := m o in
              (r, {| objects := <[id := o']> (objects s); names := names s; type_counts := type_counts s |})
  | None => (Err missing, s)
  end.
Definition registry_write_property id (k : PropertyId) (v : BACnetValue) : stM ObjectRegistry RegistryError unit :=
  on_object id (st_map_err (fun _ => RePropertyError) (write_property k v)) (ReObjectNotFound id).

(** [populate_standard_objects]: a descriptor is a name prefix and a constructor. *)
Definition numbered (prefix : list Z) (i : Z) : list Z := prefix ++ str "_" ++ str (pretty i).
Fixpoint populate_one {E} (prefix : list Z) (create : Z → list Z → outcome E O) (l : list Z) s : outcome E ObjectRegistry :=
  match l with
  | [] => Ok s
  | i :: l' => let? o := create (i mod 4294967296) (numbered prefix (i mod 4294967296)) in
               populate_one prefix create l' (register o s).2
  end.
Fixpoint populate_standard_objects {E} (descriptors : list (list Z * (Z → list Z → outcome E O))) (count_per_type : nat)
    (s : ObjectRegistry) : outcome E ObjectRegistry :=
  match descriptors with
  | [] => Ok s
  | (prefix, create) :: ds =>
      let? s' := populate_one prefix create (zrange 0 count_per_type) s in
      populate_standard_objects ds count_per_type s'
  end.

Definition max_instance (l : list ObjectId) : option Z :=
  foldr (fun id m => Some (match m with Some x => Z.max (instance id) x | None => instance id end)) None l.
Definition next_available_instance s (t : ObjectType) : option Z :=
  let next := match max_instance (object_ids_by_type s t) with
              | Some m => if m + 1 <? 4294967296 then Some (m + 1) else None
              | None => Some 0
              end in
  next ≫= fun n => if MAX_INSTANCE <? n then None else Some n.
End Registry.
Arguments ObjectRegistry O : clear implicits.

(** [default_object_descriptors] *)
Definition default_object_descriptors `{BuildProfile} {E} : list (list Z * (Z → list Z → outcome E StandardObject)) :=
  [(str "AI", fun i n => omap_ok SAnalogInput (AnalogInput_new i n));
   (str "AO", fun i n => omap_ok SAnalogOutput (AnalogOutput_new i n));
   (str "BI", fun i n => omap_ok SBinaryInput (BinaryInput_new i n));
   (str "BO", fun i n => omap_ok SBinaryOutput (BinaryOutput_new i n))].

(* ------------------------------------------------------------------ *)
(** * Invariant *)

Section RegistryLaws.
Context {O : Type} `{BACnetObject O} `{!ObjectLaws O}.
Implicit Types (s : ObjectRegistry O) (o : O) (id : ObjectId).

Definition count_objects (m : gmap ObjectId O) (t : ObjectType) : Z :=
  Z.of_nat (size (filter (fun p => object_type p.1 = t) m)).

(** Every entry is an object with that identifier; every name leads to an object of that name;
    the counts are those of the entries; the objects are well-formed. *)
Record registry_ok s : Prop := {
  rk_objects id o : objects s !! id = Some o → object_identifier o = id ∧ object_ok o;
  rk_names n id : names s !! n = Some id → ∃ o, objects s !! id = Some o ∧ object_name o = n;
  rk_counts t : count_by_type s t = count_objects (objects s) t
}.

(** The registries a program can hold. *)
Inductive registry_reachable : ObjectRegistry O → Prop :=
| rr_new : registry_reachable ObjectRegistry_new
| rr_register o s : object_ok o → registry_reachable s → registry_reachable (register o s).2
| rr_unregister id s : registry_reachable s → registry_reachable (unregister id s).2
| rr_write id k v s : registry_reachable s → registry_reachable (registry_write_property id k v s).2
| rr_clear s : registry_reachable s → registry_reachable registry_clear.

Lemma count_objects_insert m id o t :
  m !! id = None → count_objects (<[id := o]> m) t = count_objects m t + (if bool_decide (object_type id = t) then 1 else 0).
Proof.
  intros Hid. unfold count_objects. case_bool_decide.
  - rewrite map_filter_insert_True by done. rewrite map_size_insert_None by (apply map_lookup_filter_None; by left). lia.
  - rewrite map_filter_insert_not'; [lia|done|]. intros ?. by rewrite Hid.
Qed.

Lemma count_objects_delete m id o t :
  m !! id = Some o → count_objects m t = count_objects (delete id m) t + (if bool_decide (object_type id = t) then 1 else 0).
Proof.
  intros Hid. rewrite <- (insert_delete_id m id o Hid) at 1. apply count_objects_insert. apply lookup_delete_eq.
Qed.

Lemma count_up_spec t t' (m : gmap ObjectType Z) :
  default 0 (count_up t m !! t') = default 0 (m !! t') + (if bool_decide (t = t') then 1 else 0).
Proof.
  unfold count_up. case_bool_decide; subst.
  - destruct (m !! t') eqn:E; rewrite lookup_insert_eq; simpl; lia.
  - destruct (m !! t); rewrite lookup_insert_ne by done; lia.
Qed.

Lemma count_down_spec t t' (m : gmap ObjectType Z) :
  (∀ t, 0 <= default 0 (m !! t)) →
  default 0 (count_down t m !! t') = Z.max 0 (default 0 (m !! t') - (if bool_decide (t = t') then 1 else 0)).
Proof.
  intros Hm. specialize (Hm t'). unfold count_down. case_bool_decide; subst.
  - destruct (m !! t') eqn:E; [rewrite lookup_insert_eq|rewrite E]; simpl in *; lia.
  - destruct (m !! t) eqn:E; [rewrite lookup_insert_ne by done|]; lia.
Qed.

Lemma count_objects_nonneg m t : 0 <= count_objects m t.
Proof. unfold count_objects. lia. Qed.

(** Removing an entry, as [register] and [unregister] both do. *)
Lemma remove_ok id o s :
  registry_ok s → objects s !! id = Some o →
  registry_ok {| objects := delete id (objects s); names := delete (object_name o) (names s);
                 type_counts := count_down (object_type id) (type_counts s) |}.
Proof.
  intros [Ho Hn Hc] Hid. split; simpl.
  - intros id' o' [_ Hl]%lookup_delete_Some. by apply Ho.
  - intros n id' [Hne Hl]%lookup_delete_Some. destruct (Hn _ _ Hl) as (o' & Hl' & Hname). exists o'.
    rewrite lookup_delete_ne; [done|]. intros <-. simplify_eq.
  - intros t. unfold count_by_type in *. simpl. rewrite count_down_spec.
    2: { intros t'. rewrite Hc. apply count_objects_nonneg. }
    rewrite Hc, (count_objects_delete _ _ _ t Hid). pose proof (count_objects_nonneg (delete id (objects s)) t).
    destruct (bool_decide _); lia.
Qed.

Lemma insert_ok o s :
  registry_ok s → object_ok o → objects s !! object_identifier o = None →
  registry_ok {| objects := <[object_identifier o := o]> (objects s); names := <[object_name o := object_identifier o]> (names s);
                 type_counts := count_up (object_type (object_identifier o)) (type_counts s) |}.
Proof.
  intros [Ho Hn Hc] Hok Hnone. split; simpl.
  - intros id' o' [[<- <-]|[_ Hl]]%lookup_insert_Some; [done|by apply Ho].
  - intros n id' [[<- <-]|[_ Hl]]%lookup_insert_Some.
    + exists o. by rewrite lookup_insert_eq.
    + destruct (Hn _ _ Hl) as (o' & Hl' & Hname). exists o'. rewrite lookup_insert_ne; [done|]. intros Heq. simplify_eq.
  - intros t. unfold count_by_type in *. simpl. rewrite count_up_spec, Hc, count_objects_insert by done. done.
Qed.

Lemma register_ok o s : registry_ok s → object_ok o → registry_ok (register o s).2.
Proof.
  intros Hs Hok. unfold register. destruct (objects s !! object_identifier o) as [old|] eqn:Hold; cbn [snd].
  - apply (insert_ok o {| objects := delete (object_identifier o) (objects s); names := _; type_counts := _ |});
      [by apply remove_ok|done|apply lookup_delete_eq].
  - by apply insert_ok.
Qed.

Lemma unregister_ok id s : registry_ok s → registry_ok (unregister id s).2.
Proof. intros Hs. unfold unregister. destruct (objects s !! id) eqn:Hid; [by apply remove_ok|done]. Qed.

Lemma count_objects_update m id o o' t : m !! id = Some o → count_objects (<[id := o']> m) t = count_objects m t.
Proof.
  intros Hid. rewrite (count_objects_delete m id o t Hid). rewrite <- insert_delete_eq.
  apply count_objects_insert, lookup_delete_eq.
Qed.

(** A method that keeps identity and well-formedness keeps the registry consistent. *)
Lemma on_object_ok {E A} id (m : stM O E A) e s :
  (∀ o, object_ok o → object_identifier (m o).2 = object_identifier o ∧ object_name (m o).2 = object_name o ∧ object_ok (m o).2) →
  registry_ok s → registry_ok (on_object id m e s).2.
Proof.
  intros Hm [Ho Hn Hc]. unfold on_object. destruct (objects s !! id) as [o|] eqn:Hid; [|done].
  destruct (Ho _ _ Hid) as [<- Hok]. specialize (Hm o Hok). destruct (m o) as [r o'] eqn:Hmo. simpl in Hm.
  destruct Hm as (Hi & Hnm & Hok'). split; simpl.
  - intros id' o2 [[<- <-]|[_ Hl]]%lookup_insert_Some; [done|by apply Ho].
  - intros n id' Hl. destruct (Hn _ _ Hl) as (o2 & Hl2 & Hname). destruct (decide (object_identifier o = id')) as [<-|Hne].
    + exists o'. rewrite lookup_insert_eq. split; [done|]. congruence.
    + exists o2. by rewrite lookup_insert_ne.
  - intros t. unfold count_by_type in *. simpl. rewrite Hc. symmetry. by eapply count_objects_update.
Qed.

Lemma registry_reachable_ok s : registry_reachable s → registry_ok s.
Proof.
  induction 1 as [|o s Hok _ IH|id s _ IH|id k v s _ IH|]; [|by apply register_ok|by apply unregister_ok| |].
  - split; [done..|]. intros t. unfold count_by_type, count_objects. simpl. by rewrite map_filter_empty, map_size_empty.
  - apply on_object_ok; [|done]. intros o Hok. unfold st_map_err.
    destruct (write_identity k v o) as [Hi Hn], (write_ok k v o Hok) as [_ Hok'].
    destruct (write_property k v o); done.
  - split; [done..|]. intros t. unfold count_by_type, count_objects. simpl. by rewrite map_filter_empty, map_size_empty.
Qed.
End RegistryLaws.

(* ------------------------------------------------------------------ *)
(** * Theorems *)

Section RegistryTheorems.
Context {O : Type} `{BACnetObject O} `{!ObjectLaws O}.
Implicit Types (s : ObjectRegistry O) (o : O) (id : ObjectId).

Lemma elem_of_ids_by_type s t id : id ∈ object_ids_by_type s t ↔ object_type id = t ∧ is_Some (objects s !! id).
Proof.
  unfold object_ids_by_type, object_ids. rewrite list_elem_of_filter, list_elem_of_fmap. split.
  - intros (Ht & [id' o] & -> & Hin%elem_of_map_to_list). eauto.
  - intros (Ht & o & Ho). split; [done|]. exists (id, o). by rewrite elem_of_map_to_list.
Qed.

Lemma ids_by_type_count s t : Z.of_nat (length (object_ids_by_type s t)) = count_objects (objects s) t.
Proof.
  unfold count_objects. f_equal. rewrite <- (size_dom (D:=gset ObjectId)). unfold size, set_size. cbn [compose].
  apply Permutation_length, NoDup_Permutation; [|apply NoDup_elements|].
  - apply NoDup_filter, NoDup_fst_map_to_list.
  - intros id. rewrite elem_of_ids_by_type, elem_of_elements, elem_of_dom. unfold is_Some.
    setoid_rewrite map_lookup_filter_Some. naive_solver.
Qed.

(** The indexes of the registry agree with its objects after any sequence of registrations
    (replacements included), removals, property writes and clears: an object found by
    identifier has that identifier, one found by name has that name and no name leads to
    nothing, and the count of each type is the number of identifiers of that type. *)
Theorem registry_consistent s :
  registry_reachable s →
  (∀ id o, get s id = Some o → object_identifier o = id) ∧
  (∀ n o, get_by_name s n = Some o → object_name o = n) ∧
  (∀ n, contains_name s n = is_some (get_by_name s n)) ∧
  (∀ t, count_by_type s t = Z.of_nat (length (object_ids_by_type s t))).
Proof.
  intros [Ho Hn Hc]%registry_reachable_ok. split_and!.
  - intros id o Hl. by apply Ho.
  - unfold get_by_name. intros n o (id & Hid & Hl)%bind_Some. destruct (Hn _ _ Hid) as (o' & Hl' & Hname). congruence.
  - intros n. unfold contains_name, get_by_name. destruct (names s !! n) as [id|] eqn:Hid; [|done].
    destruct (Hn _ _ Hid) as (o & Hl & _). simpl. by rewrite Hl.
  - intros t. by rewrite ids_by_type_count.
Qed.

(** What registering an object does: afterwards the object is found by its identifier and by
    its name, and the other identifiers are as before. The previous object with the identifier
    is never returned, although the method promises it: it is removed before the insertion
    whose result is returned. *)
Theorem register_spec o s :
  let s' := (register o s).2 in
  (register o s).1 = None ∧ get s' (object_identifier o) = Some o ∧ get_by_name s' (object_name o) = Some o ∧
  (∀ id, id ≠ object_identifier o → get s' id = get s id).
Proof.
  unfold register, get, get_by_name. cbn [snd fst objects names].
  destruct (objects s !! object_identifier o) eqn:Hold; cbn [objects names].
  - rewrite lookup_delete_eq, !lookup_insert_eq. cbn. rewrite lookup_insert_eq. split_and!; [done..|].
    intros id Hne. by rewrite lookup_insert_ne, lookup_delete_ne by done.
  - rewrite Hold, !lookup_insert_eq. cbn. rewrite lookup_insert_eq. split_and!; [done..|].
    intros id Hne. by rewrite lookup_insert_ne by done.
Qed.

(** Names are not kept unique, and a clash loses an object: when a second object takes a
    name already in use and the first is unregistered, the second is still registered under
    its identifier but can no longer be found by name. *)
Theorem name_clash_hides_object o1 o2 s :
  object_identifier o1 ≠ object_identifier o2 → object_name o1 = object_name o2 →
  get s (object_identifier o2) = None →
  let s' := (unregister (object_identifier o1) (register o2 (register o1 s).2).2).2 in
  get s' (object_identifier o2) = Some o2 ∧ get_by_name s' (object_name o2) = None.
Proof.
  intros Hne Hname Hfresh. destruct (register_spec o1 s) as (_ & H1 & _ & Hother).
  set (s1 := (register o1 s).2) in *. destruct (register_spec o2 s1) as (_ & H2 & _ & Hother2).
  set (s2 := (register o2 s1).2) in *. cbn zeta. unfold unregister, get, get_by_name in *.
  rewrite Hother2, H1 by done. cbn [snd objects names]. rewrite lookup_delete_ne, H2 by done.
  by rewrite Hname, lookup_delete_eq.
Qed.

Lemma max_instance_spec l id : id ∈ l → ∃ m, max_instance l = Some m ∧ instance id <= m.
Proof.
  induction l as [|id' l IH]; [by intros ?%not_elem_of_nil|]. intros [->|Hin]%elem_of_cons; simpl.
  - eexists. split; [done|]. destruct (max_instance l); lia.
  - destruct (IH Hin) as (m & -> & Hm). eexists. split; [done|]. lia.
Qed.

(** The instance number offered for a new object is free, above all those in use, and legal. *)
Lemma next_available_fresh s t n :
  next_available_instance s t = Some n →
  n <= MAX_INSTANCE ∧ get s {| object_type := t; instance := n |} = None ∧
  ∀ id o, get s id = Some o → object_type id = t → instance id < n.
Proof.
  unfold next_available_instance. intros (n' & Hnext & Hn)%bind_Some. destruct (Z.ltb_spec MAX_INSTANCE n') as [|Hmax]; simplify_eq.
  assert (∀ id o, get s id = Some o → object_type id = t → instance id < n) as Hall.
  { intros id o Hid Ht. destruct (max_instance_spec (object_ids_by_type s t) id) as (m & Hm & Hle).
    { apply elem_of_ids_by_type. split; [done|]. by exists o. }
    rewrite Hm in Hnext. case_match; simplify_eq. lia. }
  split_and!; [lia| |done]. destruct (get s _) as [o|] eqn:Hg; [|done]. specialize (Hall _ _ Hg eq_refl). simpl in Hall. lia.
Qed.
End RegistryTheorems.

(** ** Witnesses *)

Definition sample_value (i : Z) (name : string) : StandardObject :=
  SAnalogValue {| av_point := point {| object_type := OtAnalogValue; instance := i |} (str name) ∅ f32_zero;
                  av_cov_increment := f32_tenth |}.

Lemma registry_consistent_witness :
  ∃ s : ObjectRegistry StandardObject,
    registry_reachable s ∧ count_by_type s OtAnalogValue = 2 ∧ length (object_ids_by_type s OtAnalogValue) = 2%nat.
Proof.
  set (s := (registry_write_property {| object_type := OtAnalogValue; instance := 1 |} PiPresentValue (VReal 7)
    (register (sample_value 2 "B") (register (sample_value 1 "A") (register (sample_value 1 "Z") ObjectRegistry_new).2).2).2).2).
  exists s. assert (registry_reachable s) as Hr by (apply rr_write; do 3 (apply rr_register; [reflexivity|]); apply rr_new).
  split; [exact Hr|]. assert (count_by_type s OtAnalogValue = 2) as Hc by (vm_compute; reflexivity).
  split; [exact Hc|]. pose proof (proj2 (proj2 (proj2 (registry_consistent s Hr))) OtAnalogValue) as Hl. lia.
Defined.

Lemma name_clash_hides_object_witness :
  ∃ s : ObjectRegistry StandardObject,
    get s (object_identifier (sample_value 2 "A")) = Some (sample_value 2 "A") ∧
    get_by_name s (object_name (sample_value 2 "A")) = None.
Proof.
  exists (unregister (object_identifier (sample_value 1 "A"))
    (register (sample_value 2 "A") (register (sample_value 1 "A") ObjectRegistry_new).2).2).2.
  apply (name_clash_hides_object (sample_value 1 "A") (sample_value 2 "A") ObjectRegistry_new); [discriminate|reflexivity|reflexivity].
Defined.
