(* ===== verification/BacnetService.v ===== *)
(** BACnet services: results, handlers and their registry ([mabi-bacnet/src/service/handler.rs]),
    ReadProperty and WriteProperty ([service/property.rs]).

    A handler runs against the object registry of the device, which it may change; the model
    threads that registry.  A panic in a decoder is a result. *)

From S2P Require Import Prelude BacnetNet BacnetValue BacnetApdu BacnetObject BacnetRegistry.

(* ------------------------------------------------------------------ *)
(** * Handlers and their registry *)

Record ServiceContext : Type := {
  device_instance : Z;
  invoke_id : option Z;
  ctx_max_apdu_length : Z;
  source_address : option SocketAddr
}.

Definition ServiceContext_new (instance : Z) : ServiceContext :=
  {| device_instance := instance; invoke_id := None; ctx_max_apdu_length := 1476; source_address := None |}.
Definition with_invoke_id (i : Z) (c : ServiceContext) : ServiceContext :=
  {| device_instance := device_instance c; invoke_id := Some i; ctx_max_apdu_length := ctx_max_apdu_length c;
     source_address := source_address c |}.
Definition with_source_address (a : SocketAddr) (c : ServiceContext) : ServiceContext :=
  {| device_instance := device_instance c; invoke_id := invoke_id c; ctx_max_apdu_length := ctx_max_apdu_length c;
     source_address := Some a |}.

Inductive ServiceResult : Type :=
| SrSimpleAck
| SrComplexAck (data : list Z)
| SrError (error_class : ErrorClass) (error_code : ErrorCode)
| SrReject (reason : Z)
| SrAbort (reason : AbortReason)
| SrNoResponse
| SrBroadcast (data : list Z).

Definition unrecognized_service : ServiceResult := SrReject (RejectReason_as_u8 RrUnrecognizedService).
Definition missing_required_parameter : ServiceResult := SrReject (RejectReason_as_u8 RrMissingRequiredParameter).
Definition invalid_tag : ServiceResult := SrReject (RejectReason_as_u8 RrInvalidTag).
Definition unknown_object : ServiceResult := SrError EclObject EcUnknownObject.
Definition write_access_denied : ServiceResult := SrError EclProperty EcWriteAccessDenied.

Section Services.
Context {O : Type} `{BACnetObject O}.

(** Runs a handler: a result or a panic, and the registry it leaves. *)
Definition Handle : Type := list Z → ServiceContext → stM (ObjectRegistry O) Empty_set ServiceResult.

Record ConfirmedServiceHandler : Type := {
  service_choice : ConfirmedService;
  handle : Handle;
  min_data_length : Z
}.
Record UnconfirmedServiceHandler : Type := {
  unconfirmed_choice : UnconfirmedService;
  unconfirmed_handle : Handle
}.

Record ServiceRegistry : Type := {
  confirmed_handlers : gmap Z ConfirmedServiceHandler;
  unconfirmed_handlers : gmap Z UnconfirmedServiceHandler
}.
Implicit Types (s : ServiceRegistry).

Definition ServiceRegistry_new : ServiceRegistry := {| confirmed_handlers := ∅; unconfirmed_handlers := ∅ |}.
Definition register_confirmed (h : ConfirmedServiceHandler) s : option ConfirmedServiceHandler * ServiceRegistry :=
  let service := ConfirmedService_as_u8 (service_choice h) in
  (confirmed_handlers s !! service,
   {| confirmed_handlers := <[service := h]> (confirmed_handlers s); unconfirmed_handlers := unconfirmed_handlers s |}).
Definition register_unconfirmed (h : UnconfirmedServiceHandler) s : option UnconfirmedServiceHandler * ServiceRegistry :=
  let service := UnconfirmedService_as_u8 (unconfirmed_choice h) in
  (unconfirmed_handlers s !! service,
   {| confirmed_handlers := confirmed_handlers s; unconfirmed_handlers := <[service := h]> (unconfirmed_handlers s) |}).
Definition has_confirmed s (service : Z) : bool := is_some (confirmed_handlers s !! service).
Definition has_unconfirmed s (service : Z) : bool := is_some (unconfirmed_handlers s !! service).

Definition dispatch_confirmed s (service : Z) (data : list Z) (ctx : ServiceContext)
    : stM (ObjectRegistry O) Empty_set ServiceResult :=
  match confirmed_handlers s !! service with
  | Some h => if zlen data <? min_data_length h then st_ret missing_required_parameter else handle h data ctx
  | None => st_ret unrecognized_service
  end.
Definition dispatch_unconfirmed s (service : Z) (data : list Z) (ctx : ServiceContext)
    : stM (ObjectRegistry O) Empty_set ServiceResult :=
  match unconfirmed_handlers s !! service with
  | Some h => unconfirmed_handle h data ctx
  | None => st_ret SrNoResponse
  end.
End Services.
Arguments ConfirmedServiceHandler O : clear implicits.
Arguments UnconfirmedServiceHandler O : clear implicits.
Arguments ServiceRegistry O : clear implicits.

(* ------------------------------------------------------------------ *)
(** * Property requests *)

Record ReadPropertyRequest : Type := {
  rp_object_identifier : ObjectId;
  rp_property_identifier : PropertyId;
  rp_array_index : option Z
}.
Record WritePropertyRequest : Type := {
  wp_object_identifier : ObjectId;
  wp_property_identifier : PropertyId;
  wp_array_index : option Z;
  wp_value : BACnetValue;
  wp_priority : option Z
}.

Inductive ServiceError : Set :=
| SeInvalidRequest | SeUnknownProperty (p : Z) | SeUnsupportedDataType (tag : Z) | SeApdu (e : ApduError).

(** The [?] on an [ApduError] in a function that returns [ServiceError]. *)
Definition SDec (A : Type) : Type := stM (list Z) ServiceError A.
Definition up {A} (d : Dec A) : SDec A := st_map_err SeApdu d.

(** The context tags 0 and 1 both requests start with. *)
Definition decode_reference : SDec (ObjectId * PropertyId) :=
  do? tag := up decode_tag_info in
  let '(tag, is_context, len) := tag in
  if negb is_context || negb (tag =? 0) || negb (len =? 4) then st_err SeInvalidRequest
  else
    do? object_identifier := up decode_object_identifier in
    do? tag := up decode_tag_info in
    let '(tag, is_context, len) := tag in
    if negb is_context || negb (tag =? 1) then st_err SeInvalidRequest
    else
      do? prop_id_value := up (decode_unsigned len) in
      do? property_identifier := st_lift (ok_or (PropertyId_from_u32 prop_id_value) (SeUnknownProperty prop_id_value)) in
      st_ret (object_identifier, property_identifier).

Definition decode_read_property (data : list Z) : outcome ServiceError ReadPropertyRequest :=
  fst ((do? r := decode_reference in
        let '(object_identifier, property_identifier) := r in
        do? empty := up dec_is_empty in
        do? property_array_index :=
          (if negb empty then
             do? tag := up decode_tag_info in
             let '(tag, is_context, len) := tag in
             if is_context && (tag =? 2) then st_map Some (up (decode_unsigned len)) else st_ret None
           else st_ret None) in
        st_ret {| rp_object_identifier := object_identifier; rp_property_identifier := property_identifier;
                  rp_array_index := property_array_index |}) data).

Definition encode_read_property_ack (o : ObjectId) (p : PropertyId) (array_index : option Z) (v : BACnetValue) : list Z :=
  encode_context_object_identifier 0 o
  ++ encode_context_enumerated 1 (PropertyId_as_u32 p)
  ++ match array_index with Some i => encode_context_unsigned 2 i | None => [] end
  ++ encode_opening_tag 3 ++ encode_value v ++ encode_closing_tag 3.

(** The value that follows a tag: a context tag is read as an unsigned number. *)
Definition decode_tagged_value (tag : Z) (is_context : bool) (len : Z) : SDec BACnetValue :=
  if is_context then st_map VUnsigned (up (decode_unsigned len))
  else match tag with
  | 0 => st_ret VNull
  | 1 => st_ret (VBoolean (negb (len =? 0)))
  | 2 => st_map VUnsigned (up (decode_unsigned len))
  | 3 => st_map VSigned (up (decode_signed len))
  | 4 => st_map VReal (up decode_real)
  | 5 => st_map VDouble (up decode_double)
  | 6 => st_map VOctetString (up (read_bytes len))
  | 7 => st_map VCharacterString (up (decode_character_string len))
  | 8 => st_map VBitString (up (decode_bit_string len))
  | 9 => st_map VEnumerated (up (decode_unsigned len))
  | 12 => st_map VObjectIdentifier (up decode_object_identifier)
  | _ => st_err (SeUnsupportedDataType tag)
  end.

Definition decode_property_value : SDec BACnetValue :=
  do? opening := up (is_opening_tag 3) in
  do? _ := (if opening then st_map (fun _ => tt) (up read_u8) else st_ret tt) in
  do? tag := up decode_tag_info in
  let '(tag, is_context, len) := tag in
  do? value := decode_tagged_value tag is_context len in
  do? empty := up dec_is_empty in
  do? closing := up (is_closing_tag 3) in
  do? _ := (if negb empty && closing then st_map (fun _ => tt) (up read_u8) else st_ret tt) in
  st_ret value.

Definition decode_write_property (data : list Z) : outcome ServiceError WritePropertyRequest :=
  fst ((do? r := decode_reference in
        let '(object_identifier, property_identifier) := r in
        do? empty := up dec_is_empty in
        do? next := up peek in
        do? property_array_index :=
          (if negb empty && bool_decide (next = Some 0x29) then
             do? tag := up decode_tag_info in
             let '(_, _, len) := tag in
             st_map Some (up (decode_unsigned len))
           else st_ret None) in
        do? property_value := decode_property_value in
        do? empty := up dec_is_empty in
        do? next := up peek in
        do? priority :=
          (match next with
           | Some byte =>
               if negb empty && (Z.shiftr byte 4 =? 4) && negb (Z.land byte 0x08 =? 0) then
                 do? tag := up decode_tag_info in
                 let '(_, _, len) := tag in
                 st_map (fun x => Some (as_u8 x)) (up (decode_unsigned len))
               else st_ret None
           | None => st_ret None
           end) in
        st_ret {| wp_object_identifier := object_identifier; wp_property_identifier := property_identifier;
                  wp_array_index := property_array_index; wp_value := property_value; wp_priority := priority |}) data).

(* ------------------------------------------------------------------ *)
(** * The two handlers *)

Definition property_error_to_bacnet (e : PropertyError) : ErrorClass * ErrorCode :=
  match e with
  | PeNotFound _ => (EclProperty, EcUnknownProperty)
  | PeWriteAccessDenied _ => (EclProperty, EcWriteAccessDenied)
  | PeInvalidDataType _ => (EclProperty, EcInvalidDataType)
  | PeValueOutOfRange _ => (EclProperty, EcValueOutOfRange)
  | PeReadOnly _ => (EclProperty, EcWriteAccessDenied)
  | PeInvalidArrayIndex _ => (EclProperty, EcInvalidArrayIndex)
  end.

Definition request_error (e : ServiceError) : ServiceResult :=
  SrError EclServices (match e with
                       | SeInvalidRequest => EcInvalidParameterDataType
                       | SeUnknownProperty _ => EcUnknownProperty
                       | _ => EcOther
                       end).

Section Handlers.
Context {O : Type} `{BACnetObject O}.

Definition handle_read_property (r : ReadPropertyRequest) (s : ObjectRegistry O) : outcome (ErrorClass * ErrorCode) BACnetValue :=
  let? o := ok_or (get s (rp_object_identifier r)) (EclObject, EcUnknownObject) in
  map_err property_error_to_bacnet (read_property_at o (rp_property_identifier r) (rp_array_index r)).

Definition handle_write_property (r : WritePropertyRequest) : stM (ObjectRegistry O) (ErrorClass * ErrorCode) unit :=
  on_object (wp_object_identifier r)
    (st_map_err property_error_to_bacnet
       (write_property_at (wp_property_identifier r) (wp_value r) (wp_array_index r) (wp_priority r)))
    (EclObject, EcUnknownObject).

Definition ReadProperty_handle : Handle (O:=O) := fun data _ s =>
  match decode_read_property data with
  | Ok request =>
      match handle_read_property request s with
      | Ok value =>
          (Ok (SrComplexAck (encode_read_property_ack (rp_object_identifier request) (rp_property_identifier request)
                               (rp_array_index request) value)), s)
      | Err (c, e) => (Ok (SrError c e), s)
      | Panic => (Panic, s)
      end
  | Err e => (Ok (request_error e), s)
  | Panic => (Panic, s)
  end.
Definition ReadPropertyHandler : ConfirmedServiceHandler O :=
  {| service_choice := CsReadProperty; handle := ReadProperty_handle; min_data_length := 7 |}.

Definition WriteProperty_handle : Handle (O:=O) := fun data _ s =>
  match decode_write_property data with
  | Ok request =>
      let '(r, s') := handle_write_property request s in
      match r with
      | Ok _ => (Ok SrSimpleAck, s')
      | Err (c, e) => (Ok (SrError c e), s')
      | Panic => (Panic, s')
      end
  | Err e => (Ok (request_error e), s)
  | Panic => (Panic, s)
  end.
Definition WritePropertyHandler : ConfirmedServiceHandler O :=
  {| service_choice := CsWriteProperty; handle := WriteProperty_handle; min_data_length := 10 |}.
End Handlers.

(* ------------------------------------------------------------------ *)
(** * Requests on the wire *)

Lemma st_bind_ok {S E A B} (c : stM S E A) (k : A → stM S E B) s a s' : c s = (Ok a, s') → st_bind c k s = k a s'.
Proof. intros Hc. unfold st_bind. by rewrite Hc. Qed.
Lemma up_ok {A} (d : Dec A) l a l' : d l = (Ok a, l') → up d l = (Ok a, l').
Proof. intros Hd. unfold up, st_map_err. by rewrite Hd. Qed.
Lemma st_map_ok {S E A B} (f : A → B) (c : stM S E A) s a s' : c s = (Ok a, s') → st_map f c s = (Ok (f a), s').
Proof. intros Hc. unfold st_map. by rewrite Hc. Qed.

Create HintDb wire.
#[export] Hint Resolve up_ok st_map_ok : wire.

(** Runs the first of two decoders, whose result is known. *)
Ltac wire_step := erewrite st_bind_ok by (eauto 6 with wire).

(** The properties [PropertyId::from_u32] recognises. *)
Definition known_property (p : PropertyId) : Prop := PropertyId_from_u32 (PropertyId_as_u32 p) = Some p.

Lemma PropertyId_range p : is_u32 (PropertyId_as_u32 p).
Proof. destruct p; vm_compute; repeat split; discriminate. Qed.

Lemma decode_context_tag tn len rest :
  0 <= tn < 15 → 0 <= len < 4294967296 → up decode_tag_info (encode_context_tag tn len ++ rest) = (Ok (tn, true, len), rest).
Proof. intros. by apply up_ok, context_tag_roundtrip. Qed.
Lemma decode_application_tag t len rest :
  0 <= len < 4294967296 → up decode_tag_info (encode_application_tag t len ++ rest) = (Ok (TagNumber_as_u8 t, false, len), rest).
Proof. intros. by apply up_ok, application_tag_roundtrip. Qed.

Lemma decode_object_identifier_ok o rest :
  object_id_ok o → decode_object_identifier (u32_to_be (ObjectId_encode o) ++ rest) = (Ok o, rest).
Proof.
  intros Ho. unfold decode_object_identifier. rewrite (st_bind_ok _ _ _ (u32_to_be (ObjectId_encode o)) rest) by by apply read_bytes_app.
  unfold st_bind, st_lift. rewrite be32_roundtrip by apply ObjectId_encode_range. by rewrite ObjectId_roundtrip.
Qed.

Lemma decode_unsigned_ok (l rest : list Z) x :
  decode_unsigned_raw l = x → decode_unsigned (zlen l) (l ++ rest) = (Ok x, rest).
Proof. intros <-. unfold decode_unsigned. erewrite st_bind_ok by by apply read_bytes_app. done. Qed.

(** The object and property references a request starts with. *)
Definition encode_reference (o : ObjectId) (p : PropertyId) : list Z :=
  encode_context_object_identifier 0 o ++ encode_context_enumerated 1 (PropertyId_as_u32 p).

Lemma decode_reference_ok o p rest :
  object_id_ok o →
  decode_reference (encode_reference o p ++ rest) =
  (match PropertyId_from_u32 (PropertyId_as_u32 p) with
   | Some p => Ok (o, p)
   | None => Err (SeUnknownProperty (PropertyId_as_u32 p))
   end, rest).
Proof.
  intros Ho. destruct (context_enumerated_roundtrip _ (PropertyId_range p)) as [Hc Hl].
  unfold decode_reference, encode_reference, encode_context_object_identifier, encode_context_enumerated. rewrite <- !app_assoc.
  erewrite st_bind_ok by (apply decode_context_tag; lia). cbn [negb orb Z.eqb Pos.eqb].
  erewrite st_bind_ok by (by apply up_ok, decode_object_identifier_ok).
  erewrite st_bind_ok by (apply decode_context_tag; lia). cbn [negb orb Z.eqb Pos.eqb].
  erewrite st_bind_ok by (by apply up_ok, decode_unsigned_ok). unfold st_bind, st_lift.
  by destruct (PropertyId_from_u32 _).
Qed.

(** ** Values *)

(** The values the encoder can represent and the decoder returns. *)
Definition value_ok (v : BACnetValue) : Prop :=
  match v with
  | VNull | VBoolean _ => True
  | VUnsigned n | VEnumerated n | VReal n => is_u32 n
  | VSigned n => is_i32 n
  | VDouble n => 0 <= n < 18446744073709551616
  | VOctetString l => zlen l < 4294967296
  | VCharacterString l => utf8_valid l = true ∧ zlen l + 1 < 4294967296
  | VBitString bits => (zlen bits + 7) / 8 + 1 < 4294967296
  | VObjectIdentifier o => object_id_ok o
  | _ => False
  end.

Lemma decode_character_string_ok l rest :
  utf8_valid l = true → decode_character_string (zlen l + 1) ((0 :: l) ++ rest) = (Ok l, rest).
Proof.
  intros Hl. pose proof (zlen_nonneg l). unfold decode_character_string. rewrite (proj2 (Z.eqb_neq _ 0)) by lia.
  unfold st_bind at 1. cbn [app read_u8]. erewrite st_bind_ok by (apply read_bytes_app; lia). by rewrite Hl.
Qed.

(** One encoded value, read back by the branch its tag selects. *)
Lemma decode_value_body (v : BACnetValue) rest {A} (k : BACnetValue → SDec A) :
  value_ok v →
  st_bind (up decode_tag_info) (fun tag =>
    let '(tag, is_context, len) := tag in
    st_bind (decode_tagged_value tag is_context len) k) (encode_value v ++ rest) = k v rest.
Proof.
  assert (∀ x, is_u32 x → 0 <= zlen (unsigned_bytes x) < 4294967296) as Hul.
  { intros x Hx. pose proof (unsigned_bytes_ok x). lia. }
  destruct v as [|b|n| |n| |n|n|l|l|bits|n| | |o|l|l]; intros Hv; cbn [value_ok] in Hv; try done; cbn [encode_value].
  - by destruct b.
  - unfold encode_unsigned. rewrite <- app_assoc. erewrite st_bind_ok by (apply decode_application_tag; auto).
    apply st_bind_ok, st_map_ok, up_ok, decode_unsigned_ok. by apply unsigned_bytes_roundtrip.
  - unfold encode_signed. rewrite <- app_assoc. erewrite st_bind_ok
      by (apply decode_application_tag; unfold signed_length; repeat case_match; lia).
    apply st_bind_ok, st_map_ok, up_ok. by apply signed_bytes_roundtrip.
  - unfold encode_real. rewrite <- app_assoc. erewrite st_bind_ok by (by apply decode_application_tag).
    apply st_bind_ok, st_map_ok, up_ok. unfold decode_real. erewrite st_bind_ok by by apply read_bytes_app.
    unfold st_lift. by rewrite be32_roundtrip.
  - unfold encode_double. rewrite <- app_assoc. erewrite st_bind_ok by (by apply decode_application_tag).
    apply st_bind_ok, st_map_ok, up_ok. unfold decode_double. erewrite st_bind_ok by by apply read_bytes_app.
    unfold st_lift. by rewrite be64_roundtrip.
  - unfold encode_octet_string. rewrite <- app_assoc. pose proof (zlen_nonneg l).
    erewrite st_bind_ok by (apply decode_application_tag; lia). apply st_bind_ok, st_map_ok, up_ok. by apply read_bytes_app.
  - unfold encode_character_string. rewrite <- app_assoc. pose proof (zlen_nonneg l). destruct Hv as [Hu Hl].
    erewrite st_bind_ok by (apply decode_application_tag; lia).
    apply st_bind_ok, st_map_ok, up_ok. by apply decode_character_string_ok.
  - unfold encode_bit_string. rewrite <- app_assoc. pose proof (zlen_nonneg bits).
    erewrite st_bind_ok by (apply decode_application_tag; Z.div_mod_to_equations; lia).
    apply st_bind_ok, st_map_ok, up_ok, bit_string_roundtrip.
  - unfold encode_enumerated. rewrite <- app_assoc. erewrite st_bind_ok by (apply decode_application_tag; auto).
    apply st_bind_ok, st_map_ok, up_ok, decode_unsigned_ok. by apply unsigned_bytes_roundtrip.
  - unfold encode_object_identifier. rewrite <- app_assoc. erewrite st_bind_ok by (by apply decode_application_tag).
    apply st_bind_ok, st_map_ok, up_ok. by apply decode_object_identifier_ok.
Qed.

Lemma property_value_roundtrip v rest :
  value_ok v → decode_property_value (encode_opening_tag 3 ++ encode_value v ++ encode_closing_tag 3 ++ rest) = (Ok v, rest).
Proof.
  intros Hv. change (encode_opening_tag 3) with [0x3E]. change (encode_closing_tag 3) with [0x3F]. cbn [app].
  unfold decode_property_value.
  rewrite (st_bind_ok _ _ _ true (0x3E :: encode_value v ++ 0x3F :: rest)) by done.
  rewrite (st_bind_ok _ _ _ tt (encode_value v ++ 0x3F :: rest)) by done.
  rewrite decode_value_body by done. done.
Qed.

(** ** Requests *)

(** The encoding of the two requests, as the standard lays them out. *)
Definition encode_index (i : option Z) : list Z := match i with Some i => encode_context_unsigned 2 i | None => [] end.
Definition read_request (o : ObjectId) (p : PropertyId) (i : option Z) : list Z := encode_reference o p ++ encode_index i.
Definition write_request (o : ObjectId) (p : PropertyId) (i : option Z) (v : BACnetValue) (priority : option Z) : list Z :=
  encode_reference o p ++ encode_index i ++ encode_opening_tag 3 ++ encode_value v ++ encode_closing_tag 3
  ++ match priority with Some x => encode_context_unsigned 4 x | None => [] end.

Lemma decode_context_unsigned tn x rest {A} (k : Z * bool * Z → SDec A) :
  0 <= tn < 15 → is_u32 x →
  st_bind (up decode_tag_info) k (encode_context_unsigned tn x ++ rest) =
    k (tn, true, zlen (unsigned_bytes x)) (unsigned_bytes x ++ rest) ∧
  decode_unsigned (zlen (unsigned_bytes x)) (unsigned_bytes x ++ rest) = (Ok x, rest).
Proof.
  intros Ht Hx. pose proof (unsigned_bytes_ok x) as [_ Hl]. unfold encode_context_unsigned. rewrite <- app_assoc.
  split; [apply st_bind_ok, decode_context_tag; lia|]. by apply decode_unsigned_ok, unsigned_bytes_roundtrip.
Qed.

Lemma read_request_decoded o p i :
  object_id_ok o → known_property p → (∀ x, i = Some x → is_u32 x) →
  decode_read_property (read_request o p i) =
  Ok {| rp_object_identifier := o; rp_property_identifier := p; rp_array_index := i |}.
Proof.
  intros Ho Hp Hi. unfold decode_read_property, read_request.
  erewrite st_bind_ok by (rewrite decode_reference_ok, Hp by done; reflexivity). cbn beta iota.
  destruct i as [x|]; [|done]. cbn [encode_index]. specialize (Hi x eq_refl).
  destruct (decode_context_unsigned 2 x [] (fun tag => let '(tag, is_context, len) := tag in
    if is_context && (tag =? 2) then st_map Some (up (decode_unsigned len)) else st_ret None) ltac:(lia) Hi) as [Ht Hx].
  rewrite !app_nil_r in Ht, Hx.
  erewrite st_bind_ok by (apply up_ok; reflexivity).
  replace (match encode_context_unsigned 2 x with [] => true | _ :: _ => false end) with false.
  2: { unfold encode_context_unsigned, encode_context_tag. by repeat case_match. }
  cbn [negb]. erewrite st_bind_ok; [|etrans; [apply Ht|]; rewrite app_nil_r; apply st_map_ok, up_ok, Hx]. done.
Qed.

(** The first octet of an index and of a priority of one octet. *)
Lemma context_unsigned_small tn x : 0 <= tn < 15 → is_u8 x → encode_context_unsigned tn x = [Z.lor (Z.lor (as_u8 (Z.shiftl tn 4)) 8) 1; x].
Proof.
  intros Ht Hx. unfold is_u8 in Hx. unfold encode_context_unsigned, unsigned_bytes. rewrite (proj2 (Z.ltb_lt x 256)) by lia.
  unfold encode_context_tag. rewrite (proj2 (Z.ltb_lt tn 15)) by lia. cbn. by rewrite as_u8_id.
Qed.

Lemma one_octet x rest : is_u8 x → decode_unsigned 1 (x :: rest) = (Ok x, rest).
Proof.
  intros Hx. apply (decode_unsigned_ok [x]). rewrite decode_unsigned_bytes; [done|by apply Forall_singleton|done].
Qed.

Definition option_u8 (x : option Z) : Prop := match x with Some x => is_u8 x | None => True end.

(** What follows the value of a write request. *)
Lemma decode_priority_ok priority {A} (k : option Z → SDec A) :
  option_u8 priority →
  st_bind (up dec_is_empty) (fun empty => st_bind (up peek) (fun next => st_bind
    (match next with
     | Some byte =>
         if negb empty && (Z.shiftr byte 4 =? 4) && negb (Z.land byte 0x08 =? 0) then
           st_bind (up decode_tag_info) (fun tag => let '(_, _, len) := tag in
           st_map (fun x => Some (as_u8 x)) (up (decode_unsigned len)))
         else st_ret None
     | None => st_ret None
     end) k)) (match priority with Some x => encode_context_unsigned 4 x | None => [] end) = k priority [].
Proof.
  intros Hp. destruct priority as [x|]; [|done]. cbn in Hp. rewrite context_unsigned_small by (done || lia).
  change (Z.lor (Z.lor (as_u8 (Z.shiftl 4 4)) 8) 1) with 0x49.
  do 2 (erewrite st_bind_ok by (apply up_ok; reflexivity)). cbn [head].
  change (negb false && (Z.shiftr 0x49 4 =? 4) && negb (Z.land 0x49 0x08 =? 0)) with true. cbv iota.
  apply st_bind_ok. rewrite (st_bind_ok _ _ _ (4, true, 1) [x]) by done.
  rewrite (st_map_ok _ _ _ x []) by (by apply up_ok, one_octet). by rewrite as_u8_id.
Qed.

Lemma write_request_decoded o p i v priority :
  object_id_ok o → known_property p → option_u8 i → value_ok v → option_u8 priority →
  decode_write_property (write_request o p i v priority) =
  Ok {| wp_object_identifier := o; wp_property_identifier := p; wp_array_index := i; wp_value := v; wp_priority := priority |}.
Proof.
  intros Ho Hp Hi Hv Hpr. unfold decode_write_property, write_request.
  erewrite st_bind_ok by (rewrite decode_reference_ok, Hp by done; reflexivity). cbn beta iota.
  erewrite st_bind_ok by (apply up_ok; reflexivity). erewrite st_bind_ok by (apply up_ok; reflexivity).
  destruct i as [x|]; cbn [encode_index option_u8] in *.
  - rewrite context_unsigned_small by (done || lia). change (Z.lor (Z.lor (as_u8 (Z.shiftl 2 4)) 8) 1) with 0x29.
    cbn [app head negb andb]. rewrite bool_decide_eq_true_2 by done.
    erewrite st_bind_ok.
    2: { erewrite (st_bind_ok _ _ _ (2, true, 1)) by done. by apply st_map_ok, up_ok, one_octet. }
    erewrite st_bind_ok by (by apply property_value_roundtrip). by rewrite (decode_priority_ok priority) by done.
  - erewrite st_bind_ok by done. erewrite st_bind_ok by (by apply property_value_roundtrip).
    by rewrite (decode_priority_ok priority) by done.
Qed.

Lemma context_unsigned_large x :
  256 <= x < 4294967296 → ∃ b l, encode_context_unsigned 2 x = b :: l ∧ b ≠ 0x29 ∧ b ≠ 0x3E.
Proof.
  intros Hx. unfold encode_context_unsigned, unsigned_bytes. rewrite (proj2 (Z.ltb_ge x 256)) by lia.
  repeat case_match; do 2 eexists; (split; [reflexivity|]); vm_compute; split; discriminate.
Qed.

(** An array index of 256 or more in a WriteProperty request is taken for the value. The
    decoder recognises the index only by the tag octet of a one-octet number; otherwise it reads
    the index as the (context-tagged) value to write, and drops the value, the index and the
    priority that the request really carries. *)
Theorem large_index_becomes_value o p x v priority :
  object_id_ok o → known_property p → 256 <= x < 4294967296 →
  decode_write_property (write_request o p (Some x) v priority) =
  Ok {| wp_object_identifier := o; wp_property_identifier := p; wp_array_index := None; wp_value := VUnsigned x; wp_priority := None |}.
Proof.
  intros Ho Hp Hx. unfold decode_write_property, write_request.
  erewrite st_bind_ok by (rewrite decode_reference_ok, Hp by done; reflexivity). cbn beta iota.
  erewrite st_bind_ok by (apply up_ok; reflexivity). erewrite st_bind_ok by (apply up_ok; reflexivity).
  destruct (context_unsigned_large x Hx) as (b & l & Hbl & Hb1 & Hb2). cbn [encode_index].
  set (rest := encode_opening_tag 3 ++ _). change (Some 41) with (Some 0x29).
  assert (head (encode_context_unsigned 2 x ++ rest) = Some b) as -> by by rewrite Hbl.
  rewrite (bool_decide_eq_false_2 (Some b = Some 0x29)) by congruence. rewrite andb_false_r.
  erewrite st_bind_ok by done. erewrite (st_bind_ok _ _ _ (VUnsigned x) rest).
  2: { unfold decode_property_value. rewrite (st_bind_ok _ _ _ false (encode_context_unsigned 2 x ++ rest)).
    2: { apply up_ok. unfold is_opening_tag. rewrite Hbl. cbn [app head]. change (3 <? 15) with true. cbv iota.
         by rewrite (proj2 (Z.eqb_neq b _)). }
    erewrite st_bind_ok by done. destruct (decode_context_unsigned 2 x rest (fun tag => let '(tag, is_context, len) := tag in
      do? value := decode_tagged_value tag is_context len in
      do? empty := up dec_is_empty in
      do? closing := up (is_closing_tag 3) in
      do? _ := (if negb empty && closing then st_map (fun _ => tt) (up read_u8) else st_ret tt) in
      st_ret value) ltac:(lia) ltac:(unfold is_u32; lia)) as [Ht Hu].
    etrans; [apply Ht|]. erewrite st_bind_ok by (apply st_map_ok, up_ok, Hu). done. }
  done.
Qed.

Lemma large_index_becomes_value_witness :
  decode_write_property (write_request {| object_type := OtAnalogValue; instance := 1 |} PiPresentValue (Some 300) (VReal 0x41C80000) None) =
  Ok {| wp_object_identifier := {| object_type := OtAnalogValue; instance := 1 |}; wp_property_identifier := PiPresentValue;
        wp_array_index := None; wp_value := VUnsigned 300; wp_priority := None |}.
Proof. apply large_index_becomes_value; [vm_compute; repeat split; congruence|reflexivity|lia]. Defined.

(* ------------------------------------------------------------------ *)
(** * Requests served *)

Section Served.
Context {O : Type} `{BACnetObject O} `{!ObjectLaws O}.
Implicit Types (svc : ServiceRegistry O) (s : ObjectRegistry O) (o : O).

Lemma encode_value_length v : value_ok v → 1 <= zlen (encode_value v).
Proof.
  assert (∀ t n (l : list Z), 1 <= zlen (encode_application_tag t n ++ l)) as Ht.
  { intros t n l. rewrite zlen_app. pose proof (zlen_nonneg l). unfold encode_application_tag.
    destruct (n <? 5); [change (zlen [_]) with 1; lia|]. rewrite zlen_cons. pose proof (zlen_nonneg (extended_length n)). lia. }
  destruct v; intros Hv; try done; apply Ht.
Qed.

Lemma reference_length i p : 7 <= zlen (encode_reference i p).
Proof.
  unfold encode_reference, encode_context_object_identifier, encode_context_enumerated. rewrite !zlen_app.
  destruct (context_enumerated_roundtrip _ (PropertyId_range p)) as [_ Hl].
  change (zlen (encode_context_tag 0 4)) with 1. change (zlen (u32_to_be (ObjectId_encode i))) with 4.
  assert (1 <= zlen (encode_context_tag 1 (zlen (context_enumerated_bytes (PropertyId_as_u32 p))))) as Hc.
  { unfold encode_context_tag. repeat case_match; rewrite zlen_cons;
      match goal with |- context [1 + zlen ?l] => pose proof (zlen_nonneg l) end; lia. }
  lia.
Qed.

(** A WriteProperty request performs exactly that write on exactly that object. *)
Lemma write_served svc s id p i v priority ctx o :
  confirmed_handlers svc !! 15 = Some WritePropertyHandler →
  object_id_ok id → known_property p → option_u8 i → value_ok v → option_u8 priority → get s id = Some o →
  dispatch_confirmed svc 15 (write_request id p i v priority) ctx s =
  (match (write_property p v o).1 with
   | Ok _ => Ok SrSimpleAck
   | Err e => Ok (SrError (property_error_to_bacnet e).1 (property_error_to_bacnet e).2)
   | Panic => Panic
   end,
   {| objects := <[id := (write_property p v o).2]> (objects s); names := names s; type_counts := type_counts s |}).
Proof.
  intros Hh Hid Hp Hi Hv Hpr Ho. unfold dispatch_confirmed. rewrite Hh. cbn [min_data_length WritePropertyHandler handle].
  assert (10 <= zlen (write_request id p i v priority)) as Hlen.
  { unfold write_request. rewrite !zlen_app. pose proof (reference_length id p). pose proof (encode_value_length v Hv).
    change (zlen (encode_opening_tag 3)) with 1. change (zlen (encode_closing_tag 3)) with 1.
    pose proof (zlen_nonneg (encode_index i)).
    match goal with |- context [zlen (match priority with _ => _ end)] =>
      pose proof (zlen_nonneg (match priority with Some x => encode_context_unsigned 4 x | None => [] end)) end. lia. }
  rewrite (proj2 (Z.ltb_ge _ _)) by lia. unfold WriteProperty_handle. rewrite write_request_decoded by done.
  unfold handle_write_property, on_object. cbn [wp_object_identifier wp_property_identifier wp_value wp_array_index wp_priority].
  unfold get in Ho. rewrite Ho. unfold st_map_err, write_property_at.
  destruct (write_property p v o) as [[u|e|] o'] eqn:Hw; cbn; [done| |done]. by destruct (property_error_to_bacnet e).
Qed.

(** A ReadProperty request returns what the object answers, and changes nothing. *)
Lemma read_served svc s id p i ctx o :
  confirmed_handlers svc !! 12 = Some ReadPropertyHandler →
  object_id_ok id → known_property p → (∀ x, i = Some x → is_u32 x) → get s id = Some o →
  dispatch_confirmed svc 12 (read_request id p i) ctx s =
  (match read_property_at o p i with
   | Ok v => Ok (SrComplexAck (encode_read_property_ack id p i v))
   | Err e => Ok (SrError (property_error_to_bacnet e).1 (property_error_to_bacnet e).2)
   | Panic => Panic
   end, s).
Proof.
  intros Hh Hid Hp Hi Ho. unfold dispatch_confirmed. rewrite Hh. cbn [min_data_length ReadPropertyHandler handle].
  assert (7 <= zlen (read_request id p i)) as Hlen.
  { unfold read_request. rewrite zlen_app. pose proof (reference_length id p). pose proof (zlen_nonneg (encode_index i)). lia. }
  rewrite (proj2 (Z.ltb_ge _ _)) by lia. unfold ReadProperty_handle. rewrite read_request_decoded by done.
  unfold handle_read_property. cbn [rp_object_identifier rp_property_identifier rp_array_index]. rewrite Ho. cbn [ok_or obind].
  destruct (read_property_at o p i) as [v|e|]; cbn; [done| |done]. by destruct (property_error_to_bacnet e).
Qed.

(** A WriteProperty request on the wire, with any value the encoding can carry and any
    priority, does what it says: if the object accepts the write, the answer is a simple ack
    and the registry differs exactly in that object, which is the one the write produced; if
    the object refuses, the answer is the error of that refusal and nothing has changed. *)
Theorem write_property_served svc s id p i v priority ctx o :
  confirmed_handlers svc !! 15 = Some WritePropertyHandler →
  object_id_ok id → known_property p → option_u8 i → value_ok v → option_u8 priority →
  get s id = Some o → object_ok o →
  let '(r, s') := dispatch_confirmed svc 15 (write_request id p i v priority) ctx s in
  match (write_property p v o).1 with
  | Ok _ => r = Ok SrSimpleAck ∧ get s' id = Some (write_property p v o).2 ∧ ∀ id', id' ≠ id → get s' id' = get s id'
  | Err e => r = Ok (SrError (property_error_to_bacnet e).1 (property_error_to_bacnet e).2) ∧ s' = s
  | Panic => False
  end.
Proof.
  intros Hh Hid Hp Hi Hv Hpr Ho Hok. rewrite (write_served svc s id p i v priority ctx o) by done.
  destruct (write_property p v o) as [[u|e|] o'] eqn:Hw; cbn.
  - split_and!; [done|apply lookup_insert_eq|]. intros id' Hne. unfold get. cbn. by rewrite lookup_insert_ne.
  - pose proof (write_refused p v o e) as Hr. rewrite Hw in Hr. cbn in Hr. rewrite (Hr eq_refl). split; [done|].
    unfold get in Ho. rewrite (insert_id _ _ _ Ho). by destruct s.
  - pose proof (write_ok p v o Hok) as [Hn _]. by rewrite Hw in Hn.
Qed.

End Served.

Definition property_services : ServiceRegistry StandardObject :=
  (register_confirmed WritePropertyHandler (register_confirmed ReadPropertyHandler ServiceRegistry_new).2).2.
Definition sample_registry : ObjectRegistry StandardObject := (register (sample_value 1 "Setpoint") ObjectRegistry_new).2.

Lemma write_property_served_witness :
  ∃ s', dispatch_confirmed property_services 15
          (write_request {| object_type := OtAnalogValue; instance := 1 |} PiPresentValue None (VReal 0x41C80000) (Some 8))
          (ServiceContext_new 1) sample_registry = (Ok SrSimpleAck, s') ∧
        get s' {| object_type := OtAnalogValue; instance := 1 |} =
          Some (write_property PiPresentValue (VReal 0x41C80000) (sample_value 1 "Setpoint")).2.
Proof.
  pose proof (write_property_served property_services sample_registry {| object_type := OtAnalogValue; instance := 1 |}
    PiPresentValue None (VReal 0x41C80000) (Some 8) (ServiceContext_new 1) (sample_value 1 "Setpoint")
    eq_refl ltac:(closed) eq_refl I ltac:(closed) ltac:(closed) eq_refl eq_refl) as Hw.
  destruct (dispatch_confirmed _ _ _ _ _) as [r s']. exists s'. destruct Hw as (-> & Hg & _). split; [reflexivity|exact Hg].
Defined.

(** C9: Read your writes, over the wire, on the nine standard object types. After a WriteProperty
    request with a value the encoding carries, which the object accepted (at whatever priority the
    request names: the server does not use it), a ReadProperty request for the same property
    returns an ack that names the object and the property and carries, as a value that decodes to it, what the property
    then holds. That is the written value in the type of the property (a real number for the
    present value of an analog object, active or inactive for a binary one, the state of a
    multi-state one, a truth value for out-of-service) wherever the write takes effect. It is the
    value from before the write in two cases: the present value of an output that a priority from
    1 to 15 commands, and the properties whose accepted writes the objects ignore (name,
    description, status flags, priority array, the present value of an analog input, the
    COV increment of analog outputs and values, the relinquish default of binary and multi-state
    outputs). Arrays and dates have no decoder: for those only the octets of the answer are given. *)
Theorem write_then_read svc s id p v priority ctx ctx' (o o' : StandardObject) :
  confirmed_handlers svc !! 15 = Some WritePropertyHandler → confirmed_handlers svc !! 12 = Some ReadPropertyHandler →
  object_id_ok id → known_property p → value_ok v → option_u8 priority →
  get s id = Some o → standard_ok o → write_property p v o = (Ok tt, o') →
  ∃ s' body x,
    dispatch_confirmed svc 15 (write_request id p None v priority) ctx s = (Ok SrSimpleAck, s') ∧
    dispatch_confirmed svc 12 (read_request id p None) ctx' s' = (Ok (SrComplexAck (encode_reference id p ++ body)), s') ∧
    (if takes_effect o p then x = stored_value o p v else read_property o p = Ok x) ∧
    body = encode_opening_tag 3 ++ encode_value x ++ encode_closing_tag 3 ∧
    (value_ok x → decode_property_value body = (Ok x, [])).
Proof.
  intros Hw Hr Hid Hp Hv Hpr Ho Hok Hwr. pose proof (standard_write_read p v o o' Hok Hwr) as Hrd.
  assert (∃ x, standard_read o' p = Ok x ∧ if takes_effect o p then x = stored_value o p v else read_property o p = Ok x) as (x & Hx & He).
  { destruct (takes_effect o p) eqn:Ht; [by eexists|]. destruct (unchanged_read p o Ht) as [old Hold]. exists old. by rewrite Hrd. }
  exists {| objects := <[id := o']> (objects s); names := names s; type_counts := type_counts s |},
    (encode_opening_tag 3 ++ encode_value x ++ encode_closing_tag 3), x. split_and!; [..|done|done|].
  - rewrite (write_served svc s id p None v priority ctx o) by done. by rewrite Hwr.
  - rewrite (read_served svc _ id p None ctx' o'); [|done..|by apply lookup_insert_eq]. unfold read_property_at.
    cbn [read_property standard_object]. rewrite Hx. cbn [obind]. unfold encode_read_property_ack, encode_reference. cbn [app]. by rewrite !app_assoc.
  - intros Hvx. rewrite <- (app_nil_r (encode_closing_tag 3)). by apply property_value_roundtrip.
Qed.

Lemma write_then_read_witness :
  ∃ s' body,
    dispatch_confirmed property_services 12 (read_request {| object_type := OtAnalogValue; instance := 1 |} PiPresentValue None)
      (ServiceContext_new 1) s' =
      (Ok (SrComplexAck (encode_reference {| object_type := OtAnalogValue; instance := 1 |} PiPresentValue ++ body)), s') ∧
    decode_property_value body = (Ok (VReal 0x41C80000), []).
Proof.
  destruct (write_then_read property_services sample_registry {| object_type := OtAnalogValue; instance := 1 |} PiPresentValue
    (VReal 0x41C80000) None (ServiceContext_new 1) (ServiceContext_new 1) (sample_value 1 "Setpoint")
    (write_property PiPresentValue (VReal 0x41C80000) (sample_value 1 "Setpoint")).2
    eq_refl eq_refl ltac:(closed) eq_refl ltac:(closed) I eq_refl eq_refl eq_refl) as (s' & body & x & _ & Hr & Hx & _ & Hd).
  vm_compute in Hx. subst x. exists s', body. split; [exact Hr|apply Hd; closed].
Defined.

(* ------------------------------------------------------------------ *)
(** * Malformed requests *)

(** A decoder that cannot panic, whatever its input. *)
Definition no_panic {S E A} (d : stM S E A) : Prop := ∀ l, (d l).1 ≠ Panic.

Create HintDb panics.

Lemma np_bind {S E A B} (d : stM S E A) (k : A → stM S E B) : no_panic d → (∀ a, no_panic (k a)) → no_panic (st_bind d k).
Proof. intros Hd Hk l. unfold st_bind. specialize (Hd l). destruct (d l) as [[a|e|] l']; [apply Hk|done|done]. Qed.
Lemma np_ret {S E A} (a : A) : no_panic (S:=S) (E:=E) (st_ret a).
Proof. done. Qed.
Lemma np_err {S E A} (e : E) : no_panic (S:=S) (A:=A) (st_err e).
Proof. done. Qed.
Lemma np_map {S E A B} (f : A → B) (d : stM S E A) : no_panic d → no_panic (st_map f d).
Proof. intros Hd l. unfold st_map. specialize (Hd l). by destruct (d l) as [[a|e|] l']. Qed.
Lemma np_up {A} (d : Dec A) : no_panic d → no_panic (up d).
Proof. intros Hd l. unfold up, st_map_err. specialize (Hd l). by destruct (d l) as [[a|e|] l']. Qed.
Lemma np_ok_or {S E A} (o : option A) (e : E) : no_panic (S:=S) (st_lift (ok_or o e)).
Proof. intros l. by destruct o. Qed.
Lemma np_read_u8 : no_panic read_u8.
Proof. intros [|b l]; done. Qed.
Lemma np_read_bytes n : no_panic (read_bytes n).
Proof. intros l. unfold read_bytes. by case_match. Qed.
Lemma np_peek : no_panic peek.
Proof. done. Qed.
Lemma np_is_empty : no_panic dec_is_empty.
Proof. done. Qed.
Lemma np_opening t : no_panic (is_opening_tag t).
Proof. done. Qed.
Lemma np_closing t : no_panic (is_closing_tag t).
Proof. done. Qed.

(** A fixed number of octets, then a conversion that needs that many. *)
Lemma np_read_exact n {A} (f : list Z → outcome ApduError A) :
  (∀ l, length l = n → f l ≠ Panic) → no_panic (st_bind (read_bytes (Z.of_nat n)) (fun b => st_lift (f b))).
Proof.
  intros Hf l. unfold st_bind, read_bytes. destruct (Z.ltb_spec (zlen l) (Z.of_nat n)); [done|]. cbn. apply Hf.
  rewrite length_take. unfold zlen in *. lia.
Qed.

Lemma be_no_panic {E} l :
  (length l = 2%nat → be16 (E:=E) l ≠ Panic) ∧ (length l = 4%nat → be32 (E:=E) l ≠ Panic) ∧ (length l = 8%nat → be64 (E:=E) l ≠ Panic).
Proof. split_and!; destruct l as [|? [|? [|? [|? [|? [|? [|? [|? [|? ?]]]]]]]]]; try discriminate; done. Qed.

#[export] Hint Resolve np_bind np_ret np_err np_map np_up np_ok_or np_read_u8 np_read_bytes np_peek np_is_empty np_opening np_closing : panics.
#[export] Hint Extern 1 (no_panic (if ?b then _ else _)) => destruct b : panics.

Lemma np_tag_info : no_panic decode_tag_info.
Proof.
  assert (no_panic decode_extended_length) as Hext.
  { apply np_bind; [apply np_read_u8|]. intros b. repeat case_match; [|auto with panics..];
      (apply (np_read_exact 2) || apply (np_read_exact 4)); intros l; apply be_no_panic. }
  unfold decode_tag_info. apply np_bind; [apply np_read_u8|]. intros b. apply np_bind; [auto with panics|]. intros t.
  repeat case_match; auto with panics.
Qed.
Lemma np_unsigned n : no_panic (decode_unsigned n).
Proof. unfold decode_unsigned. auto with panics. Qed.
Lemma np_object_identifier : no_panic decode_object_identifier.
Proof.
  intros l. unfold decode_object_identifier. unfold st_bind, read_bytes. destruct (Z.ltb_spec (zlen l) 4); [done|].
  unfold st_lift. destruct (be32 (take (Z.to_nat 4) l)) as [x|e|] eqn:Hb; [by destruct (ObjectId_decode x)|done|].
  destruct (be_no_panic (E:=ApduError) (take (Z.to_nat 4) l)) as (_ & Hn & _). exfalso. apply Hn; [|done].
  rewrite length_take. unfold zlen in *. lia.
Qed.
#[export] Hint Resolve np_tag_info np_unsigned np_object_identifier : panics.

Lemma np_reference : no_panic decode_reference.
Proof.
  unfold decode_reference. apply np_bind; [auto with panics|]. intros [[t c] len]. case_match; [auto with panics|].
  apply np_bind; [auto with panics|]. intros o. apply np_bind; [auto with panics|]. intros [[t' c'] len'].
  case_match; auto with panics.
Qed.

(** The value part of a request that the decoder cannot survive: a signed number of no octets, or
    a bit string that declares more unused bits than it has, or more than eight. *)
Definition fatal_value (d : list Z) : Prop :=
  (∃ len rest, decode_tag_info d = (Ok (3, false, len), rest) ∧ len <= 0) ∨
  (∃ len unused rest, decode_tag_info d = (Ok (8, false, len), unused :: rest) ∧ len ≠ 0 ∧ len - 1 <= zlen rest ∧
     (Z.max 0 (len - 1) * 8 < unused ∨ 8 < unused)).

Definition after_index (d : list Z) : list Z := match d with b :: _ :: d' => if b =? 0x29 then d' else d | _ => d end.
Definition after_opening (d : list Z) : list Z := match d with b :: d' => if b =? 0x3E then d' else d | [] => d end.

Lemma bind_panic {S E A B} (d : stM S E A) (k : A → stM S E B) l :
  no_panic d → (st_bind d k l).1 = Panic ↔ ∃ a l', d l = (Ok a, l') ∧ (k a l').1 = Panic.
Proof.
  intros Hd. unfold st_bind. specialize (Hd l). destruct (d l) as [[a|e|] l']; simpl in *; [|naive_solver..].
  split; [eauto|]. by intros (? & ? & [= <- <-] & ?).
Qed.
Lemma bind_panic_l {S E A B} (d : stM S E A) (k : A → stM S E B) l :
  (∀ a, no_panic (k a)) → (st_bind d k l).1 = Panic ↔ (d l).1 = Panic.
Proof.
  intros Hk. unfold st_bind. destruct (d l) as [[a|e|] l']; simpl; [|done..]. specialize (Hk a l'). done.
Qed.
Lemma up_panic {A} (d : Dec A) l : (up d l).1 = Panic ↔ (d l).1 = Panic.
Proof. unfold up, st_map_err. by destruct (d l) as [[a|e|] l']. Qed.
Lemma map_panic {S E A B} (f : A → B) (d : stM S E A) l : (st_map f d l).1 = Panic ↔ (d l).1 = Panic.
Proof. unfold st_map. by destruct (d l) as [[a|e|] l']. Qed.
Lemma up_result {A} (d : Dec A) l a l' : up d l = (Ok a, l') ↔ d l = (Ok a, l').
Proof. unfold up, st_map_err. destruct (d l) as [[x|e|] l'']; simpl; split; congruence. Qed.

Lemma read_bytes_empty len l : (∃ l', read_bytes len l = (Ok [], l')) ↔ len <= 0.
Proof.
  unfold read_bytes. pose proof (zlen_nonneg l). destruct (Z.ltb_spec (zlen l) len).
  - split; [by intros [? ?]|lia].
  - split.
    + intros [l' [= Ht _]]. apply (f_equal length) in Ht. rewrite length_take in Ht. unfold zlen in *. simpl in Ht. lia.
    + intros Hl. replace (Z.to_nat len) with 0%nat by lia. by eexists.
Qed.

Lemma signed_panic len l : (decode_signed len l).1 = Panic ↔ len <= 0.
Proof.
  rewrite <- (read_bytes_empty len l). unfold decode_signed. rewrite bind_panic by apply np_read_bytes. split.
  - intros (a & l' & Hr & Hp). destruct a as [|x a]; [eauto|done].
  - intros [l' Hr]. eauto.
Qed.

Lemma bit_string_panic len l :
  (decode_bit_string len l).1 = Panic ↔
  ∃ unused rest, l = unused :: rest ∧ len ≠ 0 ∧ len - 1 <= zlen rest ∧ (Z.max 0 (len - 1) * 8 < unused ∨ 8 < unused).
Proof.
  unfold decode_bit_string. destruct (Z.eqb_spec len 0); [naive_solver|]. destruct l as [|u rest]; [naive_solver|].
  unfold st_bind, read_u8, read_bytes. destruct (Z.ltb_spec (zlen rest) (len - 1)) as [Hlt|Hge].
  { split; [done|]. intros (? & ? & [= <- <-] & _ & ? & _). lia. }
  assert (zlen (take (Z.to_nat (len - 1)) rest) = Z.max 0 (len - 1)) as ->.
  { unfold zlen in *. rewrite length_take. lia. }
  destruct (Z.ltb_spec (Z.max 0 (len - 1) * 8) u); [naive_solver|].
  destruct (Z.ltb_spec 8 u); [naive_solver|]. split; [done|]. intros (? & ? & [= <- <-] & _ & _ & ?). lia.
Qed.

Lemma tagged_panic tag ctx len l :
  (decode_tagged_value tag ctx len l).1 = Panic ↔
  ctx = false ∧ (tag = 3 ∧ (decode_signed len l).1 = Panic ∨ tag = 8 ∧ (decode_bit_string len l).1 = Panic).
Proof.
  assert (no_panic decode_real) as Hreal by (apply (np_read_exact 4); intros b; apply be_no_panic).
  assert (no_panic decode_double) as Hdouble by (apply (np_read_exact 8); intros b; apply be_no_panic).
  assert (no_panic (decode_character_string len)) as Hstr.
  { unfold decode_character_string. case_match; [auto with panics|]. apply np_bind; [auto with panics|]. intros _.
    apply np_bind; auto with panics. }
  assert (∀ {A} (d : SDec A), no_panic d → tag ≠ 3 → tag ≠ 8 → (d l).1 = Panic ↔
    ctx = false ∧ (tag = 3 ∧ (decode_signed len l).1 = Panic ∨ tag = 8 ∧ (decode_bit_string len l).1 = Panic)) as Hno.
  { intros A d Hd H3 H8. split; [|naive_solver]. intros Hp. by destruct (Hd l). }
  unfold decode_tagged_value. destruct ctx.
  { split; [|naive_solver]. intros Hp. exfalso. revert Hp. apply np_map, np_up, np_unsigned. }
  destruct (decide (tag = 3)) as [->|H3]; [rewrite map_panic, up_panic; naive_solver|].
  destruct (decide (tag = 8)) as [->|H8]; [rewrite map_panic, up_panic; naive_solver|].
  apply Hno; [|done..]. repeat case_match; (done || auto with panics).
Qed.

Lemma value_panic d : (decode_property_value d).1 = Panic ↔ fatal_value (after_opening d).
Proof.
  assert (∀ d', (st_bind (up decode_tag_info) (fun tag => let '(tag, is_context, len) := tag in
      do? value := decode_tagged_value tag is_context len in
      do? empty := up dec_is_empty in
      do? closing := up (is_closing_tag 3) in
      do? _ := (if negb empty && closing then st_map (fun _ => tt) (up read_u8) else st_ret tt) in
      st_ret value) d').1 = Panic ↔ fatal_value d') as Hbody.
  { intros d'. rewrite bind_panic by auto with panics. split.
    - intros ([[t c] len] & l' & Ht%up_result & Hp). rewrite bind_panic_l in Hp by auto 10 with panics.
      apply tagged_panic in Hp as (-> & [[-> Hs%signed_panic]|[-> (u & rest & -> & ?)%bit_string_panic]]); [left|right]; eauto 10.
    - intros [(len & rest & Ht & Hl)|(len & u & rest & Ht & Hb)].
      + exists (3, false, len), rest. split; [by apply up_result|]. rewrite bind_panic_l by auto 10 with panics.
        apply tagged_panic. split; [done|]. left. split; [done|]. by apply signed_panic.
      + exists (8, false, len), (u :: rest). split; [by apply up_result|]. rewrite bind_panic_l by auto 10 with panics.
        apply tagged_panic. split; [done|]. right. split; [done|]. apply bit_string_panic. eauto 10. }
  unfold decode_property_value, after_opening. destruct d as [|b d].
  - apply Hbody.
  - erewrite st_bind_ok by (apply up_ok; reflexivity). cbn [head]. change (3 <? 15) with true. cbv iota.
    change (Z.lor (as_u8 (Z.shiftl 3 4)) 14) with 0x3E. destruct (b =? 0x3E); [|apply Hbody].
    erewrite st_bind_ok by (apply st_map_ok, up_ok; reflexivity). apply Hbody.
Qed.

(** Exactly which WriteProperty requests make the handler panic (and so end the server's
    receive task): those whose object and property references are well-formed and whose value is
    a signed number with no octets, or a bit string that declares more unused bits than it has or
    more than eight. Every other byte string is decoded or refused. *)
Theorem write_request_panics_exactly data :
  decode_write_property data = Panic ↔
  ∃ r d, decode_reference data = (Ok r, d) ∧ fatal_value (after_opening (after_index d)).
Proof.
  assert (∀ d o p i, (st_bind decode_property_value (fun v => do? empty := up dec_is_empty in do? next := up peek in
    do? priority := (match next with
       | Some byte => if negb empty && (Z.shiftr byte 4 =? 4) && negb (Z.land byte 0x08 =? 0) then
             do? tag := up decode_tag_info in let '(_, _, len) := tag in
             st_map (fun x => Some (as_u8 x)) (up (decode_unsigned len))
           else st_ret None
       | None => st_ret None end) in
    st_ret {| wp_object_identifier := o; wp_property_identifier := p; wp_array_index := i; wp_value := v; wp_priority := priority |}) d).1
    = Panic ↔ fatal_value (after_opening d)) as Hrest.
  { intros d o p i. rewrite bind_panic_l; [apply value_panic|]. intros v. do 2 (apply np_bind; [auto with panics|intros ?]).
    apply np_bind; [|auto with panics]. repeat case_match; auto with panics.
    apply np_bind; [auto with panics|]. intros [[? ?] ?]. auto with panics. }
  unfold decode_write_property. rewrite bind_panic by apply np_reference. apply exist_proper. intros [o p]. apply exist_proper. intros d.
  apply and_iff_compat_l. cbn beta iota.
  erewrite st_bind_ok by (apply up_ok; reflexivity). erewrite st_bind_ok by (apply up_ok; reflexivity).
  destruct d as [|b d]; [apply Hrest|]. cbn [head negb andb after_index].
  destruct (Z.eqb_spec b 0x29) as [->|Hb].
  - rewrite bool_decide_eq_true_2 by done. destruct d as [|x d].
    + split; [done|]. intros [(? & ? & [=] & _)|(? & ? & ? & [=] & _)].
    + rewrite (st_bind_ok _ _ _ (Some (decode_unsigned_raw [x])) d); [apply Hrest|].
      rewrite (st_bind_ok _ _ _ (2, true, 1) (x :: d)) by done. apply st_map_ok, up_ok, (decode_unsigned_ok [x]). done.
  - rewrite bool_decide_eq_false_2 by congruence. erewrite st_bind_ok by done.
    replace (match d with [] => b :: d | _ :: _ => b :: d end) with (b :: d) by by destruct d. apply Hrest.
Qed.

(** The ten octets of a request that writes a signed number with no octets. *)
Example crashing_request : decode_write_property [0x0C; 0x00; 0x80; 0x00; 0x01; 0x19; 0x55; 0x3E; 0x30; 0x3F] = Panic.
Proof. reflexivity. Qed.

Lemma read_at_no_panic {O} `{BACnetObject O} `{!ObjectLaws O} (o : O) p i : read_property_at o p i ≠ Panic.
Proof.
  pose proof (read_no_panic o p) as Hn. unfold read_property_at. destruct (read_property o _) as [v|e|]; [|done|done].
  cbn. destruct i; [|done]. destruct v; try done. case_match; [done|]. by destruct (_ !! _).
Qed.

(** The ReadProperty handler answers every byte string, and changes no object. *)
Theorem read_property_total {O} `{BACnetObject O} `{!ObjectLaws O} data ctx (s : ObjectRegistry O) :
  (∃ r, ReadProperty_handle data ctx s = (Ok r, s)).
Proof.
  assert (decode_read_property data ≠ Panic) as Hd.
  { unfold decode_read_property. apply np_bind; [apply np_reference|]. intros [o p]. apply np_bind; [auto with panics|]. intros e.
    apply np_bind; [|auto with panics]. case_match; [|auto with panics]. apply np_bind; [auto with panics|].
    intros [[t c] len]. auto with panics. }
  unfold ReadProperty_handle. destruct (decode_read_property data) as [r|e|]; [|by eexists|done].
  unfold handle_read_property. destruct (get s _) as [o|]; cbn [ok_or obind]; [|by eexists].
  pose proof (read_at_no_panic o (rp_property_identifier r) (rp_array_index r)) as Hat.
  destruct (read_property_at o _ _) as [v|e|]; cbn; [by eexists| |done]. destruct (property_error_to_bacnet e). by eexists.
Qed.

(* ------------------------------------------------------------------ *)
(** * Decoders that make progress *)

Lemma consumes_read_u8 : consumes 1 read_u8.
Proof. intros [|b l]; cbn; [done|lia]. Qed.
Lemma consumes_read_bytes n : consumes 0 (read_bytes n).
Proof. intros l. unfold read_bytes. destruct (_ <? _); [done|]. rewrite length_drop. lia. Qed.
Lemma consumes_exact n {A} (f : list Z → outcome ApduError A) :
  (∀ l, length l = n → f l ≠ Panic) → consumes 0 (st_bind (read_bytes (Z.of_nat n)) (fun b => st_lift (f b))).
Proof.
  intros Hf l. pose proof (np_read_exact n f Hf l) as Hp. unfold st_bind, read_bytes in *. destruct (zlen l <? Z.of_nat n); [done|].
  cbn in *. destruct (f _); [|done..]. rewrite length_drop. lia.
Qed.
#[export] Hint Resolve consumes_read_u8 consumes_read_bytes : consume.

Lemma consumes_tag_info : consumes 1 decode_tag_info.
Proof.
  assert (consumes 0 decode_extended_length) as Hext.
  { apply (consumes_weaken 1); [|lia]. apply consumes_first; [auto with consume|]. intros b.
    repeat case_match; [apply (consumes_exact 2); intros l; apply be_no_panic|apply (consumes_exact 4); intros l; apply be_no_panic|auto with consume]. }
  unfold decode_tag_info. apply consumes_first; [auto with consume|]. intros b. apply consumes_first.
  { case_match; [apply (consumes_weaken 1); [auto with consume|lia]|auto with consume]. }
  intros t. repeat case_match; auto with consume; (apply consumes_first; [done|auto with consume]) || (apply consumes_first; auto with consume).
Qed.
Lemma consumes_unsigned n : consumes 0 (decode_unsigned n).
Proof. apply consumes_first; auto with consume. Qed.
Lemma consumes_object_identifier : consumes 0 decode_object_identifier.
Proof.
  intros l. pose proof (np_object_identifier l) as Hp. unfold decode_object_identifier, st_bind, st_lift in *.
  pose proof (consumes_read_bytes 4 l) as Hr. destruct (read_bytes 4 l) as [[b|e|] l']; [|done..].
  destruct (be32 b) as [v|e|]; [|done..]. by destruct (ok_or _ _).
Qed.
#[export] Hint Resolve consumes_tag_info consumes_unsigned consumes_object_identifier : consume.
Lemma consumes_up {A} k (d : Dec A) : consumes k d → consumes k (up d).
Proof. apply consumes_map_err. Qed.
#[export] Hint Resolve consumes_up : consume.

(** What a decoder leaves is an end of what it was given, so it leaves octets. *)
Definition leaves_rest {E A} (d : stM (list Z) E A) : Prop := ∀ l a l', d l = (Ok a, l') → l' `suffix_of` l.
Lemma rest_bind {E A B} (d : stM (list Z) E A) (k : A → stM (list Z) E B) : leaves_rest d → (∀ a, leaves_rest (k a)) → leaves_rest (st_bind d k).
Proof. intros Hd Hk l b l'. unfold st_bind. destruct (d l) as [[a|e|] l1] eqn:H1; [|done..]. intros H2. apply Hd in H1. apply Hk in H2. by etrans. Qed.
Lemma rest_ret {E A} (a : A) : leaves_rest (E:=E) (st_ret a).
Proof. by intros l a' l' [= <- <-]. Qed.
Lemma rest_lift {E A} (r : outcome E A) : leaves_rest (st_lift r).
Proof. intros l a l' Hl. by injection Hl as _ <-. Qed.
Lemma rest_read_u8 : leaves_rest read_u8.
Proof. intros [|b l] a l'; [done|]. intros [= <- <-]. by exists [b]. Qed.
Lemma rest_read_bytes n : leaves_rest (read_bytes n).
Proof. intros l a l'. unfold read_bytes. destruct (_ <? _); [done|]. intros [= <- <-]. apply suffix_drop. Qed.
Lemma rest_tag_info : leaves_rest decode_tag_info.
Proof.
  assert (leaves_rest decode_extended_length) as Hx.
  { apply rest_bind; [apply rest_read_u8|]. intros b. repeat case_match; (apply rest_bind; [apply rest_read_bytes|]; intros; apply rest_lift) || apply rest_ret. }
  apply rest_bind; [apply rest_read_u8|]. intros b. apply rest_bind; [case_match; [apply rest_read_u8|apply rest_ret]|]. intros t.
  repeat case_match; try apply rest_ret; (apply rest_bind; [done|]) || (apply rest_bind; [apply rest_ret|]); intros; apply rest_ret.
Qed.
