(* ===== verification/BacnetTrendLog.v ===== *)
(** The Trend Log object of BACnet ([mabi-bacnet/src/object/trend_log.rs]), a ring buffer of
    time-stamped records, and the ReadRange service that reads it ([service/read_range.rs]).

    A field behind a lock or an atomic is a field of the state, as for the standard objects; the
    system clock is an argument. *)

From stdpp Require Import sorting.
From S2P Require Import Prelude BacnetNet BacnetValue BacnetApdu BacnetObject BacnetRegistry BacnetService.

(* ------------------------------------------------------------------ *)
(** * Timestamps *)

Record LogTimestamp : Set := { ts_date : BACnetDate; ts_time : BACnetTime }.
Definition LogTimestamp_default : LogTimestamp :=
  {| ts_date := {| year := 255; month := 255; day := 255; day_of_week := 255 |};
     ts_time := {| hour := 255; minute := 255; second := 255; hundredths := 255 |} |}.

(** Octets that are too large for their field run into the next one. *)
Definition timestamp_sortable (d : BACnetDate) (t : BACnetTime) : Z :=
  Z.lor (Z.lor (Z.lor (Z.lor (Z.lor (Z.lor (Z.shiftl (year d) 33) (Z.shiftl (month d) 29)) (Z.shiftl (day d) 24))
    (Z.shiftl (hour t) 19)) (Z.shiftl (minute t) 13)) (Z.shiftl (second t) 7)) (hundredths t).
Definition to_sortable (ts : LogTimestamp) : Z := timestamp_sortable (ts_date ts) (ts_time ts).

(** The operations on [u32] stay in range, because [doe] is below 146097. *)
Definition year_of_era (doe : Z) : Z := (doe - doe / 1460 + doe / 36524 - doe / 146096) / 365.
Definition civil_of_era (doe : Z) : Z * Z * Z :=
  let yoe := year_of_era doe in
  let doy := doe - (365 * yoe + yoe / 4 - yoe / 100) in
  let mp := (5 * doy + 2) / 153 in
  let d := doy - (153 * mp + 2) / 5 + 1 in
  let m := if mp <? 10 then mp + 3 else mp - 9 in
  (yoe, m, d).
Definition days_to_civil `{BuildProfile} {E} (days : Z) : outcome E (Z * Z * Z) :=
  let z := days + 719468 in
  let era := Z.quot (if 0 <=? z then z else z - 146096) 146097 in
  let '(yoe, m, d) := civil_of_era (as_u32 (z - era * 146097)) in
  let? years := i32_op (to_i32 era * 400) in
  let? y := i32_op (yoe + years) in
  let? y := if m <=? 2 then i32_op (y + 1) else Ok y in
  Ok (y, m, d).

Definition chrono_free_now `{BuildProfile} {E} (secs millis : Z) : outcome E LogTimestamp :=
  let time_of_day := secs mod 86400 in
  let? civil := days_to_civil (secs / 86400) in
  let '(y, m, d) := civil in
  Ok {| ts_date := {| year := if (1900 <=? y) && (y <=? 2155) then as_u8 (y - 1900) else 255;
                      month := as_u8 m; day := as_u8 d; day_of_week := 255 |};
        ts_time := {| hour := as_u8 (time_of_day / 3600); minute := as_u8 (time_of_day mod 3600 / 60);
                      second := as_u8 (time_of_day mod 60); hundredths := as_u8 (millis / 10) |} |}.

(* ------------------------------------------------------------------ *)
(** * Records *)

Inductive LogDatum : Set :=
| LdReal (bits : Z) | LdEnumerated (v : Z) | LdUnsigned (v : Z) | LdSigned (v : Z) | LdBoolean (b : bool)
| LdBitstring (bits : list bool) | LdNull | LdFailure (error_class error_code : Z) | LdTimeChange (bits : Z).

Definition from_bacnet_value (v : BACnetValue) : LogDatum :=
  match v with
  | VReal f => LdReal f
  | VDouble f => LdReal (f32_of_f64 f)
  | VUnsigned n => LdUnsigned n
  | VUnsigned64 n => LdUnsigned (as_u32 n)
  | VSigned n => LdSigned n
  | VSigned64 n => LdSigned (to_i32 n)
  | VEnumerated n => LdEnumerated n
  | VBoolean b => LdBoolean b
  | VBitString b => LdBitstring b
  | _ => LdNull
  end.
Definition to_bacnet_value (d : LogDatum) : BACnetValue :=
  match d with
  | LdReal f => VReal f
  | LdEnumerated n => VEnumerated n
  | LdUnsigned n => VUnsigned n
  | LdSigned n => VSigned n
  | LdBoolean b => VBoolean b
  | LdBitstring b => VBitString b
  | LdNull | LdFailure _ _ => VNull
  | LdTimeChange f => VReal f
  end.

Record LogRecord : Set := { lr_timestamp : LogTimestamp; lr_datum : LogDatum; lr_status_flags : Z; sequence_number : Z }.
Record DeviceObjectPropertyReference : Set := {
  do_object_id : ObjectId; do_property_id : PropertyId; do_array_index : option Z; do_device_id : option ObjectId }.

(* ------------------------------------------------------------------ *)
(** * The object *)

Record TrendLog : Type := {
  tl_id : ObjectId; tl_name : list Z; tl_description : list Z; tl_properties : PropertyStore;
  tl_enabled : bool; tl_stop_when_full : bool; tl_reference : option DeviceObjectPropertyReference; tl_log_interval : Z;
  tl_buffer : list LogRecord; tl_buffer_size : Z; tl_total_record_count : Z; tl_notification_threshold : Z;
  tl_records_since_notification : Z }.

Definition TrendLog_new `{BuildProfile} {E} (inst : Z) (name : list Z) (buffer_size : Z) : outcome E TrendLog :=
  let? id := ObjectId_new OtTrendLog inst in
  Ok {| tl_id := id; tl_name := name; tl_description := [];
        tl_properties := <[PiReliability := VEnumerated 0]> (<[PiEventState := VEnumerated 0]> ∅);
        tl_enabled := false; tl_stop_when_full := false; tl_reference := None; tl_log_interval := 0; tl_buffer := [];
        tl_buffer_size := buffer_size; tl_total_record_count := 0; tl_notification_threshold := 0;
        tl_records_since_notification := 0 |}.

(** What can be set: the switches, the reference, the interval and the threshold; and what logging changes. *)
Definition tl_configure (props : PropertyStore) (en stop : bool) (r : option DeviceObjectPropertyReference) (interval threshold : Z)
    (t : TrendLog) : TrendLog :=
  {| tl_id := tl_id t; tl_name := tl_name t; tl_description := tl_description t; tl_properties := props; tl_enabled := en;
     tl_stop_when_full := stop; tl_reference := r; tl_log_interval := interval; tl_buffer := tl_buffer t;
     tl_buffer_size := tl_buffer_size t; tl_total_record_count := tl_total_record_count t; tl_notification_threshold := threshold;
     tl_records_since_notification := tl_records_since_notification t |}.
Definition tl_set_log (buffer : list LogRecord) (total since : Z) (t : TrendLog) : TrendLog :=
  {| tl_id := tl_id t; tl_name := tl_name t; tl_description := tl_description t; tl_properties := tl_properties t;
     tl_enabled := tl_enabled t; tl_stop_when_full := tl_stop_when_full t; tl_reference := tl_reference t;
     tl_log_interval := tl_log_interval t; tl_buffer := buffer; tl_buffer_size := tl_buffer_size t; tl_total_record_count := total;
     tl_notification_threshold := tl_notification_threshold t; tl_records_since_notification := since |}.

Definition set_enabled (b : bool) (t : TrendLog) : TrendLog :=
  tl_configure (tl_properties t) b (tl_stop_when_full t) (tl_reference t) (tl_log_interval t) (tl_notification_threshold t) t.
Definition with_stop_when_full (b : bool) (t : TrendLog) : TrendLog :=
  tl_configure (tl_properties t) (tl_enabled t) b (tl_reference t) (tl_log_interval t) (tl_notification_threshold t) t.
Definition with_log_device_object_property (r : DeviceObjectPropertyReference) (t : TrendLog) : TrendLog :=
  tl_configure (tl_properties t) (tl_enabled t) (tl_stop_when_full t) (Some r) (tl_log_interval t) (tl_notification_threshold t) t.
Definition with_log_interval (s : Z) (t : TrendLog) : TrendLog :=
  tl_configure (tl_properties t) (tl_enabled t) (tl_stop_when_full t) (tl_reference t) s (tl_notification_threshold t) t.
Definition with_notification_threshold (n : Z) (t : TrendLog) : TrendLog :=
  tl_configure (tl_properties t) (tl_enabled t) (tl_stop_when_full t) (tl_reference t) (tl_log_interval t) n t.

(** The counters are [AtomicU64]s: [fetch_add] wraps. *)
Definition add_record_with_status (datum : LogDatum) (ts : LogTimestamp) (flags : Z) (t : TrendLog) : TrendLog :=
  if negb (tl_enabled t) then t
  else if (tl_buffer_size t <=? zlen (tl_buffer t)) && tl_stop_when_full t then t
  else
    let buffer := if tl_buffer_size t <=? zlen (tl_buffer t) then tail (tl_buffer t) else tl_buffer t in
    let seq := tl_total_record_count t in
    tl_set_log (buffer ++ [{| lr_timestamp := ts; lr_datum := datum; lr_status_flags := flags; sequence_number := seq |}])
      ((seq + 1) mod usize_modulus) ((tl_records_since_notification t + 1) mod usize_modulus) t.
Definition add_record_with_timestamp (datum : LogDatum) (ts : LogTimestamp) (t : TrendLog) : TrendLog := add_record_with_status datum ts 0 t.
Definition add_record `{BuildProfile} {E} (secs millis : Z) (datum : LogDatum) : stM TrendLog E unit := fun t =>
  match chrono_free_now secs millis with
  | Ok ts => (Ok tt, add_record_with_timestamp datum ts t)
  | Err e => (Err e, t)
  | Panic => (Panic, t)
  end.
Definition notification_threshold_reached (t : TrendLog) : bool :=
  if tl_notification_threshold t =? 0 then false else tl_notification_threshold t <=? tl_records_since_notification t.
Definition reset_notification_counter (t : TrendLog) : TrendLog := tl_set_log (tl_buffer t) (tl_total_record_count t) 0 t.
Definition purge (t : TrendLog) : TrendLog := tl_set_log [] (tl_total_record_count t) 0 t.
Definition record_count (t : TrendLog) : Z := zlen (tl_buffer t).
Definition sequence_range (t : TrendLog) : option (Z * Z) :=
  match head (tl_buffer t), last (tl_buffer t) with
  | Some a, Some b => Some (sequence_number a, sequence_number b)
  | _, _ => None
  end.

(** ** Ranges *)

Section ranges.
Context `{BuildProfile}.

(** [(-count) as usize]: negating the least [i32] overflows; without checks the result is sign-extended. *)
Definition neg_count {E} (count : Z) : outcome E Z := let? n := i32_op (- count) in Ok (n mod usize_modulus).

Definition read_range_by_position {E} (start_index count : Z) (t : TrendLog) : outcome E (list LogRecord * Z * bool) :=
  let buf := tl_buffer t in
  let buf_len := zlen buf in
  if (buf_len =? 0) || (count =? 0) then Ok ([], 0, false)
  else if 0 <? count then
    let s := Z.min (Z.max start_index 1 - 1) buf_len in
    let n := Z.min count (buf_len - s) in
    let l := take (Z.to_nat n) (drop (Z.to_nat s) buf) in
    Ok (l, as_u32 (zlen l), s + n <? buf_len)
  else
    let e := Z.min (Z.max start_index 1) buf_len in
    let? c := neg_count count in
    let n := Z.min c e in
    let l := reverse (take (Z.to_nat n) (drop (Z.to_nat (e - n)) buf)) in
    Ok (l, as_u32 (zlen l), e - n + n <? buf_len).

(** The records with a key from the reference on, or up to it, and how many: for sequence
    numbers and for timestamps. *)
Definition read_range_by_key {E} (key : LogRecord → Z) (start count : Z) (t : TrendLog) : outcome E (list LogRecord * Z * bool) :=
  let buf := tl_buffer t in
  if (zlen buf =? 0) || (count =? 0) then Ok ([], 0, false)
  else if 0 <? count then
    let matching := filter (fun r => start <=? key r) buf in
    let l := take (Z.to_nat count) matching in
    Ok (l, as_u32 (zlen l), zlen l <? zlen matching)
  else
    let matching := filter (fun r => key r <=? start) buf in
    let? c := neg_count count in
    let n := Z.min c (zlen matching) in
    let l := drop (Z.to_nat (zlen matching - n)) matching in
    Ok (l, as_u32 (zlen l), 0 <? zlen matching - n).
Definition read_range_by_sequence {E} (start_seq count : Z) : TrendLog → outcome E (list LogRecord * Z * bool) :=
  read_range_by_key sequence_number start_seq count.
Definition read_range_by_time {E} (start : LogTimestamp) (count : Z) : TrendLog → outcome E (list LogRecord * Z * bool) :=
  read_range_by_key (fun r => to_sortable (lr_timestamp r)) (to_sortable start) count.
End ranges.

(** ** The object interface *)

Definition no_flags : StatusFlags := {| in_alarm := false; fault := false; overridden := false; sf_out_of_service := false |}.
Definition record_value (r : LogRecord) : BACnetValue :=
  VList [VDate (ts_date (lr_timestamp r)); VTime (ts_time (lr_timestamp r)); to_bacnet_value (lr_datum r); VUnsigned (lr_status_flags r)].
Definition TrendLog_read_property (t : TrendLog) (k : PropertyId) : outcome PropertyError BACnetValue :=
  match k with
  | PiObjectIdentifier => Ok (VObjectIdentifier (tl_id t))
  | PiObjectName => Ok (VCharacterString (tl_name t))
  | PiObjectType => Ok (VEnumerated (ObjectType_as_u16 OtTrendLog))
  | PiDescription => Ok (VCharacterString (tl_description t))
  | PiEnable => Ok (VBoolean (tl_enabled t))
  | PiStopWhenFull => Ok (VBoolean (tl_stop_when_full t))
  | PiBufferSize => Ok (VUnsigned (as_u32 (tl_buffer_size t)))
  | PiRecordCount => Ok (VUnsigned (as_u32 (record_count t)))
  | PiTotalRecordCount => Ok (VUnsigned (as_u32 (tl_total_record_count t)))
  | PiLogInterval => Ok (VUnsigned (tl_log_interval t))
  | PiStatusFlags => Ok (VBitString (StatusFlags_to_bits no_flags))
  | PiNotificationThreshold => Ok (VUnsigned (tl_notification_threshold t))
  | PiRecordsSinceNotification => Ok (VUnsigned (as_u32 (tl_records_since_notification t)))
  | PiLogBuffer => Ok (VArray (record_value <$> tl_buffer t))
  | PiLogDeviceObjectProperty =>
      Ok (match tl_reference t with Some r => VObjectIdentifier (do_object_id r) | None => VNull end)
  | _ => ok_or (tl_properties t !! k) (PeNotFound k)
  end.
Definition TrendLog_write_property (k : PropertyId) (v : BACnetValue) : stM TrendLog PropertyError unit := fun t =>
  let typed {A} (x : option A) (f : A → TrendLog) : outcome PropertyError unit * TrendLog :=
    match x with Some a => (Ok tt, f a) | None => (Err (PeInvalidDataType k), t) end in
  match k with
  | PiObjectIdentifier | PiObjectType | PiObjectName => (Err (PeReadOnly k), t)
  | PiEnable => typed (as_bool v) (fun b => set_enabled b t)
  | PiStopWhenFull => typed (as_bool v) (fun b => with_stop_when_full b t)
  | PiLogInterval => typed (as_unsigned v) (fun n => with_log_interval n t)
  | PiNotificationThreshold => typed (as_unsigned v) (fun n => with_notification_threshold n t)
  | PiRecordCount =>
      match as_unsigned v with
      | Some n => if n =? 0 then (Ok tt, purge t) else (Err (PeValueOutOfRange k), t)
      | None => (Err (PeInvalidDataType k), t)
      end
  | PiDescription =>
      (Ok tt, tl_configure (<[k := v]> (tl_properties t)) (tl_enabled t) (tl_stop_when_full t) (tl_reference t) (tl_log_interval t)
                (tl_notification_threshold t) t)
  | _ => (Err (PeWriteAccessDenied k), t)
  end.
Definition TrendLog_list_properties : list PropertyId :=
  [PiObjectIdentifier; PiObjectName; PiObjectType; PiDescription; PiEnable; PiStopWhenFull; PiBufferSize; PiLogBuffer; PiRecordCount;
   PiTotalRecordCount; PiLogInterval; PiLogDeviceObjectProperty; PiStatusFlags; PiEventState; PiReliability; PiNotificationThreshold;
   PiRecordsSinceNotification].
(** The override of [present_value]. *)
Definition TrendLog_present_value (t : TrendLog) : BACnetValue := VUnsigned (as_u32 (record_count t)).

#[global] Instance trend_log_object : BACnetObject TrendLog := {
  object_identifier := tl_id; object_name := tl_name; read_property := TrendLog_read_property;
  write_property := TrendLog_write_property; list_properties := fun _ => TrendLog_list_properties;
  object_status_flags := fun _ => no_flags }.

(** No more records than the buffer holds; a buffer of size 0 holds one. *)
Definition log_capacity (t : TrendLog) : Z := Z.max 1 (tl_buffer_size t).
Definition trend_log_ok (t : TrendLog) : Prop := zlen (tl_buffer t) <= log_capacity t.
#[global] Instance trend_log_laws : ObjectLaws TrendLog.
Proof.
  exists trend_log_ok.
  - intros k v t. cbn. destruct k; try done; cbn; repeat case_match; done.
  - intros k v t e. cbn. destruct k; try done; cbn; repeat case_match; naive_solver.
  - intros k v t Ht. unfold trend_log_ok, log_capacity in *. pose proof (zlen_nonneg (tl_buffer t)).
    cbn. destruct k; try done; cbn; repeat case_match; (split; [done|]); cbn; rewrite ?zlen_nil; lia.
  - intros t k. cbn. destruct k; try done; cbn; unfold ok_or; by case_match.
Defined.

(* ------------------------------------------------------------------ *)
(** * The calendar *)

(** The rules of the Gregorian calendar. *)
Definition leap (y : Z) : bool := (y mod 4 =? 0) && (negb (y mod 100 =? 0) || (y mod 400 =? 0)).
Definition month_days (y m : Z) : Z :=
  match m with 2 => if leap y then 29 else 28 | 4 | 6 | 9 | 11 => 30 | _ => 31 end.
Definition next_day (c : Z * Z * Z) : Z * Z * Z :=
  let '(y, m, d) := c in
  if d <? month_days y m then (y, m, d + 1) else if m <? 12 then (y, m + 1, 1) else (y + 1, 1, 1).
Definition shift_years (k : Z) (c : Z * Z * Z) : Z * Z * Z := let '(y, m, d) := c in (y + k, m, d).

Lemma leap_shift y e : leap (y + 400 * e) = leap y.
Proof.
  unfold leap. replace (y + 400 * e) with (y + 100 * e * 4) at 1 by lia. replace (y + 400 * e) with (y + 4 * e * 100) at 1 by lia.
  replace (y + 400 * e) with (y + e * 400) by lia. by rewrite !Z_mod_plus_full.
Qed.
Lemma next_day_shift e c : next_day (shift_years (400 * e) c) = shift_years (400 * e) (next_day c).
Proof.
  destruct c as [[y m] d]. cbn [shift_years next_day]. unfold month_days. rewrite leap_shift.
  destruct (_ <? _); [done|]. destruct (m <? 12); [done|]. cbn. f_equal. f_equal. lia.
Qed.

(** The date of a day of an era of 400 years, which begins on the first of March. *)
Definition era_date (doe : Z) : Z * Z * Z :=
  let '(yoe, m, d) := civil_of_era doe in ((if m <=? 2 then yoe + 1 else yoe), m, d).

(** Month and day depend on the day of the year only; the year on the day of the era only. *)
Definition year_start (y : Z) : Z := 365 * y + y / 4 - y / 100 + y / 400.
Definition month_day (doy : Z) : Z * Z :=
  let mp := (5 * doy + 2) / 153 in ((if mp <? 10 then mp + 3 else mp - 9), doy - (153 * mp + 2) / 5 + 1).
Definition date_in_year (y doy : Z) : Z * Z * Z := let '(m, d) := month_day doy in ((if m <=? 2 then y + 1 else y), m, d).

Definition year_ends (y : Z) : bool := (year_of_era (year_start y) =? y) && (year_of_era (year_start (y + 1) - 1) =? y).
Lemma years_check : forallb year_ends (zrange 0 400) = true.
Proof. vm_compute. reflexivity. Qed.
Lemma year_of_era_mono a b : 0 <= a <= b → b < 146097 → year_of_era a <= year_of_era b.
Proof.
  intros. unfold year_of_era. apply Z.div_le_mono; [lia|]. destruct (decide (b = 146096)) as [->|]; [|int_lia].
  destruct (decide (a = 146096)) as [->|]; [done|]. int_lia.
Qed.
Lemma year_start_mono y : year_start y < year_start (y + 1).
Proof. unfold year_start. int_lia. Qed.
Lemma year_found (n : nat) doe : 0 <= doe < year_start (Z.of_nat n) → ∃ y, 0 <= y < Z.of_nat n ∧ year_start y <= doe < year_start (y + 1).
Proof.
  induction n as [|n IH]; [change (year_start (Z.of_nat 0)) with 0; lia|]. intros Hd. destruct (decide (doe < year_start (Z.of_nat n))).
  - destruct IH as (y & ? & ?); [lia|]. exists y. lia.
  - exists (Z.of_nat n). rewrite Nat2Z.inj_succ in *. unfold Z.succ in *. lia.
Qed.
Lemma era_date_in_year y doe :
  0 <= y < 400 → year_start y <= doe < year_start (y + 1) → era_date doe = date_in_year y (doe - year_start y).
Proof.
  intros Hy Hd. assert (year_of_era doe = y) as Hyear.
  { pose proof years_check as Hc. rewrite forallb_forall in Hc. specialize (Hc y). rewrite <- list_elem_of_In, elem_of_zrange in Hc.
    specialize (Hc ltac:(lia)). apply andb_true_iff in Hc as [H1%Z.eqb_eq H2%Z.eqb_eq].
    assert (0 <= year_start y ∧ year_start (y + 1) <= 146097) as [? ?] by (unfold year_start; int_lia).
    pose proof (year_of_era_mono (year_start y) doe ltac:(lia) ltac:(lia)).
    pose proof (year_of_era_mono doe (year_start (y + 1) - 1) ltac:(lia) ltac:(lia)). lia. }
  unfold era_date, civil_of_era, date_in_year, month_day, year_start. rewrite Hyear, (Z.div_small y 400), Z.add_0_r by lia. reflexivity.
Qed.

Definition day_step (doy : Z) : bool :=
  let '(m, d) := month_day doy in
  forallb (fun lp : bool =>
    bool_decide ((let days := match m with 2 => if lp then 29 else 28 | 4 | 6 | 9 | 11 => 30 | _ => 31 end in
      if d <? days then (m, d + 1) else if m <? 12 then (m + 1, 1) else (1, 1)) = month_day (doy + 1)) &&
    implb (m <=? 2) ((month_day (doy + 1)).1 <=? 2)) [true; false].
Lemma day_steps : forallb day_step (zrange 0 364) = true.
Proof. vm_compute. reflexivity. Qed.

Lemma date_in_year_next y doy : 0 <= doy < 364 → next_day (date_in_year y doy) = date_in_year y (doy + 1).
Proof.
  intros Hd. pose proof day_steps as Hc. rewrite forallb_forall in Hc. specialize (Hc doy). rewrite <- list_elem_of_In, elem_of_zrange in Hc.
  specialize (Hc ltac:(lia)). unfold day_step in Hc. unfold date_in_year. destruct (month_day doy) as [m d] eqn:Hm.
  rewrite forallb_forall in Hc. specialize (Hc (leap (if m <=? 2 then y + 1 else y)) ltac:(destruct (leap _); cbn; auto)).
  apply andb_true_iff in Hc as [H1%bool_decide_eq_true H2]. cbv zeta in H1. unfold next_day, month_days.
  rewrite <- H1 in *. clear H1 Hm.
  destruct (d <? _) eqn:Hlt; [cbn [fst] in H2|destruct (m <? 12) eqn:H12; cbn [fst] in H2].
  - destruct (m <=? 2); [done|]. done.
  - destruct (Z.leb_spec m 2), (Z.leb_spec (m + 1) 2); try done; lia.
  - change (1 <=? 2) with true. cbn iota. destruct (Z.leb_spec m 2); [lia|done].
Qed.

Lemma year_length y : year_start (y + 1) - year_start y = if leap (y + 1) then 366 else 365.
Proof.
  unfold year_start, leap. destruct (Z.eqb_spec ((y + 1) mod 4) 0), (Z.eqb_spec ((y + 1) mod 100) 0), (Z.eqb_spec ((y + 1) mod 400) 0);
    cbn [negb andb orb]; int_lia.
Qed.
(** The part of the date within its era is small. *)
Lemma year_of_era_range doe : 0 <= doe <= 146096 → 0 <= year_of_era doe <= 400.
Proof. intros. unfold year_of_era. int_lia. Qed.

Definition civil (days : Z) : Z * Z * Z :=
  shift_years (400 * ((days + 719468) / 146097)) (era_date ((days + 719468) mod 146097)).
Lemma february y : date_in_year y 364 = (y + 1, 2, 28) ∧ date_in_year y 365 = (y + 1, 2, 29) ∧ date_in_year (y + 1) 0 = (y + 1, 3, 1).
Proof. done. Qed.
Lemma after_february y d : 28 <= d → next_day (y, 2, d) = if (d =? 28) && leap y then (y, 2, 29) else (y, 3, 1).
Proof.
  intros Hd. unfold next_day, month_days. destruct (leap y), (Z.eqb_spec d 28) as [->|]; try done;
    (rewrite (proj2 (Z.ltb_ge d _)) by lia); done.
Qed.

(** Within an era: the next day, and from its last day to the first of the next. *)
Lemma era_next doe : 0 <= doe < 146096 → era_date (doe + 1) = next_day (era_date doe).
Proof.
  intros Hd. destruct (year_found 400 doe) as (y & Hy & Hdoe); [change (year_start (Z.of_nat 400)) with 146097; lia|].
  change (Z.of_nat 400) with 400 in Hy.
  pose proof (year_length y) as Hl. pose proof (year_start_mono (y + 1)) as Hm.
  rewrite (era_date_in_year y doe) by lia. set (doy := doe - year_start y). destruct (decide (doy < 364)) as [Hlt|Hge].
  { rewrite date_in_year_next by lia. destruct (leap (y + 1)); (rewrite (era_date_in_year y) by lia); f_equal; lia. }
  assert (∀ x, year_start y + doy + 1 = year_start (y + 1) → x = (y + 1, 3, 1) → era_date (doe + 1) = x) as Hnext.
  { intros x Hstart ->. destruct (decide (y = 399)) as [->|]; [change (year_start (399 + 1)) with 146097 in *; lia|].
    pose proof (year_length (y + 1)). destruct (leap (y + 1 + 1));
      (rewrite (era_date_in_year (y + 1)) by lia; replace (doe + 1 - year_start (y + 1)) with 0 by lia; done). }
  destruct (leap (y + 1)) eqn:Hleap.
  - destruct (decide (doy = 364)) as [He|].
    + rewrite (era_date_in_year y) by lia. replace (doe + 1 - year_start y) with 365 by lia. destruct (february y) as (H1 & H2 & _). by rewrite He, H1, H2, after_february, Hleap.
    + replace doy with 365 by lia. apply Hnext; [lia|]. destruct (february y) as (_ & H2 & _). by rewrite H2, after_february.
  - replace doy with 364 by lia. apply Hnext; [lia|]. destruct (february y) as (H1 & _). by rewrite H1, after_february, Hleap.
Qed.
Lemma civil_next days : civil (days + 1) = next_day (civil days).
Proof.
  unfold civil. rewrite next_day_shift.
  set (z := days + 719468). replace (days + 1 + 719468) with (z + 1) by lia.
  pose proof (Z.mod_pos_bound z 146097 ltac:(lia)). destruct (decide (z mod 146097 = 146096)) as [He|He].
  - rewrite He. change (next_day (era_date 146096)) with (400, 3, 1).
    assert ((z + 1) / 146097 = z / 146097 + 1 ∧ (z + 1) mod 146097 = 0) as [-> ->] by (Z.div_mod_to_equations; lia).
    change (era_date 0) with (0, 3, 1). cbn. f_equal. f_equal. lia.
  - assert ((z + 1) / 146097 = z / 146097 ∧ (z + 1) mod 146097 = z mod 146097 + 1) as [-> ->] by (Z.div_mod_to_equations; lia).
    f_equal. apply era_next. lia.
Qed.

Lemma days_to_civil_civil `{BuildProfile} {E} days :
  0 <= days < 700000000000 → days_to_civil (E:=E) days = Ok (civil days).
Proof.
  intros Hd. unfold days_to_civil, civil, era_date. rewrite (proj2 (Z.leb_le 0 (days + 719468))) by lia.
  rewrite Z.quot_div_nonneg by lia. set (z := days + 719468). pose proof (Z.mod_pos_bound z 146097 ltac:(lia)).
  assert (0 <= z / 146097 < 5000000) as He by (unfold z; Z.div_mod_to_equations; lia).
  replace (as_u32 (z - z / 146097 * 146097)) with (z mod 146097) by (unfold as_u32; rewrite (Z.mod_small _ 4294967296) by (Z.div_mod_to_equations; lia); Z.div_mod_to_equations; lia).
  pose proof (year_of_era_range (z mod 146097) ltac:(lia)) as Hy. unfold civil_of_era. set (yoe := year_of_era _) in *. cbv zeta.
  replace (to_i32 (z / 146097)) with (z / 146097) by (unfold to_i32; rewrite Z.mod_small by lia; lia).
  rewrite i32_op_ok by (unfold is_i32; lia). cbn [obind]. rewrite i32_op_ok by (unfold is_i32; lia). cbn [obind].
  destruct (_ <=? 2); [rewrite i32_op_ok by (unfold is_i32; lia)|]; cbn [obind shift_years]; do 2 f_equal; f_equal; lia.
Qed.

(** The date computed from the clock is the date of the Gregorian calendar: the first of January
    1970, advanced by as many days as have passed, for every clock value below the year 1900000000. *)
Theorem civil_calendar `{BuildProfile} {E} (n : nat) :
  Z.of_nat n < 700000000000 → days_to_civil (E:=E) (Z.of_nat n) = Ok (Nat.iter n next_day (1970, 1, 1)).
Proof.
  intros Hn. rewrite days_to_civil_civil by lia. f_equal. clear Hn. induction n as [|n IH]; [reflexivity|].
  rewrite Nat2Z.inj_succ. unfold Z.succ. rewrite civil_next, IH. reflexivity.
Qed.
Definition march_2024 : nat := Z.to_nat 19797.
Lemma civil_calendar_witness :
  Z.of_nat march_2024 < 700000000000 ∧ Nat.iter march_2024 next_day (1970, 1, 1) = (2024, 3, 15) ∧
  days_to_civil (H:=debug_build) (E:=unit) (Z.of_nat march_2024) = Ok (Nat.iter march_2024 next_day (1970, 1, 1)).
Proof. split; [vm_compute; reflexivity|]. split; [vm_compute; reflexivity|]. apply civil_calendar. vm_compute. reflexivity. Defined.

(* ------------------------------------------------------------------ *)
(** * What is kept *)

(** The operations on a log. A write comes from the network, the others from the simulator. *)
Inductive LogOp : Type :=
| LoEnable (b : bool) | LoStop (b : bool) | LoAdd (d : LogDatum) (ts : LogTimestamp) (flags : Z) | LoPurge | LoNotified
| LoWrite (k : PropertyId) (v : BACnetValue).
Definition log_step (t : TrendLog) (op : LogOp) : TrendLog :=
  match op with
  | LoEnable b => set_enabled b t
  | LoStop b => with_stop_when_full b t
  | LoAdd d ts flags => add_record_with_status d ts flags t
  | LoPurge => purge t
  | LoNotified => reset_notification_counter t
  | LoWrite k v => (write_property k v t).2
  end.

(** What a write asks for. *)
Definition requested (op : LogOp) : option LogOp :=
  match op with
  | LoWrite PiEnable v => LoEnable <$> as_bool v
  | LoWrite PiStopWhenFull v => LoStop <$> as_bool v
  | LoWrite PiRecordCount v => if bool_decide (as_unsigned v = Some 0) then Some LoPurge else None
  | LoWrite _ _ => None
  | op => Some op
  end.

(** The log without a bound: every record taken since the last purge. *)
Record FullLog : Type := { fl_enabled : bool; fl_stop : bool; fl_records : list LogRecord; fl_total : Z }.
Definition full_new : FullLog := {| fl_enabled := false; fl_stop := false; fl_records := []; fl_total := 0 |}.
Definition full_step (cap : Z) (l : FullLog) (op : LogOp) : FullLog :=
  match requested op with
  | Some (LoEnable b) => {| fl_enabled := b; fl_stop := fl_stop l; fl_records := fl_records l; fl_total := fl_total l |}
  | Some (LoStop b) => {| fl_enabled := fl_enabled l; fl_stop := b; fl_records := fl_records l; fl_total := fl_total l |}
  | Some (LoAdd d ts flags) =>
      if fl_enabled l && negb ((cap <=? zlen (fl_records l)) && fl_stop l) then
        {| fl_enabled := fl_enabled l; fl_stop := fl_stop l;
           fl_records := fl_records l ++ [{| lr_timestamp := ts; lr_datum := d; lr_status_flags := flags; sequence_number := fl_total l |}];
           fl_total := fl_total l + 1 |}
      else l
  | Some LoPurge => {| fl_enabled := fl_enabled l; fl_stop := fl_stop l; fl_records := []; fl_total := fl_total l |}
  | _ => l
  end.

Definition last_n {A} (n : Z) (l : list A) : list A := drop (length l - Z.to_nat n) l.
#[local] Arguments last_n : simpl never.
Lemma zlen_last_n {A} n (l : list A) : 0 <= n → zlen (last_n n l) = Z.min n (zlen l).
Proof. intros. unfold zlen, last_n. rewrite length_drop. lia. Qed.
Lemma last_n_snoc {A} n (l : list A) x :
  0 < n → last_n n (l ++ [x]) = (if n <=? zlen l then tail (last_n n l) else last_n n l) ++ [x].
Proof.
  intros Hn. unfold last_n, zlen. rewrite length_app. cbn [length]. rewrite drop_app_le by lia. f_equal.
  destruct (Z.leb_spec n (Z.of_nat (length l))).
  - destruct (drop (length l - Z.to_nat n) l) as [|y k] eqn:Hd; [apply (f_equal length) in Hd; rewrite length_drop in Hd; cbn in Hd; lia|].
    cbn [tail]. replace (length l + 1 - Z.to_nat n)%nat with ((length l - Z.to_nat n) + 1)%nat by lia.
    rewrite <- drop_drop, Hd. done.
  - f_equal. lia.
Qed.

Record log_refines (cap : Z) (l : FullLog) (t : TrendLog) : Prop := {
  lf_enabled : tl_enabled t = fl_enabled l;
  lf_stop : tl_stop_when_full t = fl_stop l;
  lf_size : tl_buffer_size t = cap;
  lf_buffer : tl_buffer t = last_n (Z.max 1 cap) (fl_records l);
  lf_total : tl_total_record_count t = fl_total l;
  lf_seq : ∀ i r, fl_records l !! i = Some r → sequence_number r = fl_total l - zlen (fl_records l) + Z.of_nat i;
  lf_range : 0 <= fl_total l ∧ zlen (fl_records l) <= fl_total l
}.

(** Operations that leave the buffer, the counter and the switches alone. *)
Lemma requested_effect op t :
  match requested op with
  | Some op' => log_step t op = log_step t op'
  | None => ∃ props i th, log_step t op = tl_configure props (tl_enabled t) (tl_stop_when_full t) (tl_reference t) i th t
  end.
Proof.
  assert (∃ props i th, t = tl_configure props (tl_enabled t) (tl_stop_when_full t) (tl_reference t) i th t) as Hself.
  { exists (tl_properties t), (tl_log_interval t), (tl_notification_threshold t). by destruct t. }
  destruct op as [| | | | |k v]; try done. destruct k; try (exact Hself); cbn.
  - by eexists _, _, _.
  - destruct (as_bool v); [done|exact Hself].
  - destruct (as_unsigned v); [by eexists _, _, _|exact Hself].
  - destruct (as_unsigned v); [by eexists _, _, _|exact Hself].
  - case_bool_decide as Hv; [by rewrite Hv|]. destruct (as_unsigned v) as [n|]; [|exact Hself].
    destruct (Z.eqb_spec n 0); [congruence|exact Hself].
  - destruct (as_bool v); [done|exact Hself].
Qed.

Lemma full_total cap l op : fl_total l <= fl_total (full_step cap l op).
Proof. unfold full_step. repeat case_match; cbn; lia. Qed.
Lemma full_total_fold cap ops l : fl_total l <= fl_total (foldl (full_step cap) l ops).
Proof. revert l. induction ops as [|op ops IH]; intros l; cbn; [lia|]. pose proof (full_total cap l op). specialize (IH (full_step cap l op)). lia. Qed.

Lemma add_refines cap l t d ts flags :
  log_refines cap l t → fl_total (full_step cap l (LoAdd d ts flags)) < usize_modulus →
  log_refines cap (full_step cap l (LoAdd d ts flags)) (add_record_with_status d ts flags t).
Proof.
  intros [He Hs Hc Hb Ht Hq Hr] Hm. unfold add_record_with_status, full_step in *. cbn [requested] in *.
  rewrite He, Hs, Hc. destruct (fl_enabled l) eqn:Hen; cbn [negb andb] in *; [|split; congruence || done].
  pose proof (zlen_nonneg (fl_records l)).
  assert (zlen (tl_buffer t) = Z.min (Z.max 1 cap) (zlen (fl_records l))) as Hlen by (rewrite Hb; apply zlen_last_n; lia).
  assert ((cap <=? zlen (tl_buffer t)) = (cap <=? zlen (fl_records l))) as Hfull.
  { rewrite Hlen. destruct (Z.leb_spec cap (zlen (fl_records l))), (Z.leb_spec cap (Z.min (Z.max 1 cap) (zlen (fl_records l)))); lia. }
  rewrite Hfull. destruct ((cap <=? zlen (fl_records l)) && fl_stop l) eqn:Hst; cbn [negb] in *; [split; congruence || done|].
  split; cbn; try done.
  - rewrite last_n_snoc, Hb by lia. rewrite Ht. f_equal.
    destruct (Z.leb_spec cap (zlen (fl_records l))), (Z.leb_spec (Z.max 1 cap) (zlen (fl_records l))); try done; [|lia].
    assert (zlen (fl_records l) = 0) as Hz by lia. by destruct (fl_records l).
  - rewrite Ht. apply Z.mod_small. cbn in Hm. lia.
  - intros i r. rewrite zlen_app. change (zlen [_]) with 1. intros [Hi|[Hi Hx]]%lookup_app_Some.
    + rewrite (Hq _ _ Hi). lia.
    + destruct (i - length (fl_records l))%nat as [|j] eqn:Hj; [|done]. injection Hx as <-. cbn. unfold zlen in *. lia.
  - rewrite zlen_app. change (zlen [_]) with 1. lia.
Qed.

Lemma log_step_refines cap l t op :
  log_refines cap l t → fl_total (full_step cap l op) < usize_modulus → log_refines cap (full_step cap l op) (log_step t op).
Proof.
  intros Hl Hm. pose proof (requested_effect op t) as Hr. unfold full_step in *. destruct (requested op) as [op'|] eqn:Hop.
  - rewrite Hr. destruct op'; cbn [log_step].
    1-2: destruct Hl; by split.
    + pose proof (add_refines cap l t d ts flags Hl) as Ha. unfold full_step in Ha. cbn [requested] in Ha. by apply Ha.
    + destruct Hl. split; cbn; try done. change (zlen []) with 0. lia.
    + destruct Hl. by split.
    + destruct op as [| | | | |k' v']; try done. destruct k'; cbn in Hop; repeat case_match; try done;
        destruct (as_bool v'); cbn in Hop; discriminate.
  - destruct Hr as (props & i & th & ->). destruct Hl. by split.
Qed.

Lemma log_refines_fold cap ops l t :
  log_refines cap l t → fl_total (foldl (full_step cap) l ops) < usize_modulus →
  log_refines cap (foldl (full_step cap) l ops) (foldl log_step t ops).
Proof.
  revert l t. induction ops as [|op ops IH]; intros l t Hl Hm; [done|]. cbn in *.
  apply IH; [|done]. apply log_step_refines; [done|]. pose proof (full_total_fold cap ops (full_step cap l op)). lia.
Qed.
Lemma new_refines `{BuildProfile} {E} inst name cap t : TrendLog_new (E:=E) inst name cap = Ok t → log_refines cap full_new t.
Proof. unfold TrendLog_new. destruct (ObjectId_new OtTrendLog inst); cbn; intros; simplify_eq. by split. Qed.

(** C29: The log object keeps, whatever is done with it, the last records of the unbounded log: as many
    as its size says (one, when the size is 0), in order, under consecutive sequence numbers that
    end below the count of all records; what is refused when a full log stops, is refused by both. *)
Theorem trend_log_refines `{BuildProfile} {E} inst name cap (ops : list LogOp) (t : TrendLog) :
  TrendLog_new (E:=E) inst name cap = Ok t →
  fl_total (foldl (full_step cap) full_new ops) < usize_modulus →
  log_refines cap (foldl (full_step cap) full_new ops) (foldl log_step t ops).
Proof.
  intros Hn. by apply log_refines_fold, (new_refines (E:=E) inst name).
Qed.

Definition noon_ts (m : Z) : LogTimestamp :=
  {| ts_date := {| year := 124; month := 3; day := 15; day_of_week := 255 |};
     ts_time := {| hour := 12; minute := m; second := 0; hundredths := 0 |} |}.
Definition demo_log : list LogOp :=
  [LoEnable true; LoAdd (LdUnsigned 1) (noon_ts 1) 0; LoAdd (LdUnsigned 2) (noon_ts 2) 0; LoAdd (LdUnsigned 3) (noon_ts 3) 0;
   LoWrite PiStopWhenFull (VBoolean true); LoAdd (LdUnsigned 4) (noon_ts 4) 0].
Definition empty_log : TrendLog := {|
  tl_id := {| object_type := OtTrendLog; instance := 1 |}; tl_name := str "TL"; tl_description := [];
  tl_properties := <[PiReliability := VEnumerated 0]> (<[PiEventState := VEnumerated 0]> ∅);
  tl_enabled := false; tl_stop_when_full := false; tl_reference := None; tl_log_interval := 0; tl_buffer := []; tl_buffer_size := 2;
  tl_total_record_count := 0; tl_notification_threshold := 0; tl_records_since_notification := 0 |}.
Lemma trend_log_refines_witness :
  TrendLog_new (H:=debug_build) (E:=unit) 1 (str "TL") 2 = Ok empty_log ∧
  fl_total (foldl (full_step 2) full_new demo_log) < usize_modulus ∧
  log_refines 2 (foldl (full_step 2) full_new demo_log) (foldl log_step empty_log demo_log) ∧
  sequence_number <$> tl_buffer (foldl log_step empty_log demo_log) = [1; 2].
Proof.
  split; [reflexivity|]. split; [vm_compute; reflexivity|]. split; [|reflexivity].
  apply (trend_log_refines (H:=debug_build) (E:=unit) 1 (str "TL") 2 demo_log empty_log); [reflexivity|vm_compute; reflexivity].
Defined.

(* ------------------------------------------------------------------ *)
(** * ReadRange *)

Inductive RangeType : Set :=
| RtNone
| RtByPosition (reference_index count : Z)
| RtBySequenceNumber (reference_seq count : Z)
| RtByTime (d : BACnetDate) (t : BACnetTime) (count : Z).
Record ReadRangeRequest : Set := { rr_object_id : ObjectId; rr_property_id : PropertyId; rr_array_index : option Z; rr_range : RangeType }.

(** A decoder that answers for itself when it fails. *)
Definition RDec (A : Type) : Type := stM (list Z) ServiceResult A.
(** [map_err(|_| ServiceResult::missing_required_parameter())] *)
Definition or_missing {A} (d : Dec A) : RDec A := st_map_err (fun _ => missing_required_parameter) d.
(** [let _ = decoder.decode_tag_info()] *)
Definition ignore_tag : RDec unit := fun d => match decode_tag_info d with (Panic, d') => (Panic, d') | (_, d') => (Ok tt, d') end.

Definition decode_unsigned_from_decoder : RDec Z :=
  do? tag := or_missing decode_tag_info in let '(_, _, len) := tag in or_missing (decode_unsigned len).
(** The octets of the count are read as an unsigned number. *)
Definition decode_signed_from_decoder : RDec Z :=
  do? tag := or_missing decode_tag_info in let '(_, _, len) := tag in st_map to_i32 (or_missing (decode_unsigned len)).
Definition four_octets : RDec (Z * Z * Z * Z) :=
  do? tag := or_missing decode_tag_info in
  do? bytes := or_missing (read_bytes 4) in
  match bytes with [a; b; c; d] => st_ret (a, b, c, d) | _ => st_lift Panic end.
Definition decode_date_from_decoder : RDec BACnetDate :=
  st_map (fun '(a, b, c, d) => {| year := a; month := b; day := c; day_of_week := d |}) four_octets.
Definition decode_time_from_decoder : RDec BACnetTime :=
  st_map (fun '(a, b, c, d) => {| hour := a; minute := b; second := c; hundredths := d |}) four_octets.

(** One parameter after the property: what it makes of the array index and the range. *)
Definition decode_parameter (tag len : Z) (acc : option Z * RangeType) : RDec (option Z * RangeType) :=
  let '(index, range) := acc in
  if tag =? 2 then do? i := or_missing (decode_unsigned len) in st_ret (Some i, range)
  else if tag =? 3 then
    do? i := decode_unsigned_from_decoder in
    do? c := decode_signed_from_decoder in
    do? _ := ignore_tag in
    st_ret (index, RtByPosition (to_i32 i) c)
  else if tag =? 6 then
    do? s := decode_unsigned_from_decoder in
    do? c := decode_signed_from_decoder in
    do? _ := ignore_tag in
    st_ret (index, RtBySequenceNumber s c)
  else if tag =? 7 then
    do? d := decode_date_from_decoder in
    do? t := decode_time_from_decoder in
    do? c := decode_signed_from_decoder in
    do? _ := ignore_tag in
    st_ret (index, RtByTime d t c)
  else do? _ := or_missing (skip len) in st_ret acc.

(** [while decoder.remaining() > 0]; a tag that cannot be read, or an application tag, ends it. *)
Fixpoint decode_parameters (fuel : nat) (acc : option Z * RangeType) : RDec (option Z * RangeType) := fun d =>
  match d with
  | [] => (Ok acc, d)
  | _ =>
      match fuel with
      | O => (Panic, d)
      | S fuel =>
          match decode_tag_info d with
          | (Ok (tag, true, len), d') => st_bind (decode_parameter tag len acc) (decode_parameters fuel) d'
          | (Panic, d') => (Panic, d')
          | (_, d') => (Ok acc, d')
          end
      end
  end.

Definition ReadRangeRequest_decode (data : list Z) : outcome ServiceResult ReadRangeRequest :=
  if zlen data <? 7 then Err missing_required_parameter
  else fst ((
    do? tag := or_missing decode_tag_info in
    let '(tag0, is_ctx0, _) := tag in
    if negb (tag0 =? 0) || negb is_ctx0 then st_err missing_required_parameter
    else
      do? object_id := or_missing decode_object_identifier in
      do? tag := or_missing decode_tag_info in
      let '(tag1, is_ctx1, len1) := tag in
      if negb (tag1 =? 1) || negb is_ctx1 then st_err missing_required_parameter
      else
        do? prop_raw := or_missing (decode_unsigned len1) in
        do? property_id := st_lift (ok_or (PropertyId_from_u32 prop_raw) missing_required_parameter) in
        do? rest := (fun d => decode_parameters (length d) (None, RtNone) d) in
        st_ret {| rr_object_id := object_id; rr_property_id := property_id; rr_array_index := fst rest; rr_range := snd rest |}) data).

(** The items of a range, and whether more follow; the count is that of the items. *)
Definition record_timestamp_sortable (r : BACnetValue) : Z :=
  match r with VList (VDate d :: VTime t :: _) => timestamp_sortable d t | _ => 0 end.

Section apply.
Context `{BuildProfile}.

Definition range_between {E} (records : list BACnetValue) (s e : Z) (more : bool) : outcome E (list BACnetValue * Z * bool) :=
  let? items := slice records s e in Ok (items, as_u32 (zlen items), more).
Definition apply_range {E} (records : list BACnetValue) (range : RangeType) : outcome E (list BACnetValue * Z * bool) :=
  let total := zlen records in
  match range with
  | RtNone => Ok (records, as_u32 total, false)
  | RtByPosition reference_index count =>
      if (total =? 0) || (count =? 0) then Ok ([], 0, false)
      else if 0 <? count then
        let start := Z.min (Z.max reference_index 1 - 1) total in
        let n := Z.min count (total - start) in
        range_between records start (start + n) (start + n <? total)
      else
        let e := Z.min (Z.max reference_index 1) total in
        let? c := neg_count count in
        let n := Z.min c e in
        range_between records (e - n) e (0 <? e - n)
  | RtBySequenceNumber reference_seq count =>
      if (total =? 0) || (count =? 0) then Ok ([], 0, false)
      else
        let start := Z.min reference_seq total in
        if 0 <? count then
          let n := Z.min count (total - start) in
          range_between records start (start + n) (start + n <? total)
        else
          let e := Z.min start total in
          let? c := neg_count count in
          let n := Z.min c e in
          range_between records (e - n) e (0 <? e - n)
  | RtByTime d t count =>
      if (total =? 0) || (count =? 0) then Ok ([], 0, false)
      else
        let ref := timestamp_sortable d t in
        if 0 <? count then
          let matching := filter (fun v => ref <=? record_timestamp_sortable v) records in
          let n := Z.min count (zlen matching) in
          range_between matching 0 n (n <? zlen matching)
        else
          let matching := filter (fun v => record_timestamp_sortable v <=? ref) records in
          let? c := neg_count count in
          let n := Z.min c (zlen matching) in
          range_between matching (zlen matching - n) (zlen matching) (0 <? zlen matching - n)
  end.

Definition encode_log_record_value (r : BACnetValue) : list Z :=
  match r with
  | VList (a :: b :: c :: rest) =>
      encode_context_value 0 a ++ encode_context_value 1 b ++ encode_context_value 2 c
      ++ match rest with d :: _ => encode_context_value 3 d | [] => [] end
  | _ => []
  end.
Definition encode_read_range_ack (o : ObjectId) (p : PropertyId) (items : list BACnetValue) (more : bool) : list Z :=
  encode_context_object_identifier 0 o
  ++ encode_context_enumerated 1 (PropertyId_as_u32 p)
  ++ encode_context_bit_string 3 [match items with [] => false | _ => true end; negb more; more]
  ++ encode_context_unsigned 4 (as_u32 (zlen items))
  ++ encode_opening_tag 5 ++ flat_map encode_log_record_value items ++ encode_closing_tag 5.

Section handler.
Context {O : Type} `{BACnetObject O}.
Definition ReadRange_handle : Handle (O:=O) := fun data _ s =>
  match ReadRangeRequest_decode data with
  | Panic => (Panic, s)
  | Err e => (Ok e, s)
  | Ok request =>
      match get s (rr_object_id request) with
      | None => (Ok unknown_object, s)
      | Some o =>
          if negb (bool_decide (object_type (rr_object_id request) = OtTrendLog)) then (Ok (SrError EclServices EcServiceRequestDenied), s)
          else if negb (bool_decide (rr_property_id request = PiLogBuffer)) then (Ok (SrError EclProperty EcPropertyIsNotAList), s)
          else
            match read_property o PiLogBuffer with
            | Panic => (Panic, s)
            | Err _ => (Ok (SrError EclProperty EcUnknownProperty), s)
            | Ok (VArray records) =>
                match apply_range records (rr_range request) with
                | Ok (items, _, more) =>
                    (Ok (SrComplexAck (encode_read_range_ack (rr_object_id request) (rr_property_id request) items more)), s)
                | Err e => (Err e, s)
                | Panic => (Panic, s)
                end
            | Ok _ => (Ok (SrError EclProperty EcPropertyIsNotAList), s)
            end
      end
  end.
Definition ReadRangeHandler : ConfirmedServiceHandler O :=
  {| service_choice := CsReadRange; handle := ReadRange_handle; min_data_length := 7 |}.
End handler.
End apply.

(* ------------------------------------------------------------------ *)
(** * Ranges of the object and of the service *)

Lemma neg_count_ok `{BuildProfile} {E} c : -2147483648 < c <= 0 → neg_count (E:=E) c = Ok (- c).
Proof. intros Hc. unfold neg_count. rewrite i32_op_ok by (unfold is_i32; lia). cbn. unfold usize_modulus. rewrite Z.mod_small by lia. done. Qed.
Lemma filter_bool_map {A B} (p : B → bool) (f : A → B) (l : list A) : filter (fun v => p v) (f <$> l) = f <$> filter (fun x => p (f x)) l.
Proof. induction l as [|x l IH]; [done|]. cbn [fmap list_fmap]. rewrite !filter_cons. destruct (p (f x)) eqn:Hp; cbn; by rewrite IH. Qed.

Definition result_values (x : list LogRecord * Z * bool) : list BACnetValue * Z * bool := (record_value <$> x.1.1, x.1.2, x.2).

Section agreement.
Context `{BuildProfile} {E : Type}.
Implicit Types (t : TrendLog).

Lemma between_map (l : list LogRecord) s e more :
  0 <= s <= e → e <= zlen l →
  range_between (E:=E) (record_value <$> l) s e more =
  Ok (result_values (take (Z.to_nat (e - s)) (drop (Z.to_nat s) l), as_u32 (zlen (take (Z.to_nat (e - s)) (drop (Z.to_nat s) l))), more)).
Proof.
  intros. unfold range_between. rewrite slice_ok by (unfold zlen; rewrite ?length_fmap; unfold zlen in *; lia). cbn.
  unfold result_values. cbn. unfold zlen. by rewrite <- fmap_drop, <- fmap_take, length_fmap.
Qed.
Lemma zlen_values t : zlen (record_value <$> tl_buffer t) = zlen (tl_buffer t).
Proof. unfold zlen. by rewrite length_fmap. Qed.

Lemma position_forward t i c :
  0 < c → apply_range (E:=E) (record_value <$> tl_buffer t) (RtByPosition i c) = omap_ok result_values (read_range_by_position i c t).
Proof.
  intros Hc. pose proof (zlen_nonneg (tl_buffer t)). unfold apply_range, read_range_by_position. rewrite zlen_values, (proj2 (Z.ltb_lt 0 c)) by lia.
  destruct (_ || _); [done|]. rewrite between_map by lia. cbn. do 2 f_equal. unfold result_values. cbn. repeat f_equal; lia.
Qed.
Lemma position_backward t i c :
  -2147483648 < c < 0 →
  omap_ok (fun x => reverse x.1.1) (apply_range (E:=E) (record_value <$> tl_buffer t) (RtByPosition i c)) =
  omap_ok (fun x => (result_values x).1.1) (read_range_by_position i c t).
Proof.
  intros Hc. pose proof (zlen_nonneg (tl_buffer t)). unfold apply_range, read_range_by_position. rewrite zlen_values, (proj2 (Z.ltb_ge 0 c)) by lia.
  destruct (_ || _); [done|]. rewrite !neg_count_ok by lia. cbn [obind]. rewrite between_map by lia.
  cbn [omap_ok result_values fst snd]. rewrite fmap_reverse. repeat f_equal. lia.
Qed.
Lemma time_range t d tm c :
  -2147483648 < c →
  apply_range (E:=E) (record_value <$> tl_buffer t) (RtByTime d tm c) =
  omap_ok result_values (read_range_by_time {| ts_date := d; ts_time := tm |} c t).
Proof.
  intros Hc. unfold apply_range, read_range_by_time, read_range_by_key. rewrite zlen_values. destruct (_ || _) eqn:He; [done|].
  apply orb_false_iff in He as [_ He%Z.eqb_neq].
  rewrite !(filter_bool_map _ record_value). change (fun x => record_timestamp_sortable (record_value x)) with (fun r => to_sortable (lr_timestamp r)).
  set (m1 := filter _ (tl_buffer t)). set (m2 := filter _ (tl_buffer t)).
  assert (∀ l : list LogRecord, zlen (record_value <$> l) = zlen l) as Hz by (intros; unfold zlen; by rewrite length_fmap). rewrite !Hz.
  pose proof (zlen_nonneg m1). pose proof (zlen_nonneg m2). destruct (Z.ltb_spec 0 c).
  - rewrite between_map by lia. cbn [omap_ok]. f_equal. rewrite drop_0, Z.sub_0_r.
    assert (take (Z.to_nat (Z.min c (zlen m1))) m1 = take (Z.to_nat c) m1) as ->.
    { destruct (Z.min_spec c (zlen m1)) as [[? ->]|[? ->]]; [done|]. unfold zlen in *. rewrite !take_ge by lia. done. }
    do 2 f_equal. unfold zlen. rewrite length_take. apply eq_true_iff_eq. rewrite !Z.ltb_lt. lia.
  - rewrite neg_count_ok by lia. cbn [obind]. rewrite between_map by lia. cbn [omap_ok]. f_equal.
    rewrite (take_ge (drop _ m2)); [done|]. rewrite length_drop. unfold zlen in *. lia.
Qed.

Lemma filter_id {A} (p : A → bool) (l : list A) : Forall (fun x => p x) l → filter (fun x => p x) l = l.
Proof. induction 1 as [|x l Hx _ IH]; [done|]. by rewrite filter_cons, decide_True, IH. Qed.
(** With consecutive sequence numbers, those from one on are a suffix. *)
Lemma filter_consecutive (l : list LogRecord) first s :
  (∀ i r, l !! i = Some r → sequence_number r = first + Z.of_nat i) → 0 <= s →
  filter (fun r => first + s <=? sequence_number r) l = drop (Z.to_nat s) l.
Proof.
  revert first s. induction l as [|r l IH]; intros first s Hl Hs; [by rewrite drop_nil|]. rewrite filter_cons.
  pose proof (Hl 0%nat r eq_refl) as H0. assert (∀ i r', l !! i = Some r' → sequence_number r' = (first + 1) + Z.of_nat i) as Hl'.
  { intros i r' Hi. rewrite (Hl (S i) r' Hi). lia. }
  destruct (decide (s = 0)) as [->|Hne].
  - rewrite drop_0, decide_True by (apply Is_true_eq_left, Z.leb_le; lia). f_equal.
    apply filter_id, Forall_lookup. intros i r' Hi. apply Is_true_eq_left, Z.leb_le. rewrite (Hl' _ _ Hi). lia.
  - rewrite decide_False by (intros Hf%Is_true_eq_true%Z.leb_le; lia).
    replace (first + s) with (first + 1 + (s - 1)) by lia. rewrite IH by (done || lia).
    replace (Z.to_nat s) with (S (Z.to_nat (s - 1))) by lia. done.
Qed.
Lemma sequence_forward t first s c :
  (∀ i r, tl_buffer t !! i = Some r → sequence_number r = first + Z.of_nat i) → 0 <= s → 0 < c →
  apply_range (E:=E) (record_value <$> tl_buffer t) (RtBySequenceNumber s c) = omap_ok result_values (read_range_by_sequence (first + s) c t).
Proof.
  intros Hl Hs Hc. pose proof (zlen_nonneg (tl_buffer t)). unfold apply_range, read_range_by_sequence, read_range_by_key.
  rewrite zlen_values, (proj2 (Z.ltb_lt 0 c)) by lia. destruct (_ || _); [done|]. rewrite between_map by lia. cbn [omap_ok]. f_equal.
  rewrite filter_consecutive by done. set (n := Z.min c _).
  assert (take (Z.to_nat (Z.min s (zlen (tl_buffer t)) + n - Z.min s (zlen (tl_buffer t)))) (drop (Z.to_nat (Z.min s (zlen (tl_buffer t)))) (tl_buffer t))
          = take (Z.to_nat c) (drop (Z.to_nat s) (tl_buffer t))) as ->.
  { destruct (decide (s <= zlen (tl_buffer t))).
    - rewrite Z.min_l by lia. unfold n. destruct (decide (c <= zlen (tl_buffer t) - s)).
      + f_equal. lia.
      + rewrite !take_ge; [done|rewrite length_drop; unfold zlen in *; lia..].
    - rewrite !(drop_ge (tl_buffer t)) by (unfold zlen in *; lia). by rewrite !take_nil. }
  do 2 f_equal. unfold n, zlen. rewrite length_take, length_drop. apply eq_true_iff_eq. rewrite !Z.ltb_lt. lia.
Qed.
End agreement.

(** ReadRange serves the log the way the log object defines its ranges, whatever operations led to
    the log: forward by position and by time it returns the same records, count and mark that more
    follow; backward by position it returns the same records, but oldest first; a reference by
    sequence number, however, is counted from the oldest record in the buffer, so it means the
    record with that number only as long as none has been overwritten or purged. *)
Theorem service_ranges_agree `{BuildProfile} {E F} inst name cap ops (t0 : TrendLog) :
  TrendLog_new (E:=F) inst name cap = Ok t0 →
  fl_total (foldl (full_step cap) full_new ops) < usize_modulus →
  let t := foldl log_step t0 ops in
  let records := record_value <$> tl_buffer t in
  (∀ i c, 0 < c → apply_range (E:=E) records (RtByPosition i c) = omap_ok result_values (read_range_by_position i c t)) ∧
  (∀ i c, -2147483648 < c < 0 →
     omap_ok (fun x => reverse x.1.1) (apply_range (E:=E) records (RtByPosition i c)) =
     omap_ok (fun x => (result_values x).1.1) (read_range_by_position i c t)) ∧
  (∀ ts c, -2147483648 < c →
     apply_range (E:=E) records (RtByTime (ts_date ts) (ts_time ts) c) = omap_ok result_values (read_range_by_time ts c t)) ∧
  (∀ s c, 0 <= s → 0 < c →
     apply_range (E:=E) records (RtBySequenceNumber s c) =
     omap_ok result_values (read_range_by_sequence (tl_total_record_count t - record_count t + s) c t)).
Proof.
  intros Hn Hm t records. assert (log_refines cap (foldl (full_step cap) full_new ops) t) as [_ _ _ Hb Ht Hq Hr].
  { apply log_refines_fold; [by eapply new_refines|done]. }
  split; [intros; by apply position_forward|]. split; [intros; by apply position_backward|]. split.
  { intros [d tm] c Hc. by apply time_range. }
  intros s c Hs Hc. apply sequence_forward; [|done..]. unfold record_count. rewrite Hb, Ht. intros i r Hi.
  rewrite zlen_last_n by lia. unfold last_n in Hi. rewrite lookup_drop in Hi. rewrite (Hq _ _ Hi). unfold zlen in *. lia.
Qed.
Lemma service_ranges_agree_witness :
  fl_total (foldl (full_step 2) full_new demo_log) < usize_modulus ∧
  apply_range (H:=debug_build) (E:=unit) (record_value <$> tl_buffer (foldl log_step empty_log demo_log)) (RtBySequenceNumber 1 5) =
  omap_ok result_values (read_range_by_sequence (H:=debug_build) 2 5 (foldl log_step empty_log demo_log)).
Proof.
  split; [vm_compute; reflexivity|].
  apply (service_ranges_agree (H:=debug_build) (E:=unit) (F:=unit) 1 (str "TL") 2 demo_log empty_log); vm_compute; (reflexivity || discriminate).
Defined.

(* ------------------------------------------------------------------ *)
(** * Reading a log in pages *)

(** A client that asks for [c] records at a time, from where the last answer ended, until an
    answer is not marked to be followed by more. *)
Fixpoint read_pages `{BuildProfile} {E} (fuel : nat) (records : list BACnetValue) (i c : Z) : outcome E (list BACnetValue) :=
  match fuel with
  | O => Panic
  | S fuel =>
      let? page := apply_range records (RtByPosition i c) in
      let '(items, _, more) := page in
      if more : bool then let? rest := read_pages fuel records (i + zlen items) c in Ok (items ++ rest) else Ok items
  end.

Lemma pages_from `{BuildProfile} {E} fuel (done rest : list BACnetValue) c :
  0 < c → (length rest < fuel)%nat → read_pages (E:=E) fuel (done ++ rest) (zlen done + 1) c = Ok rest.
Proof.
  intros Hc. revert done rest. induction fuel as [|fuel IH]; intros done rest Hf; [lia|]. cbn [read_pages].
  pose proof (zlen_nonneg done). pose proof (zlen_nonneg rest). unfold apply_range. rewrite zlen_app.
  destruct (Z.eqb_spec (zlen done + zlen rest) 0) as [Hz|Hz]; cbn [orb].
  { assert (zlen rest = 0) by lia. by destruct rest. }
  rewrite (proj2 (Z.eqb_neq c 0)), (proj2 (Z.ltb_lt 0 c)) by lia. unfold range_between.
  replace (Z.min (Z.max (zlen done + 1) 1 - 1) (zlen done + zlen rest)) with (zlen done) by lia.
  replace (zlen done + zlen rest - zlen done) with (zlen rest) by lia. set (n := Z.min c (zlen rest)).
  rewrite slice_ok by (rewrite ?zlen_app; lia). cbn [obind].
  replace (zlen done + n - zlen done) with n by lia. rewrite drop_app_length' by (unfold zlen; lia).
  destruct (Z.ltb_spec (zlen done + n) (zlen done + zlen rest)).
  - assert (zlen (take (Z.to_nat n) rest) = n) as Hl by (unfold zlen in *; rewrite length_take; lia).
    specialize (IH (done ++ take (Z.to_nat n) rest) (drop (Z.to_nat n) rest)). rewrite zlen_app, <- app_assoc, take_drop in IH.
    rewrite Hl in *. replace (zlen done + 1 + n) with (zlen done + n + 1) by lia. rewrite IH; cbn; [by rewrite take_drop|].
    rewrite length_drop. unfold zlen in *. lia.
  - rewrite take_ge; [done|]. unfold zlen in *. lia.
Qed.

(** Paging through a log by position with any page size returns every record exactly once, in
    order, and ends after at most one request more than there are records. *)
Theorem read_range_pages_complete `{BuildProfile} {E} (records : list BACnetValue) c :
  0 < c → read_pages (E:=E) (S (length records)) records 1 c = Ok records.
Proof. intros Hc. apply (pages_from (S (length records)) [] records c Hc). lia. Qed.
Lemma read_range_pages_complete_witness :
  0 < 2 ∧ read_pages (H:=debug_build) (E:=unit) 4 [VNull; VUnsigned 1; VUnsigned 2] 1 2 = Ok [VNull; VUnsigned 1; VUnsigned 2].
Proof. split; [lia|]. apply (read_range_pages_complete (H:=debug_build) [VNull; VUnsigned 1; VUnsigned 2] 2). lia. Defined.

(* ------------------------------------------------------------------ *)
(** * Requests on the wire *)

(** The documented layout, with the count as a signed number in its shortest form. *)
Definition encode_range (r : RangeType) : list Z :=
  match r with
  | RtNone => []
  | RtByPosition i c => encode_opening_tag 3 ++ encode_unsigned i ++ encode_signed c ++ encode_closing_tag 3
  | RtBySequenceNumber s c => encode_opening_tag 6 ++ encode_unsigned s ++ encode_signed c ++ encode_closing_tag 6
  | RtByTime d t c =>
      encode_opening_tag 7
      ++ encode_application_tag TnDate 4 ++ [year d; month d; day d; day_of_week d]
      ++ encode_application_tag TnTime 4 ++ [hour t; minute t; second t; hundredths t]
      ++ encode_signed c ++ encode_closing_tag 7
  end.
Definition range_ok (r : RangeType) : Prop :=
  match r with
  | RtNone => True
  | RtByPosition i c => 0 <= i < 2147483648 ∧ is_i32 c
  | RtBySequenceNumber s c => is_u32 s ∧ is_i32 c
  | RtByTime _ _ c => is_i32 c
  end.
(** What the handler takes the count for. *)
Definition count_received (c : Z) : Z := to_i32 (c mod 256 ^ Z.of_nat (signed_length c)).
Definition range_received (r : RangeType) : RangeType :=
  match r with
  | RtNone => RtNone
  | RtByPosition i c => RtByPosition i (count_received c)
  | RtBySequenceNumber s c => RtBySequenceNumber s (count_received c)
  | RtByTime d t c => RtByTime d t (count_received c)
  end.

Lemma or_missing_ok {A} (d : Dec A) l a l' : d l = (Ok a, l') → or_missing d l = (Ok a, l').
Proof. intros Hd. unfold or_missing, st_map_err. by rewrite Hd. Qed.

Lemma unsigned_field_ok x rest : is_u32 x → decode_unsigned_from_decoder (encode_unsigned x ++ rest) = (Ok x, rest).
Proof.
  intros Hx. destruct (unsigned_bytes_ok x) as [_ Hl]. unfold decode_unsigned_from_decoder, encode_unsigned. rewrite <- app_assoc.
  erewrite st_bind_ok by (apply or_missing_ok, application_tag_roundtrip; lia). cbn beta iota.
  apply or_missing_ok, decode_unsigned_ok. by apply unsigned_bytes_roundtrip.
Qed.
Lemma count_field_ok c rest : is_i32 c → decode_signed_from_decoder (encode_signed c ++ rest) = (Ok (count_received c), rest).
Proof.
  intros Hc. unfold is_i32 in Hc. unfold decode_signed_from_decoder, encode_signed. rewrite <- app_assoc.
  assert (zlen (drop (4 - signed_length c) (u32_to_be c)) = Z.of_nat (signed_length c)) as Hlen.
  { unfold signed_length. by repeat case_match. }
  assert (0 <= Z.of_nat (signed_length c) < 4294967296) as Hs by (unfold signed_length; repeat case_match; lia).
  erewrite st_bind_ok by (by apply or_missing_ok, application_tag_roundtrip). cbn beta iota. rewrite <- Hlen.
  erewrite st_map_ok; [reflexivity|]. apply or_missing_ok, decode_unsigned_ok.
  rewrite decode_unsigned_bytes; [|apply Forall_drop; unfold u32_to_be; repeat constructor; int_lia|rewrite Hlen; unfold signed_length; repeat case_match; lia].
  unfold u32_to_be, signed_length. repeat case_match; bool_to_prop; cbn [Nat.sub drop foldl];
    match goal with |- context [256 ^ ?n] => let v := eval vm_compute in (256 ^ n) in change (256 ^ n) with v end; int_lia.
Qed.
Lemma octets_field_ok t a b c d rest :
  four_octets (encode_application_tag t 4 ++ [a; b; c; d] ++ rest) = (Ok (a, b, c, d), rest).
Proof.
  unfold four_octets. erewrite st_bind_ok by (apply or_missing_ok, application_tag_roundtrip; lia).
  erewrite st_bind_ok by (apply or_missing_ok, (read_bytes_app 4 [a; b; c; d]); done). done.
Qed.

(** Any tag octet starts a parameter, and the loop goes on after it. *)
Lemma parameters_step fuel acc acc' d d' tag len :
  decode_tag_info d = (Ok (tag, true, len), d') → decode_parameter tag len acc d' = (Ok acc', []) →
  (0 < fuel)%nat → decode_parameters fuel acc d = (Ok acc', []).
Proof.
  intros Ht Hp Hf. destruct fuel as [|fuel]; [lia|]. destruct d as [|b d]; [done|]. cbn [decode_parameters]. rewrite Ht.
  unfold st_bind. rewrite Hp. by destruct fuel.
Qed.
Lemma range_parameters r :
  range_ok r → decode_parameters (length (encode_range r)) (None, RtNone) (encode_range r) = (Ok (None, range_received r), []).
Proof.
  intros Hr. destruct r as [|i c|s c|d t c]; cbn [encode_range range_ok range_received] in *; [done|..].
  - destruct Hr as [Hi Hc]. eapply (parameters_step _ _ _ _ _ 3 0); [reflexivity| |apply Nat.lt_0_succ].
    unfold decode_parameter. cbn [Z.eqb Pos.eqb].
    erewrite st_bind_ok by (apply unsigned_field_ok; unfold is_u32; lia). erewrite st_bind_ok by by apply count_field_ok.
    assert (to_i32 i = i) as -> by (unfold to_i32; rewrite Z.mod_small by lia; lia). done.
  - destruct Hr as [Hi Hc]. eapply (parameters_step _ _ _ _ _ 6 0); [reflexivity| |apply Nat.lt_0_succ].
    unfold decode_parameter. cbn [Z.eqb Pos.eqb].
    erewrite st_bind_ok by by apply unsigned_field_ok. erewrite st_bind_ok by by apply count_field_ok. done.
  - eapply (parameters_step _ _ _ _ _ 7 0); [reflexivity| |apply Nat.lt_0_succ].
    unfold decode_parameter, decode_date_from_decoder, decode_time_from_decoder. cbn [Z.eqb Pos.eqb].
    erewrite st_bind_ok by (apply st_map_ok, octets_field_ok). cbn beta iota.
    erewrite st_bind_ok by (apply st_map_ok, octets_field_ok). cbn beta iota.
    erewrite st_bind_ok by by apply count_field_ok. by destruct d, t.
Qed.

Lemma range_request_decoded o p r :
  object_id_ok o → known_property p → range_ok r →
  ReadRangeRequest_decode (encode_reference o p ++ encode_range r) =
  Ok {| rr_object_id := o; rr_property_id := p; rr_array_index := None; rr_range := range_received r |}.
Proof.
  intros Ho Hp Hr. destruct (context_enumerated_roundtrip _ (PropertyId_range p)) as [Hc Hl].
  unfold ReadRangeRequest_decode, encode_reference, encode_context_object_identifier, encode_context_enumerated. rewrite <- !app_assoc.
  rewrite (proj2 (Z.ltb_ge _ 7)).
  2: { rewrite !zlen_app. change (zlen (encode_context_tag 0 4)) with 1. change (zlen (u32_to_be (ObjectId_encode o))) with 4.
       pose proof (zlen_nonneg (encode_range r)). assert (1 <= zlen (encode_context_tag 1 (zlen (context_enumerated_bytes (PropertyId_as_u32 p))))); [|lia].
       by destruct p. }
  erewrite st_bind_ok by (apply or_missing_ok, context_tag_roundtrip; lia). cbn [negb orb Z.eqb].
  erewrite st_bind_ok by (by apply or_missing_ok, decode_object_identifier_ok).
  erewrite st_bind_ok by (apply or_missing_ok, context_tag_roundtrip; lia). cbn [negb orb Z.eqb Pos.eqb].
  erewrite st_bind_ok by (by apply or_missing_ok, decode_unsigned_ok). rewrite Hp. cbn [ok_or].
  rewrite (st_bind_ok _ _ _ p (encode_range r)) by done.
  erewrite st_bind_ok by (by apply range_parameters). done.
Qed.

Section served.
Context `{BuildProfile} {O : Type} `{BACnetObject O} (services : ServiceRegistry O).
Context (Hregistered : confirmed_handlers services !! 26 = Some ReadRangeHandler).

(** A ReadRange request for the buffer of a log object is answered with the records of the range,
    their number and the mark that more follow, and changes nothing; the range is the requested
    one, except that the octets of its count are taken for an unsigned number. *)
Theorem read_range_served o id records r ctx (s : ObjectRegistry O) items n more :
  get s id = Some o → object_type id = OtTrendLog → read_property o PiLogBuffer = Ok (VArray records) →
  object_id_ok id → range_ok r → apply_range (E:=Empty_set) records (range_received r) = Ok (items, n, more) →
  dispatch_confirmed services 26 (encode_reference id PiLogBuffer ++ encode_range r) ctx s =
  (Ok (SrComplexAck (encode_read_range_ack id PiLogBuffer items more)), s).
Proof.
  intros Hg Ht Hrd Hid Hr Ha. unfold dispatch_confirmed. rewrite Hregistered. cbn [min_data_length ReadRangeHandler handle].
  rewrite (proj2 (Z.ltb_ge _ 7)).
  2: { unfold encode_reference. rewrite !zlen_app. pose proof (zlen_nonneg (encode_range r)).
       change (zlen (encode_context_object_identifier 0 id)) with 5. change (zlen (encode_context_enumerated 1 _)) with 2. lia. }
  unfold ReadRange_handle. rewrite range_request_decoded by done. cbn [rr_object_id rr_property_id rr_range].
  rewrite Hg, Ht, Hrd, Ha. done.
Qed.
End served.
Definition demo_trend : TrendLog := foldl log_step empty_log demo_log.
Definition demo_registry : ObjectRegistry TrendLog := (register demo_trend ObjectRegistry_new).2.
Definition demo_services : ServiceRegistry TrendLog := (register_confirmed (ReadRangeHandler (H:=debug_build)) ServiceRegistry_new).2.
Lemma read_range_served_witness :
  dispatch_confirmed demo_services 26 (encode_reference (tl_id empty_log) PiLogBuffer ++ encode_range (RtByPosition 1 1))
    (ServiceContext_new 1) demo_registry =
  (Ok (SrComplexAck (encode_read_range_ack (tl_id empty_log) PiLogBuffer (record_value <$> take 1 (tl_buffer demo_trend)) true)), demo_registry).
Proof.
  apply (read_range_served (H:=debug_build) demo_services eq_refl demo_trend (tl_id empty_log) (record_value <$> tl_buffer demo_trend)
    (RtByPosition 1 1) (ServiceContext_new 1) demo_registry _ 1 true); try reflexivity; repeat split; vm_compute; (reflexivity || discriminate).
Defined.

(** A negative count of at least -8388608, in its shortest form, arrives as a positive one: a request
    for the records before the reference is answered with records after it. *)
Theorem backward_count_misread c : -8388608 <= c < 0 → 0 < count_received c.
Proof.
  intros Hc. unfold count_received, signed_length. repeat case_match; bool_to_prop;
    match goal with |- context [256 ^ ?n] => let v := eval vm_compute in (256 ^ n) in change (256 ^ n) with v end; unfold to_i32; int_lia.
Qed.
Lemma backward_count_misread_witness : -8388608 <= -1 < 0 ∧ 0 < count_received (-1) ∧ count_received (-1) = 255.
Proof. split; [lia|]. split; [apply backward_count_misread; lia|reflexivity]. Defined.

(** The answer carries no timestamps: two logs that differ in them only are answered alike. *)
Theorem read_range_without_timestamps o p (l l' : list LogRecord) more :
  Forall2 (fun r r' => lr_datum r = lr_datum r' ∧ lr_status_flags r = lr_status_flags r') l l' →
  encode_read_range_ack o p (record_value <$> l) more = encode_read_range_ack o p (record_value <$> l') more.
Proof.
  intros Hl. assert (flat_map encode_log_record_value (record_value <$> l) = flat_map encode_log_record_value (record_value <$> l')) as Hitems.
  { induction Hl as [|r r' l l' [Hd Hf] _ IH]; [done|]. cbn [fmap list_fmap flat_map]. rewrite IH. f_equal. cbn. by rewrite Hd, Hf. }
  assert (zlen (record_value <$> l) = zlen (record_value <$> l')) as Hlen by (unfold zlen; rewrite !length_fmap; by erewrite Forall2_length).
  unfold encode_read_range_ack. rewrite Hitems, Hlen. do 2 f_equal. destruct Hl; done.
Qed.
Lemma read_range_without_timestamps_witness :
  let r m := {| lr_timestamp := noon_ts m; lr_datum := LdUnsigned 5; lr_status_flags := 0; sequence_number := m |} in
  encode_read_range_ack (tl_id empty_log) PiLogBuffer (record_value <$> [r 1]) false =
  encode_read_range_ack (tl_id empty_log) PiLogBuffer (record_value <$> [r 59]) false.
Proof. intros r. apply read_range_without_timestamps. repeat constructor. Defined.

(* ------------------------------------------------------------------ *)
(** * The order of timestamps *)

Definition date_time_ok (ts : LogTimestamp) : Prop :=
  0 <= year (ts_date ts) < 256 ∧ 0 <= month (ts_date ts) < 16 ∧ 0 <= day (ts_date ts) < 32 ∧ 0 <= hour (ts_time ts) < 32 ∧
  0 <= minute (ts_time ts) < 64 ∧ 0 <= second (ts_time ts) < 64 ∧ 0 <= hundredths (ts_time ts) < 128.
Definition fields (ts : LogTimestamp) : list Z :=
  [year (ts_date ts); month (ts_date ts); day (ts_date ts); hour (ts_time ts); minute (ts_time ts); second (ts_time ts); hundredths (ts_time ts)].
Fixpoint lex_le (a b : list Z) : Prop :=
  match a, b with x :: a, y :: b => x < y ∨ x = y ∧ lex_le a b | _, _ => True end.

Lemma sortable_sum ts : date_time_ok ts →
  to_sortable ts = ((((((year (ts_date ts) * 16 + month (ts_date ts)) * 32 + day (ts_date ts)) * 32 + hour (ts_time ts)) * 64
    + minute (ts_time ts)) * 64) + second (ts_time ts)) * 128 + hundredths (ts_time ts).
Proof.
  destruct ts as [[y m d w] [h mi s c]]. unfold date_time_ok, to_sortable, timestamp_sortable. cbn. intros (? & ? & ? & ? & ? & ? & ?).
  assert (∀ a b n k nk, nk = n + k → 0 <= n → 0 <= k → 0 <= b < 2 ^ n → Z.lor (Z.shiftl a nk) (Z.shiftl b k) = Z.shiftl (a * 2 ^ n + b) k) as Hj.
  { intros a b n k ? -> Hn Hk Hb. rewrite <- (Z.shiftl_shiftl a n k) by lia. rewrite <- Z.shiftl_lor. f_equal. by apply lor_shiftl_add. }
  rewrite (Hj y m 4 29 33) by lia. rewrite (Hj _ d 5 24 29) by lia. rewrite (Hj _ h 5 19 24) by lia. rewrite (Hj _ mi 6 13 19) by lia.
  rewrite (Hj _ s 6 7 13) by lia. rewrite lor_shiftl_add by lia. lia.
Qed.

(** The numbers that stand for timestamps are ordered as the timestamps are, year first and
    hundredths last, whenever every field has a value it can have in a real date and time. *)
Theorem sortable_orders a b :
  date_time_ok a → date_time_ok b → (to_sortable a <= to_sortable b ↔ lex_le (fields a) (fields b)).
Proof.
  intros Ha Hb. rewrite !sortable_sum by done. unfold date_time_ok in *. unfold fields. cbn. lia.
Qed.
Lemma sortable_orders_witness : to_sortable (noon_ts 1) <= to_sortable (noon_ts 2) ↔ lex_le (fields (noon_ts 1)) (fields (noon_ts 2)).
Proof. apply sortable_orders; repeat split; vm_compute; (reflexivity || discriminate). Defined.
(** A date with wildcards is not in that order: its month runs into its year. *)
Example wildcard_date_misordered :
  to_sortable {| ts_date := {| year := 0; month := 255; day := 1; day_of_week := 255 |}; ts_time := ts_time (noon_ts 0) |} >
  to_sortable {| ts_date := {| year := 1; month := 1; day := 1; day_of_week := 255 |}; ts_time := ts_time (noon_ts 0) |}.
Proof. vm_compute. reflexivity. Qed.
