(* ===== verification/BacnetFile.v ===== *)
(** The File object of BACnet ([mabi-bacnet/src/object/file.rs]) and the services that read and
    write files ([service/file_access.rs]).

    A field behind a lock or an atomic is a field of the state.  The services work on any object type
    with a downcast to [FileObject]; since objects are shared, what they do to the file they do to
    the entry of the registry. *)

From S2P Require Import Prelude BacnetNet BacnetValue BacnetApdu BacnetObject BacnetRegistry BacnetService.

(* ------------------------------------------------------------------ *)
(** * The object *)

Inductive FileAccessMethod : Set := RecordAccess | StreamAccess.
Definition FileAccessMethod_as_u32 (m : FileAccessMethod) : Z := match m with RecordAccess => 0 | StreamAccess => 1 end.
Definition FileAccessMethod_from_u32 (v : Z) : option FileAccessMethod :=
  match v with 0 => Some RecordAccess | 1 => Some StreamAccess | _ => None end.
#[global] Instance FileAccessMethod_eq_dec : EqDecision FileAccessMethod.
Proof. solve_decision. Defined.

Record FileObject : Type := {
  fo_id : ObjectId; fo_name : list Z; fo_description : list Z; fo_properties : PropertyStore; fo_access_method : FileAccessMethod;
  fo_read_only : bool; fo_out_of_service : bool; fo_file_data : list Z; fo_records : list (list Z); fo_modification_count : Z;
  fo_file_type : list Z }.

Definition File_with_access_method `{BuildProfile} {E} (inst : Z) (name : list Z) (m : FileAccessMethod) : outcome E FileObject :=
  let? id := ObjectId_new OtFile inst in
  Ok {| fo_id := id; fo_name := name; fo_description := [];
        fo_properties := <[PiReliability := VEnumerated 0]> (<[PiEventState := VEnumerated 0]> ∅); fo_access_method := m;
        fo_read_only := false; fo_out_of_service := false; fo_file_data := []; fo_records := []; fo_modification_count := 0;
        fo_file_type := str "application/octet-stream" |}.
Definition File_new `{BuildProfile} {E} (inst : Z) (name : list Z) : outcome E FileObject := File_with_access_method inst name StreamAccess.

Definition fo_set_contents (data : list Z) (records : list (list Z)) (count : Z) (f : FileObject) : FileObject :=
  {| fo_id := fo_id f; fo_name := fo_name f; fo_description := fo_description f; fo_properties := fo_properties f;
     fo_access_method := fo_access_method f; fo_read_only := fo_read_only f; fo_out_of_service := fo_out_of_service f;
     fo_file_data := data; fo_records := records; fo_modification_count := count; fo_file_type := fo_file_type f |}.
Definition fo_configure (props : PropertyStore) (ro oos : bool) (ft : list Z) (f : FileObject) : FileObject :=
  {| fo_id := fo_id f; fo_name := fo_name f; fo_description := fo_description f; fo_properties := props;
     fo_access_method := fo_access_method f; fo_read_only := ro; fo_out_of_service := oos; fo_file_data := fo_file_data f;
     fo_records := fo_records f; fo_modification_count := fo_modification_count f; fo_file_type := ft |}.
Definition with_data (data : list Z) (f : FileObject) : FileObject := fo_set_contents data (fo_records f) (fo_modification_count f) f.
Definition with_records (records : list (list Z)) (f : FileObject) : FileObject :=
  fo_set_contents (fo_file_data f) records (fo_modification_count f) f.
Definition with_read_only (b : bool) (f : FileObject) : FileObject :=
  fo_configure (fo_properties f) b (fo_out_of_service f) (fo_file_type f) f.
Definition with_file_type (ft : list Z) (f : FileObject) : FileObject :=
  fo_configure (fo_properties f) (fo_read_only f) (fo_out_of_service f) ft f.
(** [modification_count.fetch_add(1)] *)
Definition touched (f : FileObject) : Z := (fo_modification_count f + 1) mod usize_modulus.
Definition set_data (data : list Z) (f : FileObject) : FileObject := fo_set_contents data (fo_records f) (touched f) f.
Definition set_records (records : list (list Z)) (f : FileObject) : FileObject := fo_set_contents (fo_file_data f) records (touched f) f.

Section operations.
Context `{BuildProfile}.

(** [(-start) as usize], with the overflow of the least [i32]; the model's [usize] has 64 bits. *)
Definition distance_from_end {E} (start : Z) : outcome E Z := let? n := i32_op (- start) in Ok (n mod usize_modulus).
Definition read_stream {E} (start count : Z) (f : FileObject) : outcome E (list Z * bool) :=
  let data := fo_file_data f in
  let file_len := zlen data in
  if (file_len =? 0) || (count =? 0) then Ok ([], true)
  else
    let? start := if start <? 0 then let? d := distance_from_end start in Ok (Z.max 0 (file_len - d)) else Ok start in
    if file_len <=? start then Ok ([], true)
    else
      let e := Z.min (start + count) file_len in
      let? bytes := slice data start e in
      Ok (bytes, file_len <=? e).

(** [if n > data.len() { data.resize(n, 0) }], then [data[a..b].copy_from_slice(new)]. *)
Definition extended (data : list Z) (n : nat) : list Z := if (length data <? n)%nat then data ++ replicate (n - length data) 0 else data.
Definition overwrite (data : list Z) (pos : nat) (new : list Z) : list Z :=
  let data := extended data (pos + length new) in
  take pos data ++ new ++ drop (pos + length new) data.
Definition write_stream (start : Z) (new_data : list Z) : stM FileObject PropertyError Z := fun f =>
  if fo_read_only f then (Err (PeWriteAccessDenied PiFileSize), f)
  else
    let write_pos := if start <? 0 then zlen (fo_file_data f) else start in
    (Ok (to_i32 write_pos),
     fo_set_contents (overwrite (fo_file_data f) (Z.to_nat write_pos) new_data) (fo_records f) (touched f) f).

Definition read_records {E} (start count : Z) (f : FileObject) : outcome E (list (list Z) * bool) :=
  let records := fo_records f in
  let total := zlen records in
  if (total =? 0) || (count =? 0) then Ok ([], true)
  else if 0 <? count then
    let start_idx := if start <? 0 then 0 else start in
    if total <=? start_idx then Ok ([], true)
    else
      let e := Z.min (start_idx + count) total in
      let? l := slice records start_idx e in Ok (l, total <=? e)
  else
    let e := if start <? 0 then total else Z.min (start + 1) total in
    let s := Z.max 0 (e - Z.abs count) in
    let? l := slice records s e in Ok (l, s =? 0).

(** The loop that pads with empty records, then the one that assigns. *)
Definition overwrite_records (records : list (list Z)) (pos : nat) (new : list (list Z)) : list (list Z) :=
  let records := records ++ replicate (pos + length new - length records) [] in
  take pos records ++ new ++ drop (pos + length new) records.
Definition write_records (start : Z) (new : list (list Z)) : stM FileObject PropertyError Z := fun f =>
  if fo_read_only f then (Err (PeWriteAccessDenied PiRecordCount), f)
  else
    let write_idx := if start <? 0 then zlen (fo_records f) else start in
    (Ok (to_i32 write_idx),
     fo_set_contents (fo_file_data f) (overwrite_records (fo_records f) (Z.to_nat write_idx) new) (touched f) f).
End operations.

(** ** The object interface *)

(** The sum of the lengths of the records is a [u32]; with overflow checks a file of more than
    4 GiB in records would panic here. *)
Definition file_size (f : FileObject) : Z :=
  match fo_access_method f with
  | StreamAccess => as_u32 (zlen (fo_file_data f))
  | RecordAccess => as_u32 (foldr Z.add 0 ((fun r => as_u32 (zlen r)) <$> fo_records f))
  end.
Definition File_status_flags (f : FileObject) : StatusFlags :=
  {| in_alarm := false; fault := false; overridden := false; sf_out_of_service := fo_out_of_service f |}.
Definition File_read_property (f : FileObject) (k : PropertyId) : outcome PropertyError BACnetValue :=
  match k with
  | PiObjectIdentifier => Ok (VObjectIdentifier (fo_id f))
  | PiObjectName => Ok (VCharacterString (fo_name f))
  | PiObjectType => Ok (VEnumerated (ObjectType_as_u16 OtFile))
  | PiDescription => Ok (VCharacterString (fo_description f))
  | PiStatusFlags => Ok (VBitString (StatusFlags_to_bits (File_status_flags f)))
  | PiOutOfService => Ok (VBoolean (fo_out_of_service f))
  | PiFileType => Ok (VCharacterString (fo_file_type f))
  | PiFileSize => Ok (VUnsigned (file_size f))
  | PiFileAccessMethod => Ok (VEnumerated (FileAccessMethod_as_u32 (fo_access_method f)))
  | PiReadOnly => Ok (VBoolean (fo_read_only f))
  | PiRecordCount => Ok (VUnsigned (as_u32 (zlen (fo_records f))))
  | PiModificationDate => Ok (VUnsigned64 (fo_modification_count f))
  | _ => ok_or (fo_properties f !! k) (PeNotFound k)
  end.
Definition File_write_property (k : PropertyId) (v : BACnetValue) : stM FileObject PropertyError unit := fun f =>
  let store v := fo_configure (<[k := v]> (fo_properties f)) (fo_read_only f) (fo_out_of_service f) (fo_file_type f) f in
  match k with
  | PiObjectIdentifier | PiObjectType | PiFileSize | PiFileAccessMethod | PiRecordCount | PiModificationDate => (Err (PeReadOnly k), f)
  | PiDescription =>
      match v with VCharacterString _ => (Ok tt, store v) | _ => (Err (PeInvalidDataType k), f) end
  | PiOutOfService =>
      match as_bool v with
      | Some b => (Ok tt, fo_configure (fo_properties f) (fo_read_only f) b (fo_file_type f) f)
      | None => (Err (PeInvalidDataType k), f)
      end
  | PiFileType =>
      match v with VCharacterString s => (Ok tt, with_file_type s f) | _ => (Err (PeInvalidDataType k), f) end
  | PiReadOnly =>
      match as_bool v with Some b => (Ok tt, with_read_only b f) | None => (Err (PeInvalidDataType k), f) end
  | _ => (Ok tt, store v)
  end.
Definition File_list_properties (f : FileObject) : list PropertyId :=
  [PiObjectIdentifier; PiObjectName; PiObjectType; PiDescription; PiStatusFlags; PiEventState; PiReliability; PiOutOfService; PiFileType;
   PiFileSize; PiFileAccessMethod; PiReadOnly; PiModificationDate]
  ++ match fo_access_method f with RecordAccess => [PiRecordCount] | StreamAccess => [] end.

#[global] Instance file_object : BACnetObject FileObject := {
  object_identifier := fo_id; object_name := fo_name; read_property := File_read_property; write_property := File_write_property;
  list_properties := File_list_properties; object_status_flags := File_status_flags }.

(** Octets are octets. *)
Definition file_ok (f : FileObject) : Prop := bytes_ok (fo_file_data f) ∧ Forall bytes_ok (fo_records f).
#[global] Instance file_laws : ObjectLaws FileObject.
Proof.
  exists file_ok.
  - intros k v f. cbn. destruct k; try done; cbn; repeat case_match; done.
  - intros k v f e. cbn. destruct k; try done; cbn; repeat case_match; naive_solver.
  - intros k v f Hf. cbn. destruct k; try done; cbn; repeat case_match; done.
  - intros f k. cbn. destruct k; try done; cbn; unfold ok_or; by case_match.
Defined.

(* ------------------------------------------------------------------ *)
(** * The services *)

(** [as_any().downcast_ref::<FileObject>()] on a shared object. *)
Class FileCast (O : Type) : Type := {
  downcast_file_object : O → option FileObject;
  upcast_file_object : FileObject → O
}.
Class FileCastLaws (O : Type) `{BACnetObject O} `{!FileCast O} : Prop := {
  downcast_upcast f : downcast_file_object (upcast_file_object f) = Some f
}.
#[global] Instance file_cast : FileCast FileObject := { downcast_file_object := Some; upcast_file_object := id }.
#[global] Instance file_cast_laws : FileCastLaws FileObject.
Proof. by constructor. Qed.

Inductive ReadFileAccess : Set :=
| ReadStream (file_start_position requested_octet_count : Z)
| ReadRecord (file_start_record requested_record_count : Z).
Inductive WriteFileAccess : Set :=
| WriteStream (file_start_position : Z) (file_data : list Z)
| WriteRecord (file_start_record : Z) (file_record_data : list (list Z)).

(** The errors are static texts that the handlers drop. *)
Definition FDec (A : Type) : Type := stM (list Z) unit A.
Definition or_text {A} (d : Dec A) : FDec A := st_map_err (fun _ => tt) d.

(** The object identifier and the opening tag both requests start with: the access choice. *)
Definition decode_file_header : FDec (ObjectId * Z) :=
  do? tag := or_text decode_tag_info in
  let '(tag_num, is_context, len) := tag in
  if is_context || negb (tag_num =? 12) || negb (len =? 4) then st_err tt
  else
    do? obj_id := or_text decode_object_identifier in
    do? next := or_text peek in
    match next with
    | None => st_err tt
    | Some b =>
        if negb (Z.land b 0x0F =? 0x0E) then st_err tt
        else do? _ := or_text (skip 1) in st_ret (obj_id, Z.land (Z.shiftr b 4) 0x0F)
    end.
Definition decode_position : FDec Z :=
  do? tag := or_text decode_tag_info in let '(_, _, len) := tag in or_text (decode_signed len).
Definition decode_count : FDec Z :=
  do? tag := or_text decode_tag_info in let '(_, _, len) := tag in or_text (decode_unsigned len).
Definition decode_octets : FDec (list Z) :=
  do? tag := or_text decode_tag_info in let '(_, _, len) := tag in or_text (read_bytes len).
(** [decoder.skip(1).ok()] on a decoder that is not empty. *)
Definition skip_closing : FDec unit := fun d => (Ok tt, drop 1 d).

Definition AtomicReadFileRequest_decode (data : list Z) : outcome unit (ObjectId * ReadFileAccess) :=
  fst ((do? h := decode_file_header in
        let '(obj_id, access_tag) := h in
        do? access :=
          (if access_tag =? 0 then do? start := decode_position in do? count := decode_count in st_ret (ReadStream start count)
           else if access_tag =? 1 then do? start := decode_position in do? count := decode_count in st_ret (ReadRecord start count)
           else st_err tt) in
        do? _ := skip_closing in
        st_ret (obj_id, access)) data).

(** [for _ in 0..count], which ends early when the decoder is empty; every turn takes an octet, so
    the octets that are left are fuel enough. *)
Fixpoint decode_record_list (fuel : nat) (count : Z) : FDec (list (list Z)) :=
  if count <=? 0 then st_ret []
  else
    do? empty := or_text dec_is_empty in
    if empty then st_ret []
    else match fuel with
    | O => st_lift Panic
    | S fuel => do? r := decode_octets in do? rest := decode_record_list fuel (count - 1) in st_ret (r :: rest)
    end.
Definition AtomicWriteFileRequest_decode (data : list Z) : outcome unit (ObjectId * WriteFileAccess) :=
  fst ((do? h := decode_file_header in
        let '(obj_id, access_tag) := h in
        do? access :=
          (if access_tag =? 0 then do? start := decode_position in do? bytes := decode_octets in st_ret (WriteStream start bytes)
           else if access_tag =? 1 then
             do? start := decode_position in
             do? count := decode_count in
             do? l := (fun d => decode_record_list (length d) count d) in
             st_ret (WriteRecord start l)
           else st_err tt) in
        do? _ := skip_closing in
        st_ret (obj_id, access)) data).

(** [signed_to_bytes], and the two tagged forms. *)
Definition signed_to_bytes (value : Z) : list Z := drop (4 - signed_length value) (u32_to_be value).
Definition encode_signed_application (value : Z) : list Z :=
  Z.lor (Z.shiftl 3 4) (Z.land (as_u8 (zlen (signed_to_bytes value))) 0x07) :: signed_to_bytes value.
Definition encode_signed_context (tag_number value : Z) : list Z :=
  Z.lor (Z.lor (as_u8 (Z.shiftl tag_number 4)) 0x08) (Z.land (as_u8 (zlen (signed_to_bytes value))) 0x07) :: signed_to_bytes value.
Definition encode_read_file_stream_ack (eof : bool) (start : Z) (data : list Z) : list Z :=
  encode_boolean eof ++ encode_opening_tag 0 ++ encode_signed_application start ++ encode_octet_string data ++ encode_closing_tag 0.
Definition encode_read_file_record_ack (eof : bool) (start : Z) (records : list (list Z)) : list Z :=
  encode_boolean eof ++ encode_opening_tag 1 ++ encode_signed_application start ++ encode_unsigned (as_u32 (zlen records))
  ++ flat_map encode_octet_string records ++ encode_closing_tag 1.
Definition encode_write_file_stream_ack (start : Z) : list Z := encode_signed_context 0 start.
Definition encode_write_file_record_ack (start : Z) : list Z := encode_signed_context 1 start.

Section handlers.
Context `{BuildProfile} {O : Type} `{BACnetObject O} `{!FileCast O}.

Definition unsupported_object_type : ServiceResult := SrError EclObject EcUnsupportedObjectType.
Definition invalid_file_access : ServiceResult := SrError EclServices EcInvalidFileAccessMethod.

(** The checks both handlers make before they use the file. *)
Definition file_of_request (id : ObjectId) (s : ObjectRegistry O) : outcome ServiceResult FileObject :=
  if negb (ObjectType_as_u16 (object_type id) =? ObjectType_as_u16 OtFile) then Err unsupported_object_type
  else
    let? obj_id := ObjectId_new OtFile (instance id) in
    let? o := ok_or (get s obj_id) unknown_object in
    ok_or (downcast_file_object o) unsupported_object_type.

Definition AtomicReadFile_handle : Handle (O:=O) := fun data _ s =>
  match AtomicReadFileRequest_decode data with
  | Panic => (Panic, s)
  | Err _ => (Ok invalid_tag, s)
  | Ok (id, access) =>
      match file_of_request id s with
      | Panic => (Panic, s)
      | Err e => (Ok e, s)
      | Ok f =>
          match access, fo_access_method f with
          | ReadStream start count, StreamAccess =>
              match read_stream start count f with
              | Ok (bytes, eof) => (Ok (SrComplexAck (encode_read_file_stream_ack eof start bytes)), s)
              | Err e => (Err e, s)
              | Panic => (Panic, s)
              end
          | ReadRecord start count, RecordAccess =>
              match read_records start (to_i32 count) f with
              | Ok (l, eof) => (Ok (SrComplexAck (encode_read_file_record_ack eof start l)), s)
              | Err e => (Err e, s)
              | Panic => (Panic, s)
              end
          | _, _ => (Ok invalid_file_access, s)
          end
      end
  end.
Definition AtomicReadFileHandler : ConfirmedServiceHandler O :=
  {| service_choice := CsAtomicReadFile; handle := AtomicReadFile_handle; min_data_length := 6 |}.

(** What a write to the shared file leaves in the registry. *)
Definition put_file (id : ObjectId) (f : FileObject) (s : ObjectRegistry O) : ObjectRegistry O :=
  {| objects := <[id := upcast_file_object f]> (objects s); names := names s; type_counts := type_counts s |}.
Definition write_answer (ack : Z → list Z) (r : outcome PropertyError Z * FileObject) (id : ObjectId) (s : ObjectRegistry O)
    : outcome Empty_set ServiceResult * ObjectRegistry O :=
  match r with
  | (Ok pos, f') => (Ok (SrComplexAck (ack pos)), put_file id f' s)
  | (Err _, f') => (Ok write_access_denied, s)
  | (Panic, f') => (Panic, s)
  end.
Definition AtomicWriteFile_handle : Handle (O:=O) := fun data _ s =>
  match AtomicWriteFileRequest_decode data with
  | Panic => (Panic, s)
  | Err _ => (Ok invalid_tag, s)
  | Ok (id, access) =>
      match file_of_request id s with
      | Panic => (Panic, s)
      | Err e => (Ok e, s)
      | Ok f =>
          match access, fo_access_method f with
          | WriteStream start bytes, StreamAccess => write_answer encode_write_file_stream_ack (write_stream start bytes f) id s
          | WriteRecord start l, RecordAccess => write_answer encode_write_file_record_ack (write_records start l f) id s
          | _, _ => (Ok invalid_file_access, s)
          end
      end
  end.
Definition AtomicWriteFileHandler : ConfirmedServiceHandler O :=
  {| service_choice := CsAtomicWriteFile; handle := AtomicWriteFile_handle; min_data_length := 6 |}.
End handlers.

(* ------------------------------------------------------------------ *)
(** * What a write leaves *)

Lemma length_extended data n : length (extended data n) = max (length data) n.
Proof. unfold extended. destruct (Nat.ltb_spec (length data) n); rewrite ?length_app, ?length_replicate; lia. Qed.
Lemma lookup_extended data n i :
  extended data n !! i = if bool_decide (i < length data)%nat then data !! i else if bool_decide (i < n)%nat then Some 0 else None.
Proof.
  unfold extended. destruct (Nat.ltb_spec (length data) n).
  - rewrite lookup_app. case_bool_decide.
    + destruct (lookup_lt_is_Some_2 data i) as [x Hx]; [done|]. by rewrite Hx.
    + rewrite (lookup_ge_None_2 data) by lia. case_bool_decide.
      * apply lookup_replicate. split; [done|lia].
      * apply lookup_ge_None_2. rewrite length_replicate. lia.
  - case_bool_decide; [done|]. rewrite lookup_ge_None_2 by lia. case_bool_decide; [lia|done].
Qed.
Lemma overwrite_lookup data pos new i :
  overwrite data pos new !! i =
  if bool_decide (pos ≤ i < pos + length new)%nat then new !! (i - pos)%nat
  else if bool_decide (i < length data)%nat then data !! i
  else if bool_decide (i < pos + length new)%nat then Some 0 else None.
Proof.
  unfold overwrite. rewrite <- lookup_extended. pose proof (length_extended data (pos + length new)) as Hlen.
  case_bool_decide as Hin.
  - rewrite lookup_app_r by (rewrite length_take; lia). rewrite lookup_app_l by (rewrite length_take; lia).
    f_equal. rewrite length_take. lia.
  - destruct (decide (i < pos)%nat).
    + rewrite lookup_app_l by (rewrite length_take; lia). by rewrite lookup_take_lt.
    + rewrite !lookup_app_r by (rewrite ?length_take; lia). rewrite lookup_drop, length_take. f_equal. lia.
Qed.
Lemma length_overwrite data pos new : length (overwrite data pos new) = max (length data) (pos + length new).
Proof.
  unfold overwrite. pose proof (length_extended data (pos + length new)). rewrite !length_app, length_take, length_drop. lia.
Qed.
Lemma take_drop_overwrite data pos new : take (length new) (drop pos (overwrite data pos new)) = new.
Proof.
  unfold overwrite. pose proof (length_extended data (pos + length new)).
  rewrite drop_app_length' by (rewrite length_take; lia). by rewrite take_app_length.
Qed.

(** Writing at a position and reading the same number of octets from there gives the octets
    written, and whether the file ends with them. *)
Lemma stream_roundtrip `{BuildProfile} {E} start new (f : FileObject) :
  0 <= start → new ≠ [] →
  read_stream (E:=E) start (zlen new) (fo_set_contents (overwrite (fo_file_data f) (Z.to_nat start) new) (fo_records f) (touched f) f) =
  Ok (new, zlen (fo_file_data f) <=? start + zlen new).
Proof.
  intros Hs Hn. assert (0 < zlen new) by (destruct new; [done|]; rewrite zlen_cons; pose proof (zlen_nonneg new); lia).
  unfold read_stream. cbn [fo_file_data fo_set_contents]. set (data := overwrite _ _ _).
  assert (zlen data = Z.max (zlen (fo_file_data f)) (start + zlen new)) as Hlen by (unfold data, zlen; rewrite length_overwrite; lia).
  rewrite (proj2 (Z.eqb_neq (zlen data) 0)), (proj2 (Z.eqb_neq (zlen new) 0)), (proj2 (Z.ltb_ge start 0)) by lia. cbn [orb obind].
  rewrite (proj2 (Z.leb_gt (zlen data) start)) by lia. rewrite Z.min_l by lia. rewrite slice_ok by lia. cbn [obind].
  replace (Z.to_nat (start + zlen new - start)) with (length new) by (unfold zlen; lia). unfold data. rewrite take_drop_overwrite.
  do 2 f_equal. fold data. apply eq_true_iff_eq. rewrite !Z.leb_le. lia.
Qed.

(** ** Downloading a file in pieces *)

Fixpoint read_file `{BuildProfile} {E} (fuel : nat) (pos c : Z) (f : FileObject) : outcome E (list Z) :=
  match fuel with
  | O => Panic
  | S fuel =>
      let? page := read_stream pos c f in
      let '(bytes, eof) := page in
      if eof : bool then Ok bytes else let? rest := read_file fuel (pos + zlen bytes) c f in Ok (bytes ++ rest)
  end.
(** A client that reads [c] octets at a time, from where the last answer ended, until it is told that
    the file ends, gets the octets of the file, and needs at most one request more than there are octets. *)
Theorem file_read_completely `{BuildProfile} {E} (f : FileObject) c :
  0 < c → read_file (E:=E) (S (length (fo_file_data f))) 0 c f = Ok (fo_file_data f).
Proof.
  intros Hc. assert (∀ fuel pos, 0 <= pos → (length (fo_file_data f) - Z.to_nat pos < fuel)%nat →
    read_file (E:=E) fuel pos c f = Ok (drop (Z.to_nat pos) (fo_file_data f))) as Hgo; [|by rewrite Hgo by lia].
  induction fuel as [|fuel IH]; intros pos Hp Hf; [lia|]. cbn [read_file]. unfold read_stream.
  pose proof (zlen_nonneg (fo_file_data f)). destruct (Z.eqb_spec (zlen (fo_file_data f)) 0) as [Hz|Hz]; cbn [orb obind].
  { rewrite drop_ge by (unfold zlen in *; lia). done. }
  rewrite (proj2 (Z.eqb_neq c 0)), (proj2 (Z.ltb_ge pos 0)) by lia. cbn [obind]. destruct (Z.leb_spec (zlen (fo_file_data f)) pos).
  { cbn [obind]. rewrite drop_ge by (unfold zlen in *; lia). done. }
  set (e := Z.min _ _). rewrite slice_ok by lia. cbn [obind]. destruct (Z.leb_spec (zlen (fo_file_data f)) e).
  - f_equal. rewrite take_ge; [done|]. rewrite length_drop. unfold zlen in *. lia.
  - assert (zlen (take (Z.to_nat (e - pos)) (drop (Z.to_nat pos) (fo_file_data f))) = e - pos) as ->.
    { unfold zlen in *. rewrite length_take, length_drop. lia. }
    rewrite IH by (unfold zlen in *; lia). cbn [obind]. f_equal. replace (Z.to_nat (pos + (e - pos))) with (Z.to_nat pos + Z.to_nat (e - pos))%nat by lia.
    rewrite <- drop_drop. apply take_drop.
Qed.
Definition hello : FileObject := {|
  fo_id := {| object_type := OtFile; instance := 1 |}; fo_name := str "F"; fo_description := []; fo_properties := ∅;
  fo_access_method := StreamAccess; fo_read_only := false; fo_out_of_service := false; fo_file_data := str "hello"; fo_records := [];
  fo_modification_count := 0; fo_file_type := str "text/plain" |}.
Lemma file_read_completely_witness : 0 < 2 ∧ read_file (H:=debug_build) (E:=unit) 6 0 2 hello = Ok (str "hello").
Proof. split; [lia|]. apply (file_read_completely (H:=debug_build) hello 2). lia. Defined.

(* ------------------------------------------------------------------ *)
(** * Requests on the wire *)

Definition access_body (tag : Z) (start : Z) (rest : list Z) : list Z :=
  encode_opening_tag tag ++ encode_signed start ++ rest ++ encode_closing_tag tag.
Definition read_file_request (id : ObjectId) (a : ReadFileAccess) : list Z :=
  encode_object_identifier id ++
  match a with
  | ReadStream start count => access_body 0 start (encode_unsigned count)
  | ReadRecord start count => access_body 1 start (encode_unsigned count)
  end.
Definition write_file_request (id : ObjectId) (a : WriteFileAccess) : list Z :=
  encode_object_identifier id ++
  match a with
  | WriteStream start bytes => access_body 0 start (encode_octet_string bytes)
  | WriteRecord start l => access_body 1 start (encode_unsigned (zlen l) ++ flat_map encode_octet_string l)
  end.
Definition read_access_ok (a : ReadFileAccess) : Prop :=
  match a with ReadStream start count | ReadRecord start count => is_i32 start ∧ is_u32 count end.
Definition write_access_ok (a : WriteFileAccess) : Prop :=
  match a with
  | WriteStream start bytes => is_i32 start ∧ zlen bytes < 4294967296
  | WriteRecord start l => is_i32 start ∧ zlen l < 4294967296 ∧ Forall (fun r => zlen r < 4294967296) l
  end.

Lemma or_text_ok {A} (d : Dec A) l a l' : d l = (Ok a, l') → or_text d l = (Ok a, l').
Proof. intros Hd. unfold or_text, st_map_err. by rewrite Hd. Qed.

Lemma file_header_ok id tag rest :
  object_id_ok id → tag = 0 ∨ tag = 1 →
  decode_file_header (encode_object_identifier id ++ encode_opening_tag tag ++ rest) = (Ok (id, tag), rest).
Proof.
  intros Hid Ht. unfold decode_file_header, encode_object_identifier. rewrite <- app_assoc.
  erewrite st_bind_ok by (apply or_text_ok, application_tag_roundtrip; lia). cbn [TagNumber_as_u8 negb orb Z.eqb Pos.eqb].
  erewrite st_bind_ok by (by apply or_text_ok, decode_object_identifier_ok).
  erewrite st_bind_ok by (apply or_text_ok; reflexivity).
  assert (∀ b, or_text (skip 1) (b :: rest) = (Ok tt, rest)) as Hskip.
  { intros b. apply or_text_ok. unfold skip. by rewrite zlen_cons, (proj2 (Z.ltb_ge _ 1)) by (pose proof (zlen_nonneg rest); lia). }
  destruct Ht as [->| ->].
  - change (encode_opening_tag 0 ++ rest) with (0x0E :: rest). cbn [head]. change (Z.land 0x0E 0x0F =? 0x0E) with true. cbv beta iota delta [negb].
    erewrite st_bind_ok by apply Hskip. done.
  - change (encode_opening_tag 1 ++ rest) with (0x1E :: rest). cbn [head]. change (Z.land 0x1E 0x0F =? 0x0E) with true. cbv beta iota delta [negb].
    erewrite st_bind_ok by apply Hskip. done.
Qed.
Lemma position_ok start rest : is_i32 start → decode_position (encode_signed start ++ rest) = (Ok start, rest).
Proof.
  intros Hs. unfold decode_position, encode_signed. rewrite <- app_assoc.
  erewrite st_bind_ok by (apply or_text_ok, application_tag_roundtrip; unfold signed_length; repeat case_match; lia). cbn beta iota.
  by apply or_text_ok, signed_bytes_roundtrip.
Qed.
Lemma count_ok x rest : is_u32 x → decode_count (encode_unsigned x ++ rest) = (Ok x, rest).
Proof.
  intros Hx. destruct (unsigned_bytes_ok x) as [_ Hl]. unfold decode_count, encode_unsigned. rewrite <- app_assoc.
  erewrite st_bind_ok by (apply or_text_ok, application_tag_roundtrip; lia). cbn beta iota.
  apply or_text_ok, decode_unsigned_ok. by apply unsigned_bytes_roundtrip.
Qed.
Lemma octets_ok l rest : zlen l < 4294967296 → decode_octets (encode_octet_string l ++ rest) = (Ok l, rest).
Proof.
  intros Hl. pose proof (zlen_nonneg l). unfold decode_octets, encode_octet_string. rewrite <- app_assoc.
  erewrite st_bind_ok by (apply or_text_ok, application_tag_roundtrip; lia). cbn beta iota. by apply or_text_ok, read_bytes_app.
Qed.
Lemma record_list_ok l rest fuel :
  Forall (fun r => zlen r < 4294967296) l → (length l ≤ fuel)%nat →
  decode_record_list fuel (zlen l) (flat_map encode_octet_string l ++ rest) = (Ok l, rest).
Proof.
  intros Hl. revert fuel. induction Hl as [|r l Hr _ IH]; intros fuel Hf; [by destruct fuel|]. cbn in Hf. destruct fuel as [|fuel]; [lia|].
  cbn [decode_record_list flat_map]. rewrite zlen_cons, (proj2 (Z.leb_gt _ 0)) by (pose proof (zlen_nonneg l); lia). rewrite <- app_assoc.
  rewrite (st_bind_ok _ _ _ false (encode_octet_string r ++ flat_map encode_octet_string l ++ rest)).
  2: { apply or_text_ok. unfold dec_is_empty, encode_octet_string at 1, encode_application_tag. by destruct (zlen r <? 5). }
  cbv beta iota. erewrite st_bind_ok by by apply octets_ok. replace (1 + zlen l - 1) with (zlen l) by lia.
  erewrite st_bind_ok by (apply IH; lia). done.
Qed.
Lemma length_records (l : list (list Z)) : (length l ≤ length (flat_map encode_octet_string l))%nat.
Proof.
  induction l as [|r l IH]; [done|]. cbn [flat_map length]. rewrite length_app. unfold encode_octet_string at 1.
  rewrite length_app. assert (1 ≤ length (encode_application_tag TnOctetString (zlen r)))%nat; [|lia].
  unfold encode_application_tag. destruct (_ <? _); cbn; lia.
Qed.

Lemma read_file_decoded id a :
  object_id_ok id → read_access_ok a → AtomicReadFileRequest_decode (read_file_request id a) = Ok (id, a).
Proof.
  intros Hid Ha. unfold AtomicReadFileRequest_decode, read_file_request, access_body. destruct a as [start count|start count], Ha as [Hs Hc].
  - erewrite st_bind_ok by (apply file_header_ok; auto). cbn [Z.eqb]. unfold st_bind at 1.
    erewrite st_bind_ok by by apply position_ok. erewrite st_bind_ok by by apply count_ok. done.
  - erewrite st_bind_ok by (apply file_header_ok; auto). cbn [Z.eqb Pos.eqb]. unfold st_bind at 1.
    erewrite st_bind_ok by by apply position_ok. erewrite st_bind_ok by by apply count_ok. done.
Qed.
Lemma write_file_decoded id a :
  object_id_ok id → write_access_ok a → AtomicWriteFileRequest_decode (write_file_request id a) = Ok (id, a).
Proof.
  intros Hid Ha. unfold AtomicWriteFileRequest_decode, write_file_request, access_body. destruct a as [start bytes|start l].
  - destruct Ha as [Hs Hb]. erewrite st_bind_ok by (apply file_header_ok; auto). cbn [Z.eqb]. unfold st_bind at 1.
    erewrite st_bind_ok by by apply position_ok. erewrite st_bind_ok by by apply octets_ok. done.
  - destruct Ha as (Hs & Hn & Hl). erewrite st_bind_ok by (apply file_header_ok; auto). cbn [Z.eqb Pos.eqb]. unfold st_bind at 1.
    erewrite st_bind_ok by by apply position_ok. rewrite <- app_assoc.
    erewrite st_bind_ok by (apply count_ok; unfold is_u32; pose proof (zlen_nonneg l); lia).
    erewrite st_bind_ok; [|apply record_list_ok; [done|rewrite length_app; pose proof (length_records l); lia]]. done.
Qed.

(* ------------------------------------------------------------------ *)
(** * Files through the services *)

Section file_services.
Context `{BuildProfile} {O : Type} `{BACnetObject O} `{!FileCast O} `{!FileCastLaws O} (services : ServiceRegistry O).
Context (Hread : confirmed_handlers services !! 6 = Some AtomicReadFileHandler).
Context (Hwrite : confirmed_handlers services !! 7 = Some AtomicWriteFileHandler).

(** The identifier of a file that is in the registry. *)
Definition file_at (s : ObjectRegistry O) (id : ObjectId) (f : FileObject) : Prop :=
  object_id_ok id ∧ object_type id = OtFile ∧ instance id <= MAX_INSTANCE ∧ ∃ o, get s id = Some o ∧ downcast_file_object o = Some f.

Lemma file_found s id f : file_at s id f → file_of_request id s = Ok f.
Proof.
  intros (_ & Ht & Hi & o & Ho & Hf). unfold file_of_request. rewrite Ht. cbn [negb]. rewrite Z.eqb_refl. cbn [negb].
  unfold ObjectId_new. rewrite (proj2 (Z.ltb_ge MAX_INSTANCE _)), andb_false_r by lia. cbn [obind].
  replace {| object_type := OtFile; instance := instance id |} with id by (destruct id; cbn in *; by subst). by rewrite Ho; cbn; rewrite Hf.
Qed.
Lemma request_length id l : zlen (encode_object_identifier id ++ l) = 5 + zlen l.
Proof. rewrite zlen_app. done. Qed.
Lemma body_length tag start l : 0 <= tag → 2 <= zlen (access_body tag start l).
Proof.
  intros. unfold access_body. rewrite !zlen_app. pose proof (zlen_nonneg l). pose proof (zlen_nonneg (encode_signed start)).
  assert (1 <= zlen (encode_opening_tag tag) ∧ 1 <= zlen (encode_closing_tag tag)); [|lia].
  unfold encode_opening_tag, encode_closing_tag. by destruct (tag <? 15).
Qed.

Lemma read_stream_served s id f start count ctx bytes eof :
  file_at s id f → fo_access_method f = StreamAccess → is_i32 start → is_u32 count → read_stream (E:=Empty_set) start count f = Ok (bytes, eof) →
  dispatch_confirmed services 6 (read_file_request id (ReadStream start count)) ctx s =
  (Ok (SrComplexAck (encode_read_file_stream_ack eof start bytes)), s).
Proof.
  intros Hf Hm Hs Hc Hr. unfold dispatch_confirmed. rewrite Hread. cbn [min_data_length AtomicReadFileHandler handle].
  rewrite (proj2 (Z.ltb_ge _ 6)) by (unfold read_file_request; rewrite request_length; pose proof (body_length 0 start (encode_unsigned count)); lia).
  unfold AtomicReadFile_handle. rewrite read_file_decoded by (by destruct Hf || done). rewrite (file_found _ _ _ Hf), Hm, Hr. done.
Qed.
Lemma write_stream_served s id f start bytes ctx :
  file_at s id f → fo_access_method f = StreamAccess → is_i32 start → zlen bytes < 4294967296 →
  dispatch_confirmed services 7 (write_file_request id (WriteStream start bytes)) ctx s =
  write_answer encode_write_file_stream_ack (write_stream start bytes f) id s.
Proof.
  intros Hf Hm Hs Hb. unfold dispatch_confirmed. rewrite Hwrite. cbn [min_data_length AtomicWriteFileHandler handle].
  rewrite (proj2 (Z.ltb_ge _ 6)) by (unfold write_file_request; rewrite request_length; pose proof (body_length 0 start (encode_octet_string bytes)); lia).
  unfold AtomicWriteFile_handle. rewrite write_file_decoded by (by destruct Hf || done). rewrite (file_found _ _ _ Hf), Hm. done.
Qed.
Lemma put_file_at s id f f' : file_at s id f → file_at (put_file id f' s) id f'.
Proof.
  intros (Hid & Ht & Hi & o & Ho & Hf). split; [done|]. split; [done|]. split; [done|]. exists (upcast_file_object f').
  split; [apply lookup_insert_eq|apply downcast_upcast].
Qed.

(** C30: AtomicWriteFile followed by AtomicReadFile, both as octets through the service dispatch: what is
    written to a stream file at a position is read back from there, the acknowledgement of the
    write names the position, and the flag says whether the file ends with these octets. *)
Theorem file_write_then_read s id f start bytes ctx ctx' :
  file_at s id f → fo_access_method f = StreamAccess → fo_read_only f = false →
  0 <= start < 2147483648 → bytes ≠ [] → zlen bytes < 4294967296 →
  ∃ s', dispatch_confirmed services 7 (write_file_request id (WriteStream start bytes)) ctx s =
          (Ok (SrComplexAck (encode_write_file_stream_ack start)), s') ∧
        dispatch_confirmed services 6 (read_file_request id (ReadStream start (zlen bytes))) ctx' s' =
          (Ok (SrComplexAck (encode_read_file_stream_ack (zlen (fo_file_data f) <=? start + zlen bytes) start bytes)), s').
Proof.
  intros Hf Hm Hro Hs Hn Hb. eexists. split.
  - rewrite (write_stream_served _ _ f) by (done || unfold is_i32; lia). unfold write_stream. rewrite Hro, (proj2 (Z.ltb_ge start 0)) by lia. cbn [write_answer].
    replace (to_i32 start) with start by (unfold to_i32; rewrite Z.mod_small by lia; lia). reflexivity.
  - eapply read_stream_served; [by eapply put_file_at|done|unfold is_i32; lia|unfold is_u32; pose proof (zlen_nonneg bytes); lia|].
    apply stream_roundtrip; [lia|done].
Qed.

(** ** Uploads *)

Definition upload (id : ObjectId) (ctx : ServiceContext) (s : ObjectRegistry O) (chunk : list Z) : ObjectRegistry O :=
  (dispatch_confirmed services 7 (write_file_request id (WriteStream (-1) chunk)) ctx s).2.
Lemma append_overwrite data new : overwrite data (length data) new = data ++ new.
Proof.
  unfold overwrite. pose proof (length_extended data (length data + length new)) as Hl.
  assert (take (length data) (extended data (length data + length new)) = data) as ->.
  { unfold extended. destruct (_ <? _)%nat; [by rewrite take_app_length|by rewrite take_ge]. }
  rewrite drop_ge by lia. by rewrite app_nil_r.
Qed.
(** A file sent in pieces, each one appended by a request of its own, is the concatenation of the
    pieces after what the file held before; nothing else of the registry changes. *)
Theorem file_uploaded s id f ctx (chunks : list (list Z)) :
  file_at s id f → fo_access_method f = StreamAccess → fo_read_only f = false → Forall (fun c => zlen c < 4294967296) chunks →
  ∃ f', file_at (foldl (upload id ctx) s chunks) id f' ∧ fo_file_data f' = fo_file_data f ++ concat chunks ∧
        fo_records f' = fo_records f ∧ fo_read_only f' = false ∧ fo_access_method f' = StreamAccess ∧
        ∀ id', id' ≠ id → get (foldl (upload id ctx) s chunks) id' = get s id'.
Proof.
  intros Hf Hm Hro Hc. revert s f Hf Hm Hro. induction Hc as [|c chunks Hc _ IH]; intros s f Hf Hm Hro.
  { exists f. cbn. by rewrite app_nil_r. }
  cbn [foldl concat]. assert (upload id ctx s c = put_file id (write_stream (-1) c f).2 s) as Hu.
  { unfold upload. rewrite (write_stream_served _ _ f) by (done || unfold is_i32; lia). unfold write_stream. by rewrite Hro. }
  rewrite Hu. unfold write_stream. rewrite Hro. cbn [snd]. change (-1 <? 0) with true. cbn iota.
  set (f1 := fo_set_contents _ _ _ f).
  destruct (IH (put_file id f1 s) f1) as (f' & ? & Hd & ? & ? & ? & Hg); [by eapply put_file_at|done|done|].
  exists f'. split; [done|]. split.
  { rewrite Hd. unfold f1. cbn [fo_file_data fo_set_contents]. unfold zlen. rewrite Nat2Z.id, append_overwrite. by rewrite app_assoc. }
  split; [done|]. split; [done|]. split; [done|]. intros id' Hne. rewrite Hg by done. unfold get, put_file. cbn. by rewrite lookup_insert_ne.
Qed.
End file_services.

Definition file_registry : ObjectRegistry FileObject := (register hello ObjectRegistry_new).2.
Definition file_services : ServiceRegistry FileObject :=
  (register_confirmed (AtomicWriteFileHandler (H:=debug_build)) (register_confirmed (AtomicReadFileHandler (H:=debug_build)) ServiceRegistry_new).2).2.
Lemma hello_at : file_at file_registry (fo_id hello) hello.
Proof. repeat split; [vm_compute; discriminate..|]. by exists hello. Qed.
Lemma file_write_then_read_witness :
  ∃ s', dispatch_confirmed file_services 7 (write_file_request (fo_id hello) (WriteStream 5 (str " world"))) (ServiceContext_new 1) file_registry =
          (Ok (SrComplexAck (encode_write_file_stream_ack 5)), s') ∧
        dispatch_confirmed file_services 6 (read_file_request (fo_id hello) (ReadStream 5 6)) (ServiceContext_new 1) s' =
          (Ok (SrComplexAck (encode_read_file_stream_ack true 5 (str " world"))), s').
Proof.
  apply (file_write_then_read (H:=debug_build) file_services eq_refl eq_refl file_registry (fo_id hello) hello 5 (str " world"));
    [apply hello_at|reflexivity|reflexivity|lia|discriminate|reflexivity].
Defined.
Lemma file_uploaded_witness :
  ∃ f', file_at (foldl (upload file_services (fo_id hello) (ServiceContext_new 1)) file_registry [str ", "; str "world"]) (fo_id hello) f' ∧
        fo_file_data f' = str "hello" ++ concat [str ", "; str "world"] ∧ fo_records f' = [] ∧ fo_read_only f' = false ∧
        fo_access_method f' = StreamAccess ∧
        ∀ id', id' ≠ fo_id hello →
          get (foldl (upload file_services (fo_id hello) (ServiceContext_new 1)) file_registry [str ", "; str "world"]) id' = get file_registry id'.
Proof.
  apply (file_uploaded (H:=debug_build) file_services eq_refl file_registry (fo_id hello) hello (ServiceContext_new 1) [str ", "; str "world"]);
    [apply hello_at|reflexivity|reflexivity|repeat constructor].
Defined.

(** ** What a write request can change *)

(** Whatever octets arrive: an AtomicWriteFile request changes at most one object, a file that is not
    read-only, of which it keeps the identity, the access method, the flags and the contents that
    belong to the other method; indexes of the registry and other objects stay. *)
Theorem file_write_confined `{BuildProfile} {O} `{BACnetObject O} `{!FileCast O} data ctx (s : ObjectRegistry O) id :
  let s' := (AtomicWriteFile_handle data ctx s).2 in
  names s' = names s ∧ type_counts s' = type_counts s ∧
  (get s' id = get s id ∨
   ∃ o f f', get s id = Some o ∧ downcast_file_object o = Some f ∧ get s' id = Some (upcast_file_object f') ∧ fo_read_only f = false ∧
     fo_id f' = fo_id f ∧ fo_name f' = fo_name f ∧ fo_access_method f' = fo_access_method f ∧ fo_read_only f' = false ∧
     match fo_access_method f with StreamAccess => fo_records f' = fo_records f | RecordAccess => fo_file_data f' = fo_file_data f end).
Proof.
  cbv zeta. unfold AtomicWriteFile_handle. destruct (AtomicWriteFileRequest_decode data) as [[fid a]|e|]; [|cbn; auto..].
  destruct (file_of_request fid s) as [f|e|] eqn:Hf; [|cbn; auto..].
  assert (∀ r ack, (∃ e, r = (Err e, f)) ∨ (∃ p f', r = (Ok p, f') ∧ fo_read_only f = false ∧ fo_id f' = fo_id f ∧ fo_name f' = fo_name f ∧
      fo_access_method f' = fo_access_method f ∧ fo_read_only f' = false ∧
      match fo_access_method f with StreamAccess => fo_records f' = fo_records f | RecordAccess => fo_file_data f' = fo_file_data f end) →
    let s' := (write_answer ack r fid s).2 in
    names s' = names s ∧ type_counts s' = type_counts s ∧ (get s' id = get s id ∨ ∃ o f f', get s id = Some o ∧ downcast_file_object o = Some f ∧
      get s' id = Some (upcast_file_object f') ∧ fo_read_only f = false ∧ fo_id f' = fo_id f ∧ fo_name f' = fo_name f ∧
      fo_access_method f' = fo_access_method f ∧ fo_read_only f' = false ∧
      match fo_access_method f with StreamAccess => fo_records f' = fo_records f | RecordAccess => fo_file_data f' = fo_file_data f end)) as Hans.
  { intros r ack [[e ->]|(p & f' & -> & Hro & Hrest)]; [cbn; auto|]. cbn. split; [done|]. split; [done|].
    destruct (decide (id = fid)) as [->|Hne]; [right|left; unfold get, put_file; cbn; by rewrite lookup_insert_ne].
    unfold file_of_request in Hf. destruct (negb _) eqn:Ht; [done|]. unfold ObjectId_new in Hf. destruct (_ && _); [done|]. cbn [obind] in Hf.
    assert ({| object_type := OtFile; instance := instance fid |} = fid) as Hid.
    { destruct fid as [t i]. cbn in *. apply negb_false_iff, Z.eqb_eq in Ht. f_equal. by apply (inj ObjectType_as_u16). }
    rewrite Hid in Hf. destruct (get s fid) as [o|] eqn:Ho; [|done]. cbn in Hf. destruct (downcast_file_object o) as [f0|] eqn:Hd; [|done].
    cbn in Hf. injection Hf as ->. exists o, f, f'. split; [done|]. split; [done|]. split; [apply lookup_insert_eq|done]. }
  destruct a as [start bytes|start l], (fo_access_method f) eqn:Hm; try (cbn; by auto);
    apply Hans; unfold write_stream, write_records; destruct (fo_read_only f) eqn:Hro; [left; eauto|right; eauto 10..| left; eauto|right; eauto 10].
Qed.

(* ------------------------------------------------------------------ *)
(** * Records *)

Lemma take_drop_overwrite_records l pos new : take (length new) (drop pos (overwrite_records l pos new)) = new.
Proof.
  unfold overwrite_records. rewrite drop_app_length'; [by rewrite take_app_length|].
  rewrite length_take, length_app, length_replicate. lia.
Qed.
Lemma length_overwrite_records l pos new : length (overwrite_records l pos new) = max (length l) (pos + length new).
Proof. unfold overwrite_records. rewrite !length_app, length_take, length_drop, length_app, length_replicate. lia. Qed.

(** Records written at an index are read back from there, with the mark whether the file ends with
    them; the records in front of them stay, and a gap is filled with empty records. *)
Theorem records_write_then_read {E} start (new : list (list Z)) (f f' : FileObject) pos :
  write_records start new f = (Ok pos, f') → 0 <= start < 2147483648 → new ≠ [] →
  pos = start ∧ read_records (E:=E) start (zlen new) f' = Ok (new, zlen (fo_records f) <=? start + zlen new) ∧
  ∀ i, (i < Z.to_nat start)%nat → fo_records f' !! i = Some (default [] (fo_records f !! i)).
Proof.
  unfold write_records. destruct (fo_read_only f); [done|]. intros Hw Hs Hn. rewrite (proj2 (Z.ltb_ge start 0)) in Hw by lia.
  injection Hw as <- <-. assert (0 < zlen new) by (destruct new; [done|]; rewrite zlen_cons; pose proof (zlen_nonneg new); lia).
  split; [unfold to_i32; rewrite Z.mod_small by lia; lia|]. cbn [fo_records fo_set_contents]. split.
  - unfold read_records. cbn [fo_records fo_set_contents]. set (l := overwrite_records _ _ _).
    assert (zlen l = Z.max (zlen (fo_records f)) (start + zlen new)) as Hlen by (unfold l, zlen; rewrite length_overwrite_records; lia).
    rewrite (proj2 (Z.eqb_neq (zlen l) 0)), (proj2 (Z.eqb_neq (zlen new) 0)), (proj2 (Z.ltb_lt 0 (zlen new))), (proj2 (Z.ltb_ge start 0)) by lia.
    cbn [orb]. rewrite (proj2 (Z.leb_gt (zlen l) start)) by lia. rewrite Z.min_l by lia. rewrite slice_ok by lia. cbn [obind].
    replace (Z.to_nat (start + zlen new - start)) with (length new) by (unfold zlen; lia). unfold l. rewrite take_drop_overwrite_records.
    do 2 f_equal. fold l. apply eq_true_iff_eq. rewrite !Z.leb_le. lia.
  - intros i Hi. unfold overwrite_records. rewrite lookup_app_l by (rewrite length_take, length_app, length_replicate; lia).
    rewrite lookup_take_lt by done. rewrite lookup_app. destruct (fo_records f !! i) as [r|] eqn:Hr; [done|]. cbn.
    apply lookup_ge_None_1 in Hr. apply lookup_replicate. split; [done|]. unfold zlen in *. lia.
Qed.
Definition log_file : FileObject := fo_set_contents [] [[1; 2]; [3]] 0 hello.
Lemma records_write_then_read_witness :
  let f' := (write_records 3 [[4]; [5; 6]] log_file).2 in
  3 = 3 ∧ read_records (E:=unit) 3 (zlen [[4]; [5; 6]]) f' = Ok ([[4]; [5; 6]], zlen (fo_records log_file) <=? 3 + 2) ∧
  ∀ i, (i < Z.to_nat 3)%nat → fo_records f' !! i = Some (default [] (fo_records log_file !! i)).
Proof. intros f'. apply (records_write_then_read 3 [[4]; [5; 6]] log_file f' 3); [reflexivity|lia|discriminate]. Defined.

(* ------------------------------------------------------------------ *)
(** * Requests that go wrong *)

(** A request for the wildcard instance, and one with a position of no octets, end the server's task. *)
Example file_requests_panic :
  fst (AtomicReadFile_handle (H:=debug_build) (read_file_request {| object_type := OtFile; instance := WILDCARD_INSTANCE |} (ReadStream 0 1))
         (ServiceContext_new 1) file_registry) = Panic ∧
  AtomicReadFileRequest_decode (encode_object_identifier (fo_id hello) ++ [0x0E; 0x30; 0x21; 1; 0x0F]) = Panic.
Proof. split; reflexivity. Qed.

(** A number of records of 2{^31} or more is taken for a negative one, and the file read backward. *)
Example record_count_reads_backward :
  read_records (E:=unit) 0 (to_i32 4294967295) log_file = Ok ([[1; 2]], true) ∧
  read_records (E:=unit) 0 2147483647 log_file = Ok ([[1; 2]; [3]], true).
Proof. split; reflexivity. Qed.

(** A count that exceeds the records sent makes an empty record of the closing tag. *)
Example closing_tag_becomes_record :
  AtomicWriteFileRequest_decode (encode_object_identifier (fo_id hello) ++ access_body 1 0 (encode_unsigned 2 ++ encode_octet_string [7])) =
  Ok (fo_id hello, WriteRecord 0 [[7]; []]).
Proof. reflexivity. Qed.

(** Writes of the name and of the status flags are acknowledged and have no effect on what is read. *)
Theorem file_writes_ignored k v (f : FileObject) :
  k = PiObjectName ∨ k = PiStatusFlags →
  (File_write_property k v f).1 = Ok tt ∧ File_read_property (File_write_property k v f).2 k = File_read_property f k.
Proof. by intros [->| ->]. Qed.
Lemma file_writes_ignored_witness :
  (File_write_property PiObjectName VNull hello).1 = Ok tt ∧
  File_read_property (File_write_property PiObjectName VNull hello).2 PiObjectName = File_read_property hello PiObjectName.
Proof. apply file_writes_ignored. auto. Defined.
