(* ===== verification/BacnetAlarm.v ===== *)
(** Alarms of BACnet: the Event Enrollment and Notification Class objects
    ([mabi-bacnet/src/object/event_enrollment.rs]) and the alarm services ([service/alarm.rs]).

    A field behind a lock is a field of the state.  The order in which the services visit the objects
    of the registry is that of a concurrent map, and a parameter here. *)

From Stdlib Require Import SpecFloat.
From S2P Require Import Prelude BacnetNet BacnetValue BacnetApdu BacnetObject BacnetRegistry BacnetService BacnetTrendLog.

(* ------------------------------------------------------------------ *)
(** * Event types, states and transitions *)

Inductive EventType : Set :=
| EtChangeOfBitstring | EtChangeOfState | EtChangeOfValue | EtCommandFailure | EtFloatingLimit | EtOutOfRange | EtChangeOfLifeSafety
| EtExtended | EtBufferReady | EtUnsignedRange | EtAccessEvent | EtDoubleOutOfRange | EtSignedOutOfRange | EtUnsignedOutOfRange
| EtChangeOfCharacterstring | EtChangeOfStatusFlags | EtChangeOfReliability | EtNone | EtChangeOfDiscreteValue | EtChangeOfTimer.
Definition EventType_as_u32 (t : EventType) : Z :=
  match t with
  | EtChangeOfBitstring => 0 | EtChangeOfState => 1 | EtChangeOfValue => 2 | EtCommandFailure => 3 | EtFloatingLimit => 4
  | EtOutOfRange => 5 | EtChangeOfLifeSafety => 8 | EtExtended => 9 | EtBufferReady => 10 | EtUnsignedRange => 11
  | EtAccessEvent => 13 | EtDoubleOutOfRange => 14 | EtSignedOutOfRange => 15 | EtUnsignedOutOfRange => 16
  | EtChangeOfCharacterstring => 17 | EtChangeOfStatusFlags => 18 | EtChangeOfReliability => 19 | EtNone => 20
  | EtChangeOfDiscreteValue => 21 | EtChangeOfTimer => 22
  end.
Definition EventType_from_u32 (v : Z) : option EventType :=
  match v with
  | 0 => Some EtChangeOfBitstring | 1 => Some EtChangeOfState | 2 => Some EtChangeOfValue | 3 => Some EtCommandFailure
  | 4 => Some EtFloatingLimit | 5 => Some EtOutOfRange | 8 => Some EtChangeOfLifeSafety | 9 => Some EtExtended
  | 10 => Some EtBufferReady | 11 => Some EtUnsignedRange | 13 => Some EtAccessEvent | 14 => Some EtDoubleOutOfRange
  | 15 => Some EtSignedOutOfRange | 16 => Some EtUnsignedOutOfRange | 17 => Some EtChangeOfCharacterstring
  | 18 => Some EtChangeOfStatusFlags | 19 => Some EtChangeOfReliability | 20 => Some EtNone | 21 => Some EtChangeOfDiscreteValue
  | 22 => Some EtChangeOfTimer
  | _ => None
  end.

Inductive EventState : Set := EsNormal | EsFault | EsOffnormal | EsHighLimit | EsLowLimit | EsLifeSafetyAlarm.
#[global] Instance EventState_eq_dec : EqDecision EventState.
Proof. solve_decision. Defined.
Definition EventState_as_u32 (s : EventState) : Z :=
  match s with EsNormal => 0 | EsFault => 1 | EsOffnormal => 2 | EsHighLimit => 3 | EsLowLimit => 4 | EsLifeSafetyAlarm => 5 end.
Definition event_state_from_u32 (v : Z) : EventState :=
  match v with 0 => EsNormal | 1 => EsFault | 2 => EsOffnormal | 3 => EsHighLimit | 4 => EsLowLimit | 5 => EsLifeSafetyAlarm | _ => EsOffnormal end.

(** Three values, for the three kinds of transition: [EventTransitionBits], timestamps, priorities. *)
Inductive Transition : Set := ToOffnormal | ToFault | ToNormal.
#[global] Instance Transition_eq_dec : EqDecision Transition.
Proof. solve_decision. Defined.
Record PerTransition (A : Type) : Type := { to_offnormal : A; to_fault : A; to_normal : A }.
#[global] Arguments to_offnormal {A}. #[global] Arguments to_fault {A}. #[global] Arguments to_normal {A}.
#[global] Arguments Build_PerTransition {A}.
Abbreviation EventTransitionBits := (PerTransition bool).
Definition at_transition {A} (t : Transition) (p : PerTransition A) : A :=
  match t with ToOffnormal => to_offnormal p | ToFault => to_fault p | ToNormal => to_normal p end.
Definition set_transition {A} (t : Transition) (x : A) (p : PerTransition A) : PerTransition A :=
  match t with
  | ToOffnormal => {| to_offnormal := x; to_fault := to_fault p; to_normal := to_normal p |}
  | ToFault => {| to_offnormal := to_offnormal p; to_fault := x; to_normal := to_normal p |}
  | ToNormal => {| to_offnormal := to_offnormal p; to_fault := to_fault p; to_normal := x |}
  end.
(** The [match new_state] of the methods. *)
Definition transition_of (s : EventState) : Transition := match s with EsNormal => ToNormal | EsFault => ToFault | _ => ToOffnormal end.
Definition bits_all : EventTransitionBits := {| to_offnormal := true; to_fault := true; to_normal := true |}.
Definition bits_to_bits (b : EventTransitionBits) : list bool := [to_offnormal b; to_fault b; to_normal b].
Definition bits_from_bits (l : list bool) : EventTransitionBits :=
  {| to_offnormal := default false (l !! 0%nat); to_fault := default false (l !! 1%nat); to_normal := default false (l !! 2%nat) |}.

Inductive NotifyType : Set := NtAlarm | NtEvent | NtAckNotification.
Definition NotifyType_as_u32 (n : NotifyType) : Z := match n with NtAlarm => 0 | NtEvent => 1 | NtAckNotification => 2 end.
Definition NotifyType_from_u32 (v : Z) : option NotifyType :=
  match v with 0 => Some NtAlarm | 1 => Some NtEvent | 2 => Some NtAckNotification | _ => None end.

(* ------------------------------------------------------------------ *)
(** * The Event Enrollment object *)

(** The fields that transitions and acknowledgements change, and those that only property writes do. *)
Record EventStatus : Type := {
  es_state : EventState; es_acked : EventTransitionBits; es_timestamps : PerTransition Z }.
Record EventEnrollment : Type := {
  ee_id : ObjectId; ee_name : list Z; ee_description : list Z; ee_properties : PropertyStore; ee_event_type : EventType;
  ee_status : EventStatus; ee_reference : DeviceObjectPropertyReference; ee_notification_class : Z; ee_event_enable : EventTransitionBits;
  ee_notify_type : NotifyType; ee_time_delay : Z; ee_high_limit : Z; ee_low_limit : Z; ee_deadband : Z;
  ee_limit_enable : EventTransitionBits; ee_out_of_service : bool }.

Definition f32_hundred : Z := 0x42C80000.
Definition f32_one_bits : Z := 0x3F800000.
Definition EventEnrollment_new `{BuildProfile} {E} (inst : Z) (name : list Z) (t : EventType) : outcome E EventEnrollment :=
  let? id := ObjectId_new OtEventEnrollment inst in
  let? monitored := ObjectId_new OtAnalogInput 0 in
  Ok {| ee_id := id; ee_name := name; ee_description := []; ee_properties := <[PiReliability := VEnumerated 0]> ∅; ee_event_type := t;
        ee_status := {| es_state := EsNormal; es_acked := bits_all; es_timestamps := Build_PerTransition 0 0 0 |};
        ee_reference := {| do_object_id := monitored; do_property_id := PiPresentValue; do_array_index := None; do_device_id := None |};
        ee_notification_class := 0; ee_event_enable := bits_all; ee_notify_type := NtAlarm; ee_time_delay := 0;
        ee_high_limit := f32_hundred; ee_low_limit := f32_zero; ee_deadband := f32_one_bits;
        ee_limit_enable := {| to_offnormal := true; to_fault := false; to_normal := true |}; ee_out_of_service := false |}.

Definition set_status (st : EventStatus) (e : EventEnrollment) : EventEnrollment :=
  {| ee_id := ee_id e; ee_name := ee_name e; ee_description := ee_description e; ee_properties := ee_properties e;
     ee_event_type := ee_event_type e; ee_status := st; ee_reference := ee_reference e; ee_notification_class := ee_notification_class e;
     ee_event_enable := ee_event_enable e; ee_notify_type := ee_notify_type e; ee_time_delay := ee_time_delay e;
     ee_high_limit := ee_high_limit e; ee_low_limit := ee_low_limit e; ee_deadband := ee_deadband e; ee_limit_enable := ee_limit_enable e;
     ee_out_of_service := ee_out_of_service e |}.
Definition ee_configure (props : PropertyStore) (nc : Z) (en : EventTransitionBits) (nt : NotifyType) (delay high low db : Z) (oos : bool)
    (e : EventEnrollment) : EventEnrollment :=
  {| ee_id := ee_id e; ee_name := ee_name e; ee_description := ee_description e; ee_properties := props;
     ee_event_type := ee_event_type e; ee_status := ee_status e; ee_reference := ee_reference e; ee_notification_class := nc;
     ee_event_enable := en; ee_notify_type := nt; ee_time_delay := delay; ee_high_limit := high; ee_low_limit := low; ee_deadband := db;
     ee_limit_enable := ee_limit_enable e; ee_out_of_service := oos |}.

(** Comparisons and arithmetic of [f32] over the bit patterns. *)
Definition f32_lt (a b : Z) : bool := SFltb (f32 a) (f32 b).
Definition f32_le (a b : Z) : bool := SFleb (f32 a) (f32 b).
Definition lt_sub (v high db : Z) : bool := SFltb (f32 v) (SFsub 24 128 (f32 high) (f32 db)).
Definition gt_add (v low db : Z) : bool := SFltb (SFadd 24 128 (f32 low) (f32 db)) (f32 v).

(** [EventEnrollment::evaluate] on a state, a type and limits. *)
Definition evaluate_limits (t : EventType) (high low db : Z) (current : EventState) (v : Z) : option EventState :=
  match t with
  | EtOutOfRange =>
      match current with
      | EsNormal => if f32_lt high v then Some EsHighLimit else if f32_lt v low then Some EsLowLimit else None
      | EsHighLimit =>
          if lt_sub v high db && f32_le low v then Some EsNormal else if f32_lt v low then Some EsLowLimit else None
      | EsLowLimit =>
          if gt_add v low db && f32_le v high then Some EsNormal else if f32_lt high v then Some EsHighLimit else None
      | _ => None
      end
  | _ =>
      match current with
      | EsNormal => if f32_lt high v || f32_lt v low then Some EsOffnormal else None
      | EsOffnormal => if f32_le low v && f32_le v high then Some EsNormal else None
      | _ => None
      end
  end.
Definition ee_evaluate (v : Z) (e : EventEnrollment) : option EventState :=
  evaluate_limits (ee_event_type e) (ee_high_limit e) (ee_low_limit e) (ee_deadband e) (es_state (ee_status e)) v.

(** The answer says whether a notification is due. *)
Definition transition_to (new : EventState) (timestamp : Z) (e : EventEnrollment) : bool * EventEnrollment :=
  let st := ee_status e in
  if decide (es_state st = new) then (false, e)
  else
    let t := transition_of new in
    (at_transition t (ee_event_enable e),
     set_status {| es_state := new; es_acked := set_transition t false (es_acked st); es_timestamps := set_transition t timestamp (es_timestamps st) |} e).
Definition acknowledge (name : list Z) : stM EventEnrollment PropertyError unit := fun e =>
  let st := ee_status e in
  let ack t := (Ok tt, set_status {| es_state := es_state st; es_acked := set_transition t true (es_acked st); es_timestamps := es_timestamps st |} e) in
  if bool_decide (name = str "to-offnormal") then ack ToOffnormal
  else if bool_decide (name = str "to-fault") then ack ToFault
  else if bool_decide (name = str "to-normal") then ack ToNormal
  else (Err (PeValueOutOfRange PiAckedTransitions), e).

Definition EventEnrollment_status_flags (e : EventEnrollment) : StatusFlags :=
  {| in_alarm := match es_state (ee_status e) with EsNormal => false | _ => true end;
     fault := match es_state (ee_status e) with EsFault => true | _ => false end; overridden := false; sf_out_of_service := ee_out_of_service e |}.
Definition EventEnrollment_read_property (e : EventEnrollment) (k : PropertyId) : outcome PropertyError BACnetValue :=
  match k with
  | PiObjectIdentifier => Ok (VObjectIdentifier (ee_id e))
  | PiObjectName => Ok (VCharacterString (ee_name e))
  | PiObjectType => Ok (VEnumerated (ObjectType_as_u16 OtEventEnrollment))
  | PiDescription => Ok (VCharacterString (ee_description e))
  | PiEventType => Ok (VEnumerated (EventType_as_u32 (ee_event_type e)))
  | PiEventState => Ok (VEnumerated (EventState_as_u32 (es_state (ee_status e))))
  | PiStatusFlags => Ok (VBitString (StatusFlags_to_bits (EventEnrollment_status_flags e)))
  | PiEventEnable => Ok (VBitString (bits_to_bits (ee_event_enable e)))
  | PiAckedTransitions => Ok (VBitString (bits_to_bits (es_acked (ee_status e))))
  | PiNotifyType => Ok (VEnumerated (NotifyType_as_u32 (ee_notify_type e)))
  | PiNotificationClass => Ok (VUnsigned (ee_notification_class e))
  | PiEventTimeStamps =>
      let ts := es_timestamps (ee_status e) in Ok (VArray [VUnsigned64 (to_offnormal ts); VUnsigned64 (to_fault ts); VUnsigned64 (to_normal ts)])
  | PiTimeDelay => Ok (VUnsigned (ee_time_delay e))
  | PiHighLimit => Ok (VReal (ee_high_limit e))
  | PiLowLimit => Ok (VReal (ee_low_limit e))
  | PiDeadband => Ok (VReal (ee_deadband e))
  | PiLimitEnable => Ok (VBitString [to_offnormal (ee_limit_enable e); to_normal (ee_limit_enable e)])
  | PiOutOfService => Ok (VBoolean (ee_out_of_service e))
  | _ => ok_or (ee_properties e !! k) (PeNotFound k)
  end.
Definition EventEnrollment_write_property (k : PropertyId) (v : BACnetValue) : stM EventEnrollment PropertyError unit := fun e =>
  let set nc en nt delay high low db oos := (Ok tt, ee_configure (ee_properties e) nc en nt delay high low db oos e) in
  let refused {A} : outcome PropertyError A * EventEnrollment := (Err (PeInvalidDataType k), e) in
  let nc := ee_notification_class e in let en := ee_event_enable e in let nt := ee_notify_type e in let delay := ee_time_delay e in
  let high := ee_high_limit e in let low := ee_low_limit e in let db := ee_deadband e in let oos := ee_out_of_service e in
  match k with
  | PiObjectIdentifier | PiObjectType | PiEventState | PiEventTimeStamps | PiAckedTransitions => (Err (PeReadOnly k), e)
  | PiEventEnable => match v with VBitString l => set nc (bits_from_bits l) nt delay high low db oos | _ => refused end
  | PiNotifyType =>
      match as_unsigned v with
      | Some n => match NotifyType_from_u32 n with Some nt => set nc en nt delay high low db oos | None => (Err (PeValueOutOfRange k), e) end
      | None => refused
      end
  | PiNotificationClass => match as_unsigned v with Some nc => set nc en nt delay high low db oos | None => refused end
  | PiTimeDelay => match as_unsigned v with Some delay => set nc en nt delay high low db oos | None => refused end
  | PiHighLimit => match as_real v with Some high => set nc en nt delay high low db oos | None => refused end
  | PiLowLimit => match as_real v with Some low => set nc en nt delay high low db oos | None => refused end
  | PiDeadband => match as_real v with Some db => set nc en nt delay high low db oos | None => refused end
  | PiOutOfService => match as_bool v with Some oos => set nc en nt delay high low db oos | None => refused end
  | _ => (Ok tt, ee_configure (<[k := v]> (ee_properties e)) nc en nt delay high low db oos e)
  end.
Definition EventEnrollment_list_properties (e : EventEnrollment) : list PropertyId :=
  [PiObjectIdentifier; PiObjectName; PiObjectType; PiDescription; PiEventType; PiEventState; PiStatusFlags; PiEventEnable;
   PiAckedTransitions; PiNotifyType; PiNotificationClass; PiEventTimeStamps; PiTimeDelay; PiReliability; PiOutOfService]
  ++ match ee_event_type e with
     | EtOutOfRange | EtFloatingLimit | EtDoubleOutOfRange | EtSignedOutOfRange | EtUnsignedOutOfRange =>
         [PiHighLimit; PiLowLimit; PiDeadband; PiLimitEnable]
     | _ => []
     end.
#[global] Instance enrollment_object : BACnetObject EventEnrollment := {
  object_identifier := ee_id; object_name := ee_name; read_property := EventEnrollment_read_property;
  write_property := EventEnrollment_write_property; list_properties := EventEnrollment_list_properties;
  object_status_flags := EventEnrollment_status_flags }.
#[global] Instance enrollment_laws : ObjectLaws EventEnrollment.
Proof.
  exists (fun _ => True).
  - intros k v e. cbn. destruct k; try done; cbn; repeat case_match; done.
  - intros k v e x. cbn. destruct k; try done; cbn; repeat case_match; naive_solver.
  - intros k v e _. cbn. destruct k; try done; cbn; repeat case_match; done.
  - intros e k. cbn. destruct k; try done; cbn; unfold ok_or; by case_match.
Defined.

(* ------------------------------------------------------------------ *)
(** * The Notification Class object *)

Record NotificationRecipient : Type := {
  nr_valid_days : Z; nr_from_time : Z; nr_to_time : Z; nr_destination : SocketAddr; nr_process_id : Z; nr_confirmed : bool;
  nr_transitions : EventTransitionBits }.
Record NotificationClass : Type := {
  nc_id : ObjectId; nc_name : list Z; nc_description : list Z; nc_properties : PropertyStore; nc_number : Z; nc_priority : PerTransition Z;
  nc_ack_required : EventTransitionBits; nc_recipients : list NotificationRecipient }.
Definition NotificationClass_new `{BuildProfile} {E} (inst : Z) (name : list Z) : outcome E NotificationClass :=
  let? id := ObjectId_new OtNotificationClass inst in
  Ok {| nc_id := id; nc_name := name; nc_description := []; nc_properties := ∅; nc_number := inst; nc_priority := Build_PerTransition 0 0 0;
        nc_ack_required := bits_all; nc_recipients := [] |}.
Definition nc_set (props : PropertyStore) (p : PerTransition Z) (ack : EventTransitionBits) (r : list NotificationRecipient) (c : NotificationClass) : NotificationClass :=
  {| nc_id := nc_id c; nc_name := nc_name c; nc_description := nc_description c; nc_properties := props; nc_number := nc_number c;
     nc_priority := p; nc_ack_required := ack; nc_recipients := r |}.
Definition nc_with_priority (a b c : Z) (x : NotificationClass) : NotificationClass :=
  nc_set (nc_properties x) (Build_PerTransition a b c) (nc_ack_required x) (nc_recipients x) x.
Definition with_ack_required (ack : EventTransitionBits) (x : NotificationClass) : NotificationClass :=
  nc_set (nc_properties x) (nc_priority x) ack (nc_recipients x) x.
Definition add_recipient (r : NotificationRecipient) (x : NotificationClass) : NotificationClass :=
  nc_set (nc_properties x) (nc_priority x) (nc_ack_required x) (nc_recipients x ++ [r]) x.
Definition priority_for_transition (s : EventState) (x : NotificationClass) : Z := at_transition (transition_of s) (nc_priority x).
Definition ack_required_for_transition (s : EventState) (x : NotificationClass) : bool := at_transition (transition_of s) (nc_ack_required x).

Definition NotificationClass_read_property (x : NotificationClass) (k : PropertyId) : outcome PropertyError BACnetValue :=
  match k with
  | PiObjectIdentifier => Ok (VObjectIdentifier (nc_id x))
  | PiObjectName => Ok (VCharacterString (nc_name x))
  | PiObjectType => Ok (VEnumerated (ObjectType_as_u16 OtNotificationClass))
  | PiDescription => Ok (VCharacterString (nc_description x))
  | PiNotificationClass => Ok (VUnsigned (nc_number x))
  | PiPriority => let p := nc_priority x in Ok (VArray [VUnsigned (to_offnormal p); VUnsigned (to_fault p); VUnsigned (to_normal p)])
  | PiAckRequired => Ok (VBitString (bits_to_bits (nc_ack_required x)))
  | _ => ok_or (nc_properties x !! k) (PeNotFound k)
  end.
Definition NotificationClass_write_property (k : PropertyId) (v : BACnetValue) : stM NotificationClass PropertyError unit := fun x =>
  match k with
  | PiObjectIdentifier | PiObjectType | PiNotificationClass => (Err (PeReadOnly k), x)
  | PiPriority =>
      match v with
      | VArray [a; b; c] =>
          match as_unsigned a, as_unsigned b, as_unsigned c with
          | Some a, Some b, Some c => (Ok tt, nc_with_priority (as_u8 a) (as_u8 b) (as_u8 c) x)
          | _, _, _ => (Err (PeInvalidDataType k), x)
          end
      | VArray _ => (Err (PeValueOutOfRange k), x)
      | _ => (Err (PeInvalidDataType k), x)
      end
  | PiAckRequired => match v with VBitString l => (Ok tt, with_ack_required (bits_from_bits l) x) | _ => (Err (PeInvalidDataType k), x) end
  | _ => (Ok tt, nc_set (<[k := v]> (nc_properties x)) (nc_priority x) (nc_ack_required x) (nc_recipients x) x)
  end.
Definition NotificationClass_list_properties : list PropertyId :=
  [PiObjectIdentifier; PiObjectName; PiObjectType; PiDescription; PiNotificationClass; PiPriority; PiAckRequired].
#[global] Instance notification_class_object : BACnetObject NotificationClass := {
  object_identifier := nc_id; object_name := nc_name; read_property := NotificationClass_read_property;
  write_property := NotificationClass_write_property; list_properties := fun _ => NotificationClass_list_properties;
  object_status_flags := fun _ => no_flags }.
(** The priorities are octets. *)
Definition priorities_ok (x : NotificationClass) : Prop := ∀ t, is_u8 (at_transition t (nc_priority x)).
#[global] Instance notification_class_laws : ObjectLaws NotificationClass.
Proof.
  exists priorities_ok.
  - intros k v x. cbn. destruct k; try done; cbn; repeat case_match; done.
  - intros k v x e. cbn. destruct k; try done; cbn; repeat case_match; naive_solver.
  - intros k v x Hx. cbn. destruct k; try done; cbn; repeat case_match; (split; [done|]); try done. intros []; apply as_u8_range.
  - intros x k. cbn. destruct k; try done; cbn; unfold ok_or; by case_match.
Defined.

(* ------------------------------------------------------------------ *)
(** * The alarm services *)

Class EnrollmentCast (O : Type) : Type := {
  downcast_enrollment : O → option EventEnrollment;
  upcast_enrollment : EventEnrollment → O
}.
Class EnrollmentCastLaws (O : Type) `{!EnrollmentCast O} : Prop := {
  downcast_upcast_enrollment e : downcast_enrollment (upcast_enrollment e) = Some e
}.
#[global] Instance enrollment_cast : EnrollmentCast EventEnrollment := { downcast_enrollment := Some; upcast_enrollment := id }.
#[global] Instance enrollment_cast_laws : EnrollmentCastLaws EventEnrollment.
Proof. by constructor. Qed.

Record AcknowledgeAlarmRequest : Type := {
  aa_process_id : Z; aa_event_object_id : ObjectId; aa_event_state : EventState; aa_time_stamp : Z; aa_source : list Z;
  aa_time_of_acknowledgment : Z }.

(** The errors are static texts that the handler drops; the numbers of the tags are not looked at. *)
Definition ADec (A : Type) : Type := stM (list Z) unit A.
Definition or_error {A} (d : Dec A) : ADec A := st_map_err (fun _ => tt) d.
Definition tagged {A} (d : Z → ADec A) : ADec A := do? tag := or_error decode_tag_info in let '(_, _, len) := tag in d len.
Definition AcknowledgeAlarmRequest_decode (data : list Z) : outcome unit AcknowledgeAlarmRequest :=
  fst ((do? process_id := tagged (fun len => or_error (decode_unsigned len)) in
        do? o := tagged (fun len => if negb (len =? 4) then st_err tt else or_error decode_object_identifier) in
        do? state := tagged (fun len => or_error (decode_unsigned len)) in
        do? time_stamp := tagged (fun len => or_error (decode_unsigned len)) in
        do? source := tagged (fun len => or_error (decode_character_string len)) in
        do? empty := or_error dec_is_empty in
        do? ack_time := (if empty : bool then st_ret 0 else tagged (fun len => or_error (decode_unsigned len))) in
        st_ret {| aa_process_id := process_id; aa_event_object_id := o; aa_event_state := event_state_from_u32 state; aa_time_stamp := time_stamp;
                  aa_source := source; aa_time_of_acknowledgment := ack_time |}) data).

Definition transition_name (s : EventState) : list Z :=
  match s with EsNormal => str "to-normal" | EsFault => str "to-fault" | _ => str "to-offnormal" end.
Definition service_request_denied : ServiceResult := SrError EclServices EcServiceRequestDenied.

Inductive AcknowledgmentFilter : Set := AfAll | AfAcked | AfNotAcked.

Section alarm_services.
Context {O : Type} `{BACnetObject O} `{!EnrollmentCast O}.
(** The objects in the order of [registry.iter()]. *)
Context (order : gmap ObjectId O → list (ObjectId * O)).
Definition visited (s : ObjectRegistry O) : list O := (order (objects s)).*2.

Definition AcknowledgeAlarm_handle : Handle (O:=O) := fun data _ s =>
  match AcknowledgeAlarmRequest_decode data with
  | Panic => (Panic, s)
  | Err _ => (Ok invalid_tag, s)
  | Ok request =>
      match get s (aa_event_object_id request) with
      | None => (Ok unknown_object, s)
      | Some o =>
          match downcast_enrollment o with
          | None => (Ok (SrError EclObject EcUnsupportedObjectType), s)
          | Some e =>
              match acknowledge (transition_name (aa_event_state request)) e with
              | (Ok _, e') => (Ok SrSimpleAck, {| objects := <[aa_event_object_id request := upcast_enrollment e']> (objects s); names := names s;
                                                  type_counts := type_counts s |})
              | (Err _, _) => (Ok service_request_denied, s)
              | (Panic, _) => (Panic, s)
              end
          end
      end
  end.
Definition AcknowledgeAlarmHandler : ConfirmedServiceHandler O :=
  {| service_choice := CsAcknowledgeAlarm; handle := AcknowledgeAlarm_handle; min_data_length := 8 |}.

(** [read_property(..).ok()]: the objects do not panic there ([read_no_panic]). *)
Definition read_or_none (o : O) (k : PropertyId) : option BACnetValue := match read_property o k with Ok v => Some v | _ => None end.
Definition state_or (d : EventState) (o : O) : EventState :=
  default d (event_state_from_u32 <$> (read_or_none o PiEventState ≫= as_unsigned)).
Definition bit_string (v : BACnetValue) : option (list bool) := match v with VBitString l => Some l | _ => None end.

Definition encode_alarm (o : O) : list Z :=
  let acked := default bits_all (bits_from_bits <$> (read_or_none o PiAckedTransitions ≫= bit_string)) in
  encode_context_object_identifier 0 (object_identifier o) ++ encode_context_enumerated 1 (EventState_as_u32 (state_or EsOffnormal o))
  ++ encode_context_bit_string 2 (bits_to_bits acked).
Definition in_alarm_object (o : O) : bool := in_alarm (object_status_flags o).
Definition GetAlarmSummary_handle : Handle (O:=O) := fun _ _ s =>
  (Ok (SrComplexAck (flat_map encode_alarm (filter (fun o => in_alarm_object o) (visited s)))), s).
Definition GetAlarmSummaryHandler : ConfirmedServiceHandler O :=
  {| service_choice := CsGetAlarmSummary; handle := GetAlarmSummary_handle; min_data_length := 0 |}.

(** The first number of the request; whatever cannot be decoded asks for everything. *)
Definition ack_filter (data : list Z) : outcome Empty_set AcknowledgmentFilter :=
  match data with
  | [] => Ok AfAll
  | _ =>
      match decode_tag_info data with
      | (Ok (_, _, len), d) =>
          match decode_unsigned len d with
          | (Ok 1, _) => Ok AfAcked
          | (Ok 2, _) => Ok AfNotAcked
          | (Panic, _) => Panic
          | _ => Ok AfAll
          end
      | (Err _, _) => Ok AfAll
      | (Panic, _) => Panic
      end
  end.
Definition all_acked (e : EventEnrollment) : bool :=
  let a := es_acked (ee_status e) in to_offnormal a && to_fault a && to_normal a.
Definition included (f : AcknowledgmentFilter) (e : EventEnrollment) : bool :=
  match f with AfAll => true | AfAcked => all_acked e | AfNotAcked => negb (all_acked e) end.
Definition encode_enrollment (e : EventEnrollment) : list Z :=
  encode_context_object_identifier 0 (ee_id e) ++ encode_context_enumerated 1 (EventType_as_u32 (ee_event_type e))
  ++ encode_context_enumerated 2 (EventState_as_u32 (es_state (ee_status e))) ++ encode_context_unsigned 3 0
  ++ encode_context_unsigned 4 (ee_notification_class e).
Definition enrollment_of (o : O) : option EventEnrollment :=
  if bool_decide (object_type (object_identifier o) = OtEventEnrollment) then downcast_enrollment o else None.
Definition GetEnrollmentSummary_handle : Handle (O:=O) := fun data _ s =>
  match ack_filter data with
  | Ok f => (Ok (SrComplexAck (flat_map encode_enrollment (filter (fun e => included f e) (omap enrollment_of (visited s))))), s)
  | Err e => (Err e, s)
  | Panic => (Panic, s)
  end.
Definition GetEnrollmentSummaryHandler : ConfirmedServiceHandler O :=
  {| service_choice := CsGetEnrollmentSummary; handle := GetEnrollmentSummary_handle; min_data_length := 0 |}.

(** ** Event information *)

Definition last_received (data : list Z) : outcome Empty_set (option ObjectId) :=
  match data with
  | [] => Ok None
  | _ =>
      match decode_tag_info data with
      | (Ok (_, _, len), d) =>
          if len =? 4 then match decode_object_identifier d with (Ok o, _) => Ok (Some o) | (Err _, _) => Ok None | (Panic, _) => Panic end
          else Ok None
      | (Err _, _) => Ok None
      | (Panic, _) => Panic
      end
  end.
Definition not_normal (o : O) : bool := negb (bool_decide (state_or EsNormal o = EsNormal)).
(** The objects the loop encodes: those after the last one received, up to twenty. *)
Fixpoint event_loop (found : bool) (last : option ObjectId) (count : Z) (l : list O) : list O :=
  match l with
  | [] => []
  | o :: l =>
      if negb found then event_loop (bool_decide (Some (object_identifier o) = last)) last count l
      else if not_normal o then o :: (if 20 <=? count + 1 then [] else event_loop found last (count + 1) l)
      else event_loop found last count l
  end.
Definition event_page (last : option ObjectId) (s : ObjectRegistry O) : list O := event_loop (negb (is_some last)) last 0 (visited s).
Definition encode_timestamp (v : BACnetValue) : list Z :=
  encode_unsigned (match as_unsigned v with Some n => n | None => match v with VUnsigned64 n => as_u32 n | _ => 0 end end).
Definition encode_event (o : O) : list Z :=
  encode_context_object_identifier 0 (object_identifier o) ++ encode_context_enumerated 1 (EventState_as_u32 (state_or EsNormal o))
  ++ encode_context_bit_string 2 (default [true; true; true] (read_or_none o PiAckedTransitions ≫= bit_string))
  ++ encode_opening_tag 3
  ++ match read_or_none o PiEventTimeStamps with Some (VArray ts) => flat_map encode_timestamp ts | _ => [] end
  ++ encode_closing_tag 3
  ++ encode_context_enumerated 4 (default 0 (read_or_none o PiNotifyType ≫= as_unsigned))
  ++ encode_context_bit_string 5 (default [true; true; true] (read_or_none o PiEventEnable ≫= bit_string)).
Definition more_events (page : list O) : bool := 20 <=? zlen page.
Definition encode_event_page (page : list O) : list Z :=
  encode_opening_tag 0 ++ flat_map encode_event page ++ encode_closing_tag 0 ++ encode_context_unsigned 1 (if more_events page then 1 else 0).
Definition GetEventInformation_handle : Handle (O:=O) := fun data _ s =>
  match last_received data with
  | Ok last => (Ok (SrComplexAck (encode_event_page (event_page last s))), s)
  | Err e => (Err e, s)
  | Panic => (Panic, s)
  end.
Definition GetEventInformationHandler : ConfirmedServiceHandler O :=
  {| service_choice := CsGetEventInformation; handle := GetEventInformation_handle; min_data_length := 0 |}.

Definition ConfirmedEventNotification_handle : Handle (O:=O) := fun _ _ s => (Ok SrSimpleAck, s).
Definition ConfirmedEventNotificationHandler : ConfirmedServiceHandler O :=
  {| service_choice := CsConfirmedEventNotification; handle := ConfirmedEventNotification_handle; min_data_length := 0 |}.
End alarm_services.

Record EventNotification : Type := {
  en_destination : SocketAddr; en_process_id : Z; en_initiating_device : ObjectId; en_event_object : ObjectId; en_time_stamp : Z;
  en_notification_class : Z; en_priority : Z; en_event_type : EventType; en_message_text : option (list Z); en_notify_type : NotifyType;
  en_ack_required : bool; en_from_state : EventState; en_to_state : EventState; en_confirmed : bool }.
Definition encode_event_notification (n : EventNotification) : list Z :=
  encode_context_unsigned 0 (en_process_id n) ++ encode_context_object_identifier 1 (en_initiating_device n)
  ++ encode_context_object_identifier 2 (en_event_object n) ++ encode_context_unsigned 3 (as_u32 (en_time_stamp n))
  ++ encode_context_unsigned 4 (en_notification_class n) ++ encode_context_unsigned 5 (en_priority n)
  ++ encode_context_enumerated 6 (EventType_as_u32 (en_event_type n))
  ++ match en_message_text n with Some t => encode_context_character_string 7 t | None => [] end
  ++ encode_context_enumerated 8 (NotifyType_as_u32 (en_notify_type n)) ++ encode_context_unsigned 9 (if en_ack_required n then 1 else 0)
  ++ encode_context_enumerated 10 (EventState_as_u32 (en_from_state n)) ++ encode_context_enumerated 11 (EventState_as_u32 (en_to_state n)).

(* ------------------------------------------------------------------ *)
(** * Why an enrollment is in its state *)

(** A value is evaluated, and a transition made where there is one. *)
Definition limits_step (t : EventType) (high low db : Z) (s : EventState) (v : Z) : EventState := default s (evaluate_limits t high low db s v).
Definition alarm_state (t : EventType) (high low db : Z) (vs : list Z) : EventState := foldl (limits_step t high low db) EsNormal vs.

(** Some value made the condition true, and none since has ended it. *)
Definition since (start : Z → Prop) (ends : Z → Prop) (vs : list Z) : Prop :=
  ∃ before v after, vs = before ++ v :: after ∧ start v ∧ Forall (fun w => ¬ ends w) after.
Lemma since_snoc (start ends : Z → Prop) vs w : since start ends vs → ¬ ends w → since start ends (vs ++ [w]).
Proof.
  intros (b & v & a & -> & Hv & Ha) Hw. exists b, v, (a ++ [w]). split; [by rewrite <- app_assoc|]. split; [done|].
  apply Forall_app. auto.
Qed.
Lemma since_now (start ends : Z → Prop) vs w : start w → since start ends (vs ++ [w]).
Proof. intros Hw. by exists vs, w, []. Qed.

(** For an out-of-range enrollment with any limits and dead band, after any values: it is in high-limit
    alarm only if some value was above the high limit and none since was back between the low limit and
    the high limit less the dead band, nor below the low limit; likewise for the low limit; and it
    is normal only if no value left the limits, or some value came back far enough and none since
    left them. It is in no other state. *)
Theorem alarm_explained high low db vs :
  match alarm_state EtOutOfRange high low db vs with
  | EsHighLimit => since (fun v => f32_lt high v = true) (fun w => lt_sub w high db && f32_le low w = true ∨ f32_lt w low = true) vs
  | EsLowLimit => since (fun v => f32_lt v low = true) (fun w => gt_add w low db && f32_le w high = true ∨ f32_lt high w = true) vs
  | EsNormal =>
      let inside v := f32_lt high v = false ∧ f32_lt v low = false in
      Forall inside vs ∨
      since (fun v => lt_sub v high db && f32_le low v = true ∨ gt_add v low db && f32_le v high = true) (fun w => ¬ inside w) vs
  | _ => False
  end.
Proof.
  induction vs as [|v vs IH] using rev_ind; [by left|]. unfold alarm_state in *. rewrite foldl_app. cbn [foldl].
  set (s := foldl _ EsNormal vs) in *. unfold limits_step at 1. destruct s; try done; cbn [evaluate_limits].
  - destruct (f32_lt high v) eqn:Hh; [by apply since_now|]. destruct (f32_lt v low) eqn:Hl; [by apply since_now|]. cbn.
    destruct IH as [IH|IH]; [left; apply Forall_app; auto|right; apply since_snoc; naive_solver].
  - destruct (lt_sub v high db && f32_le low v) eqn:Hb; [right; apply since_now; auto|].
    destruct (f32_lt v low) eqn:Hl; [by apply since_now|]. cbn. apply since_snoc; [done|]. rewrite Hb, Hl. naive_solver.
  - destruct (gt_add v low db && f32_le v high) eqn:Hb; [right; apply since_now; auto|].
    destruct (f32_lt high v) eqn:Hh; [by apply since_now|]. cbn. apply since_snoc; [done|]. rewrite Hb, Hh. naive_solver.
Qed.
(** 25.0 in a range of 0.0 to 20.0 is an alarm, 19.5 stays within the dead band of 1.0, 18.0 ends it. *)
Example dead_band : alarm_state EtOutOfRange 0x41A00000 0 0x3F800000 [0x41C80000; 0x419C0000] = EsHighLimit ∧
  alarm_state EtOutOfRange 0x41A00000 0 0x3F800000 [0x41C80000; 0x419C0000; 0x41900000] = EsNormal.
Proof. split; vm_compute; reflexivity. Qed.

(* ------------------------------------------------------------------ *)
(** * Transitions and acknowledgements *)

Inductive AlarmOp : Type := OpTransition (s : EventState) (timestamp : Z) | OpAcknowledge (t : Transition) | OpProperty (k : PropertyId) (v : BACnetValue).
Definition name_of (t : Transition) : list Z :=
  match t with ToOffnormal => str "to-offnormal" | ToFault => str "to-fault" | ToNormal => str "to-normal" end.
Definition alarm_op (e : EventEnrollment) (op : AlarmOp) : EventEnrollment :=
  match op with
  | OpTransition s ts => (transition_to s ts e).2
  | OpAcknowledge t => (acknowledge (name_of t) e).2
  | OpProperty k v => (write_property k v e).2
  end.

(** The state the operations ask for last, and the last change into a kind of state. *)
Definition asked_state (log : list AlarmOp) : EventState :=
  foldl (fun s op => match op with OpTransition s' _ => s' | _ => s end) EsNormal log.
Definition entered (t : Transition) (before : list AlarmOp) (s : EventState) : Prop := transition_of s = t ∧ asked_state before ≠ s.
Definition unacknowledged (t : Transition) (log : list AlarmOp) : Prop :=
  ∃ before s ts after, log = before ++ OpTransition s ts :: after ∧ entered t before s ∧ OpAcknowledge t ∉ after.
Fixpoint last_entry (t : Transition) (log : list AlarmOp) (s : EventState) (acc : Z) : Z :=
  match log with
  | [] => acc
  | OpTransition s' ts :: log => last_entry t log s' (if bool_decide (s ≠ s' ∧ transition_of s' = t) then ts else acc)
  | _ :: log => last_entry t log s acc
  end.

Lemma asked_snoc log op : asked_state (log ++ [op]) = match op with OpTransition s _ => s | _ => asked_state log end.
Proof. unfold asked_state. rewrite foldl_app. by destruct op. Qed.
Lemma last_entry_snoc t log op s acc :
  last_entry t (log ++ [op]) s acc =
  match op with
  | OpTransition s' ts => if bool_decide (foldl (fun s op => match op with OpTransition s' _ => s' | _ => s end) s log ≠ s' ∧ transition_of s' = t)
                          then ts else last_entry t log s acc
  | _ => last_entry t log s acc
  end.
Proof. revert s acc. induction log as [|o log IH]; intros s acc; [by destruct op|]. destruct o; cbn; apply IH. Qed.

Lemma at_set {A} t t' (x : A) p : at_transition t (set_transition t' x p) = if decide (t = t') then x else at_transition t p.
Proof. destruct t, t'; done. Qed.
Lemma write_keeps_status k v e : ee_status (EventEnrollment_write_property k v e).2 = ee_status e.
Proof. destruct k; try done; cbn; repeat case_match; done. Qed.
Lemma acknowledge_status t e :
  acknowledge (name_of t) e = (Ok tt, set_status {| es_state := es_state (ee_status e); es_acked := set_transition t true (es_acked (ee_status e));
                                                   es_timestamps := es_timestamps (ee_status e) |} e).
Proof. by destruct t. Qed.

(** Appending an operation that is neither an entry nor an acknowledgement of this kind changes nothing. *)
Lemma unacknowledged_snoc t log op :
  op ≠ OpAcknowledge t → (∀ s ts, op = OpTransition s ts → ¬ entered t log s) → unacknowledged t (log ++ [op]) ↔ unacknowledged t log.
Proof.
  intros Hack Hent. split; intros (b & s & ts & a & Heq & He & Ha).
  - destruct a as [|x a _] using rev_ind.
    + apply app_inj_tail in Heq as [-> ->]. by destruct (Hent s ts eq_refl).
    + rewrite app_comm_cons, app_assoc in Heq. apply app_inj_tail in Heq as [-> ->]. exists b, s, ts, a. set_solver.
  - subst log. exists b, s, ts, (a ++ [op]). split; [by rewrite <- app_assoc|]. split; [done|]. set_solver.
Qed.

(** C32: Whatever happens to an enrollment: its state is the one it was last moved to; its transition of a
    kind is unacknowledged exactly when it entered a state of that kind, and has not been
    acknowledged since; and the timestamp of that kind is that of the last entry. *)
Theorem acks_follow_transitions `{BuildProfile} {E} inst name t (e : EventEnrollment) (log : list AlarmOp) (k : Transition) :
  EventEnrollment_new (E:=E) inst name t = Ok e →
  let st := ee_status (foldl alarm_op e log) in
  es_state st = asked_state log ∧ (at_transition k (es_acked st) = false ↔ unacknowledged k log) ∧
  at_transition k (es_timestamps st) = last_entry k log EsNormal 0.
Proof.
  intros Hnew st. subst st. assert (ee_status e = {| es_state := EsNormal; es_acked := bits_all; es_timestamps := Build_PerTransition 0 0 0 |}) as He.
  { unfold EventEnrollment_new in Hnew. destruct (ObjectId_new OtEventEnrollment inst); [|done..]. cbn in Hnew.
    destruct (ObjectId_new OtAnalogInput 0); [|done..]. cbn in Hnew. by simplify_eq. }
  induction log as [|op log IH] using rev_ind.
  { cbn. rewrite He. split; [done|]. split; [|by destruct k]. split; [by destruct k|]. intros (b & ? & ? & ? & Heq & _). by destruct b. }
  rewrite foldl_app, asked_snoc, last_entry_snoc. cbn [foldl]. destruct IH as (Hs & Ha & Ht). set (e1 := foldl alarm_op e log) in *.
  destruct op as [s ts|t'|pk pv]; cbn [alarm_op].
  - unfold transition_to. fold (asked_state log). rewrite <- Hs. destruct (decide (es_state (ee_status e1) = s)) as [Heq|Hne]; cbn [snd].
    { rewrite bool_decide_eq_false_2 by naive_solver. split; [done|]. split; [|done]. rewrite Ha. symmetry. apply unacknowledged_snoc; [done|].
      intros ? ? [= <- <-] [_ Hn]. congruence. }
    cbn [set_status ee_status es_state es_acked es_timestamps]. rewrite !at_set. split; [done|].
    destruct (decide (k = transition_of s)) as [->|Hk].
    + rewrite bool_decide_eq_true_2 by done. split; [|done]. split; [|done]. intros _. exists log, s, ts, []. split; [done|].
      split; [split; [done|congruence]|apply not_elem_of_nil].
    + rewrite bool_decide_eq_false_2 by naive_solver. split; [|done]. rewrite Ha. symmetry. apply unacknowledged_snoc; [done|].
      intros ? ? [= <- <-] [Hn _]. congruence.
  - rewrite acknowledge_status. cbn [snd set_status ee_status es_state es_acked es_timestamps]. rewrite at_set. split; [done|]. split; [|done].
    destruct (decide (k = t')) as [->|Hk].
    + split; [done|]. intros (b & s & ts & a & Heq & _ & Hn). destruct a as [|x a _] using rev_ind; [by apply app_inj_tail in Heq as [_ [=]]|].
      rewrite app_comm_cons, app_assoc in Heq. apply app_inj_tail in Heq as [_ <-]. set_solver.
    + rewrite Ha. symmetry. apply unacknowledged_snoc; [congruence|done].
  - rewrite write_keeps_status. split; [done|]. split; [|done]. rewrite Ha. symmetry. by apply unacknowledged_snoc.
Qed.
Definition demo_enrollment : EventEnrollment := {|
  ee_id := {| object_type := OtEventEnrollment; instance := 7 |}; ee_name := str "EE"; ee_description := [];
  ee_properties := <[PiReliability := VEnumerated 0]> ∅; ee_event_type := EtOutOfRange;
  ee_status := {| es_state := EsNormal; es_acked := bits_all; es_timestamps := Build_PerTransition 0 0 0 |};
  ee_reference := {| do_object_id := {| object_type := OtAnalogInput; instance := 0 |}; do_property_id := PiPresentValue; do_array_index := None;
                     do_device_id := None |};
  ee_notification_class := 0; ee_event_enable := bits_all; ee_notify_type := NtAlarm; ee_time_delay := 0; ee_high_limit := f32_hundred;
  ee_low_limit := f32_zero; ee_deadband := f32_one_bits; ee_limit_enable := {| to_offnormal := true; to_fault := false; to_normal := true |};
  ee_out_of_service := false |}.
Definition demo_alarms : list AlarmOp := [OpTransition EsHighLimit 10; OpTransition EsNormal 20; OpAcknowledge ToNormal].
Lemma acks_follow_transitions_witness :
  let st := ee_status (foldl alarm_op demo_enrollment demo_alarms) in
  es_state st = EsNormal ∧ (at_transition ToOffnormal (es_acked st) = false ↔ unacknowledged ToOffnormal demo_alarms) ∧
  at_transition ToOffnormal (es_timestamps st) = 10.
Proof.
  apply (acks_follow_transitions (H:=debug_build) (E:=unit) 7 (str "EE") EtOutOfRange demo_enrollment demo_alarms ToOffnormal). reflexivity.
Defined.

(* ------------------------------------------------------------------ *)
(** * Acknowledging from the network *)

Definition acknowledge_request (process : Z) (id : ObjectId) (s : EventState) (ts : Z) (source : list Z) (ack_time : Z) : list Z :=
  encode_context_unsigned 0 process ++ encode_context_object_identifier 1 id ++ encode_context_enumerated 2 (EventState_as_u32 s)
  ++ encode_context_unsigned 3 ts ++ encode_context_character_string 4 source ++ encode_context_unsigned 5 ack_time.

Lemma or_error_ok {A} (d : Dec A) l a l' : d l = (Ok a, l') → or_error d l = (Ok a, l').
Proof. intros Hd. unfold or_error, st_map_err. by rewrite Hd. Qed.
Lemma tagged_ok {A} (d : Z → ADec A) tn len l a l' :
  0 <= tn < 15 → 0 <= len < 4294967296 → d len l = (Ok a, l') → tagged d (encode_context_tag tn len ++ l) = (Ok a, l').
Proof. intros Ht Hl Hd. unfold tagged. erewrite st_bind_ok by (by apply or_error_ok, context_tag_roundtrip). done. Qed.
Lemma acked_unsigned_ok tn x rest :
  0 <= tn < 15 → is_u32 x → tagged (fun len => or_error (decode_unsigned len)) (encode_context_unsigned tn x ++ rest) = (Ok x, rest).
Proof.
  intros Ht Hx. destruct (unsigned_bytes_ok x) as [_ Hl]. unfold encode_context_unsigned. rewrite <- app_assoc.
  apply tagged_ok; [done|lia|]. apply or_error_ok, decode_unsigned_ok. by apply unsigned_bytes_roundtrip.
Qed.
Lemma acknowledge_decoded process id s ts source ack_time :
  is_u32 process → object_id_ok id → is_u32 ts → zlen source + 1 < 4294967296 → utf8_valid source = true → is_u32 ack_time →
  AcknowledgeAlarmRequest_decode (acknowledge_request process id s ts source ack_time) =
  Ok {| aa_process_id := process; aa_event_object_id := id; aa_event_state := s; aa_time_stamp := ts; aa_source := source;
        aa_time_of_acknowledgment := ack_time |}.
Proof.
  intros Hp Hid Hts Hsrc Hu Hat. unfold AcknowledgeAlarmRequest_decode, acknowledge_request.
  erewrite st_bind_ok by (apply acked_unsigned_ok; [lia|done]).
  erewrite st_bind_ok; [|unfold encode_context_object_identifier; rewrite <- app_assoc; apply tagged_ok; [lia..|];
    cbn [Z.eqb Pos.eqb negb]; by apply or_error_ok, decode_object_identifier_ok].
  erewrite st_bind_ok.
  2: { unfold encode_context_enumerated. rewrite <- app_assoc. destruct (context_enumerated_roundtrip (EventState_as_u32 s)) as [Hc Hl]; [by destruct s|].
       apply tagged_ok; [lia|lia|]. by apply or_error_ok, decode_unsigned_ok. }
  erewrite st_bind_ok by (apply acked_unsigned_ok; [lia|done]).
  erewrite st_bind_ok.
  2: { unfold encode_context_character_string. rewrite <- app_assoc. pose proof (zlen_nonneg source). apply tagged_ok; [lia..|].
       by apply or_error_ok, decode_character_string_ok. }
  rewrite (st_bind_ok _ _ _ false (encode_context_unsigned 5 ack_time)).
  2: { apply or_error_ok. unfold dec_is_empty, encode_context_unsigned, encode_context_tag. by destruct (zlen _ <? 5). }
  rewrite <- (app_nil_r (encode_context_unsigned 5 ack_time)). erewrite st_bind_ok by (apply acked_unsigned_ok; [lia|done]).
  by destruct s.
Qed.

Section acknowledged.
Context {O : Type} `{BACnetObject O} `{!EnrollmentCast O} `{!EnrollmentCastLaws O} (services : ServiceRegistry O).
Context (Hregistered : confirmed_handlers services !! 0 = Some AcknowledgeAlarmHandler).

(** An AcknowledgeAlarm request, as octets through the dispatch, is answered with a simple
    acknowledgement, marks the transition into the state it names as acknowledged on the enrollment it
    names, and changes nothing else: neither the other transitions nor any other object. The timestamp it
    carries plays no part: a stale one acknowledges too. *)
Theorem alarm_acknowledged s id o e process st ts source ack_time ctx :
  get s id = Some o → downcast_enrollment o = Some e →
  is_u32 process → object_id_ok id → is_u32 ts → zlen source + 1 < 4294967296 → utf8_valid source = true → is_u32 ack_time →
  ∃ e', dispatch_confirmed services 0 (acknowledge_request process id st ts source ack_time) ctx s =
          (Ok SrSimpleAck, {| objects := <[id := upcast_enrollment e']> (objects s); names := names s; type_counts := type_counts s |}) ∧
        es_state (ee_status e') = es_state (ee_status e) ∧ es_timestamps (ee_status e') = es_timestamps (ee_status e) ∧
        (∀ t, at_transition t (es_acked (ee_status e')) = bool_decide (t = transition_of st) || at_transition t (es_acked (ee_status e))) ∧
        set_status (ee_status e) e' = e.
Proof.
  intros Ho Hd Hp Hid Hts Hsrc Hu Hat. unfold dispatch_confirmed. rewrite Hregistered. cbn [min_data_length AcknowledgeAlarmHandler handle].
  rewrite (proj2 (Z.ltb_ge _ 8)).
  2: { unfold acknowledge_request. rewrite !zlen_app. change (zlen (encode_context_object_identifier 1 id)) with 5.
       pose proof (zlen_nonneg (encode_context_unsigned 0 process)). pose proof (zlen_nonneg (encode_context_unsigned 3 ts)).
       pose proof (zlen_nonneg (encode_context_unsigned 5 ack_time)).
       assert (zlen (encode_context_enumerated 2 (EventState_as_u32 st)) = 2) as -> by by destruct st.
       unfold encode_context_character_string. rewrite zlen_app, zlen_cons. pose proof (zlen_nonneg source).
       pose proof (zlen_nonneg (encode_context_tag 4 (zlen source + 1))). lia. }
  unfold AcknowledgeAlarm_handle. rewrite acknowledge_decoded by done. cbn [aa_event_object_id aa_event_state]. rewrite Ho, Hd.
  replace (transition_name st) with (name_of (transition_of st)) by by destruct st. rewrite acknowledge_status.
  eexists. split; [reflexivity|]. cbn. split; [done|]. split; [done|]. split; [|by destruct e].
  intros t. rewrite at_set. by destruct t, (transition_of st).
Qed.
End acknowledged.
Definition alarm_registry : ObjectRegistry EventEnrollment := (register (transition_to EsHighLimit 10 demo_enrollment).2 ObjectRegistry_new).2.
Definition alarm_services : ServiceRegistry EventEnrollment := (register_confirmed AcknowledgeAlarmHandler ServiceRegistry_new).2.
Lemma alarm_acknowledged_witness :
  ∃ e', dispatch_confirmed alarm_services 0 (acknowledge_request 1 (ee_id demo_enrollment) EsHighLimit 99 (str "op") 12) (ServiceContext_new 1) alarm_registry =
          (Ok SrSimpleAck, {| objects := <[ee_id demo_enrollment := upcast_enrollment e']> (objects alarm_registry); names := names alarm_registry;
                              type_counts := type_counts alarm_registry |}) ∧
        es_state (ee_status e') = EsHighLimit ∧ es_timestamps (ee_status e') = Build_PerTransition 10 0 0 ∧
        (∀ t, at_transition t (es_acked (ee_status e')) =
              bool_decide (t = ToOffnormal) || at_transition t {| to_offnormal := false; to_fault := true; to_normal := true |}) ∧
        set_status {| es_state := EsHighLimit; es_acked := {| to_offnormal := false; to_fault := true; to_normal := true |};
                      es_timestamps := Build_PerTransition 10 0 0 |} e' = (transition_to EsHighLimit 10 demo_enrollment).2.
Proof.
  apply (alarm_acknowledged alarm_services eq_refl alarm_registry (ee_id demo_enrollment) (transition_to EsHighLimit 10 demo_enrollment).2
    (transition_to EsHighLimit 10 demo_enrollment).2 1 EsHighLimit 99 (str "op") 12 (ServiceContext_new 1)); try reflexivity; vm_compute;
    repeat split; (reflexivity || discriminate).
Defined.

(* ------------------------------------------------------------------ *)
(** * Event information in pages *)

Section pages.
Context {O : Type} `{BACnetObject O} `{!ObjectLaws O} (order : gmap ObjectId O → list (ObjectId * O)).
Context (Horder : ∀ m, order m ≡ₚ map_to_list m).
Implicit Types (s : ObjectRegistry O) (l : list O).

Lemma loop_found last c l : 0 <= c < 20 → event_loop true last c l = take (Z.to_nat (20 - c)) (filter (fun o => not_normal o) l).
Proof.
  revert c. induction l as [|o l IH]; intros c Hc; [by rewrite filter_nil, take_nil|]. cbn [event_loop negb]. rewrite filter_cons.
  destruct (not_normal o) eqn:Hn; [rewrite decide_True by done|rewrite decide_False by (cbn; auto)]; [|by apply IH].
  replace (Z.to_nat (20 - c)) with (S (Z.to_nat (20 - (c + 1)))) by lia. cbn [take]. f_equal.
  destruct (Z.leb_spec 20 (c + 1)); [|apply IH; lia]. replace (Z.to_nat (20 - (c + 1))) with 0%nat by lia. done.
Qed.
Lemma loop_skip pre o rest c :
  Forall (fun x => object_identifier x ≠ object_identifier o) pre →
  event_loop false (Some (object_identifier o)) c (pre ++ o :: rest) = event_loop true (Some (object_identifier o)) c rest.
Proof.
  induction 1 as [|x pre Hx _ IH]; cbn [app event_loop negb].
  - by rewrite bool_decide_eq_true_2.
  - rewrite bool_decide_eq_false_2 by congruence. apply IH.
Qed.
(** The last of the first [n] matching elements splits the list. *)
Lemma take_filter_split (p : O → bool) n l :
  (0 < n)%nat → length (take n (filter (fun o => p o) l)) = n →
  ∃ r1 x r2, l = r1 ++ x :: r2 ∧ take n (filter (fun o => p o) l) = filter (fun o => p o) r1 ++ [x] ∧
             filter (fun o => p o) l = take n (filter (fun o => p o) l) ++ filter (fun o => p o) r2.
Proof.
  revert n. induction l as [|o l IH]; intros n Hn Hl; [rewrite filter_nil, take_nil in Hl; cbn in Hl; lia|].
  rewrite filter_cons in *. destruct (p o) eqn:Hp.
  - rewrite decide_True in * by done. destruct n as [|n]; [lia|]. cbn [take length] in Hl. destruct n as [|n].
    + exists [], o, l. split; [reflexivity|]. split; reflexivity.
    + destruct (IH (S n)) as (r1 & x & r2 & -> & Ht & Hf); [lia|lia|]. exists (o :: r1), x, r2. split; [done|].
      rewrite filter_cons, decide_True by (by rewrite Hp). cbn [take app]. split; [by rewrite Ht|]. f_equal. exact Hf.
  - rewrite decide_False in * by (cbn; auto). destruct (IH n Hn Hl) as (r1 & x & r2 & -> & Ht & Hf). exists (o :: r1), x, r2.
    split; [done|]. rewrite filter_cons, decide_False by (rewrite Hp; cbn; auto). done.
Qed.

(** A client that asks for more events, naming the last object it got, as long as it is told there are. *)
Fixpoint event_pages (fuel : nat) (last_id : option ObjectId) s : option (list O) :=
  match fuel with
  | 0%nat => None
  | S fuel =>
      let page := event_page order last_id s in
      if more_events page then
        match last page with
        | Some o => app page <$> event_pages fuel (Some (object_identifier o)) s
        | None => None
        end
      else Some page
  end.

Lemma pages_from_object s fuel pre rest last_id :
  visited order s = pre ++ rest → NoDup (object_identifier <$> visited order s) →
  last_id = (object_identifier <$> last pre) → (length (filter (fun o => not_normal o) rest) < fuel)%nat →
  event_pages fuel last_id s = Some (filter (fun o => not_normal o) rest).
Proof.
  revert pre rest last_id. induction fuel as [|fuel IH]; intros pre rest last_id Hv Hnd Hlast Hf; [lia|].
  assert (event_page order last_id s = take 20 (filter (fun o => not_normal o) rest)) as Hpage.
  { unfold event_page. rewrite Hv. destruct pre as [|x pre _] using rev_ind.
    - subst last_id. cbn [last fmap option_fmap option_map is_some negb app]. by apply loop_found.
    - rewrite last_snoc in Hlast. subst last_id. cbn [fmap option_fmap option_map is_some negb]. rewrite <- app_assoc. cbn [app].
      rewrite loop_skip; [by apply loop_found|]. rewrite Hv, !fmap_app in Hnd. apply NoDup_app in Hnd as (Hnd & _ & _).
      apply NoDup_app in Hnd as (_ & Hd & _). apply Forall_forall. intros y Hy Heq. apply (Hd (object_identifier y)); [by apply list_elem_of_fmap_2|].
      rewrite Heq. cbn. set_solver. }
  cbn [event_pages]. rewrite Hpage. unfold more_events. destruct (Z.leb_spec 20 (zlen (take 20 (filter (fun o => not_normal o) rest)))) as [Hm|Hm].
  - destruct (take_filter_split (fun o => not_normal o) 20 rest) as (r1 & x & r2 & Hr & Ht & Hfl); [lia|rewrite length_take; unfold zlen in Hm; rewrite length_take in Hm; lia|].
    rewrite Ht, last_snoc. rewrite (IH (pre ++ r1 ++ [x]) r2).
    + cbn. f_equal. rewrite Hfl. by rewrite Ht.
    + rewrite Hv, Hr. by rewrite <- !app_assoc.
    + done.
    + by rewrite app_assoc, last_snoc.
    + rewrite Hfl, Ht, !length_app in Hf. cbn in Hf. lia.
  - f_equal. apply take_ge. unfold zlen in Hm. rewrite length_take in Hm. lia.
Qed.

(** C31: Reading event information page by page, with nothing changing in between, returns every object that
    is not in its normal state exactly once, whatever order the registry visits its objects in. *)
Theorem event_pages_complete s :
  registry_ok s →
  ∃ l, event_pages (S (size (objects s))) None s = Some l ∧ NoDup (object_identifier <$> l) ∧
       ∀ o, o ∈ l ↔ get s (object_identifier o) = Some o ∧ not_normal o = true.
Proof.
  intros Hok. assert (∀ id o, (id, o) ∈ order (objects s) ↔ get s id = Some o) as Hin by (intros; rewrite Horder; apply elem_of_map_to_list).
  assert (object_identifier <$> visited order s = (order (objects s)).*1) as Hids.
  { unfold visited. rewrite <- list_fmap_compose. apply list_fmap_ext. intros i [id o] Hi. cbn. apply list_elem_of_lookup_2 in Hi.
    apply Hin in Hi. by destruct (rk_objects _ Hok id o Hi). }
  assert (NoDup (object_identifier <$> visited order s)) as Hnd.
  { rewrite Hids, Horder. apply NoDup_fst_map_to_list. }
  exists (filter (fun o => not_normal o) (visited order s)). split; [|split].
  - apply (pages_from_object s _ [] (visited order s)); [done..|].
    pose proof (length_filter (fun o => not_normal o) (visited order s)). unfold visited in *. rewrite length_fmap in *.
    assert (length (order (objects s)) = size (objects s)) as Hl by (rewrite Horder; apply length_map_to_list). unfold visited. lia.
  - eapply sublist_NoDup; [exact Hnd|]. apply fmap_sublist, sublist_filter.
  - intros o. rewrite list_elem_of_filter. unfold visited. rewrite list_elem_of_fmap. split.
    + intros [Hn%Is_true_eq_true ([id o'] & -> & Hi%Hin)]. cbn in *. destruct (rk_objects _ Hok id o' Hi) as [<- _]. done.
    + intros [Hg Hn]. split; [by rewrite Hn|]. exists (object_identifier o, o). split; [done|]. by apply Hin.
Qed.
End pages.
Lemma alarm_registry_ok : registry_ok alarm_registry.
Proof.
  unfold alarm_registry. apply register_ok; [|exact I]. split; [done|done|]. intros t. by destruct t.
Qed.
Lemma event_pages_complete_witness :
  ∃ l, event_pages map_to_list (S (size (objects alarm_registry))) None alarm_registry = Some l ∧ NoDup (object_identifier <$> l) ∧
       ∀ o, o ∈ l ↔ get alarm_registry (object_identifier o) = Some o ∧ not_normal o = true.
Proof. apply (event_pages_complete map_to_list); [done|apply alarm_registry_ok]. Defined.

(** The handler answers a request that names the last object received with the page after it. *)
Lemma event_information_page {O} `{BACnetObject O} (order : gmap ObjectId O → list (ObjectId * O)) id ctx s :
  object_id_ok id →
  GetEventInformation_handle order (encode_context_object_identifier 0 id) ctx s =
  (Ok (SrComplexAck (encode_event_page (event_page order (Some id) s))), s) ∧
  GetEventInformation_handle order [] ctx s = (Ok (SrComplexAck (encode_event_page (event_page order None s))), s).
Proof.
  intros Hid. split; [|done]. unfold GetEventInformation_handle, last_received, encode_context_object_identifier.
  change (encode_context_tag 0 4) with [0x0C]. cbn [app]. change (decode_tag_info (0x0C :: ?l)) with (decode_tag_info (encode_context_tag 0 4 ++ l)).
  rewrite context_tag_roundtrip by lia. cbn [Z.eqb Pos.eqb].
  rewrite <- (app_nil_r (u32_to_be (ObjectId_encode id))), decode_object_identifier_ok by done. done.
Qed.

(** With exactly twenty objects off normal the one page that holds them all says that more follow. *)
Definition many_alarms (n : nat) : list EventEnrollment := replicate n (transition_to EsHighLimit 10 demo_enrollment).2.
Example twenty_say_more : more_events (event_loop true None 0 (many_alarms 20)) = true ∧ more_events (event_loop true None 0 (many_alarms 19)) = false.
Proof. split; vm_compute; reflexivity. Qed.
