(* ===== verification/BacnetCreate.v ===== *)
(** Creating and deleting objects ([mabi-bacnet/src/service/create_delete.rs]): the object factory,
    CreateObject and DeleteObject, over any objects and for the objects of this library.

    A constructor of the factory is a function pointer: it may panic, as the constructors do on an
    instance number out of range. *)

From stdpp Require Import pretty.
From S2P Require Import Prelude BacnetNet BacnetValue BacnetApdu BacnetObject BacnetSchedule BacnetRegistry BacnetService BacnetTrendLog BacnetFile BacnetAlarm.
#[local] Open Scope Z_scope.

(* ------------------------------------------------------------------ *)
(** * All objects the factory makes *)

(** The types behind [ArcObject]. *)
Inductive AnyObject : Type :=
| AStandard (o : StandardObject) | ATrendLog (o : TrendLog) | AFile (o : FileObject) | AEnrollment (o : EventEnrollment)
| ANotificationClass (o : NotificationClass) | ASchedule (o : Schedule) | ACalendar (o : Calendar).

Section any.
Context `{BuildProfile}.

#[global] Instance any_object : BACnetObject AnyObject := {
  object_identifier a := match a with
    | AStandard o => object_identifier o | ATrendLog o => object_identifier o | AFile o => object_identifier o
    | AEnrollment o => object_identifier o | ANotificationClass o => object_identifier o | ASchedule o => object_identifier o
    | ACalendar o => object_identifier o end;
  object_name a := match a with
    | AStandard o => object_name o | ATrendLog o => object_name o | AFile o => object_name o
    | AEnrollment o => object_name o | ANotificationClass o => object_name o | ASchedule o => object_name o
    | ACalendar o => object_name o end;
  read_property a := match a with
    | AStandard o => read_property o | ATrendLog o => read_property o | AFile o => read_property o
    | AEnrollment o => read_property o | ANotificationClass o => read_property o | ASchedule o => read_property o
    | ACalendar o => read_property o end;
  write_property k v a := match a with
    | AStandard o => within AStandard (write_property k v) o | ATrendLog o => within ATrendLog (write_property k v) o
    | AFile o => within AFile (write_property k v) o | AEnrollment o => within AEnrollment (write_property k v) o
    | ANotificationClass o => within ANotificationClass (write_property k v) o
    | ASchedule o => within ASchedule (write_property k v) o | ACalendar o => within ACalendar (write_property k v) o end;
  list_properties a := match a with
    | AStandard o => list_properties o | ATrendLog o => list_properties o | AFile o => list_properties o
    | AEnrollment o => list_properties o | ANotificationClass o => list_properties o | ASchedule o => list_properties o
    | ACalendar o => list_properties o end;
  object_status_flags a := match a with
    | AStandard o => object_status_flags o | ATrendLog o => object_status_flags o | AFile o => object_status_flags o
    | AEnrollment o => object_status_flags o | ANotificationClass o => object_status_flags o | ASchedule o => object_status_flags o
    | ACalendar o => object_status_flags o end
}.

(** A write inside a constructor does what the write does. *)
Lemma within_result {S A B E} (f : S → B) (m : stM S E A) s : within f m s = ((m s).1, f (m s).2).
Proof. unfold within. by destruct (m s). Qed.
#[global] Instance any_laws : ObjectLaws AnyObject.
Proof.
  exists (fun a => match a with
    | AStandard o => object_ok o | ATrendLog o => object_ok o | AFile o => object_ok o | AEnrollment o => object_ok o
    | ANotificationClass o => object_ok o | ASchedule o => object_ok o | ACalendar o => object_ok o end).
  - intros k v [o|o|o|o|o|o|o]; cbn [write_property any_object]; rewrite within_result; exact (write_identity k v o).
  - intros k v [o|o|o|o|o|o|o] e; cbn [write_property any_object]; rewrite within_result; cbn [fst snd]; intros He; f_equal; exact (write_refused k v o e He).
  - intros k v [o|o|o|o|o|o|o] Ho; cbn [write_property any_object]; rewrite within_result; exact (write_ok k v o Ho).
  - intros [o|o|o|o|o|o|o] k; exact (read_no_panic o k).
Defined.

#[global] Instance any_file_cast : FileCast AnyObject := {
  downcast_file_object a := match a with AFile o => Some o | _ => None end; upcast_file_object := AFile }.
#[global] Instance any_file_cast_laws : FileCastLaws AnyObject.
Proof. by constructor. Qed.
#[global] Instance any_enrollment_cast : EnrollmentCast AnyObject := {
  downcast_enrollment a := match a with AEnrollment o => Some o | _ => None end; upcast_enrollment := AEnrollment }.
#[global] Instance any_enrollment_cast_laws : EnrollmentCastLaws AnyObject.
Proof. by constructor. Qed.

(* ------------------------------------------------------------------ *)
(** * The object factory *)

Definition Constructor (O : Type) : Type := Z → list Z → outcome Empty_set O.
Definition ObjectFactory (O : Type) : Type := gmap ObjectType (Constructor O).
Definition ObjectFactory_new {O} : ObjectFactory O := ∅.
Definition factory_register {O} (t : ObjectType) (c : Constructor O) (f : ObjectFactory O) : ObjectFactory O := <[t := c]> f.
Definition supports {O} (f : ObjectFactory O) (t : ObjectType) : bool := is_some (f !! t).
Definition factory_create {O} (f : ObjectFactory O) (t : ObjectType) (inst : Z) (name : list Z) : option (outcome Empty_set O) :=
  (fun c : Constructor O => c inst name) <$> f !! t.

Definition default_constructors : list (ObjectType * Constructor AnyObject) :=
  let std {A} (f : A → StandardObject) (r : outcome Empty_set A) := omap_ok (fun o => AStandard (f o)) r in
  [(OtAnalogInput, fun i n => std SAnalogInput (AnalogInput_new i n));
   (OtAnalogOutput, fun i n => std SAnalogOutput (AnalogOutput_new i n));
   (OtAnalogValue, fun i n => std SAnalogValue (AnalogValue_new i n));
   (OtBinaryInput, fun i n => std SBinaryInput (BinaryInput_new i n));
   (OtBinaryOutput, fun i n => std SBinaryOutput (BinaryOutput_new i n));
   (OtBinaryValue, fun i n => std SBinaryValue (BinaryValue_new i n));
   (OtMultiStateInput, fun i n => std SMultiStateInput (MultiStateInput_new i n 4));
   (OtMultiStateOutput, fun i n => std SMultiStateOutput (MultiStateOutput_new i n 4));
   (OtMultiStateValue, fun i n => std SMultiStateValue (MultiStateValue_new i n 4));
   (OtTrendLog, fun i n => omap_ok ATrendLog (TrendLog_new i n 1000));
   (OtFile, fun i n => omap_ok AFile (File_new i n));
   (OtEventEnrollment, fun i n => omap_ok AEnrollment (EventEnrollment_new i n EtChangeOfValue));
   (OtNotificationClass, fun i n => omap_ok ANotificationClass (NotificationClass_new i n));
   (OtSchedule, fun i n => omap_ok ASchedule (Schedule_new i n));
   (OtCalendar, fun i n => omap_ok ACalendar (Calendar_new i n))].
Definition default_object_factory : ObjectFactory AnyObject :=
  foldl (fun f p => factory_register p.1 p.2 f) ObjectFactory_new default_constructors.
End any.

(* ------------------------------------------------------------------ *)
(** * Requests *)

Record CreateObjectRequest : Type := {
  cr_object_type : ObjectType; cr_object_instance : option Z; cr_object_name : option (list Z);
  cr_initial_values : list (PropertyId * BACnetValue) }.

Definition opening (t : Z) : FDec bool := or_text (is_opening_tag t).
Definition closing (t : Z) : FDec bool := or_text (is_closing_tag t).
(** [decoder.read_u8().map_err(..)?] *)
Definition skip_octet : FDec unit := do? _ := or_text read_u8 in st_ret tt.
(** [if !decoder.is_opening_tag(t) { return Err(..) }] and the octet skipped. *)
Definition expect_opening (t : Z) : FDec unit := do? o := opening t in if o then skip_octet else st_err tt.
Definition expect_closing (t : Z) : FDec unit := do? c := closing t in if c then skip_octet else st_err tt.

(** The fuel bounds the octets left; [depth] counts at most as many. *)
Fixpoint skip_to_closing_tag (fuel : nat) (tag : Z) (depth : nat) : FDec unit := fun d =>
  match d with
  | [] => (Err tt, d)
  | byte :: rest =>
      match fuel with
      | 0%nat => (Panic, d)
      | S fuel =>
          (do? c := closing tag in
           if (depth =? 0)%nat && c then st_ret tt
           else if Z.land byte 0x0F =? 0x0E then do? _ := skip_octet in skip_to_closing_tag fuel tag (S depth)
           else if Z.land byte 0x0F =? 0x0F then do? _ := skip_octet in skip_to_closing_tag fuel tag (pred depth)
           else
             do? t := or_text decode_tag_info in
             let '(_, _, len) := t in
             do? _ := (fun d => if 0 <? len then (Ok tt, (read_bytes len d).2) else (Ok tt, d)) in
             skip_to_closing_tag fuel tag depth) d
      end
  end.

(** The bits of the data octets without the unused ones; more unused bits than bits underflow, or
    ask for more capacity than there is. *)
Definition value_bits (bytes : list Z) : outcome unit (list bool) :=
  match bytes with
  | [] => Ok []
  | unused :: data =>
      if zlen data * 8 <? unused then Panic
      else Ok (take (Z.to_nat (zlen data * 8 - unused)) (data ≫= byte_bits 8))
  end.
Definition decode_application_value : FDec BACnetValue :=
  do? t := or_text decode_tag_info in
  let '(tag_number, is_context, len) := t in
  if is_context then st_map VUnsigned (or_text (decode_unsigned len))
  else match tag_number with
  | 0 => st_ret VNull
  | 1 => st_ret (VBoolean (negb (len =? 0)))
  | 2 => st_map VUnsigned (or_text (decode_unsigned len))
  | 3 => st_map (fun x => VSigned (to_i32 x)) (or_text (decode_unsigned len))
  | 4 => if negb (len =? 4) then st_err tt else do? bytes := or_text (read_bytes 4) in st_map VReal (st_lift (be32 bytes))
  | 5 => if negb (len =? 8) then st_err tt else do? bytes := or_text (read_bytes 8) in st_map VDouble (st_lift (be64 bytes))
  | 7 => st_map VCharacterString (or_text (decode_character_string len))
  | 8 => do? bytes := or_text (read_bytes len) in st_map VBitString (st_lift (value_bits bytes))
  | 9 => st_map VEnumerated (or_text (decode_unsigned len))
  | 12 => st_map VObjectIdentifier (or_text decode_object_identifier)
  | _ => fun d => (Ok VNull, (read_bytes len d).2)
  end.

(** An array index, read and forgotten, if there is one. *)
Definition skip_array_index : FDec unit := fun d =>
  match d with
  | peek :: _ =>
      if (Z.land (Z.shiftr peek 4) 0x0F =? 1) && negb (Z.land peek 0x08 =? 0) then
        (do? t := or_text decode_tag_info in let '(_, _, len) := t in fun d => (Ok tt, (decode_unsigned len d).2)) d
      else (Ok tt, d)
  | [] => (Ok tt, d)
  end.
(** The value of a property with an unknown number. *)
Definition skip_value : FDec unit :=
  do? o := opening 2 in
  if o then do? _ := skip_octet in do? _ := (fun d => skip_to_closing_tag (length d) 2 0 d) in skip_octet else st_ret tt.
Definition Values : Type := option (list Z) * list (PropertyId * BACnetValue).
Definition decode_initial_value (acc : Values) : FDec Values :=
  do? t := or_text decode_tag_info in
  let '(_, _, len) := t in
  do? prop_val := or_text (decode_unsigned len) in
  match PropertyId_from_u32 prop_val with
  | None => do? _ := skip_array_index in do? _ := skip_value in st_ret acc
  | Some property_id =>
      do? _ := skip_array_index in
      do? _ := expect_opening 2 in
      do? value := decode_application_value in
      do? _ := expect_closing 2 in
      st_ret (match property_id, value with PiObjectName, VCharacterString s => Some s | _, _ => acc.1 end, acc.2 ++ [(property_id, value)])
  end.
Fixpoint decode_initial_values (fuel : nat) (acc : Values) : FDec Values := fun d =>
  match d with
  | [] => (Ok acc, d)
  | _ =>
      match fuel with
      | 0%nat => (Panic, d)
      | S fuel =>
          (do? c := closing 1 in
           if c then st_ret acc else do? acc' := decode_initial_value acc in decode_initial_values fuel acc') d
      end
  end.
Definition decode_specifier : FDec (ObjectType * option Z) :=
  do? _ := expect_opening 0 in
  do? peek := or_text peek in
  do? peek := st_lift (ok_or peek tt) in
  let context_tag := Z.land (Z.shiftr peek 4) 0x0F in
  do? r :=
    (if context_tag =? 0 then
       do? t := or_text decode_tag_info in
       let '(_, _, len) := t in
       do? type_val := or_text (decode_unsigned len) in
       do? obj_type := st_lift (ok_or (ObjectType_from_u16 (as_u16 type_val)) tt) in
       st_ret (obj_type, None)
     else if context_tag =? 1 then
       do? _ := or_text decode_tag_info in
       do? obj_id := or_text decode_object_identifier in
       st_ret (object_type obj_id, Some (instance obj_id))
     else st_err tt) in
  do? _ := expect_closing 0 in
  st_ret r.
Definition decode_create_object_request (data : list Z) : outcome unit CreateObjectRequest :=
  fst ((do? spec := decode_specifier in
        do? o := opening 1 in
        do? values :=
          (if o then
             do? _ := skip_octet in
             do? values := (fun d => decode_initial_values (length d) (None, []) d) in
             do? _ := expect_closing 1 in
             st_ret values
           else st_ret (None, [])) in
        st_ret {| cr_object_type := spec.1; cr_object_instance := spec.2; cr_object_name := values.1; cr_initial_values := values.2 |}) data).
Definition decode_delete_object_request (data : list Z) : outcome unit ObjectId :=
  fst ((do? _ := or_text decode_tag_info in or_text decode_object_identifier) data).

(* ------------------------------------------------------------------ *)
(** * The services *)

Definition encode_create_object_ack (id : ObjectId) : list Z := encode_object_identifier id.
Definition object_type_prefix (t : ObjectType) : list Z :=
  match t with
  | OtAnalogInput => str "AI" | OtAnalogOutput => str "AO" | OtAnalogValue => str "AV" | OtBinaryInput => str "BI"
  | OtBinaryOutput => str "BO" | OtBinaryValue => str "BV" | OtMultiStateInput => str "MSI" | OtMultiStateOutput => str "MSO"
  | OtMultiStateValue => str "MSV" | OtTrendLog => str "TL" | OtFile => str "FILE" | OtEventEnrollment => str "EE"
  | OtNotificationClass => str "NC" | OtSchedule => str "SCHED" | OtCalendar => str "CAL" | _ => str "OBJ"
  end.

Section handlers.
Context `{BuildProfile} {O : Type} `{BACnetObject O}.

(** Writes the initial values, whatever becomes of each write. *)
Fixpoint apply_initial_values (values : list (PropertyId * BACnetValue)) (o : O) : outcome Empty_set O :=
  match values with
  | [] => Ok o
  | (k, v) :: values =>
      if bool_decide (k = PiObjectName) || bool_decide (k = PiObjectIdentifier) then apply_initial_values values o
      else
        match write_property k v o with
        | (Panic, _) => Panic
        | (_, o') => apply_initial_values values o'
        end
  end.
Definition object_error (c : ErrorCode) : ServiceResult := SrError EclObject c.
Definition choose_instance (r : CreateObjectRequest) (s : ObjectRegistry O) : outcome ServiceResult Z :=
  match cr_object_instance r with
  | Some inst =>
      let? id := ObjectId_new (cr_object_type r) inst in
      if contains s id then Err (object_error EcObjectIdentifierAlreadyExists) else Ok inst
  | None => ok_or (next_available_instance s (cr_object_type r)) (SrError EclResources EcNoSpaceForObject)
  end.
Definition choose_name (r : CreateObjectRequest) (inst : Z) (s : ObjectRegistry O) : outcome ServiceResult (list Z) :=
  match cr_object_name r with
  | Some n => if contains_name s n then Err (object_error EcDuplicateName) else Ok n
  | None => Ok (numbered (object_type_prefix (cr_object_type r)) inst)
  end.
(** The identifier and the object, before it is registered. *)
Definition build_created (factory : ObjectFactory O) (r : CreateObjectRequest) (s : ObjectRegistry O) : outcome ServiceResult (ObjectId * O) :=
  if negb (supports factory (cr_object_type r)) then Err (object_error EcUnsupportedObjectType)
  else
    let? inst := choose_instance r s in
    let? name := choose_name r inst s in
    let? created := ok_or (factory_create factory (cr_object_type r) inst name) (object_error EcUnsupportedObjectType) in
    let? o := map_err (fun e : Empty_set => match e with end) created in
    let? o' := map_err (fun e : Empty_set => match e with end) (apply_initial_values (cr_initial_values r) o) in
    Ok (object_identifier o, o').
Definition create_object (factory : ObjectFactory O) (r : CreateObjectRequest) : stM (ObjectRegistry O) ServiceResult ObjectId := fun s =>
  match build_created factory r s with
  | Ok (id, o) => (Ok id, (register o s).2)
  | Err e => (Err e, s)
  | Panic => (Panic, s)
  end.
Definition CreateObject_handle (factory : ObjectFactory O) : Handle (O:=O) := fun data _ s =>
  match decode_create_object_request data with
  | Panic => (Panic, s)
  | Err _ => (Ok missing_required_parameter, s)
  | Ok r =>
      match create_object factory r s with
      | (Ok id, s') => (Ok (SrComplexAck (encode_create_object_ack id)), s')
      | (Err result, s') => (Ok result, s')
      | (Panic, s') => (Panic, s')
      end
  end.
Definition CreateObjectHandler (factory : ObjectFactory O) : ConfirmedServiceHandler O :=
  {| service_choice := CsCreateObject; handle := CreateObject_handle factory; min_data_length := 4 |}.

Definition NON_DELETABLE_TYPES : list ObjectType := [OtDevice].
Definition DeleteObject_handle : Handle (O:=O) := fun data _ s =>
  match decode_delete_object_request data with
  | Panic => (Panic, s)
  | Err _ => (Ok missing_required_parameter, s)
  | Ok id =>
      if bool_decide (object_type id ∈ NON_DELETABLE_TYPES) then (Ok (object_error EcObjectDeletionNotPermitted), s)
      else if negb (contains s id) then (Ok unknown_object, s)
      else (Ok SrSimpleAck, (unregister id s).2)
  end.
Definition DeleteObjectHandler : ConfirmedServiceHandler O :=
  {| service_choice := CsDeleteObject; handle := DeleteObject_handle; min_data_length := 4 |}.
End handlers.

(* ------------------------------------------------------------------ *)
(** * What a factory promises *)

(** A constructor makes a well-formed object with the asked identity, and makes it for every legal
    instance number. *)
Record factory_ok {O} `{BACnetObject O} `{!ObjectLaws O} (factory : ObjectFactory O) : Prop := {
  fk_identity t c inst name o : factory !! t = Some c → c inst name = Ok o →
    object_identifier o = {| object_type := t; instance := inst |} ∧ object_name o = name ∧ object_ok o;
  fk_total t c inst name : factory !! t = Some c → inst <= MAX_INSTANCE → ∃ o, c inst name = Ok o }.

Lemma foldl_register_elem {O} (l : list (ObjectType * Constructor O)) f t c :
  foldl (fun f p => factory_register p.1 p.2 f) f l !! t = Some c → f !! t = Some c ∨ (t, c) ∈ l.
Proof.
  revert f. induction l as [|[t' c'] l IH]; intros f; cbn; [by left|]. intros [Hf|Hin]%IH; [|by right; right].
  unfold factory_register, ObjectFactory in *. cbn in Hf. apply lookup_insert_Some in Hf as [[-> ->]|[_ Hf]]; [right; left|by left].
Qed.
Lemma ObjectId_new_inv `{BuildProfile} {E} t i id : ObjectId_new (E:=E) t i = Ok id → id = {| object_type := t; instance := i |}.
Proof. unfold ObjectId_new. case_match; [done|]. by intros [= <-]. Qed.
Lemma ObjectId_new_legal `{BuildProfile} {E} t i : i <= MAX_INSTANCE → ObjectId_new (E:=E) t i = Ok {| object_type := t; instance := i |}.
Proof. intros Hi. unfold ObjectId_new. by rewrite (proj2 (Z.ltb_ge _ _)), andb_false_r. Qed.

Lemma default_factory_ok `{BuildProfile} : factory_ok default_object_factory.
Proof.
  assert (∀ t c, default_object_factory !! t = Some c → (t, c) ∈ default_constructors) as Hin.
  { intros t c [Hf|Hf]%foldl_register_elem; [|done]. unfold ObjectFactory_new in Hf. unfold ObjectFactory in *. by rewrite lookup_empty in Hf. }
  split.
  - intros t c inst name o Hc%Hin Ho. unfold default_constructors in Hc. cbv zeta in Hc.
    repeat (apply elem_of_cons in Hc as [[= -> ->]|Hc];
      [unfold AnalogInput_new, AnalogOutput_new, AnalogValue_new, BinaryInput_new, BinaryOutput_new, BinaryValue_new, MultiStateInput_new, MultiStateOutput_new,
         MultiStateValue_new, TrendLog_new, File_new, File_with_access_method, EventEnrollment_new, NotificationClass_new, Schedule_new, Calendar_new in Ho;
       destruct (ObjectId_new _ inst) as [id|e|] eqn:Hid in Ho; [apply ObjectId_new_inv in Hid as ->|done|done]; cbn in Ho; simplify_eq|]).
    16: by apply elem_of_nil in Hc.
    all: try (split; [reflexivity|split; [reflexivity|]]).
    all: try done.
    + split; [done|]. split; [done|]. split; [done|]. cbn. repeat constructor; done.
    + split; constructor.
    + destruct (ObjectId_new OtAnalogInput 0); cbn in Ho; by simplify_eq.
    + by intros [].
  - intros t c inst name Hc%Hin Hi. unfold default_constructors in Hc. cbv zeta in Hc.
    repeat (apply elem_of_cons in Hc as [[= -> ->]|Hc];
      [unfold AnalogInput_new, AnalogOutput_new, AnalogValue_new, BinaryInput_new, BinaryOutput_new, BinaryValue_new, MultiStateInput_new, MultiStateOutput_new,
         MultiStateValue_new, TrendLog_new, File_new, File_with_access_method, EventEnrollment_new, NotificationClass_new, Schedule_new, Calendar_new;
       rewrite !ObjectId_new_legal by (done || vm_compute; discriminate); by eexists|]). by apply elem_of_nil in Hc.
Qed.

(* ------------------------------------------------------------------ *)
(** * Creating *)

Section creating.
Context `{BuildProfile} {O : Type} `{BACnetObject O} `{!ObjectLaws O} (factory : ObjectFactory O) (Hfactory : factory_ok factory).
Implicit Types (s : ObjectRegistry O) (o : O) (r : CreateObjectRequest).

(** Initial values change neither the identity nor the well-formedness of an object, and none of
    them makes the handler panic. *)
Lemma apply_initial_ok values o : object_ok o →
  ∃ o', apply_initial_values values o = Ok o' ∧ object_identifier o' = object_identifier o ∧ object_name o' = object_name o ∧ object_ok o'.
Proof.
  revert o. induction values as [|[k v] values IH]; intros o Ho; cbn; [by exists o|]. case_match; [by apply IH|].
  destruct (write_ok k v o Ho) as [Hp Ho']. destruct (write_identity k v o) as [Hi Hn]. destruct (write_property k v o) as [[[]|e|] o'] eqn:Hw; cbn in *; [| |done].
  all: destruct (IH o' Ho') as (o2 & -> & Hi2 & Hn2 & Ho2); exists o2; split_and!; congruence || done.
Qed.
(** The instance chosen is free. *)
Lemma choose_instance_free r s inst : choose_instance r s = Ok inst → get s {| object_type := cr_object_type r; instance := inst |} = None.
Proof.
  unfold choose_instance. destruct (cr_object_instance r) as [i|].
  - destruct (ObjectId_new _ i) as [id|e|] eqn:Hid; [|done..]. apply ObjectId_new_inv in Hid as ->. cbn. unfold contains, get.
    case_match eqn:Hc; [done|]. intros [= <-]. by destruct (objects s !! _).
  - destruct (next_available_instance s _) as [n|] eqn:Hn; [|done]. intros [= <-]. by apply next_available_fresh in Hn as (_ & ? & _).
Qed.
Lemma build_created_spec r s id o : build_created factory r s = Ok (id, o) →
  object_identifier o = id ∧ object_ok o ∧ get s id = None ∧ object_type id = cr_object_type r ∧
  (∀ i, cr_object_instance r = Some i → instance id = i) ∧ choose_name r (instance id) s = Ok (object_name o).
Proof.
  unfold build_created. case_match; [done|]. destruct (choose_instance r s) as [inst|e|] eqn:Hinst; [|done..]. cbn [obind].
  destruct (choose_name r inst s) as [name|e|] eqn:Hname; [|done..]. cbn [obind]. unfold factory_create. destruct (factory !! cr_object_type r) as [c|] eqn:Hc; [|done].
  cbn [fmap option_fmap option_map ok_or obind]. destruct (c inst name) as [o1|[]|] eqn:Ho1; [|done]. cbn [map_err obind].
  destruct (fk_identity _ Hfactory _ _ _ _ _ Hc Ho1) as (Hid & Hn & Hok). destruct (apply_initial_ok (cr_initial_values r) o1 Hok) as (o2 & -> & Hid2 & Hn2 & Hok2).
  cbn [map_err obind]. intros [= <- <-]. rewrite Hid in *. split_and!; [done|done|by apply choose_instance_free|done| |by rewrite Hn2, Hn].
  intros i Hi. cbn. unfold choose_instance in Hinst. rewrite Hi in Hinst. destruct (ObjectId_new _ i); [|done..]. cbn in Hinst. case_match; by simplify_eq.
Qed.

Lemma build_refused r s e : build_created factory r s = Err e → ∃ c k, e = SrError c k.
Proof.
  unfold build_created. case_match; [intros [= <-]; by eexists _, _|]. destruct (choose_instance r s) as [inst|e'|] eqn:Hinst; [|intros [= <-]|done].
  2:{ unfold choose_instance in Hinst. destruct (cr_object_instance r); [destruct (ObjectId_new _ z) eqn:Hid; cbn in Hinst|destruct (next_available_instance _ _); cbn in Hinst];
        try case_match; simplify_eq; [by eexists _, _| |by eexists _, _]. unfold ObjectId_new in Hid. by case_match. }
  cbn [obind]. destruct (choose_name r inst s) as [name|e'|] eqn:Hname; [|intros [= <-]|done].
  2:{ unfold choose_name in Hname. repeat case_match; simplify_eq. by eexists _, _. }
  cbn [obind]. destruct (factory_create _ _ _ _) as [[o|[]|]|]; cbn [ok_or obind map_err]; [|done|intros [= <-]; by eexists _, _].
  destruct (apply_initial_values _ o) as [o'|[]|]; done.
Qed.

(** C38: Whatever octets arrive, CreateObject leaves the registry consistent and every object in it as it
    was. If it acknowledges, then with the identifier of exactly one new object, of a type the
    factory makes, under an identifier that was free, well-formed and found under its name; if it
    does not, nothing has changed. *)
Theorem create_object_safe data ctx s :
  registry_ok s →
  let '(res, s') := CreateObject_handle factory data ctx s in
  registry_ok s' ∧ (∀ id o, get s id = Some o → get s' id = Some o) ∧
  (s' = s ∧ (∀ bytes, res ≠ Ok (SrComplexAck bytes)) ∨
   ∃ o, res = Ok (SrComplexAck (encode_create_object_ack (object_identifier o))) ∧ get s (object_identifier o) = None ∧
     s' = (register o s).2 ∧ object_ok o ∧ supports factory (object_type (object_identifier o)) = true ∧ get_by_name s' (object_name o) = Some o).
Proof.
  intros Hs. unfold CreateObject_handle. destruct (decode_create_object_request data) as [r|e|]; [|by split; [|split; [|left]]..].
  unfold create_object. destruct (build_created factory r s) as [[id o]|e|] eqn:Hb.
  - pose proof (build_created_spec r s id o Hb) as (<- & Hok & Hfree & Ht & _ & _). destruct (register_spec o s) as (_ & Hg & Hn & Hother).
    split; [by apply register_ok|]. split.
    + intros id o' Ho'. rewrite Hother; [done|]. intros ->. congruence.
    + right. exists o. split_and!; try done. rewrite Ht. unfold build_created in Hb. destruct (supports _ _); [done|done].
  - split; [done|]. split; [done|]. left. split; [done|]. apply build_refused in Hb as (c & k & ->). by intros bytes [=].
  - by split; [|split; [|left]].
Qed.
End creating.

(* ------------------------------------------------------------------ *)
(** * Deleting *)

Section deleting.
Context {O : Type} `{BACnetObject O} `{!ObjectLaws O}.
Implicit Types (s : ObjectRegistry O).

(** Whatever octets arrive, DeleteObject answers; it removes at most the one object it was asked to,
    only when it acknowledges, never a device, and leaves the registry consistent. *)
Theorem delete_confined data ctx s :
  registry_ok s →
  ∃ res s', DeleteObject_handle data ctx s = (Ok res, s') ∧ registry_ok s' ∧
    (s' = s ∧ res ≠ SrSimpleAck ∨
     ∃ id, decode_delete_object_request data = Ok id ∧ res = SrSimpleAck ∧ object_type id ≠ OtDevice ∧ is_Some (get s id) ∧
       get s' id = None ∧ ∀ other, other ≠ id → get s' other = get s other).
Proof.
  intros Hs. unfold DeleteObject_handle. assert (decode_delete_object_request data ≠ Panic) as Hd.
  { unfold decode_delete_object_request. apply np_bind; [intros l; unfold or_text, st_map_err; pose proof (np_tag_info l); by destruct (decode_tag_info l) as [[]]|].
    intros _ l. unfold or_text, st_map_err. pose proof (np_object_identifier l). by destruct (decode_object_identifier l) as [[]]. }
  destruct (decode_delete_object_request data) as [id|e|]; [|eexists _, s; split; [done|]; split; [done|]; by left|done].
  case_bool_decide as Hdev; [eexists _, s; split; [done|]; split; [done|]; by left|]. unfold contains.
  destruct (objects s !! id) as [o|] eqn:Ho; cbn [is_some negb]; [|eexists _, s; split; [done|]; split; [done|]; by left].
  eexists _, _. split; [done|]. split; [by apply unregister_ok|]. right. exists id. split; [done|]. split; [done|]. split; [intros Ht; apply Hdev; rewrite Ht; by left|].
  unfold unregister. rewrite Ho. cbn. unfold get. rewrite Ho. split; [done|]. cbn. split; [apply lookup_delete_eq|]. intros. by rewrite lookup_delete_ne.
Qed.
End deleting.

(* ------------------------------------------------------------------ *)
(** * The requests on the wire *)

Inductive Specifier : Type := ByType (t : ObjectType) | ByIdentifier (id : ObjectId).
Definition spec_type (x : Specifier) : ObjectType := match x with ByType t => t | ByIdentifier id => object_type id end.
Definition spec_instance (x : Specifier) : option Z := match x with ByType _ => None | ByIdentifier id => Some (instance id) end.
Definition encode_specifier (x : Specifier) : list Z :=
  match x with ByType t => encode_context_enumerated 0 (ObjectType_as_u16 t) | ByIdentifier id => encode_context_object_identifier 1 id end.
Definition encode_initial (kv : PropertyId * BACnetValue) : list Z :=
  encode_context_enumerated 0 (PropertyId_as_u32 kv.1) ++ encode_opening_tag 2 ++ encode_value kv.2 ++ encode_closing_tag 2.
Definition create_request (x : Specifier) (values : list (PropertyId * BACnetValue)) : list Z :=
  encode_opening_tag 0 ++ encode_specifier x ++ encode_closing_tag 0 ++ encode_opening_tag 1 ++ (values ≫= encode_initial) ++ encode_closing_tag 1.
Definition delete_request (id : ObjectId) : list Z := encode_object_identifier id.

Definition spec_ok (x : Specifier) : Prop :=
  match x with ByType t => ObjectType_from_u16 (ObjectType_as_u16 t) = Some t | ByIdentifier id => object_id_ok id end.
(** The values this decoder returns as they were encoded, and the properties it knows. *)
Definition initial_ok (kv : PropertyId * BACnetValue) : Prop :=
  PropertyId_from_u32 (PropertyId_as_u32 kv.1) = Some kv.1 ∧ is_u32 (PropertyId_as_u32 kv.1) ∧
  value_ok kv.2 ∧ match kv.2 with VSigned _ | VOctetString _ | VBitString _ => False | _ => True end.
(** The name a list of initial values asks for. *)
Definition asked_name (values : list (PropertyId * BACnetValue)) : option (list Z) :=
  foldl (fun n kv => match kv with (PiObjectName, VCharacterString s) => Some s | _ => n end) None values.

Lemma application_value_ok v rest :
  value_ok v → match v with VSigned _ | VOctetString _ | VBitString _ => False | _ => True end →
  decode_application_value (encode_value v ++ rest) = (Ok v, rest).
Proof.
  assert (∀ x, is_u32 x → 0 <= zlen (unsigned_bytes x) < 4294967296) as Hul.
  { intros x Hx. pose proof (unsigned_bytes_ok x). lia. }
  unfold decode_application_value.
  destruct v as [|b|n| |n| |n|n|l|l|bits|n| | |o|l|l]; intros Hv Hk; cbn [value_ok] in Hv; try done; cbn [encode_value].
  - by destruct b.
  - unfold encode_unsigned. rewrite <- app_assoc. erewrite st_bind_ok by (apply or_text_ok, application_tag_roundtrip; auto). cbn beta iota.
    apply st_map_ok, or_text_ok, decode_unsigned_ok. by apply unsigned_bytes_roundtrip.
  - unfold encode_real. rewrite <- app_assoc. erewrite st_bind_ok by (by apply or_text_ok, application_tag_roundtrip). cbn [TagNumber_as_u8 negb Z.eqb Pos.eqb].
    erewrite st_bind_ok by (by apply or_text_ok, read_bytes_app). unfold st_map, st_lift. by rewrite be32_roundtrip.
  - unfold encode_double. rewrite <- app_assoc. erewrite st_bind_ok by (by apply or_text_ok, application_tag_roundtrip). cbn [TagNumber_as_u8 negb Z.eqb Pos.eqb].
    erewrite st_bind_ok by (by apply or_text_ok, read_bytes_app). unfold st_map, st_lift. by rewrite be64_roundtrip.
  - unfold encode_character_string. rewrite <- app_assoc. pose proof (zlen_nonneg l). destruct Hv as [Hu Hl].
    erewrite st_bind_ok by (apply or_text_ok, application_tag_roundtrip; lia). cbn beta iota. apply st_map_ok, or_text_ok. by apply decode_character_string_ok.
  - unfold encode_enumerated. rewrite <- app_assoc. erewrite st_bind_ok by (apply or_text_ok, application_tag_roundtrip; auto). cbn beta iota.
    apply st_map_ok, or_text_ok, decode_unsigned_ok. by apply unsigned_bytes_roundtrip.
  - unfold encode_object_identifier. rewrite <- app_assoc. erewrite st_bind_ok by (by apply or_text_ok, application_tag_roundtrip). cbn beta iota.
    apply st_map_ok, or_text_ok. by apply decode_object_identifier_ok.
Qed.
Lemma context_enumerated_ok tn x rest {A} (k : Z → FDec A) : 0 <= tn < 15 → is_u32 x →
  (do? t := or_text decode_tag_info in let '(_, _, len) := t in do? v := or_text (decode_unsigned len) in k v) (encode_context_enumerated tn x ++ rest) = k x rest.
Proof.
  intros Ht Hx. unfold encode_context_enumerated. rewrite <- app_assoc. destruct (context_enumerated_roundtrip x Hx) as [Hr Hl].
  erewrite st_bind_ok by (apply or_text_ok, context_tag_roundtrip; lia). cbn beta iota. erewrite st_bind_ok by (apply or_text_ok; by apply decode_unsigned_ok). done.
Qed.

Lemma initial_value_ok kv acc rest : initial_ok kv →
  decode_initial_value acc (encode_initial kv ++ rest) =
  (Ok (match kv with (PiObjectName, VCharacterString s) => Some s | _ => acc.1 end, acc.2 ++ [kv]), rest).
Proof.
  destruct kv as [p v]. intros (Hp & Hu & Hv & Hk). cbn [fst snd] in *. unfold encode_initial. cbn [fst snd]. rewrite <- !app_assoc. unfold decode_initial_value.
  rewrite (context_enumerated_ok 0 (PropertyId_as_u32 p) _ (fun prop_val => match PropertyId_from_u32 prop_val with None => _ | Some property_id => _ end)) by (lia || done).
  rewrite Hp. change (encode_opening_tag 2) with [0x2E]. change (encode_closing_tag 2) with [0x2F]. cbn [app].
  erewrite st_bind_ok by reflexivity. rewrite (st_bind_ok _ _ _ tt (encode_value v ++ 0x2F :: rest)) by reflexivity.
  erewrite st_bind_ok by by apply application_value_ok. rewrite (st_bind_ok _ _ _ tt rest) by reflexivity. by destruct p, v.
Qed.
Lemma encode_initial_head kv : ∃ b l, encode_initial kv = b :: l ∧ b ≠ 0x1F.
Proof.
  unfold encode_initial, encode_context_enumerated. set (bytes := context_enumerated_bytes _).
  assert (zlen bytes <= 4) by (unfold bytes, context_enumerated_bytes; repeat case_match; vm_compute; discriminate). pose proof (zlen_nonneg bytes).
  unfold encode_context_tag. cbn [Z.ltb]. change (0 <? 15) with true. cbv iota. rewrite (proj2 (Z.ltb_lt (zlen bytes) 5)) by lia. eexists _, _. split; [reflexivity|].
  assert (zlen bytes = 0 ∨ zlen bytes = 1 ∨ zlen bytes = 2 ∨ zlen bytes = 3 ∨ zlen bytes = 4) as Hl by lia. by destruct Hl as [->|[->|[->|[->| ->]]]].
Qed.
Lemma initial_values_ok values fuel acc (rest : list Z) : Forall initial_ok values → (length ((values ≫= encode_initial) ++ 0x1F%Z :: rest) ≤ fuel)%nat →
  decode_initial_values fuel acc ((values ≫= encode_initial) ++ 0x1F :: rest) =
  (Ok (foldl (fun n kv => match kv with (PiObjectName, VCharacterString s) => Some s | _ => n end) acc.1 values, acc.2 ++ values), 0x1F :: rest).
Proof.
  intros Hv. revert fuel acc. induction Hv as [|kv values Hkv _ IH]; intros fuel acc Hf; cbn [mbind list_bind foldl app] in *.
  - destruct fuel; [cbn in Hf; lia|]. rewrite app_nil_r. by destruct acc.
  - change (list_bind _ _ encode_initial values) with (values ≫= encode_initial) in *. rewrite <- app_assoc in *.
    destruct (encode_initial_head kv) as (b & l & Hb & Hne). destruct fuel as [|fuel]; [rewrite Hb in Hf; cbn in Hf; lia|]. cbn [decode_initial_values].
    rewrite Hb. cbn [app]. rewrite (st_bind_ok _ _ _ false (b :: l ++ (values ≫= encode_initial) ++ 0x1F :: rest)).
    2:{ unfold closing, or_text, st_map_err, is_closing_tag. cbn [head map_err]. change (1 <? 15) with true. change (Z.lor (as_u8 (Z.shiftl 1 4)) 0x0F) with 0x1F. by rewrite (proj2 (Z.eqb_neq b 0x1F)). }
    change (b :: l ++ (values ≫= encode_initial) ++ 0x1F :: rest) with ((b :: l) ++ (values ≫= encode_initial) ++ 0x1F :: rest). rewrite <- Hb.
    erewrite st_bind_ok by by apply initial_value_ok. rewrite IH.
    + cbn [fst snd]. by rewrite <- app_assoc.
    + rewrite Hb in Hf. rewrite length_app in Hf. cbn in Hf |- *. lia.
Qed.
Lemma specifier_ok x rest : spec_ok x →
  decode_specifier (encode_opening_tag 0 ++ encode_specifier x ++ encode_closing_tag 0 ++ rest) = (Ok (spec_type x, spec_instance x), rest).
Proof.
  intros Hx. change (encode_opening_tag 0) with [0x0E]. change (encode_closing_tag 0) with [0x0F]. cbn [app]. unfold decode_specifier.
  rewrite (st_bind_ok _ _ _ tt (encode_specifier x ++ 0x0F :: rest)) by reflexivity.
  destruct x as [t|id]; cbn [encode_specifier spec_type spec_instance spec_ok] in *.
  - assert (is_u32 (ObjectType_as_u16 t)) as Hu by (pose proof (ObjectType_range t); unfold is_u32; lia).
    assert (∃ b l, encode_context_enumerated 0 (ObjectType_as_u16 t) ++ 0x0F :: rest = b :: l ∧ Z.land (Z.shiftr b 4) 0x0F = 0) as (b & l & Hb & Hbit).
    { unfold encode_context_enumerated. destruct (context_enumerated_roundtrip _ Hu) as [_ Hl]. set (bytes := context_enumerated_bytes _) in *.
      unfold encode_context_tag. change (0 <? 15) with true. cbv iota. rewrite (proj2 (Z.ltb_lt (zlen bytes) 5)) by lia. eexists _, _. split; [reflexivity|].
      assert (zlen bytes = 1 ∨ zlen bytes = 2 ∨ zlen bytes = 3 ∨ zlen bytes = 4) as Hz by lia. by destruct Hz as [->|[->|[->| ->]]]. }
    rewrite (st_bind_ok _ _ _ (Some b) (b :: l)) by (by rewrite Hb). rewrite (st_bind_ok _ _ _ b (b :: l)) by reflexivity. rewrite Hbit. cbv beta iota. rewrite <- Hb.
    rewrite (st_bind_ok _ _ _ (t, None) (0x0F :: rest)); [done|]. change (0 =? 0) with true. cbv iota.
    rewrite (context_enumerated_ok 0 (ObjectType_as_u16 t) _ (fun v => do? obj_type := st_lift (ok_or (ObjectType_from_u16 (as_u16 v)) tt) in st_ret (obj_type, None))) by (lia || done).
    rewrite as_u16_id by (pose proof (ObjectType_range t); unfold is_u16; lia). rewrite Hx. reflexivity.
  - unfold encode_context_object_identifier. change (encode_context_tag 1 4) with [0x1C]. rewrite <- !app_assoc. cbn [app].
    set (l := u32_to_be (ObjectId_encode id) ++ 0x0F :: rest).
    rewrite (st_bind_ok _ _ _ (Some 0x1C) (0x1C :: l)) by reflexivity. rewrite (st_bind_ok _ _ _ 0x1C (0x1C :: l)) by reflexivity.
    change (Z.land (Z.shiftr 0x1C 4) 0x0F) with 1. cbv beta iota zeta. change (1 =? 0) with false. change (1 =? 1) with true. cbv iota.
    rewrite (st_bind_ok _ _ _ (object_type id, Some (instance id)) (0x0F :: rest)); [done|].
    rewrite (st_bind_ok _ _ _ (1, true, 4) l) by reflexivity. unfold l. by erewrite st_bind_ok by (by apply or_text_ok, decode_object_identifier_ok).
Qed.
Lemma create_decoded x values : spec_ok x → Forall initial_ok values →
  decode_create_object_request (create_request x values) =
  Ok {| cr_object_type := spec_type x; cr_object_instance := spec_instance x; cr_object_name := asked_name values; cr_initial_values := values |}.
Proof.
  intros Hx Hv. unfold decode_create_object_request, create_request. erewrite st_bind_ok by by apply specifier_ok.
  change (encode_opening_tag 1) with [0x1E]. change (encode_closing_tag 1) with [0x1F]. cbn [app].
  rewrite (st_bind_ok _ _ _ true (0x1E :: (values ≫= encode_initial) ++ [0x1F])) by reflexivity.
  rewrite (st_bind_ok _ _ _ (asked_name values, values) []); [done|]. cbv iota.
  rewrite (st_bind_ok _ _ _ tt ((values ≫= encode_initial) ++ [0x1F])) by reflexivity.
  erewrite st_bind_ok by (apply initial_values_ok; done). done.
Qed.
Lemma delete_decoded id : object_id_ok id → decode_delete_object_request (delete_request id) = Ok id.
Proof.
  intros Hid. unfold decode_delete_object_request, delete_request, encode_object_identifier.
  erewrite st_bind_ok by (by apply or_text_ok, application_tag_roundtrip). rewrite <- (app_nil_r (u32_to_be _)).
  by rewrite (or_text_ok _ _ _ _ (decode_object_identifier_ok id [] Hid)).
Qed.

(* ------------------------------------------------------------------ *)
(** * Creating and deleting over the wire *)

Section served.
Context `{BuildProfile} {O : Type} `{BACnetObject O} `{!ObjectLaws O} (factory : ObjectFactory O) (Hfactory : factory_ok factory).
Context (services : ServiceRegistry O) (H10 : confirmed_handlers services !! 10 = Some (CreateObjectHandler factory))
        (H11 : confirmed_handlers services !! 11 = Some DeleteObjectHandler).
Implicit Types (s : ObjectRegistry O) (o : O).

(** The initial values written in order, without those that name the object. *)
Definition with_initial (values : list (PropertyId * BACnetValue)) o : O :=
  foldl (fun o kv => if bool_decide (kv.1 = PiObjectName) || bool_decide (kv.1 = PiObjectIdentifier) then o else (write_property kv.1 kv.2 o).2) o values.
Definition new_name (t : ObjectType) (n : Z) (values : list (PropertyId * BACnetValue)) : list Z :=
  default (numbered (object_type_prefix t) n) (asked_name values).
(** The instance the service is to choose: the asked one if it is free, or the next one. *)
Definition instance_for (x : Specifier) s : option Z :=
  match x with
  | ByType t => next_available_instance s t
  | ByIdentifier id => match get s id with None => Some (instance id) | Some _ => None end
  end.

Lemma apply_with_initial values o : object_ok o → apply_initial_values values o = Ok (with_initial values o).
Proof.
  revert o. induction values as [|[k v] values IH]; intros o Ho; cbn; [done|]. destruct (_ || _); [by apply IH|].
  destruct (write_ok k v o Ho) as [Hp Ho']. destruct (write_property k v o) as [[[]|e|] o']; cbn in *; [by apply IH|by apply IH|done].
Qed.
Lemma with_initial_identity values o : object_identifier (with_initial values o) = object_identifier o ∧ object_name (with_initial values o) = object_name o.
Proof.
  unfold with_initial. revert o. induction values as [|[k v] values IH]; intros o; [done|]. cbn [foldl fst snd]. destruct (_ || _); [apply IH|].
  destruct (IH (write_property k v o).2) as [-> ->]. apply write_identity.
Qed.
Lemma create_request_length x values : 4 <= zlen (create_request x values).
Proof.
  unfold create_request. change (encode_opening_tag 0) with [0x0E]. change (encode_closing_tag 0) with [0x0F]. change (encode_opening_tag 1) with [0x1E].
  change (encode_closing_tag 1) with [0x1F]. rewrite !zlen_app. pose proof (zlen_nonneg (encode_specifier x)). pose proof (zlen_nonneg (values ≫= encode_initial)).
  change (zlen [_]) with 1. lia.
Qed.

(** What CreateObject does for a well-formed request: when the factory makes the type, the instance
    is free and legal and the name not taken, the object is built with that identity, the initial
    values are written to it in order, it is registered, and its identifier is the answer. *)
Lemma create_served x values ctx s n (c : Constructor O) :
  spec_ok x → Forall initial_ok values → factory !! spec_type x = Some c → instance_for x s = Some n → n <= MAX_INSTANCE →
  (∀ name, asked_name values = Some name → contains_name s name = false) →
  ∃ o, c n (new_name (spec_type x) n values) = Ok o ∧ object_ok o ∧
    object_identifier o = {| object_type := spec_type x; instance := n |} ∧ object_name o = new_name (spec_type x) n values ∧
    dispatch_confirmed services 10 (create_request x values) ctx s =
      (Ok (SrComplexAck (encode_create_object_ack {| object_type := spec_type x; instance := n |})), (register (with_initial values o) s).2).
Proof.
  intros Hx Hv Hc Hn Hmax Hname. destruct (fk_total _ Hfactory _ _ n (new_name (spec_type x) n values) Hc Hmax) as [o Ho].
  destruct (fk_identity _ Hfactory _ _ _ _ _ Hc Ho) as (Hid & Hnm & Hok). exists o. split; [done|]. split; [done|]. split; [done|]. split; [done|].
  unfold dispatch_confirmed. rewrite H10. cbn [min_data_length CreateObjectHandler handle]. pose proof (create_request_length x values).
  rewrite (proj2 (Z.ltb_ge _ 4)) by lia. unfold CreateObject_handle. rewrite create_decoded by done. unfold create_object, build_created. cbn [cr_object_type cr_initial_values].
  unfold supports. rewrite Hc. cbn [is_some negb].
  assert (choose_instance {| cr_object_type := spec_type x; cr_object_instance := spec_instance x; cr_object_name := asked_name values; cr_initial_values := values |} s = Ok n) as ->.
  { unfold choose_instance. cbn [cr_object_instance cr_object_type]. destruct x as [t|id]; cbn [spec_instance spec_type instance_for] in *; [by rewrite Hn|].
    destruct (get s id) eqn:Hg; [done|]. injection Hn as <-. rewrite ObjectId_new_legal by done. cbn [obind]. destruct id as [t i]. unfold contains, get in *. cbn [object_type instance]. by rewrite Hg. }
  cbn [obind]. assert (choose_name {| cr_object_type := spec_type x; cr_object_instance := spec_instance x; cr_object_name := asked_name values; cr_initial_values := values |} n s =
    Ok (new_name (spec_type x) n values)) as ->.
  { unfold choose_name, new_name. cbn [cr_object_name cr_object_type]. destruct (asked_name values) as [name|]; [|done]. by rewrite Hname. }
  cbn [obind]. unfold factory_create. rewrite Hc. cbn [fmap option_fmap option_map ok_or obind]. rewrite Ho. cbn [map_err obind]. rewrite apply_with_initial by done. cbn [map_err obind].
  by rewrite Hid.
Qed.
Lemma delete_served id ctx s : object_id_ok id → object_type id ≠ OtDevice → is_Some (get s id) →
  dispatch_confirmed services 11 (delete_request id) ctx s = (Ok SrSimpleAck, (unregister id s).2).
Proof.
  intros Hid Ht [o Ho]. unfold dispatch_confirmed. rewrite H11. cbn [min_data_length DeleteObjectHandler handle].
  rewrite (proj2 (Z.ltb_ge _ 4)) by (vm_compute; discriminate). unfold DeleteObject_handle. rewrite delete_decoded by done.
  rewrite bool_decide_eq_false_2 by (unfold NON_DELETABLE_TYPES; by intros ?%list_elem_of_singleton). unfold contains, get in *. by rewrite Ho.
Qed.

(** A new object is there as asked: after CreateObject with a type (whose next free instance it gets)
    or an identifier that is free, and a name that is free or none, the registry holds the object
    with that identity and name and the initial values written to it, finds it by the name, holds
    every other object as before, and is consistent. *)
Theorem object_created x values ctx s n (c : Constructor O) :
  registry_ok s → spec_ok x → Forall initial_ok values → factory !! spec_type x = Some c → instance_for x s = Some n → n <= MAX_INSTANCE →
  (∀ name, asked_name values = Some name → contains_name s name = false) →
  let id := {| object_type := spec_type x; instance := n |} in
  ∃ o s', c n (new_name (spec_type x) n values) = Ok o ∧
    dispatch_confirmed services 10 (create_request x values) ctx s = (Ok (SrComplexAck (encode_create_object_ack id)), s') ∧ registry_ok s' ∧
    get s id = None ∧ get s' id = Some (with_initial values o) ∧ get_by_name s' (new_name (spec_type x) n values) = Some (with_initial values o) ∧
    ∀ other, other ≠ id → get s' other = get s other.
Proof.
  intros Hs Hx Hv Hc Hn Hmax Hname id. destruct (create_served x values ctx s n c Hx Hv Hc Hn Hmax Hname) as (o & Ho & Hok & Hid & Hnm & Hd).
  destruct (with_initial_identity values o) as [Hid' Hnm']. pose proof (register_spec (with_initial values o) s) as (_ & Hg & Hgn & Hother).
  rewrite Hid', Hid in *. rewrite Hnm', Hnm in *. exists o, (register (with_initial values o) s).2. split; [done|]. split; [done|]. split.
  - apply register_ok; [done|]. destruct (apply_initial_ok values o Hok) as (o' & Ho' & _ & _ & Hok'). rewrite apply_with_initial in Ho' by done. by simplify_eq.
  - split; [|done]. unfold id. destruct x as [t|i]; cbn in Hn |- *; [by apply next_available_fresh in Hn as (_ & ? & _)|]. destruct (get s i) eqn:Hgi; [done|].
    injection Hn as <-. by destruct i.
Qed.

(** Creating an object and deleting it again leaves the registry as it was: the same objects under the
    same identifiers and names, and the same counts. *)
Theorem create_then_delete x values ctx ctx' s n (c : Constructor O) :
  registry_ok s → spec_ok x → Forall initial_ok values → factory !! spec_type x = Some c → spec_type x ≠ OtDevice → instance_for x s = Some n → 0 <= n <= MAX_INSTANCE →
  contains_name s (new_name (spec_type x) n values) = false →
  ∃ s' s'', dispatch_confirmed services 10 (create_request x values) ctx s =
      (Ok (SrComplexAck (encode_create_object_ack {| object_type := spec_type x; instance := n |})), s') ∧
    dispatch_confirmed services 11 (delete_request {| object_type := spec_type x; instance := n |}) ctx' s' = (Ok SrSimpleAck, s'') ∧
    objects s'' = objects s ∧ names s'' = names s ∧ ∀ t, count_by_type s'' t = count_by_type s t.
Proof.
  intros Hs Hx Hv Hc Hdev Hn Hmax Hname. set (id := {| object_type := spec_type x; instance := n |}).
  destruct (create_served x values ctx s n c Hx Hv Hc Hn ltac:(lia)) as (o & Ho & Hok & Hid & Hnm & Hd).
  { intros name Ha. unfold new_name in Hname. by rewrite Ha in Hname. }
  destruct (with_initial_identity values o) as [Hid' Hnm']. set (o' := with_initial values o) in *. rewrite Hid in Hid'. rewrite Hnm in Hnm'. fold id in Hid', Hd.
  assert (objects s !! id = None) as Hfree.
  { destruct x as [t|i]; cbn in Hn; [by apply next_available_fresh in Hn as (_ & ? & _)|]. destruct (get s i) eqn:Hgi; [done|]. injection Hn as <-. by destruct i. }
  assert (is_Some (get (register o' s).2 id)) as Hin by (destruct (register_spec o' s) as (_ & Hg & _); rewrite Hid' in Hg; by exists o').
  exists (register o' s).2, (unregister id (register o' s).2).2. split; [done|]. split.
  { apply delete_served; [|done|done]. split; [|unfold MAX_INSTANCE in *; cbn; lia]. cbn. destruct x; [done|by destruct Hx]. }
  unfold contains_name in Hname. destruct (names s !! new_name (spec_type x) n values) as [i|] eqn:Hnone; [done|].
  unfold unregister, register. rewrite Hid', Hfree. cbn [snd objects names type_counts]. rewrite lookup_insert_eq. cbn [snd objects names type_counts].
  rewrite Hnm'. split; [by apply delete_insert_id|]. split; [by apply delete_insert_id|]. intros t. unfold count_by_type. cbn [type_counts].
  assert (∀ t, 0 <= default 0 (type_counts s !! t)) as Hpos. { intros t'. pose proof (rk_counts _ Hs t') as Hct. unfold count_by_type in Hct. rewrite Hct. apply count_objects_nonneg. }
  rewrite count_down_spec, !count_up_spec.
  - specialize (Hpos t). destruct (bool_decide _); lia.
  - intros t'. rewrite count_up_spec. specialize (Hpos t'). destruct (bool_decide _); lia.
Qed.

(** A generated name is not checked: when another object has it, the new object takes it over, and
    once the new object is deleted the other one can no longer be found by its name. *)
Theorem generated_name_clash t values ctx ctx' s n (c : Constructor O) old :
  spec_ok (ByType t) → Forall initial_ok values → factory !! t = Some c → t ≠ OtDevice → next_available_instance s t = Some n → 0 <= n <= MAX_INSTANCE →
  asked_name values = None → let name := numbered (object_type_prefix t) n in
  get_by_name s name = Some old → get s (object_identifier old) = Some old → object_type (object_identifier old) ≠ t →
  ∃ o s' s'', dispatch_confirmed services 10 (create_request (ByType t) values) ctx s =
      (Ok (SrComplexAck (encode_create_object_ack {| object_type := t; instance := n |})), s') ∧ get_by_name s' name = Some o ∧
    object_identifier o = {| object_type := t; instance := n |} ∧
    dispatch_confirmed services 11 (delete_request {| object_type := t; instance := n |}) ctx' s' = (Ok SrSimpleAck, s'') ∧
    get s'' (object_identifier old) = Some old ∧ get_by_name s'' name = None.
Proof.
  intros Hx Hv Hc Hdev Hn Hmax Hask name Hold Hg Ht. set (id := {| object_type := t; instance := n |}).
  destruct (create_served (ByType t) values ctx s n c Hx Hv Hc Hn ltac:(lia)) as (o & Ho & Hok & Hid & Hnm & Hd); [by rewrite Hask|].
  cbn [spec_type] in *. assert (new_name t n values = name) as Hnew by (unfold new_name; by rewrite Hask). rewrite Hnew in *.
  destruct (with_initial_identity values o) as [Hid' Hnm']. set (o' := with_initial values o) in *. rewrite Hid in Hid'. rewrite Hnm in Hnm'. fold id in Hid', Hd.
  destruct (register_spec o' s) as (_ & Hg' & Hgn & Hother). rewrite Hid' in Hg', Hother. rewrite Hnm' in Hgn.
  exists o', (register o' s).2, (unregister id (register o' s).2).2. split; [done|]. split; [done|]. split; [done|]. split.
  { apply delete_served; [|done|by eexists]. split; [done|unfold MAX_INSTANCE in *; cbn; lia]. }
  unfold unregister. unfold get in Hg'. rewrite Hg'. cbn [snd]. split.
  - unfold get. cbn [objects]. assert (object_identifier old ≠ id) by (intros Heq; apply Ht; by rewrite Heq). rewrite lookup_delete_ne by done. by etrans; [apply Hother|].
  - unfold get_by_name. cbn [names]. by rewrite Hnm', lookup_delete_eq.
Qed.
End served.

(* ------------------------------------------------------------------ *)
(** * The device with all its objects *)

(** Services that work on one registry of all objects compose: a client that creates a file by
    type, uploads octets to it and reads them back gets them, at the end of the file, from the
    file under the identifier it was told, whatever else the device holds. *)
Theorem created_file_holds_data `{BuildProfile} (services : ServiceRegistry AnyObject) ctx s n bytes :
  confirmed_handlers services !! 6 = Some AtomicReadFileHandler → confirmed_handlers services !! 7 = Some AtomicWriteFileHandler →
  confirmed_handlers services !! 10 = Some (CreateObjectHandler default_object_factory) →
  next_available_instance s OtFile = Some n → 0 <= n <= MAX_INSTANCE → bytes ≠ [] → zlen bytes < 4294967296 →
  let id := {| object_type := OtFile; instance := n |} in
  ∃ s1 s2,
    dispatch_confirmed services 10 (create_request (ByType OtFile) []) ctx s = (Ok (SrComplexAck (encode_create_object_ack id)), s1) ∧
    dispatch_confirmed services 7 (write_file_request id (WriteStream 0 bytes)) ctx s1 = (Ok (SrComplexAck (encode_write_file_stream_ack 0)), s2) ∧
    dispatch_confirmed services 6 (read_file_request id (ReadStream 0 (zlen bytes))) ctx s2 = (Ok (SrComplexAck (encode_read_file_stream_ack true 0 bytes)), s2) ∧
    ∀ other, other ≠ id → get s2 other = get s other.
Proof.
  intros H6 H7 H10 Hn Hmax Hne Hlen id.
  destruct (create_served default_object_factory default_factory_ok services H10 (ByType OtFile) [] ctx s n (fun i n => omap_ok AFile (File_new i n)))
    as (o & Ho & _ & Hid & Hname & Hd); [done|done|reflexivity|done|lia|done|]. cbn [spec_type with_initial foldl] in *.
  unfold File_new, File_with_access_method in Ho. rewrite ObjectId_new_legal in Ho by lia. cbn in Ho.
  match type of Ho with Ok (AFile ?f) = _ => set (f0 := f) in *; assert (AFile f0 = o) as <- by congruence end. clear Ho.
  destruct (register_spec (AFile f0) s) as (_ & Hg & _ & Hother). rewrite Hid in Hg, Hother. fold id in Hg, Hother, Hd. set (s1 := (register (AFile f0) s).2) in *.
  assert (file_at s1 id f0) as Hf by (split; [split; [done|unfold MAX_INSTANCE in *; cbn; lia]|split; [done|split; [cbn; lia|by exists (AFile f0)]]]).
  eexists s1, _. split; [done|]. split; [|split].
  - rewrite (write_stream_served services H7 s1 id f0) by (done || unfold is_i32; lia). reflexivity.
  - eapply read_stream_served; [done|by eapply put_file_at|done|unfold is_i32; lia|unfold is_u32; pose proof (zlen_nonneg bytes); lia|].
    rewrite (stream_roundtrip 0 bytes f0) by (lia || done). do 2 f_equal. cbn. pose proof (zlen_nonneg bytes). by apply Z.leb_le.
  - intros other Hne'. unfold get, put_file. cbn. rewrite lookup_insert_ne by done. by apply Hother.
Qed.

(* ------------------------------------------------------------------ *)
(** * The loops of the decoder end *)

Lemma rest_or_text {A} (d : Dec A) : leaves_rest d → leaves_rest (or_text d).
Proof. intros Hd l a l'. unfold or_text, st_map_err. destruct (d l) as [[x|e|] l1] eqn:Hl; cbn; [|done..]. intros [= <- <-]. by eapply Hd. Qed.
Lemma rest_map {E A B} (f : A → B) (d : stM (list Z) E A) : leaves_rest d → leaves_rest (st_map f d).
Proof. intros Hd l b l'. unfold st_map. destruct (d l) as [[x|e|] l1] eqn:Hl; cbn; [|done..]. intros [= <- <-]. by eapply Hd. Qed.
Lemma rest_after {E A B} (d : stM (list Z) E A) (b : B) : leaves_rest (E:=E) d → (∀ l, (d l).2 `suffix_of` l) → leaves_rest (E:=unit) (fun l => (Ok b, (d l).2)).
Proof. intros _ Hd l b' l' [= <- <-]. apply Hd. Qed.
Lemma read_bytes_suffix n l : (read_bytes n l).2 `suffix_of` l.
Proof. unfold read_bytes. destruct (_ <? _); cbn; [done|apply suffix_drop]. Qed.
Lemma decode_unsigned_suffix n l : (decode_unsigned n l).2 `suffix_of` l.
Proof. unfold decode_unsigned, st_bind, read_bytes. destruct (_ <? _); cbn; [done|apply suffix_drop]. Qed.
Lemma rest_unsigned n : leaves_rest (decode_unsigned n).
Proof. apply rest_bind; [apply rest_read_bytes|]. intros; apply rest_ret. Qed.
Lemma rest_object_identifier : leaves_rest decode_object_identifier.
Proof. apply rest_bind; [apply rest_read_bytes|]. intros. apply rest_bind; [apply rest_lift|]. intros; apply rest_lift. Qed.
Lemma rest_character_string n : leaves_rest (decode_character_string n).
Proof.
  unfold decode_character_string. case_match; [apply rest_ret|]. apply rest_bind; [apply rest_read_u8|]. intros. apply rest_bind; [apply rest_read_bytes|].
  intros. case_match; [apply rest_ret|done].
Qed.
Lemma rest_err {E A} (e : E) : leaves_rest (A:=A) (st_err e).
Proof. done. Qed.
Lemma rest_octet : leaves_rest skip_octet.
Proof. apply rest_bind; [apply rest_or_text, rest_read_u8|]. intros; apply rest_ret. Qed.
Lemma rest_opening t : leaves_rest (opening t).
Proof. intros l a l' Hl. by injection Hl as _ <-. Qed.
Lemma rest_closing t : leaves_rest (closing t).
Proof. intros l a l' Hl. by injection Hl as _ <-. Qed.
Create HintDb rest.
#[local] Hint Resolve rest_or_text rest_map rest_unsigned rest_object_identifier rest_character_string rest_err rest_octet rest_opening rest_closing
  rest_ret rest_lift rest_read_u8 rest_read_bytes rest_tag_info : rest.

Lemma skip_length l a l' : skip_octet l = (Ok a, l') → (S (length l') = length l)%nat.
Proof. destruct l; [done|]. by intros [= <- <-]. Qed.
Lemma tag_length l a l' : or_text decode_tag_info l = (Ok a, l') → (length l' < length l)%nat.
Proof. pose proof (consumes_tag_info l) as Hc. unfold or_text, st_map_err. destruct (decode_tag_info l) as [[x|e|] l1]; cbn; [|done..]. intros [= <- <-]. lia. Qed.

(** The skipping loop: the octets left are enough fuel, and it leaves an end of its input. *)
Lemma skip_total fuel tag depth l : (length l ≤ fuel)%nat →
  (skip_to_closing_tag fuel tag depth l).1 ≠ Panic ∧ ∀ a l', skip_to_closing_tag fuel tag depth l = (Ok a, l') → l' `suffix_of` l.
Proof.
  revert depth l. induction fuel as [|fuel IH]; intros depth l Hl; [by destruct l; [|cbn in Hl; lia]|]. destruct l as [|b l]; [done|].
  cbn [skip_to_closing_tag]. cbn in Hl. set (c := match closing tag (b :: l) with (Ok c, _) => c | _ => false end).
  assert (∀ depth', (skip_to_closing_tag fuel tag depth' l).1 ≠ Panic ∧ ∀ a l', skip_to_closing_tag fuel tag depth' l = (Ok a, l') → l' `suffix_of` b :: l) as Hnext.
  { intros depth'. destruct (IH depth' l ltac:(lia)) as [Hp Hr]. split; [done|]. intros a l' Ha. apply suffix_cons_r. by eapply Hr. }
  rewrite (st_bind_ok _ _ _ c (b :: l)) by done. destruct (_ && c); [split; [done|]; by intros a l' [= <- <-]|].
  destruct (_ =? 0x0E); [by rewrite (st_bind_ok _ _ _ tt l)|]. destruct (_ =? 0x0F); [by rewrite (st_bind_ok _ _ _ tt l)|].
  unfold st_bind at 1 3. pose proof (np_tag_info (b :: l)) as Hnp. destruct (or_text decode_tag_info (b :: l)) as [[[[t ctx] len]|e|] l1] eqn:Ht.
  - pose proof (tag_length _ _ _ Ht) as Hlen. cbn in Hlen. apply (rest_or_text _ rest_tag_info) in Ht.
    assert (∃ l2, (if 0 <? len then (Ok tt, (read_bytes len l1).2) else (Ok (E:=unit) tt, l1)) = (Ok tt, l2) ∧ l2 `suffix_of` l1) as (l2 & Hl2 & Hs2).
    { destruct (0 <? len); eexists; split; try reflexivity. apply read_bytes_suffix. }
    pose proof (suffix_length _ _ Hs2). destruct (IH depth l2 ltac:(lia)) as [Hp Hr]. unfold st_bind. rewrite Hl2. split; [done|].
    intros a l' Ha. etrans; [by eapply Hr|]. by etrans.
  - done.
  - unfold or_text, st_map_err in Ht. destruct (decode_tag_info (b :: l)) as [[]]; done.
Qed.

(** A decoder whose panics all come from a value it finds in its input. *)
Definition panics_via {E A} (d : stM (list Z) E A) : Prop :=
  ∀ l, (d l).1 = Panic → ∃ l', l' `suffix_of` l ∧ (decode_application_value l').1 = Panic.
Lemma via_bind {E A B} (d : stM (list Z) E A) (k : A → stM (list Z) E B) :
  leaves_rest d → panics_via d → (∀ a, panics_via (k a)) → panics_via (st_bind d k).
Proof.
  intros Hr Hd Hk l. unfold st_bind. destruct (d l) as [[a|e|] l1] eqn:Hl; [|done|].
  - intros (l' & Hs & Hp)%Hk. exists l'. split; [|done]. etrans; [done|]. by eapply Hr.
  - intros _. apply Hd. by rewrite Hl.
Qed.
Lemma via_np {E A} (d : stM (list Z) E A) : no_panic d → panics_via d.
Proof. intros Hd l Hl. by destruct (Hd l). Qed.
Lemma np_or_text {A} (d : Dec A) : no_panic d → no_panic (or_text d).
Proof. intros Hd l. unfold or_text, st_map_err. specialize (Hd l). by destruct (d l) as [[]]. Qed.
Lemma np_octet : no_panic skip_octet.
Proof. apply np_bind; [apply np_or_text, np_read_u8|done]. Qed.
Lemma np_array_index : no_panic skip_array_index.
Proof.
  intros [|b l]; [done|]. cbn [skip_array_index]. case_match; [|done]. revert l. generalize dependent b. intros b _ l.
  apply (np_bind (or_text decode_tag_info)); [apply np_or_text, np_tag_info|]. by intros [[t c] len] l'.
Qed.
Lemma rest_array_index : leaves_rest skip_array_index.
Proof.
  intros [|b l] a l'; cbn [skip_array_index]; [by intros [= <- <-]|]. case_match; [|by intros [= <- <-]].
  revert a l'. apply (rest_bind (or_text decode_tag_info)); [auto with rest|]. intros [[t c] len] l1 a l' [= <- <-]. apply decode_unsigned_suffix.
Qed.
Lemma skip_value_spec : no_panic skip_value ∧ leaves_rest skip_value.
Proof.
  split.
  - apply np_bind; [done|]. intros []; [|done]. apply np_bind; [apply np_octet|]. intros _. apply np_bind; [|intros; apply np_octet]. intros l. by apply skip_total.
  - apply rest_bind; [auto with rest|]. intros []; [|auto with rest]. apply rest_bind; [auto with rest|]. intros _. apply rest_bind; [|auto with rest].
    intros l a l'. by apply skip_total.
Qed.
Lemma rest_expect t : leaves_rest (expect_opening t) ∧ leaves_rest (expect_closing t).
Proof. split; (apply rest_bind; [auto with rest|]); intros []; auto with rest. Qed.
Lemma np_expect t : no_panic (expect_opening t) ∧ no_panic (expect_closing t).
Proof. split; (apply np_bind; [done|]); intros []; [apply np_octet|done|apply np_octet|done]. Qed.
Lemma rest_application_value : leaves_rest decode_application_value.
Proof.
  unfold decode_application_value. apply rest_bind; [auto with rest|]. intros [[t c] len]. destruct c; [auto with rest|].
  assert (leaves_rest (fun d => (Ok (E:=unit) VNull, (read_bytes len d).2))) as Hskip by (intros l a l' [= <- <-]; apply read_bytes_suffix).
  repeat case_match; auto with rest; (apply rest_bind; [auto with rest|]; intros; auto with rest).
Qed.
Lemma initial_value_spec acc : leaves_rest (decode_initial_value acc) ∧ panics_via (decode_initial_value acc).
Proof.
  destruct skip_value_spec as [Hsn Hsr]. destruct (rest_expect 2) as [Hro Hrc]. destruct (np_expect 2) as [Hno Hnc]. unfold decode_initial_value. split.
  - apply rest_bind; [auto with rest|]. intros [[t c] len]. apply rest_bind; [auto with rest|]. intros v. case_match.
    + apply rest_bind; [apply rest_array_index|]. intros _. apply rest_bind; [done|]. intros _. apply rest_bind; [apply rest_application_value|]. intros x.
      apply rest_bind; [done|]. auto with rest.
    + apply rest_bind; [apply rest_array_index|]. intros _. apply rest_bind; [done|]. auto with rest.
  - apply via_bind; [auto with rest|apply via_np, np_or_text, np_tag_info|]. intros [[t c] len].
    apply via_bind; [auto with rest|apply via_np, np_or_text, np_unsigned|]. intros v. case_match.
    + apply via_bind; [apply rest_array_index|apply via_np, np_array_index|]. intros _. apply via_bind; [done|by apply via_np|]. intros _.
      apply via_bind; [apply rest_application_value|intros l Hl; by exists l|]. intros x. apply via_bind; [done|by apply via_np|]. intros _. by apply via_np.
    + apply via_np, np_bind; [apply np_array_index|]. intros _. apply np_bind; [done|]. done.
Qed.
Lemma initial_value_shrinks acc l acc' l' : decode_initial_value acc l = (Ok acc', l') → (length l' < length l)%nat.
Proof.
  unfold decode_initial_value, st_bind at 1. destruct (or_text decode_tag_info l) as [[[[t c] len]|e|] l1] eqn:Ht; [|done..]. apply tag_length in Ht.
  destruct skip_value_spec as [Hsn Hsr]. destruct (rest_expect 2) as [Hro Hrc]. intros Hl. enough (l' `suffix_of` l1) as Hs%suffix_length by lia. revert Hl.
  apply rest_bind; [auto with rest|]. intros v. case_match.
  + apply rest_bind; [apply rest_array_index|]. intros _. apply rest_bind; [done|]. intros _. apply rest_bind; [apply rest_application_value|]. intros x.
    apply rest_bind; [done|]. auto with rest.
  + apply rest_bind; [apply rest_array_index|]. intros _. apply rest_bind; [done|]. auto with rest.
Qed.
Lemma initial_values_spec fuel acc l : (length l ≤ fuel)%nat →
  ((decode_initial_values fuel acc l).1 = Panic → ∃ l', l' `suffix_of` l ∧ (decode_application_value l').1 = Panic) ∧
  ∀ a l', decode_initial_values fuel acc l = (Ok a, l') → l' `suffix_of` l.
Proof.
  revert acc l. induction fuel as [|fuel IH]; intros acc l Hl; [destruct l; [|cbn in Hl; lia]; split; [done|by intros a l' [= <- <-]]|].
  destruct l as [|b l]; [split; [done|by intros a l' [= <- <-]]|]. cbn [decode_initial_values].
  set (c := match closing 1 (b :: l) with (Ok c, _) => c | _ => false end). rewrite (st_bind_ok _ _ _ c (b :: l)) by done.
  destruct c; [split; [done|by intros a l' [= <- <-]]|]. destruct (initial_value_spec acc) as [Hr Hp]. unfold st_bind.
  destruct (decode_initial_value acc (b :: l)) as [[acc'|e|] l1] eqn:Hv; [|done|].
  - pose proof (initial_value_shrinks _ _ _ _ Hv) as Hlen. apply Hr in Hv. destruct (IH acc' l1 ltac:(lia)) as [H1 H2]. split.
    + intros (l' & Hs & Hx)%H1. exists l'. split; [by etrans|done].
    + intros a l' Ha. etrans; [by eapply H2|done].
  - split; [|done]. intros _. apply Hp. by rewrite Hv.
Qed.

Lemma np_character_string n : no_panic (decode_character_string n).
Proof. unfold decode_character_string. case_match; [done|]. apply np_bind; [apply np_read_u8|]. intros b. apply np_bind; [apply np_read_bytes|]. intros l. by case_match. Qed.
Lemma np_exact_value (n : nat) (f : list Z → outcome unit Z) (g : Z → BACnetValue) : (∀ l, length l = n → f l ≠ Panic) →
  no_panic (do? bytes := or_text (read_bytes (Z.of_nat n)) in st_map g (st_lift (f bytes))).
Proof.
  intros Hf l. unfold st_bind, or_text, st_map_err, read_bytes. destruct (Z.ltb_spec (zlen l) (Z.of_nat n)); [done|]. cbn [map_err]. unfold st_map, st_lift.
  pose proof (Hf (take (Z.to_nat (Z.of_nat n)) l)) as Hx. destruct (f (take _ l)); try done. destruct Hx; [|done]. rewrite length_take. unfold zlen in *. lia.
Qed.
Lemma application_value_panics l : (decode_application_value l).1 = Panic →
  ∃ len rest unused bytes, decode_tag_info l = (Ok (8, false, len), rest) ∧ take (Z.to_nat len) rest = unused :: bytes ∧ zlen bytes * 8 < unused.
Proof.
  intros Hp. unfold decode_application_value, st_bind at 1 in Hp. pose proof (np_tag_info l) as Hti. unfold or_text at 1, st_map_err at 1 in Hp.
  destruct (decode_tag_info l) as [[[[t c] len]|e|] rest] eqn:Ht; cbn [map_err] in Hp; [|done..].
  destruct (decide (c = false ∧ t = 8)) as [[-> ->]|Hn].
  - exists len, rest. unfold st_bind, or_text, st_map_err, read_bytes in Hp. destruct (_ <? _); [done|]. cbn [map_err] in Hp. unfold st_map, st_lift, value_bits in Hp.
    destruct (take (Z.to_nat len) rest) as [|unused bytes]; [done|]. exists unused, bytes. split; [done|]. split; [done|]. destruct (Z.ltb_spec (zlen bytes * 8) unused); done.
  - exfalso. revert Hp. match goal with |- (?m rest).1 = Panic → _ => enough (no_panic m) as Hm by apply Hm end.
    destruct c; [apply np_map, np_or_text, np_unsigned|].
    repeat case_match; try (by destruct Hn); try done;
      first [apply np_map, np_or_text, np_unsigned|apply np_map, np_or_text, np_character_string|apply np_map, np_or_text, np_object_identifier
            |apply (np_exact_value 4); apply be_no_panic|apply (np_exact_value 8); apply be_no_panic].
Qed.

(** The decoder of CreateObject requests ends on every input, and panics only inside a value that it
    finds in the request: a bit string that announces more unused bits than it has. *)
Theorem create_panics_on_bits data :
  decode_create_object_request data = Panic →
  ∃ l len rest unused bytes, l `suffix_of` data ∧ decode_tag_info l = (Ok (8, false, len), rest) ∧
    take (Z.to_nat len) rest = unused :: bytes ∧ zlen bytes * 8 < unused.
Proof.
  intros Hd. assert (∃ l, l `suffix_of` data ∧ (decode_application_value l).1 = Panic) as (l & Hs & Hp).
  { unfold decode_create_object_request in Hd. revert Hd. destruct (rest_expect 0) as [Hro Hrc]. destruct (np_expect 0) as [Hno Hnc].
    assert (no_panic decode_specifier ∧ leaves_rest decode_specifier) as [Hnp Hlr].
    { unfold decode_specifier. split.
      - apply np_bind; [done|]. intros _. apply np_bind; [apply np_or_text, np_peek|]. intros p. apply np_bind; [by destruct p|]. intros b. apply np_bind; [|intros r; by apply np_bind].
        repeat case_match; [| |done].
        + apply np_bind; [apply np_or_text, np_tag_info|]. intros [[t c] len]. apply np_bind; [apply np_or_text, np_unsigned|]. intros v. apply np_bind; [apply np_ok_or|done].
        + apply np_bind; [apply np_or_text, np_tag_info|]. intros _. apply np_bind; [apply np_or_text, np_object_identifier|done].
      - apply rest_bind; [done|]. intros _. apply rest_bind; [intros l a l' Hl; by injection Hl as _ <-|]. intros p. apply rest_bind; [auto with rest|]. intros b.
        apply rest_bind; [|intros r; apply rest_bind; [done|auto with rest]]. repeat case_match; [| |done].
        + apply rest_bind; [auto with rest|]. intros [[t c] len]. apply rest_bind; [auto with rest|]. intros v. apply rest_bind; auto with rest.
        + apply rest_bind; [auto with rest|]. intros _. apply rest_bind; auto with rest. }
    apply via_bind; [done|by apply via_np|]. intros spec. apply via_bind; [auto with rest|by apply via_np|]. intros o.
    apply via_bind; [| |intros v; by apply via_np].
    - destruct o; [|auto with rest]. apply rest_bind; [auto with rest|]. intros _. apply rest_bind; [|intros v; apply rest_bind; [apply rest_expect|auto with rest]].
      intros l a l'. by apply initial_values_spec.
    - destruct o; [|by apply via_np]. apply via_bind; [auto with rest|apply via_np, np_octet|]. intros _. apply via_bind; [| |intros v; apply via_np, np_bind; [apply np_expect|done]].
      + intros l a l'. by apply initial_values_spec.
      + intros l. by apply initial_values_spec. }
  destruct (application_value_panics l Hp) as (len & rest & unused & bytes & Ht & Hb & Hu). by exists l, len, rest, unused, bytes.
Qed.

(* ------------------------------------------------------------------ *)
(** * Witnesses *)

Definition object_services : ServiceRegistry AnyObject :=
  (register_confirmed (AtomicReadFileHandler (H:=debug_build))
    (register_confirmed (AtomicWriteFileHandler (H:=debug_build))
      (register_confirmed (CreateObjectHandler (H:=debug_build) (default_object_factory (H:=debug_build)))
        (register_confirmed DeleteObjectHandler ServiceRegistry_new).2).2).2).2.
(** A log that bears the name an analog input would be given. *)
Definition taken_log : TrendLog := {|
  tl_id := {| object_type := OtTrendLog; instance := 7 |}; tl_name := numbered (str "AI") 0; tl_description := []; tl_properties := ∅; tl_buffer := [];
  tl_buffer_size := 10; tl_enabled := false; tl_stop_when_full := false; tl_reference := None; tl_log_interval := 0;
  tl_total_record_count := 0; tl_notification_threshold := 0; tl_records_since_notification := 0 |}.
Definition object_registry : ObjectRegistry AnyObject := (register (ATrendLog taken_log) ObjectRegistry_new).2.
Lemma object_registry_ok : registry_ok object_registry.
Proof. apply register_ok; [apply registry_reachable_ok, rr_new|]. vm_compute. discriminate. Qed.
Definition named_input : list (PropertyId * BACnetValue) := [(PiObjectName, VCharacterString (str "T1")); (PiDescription, VCharacterString (str "roof"))].
Lemma named_input_ok : Forall initial_ok named_input.
Proof. repeat constructor; vm_compute; (discriminate || reflexivity). Qed.

Lemma create_object_safe_witness :
  let '(res, s') := CreateObject_handle (H:=debug_build) (default_object_factory (H:=debug_build)) (create_request (ByType OtCalendar) []) (ServiceContext_new 1) object_registry in
  registry_ok s'.
Proof.
  pose proof (create_object_safe (H:=debug_build) (default_object_factory (H:=debug_build)) (default_factory_ok (H:=debug_build))
    (create_request (ByType OtCalendar) []) (ServiceContext_new 1) object_registry object_registry_ok) as Hs.
  destruct (CreateObject_handle _ _ _ _) as [res s']. exact (proj1 Hs).
Defined.
Lemma delete_confined_witness : ∃ res s',
  DeleteObject_handle (delete_request {| object_type := OtTrendLog; instance := 7 |}) (ServiceContext_new 1) object_registry = (Ok res, s').
Proof.
  destruct (delete_confined (delete_request {| object_type := OtTrendLog; instance := 7 |}) (ServiceContext_new 1) object_registry object_registry_ok) as (res & s' & Hd & _).
  exists res, s'. exact Hd.
Defined.
Lemma object_created_witness : ∃ o s',
  dispatch_confirmed object_services 10 (create_request (ByType OtAnalogInput) named_input) (ServiceContext_new 1) object_registry =
    (Ok (SrComplexAck (encode_create_object_ack {| object_type := OtAnalogInput; instance := 0 |})), s') ∧
  get_by_name s' (str "T1") = Some o.
Proof.
  destruct (object_created (H:=debug_build) (default_object_factory (H:=debug_build)) (default_factory_ok (H:=debug_build)) object_services eq_refl
    (ByType OtAnalogInput) named_input (ServiceContext_new 1) object_registry 0 (fun i n => omap_ok (fun o => AStandard (SAnalogInput o)) (AnalogInput_new (H:=debug_build) i n)))
    as (o & s' & _ & Hd & _ & _ & _ & Hn & _).
  - apply object_registry_ok.
  - reflexivity.
  - apply named_input_ok.
  - reflexivity.
  - vm_compute. reflexivity.
  - vm_compute. discriminate.
  - intros name Hname. vm_compute in Hname. injection Hname as <-. vm_compute. reflexivity.
  - eexists _, s'. split; [exact Hd|exact Hn].
Defined.
Lemma create_then_delete_witness : ∃ s' s'',
  dispatch_confirmed object_services 10 (create_request (ByIdentifier {| object_type := OtSchedule; instance := 3 |}) []) (ServiceContext_new 1) object_registry =
    (Ok (SrComplexAck (encode_create_object_ack {| object_type := OtSchedule; instance := 3 |})), s') ∧
  dispatch_confirmed object_services 11 (delete_request {| object_type := OtSchedule; instance := 3 |}) (ServiceContext_new 1) s' = (Ok SrSimpleAck, s'') ∧
  objects s'' = objects object_registry.
Proof.
  destruct (create_then_delete (H:=debug_build) (default_object_factory (H:=debug_build)) (default_factory_ok (H:=debug_build)) object_services eq_refl eq_refl
    (ByIdentifier {| object_type := OtSchedule; instance := 3 |}) [] (ServiceContext_new 1) (ServiceContext_new 1) object_registry 3
    (fun i n => omap_ok ASchedule (Schedule_new (H:=debug_build) i n))) as (s' & s'' & H1 & H2 & H3 & _).
  - apply object_registry_ok.
  - split; [reflexivity|vm_compute; split; discriminate].
  - constructor.
  - reflexivity.
  - discriminate.
  - vm_compute. reflexivity.
  - vm_compute. split; discriminate.
  - vm_compute. reflexivity.
  - exists s', s''. split; [exact H1|]. split; [exact H2|exact H3].
Defined.
Lemma generated_name_clash_witness : ∃ s' s'',
  dispatch_confirmed object_services 10 (create_request (ByType OtAnalogInput) []) (ServiceContext_new 1) object_registry =
    (Ok (SrComplexAck (encode_create_object_ack {| object_type := OtAnalogInput; instance := 0 |})), s') ∧
  dispatch_confirmed object_services 11 (delete_request {| object_type := OtAnalogInput; instance := 0 |}) (ServiceContext_new 1) s' = (Ok SrSimpleAck, s'') ∧
  get s'' (tl_id taken_log) = Some (ATrendLog taken_log) ∧ get_by_name s'' (numbered (str "AI") 0) = None.
Proof.
  destruct (generated_name_clash (H:=debug_build) (default_object_factory (H:=debug_build)) (default_factory_ok (H:=debug_build)) object_services eq_refl eq_refl
    OtAnalogInput [] (ServiceContext_new 1) (ServiceContext_new 1) object_registry 0
    (fun i n => omap_ok (fun o => AStandard (SAnalogInput o)) (AnalogInput_new (H:=debug_build) i n)) (ATrendLog taken_log))
    as (o & s' & s'' & H1 & _ & _ & H2 & H3 & H4).
  - reflexivity.
  - constructor.
  - reflexivity.
  - discriminate.
  - vm_compute. reflexivity.
  - vm_compute. split; discriminate.
  - reflexivity.
  - reflexivity.
  - reflexivity.
  - discriminate.
  - exists s', s''. split; [exact H1|]. split; [exact H2|]. split; [exact H3|exact H4].
Defined.
Lemma created_file_holds_data_witness : ∃ s1 s2,
  dispatch_confirmed object_services 10 (create_request (ByType OtFile) []) (ServiceContext_new 1) object_registry =
    (Ok (SrComplexAck (encode_create_object_ack {| object_type := OtFile; instance := 0 |})), s1) ∧
  dispatch_confirmed object_services 6 (read_file_request {| object_type := OtFile; instance := 0 |} (ReadStream 0 (zlen [1; 2; 3]))) (ServiceContext_new 1) s2 =
    (Ok (SrComplexAck (encode_read_file_stream_ack true 0 [1; 2; 3])), s2).
Proof.
  destruct (created_file_holds_data (H:=debug_build) object_services (ServiceContext_new 1) object_registry 0 [1; 2; 3]) as (s1 & s2 & H1 & _ & H2 & _).
  - reflexivity.
  - reflexivity.
  - reflexivity.
  - vm_compute. reflexivity.
  - vm_compute. split; discriminate.
  - discriminate.
  - reflexivity.
  - exists s1, s2. split; [exact H1|exact H2].
Defined.
(** Nine unused bits announced for the eight there are. *)
Definition bad_bits : list Z := [0x0E; 0x09; 0; 0x0F; 0x1E; 0x09; 85; 0x2E; 0x82; 9; 255; 0x2F; 0x1F].
Lemma create_panics_on_bits_witness : ∃ l len rest unused bytes,
  l `suffix_of` bad_bits ∧ decode_tag_info l = (Ok (8, false, len), rest) ∧ take (Z.to_nat len) rest = unused :: bytes ∧ zlen bytes * 8 < unused.
Proof. apply create_panics_on_bits. reflexivity. Defined.
