(* ===== verification/BacnetBbmd.v ===== *)
(** Broadcast management across subnets ([mabi-bacnet/src/network/bbmd.rs]): the broadcast
    distribution table, the foreign device table with its expiry, and the BVLC requests that read
    and write them.

    Time is in nanoseconds and given to the operations that read the clock.  The order in which a
    concurrent map is iterated is left open: the model takes it as a parameter that only promises
    a permutation of the entries. *)

From S2P Require Import Prelude BacnetNet.

(* ------------------------------------------------------------------ *)
(** * Tables *)

Inductive BbmdError : Set := BbTableFull | BbInvalidFormat | BbNotFound.

Record BdtEntry : Set := { bdt_address : SocketAddrV4; broadcast_mask : Ipv4Addr; added_at : Z }.
Definition BdtEntry_new (now : Z) (address : SocketAddrV4) (mask : Ipv4Addr) : BdtEntry :=
  {| bdt_address := address; broadcast_mask := mask; added_at := now |}.

(** [ip | !mask] on one octet. *)
Definition broadcast_octet (ip mask : Z) : Z := Z.lor ip (Z.lxor mask 255).
Definition directed_broadcast_address (e : BdtEntry) : Ipv4Addr :=
  let '(i0, i1, i2, i3) := (bdt_address e).1 in
  let '(m0, m1, m2, m3) := broadcast_mask e in
  (broadcast_octet i0 m0, broadcast_octet i1 m1, broadcast_octet i2 m2, broadcast_octet i3 m3).

Record BroadcastDistributionTable : Set := { bdt_entries : gmap SocketAddrV4 BdtEntry; bdt_max_entries : nat }.
Definition BDT_new (max : nat) : BroadcastDistributionTable := {| bdt_entries := ∅; bdt_max_entries := max |}.
Definition BDT_set (m : gmap SocketAddrV4 BdtEntry) (t : BroadcastDistributionTable) : BroadcastDistributionTable :=
  {| bdt_entries := m; bdt_max_entries := bdt_max_entries t |}.

Definition BDT_add (e : BdtEntry) : stM BroadcastDistributionTable BbmdError unit := fun t =>
  if (bdt_max_entries t <=? size (bdt_entries t))%nat && negb (is_some (bdt_entries t !! bdt_address e))
  then (Err BbTableFull, t)
  else (Ok tt, BDT_set (<[bdt_address e := e]> (bdt_entries t)) t).
Definition BDT_remove (a : SocketAddrV4) (t : BroadcastDistributionTable) : option BdtEntry * BroadcastDistributionTable :=
  (bdt_entries t !! a, BDT_set (delete a (bdt_entries t)) t).
Definition BDT_clear (t : BroadcastDistributionTable) : BroadcastDistributionTable := BDT_set ∅ t.

(** One entry of the wire format: address, port and mask. *)
Definition encode_bdt_entry (e : BdtEntry) : list Z :=
  octets (bdt_address e).1 ++ u16_to_be (bdt_address e).2 ++ octets (broadcast_mask e).

(** The loop over [data.chunks(10)]; the length has been checked. *)
Fixpoint decode_bdt_chunks (now : Z) (d : list Z) (m : gmap SocketAddrV4 BdtEntry) : gmap SocketAddrV4 BdtEntry :=
  match d with
  | i0 :: i1 :: i2 :: i3 :: p1 :: p0 :: m0 :: m1 :: m2 :: m3 :: d' =>
      let e := BdtEntry_new now ((i0, i1, i2, i3), u16_from_be p1 p0) (m0, m1, m2, m3) in
      decode_bdt_chunks now d' (<[bdt_address e := e]> m)
  | _ => m
  end.
Definition decode_and_replace (now : Z) (d : list Z) : stM BroadcastDistributionTable BbmdError unit := fun t =>
  if negb (zlen d mod 10 =? 0) then (Err BbInvalidFormat, t)
  else (Ok tt, BDT_set (decode_bdt_chunks now d ∅) t).

Definition seconds (s : Z) : Z := s * 1000000000.

Record FdtEntry : Set := { fdt_address : SocketAddrV4; ttl_seconds : Z; time_remaining : Z; registered_at : Z }.
Definition FdtEntry_new (now : Z) (address : SocketAddrV4) (ttl : Z) : FdtEntry :=
  {| fdt_address := address; ttl_seconds := ttl; time_remaining := seconds ttl; registered_at := now |}.
Definition fdt_elapsed (now : Z) (e : FdtEntry) : Z := Z.max 0 (now - registered_at e).
Definition fdt_is_expired (now : Z) (e : FdtEntry) : bool := seconds (ttl_seconds e) <? fdt_elapsed now e.
Definition remaining_time (now : Z) (e : FdtEntry) : Z := Z.max 0 (seconds (ttl_seconds e) - fdt_elapsed now e).
Definition refresh (now ttl : Z) (e : FdtEntry) : FdtEntry :=
  {| fdt_address := fdt_address e; ttl_seconds := ttl; time_remaining := seconds ttl; registered_at := now |}.

Record ForeignDeviceTable : Set := { fdt_entries : gmap SocketAddrV4 FdtEntry; fdt_max_entries : nat }.
Definition FDT_new (max : nat) : ForeignDeviceTable := {| fdt_entries := ∅; fdt_max_entries := max |}.
Definition FDT_set (m : gmap SocketAddrV4 FdtEntry) (t : ForeignDeviceTable) : ForeignDeviceTable :=
  {| fdt_entries := m; fdt_max_entries := fdt_max_entries t |}.

Definition FDT_register (now : Z) (address : SocketAddrV4) (ttl : Z) : stM ForeignDeviceTable BbmdError unit := fun t =>
  match fdt_entries t !! address with
  | Some e => (Ok tt, FDT_set (<[address := refresh now ttl e]> (fdt_entries t)) t)
  | None =>
      if (fdt_max_entries t <=? size (fdt_entries t))%nat then (Err BbTableFull, t)
      else (Ok tt, FDT_set (<[address := FdtEntry_new now address ttl]> (fdt_entries t)) t)
  end.
Definition FDT_remove (a : SocketAddrV4) (t : ForeignDeviceTable) : option FdtEntry * ForeignDeviceTable :=
  (fdt_entries t !! a, FDT_set (delete a (fdt_entries t)) t).
Definition FDT_is_registered (now : Z) (a : SocketAddrV4) (t : ForeignDeviceTable) : bool :=
  match fdt_entries t !! a with Some e => negb (fdt_is_expired now e) | None => false end.
(** The ages are read once for all the entries. *)
Definition FDT_cleanup_expired (now : Z) (t : ForeignDeviceTable) : nat * ForeignDeviceTable :=
  let live := filter (fun kv => fdt_is_expired now kv.2 = false) (fdt_entries t) in
  ((size (fdt_entries t) - size live)%nat, FDT_set live t).

Definition encode_fdt_entry (now : Z) (e : FdtEntry) : list Z :=
  octets (fdt_address e).1 ++ u16_to_be (fdt_address e).2 ++ u16_to_be (ttl_seconds e)
  ++ u16_to_be (Z.min (remaining_time now e / 1000000000) 65535).

(* ------------------------------------------------------------------ *)
(** * The manager *)

Record BbmdConfig : Set := {
  bbmd_enabled : bool; max_bdt_entries : nat; max_fdt_entries : nat; cleanup_interval : Z; accept_foreign_devices : bool }.
Definition BbmdConfig_default : BbmdConfig :=
  {| bbmd_enabled := false; max_bdt_entries := 128; max_fdt_entries := 256; cleanup_interval := seconds 30;
     accept_foreign_devices := true |}.

Record Bbmd : Set := { bbmd_config : BbmdConfig; bdt : BroadcastDistributionTable; fdt : ForeignDeviceTable }.
Definition Bbmd_new (c : BbmdConfig) : Bbmd :=
  {| bbmd_config := c; bdt := BDT_new (max_bdt_entries c); fdt := FDT_new (max_fdt_entries c) |}.
Definition bbmd_set_bdt (t : BroadcastDistributionTable) (b : Bbmd) : Bbmd :=
  {| bbmd_config := bbmd_config b; bdt := t; fdt := fdt b |}.
Definition bbmd_set_fdt (t : ForeignDeviceTable) (b : Bbmd) : Bbmd :=
  {| bbmd_config := bbmd_config b; bdt := bdt b; fdt := t |}.
Definition is_enabled (b : Bbmd) : bool := bbmd_enabled (bbmd_config b).

(** The iteration order of the two maps. *)
Class MapOrder : Type := {
  bdt_order : gmap SocketAddrV4 BdtEntry → list BdtEntry;
  fdt_order : gmap SocketAddrV4 FdtEntry → list FdtEntry;
  bdt_order_spec m : bdt_order m ≡ₚ (map_to_list m).*2;
  fdt_order_spec m : fdt_order m ≡ₚ (map_to_list m).*2
}.

Section Manager.
Context `{MapOrder}.

Definition BDT_encode (t : BroadcastDistributionTable) : list Z := flat_map encode_bdt_entry (bdt_order (bdt_entries t)).
Definition active_entries (now : Z) (t : ForeignDeviceTable) : list FdtEntry :=
  filter (fun e => fdt_is_expired now e = false) (fdt_order (fdt_entries t)).
Definition FDT_encode (now : Z) (t : ForeignDeviceTable) : list Z := flat_map (encode_fdt_entry now) (active_entries now t).

Definition table_message (f : BvlcFunction) (d : list Z) : BvlcMessage :=
  {| bv_header := {| bv_function := f; bv_length := as_u16 (4 + zlen d) |};
     bv_npdu := d; original_source := None; bv_result_code := None |}.

Definition handle_register_foreign_device (now : Z) (source : SocketAddrV4) (d : list Z) (b : Bbmd) : BvlcMessage * Bbmd :=
  if negb (accept_foreign_devices (bbmd_config b)) then (BvlcMessage_result RegisterForeignDeviceNak, b)
  else match d with
  | hi :: lo :: _ =>
      let '(r, t) := FDT_register now source (u16_from_be hi lo) (fdt b) in
      (BvlcMessage_result (if is_ok r then BvSuccess else RegisterForeignDeviceNak), bbmd_set_fdt t b)
  | _ => (BvlcMessage_result RegisterForeignDeviceNak, b)
  end.
Definition handle_read_fdt (now : Z) (b : Bbmd) : BvlcMessage :=
  table_message ReadForeignDeviceTableAck (FDT_encode now (fdt b)).
Definition handle_delete_fdt_entry (d : list Z) (b : Bbmd) : BvlcMessage * Bbmd :=
  match d with
  | i0 :: i1 :: i2 :: i3 :: p1 :: p0 :: _ =>
      let '(r, t) := FDT_remove ((i0, i1, i2, i3), u16_from_be p1 p0) (fdt b) in
      (BvlcMessage_result (if is_some r then BvSuccess else DeleteFdtEntryNak), bbmd_set_fdt t b)
  | _ => (BvlcMessage_result DeleteFdtEntryNak, b)
  end.
Definition handle_read_bdt (b : Bbmd) : BvlcMessage :=
  table_message ReadBroadcastDistributionTableAck (BDT_encode (bdt b)).
Definition handle_write_bdt (now : Z) (d : list Z) (b : Bbmd) : BvlcMessage * Bbmd :=
  let '(r, t) := decode_and_replace now d (bdt b) in
  (BvlcMessage_result (if is_ok r then BvSuccess else WriteBdtNak), bbmd_set_bdt t b).

Definition handle_message (now : Z) (msg : BvlcMessage) (source : SocketAddrV4) (b : Bbmd) : option BvlcMessage * Bbmd :=
  if negb (is_enabled b) then (None, b)
  else match bv_function (bv_header msg) with
  | RegisterForeignDevice => let '(m, b') := handle_register_foreign_device now source (bv_npdu msg) b in (Some m, b')
  | ReadForeignDeviceTable => (Some (handle_read_fdt now b), b)
  | DeleteForeignDeviceTableEntry => let '(m, b') := handle_delete_fdt_entry (bv_npdu msg) b in (Some m, b')
  | ReadBroadcastDistributionTable => (Some (handle_read_bdt b), b)
  | WriteBroadcastDistributionTable => let '(m, b') := handle_write_bdt now (bv_npdu msg) b in (Some m, b')
  | DistributeBroadcastToNetwork => (None, b)
  | _ => (None, b)
  end.

Definition not_excluded (exclude : option SocketAddrV4) (a : SocketAddrV4) : bool :=
  match exclude with Some e => negb (bool_decide (e = a)) | None => true end.
Definition get_forward_addresses (now : Z) (exclude : option SocketAddrV4) (b : Bbmd) : list SocketAddrV4 :=
  filter (fun a => not_excluded exclude a = true)
    ((bdt_address <$> bdt_order (bdt_entries (bdt b))) ++ (fdt_address <$> active_entries now (fdt b))).

Definition Bbmd_cleanup (now : Z) (b : Bbmd) : nat * Bbmd :=
  let '(n, t) := FDT_cleanup_expired now (fdt b) in (n, bbmd_set_fdt t b).
End Manager.

(* ------------------------------------------------------------------ *)
(** * Invariant *)

(** Entries are stored under their own address, and the foreign device table respects its limit. *)
Record bbmd_ok (b : Bbmd) : Prop := {
  bo_bdt a e : bdt_entries (bdt b) !! a = Some e → bdt_address e = a;
  bo_fdt a e : fdt_entries (fdt b) !! a = Some e → fdt_address e = a;
  bo_size : (size (fdt_entries (fdt b)) <= fdt_max_entries (fdt b))%nat
}.

(** What happens to a manager: a message, or the periodic cleanup, at a time. *)
Inductive BbmdEvent : Set := BeMessage (now : Z) (msg : BvlcMessage) (source : SocketAddrV4) | BeCleanup (now : Z).

Section Runs.
Context `{MapOrder}.

Definition bbmd_step (b : Bbmd) (ev : BbmdEvent) : Bbmd :=
  match ev with
  | BeMessage now msg source => (handle_message now msg source b).2
  | BeCleanup now => (Bbmd_cleanup now b).2
  end.

Lemma decode_bdt_keys now d m :
  (∀ a e, m !! a = Some e → bdt_address e = a) → ∀ a e, decode_bdt_chunks now d m !! a = Some e → bdt_address e = a.
Proof.
  remember (length d) as n eqn:Hn. revert d m Hn. induction n as [n IH] using lt_wf_ind. intros d m -> Hm.
  destruct d as [|i0 [|i1 [|i2 [|i3 [|p1 [|p0 [|m0 [|m1 [|m2 [|m3 d]]]]]]]]]]; try done. cbn [decode_bdt_chunks].
  eapply IH; [|reflexivity|]; [simpl; lia|]. intros a e [[<- <-]|[_ Hl]]%lookup_insert_Some; [done|by apply Hm].
Qed.

Lemma fdt_register_ok now a ttl b :
  bbmd_ok b → bbmd_ok (bbmd_set_fdt (FDT_register now a ttl (fdt b)).2 b).
Proof.
  intros [Hb Hf Hs]. unfold FDT_register. destruct (fdt_entries (fdt b) !! a) as [e|] eqn:He.
  - split; [done| |]; cbn.
    + intros a' e' [[<- <-]|[_ Hl]]%lookup_insert_Some; [exact (Hf _ _ He)|by apply Hf].
    + by rewrite map_size_insert_Some by eauto.
  - destruct (Nat.leb_spec (fdt_max_entries (fdt b)) (size (fdt_entries (fdt b)))); [done|]. split; [done| |]; cbn.
    + intros a' e' [[<- <-]|[_ Hl]]%lookup_insert_Some; [done|by apply Hf].
    + rewrite map_size_insert_None by done. lia.
Qed.

Lemma bbmd_step_ok b ev : bbmd_ok b → bbmd_ok (bbmd_step b ev).
Proof.
  intros Hok. destruct ev as [now msg source|now]; cbn [bbmd_step].
  - unfold handle_message. destruct (negb _); [done|]. destruct (bv_function _); try done; cbn [snd].
    + unfold handle_write_bdt, decode_and_replace. destruct (negb _); [by destruct b; destruct Hok; split|].
      destruct Hok as [Hb Hf Hs]. split; [|done..]. cbn. apply decode_bdt_keys. done.
    + unfold handle_register_foreign_device. destruct (negb _); [done|]. destruct (bv_npdu msg) as [|hi [|lo d]]; try done.
      pose proof (fdt_register_ok now source (u16_from_be hi lo) b Hok) as Hr.
      by destruct (FDT_register now source (u16_from_be hi lo) (fdt b)).
    + unfold handle_delete_fdt_entry. destruct (bv_npdu msg) as [|i0 [|i1 [|i2 [|i3 [|p1 [|p0 d]]]]]]; try done.
      destruct Hok as [Hb Hf Hs]. split; [done| |]; cbn [bbmd_set_fdt FDT_remove FDT_set fdt fdt_entries fdt_max_entries snd].
      * intros a e [_ Hl]%lookup_delete_Some. by apply Hf.
      * etrans; [|exact Hs]. apply map_subseteq_size, delete_subseteq.
  - destruct Hok as [Hb Hf Hs]. split; [done| |];
      cbn [Bbmd_cleanup FDT_cleanup_expired bbmd_set_fdt FDT_set fdt fdt_entries fdt_max_entries snd].
    + intros a e [Hl _]%map_lookup_filter_Some. by apply Hf.
    + etrans; [|exact Hs]. apply map_subseteq_size, map_filter_subseteq.
Qed.

Lemma elem_of_forward now exclude b a :
  bbmd_ok b →
  a ∈ get_forward_addresses now exclude b ↔
  exclude ≠ Some a ∧ (is_Some (bdt_entries (bdt b) !! a) ∨ FDT_is_registered now a (fdt b) = true).
Proof.
  intros [Hb Hf _]. unfold get_forward_addresses. rewrite list_elem_of_filter, elem_of_app, !list_elem_of_fmap.
  assert (not_excluded exclude a = true ↔ exclude ≠ Some a) as ->.
  { unfold not_excluded. destruct exclude as [e|]; [|done]. rewrite negb_true_iff, bool_decide_eq_false. split; congruence. }
  assert ((∃ e, a = bdt_address e ∧ e ∈ bdt_order (bdt_entries (bdt b))) ↔ is_Some (bdt_entries (bdt b) !! a)) as ->.
  { setoid_rewrite bdt_order_spec. setoid_rewrite list_elem_of_fmap. split.
    - intros (e & -> & [a' e'] & -> & Hin%elem_of_map_to_list). cbn. rewrite (Hb _ _ Hin). by exists e'.
    - intros [e He]. exists e. rewrite (Hb _ _ He). split; [done|]. exists (a, e). by rewrite elem_of_map_to_list. }
  assert ((∃ e, a = fdt_address e ∧ e ∈ active_entries now (fdt b)) ↔ FDT_is_registered now a (fdt b) = true) as ->; [|done].
  unfold active_entries, FDT_is_registered. setoid_rewrite list_elem_of_filter. setoid_rewrite fdt_order_spec.
  setoid_rewrite list_elem_of_fmap. split.
  - intros (e & -> & Hexp & [a' e'] & -> & Hin%elem_of_map_to_list). cbn in *. rewrite (Hf _ _ Hin), Hin. by rewrite Hexp.
  - destruct (fdt_entries (fdt b) !! a) as [e|] eqn:He; [|done]. intros Hexp%negb_true_iff. exists e.
    rewrite (Hf _ _ He). split_and!; [done|done|]. exists (a, e). by rewrite elem_of_map_to_list.
Qed.
End Runs.

(* ------------------------------------------------------------------ *)
(** * Theorems *)

Section Theorems.
Context `{MapOrder}.

(** The event neither registers [a] again nor deletes it, and happens at or after [t0]. *)
Definition leaves_alone (a : SocketAddrV4) (t0 now : Z) (ev : BbmdEvent) : Prop :=
  match ev with
  | BeMessage t msg source =>
      (bv_function (bv_header msg) = RegisterForeignDevice → source ≠ a) ∧
      (bv_function (bv_header msg) = DeleteForeignDeviceTableEntry →
         ∀ d, bv_npdu msg ≠ octets a.1 ++ u16_to_be a.2 ++ d)
  | BeCleanup t => t <= now
  end.

(** [a] is in the table as registered at [t0], unless its time has passed. *)
Definition registered_since (a : SocketAddrV4) (t0 ttl now : Z) (t : ForeignDeviceTable) : Prop :=
  match fdt_entries t !! a with
  | Some e => ttl_seconds e = ttl ∧ registered_at e = t0
  | None => t0 + seconds ttl < now
  end.

Lemma registered_since_expiry a t0 ttl now t :
  registered_since a t0 ttl now t → t0 <= now → 0 <= ttl → FDT_is_registered now a t = bool_decide (now <= t0 + seconds ttl).
Proof.
  intros Hr Hn Ht. unfold registered_since, FDT_is_registered in *. destruct (fdt_entries t !! a) as [e|].
  - destruct Hr as [Httl Hreg]. unfold fdt_is_expired, fdt_elapsed. rewrite Httl, Hreg. unfold seconds in *.
    case_bool_decide; [apply negb_true_iff, Z.ltb_ge|apply negb_false_iff, Z.ltb_lt]; lia.
  - symmetry. apply bool_decide_eq_false. lia.
Qed.

Lemma step_registered a t0 ttl now b ev :
  addr_v4_ok a → registered_since a t0 ttl now (fdt b) → 0 <= ttl → leaves_alone a t0 now ev →
  (∀ t msg s, ev = BeMessage t msg s → bytes_ok (bv_npdu msg)) →
  registered_since a t0 ttl now (fdt (bbmd_step b ev)).
Proof.
  intros Ha Hr Httl Hev Hbytes. destruct ev as [t msg source|t]; cbn [bbmd_step leaves_alone] in *.
  - destruct Hev as [Hreg Hdel]. unfold handle_message. destruct (negb (is_enabled b)); [done|].
    destruct (bv_function (bv_header msg)) eqn:Hf; try done; cbn [snd].
    + unfold handle_write_bdt. by destruct (decode_and_replace _ _ _).
    + unfold handle_register_foreign_device. destruct (negb _); [done|]. destruct (bv_npdu msg) as [|hi [|lo d]]; try done.
      unfold FDT_register, registered_since in *. specialize (Hreg eq_refl).
      destruct (fdt_entries (fdt b) !! source) as [e|]; [|destruct (_ <=? _)%nat; [done|]];
        cbn [snd bbmd_set_fdt fdt FDT_set fdt_entries]; by rewrite lookup_insert_ne.
    + unfold handle_delete_fdt_entry. destruct (bv_npdu msg) as [|i0 [|i1 [|i2 [|i3 [|p1 [|p0 d]]]]]] eqn:Hd; try done.
      unfold FDT_remove, registered_since in *. cbn [snd bbmd_set_fdt fdt FDT_set fdt_entries].
      rewrite lookup_delete_ne; [done|]. intros <-. apply (Hdel eq_refl d). cbn [octets fst snd app].
      specialize (Hbytes _ _ _ eq_refl). rewrite Hd in Hbytes. unfold bytes_ok in Hbytes.
      rewrite !Forall_cons in Hbytes. destruct_and!. by rewrite u16_to_from_be.
  - unfold registered_since in *. unfold Bbmd_cleanup, FDT_cleanup_expired.
    cbn [snd bbmd_set_fdt fdt FDT_set fdt_entries]. rewrite map_lookup_filter.
    destruct (fdt_entries (fdt b) !! a) as [e|] eqn:He; cbn; [|done]. destruct Hr as [Ht0 Hreg].
    destruct (decide (fdt_is_expired t e = false)) as [Hx|Hx]; [by rewrite option_guard_True|].
    rewrite option_guard_False by done. unfold fdt_is_expired, fdt_elapsed in Hx. rewrite Ht0, Hreg in Hx.
    apply not_false_iff_true, Z.ltb_lt in Hx. cbn. unfold seconds in *. lia.
Qed.

Lemma run_registered a t0 ttl now evs b :
  addr_v4_ok a → registered_since a t0 ttl now (fdt b) → 0 <= ttl → Forall (leaves_alone a t0 now) evs →
  Forall (fun ev => ∀ t msg s, ev = BeMessage t msg s → bytes_ok (bv_npdu msg)) evs →
  registered_since a t0 ttl now (fdt (foldl bbmd_step b evs)).
Proof.
  intros Ha Hr Httl. revert b Hr. induction evs as [|ev evs IH]; intros b Hr; [done|].
  intros [Hev Hevs]%Forall_cons [Hb Hbs]%Forall_cons. cbn. apply IH; [|done..]. by apply step_registered.
Qed.

Lemma run_bbmd_ok evs b : bbmd_ok b → bbmd_ok (foldl bbmd_step b evs).
Proof. revert b. induction evs as [|ev evs IH]; intros b Hb; [done|]. apply IH. by apply bbmd_step_ok. Qed.

(** A foreign device gets the broadcasts of the network for as long as it registered for, and
    no longer. After a successful registration of [a] for [ttl] seconds, whatever messages the
    manager handles (other than a new registration or a deletion of [a]) and whenever it cleans
    up, [a] is among the addresses a broadcast is forwarded to exactly until the time to live has
    passed (unless it is the sender itself, or also a peer of the distribution table). *)
Theorem foreign_device_lifetime b b0 msg a ttl t0 now evs exclude rest :
  bbmd_ok b → addr_v4_ok a → is_u16 ttl → t0 <= now →
  bv_function (bv_header msg) = RegisterForeignDevice → bv_npdu msg = u16_to_be ttl ++ rest →
  handle_message t0 msg a b = (Some (BvlcMessage_result BvSuccess), b0) →
  Forall (leaves_alone a t0 now) evs →
  Forall (fun ev => ∀ t msg s, ev = BeMessage t msg s → bytes_ok (bv_npdu msg)) evs →
  let b' := foldl bbmd_step b0 evs in
  a ∈ get_forward_addresses now exclude b' ↔
  exclude ≠ Some a ∧ (now <= t0 + seconds ttl ∨ is_Some (bdt_entries (bdt b') !! a)).
Proof.
  intros Hok Ha Httl Hnow Hf Hnpdu Hreg Hevs Hbytes.
  assert (bbmd_ok b0) as Hok0.
  { pose proof (bbmd_step_ok b (BeMessage t0 msg a) Hok) as Hs. cbn [bbmd_step] in Hs. by rewrite Hreg in Hs. }
  assert (registered_since a t0 ttl now (fdt b0)) as Hr0.
  { unfold handle_message in Hreg. destruct (negb (is_enabled b)); [done|]. rewrite Hf in Hreg.
    unfold handle_register_foreign_device in Hreg. destruct (negb _); [done|]. rewrite Hnpdu in Hreg.
    unfold u16_to_be in Hreg. cbn [app] in Hreg. rewrite u16_be_roundtrip in Hreg by done.
    unfold FDT_register in Hreg. unfold registered_since. destruct (fdt_entries (fdt b) !! a) as [e|].
    - injection Hreg as <-. cbn [bbmd_set_fdt fdt FDT_set fdt_entries]. by rewrite lookup_insert_eq.
    - destruct (_ <=? _)%nat; [done|]. injection Hreg as <-. cbn [bbmd_set_fdt fdt FDT_set fdt_entries]. by rewrite lookup_insert_eq. }
  cbn zeta. rewrite elem_of_forward by by apply run_bbmd_ok.
  rewrite (registered_since_expiry a t0 ttl now) by (try apply run_registered; try done; unfold is_u16 in *; lia).
  rewrite bool_decide_eq_true. tauto.
Qed.

(** ** The distribution table on the wire *)

Definition retime (now : Z) (e : BdtEntry) : BdtEntry := BdtEntry_new now (bdt_address e) (broadcast_mask e).
Definition bdt_entry_ok (e : BdtEntry) : Prop := addr_v4_ok (bdt_address e) ∧ ipv4_ok (broadcast_mask e).

Lemma decode_bdt_entries (now : Z) (l : list BdtEntry) (m : gmap SocketAddrV4 BdtEntry) :
  Forall bdt_entry_ok l →
  decode_bdt_chunks now (flat_map encode_bdt_entry l) m = foldl (fun m e => <[bdt_address e := retime now e]> m) m l.
Proof.
  intros Hl. revert m. induction Hl as [|e l He _ IH]; intros m; [done|]. cbn [flat_map foldl].
  destruct e as [[[[[i0 i1] i2] i3] port] [[[m0 m1] m2] m3] t]. destruct He as [[_ Hp] _].
  unfold encode_bdt_entry, u16_to_be. cbn [bdt_address broadcast_mask octets app fst snd decode_bdt_chunks].
  cbn in Hp. rewrite u16_be_roundtrip by done. apply IH.
Qed.

Lemma insert_all_values (now : Z) (l : list BdtEntry) (m : gmap SocketAddrV4 BdtEntry) :
  NoDup (bdt_address <$> l) → (∀ e, e ∈ l → m !! bdt_address e = None) →
  (map_to_list (foldl (fun m e => <[bdt_address e := retime now e]> m) m l)).*2 ≡ₚ (retime now <$> l) ++ (map_to_list m).*2.
Proof.
  revert m. induction l as [|e l IH]; intros m; [done|]. cbn. intros [Hni Hnd]%NoDup_cons Hm.
  rewrite IH; [|done|].
  - rewrite map_to_list_insert by (apply Hm; left). cbn. by rewrite Permutation_middle.
  - intros e' He'. rewrite lookup_insert_ne; [apply Hm; by right|]. intros Heq. apply Hni. rewrite Heq. by apply list_elem_of_fmap_2.
Qed.

Lemma encode_bdt_length l : zlen (flat_map encode_bdt_entry l) = 10 * zlen l.
Proof.
  induction l as [|e l IH]; [done|]. cbn [flat_map]. rewrite zlen_app, zlen_cons, IH.
  destruct e as [[[[[i0 i1] i2] i3] port] [[[m0 m1] m2] m3] t]. unfold encode_bdt_entry. cbn [bdt_address broadcast_mask octets app fst snd].
  change (zlen (i0 :: i1 :: i2 :: i3 :: u16_to_be port ++ [m0; m1; m2; m3])) with 10. lia.
Qed.

(** Writing the distribution table and reading it back: a Write-Broadcast-Distribution-Table
    message with the encoding of any peers with distinct addresses is accepted, replaces the
    table by exactly those peers - however many, the configured maximum is not consulted - and a
    later read returns their encoding, in some order. *)
Theorem bdt_write_read (now : Z) (l : list BdtEntry) (b : Bbmd) :
  NoDup (bdt_address <$> l) → Forall bdt_entry_ok l →
  let '(answer, b') := handle_write_bdt now (flat_map encode_bdt_entry l) b in
  answer = BvlcMessage_result BvSuccess ∧ size (bdt_entries (bdt b')) = length l ∧
  ∃ l', l' ≡ₚ l ∧ handle_read_bdt b' = table_message ReadBroadcastDistributionTableAck (flat_map encode_bdt_entry l').
Proof.
  intros Hnd Hl. unfold handle_write_bdt, decode_and_replace. rewrite encode_bdt_length.
  rewrite (proj2 (Z.eqb_eq _ 0)) by (rewrite Z.mul_comm; by apply Z.mod_mul). cbn [negb is_ok].
  rewrite decode_bdt_entries by done. set (m := foldl _ ∅ l).
  assert ((map_to_list m).*2 ≡ₚ retime now <$> l) as Hm.
  { unfold m. rewrite insert_all_values by (done || (intros; apply lookup_empty)). rewrite map_to_list_empty. by rewrite app_nil_r. }
  split_and!; [done| |].
  - cbn [bbmd_set_bdt bdt BDT_set bdt_entries]. rewrite <- length_map_to_list, <- (length_fmap snd), Hm. apply length_fmap.
  - unfold handle_read_bdt, BDT_encode. cbn [bbmd_set_bdt bdt BDT_set bdt_entries].
    assert (bdt_order m ≡ₚ map (retime now) l) as Ho by (rewrite bdt_order_spec; exact Hm).
    destruct (Permutation_map_inv _ _ Ho) as (l' & Hl' & Hperm). exists l'. split; [done|]. f_equal. rewrite Hl'. clear. induction l' as [|e l' IH]; [done|]. cbn. rewrite IH. by destruct e.
Qed.
End Theorems.

(** ** Witnesses *)

Definition map_order : MapOrder :=
  {| bdt_order m := (map_to_list m).*2; fdt_order m := (map_to_list m).*2;
     bdt_order_spec _ := Permutation_refl _; fdt_order_spec _ := Permutation_refl _ |}.
Definition sample_bbmd : Bbmd :=
  Bbmd_new {| bbmd_enabled := true; max_bdt_entries := 1; max_fdt_entries := 2; cleanup_interval := seconds 30;
              accept_foreign_devices := true |}.
Definition sample_device : SocketAddrV4 := ((192, 168, 1, 9), 47808).
Definition register_message (ttl : Z) : BvlcMessage :=
  {| bv_header := {| bv_function := RegisterForeignDevice; bv_length := 6 |}; bv_npdu := u16_to_be ttl;
     original_source := None; bv_result_code := None |}.

Lemma foreign_device_lifetime_witness :
  sample_device ∈ get_forward_addresses (H:=map_order) (seconds 60) None
    (foldl (bbmd_step (H:=map_order)) (handle_message (H:=map_order) 0 (register_message 60) sample_device sample_bbmd).2
      [BeCleanup (seconds 30)]) ∧
  ¬ sample_device ∈ get_forward_addresses (H:=map_order) (seconds 61) None
    (foldl (bbmd_step (H:=map_order)) (handle_message (H:=map_order) 0 (register_message 60) sample_device sample_bbmd).2
      [BeCleanup (seconds 30)]).
Proof.
  assert (bbmd_ok sample_bbmd) as Hok by (split; [intros ? ? [=]|intros ? ? [=]|vm_compute; lia]).
  assert (∀ now, seconds 60 <= now → sample_device ∈ get_forward_addresses (H:=map_order) now None
    (foldl (bbmd_step (H:=map_order)) (handle_message (H:=map_order) 0 (register_message 60) sample_device sample_bbmd).2
      [BeCleanup (seconds 30)]) ↔ now <= 0 + seconds 60) as Hiff.
  { intros now Hnow. unfold seconds in *. rewrite (foreign_device_lifetime (H:=map_order) sample_bbmd _ (register_message 60) sample_device 60 0 now
      [BeCleanup (30 * 1000000000)] None [] Hok ltac:(closed) ltac:(closed) ltac:(lia) eq_refl (eq_sym (app_nil_r _)) eq_refl).
    - unfold seconds. split; [|intros ?; split; [discriminate|by left]]. intros [_ [?|Hb]]; [done|].
      exfalso. revert Hb. vm_compute. by intros [? [=]].
    - constructor; [|constructor]. cbn. lia.
    - constructor; [|constructor]. discriminate. }
  unfold seconds in *. split; [apply Hiff; lia|]. rewrite Hiff by lia. lia.
Defined.

(** Two peers in a table configured for one. *)
Lemma bdt_write_read_witness :
  ∃ b', size (bdt_entries (bdt b')) = 2%nat ∧ bdt_max_entries (bdt sample_bbmd) = 1%nat ∧
  (handle_write_bdt 5 (flat_map encode_bdt_entry
    [BdtEntry_new 0 ((10, 0, 1, 1), 47808) (255, 255, 255, 255); BdtEntry_new 0 ((10, 0, 2, 1), 47808) (255, 255, 255, 255)])
    sample_bbmd).2 = b'.
Proof.
  pose proof (bdt_write_read (H:=map_order) 5
    [BdtEntry_new 0 ((10, 0, 1, 1), 47808) (255, 255, 255, 255); BdtEntry_new 0 ((10, 0, 2, 1), 47808) (255, 255, 255, 255)]
    sample_bbmd) as Hw.
  destruct (handle_write_bdt _ _ _) as [m b']. exists b'. split_and!; [|reflexivity|reflexivity].
  destruct Hw as (_ & Hs & _); [|repeat constructor; closed|exact Hs].
  cbn. apply NoDup_cons_2; [|apply NoDup_singleton]. intros [=]%list_elem_of_singleton.
Defined.
