(* ===== verification/BacnetServer.v ===== *)
(** The BACnet/IP server ([mabi-bacnet/src/server/bacnet_server.rs]): from a received packet to the
    packets sent in answer.

    The model processes one packet at a time, as the server's receive loop does; the environment
    of a packet gives the clock readings and which of the sends fail.  Metrics, events and log
    output are left out.  A panic ends the receive task and is kept as a result. *)

From S2P Require Import Prelude BacnetNet BacnetBbmd BacnetSegment BacnetTsm BacnetValue BacnetApdu BacnetObject BacnetRegistry BacnetService.

(** Message texts are dropped. *)
Inductive BacnetError : Set := BeProtocol | BeIo.

Record ServerConfig : Set := { sc_device_instance : Z; sc_max_apdu_length : Z }.

Inductive ProcessedResponse : Set :=
| PrSingle (apdu : list Z) (dest : SocketAddr)
| PrSegmented (segments : list (list Z)) (dest : SocketAddr) (invoke_id service_choice : Z)
| PrNone.

(** The clock readings while a packet is processed, and whether its [i]-th send succeeds. *)
Record PacketEnv : Type := {
  now_tsm : Z;
  now_bbmd : Z;
  now_segment : nat → Z;
  send_ok : nat → bool
}.

(* ------------------------------------------------------------------ *)
(** * Response APDUs *)

Definition build_error_apdu (invoke_id service_choice : Z) (c : ErrorClass) (e : ErrorCode) : list Z :=
  encode_error_pdu invoke_id service_choice (ErrorClass_as_u32 c) (ErrorCode_as_u32 e).
Definition build_reject_apdu (invoke_id reason : Z) : list Z := encode_reject_pdu invoke_id reason.
Definition build_abort_apdu (invoke_id : Z) (r : AbortReason) : list Z :=
  encode_abort_pdu invoke_id (AbortReason_as_u8 r) true.
Definition build_segment_ack_apdu (invoke_id seq window : Z) (sent_by_server : bool) : list Z :=
  encode_segment_ack_pdu invoke_id seq window sent_by_server false.

(* ------------------------------------------------------------------ *)
(** * The server *)

Section Server.
Context {O : Type} `{BACnetObject O} `{MapOrder} `{BuildProfile}.
(** [DefaultHasher] of the standard library, whose algorithm is unspecified. *)
Variable hash_socket_addr : SocketAddr → Z.

Record BACnetServer : Type := {
  sv_config : ServerConfig;
  sv_objects : ObjectRegistry O;
  sv_services : ServiceRegistry O;
  sv_tsm : ServerTsm;
  sv_assembler : SegmentAssembler;
  sv_transmitter : SegmentTransmitter;
  sv_bbmd : Bbmd
}.

Definition sv_set_objects (o : ObjectRegistry O) (s : BACnetServer) : BACnetServer :=
  {| sv_config := sv_config s; sv_objects := o; sv_services := sv_services s; sv_tsm := sv_tsm s;
     sv_assembler := sv_assembler s; sv_transmitter := sv_transmitter s; sv_bbmd := sv_bbmd s |}.
Definition sv_set_tsm (t : ServerTsm) (s : BACnetServer) : BACnetServer :=
  {| sv_config := sv_config s; sv_objects := sv_objects s; sv_services := sv_services s; sv_tsm := t;
     sv_assembler := sv_assembler s; sv_transmitter := sv_transmitter s; sv_bbmd := sv_bbmd s |}.
Definition sv_set_assembler (a : SegmentAssembler) (s : BACnetServer) : BACnetServer :=
  {| sv_config := sv_config s; sv_objects := sv_objects s; sv_services := sv_services s; sv_tsm := sv_tsm s;
     sv_assembler := a; sv_transmitter := sv_transmitter s; sv_bbmd := sv_bbmd s |}.
Definition sv_set_bbmd (b : Bbmd) (s : BACnetServer) : BACnetServer :=
  {| sv_config := sv_config s; sv_objects := sv_objects s; sv_services := sv_services s; sv_tsm := sv_tsm s;
     sv_assembler := sv_assembler s; sv_transmitter := sv_transmitter s; sv_bbmd := b |}.

(** The parts of [BACnetServer::new] the model keeps; the service registry and the objects are
    given. *)
Definition BACnetServer_new (c : ServerConfig) (objects : ObjectRegistry O) (services : ServiceRegistry O) : BACnetServer :=
  {| sv_config := c; sv_objects := objects; sv_services := services; sv_tsm := ServerTsm_new;
     sv_assembler := SegmentAssembler_default;
     sv_transmitter := SegmentTransmitter_new (Z.to_nat (sc_max_apdu_length c - 5));
     sv_bbmd := Bbmd_new BbmdConfig_default |}.

Definition Srv (A : Type) : Type := stM BACnetServer BacnetError A.

(** Runs a handler against the objects. *)
Definition on_objects {A} (m : stM (ObjectRegistry O) Empty_set A) : Srv A := fun s =>
  let '(r, o) := m (sv_objects s) in
  (match r with Ok a => Ok a | Err e => match e with end | Panic => Panic end, sv_set_objects o s).

(** [complete_transaction], and no response when the configured faults drop it. *)
Definition finish (key : TransactionKey) (apdu : list Z) (response : ProcessedResponse) : Srv ProcessedResponse := fun s =>
  let '(r, t) := complete_transaction key apdu (sv_tsm s) in
  (let? should_send := r in Ok (if should_send : bool then response else PrNone), sv_set_tsm t s).

(** The end of [dispatch_and_respond].  With a segment size of zero the segmentation loop never
    ends; like a panic, that stops the receive loop. *)
Definition respond (key : TransactionKey) (source : SocketAddr) (invoke_id service_choice : Z) (result : ServiceResult)
    : Srv ProcessedResponse := fun s =>
  match result with
  | SrSimpleAck =>
      let apdu := [0x20; invoke_id; service_choice] in finish key apdu (PrSingle apdu source) s
  | SrComplexAck data =>
      let apdu := [0x30; invoke_id; service_choice] ++ data in
      if 3 + zlen data <=? sc_max_apdu_length (sv_config s) then finish key apdu (PrSingle apdu source) s
      else if needs_segmentation (sv_transmitter s) (length data) then
        match segment (sv_transmitter s) data invoke_id with
        | Some segments => finish key apdu (PrSegmented (seg_data <$> segments) source invoke_id service_choice) s
        | None => (Panic, s)
        end
      else finish key apdu (PrSingle apdu source) s
  | SrError c e =>
      let apdu := build_error_apdu invoke_id service_choice c e in finish key apdu (PrSingle apdu source) s
  | SrReject reason =>
      let apdu := build_reject_apdu invoke_id reason in finish key apdu (PrSingle apdu source) s
  | SrAbort reason =>
      let apdu := build_abort_apdu invoke_id reason in finish key apdu (PrSingle apdu source) s
  | SrNoResponse | SrBroadcast _ => (Ok PrNone, s)
  end.

Definition dispatch_and_respond (env : PacketEnv) (invoke_id service_choice : Z) (data : list Z) (ctx : ServiceContext)
    (source : SocketAddr) : Srv ProcessedResponse := fun s =>
  let key : TransactionKey := (source, invoke_id) in
  let '(r, t) := begin_transaction (now_tsm env) key service_choice (sv_tsm s) in
  let s := sv_set_tsm t s in
  match r with
  | Ok (Some cached_response) => (Ok (PrSingle cached_response source), s)
  | Err DuplicateInProgress => (Ok PrNone, s)
  | Err AtCapacity => (Ok (PrSingle (build_abort_apdu invoke_id ArOutOfResources) source), s)
  | Panic => (Panic, s)
  | Ok None =>
      (do? result := on_objects (dispatch_confirmed (sv_services s) service_choice data (BacnetService.with_invoke_id invoke_id ctx)) in
       respond key source invoke_id service_choice result) s
  end.

(** The branch of [process_confirmed_request] for a segmented request. *)
Definition process_segmented_request (env : PacketEnv) (apdu : list Z) (invoke_id : Z) (more_follows : bool)
    (ctx : ServiceContext) (source : SocketAddr) : Srv ProcessedResponse := fun s =>
  if zlen apdu <? 5 then (Ok (PrSingle (build_abort_apdu invoke_id ArOther) source), s)
  else
    match index apdu 3 with
    | Err e => (Err e, s)
    | Panic => (Panic, s)
    | Ok sequence_number =>
        if (sequence_number =? 0) && (zlen apdu <? 6) then
          (Ok (PrSingle (build_reject_apdu invoke_id (RejectReason_as_u8 RrMissingRequiredParameter)) source), s)
        else
          let seg := if sequence_number =? 0
                     then with_service_choice (Segment_new sequence_number more_follows invoke_id (drop 6 apdu)) (default 0 (apdu !! 5%nat))
                     else Segment_new sequence_number more_follows invoke_id (drop 5 apdu) in
          let source_hash := hash_socket_addr source in
          let '(r, a) := process_segment (now_segment env) source_hash seg (sv_assembler s) in
          let s := sv_set_assembler a s in
          match r with
          | Ok (NeedAck ack_seq) => (Ok (PrSingle (build_segment_ack_apdu invoke_id ack_seq DEFAULT_WINDOW_SIZE true) source), s)
          | Ok ArComplete =>
              let '(r, a) := get_complete source_hash invoke_id (sv_assembler s) in
              let s := sv_set_assembler a s in
              match r with
              | Some (data, service_choice) => dispatch_and_respond env invoke_id (default 0 service_choice) data ctx source s
              | None => (Ok (PrSingle (build_abort_apdu invoke_id ArOther) source), s)
              end
          | Ok ArDuplicate => (Ok PrNone, s)
          | Err _ => (Ok (PrSingle (build_abort_apdu invoke_id ArOther) source), s)
          | Panic => (Panic, s)
          end
    end.

Definition process_confirmed_request (env : PacketEnv) (apdu : list Z) (ctx : ServiceContext) (source : SocketAddr)
    : Srv ProcessedResponse :=
  match apdu with
  | pdu_type_byte :: _ :: invoke_id :: rest =>
      let segmented := negb (Z.land pdu_type_byte 0x08 =? 0) in
      let more_follows := negb (Z.land pdu_type_byte 0x04 =? 0) in
      if segmented then process_segmented_request env apdu invoke_id more_follows ctx source
      else match rest with
      | service_choice :: service_data => dispatch_and_respond env invoke_id service_choice service_data ctx source
      | [] => st_ret (PrSingle (build_reject_apdu invoke_id (RejectReason_as_u8 RrMissingRequiredParameter)) source)
      end
  | _ => st_ret PrNone
  end.

Definition process_unconfirmed_request (apdu : list Z) (ctx : ServiceContext) (source : SocketAddr) : Srv ProcessedResponse :=
  match apdu with
  | _ :: service_choice :: service_data => fun s =>
      (do? result := on_objects (dispatch_unconfirmed (sv_services s) service_choice service_data ctx) in
       st_ret (match result with
               | SrBroadcast data => PrSingle ([0x10; UnconfirmedService_as_u8 UsIAm] ++ data) source
               | _ => PrNone
               end)) s
  | _ => st_err BeProtocol
  end.

(* ------------------------------------------------------------------ *)
(** ** Sending *)

(** The server, the number of sends attempted for this packet, and what was sent. *)
Record World : Type := { w_server : BACnetServer; w_attempts : nat; w_sent : list (list Z * SocketAddr) }.
Definition Io (A : Type) : Type := stM World BacnetError A.

Definition serve {A} (m : Srv A) : Io A := fun w =>
  let '(r, s) := m (w_server w) in (r, {| w_server := s; w_attempts := w_attempts w; w_sent := w_sent w |}).

(** [NetworkHandle::send_to] *)
Definition send_to (env : PacketEnv) (bytes : list Z) (dest : SocketAddr) : Io unit := fun w =>
  if send_ok env (w_attempts w)
  then (Ok tt, {| w_server := w_server w; w_attempts := S (w_attempts w); w_sent := w_sent w ++ [(bytes, dest)] |})
  else (Err BeIo, {| w_server := w_server w; w_attempts := S (w_attempts w); w_sent := w_sent w |}).

(** The NPDU and BVLC around a response, after those of the request. *)
Definition wrap_response (npdu : Npdu) (bvlc : BvlcMessage) (apdu : list Z) : list Z :=
  let response_npdu := if expecting_reply (np_control npdu) then Npdu_simple apdu else Npdu_no_reply apdu in
  let response_bvlc := if BvlcMessage_is_broadcast bvlc then original_broadcast (Npdu_encode response_npdu)
                       else original_unicast (Npdu_encode response_npdu) in
  BvlcMessage_encode response_bvlc.

Definition send_response (env : PacketEnv) (apdu : list Z) (dest : SocketAddr) (npdu : Npdu) (bvlc : BvlcMessage) : Io unit :=
  send_to env (wrap_response npdu bvlc apdu) dest.

(** The APDU of the [i]-th of [total] segments; the sequence number is [i as u8]. *)
Definition segment_apdu (invoke_id service_choice : Z) (total i : nat) (d : list Z) : list Z :=
  encode_segmented_complex_ack_header invoke_id (as_u8 (Z.of_nat i)) DEFAULT_WINDOW_SIZE (S i <? total)%nat service_choice ++ d.

Fixpoint send_segments (env : PacketEnv) (i total : nat) (segments : list (list Z)) (dest : SocketAddr)
    (invoke_id service_choice : Z) (npdu : Npdu) (bvlc : BvlcMessage) : Io unit :=
  match segments with
  | [] => st_ret tt
  | d :: rest =>
      do? _ := send_to env (wrap_response npdu bvlc (segment_apdu invoke_id service_choice total i d)) dest in
      send_segments env (S i) total rest dest invoke_id service_choice npdu bvlc
  end.
Definition send_segmented_response (env : PacketEnv) (segments : list (list Z)) (dest : SocketAddr)
    (invoke_id service_choice : Z) (npdu : Npdu) (bvlc : BvlcMessage) : Io unit :=
  send_segments env 0 (length segments) segments dest invoke_id service_choice npdu bvlc.

(* ------------------------------------------------------------------ *)
(** ** Packets *)

Record IncomingPacket : Set := { pk_source : SocketAddr; pk_bvlc : option BvlcMessage }.

(** [IncomingPacket::new]: [None] for what is no BVLC message. *)
Definition IncomingPacket_new (data : list Z) (source : SocketAddr) : outcome Empty_set IncomingPacket :=
  match BvlcMessage_decode data with
  | Ok m => Ok {| pk_source := source; pk_bvlc := Some m |}
  | Err _ => Ok {| pk_source := source; pk_bvlc := None |}
  | Panic => Panic
  end.

(** Forwards to every address; a failing send is logged and the next one is tried. *)
Fixpoint forward_all (env : PacketEnv) (bytes : list Z) (addrs : list SocketAddrV4) : Io unit :=
  match addrs with
  | [] => st_ret tt
  | a :: addrs' => fun w => forward_all env bytes addrs' (send_to env bytes (V4 a) w).2
  end.

Definition source_v4 (a : SocketAddr) : SocketAddrV4 := match a with V4 a => a | V6 _ _ _ _ => ((0, 0, 0, 0), 0) end.

Definition forward_broadcast (env : PacketEnv) (bvlc : BvlcMessage) (source : SocketAddr) : Io unit := fun w =>
  let forward_addrs := get_forward_addresses (now_bbmd env) (Some (source_v4 source)) (sv_bbmd (w_server w)) in
  match forward_addrs with
  | [] => (Ok tt, w)
  | _ => forward_all env (BvlcMessage_encode (forwarded_npdu (bv_npdu bvlc) (source_v4 source))) forward_addrs w
  end.

(** The BBMD part of [process_packet]: whether the packet is done with. *)
Definition process_bbmd (env : PacketEnv) (bvlc : BvlcMessage) (source : SocketAddr) : Io bool := fun w =>
  if is_enabled (sv_bbmd (w_server w)) then
    match bv_function (bv_header bvlc) with
    | RegisterForeignDevice | ReadForeignDeviceTable | DeleteForeignDeviceTableEntry
    | ReadBroadcastDistributionTable | WriteBroadcastDistributionTable =>
        match source with
        | V6 _ _ _ _ => (Ok true, w)
        | V4 a =>
            let '(r, b) := handle_message (now_bbmd env) bvlc a (sv_bbmd (w_server w)) in
            let w := {| w_server := sv_set_bbmd b (w_server w); w_attempts := w_attempts w; w_sent := w_sent w |} in
            match r with
            | Some response => st_map (fun _ => true) (send_to env (BvlcMessage_encode response) source) w
            | None => (Ok true, w)
            end
        end
    | DistributeBroadcastToNetwork | OriginalBroadcastNpdu =>
        st_map (fun _ => false) (forward_broadcast env bvlc source) w
    | _ => (Ok false, w)
    end
  else (Ok false, w).

Definition process_apdu (env : PacketEnv) (npdu : Npdu) (bvlc : BvlcMessage) (source : SocketAddr) : Io unit := fun w =>
  match Npdu_apdu npdu with
  | [] => (Err BeProtocol, w)
  | b :: _ =>
      let apdu := Npdu_apdu npdu in
      match ApduType_from_nibble (Z.land (Z.shiftr b 4) 0x0F) with
      | None => (Err BeProtocol, w)
      | Some t =>
          let ctx := BacnetService.with_source_address source (ServiceContext_new (sc_device_instance (sv_config (w_server w)))) in
          let send r :=
            match r with
            | PrSingle apdu dest => send_response env apdu dest npdu bvlc
            | PrSegmented segments dest id sc => send_segmented_response env segments dest id sc npdu bvlc
            | PrNone => st_ret tt
            end in
          match t with
          | AtConfirmedRequest => (do? r := serve (process_confirmed_request env apdu ctx source) in send r) w
          | AtUnconfirmedRequest => (do? r := serve (process_unconfirmed_request apdu ctx source) in send r) w
          | _ => (Ok tt, w)
          end
      end
  end.

Definition process_packet (env : PacketEnv) (packet : IncomingPacket) : Io unit :=
  match pk_bvlc packet with
  | None => st_err BeProtocol
  | Some bvlc =>
      do? finished := process_bbmd env bvlc (pk_source packet) in
      if finished : bool then st_ret tt
      else match BvlcMessage_npdu bvlc with
      | None => st_ret tt
      | Some npdu_data =>
          match Npdu_decode npdu_data with
          | Err _ => st_err BeProtocol
          | Panic => st_lift Panic
          | Ok npdu => if network_layer_message (np_control npdu) then st_ret tt else process_apdu env npdu bvlc (pk_source packet)
          end
      end
  end.

(** The receive loop's step for one packet: the datagrams sent and the server afterwards; an error
    is only logged.  [None] when a panic ends the loop. *)
Definition receive_packet (env : PacketEnv) (packet : IncomingPacket) (s : BACnetServer)
    : option (list (list Z * SocketAddr) * BACnetServer) :=
  let '(r, w) := process_packet env packet {| w_server := s; w_attempts := 0; w_sent := [] |} in
  if is_panic r then None else Some (w_sent w, w_server w).

(** The periodic cleanup of the main loop. *)
Definition periodic_cleanup (env : PacketEnv) (s : BACnetServer) : BACnetServer :=
  let s := if is_enabled (sv_bbmd s) then sv_set_bbmd (Bbmd_cleanup (now_bbmd env) (sv_bbmd s)).2 s else s in
  sv_set_assembler (SegmentAssembler_cleanup (now_segment env 0) (sv_assembler s)).2 s.
End Server.
Arguments BACnetServer O : clear implicits.
Arguments World O : clear implicits.

(* ------------------------------------------------------------------ *)
(** * Lemmas *)

(** A datagram that carries an APDU to or from the server, unicast and expecting a reply. *)
Definition datagram (apdu : list Z) : list Z := BvlcMessage_encode (original_unicast (Npdu_encode (Npdu_simple apdu))).

(** An unsegmented confirmed request; [accepts] is the flag for segmented answers. *)
Definition confirmed_request (accepts : bool) (max_info id sc : Z) (data : list Z) : list Z :=
  [if accepts then 0x02 else 0x00; max_info; id; sc] ++ data.

Section ServerLemmas.
Context {O : Type} `{BACnetObject O} `{MapOrder} `{BuildProfile}.
Variable hash : SocketAddr → Z.
Implicit Types (s : BACnetServer O) (env : PacketEnv) (source : SocketAddr).

(** Reception of raw bytes. *)
Definition receive_datagram (env : PacketEnv) (bytes : list Z) (source : SocketAddr) (s : BACnetServer O)
    : option (list (list Z * SocketAddr) * BACnetServer O) :=
  match IncomingPacket_new bytes source with
  | Ok packet => receive_packet hash env packet s
  | _ => None
  end.

Lemma npdu_simple_length apdu : zlen (Npdu_encode (Npdu_simple apdu)) = 2 + zlen apdu.
Proof. cbn. change (?a :: ?b :: apdu) with ([a; b] ++ apdu). rewrite zlen_app. done. Qed.

Lemma npdu_simple_decodes apdu : Npdu_decode (Npdu_encode (Npdu_simple apdu)) = Ok (Npdu_simple apdu).
Proof. apply bacnet_npdu_roundtrip. done. Qed.

Lemma packet_of_datagram apdu source :
  zlen apdu < 65530 →
  IncomingPacket_new (datagram apdu) source =
  Ok {| pk_source := source; pk_bvlc := Some (original_unicast (Npdu_encode (Npdu_simple apdu))) |}.
Proof.
  intros Hl. unfold IncomingPacket_new, datagram, original_unicast. rewrite original_decodes; [done..|].
  rewrite npdu_simple_length. lia.
Qed.

(** What the server does with the response it has prepared. *)
Definition deliver (env : PacketEnv) (apdu : list Z) (r : ProcessedResponse) : Io (O:=O) unit :=
  match r with
  | PrSingle a dest => send_to env (datagram a) dest
  | PrSegmented segments dest id sc =>
      send_segmented_response env segments dest id sc (Npdu_simple apdu) (original_unicast (Npdu_encode (Npdu_simple apdu)))
  | PrNone => st_ret tt
  end.

(** A unicast confirmed request reaches [process_confirmed_request]. *)
Lemma receive_confirmed env apdu b rest source s :
  zlen apdu < 65530 → apdu = b :: rest → Z.land (Z.shiftr b 4) 0x0F = 0 →
  receive_datagram env (datagram apdu) source s =
  (let '(r, w) := (do? r := serve (process_confirmed_request hash env apdu
       (BacnetService.with_source_address source (ServiceContext_new (sc_device_instance (sv_config s)))) source) in
     deliver env apdu r) {| w_server := s; w_attempts := 0; w_sent := [] |} in
   if is_panic r then None else Some (w_sent w, w_server w)).
Proof.
  intros Hl -> Hb. unfold receive_datagram. rewrite packet_of_datagram by done. unfold receive_packet, process_packet.
  cbn [pk_bvlc pk_source].
  rewrite (st_bind_ok _ _ _ false {| w_server := s; w_attempts := 0; w_sent := [] |}).
  2: { unfold process_bbmd. by destruct (is_enabled _). }
  cbv iota. unfold BvlcMessage_npdu.
  change (has_npdu (bv_function (bv_header (original_unicast (Npdu_encode (Npdu_simple (b :: rest)))))) &&
    negb (match bv_npdu (original_unicast (Npdu_encode (Npdu_simple (b :: rest)))) with [] => true | _ => false end)) with true.
  cbv iota. change (bv_npdu (original_unicast ?n)) with n. rewrite npdu_simple_decodes.
  cbn [network_layer_message np_control Npdu_simple]. unfold process_apdu.
  change (Npdu_apdu (Npdu_simple (b :: rest))) with (b :: rest). cbv iota. rewrite Hb.
  cbn [ApduType_from_nibble w_server]. reflexivity.
Qed.

Lemma process_unsegmented env accepts max_info id sc data ctx source :
  process_confirmed_request (O:=O) hash env (confirmed_request accepts max_info id sc data) ctx source =
  dispatch_and_respond env id sc data ctx source.
Proof. by destruct accepts. Qed.
End ServerLemmas.

(* ------------------------------------------------------------------ *)
(** * Transactions across packets *)

(** What a packet from [source], processed at [now], may do to the transaction table. *)
Definition own_event (source : SocketAddr) (now : Z) (ev : TsmEvent) : Prop :=
  match ev with
  | EvBegin n key _ => n = now ∧ key.1 = source
  | EvComplete key _ => key.1 = source
  | EvCleanup _ => False
  end.
Definition moves `{BuildProfile} (source : SocketAddr) (now : Z) (t t' : ServerTsm) : Prop :=
  ∃ evs, tsm_run evs t = Some t' ∧ (length evs <= 2)%nat ∧ Forall (own_event source now) evs.

Lemma moves_refl `{BuildProfile} source now t : moves source now t t.
Proof. exists []. split; [done|]. split; [simpl; lia|constructor]. Qed.

(** The error type of [complete_transaction] plays no role. *)
Lemma complete_poly `{BuildProfile} {E F} key resp t :
  (complete_transaction (E:=E) key resp t).2 = (complete_transaction (E:=F) key resp t).2 ∧
  is_panic (complete_transaction (E:=E) key resp t).1 = is_panic (complete_transaction (E:=F) key resp t).1.
Proof.
  unfold complete_transaction. set (t1 := match transactions t !! key with Some _ => _ | None => t end). clearbody t1.
  destruct (drop_threshold _); [|done]. unfold checked_op.
  repeat match goal with |- context [if ?b then _ else _] => destruct b; try done end.
Qed.

Section Moves.
Context {O : Type} `{BACnetObject O} `{MapOrder} `{BuildProfile}.
Variable hash : SocketAddr → Z.
Implicit Types (s : BACnetServer O) (env : PacketEnv) (source : SocketAddr).

(** Every branch of [respond] finishes the transaction once, panics, or leaves the server alone. *)
Lemma respond_cases key source id sc result s r s' :
  respond key source id sc result s = (r, s') →
  (∃ apdu x, finish key apdu x s = (r, s')) ∨ r = Panic ∨ s' = s.
Proof.
  destruct result as [|d|c e|x|x| |]; cbn [respond]; try (intros Hr; left; by do 2 eexists); try (intros [= <- <-]; by right; right).
  repeat case_match; intros Hr; try (left; by do 2 eexists). injection Hr as <- <-. auto.
Qed.

Lemma dispatch_moves env id sc data ctx source s r s' :
  dispatch_and_respond env id sc data ctx source s = (r, s') → is_panic r = false →
  moves source (now_tsm env) (sv_tsm s) (sv_tsm s').
Proof.
  unfold dispatch_and_respond. destruct (begin_transaction _ _ _ _) as [rb t] eqn:Hb.
  assert (is_panic rb = false → tsm_step (EvBegin (now_tsm env) (source, id) sc) (sv_tsm s) = Some t) as Hstep.
  { intros Hp. cbn [tsm_step]. by rewrite Hb, Hp. }
  assert (is_panic rb = false → moves source (now_tsm env) (sv_tsm s) t) as Hone.
  { intros Hp. exists [EvBegin (now_tsm env) (source, id) sc]. cbn [tsm_run]. rewrite (Hstep Hp). cbn.
    split; [done|]. split; [lia|]. by repeat constructor. }
  destruct rb as [[cached|]|[|]|]; try (intros [= <- <-] _; by apply Hone); [|by intros [= <- <-]].
  unfold st_bind, on_objects. destruct (dispatch_confirmed _ _ _ _ _) as [[result|[]|] o]; cbn; [|by intros [= <- <-]].
  intros Hr Hp. apply respond_cases in Hr as [(apdu & x & Hf)|[->| ->]]; [|done|by apply Hone].
  unfold finish in Hf. cbn in Hf. destruct (complete_transaction (source, id) apdu t) as [rc t'] eqn:Hc.
  injection Hf as <- <-. assert (is_panic rc = false) as Hrc by (by destruct rc).
  exists [EvBegin (now_tsm env) (source, id) sc; EvComplete (source, id) apdu]. cbn [tsm_run]. rewrite Hstep by done.
  cbn [mbind option_bind tsm_step]. destruct (complete_poly (E:=BacnetError) (F:=Empty_set) (source, id) apdu t) as [Ht' Hp'].
  rewrite Hc in Ht', Hp'. cbn in Ht', Hp'. destruct (complete_transaction (E:=Empty_set) (source, id) apdu t) as [rc2 t2]. cbn in Ht', Hp'.
  rewrite <- Hp', Hrc. cbn. split; [by rewrite Ht'|]. split; [lia|]. by repeat constructor.
Qed.

Lemma confirmed_moves env apdu ctx source s r s' :
  process_confirmed_request hash env apdu ctx source s = (r, s') → is_panic r = false →
  moves source (now_tsm env) (sv_tsm s) (sv_tsm s').
Proof.
  unfold process_confirmed_request. destruct apdu as [|b [|m [|id rest]]]; try (intros [= <- <-] _; apply moves_refl).
  destruct (negb (Z.land b 8 =? 0)).
  2: { destruct rest; [intros [= <- <-] _; apply moves_refl|apply dispatch_moves]. }
  unfold process_segmented_request. destruct (_ <? 5); [intros [= <- <-] _; apply moves_refl|].
  destruct (index _ _); [|intros [= <- <-] _; apply moves_refl..].
  destruct (_ && _); [intros [= <- <-] _; apply moves_refl|].
  destruct (process_segment _ _ _ _) as [[[k| |]|e|] a']; try (intros [= <- <-] _; apply moves_refl).
  destruct (get_complete _ _ _) as [[[d sc]|] a2]; [|intros [= <- <-] _; apply moves_refl].
  intros Hd Hp. by apply dispatch_moves in Hd.
Qed.

Lemma unconfirmed_moves apdu ctx source s r s' :
  process_unconfirmed_request apdu ctx source s = (r, s') → sv_tsm s' = sv_tsm s.
Proof.
  unfold process_unconfirmed_request. destruct apdu as [|b [|sc data]]; try (by intros [= <- <-]).
  unfold st_bind, on_objects. destruct (dispatch_unconfirmed _ _ _ _ _) as [[result|[]|] o]; cbn; by intros [= <- <-].
Qed.

(** Sending does not touch the server. *)
Definition quiet {A} (m : Io (O:=O) A) : Prop := ∀ w, w_server (m w).2 = w_server w.

Lemma quiet_send env bytes dest : quiet (send_to env bytes dest).
Proof. intros w. unfold send_to. by destruct (send_ok _ _). Qed.
Lemma quiet_bind {A B} (m : Io A) (k : A → Io B) : quiet m → (∀ a, quiet (k a)) → quiet (st_bind m k).
Proof. intros Hm Hk w. unfold st_bind. specialize (Hm w). destruct (m w) as [[a|e|] w']; cbn in *; [|done..]. by rewrite Hk. Qed.
Lemma quiet_segments env i n l dest id sc npdu bvlc : quiet (send_segments env i n l dest id sc npdu bvlc).
Proof.
  revert i. induction l as [|d l IH]; intros i; [done|]. cbn. apply quiet_bind; [apply quiet_send|done].
Qed.
Lemma quiet_forward env bytes addrs : quiet (forward_all env bytes addrs).
Proof.
  induction addrs as [|a addrs IH]; [done|]. intros w. cbn. rewrite (IH (send_to env bytes (V4 a) w).2). apply quiet_send.
Qed.
Lemma quiet_broadcast env bvlc source : quiet (forward_broadcast env bvlc source).
Proof. intros w. unfold forward_broadcast. destruct (get_forward_addresses _ _ _); [done|]. apply quiet_forward. Qed.

Lemma bbmd_tsm env bvlc source (w : World O) : sv_tsm (w_server (process_bbmd env bvlc source w).2) = sv_tsm (w_server w).
Proof.
  unfold process_bbmd. destruct (is_enabled _); [|done].
  assert (sv_tsm (w_server (st_map (fun _ => false) (forward_broadcast env bvlc source) w).2) = sv_tsm (w_server w)) as Hb.
  { unfold st_map. pose proof (quiet_broadcast env bvlc source w) as Hq. destruct (forward_broadcast _ _ _ w) as [r w']. cbn in *. by rewrite Hq. }
  destruct (bv_function _); try done; destruct source; try done;
    destruct (handle_message _ _ _ _) as [[resp|] b]; try done; unfold st_map;
    match goal with |- context [send_to ?e ?b ?d ?w] => pose proof (quiet_send e b d w) as Hq; destruct (send_to e b d w) end;
    cbn in *; by rewrite Hq.
Qed.

(** A packet changes the transaction table only by its own transaction. *)
Lemma receive_moves env packet s sent s' :
  receive_packet hash env packet s = Some (sent, s') → moves (pk_source packet) (now_tsm env) (sv_tsm s) (sv_tsm s').
Proof.
  unfold receive_packet. destruct (process_packet _ _ _ _) as [r w] eqn:Hp. destruct (is_panic r) eqn:Hr; [done|].
  intros [= <- <-]. revert Hp Hr. unfold process_packet. destruct (pk_bvlc packet) as [bvlc|]; [|intros [= <- <-] _; apply moves_refl].
  unfold st_bind at 1. set (w0 := {| w_server := s; w_attempts := 0; w_sent := [] |}).
  pose proof (bbmd_tsm env bvlc (pk_source packet) w0) as Hb.
  destruct (process_bbmd env bvlc (pk_source packet) w0) as [[fin|e|] w1]; cbn in Hb;
    [|intros [= <- <-] _; rewrite Hb; apply moves_refl..].
  rewrite <- Hb. destruct fin; [intros [= <- <-] _; apply moves_refl|].
  destruct (BvlcMessage_npdu bvlc) as [d|]; [|intros [= <- <-] _; apply moves_refl].
  destruct (Npdu_decode d) as [npdu|e|]; [|intros [= <- <-] _; apply moves_refl..].
  destruct (network_layer_message _); [intros [= <- <-] _; apply moves_refl|].
  unfold process_apdu. destruct (Npdu_apdu npdu) as [|b rest]; [intros [= <- <-] _; apply moves_refl|].
  assert (∀ (x : ProcessedResponse), quiet (match x with
      | PrSingle apdu dest => send_response env apdu dest npdu bvlc
      | PrSegmented segments dest id sc => send_segmented_response env segments dest id sc npdu bvlc
      | PrNone => st_ret tt
      end)) as Hq.
  { intros [a dest|segs dest id sc|]; [apply quiet_send|apply quiet_segments|done]. }
  destruct (ApduType_from_nibble _) as [[]|]; try (intros [= <- <-] _; apply moves_refl); unfold st_bind, serve.
  - destruct (process_confirmed_request _ _ _ _ _ _) as [rc s1] eqn:Hc. intros Hs Hp.
    assert (is_panic rc = false) as Hrc by (destruct rc; [done|done|by injection Hs as <- <-]).
    apply confirmed_moves in Hc; [|done]. destruct rc as [x|e|]; [|by injection Hs as <- <-|done].
    specialize (Hq x {| w_server := s1; w_attempts := w_attempts w1; w_sent := w_sent w1 |}). rewrite Hs in Hq. cbn in Hq. by rewrite Hq.
  - destruct (process_unconfirmed_request _ _ _ _) as [rc s1] eqn:Hc. intros Hs Hp. apply unconfirmed_moves in Hc.
    destruct rc as [x|e|]; [|by injection Hs as <- <-; cbn; rewrite Hc; apply moves_refl..].
    specialize (Hq x {| w_server := s1; w_attempts := w_attempts w1; w_sent := w_sent w1 |}). rewrite Hs in Hq. cbn in Hq.
    rewrite Hq, Hc. apply moves_refl.
Qed.
End Moves.

(* ------------------------------------------------------------------ *)
(** * A request is executed once *)

(** The whole APDU of a result, when it has one. *)
Definition whole_apdu (id sc : Z) (r : ServiceResult) : option (list Z) :=
  match r with
  | SrSimpleAck => Some [0x20; id; sc]
  | SrComplexAck d => Some ([0x30; id; sc] ++ d)
  | SrError c e => Some (build_error_apdu id sc c e)
  | SrReject x => Some (build_reject_apdu id x)
  | SrAbort x => Some (build_abort_apdu id x)
  | SrNoResponse | SrBroadcast _ => None
  end.
(** Whether the configured faults drop the next answer, and that the counter they use does not overflow. *)
Definition answer_dropped (t : ServerTsm) : bool :=
  match drop_threshold (tsm_config t) with
  | Some threshold => (7 * total_transactions t + 13) mod 1000 <? threshold
  | None => false
  end.
Definition counter_ok (t : ServerTsm) : Prop := drop_threshold (tsm_config t) = None ∨ 0 <= total_transactions t < 2 ^ 61.

Section Exchange.
Context {O : Type} `{BACnetObject O} `{MapOrder} `{BuildProfile}.
Variable hash : SocketAddr → Z.
Implicit Types (s : BACnetServer O) (env : PacketEnv) (source : SocketAddr).

Lemma finish_plain key apdu x s : counter_ok (sv_tsm s) →
  finish key apdu x s =
  (Ok (if answer_dropped (sv_tsm s) then PrNone else x), sv_set_tsm (complete_transaction (E:=BacnetError) key apdu (sv_tsm s)).2 s).
Proof.
  intros Hd. unfold finish, complete_transaction, answer_dropped, counter_ok in *.
  set (t := match transactions (sv_tsm s) !! key with Some _ => _ | None => _ end).
  assert (tsm_config t = tsm_config (sv_tsm s) ∧ total_transactions t = total_transactions (sv_tsm s)) as [-> ->].
  { unfold t. by destruct (transactions (sv_tsm s) !! key). }
  destruct (drop_threshold _) as [threshold|]; [|done]. destruct Hd as [|Hd]; [done|].
  rewrite checked_op_exact, checked_op_exact by lia. rewrite (Z.mul_comm 7). by destruct (_ <? threshold).
Qed.

(** The answer goes out as one datagram unless a complex acknowledgement exceeds the APDU length. *)
Lemma respond_single key source id sc r s apdu :
  whole_apdu id sc r = Some apdu → (∀ d, r = SrComplexAck d → 3 + zlen d <= sc_max_apdu_length (sv_config s)) → counter_ok (sv_tsm s) →
  respond key source id sc r s =
  (Ok (if answer_dropped (sv_tsm s) then PrNone else PrSingle apdu source),
   sv_set_tsm (complete_transaction (E:=BacnetError) key apdu (sv_tsm s)).2 s).
Proof.
  intros Ha Hmax Hd. destruct r as [|d|c e|x|x| |]; cbn [whole_apdu respond] in *; try done; injection Ha as <-; try by apply finish_plain.
  rewrite (proj2 (Z.leb_le _ _)) by (by apply Hmax). by apply finish_plain.
Qed.

(** The context a request from [source] with this invoke id is handled in. *)
Definition request_context (s : BACnetServer O) (source : SocketAddr) (id : Z) : ServiceContext :=
  BacnetService.with_invoke_id id (BacnetService.with_source_address source (ServiceContext_new (sc_device_instance (sv_config s)))).

Lemma begin_config now key sc t r t' : begin_transaction now key sc t = (r, t') → is_panic r = false → tsm_config t' = tsm_config t.
Proof.
  intros Hb Hp. apply (run_config [EvBegin now key sc]). cbn [tsm_run tsm_step]. by rewrite Hb, Hp.
Qed.

(** A new request: executed, answered once, and remembered. *)
Lemma receive_new env accepts max_info id sc data source s t1 r objs apdu :
  zlen (confirmed_request accepts max_info id sc data) < 65530 → counter_ok t1 →
  begin_transaction (now_tsm env) (source, id) sc (sv_tsm s) = (Ok None, t1) →
  dispatch_confirmed (sv_services s) sc data (request_context s source id) (sv_objects s) = (Ok r, objs) →
  whole_apdu id sc r = Some apdu → (∀ d, r = SrComplexAck d → 3 + zlen d <= sc_max_apdu_length (sv_config s)) → send_ok env 0 = true →
  receive_datagram hash env (datagram (confirmed_request accepts max_info id sc data)) source s =
  Some (if answer_dropped t1 then [] else [(datagram apdu, source)],
        sv_set_tsm (complete_transaction (E:=BacnetError) (source, id) apdu t1).2 (sv_set_objects objs (sv_set_tsm t1 s))).
Proof.
  intros Hl Hd Hb Hdis Ha Hmax Hs.
  erewrite receive_confirmed; [|done|reflexivity|by destruct accepts].
  unfold st_bind, serve. cbn [w_server]. rewrite process_unsegmented. unfold dispatch_and_respond. rewrite Hb.
  rewrite (st_bind_ok _ _ _ r (sv_set_objects objs (sv_set_tsm t1 s))).
  2: { unfold on_objects. cbn [sv_services sv_objects sv_set_tsm]. unfold request_context in Hdis. by rewrite Hdis. }
  rewrite (respond_single _ _ _ _ _ _ apdu) by done. cbn [sv_tsm sv_set_objects sv_set_tsm]. destruct (answer_dropped t1); [done|].
  cbn [deliver]. unfold send_to. cbn [w_attempts]. rewrite Hs. reflexivity.
Qed.
(** A new request whose service has no answer. *)
Lemma receive_silent env accepts max_info id sc data source s t1 r objs :
  zlen (confirmed_request accepts max_info id sc data) < 65530 →
  begin_transaction (now_tsm env) (source, id) sc (sv_tsm s) = (Ok None, t1) →
  dispatch_confirmed (sv_services s) sc data (request_context s source id) (sv_objects s) = (Ok r, objs) →
  whole_apdu id sc r = None →
  receive_datagram hash env (datagram (confirmed_request accepts max_info id sc data)) source s =
  Some ([], sv_set_objects objs (sv_set_tsm t1 s)).
Proof.
  intros Hl Hb Hdis Ha. erewrite receive_confirmed; [|done|reflexivity|by destruct accepts].
  unfold st_bind, serve. cbn [w_server]. rewrite process_unsegmented. unfold dispatch_and_respond. rewrite Hb.
  rewrite (st_bind_ok _ _ _ r (sv_set_objects objs (sv_set_tsm t1 s))).
  2: { unfold on_objects. cbn [sv_services sv_objects sv_set_tsm]. unfold request_context in Hdis. by rewrite Hdis. }
  by destruct r.
Qed.

(** A duplicate: the whole answer that was kept, or nothing when there is none, and nothing executed. *)
Lemma receive_duplicate env accepts max_info id sc data source s c start n resp :
  zlen (confirmed_request accepts max_info id sc data) < 65530 →
  tracks c (source, id) start resp n (sv_tsm s) → n + 1 < 4294967296 → 0 <= duplicate_window c →
  now_tsm env <= start + duplicate_window c → send_ok env 0 = true →
  ∃ t', receive_datagram hash env (datagram (confirmed_request accepts max_info id sc data)) source s =
        Some (match resp with Some apdu => [(datagram apdu, source)] | None => [] end, sv_set_tsm t' s).
Proof.
  intros Hl Ht Hn Hw Hnow Hs. destruct (begin_duplicate c (source, id) start resp n (now_tsm env) sc (sv_tsm s)) as (t' & Hb & _); [done..|].
  exists t'. erewrite receive_confirmed; [|done|reflexivity|by destruct accepts].
  unfold st_bind, serve. cbn [w_server]. rewrite process_unsegmented. unfold dispatch_and_respond. rewrite Hb.
  destruct resp as [resp|]; [|done]. cbn [deliver]. unfold send_to. cbn [w_attempts]. rewrite Hs. reflexivity.
Qed.

(** Packets processed one after the other; [None] when one of them made the server panic. *)
Fixpoint receive_all (l : list (PacketEnv * IncomingPacket)) (s : BACnetServer O) : option (BACnetServer O) :=
  match l with
  | [] => Some s
  | (env, p) :: l' => '(_, s') ← receive_packet hash env p s; receive_all l' s'
  end.

Lemma moves_tracks c key start r n source now t t' :
  tracks c key start r n t → n + 2 < 4294967296 → 0 <= duplicate_window c → start <= now <= start + duplicate_window c →
  source ≠ key.1 → moves source now t t' → tracks c key start r (n + 2) t'.
Proof.
  intros Ht Hn Hw Hnow Hne (evs & Hrun & Hlen & Hown).
  assert (last_response key evs r = r) as Hlast.
  { clear -Hown Hne. induction Hown as [|ev evs Hev _ IH]; [done|]. destruct ev as [?? ?|k resp|]; cbn in *; [done| |done].
    rewrite decide_False; [done|]. intros ->. done. }
  assert (tracks c key start r (n + Z.of_nat (length evs)) t') as Hr.
  { rewrite <- Hlast. apply (run_tracks c key start evs r n t t'); [done|lia|done| |done].
    eapply Forall_impl; [done|]. intros [? ? ?| |]; cbn; [naive_solver|done|done]. }
  destruct Hr as (? & e & ? & ? & [? ?] & ? & ?). split; [done|]. exists e. split_and!; first [done|lia].
Qed.

Lemma others_track c key start r l n s s' :
  tracks c key start r n (sv_tsm s) → n + 2 * zlen l < 4294967296 → 0 <= duplicate_window c →
  Forall (fun p => pk_source p.2 ≠ key.1 ∧ start <= now_tsm p.1 <= start + duplicate_window c) l →
  receive_all l s = Some s' → tracks c key start r (n + 2 * zlen l) (sv_tsm s').
Proof.
  intros Ht Hn Hw Hl. revert n s Ht Hn. induction Hl as [|[env p] l [Hp Hnow] _ IH]; intros n s Ht Hn; cbn [receive_all].
  { intros [= <-]. by rewrite Z.add_0_r. }
  destruct (receive_packet hash env p s) as [[sent s1]|] eqn:Hr; [|done]. cbn [mbind option_bind]. intros Hrun.
  rewrite zlen_cons in *. pose proof (zlen_nonneg l).
  apply receive_moves in Hr. eapply moves_tracks in Hr; [|done|lia|done..].
  replace (n + 2 * (1 + zlen l)) with (n + 2 + 2 * zlen l) by lia. eapply IH; [done|lia|done].
Qed.

Lemma number_data id k chunks : seg_data <$> number id k chunks = chunks.
Proof. revert k. induction chunks as [|c cs IH]; intros k; [done|]. cbn. by rewrite IH. Qed.

(** The datagrams of a segmented answer, when all sends succeed. *)
Lemma send_segments_all env i total chunks dest id sc apdu (w : World O) :
  (∀ k, send_ok env k = true) →
  ∃ n, send_segments env i total chunks dest id sc (Npdu_simple apdu) (original_unicast (Npdu_encode (Npdu_simple apdu))) w =
    (Ok tt, {| w_server := w_server w; w_attempts := n;
               w_sent := w_sent w ++ imap (fun k c => (datagram (segment_apdu id sc total (i + k) c), dest)) chunks |}).
Proof.
  intros Hs. revert i w. induction chunks as [|c cs IH]; intros i w; cbn [send_segments].
  { exists (w_attempts w). cbn. rewrite app_nil_r. by destruct w. }
  unfold st_bind, send_to. rewrite Hs. cbn iota beta.
  edestruct IH as [n ->]. exists n. cbn [w_server w_sent imap]. rewrite <- app_assoc, Nat.add_0_r. cbn [app].
  do 4 f_equal. apply imap_ext. intros k x _. cbn. by rewrite Nat.add_succ_r.
Qed.

(** An answer that does not fit one APDU. *)
Lemma receive_oversized env accepts max_info id sc data source s t1 d objs :
  zlen (confirmed_request accepts max_info id sc data) < 65530 → counter_ok t1 →
  begin_transaction (now_tsm env) (source, id) sc (sv_tsm s) = (Ok None, t1) →
  dispatch_confirmed (sv_services s) sc data (request_context s source id) (sv_objects s) = (Ok (SrComplexAck d), objs) →
  5 < sc_max_apdu_length (sv_config s) < 3 + zlen d →
  max_segment_size (sv_transmitter s) = Z.to_nat (sc_max_apdu_length (sv_config s) - 5) →
  (∀ k, send_ok env k = true) →
  ∃ chunks,
    receive_datagram hash env (datagram (confirmed_request accepts max_info id sc data)) source s =
      Some (if answer_dropped t1 then [] else imap (fun k c => (datagram (segment_apdu id sc (length chunks) k c), source)) chunks,
            sv_set_tsm (complete_transaction (E:=BacnetError) (source, id) ([0x30; id; sc] ++ d) t1).2 (sv_set_objects objs (sv_set_tsm t1 s))) ∧
    concat chunks = d ∧ Forall (fun c => 0 < zlen c <= sc_max_apdu_length (sv_config s) - 5) chunks.
Proof.
  intros Hl Hd Hb Hdis Hmax Hsize Hs.
  destruct (segment_chunks (sv_transmitter s) d id) as (chunks & Hseg & Hcat & _ & Hok); [lia|].
  assert (max_segment_size (sv_transmitter s) < length d)%nat as Hneed by (unfold zlen in Hmax; lia).
  exists chunks. split; [|split; [done|]].
  2: { destruct Hok as [Hok|Hc].
       - eapply Forall_impl; [exact Hok|]. intros c Hc. unfold chunk_ok in Hc. unfold zlen. lia.
       - exfalso. unfold segment, needs_segmentation in Hseg. rewrite (proj2 (Nat.ltb_lt _ _)) in Hseg by done. cbn [negb] in Hseg.
         destruct (segment_loop_chunks (length d) (max_segment_size (sv_transmitter s)) d id 0 0) as (ch & Hl' & _ & Hch); [lia..|].
         change (Z.of_nat 0 mod 256) with 0 in Hl'. rewrite Hl' in Hseg. injection Hseg as Hseg.
         apply (f_equal (fmap seg_data)) in Hseg. rewrite !number_data in Hseg. subst ch. subst chunks.
         apply Forall_cons_1 in Hch as [Hch _]. unfold chunk_ok in Hch. lia. }
  erewrite receive_confirmed; [|done|reflexivity|by destruct accepts].
  unfold st_bind at 1, serve. cbn [w_server]. rewrite process_unsegmented. unfold dispatch_and_respond. rewrite Hb.
  rewrite (st_bind_ok _ _ _ (SrComplexAck d) (sv_set_objects objs (sv_set_tsm t1 s))).
  2: { unfold on_objects. cbn [sv_services sv_objects sv_set_tsm]. unfold request_context in Hdis. by rewrite Hdis. }
  cbn [respond sv_config sv_transmitter sv_set_objects sv_set_tsm]. rewrite (proj2 (Z.leb_gt _ _)) by lia.
  unfold needs_segmentation. rewrite (proj2 (Nat.ltb_lt _ _)) by done. rewrite Hseg, number_data.
  rewrite finish_plain by done. cbn [sv_tsm sv_set_objects sv_set_tsm]. destruct (answer_dropped t1); [done|].
  cbn [deliver]. unfold send_segmented_response.
  edestruct (send_segments_all env 0 (length chunks) chunks source id sc) as [n ->]; [done|]. reflexivity.
Qed.
Lemma segment_length id sc total k part max : zlen part <= max - 5 → zlen (segment_apdu id sc total k part) <= max.
Proof.
  intros Hp. unfold segment_apdu. rewrite zlen_app. unfold encode_segmented_complex_ack_header. change (zlen [_; _; _; _; _]) with 5. lia.
Qed.

(** What goes out for a new request: one datagram with the whole answer, or, for an acknowledgement longer
    than the configured APDU length, segments within that length that make it up in order. *)
Definition first_answer (max id sc : Z) (source : SocketAddr) (r : ServiceResult) (apdu : list Z) (sent : list (list Z * SocketAddr)) : Prop :=
  match r with
  | SrComplexAck d =>
      if 3 + zlen d <=? max then sent = [(datagram apdu, source)]
      else ∃ chunks, sent = imap (fun k part => (datagram (segment_apdu id sc (length chunks) k part), source)) chunks ∧
             concat chunks = d ∧ (∀ k part, chunks !! k = Some part → zlen (segment_apdu id sc (length chunks) k part) <= max)
  | _ => sent = [(datagram apdu, source)]
  end.

(** A new request, whatever its service answers: what goes out, and what the transaction keeps. *)
Lemma receive_first env accepts max_info id sc data source s t1 r objs :
  let max := sc_max_apdu_length (sv_config s) in
  zlen (confirmed_request accepts max_info id sc data) < 65530 → counter_ok t1 → tsm_ok (sv_tsm s) →
  begin_transaction (now_tsm env) (source, id) sc (sv_tsm s) = (Ok None, t1) →
  dispatch_confirmed (sv_services s) sc data (request_context s source id) (sv_objects s) = (Ok r, objs) →
  5 < max → max_segment_size (sv_transmitter s) = Z.to_nat (max - 5) → (∀ k, send_ok env k = true) →
  ∃ sent s1, receive_datagram hash env (datagram (confirmed_request accepts max_info id sc data)) source s = Some (sent, s1) ∧
    sv_objects s1 = objs ∧ tracks (tsm_config (sv_tsm s)) (source, id) (now_tsm env) (whole_apdu id sc r) 0 (sv_tsm s1) ∧
    match whole_apdu id sc r with
    | Some apdu => if answer_dropped t1 then sent = [] else first_answer max id sc source r apdu sent
    | None => sent = []
    end.
Proof.
  intros max Hl Hd Hok Hb Hdis Hmax Hsize Hs. pose proof (begin_new_admits _ _ _ _ _ Hok Hb) as Ht1.
  destruct (whole_apdu id sc r) as [apdu|] eqn:Ha.
  2: { do 2 eexists. split; [by eapply receive_silent|done]. }
  pose proof (complete_tracks (E:=BacnetError) _ _ _ _ _ (source, id) apdu t1 _ _ Ht1 (surjective_pairing _)) as Hc.
  rewrite decide_True in Hc by done.
  assert ((∃ d, r = SrComplexAck d ∧ max < 3 + zlen d) ∨ ∀ d, r = SrComplexAck d → 3 + zlen d <= max) as [[d [-> Hbig]]|Hsmall].
  { destruct r as [|d| | | | |]; try (right; by intros ?). destruct (Z.le_gt_cases (3 + zlen d) max); [right; by intros ? [= <-]|left; eauto]. }
  - injection Ha as <-. destruct (receive_oversized env accepts max_info id sc data source s t1 d objs) as (chunks & Hr & Hcat & Hch); [done..|].
    do 2 eexists. split; [exact Hr|]. split_and!; [done|done|]. destruct (answer_dropped t1); [done|]. cbn [first_answer].
    rewrite (proj2 (Z.leb_gt _ _)) by lia. exists chunks. split_and!; [done|done|].
    intros k part Hk. rewrite Forall_lookup in Hch. specialize (Hch k part Hk). apply segment_length. lia.
  - do 2 eexists. split; [by eapply receive_new|].
    split_and!; [done|done|]. destruct (answer_dropped t1); [done|]. unfold first_answer. destruct r; try done.
    by rewrite (proj2 (Z.leb_le _ _)) by (by apply Hsmall).
Qed.

(** An answer too long for one APDU goes out as segments: datagrams to the client whose APDUs all
    keep within the configured length and whose parts, in order, make up the whole answer. A
    repetition of the request is answered differently: with the whole answer as one APDU that
    exceeds the configured length. *)
Theorem oversized_answer_segmented env env' accepts max_info id sc data source s t1 d objs :
  let c := tsm_config (sv_tsm s) in
  let max := sc_max_apdu_length (sv_config s) in
  zlen (confirmed_request accepts max_info id sc data) < 65530 →
  drop_threshold c = None → 0 <= duplicate_window c → tsm_ok (sv_tsm s) →
  begin_transaction (now_tsm env) (source, id) sc (sv_tsm s) = (Ok None, t1) →
  dispatch_confirmed (sv_services s) sc data (request_context s source id) (sv_objects s) = (Ok (SrComplexAck d), objs) →
  5 < max < 3 + zlen d → max_segment_size (sv_transmitter s) = Z.to_nat (max - 5) →
  (∀ k, send_ok env k = true) → send_ok env' 0 = true →
  now_tsm env <= now_tsm env' <= now_tsm env + duplicate_window c →
  ∃ chunks s1 s2,
    receive_datagram hash env (datagram (confirmed_request accepts max_info id sc data)) source s =
      Some (imap (fun k part => (datagram (segment_apdu id sc (length chunks) k part), source)) chunks, s1) ∧
    concat chunks = d ∧ (∀ k part, chunks !! k = Some part → zlen (segment_apdu id sc (length chunks) k part) <= max) ∧
    receive_datagram hash env' (datagram (confirmed_request accepts max_info id sc data)) source s1 =
      Some ([(datagram ([0x30; id; sc] ++ d), source)], s2) ∧ max < zlen ([0x30; id; sc] ++ d).
Proof.
  intros c max Hl Hd Hw Hok Hb Hdis Hmax Hsize Hs Hs' Hnow. assert (drop_threshold (tsm_config t1) = None) as Hdt by (by erewrite begin_config).
  destruct (receive_oversized env accepts max_info id sc data source s t1 d objs) as (chunks & Hr & Hcat & Hch); [try done..|]; [by left|].
  assert (answer_dropped t1 = false) as Hnd by (unfold answer_dropped; by rewrite Hdt). rewrite Hnd in Hr.
  pose proof (begin_new_admits _ _ _ _ _ Hok Hb) as Ht1.
  pose proof (complete_tracks (E:=BacnetError) _ _ _ _ _ (source, id) ([0x30; id; sc] ++ d) t1 _ _ Ht1 (surjective_pairing _)) as Hc.
  rewrite decide_True in Hc by done.
  edestruct (receive_duplicate env' accepts max_info id sc data source
    (sv_set_tsm (complete_transaction (E:=BacnetError) (source, id) ([0x30; id; sc] ++ d) t1).2 (sv_set_objects objs (sv_set_tsm t1 s))))
    as [t' Hr']; [done|exact Hc|done|done|subst c; lia|done|].
  eexists chunks, _, _. split_and!; [exact Hr|done| |exact Hr'|rewrite zlen_app; change (zlen [_; _; _]) with 3; lia].
  intros k part Hk. rewrite Forall_lookup in Hch. specialize (Hch k part Hk). apply segment_length. lia.
Qed.
End Exchange.

(** A server with one analog value, and the packets of the witness. *)
Definition sample_server : BACnetServer StandardObject :=
  BACnetServer_new {| sc_device_instance := 1; sc_max_apdu_length := 1476 |} sample_registry property_services.
Definition quiet_env (now : Z) : PacketEnv :=
  {| now_tsm := now; now_bbmd := now; now_segment := fun _ => now; send_ok := fun _ => true |}.
Definition sample_client : SocketAddr := V4 ((10, 0, 0, 1), 47808).
Definition other_packet : IncomingPacket :=
  {| pk_source := V4 ((10, 0, 0, 2), 47808);
     pk_bvlc := Some (original_unicast (Npdu_encode (Npdu_simple (confirmed_request true 5 9 12
       (read_request {| object_type := OtAnalogValue; instance := 1 |} PiPresentValue None))))) |}.
Definition sample_write : list Z :=
  write_request {| object_type := OtAnalogValue; instance := 1 |} PiPresentValue None (VReal 0x41C80000) None.
#[local] Existing Instances debug_build map_order.

Definition after_write : option (BACnetServer StandardObject) :=
  snd <$> receive_datagram (fun _ => 0) (quiet_env 0) (datagram (confirmed_request true 5 7 15 sample_write)) sample_client sample_server.
Definition after_other : option (BACnetServer StandardObject) :=
  after_write ≫= receive_all (fun _ => 0) [(quiet_env 5, other_packet)].


(** The object's name does not fit an APDU of sixteen octets. *)
Definition small_server : BACnetServer StandardObject :=
  BACnetServer_new {| sc_device_instance := 1; sc_max_apdu_length := 16 |} sample_registry property_services.
Definition name_request : list Z := read_request {| object_type := OtAnalogValue; instance := 1 |} PiObjectName None.
Definition name_answer : list Z :=
  match (dispatch_confirmed property_services 12 name_request (request_context small_server sample_client 7) sample_registry).1 with
  | Ok (SrComplexAck d) => d
  | _ => []
  end.

Lemma oversized_answer_segmented_witness :
  ∃ chunks s1 s2,
    receive_datagram (fun _ => 0) (quiet_env 0) (datagram (confirmed_request true 5 7 12 name_request)) sample_client small_server =
      Some (imap (fun k part => (datagram (segment_apdu 7 12 (length chunks) k part), sample_client)) chunks, s1) ∧
    receive_datagram (fun _ => 0) (quiet_env 9) (datagram (confirmed_request true 5 7 12 name_request)) sample_client s1 =
      Some ([(datagram ([0x30; 7; 12] ++ name_answer), sample_client)], s2).
Proof.
  destruct (oversized_answer_segmented (fun _ => 0) (quiet_env 0) (quiet_env 9) true 5 7 12 name_request sample_client small_server
    (begin_transaction 0 (sample_client, 7) 12 (sv_tsm small_server)).2 name_answer
    (dispatch_confirmed property_services 12 name_request (request_context small_server sample_client 7) sample_registry).2)
    as (chunks & s1 & s2 & H1 & _ & _ & H2 & _).
  - vm_compute. reflexivity.
  - vm_compute. reflexivity.
  - vm_compute. discriminate.
  - apply new_ok.
  - vm_compute. reflexivity.
  - rewrite (surjective_pairing (dispatch_confirmed _ _ _ _ _)). f_equal.
  - vm_compute. split; reflexivity.
  - vm_compute. reflexivity.
  - reflexivity.
  - reflexivity.
  - vm_compute. split; discriminate.
  - exists chunks, s1, s2. split; [exact H1|exact H2].
Defined.
