(* ===== verification/BacnetCov.v ===== *)
(** BACnet change-of-value subscriptions: the subscription table and its notifications
    ([mabi-bacnet/src/service/cov.rs]), the services SubscribeCOV and SubscribeCOVProperty
    ([service/subscribe_cov.rs]), the polling step and the sender of the server
    ([server/bacnet_server.rs]).

    An operation reads the clock once.  The notification channel is the list of what is sent to
    it: a full channel makes its sender wait, and its receiver lives as long as the server. *)

From S2P Require Import Prelude BacnetNet BacnetValue BacnetApdu BacnetObject BacnetRegistry BacnetService.

(* ------------------------------------------------------------------ *)
(** * Subscriptions *)

Record CovSubscription : Set := {
  subscriber_address : SocketAddr;
  subscriber_process_id : Z;
  monitored_object : ObjectId;
  confirmed_notifications : bool;
  lifetime : option Z;  (* nanoseconds *)
  sub_cov_increment : option Z;
  sub_created_at : Z
}.

Definition CovSubscription_new (now : Z) (addr : SocketAddr) (pid : Z) (o : ObjectId) (confirmed : bool) (life : option Z)
    : CovSubscription :=
  {| subscriber_address := addr; subscriber_process_id := pid; monitored_object := o; confirmed_notifications := confirmed;
     lifetime := life; sub_cov_increment := None; sub_created_at := now |}.
Definition set_sub_increment (i : option Z) (s : CovSubscription) : CovSubscription :=
  {| subscriber_address := subscriber_address s; subscriber_process_id := subscriber_process_id s;
     monitored_object := monitored_object s; confirmed_notifications := confirmed_notifications s; lifetime := lifetime s;
     sub_cov_increment := i; sub_created_at := sub_created_at s |}.

(** [created_at.elapsed()] is zero for a clock that runs backwards. *)
Definition sub_elapsed (now : Z) (s : CovSubscription) : Z := Z.max 0 (now - sub_created_at s).
Definition sub_is_expired (now : Z) (s : CovSubscription) : bool :=
  match lifetime s with Some life => life <? sub_elapsed now s | None => false end.
(** [Duration::as_secs] cut to 32 bits. *)
Definition remaining_lifetime (now : Z) (s : CovSubscription) : option Z :=
  (fun life => let elapsed := sub_elapsed now s in
     if life <? elapsed then 0 else ((life - elapsed) / 1000000000) mod 4294967296) <$> lifetime s.

(** Address, process identifier and monitored object. *)
Definition SubscriptionKey : Set := SocketAddr * Z * ObjectId.
Definition sub_key (s : CovSubscription) : SubscriptionKey :=
  (subscriber_address s, subscriber_process_id s, monitored_object s).

Record CovNotification : Set := {
  cn_destination : SocketAddr;
  cn_subscriber_process_id : Z;
  cn_initiating_device : ObjectId;
  cn_monitored_object : ObjectId;
  cn_time_remaining : Z;
  cn_list_of_values : list (PropertyId * BACnetValue);
  cn_confirmed : bool
}.

Definition encode_listed (p : PropertyId * BACnetValue) : list Z :=
  encode_context_enumerated 0 (PropertyId_as_u32 p.1) ++ encode_opening_tag 2 ++ encode_value p.2 ++ encode_closing_tag 2.
Definition encode_service_data (n : CovNotification) : list Z :=
  encode_context_unsigned 0 (cn_subscriber_process_id n)
  ++ encode_context_object_identifier 1 (cn_initiating_device n)
  ++ encode_context_object_identifier 2 (cn_monitored_object n)
  ++ encode_context_unsigned 3 (cn_time_remaining n)
  ++ encode_opening_tag 4 ++ flat_map encode_listed (cn_list_of_values n) ++ encode_closing_tag 4.
Definition encode_unconfirmed (n : CovNotification) : list Z := encode_service_data n.
Definition encode_confirmed (n : CovNotification) (id : Z) : list Z :=
  [0x00; 0x05; id; ConfirmedService_as_u8 CsConfirmedCovNotification] ++ encode_service_data n.

Inductive CovError : Set := CeMaxSubscriptionsReached | CeSubscriptionNotFound | CeNotCovProperty.

Record CovManager : Set := {
  subscriptions : gmap SubscriptionKey CovSubscription;
  max_subscriptions : nat;
  cov_device_instance : Z
}.
Definition CovManager_new (instance : Z) (max : nat) : CovManager :=
  {| subscriptions := ∅; max_subscriptions := max; cov_device_instance := instance |}.
Definition set_subscriptions (m : gmap SubscriptionKey CovSubscription) (c : CovManager) : CovManager :=
  {| subscriptions := m; max_subscriptions := max_subscriptions c; cov_device_instance := cov_device_instance c |}.

Definition cov_cleanup_expired (now : Z) (c : CovManager) : CovManager :=
  set_subscriptions (filter (fun e => sub_is_expired now e.2 = false) (subscriptions c)) c.
Definition subscribe (now : Z) (s : CovSubscription) : stM CovManager CovError unit := fun c =>
  let full (c : CovManager) := (max_subscriptions c <=? size (subscriptions c))%nat in
  let c := if full c then cov_cleanup_expired now c else c in
  if full c then (Err CeMaxSubscriptionsReached, c)
  else (Ok tt, set_subscriptions (<[sub_key s := s]> (subscriptions c)) c).
Definition unsubscribe (addr : SocketAddr) (pid : Z) (o : ObjectId) (c : CovManager) : bool * CovManager :=
  (is_some (subscriptions c !! (addr, pid, o)), set_subscriptions (delete (addr, pid, o) (subscriptions c)) c).
Definition subscription_count (c : CovManager) : nat := size (subscriptions c).

(** The iteration orders of the subscription table and of the object table. *)
Class CovOrder : Type := {
  sub_order : gmap SubscriptionKey CovSubscription → list CovSubscription;
  object_order : gmap ObjectId StandardObject → list ObjectId;
  sub_order_spec m : sub_order m ≡ₚ (map_to_list m).*2;
  object_order_spec m : object_order m ≡ₚ (map_to_list m).*1
}.

Definition subscriptions_for_object `{CovOrder} (o : ObjectId) (c : CovManager) : list CovSubscription :=
  filter (fun s => monitored_object s = o) (sub_order (subscriptions c)).

Definition notification (now : Z) (device : ObjectId) (values : list (PropertyId * BACnetValue)) (s : CovSubscription)
    : CovNotification :=
  {| cn_destination := subscriber_address s; cn_subscriber_process_id := subscriber_process_id s;
     cn_initiating_device := device; cn_monitored_object := monitored_object s;
     cn_time_remaining := default 0 (remaining_lifetime now s); cn_list_of_values := values;
     cn_confirmed := confirmed_notifications s |}.
(** What is sent to the channel, in order. *)
Definition notify_change `{BuildProfile} `{CovOrder} {E} (now : Z) (o : ObjectId) (values : list (PropertyId * BACnetValue))
    (c : CovManager) : outcome E (list CovNotification) :=
  let? device_id := ObjectId_new OtDevice (cov_device_instance c) in
  Ok (notification now device_id values
      <$> filter (fun s => monitored_object s = o ∧ sub_is_expired now s = false) (sub_order (subscriptions c))).

(* ------------------------------------------------------------------ *)
(** * The subscription services *)

Inductive SubscribeCovError : Set := ScInvalidRequest.
(** Every decoding error becomes [InvalidRequest]. *)
Definition CDec (A : Type) : Type := stM (list Z) SubscribeCovError A.
Definition inv {A} (d : Dec A) : CDec A := st_map_err (fun _ => ScInvalidRequest) d.

(** The context tags 0 and 1 both requests start with. *)
Definition decode_subscriber : CDec (Z * ObjectId) :=
  do? tag := inv decode_tag_info in
  let '(tag, is_context, len) := tag in
  if negb is_context || negb (tag =? 0) then st_err ScInvalidRequest
  else
    do? pid := inv (decode_unsigned len) in
    do? tag := inv decode_tag_info in
    let '(tag, is_context, len) := tag in
    if negb is_context || negb (tag =? 1) || negb (len =? 4) then st_err ScInvalidRequest
    else
      do? o := inv decode_object_identifier in
      st_ret (pid, o).

(** The number after a context tag. *)
Definition decode_tagged_unsigned : CDec Z :=
  do? tag := inv decode_tag_info in
  let '(_, _, len) := tag in
  inv (decode_unsigned len).
Definition decode_flag : CDec bool :=
  do? tag := inv decode_tag_info in
  let '(_, _, len) := tag in
  if len =? 0 then st_ret false
  else do? val := inv (decode_unsigned len) in st_ret (negb (val =? 0)).

(** A parameter that is there when the next octet is its context tag. *)
Definition decode_optional {A} (n : Z) (d : CDec A) : CDec (option A) :=
  do? next := inv peek in
  match next with
  | Some byte =>
      if negb (Z.land byte 0x08 =? 0) && (Z.land (Z.shiftr byte 4) 0x0F =? n) then st_map Some d else st_ret None
  | None => st_ret None
  end.

Record SubscribeCovRequest : Set := {
  sr_process_id : Z;
  sr_object : ObjectId;
  sr_confirmed : option bool;
  sr_lifetime : option Z
}.
Definition decode_subscribe_cov (data : list Z) : outcome SubscribeCovError SubscribeCovRequest :=
  fst ((do? r := decode_subscriber in
        let '(pid, o) := r in
        do? confirmed := decode_optional 2 decode_flag in
        do? life := decode_optional 3 decode_tagged_unsigned in
        st_ret {| sr_process_id := pid; sr_object := o; sr_confirmed := confirmed; sr_lifetime := life |}) data).

Record SubscribeCovPropertyRequest : Set := {
  pr_base : SubscribeCovRequest;
  pr_property : option PropertyId;
  pr_increment : option Z
}.

(** [let _ = decoder.read_bytes(len)]: a failing read leaves the input as it is. *)
Definition try_skip (len : Z) : CDec unit := fun d =>
  match read_bytes len d with (Ok _, d') => (Ok tt, d') | (_, d') => (Ok tt, d') end.
Definition skip_field : CDec unit :=
  do? tag := inv decode_tag_info in
  let '(_, _, len) := tag in
  if 0 <? len then try_skip len else st_ret tt.

(** The loop over the rest of a property reference; every turn takes an octet. *)
Fixpoint skip_to_closing (fuel : nat) : CDec unit :=
  do? empty := inv dec_is_empty in
  do? closing := inv (is_closing_tag 4) in
  if negb empty && negb closing then
    match fuel with
    | O => st_lift Panic
    | S fuel => do? _ := skip_field in skip_to_closing fuel
    end
  else st_ret tt.

Definition decode_property_reference : CDec (option PropertyId) :=
  do? opening := inv (is_opening_tag 4) in
  if opening then
    do? _ := inv read_u8 in
    do? prop_val := decode_tagged_unsigned in
    do? _ := (fun d => skip_to_closing (length d) d) in
    do? closing := inv (is_closing_tag 4) in
    do? _ := (if closing then st_map (fun _ => tt) (inv read_u8) else st_ret tt) in
    st_ret (PropertyId_from_u32 prop_val)
  else
    do? prop_val := decode_tagged_unsigned in
    st_ret (PropertyId_from_u32 prop_val).

Definition decode_increment (old : option Z) : CDec (option Z) :=
  do? tag := inv decode_tag_info in
  let '(_, _, len) := tag in
  if len =? 4 then do? bytes := inv (read_bytes 4) in st_map Some (st_lift (be32 bytes))
  else do? _ := try_skip len in st_ret old.

Definition set_confirmed (b : bool) (r : SubscribeCovPropertyRequest) : SubscribeCovPropertyRequest :=
  {| pr_base := {| sr_process_id := sr_process_id (pr_base r); sr_object := sr_object (pr_base r); sr_confirmed := Some b;
                   sr_lifetime := sr_lifetime (pr_base r) |};
     pr_property := pr_property r; pr_increment := pr_increment r |}.
Definition set_lifetime (l : Z) (r : SubscribeCovPropertyRequest) : SubscribeCovPropertyRequest :=
  {| pr_base := {| sr_process_id := sr_process_id (pr_base r); sr_object := sr_object (pr_base r);
                   sr_confirmed := sr_confirmed (pr_base r); sr_lifetime := Some l |};
     pr_property := pr_property r; pr_increment := pr_increment r |}.
Definition set_monitored_property (p : option PropertyId) (r : SubscribeCovPropertyRequest) : SubscribeCovPropertyRequest :=
  {| pr_base := pr_base r; pr_property := p; pr_increment := pr_increment r |}.
Definition set_increment (i : option Z) (r : SubscribeCovPropertyRequest) : SubscribeCovPropertyRequest :=
  {| pr_base := pr_base r; pr_property := pr_property r; pr_increment := i |}.

(** The loop over the optional parameters; every turn takes an octet. *)
Fixpoint decode_parameters (fuel : nat) (r : SubscribeCovPropertyRequest) : CDec SubscribeCovPropertyRequest :=
  do? next := inv peek in
  match next with
  | None => st_ret r
  | Some byte =>
      if Z.land byte 0x08 =? 0 then st_ret r
      else
        match fuel with
        | O => st_lift Panic
        | S fuel =>
            do? r := (match Z.land (Z.shiftr byte 4) 0x0F with
                      | 2 => st_map (fun b => set_confirmed b r) decode_flag
                      | 3 => st_map (fun l => set_lifetime l r) decode_tagged_unsigned
                      | 4 => st_map (fun p => set_monitored_property p r) decode_property_reference
                      | 5 => st_map (fun i => set_increment i r) (decode_increment (pr_increment r))
                      | _ => st_map (fun _ => r) skip_field
                      end) in
            decode_parameters fuel r
        end
  end.

Definition decode_subscribe_cov_property (data : list Z) : outcome SubscribeCovError SubscribeCovPropertyRequest :=
  fst ((do? r := decode_subscriber in
        let '(pid, o) := r in
        fun d => decode_parameters (length d)
          {| pr_base := {| sr_process_id := pid; sr_object := o; sr_confirmed := None; sr_lifetime := None |};
             pr_property := None; pr_increment := None |} d) data).

Section SubscribeHandlers.
Context {O : Type} `{BACnetObject O}.

(** The fallback address is 0.0.0.0:47808. *)
Definition subscriber_addr (ctx : ServiceContext) : SocketAddr := default (V4 ((0, 0, 0, 0), 47808)) (source_address ctx).

(** What both handlers do with a decoded request: cancel, or subscribe for a known object. *)
Definition perform_subscription (now : Z) (objs : ObjectRegistry O) (ctx : ServiceContext) (r : SubscribeCovRequest)
    (increment : option Z) : stM CovManager Empty_set ServiceResult := fun c =>
  let addr := subscriber_addr ctx in
  match sr_confirmed r with
  | None => (Ok SrSimpleAck, (unsubscribe addr (sr_process_id r) (sr_object r) c).2)
  | Some confirmed =>
      match get objs (sr_object r) with
      | None => (Ok (SrError EclObject EcUnknownObject), c)
      | Some _ =>
          let life := match sr_lifetime r with
                      | None => None
                      | Some secs => if secs =? 0 then None else Some (secs * 1000000000)
                      end in
          let s := set_sub_increment increment (CovSubscription_new now addr (sr_process_id r) (sr_object r) confirmed life) in
          match subscribe now s c with
          | (Ok _, c') => (Ok SrSimpleAck, c')
          | (Err _, c') => (Ok (SrError EclResources EcCovSubscriptionFailed), c')
          | (Panic, c') => (Panic, c')
          end
      end
  end.

Definition invalid_parameter : ServiceResult := SrError EclServices EcInvalidParameterDataType.

Definition SubscribeCov_handle (now : Z) (objs : ObjectRegistry O) (data : list Z) (ctx : ServiceContext)
    : stM CovManager Empty_set ServiceResult := fun c =>
  match decode_subscribe_cov data with
  | Ok request => perform_subscription now objs ctx request None c
  | Err _ => (Ok invalid_parameter, c)
  | Panic => (Panic, c)
  end.
Definition SubscribeCovProperty_handle (now : Z) (objs : ObjectRegistry O) (data : list Z) (ctx : ServiceContext)
    : stM CovManager Empty_set ServiceResult := fun c =>
  match decode_subscribe_cov_property data with
  | Ok request => perform_subscription now objs ctx (pr_base request) (pr_increment request) c
  | Err _ => (Ok invalid_parameter, c)
  | Panic => (Panic, c)
  end.
End SubscribeHandlers.

(* ------------------------------------------------------------------ *)
(** * Polling and sending *)

Record CovDevice : Type := { cd_objects : ObjectRegistry StandardObject; cd_manager : CovManager }.

Definition put_object (id : ObjectId) (o : StandardObject) (s : ObjectRegistry StandardObject) : ObjectRegistry StandardObject :=
  {| objects := <[id := o]> (objects s); names := names s; type_counts := type_counts s |}.

(** The loop over all objects: those that changed are reset and their subscribers notified. *)
Fixpoint poll_loop `{BuildProfile} `{CovOrder} (now : Z) (c : CovManager) (ids : list ObjectId)
    (s : ObjectRegistry StandardObject) : outcome Empty_set (list CovNotification) * ObjectRegistry StandardObject :=
  match ids with
  | [] => (Ok [], s)
  | id :: ids' =>
      match objects s !! id with
      | Some o =>
          if check_cov o then
            let values := cov_values o in
            let s := put_object id (reset_cov o) s in
            match notify_change now (object_identifier o) values c with
            | Ok sent => let '(r, s) := poll_loop now c ids' s in (omap_ok (app sent) r, s)
            | r => (r, s)
            end
          else poll_loop now c ids' s
      | None => poll_loop now c ids' s
      end
  end.
Definition cov_poll `{BuildProfile} `{CovOrder} (now : Z) (d : CovDevice) : outcome Empty_set (list CovNotification) * CovDevice :=
  let '(r, s) := poll_loop now (cd_manager d) (object_order (objects (cd_objects d))) (cd_objects d) in
  (r, {| cd_objects := s;
         cd_manager := if is_panic r then cd_manager d else cov_cleanup_expired now (cd_manager d) |}).

(** The datagram of a notification, and the next value of [COV_INVOKE_ID]. *)
Definition send_cov_notification (invoke : Z) (n : CovNotification) : list Z * Z :=
  let '(apdu, next) := if cn_confirmed n then (encode_confirmed n invoke, u8_wrapping_add invoke 1)
                       else ([0x10; UnconfirmedService_as_u8 UsUnconfirmedCovNotification] ++ encode_unconfirmed n, invoke) in
  (BvlcMessage_encode (original_unicast (Npdu_encode (if cn_confirmed n then Npdu_simple apdu else Npdu_no_reply apdu))), next).

(* ------------------------------------------------------------------ *)
(** * Every request is answered *)

Lemma consumes_inv {A} k (d : Dec A) : consumes k d → consumes k (inv d).
Proof. apply consumes_map_err. Qed.
#[local] Hint Resolve consumes_inv : consume.

Lemma consumes_tagged : consumes 1 decode_tagged_unsigned.
Proof. apply consumes_first; [auto with consume|]. intros [[t c] len]. auto with consume. Qed.
Lemma consumes_flag : consumes 1 decode_flag.
Proof.
  apply consumes_first; [auto with consume|]. intros [[t c] len]. case_match; [auto with consume|].
  apply consumes_first; auto with consume.
Qed.
Lemma consumes_try_skip n : consumes 0 (try_skip n).
Proof. intros l. unfold try_skip, read_bytes. destruct (_ <? _); cbn; [lia|]. rewrite length_drop. lia. Qed.
Lemma consumes_skip_field : consumes 1 skip_field.
Proof. apply consumes_first; [auto with consume|]. intros [[t c] len]. case_match; [apply consumes_try_skip|auto with consume]. Qed.
#[export] Hint Resolve consumes_tagged consumes_flag consumes_try_skip consumes_skip_field : consume.

(** The fuel of the inner loop is enough. *)
Lemma skip_to_closing_total fuel l :
  (length l ≤ fuel)%nat →
  match skip_to_closing fuel l with (Ok _, l') => (length l' ≤ length l)%nat | (Err _, _) => True | (Panic, _) => False end.
Proof.
  revert l. induction fuel as [|fuel IH]; intros l Hl.
  - destruct l; [done|cbn in Hl; lia].
  - cbn [skip_to_closing]. erewrite st_bind_ok by reflexivity. erewrite st_bind_ok by reflexivity. destruct (_ && _); [|cbn; lia].
    unfold st_bind at 1. pose proof (consumes_skip_field l) as Hs. destruct (skip_field l) as [[u|e|] l']; [|done..].
    specialize (IH l' ltac:(lia)). destruct (skip_to_closing fuel l') as [[?|?|] ?]; [lia|done..].
Qed.

Lemma consumes_reference : consumes 1 decode_property_reference.
Proof.
  unfold decode_property_reference. intros l. erewrite st_bind_ok by reflexivity.
  match goal with |- context [if ?b then _ else _] => destruct b end.
  - revert l. apply (consumes_weaken (1 + 1)); [|lia]. apply consumes_bind; [auto with consume|]. intros b.
    apply consumes_first; [auto with consume|]. intros p. apply consumes_first.
    { intros l. pose proof (skip_to_closing_total (length l) l (le_n _)) as Hs.
      destruct (skip_to_closing _ l) as [[?|?|] ?]; [lia|done..]. }
    intros u l. erewrite st_bind_ok by reflexivity. revert l. apply consumes_first; [|auto with consume].
    intros l. match goal with |- context [if ?b then _ else _] => destruct b end; [|cbn; lia]. apply (consumes_weaken 1 0); [auto with consume|lia].
  - revert l. apply consumes_first; auto with consume.
Qed.
Lemma consumes_increment old : consumes 1 (decode_increment old).
Proof.
  apply consumes_first; [auto with consume|]. intros [[t c] len]. case_match; [|apply consumes_first; auto with consume].
  intros l. unfold st_bind, inv, st_map_err, read_bytes. destruct (Z.ltb_spec (zlen l) 4); [done|].
  unfold st_map, st_lift. cbn -[drop take be32]. pose proof (proj1 (proj2 (be_no_panic (E:=SubscribeCovError) (take (Z.to_nat 4) l)))) as Hb.
  destruct (be32 _); [cbn -[drop]; rewrite length_drop; lia|done|]. apply Hb; [|done]. rewrite length_take. unfold zlen in *. lia.
Qed.
#[export] Hint Resolve consumes_reference consumes_increment : consume.

(** The fuel of the outer loop is enough. *)
Lemma decode_parameters_total fuel r l : (length l ≤ fuel)%nat → (decode_parameters fuel r l).1 ≠ Panic.
Proof.
  revert r l. induction fuel as [|fuel IH]; intros r l Hl.
  - by destruct l; [|cbn in Hl; lia].
  - cbn [decode_parameters]. erewrite st_bind_ok by reflexivity. destruct l as [|byte l]; [done|]. cbn [head].
    destruct (Z.land byte 8 =? 0); [done|].
    match goal with |- (st_bind ?m _ ?l).1 ≠ _ => assert (consumes 1 m) as Hm by (repeat case_match; auto with consume) end.
    specialize (Hm (byte :: l)). unfold st_bind at 1.
    match type of Hm with match ?m with _ => _ end => destruct m as [[r'|e|] l'] end; [|done..].
    apply IH. cbn in *. lia.
Qed.

Lemma np_subscriber : consumes 0 decode_subscriber.
Proof.
  apply (consumes_weaken 1); [|lia]. apply consumes_first; [auto with consume|]. intros [[t c] len]. case_match; [auto with consume|].
  apply consumes_first; [auto with consume|]. intros pid. apply (consumes_weaken 1); [|lia].
  apply consumes_first; [auto with consume|]. intros [[t' c'] len']. case_match; [auto with consume|].
  apply consumes_first; auto with consume.
Qed.

Lemma consumes_optional {A} n (d : CDec A) : consumes 0 d → consumes 0 (decode_optional n d).
Proof.
  intros Hd l. unfold decode_optional. erewrite st_bind_ok by reflexivity. destruct (head l); [|cbn; lia].
  destruct (_ && _); [|cbn; lia]. by apply consumes_map.
Qed.

Lemma decode_subscribe_total data : decode_subscribe_cov data ≠ Panic ∧ decode_subscribe_cov_property data ≠ Panic.
Proof.
  split.
  - unfold decode_subscribe_cov. match goal with |- (?m _).1 ≠ _ => assert (consumes 0 m) as Hm end.
    { apply consumes_first; [apply np_subscriber|]. intros [pid o].
      apply consumes_first; [apply consumes_optional, (consumes_weaken 1); [auto with consume|lia]|]. intros c.
      apply consumes_first; [apply consumes_optional, (consumes_weaken 1); [auto with consume|lia]|]. auto with consume. }
    specialize (Hm data). by destruct (st_bind _ _ data) as [[?|?|] ?].
  - unfold decode_subscribe_cov_property, st_bind. pose proof (np_subscriber data) as Hs.
    destruct (decode_subscriber data) as [[[pid o]|e|] l]; [|done..]. by apply decode_parameters_total.
Qed.

(** Both subscription services answer every byte string: their decoding loops end, and nothing
    panics. *)
Theorem subscribe_cov_total {O} `{BACnetObject O} now (objs : ObjectRegistry O) data ctx c :
  ∃ r r' c1 c2, SubscribeCov_handle now objs data ctx c = (Ok r, c1) ∧
                SubscribeCovProperty_handle now objs data ctx c = (Ok r', c2).
Proof.
  assert (∀ r i, ∃ x c', perform_subscription now objs ctx r i c = (Ok x, c')) as Hp.
  { intros r i. unfold perform_subscription. destruct (sr_confirmed r); [|by eexists _, _].
    destruct (get objs _); [|by eexists _, _]. unfold subscribe. destruct (_ <=? _)%nat; [|by eexists _, _]. by destruct (_ <=? _)%nat; eexists _, _. }
  destruct (decode_subscribe_total data) as [H1 H2]. unfold SubscribeCov_handle, SubscribeCovProperty_handle.
  destruct (decode_subscribe_cov data) as [q|e|]; [destruct (Hp q None) as (x & c1 & ->)| |done];
    (destruct (decode_subscribe_cov_property data) as [q'|e'|]; [destruct (Hp (pr_base q') (pr_increment q')) as (x' & c2 & ->)| |done]);
    by eexists _, _, _, _.
Qed.

(* ------------------------------------------------------------------ *)
(** * A subscription on the wire *)

Definition subscribe_request (pid : Z) (o : ObjectId) (confirmed : bool) (secs : Z) : list Z :=
  encode_context_unsigned 0 pid ++ encode_context_object_identifier 1 o
  ++ encode_context_unsigned 2 (if confirmed then 1 else 0) ++ encode_context_unsigned 3 secs.

Lemma inv_ok {A} (d : Dec A) l a l' : d l = (Ok a, l') → inv d l = (Ok a, l').
Proof. intros Hd. unfold inv, st_map_err. by rewrite Hd. Qed.

Lemma tagged_unsigned_ok tn x rest :
  0 <= tn < 15 → is_u32 x → decode_tagged_unsigned (encode_context_unsigned tn x ++ rest) = (Ok x, rest).
Proof.
  intros Ht Hx. pose proof (unsigned_bytes_ok x) as [_ Hl]. unfold decode_tagged_unsigned, encode_context_unsigned. rewrite <- app_assoc.
  erewrite st_bind_ok by (apply inv_ok, context_tag_roundtrip; lia). cbn beta iota.
  by apply inv_ok, decode_unsigned_ok, unsigned_bytes_roundtrip.
Qed.

Lemma optional_flag_ok b rest :
  decode_optional 2 decode_flag (encode_context_unsigned 2 (if b : bool then 1 else 0) ++ rest) = (Ok (Some b), rest).
Proof.
  rewrite context_unsigned_small by (destruct b; unfold is_u8; lia). unfold decode_optional.
  erewrite st_bind_ok by reflexivity. cbn [head app]. apply st_map_ok. unfold decode_flag.
  rewrite (st_bind_ok _ _ _ (2, true, 1) ((if b then 1 else 0) :: rest)) by done. cbn [Z.eqb].
  erewrite st_bind_ok by (apply inv_ok, one_octet; destruct b; unfold is_u8; lia). by destruct b.
Qed.

Lemma subscribe_request_decoded pid o confirmed secs :
  is_u32 pid → object_id_ok o → is_u32 secs →
  decode_subscribe_cov (subscribe_request pid o confirmed secs) =
  Ok {| sr_process_id := pid; sr_object := o; sr_confirmed := Some confirmed; sr_lifetime := Some secs |}.
Proof.
  intros Hp Ho Hs. unfold decode_subscribe_cov, subscribe_request.
  rewrite (st_bind_ok _ _ _ (pid, o) (encode_context_unsigned 2 (if confirmed then 1 else 0) ++ encode_context_unsigned 3 secs)).
  2: { unfold decode_subscriber, encode_context_unsigned at 1. rewrite <- app_assoc. pose proof (unsigned_bytes_ok pid) as [_ Hl].
       erewrite st_bind_ok by (apply inv_ok, context_tag_roundtrip; lia). cbn [negb orb Z.eqb].
       erewrite st_bind_ok by (by apply inv_ok, decode_unsigned_ok, unsigned_bytes_roundtrip).
       unfold encode_context_object_identifier. rewrite <- app_assoc.
       erewrite st_bind_ok by (apply inv_ok, context_tag_roundtrip; lia). cbn [negb orb Z.eqb Pos.eqb].
       by erewrite st_bind_ok by (by apply inv_ok, decode_object_identifier_ok). }
  cbn beta iota. rewrite (st_bind_ok _ _ _ (Some confirmed) (encode_context_unsigned 3 secs)) by apply optional_flag_ok.
  erewrite st_bind_ok; [reflexivity|]. unfold decode_optional.
  rewrite (st_bind_ok _ _ _ (head (encode_context_unsigned 3 secs)) (encode_context_unsigned 3 secs)) by done.
  assert (∃ b, head (encode_context_unsigned 3 secs) = Some b ∧
    negb (Z.land b 8 =? 0) && (Z.land (Z.shiftr b 4) 15 =? 3) = true) as (b & -> & ->).
  { unfold encode_context_unsigned, unsigned_bytes. repeat case_match; by eexists. }
  apply st_map_ok. rewrite <- (app_nil_r (encode_context_unsigned 3 secs)) at 1. by apply tagged_unsigned_ok.
Qed.

(* ------------------------------------------------------------------ *)
(** * Subscribers are notified *)

(** Tables whose entries carry their own keys. *)
Definition subs_keyed (c : CovManager) : Prop := ∀ k s, subscriptions c !! k = Some s → sub_key s = k.
Definition objects_keyed (s : ObjectRegistry StandardObject) : Prop := ∀ id o, objects s !! id = Some o → object_identifier o = id.

(** What can happen to the device: subscription requests, writes and other changes of objects,
    registrations, polls. *)
Inductive CovEvent : Type :=
| CvSubscribe (now : Z) (data : list Z) (ctx : ServiceContext)
| CvSubscribeProperty (now : Z) (data : list Z) (ctx : ServiceContext)
| CvWrite (id : ObjectId) (k : PropertyId) (v : BACnetValue)
| CvChange (id : ObjectId) (f : StandardObject → StandardObject)
| CvRegister (o : StandardObject)
| CvUnregister (id : ObjectId)
| CvPoll (now : Z).

Definition on_manager (m : CovManager → CovManager) (d : CovDevice) : CovDevice :=
  {| cd_objects := cd_objects d; cd_manager := m (cd_manager d) |}.
Definition on_registry (f : ObjectRegistry StandardObject → ObjectRegistry StandardObject) (d : CovDevice) : CovDevice :=
  {| cd_objects := f (cd_objects d); cd_manager := cd_manager d |}.

Section Polling.
Context `{BuildProfile} `{CovOrder}.

Definition cov_step (d : CovDevice) (ev : CovEvent) : CovDevice :=
  match ev with
  | CvSubscribe now data ctx => on_manager (fun c => (SubscribeCov_handle now (cd_objects d) data ctx c).2) d
  | CvSubscribeProperty now data ctx => on_manager (fun c => (SubscribeCovProperty_handle now (cd_objects d) data ctx c).2) d
  | CvWrite id k v => on_registry (fun s => (registry_write_property id k v s).2) d
  | CvChange id f => on_registry (fun s => match get s id with Some o => put_object id (f o) s | None => s end) d
  | CvRegister o => on_registry (fun s => (register o s).2) d
  | CvUnregister id => on_registry (fun s => (unregister id s).2) d
  | CvPoll now => (cov_poll now d).2
  end.

(** An event no later than [now] that does not concern the subscription [key]. *)
Definition cov_leaves (key : SubscriptionKey) (now : Z) (ev : CovEvent) : Prop :=
  match ev with
  | CvSubscribe t data ctx =>
      t <= now ∧ ∀ r, decode_subscribe_cov data = Ok r → (subscriber_addr ctx, sr_process_id r, sr_object r) ≠ key
  | CvSubscribeProperty t data ctx =>
      t <= now ∧ ∀ r, decode_subscribe_cov_property data = Ok r →
        (subscriber_addr ctx, sr_process_id (pr_base r), sr_object (pr_base r)) ≠ key
  | CvChange id f => ∀ o, object_identifier (f o) = object_identifier o
  | CvPoll t => t <= now
  | _ => True
  end.

(** The subscription is in the table, or it has been removed after it expired. *)
Definition holds_sub (now : Z) (s : CovSubscription) (c : CovManager) : Prop :=
  subscriptions c !! sub_key s = Some s ∨ subscriptions c !! sub_key s = None ∧ sub_is_expired now s = true.

Lemma expired_mono t now s : t <= now → sub_is_expired t s = true → sub_is_expired now s = true.
Proof. unfold sub_is_expired, sub_elapsed. destruct (lifetime s); [|done]. rewrite !Z.ltb_lt. lia. Qed.

Lemma cleanup_lookup now c k s :
  subscriptions (cov_cleanup_expired now c) !! k = Some s ↔ subscriptions c !! k = Some s ∧ sub_is_expired now s = false.
Proof. unfold cov_cleanup_expired, set_subscriptions. cbn. by rewrite map_lookup_filter_Some. Qed.

Lemma holds_cleanup t now s c : t <= now → holds_sub now s c → holds_sub now s (cov_cleanup_expired t c).
Proof.
  intros Ht Hs. unfold holds_sub. destruct (subscriptions (cov_cleanup_expired t c) !! sub_key s) as [s'|] eqn:Hk.
  - apply cleanup_lookup in Hk as [Hk _]. left. destruct Hs as [Hs|[Hs _]]; congruence.
  - right. split; [done|]. destruct Hs as [Hs|[_ Hs]]; [|done]. apply (expired_mono t); [done|].
    apply not_false_iff_true. intros Hf. by rewrite (proj2 (cleanup_lookup t c (sub_key s) s)) in Hk.
Qed.

Lemma keyed_cleanup t c : subs_keyed c → subs_keyed (cov_cleanup_expired t c).
Proof. intros Hc k s [Hk _]%cleanup_lookup. by apply Hc. Qed.

Lemma manager_set_lookup m c : subscriptions (set_subscriptions m c) = m.
Proof. done. Qed.

Lemma subscribe_cases t s c :
  ∃ c', (c' = c ∨ c' = cov_cleanup_expired t c) ∧
    (subscribe t s c = (Err CeMaxSubscriptionsReached, c') ∨
     subscribe t s c = (Ok tt, set_subscriptions (<[sub_key s := s]> (subscriptions c')) c') ∧
     (size (subscriptions c') < max_subscriptions c')%nat).
Proof.
  unfold subscribe. destruct (Nat.leb_spec (max_subscriptions c) (size (subscriptions c))).
  - exists (cov_cleanup_expired t c). split; [by right|].
    destruct (Nat.leb_spec (max_subscriptions (cov_cleanup_expired t c)) (size (subscriptions (cov_cleanup_expired t c)))); [by left|by right].
  - exists c. split; [by left|]. right. rewrite (proj2 (Nat.leb_gt _ _)) by done. done.
Qed.

(** Subscribing or cancelling touches one key. *)
Lemma perform_holds {O} `{BACnetObject O} t now (objs : ObjectRegistry O) ctx r i s c :
  t <= now → (subscriber_addr ctx, sr_process_id r, sr_object r) ≠ sub_key s →
  subs_keyed c → holds_sub now s c →
  subs_keyed (perform_subscription t objs ctx r i c).2 ∧ holds_sub now s (perform_subscription t objs ctx r i c).2 ∧
  cov_device_instance (perform_subscription t objs ctx r i c).2 = cov_device_instance c.
Proof.
  intros Ht Hk Hc Hs. unfold perform_subscription. destruct (sr_confirmed r) as [b|].
  2: { cbn. split_and!; [|unfold holds_sub; cbn; by rewrite lookup_delete_ne|done].
       intros k x. rewrite manager_set_lookup. intros [_ Hx]%lookup_delete_Some. by apply Hc. }
  destruct (get objs _); [|done].
  set (s' := set_sub_increment _ _). destruct (subscribe_cases t s' c) as (c' & Hor & Hsub).
  assert (∀ c, subs_keyed c → holds_sub now s c →
    subs_keyed (set_subscriptions (<[sub_key s' := s']> (subscriptions c)) c) ∧
    holds_sub now s (set_subscriptions (<[sub_key s' := s']> (subscriptions c)) c)) as Hins.
  { clear -Hk. intros c Hc Hs. split.
    - intros k x. rewrite manager_set_lookup. intros [[<- <-]|[_ Hx]]%lookup_insert_Some; [done|by apply Hc].
    - unfold holds_sub. cbn. by rewrite lookup_insert_ne. }
  assert (subs_keyed c' ∧ holds_sub now s c' ∧ cov_device_instance c' = cov_device_instance c) as (Hc' & Hs' & <-).
  { destruct Hor as [-> | ->]; [done|]. split_and!; [by apply keyed_cleanup|by apply holds_cleanup|done]. }
  destruct Hsub as [-> | [-> _]]; cbn [snd]; [done|]. by destruct (Hins c' Hc' Hs').
Qed.

(** The notifications meant for one subscription. *)
Definition addressed (key : SubscriptionKey) (n : CovNotification) : Prop :=
  (cn_destination n, cn_subscriber_process_id n, cn_monitored_object n) = key.
#[global] Instance addressed_dec key n : Decision (addressed key n).
Proof. unfold addressed. apply _. Defined.

Definition the_device (c : CovManager) : ObjectId := {| object_type := OtDevice; instance := cov_device_instance c |}.
Definition noted (now : Z) (c : CovManager) (o : StandardObject) : list CovNotification :=
  if check_cov o then
    notification now (the_device c) (cov_values o)
      <$> filter (fun s => monitored_object s = object_identifier o ∧ sub_is_expired now s = false) (sub_order (subscriptions c))
  else [].
Definition after_poll (o : StandardObject) : StandardObject := if check_cov o then reset_cov o else o.

Lemma poll_loop_spec now c ids s :
  cov_device_instance c <= MAX_INSTANCE → NoDup ids →
  ∃ s', poll_loop now c ids s =
          (Ok (concat ((fun id => match objects s !! id with Some o => noted now c o | None => [] end) <$> ids)), s') ∧
        ∀ id, objects s' !! id = if decide (id ∈ ids) then after_poll <$> objects s !! id else objects s !! id.
Proof.
  intros Hi Hn. revert s. induction Hn as [|id ids Hid Hn IH]; intros s; [by exists s|]. cbn [poll_loop fmap list_fmap concat].
  assert (∀ s' : ObjectRegistry StandardObject, (∀ i, i ≠ id → objects s' !! i = objects s !! i) →
    ((fun i => match objects s' !! i with Some o => noted now c o | None => [] end) <$> ids) =
    ((fun i => match objects s !! i with Some o => noted now c o | None => [] end) <$> ids)) as Hsame.
  { intros s' Hs. apply list_fmap_ext. intros k i Hk. rewrite Hs; [done|]. intros ->. apply Hid. by eapply list_elem_of_lookup_2. }
  assert (∀ i : ObjectId, i ≠ id → (i ∈ id :: ids ↔ i ∈ ids)) as Hmem by (intros i Hne; rewrite elem_of_cons; tauto).
  destruct (objects s !! id) as [o|] eqn:Ho.
  - destruct (check_cov o) eqn:Hcov.
    + unfold notify_change, ObjectId_new. rewrite (proj2 (Z.ltb_ge _ _)) by done. rewrite andb_false_r. cbn [obind].
      destruct (IH (put_object id (reset_cov o) s)) as (s' & -> & Hs'). exists s'. split.
      * unfold noted at 2. rewrite Hcov, (Hsame (put_object id (reset_cov o) s)); [done|]. intros i Hne. cbn. by rewrite lookup_insert_ne.
      * intros i. rewrite Hs'. cbn. destruct (decide (i = id)) as [->|Hne].
        -- rewrite decide_False by done. rewrite decide_True by (by left). rewrite lookup_insert_eq, Ho. unfold after_poll. cbn. by rewrite Hcov.
        -- rewrite lookup_insert_ne by done. by rewrite (decide_ext _ _ _ _ (Hmem i Hne)).
    + destruct (IH s) as (s' & -> & Hs'). exists s'. unfold noted at 2. rewrite Hcov. split; [done|].
      intros i. rewrite Hs'. destruct (decide (i = id)) as [->|Hne]; [|by rewrite (decide_ext _ _ _ _ (Hmem i Hne))].
      rewrite decide_False by done. rewrite decide_True by (by left). rewrite Ho. unfold after_poll. cbn. by rewrite Hcov.
  - destruct (IH s) as (s' & -> & Hs'). exists s'. split; [done|]. intros i. rewrite Hs'.
    destruct (decide (i = id)) as [->|Hne]; [|by rewrite (decide_ext _ _ _ _ (Hmem i Hne))].
    rewrite decide_False by done. rewrite decide_True by (by left). by rewrite Ho.
Qed.

Lemma filter_permutation_short {A} (P : A → Prop) `{!∀ x, Decision (P x)} l l' k :
  l ≡ₚ l' → filter P l' = option_list k → filter P l = option_list k.
Proof.
  intros Hp Hf. pose proof (filter_Permutation P _ _ Hp) as Hq. rewrite Hf in Hq.
  destruct k; cbn in *; [by apply Permutation_singleton_r in Hq|by apply Permutation_nil_r in Hq].
Qed.

Lemma sub_of_key c key :
  subs_keyed c → filter (fun s => sub_key s = key) (sub_order (subscriptions c)) = option_list (subscriptions c !! key).
Proof.
  intros Hc. apply (filter_permutation_short _ _ ((map_to_list (subscriptions c)).*2)); [apply sub_order_spec|].
  assert (∀ m : gmap SubscriptionKey CovSubscription, (∀ k s, m !! k = Some s → sub_key s = k ∧ k ≠ key) →
    filter (fun s => sub_key s = key) (map_to_list m).*2 = []) as Hnone.
  { intros m Hm. apply filter_none, Forall_fmap, Forall_forall. intros [k s] [<- Hk]%elem_of_map_to_list%Hm. done. }
  destruct (subscriptions c !! key) as [s|] eqn:Hk.
  - eapply (filter_permutation_short _ _ _ (Some s)).
    { rewrite <- (insert_delete_id _ _ _ Hk). rewrite map_to_list_insert by apply lookup_delete_eq. reflexivity. }
    cbn [fmap list_fmap snd]. rewrite filter_cons_True by by apply Hc. rewrite Hnone; [done|].
    intros k x [Hne Hx]%lookup_delete_Some. split; [by apply Hc|done].
  - cbn. apply Hnone. intros k x Hx. split; [by apply Hc|]. congruence.
Qed.

(** What an object's change means for one subscription. *)
Lemma noted_addressed now c o key :
  subs_keyed c →
  filter (addressed key) (noted now c o) =
  if check_cov o && bool_decide (object_identifier o = key.2) then
    match subscriptions c !! key with
    | Some s => if sub_is_expired now s then [] else [notification now (the_device c) (cov_values o) s]
    | None => []
    end
  else [].
Proof.
  intros Hc. unfold noted. destruct (check_cov o); [|done]. cbn [andb].
  set (f := notification now (the_device c) (cov_values o)).
  assert (∀ l : list CovSubscription, filter (addressed key) (f <$> l) = f <$> filter (fun s => sub_key s = key) l) as Hf.
  { intros l. induction l as [|s l IH]; [done|]. cbn [fmap list_fmap]. rewrite !filter_cons, IH.
    rewrite (decide_ext (addressed key (f s)) (sub_key s = key)) by done. by destruct (decide (sub_key s = key)). }
  rewrite Hf, list_filter_filter.
  rewrite (list_filter_iff _ (fun s => (monitored_object s = object_identifier o ∧ sub_is_expired now s = false) ∧ sub_key s = key)) by tauto.
  rewrite <- list_filter_filter, sub_of_key by done.
  destruct (subscriptions c !! key) as [s|] eqn:Hk; [|by case_bool_decide].
  change (option_list (Some s)) with [s].
  pose proof (Hc key s Hk) as <-. change (sub_key s).2 with (monitored_object s).
  destruct (sub_is_expired now s) eqn:He; case_bool_decide as Hm;
    rewrite filter_cons, filter_nil; case_decide as Hd; try done; destruct Hd; congruence || done.
Qed.

Lemma filter_concat_single {A B} (P : B → Prop) `{!∀ x, Decision (P x)} (f : A → list B) (a : A) l :
  NoDup l → a ∈ l → (∀ x, x ≠ a → filter P (f x) = []) → filter P (concat (f <$> l)) = filter P (f a).
Proof.
  intros Hn Ha Hf. assert (∀ l, a ∉ l → filter P (concat (f <$> l)) = []) as Hnone.
  { intros k. induction k as [|x k IH]; intros Hk; [done|]. apply not_elem_of_cons in Hk as [Hx Hk].
    cbn [fmap list_fmap concat]. by rewrite filter_app, Hf, IH. }
  induction Hn as [|x l Hx Hn IH]; [by apply elem_of_nil in Ha|]. cbn [fmap list_fmap concat]. rewrite filter_app.
  apply elem_of_cons in Ha as [->|Ha].
  - by rewrite Hnone, app_nil_r.
  - rewrite Hf, IH; [done..|]. by intros ->.
Qed.

Lemma object_order_NoDup m : NoDup (object_order m) ∧ ∀ id, id ∈ object_order m ↔ is_Some (m !! id).
Proof.
  split; [rewrite object_order_spec; apply NoDup_fst_map_to_list|]. intros id. rewrite object_order_spec, list_elem_of_fmap. split.
  - intros ([k o] & -> & Hk%elem_of_map_to_list). by exists o.
  - intros [o Ho]. exists (id, o). split; [done|]. by apply elem_of_map_to_list.
Qed.

Lemma poll_spec now d :
  cov_device_instance (cd_manager d) <= MAX_INSTANCE →
  ∃ notes s', cov_poll now d = (Ok notes, {| cd_objects := s'; cd_manager := cov_cleanup_expired now (cd_manager d) |}) ∧
    (∀ id, objects s' !! id = after_poll <$> objects (cd_objects d) !! id) ∧
    notes = concat ((fun id => match objects (cd_objects d) !! id with Some o => noted now (cd_manager d) o | None => [] end)
                    <$> object_order (objects (cd_objects d))).
Proof.
  intros Hi. destruct (object_order_NoDup (objects (cd_objects d))) as [Hn Hin].
  destruct (poll_loop_spec now (cd_manager d) _ (cd_objects d) Hi Hn) as (s' & Hp & Hs'). eexists _, s'. unfold cov_poll. rewrite Hp.
  split_and!; [done| |done]. intros id. rewrite Hs'. destruct (decide _) as [|Hid]; [done|].
  destruct (objects (cd_objects d) !! id) eqn:Ho; [|done]. exfalso. apply Hid, Hin. by rewrite Ho.
Qed.

Lemma reset_identity o : object_identifier (after_poll o) = object_identifier o.
Proof. unfold after_poll. destruct (check_cov o); [|done]. by destruct o. Qed.

(** The state of a device with a subscription. *)
Definition cov_ok (now : Z) (s : CovSubscription) (i : Z) (d : CovDevice) : Prop :=
  subs_keyed (cd_manager d) ∧ holds_sub now s (cd_manager d) ∧ objects_keyed (cd_objects d) ∧
  cov_device_instance (cd_manager d) = i.

Lemma keyed_put id f s :
  objects_keyed s → (∀ o, object_identifier (f o) = object_identifier o) →
  objects_keyed (match get s id with Some o => put_object id (f o) s | None => s end).
Proof.
  intros Hs Hf. unfold get. destruct (objects s !! id) as [o|] eqn:Ho; [|done].
  intros k x. unfold put_object. cbn [objects]. intros [[<- <-]|[_ Hx]]%lookup_insert_Some; [|by apply Hs].
  rewrite Hf. by apply Hs.
Qed.

Lemma step_cov_ok now s i d ev :
  i <= MAX_INSTANCE → cov_leaves (sub_key s) now ev → cov_ok now s i d → cov_ok now s i (cov_step d ev).
Proof.
  intros Hmax Hev (Hk & Hs & Ho & Hi). destruct ev as [t data ctx|t data ctx|id k v|id f|o|id|t]; cbn in Hev.
  - destruct Hev as [Ht Hr]. unfold cov_ok, cov_step, on_manager, SubscribeCov_handle. cbn [cd_manager cd_objects].
    destruct (decode_subscribe_cov data) as [r|e|] eqn:Hd; [|done..].
    destruct (perform_holds t now (cd_objects d) ctx r None s (cd_manager d)) as (? & ? & ->); [done|by apply Hr|done..].
  - destruct Hev as [Ht Hr]. unfold cov_ok, cov_step, on_manager, SubscribeCovProperty_handle. cbn [cd_manager cd_objects].
    destruct (decode_subscribe_cov_property data) as [r|e|] eqn:Hd; [|done..].
    destruct (perform_holds t now (cd_objects d) ctx (pr_base r) (pr_increment r) s (cd_manager d)) as (? & ? & ->); [done|by apply Hr|done..].
  - split_and!; [done..| |done]. cbn. unfold registry_write_property, on_object. intros j x.
    destruct (objects (cd_objects d) !! id) as [o|] eqn:Hl; [|apply Ho].
    unfold st_map_err. destruct (write_property k v o) as [r o'] eqn:Hw. cbn [fst snd objects].
    intros [[<- <-]|[_ Hx]]%lookup_insert_Some; [|by apply Ho].
    pose proof (proj1 (write_identity k v o)) as Hid. rewrite Hw in Hid. cbn in *. rewrite Hid. by apply Ho.
  - split_and!; [done..| |done]. by apply keyed_put.
  - split_and!; [done..| |done]. intros j x. unfold cov_step, on_registry, register. cbn [cd_objects snd].
    destruct (objects (cd_objects d) !! object_identifier o); cbn [objects];
      intros [[<- <-]|[_ Hx]]%lookup_insert_Some; try done; [apply lookup_delete_Some in Hx as [_ Hx]|]; by apply Ho.
  - split_and!; [done..| |done]. intros j x. unfold cov_step, on_registry, unregister. cbn [cd_objects snd].
    destruct (objects (cd_objects d) !! id); cbn [objects snd]; [intros [_ Hx]%lookup_delete_Some|intros Hx]; by apply Ho.
  - destruct (poll_spec t d ltac:(by rewrite Hi)) as (notes & s' & Hp & Hs' & _). unfold cov_ok. cbn [cov_step]. rewrite Hp. cbn [snd cd_manager cd_objects].
    split_and!; [by apply keyed_cleanup|by apply holds_cleanup| |done].
    intros id x. rewrite Hs'. intros (o & Hx & ->)%fmap_Some. rewrite reset_identity. by apply Ho.
Qed.

Lemma run_cov_ok now s i evs d :
  i <= MAX_INSTANCE → Forall (cov_leaves (sub_key s) now) evs → cov_ok now s i d → cov_ok now s i (foldl cov_step d evs).
Proof. intros Hmax He. revert d. induction He as [|ev evs Hev _ IH]; intros d Hd; [done|]. apply IH. by apply step_cov_ok. Qed.

(** C22: A subscriber is notified of every change it subscribed to, once, and for as long as it
    asked. After an acknowledged SubscribeCOV request of [secs] seconds, whatever else happens to
    the device (other subscriptions, writes, registrations, polls), the next poll sends the
    subscriber exactly one notification with the object's current values when the object has
    reported a change and the lifetime has not passed, and none otherwise; the reported change is
    then settled. *)
Theorem subscriber_notified t0 now pid oid confirmed secs ctx evs d0 c1 o :
  subs_keyed (cd_manager d0) → objects_keyed (cd_objects d0) → cov_device_instance (cd_manager d0) <= MAX_INSTANCE →
  is_u32 pid → object_id_ok oid → is_u32 secs → secs ≠ 0 → t0 <= now →
  SubscribeCov_handle t0 (cd_objects d0) (subscribe_request pid oid confirmed secs) ctx (cd_manager d0) = (Ok SrSimpleAck, c1) →
  Forall (cov_leaves (subscriber_addr ctx, pid, oid) now) evs →
  get (cd_objects (foldl cov_step {| cd_objects := cd_objects d0; cd_manager := c1 |} evs)) oid = Some o →
  ∃ notes d2,
    cov_poll now (foldl cov_step {| cd_objects := cd_objects d0; cd_manager := c1 |} evs) = (Ok notes, d2) ∧
    filter (addressed (subscriber_addr ctx, pid, oid)) notes =
      (if check_cov o && (now - t0 <=? secs * 1000000000) then
         [{| cn_destination := subscriber_addr ctx; cn_subscriber_process_id := pid;
             cn_initiating_device := {| object_type := OtDevice; instance := cov_device_instance (cd_manager d0) |};
             cn_monitored_object := oid; cn_time_remaining := (secs * 1000000000 - (now - t0)) / 1000000000;
             cn_list_of_values := cov_values o; cn_confirmed := confirmed |}]
       else []) ∧
    get (cd_objects d2) oid = Some (if check_cov o then reset_cov o else o).
Proof.
  intros Hk Ho Hi Hpid Hoid Hsecs Hnz Hnow Hsub Hevs Hget.
  set (s := CovSubscription_new t0 (subscriber_addr ctx) pid oid confirmed (Some (secs * 1000000000))).
  assert (cov_ok now s (cov_device_instance (cd_manager d0)) {| cd_objects := cd_objects d0; cd_manager := c1 |}) as Hok.
  { unfold SubscribeCov_handle in Hsub. rewrite subscribe_request_decoded in Hsub by done.
    unfold perform_subscription in Hsub. cbn [sr_confirmed sr_object sr_lifetime sr_process_id] in Hsub.
    rewrite (proj2 (Z.eqb_neq _ _) Hnz) in Hsub. destruct (get (cd_objects d0) oid); [|done].
    change (set_sub_increment None _) with s in Hsub. destruct (subscribe_cases t0 s (cd_manager d0)) as (c' & Hor & Hcase).
    assert (subs_keyed c' ∧ cov_device_instance c' = cov_device_instance (cd_manager d0)) as [Hk' Hi'].
    { destruct Hor as [-> | ->]; [done|]. split; [by apply keyed_cleanup|done]. }
    destruct Hcase as [Hc|[Hc _]]; rewrite Hc in Hsub; [done|]. injection Hsub as <-. split_and!; [| |done|by cbn; rewrite Hi'].
    - intros k x. cbn [cd_manager]. rewrite manager_set_lookup. intros [[<- <-]|[_ Hx]]%lookup_insert_Some; [done|by apply Hk'].
    - left. cbn. apply lookup_insert_eq. }
  apply (run_cov_ok now s _ evs) in Hok; [|done..]. destruct Hok as (Hk1 & Hs1 & Ho1 & Hi1).
  set (d1 := foldl cov_step _ evs) in *. destruct (poll_spec now d1 ltac:(by rewrite Hi1)) as (notes & s' & Hp & Hs' & Hnotes).
  exists notes, {| cd_objects := s'; cd_manager := cov_cleanup_expired now (cd_manager d1) |}. split; [done|].
  destruct (object_order_NoDup (objects (cd_objects d1))) as [Hn Hin]. unfold get in *. split.
  - rewrite Hnotes, (filter_concat_single _ _ oid); [|done|apply Hin; by rewrite Hget|].
    + rewrite Hget, noted_addressed by done. rewrite bool_decide_eq_true_2 by by apply Ho1. rewrite andb_true_r.
      destruct (check_cov o); [|done]. cbn [andb]. unfold holds_sub in Hs1. change (sub_key s) with (subscriber_addr ctx, pid, oid) in Hs1.
      destruct Hs1 as [-> | [-> Hexp]]; unfold sub_is_expired, sub_elapsed in *; cbn in *.
      * destruct (Z.leb_spec (now - t0) (secs * 1000000000)).
        -- rewrite (proj2 (Z.ltb_ge _ _)) by lia. unfold notification, remaining_lifetime, sub_elapsed. cbn.
           rewrite (proj2 (Z.ltb_ge _ _)) by lia. unfold the_device. rewrite Hi1.
           do 2 f_equal. unfold is_u32 in Hsecs. rewrite Z.max_r by lia. apply Z.mod_small. Z.div_mod_to_equations. lia.
        -- by rewrite (proj2 (Z.ltb_lt _ _)) by lia.
      * apply Z.ltb_lt in Hexp. by rewrite (proj2 (Z.leb_gt _ _)) by lia.
    + intros i Hne. destruct (objects (cd_objects d1) !! i) as [o'|] eqn:Ho'; [|done]. rewrite noted_addressed by done.
      rewrite bool_decide_eq_false_2, andb_false_r; [done|]. by rewrite (Ho1 i o' Ho').
  - cbn. rewrite Hs', Hget. done.
Qed.
End Polling.

(** A full table refuses even the renewal of a subscription it holds. *)
Theorem renewal_refused {O} `{BACnetObject O} now pid oid confirmed secs ctx (objs : ObjectRegistry O) c o s :
  is_u32 pid → object_id_ok oid → is_u32 secs → get objs oid = Some o →
  (max_subscriptions c ≤ size (subscriptions c))%nat → (∀ k s, subscriptions c !! k = Some s → sub_is_expired now s = false) →
  subscriptions c !! (subscriber_addr ctx, pid, oid) = Some s →
  SubscribeCov_handle now objs (subscribe_request pid oid confirmed secs) ctx c =
    (Ok (SrError EclResources EcCovSubscriptionFailed), c).
Proof.
  intros Hpid Hoid Hsecs Hget Hfull Halive _. unfold SubscribeCov_handle. rewrite subscribe_request_decoded by done.
  unfold perform_subscription. cbn [sr_confirmed sr_object]. rewrite Hget.
  assert (cov_cleanup_expired now c = c) as Hc.
  { unfold cov_cleanup_expired, set_subscriptions. rewrite map_filter_id; [by destruct c|]. intros k x Hx. by eapply Halive. }
  match goal with |- context [subscribe now ?x c] => destruct (subscribe_cases now x c) as (c' & Hor & Hcase) end.
  assert (c' = c) as -> by (destruct Hor; congruence). destruct Hcase as [-> | [_ Hlt]]; [done|lia].
Qed.

(* ------------------------------------------------------------------ *)
(** * Witness *)

Definition cov_order : CovOrder :=
  {| sub_order m := (map_to_list m).*2; object_order m := (map_to_list m).*1;
     sub_order_spec m := reflexivity _; object_order_spec m := reflexivity _ |}.

Definition cov_device : CovDevice := {| cd_objects := sample_registry; cd_manager := CovManager_new 1 100 |}.
Definition cov_point : ObjectId := {| object_type := OtAnalogValue; instance := 1 |}.
Definition cov_client : SocketAddr := V4 ((10, 0, 0, 1), 47808).
Definition cov_ctx : ServiceContext := with_source_address cov_client (ServiceContext_new 1).
Definition cov_written : list CovEvent := [CvWrite cov_point PiPresentValue (VReal 0x41C80000)].

(** A client subscribes for a minute, the value is written, the poll five seconds later tells it. *)
Lemma subscriber_notified_witness :
  ∃ c1 notes d2,
    SubscribeCov_handle 0 sample_registry (subscribe_request 9 cov_point true 60) cov_ctx (CovManager_new 1 100) =
      (Ok SrSimpleAck, c1) ∧
    cov_poll (H:=debug_build) (H0:=cov_order) 5000000000
      (foldl (cov_step (H:=debug_build) (H0:=cov_order)) {| cd_objects := sample_registry; cd_manager := c1 |} cov_written) =
      (Ok notes, d2) ∧
    filter (addressed (cov_client, 9, cov_point)) notes =
      [{| cn_destination := cov_client; cn_subscriber_process_id := 9;
          cn_initiating_device := {| object_type := OtDevice; instance := 1 |}; cn_monitored_object := cov_point;
          cn_time_remaining := 55;
          cn_list_of_values := [(PiPresentValue, VReal 0x41C80000); (PiStatusFlags, VBitString [false; false; false; false])];
          cn_confirmed := true |}].
Proof.
  set (c1 := (SubscribeCov_handle 0 sample_registry (subscribe_request 9 cov_point true 60) cov_ctx (CovManager_new 1 100)).2).
  set (o := (write_property PiPresentValue (VReal 0x41C80000) (sample_value 1 "Setpoint")).2).
  destruct (subscriber_notified (H:=debug_build) (H0:=cov_order) 0 5000000000 9 cov_point true 60 cov_ctx cov_written cov_device c1 o)
    as (notes & d2 & Hp & Hf & _).
  - intros k s [=].
  - intros id x. destruct (decide (id = cov_point)) as [->|Hne].
    + vm_compute. by intros [= <-].
    + change (objects (cd_objects cov_device)) with ({[cov_point := sample_value 1 "Setpoint"]} : gmap ObjectId StandardObject).
      by rewrite lookup_singleton_ne by done.
  - vm_compute. discriminate.
  - vm_compute. split; [discriminate|reflexivity].
  - vm_compute. repeat split; discriminate.
  - vm_compute. split; [discriminate|reflexivity].
  - discriminate.
  - discriminate.
  - vm_compute. reflexivity.
  - constructor; [exact I|constructor].
  - vm_compute. reflexivity.
  - exists c1, notes, d2. split; [vm_compute; reflexivity|]. split; [exact Hp|]. etransitivity; [exact Hf|vm_compute; reflexivity].
Defined.
