(* ===== verification/BacnetBatch.v ===== *)
(** BACnet batch services, ReadPropertyMultiple and WritePropertyMultiple
    ([mabi-bacnet/src/service/property_multiple.rs]), and discovery, Who-Is and I-Am
    ([service/discovery.rs]).

    The decoding loops take fuel: one more than the octets left, since every turn takes at least
    one. *)

From S2P Require Import Prelude BacnetNet BacnetValue BacnetApdu BacnetObject BacnetRegistry BacnetService.

(* ------------------------------------------------------------------ *)
(** * Requests *)

Record PropertyReference : Type := { property_id : PropertyId; array_index : option Z }.
Definition PropertyReference_new (p : PropertyId) : PropertyReference := {| property_id := p; array_index := None |}.
Definition ref_is_all (r : PropertyReference) : bool := bool_decide (property_id r = PiAll).
Definition ref_is_required (r : PropertyReference) : bool := bool_decide (property_id r = PiRequired).
Definition ref_is_optional (r : PropertyReference) : bool := bool_decide (property_id r = PiOptional).

Inductive PropertyAccessResult : Type :=
| ParValue (v : BACnetValue)
| ParError (error_class : ErrorClass) (error_code : ErrorCode).
Definition from_property_error (e : PropertyError) : PropertyAccessResult :=
  let '(c, e) := property_error_to_bacnet e in ParError c e.

Record ReadAccessResultItem : Type := { property_ref : PropertyReference; result : PropertyAccessResult }.
Record ReadAccessResult : Type := { ra_object_id : ObjectId; results : list ReadAccessResultItem }.
Record ReadAccessSpecification : Type := { rs_object_id : ObjectId; property_references : list PropertyReference }.

(** The context tag 0 and the object identifier a specification starts with. *)
Definition decode_spec_object : SDec ObjectId :=
  do? tag := up decode_tag_info in
  let '(tag, is_context, len) := tag in
  if negb is_context || negb (tag =? 0) || negb (len =? 4) then st_err SeInvalidRequest
  else
    do? o := up decode_object_identifier in
    do? opening := up (is_opening_tag 1) in
    if negb opening then st_err SeInvalidRequest
    else do? _ := up read_u8 in st_ret o.

Definition decode_property_id : SDec PropertyId :=
  do? tag := up decode_tag_info in
  let '(tag, is_context, len) := tag in
  if negb is_context || negb (tag =? 0) then st_err SeInvalidRequest
  else
    do? prop_id_value := up (decode_unsigned len) in
    st_lift (ok_or (PropertyId_from_u32 prop_id_value) (SeUnknownProperty prop_id_value)).

(** A number that is there when the next octet is the tag octet given. *)
Definition decode_if_tag (octet : Z) : SDec (option Z) :=
  do? next := up peek in
  if bool_decide (next = Some octet) then
    do? tag := up decode_tag_info in
    let '(_, _, len) := tag in
    st_map Some (up (decode_unsigned len))
  else st_ret None.

Definition decode_property_ref : SDec PropertyReference :=
  do? p := decode_property_id in
  do? i := decode_if_tag 0x19 in
  st_ret {| property_id := p; array_index := i |}.

(** [while !decoder.is_closing_tag(1)] over the items of one object. *)
Fixpoint decode_items {A} (item : SDec A) (fuel : nat) : SDec (list A) :=
  do? closing := up (is_closing_tag 1) in
  if closing then st_ret []
  else match fuel with
  | O => st_lift Panic
  | S fuel => do? x := item in do? xs := decode_items item fuel in st_ret (x :: xs)
  end.

(** [while !decoder.is_empty()] over the objects of a request. *)
Fixpoint decode_specs {A} (item : SDec A) (fuel : nat) : SDec (list (ObjectId * list A)) :=
  do? empty := up dec_is_empty in
  if empty then st_ret []
  else match fuel with
  | O => st_lift Panic
  | S fuel =>
      do? o := decode_spec_object in
      do? xs := (fun d => decode_items item (S (length d)) d) in
      do? _ := up read_u8 in
      do? specs := decode_specs item fuel in
      st_ret ((o, xs) :: specs)
  end.

Definition ReadMultiple_decode_request (data : list Z) : outcome ServiceError (list ReadAccessSpecification) :=
  omap_ok (fmap (fun s => {| rs_object_id := s.1; property_references := s.2 |}))
    (decode_specs decode_property_ref (length data) data).1.

Definition decode_property_value_from_context (expected_tag : Z) : SDec BACnetValue :=
  do? opening := up (is_opening_tag expected_tag) in
  do? _ := (if opening then st_map (fun _ => tt) (up read_u8) else st_ret tt) in
  do? tag := up decode_tag_info in
  let '(tag, is_context, len) := tag in
  do? value := decode_tagged_value tag is_context len in
  do? empty := up dec_is_empty in
  do? closing := up (is_closing_tag expected_tag) in
  do? _ := (if negb empty && closing then st_map (fun _ => tt) (up read_u8) else st_ret tt) in
  st_ret value.

Record PropertyValueWrite : Type := { pv_ref : PropertyReference; pv_value : BACnetValue; pv_priority : option Z }.
Record WriteAccessSpecification : Type := { ws_object_id : ObjectId; property_values : list PropertyValueWrite }.
Record WriteAccessResultItem : Type := { wr_ref : PropertyReference; wr_error : option (ErrorClass * ErrorCode) }.
Record WriteAccessResult : Type := { wa_object_id : ObjectId; wa_errors : list WriteAccessResultItem }.

Definition decode_property_write : SDec PropertyValueWrite :=
  do? r := decode_property_ref in
  do? v := decode_property_value_from_context 2 in
  do? p := decode_if_tag 0x39 in
  st_ret {| pv_ref := r; pv_value := v; pv_priority := as_u8 <$> p |}.

Definition WriteMultiple_decode_request (data : list Z) : outcome ServiceError (list WriteAccessSpecification) :=
  omap_ok (fmap (fun s => {| ws_object_id := s.1; property_values := s.2 |}))
    (decode_specs decode_property_write (length data) data).1.

(* ------------------------------------------------------------------ *)
(** * Execution *)

Section Execution.
Context {O : Type} `{BACnetObject O}.
Implicit Types (o : O) (s : ObjectRegistry O).

(** [None] for a panic of the object's own code. *)
Definition read_single_property o (r : PropertyReference) : option ReadAccessResultItem :=
  match read_property_at o (property_id r) (array_index r) with
  | Ok v => Some {| property_ref := r; result := ParValue v |}
  | Err e => Some {| property_ref := r; result := from_property_error e |}
  | Panic => None
  end.
Definition required_properties : list PropertyId := [PiObjectIdentifier; PiObjectName; PiObjectType].
Definition read_listed o (l : list PropertyId) : option (list ReadAccessResultItem) :=
  mapM (fun p => read_single_property o (PropertyReference_new p)) l.
Definition read_all_properties o : option (list ReadAccessResultItem) := read_listed o (list_properties o).
Definition read_required_properties o : option (list ReadAccessResultItem) :=
  read_listed o (filter (fun p => has_property o p = true) required_properties).
Definition read_optional_properties o : option (list ReadAccessResultItem) :=
  read_listed o (filter (fun p => p ∉ required_properties) (list_properties o)).

Definition read_reference o (r : PropertyReference) : option (list ReadAccessResultItem) :=
  if ref_is_all r then read_all_properties o
  else if ref_is_required r then read_required_properties o
  else if ref_is_optional r then read_optional_properties o
  else (fun x => [x]) <$> read_single_property o r.

Definition read_object_properties s (spec : ReadAccessSpecification) : option ReadAccessResult :=
  match get s (rs_object_id spec) with
  | None => Some {| ra_object_id := rs_object_id spec;
                    results := (fun r => {| property_ref := r; result := ParError EclObject EcUnknownObject |}) <$> property_references spec |}
  | Some o =>
      l ← mapM (read_reference o) (property_references spec);
      Some {| ra_object_id := rs_object_id spec; results := concat l |}
  end.
Definition ReadMultiple_execute s (specs : list ReadAccessSpecification) : option (list ReadAccessResult) :=
  mapM (read_object_properties s) specs.

Definition encode_error_pair (c : ErrorClass) (e : ErrorCode) : list Z :=
  encode_enumerated (ErrorClass_as_u32 c) ++ encode_enumerated (ErrorCode_as_u32 e).
Definition encode_read_item (i : ReadAccessResultItem) : list Z :=
  encode_context_enumerated 2 (PropertyId_as_u32 (property_id (property_ref i)))
  ++ match array_index (property_ref i) with Some x => encode_context_unsigned 3 x | None => [] end
  ++ match result i with
     | ParValue v => encode_opening_tag 4 ++ encode_value v ++ encode_closing_tag 4
     | ParError c e => encode_opening_tag 5 ++ encode_error_pair c e ++ encode_closing_tag 5
     end.
Definition encode_read_result (r : ReadAccessResult) : list Z :=
  encode_context_object_identifier 0 (ra_object_id r) ++ encode_opening_tag 1 ++ flat_map encode_read_item (results r)
  ++ encode_closing_tag 1.
Definition ReadMultiple_encode_response (l : list ReadAccessResult) : list Z := flat_map encode_read_result l.

Definition ReadPropertyMultiple_handle : Handle (O:=O) := fun data _ s =>
  match ReadMultiple_decode_request data with
  | Ok request =>
      match ReadMultiple_execute s request with
      | Some l => (Ok (SrComplexAck (ReadMultiple_encode_response l)), s)
      | None => (Panic, s)
      end
  | Err e => (Ok (request_error e), s)
  | Panic => (Panic, s)
  end.
Definition ReadPropertyMultipleHandler : ConfirmedServiceHandler O :=
  {| service_choice := CsReadPropertyMultiple; handle := ReadPropertyMultiple_handle; min_data_length := 7 |}.

(** Writes to one object, in order; a failure is noted and the next one is tried. *)
Fixpoint write_values (id : ObjectId) (l : list PropertyValueWrite) : stM (ObjectRegistry O) Empty_set (list WriteAccessResultItem) :=
  match l with
  | [] => st_ret []
  | pv :: l' => fun s =>
      let '(r, s') := on_object id
        (st_map_err property_error_to_bacnet
           (write_property_at (property_id (pv_ref pv)) (pv_value pv) (array_index (pv_ref pv)) (pv_priority pv)))
        (EclObject, EcUnknownObject) s in
      match r with
      | Ok _ => write_values id l' s'
      | Err e => let '(r, s'') := write_values id l' s' in (omap_ok (cons {| wr_ref := pv_ref pv; wr_error := Some e |}) r, s'')
      | Panic => (Panic, s')
      end
  end.
Definition write_object_properties (spec : WriteAccessSpecification) : stM (ObjectRegistry O) Empty_set WriteAccessResult := fun s =>
  match get s (ws_object_id spec) with
  | None => (Ok {| wa_object_id := ws_object_id spec;
                   wa_errors := (fun pv => {| wr_ref := pv_ref pv; wr_error := Some (EclObject, EcUnknownObject) |}) <$> property_values spec |}, s)
  | Some _ =>
      let '(r, s') := write_values (ws_object_id spec) (property_values spec) s in
      (omap_ok (fun l => {| wa_object_id := ws_object_id spec; wa_errors := l |}) r, s')
  end.
Fixpoint WriteMultiple_execute (specs : list WriteAccessSpecification) : stM (ObjectRegistry O) Empty_set (list WriteAccessResult) :=
  match specs with
  | [] => st_ret []
  | spec :: specs' =>
      do? r := write_object_properties spec in
      do? l := WriteMultiple_execute specs' in
      st_ret (r :: l)
  end.

Definition all_successful (l : list WriteAccessResult) : bool :=
  forallb (fun r => match wa_errors r with [] => true | _ => false end) l.
Definition first_error (l : list WriteAccessResult) : ErrorClass * ErrorCode :=
  default (EclProperty, EcWriteAccessDenied) (head (omap wr_error (flat_map wa_errors l))).

Definition WritePropertyMultiple_handle : Handle (O:=O) := fun data _ s =>
  match WriteMultiple_decode_request data with
  | Ok request =>
      let '(r, s') := WriteMultiple_execute request s in
      match r with
      | Ok l => (Ok (if all_successful l then SrSimpleAck else let '(c, e) := first_error l in SrError c e), s')
      | Err e => match e with end
      | Panic => (Panic, s')
      end
  | Err e => (Ok (request_error e), s)
  | Panic => (Panic, s)
  end.
Definition WritePropertyMultipleHandler : ConfirmedServiceHandler O :=
  {| service_choice := CsWritePropertyMultiple; handle := WritePropertyMultiple_handle; min_data_length := 10 |}.
End Execution.

(** [encode_error_response], which no handler calls. *)
Definition encode_write_error (i : WriteAccessResultItem) : list Z :=
  match wr_error i with
  | Some (c, e) =>
      encode_context_enumerated 0 (PropertyId_as_u32 (property_id (wr_ref i)))
      ++ match array_index (wr_ref i) with Some x => encode_context_unsigned 1 x | None => [] end
      ++ encode_opening_tag 2 ++ encode_error_pair c e ++ encode_closing_tag 2
  | None => []
  end.
Definition encode_error_response (l : list WriteAccessResult) : list Z :=
  flat_map (fun r => match wa_errors r with
                     | [] => []
                     | es => encode_context_object_identifier 0 (wa_object_id r) ++ encode_opening_tag 1
                             ++ flat_map encode_write_error es ++ encode_closing_tag 1
                     end) l.

(* ------------------------------------------------------------------ *)
(** * Requests on the wire *)

(** The items of one object, between opening and closing tag 1. *)
Definition encode_spec {A} (item : A → list Z) (s : ObjectId * list A) : list Z :=
  encode_context_object_identifier 0 s.1 ++ encode_opening_tag 1 ++ flat_map item s.2 ++ encode_closing_tag 1.
Definition encode_ref (r : PropertyReference) : list Z :=
  encode_context_enumerated 0 (PropertyId_as_u32 (property_id r))
  ++ match array_index r with Some i => encode_context_unsigned 1 i | None => [] end.
Definition encode_write (w : PropertyValueWrite) : list Z :=
  encode_ref (pv_ref w) ++ encode_opening_tag 2 ++ encode_value (pv_value w) ++ encode_closing_tag 2
  ++ match pv_priority w with Some x => encode_context_unsigned 3 x | None => [] end.

(** An item decoder that reads back what was encoded, whatever follows that is not mistaken for
    part of the item. *)
Definition item_ok {A} (enc : A → list Z) (dec : SDec A) (P : A → Prop) : Prop := ∀ x rest,
  P x → head rest ≠ Some 0x19 → head rest ≠ Some 0x39 →
  dec (enc x ++ rest) = (Ok x, rest) ∧ (∃ b l, enc x = b :: l ∧ b ≠ 0x1F ∧ b ≠ 0x19 ∧ b ≠ 0x39).

Lemma items_roundtrip {A} (enc : A → list Z) dec P l rest fuel :
  item_ok enc dec P → Forall P l → (length l ≤ fuel)%nat →
  decode_items dec fuel (flat_map enc l ++ 0x1F :: rest) = (Ok l, 0x1F :: rest).
Proof.
  intros Hi Hl. revert fuel. induction Hl as [|x l Hx Hl IH]; intros fuel Hf; [by destruct fuel|].
  destruct fuel as [|fuel]; [cbn in Hf; lia|]. cbn [flat_map]. rewrite <- app_assoc.
  assert (head (flat_map enc l ++ 0x1F :: rest) ≠ Some 0x19 ∧ head (flat_map enc l ++ 0x1F :: rest) ≠ Some 0x39) as [H1 H2].
  { destruct Hl as [|y l Hy _]; [done|]. destruct (Hi y [] Hy) as [_ (b & k & Hb & ? & ? & ?)]; [done..|].
    cbn [flat_map]. rewrite Hb. cbn. split; congruence. }
  destruct (Hi x (flat_map enc l ++ 0x1F :: rest) Hx) as [Hd (b & k & Hb & Hne & _)]; [done..|].
  cbn [decode_items]. rewrite (st_bind_ok _ _ _ false (enc x ++ flat_map enc l ++ 0x1F :: rest)).
  2: { apply up_ok. unfold is_closing_tag. rewrite Hb. cbn. by rewrite (proj2 (Z.eqb_neq b _)). }
  erewrite st_bind_ok by exact Hd. erewrite st_bind_ok by (apply IH; cbn in Hf; lia). done.
Qed.

Lemma spec_object_ok o rest :
  object_id_ok o → decode_spec_object (encode_context_object_identifier 0 o ++ encode_opening_tag 1 ++ rest) = (Ok o, rest).
Proof.
  intros Ho. unfold decode_spec_object, encode_context_object_identifier. rewrite <- app_assoc.
  erewrite st_bind_ok by (apply decode_context_tag; lia). cbn [negb orb Z.eqb Pos.eqb].
  erewrite st_bind_ok by (by apply up_ok, decode_object_identifier_ok). done.
Qed.

Lemma specs_roundtrip {A} (enc : A → list Z) dec P (l : list (ObjectId * list A)) fuel :
  item_ok enc dec P → Forall (fun s => object_id_ok s.1 ∧ Forall P s.2) l → (length l ≤ fuel)%nat →
  decode_specs dec fuel (flat_map (encode_spec enc) l) = (Ok l, []).
Proof.
  intros Hi Hl. revert fuel. induction Hl as [|[o xs] l [Ho Hx] _ IH]; intros fuel Hf; [by destruct fuel|].
  destruct fuel as [|fuel]; [cbn in Hf; lia|]. cbn [flat_map decode_specs fst snd] in *.
  unfold encode_spec at 1. cbn [fst snd]. rewrite <- !app_assoc.
  rewrite (st_bind_ok _ _ _ false (encode_context_object_identifier 0 o ++ encode_opening_tag 1 ++
    flat_map enc xs ++ encode_closing_tag 1 ++ flat_map (encode_spec enc) l)) by done.
  erewrite st_bind_ok by (by apply spec_object_ok). change (encode_closing_tag 1) with [0x1F]. cbn [app].
  rewrite (st_bind_ok _ _ _ xs (0x1F :: flat_map (encode_spec enc) l)).
  2: { eapply items_roundtrip; [done..|]. rewrite length_app.
       assert (length xs ≤ length (flat_map enc xs))%nat; [|lia]. clear -Hi Hx.
       induction Hx as [|x xs Hx _ IH]; [done|]. destruct (Hi x [] Hx) as [_ (b & k & Hb & _)]; [done..|].
       cbn [flat_map]. rewrite length_app, Hb. cbn. lia. }
  rewrite (st_bind_ok _ _ _ 0x1F (flat_map (encode_spec enc) l)) by done.
  erewrite st_bind_ok by (apply IH; cbn in Hf; lia). done.
Qed.

Lemma length_specs {A} (enc : A → list Z) (l : list (ObjectId * list A)) : (length l ≤ length (flat_map (encode_spec enc) l))%nat.
Proof.
  induction l as [|s l IH]; [done|]. cbn [flat_map length]. rewrite length_app.
  assert (1 ≤ length (encode_spec enc s))%nat; [|lia]. unfold encode_spec, encode_context_object_identifier.
  change (encode_context_tag 0 4) with [0x0C]. cbn [app length]. lia.
Qed.

(** ** Items *)

Definition ref_ok (r : PropertyReference) : Prop := known_property (property_id r) ∧ option_u8 (array_index r).
Definition write_ok_item (w : PropertyValueWrite) : Prop := ref_ok (pv_ref w) ∧ value_ok (pv_value w) ∧ option_u8 (pv_priority w).

Lemma decode_if_tag_ok octet tn (x : option Z) rest :
  0 <= tn < 15 → octet = Z.lor (Z.lor (as_u8 (Z.shiftl tn 4)) 8) 1 → option_u8 x → head rest ≠ Some octet →
  decode_if_tag octet (match x with Some x => encode_context_unsigned tn x | None => [] end ++ rest) = (Ok x, rest).
Proof.
  intros Ht Ho Hx Hr. unfold decode_if_tag. destruct x as [x|]; cbn [option_u8] in Hx.
  - pose proof (decode_context_tag tn 1 (x :: rest) Ht) as Hd. rewrite context_unsigned_small by done. rewrite <- Ho. cbn [app].
    erewrite st_bind_ok by (apply up_ok; reflexivity). cbn [head]. rewrite bool_decide_eq_true_2 by done.
    unfold encode_context_tag in Hd. rewrite (proj2 (Z.ltb_lt tn 15)) in Hd by lia. cbn [Z.ltb] in Hd. cbn in Hd.
    erewrite st_bind_ok; [|subst octet; apply Hd; lia]. cbn beta iota. by apply st_map_ok, up_ok, one_octet.
  - cbn [app]. erewrite st_bind_ok by (apply up_ok; reflexivity). by rewrite bool_decide_eq_false_2.
Qed.

Lemma context_enumerated_head p :
  ∃ b l, encode_context_enumerated 0 (PropertyId_as_u32 p) = b :: l ∧ b ≠ 0x1F ∧ b ≠ 0x19 ∧ b ≠ 0x39.
Proof. destruct p; by eexists _, _. Qed.

Lemma property_ref_ok r rest :
  ref_ok r → head rest ≠ Some 0x19 → decode_property_ref (encode_ref r ++ rest) = (Ok r, rest).
Proof.
  intros [Hp Hi] Hr. unfold decode_property_ref, encode_ref. rewrite <- app_assoc.
  destruct (context_enumerated_roundtrip _ (PropertyId_range (property_id r))) as [Hc Hl].
  erewrite (st_bind_ok _ _ _ (property_id r)).
  2: { unfold decode_property_id, encode_context_enumerated. rewrite <- app_assoc.
       erewrite st_bind_ok by (apply decode_context_tag; lia). cbn [negb orb Z.eqb].
       erewrite st_bind_ok by (by apply up_ok, decode_unsigned_ok). unfold st_lift. by rewrite Hp. }
  erewrite st_bind_ok by (by apply (decode_if_tag_ok _ 1)). by destruct r.
Qed.

Lemma read_item_ok : item_ok encode_ref decode_property_ref ref_ok.
Proof.
  intros r rest Hr H1 H2. split; [by apply property_ref_ok|].
  destruct (context_enumerated_head (property_id r)) as (b & l & Hb & Hne). unfold encode_ref. rewrite Hb. by eexists b, _.
Qed.

Lemma context_value_ok v rest :
  value_ok v →
  decode_property_value_from_context 2 (encode_opening_tag 2 ++ encode_value v ++ encode_closing_tag 2 ++ rest) = (Ok v, rest).
Proof.
  intros Hv. change (encode_opening_tag 2) with [0x2E]. change (encode_closing_tag 2) with [0x2F]. cbn [app].
  unfold decode_property_value_from_context.
  rewrite (st_bind_ok _ _ _ true (0x2E :: encode_value v ++ 0x2F :: rest)) by done.
  rewrite (st_bind_ok _ _ _ tt (encode_value v ++ 0x2F :: rest)) by done.
  rewrite decode_value_body by done. done.
Qed.

Lemma write_item_ok : item_ok encode_write decode_property_write write_ok_item.
Proof.
  intros w rest (Hr & Hv & Hp) H1 H2. split.
  - unfold decode_property_write, encode_write. rewrite <- !app_assoc.
    erewrite st_bind_ok by (by apply property_ref_ok). erewrite st_bind_ok by (by apply context_value_ok).
    erewrite st_bind_ok by (by apply (decode_if_tag_ok _ 3)). destruct w as [r v [x|]]; [|done]. cbn in Hp |- *. by rewrite as_u8_id.
  - destruct (context_enumerated_head (property_id (pv_ref w))) as (b & l & Hb & Hne). unfold encode_write, encode_ref. rewrite Hb. by eexists b, _.
Qed.

Definition read_specs (l : list (ObjectId * list PropertyReference)) : list Z := flat_map (encode_spec encode_ref) l.
Definition write_specs (l : list (ObjectId * list PropertyValueWrite)) : list Z := flat_map (encode_spec encode_write) l.

Lemma read_specs_decoded l :
  Forall (fun s => object_id_ok s.1 ∧ Forall ref_ok s.2) l →
  ReadMultiple_decode_request (read_specs l) = Ok ((fun s => {| rs_object_id := s.1; property_references := s.2 |}) <$> l).
Proof.
  intros Hl. unfold ReadMultiple_decode_request, read_specs. by rewrite (specs_roundtrip _ _ _ _ _ read_item_ok Hl (length_specs _ _)).
Qed.
Lemma write_specs_decoded l :
  Forall (fun s => object_id_ok s.1 ∧ Forall write_ok_item s.2) l →
  WriteMultiple_decode_request (write_specs l) = Ok ((fun s => {| ws_object_id := s.1; property_values := s.2 |}) <$> l).
Proof.
  intros Hl. unfold WriteMultiple_decode_request, write_specs. by rewrite (specs_roundtrip _ _ _ _ _ write_item_ok Hl (length_specs _ _)).
Qed.

(** ** Requests that do not decode *)

(** An item the decoder fails on, after items it reads: the whole request fails with that error. *)
Definition item_fails {A} (dec : SDec A) (e : ServiceError) (bad : list Z) : Prop :=
  (dec bad).1 = Err e ∧ ∃ b l, bad = b :: l ∧ b ≠ 0x1F ∧ b ≠ 0x19 ∧ b ≠ 0x39.
Lemma st_bind_err {S E A B} (c : stM S E A) (k : A → stM S E B) s e : (c s).1 = Err e → (st_bind c k s).1 = Err e.
Proof. unfold st_bind. by destruct (c s) as [[a|x|] s']; intros [= ->]. Qed.

Lemma items_fail {A} (enc : A → list Z) dec P l bad e fuel :
  item_ok enc dec P → Forall P l → item_fails dec e bad → (length l < fuel)%nat → (decode_items dec fuel (flat_map enc l ++ bad)).1 = Err e.
Proof.
  intros Hi Hl [Hd (b & k & Hb & Hne)]. revert fuel. induction Hl as [|x l Hx Hl IH]; intros fuel Hf; (destruct fuel as [|fuel]; [cbn in Hf; lia|]).
  - cbn [flat_map app decode_items]. rewrite (st_bind_ok _ _ _ false bad).
    2: { apply up_ok. unfold is_closing_tag. rewrite Hb. cbn. rewrite (proj2 (Z.eqb_neq b _)); [done|apply Hne]. }
    by apply st_bind_err.
  - assert (head (flat_map enc l ++ bad) ≠ Some 0x19 ∧ head (flat_map enc l ++ bad) ≠ Some 0x39) as [H1 H2].
    { destruct Hl as [|y l Hy _]; [destruct Hne as (? & ? & ?); subst bad; cbn; split; congruence|].
      destruct (Hi y [] Hy) as [_ (c & k' & Hc & ? & ? & ?)]; [done..|]. cbn [flat_map]. rewrite Hc. cbn. split; congruence. }
    cbn [flat_map]. rewrite <- app_assoc. destruct (Hi x (flat_map enc l ++ bad) Hx) as [Hx' (c & k' & Hc & Hnc & _)]; [done..|].
    cbn [decode_items]. rewrite (st_bind_ok _ _ _ false (enc x ++ flat_map enc l ++ bad)).
    2: { apply up_ok. unfold is_closing_tag. rewrite Hc. cbn. by rewrite (proj2 (Z.eqb_neq c _)). }
    erewrite st_bind_ok by exact Hx'. apply st_bind_err, IH. cbn in Hf. lia.
Qed.
Lemma length_items {A} (enc : A → list Z) dec P l : item_ok enc dec P → Forall P l → (length l ≤ length (flat_map enc l))%nat.
Proof.
  intros Hi. induction 1 as [|x l Hx _ IH]; [done|]. destruct (Hi x [] Hx) as [_ (b & k & Hb & _)]; [done..|].
  cbn [flat_map]. rewrite length_app, Hb. cbn. lia.
Qed.
Lemma specs_fail {A} (enc : A → list Z) dec P (l : list (ObjectId * list A)) o xs bad e fuel :
  item_ok enc dec P → Forall (fun s => object_id_ok s.1 ∧ Forall P s.2) l → object_id_ok o → Forall P xs → item_fails dec e bad → (length l < fuel)%nat →
  (decode_specs dec fuel (flat_map (encode_spec enc) l ++ encode_context_object_identifier 0 o ++ encode_opening_tag 1 ++ flat_map enc xs ++ bad)).1 = Err e.
Proof.
  intros Hi Hl Ho Hxs Hbad. revert fuel. induction Hl as [|[o' ys] l [Ho' Hys] _ IH]; intros fuel Hf; (destruct fuel as [|fuel]; [cbn in Hf; lia|]).
  - cbn [flat_map app decode_specs].
    rewrite (st_bind_ok _ _ _ false (encode_context_object_identifier 0 o ++ encode_opening_tag 1 ++ flat_map enc xs ++ bad)) by done.
    erewrite st_bind_ok by (by apply spec_object_ok). apply st_bind_err. apply (items_fail enc dec P); [done..|].
    rewrite length_app. pose proof (length_items enc dec P xs Hi Hxs). lia.
  - cbn [flat_map decode_specs fst snd] in *. unfold encode_spec at 1. cbn [fst snd]. rewrite <- !app_assoc.
    match goal with |- context [st_bind (up dec_is_empty) _ ?d] => rewrite (st_bind_ok (up dec_is_empty) _ d false d) by done end.
    erewrite st_bind_ok by (by apply spec_object_ok). change (encode_closing_tag 1) with [0x1F]. cbn [app].
    erewrite st_bind_ok by (apply (items_roundtrip enc dec P); [done..|]; rewrite length_app; pose proof (length_items enc dec P ys Hi Hys); lia).
    rewrite (st_bind_ok _ _ _ 0x1F (flat_map (encode_spec enc) l ++ encode_context_object_identifier 0 o ++ encode_opening_tag 1 ++ flat_map enc xs ++ bad)) by done.
    apply st_bind_err, IH. cbn in Hf. lia.
Qed.

(** The items the source refuses: a property number it does not know, and a value of a type it does
    not decode (date and time). *)
Inductive refused_item : ServiceError → list Z → Prop :=
| refused_property n rest : is_u32 n → PropertyId_from_u32 n = None →
    refused_item (SeUnknownProperty n) (encode_context_enumerated 0 n ++ rest)
| refused_value r t len rest : ref_ok r → t ∈ [TnDate; TnTime] → is_u32 len →
    refused_item (SeUnsupportedDataType (TagNumber_as_u8 t)) (encode_ref r ++ encode_opening_tag 2 ++ encode_application_tag t len ++ rest).
Lemma enumerated_head n : is_u32 n → ∃ b l, encode_context_enumerated 0 n = b :: l ∧ b ≠ 0x1F ∧ b ≠ 0x19 ∧ b ≠ 0x39.
Proof.
  intros Hn. destruct (context_enumerated_roundtrip n Hn) as [_ Hl]. unfold encode_context_enumerated, encode_context_tag.
  assert (zlen (context_enumerated_bytes n) = 1 ∨ zlen (context_enumerated_bytes n) = 2 ∨ zlen (context_enumerated_bytes n) = 3 ∨
    zlen (context_enumerated_bytes n) = 4) as [->|[->|[->| ->]]] by lia; by do 2 eexists.
Qed.
Lemma unknown_property n rest : is_u32 n → PropertyId_from_u32 n = None →
  decode_property_ref (encode_context_enumerated 0 n ++ rest) = (Err (SeUnknownProperty n), rest).
Proof.
  intros Hn Hp. destruct (context_enumerated_roundtrip n Hn) as [Hc Hl].
  unfold decode_property_ref, decode_property_id, encode_context_enumerated. rewrite <- app_assoc.
  unfold st_bind at 1. erewrite st_bind_ok by (apply decode_context_tag; lia). cbn [negb orb Z.eqb].
  erewrite st_bind_ok by (by apply up_ok, decode_unsigned_ok). unfold st_lift. by rewrite Hp.
Qed.
Lemma refused_fails e bad : refused_item e bad → item_fails decode_property_write e bad.
Proof.
  intros [n rest Hn Hp|r t len rest Hr Ht Hlen]; split.
  - apply st_bind_err. by rewrite unknown_property.
  - destruct (enumerated_head n Hn) as (b & l & Hb & Hne). rewrite Hb. by eexists b, _.
  - unfold decode_property_write. erewrite st_bind_ok by (by apply property_ref_ok). apply st_bind_err.
    change (encode_opening_tag 2) with [0x2E]. cbn [app]. unfold decode_property_value_from_context.
    rewrite (st_bind_ok _ _ _ true (0x2E :: encode_application_tag t len ++ rest)) by done.
    rewrite (st_bind_ok _ _ _ tt (encode_application_tag t len ++ rest)) by done.
    erewrite st_bind_ok by (by apply decode_application_tag). cbn beta iota. apply st_bind_err.
    rewrite !elem_of_cons, elem_of_nil in Ht. by destruct Ht as [->|[->|[]]].
  - destruct (context_enumerated_head (property_id r)) as (b & l & Hb & Hne). unfold encode_ref. rewrite Hb. by eexists b, _.
Qed.

(* ------------------------------------------------------------------ *)
(** * A batch is its single requests *)

Section Batch.
Context {O : Type} `{BACnetObject O}.
Implicit Types (s : ObjectRegistry O).

(** What ReadProperty would answer; nothing when the object's code panics. *)
Definition single_read s (id : ObjectId) (r : PropertyReference) : option ReadAccessResultItem :=
  match handle_read_property {| rp_object_identifier := id; rp_property_identifier := property_id r; rp_array_index := array_index r |} s with
  | Ok v => Some {| property_ref := r; result := ParValue v |}
  | Err (c, e) => Some {| property_ref := r; result := ParError c e |}
  | Panic => None
  end.
Definition single_reads s (spec : ObjectId * list PropertyReference) : option ReadAccessResult :=
  (fun l => {| ra_object_id := spec.1; results := l |}) <$> mapM (single_read s spec.1) spec.2.

Lemma known_not_special r : ref_ok r → ref_is_all r = false ∧ ref_is_required r = false ∧ ref_is_optional r = false.
Proof.
  intros [Hp _]. unfold ref_is_all, ref_is_required, ref_is_optional.
  split_and!; apply bool_decide_eq_false_2; intros Hr; rewrite Hr in Hp; discriminate.
Qed.

Lemma mapM_wrap {A B} (f : A → option B) (l : list A) :
  (@concat B) <$> mapM (fun x => (fun y => [y]) <$> f x) l = mapM f l.
Proof.
  induction l as [|x l IH]; [done|]. cbn. rewrite <- IH. destruct (f x); [|done]. cbn. by destruct (mapM _ l).
Qed.
Lemma mapM_Forall_ext {A B} (f g : A → option B) l : Forall (fun x => f x = g x) l → mapM f l = mapM g l.
Proof. induction 1 as [|x l Hx _ IH]; [done|]. cbn. by rewrite Hx, IH. Qed.

Lemma read_object_single s spec :
  Forall ref_ok spec.2 →
  read_object_properties s {| rs_object_id := spec.1; property_references := spec.2 |} = single_reads s spec.
Proof.
  intros Hr. unfold read_object_properties, single_reads. cbn [rs_object_id property_references].
  destruct (get s spec.1) as [o|] eqn:Ho.
  - rewrite (mapM_Forall_ext (read_reference o) (fun r => (fun y => [y]) <$> single_read s spec.1 r)).
    { rewrite <- (mapM_wrap (single_read s spec.1)). by destruct (mapM _ spec.2). }
    eapply Forall_impl; [exact Hr|]. intros r (Ha & Hq & Hp)%known_not_special. unfold read_reference. rewrite Ha, Hq, Hp. f_equal.
    unfold single_read, handle_read_property, read_single_property. cbn [rp_object_identifier rp_property_identifier rp_array_index].
    rewrite Ho. cbn [ok_or obind]. destruct (read_property_at _ _ _) as [v|e|]; cbn [map_err]; [done| |done].
    unfold from_property_error. by destruct (property_error_to_bacnet e).
  - rewrite (mapM_Forall_ext (single_read s spec.1) (fun r => Some {| property_ref := r; result := ParError EclObject EcUnknownObject |})).
    + assert (∀ l : list PropertyReference, mapM (fun r => Some {| property_ref := r; result := ParError EclObject EcUnknownObject |}) l =
        Some ((fun r => {| property_ref := r; result := ParError EclObject EcUnknownObject |}) <$> l)) as ->; [|done].
      intros l. induction l as [|r l IH]; [done|]. cbn. by rewrite IH.
    + apply Forall_forall. intros r _. unfold single_read, handle_read_property. cbn [rp_object_identifier]. by rewrite Ho.
Qed.

(** A ReadPropertyMultiple request answers every reference exactly as a ReadProperty request
    for it would: the values and the errors, one for each reference and in the order of the
    request; an error in one of them leaves the others alone, and nothing is changed. *)
Theorem read_multiple_agrees `{!ObjectLaws O} l ctx s :
  Forall (fun spec => object_id_ok spec.1 ∧ Forall ref_ok spec.2) l →
  ∃ answers, mapM (single_reads s) l = Some answers ∧
    ReadPropertyMultiple_handle (read_specs l) ctx s = (Ok (SrComplexAck (ReadMultiple_encode_response answers)), s).
Proof.
  intros Hl. assert (is_Some (mapM (single_reads s) l)) as [answers Ha].
  { apply mapM_is_Some, Forall_forall. intros spec _. unfold compose, single_reads. apply fmap_is_Some, mapM_is_Some, Forall_forall.
    intros r _. unfold compose, single_read, handle_read_property. cbn [rp_object_identifier rp_property_identifier rp_array_index]. destruct (get s spec.1) as [o|]; [|done]. cbn [ok_or obind].
    assert (read_property_at o (property_id r) (array_index r) ≠ Panic) as Hn by apply read_at_no_panic.
    destruct (read_property_at _ _ _) as [v|e|]; cbn; [by eexists| |done]. destruct (property_error_to_bacnet e). by eexists. }
  exists answers. split; [done|]. unfold ReadPropertyMultiple_handle. rewrite read_specs_decoded by done.
  unfold ReadMultiple_execute.
  assert (mapM (read_object_properties s) ((fun x => {| rs_object_id := x.1; property_references := x.2 |}) <$> l) = mapM (single_reads s) l) as ->.
  { clear Ha. induction Hl as [|spec l [_ Hr] _ IH]; [done|]. cbn [fmap list_fmap]. cbn. by rewrite IH, read_object_single. }
  by rewrite Ha.
Qed.

(** What the single WriteProperty requests do, one after the other: their errors, in order. *)
Fixpoint write_each (l : list WritePropertyRequest) : stM (ObjectRegistry O) Empty_set (list (ErrorClass * ErrorCode)) :=
  match l with
  | [] => st_ret []
  | r :: l' => fun s =>
      let '(x, s') := handle_write_property r s in
      match x with
      | Ok _ => write_each l' s'
      | Err e => let '(y, s'') := write_each l' s' in (omap_ok (cons e) y, s'')
      | Panic => (Panic, s')
      end
  end.
Definition single_write (id : ObjectId) (w : PropertyValueWrite) : WritePropertyRequest :=
  {| wp_object_identifier := id; wp_property_identifier := property_id (pv_ref w); wp_array_index := array_index (pv_ref w);
     wp_value := pv_value w; wp_priority := pv_priority w |}.
Definition single_writes (l : list (ObjectId * list PropertyValueWrite)) : list WritePropertyRequest :=
  flat_map (fun spec => single_write spec.1 <$> spec.2) l.
Definition errors_of (l : list WriteAccessResultItem) : list (ErrorClass * ErrorCode) := omap wr_error l.
Definition all_noted (l : list WriteAccessResultItem) : Prop := Forall (fun i => is_Some (wr_error i)) l.

Lemma write_each_app l1 l2 s :
  write_each (l1 ++ l2) s =
  match write_each l1 s with
  | (Ok e1, s1) => let '(r, s2) := write_each l2 s1 in (omap_ok (app e1) r, s2)
  | (r, s1) => (r, s1)
  end.
Proof.
  revert s. induction l1 as [|r l1 IH]; intros s; cbn [app write_each].
  { unfold st_ret. destruct (write_each l2 s) as [[e|[]|] s']; reflexivity. }
  destruct (handle_write_property r s) as [[u|e|] s']; [apply IH| |done].
  rewrite IH. destruct (write_each l1 s') as [[e1|[]|] s1]; cbn; [|done]. by destruct (write_each l2 s1) as [[e2|[]|] s2].
Qed.

(** The writes to one object. *)
Lemma write_values_each id l s :
  let '(r, s') := write_values id l s in
  write_each (single_write id <$> l) s = (omap_ok errors_of r, s') ∧ match r with Ok items => all_noted items | _ => True end.
Proof.
  revert s. induction l as [|w l IH]; intros s; [split; [done|constructor]|]. cbn [write_values fmap list_fmap write_each].
  unfold handle_write_property. cbn [wp_object_identifier wp_property_identifier wp_array_index wp_value wp_priority single_write].
  destruct (on_object id _ _ s) as [[u|e|] s']; [apply IH| |done]. specialize (IH s').
  destruct (write_values id l s') as [[items|[]|] s'']; destruct IH as [-> Hn]; [|done]. split; [done|]. by constructor.
Qed.

Lemma write_missing id l s :
  get s id = None → write_each (single_write id <$> l) s = (Ok ((fun _ => (EclObject, EcUnknownObject)) <$> l), s).
Proof.
  intros Hg. induction l as [|w l IH]; [done|]. cbn [fmap list_fmap write_each]. unfold handle_write_property, on_object.
  cbn [wp_object_identifier single_write]. unfold get in Hg. rewrite Hg. cbn beta iota. by rewrite IH.
Qed.

Lemma write_object_each spec s :
  let '(r, s') := write_object_properties {| ws_object_id := spec.1; property_values := spec.2 |} s in
  write_each (single_write spec.1 <$> spec.2) s = (omap_ok (fun x => errors_of (wa_errors x)) r, s') ∧
  match r with Ok x => all_noted (wa_errors x) | _ => True end.
Proof.
  unfold write_object_properties. cbn [ws_object_id property_values]. destruct (get s spec.1) eqn:Hg.
  - pose proof (write_values_each spec.1 spec.2 s) as Hw. destruct (write_values _ _ s) as [[items|[]|] s']; exact Hw.
  - rewrite write_missing by done. cbn. split.
    + do 2 f_equal. induction (spec.2) as [|w l IH]; [done|]. cbn. by f_equal.
    + apply Forall_fmap, Forall_forall. intros w _. by eexists.
Qed.

Lemma execute_each l s :
  let '(r, s') := WriteMultiple_execute ((fun x => {| ws_object_id := x.1; property_values := x.2 |}) <$> l) s in
  write_each (single_writes l) s = (omap_ok (flat_map (fun x => errors_of (wa_errors x))) r, s') ∧
  match r with Ok x => Forall (fun a => all_noted (wa_errors a)) x | _ => True end.
Proof.
  revert s. induction l as [|spec l IH]; intros s; [by split; [|constructor]|].
  cbn [fmap list_fmap WriteMultiple_execute]. unfold st_bind at 1. change (single_writes (spec :: l)) with
    ((single_write spec.1 <$> spec.2) ++ single_writes l). rewrite write_each_app. pose proof (write_object_each spec s) as Hw.
  destruct (write_object_properties _ s) as [[x|[]|] s1]; destruct Hw as [-> Hn]; [|done]. cbn [omap_ok]. unfold st_bind.
  specialize (IH s1). destruct (WriteMultiple_execute _ s1) as [[y|[]|] s2]; destruct IH as [-> Hns]; [|done].
  split; [done|]. by constructor.
Qed.

(** The answer to a list of errors. *)
Definition batch_answer (errors : list (ErrorClass * ErrorCode)) : ServiceResult :=
  match errors with [] => SrSimpleAck | (c, e) :: _ => SrError c e end.

Lemma answer_of_results l :
  Forall (fun a => all_noted (wa_errors a)) l →
  (if all_successful l then SrSimpleAck else let '(c, e) := first_error l in SrError c e) =
  batch_answer (flat_map (fun x => errors_of (wa_errors x)) l).
Proof.
  unfold first_error. induction 1 as [|a l Ha _ IH]; [done|]. cbn [all_successful forallb flat_map].
  destruct Ha as [|i items [[c e] Hi] Hn]; cbn [andb app]; [done|].
  unfold errors_of. cbn. by rewrite Hi.
Qed.

(** C23: A WritePropertyMultiple request does exactly what its writes do as WriteProperty
    requests, one after the other, provided the whole request decodes: every property number is one the
    source knows and every value of a type it decodes. Then every write is attempted, also after
    one that failed and for every object; the answer is an acknowledgement when all of them succeeded, and otherwise the
    first error. The request is decoded before anything is written: a batch with one unknown property number,
    or one date or time value, after any number of good writes and before whatever follows,
    performs none of its writes and is answered by one error. *)
Theorem write_multiple_agrees l ctx s :
  Forall (fun spec => object_id_ok spec.1 ∧ Forall write_ok_item spec.2) l →
  WritePropertyMultiple_handle (write_specs l) ctx s =
  (let '(r, s') := write_each (single_writes l) s in (omap_ok batch_answer r, s')) ∧
  (∀ o ws e bad, object_id_ok o → Forall write_ok_item ws → refused_item e bad →
     WritePropertyMultiple_handle
       (write_specs l ++ encode_context_object_identifier 0 o ++ encode_opening_tag 1 ++ flat_map encode_write ws ++ bad) ctx s =
     (Ok (request_error e), s)).
Proof.
  intros Hl. unfold WritePropertyMultiple_handle. split.
  - rewrite write_specs_decoded by done. pose proof (execute_each l s) as He.
    destruct (WriteMultiple_execute _ s) as [[x|[]|] s']; destruct He as [-> Hn]; [|done]. cbn. by rewrite answer_of_results.
  - intros o ws e bad Ho Hws Hbad%refused_fails. unfold WriteMultiple_decode_request. unfold write_specs.
    rewrite (specs_fail _ _ _ _ _ _ _ e _ write_item_ok Hl Ho Hws Hbad); [done|].
    rewrite length_app. pose proof (length_specs encode_write l). change (encode_context_object_identifier 0 o) with (0x0C :: u32_to_be (ObjectId_encode o)).
    cbn [app length]. lia.
Qed.

(** The selectors "all", "required" and "optional" that the handler implements cannot be
    reached: the decoder refuses their numbers as unknown properties, and the whole request with
    them. *)
Theorem selectors_refused o p rest ctx s :
  object_id_ok o → p ∈ [PiAll; PiRequired; PiOptional] →
  ReadPropertyMultiple_handle
    (encode_context_object_identifier 0 o ++ encode_opening_tag 1 ++ encode_context_enumerated 0 (PropertyId_as_u32 p) ++ rest) ctx s =
  (Ok (SrError EclServices EcUnknownProperty), s).
Proof.
  intros Ho Hp. unfold ReadPropertyMultiple_handle, ReadMultiple_decode_request.
  set (d := encode_context_enumerated 0 (PropertyId_as_u32 p) ++ rest).
  assert (decode_property_ref d = (Err (SeUnknownProperty (PropertyId_as_u32 p)), rest)) as Hd.
  { apply unknown_property; [apply PropertyId_range|]. rewrite !elem_of_cons, elem_of_nil in Hp. by destruct Hp as [->|[->|[->|[]]]]. }
  assert ((decode_specs decode_property_ref (length (encode_context_object_identifier 0 o ++ encode_opening_tag 1 ++ d))
    (encode_context_object_identifier 0 o ++ encode_opening_tag 1 ++ d)).1 = Err (SeUnknownProperty (PropertyId_as_u32 p))) as ->; [|done].
  change (length (encode_context_object_identifier 0 o ++ encode_opening_tag 1 ++ d)) with (S (4 + S (length d))).
  cbn [decode_specs]. erewrite st_bind_ok by reflexivity. change (encode_context_object_identifier 0 o) with
    (0x0C :: u32_to_be (ObjectId_encode o)) at 1. cbn [app]. change (0x0C :: u32_to_be (ObjectId_encode o) ++ ?x) with
    (encode_context_object_identifier 0 o ++ x). erewrite st_bind_ok by (by apply spec_object_ok).
  unfold st_bind at 1. cbn [decode_items]. destruct (context_enumerated_head p) as (b & k & Hb & Hne & _).
  rewrite (st_bind_ok _ _ _ false d).
  2: { apply up_ok. unfold is_closing_tag, d. rewrite Hb. cbn. by rewrite (proj2 (Z.eqb_neq b _)). }
  unfold st_bind at 1. by rewrite Hd.
Qed.
End Batch.

(* ------------------------------------------------------------------ *)
(** * Every batch read is answered *)

Lemma decode_items_total {A} (item : SDec A) fuel l :
  consumes 1 item → (length l < fuel)%nat →
  match decode_items item fuel l with (Ok _, l') => (length l' ≤ length l)%nat | (Err _, _) => True | (Panic, _) => False end.
Proof.
  intros Hi. revert l. induction fuel as [|fuel IH]; intros l Hl; [lia|]. cbn [decode_items].
  erewrite st_bind_ok by (apply up_ok; reflexivity). match goal with |- context [if ?b then _ else _] => destruct b end; [cbn; lia|].
  unfold st_bind. specialize (Hi l). destruct (item l) as [[x|e|] l1]; [|done..].
  specialize (IH l1 ltac:(lia)). destruct (decode_items item fuel l1) as [[xs|e|] l2]; [cbn; lia|done..].
Qed.

Lemma consumes_spec_object : consumes 1 decode_spec_object.
Proof.
  apply consumes_first; [auto with consume|]. intros [[t c] len]. destruct (_ || _); [auto with consume|].
  apply consumes_first; [auto with consume|]. intros o l. erewrite st_bind_ok by (apply up_ok; reflexivity).
  destruct (negb _); [done|]. revert l. apply (consumes_weaken 1); [|lia]. apply consumes_first; auto with consume.
Qed.

Lemma decode_specs_total {A} (item : SDec A) fuel l :
  consumes 1 item → (length l ≤ fuel)%nat → (decode_specs item fuel l).1 ≠ Panic.
Proof.
  intros Hi. revert l. induction fuel as [|fuel IH]; intros l Hl; [by destruct l; [|cbn in Hl; lia]|].
  cbn [decode_specs]. erewrite st_bind_ok by (apply up_ok; reflexivity). destruct l as [|b l]; [done|]. cbv iota.
  unfold st_bind at 1. pose proof (consumes_spec_object (b :: l)) as Ho. destruct (decode_spec_object _) as [[o|e|] l1]; [|done..].
  unfold st_bind at 1. pose proof (decode_items_total item (S (length l1)) l1 Hi ltac:(lia)) as Hit.
  destruct (decode_items item _ l1) as [[xs|e|] l2]; [|done..].
  unfold st_bind at 1. pose proof (consumes_up _ _ consumes_read_u8 l2) as Hr. destruct (up read_u8 l2) as [[u|e|] l3]; [|done..].
  unfold st_bind. specialize (IH l3 ltac:(cbn in *; lia)). by destruct (decode_specs item fuel l3) as [[ss|e|] l4].
Qed.

Lemma consumes_property_ref : consumes 1 decode_property_ref.
Proof.
  apply consumes_first.
  - apply consumes_first; [auto with consume|]. intros [[t c] len]. destruct (_ || _); [auto with consume|].
    apply consumes_first; [auto with consume|]. intros v l. unfold st_lift. destruct (PropertyId_from_u32 v); cbn; [lia|done].
  - intros p. apply consumes_first; [|auto with consume]. intros l. unfold decode_if_tag.
    erewrite st_bind_ok by (apply up_ok; reflexivity). case_bool_decide; [|cbn; lia].
    apply (consumes_weaken 1 0); [|lia]. apply consumes_first; [auto with consume|]. intros [[t c] len]. auto with consume.
Qed.

(** The ReadPropertyMultiple handler answers every byte string, and changes no object. *)
Theorem read_multiple_total {O} `{BACnetObject O} `{!ObjectLaws O} data ctx (s : ObjectRegistry O) :
  ∃ r, ReadPropertyMultiple_handle data ctx s = (Ok r, s).
Proof.
  pose proof (decode_specs_total decode_property_ref (length data) data consumes_property_ref (le_n _)) as Hd.
  assert (∀ (o : O) r, is_Some (read_single_property o r)) as Hsingle.
  { intros o r. unfold read_single_property. pose proof (read_at_no_panic o (property_id r) (array_index r)) as Hn.
    by destruct (read_property_at _ _ _); [eexists|eexists|]. }
  assert (∀ (o : O) l, is_Some (read_listed o l)) as Hlisted.
  { intros o l. apply mapM_is_Some, Forall_forall. intros p _. apply Hsingle. }
  assert (∀ specs, is_Some (ReadMultiple_execute s specs)) as Hexec.
  { intros specs. apply mapM_is_Some, Forall_forall. intros spec _. unfold compose, read_object_properties.
    destruct (get s _) as [o|]; [|by eexists].
    assert (is_Some (mapM (read_reference o) (property_references spec))) as [l Hl].
    { apply mapM_is_Some, Forall_forall. intros r _. unfold compose, read_reference, read_all_properties, read_required_properties, read_optional_properties.
      destruct (ref_is_all r); [apply Hlisted|]. destruct (ref_is_required r); [apply Hlisted|].
      destruct (ref_is_optional r); [apply Hlisted|]. by apply fmap_is_Some. }
    rewrite Hl. by eexists. }
  unfold ReadPropertyMultiple_handle, ReadMultiple_decode_request.
  destruct (decode_specs _ _ data).1 as [specs|e|]; cbn [omap_ok]; [|by eexists|done].
  match goal with |- context [ReadMultiple_execute s ?x] => destruct (Hexec x) as [l ->] end. by eexists.
Qed.

(* ------------------------------------------------------------------ *)
(** * Discovery *)

Record WhoIsRequest : Set := { device_instance_low : option Z; device_instance_high : option Z }.
Definition WhoIsRequest_all : WhoIsRequest := {| device_instance_low := None; device_instance_high := None |}.
Definition WhoIsRequest_range (low high : Z) : WhoIsRequest :=
  {| device_instance_low := Some low; device_instance_high := Some high |}.
Definition WhoIsRequest_specific (i : Z) : WhoIsRequest := WhoIsRequest_range i i.
Definition WhoIsRequest_matches (r : WhoIsRequest) (i : Z) : bool :=
  match device_instance_low r, device_instance_high r with
  | None, None => true
  | Some low, None => low <=? i
  | None, Some high => i <=? high
  | Some low, Some high => (low <=? i) && (i <=? high)
  end.

(** A bound with the context tag given; what is read of anything else is lost. *)
Definition decode_bound (n : Z) : list Z → outcome Empty_set (option Z) * list Z := fun d =>
  match d with
  | [] => (Ok None, d)
  | _ => match decode_tag_info d with
         | (Ok (tag, is_context, len), d') =>
             if is_context && (tag =? n) then
               match decode_unsigned len d' with
               | (Ok x, d'') => (Ok (Some x), d'')
               | (Err _, d'') => (Ok None, d'')
               | (Panic, d'') => (Panic, d'')
               end
             else (Ok None, d')
         | (Err _, d') => (Ok None, d')
         | (Panic, d') => (Panic, d')
         end
  end.
Definition WhoIsRequest_decode (data : list Z) : outcome Empty_set WhoIsRequest :=
  fst ((do? low := decode_bound 0 in
        do? high := decode_bound 1 in
        st_ret {| device_instance_low := low; device_instance_high := high |}) data).
Definition WhoIsRequest_encode (r : WhoIsRequest) : list Z :=
  match device_instance_low r with Some x => encode_context_unsigned 0 x | None => [] end
  ++ match device_instance_high r with Some x => encode_context_unsigned 1 x | None => [] end.

(** [object::property::SegmentationSupport] *)
Inductive Segmentation : Set := SgBoth | SgTransmit | SgReceive | SgNone.
Definition Segmentation_as_u32 (s : Segmentation) : Z :=
  match s with SgBoth => 0 | SgTransmit => 1 | SgReceive => 2 | SgNone => 3 end.
Definition Segmentation_from_u32 (x : Z) : Segmentation :=
  match x with 0 => SgBoth | 1 => SgTransmit | 2 => SgReceive | _ => SgNone end.

Record IAmResponse : Set := {
  device_identifier : ObjectId;
  max_apdu_length_accepted : Z;
  segmentation_supported : Segmentation;
  vendor_id : Z
}.
Definition IAmResponse_new `{BuildProfile} {E} (instance max : Z) (s : Segmentation) (vendor : Z) : outcome E IAmResponse :=
  let? o := ObjectId_new OtDevice instance in
  Ok {| device_identifier := o; max_apdu_length_accepted := max; segmentation_supported := s; vendor_id := vendor |}.
Definition IAmResponse_encode (r : IAmResponse) : list Z :=
  encode_object_identifier (device_identifier r) ++ encode_unsigned (max_apdu_length_accepted r)
  ++ encode_enumerated (Segmentation_as_u32 (segmentation_supported r)) ++ encode_unsigned (vendor_id r).

(** An application tag, and the length that follows it. *)
Definition expect_tag (n : Z) : Dec Z :=
  do? tag := decode_tag_info in
  let '(tag, is_context, len) := tag in
  if negb (tag =? n) || is_context then st_err ApTooShort else st_ret len.
(** [None] for every error; their kinds do not matter. *)
Definition IAmResponse_decode (data : list Z) : option IAmResponse :=
  match fst ((do? _ := expect_tag 12 in
              do? o := decode_object_identifier in
              do? len := expect_tag 2 in
              do? max := decode_unsigned len in
              do? len := expect_tag 9 in
              do? seg := decode_unsigned len in
              do? len := expect_tag 2 in
              do? vendor := decode_unsigned len in
              st_ret {| device_identifier := o; max_apdu_length_accepted := as_u16 max;
                        segmentation_supported := Segmentation_from_u32 seg; vendor_id := as_u16 vendor |}) data) with
  | Ok r => Some r
  | _ => None
  end.

Record WhoIsHandler : Set := { wi_instance : Z; wi_max_apdu : Z; wi_segmentation : Segmentation; wi_vendor : Z }.
Definition WhoIs_handle `{BuildProfile} {O} `{BACnetObject O} (h : WhoIsHandler) : Handle (O:=O) := fun data _ s =>
  match WhoIsRequest_decode data with
  | Ok request =>
      if WhoIsRequest_matches request (wi_instance h) then
        match IAmResponse_new (wi_instance h) (wi_max_apdu h) (wi_segmentation h) (wi_vendor h) with
        | Ok i_am => (Ok (SrBroadcast (IAmResponse_encode i_am)), s)
        | Err e => (Err e, s)
        | Panic => (Panic, s)
        end
      else (Ok SrNoResponse, s)
  | Err e => (Err e, s)
  | Panic => (Panic, s)
  end.

Record DiscoveryService : Set := { ds_instance : Z; ds_max_apdu : Z; ds_segmentation : Segmentation; ds_vendor : Z }.
Definition DiscoveryService_new (instance vendor : Z) : DiscoveryService :=
  {| ds_instance := instance; ds_max_apdu := 1476; ds_segmentation := SgNone; ds_vendor := vendor |}.
Definition generate_i_am `{BuildProfile} {E} (d : DiscoveryService) : outcome E IAmResponse :=
  IAmResponse_new (ds_instance d) (ds_max_apdu d) (ds_segmentation d) (ds_vendor d).
Definition handle_who_is `{BuildProfile} {E} (d : DiscoveryService) (r : WhoIsRequest) : outcome E (option IAmResponse) :=
  if WhoIsRequest_matches r (ds_instance d) then omap_ok Some (generate_i_am d) else Ok None.

(* ------------------------------------------------------------------ *)
(** ** Devices in range answer *)

Lemma bound_ok n x rest : 0 <= n < 15 → is_u32 x → decode_bound n (encode_context_unsigned n x ++ rest) = (Ok (Some x), rest).
Proof.
  intros Hn Hx. pose proof (unsigned_bytes_ok x) as [_ Hl]. unfold decode_bound, encode_context_unsigned. rewrite <- app_assoc.
  pose proof (context_tag_roundtrip n (zlen (unsigned_bytes x)) (unsigned_bytes x ++ rest) Hn ltac:(lia)) as Ht.
  destruct (encode_context_tag n (zlen (unsigned_bytes x)) ++ unsigned_bytes x ++ rest) as [|b d] eqn:Hd; [done|].
  rewrite Ht, Z.eqb_refl. cbn [andb]. by rewrite (decode_unsigned_ok _ _ x) by by apply unsigned_bytes_roundtrip.
Qed.

Lemma who_is_range_decoded low high :
  is_u32 low → is_u32 high → WhoIsRequest_decode (WhoIsRequest_encode (WhoIsRequest_range low high)) = Ok (WhoIsRequest_range low high).
Proof.
  intros Hl Hh. unfold WhoIsRequest_decode, WhoIsRequest_encode. cbn [device_instance_low device_instance_high WhoIsRequest_range].
  erewrite st_bind_ok by (by apply bound_ok). rewrite <- (app_nil_r (encode_context_unsigned 1 high)).
  by erewrite st_bind_ok by (by apply bound_ok).
Qed.

Lemma expect_tag_ok t len rest :
  0 <= len < 4294967296 → expect_tag (TagNumber_as_u8 t) (encode_application_tag t len ++ rest) = (Ok len, rest).
Proof.
  intros Hl. unfold expect_tag. erewrite st_bind_ok by (by apply application_tag_roundtrip). cbn beta iota. by rewrite Z.eqb_refl.
Qed.

Lemma unsigned_value_ok t x rest {A} (k : Z → Dec A) :
  is_u32 x →
  st_bind (expect_tag (TagNumber_as_u8 t)) (fun len => st_bind (decode_unsigned len) k)
    ((encode_application_tag t (zlen (unsigned_bytes x)) ++ unsigned_bytes x) ++ rest) = k x rest.
Proof.
  intros Hx. pose proof (unsigned_bytes_ok x) as [_ Hl]. rewrite <- app_assoc.
  erewrite st_bind_ok by (apply expect_tag_ok; lia). by erewrite st_bind_ok by (by apply decode_unsigned_ok, unsigned_bytes_roundtrip).
Qed.

Lemma i_am_roundtrip o max seg vendor :
  object_id_ok o → is_u16 max → is_u16 vendor →
  IAmResponse_decode (IAmResponse_encode
    {| device_identifier := o; max_apdu_length_accepted := max; segmentation_supported := seg; vendor_id := vendor |}) =
  Some {| device_identifier := o; max_apdu_length_accepted := max; segmentation_supported := seg; vendor_id := vendor |}.
Proof.
  intros Ho Hm Hv. unfold is_u16 in *. unfold IAmResponse_decode, IAmResponse_encode.
  cbn [device_identifier max_apdu_length_accepted segmentation_supported vendor_id].
  unfold encode_object_identifier, encode_unsigned, encode_enumerated. rewrite <- (app_assoc (encode_application_tag _ 4)).
  erewrite st_bind_ok by (by apply (expect_tag_ok TnObjectIdentifier)).
  erewrite st_bind_ok by (by apply decode_object_identifier_ok).
  rewrite (unsigned_value_ok TnUnsignedInt) by (unfold is_u32; lia).
  rewrite (unsigned_value_ok TnEnumerated) by (destruct seg; vm_compute; (split; [discriminate|reflexivity])).
  match goal with |- context [st_bind _ _ (encode_application_tag ?t ?n ++ ?b)] =>
    rewrite <- (app_nil_r (encode_application_tag t n ++ b)) end.
  rewrite (unsigned_value_ok TnUnsignedInt) by (unfold is_u32; lia). unfold st_ret. cbn [fst].
  rewrite !as_u16_id by done. by destruct seg.
Qed.

(** A Who-Is request for a range of instances is answered exactly by the devices in the
    range, and what they answer decodes to the device's identifier and its communication
    parameters. *)
Theorem who_is_answered `{BuildProfile} {O} `{BACnetObject O} h low high ctx (s : ObjectRegistry O) :
  is_u32 low → is_u32 high → 0 <= wi_instance h <= MAX_INSTANCE → is_u16 (wi_max_apdu h) → is_u16 (wi_vendor h) →
  (low <= wi_instance h <= high → ∃ data,
     WhoIs_handle h (WhoIsRequest_encode (WhoIsRequest_range low high)) ctx s = (Ok (SrBroadcast data), s) ∧
     IAmResponse_decode data =
       Some {| device_identifier := {| object_type := OtDevice; instance := wi_instance h |};
               max_apdu_length_accepted := wi_max_apdu h; segmentation_supported := wi_segmentation h; vendor_id := wi_vendor h |}) ∧
  (¬ low <= wi_instance h <= high →
     WhoIs_handle h (WhoIsRequest_encode (WhoIsRequest_range low high)) ctx s = (Ok SrNoResponse, s)).
Proof.
  intros Hl Hh Hi Hm Hv. unfold WhoIs_handle. rewrite who_is_range_decoded by done.
  unfold WhoIsRequest_matches. cbn [device_instance_low device_instance_high WhoIsRequest_range]. split.
  - intros Hr. rewrite (proj2 (Z.leb_le _ _)), (proj2 (Z.leb_le _ _)) by lia. cbn [andb].
    unfold IAmResponse_new, ObjectId_new. rewrite (proj2 (Z.ltb_ge _ _)), andb_false_r by lia. cbn [obind].
    eexists. split; [done|]. apply i_am_roundtrip; [|done..]. split; [done|]. unfold MAX_INSTANCE in Hi. cbn. lia.
  - intros Hr. by rewrite (proj2 (andb_false_iff _ _)) by (rewrite !Z.leb_gt; lia).
Qed.

(** A request with an upper bound alone is lost: its tag is taken for a missing lower bound, and
    the bound itself for the next tag. *)
Example upper_bound_lost :
  WhoIsRequest_decode (WhoIsRequest_encode {| device_instance_low := None; device_instance_high := Some 5 |}) = Ok WhoIsRequest_all.
Proof. reflexivity. Qed.

(* ------------------------------------------------------------------ *)
(** * Witnesses *)

Definition setpoint : ObjectId := {| object_type := OtAnalogValue; instance := 1 |}.
Definition absent : ObjectId := {| object_type := OtAnalogValue; instance := 2 |}.

(** Two reads of the object, one of which it lacks, and one of an object that is not there. *)
Definition sample_reads : list (ObjectId * list PropertyReference) :=
  [(setpoint, [PropertyReference_new PiPresentValue; PropertyReference_new PiPriorityArray]); (absent, [PropertyReference_new PiObjectName])].

Lemma read_multiple_agrees_witness :
  ∃ answers, mapM (single_reads sample_registry) sample_reads = Some answers ∧
    ReadPropertyMultiple_handle (read_specs sample_reads) (ServiceContext_new 1) sample_registry =
      (Ok (SrComplexAck (ReadMultiple_encode_response answers)), sample_registry).
Proof.
  apply (read_multiple_agrees sample_reads (ServiceContext_new 1) sample_registry).
  repeat constructor; cbn; try reflexivity; lia.
Defined.

(** The second write fails, the third is performed. *)
Definition sample_writes : list (ObjectId * list PropertyValueWrite) :=
  [(setpoint, [{| pv_ref := PropertyReference_new PiPresentValue; pv_value := VReal 0x41C80000; pv_priority := None |};
               {| pv_ref := PropertyReference_new PiObjectType; pv_value := VUnsigned 1; pv_priority := None |};
               {| pv_ref := PropertyReference_new PiOutOfService; pv_value := VBoolean true; pv_priority := Some 8 |}])].

Lemma write_multiple_agrees_witness :
  (∃ s', WritePropertyMultiple_handle (write_specs sample_writes) (ServiceContext_new 1) sample_registry =
    (Ok (SrError EclProperty EcWriteAccessDenied), s') ∧
  (is_out_of_service <$> get s' setpoint) = Some true) ∧
  WritePropertyMultiple_handle (write_specs sample_writes ++ encode_context_object_identifier 0 setpoint ++ encode_opening_tag 1 ++
    encode_context_enumerated 0 99999 ++ [0x1F]) (ServiceContext_new 1) sample_registry = (Ok (SrError EclServices EcUnknownProperty), sample_registry).
Proof.
  destruct (write_multiple_agrees sample_writes (ServiceContext_new 1) sample_registry) as [Hw Hf].
  { repeat constructor; cbn; try reflexivity; lia. }
  split.
  - rewrite Hw. eexists. split; vm_compute; reflexivity.
  - apply (Hf setpoint [] (SeUnknownProperty 99999)); [split; [reflexivity|cbn; lia]|apply Forall_nil_2|by apply (refused_property 99999 [0x1F])].
Defined.

Lemma selectors_refused_witness :
  ReadPropertyMultiple_handle (encode_context_object_identifier 0 setpoint ++ encode_opening_tag 1
    ++ encode_context_enumerated 0 (PropertyId_as_u32 PiAll) ++ encode_closing_tag 1) (ServiceContext_new 1) sample_registry =
  (Ok (SrError EclServices EcUnknownProperty), sample_registry).
Proof.
  apply (selectors_refused setpoint PiAll (encode_closing_tag 1) (ServiceContext_new 1) sample_registry);
    [split; [reflexivity|cbn; lia]|left].
Defined.

Lemma who_is_answered_witness :
  ∃ data, WhoIs_handle (H:=debug_build) {| wi_instance := 7; wi_max_apdu := 1476; wi_segmentation := SgBoth; wi_vendor := 999 |}
    (WhoIsRequest_encode (WhoIsRequest_range 1 10)) (ServiceContext_new 7) sample_registry = (Ok (SrBroadcast data), sample_registry).
Proof.
  destruct (who_is_answered (H:=debug_build) {| wi_instance := 7; wi_max_apdu := 1476; wi_segmentation := SgBoth; wi_vendor := 999 |}
    1 10 (ServiceContext_new 7) sample_registry) as [Hin _];
    [vm_compute; split; congruence|vm_compute; split; congruence|vm_compute; split; congruence|vm_compute; split; congruence
    |vm_compute; split; congruence|].
  destruct Hin as (data & Hd & _); [cbn; lia|]. exists data. exact Hd.
Defined.
