(* ===== verification/BacnetDevice.v ===== *)
(** The device object ([mabi-bacnet/src/object/device.rs]) and the services that control it
    ([service/device_control.rs]): time synchronization, communication control and
    reinitialization.

    The device holds the shared registry to list its objects, and reads the system clock: both are
    what its environment gives at the moment of a read. *)

From stdpp Require Import sorting.
From S2P Require Import Prelude BacnetNet BacnetValue BacnetApdu BacnetObject BacnetRegistry BacnetService BacnetTrendLog BacnetBatch.

(* ------------------------------------------------------------------ *)
(** * The device object *)

Inductive DeviceSystemStatus : Set :=
| DsOperational | DsOperationalReadOnly | DsDownloadRequired | DsDownloadInProgress | DsNonOperational | DsBackupInProgress.
Definition DeviceSystemStatus_as_u32 (x : DeviceSystemStatus) : Z :=
  match x with
  | DsOperational => 0 | DsOperationalReadOnly => 1 | DsDownloadRequired => 2 | DsDownloadInProgress => 3
  | DsNonOperational => 4 | DsBackupInProgress => 5
  end.
Definition DeviceSystemStatus_from_u32 (value : Z) : option DeviceSystemStatus :=
  match value with
  | 0 => Some DsOperational | 1 => Some DsOperationalReadOnly | 2 => Some DsDownloadRequired
  | 3 => Some DsDownloadInProgress | 4 => Some DsNonOperational | 5 => Some DsBackupInProgress | _ => None
  end.
#[global] Instance DeviceSystemStatus_eq_dec : EqDecision DeviceSystemStatus.
Proof. solve_decision. Defined.

Inductive CommunicationControlState : Set := CcEnabled | CcDisabled | CcDisabledInitiation.

Record DeviceObjectConfig : Type := {
  cfg_device_instance : Z; cfg_device_name : list Z; cfg_vendor_name : list Z; cfg_vendor_id : Z; cfg_model_name : list Z;
  cfg_firmware_revision : list Z; cfg_application_software_version : list Z; cfg_description : list Z; cfg_location : list Z;
  cfg_max_apdu_length : Z; cfg_segmentation_supported : Segmentation; cfg_apdu_timeout : Z; cfg_number_of_apdu_retries : Z }.
Definition DeviceObjectConfig_default (release_version : list Z) : DeviceObjectConfig := {|
  cfg_device_instance := 1234; cfg_device_name := str "BACnet Simulator"; cfg_vendor_name := str "OTSIM"; cfg_vendor_id := 999;
  cfg_model_name := str "Mabinogion"; cfg_firmware_revision := release_version; cfg_application_software_version := release_version;
  cfg_description := []; cfg_location := []; cfg_max_apdu_length := 1476; cfg_segmentation_supported := SgBoth;
  cfg_apdu_timeout := 3000; cfg_number_of_apdu_retries := 3 |}.

(** The fields the configuration fixes are those of the configuration. *)
Record DeviceObject : Type := {
  dev_id : ObjectId;
  dev_config : DeviceObjectConfig;
  dev_system_status : DeviceSystemStatus;
  dev_out_of_service : bool;
  dev_database_revision : Z;
  dev_services_supported : list bool;
  dev_object_types_supported : list bool;
  dev_utc_offset : Z;
  dev_communication_control : CommunicationControlState;
  dev_time_offset_secs : Z;
  dev_cov_changed : bool;
  dev_last_cov_status : DeviceSystemStatus }.

Definition DeviceObject_new `{BuildProfile} {E} (config : DeviceObjectConfig) : outcome E DeviceObject :=
  let? id := ObjectId_new OtDevice (cfg_device_instance config) in
  Ok {| dev_id := id; dev_config := config; dev_system_status := DsOperational; dev_out_of_service := false;
        dev_database_revision := 1; dev_services_supported := replicate 41 false; dev_object_types_supported := replicate 60 false;
        dev_utc_offset := 0; dev_communication_control := CcEnabled; dev_time_offset_secs := 0; dev_cov_changed := false;
        dev_last_cov_status := DsOperational |}.
Definition DeviceObject_with_defaults `{BuildProfile} {E} (release_version : list Z) (device_instance : Z) : outcome E DeviceObject :=
  let c := DeviceObjectConfig_default release_version in
  DeviceObject_new {|
    cfg_device_instance := device_instance; cfg_device_name := cfg_device_name c; cfg_vendor_name := cfg_vendor_name c;
    cfg_vendor_id := cfg_vendor_id c; cfg_model_name := cfg_model_name c; cfg_firmware_revision := cfg_firmware_revision c;
    cfg_application_software_version := cfg_application_software_version c; cfg_description := cfg_description c;
    cfg_location := cfg_location c; cfg_max_apdu_length := cfg_max_apdu_length c;
    cfg_segmentation_supported := cfg_segmentation_supported c; cfg_apdu_timeout := cfg_apdu_timeout c;
    cfg_number_of_apdu_retries := cfg_number_of_apdu_retries c |}.

(** Assignments to the changing fields. *)
Definition dev_set_status (s : DeviceSystemStatus) (cov : bool) (last : DeviceSystemStatus) (d : DeviceObject) : DeviceObject := {|
  dev_id := dev_id d; dev_config := dev_config d; dev_system_status := s; dev_out_of_service := dev_out_of_service d;
  dev_database_revision := dev_database_revision d; dev_services_supported := dev_services_supported d;
  dev_object_types_supported := dev_object_types_supported d; dev_utc_offset := dev_utc_offset d;
  dev_communication_control := dev_communication_control d; dev_time_offset_secs := dev_time_offset_secs d;
  dev_cov_changed := cov; dev_last_cov_status := last |}.
Definition dev_set_control (c : CommunicationControlState) (offset : Z) (d : DeviceObject) : DeviceObject := {|
  dev_id := dev_id d; dev_config := dev_config d; dev_system_status := dev_system_status d; dev_out_of_service := dev_out_of_service d;
  dev_database_revision := dev_database_revision d; dev_services_supported := dev_services_supported d;
  dev_object_types_supported := dev_object_types_supported d; dev_utc_offset := dev_utc_offset d;
  dev_communication_control := c; dev_time_offset_secs := offset;
  dev_cov_changed := dev_cov_changed d; dev_last_cov_status := dev_last_cov_status d |}.
Definition dev_set_tables (revision : Z) (services types : list bool) (d : DeviceObject) : DeviceObject := {|
  dev_id := dev_id d; dev_config := dev_config d; dev_system_status := dev_system_status d; dev_out_of_service := dev_out_of_service d;
  dev_database_revision := revision; dev_services_supported := services;
  dev_object_types_supported := types; dev_utc_offset := dev_utc_offset d;
  dev_communication_control := dev_communication_control d; dev_time_offset_secs := dev_time_offset_secs d;
  dev_cov_changed := dev_cov_changed d; dev_last_cov_status := dev_last_cov_status d |}.
Definition dev_set_written (oos : bool) (utc : Z) (d : DeviceObject) : DeviceObject := {|
  dev_id := dev_id d; dev_config := dev_config d; dev_system_status := dev_system_status d; dev_out_of_service := oos;
  dev_database_revision := dev_database_revision d; dev_services_supported := dev_services_supported d;
  dev_object_types_supported := dev_object_types_supported d; dev_utc_offset := utc;
  dev_communication_control := dev_communication_control d; dev_time_offset_secs := dev_time_offset_secs d;
  dev_cov_changed := dev_cov_changed d; dev_last_cov_status := dev_last_cov_status d |}.

Definition set_system_status (status : DeviceSystemStatus) (d : DeviceObject) : DeviceObject :=
  dev_set_status status (if decide (dev_system_status d = status) then dev_cov_changed d else true) (dev_last_cov_status d) d.
Definition set_time_offset_secs (offset : Z) (d : DeviceObject) : DeviceObject := dev_set_control (dev_communication_control d) offset d.
Definition set_communication_control (c : CommunicationControlState) (d : DeviceObject) : DeviceObject := dev_set_control c (dev_time_offset_secs d) d.
(** [fetch_add] wraps; the sum that is returned is checked. *)
Definition increment_database_revision `{BuildProfile} {E} : stM DeviceObject E Z := fun d =>
  (checked_op 4294967296 (dev_database_revision d + 1),
   dev_set_tables (as_u32 (dev_database_revision d + 1)) (dev_services_supported d) (dev_object_types_supported d) d).

(** [if idx < bits.len() { bits[idx] = true }] for every number of a list. *)
Definition set_bits (numbers : list Z) (bits : list bool) : list bool := foldl (fun b i => <[Z.to_nat i := true]> b) bits numbers.
Definition update_services_supported (confirmed unconfirmed : list Z) (d : DeviceObject) : DeviceObject :=
  dev_set_tables (dev_database_revision d)
    (set_bits unconfirmed (set_bits confirmed ((fun _ => false) <$> dev_services_supported d))) (dev_object_types_supported d) d.
Definition update_object_types_supported (registered : list ObjectId) (d : DeviceObject) : DeviceObject :=
  dev_set_tables (dev_database_revision d) (dev_services_supported d)
    (set_bits ((fun id => ObjectType_as_u16 (object_type id)) <$> registered)
      (set_bits [ObjectType_as_u16 OtDevice] ((fun _ => false) <$> dev_object_types_supported d))) d.

(** [registry_ids.sort_by] on type number and instance. *)
Definition id_le (a b : ObjectId) : Prop :=
  ObjectType_as_u16 (object_type a) < ObjectType_as_u16 (object_type b) ∨
  ObjectType_as_u16 (object_type a) = ObjectType_as_u16 (object_type b) ∧ instance a <= instance b.
#[global] Instance id_le_dec : RelDecision id_le.
Proof. intros a b. unfold id_le. apply _. Defined.
Definition object_list (registered : list ObjectId) (d : DeviceObject) : list ObjectId :=
  dev_id d :: filter (fun id => id ≠ dev_id d) (merge_sort id_le registered).
Definition build_object_list (registered : list ObjectId) (d : DeviceObject) : BACnetValue := VArray (VObjectIdentifier <$> object_list registered d).

(** The operations on [u32] stay in range, because [doe] is below 146097. *)
Definition days_to_ymd (days : Z) : Z * Z * Z :=
  let era := Z.quot (if 0 <=? days then days else days - 146096) 146097 in
  let '(yoe, m, d) := civil_of_era (as_u32 (days - era * 146097)) in
  let y := yoe + era * 400 in
  (to_i32 (if m <=? 2 then y + 1 else y), m, d).

(** An operation on [i64] with this exact result. *)
Definition i64_op `{BuildProfile} {E} (exact : Z) : outcome E Z :=
  if (-9223372036854775808 <=? exact) && (exact <? 9223372036854775808) then Ok exact
  else if overflow_checks then Panic else Ok (to_signed 64 (exact mod usize_modulus)).

(** What the environment gives at a moment: the clock, and the identifiers in the registry. *)
Record Surroundings : Type := { clock_secs : Z; clock_millis : Z; registered : list ObjectId }.
Definition adjusted_secs `{BuildProfile} {E} (w : Surroundings) (d : DeviceObject) : outcome E Z :=
  i64_op (to_signed 64 (clock_secs w) + dev_time_offset_secs d).
Definition local_date `{BuildProfile} {E} (secs : Z) : outcome E BACnetDate :=
  let total_days := Z.quot secs 86400 in
  let '(y, m, d) := days_to_ymd (total_days + 719468) in
  let dow := (total_days mod 7 + 4) mod 7 + 1 in
  let? y := i32_op (y - 1900) in
  Ok {| year := Z.land y 0xFF; month := as_u8 m; day := as_u8 d; day_of_week := as_u8 dow |}.
Definition local_time (secs millis : Z) : BACnetTime :=
  let secs_today := secs mod 86400 in
  {| hour := as_u8 (secs_today / 3600); minute := as_u8 (secs_today mod 3600 / 60); second := as_u8 (secs_today mod 60);
     hundredths := as_u8 (millis / 10) |}.

Definition Device_status_flags (d : DeviceObject) : StatusFlags :=
  {| in_alarm := false; fault := match dev_system_status d with DsNonOperational => true | _ => false end; overridden := false;
     sf_out_of_service := dev_out_of_service d |}.
Definition Device_read_property `{BuildProfile} (w : Surroundings) (d : DeviceObject) (k : PropertyId) : outcome PropertyError BACnetValue :=
  let c := dev_config d in
  match k with
  | PiObjectIdentifier => Ok (VObjectIdentifier (dev_id d))
  | PiObjectName => Ok (VCharacterString (cfg_device_name c))
  | PiObjectType => Ok (VEnumerated (ObjectType_as_u16 OtDevice))
  | PiDescription => Ok (VCharacterString (cfg_description c))
  | PiSystemStatus => Ok (VEnumerated (DeviceSystemStatus_as_u32 (dev_system_status d)))
  | PiStatusFlags => Ok (VBitString (StatusFlags_to_bits (Device_status_flags d)))
  | PiEventState => Ok (VEnumerated 0)
  | PiReliability => Ok (VEnumerated 0)
  | PiOutOfService => Ok (VBoolean (dev_out_of_service d))
  | PiVendorName => Ok (VCharacterString (cfg_vendor_name c))
  | PiVendorIdentifier => Ok (VUnsigned (cfg_vendor_id c))
  | PiModelName => Ok (VCharacterString (cfg_model_name c))
  | PiFirmwareRevision => Ok (VCharacterString (cfg_firmware_revision c))
  | PiApplicationSoftwareVersion => Ok (VCharacterString (cfg_application_software_version c))
  | PiLocation => Ok (VCharacterString (cfg_location c))
  | PiProtocolVersion => Ok (VUnsigned 1)
  | PiProtocolRevision => Ok (VUnsigned 22)
  | PiProtocolServicesSupported => Ok (VBitString (dev_services_supported d))
  | PiProtocolObjectTypesSupported => Ok (VBitString (dev_object_types_supported d))
  | PiMaxApduLengthAccepted => Ok (VUnsigned (cfg_max_apdu_length c))
  | PiSegmentationSupported => Ok (VEnumerated (Segmentation_as_u32 (cfg_segmentation_supported c)))
  | PiApduTimeout => Ok (VUnsigned (cfg_apdu_timeout c))
  | PiNumberOfApduRetries => Ok (VUnsigned (cfg_number_of_apdu_retries c))
  | PiObjectList => Ok (build_object_list (registered w) d)
  | PiDatabaseRevision => Ok (VUnsigned (dev_database_revision d))
  | PiLocalDate => let? secs := adjusted_secs w d in let? date := local_date secs in Ok (VDate date)
  | PiLocalTime => let? secs := adjusted_secs w d in Ok (VTime (local_time secs (clock_millis w)))
  | PiUtcOffset => Ok (VSigned (dev_utc_offset d))
  | PiActiveCovSubscriptions => Ok (VArray [])
  | PiMaxSegmentsAccepted => Ok (VUnsigned 64)
  | PiDeviceAddressBinding => Ok (VArray [])
  | _ => Err (PeNotFound k)
  end.
(** [v as i16] *)
Definition as_i16 (v : Z) : Z := to_signed 16 (v mod 65536).
Definition Device_write_property (k : PropertyId) (v : BACnetValue) : stM DeviceObject PropertyError unit := fun d =>
  match k with
  | PiObjectIdentifier | PiObjectType | PiVendorIdentifier | PiProtocolVersion | PiProtocolRevision | PiProtocolServicesSupported
  | PiProtocolObjectTypesSupported | PiObjectList | PiDatabaseRevision | PiStatusFlags | PiEventState | PiSystemStatus => (Err (PeReadOnly k), d)
  | PiOutOfService =>
      match as_bool v with Some b => (Ok tt, dev_set_written b (dev_utc_offset d) d) | None => (Err (PeInvalidDataType k), d) end
  | PiUtcOffset =>
      match as_unsigned v with
      | Some x => (Ok tt, dev_set_written (dev_out_of_service d) (as_i16 x) d)
      | None => (Err (PeInvalidDataType k), d)
      end
  | PiLocation => (Err (PeWriteAccessDenied k), d)
  | _ => (Err (PeNotFound k), d)
  end.
Definition Device_list_properties : list PropertyId :=
  [PiObjectIdentifier; PiObjectName; PiObjectType; PiDescription; PiSystemStatus; PiStatusFlags; PiEventState; PiReliability;
   PiOutOfService; PiVendorName; PiVendorIdentifier; PiModelName; PiFirmwareRevision; PiApplicationSoftwareVersion; PiLocation;
   PiProtocolVersion; PiProtocolRevision; PiProtocolServicesSupported; PiProtocolObjectTypesSupported; PiMaxApduLengthAccepted;
   PiSegmentationSupported; PiApduTimeout; PiNumberOfApduRetries; PiMaxSegmentsAccepted; PiObjectList; PiDatabaseRevision;
   PiLocalDate; PiLocalTime; PiUtcOffset; PiActiveCovSubscriptions; PiDeviceAddressBinding].

(** [impl CovSupport for DeviceObject] *)
Definition Device_cov_values (d : DeviceObject) : list (PropertyId * BACnetValue) :=
  [(PiSystemStatus, VEnumerated (DeviceSystemStatus_as_u32 (dev_system_status d)));
   (PiStatusFlags, VBitString (StatusFlags_to_bits (Device_status_flags d)))].
Definition Device_check_cov (d : DeviceObject) : bool := dev_cov_changed d.
Definition Device_reset_cov (d : DeviceObject) : DeviceObject := dev_set_status (dev_system_status d) false (dev_system_status d) d.

(** The device as an object, in given surroundings. *)
Definition device_object `{BuildProfile} (w : Surroundings) : BACnetObject DeviceObject := {|
  object_identifier := dev_id; object_name d := cfg_device_name (dev_config d); read_property := Device_read_property w;
  write_property := Device_write_property; list_properties _ := Device_list_properties; object_status_flags := Device_status_flags |}.

(* ------------------------------------------------------------------ *)
(** * Requests *)

Record TimeSyncRequest : Set := { tsr_date : BACnetDate; tsr_time : BACnetTime }.
Inductive EnableDisable : Set := EdEnable | EdDisable | EdDisableInitiation.
Definition EnableDisable_as_u32 (x : EnableDisable) : Z := match x with EdEnable => 0 | EdDisable => 1 | EdDisableInitiation => 2 end.
Definition EnableDisable_from_u32 (v : Z) : option EnableDisable :=
  match v with 0 => Some EdEnable | 1 => Some EdDisable | 2 => Some EdDisableInitiation | _ => None end.
Record DeviceCommunicationControlRequest : Type := { dcc_time_duration : option Z; dcc_enable_disable : EnableDisable; dcc_password : option (list Z) }.
Inductive ReinitializedState : Set :=
| RsColdstart | RsWarmstart | RsStartBackup | RsEndBackup | RsStartRestore | RsEndRestore | RsAbortRestore | RsActivateChanges.
Definition ReinitializedState_as_u32 (x : ReinitializedState) : Z :=
  match x with
  | RsColdstart => 0 | RsWarmstart => 1 | RsStartBackup => 2 | RsEndBackup => 3 | RsStartRestore => 4 | RsEndRestore => 5
  | RsAbortRestore => 6 | RsActivateChanges => 7
  end.
Definition ReinitializedState_from_u32 (v : Z) : option ReinitializedState :=
  match v with
  | 0 => Some RsColdstart | 1 => Some RsWarmstart | 2 => Some RsStartBackup | 3 => Some RsEndBackup | 4 => Some RsStartRestore
  | 5 => Some RsEndRestore | 6 => Some RsAbortRestore | 7 => Some RsActivateChanges | _ => None
  end.
Record ReinitializeDeviceRequest : Type := { rd_state : ReinitializedState; rd_password : option (list Z) }.

(** The error texts are dropped. *)
Definition CDec (A : Type) : Type := stM (list Z) unit A.
Definition text_error {A} (d : Dec A) : CDec A := st_map_err (fun _ => tt) d.

(** A tag with this number, whatever its class and length, and the four octets after it. *)
Definition tagged_octets (number : Z) : CDec (Z * Z * Z * Z) :=
  do? tag := text_error decode_tag_info in
  let '(tag, _, _) := tag in
  if negb (tag =? number) then st_err tt
  else
    do? bytes := text_error (read_bytes 4) in
    match bytes with [a; b; c; d] => st_ret (a, b, c, d) | _ => st_lift Panic end.
Definition decode_time_sync_request (data : list Z) : outcome unit TimeSyncRequest :=
  if zlen data <? 10 then Err tt
  else
    fst ((do? date := tagged_octets 10 in
          let '(y, m, d, w) := date in
          do? time := tagged_octets 11 in
          let '(h, mi, s, c) := time in
          st_ret {| tsr_date := {| year := y; month := m; day := d; day_of_week := w |};
                    tsr_time := {| hour := h; minute := mi; second := s; hundredths := c |} |}) data).

(** The divisions truncate; the numbers of a date are octets, so that nothing overflows. *)
Definition days_from_date (y m d : Z) : Z :=
  let y' := if m <=? 2 then y - 1 else y in
  let m' := if m <=? 2 then m + 9 else m - 3 in
  365 * y' + Z.quot y' 4 - Z.quot y' 100 + Z.quot y' 400 + Z.quot (m' * 306 + 5) 10 + d - 1 - 719468.
Definition bacnet_datetime_to_epoch (date : BACnetDate) (time : BACnetTime) : Z :=
  days_from_date (year date + 1900) (month date) (day date) * 86400 + hour time * 3600 + minute time * 60 + second time.

(** The loop over context-tagged fields that both control requests are decoded by: an unknown field
    is skipped if it is complete, and read as fields otherwise. *)
Definition decode_field {S} (field : Z → Z → S → option (CDec S)) (acc : S) : CDec S :=
  do? tag := text_error decode_tag_info in
  let '(tag, is_context, len) := tag in
  if negb is_context then st_err tt
  else
    match field tag len acc with
    | Some d => d
    | None => fun d => match read_bytes len d with (Panic, d') => (Panic, d') | (_, d') => (Ok acc, d') end
    end.
Fixpoint decode_fields {S} (field : Z → Z → S → option (CDec S)) (fuel : nat) (acc : S) : CDec S := fun d =>
  match d with
  | [] => (Ok acc, d)
  | _ => match fuel with
         | 0%nat => (Panic, d)
         | S fuel => (do? acc' := decode_field field acc in decode_fields field fuel acc') d
         end
  end.

Definition DccFields : Type := option Z * option EnableDisable * option (list Z).
Definition dcc_field (tag len : Z) (acc : DccFields) : option (CDec DccFields) :=
  let '(duration, state, password) := acc in
  match tag with
  | 0 => Some (do? v := text_error (decode_unsigned len) in st_ret (Some (as_u16 v), state, password))
  | 1 => Some (do? v := text_error (decode_unsigned len) in
               do? e := st_lift (ok_or (EnableDisable_from_u32 v) tt) in st_ret (duration, Some e, password))
  | 2 => Some (do? s := text_error (decode_character_string len) in st_ret (duration, state, Some s))
  | _ => None
  end.
Definition decode_dcc_request (data : list Z) : outcome unit DeviceCommunicationControlRequest :=
  let? acc := (decode_fields dcc_field (length data) (None, None, None) data).1 in
  let '(duration, state, password) := acc in
  let? state := ok_or state tt in
  Ok {| dcc_time_duration := duration; dcc_enable_disable := state; dcc_password := password |}.

Definition RdFields : Type := option ReinitializedState * option (list Z).
Definition rd_field (tag len : Z) (acc : RdFields) : option (CDec RdFields) :=
  let '(state, password) := acc in
  match tag with
  | 0 => Some (do? v := text_error (decode_unsigned len) in
               do? e := st_lift (ok_or (ReinitializedState_from_u32 v) tt) in st_ret (Some e, password))
  | 1 => Some (do? s := text_error (decode_character_string len) in st_ret (state, Some s))
  | _ => None
  end.
Definition decode_reinitialize_request (data : list Z) : outcome unit ReinitializeDeviceRequest :=
  let? acc := (decode_fields rd_field (length data) (None, None) data).1 in
  let '(state, password) := acc in
  let? state := ok_or state tt in
  Ok {| rd_state := state; rd_password := password |}.

(* ------------------------------------------------------------------ *)
(** * The services *)

(** [as_any().downcast_ref::<DeviceObject>()] on a shared object. *)
Class DeviceCast (O : Type) : Type := { downcast_device : O → option DeviceObject; upcast_device : DeviceObject → O }.
Class DeviceCastLaws (O : Type) `{!DeviceCast O} : Prop := { downcast_upcast_device d : downcast_device (upcast_device d) = Some d }.
#[global] Instance device_cast : DeviceCast DeviceObject := { downcast_device := Some; upcast_device := id }.
#[global] Instance device_cast_laws : DeviceCastLaws DeviceObject.
Proof. by constructor. Qed.

Section handlers.
Context `{BuildProfile} {O : Type} `{BACnetObject O} `{!DeviceCast O}.

Definition put_device (id : ObjectId) (d : DeviceObject) (s : ObjectRegistry O) : ObjectRegistry O :=
  {| objects := <[id := upcast_device d]> (objects s); names := names s; type_counts := type_counts s |}.
(** The lookup of the device the context names, and a change to it; nothing happens without one. *)
Definition on_device (ctx : ServiceContext) (f : DeviceObject → DeviceObject) (answer : ServiceResult)
    : stM (ObjectRegistry O) Empty_set ServiceResult := fun s =>
  match ObjectId_new OtDevice (device_instance ctx) with
  | Ok id =>
      match get s id ≫= downcast_device with
      | Some d => (Ok answer, put_device id (f d) s)
      | None => (Ok answer, s)
      end
  | Err e => (Err e, s)
  | Panic => (Panic, s)
  end.

(** Both time synchronizations, at the moment the clock shows [now] seconds. *)
Definition time_sync_handle (now : Z) : Handle (O:=O) := fun data ctx s =>
  match decode_time_sync_request data with
  | Panic => (Panic, s)
  | Err _ => (Ok SrNoResponse, s)
  | Ok r =>
      match i64_op (bacnet_datetime_to_epoch (tsr_date r) (tsr_time r) - to_signed 64 now) with
      | Ok offset => on_device ctx (set_time_offset_secs offset) SrNoResponse s
      | Err e => (Err e, s)
      | Panic => (Panic, s)
      end
  end.
Definition TimeSynchronizationHandler (now : Z) : UnconfirmedServiceHandler O :=
  {| unconfirmed_choice := UsTimeSynchronization; unconfirmed_handle := time_sync_handle now |}.
Definition UtcTimeSynchronizationHandler (now : Z) : UnconfirmedServiceHandler O :=
  {| unconfirmed_choice := UsUtcTimeSynchronization; unconfirmed_handle := time_sync_handle now |}.

Definition password_failure : ServiceResult := SrError EclSecurity EcPasswordFailure.
(** Whether the password of a request is the required one, if one is required. *)
Definition password_accepted (required provided : option (list Z)) : bool :=
  match required with None => true | Some p => bool_decide (provided = Some p) end.
Definition control_state (e : EnableDisable) : CommunicationControlState :=
  match e with EdEnable => CcEnabled | EdDisable => CcDisabled | EdDisableInitiation => CcDisabledInitiation end.
Definition DeviceCommunicationControl_handle (required : option (list Z)) : Handle (O:=O) := fun data ctx s =>
  match decode_dcc_request data with
  | Panic => (Panic, s)
  | Err _ => (Ok missing_required_parameter, s)
  | Ok r =>
      if negb (password_accepted required (dcc_password r)) then (Ok password_failure, s)
      else on_device ctx (set_communication_control (control_state (dcc_enable_disable r))) SrSimpleAck s
  end.
Definition DeviceCommunicationControlHandler (required : option (list Z)) : ConfirmedServiceHandler O :=
  {| service_choice := CsDeviceCommunicationControl; handle := DeviceCommunicationControl_handle required; min_data_length := 2 |}.

Definition ReinitializeDevice_handle (required : option (list Z)) : Handle (O:=O) := fun data ctx s =>
  match decode_reinitialize_request data with
  | Panic => (Panic, s)
  | Err _ => (Ok missing_required_parameter, s)
  | Ok r =>
      if negb (password_accepted required (rd_password r)) then (Ok password_failure, s)
      else
        match rd_state r with
        | RsColdstart | RsWarmstart => on_device ctx (fun d => set_time_offset_secs 0 (set_communication_control CcEnabled d)) SrSimpleAck s
        | _ => (Ok (SrError EclServices EcServiceRequestDenied), s)
        end
  end.
Definition ReinitializeDeviceHandler (required : option (list Z)) : ConfirmedServiceHandler O :=
  {| service_choice := CsReinitializeDevice; handle := ReinitializeDevice_handle required; min_data_length := 2 |}.
End handlers.

(* ------------------------------------------------------------------ *)
(** * Dates and days *)

Definition date_valid (y m d : Z) : Prop := 1 <= m <= 12 ∧ 1 <= d <= month_days y m.
(** A day of the year that begins in March, from its month and day. *)
Definition day_of_year (m d : Z) : Z := ((if m <=? 2 then m + 9 else m - 3) * 306 + 5) / 10 + d - 1.

Lemma month_days_bound y m : month_days y m <= 31 ∧ (m = 2 → month_days y m = if leap y then 29 else 28).
Proof. unfold month_days. split; [repeat case_match; lia|by intros ->]. Qed.
Lemma months_check :
  forallb (fun m => forallb (fun d => implb (d <=? (if m =? 2 then 29 else month_days 1 m))
    (bool_decide (month_day (day_of_year m d) = (m, d)) && (day_of_year m d <? (if m =? 2 then 337 + d else 365)))) (zrange 1 31)) (zrange 1 12) = true.
Proof. vm_compute. reflexivity. Qed.
Lemma days_check :
  forallb (fun doy => let '(m, d) := month_day doy in (1 <=? m) && (m <=? 12) && (1 <=? d) && (day_of_year m d =? doy)) (zrange 0 366) = true.
Proof. vm_compute. reflexivity. Qed.

Lemma month_day_of m d y : date_valid y m d → month_day (day_of_year m d) = (m, d) ∧ 0 <= day_of_year m d < (if m =? 2 then 337 + d else 365).
Proof.
  intros [Hm Hd]. pose proof months_check as Hc. rewrite forallb_forall in Hc. specialize (Hc m).
  rewrite <- list_elem_of_In, elem_of_zrange in Hc. specialize (Hc ltac:(lia)). rewrite forallb_forall in Hc. specialize (Hc d).
  pose proof (month_days_bound y m) as [Hb Hf]. rewrite <- list_elem_of_In, elem_of_zrange in Hc. specialize (Hc ltac:(lia)).
  rewrite (proj2 (Z.leb_le _ _)) in Hc.
  - apply andb_true_iff in Hc as [H1%bool_decide_eq_true H2%Z.ltb_lt]. split; [done|]. split; [|done].
    unfold day_of_year. destruct (m <=? 2) eqn:?; int_lia.
  - destruct (Z.eqb_spec m 2) as [->|Hne]; [specialize (Hf eq_refl); destruct (leap y); lia|].
    assert (month_days 1 m = month_days y m) as -> by (unfold month_days; repeat case_match; done || lia). lia.
Qed.
Lemma day_of_year_of doy m d : 0 <= doy < 366 → month_day doy = (m, d) → 1 <= m <= 12 ∧ 1 <= d ∧ day_of_year m d = doy.
Proof.
  intros Hd Hm. pose proof days_check as Hc. rewrite forallb_forall in Hc. specialize (Hc doy).
  rewrite <- list_elem_of_In, elem_of_zrange in Hc. specialize (Hc ltac:(lia)). rewrite Hm in Hc. bool_to_prop. lia.
Qed.
Lemma days_from_date_start y m d : 1 <= y → 1 <= m →
  days_from_date y m d = year_start (if m <=? 2 then y - 1 else y) + day_of_year m d - 719468.
Proof.
  intros Hy Hm. unfold days_from_date, day_of_year, year_start. rewrite !Z.quot_div_nonneg by (destruct (m <=? 2) eqn:?; bool_to_prop; lia). lia.
Qed.
Lemma year_start_era y : year_start y = 146097 * (y / 400) + year_start (y mod 400).
Proof. unfold year_start. int_lia. Qed.
Lemma year_length_era y : year_start (y mod 400 + 1) - year_start (y mod 400) = if leap (y + 1) then 366 else 365.
Proof.
  rewrite year_length. replace (y + 1) with (y mod 400 + 1 + 400 * (y / 400)) by (Z.div_mod_to_equations; lia). by rewrite leap_shift.
Qed.

(** The date of the day with this number is the date it was computed from, and the reverse. *)
Lemma civil_of_date y m d : 1 <= y → date_valid y m d → civil (days_from_date y m d) = (y, m, d).
Proof.
  intros Hy Hv. destruct (month_day_of m d y Hv) as [Hmd Hdoy]. destruct Hv as [Hm Hd]. rewrite days_from_date_start by lia.
  set (y' := if m <=? 2 then y - 1 else y). set (doy := day_of_year m d) in *. unfold civil. rewrite Z.sub_add.
  pose proof (year_length_era y') as Hl. rewrite (year_start_era y'). pose proof (Z.mod_pos_bound y' 400 ltac:(lia)) as Hyoe.
  assert (0 <= year_start (y' mod 400) ∧ year_start (y' mod 400 + 1) <= 146097) as [? ?] by (unfold year_start; int_lia).
  assert (doy < year_start (y' mod 400 + 1) - year_start (y' mod 400)) as Hlt.
  { rewrite Hl. pose proof (month_days_bound y m) as [_ Hf]. destruct (Z.eqb_spec m 2) as [->|].
    - specialize (Hf eq_refl). unfold y'. change (2 <=? 2) with true. cbv iota. replace (y - 1 + 1) with y by lia. destruct (leap y); lia.
    - destruct (leap _); lia. }
  assert ((146097 * (y' / 400) + year_start (y' mod 400) + doy) / 146097 = y' / 400) as -> by (Z.div_mod_to_equations; lia).
  assert ((146097 * (y' / 400) + year_start (y' mod 400) + doy) mod 146097 = year_start (y' mod 400) + doy) as -> by (Z.div_mod_to_equations; lia).
  rewrite (era_date_in_year (y' mod 400)) by lia. replace (year_start (y' mod 400) + doy - year_start (y' mod 400)) with doy by lia.
  unfold date_in_year. rewrite Hmd. cbn [shift_years]. f_equal. f_equal. unfold y'. destruct (m <=? 2); Z.div_mod_to_equations; lia.
Qed.
Lemma next_day_valid y m d : date_valid y m d → 1970 <= y → let '(y', m', d') := next_day (y, m, d) in date_valid y' m' d' ∧ 1970 <= y'.
Proof.
  intros [Hm Hd] Hy. unfold next_day. destruct (Z.ltb_spec d (month_days y m)); [unfold date_valid; lia|].
  destruct (Z.ltb_spec m 12); (split; [|lia]); split; try lia; unfold month_days; repeat case_match; lia.
Qed.
Lemma civil_valid n : 0 <= n → let '(y, m, d) := civil n in date_valid y m d ∧ 1970 <= y.
Proof.
  intros Hn. pattern n. apply natlike_ind; [|intros k Hk IH|done].
  - vm_compute. intuition discriminate.
  - unfold Z.succ. rewrite civil_next. destruct (civil k) as [[y m] d]. destruct IH as [Hv Hy]. exact (next_day_valid y m d Hv Hy).
Qed.
Lemma date_of_civil n y m d : 0 <= n → civil n = (y, m, d) → days_from_date y m d = n.
Proof.
  intros Hn Hc. pose proof (civil_valid n Hn) as Hv. rewrite Hc in Hv. destruct Hv as [[Hm _] Hy]. rewrite days_from_date_start by lia.
  unfold civil in Hc. set (z := n + 719468) in *. pose proof (Z.mod_pos_bound z 146097 ltac:(lia)) as Hdoe. set (doe := z mod 146097) in *.
  destruct (year_found 400 doe) as (yoe & Hyoe & Hrange); [change (year_start (Z.of_nat 400)) with 146097; lia|]. change (Z.of_nat 400) with 400 in Hyoe.
  rewrite (era_date_in_year yoe) in Hc by lia. pose proof (year_length yoe). unfold date_in_year in Hc.
  destruct (month_day (doe - year_start yoe)) as [m' d'] eqn:Hmd. apply day_of_year_of in Hmd as (_ & _ & Hday); [|destruct (leap (yoe + 1)); lia].
  cbn [shift_years] in Hc. injection Hc as <- <- <-. rewrite Hday.
  set (e := z / 146097) in *. replace (if m' <=? 2 then (if m' <=? 2 then yoe + 1 else yoe) + 400 * e - 1 else (if m' <=? 2 then yoe + 1 else yoe) + 400 * e)
    with (yoe + 400 * e) by (destruct (m' <=? 2); lia).
  rewrite year_start_era. replace ((yoe + 400 * e) / 400) with e by (Z.div_mod_to_equations; lia).
  replace ((yoe + 400 * e) mod 400) with yoe by (Z.div_mod_to_equations; lia). subst doe e. fold z. Z.div_mod_to_equations; lia.
Qed.

Lemma days_to_ymd_civil days : 0 <= days < 700000000000 → days_to_ymd (days + 719468) = civil days.
Proof.
  intros Hd. unfold days_to_ymd, civil, era_date. rewrite (proj2 (Z.leb_le 0 (days + 719468))) by lia.
  rewrite Z.quot_div_nonneg by lia. set (z := days + 719468). pose proof (Z.mod_pos_bound z 146097 ltac:(lia)).
  assert (0 <= z / 146097 < 5000000) as He by (unfold z; Z.div_mod_to_equations; lia).
  replace (as_u32 (z - z / 146097 * 146097)) with (z mod 146097) by (unfold as_u32; rewrite (Z.mod_small _ 4294967296) by (Z.div_mod_to_equations; lia); Z.div_mod_to_equations; lia).
  pose proof (year_of_era_range (z mod 146097) ltac:(lia)) as Hy. unfold civil_of_era. set (yoe := year_of_era _) in *. cbv zeta.
  destruct (_ <=? 2); cbn [shift_years]; f_equal; f_equal; unfold to_i32; rewrite Z.mod_small by lia; lia.
Qed.

(* ------------------------------------------------------------------ *)
(** * Time synchronization *)

Lemma i64_op_ok `{BuildProfile} {E} x : -9223372036854775808 <= x < 9223372036854775808 → i64_op (E:=E) x = Ok x.
Proof. intros [? ?]. unfold i64_op. by rewrite (proj2 (Z.leb_le _ x)), (proj2 (Z.ltb_lt x _)) by lia. Qed.

(** A moment from 1970 to 2155 in the octets of a date and a time. *)
Record moment_ok (date : BACnetDate) (time : BACnetTime) : Prop := {
  mo_year : 70 <= year date <= 255; mo_date : date_valid (year date + 1900) (month date) (day date);
  mo_hour : 0 <= hour time < 24; mo_minute : 0 <= minute time < 60; mo_second : 0 <= second time < 60 }.
(** The seconds since 1970 at the end of the year 2155. *)
Definition end_of_years : Z := 5869584000.

Lemma year_start_le a b : a <= b → year_start a <= year_start b.
Proof. unfold year_start. int_lia. Qed.
Lemma civil_year n y m d : 0 <= n < end_of_years / 86400 → civil n = (y, m, d) → y <= 2155.
Proof.
  intros Hn Hc. pose proof (civil_valid n ltac:(lia)) as Hv. pose proof (date_of_civil n y m d ltac:(lia) Hc) as Hd. rewrite Hc in Hv.
  destruct Hv as [Hv Hy]. rewrite days_from_date_start in Hd by (destruct Hv; lia). destruct (month_day_of m d y Hv) as [_ Hdoy]. destruct Hv as [Hm Hday].
  destruct (decide (y <= 2155)) as [|Hbig]; [done|]. change (end_of_years / 86400) with 67935 in Hn.
  pose proof (year_start_le 2155 (y - 1) ltac:(lia)) as H1. change (year_start 2155) with 787097 in H1.
  destruct (Z.leb_spec m 2).
  - assert (306 <= day_of_year m d) by (unfold day_of_year; rewrite (proj2 (Z.leb_le m 2)) by lia; int_lia). lia.
  - pose proof (year_start_mono (y - 1)) as H2. rewrite Z.sub_add in H2.
    pose proof (year_start_le 2156 y ltac:(lia)) as H3. change (year_start 2156) with 787463 in H3. lia.
Qed.
Lemma epoch_from_1970 date time : moment_ok date time → 0 <= bacnet_datetime_to_epoch date time < end_of_years.
Proof.
  intros [Hy Hd Hh Hm Hs]. unfold bacnet_datetime_to_epoch. rewrite days_from_date_start by (destruct Hd; lia).
  destruct (month_day_of _ _ _ Hd) as [_ Hdoy]. set (m := month date) in *. set (y := year date + 1900) in *. change end_of_years with (67935 * 86400).
  destruct Hd as [Hmm Hd]. pose proof (month_days_bound y m) as [_ Hf].
  enough (0 <= year_start (if m <=? 2 then y - 1 else y) + day_of_year m (day date) - 719468 < 67935) by lia.
  unfold day_of_year in *. destruct (Z.leb_spec m 2).
  - pose proof (year_start_le 1969 (y - 1) ltac:(lia)) as H1. change (year_start 1969) with 719162 in H1.
    pose proof (year_start_le (y - 1) 2154 ltac:(lia)) as H2. change (year_start 2154) with 786732 in H2.
    pose proof (month_days_bound y m) as [H31 _]. assert (m = 1 ∨ m = 2) as [Hm1|Hm2] by lia; [rewrite Hm1 in *|rewrite Hm2 in *]; cbn in Hdoy |- *; int_lia.
  - pose proof (year_start_le 1970 y ltac:(lia)) as H1. change (year_start 1970) with 719527 in H1.
    pose proof (year_start_le y 2155 ltac:(lia)) as H2. change (year_start 2155) with 787097 in H2.
    destruct (Z.eqb_spec m 2); [lia|]. pose proof (month_days_bound y m) as [H31 _]. assert (((m - 3) * 306 + 5) / 10 <= 275) by int_lia. lia.
Qed.

(** Reading the clock of the device, so many seconds after 1970, gives that moment. *)
Lemma local_moment `{BuildProfile} {E} t millis : 0 <= t < end_of_years → 0 <= millis < 1000 →
  ∃ date, local_date (E:=E) t = Ok date ∧ moment_ok date (local_time t millis) ∧ bacnet_datetime_to_epoch date (local_time t millis) = t ∧
    hundredths (local_time t millis) = millis / 10 ∧ day_of_week date = (t / 86400 mod 7 + 4) mod 7 + 1.
Proof.
  intros Ht Hm. unfold local_date. rewrite Z.quot_div_nonneg by lia. assert (0 <= t / 86400 < end_of_years / 86400) as Hday by (unfold end_of_years in *; int_lia).
  change (end_of_years / 86400) with 67935 in Hday. rewrite days_to_ymd_civil by lia. destruct (civil (t / 86400)) as [[y m] d] eqn:Hc.
  pose proof (civil_valid (t / 86400) ltac:(lia)) as Hv. rewrite Hc in Hv. destruct Hv as [Hv Hy].
  pose proof (civil_year (t / 86400) y m d ltac:(change (end_of_years / 86400) with 67935; lia) Hc) as Hmax.
  pose proof (date_of_civil (t / 86400) y m d ltac:(lia) Hc) as Hdays. rewrite i32_op_ok by (unfold is_i32; lia). cbn [obind].
  pose proof (month_days_bound y m) as [H31 _]. destruct Hv as [Hmm Hdd]. unfold local_time.
  assert (0 <= t mod 86400 < 86400) as Hsec by (apply Z.mod_pos_bound; lia). set (x := t mod 86400) in *.
  set (dow := (t / 86400 mod 7 + 4) mod 7). assert (0 <= dow < 7) as Hdow by (apply Z.mod_pos_bound; lia). clearbody dow.
  rewrite !as_u8_id by (clear Hc Hdays Ht Hday; clearbody x; unfold is_u8; Z.div_mod_to_equations; lia). change 0xFF with (2 ^ 8 - 1). rewrite land_mask, (Z.mod_small (y - 1900)) by lia.
  eexists. split; [reflexivity|]. split; [|split; [|split; done]].
  - split; cbn; [lia|rewrite Z.sub_add; by split|Z.div_mod_to_equations; lia..].
  - unfold bacnet_datetime_to_epoch. cbn. rewrite Z.sub_add, Hdays. subst x. Z.div_mod_to_equations; lia.
Qed.
(** A moment is determined by its seconds. *)
Lemma epoch_injective date time date' time' :
  moment_ok date time → moment_ok date' time' → bacnet_datetime_to_epoch date time = bacnet_datetime_to_epoch date' time' →
  (year date, month date, day date) = (year date', month date', day date') ∧ (hour time, minute time, second time) = (hour time', minute time', second time').
Proof.
  intros [? Hd ???] [? Hd' ???] He. unfold bacnet_datetime_to_epoch in He.
  assert (days_from_date (year date + 1900) (month date) (day date) = days_from_date (year date' + 1900) (month date') (day date')) as Heq by lia.
  assert (1 <= year date + 1900 ∧ 1 <= year date' + 1900) as [Hy Hy'] by lia.
  pose proof (civil_of_date _ _ _ Hy Hd) as H1. rewrite Heq, (civil_of_date _ _ _ Hy' Hd') in H1. injection H1 as H1 H2 H3.
  rewrite Heq in He. split; [assert (year date = year date') by lia; congruence|].
  assert (hour time = hour time' ∧ minute time = minute time' ∧ second time = second time') as (? & ? & ?) by lia. congruence.
Qed.

Definition time_sync_request (date : BACnetDate) (time : BACnetTime) : list Z :=
  [0xA4; year date; month date; day date; day_of_week date; 0xB4; hour time; minute time; second time; hundredths time].
Lemma time_sync_decoded date time : decode_time_sync_request (time_sync_request date time) = Ok {| tsr_date := date; tsr_time := time |}.
Proof. by destruct date, time. Qed.

Section device_services.
Context `{BuildProfile} {O : Type} `{BACnetObject O} `{!DeviceCast O} `{!DeviceCastLaws O}.
Implicit Types (s : ObjectRegistry O) (ctx : ServiceContext) (d : DeviceObject).

(** The registry holds the device the context names. *)
Definition context_device ctx : ObjectId := {| object_type := OtDevice; instance := device_instance ctx |}.
Definition device_at s ctx d : Prop := device_instance ctx <= MAX_INSTANCE ∧ get s (context_device ctx) ≫= downcast_device = Some d.

Lemma context_device_ok {E} ctx : device_instance ctx <= MAX_INSTANCE → ObjectId_new (E:=E) OtDevice (device_instance ctx) = Ok (context_device ctx).
Proof. intros Hi. unfold ObjectId_new. by rewrite (proj2 (Z.ltb_ge _ _)), andb_false_r. Qed.
Lemma on_device_ok ctx f a s d : device_at s ctx d → on_device ctx f a s = (Ok a, put_device (context_device ctx) (f d) s).
Proof. intros [Hi Hd]. unfold on_device. by rewrite context_device_ok, Hd. Qed.
Lemma put_device_at s ctx d d' : device_at s ctx d → device_at (put_device (context_device ctx) d' s) ctx d'.
Proof. intros [Hi _]. split; [done|]. unfold get, put_device. cbn. rewrite lookup_insert_eq. cbn. apply downcast_upcast_device. Qed.

(** The day of the week of a moment, Monday the first. *)
Definition weekday (t : Z) : Z := (t / 86400 + 3) mod 7 + 1.

(** C24: Setting the clock. After a time synchronization with a moment between 1970 and 2155, by either
    service, the device's date and time, read any number of seconds later, denote the moment of
    the request advanced by as many seconds, down to the end of 2155; read at once their year, month,
    day, hour, minute and second are those of the request. The other two fields are not set by the
    request: the hundredths read are those of the system clock, and the day of the week read is the
    one after the moment's (with Monday the first, as the source's comment has it). No other
    object changes, and nothing is answered. *)
Theorem clock_synchronised services choice now date time ctx s d :
  choice = 6 ∧ unconfirmed_handlers services !! choice = Some (TimeSynchronizationHandler now) ∨
  choice = 9 ∧ unconfirmed_handlers services !! choice = Some (UtcTimeSynchronizationHandler now) →
  0 <= now < 4611686018427387904 → device_at s ctx d → moment_ok date time →
  ∃ d', dispatch_unconfirmed services choice (time_sync_request date time) ctx s = (Ok SrNoResponse, put_device (context_device ctx) d' s) ∧
    ∀ w later, clock_secs w = now + later → 0 <= clock_millis w < 1000 → 0 <= later → bacnet_datetime_to_epoch date time + later < end_of_years →
      ∃ date' time', Device_read_property w d' PiLocalDate = Ok (VDate date') ∧ Device_read_property w d' PiLocalTime = Ok (VTime time') ∧
        moment_ok date' time' ∧ bacnet_datetime_to_epoch date' time' = bacnet_datetime_to_epoch date time + later ∧
        hundredths time' = clock_millis w / 10 ∧ day_of_week date' = weekday (bacnet_datetime_to_epoch date time + later) mod 7 + 1 ∧
        (later = 0 → (year date', month date', day date') = (year date, month date, day date) ∧
                     (hour time', minute time', second time') = (hour time, minute time, second time)).
Proof.
  intros Hsvc Hnow Hd Hmo. pose proof (epoch_from_1970 _ _ Hmo) as Hep. unfold end_of_years in Hep.
  assert (dispatch_unconfirmed services choice (time_sync_request date time) ctx s = time_sync_handle now (time_sync_request date time) ctx s) as ->.
  { unfold dispatch_unconfirmed. by destruct Hsvc as [[_ ->]|[_ ->]]. }
  unfold time_sync_handle. rewrite time_sync_decoded. cbn [tsr_date tsr_time].
  assert (∀ x, 0 <= x < 9223372036854775808 → to_signed 64 x = x) as Hsig.
  { intros x Hx. unfold to_signed. by rewrite (proj2 (Z.ltb_lt _ _)) by (change (2 ^ (64 - 1)) with 9223372036854775808; lia). }
  rewrite Hsig, i64_op_ok, (on_device_ok _ _ _ _ d) by (done || lia). eexists. split; [reflexivity|].
  intros w later Hw Hms Hl Hmax. cbn [Device_read_property]. unfold adjusted_secs. rewrite Hw, Hsig by (unfold end_of_years in *; lia).
  cbn [dev_time_offset_secs set_time_offset_secs dev_set_control]. rewrite i64_op_ok by (unfold end_of_years in *; lia). cbn [obind].
  replace (now + later + (bacnet_datetime_to_epoch date time - now)) with (bacnet_datetime_to_epoch date time + later) by lia.
  destruct (local_moment (E:=PropertyError) (bacnet_datetime_to_epoch date time + later) (clock_millis w) ltac:(lia) Hms) as (date' & -> & Hmo' & He & Hh & Hwd).
  exists date', (local_time (bacnet_datetime_to_epoch date time + later) (clock_millis w)). split_and!; [done..|rewrite Hwd; unfold weekday; Z.div_mod_to_equations; lia|].
  intros ->. apply epoch_injective; [done..|]. lia.
Qed.

(* ------------------------------------------------------------------ *)
(** * Control requests *)

(** Where a password is required, whatever octets arrive: unless they decode to a request with
    exactly that password, the registry stays as it is, and the answer of a well-formed request is
    the password failure. *)
Theorem password_required p data ctx s :
  (∀ r, decode_dcc_request data = Ok r → dcc_password r ≠ Some p → DeviceCommunicationControl_handle (Some p) data ctx s = (Ok password_failure, s)) ∧
  (∀ r, decode_reinitialize_request data = Ok r → rd_password r ≠ Some p → ReinitializeDevice_handle (Some p) data ctx s = (Ok password_failure, s)) ∧
  ((DeviceCommunicationControl_handle (Some p) data ctx s).2 ≠ s → ∃ r, decode_dcc_request data = Ok r ∧ dcc_password r = Some p) ∧
  ((ReinitializeDevice_handle (Some p) data ctx s).2 ≠ s → ∃ r, decode_reinitialize_request data = Ok r ∧ rd_password r = Some p).
Proof.
  unfold DeviceCommunicationControl_handle, ReinitializeDevice_handle, password_accepted. split_and!.
  - intros r -> Hp. by rewrite bool_decide_eq_false_2.
  - intros r -> Hp. by rewrite bool_decide_eq_false_2.
  - destruct (decode_dcc_request data) as [r| |]; [|done..]. case_bool_decide; [eauto|done].
  - destruct (decode_reinitialize_request data) as [r| |]; [|done..]. case_bool_decide; [eauto|done].
Qed.

Definition password_field (number : Z) (password : option (list Z)) : list Z :=
  match password with Some p => encode_context_character_string number p | None => [] end.
Definition dcc_request (duration : option Z) (e : EnableDisable) (password : option (list Z)) : list Z :=
  match duration with Some m => encode_context_unsigned 0 m | None => [] end
  ++ encode_context_enumerated 1 (EnableDisable_as_u32 e) ++ password_field 2 password.
Definition reinitialize_request (x : ReinitializedState) (password : option (list Z)) : list Z :=
  encode_context_enumerated 0 (ReinitializedState_as_u32 x) ++ password_field 1 password.
Definition password_ok (password : option (list Z)) : Prop :=
  match password with Some p => utf8_valid p = true ∧ zlen p + 1 < 4294967296 | None => True end.

Lemma text_error_ok {A} (d : Dec A) l a l' : d l = (Ok a, l') → text_error d l = (Ok a, l').
Proof. intros Hd. unfold text_error, st_map_err. by rewrite Hd. Qed.
(** One field of a request that the loop knows. *)
Lemma decode_fields_step {T} (field : Z → Z → T → option (CDec T)) fuel acc acc' tn len l l' (dec : CDec T) :
  (1 ≤ fuel)%nat → 0 <= tn < 15 → 0 <= len < 4294967296 → field tn len acc = Some dec → dec l = (Ok acc', l') →
  decode_fields field fuel acc (encode_context_tag tn len ++ l) = decode_fields field (fuel - 1) acc' l'.
Proof.
  intros Hfuel Ht Hl Hf Hd. assert (∃ b r, encode_context_tag tn len ++ l = b :: r) as (b & r & Heq).
  { unfold encode_context_tag. repeat case_match; cbn; eauto. }
  destruct fuel as [|fuel]; [lia|]. cbn [decode_fields]. rewrite Heq. rewrite <- Heq. rewrite Nat.sub_succ, Nat.sub_0_r. unfold decode_field.
  rewrite (st_bind_ok _ _ _ acc' l'); [done|]. erewrite st_bind_ok by (apply text_error_ok, context_tag_roundtrip; lia). cbn [negb]. by rewrite Hf.
Qed.
Lemma encode_context_tag_length tn len : 0 <= tn < 15 → (1 ≤ length (encode_context_tag tn len))%nat.
Proof. intros. unfold encode_context_tag. repeat case_match; cbn; lia. Qed.

(** The two kinds of fields, at any place of a request. *)
Lemma password_step {T} (field : Z → Z → T → option (CDec T)) fuel acc acc' tn password :
  0 <= tn < 15 → password_ok password → (length (password_field tn password) ≤ fuel)%nat →
  match password with
  | Some p => ∃ k, field tn (zlen p + 1) acc = Some (do? text := text_error (decode_character_string (zlen p + 1)) in st_ret (k text)) ∧ k p = acc'
  | None => acc = acc'
  end →
  decode_fields field fuel acc (password_field tn password) = (Ok acc', []).
Proof.
  intros Ht Hp Hfuel Hf. destruct password as [p|]; cbn [password_field] in *; [|by rewrite Hf; destruct fuel].
  destruct Hp as [Hu Hlen]. destruct Hf as (k & Hf & Hk). pose proof (zlen_nonneg p). unfold encode_context_character_string in *.
  pose proof (encode_context_tag_length tn (zlen p + 1) Ht). rewrite length_app in Hfuel.
  rewrite (decode_fields_step field fuel acc acc' tn (zlen p + 1) _ [] _ ltac:(lia) Ht ltac:(lia) Hf); [by destruct (fuel - 1)%nat|].
  erewrite st_bind_ok by (apply text_error_ok; rewrite <- (app_nil_r (0 :: p)) at 1; by apply decode_character_string_ok). by rewrite Hk.
Qed.
Lemma number_field_step {T} (field : Z → Z → T → option (CDec T)) (k : Z → T) fuel acc tn bytes x rest :
  0 <= tn < 15 → zlen bytes <= 4 → decode_unsigned_raw bytes = x → (length (encode_context_tag tn (zlen bytes) ++ bytes ++ rest) ≤ fuel)%nat →
  (∃ dec, field tn (zlen bytes) acc = Some (do? v := text_error (decode_unsigned (zlen bytes)) in dec v) ∧ ∀ l, dec x l = (Ok (k x), l)) →
  decode_fields field fuel acc ((encode_context_tag tn (zlen bytes) ++ bytes) ++ rest) = decode_fields field (fuel - 1) (k x) rest.
Proof.
  intros Ht Hlen Hx Hfuel (dec & Hf & Hdec). pose proof (zlen_nonneg bytes). pose proof (encode_context_tag_length tn (zlen bytes) Ht).
  rewrite !length_app in Hfuel. rewrite <- app_assoc. eapply decode_fields_step; [lia|done|lia|done|].
  erewrite st_bind_ok by (apply text_error_ok; by apply decode_unsigned_ok). apply Hdec.
Qed.

Lemma dcc_decoded duration e password :
  match duration with Some m => is_u16 m | None => True end → password_ok password →
  decode_dcc_request (dcc_request duration e password) = Ok {| dcc_time_duration := duration; dcc_enable_disable := e; dcc_password := password |}.
Proof.
  intros Hm Hp. unfold decode_dcc_request.
  assert (∀ fuel, (length (encode_context_enumerated 1 (EnableDisable_as_u32 e) ++ password_field 2 password) ≤ fuel)%nat →
    decode_fields dcc_field fuel (duration, None, None) (encode_context_enumerated 1 (EnableDisable_as_u32 e) ++ password_field 2 password) = (Ok (duration, Some e, password), [])) as Hrest.
  { intros fuel Hfuel. unfold encode_context_enumerated in *. rewrite (number_field_step dcc_field (fun _ => (duration, Some e, None)) _ _ _ _ (EnableDisable_as_u32 e)).
    - apply password_step; [lia|done| |by destruct password; [eexists; split; [reflexivity|]|]].
      rewrite !length_app in Hfuel. pose proof (encode_context_tag_length 1 (zlen (context_enumerated_bytes (EnableDisable_as_u32 e))) ltac:(lia)). destruct e; cbn in *; lia.
    - lia.
    - by destruct e.
    - by destruct e.
    - by rewrite app_assoc.
    - eexists. split; [reflexivity|]. intros l. by destruct e. }
  unfold dcc_request. destruct duration as [m|]; cbn [app].
  - unfold encode_context_unsigned at 2. pose proof (unsigned_bytes_ok m) as [_ Hlen]. unfold is_u16 in Hm.
    rewrite (number_field_step dcc_field (fun v => (Some m, None, None)) _ _ _ _ m).
    + rewrite Hrest; [done|]. unfold encode_context_unsigned. rewrite !length_app. pose proof (encode_context_tag_length 0 (zlen (unsigned_bytes m)) ltac:(lia)).
      unfold zlen in Hlen. lia.
    + lia.
    + lia.
    + apply unsigned_bytes_roundtrip. unfold is_u32. lia.
    + unfold encode_context_unsigned. by rewrite <- app_assoc.
    + eexists. split; [reflexivity|]. intros l. unfold st_ret. by rewrite as_u16_id.
  - by rewrite Hrest.
Qed.
Lemma reinitialize_decoded x password : password_ok password →
  decode_reinitialize_request (reinitialize_request x password) = Ok {| rd_state := x; rd_password := password |}.
Proof.
  intros Hp. unfold decode_reinitialize_request, reinitialize_request, encode_context_enumerated.
  rewrite (number_field_step rd_field (fun _ => (Some x, None)) _ _ _ _ (ReinitializedState_as_u32 x)).
  - rewrite (password_step rd_field _ (Some x, None) (Some x, password)); [done|lia|done| |by destruct password; [eexists; split; [reflexivity|]|]].
    rewrite !length_app. pose proof (encode_context_tag_length 0 (zlen (context_enumerated_bytes (ReinitializedState_as_u32 x))) ltac:(lia)). destruct x; cbn; lia.
  - lia.
  - by destruct x.
  - by destruct x.
  - by rewrite app_assoc.
  - eexists. split; [reflexivity|]. intros l. by destruct x.
Qed.

(** Communication is enabled and disabled as asked, by a request with the required password and any
    duration: acknowledged, and kept on the device until the next request, whatever the duration
    says; a restart, with its password, enables it again and resets the clock. *)
Theorem communication_controlled services required required' ctx ctx' s d duration e password x password' :
  confirmed_handlers services !! 17 = Some (DeviceCommunicationControlHandler required) →
  confirmed_handlers services !! 20 = Some (ReinitializeDeviceHandler required') →
  device_at s ctx d → device_instance ctx' = device_instance ctx → match duration with Some m => is_u16 m | None => True end →
  password_ok password → password_ok password' → password_accepted required password = true → password_accepted required' password' = true →
  x = RsColdstart ∨ x = RsWarmstart →
  let s1 := put_device (context_device ctx) (set_communication_control (control_state e) d) s in
  dispatch_confirmed services 17 (dcc_request duration e password) ctx s = (Ok SrSimpleAck, s1) ∧
  device_at s1 ctx (set_communication_control (control_state e) d) ∧
  dispatch_confirmed services 20 (reinitialize_request x password') ctx' s1 =
    (Ok SrSimpleAck, put_device (context_device ctx) (dev_set_control CcEnabled 0 d) s1).
Proof.
  intros H17 H20 Hd Hctx Hm Hp Hp' Ha Ha' Hx s1. assert (device_at s1 ctx (set_communication_control (control_state e) d)) as Hd1 by by eapply put_device_at.
  split; [|split; [done|]].
  - unfold dispatch_confirmed. rewrite H17. cbn [min_data_length DeviceCommunicationControlHandler handle].
    rewrite (proj2 (Z.ltb_ge _ 2)).
    2:{ unfold dcc_request, encode_context_enumerated. rewrite !zlen_app. pose proof (encode_context_tag_length 1 (zlen (context_enumerated_bytes (EnableDisable_as_u32 e))) ltac:(lia)) as Hl.
        pose proof (zlen_nonneg (password_field 2 password)). pose proof (zlen_nonneg (match duration with Some m => encode_context_unsigned 0 m | None => [] end)).
        unfold zlen in *. destruct e; cbn in *; lia. }
    unfold DeviceCommunicationControl_handle. rewrite dcc_decoded by done. cbn [dcc_password dcc_enable_disable]. rewrite Ha. cbn [negb]. by rewrite (on_device_ok _ _ _ _ d).
  - unfold dispatch_confirmed. rewrite H20. cbn [min_data_length ReinitializeDeviceHandler handle].
    rewrite (proj2 (Z.ltb_ge _ 2)).
    2:{ unfold reinitialize_request, encode_context_enumerated. rewrite !zlen_app. pose proof (encode_context_tag_length 0 (zlen (context_enumerated_bytes (ReinitializedState_as_u32 x))) ltac:(lia)) as Hl.
        pose proof (zlen_nonneg (password_field 1 password')). unfold zlen in *. destruct x; cbn in *; lia. }
    unfold ReinitializeDevice_handle. rewrite reinitialize_decoded by done. cbn [rd_password rd_state]. rewrite Ha'. cbn [negb].
    assert (device_at s1 ctx' (set_communication_control (control_state e) d)) as Hd2 by (unfold device_at, context_device in *; by rewrite Hctx).
    assert (context_device ctx' = context_device ctx) as Hc by (unfold context_device; by rewrite Hctx).
    destruct Hx as [->| ->]; rewrite (on_device_ok _ _ _ _ _ Hd2), Hc; done.
Qed.
End device_services.

(* ------------------------------------------------------------------ *)
(** * Every control request is answered *)

Lemma consumes_text {A} k (d : Dec A) : consumes k d → consumes k (text_error d).
Proof. apply consumes_map_err. Qed.
Lemma consumes_character_string n : consumes 0 (decode_character_string n).
Proof.
  unfold decode_character_string. case_match; [auto with consume|]. apply (consumes_weaken 1); [|lia].
  apply consumes_first; [auto with consume|]. intros b. apply consumes_first; [auto with consume|]. intros bytes. case_match; auto with consume.
Qed.
#[local] Hint Resolve consumes_text consumes_character_string : consume.

(** Every turn of the loop takes at least the octet of a tag. *)
Lemma decode_fields_total {T} (field : Z → Z → T → option (CDec T)) fuel acc l :
  (∀ tag len acc, match field tag len acc with Some dec => consumes 0 dec | None => True end) →
  (length l ≤ fuel)%nat → (decode_fields field fuel acc l).1 ≠ Panic.
Proof.
  intros Hf. revert acc l. induction fuel as [|fuel IH]; intros acc l Hl; [by destruct l; [|cbn in Hl; lia]|].
  destruct l as [|b l]; [done|]. cbn [decode_fields]. unfold st_bind at 1.
  assert (consumes 1 (decode_field field acc)) as Hc.
  { apply consumes_first; [auto with consume|]. intros [[tag c] len]. case_match; [auto with consume|]. specialize (Hf tag len acc).
    destruct (field tag len acc); [done|]. intros k. unfold read_bytes. destruct (_ <? _); cbn; [lia|]. rewrite length_drop. lia. }
  specialize (Hc (b :: l)). destruct (decode_field field acc (b :: l)) as [[acc'|e|] l']; [|done..]. apply IH. cbn in *. lia.
Qed.
Lemma control_decoders_total data : decode_dcc_request data ≠ Panic ∧ decode_reinitialize_request data ≠ Panic.
Proof.
  assert (∀ A B (o : option A) (k : A → B), consumes 0 (do? e := st_lift (ok_or o tt) in st_ret (E:=unit) (S:=list Z) (k e))) as Hopt.
  { intros A B [a|] k l; cbn; [lia|done]. }
  split.
  - unfold decode_dcc_request. pose proof (decode_fields_total dcc_field (length data) (None, None, None) data) as Ht.
    destruct (decode_fields dcc_field _ _ _).1 as [[[? [?|]] ?]| |]; [done..|]. destruct Ht; [|done..]. intros tag len [[m e] p]. unfold dcc_field.
    repeat case_match; simplify_eq; try done; (apply consumes_first; [auto with consume|]); auto with consume.
  - unfold decode_reinitialize_request. pose proof (decode_fields_total rd_field (length data) (None, None) data) as Ht.
    destruct (decode_fields rd_field _ _ _).1 as [[[?|] ?]| |]; [done..|]. destruct Ht; [|done..]. intros tag len [e p]. unfold rd_field.
    repeat case_match; simplify_eq; try done; (apply consumes_first; [auto with consume|]); auto with consume.
Qed.
Lemma time_sync_total data : decode_time_sync_request data ≠ Panic.
Proof.
  unfold decode_time_sync_request. case_match; [done|].
  assert (∀ n, no_panic (tagged_octets n)) as Hn.
  { intros n. apply np_bind; [intros l; unfold text_error, st_map_err; pose proof (np_tag_info l); by destruct (decode_tag_info l) as [[]]|]. intros [[t c] len].
    case_match; [done|]. intros l. unfold text_error, st_map_err, st_bind, read_bytes. destruct (Z.ltb_spec (zlen l) 4); [done|].
    unfold zlen in *. destruct l as [|? [|? [|? [|? l]]]]; cbn in *; try lia. done. }
  apply np_bind; [apply Hn|]. intros [[[y m] d] w]. apply np_bind; [apply Hn|]. intros [[[h mi] sec] c]. done.
Qed.

Lemma tagged_octets_bytes n l a b c d l' : tagged_octets n l = (Ok (a, b, c, d), l') → bytes_ok l → is_u8 a ∧ is_u8 b ∧ is_u8 c ∧ is_u8 d ∧ bytes_ok l'.
Proof.
  unfold tagged_octets, text_error, st_map_err, st_bind at 1. destruct (decode_tag_info l) as [[[[t ctx] len]|e|] l1] eqn:Ht; cbn [map_err]; [|done..].
  apply rest_tag_info in Ht as [k ->]. case_match; [done|]. unfold st_bind, read_bytes. destruct (Z.ltb_spec (zlen l1) 4); [done|]. cbn [map_err].
  unfold zlen in *. destruct l1 as [|a' [|b' [|c' [|d' l1]]]]; cbn in *; try lia. intros [= -> -> -> -> <-] Hb.
  apply Forall_app in Hb as [_ Hb]. rewrite drop_0. repeat (apply Forall_cons in Hb as [? Hb]). done.
Qed.
Lemma time_sync_bytes data r : decode_time_sync_request data = Ok r → bytes_ok data →
  -9000000000 <= bacnet_datetime_to_epoch (tsr_date r) (tsr_time r) < 9000000000.
Proof.
  unfold decode_time_sync_request. case_match; [done|]. unfold st_bind. destruct (tagged_octets 10 data) as [[[[[y m] d] w]|e|] l] eqn:H1; [|done..].
  destruct (tagged_octets 11 l) as [[[[[h mi] sec] c]|e|] l'] eqn:H2; [|done..]. intros [= <-] Hb.
  apply tagged_octets_bytes in H1 as (Hy & Hm & Hd & _ & Hl); [|done]. apply tagged_octets_bytes in H2 as (Hh & Hmi & Hs & _); [|done].
  unfold bacnet_datetime_to_epoch, days_from_date, is_u8 in *. cbn. rewrite !Z.quot_div_nonneg by (destruct (m <=? 2) eqn:?; bool_to_prop; lia).
  destruct (m <=? 2) eqn:?; bool_to_prop; Z.div_mod_to_equations; lia.
Qed.

(** Whatever octets arrive, each of the control services answers, as long as the clock is in range
    and the server's own instance is legal. *)
Theorem control_services_total `{BuildProfile} {O} `{!DeviceCast O} now required data ctx (s : ObjectRegistry O) :
  device_instance ctx <= MAX_INSTANCE → 0 <= now < 4611686018427387904 → bytes_ok data →
  (∃ s', time_sync_handle now data ctx s = (Ok SrNoResponse, s')) ∧
  (∃ r s', DeviceCommunicationControl_handle required data ctx s = (Ok r, s')) ∧
  (∃ r s', ReinitializeDevice_handle required data ctx s = (Ok r, s')).
Proof.
  intros Hi Hnow Hb. destruct (control_decoders_total data) as [Hdcc Hrd]. pose proof (time_sync_total data) as Hts.
  assert (∀ f a, ∃ s', on_device ctx f a s = (Ok a, s')) as Hon.
  { intros f a. unfold on_device. rewrite context_device_ok by done. destruct (_ ≫= _); eauto. }
  split; [|split].
  - unfold time_sync_handle. destruct (decode_time_sync_request data) as [r|e|] eqn:Hr; [|eauto|done].
    pose proof (time_sync_bytes data r Hr Hb). assert (to_signed 64 now = now) as ->.
    { unfold to_signed. by rewrite (proj2 (Z.ltb_lt _ _)) by (change (2 ^ (64 - 1)) with 9223372036854775808; lia). }
    rewrite i64_op_ok by lia. apply Hon.
  - unfold DeviceCommunicationControl_handle. destruct (decode_dcc_request data) as [r|e|]; [|eauto|done]. case_match; [eauto|].
    destruct (Hon (set_communication_control (control_state (dcc_enable_disable r))) SrSimpleAck) as [s' ->]. eauto.
  - unfold ReinitializeDevice_handle. destruct (decode_reinitialize_request data) as [r|e|]; [|eauto|done]. case_match; [eauto|].
    destruct (Hon (fun d => set_time_offset_secs 0 (set_communication_control CcEnabled d)) SrSimpleAck) as [s' Hs']. rewrite Hs'. destruct (rd_state r); eauto.
Qed.

(* ------------------------------------------------------------------ *)
(** * The inventory *)

#[local] Instance id_le_trans : Transitive id_le.
Proof. unfold id_le. intros ???. lia. Qed.
#[local] Instance id_le_total : Total id_le.
Proof. unfold id_le. intros ??. lia. Qed.
#[local] Instance id_le_antisym : AntiSymm (=) id_le.
Proof.
  intros [t i] [t' i']. unfold id_le. cbn. intros ??. assert (ObjectType_as_u16 t = ObjectType_as_u16 t') as Ht%(inj _) by lia. f_equal; [done|lia].
Qed.

Lemma sorted_ids_filter (P : ObjectId → Prop) `{!∀ x, Decision (P x)} l : StronglySorted id_le l → StronglySorted id_le (filter P l).
Proof.
  induction 1 as [|x l Hs IH Hx]; [constructor|]. rewrite filter_cons. destruct (decide (P x)); [|done]. constructor; [done|].
  apply Forall_forall. intros y [_ Hy]%list_elem_of_filter. by apply (proj1 (Forall_forall _ _) Hx).
Qed.

(** The object list is the inventory of the device: the device itself first, then every other
    object of the registry once, in order of type number and instance, whatever order the
    registry yields them in; nothing else. *)
Theorem object_list_exact {O} (s : ObjectRegistry O) ids d :
  ids ≡ₚ object_ids s →
  let l := object_list ids d in
  head l = Some (dev_id d) ∧ NoDup l ∧ (∀ id, id ∈ l ↔ id = dev_id d ∨ is_Some (get s id)) ∧ StronglySorted id_le (tail l) ∧
  l = object_list (object_ids s) d.
Proof.
  intros Hp l. assert (NoDup (object_ids s)) as Hnd by apply NoDup_fst_map_to_list.
  assert (∀ id, id ∈ object_ids s ↔ is_Some (get s id)) as Hin.
  { intros id. unfold object_ids. rewrite list_elem_of_fmap. split; [intros ([id' o] & -> & Ho%elem_of_map_to_list); by exists o|].
    intros [o Ho]. exists (id, o). by rewrite elem_of_map_to_list. }
  pose proof (merge_sort_Permutation id_le ids) as Hm. split; [done|]. split; [|split; [|split]].
  - apply NoDup_cons. split; [rewrite list_elem_of_filter; tauto|]. apply NoDup_filter. by rewrite Hm, Hp.
  - intros id. unfold l, object_list. rewrite elem_of_cons, list_elem_of_filter, Hm, Hp, Hin. destruct (decide (id = dev_id d)); tauto.
  - cbn [l object_list tail]. apply sorted_ids_filter, StronglySorted_merge_sort; apply _.
  - unfold l, object_list. do 2 f_equal. apply (StronglySorted_unique id_le); [apply StronglySorted_merge_sort; apply _..|]. by rewrite !merge_sort_Permutation.
Qed.

Lemma set_bits_length numbers bits : length (set_bits numbers bits) = length bits.
Proof. unfold set_bits. revert bits. induction numbers as [|n numbers IH]; intros bits; [done|]. cbn. by rewrite IH, length_insert. Qed.
Lemma set_bits_lookup numbers bits (i : nat) : (i < length bits)%nat →
  set_bits numbers bits !! i = Some true ↔ bits !! i = Some true ∨ i ∈ Z.to_nat <$> numbers.
Proof.
  unfold set_bits. revert bits. induction numbers as [|n numbers IH]; intros bits Hi; cbn.
  - split; [by left|]. intros [|[]%not_elem_of_nil]; done.
  - rewrite IH by by rewrite length_insert. rewrite elem_of_cons. destruct (decide (Z.to_nat n = i)) as [<-|Hne].
    + rewrite list_lookup_insert_eq by done. tauto.
    + rewrite list_lookup_insert_ne by done. naive_solver.
Qed.

(** The supported object types are those of the registry: after an update the bit of a type is set
    exactly when the type is the device's or an object of it is registered. *)
Theorem object_types_exact {O} (s : ObjectRegistry O) d t :
  length (dev_object_types_supported d) = 60%nat →
  dev_object_types_supported (update_object_types_supported (object_ids s) d) !! Z.to_nat (ObjectType_as_u16 t) = Some true ↔
  t = OtDevice ∨ ∃ id, is_Some (get s id) ∧ object_type id = t.
Proof.
  intros Hl. cbn [update_object_types_supported dev_set_tables dev_object_types_supported].
  assert (Z.to_nat (ObjectType_as_u16 t) < 60)%nat as Hr by (destruct t; cbn; lia).
  assert (∀ t', Z.to_nat (ObjectType_as_u16 t) = Z.to_nat (ObjectType_as_u16 t') ↔ t = t') as Hinj.
  { intros t'. split; [|by intros ->]. intros Heq. apply (inj ObjectType_as_u16). destruct t, t'; cbn in Heq |- *; lia. }
  rewrite set_bits_lookup by (rewrite set_bits_length, length_fmap; lia). rewrite set_bits_lookup by (rewrite length_fmap; lia).
  rewrite list_lookup_fmap. destruct (dev_object_types_supported d !! _) as [b|] eqn:Hb; [|apply lookup_ge_None in Hb; lia]. cbn [fmap option_fmap option_map].
  assert (Z.to_nat (ObjectType_as_u16 t) ∈ Z.to_nat <$> [ObjectType_as_u16 OtDevice] ↔ t = OtDevice) as ->.
  { rewrite list_elem_of_fmap. setoid_rewrite list_elem_of_singleton. rewrite <- Hinj. naive_solver. }
  rewrite <- list_fmap_compose, list_elem_of_fmap. split.
  - intros [[|]|(id & Heq & Hid)]; [done|by left|]. right. exists id. cbn in Heq. apply Hinj in Heq. split; [|done].
    unfold object_ids in Hid. apply list_elem_of_fmap in Hid as ([id' o] & -> & Ho%elem_of_map_to_list). by exists o.
  - intros [->|(id & [o Ho] & <-)]; [by left; right|]. right. exists id. split; [done|]. apply list_elem_of_fmap. exists (id, o). by rewrite elem_of_map_to_list.
Qed.

(** The services share the bits of the confirmed and of the unconfirmed ones: a device that serves
    Who-Is alone, unconfirmed number 8, announces the confirmed service 8, AddListElement. *)
Theorem services_bits_shared confirmed unconfirmed d i :
  length (dev_services_supported d) = 41%nat → 0 <= i < 41 → Forall (fun x => 0 <= x) (confirmed ++ unconfirmed) →
  dev_services_supported (update_services_supported confirmed unconfirmed d) !! Z.to_nat i = Some true ↔ i ∈ confirmed ∨ i ∈ unconfirmed.
Proof.
  intros Hl Hi [Hc Hu]%Forall_app. cbn [update_services_supported dev_set_tables dev_services_supported].
  assert (∀ l, Forall (fun x => 0 <= x) l → Z.to_nat i ∈ Z.to_nat <$> l ↔ i ∈ l) as Hin.
  { intros l Hf. rewrite list_elem_of_fmap. split; [|by exists i]. intros (x & Hx & Hxl). rewrite Forall_forall in Hf. specialize (Hf x Hxl). cbn in Hf.
    by replace i with x by lia. }
  rewrite set_bits_lookup by (rewrite set_bits_length, length_fmap; lia). rewrite set_bits_lookup by (rewrite length_fmap; lia). rewrite !Hin by done.
  rewrite list_lookup_fmap. destruct (dev_services_supported d !! _) as [b|]; cbn; naive_solver.
Qed.

(** The day of the week is one too far: the first of January 1970, a Thursday, is announced as the
    fifth day of a week that begins on Monday, and so on round the week. *)
Theorem weekday_off_by_one `{BuildProfile} {E} n : 0 <= n < 67935 →
  ∃ date, local_date (E:=E) (n * 86400) = Ok date ∧ let weekday := (n + 3) mod 7 + 1 in day_of_week date = weekday mod 7 + 1.
Proof.
  intros Hn. destruct (local_moment (E:=E) (n * 86400) 0) as (date & Hd & _); [unfold end_of_years; lia|lia|]. exists date. split; [done|].
  unfold local_date in Hd. rewrite Z.quot_mul in Hd by lia. rewrite days_to_ymd_civil in Hd by lia. destruct (civil n) as [[y m] d]. destruct (i32_op (y - 1900)); [|done..].
  cbn in Hd. injection Hd as <-. cbn. rewrite as_u8_id by (unfold is_u8; Z.div_mod_to_equations; lia). Z.div_mod_to_equations; lia.
Qed.

(** What a client may do with the properties of a device, with its clock in range: each listed one
    can be read; only the out-of-service flag and the offset from UTC can be written, and reading
    returns what was written (the offset as a 16-bit number); any other write is refused without
    effect. *)
Theorem device_properties `{BuildProfile} w d :
  0 <= clock_secs w + dev_time_offset_secs d < end_of_years → 0 <= clock_secs w < 4611686018427387904 →
  (∀ k, k ∈ Device_list_properties ↔ ∃ v, Device_read_property w d k = Ok v) ∧
  (∀ k v d', Device_write_property k v d = (Ok tt, d') →
     (∃ b, k = PiOutOfService ∧ as_bool v = Some b ∧ Device_read_property w d' k = Ok (VBoolean b)) ∨
     (∃ x, k = PiUtcOffset ∧ as_unsigned v = Some x ∧ Device_read_property w d' k = Ok (VSigned (as_i16 x)))) ∧
  (∀ k v, (Device_write_property k v d).1 ≠ Ok tt → (Device_write_property k v d).2 = d).
Proof.
  intros Hr Hc. assert (to_signed 64 (clock_secs w) = clock_secs w) as Hs.
  { unfold to_signed. by rewrite (proj2 (Z.ltb_lt _ _)) by (change (2 ^ (64 - 1)) with 9223372036854775808; lia). }
  assert (∃ date, Device_read_property w d PiLocalDate = Ok (VDate date)) as Hdate.
  { cbn [Device_read_property]. unfold adjusted_secs. rewrite Hs, i64_op_ok by (unfold end_of_years in *; lia). cbn [obind].
    destruct (local_moment (E:=PropertyError) _ 0 Hr ltac:(lia)) as (date & -> & _). by eexists. }
  assert (∃ time, Device_read_property w d PiLocalTime = Ok (VTime time)) as Htime.
  { cbn. unfold adjusted_secs. rewrite Hs, i64_op_ok by (unfold end_of_years in *; lia). by eexists. }
  split; [|split].
  - intros k. split.
    + intros Hk. unfold Device_list_properties in Hk. repeat (apply elem_of_cons in Hk as [->|Hk]; [first [by eexists|by destruct Hdate as [? ->]; eexists|by destruct Htime as [? ->]; eexists]|]).
      by apply elem_of_nil in Hk.
    + intros [v Hv]. apply (bool_decide_unpack _). destruct k; done.
  - intros k v d' Hw. destruct k; cbn in Hw; try done.
    + destruct (as_bool v) as [b|] eqn:Hb; [|done]. injection Hw as <-. left. by exists b.
    + destruct (as_unsigned v) as [x|] eqn:Hx; [|done]. injection Hw as <-. right. by exists x.
  - intros k v. destruct k; cbn; try done; [destruct (as_bool v)|destruct (as_unsigned v)]; done.
Qed.

(* ------------------------------------------------------------------ *)
(** * Witnesses *)

Definition demo_device : DeviceObject := {|
  dev_id := {| object_type := OtDevice; instance := 1234 |}; dev_config := DeviceObjectConfig_default (str "1.0"); dev_system_status := DsOperational;
  dev_out_of_service := false; dev_database_revision := 1; dev_services_supported := replicate 41 false;
  dev_object_types_supported := replicate 60 false; dev_utc_offset := 0; dev_communication_control := CcEnabled; dev_time_offset_secs := 0;
  dev_cov_changed := false; dev_last_cov_status := DsOperational |}.
Definition demo_surroundings : Surroundings := {| clock_secs := 1700000000; clock_millis := 250; registered := [] |}.
Definition device_registry : ObjectRegistry DeviceObject := (register (H:=device_object (H:=debug_build) demo_surroundings) demo_device ObjectRegistry_new).2.
Definition device_services : ServiceRegistry DeviceObject :=
  (register_confirmed (ReinitializeDeviceHandler (H:=debug_build) (Some (str "secret")))
    (register_confirmed (DeviceCommunicationControlHandler (H:=debug_build) (Some (str "secret")))
      (register_unconfirmed (TimeSynchronizationHandler (H:=debug_build) 1700000000) ServiceRegistry_new).2).2).2.
(** A quarter of an hour before midnight on the 28th of February 2024. *)
Definition leap_eve : BACnetDate := {| year := 124; month := 2; day := 28; day_of_week := 3 |}.
Definition late : BACnetTime := {| hour := 23; minute := 45; second := 0; hundredths := 0 |}.

Lemma leap_eve_ok : moment_ok leap_eve late.
Proof. split; vm_compute; intuition discriminate. Qed.
Lemma clock_synchronised_witness : ∃ d',
  dispatch_unconfirmed device_services 6 (time_sync_request leap_eve late) (ServiceContext_new 1234) device_registry =
    (Ok SrNoResponse, put_device (context_device (ServiceContext_new 1234)) d' device_registry) ∧
  ∃ date' time', Device_read_property (H:=debug_build) {| clock_secs := 1700000900; clock_millis := 0; registered := [] |} d' PiLocalDate = Ok (VDate date') ∧
    Device_read_property (H:=debug_build) {| clock_secs := 1700000900; clock_millis := 0; registered := [] |} d' PiLocalTime = Ok (VTime time') ∧
    bacnet_datetime_to_epoch date' time' = bacnet_datetime_to_epoch leap_eve late + 900.
Proof.
  destruct (clock_synchronised (H:=debug_build) device_services 6 1700000000 leap_eve late (ServiceContext_new 1234) device_registry demo_device)
    as (d' & Hd & Hr); [left; split; reflexivity|lia|split; [vm_compute; discriminate|reflexivity]|apply leap_eve_ok|].
  exists d'. split; [exact Hd|].
  destruct (Hr {| clock_secs := 1700000900; clock_millis := 0; registered := [] |} 900) as (date' & time' & H1 & H2 & _ & H3 & _ & _);
    [reflexivity|cbn; lia|lia|vm_compute; reflexivity|]. exists date', time'. split; [exact H1|]. split; [exact H2|exact H3].
Defined.
Lemma communication_controlled_witness :
  dispatch_confirmed device_services 17 (dcc_request (Some 5) EdDisable (Some (str "secret"))) (ServiceContext_new 1234) device_registry =
    (Ok SrSimpleAck, put_device (context_device (ServiceContext_new 1234)) (set_communication_control (control_state EdDisable) demo_device) device_registry).
Proof.
  destruct (communication_controlled (H:=debug_build) device_services (Some (str "secret")) (Some (str "secret")) (ServiceContext_new 1234) (ServiceContext_new 1234)
    device_registry demo_device (Some 5) EdDisable (Some (str "secret")) RsColdstart (Some (str "secret"))) as (H1 & _);
    [reflexivity|reflexivity|split; [vm_compute; discriminate|reflexivity]|reflexivity|cbn; unfold is_u16; lia| | |vm_compute; reflexivity|vm_compute; reflexivity|by left|exact H1].
  all: split; vm_compute; reflexivity.
Defined.
Lemma control_services_total_witness :
  (∃ s', time_sync_handle (H:=debug_build) 1700000000 [0xA4; 0; 0; 0; 0; 0xB4; 255; 255; 255; 255] (ServiceContext_new 1234) device_registry = (Ok SrNoResponse, s')) ∧
  (∃ r s', DeviceCommunicationControl_handle (H:=debug_build) None [0x39; 1; 255] (ServiceContext_new 1234) device_registry = (Ok r, s')).
Proof.
  split.
  - apply (control_services_total (H:=debug_build) 1700000000 None); [vm_compute; discriminate|lia|repeat constructor; vm_compute; discriminate].
  - apply (control_services_total (H:=debug_build) 1700000000 None [0x39; 1; 255]); [vm_compute; discriminate|lia|repeat constructor; vm_compute; discriminate].
Defined.
Lemma object_list_exact_witness :
  let l := object_list [{| object_type := OtDevice; instance := 1234 |}] demo_device in
  head l = Some (dev_id demo_device) ∧ NoDup l ∧ l = object_list (object_ids device_registry) demo_device.
Proof.
  destruct (object_list_exact device_registry [{| object_type := OtDevice; instance := 1234 |}] demo_device) as (H1 & H2 & _ & _ & H5); [reflexivity|].
  split; [exact H1|]. split; [exact H2|exact H5].
Defined.
Lemma object_types_exact_witness :
  dev_object_types_supported (update_object_types_supported (object_ids device_registry) demo_device) !! 8%nat = Some true.
Proof. apply (object_types_exact device_registry demo_device OtDevice); [reflexivity|by left]. Defined.
Lemma services_bits_shared_witness : dev_services_supported (update_services_supported [] [8] demo_device) !! 8%nat = Some true.
Proof. apply (services_bits_shared [] [8] demo_device 8); [reflexivity|lia|repeat constructor; lia|]. right. by left. Defined.
Lemma weekday_off_by_one_witness : ∃ date, local_date (H:=debug_build) (E:=unit) (19782 * 86400) = Ok date ∧ day_of_week date = 5.
Proof. exact (weekday_off_by_one (H:=debug_build) (E:=unit) 19782 ltac:(lia)). Defined.
Lemma device_properties_witness : ∃ v, Device_read_property (H:=debug_build) demo_surroundings demo_device PiObjectList = Ok v.
Proof.
  apply (proj1 (device_properties (H:=debug_build) demo_surroundings demo_device ltac:(vm_compute; intuition discriminate) ltac:(vm_compute; intuition discriminate))).
  by apply (bool_decide_unpack _).
Defined.
