(* ===== verification/OpcuaCodec.v ===== *)
(** The OPC UA binary encoding ([mabi-opcua/src/codec/]): primitive types ([encoder.rs],
    [decoder.rs]), node identifiers ([node_id.rs], [types/node_id.rs]), variants ([variant.rs],
    [types/variant.rs]), data values, names, status codes, extension objects and diagnostic
    information ([data_value.rs], [types/data_value.rs], [types/status_code.rs]).

    An encoder appends to the buffer and always returns [Ok]: the model gives the bytes it
    appends.  A decoder advances the buffer.  Floats are bit patterns, strings their UTF-8 bytes.
    The [chrono] and [uuid] crates are parameters: the class [Externals] has what the code uses of
    them and [ExternalLaws] what it relies on. *)

From S2P Require Import Prelude Text.

(* ------------------------------------------------------------------ *)
(** * Errors and what the crates provide *)

Inductive OpcUaError : Set :=
| EConfig | ENodeNotFound | EInvalidNodeId | EServer | EConnection | ESubscription | ESecurity | EInvalidState
| EWriteError | ECodec | EProtocolError | EServiceNotSupported
| EBadSecureChannelId (id : Z)
| EBadSequenceNumber (expected actual : Z)
| EMessageTooLarge (size max : Z)
| EBind | EIo | ECore.

(** [chrono::DateTime<Utc>] and [uuid::Uuid].  [timestamp_opt secs nsecs] is
    [Utc.timestamp_opt(secs, nsecs).single()], [elapsed_nanos a b] the nanoseconds of [a - b]. *)
Class Externals : Type := {
  DateTime : Set;
  DateTime_eq :: EqDecision DateTime;
  UNIX_EPOCH : DateTime;
  timestamp_nanos_opt : DateTime → option Z;
  timestamp_opt : Z → Z → option DateTime;
  elapsed_nanos : DateTime → DateTime → Z;
  Uuid : Set;
  Uuid_eq :: EqDecision Uuid;
  Uuid_countable :: Countable Uuid;
  is_nil : Uuid → bool;
  as_fields : Uuid → Z * Z * Z * list Z;
  from_fields : Z * Z * Z * list Z → Uuid
}.

(** The documented behaviour: a time within a second of the epoch in [i64] nanoseconds is
    represented exactly, an invalid nanosecond count is refused, and the fields of a [Uuid]
    determine it. *)
Class ExternalLaws `(Externals) : Prop := {
  timestamp_exact s n : 0 <= n < 1000000000 → - 2 ^ 63 <= s * 1000000000 + n < 2 ^ 63 →
    ∃ d, timestamp_opt s n = Some d ∧ timestamp_nanos_opt d = Some (s * 1000000000 + n);
  timestamp_invalid s n : 2000000000 <= n → timestamp_opt s n = None;
  from_as_fields u : from_fields (as_fields u) = u
}.

(* ------------------------------------------------------------------ *)
(** * Codecs *)

Definition Dec (A : Type) : Type := stM (list Z) OpcUaError A.

(** The traits [BinaryEncodable] and [BinaryDecodable] of one type. *)
Record BinaryCodec (A : Type) : Type := {
  encode : A → list Z;
  encoded_size : A → Z;
  decode : Dec A
}.
Arguments encode {A} _ _.
Arguments encoded_size {A} _ _.
Arguments decode {A} _ _.

Fixpoint le_bytes (k : nat) (x : Z) : list Z :=
  match k with O => [] | S k => x mod 256 :: le_bytes k (x / 256) end.
Fixpoint le_value (l : list Z) : Z := match l with [] => 0 | b :: l => b + 256 * le_value l end.

Definition ensure_remaining (n : Z) : Dec unit := fun buf => if zlen buf <? n then (Err ECodec, buf) else (Ok tt, buf).
(** [buf.split_to(n)]: panics when the buffer is shorter. *)
Definition split_to (n : Z) : Dec (list Z) := fun buf =>
  if zlen buf <? n then (Panic, buf) else (Ok (take (Z.to_nat n) buf), drop (Z.to_nat n) buf).
Definition read_le (k : nat) : Dec Z :=
  do? _ := ensure_remaining (Z.of_nat k) in
  do? b := split_to (Z.of_nat k) in
  st_ret (le_value b).

Definition unsigned_codec (k : nat) : BinaryCodec Z :=
  {| encode := le_bytes k; encoded_size := fun _ : Z => Z.of_nat k; decode := read_le k |}.
Definition signed_codec (k : nat) : BinaryCodec Z :=
  {| encode := fun x : Z => le_bytes k (to_unsigned (8 * Z.of_nat k) x); encoded_size := fun _ : Z => Z.of_nat k;
     decode := st_map (to_signed (8 * Z.of_nat k)) (read_le k) |}.

Definition bool_codec : BinaryCodec bool :=
  {| encode := fun b : bool => [if b then 1 else 0]; encoded_size := fun _ : bool => 1; decode := st_map (fun x => negb (x =? 0)) (read_le 1) |}.
Definition i8_codec : BinaryCodec Z := signed_codec 1.
Definition u8_codec : BinaryCodec Z := unsigned_codec 1.
Definition i16_codec : BinaryCodec Z := signed_codec 2.
Definition u16_codec : BinaryCodec Z := unsigned_codec 2.
Definition i32_codec : BinaryCodec Z := signed_codec 4.
Definition u32_codec : BinaryCodec Z := unsigned_codec 4.
Definition i64_codec : BinaryCodec Z := signed_codec 8.
Definition u64_codec : BinaryCodec Z := unsigned_codec 8.
Definition f32_codec : BinaryCodec Z := unsigned_codec 4.
Definition f64_codec : BinaryCodec Z := unsigned_codec 8.

(** [x as i32] of a length. *)
Definition as_i32 (x : Z) : Z := to_signed 32 (to_unsigned 32 x).
Definition put_len (n : Z) : list Z := encode i32_codec (as_i32 n).

(** A length-prefixed run of bytes, [None] for a negative length. *)
Definition read_blob : Dec (option (list Z)) :=
  do? len := decode i32_codec in
  if len <? 0 then st_ret None
  else do? _ := ensure_remaining len in do? bytes := split_to len in st_ret (Some bytes).
Definition from_utf8 (bytes : list Z) : outcome OpcUaError (list Z) := if is_utf8 bytes then Ok bytes else Err ECodec.

Definition string_decode : Dec (list Z) :=
  do? b := read_blob in match b with None => st_ret [] | Some bytes => st_lift (from_utf8 bytes) end.
Definition string_codec : BinaryCodec (list Z) :=
  {| encode := fun s : list Z => put_len (zlen s) ++ s; encoded_size := fun s : list Z => 4 + zlen s;
     decode := string_decode |}.
Definition encode_optional_string (s : option (list Z)) : list Z :=
  match s with Some s => encode string_codec s | None => encode i32_codec (-1) end.
Definition optional_string_size (s : option (list Z)) : Z := match s with Some s => 4 + zlen s | None => 4 end.
Definition decode_optional_string : Dec (option (list Z)) :=
  do? b := read_blob in match b with None => st_ret None | Some bytes => st_lift (omap_ok Some (from_utf8 bytes)) end.

Definition byte_string_decode : Dec (list Z) :=
  st_map (default []) read_blob.
Definition byte_string_codec : BinaryCodec (list Z) :=
  {| encode := fun s : list Z => put_len (zlen s) ++ s; encoded_size := fun s : list Z => 4 + zlen s; decode := byte_string_decode |}.
Definition encode_optional_byte_string (s : option (list Z)) : list Z :=
  match s with Some s => encode byte_string_codec s | None => encode i32_codec (-1) end.
Definition optional_byte_string_size (s : option (list Z)) : Z := match s with Some s => 4 + zlen s | None => 4 end.
Definition decode_optional_byte_string : Dec (option (list Z)) := read_blob.

Definition encode_array {A} (c : BinaryCodec A) (items : list A) : list Z :=
  put_len (zlen items) ++ flat_map (encode c) items.
Definition encode_optional_array {A} (c : BinaryCodec A) (items : option (list A)) : list Z :=
  match items with Some items => encode_array c items | None => encode i32_codec (-1) end.
Fixpoint decode_items {A} (d : Dec A) (n : nat) : Dec (list A) :=
  match n with
  | O => st_ret []
  | S n => do? x := d in do? xs := decode_items d n in st_ret (x :: xs)
  end.
Definition decode_optional_array {A} (c : BinaryCodec A) : Dec (option (list A)) :=
  do? len := decode i32_codec in
  if len <? 0 then st_ret None else st_map Some (decode_items (decode c) (Z.to_nat len)).
Definition decode_array {A} (c : BinaryCodec A) : Dec (list A) := st_map (default []) (decode_optional_array c).

(* ------------------------------------------------------------------ *)
(** * Times, identifiers and node identifiers *)

Section Types.
Context `{Externals}.

Definition FILETIME_UNIX_DIFF : Z := 116444736000000000.
(** Integer division and remainder of Rust round towards zero. *)
Definition date_time_decode : Dec DateTime :=
  do? ticks := decode i64_codec in
       if ticks <=? 0 then st_ret UNIX_EPOCH
       else
         let unix_ticks := ticks - FILETIME_UNIX_DIFF in
         let secs := Z.quot unix_ticks 10000000 in
         let nsecs := (Z.rem unix_ticks 10000000 * 100) mod 2 ^ 32 in
         st_lift (ok_or (timestamp_opt secs nsecs) ECodec).
Definition date_time_codec : BinaryCodec DateTime :=
  {| encode := fun d : DateTime =>
       let nanos := default 0 (timestamp_nanos_opt d) in encode i64_codec (Z.quot nanos 100 + FILETIME_UNIX_DIFF);
     encoded_size := fun _ : DateTime => 8;
     decode := date_time_decode |}.

Definition guid_decode : Dec Uuid :=
  do? _ := ensure_remaining 16 in
       do? d1 := decode u32_codec in
       do? d2 := decode u16_codec in
       do? d3 := decode u16_codec in
       do? d4 := split_to 8 in
       st_ret (from_fields (d1, d2, d3, d4)).
Definition guid_codec : BinaryCodec Uuid :=
  {| encode := fun u : Uuid =>
       let '(d1, d2, d3, d4) := as_fields u in
       encode u32_codec d1 ++ encode u16_codec d2 ++ encode u16_codec d3 ++ d4;
     encoded_size := fun _ : Uuid => 16;
     decode := guid_decode |}.

Inductive NodeIdType : Set :=
| NtNumeric (id : Z) | NtString (s : list Z) | NtGuid (u : Uuid) | NtByteString (b : list Z).
Record NodeId : Set := { namespace : Z; identifier : NodeIdType }.

#[global] Instance NodeIdType_eq : EqDecision NodeIdType.
Proof. solve_decision. Defined.
#[global] Instance NodeId_eq : EqDecision NodeId.
Proof. solve_decision. Defined.
#[global] Instance NodeIdType_countable : Countable NodeIdType.
Proof.
  refine (inj_countable'
    (fun i => match i with NtNumeric n => inl (inl n) | NtString s => inl (inr s) | NtGuid u => inr (inl u) | NtByteString b => inr (inr b) end)
    (fun x => match x with inl (inl n) => NtNumeric n | inl (inr s) => NtString s | inr (inl u) => NtGuid u | inr (inr b) => NtByteString b end) _).
  by intros [].
Defined.
#[global] Instance NodeId_countable : Countable NodeId.
Proof. refine (inj_countable' (fun n => (namespace n, identifier n)) (fun p => {| namespace := p.1; identifier := p.2 |}) _). by intros []. Defined.

Definition NodeId_numeric (ns id : Z) : NodeId := {| namespace := ns; identifier := NtNumeric id |}.
Definition NodeId_string (ns : Z) (s : list Z) : NodeId := {| namespace := ns; identifier := NtString s |}.
Definition NodeId_guid (ns : Z) (u : Uuid) : NodeId := {| namespace := ns; identifier := NtGuid u |}.
Definition NodeId_byte_string (ns : Z) (b : list Z) : NodeId := {| namespace := ns; identifier := NtByteString b |}.
Definition as_numeric (n : NodeId) : option Z := match identifier n with NtNumeric i => Some i | _ => None end.
Definition as_string (n : NodeId) : option (list Z) := match identifier n with NtString s => Some s | _ => None end.
Definition NodeId_is_null (n : NodeId) : bool :=
  match identifier n with
  | NtNumeric i => (namespace n =? 0) && (i =? 0)
  | NtString s => zlen s =? 0
  | NtGuid u => is_nil u
  | NtByteString b => zlen b =? 0
  end.
Definition NodeId_null : NodeId := NodeId_numeric 0 0.

Definition TWO_BYTE : Z := 0x00.
Definition FOUR_BYTE : Z := 0x01.
Definition NUMERIC : Z := 0x02.
Definition STRING : Z := 0x03.
Definition GUID : Z := 0x04.
Definition BYTE_STRING : Z := 0x05.

Definition NodeId_encode (n : NodeId) : list Z :=
  let ns := namespace n in
  match identifier n with
  | NtNumeric id =>
      if (ns =? 0) && (id <=? 255) then encode u8_codec TWO_BYTE ++ encode u8_codec (as_u8 id)
      else if (ns <=? 255) && (id <=? 65535) then
        encode u8_codec FOUR_BYTE ++ encode u8_codec (as_u8 ns) ++ encode u16_codec (as_u16 id)
      else encode u8_codec NUMERIC ++ encode u16_codec ns ++ encode u32_codec id
  | NtString s => encode u8_codec STRING ++ encode u16_codec ns ++ encode string_codec s
  | NtGuid u => encode u8_codec GUID ++ encode u16_codec ns ++ encode guid_codec u
  | NtByteString b => encode u8_codec BYTE_STRING ++ encode u16_codec ns ++ encode byte_string_codec b
  end.
Definition NodeId_encoded_size (n : NodeId) : Z :=
  let ns := namespace n in
  match identifier n with
  | NtNumeric id => if (ns =? 0) && (id <=? 255) then 2 else if (ns <=? 255) && (id <=? 65535) then 4 else 7
  | NtString s => 1 + 2 + 4 + zlen s
  | NtGuid _ => 1 + 2 + 16
  | NtByteString b => 1 + 2 + 4 + zlen b
  end.
Definition NodeId_decode_as (encoding : Z) : Dec NodeId :=
  if encoding =? TWO_BYTE then do? id := decode u8_codec in st_ret (NodeId_numeric 0 id)
  else if encoding =? FOUR_BYTE then
    do? ns := decode u8_codec in do? id := decode u16_codec in st_ret (NodeId_numeric ns id)
  else if encoding =? NUMERIC then
    do? ns := decode u16_codec in do? id := decode u32_codec in st_ret (NodeId_numeric ns id)
  else if encoding =? STRING then
    do? ns := decode u16_codec in do? s := decode string_codec in st_ret (NodeId_string ns s)
  else if encoding =? GUID then
    do? ns := decode u16_codec in do? u := decode guid_codec in st_ret (NodeId_guid ns u)
  else if encoding =? BYTE_STRING then
    do? ns := decode u16_codec in do? b := decode byte_string_codec in st_ret (NodeId_byte_string ns b)
  else st_err ECodec.
Definition NodeId_decode : Dec NodeId := fun buf =>
  if zlen buf =? 0 then (Err ECodec, buf)
  else (do? encoding := decode u8_codec in NodeId_decode_as encoding) buf.
Definition node_id_codec : BinaryCodec NodeId :=
  {| encode := NodeId_encode; encoded_size := NodeId_encoded_size; decode := NodeId_decode |}.

(* ------------------------------------------------------------------ *)
(** * Variants *)

Inductive DataTypeId : Set :=
| TNull | TBoolean | TSByte | TByte | TInt16 | TUInt16 | TInt32 | TUInt32 | TInt64 | TUInt64 | TFloat | TDouble
| TString | TDateTime | TGuid | TByteString | TXmlElement | TNodeId | TExpandedNodeId | TStatusCode | TQualifiedName
| TLocalizedText | TExtensionObject | TDataValue | TVariant | TDiagnosticInfo.
Definition all_data_types : list DataTypeId :=
  [TNull; TBoolean; TSByte; TByte; TInt16; TUInt16; TInt32; TUInt32; TInt64; TUInt64; TFloat; TDouble;
   TString; TDateTime; TGuid; TByteString; TXmlElement; TNodeId; TExpandedNodeId; TStatusCode; TQualifiedName;
   TLocalizedText; TExtensionObject; TDataValue; TVariant; TDiagnosticInfo].
#[global] Instance DataTypeId_eq : EqDecision DataTypeId.
Proof. solve_decision. Defined.
Definition type_byte (t : DataTypeId) : Z :=
  match t with
  | TNull => 0 | TBoolean => 1 | TSByte => 2 | TByte => 3 | TInt16 => 4 | TUInt16 => 5 | TInt32 => 6 | TUInt32 => 7
  | TInt64 => 8 | TUInt64 => 9 | TFloat => 10 | TDouble => 11 | TString => 12 | TDateTime => 13 | TGuid => 14
  | TByteString => 15 | TXmlElement => 16 | TNodeId => 17 | TExpandedNodeId => 18 | TStatusCode => 19
  | TQualifiedName => 20 | TLocalizedText => 21 | TExtensionObject => 22 | TDataValue => 23 | TVariant => 24
  | TDiagnosticInfo => 25
  end.
Definition from_u8 (value : Z) : option DataTypeId := if 0 <=? value then all_data_types !! Z.to_nat value else None.

Inductive VariantScalarValue : Set :=
| SvNull | SvBoolean (v : bool) | SvSByte (v : Z) | SvByte (v : Z) | SvInt16 (v : Z) | SvUInt16 (v : Z) | SvInt32 (v : Z)
| SvUInt32 (v : Z) | SvInt64 (v : Z) | SvUInt64 (v : Z) | SvFloat (v : Z) | SvDouble (v : Z) | SvString (v : list Z)
| SvDateTime (v : DateTime) | SvGuid (v : Uuid) | SvByteString (v : list Z) | SvXmlElement (v : list Z)
| SvNodeId (v : NodeId) | SvStatusCode (v : Z).
Inductive VariantArrayValue : Set :=
| AvBoolean (v : list bool) | AvSByte (v : list Z) | AvByte (v : list Z) | AvInt16 (v : list Z) | AvUInt16 (v : list Z)
| AvInt32 (v : list Z) | AvUInt32 (v : list Z) | AvInt64 (v : list Z) | AvUInt64 (v : list Z) | AvFloat (v : list Z)
| AvDouble (v : list Z) | AvString (v : list (list Z)) | AvDateTime (v : list DateTime) | AvGuid (v : list Uuid)
| AvByteString (v : list (list Z)) | AvNodeId (v : list NodeId) | AvStatusCode (v : list Z).
Inductive Variant : Set :=
| VBoolean (v : bool) | VSByte (v : Z) | VByte (v : Z) | VInt16 (v : Z) | VUInt16 (v : Z) | VInt32 (v : Z) | VUInt32 (v : Z)
| VInt64 (v : Z) | VUInt64 (v : Z) | VFloat (v : Z) | VDouble (v : Z) | VString (v : list Z) | VDateTime (v : DateTime)
| VGuid (v : Uuid) | VByteString (v : list Z) | VNodeId (v : NodeId) | VStatusCode (v : Z) | VNull
| VScalar (v : VariantScalarValue) | VArray (v : VariantArrayValue).

#[global] Instance VariantScalarValue_eq : EqDecision VariantScalarValue.
Proof. solve_decision. Defined.
#[global] Instance VariantArrayValue_eq : EqDecision VariantArrayValue.
Proof. solve_decision. Defined.
#[global] Instance Variant_eq : EqDecision Variant.
Proof. solve_decision. Defined.

Definition ARRAY_BIT : Z := 0x80.
Definition put_type (t : DataTypeId) : list Z := [type_byte t].
Definition put_array_type (t : DataTypeId) : list Z := [Z.lor (type_byte t) ARRAY_BIT].

Definition encode_scalar_value (sv : VariantScalarValue) : list Z :=
  match sv with
  | SvNull => [0]
  | SvBoolean v => put_type TBoolean ++ encode bool_codec v
  | SvSByte v => put_type TSByte ++ encode i8_codec v
  | SvByte v => put_type TByte ++ encode u8_codec v
  | SvInt16 v => put_type TInt16 ++ encode i16_codec v
  | SvUInt16 v => put_type TUInt16 ++ encode u16_codec v
  | SvInt32 v => put_type TInt32 ++ encode i32_codec v
  | SvUInt32 v => put_type TUInt32 ++ encode u32_codec v
  | SvInt64 v => put_type TInt64 ++ encode i64_codec v
  | SvUInt64 v => put_type TUInt64 ++ encode u64_codec v
  | SvFloat v => put_type TFloat ++ encode f32_codec v
  | SvDouble v => put_type TDouble ++ encode f64_codec v
  | SvString v => put_type TString ++ encode string_codec v
  | SvDateTime v => put_type TDateTime ++ encode date_time_codec v
  | SvGuid v => put_type TGuid ++ encode guid_codec v
  | SvByteString v => put_type TByteString ++ encode byte_string_codec v
  | SvXmlElement v => put_type TXmlElement ++ encode string_codec v
  | SvNodeId v => put_type TNodeId ++ encode node_id_codec v
  | SvStatusCode v => put_type TStatusCode ++ encode u32_codec v
  end.
Definition scalar_value_size (sv : VariantScalarValue) : Z :=
  match sv with
  | SvNull => 0
  | SvBoolean _ => 1
  | SvSByte _ | SvByte _ => 1
  | SvInt16 _ | SvUInt16 _ => 2
  | SvInt32 _ | SvUInt32 _ | SvFloat _ => 4
  | SvInt64 _ | SvUInt64 _ | SvDouble _ => 8
  | SvString s => 4 + zlen s
  | SvDateTime _ => 8
  | SvGuid _ => 16
  | SvByteString bs => 4 + zlen bs
  | SvXmlElement s => 4 + zlen s
  | SvNodeId n => encoded_size node_id_codec n
  | SvStatusCode _ => 4
  end.
Definition encode_array_value (av : VariantArrayValue) : list Z :=
  match av with
  | AvBoolean v => put_array_type TBoolean ++ encode_array bool_codec v
  | AvSByte v => put_array_type TSByte ++ encode_array i8_codec v
  | AvByte v => put_array_type TByte ++ encode_array u8_codec v
  | AvInt16 v => put_array_type TInt16 ++ encode_array i16_codec v
  | AvUInt16 v => put_array_type TUInt16 ++ encode_array u16_codec v
  | AvInt32 v => put_array_type TInt32 ++ encode_array i32_codec v
  | AvUInt32 v => put_array_type TUInt32 ++ encode_array u32_codec v
  | AvInt64 v => put_array_type TInt64 ++ encode_array i64_codec v
  | AvUInt64 v => put_array_type TUInt64 ++ encode_array u64_codec v
  | AvFloat v => put_array_type TFloat ++ encode_array f32_codec v
  | AvDouble v => put_array_type TDouble ++ encode_array f64_codec v
  | AvString v => put_array_type TString ++ encode_array string_codec v
  | AvDateTime v => put_array_type TDateTime ++ encode_array date_time_codec v
  | AvGuid v => put_array_type TGuid ++ encode_array guid_codec v
  | AvByteString v => put_array_type TByteString ++ encode_array byte_string_codec v
  | AvNodeId v => put_array_type TNodeId ++ encode_array node_id_codec v
  | AvStatusCode v => put_array_type TStatusCode ++ encode_array u32_codec v
  end.
Definition sum_size {A} (f : A → Z) (l : list A) : Z := foldr (fun x a => f x + a) 0 l.
Definition array_value_size (av : VariantArrayValue) : Z :=
  4 + match av with
      | AvBoolean v => zlen v
      | AvSByte v | AvByte v => zlen v
      | AvInt16 v | AvUInt16 v => zlen v * 2
      | AvInt32 v | AvUInt32 v => zlen v * 4
      | AvInt64 v | AvUInt64 v => zlen v * 8
      | AvFloat v => zlen v * 4
      | AvDouble v => zlen v * 8
      | AvString v => sum_size (fun s => 4 + zlen s) v
      | AvDateTime v => zlen v * 8
      | AvGuid v => zlen v * 16
      | AvByteString v => sum_size (fun bs => 4 + zlen bs) v
      | AvNodeId v => sum_size (encoded_size node_id_codec) v
      | AvStatusCode v => zlen v * 4
      end.

Definition Variant_encode (v : Variant) : list Z :=
  match v with
  | VNull => [0]
  | VBoolean v => put_type TBoolean ++ encode bool_codec v
  | VSByte v => put_type TSByte ++ encode i8_codec v
  | VByte v => put_type TByte ++ encode u8_codec v
  | VInt16 v => put_type TInt16 ++ encode i16_codec v
  | VUInt16 v => put_type TUInt16 ++ encode u16_codec v
  | VInt32 v => put_type TInt32 ++ encode i32_codec v
  | VUInt32 v => put_type TUInt32 ++ encode u32_codec v
  | VInt64 v => put_type TInt64 ++ encode i64_codec v
  | VUInt64 v => put_type TUInt64 ++ encode u64_codec v
  | VFloat v => put_type TFloat ++ encode f32_codec v
  | VDouble v => put_type TDouble ++ encode f64_codec v
  | VString v => put_type TString ++ encode string_codec v
  | VDateTime v => put_type TDateTime ++ encode date_time_codec v
  | VGuid v => put_type TGuid ++ encode guid_codec v
  | VByteString v => put_type TByteString ++ encode byte_string_codec v
  | VNodeId v => put_type TNodeId ++ encode node_id_codec v
  | VStatusCode v => put_type TStatusCode ++ encode u32_codec v
  | VScalar sv => encode_scalar_value sv
  | VArray av => encode_array_value av
  end.
Definition Variant_encoded_size (v : Variant) : Z :=
  1 + match v with
      | VNull => 0
      | VBoolean _ => 1
      | VSByte _ | VByte _ => 1
      | VInt16 _ | VUInt16 _ => 2
      | VInt32 _ | VUInt32 _ | VFloat _ => 4
      | VInt64 _ | VUInt64 _ | VDouble _ => 8
      | VString s => 4 + zlen s
      | VDateTime _ => 8
      | VGuid _ => 16
      | VByteString bs => 4 + zlen bs
      | VNodeId n => encoded_size node_id_codec n
      | VStatusCode _ => 4
      | VScalar sv => scalar_value_size sv
      | VArray av => array_value_size av
      end.

Definition decode_scalar_variant (type_id : Z) : Dec Variant :=
  match from_u8 type_id with
  | Some TNull => if type_id =? 0 then st_ret VNull else st_err ECodec
  | None => if type_id =? 0 then st_ret VNull else st_err ECodec
  | Some TBoolean => st_map VBoolean (decode bool_codec)
  | Some TSByte => st_map VSByte (decode i8_codec)
  | Some TByte => st_map VByte (decode u8_codec)
  | Some TInt16 => st_map VInt16 (decode i16_codec)
  | Some TUInt16 => st_map VUInt16 (decode u16_codec)
  | Some TInt32 => st_map VInt32 (decode i32_codec)
  | Some TUInt32 => st_map VUInt32 (decode u32_codec)
  | Some TInt64 => st_map VInt64 (decode i64_codec)
  | Some TUInt64 => st_map VUInt64 (decode u64_codec)
  | Some TFloat => st_map VFloat (decode f32_codec)
  | Some TDouble => st_map VDouble (decode f64_codec)
  | Some TString => st_map VString (decode string_codec)
  | Some TDateTime => st_map VDateTime (decode date_time_codec)
  | Some TGuid => st_map VGuid (decode guid_codec)
  | Some TByteString => st_map VByteString (decode byte_string_codec)
  | Some TNodeId => st_map VNodeId (decode node_id_codec)
  | Some TStatusCode => st_map VStatusCode (decode u32_codec)
  | _ => st_err ECodec
  end.
Definition decode_array_variant (type_id : Z) : Dec Variant :=
  let arr {A} (mk : list A → VariantArrayValue) (c : BinaryCodec A) := st_map (fun v => VArray (mk v)) (decode_array c) in
  match from_u8 type_id with
  | Some TBoolean => arr AvBoolean bool_codec
  | Some TSByte => arr AvSByte i8_codec
  | Some TByte => arr AvByte u8_codec
  | Some TInt16 => arr AvInt16 i16_codec
  | Some TUInt16 => arr AvUInt16 u16_codec
  | Some TInt32 => arr AvInt32 i32_codec
  | Some TUInt32 => arr AvUInt32 u32_codec
  | Some TInt64 => arr AvInt64 i64_codec
  | Some TUInt64 => arr AvUInt64 u64_codec
  | Some TFloat => arr AvFloat f32_codec
  | Some TDouble => arr AvDouble f64_codec
  | Some TString => arr AvString string_codec
  | Some TDateTime => arr AvDateTime date_time_codec
  | Some TGuid => arr AvGuid guid_codec
  | Some TByteString => arr AvByteString byte_string_codec
  | Some TNodeId => arr AvNodeId node_id_codec
  | Some TStatusCode => arr AvStatusCode u32_codec
  | _ => st_err ECodec
  end.
Definition Variant_decode : Dec Variant :=
  do? encoding := decode u8_codec in
  let is_array := negb (Z.land encoding ARRAY_BIT =? 0) in
  let type_id := Z.land encoding 0x3F in
  if is_array then decode_array_variant type_id else decode_scalar_variant type_id.
Definition variant_codec : BinaryCodec Variant :=
  {| encode := Variant_encode; encoded_size := Variant_encoded_size; decode := Variant_decode |}.

Definition Variant_is_null (v : Variant) : bool := match v with VNull | VScalar SvNull => true | _ => false end.
Definition Variant_is_array (v : Variant) : bool := match v with VArray _ => true | _ => false end.
Definition data_type_id (v : Variant) : DataTypeId :=
  match v with
  | VNull | VScalar SvNull => TNull
  | VBoolean _ | VScalar (SvBoolean _) | VArray (AvBoolean _) => TBoolean
  | VSByte _ | VScalar (SvSByte _) | VArray (AvSByte _) => TSByte
  | VByte _ | VScalar (SvByte _) | VArray (AvByte _) => TByte
  | VInt16 _ | VScalar (SvInt16 _) | VArray (AvInt16 _) => TInt16
  | VUInt16 _ | VScalar (SvUInt16 _) | VArray (AvUInt16 _) => TUInt16
  | VInt32 _ | VScalar (SvInt32 _) | VArray (AvInt32 _) => TInt32
  | VUInt32 _ | VScalar (SvUInt32 _) | VArray (AvUInt32 _) => TUInt32
  | VInt64 _ | VScalar (SvInt64 _) | VArray (AvInt64 _) => TInt64
  | VUInt64 _ | VScalar (SvUInt64 _) | VArray (AvUInt64 _) => TUInt64
  | VFloat _ | VScalar (SvFloat _) | VArray (AvFloat _) => TFloat
  | VDouble _ | VScalar (SvDouble _) | VArray (AvDouble _) => TDouble
  | VString _ | VScalar (SvString _) | VArray (AvString _) => TString
  | VDateTime _ | VScalar (SvDateTime _) | VArray (AvDateTime _) => TDateTime
  | VGuid _ | VScalar (SvGuid _) | VArray (AvGuid _) => TGuid
  | VByteString _ | VScalar (SvByteString _) | VArray (AvByteString _) => TByteString
  | VScalar (SvXmlElement _) => TXmlElement
  | VNodeId _ | VScalar (SvNodeId _) | VArray (AvNodeId _) => TNodeId
  | VStatusCode _ | VScalar (SvStatusCode _) | VArray (AvStatusCode _) => TStatusCode
  end.

(* ------------------------------------------------------------------ *)
(** * Data values *)

Definition StatusCode : Set := Z.
Definition GOOD : StatusCode := 0x00000000.
Definition BAD_UNEXPECTED_ERROR : StatusCode := 0x80010000.
Definition BAD_INTERNAL_ERROR : StatusCode := 0x80020000.
Definition BAD_INVALID_ARGUMENT : StatusCode := 0x80AB0000.
Definition BAD_SERVICE_UNSUPPORTED : StatusCode := 0x800B0000.
Definition BAD_NODE_ID_UNKNOWN : StatusCode := 0x80340000.
Definition BAD_ATTRIBUTE_ID_INVALID : StatusCode := 0x80350000.
Definition BAD_NOT_WRITABLE : StatusCode := 0x803B0000.
Definition BAD_MONITORED_ITEM_ID_INVALID : StatusCode := 0x80420000.
Definition BAD_SUBSCRIPTION_ID_INVALID : StatusCode := 0x80280000.
Definition BAD_SESSION_ID_INVALID : StatusCode := 0x80250000.
Definition BAD_REQUEST_TIMEOUT : StatusCode := 0x80A10000.
Definition BAD_SECURITY_CHECKS_FAILED : StatusCode := 0x80130000.
Definition BAD_NO_MATCH : StatusCode := 0x806F0000.
Definition severity (s : StatusCode) : Z := as_u8 (Z.land (Z.shiftr s 30) 0x03).
Definition sub_code (s : StatusCode) : Z := as_u16 (Z.land (Z.shiftr s 16) 0x3FFF).
Definition info_bits (s : StatusCode) : Z := as_u16 (Z.land s 0xFFFF).
Definition is_good (s : StatusCode) : bool := severity s =? 0.
Definition is_uncertain (s : StatusCode) : bool := severity s =? 1.
Definition is_bad (s : StatusCode) : bool := 2 <=? severity s.
Definition status_codec : BinaryCodec StatusCode := u32_codec.

Record DataValue : Set := {
  dv_value : option Variant;
  dv_status : StatusCode;
  dv_source_timestamp : option DateTime;
  dv_source_picoseconds : Z;
  dv_server_timestamp : option DateTime;
  dv_server_picoseconds : Z
}.
#[global] Instance DataValue_eq : EqDecision DataValue.
Proof. unfold StatusCode. solve_decision. Defined.

(** Times the code reads from the clock are arguments. *)
Definition DataValue_with_status (now : DateTime) (v : Variant) (s : StatusCode) : DataValue :=
  {| dv_value := Some v; dv_status := s; dv_source_timestamp := Some now; dv_source_picoseconds := 0;
     dv_server_timestamp := Some now; dv_server_picoseconds := 0 |}.
Definition DataValue_new (now : DateTime) (v : Variant) : DataValue := DataValue_with_status now v GOOD.
Definition DataValue_null : DataValue :=
  {| dv_value := None; dv_status := GOOD; dv_source_timestamp := None; dv_source_picoseconds := 0;
     dv_server_timestamp := None; dv_server_picoseconds := 0 |}.
Definition DataValue_bad (now : DateTime) (s : StatusCode) : DataValue :=
  {| dv_value := None; dv_status := s; dv_source_timestamp := None; dv_source_picoseconds := 0;
     dv_server_timestamp := Some now; dv_server_picoseconds := 0 |}.
Definition set_status (s : StatusCode) (d : DataValue) : DataValue :=
  {| dv_value := dv_value d; dv_status := s; dv_source_timestamp := dv_source_timestamp d;
     dv_source_picoseconds := dv_source_picoseconds d; dv_server_timestamp := dv_server_timestamp d;
     dv_server_picoseconds := dv_server_picoseconds d |}.
Definition set_source_timestamp (t : DateTime) (d : DataValue) : DataValue :=
  {| dv_value := dv_value d; dv_status := dv_status d; dv_source_timestamp := Some t;
     dv_source_picoseconds := dv_source_picoseconds d; dv_server_timestamp := dv_server_timestamp d;
     dv_server_picoseconds := dv_server_picoseconds d |}.
Definition set_source_picoseconds (p : Z) (d : DataValue) : DataValue :=
  {| dv_value := dv_value d; dv_status := dv_status d; dv_source_timestamp := dv_source_timestamp d;
     dv_source_picoseconds := p; dv_server_timestamp := dv_server_timestamp d;
     dv_server_picoseconds := dv_server_picoseconds d |}.
Definition set_server_timestamp (t : DateTime) (d : DataValue) : DataValue :=
  {| dv_value := dv_value d; dv_status := dv_status d; dv_source_timestamp := dv_source_timestamp d;
     dv_source_picoseconds := dv_source_picoseconds d; dv_server_timestamp := Some t;
     dv_server_picoseconds := dv_server_picoseconds d |}.
Definition set_server_picoseconds (p : Z) (d : DataValue) : DataValue :=
  {| dv_value := dv_value d; dv_status := dv_status d; dv_source_timestamp := dv_source_timestamp d;
     dv_source_picoseconds := dv_source_picoseconds d; dv_server_timestamp := dv_server_timestamp d;
     dv_server_picoseconds := p |}.

Definition HAS_VALUE : Z := 0x01.
Definition HAS_STATUS : Z := 0x02.
Definition HAS_SOURCE_TIMESTAMP : Z := 0x04.
Definition HAS_SERVER_TIMESTAMP : Z := 0x08.
Definition HAS_SOURCE_PICOSECONDS : Z := 0x10.
Definition HAS_SERVER_PICOSECONDS : Z := 0x20.

(** [if c { mask |= bit }] and [(mask & bit) != 0]. *)
Definition flag (c : bool) (bit mask : Z) : Z := if c then Z.lor mask bit else mask.
Definition has_flag (mask bit : Z) : bool := negb (Z.land mask bit =? 0).
Definition put_opt {A} (f : A → list Z) (o : option A) : list Z := match o with Some a => f a | None => [] end.
Definition when_flag {A} (mask bit : Z) (d : Dec A) : Dec (option A) :=
  if has_flag mask bit then st_map Some d else st_ret None.

Definition DataValue_mask (d : DataValue) : Z :=
  flag (negb (dv_server_picoseconds d =? 0)) HAS_SERVER_PICOSECONDS
    (flag (negb (dv_source_picoseconds d =? 0)) HAS_SOURCE_PICOSECONDS
      (flag (is_some (dv_server_timestamp d)) HAS_SERVER_TIMESTAMP
        (flag (is_some (dv_source_timestamp d)) HAS_SOURCE_TIMESTAMP
          (flag (negb (dv_status d =? 0)) HAS_STATUS (flag (is_some (dv_value d)) HAS_VALUE 0))))).
Definition DataValue_encode (d : DataValue) : list Z :=
  let mask := DataValue_mask d in
  encode u8_codec mask ++
  put_opt (encode variant_codec) (dv_value d) ++
  (if has_flag mask HAS_STATUS then encode u32_codec (dv_status d) else []) ++
  put_opt (encode date_time_codec) (dv_source_timestamp d) ++
  (if has_flag mask HAS_SOURCE_PICOSECONDS then encode u16_codec (dv_source_picoseconds d) else []) ++
  put_opt (encode date_time_codec) (dv_server_timestamp d) ++
  (if has_flag mask HAS_SERVER_PICOSECONDS then encode u16_codec (dv_server_picoseconds d) else []).
Definition DataValue_encoded_size (d : DataValue) : Z :=
  1 + match dv_value d with Some v => encoded_size variant_codec v | None => 0 end
    + (if negb (dv_status d =? 0) then 4 else 0)
    + (if is_some (dv_source_timestamp d) then 8 else 0)
    + (if negb (dv_source_picoseconds d =? 0) then 2 else 0)
    + (if is_some (dv_server_timestamp d) then 8 else 0)
    + (if negb (dv_server_picoseconds d =? 0) then 2 else 0).
Definition DataValue_decode (now : DateTime) : Dec DataValue :=
  do? mask := decode u8_codec in
  do? value := when_flag mask HAS_VALUE (decode variant_codec) in
  do? status := st_map (default GOOD) (when_flag mask HAS_STATUS (decode u32_codec)) in
  do? source_timestamp := when_flag mask HAS_SOURCE_TIMESTAMP (decode date_time_codec) in
  do? source_picoseconds := st_map (default 0) (when_flag mask HAS_SOURCE_PICOSECONDS (decode u16_codec)) in
  do? server_timestamp := when_flag mask HAS_SERVER_TIMESTAMP (decode date_time_codec) in
  do? server_picoseconds := st_map (default 0) (when_flag mask HAS_SERVER_PICOSECONDS (decode u16_codec)) in
  let dv := match value with
            | Some v => DataValue_with_status now v status
            | None => set_status status DataValue_null
            end in
  let dv := match source_timestamp with Some t => set_source_timestamp t dv | None => dv end in
  let dv := if negb (source_picoseconds =? 0) then set_source_picoseconds source_picoseconds dv else dv in
  let dv := match server_timestamp with Some t => set_server_timestamp t dv | None => dv end in
  let dv := if negb (server_picoseconds =? 0) then set_server_picoseconds server_picoseconds dv else dv in
  st_ret dv.
Definition data_value_codec (now : DateTime) : BinaryCodec DataValue :=
  {| encode := DataValue_encode; encoded_size := DataValue_encoded_size; decode := DataValue_decode now |}.

Record QualifiedName : Set := { qn_namespace_index : Z; qn_name : list Z }.
Record LocalizedText : Set := { lt_locale : list Z; lt_text : list Z }.
#[global] Instance QualifiedName_eq : EqDecision QualifiedName.
Proof. solve_decision. Defined.
#[global] Instance LocalizedText_eq : EqDecision LocalizedText.
Proof. solve_decision. Defined.
Definition qualified_name_decode : Dec QualifiedName :=
  do? ns := decode u16_codec in do? name := decode string_codec in
               st_ret {| qn_namespace_index := ns; qn_name := name |}.
Definition qualified_name_codec : BinaryCodec QualifiedName :=
  {| encode := fun q : QualifiedName => encode u16_codec (qn_namespace_index q) ++ encode string_codec (qn_name q);
     encoded_size := fun q : QualifiedName => 2 + 4 + zlen (qn_name q);
     decode := qualified_name_decode |}.
Definition LocalizedText_mask (t : LocalizedText) : Z :=
  flag (negb (zlen (lt_text t) =? 0)) 0x02 (flag (negb (zlen (lt_locale t) =? 0)) 0x01 0).
Definition localized_text_decode : Dec LocalizedText :=
  do? mask := decode u8_codec in
               do? locale := st_map (default []) (when_flag mask 0x01 (decode string_codec)) in
               do? text := st_map (default []) (when_flag mask 0x02 (decode string_codec)) in
               st_ret {| lt_locale := locale; lt_text := text |}.
Definition localized_text_codec : BinaryCodec LocalizedText :=
  {| encode := fun t : LocalizedText =>
       let mask := LocalizedText_mask t in
       encode u8_codec mask ++
       (if has_flag mask 0x01 then encode string_codec (lt_locale t) else []) ++
       (if has_flag mask 0x02 then encode string_codec (lt_text t) else []);
     encoded_size := fun t : LocalizedText =>
       1 + (if negb (zlen (lt_locale t) =? 0) then 4 + zlen (lt_locale t) else 0)
         + (if negb (zlen (lt_text t) =? 0) then 4 + zlen (lt_text t) else 0);
     decode := localized_text_decode |}.

Record ExtensionObject : Set := { eo_type_id : NodeId; eo_body : option (list Z) }.
Definition extension_object_decode : Dec ExtensionObject :=
  do? type_id := decode node_id_codec in
               do? encoding := decode u8_codec in
               do? body := (if encoding =? 0x00 then st_ret None
                            else if encoding =? 0x01 then st_map Some (decode byte_string_codec)
                            else if encoding =? 0x02 then st_map Some (decode string_codec)
                            else st_err ECodec) in
               st_ret {| eo_type_id := type_id; eo_body := body |}.
Definition extension_object_codec : BinaryCodec ExtensionObject :=
  {| encode := fun e : ExtensionObject =>
       encode node_id_codec (eo_type_id e) ++
       match eo_body e with Some body => encode u8_codec 0x01 ++ put_len (zlen body) ++ body | None => encode u8_codec 0x00 end;
     encoded_size := fun e : ExtensionObject =>
       encoded_size node_id_codec (eo_type_id e) + 1 + match eo_body e with Some body => 4 + zlen body | None => 0 end;
     decode := extension_object_decode |}.

#[local] Unset Elimination Schemes.
Inductive DiagnosticInfo : Set := MkDiagnosticInfo {
  di_symbolic_id : option Z;
  di_namespace_uri : option Z;
  di_locale : option Z;
  di_localized_text : option Z;
  di_additional_info : option (list Z);
  di_inner_status_code : option StatusCode;
  di_inner_diagnostic_info : option DiagnosticInfo
}.
#[local] Set Elimination Schemes.
Definition DiagnosticInfo_mask (d : DiagnosticInfo) : Z :=
  flag (is_some (di_inner_diagnostic_info d)) 0x40
    (flag (is_some (di_inner_status_code d)) 0x20
      (flag (is_some (di_additional_info d)) 0x10
        (flag (is_some (di_locale d)) 0x08
          (flag (is_some (di_localized_text d)) 0x04
            (flag (is_some (di_namespace_uri d)) 0x02 (flag (is_some (di_symbolic_id d)) 0x01 0)))))).
Fixpoint DiagnosticInfo_encode (d : DiagnosticInfo) : list Z :=
  encode u8_codec (DiagnosticInfo_mask d) ++
  put_opt (encode i32_codec) (di_symbolic_id d) ++
  put_opt (encode i32_codec) (di_namespace_uri d) ++
  put_opt (encode i32_codec) (di_localized_text d) ++
  put_opt (encode i32_codec) (di_locale d) ++
  put_opt (encode string_codec) (di_additional_info d) ++
  put_opt (encode status_codec) (di_inner_status_code d) ++
  match di_inner_diagnostic_info d with Some i => DiagnosticInfo_encode i | None => [] end.
Fixpoint DiagnosticInfo_encoded_size (d : DiagnosticInfo) : Z :=
  1 + (if is_some (di_symbolic_id d) then 4 else 0)
    + (if is_some (di_namespace_uri d) then 4 else 0)
    + (if is_some (di_localized_text d) then 4 else 0)
    + (if is_some (di_locale d) then 4 else 0)
    + match di_additional_info d with Some s => 4 + zlen s | None => 0 end
    + (if is_some (di_inner_status_code d) then 4 else 0)
    + match di_inner_diagnostic_info d with Some i => DiagnosticInfo_encoded_size i | None => 0 end.
Definition DiagnosticInfo_decode_with (inner : Dec DiagnosticInfo) : Dec DiagnosticInfo :=
  do? mask := decode u8_codec in
  do? symbolic_id := when_flag mask 0x01 (decode i32_codec) in
  do? namespace_uri := when_flag mask 0x02 (decode i32_codec) in
  do? localized_text := when_flag mask 0x04 (decode i32_codec) in
  do? locale := when_flag mask 0x08 (decode i32_codec) in
  do? additional_info := when_flag mask 0x10 (decode string_codec) in
  do? inner_status_code := when_flag mask 0x20 (decode status_codec) in
  do? inner := when_flag mask 0x40 inner in
  st_ret (MkDiagnosticInfo symbolic_id namespace_uri locale localized_text additional_info inner_status_code inner).
(** Every level takes the byte of its mask: the length of the buffer bounds the depth, and the
    fuel does not run out. *)
Fixpoint DiagnosticInfo_decode_loop (fuel : nat) : Dec DiagnosticInfo :=
  DiagnosticInfo_decode_with (match fuel with O => fun buf => (Panic, buf) | S fuel => DiagnosticInfo_decode_loop fuel end).
Definition DiagnosticInfo_decode : Dec DiagnosticInfo := fun buf => DiagnosticInfo_decode_loop (length buf) buf.
Definition diagnostic_info_codec : BinaryCodec DiagnosticInfo :=
  {| encode := DiagnosticInfo_encode; encoded_size := DiagnosticInfo_encoded_size; decode := DiagnosticInfo_decode |}.
End Types.

(* ------------------------------------------------------------------ *)
(** * Laws of codecs *)

(** [Lawful c ok]: a value that satisfies [ok] is decoded from its encoding, whatever follows;
    its encoding has the announced size and consists of bytes; and decoding never panics and
    takes at least one byte when it succeeds. *)
Class Lawful {A} (c : BinaryCodec A) (ok : A → Prop) : Prop := {
  roundtrip a rest : ok a → decode c (encode c a ++ rest) = (Ok a, rest);
  size_exact a : ok a → zlen (encode c a) = encoded_size c a;
  encode_bytes a : ok a → bytes_ok (encode c a);
  decode_total : consumes 1 (decode c)
}.

Lemma length_le_bytes k x : length (le_bytes k x) = k.
Proof. revert x. induction k; cbn; auto. Qed.
Lemma le_bytes_ok k x : bytes_ok (le_bytes k x).
Proof. revert x. induction k; intros x; [constructor|]. cbn. apply bytes_ok_cons. split; [int_lia|done]. Qed.
Lemma le_roundtrip k x : 0 <= x < 256 ^ Z.of_nat k → le_value (le_bytes k x) = x.
Proof.
  revert x. induction k as [|k IH]; intros x Hx; cbn [le_bytes le_value]; [cbn in Hx; lia|].
  rewrite Nat2Z.inj_succ, Z.pow_succ_r in Hx by lia. rewrite IH; int_lia.
Qed.

Lemma ensure_ok n l : n <= zlen l → ensure_remaining n l = (Ok tt, l).
Proof. intros. unfold ensure_remaining. by rewrite (proj2 (Z.ltb_ge _ _)). Qed.
Lemma split_to_app n k l : n = zlen k → split_to n (k ++ l) = (Ok k, l).
Proof.
  intros ->. unfold split_to. rewrite (proj2 (Z.ltb_ge _ _)) by len_lia. unfold zlen. rewrite Nat2Z.id.
  by rewrite take_app_length, drop_app_length.
Qed.
Lemma read_le_app k l rest : length l = k → read_le k (l ++ rest) = (Ok (le_value l), rest).
Proof.
  intros <-. unfold read_le, st_bind. change (Z.of_nat (length l)) with (zlen l).
  rewrite ensure_ok by len_lia. by rewrite split_to_app.
Qed.

(** Reading [n] bytes after the check that they are there. *)
Lemma consumes_take n : 0 <= n → consumes (E:=OpcUaError) (Z.to_nat n) (st_bind (ensure_remaining n) (fun _ => split_to n)).
Proof.
  intros Hn l. unfold st_bind, ensure_remaining, split_to. destruct (zlen l <? n) eqn:Hl; [done|]. rewrite Hl. bool_to_prop.
  rewrite length_drop. unfold zlen in Hl. lia.
Qed.
Lemma consumes_read_le k : consumes k (read_le k).
Proof.
  intros l. pose proof (consumes_take (Z.of_nat k) ltac:(lia) l) as Ht. unfold read_le, st_bind in *.
  destruct (ensure_remaining _ l) as [[[]|e|] l']; [|done..]. destruct (split_to _ l') as [[b|e|] l'']; [|done..]. cbn.
  by rewrite Nat2Z.id in Ht.
Qed.
#[export] Hint Resolve consumes_read_le : consume.

Lemma bind_law {A B} (c : BinaryCodec A) ok `{!Lawful c ok} (k : A → Dec B) a rest :
  ok a → st_bind (decode c) k (encode c a ++ rest) = k a rest.
Proof. intros Ha. unfold st_bind. by rewrite roundtrip. Qed.
Lemma map_law {A B} (c : BinaryCodec A) ok `{!Lawful c ok} (f : A → B) a rest :
  ok a → st_map f (decode c) (encode c a ++ rest) = (Ok (f a), rest).
Proof. intros Ha. unfold st_map. by rewrite roundtrip. Qed.
Lemma consumes_decode {A} (c : BinaryCodec A) ok `{!Lawful c ok} : consumes 1 (decode c).
Proof. exact decode_total. Qed.
Lemma consumes_decode0 {A} (c : BinaryCodec A) ok `{!Lawful c ok} : consumes 0 (decode c).
Proof. apply (consumes_weaken 1); [exact decode_total|lia]. Qed.
#[export] Hint Extern 1 (consumes 1 (decode _)) => eapply consumes_decode; apply _ : consume.
#[export] Hint Extern 1 (consumes 0 (decode _)) => eapply consumes_decode0; apply _ : consume.

(** ** Numbers *)

Definition unsigned_ok (k : nat) (x : Z) : Prop := 0 <= x < 2 ^ (8 * Z.of_nat k).
Definition signed_ok (k : nat) (x : Z) : Prop := - 2 ^ (8 * Z.of_nat k - 1) <= x < 2 ^ (8 * Z.of_nat k - 1).

(** Range conditions at the widths in use. *)
Ltac num_ok :=
  lazymatch goal with
  | |- unsigned_ok 1 ?x => change (is_u8 x)
  | |- unsigned_ok 2 ?x => change (is_u16 x)
  | |- unsigned_ok 4 ?x => change (is_u32 x)
  | |- unsigned_ok 8 ?x => change (0 <= x < 18446744073709551616)
  | |- signed_ok 4 ?x => change (-2147483648 <= x < 2147483648)
  | |- signed_ok 8 ?x => change (-9223372036854775808 <= x < 9223372036854775808)
  end; first [done | int_lia].

Lemma pow_256 k : 2 ^ (8 * Z.of_nat k) = 256 ^ Z.of_nat k.
Proof. by rewrite Z.pow_mul_r by lia. Qed.

#[export] Instance unsigned_lawful k : Lawful (unsigned_codec (S k)) (unsigned_ok (S k)).
Proof.
  split; cbn [unsigned_codec encode decode encoded_size].
  - intros x rest Hx. rewrite read_le_app by apply length_le_bytes. by rewrite le_roundtrip by (rewrite <- pow_256; exact Hx).
  - intros x _. unfold zlen. by rewrite length_le_bytes.
  - intros x _. apply le_bytes_ok.
  - apply (consumes_weaken (S k)); [apply consumes_read_le|lia].
Qed.
#[export] Instance signed_lawful k : Lawful (signed_codec (S k)) (signed_ok (S k)).
Proof.
  split; cbn [signed_codec encode decode encoded_size].
  - intros x rest Hx. unfold st_map. rewrite read_le_app by apply length_le_bytes. cbn [omap_ok].
    rewrite le_roundtrip by (rewrite <- pow_256; apply to_unsigned_range; lia). by rewrite signed_roundtrip by (lia || exact Hx).
  - intros x _. unfold zlen. by rewrite length_le_bytes.
  - intros x _. apply le_bytes_ok.
  - apply consumes_map, (consumes_weaken (S k)); [apply consumes_read_le|lia].
Qed.
#[export] Instance u8_lawful : Lawful u8_codec (unsigned_ok 1) := unsigned_lawful 0.
#[export] Instance u16_lawful : Lawful u16_codec (unsigned_ok 2) := unsigned_lawful 1.
#[export] Instance u32_lawful : Lawful u32_codec (unsigned_ok 4) := unsigned_lawful 3.
#[export] Instance u64_lawful : Lawful u64_codec (unsigned_ok 8) := unsigned_lawful 7.
#[export] Instance f32_lawful : Lawful f32_codec (unsigned_ok 4) := unsigned_lawful 3.
#[export] Instance f64_lawful : Lawful f64_codec (unsigned_ok 8) := unsigned_lawful 7.
#[export] Instance i8_lawful : Lawful i8_codec (signed_ok 1) := signed_lawful 0.
#[export] Instance i16_lawful : Lawful i16_codec (signed_ok 2) := signed_lawful 1.
#[export] Instance i32_lawful : Lawful i32_codec (signed_ok 4) := signed_lawful 3.
#[export] Instance i64_lawful : Lawful i64_codec (signed_ok 8) := signed_lawful 7.
#[export] Instance status_lawful : Lawful status_codec (unsigned_ok 4) := unsigned_lawful 3.
#[export] Instance bool_lawful : Lawful bool_codec (fun _ => True).
Proof.
  split; cbn [bool_codec encode decode encoded_size].
  - intros b rest _. unfold st_map. rewrite (read_le_app 1 [if b then 1 else 0]) by done. by destruct b.
  - done.
  - intros b _. bytes_split. destruct b; int_lia.
  - auto with consume.
Qed.

Lemma zlen_u8 x : zlen (encode u8_codec x) = 1.
Proof. done. Qed.
Lemma zlen_u16 x : zlen (encode u16_codec x) = 2.
Proof. done. Qed.
Lemma zlen_u32 x : zlen (encode u32_codec x) = 4.
Proof. done. Qed.
#[export] Hint Rewrite zlen_u8 zlen_u16 zlen_u32 : lens.

(** ** Strings and arrays *)

Definition len_ok {A} (l : list A) : Prop := zlen l < 2 ^ 31.
Definition blob_ok (l : list Z) : Prop := bytes_ok l ∧ len_ok l.
Definition str_ok (l : list Z) : Prop := bytes_ok l ∧ is_utf8 l = true ∧ len_ok l.
Definition array_ok {A} (ok : A → Prop) (l : list A) : Prop := Forall ok l ∧ len_ok l.

Lemma as_i32_id x : - 2 ^ 31 <= x < 2 ^ 31 → as_i32 x = x.
Proof. apply (signed_roundtrip 32). lia. Qed.
Lemma read_len_app {A B} (l : list A) (k : Z → Dec B) rest :
  len_ok l → st_bind (decode i32_codec) k (put_len (zlen l) ++ rest) = k (zlen l) rest.
Proof.
  intros Hl. pose proof (zlen_nonneg l). unfold len_ok in Hl. unfold put_len. rewrite as_i32_id by lia.
  eapply bind_law; [apply _|]. unfold signed_ok. cbn. lia.
Qed.
Lemma zlen_put_len n : zlen (put_len n) = 4.
Proof. done. Qed.
Lemma put_len_ok n : bytes_ok (put_len n).
Proof. apply le_bytes_ok. Qed.
#[export] Hint Rewrite zlen_put_len : lens.

Lemma read_blob_app l rest : blob_ok l → read_blob (put_len (zlen l) ++ l ++ rest) = (Ok (Some l), rest).
Proof.
  intros [_ Hl]. unfold read_blob. rewrite read_len_app by done. rewrite (proj2 (Z.ltb_ge _ _)) by apply zlen_nonneg.
  unfold st_bind. rewrite ensure_ok by len_lia. by rewrite split_to_app.
Qed.
Lemma consumes_read_blob : consumes 1 read_blob.
Proof.
  apply consumes_first; [auto with consume|]. intros len. destruct (len <? 0) eqn:Hl; [auto with consume|]. bool_to_prop.
  intros l. pose proof (consumes_take len Hl l) as Ht. unfold st_bind in *.
  destruct (ensure_remaining len l) as [[[]|e|] l']; [|done..]. destruct (split_to len l') as [[b|e|] l'']; [|done..]. cbn. lia.
Qed.
#[export] Hint Resolve consumes_read_blob : consume.
Lemma consumes_from_utf8 {A} (f : list Z → A) b : consumes 0 (st_lift (S:=list Z) (omap_ok f (from_utf8 b))).
Proof. intros l. unfold from_utf8. destruct (is_utf8 b); cbn; [lia|done]. Qed.

#[export] Instance byte_string_lawful : Lawful byte_string_codec blob_ok.
Proof.
  split; cbn [byte_string_codec encode decode encoded_size]; unfold byte_string_decode.
  - intros b rest Hb. unfold st_map. by rewrite <- app_assoc, read_blob_app.
  - intros b _. len_lia.
  - intros b [Hb _]. apply bytes_ok_app. split; [apply put_len_ok|done].
  - auto with consume.
Qed.
#[export] Instance string_lawful : Lawful string_codec str_ok.
Proof.
  split; cbn [string_codec encode decode encoded_size]; unfold string_decode.
  - intros b rest (Hb & Hu & Hl). unfold st_bind. rewrite <- app_assoc, read_blob_app by done. cbn. unfold from_utf8. by rewrite Hu.
  - intros b _. len_lia.
  - intros b [Hb _]. apply bytes_ok_app. split; [apply put_len_ok|done].
  - apply consumes_first; [auto with consume|]. intros [b|]; [|auto with consume].
    intros l. pose proof (consumes_from_utf8 id b l) as Hc. unfold st_lift in *. by destruct (from_utf8 b).
Qed.

Lemma decode_items_app {A} (c : BinaryCodec A) ok `{!Lawful c ok} l rest :
  Forall ok l → decode_items (decode c) (length l) (flat_map (encode c) l ++ rest) = (Ok l, rest).
Proof.
  induction 1 as [|x l Hx _ IH]; [done|]. cbn [flat_map length decode_items]. rewrite <- app_assoc.
  rewrite (bind_law c ok) by done. unfold st_bind. by rewrite IH.
Qed.
Lemma decode_optional_array_app {A} (c : BinaryCodec A) ok `{!Lawful c ok} l rest :
  array_ok ok l → decode_optional_array c (encode_array c l ++ rest) = (Ok (Some l), rest).
Proof.
  intros [Ho Hl]. unfold decode_optional_array, encode_array. rewrite <- app_assoc, read_len_app by done.
  rewrite (proj2 (Z.ltb_ge _ _)) by apply zlen_nonneg. unfold st_map. unfold zlen at 1. by rewrite Nat2Z.id, (decode_items_app c ok).
Qed.
Lemma consumes_items {A} (d : Dec A) n : consumes 0 d → consumes 0 (decode_items d n).
Proof.
  intros Hd. induction n as [|n IH]; cbn [decode_items]; [auto with consume|].
  apply consumes_first; [done|]. intros x. apply consumes_first; [done|]. auto with consume.
Qed.
Lemma consumes_optional_array {A} (c : BinaryCodec A) ok `{!Lawful c ok} : consumes 1 (decode_optional_array c).
Proof.
  apply consumes_first; [auto with consume|]. intros len. destruct (len <? 0); [auto with consume|].
  apply consumes_map, consumes_items. auto with consume.
Qed.

Definition array_codec {A} (c : BinaryCodec A) : BinaryCodec (list A) :=
  {| encode := encode_array c; encoded_size := fun l => 4 + sum_size (encoded_size c) l; decode := decode_array c |}.
#[export] Instance array_lawful {A} (c : BinaryCodec A) ok `{!Lawful c ok} : Lawful (array_codec c) (array_ok ok).
Proof.
  split; cbn [array_codec encode decode encoded_size].
  - intros l rest Hl. unfold decode_array, st_map. by rewrite (decode_optional_array_app c ok).
  - intros l [Hl _]. unfold encode_array. rewrite zlen_app, zlen_put_len. f_equal.
    induction Hl as [|x l Hx _ IH]; [done|]. cbn [flat_map]. rewrite zlen_app, IH, (size_exact x Hx). done.
  - intros l [Hl _]. apply bytes_ok_app. split; [apply put_len_ok|].
    induction Hl as [|x l Hx _ IH]; [constructor|]. cbn. apply bytes_ok_app. split; [by apply encode_bytes|done].
  - apply consumes_map. by eapply consumes_optional_array.
Qed.

(** ** Times, identifiers and node identifiers *)

Section Laws.
Context `{X : Externals} `{XL : !ExternalLaws X}.

(** A time from 1970 on, in whole ticks of 100 nanoseconds. *)
Definition date_ok (d : DateTime) : Prop :=
  ∃ s n, timestamp_opt s n = Some d ∧ 0 <= s ∧ 0 <= n < 1000000000 ∧ n mod 100 = 0 ∧ s * 1000000000 + n < 2 ^ 63.
Definition guid_ok (u : Uuid) : Prop :=
  let '(d1, d2, d3, d4) := as_fields u in is_u32 d1 ∧ is_u16 d2 ∧ is_u16 d3 ∧ bytes_ok d4 ∧ zlen d4 = 8.
Definition node_id_ok (n : NodeId) : Prop :=
  is_u16 (namespace n) ∧
  match identifier n with
  | NtNumeric id => is_u32 id
  | NtString s => str_ok s
  | NtGuid u => guid_ok u
  | NtByteString b => blob_ok b
  end.

Lemma ticks_split s n : 0 <= s → 0 <= n < 1000000000 → n mod 100 = 0 →
  Z.quot (s * 1000000000 + n) 100 = s * 10000000 + n / 100 ∧
  Z.quot (s * 10000000 + n / 100) 10000000 = s ∧ Z.rem (s * 10000000 + n / 100) 10000000 * 100 = n.
Proof.
  intros Hs Hn Hm. rewrite !Z.quot_div_nonneg, Z.rem_mod_nonneg by int_lia. split_and!; int_lia.
Qed.
#[export] Instance date_time_lawful : Lawful date_time_codec date_ok.
Proof.
  split; cbn [date_time_codec encode decode encoded_size]; unfold date_time_decode.
  - intros d rest (s & n & Hd & Hs & Hn & Hm & Hmax).
    destruct (timestamp_exact s n Hn ltac:(lia)) as (d' & Hd' & Hns). rewrite Hd in Hd'. injection Hd' as <-.
    rewrite Hns. cbn [from_option id]. destruct (ticks_split s n Hs Hn Hm) as (Hq & Hq1 & Hq2). cbn in Hmax. rewrite Hq.
    rewrite (bind_law i64_codec (signed_ok 8)) by (unfold signed_ok, FILETIME_UNIX_DIFF; cbn; int_lia).
    rewrite (proj2 (Z.leb_gt _ _)) by (unfold FILETIME_UNIX_DIFF; int_lia).
    replace (s * 10000000 + n / 100 + FILETIME_UNIX_DIFF - FILETIME_UNIX_DIFF) with (s * 10000000 + n / 100) by lia.
    rewrite Hq1, Hq2, Z.mod_small by lia. unfold st_lift. by rewrite Hd.
  - done.
  - intros d _. apply le_bytes_ok.
  - apply consumes_first; [auto with consume|]. intros t. destruct (t <=? 0); [auto with consume|].
    intros l. unfold st_lift, ok_or. destruct (timestamp_opt _ _); cbn; [lia|done].
Qed.
(** A reading of the clock from 1970 on, and the same cut to whole ticks of 100 nanoseconds. *)
Definition cut_to_tick (d d' : DateTime) : Prop :=
  ∃ s n, timestamp_opt s n = Some d ∧ timestamp_opt s (n - n mod 100) = Some d' ∧ 0 <= s ∧ 0 <= n < 1000000000 ∧
    s * 1000000000 + n < 2 ^ 63.
Lemma cut_to_tick_date d d' : cut_to_tick d d' → date_ok d' ∧ encode date_time_codec d = encode date_time_codec d'.
Proof.
  intros (s & n & Hd & Hd' & Hs & Hn & Hmax). pose proof (Z.mod_pos_bound n 100 ltac:(lia)) as Hm.
  assert (0 <= n - n mod 100 < 1000000000) as Hn' by int_lia. split.
  - exists s, (n - n mod 100). split_and!; try done; try lia. rewrite Zminus_mod_idemp_r, Z.sub_diag. done.
  - destruct (timestamp_exact s n Hn ltac:(lia)) as (e & He & Hns). rewrite Hd in He. injection He as <-.
    destruct (timestamp_exact s (n - n mod 100) Hn' ltac:(lia)) as (e & He & Hns'). rewrite Hd' in He. injection He as <-.
    cbn [date_time_codec encode]. rewrite Hns, Hns'. cbn [from_option id]. do 2 f_equal.
    rewrite !Z.quot_div_nonneg by lia. int_lia.
Qed.
#[export] Instance guid_lawful : Lawful guid_codec guid_ok.
Proof.
  split; cbn [guid_codec encode decode encoded_size]; unfold guid_decode; unfold guid_ok.
  - intros u rest Hu. destruct (as_fields u) as [[[d1 d2] d3] d4] eqn:Hf. destruct Hu as (H1 & H2 & H3 & _ & H4).
    rewrite <- !app_assoc. unfold st_bind at 1. rewrite ensure_ok; [|cbn; rewrite !zlen_cons; len_lia].
    rewrite (bind_law u32_codec (unsigned_ok 4)), (bind_law u16_codec (unsigned_ok 2)), (bind_law u16_codec (unsigned_ok 2)) by done.
    unfold st_bind. rewrite split_to_app by done. rewrite <- Hf. by rewrite from_as_fields.
  - intros u Hu. destruct (as_fields u) as [[[d1 d2] d3] d4]. destruct Hu as (_ & _ & _ & _ & H4). cbn. rewrite !zlen_cons. lia.
  - intros u Hu. destruct (as_fields u) as [[[d1 d2] d3] d4]. destruct Hu as (_ & _ & _ & H4 & _).
    repeat (apply bytes_ok_app; split); [apply le_bytes_ok..|done].
  - intros l. unfold st_bind at 1. unfold ensure_remaining. destruct (zlen l <? 16) eqn:Hl; [done|]. bool_to_prop. unfold zlen in Hl.
    rewrite <- (take_drop 4 l), <- (take_drop 2 (drop 4 l)), <- (take_drop 2 (drop 2 _)), <- (take_drop 8 (drop 2 (drop 2 _))).
    unfold st_bind. cbn [decode u32_codec u16_codec unsigned_codec].
    rewrite (read_le_app 4), (read_le_app 2), (read_le_app 2) by (rewrite length_take, ?length_drop; lia).
    rewrite split_to_app by (unfold zlen; rewrite length_take, !length_drop; lia). cbn. rewrite !length_app, !length_take, !length_drop. lia.
Qed.
Lemma NodeId_decode_app b rest : is_u8 b → NodeId_decode (encode u8_codec b ++ rest) = NodeId_decode_as b rest.
Proof.
  intros Hb. unfold NodeId_decode. rewrite (proj2 (Z.eqb_neq _ 0)) by (rewrite zlen_app; pose proof (zlen_nonneg rest); change (zlen (encode u8_codec b)) with 1; lia).
  by rewrite (bind_law u8_codec (unsigned_ok 1)).
Qed.
#[export] Instance node_id_lawful : Lawful node_id_codec node_id_ok.
Proof.
  split; cbn [node_id_codec encode decode encoded_size].
  - intros [ns [id|s|u|b]] rest [Hns Hid]; cbn [namespace identifier] in *; unfold NodeId_encode; cbn [namespace identifier].
    + case_if; [|case_if]; bool_to_prop; rewrite <- ?app_assoc; rewrite NodeId_decode_app by done.
      * subst ns. unfold is_u32 in Hid. rewrite as_u8_id by int_lia. unfold NodeId_decode_as. cbn [Z.eqb TWO_BYTE].
        by rewrite (bind_law u8_codec (unsigned_ok 1)) by num_ok.
      * unfold is_u32, is_u16 in *. rewrite as_u8_id, as_u16_id by int_lia. unfold NodeId_decode_as. cbn [Z.eqb Pos.eqb TWO_BYTE FOUR_BYTE].
        by rewrite (bind_law u8_codec (unsigned_ok 1)), (bind_law u16_codec (unsigned_ok 2)) by num_ok.
      * unfold NodeId_decode_as. cbn [Z.eqb Pos.eqb TWO_BYTE FOUR_BYTE NUMERIC].
        by rewrite (bind_law u16_codec (unsigned_ok 2)), (bind_law u32_codec (unsigned_ok 4)) by done.
    + rewrite <- !app_assoc, NodeId_decode_app by done. unfold NodeId_decode_as. cbn [Z.eqb Pos.eqb TWO_BYTE FOUR_BYTE NUMERIC STRING].
      by rewrite (bind_law u16_codec (unsigned_ok 2)), (bind_law string_codec str_ok) by done.
    + rewrite <- !app_assoc, NodeId_decode_app by done. unfold NodeId_decode_as. cbn [Z.eqb Pos.eqb TWO_BYTE FOUR_BYTE NUMERIC STRING GUID].
      by rewrite (bind_law u16_codec (unsigned_ok 2)), (bind_law guid_codec guid_ok) by done.
    + rewrite <- !app_assoc, NodeId_decode_app by done. unfold NodeId_decode_as. cbn [Z.eqb Pos.eqb TWO_BYTE FOUR_BYTE NUMERIC STRING GUID BYTE_STRING].
      by rewrite (bind_law u16_codec (unsigned_ok 2)), (bind_law byte_string_codec blob_ok) by done.
  - intros [ns [id|s|u|b]] [Hns Hid]; unfold NodeId_encode, NodeId_encoded_size; cbn [namespace identifier] in *; [by repeat case_if|..];
      rewrite !zlen_app; change (zlen (encode u8_codec _)) with 1; change (zlen (encode u16_codec _)) with 2;
      rewrite size_exact by done; cbn; lia.
  - intros [ns [id|s|u|b]] [Hns Hid]; unfold NodeId_encode; cbn [namespace identifier] in *; [repeat case_if|..];
      rewrite !bytes_ok_app; split_and!; (apply le_bytes_ok || by apply encode_bytes).
  - intros l. unfold NodeId_decode. destruct (zlen l =? 0); [done|]. revert l. apply consumes_first; [auto with consume|]. intros e.
    unfold NodeId_decode_as. repeat case_if; auto with consume; (apply consumes_first; [auto with consume|]; intros ?; auto with consume);
      (apply consumes_first; [auto with consume|]; intros ?; auto with consume).
Qed.

(** ** Variants *)

(** The values the wire can carry; a wrapped scalar is read back unwrapped and is treated in
    [scalar_reads_unwrapped]. *)
Definition variant_ok (v : Variant) : Prop :=
  match v with
  | VNull | VBoolean _ => True
  | VSByte x => signed_ok 1 x
  | VByte x => unsigned_ok 1 x
  | VInt16 x => signed_ok 2 x
  | VUInt16 x => unsigned_ok 2 x
  | VInt32 x => signed_ok 4 x
  | VUInt32 x | VFloat x | VStatusCode x => unsigned_ok 4 x
  | VInt64 x => signed_ok 8 x
  | VUInt64 x | VDouble x => unsigned_ok 8 x
  | VString s => str_ok s
  | VDateTime d => date_ok d
  | VGuid u => guid_ok u
  | VByteString b => blob_ok b
  | VNodeId n => node_id_ok n
  | VScalar _ => False
  | VArray a =>
      match a with
      | AvBoolean l => array_ok (fun _ => True) l
      | AvSByte l => array_ok (signed_ok 1) l
      | AvByte l => array_ok (unsigned_ok 1) l
      | AvInt16 l => array_ok (signed_ok 2) l
      | AvUInt16 l => array_ok (unsigned_ok 2) l
      | AvInt32 l => array_ok (signed_ok 4) l
      | AvUInt32 l | AvFloat l | AvStatusCode l => array_ok (unsigned_ok 4) l
      | AvInt64 l => array_ok (signed_ok 8) l
      | AvUInt64 l | AvDouble l => array_ok (unsigned_ok 8) l
      | AvString l => array_ok str_ok l
      | AvDateTime l => array_ok date_ok l
      | AvGuid l => array_ok guid_ok l
      | AvByteString l => array_ok blob_ok l
      | AvNodeId l => array_ok node_id_ok l
      end
  end.

Lemma read_u8_cons b rest : is_u8 b → decode u8_codec (b :: rest) = (Ok b, rest).
Proof.
  intros Hb. change (b :: rest) with ([b] ++ rest). cbn [u8_codec unsigned_codec decode].
  rewrite (read_le_app 1) by done. cbn [le_value]. do 2 f_equal. lia.
Qed.
Lemma decode_scalar_tag t rest : Variant_decode (put_type t ++ rest) = decode_scalar_variant (type_byte t) rest.
Proof. unfold Variant_decode, put_type, st_bind. cbn [app]. rewrite read_u8_cons by (by destruct t). by destruct t. Qed.
Lemma decode_array_tag t rest : Variant_decode (put_array_type t ++ rest) = decode_array_variant (type_byte t) rest.
Proof. unfold Variant_decode, put_array_type, st_bind. cbn [app]. rewrite read_u8_cons by (by destruct t). by destruct t. Qed.
Lemma array_map_law {A B} (c : BinaryCodec A) ok `{!Lawful c ok} (f : list A → B) l rest :
  array_ok ok l → st_map f (decode_array c) (encode_array c l ++ rest) = (Ok (f l), rest).
Proof. intros Hl. exact (map_law (array_codec c) (array_ok ok) f l rest Hl). Qed.
Lemma array_size {A} (c : BinaryCodec A) ok `{!Lawful c ok} l k :
  array_ok ok l → (∀ x, encoded_size c x = k) → zlen (encode_array c l) = 4 + zlen l * k.
Proof.
  intros Hl Hk. change (encode_array c l) with (encode (array_codec c) l). rewrite (size_exact (ok:=array_ok ok)) by done.
  cbn [array_codec encoded_size]. f_equal. clear Hl. unfold sum_size. induction l as [|x l IH]; [done|]. cbn. rewrite zlen_cons, IH, Hk. lia.
Qed.

#[export] Instance variant_lawful : Lawful variant_codec variant_ok.
Proof.
  split; cbn [variant_codec encode decode encoded_size].
  - intros v rest Hv. destruct v as [| | | | | | | | | | | | | | | | | |sv|av]; cbn [variant_ok Variant_encode] in *; [..|done|];
      [rewrite <- app_assoc, decode_scalar_tag; exact (map_law _ _ _ _ _ Hv)..|exact (decode_scalar_tag TNull rest)|].
    destruct av; cbn [encode_array_value] in *; rewrite <- app_assoc, decode_array_tag; exact (array_map_law _ _ _ _ _ Hv).
  - intros v Hv. unfold Variant_encoded_size. destruct v as [| | | | | | | | | | | | | | | | | |sv|av]; cbn [variant_ok Variant_encode] in *;
      [..|done|]; [rewrite zlen_app; f_equal; exact (size_exact _ Hv)..|done|].
    unfold array_value_size. destruct av; cbn [encode_array_value] in *; rewrite zlen_app; f_equal;
      first [exact (size_exact (c:=array_codec _) _ Hv)|exact (array_size _ _ _ _ Hv (fun _ => eq_refl))|etrans; [exact (array_size _ _ _ 1 Hv (fun _ => eq_refl))|lia]].
  - intros v Hv. destruct v as [| | | | | | | | | | | | | | | | | |sv|av]; cbn [variant_ok Variant_encode] in *; [..|done|];
      [apply bytes_ok_app; split; [by repeat constructor|exact (encode_bytes _ Hv)]..|by repeat constructor|].
    destruct av; cbn [encode_array_value] in *; (apply bytes_ok_app; split; [by repeat constructor|exact (encode_bytes (c:=array_codec _) _ Hv)]).
  - apply consumes_first; [auto with consume|]. intros e. cbv zeta. destruct (negb _).
    + unfold decode_array_variant. destruct (from_u8 _) as [[]|]; auto with consume;
        (apply consumes_map, (consumes_weaken 1); [apply consumes_map; eapply consumes_optional_array; apply _|lia]).
    + unfold decode_scalar_variant. destruct (from_u8 _) as [[]|]; repeat case_if; auto with consume.
Qed.

(** ** Optional fields *)

Definition opt_ok {A} (ok : A → Prop) (o : option A) : Prop := match o with Some a => ok a | None => True end.

Lemma when_flag_law {A B} (c : BinaryCodec A) ok `{!Lawful c ok} mask bit o (k : option A → Dec B) rest :
  has_flag mask bit = is_some o → opt_ok ok o →
  st_bind (when_flag mask bit (decode c)) k (put_opt (encode c) o ++ rest) = k o rest.
Proof.
  intros Hm Ho. unfold when_flag. rewrite Hm. destruct o as [a|]; [|done]. cbn [is_some put_opt]. unfold st_bind.
  by rewrite (map_law c ok).
Qed.
Lemma when_flag_default {A B} (c : BinaryCodec A) ok `{!Lawful c ok} mask bit a0 a (k : A → Dec B) rest :
  (has_flag mask bit = true → ok a) → (has_flag mask bit = false → a = a0) →
  st_bind (st_map (default a0) (when_flag mask bit (decode c))) k
    ((if has_flag mask bit then encode c a else []) ++ rest) = k a rest.
Proof.
  intros Hok H0. unfold when_flag. destruct (has_flag mask bit); [|by rewrite H0].
  unfold st_bind, st_map. by rewrite (roundtrip (ok:=ok)) by auto.
Qed.
Lemma consumes_when_flag {A} mask bit (d : Dec A) : consumes 0 d → consumes 0 (when_flag mask bit d).
Proof. intros Hd. unfold when_flag. case_if; auto with consume. Qed.
Hint Resolve consumes_when_flag : consume.
(** A decoder that is a sequence of decoders. *)
Ltac consume_all := repeat first [apply consumes_first; [solve [auto with consume]|]; intros ? | solve [auto with consume]].

Lemma put_opt_ok {A} (c : BinaryCodec A) ok `{!Lawful c ok} o : opt_ok ok o → bytes_ok (put_opt (encode c) o).
Proof. destruct o as [a|]; [exact (encode_bytes a)|constructor]. Qed.
Lemma put_opt_size {A} (c : BinaryCodec A) ok `{!Lawful c ok} o :
  opt_ok ok o → zlen (put_opt (encode c) o) = match o with Some a => encoded_size c a | None => 0 end.
Proof. destruct o as [a|]; [exact (size_exact a)|done]. Qed.

(** A value is accompanied by both its times: see [timestamps_invented] for those that are not. *)
Definition data_value_ok (d : DataValue) : Prop :=
  opt_ok variant_ok (dv_value d) ∧ is_u32 (dv_status d) ∧
  opt_ok date_ok (dv_source_timestamp d) ∧ is_u16 (dv_source_picoseconds d) ∧
  opt_ok date_ok (dv_server_timestamp d) ∧ is_u16 (dv_server_picoseconds d) ∧
  (is_some (dv_value d) = true → is_some (dv_source_timestamp d) = true ∧ is_some (dv_server_timestamp d) = true).

Lemma DataValue_flags d :
  is_u8 (DataValue_mask d) ∧
  has_flag (DataValue_mask d) HAS_VALUE = is_some (dv_value d) ∧
  has_flag (DataValue_mask d) HAS_STATUS = negb (dv_status d =? 0) ∧
  has_flag (DataValue_mask d) HAS_SOURCE_TIMESTAMP = is_some (dv_source_timestamp d) ∧
  has_flag (DataValue_mask d) HAS_SERVER_TIMESTAMP = is_some (dv_server_timestamp d) ∧
  has_flag (DataValue_mask d) HAS_SOURCE_PICOSECONDS = negb (dv_source_picoseconds d =? 0) ∧
  has_flag (DataValue_mask d) HAS_SERVER_PICOSECONDS = negb (dv_server_picoseconds d =? 0).
Proof.
  unfold DataValue_mask. generalize (is_some (dv_value d)), (negb (dv_status d =? 0)), (is_some (dv_source_timestamp d)),
    (is_some (dv_server_timestamp d)), (negb (dv_source_picoseconds d =? 0)), (negb (dv_server_picoseconds d =? 0)).
  intros [] [] [] [] [] []; split_and!; try reflexivity; vm_compute; intuition congruence.
Qed.

#[export] Instance data_value_lawful now : Lawful (data_value_codec now) data_value_ok.
Proof.
  split; cbn [data_value_codec encode decode encoded_size].
  - intros d rest (Hv & Hs & Hst & Hsp & Hrt & Hrp & Hts). destruct (DataValue_flags d) as (Hm & F1 & F2 & F3 & F4 & F5 & F6).
    unfold DataValue_encode, DataValue_decode. rewrite <- !app_assoc.
    rewrite (bind_law u8_codec (unsigned_ok 1)), (when_flag_law variant_codec variant_ok) by done.
    rewrite (when_flag_default u32_codec (unsigned_ok 4)) by (done || (rewrite F2; intros; by bool_to_prop)).
    rewrite (when_flag_law date_time_codec date_ok) by done.
    rewrite (when_flag_default u16_codec (unsigned_ok 2)) by (done || (rewrite F5; intros; by bool_to_prop)).
    rewrite (when_flag_law date_time_codec date_ok) by done.
    rewrite <- (app_nil_l rest), app_assoc, app_nil_r.
    rewrite (when_flag_default u16_codec (unsigned_ok 2)) by (done || (rewrite F6; intros; by bool_to_prop)).
    unfold st_ret. do 2 f_equal. destruct d as [v s st sp rt rp]. cbn in *.
    destruct v as [v|]; [destruct (Hts eq_refl); destruct st as [st|], rt as [rt|]; try done|destruct st, rt];
      cbn; repeat case_if; bool_to_prop; subst; reflexivity.
  - intros d (Hv & Hs & Hst & Hsp & Hrt & Hrp & Hts). destruct (DataValue_flags d) as (Hm & F1 & F2 & F3 & F4 & F5 & F6).
    unfold DataValue_encode, DataValue_encoded_size. rewrite F2, F5, F6, !zlen_app.
    rewrite (put_opt_size variant_codec variant_ok), !(put_opt_size date_time_codec date_ok) by done.
    destruct (dv_source_timestamp d), (dv_server_timestamp d); cbn [is_some date_time_codec encoded_size];
      repeat case_if; autorewrite with lens; lia.
  - intros d (Hv & Hs & Hst & Hsp & Hrt & Hrp & Hts). unfold DataValue_encode. rewrite !bytes_ok_app.
    split_and!; first [apply le_bytes_ok|exact (put_opt_ok _ _ _ Hv)|exact (put_opt_ok _ _ _ Hst)|exact (put_opt_ok _ _ _ Hrt)|
      case_if; [apply le_bytes_ok|constructor]].
  - unfold DataValue_decode. apply consumes_first; [auto with consume|]. intros m. consume_all.
Qed.

Definition qualified_name_ok (q : QualifiedName) : Prop := is_u16 (qn_namespace_index q) ∧ str_ok (qn_name q).
Definition localized_text_ok (t : LocalizedText) : Prop := str_ok (lt_locale t) ∧ str_ok (lt_text t).
Definition extension_object_ok (e : ExtensionObject) : Prop := node_id_ok (eo_type_id e) ∧ opt_ok blob_ok (eo_body e).

#[export] Instance qualified_name_lawful : Lawful qualified_name_codec qualified_name_ok.
Proof.
  split; cbn [qualified_name_codec encode decode encoded_size]; unfold qualified_name_decode.
  - intros [ns name] rest [Hn Hs]. cbn [qn_namespace_index qn_name] in *. rewrite <- app_assoc.
    by rewrite (bind_law u16_codec (unsigned_ok 2)), (bind_law string_codec str_ok).
  - intros q [Hn Hs]. rewrite zlen_app, (size_exact (ok:=str_ok)) by done. cbn [string_codec encoded_size]. autorewrite with lens. lia.
  - intros q [Hn Hs]. apply bytes_ok_app. split; [apply le_bytes_ok|exact (encode_bytes (c:=string_codec) _ Hs)].
  - consume_all.
Qed.
Lemma LocalizedText_flags t :
  is_u8 (LocalizedText_mask t) ∧ has_flag (LocalizedText_mask t) 0x01 = negb (zlen (lt_locale t) =? 0) ∧
  has_flag (LocalizedText_mask t) 0x02 = negb (zlen (lt_text t) =? 0).
Proof. unfold LocalizedText_mask. generalize (negb (zlen (lt_text t) =? 0)), (negb (zlen (lt_locale t) =? 0)). by intros [] []. Qed.
Lemma zlen_0 {A} (l : list A) : zlen l = 0 → l = [].
Proof. destruct l; [done|]. unfold zlen. cbn. lia. Qed.
#[export] Instance localized_text_lawful : Lawful localized_text_codec localized_text_ok.
Proof.
  split; cbn [localized_text_codec encode decode encoded_size]; unfold localized_text_decode.
  - intros t rest [Hl Ht]. destruct (LocalizedText_flags t) as (Hm & F1 & F2). rewrite <- !app_assoc.
    rewrite (bind_law u8_codec (unsigned_ok 1)) by done.
    rewrite (when_flag_default string_codec str_ok) by (done || (rewrite F1; intros; bool_to_prop; by apply zlen_0)).
    rewrite (when_flag_default string_codec str_ok) by (done || (rewrite F2; intros; bool_to_prop; by apply zlen_0)).
    by destruct t.
  - intros t [Hl Ht]. destruct (LocalizedText_flags t) as (Hm & F1 & F2). rewrite F1, F2, !zlen_app.
    repeat case_if; rewrite ?(size_exact (c:=string_codec) (ok:=str_ok)) by done; cbn [string_codec encoded_size]; autorewrite with lens; lia.
  - intros t [Hl Ht]. rewrite !bytes_ok_app. split_and!; [apply le_bytes_ok|case_if; [exact (encode_bytes (c:=string_codec) _ Hl)|constructor]|].
    case_if; [exact (encode_bytes (c:=string_codec) _ Ht)|constructor].
  - apply consumes_first; [auto with consume|]. intros m. consume_all.
Qed.
#[export] Instance extension_object_lawful : Lawful extension_object_codec extension_object_ok.
Proof.
  split; cbn [extension_object_codec encode decode encoded_size]; unfold extension_object_decode.
  - intros [t [b|]] rest [Ht Hb]; cbn [eo_type_id eo_body opt_ok] in *; rewrite <- !app_assoc;
      rewrite (bind_law node_id_codec node_id_ok), (bind_law u8_codec (unsigned_ok 1)) by done; [|done].
    cbn [Z.eqb Pos.eqb]. unfold st_bind at 1. rewrite app_assoc. change ((put_len (zlen b) ++ b) ++ rest) with (encode byte_string_codec b ++ rest).
    by rewrite (map_law byte_string_codec blob_ok Some b rest Hb).
  - intros [t [b|]] [Ht Hb]; cbn [eo_type_id eo_body opt_ok] in *; rewrite zlen_app, (size_exact (c:=node_id_codec) _ Ht);
      autorewrite with lens; lia.
  - intros [t [b|]] [Ht Hb]; cbn [eo_type_id eo_body opt_ok] in *; rewrite !bytes_ok_app;
      split_and!; first [exact (encode_bytes (c:=node_id_codec) _ Ht)|apply le_bytes_ok|apply put_len_ok|apply Hb].
  - apply consumes_first; [auto with consume|]. intros t. apply consumes_first; [auto with consume|]. intros e.
    apply consumes_first; [|auto with consume]. repeat case_if; auto with consume.
Qed.

(** ** Diagnostic information *)

Fixpoint diagnostic_info_ok (d : DiagnosticInfo) : Prop :=
  opt_ok (signed_ok 4) (di_symbolic_id d) ∧ opt_ok (signed_ok 4) (di_namespace_uri d) ∧
  opt_ok (signed_ok 4) (di_locale d) ∧ opt_ok (signed_ok 4) (di_localized_text d) ∧
  opt_ok str_ok (di_additional_info d) ∧ opt_ok (unsigned_ok 4) (di_inner_status_code d) ∧
  match di_inner_diagnostic_info d with Some i => diagnostic_info_ok i | None => True end.

Lemma DiagnosticInfo_ind (P : DiagnosticInfo → Prop) :
  (∀ a b c d e f i, match i with Some i => P i | None => True end → P (MkDiagnosticInfo a b c d e f i)) → ∀ d, P d.
Proof. intros H. fix IH 1. intros [a b c d e f [i|]]; apply H; [apply IH|done]. Qed.

Lemma DiagnosticInfo_flags d :
  is_u8 (DiagnosticInfo_mask d) ∧
  has_flag (DiagnosticInfo_mask d) 0x01 = is_some (di_symbolic_id d) ∧
  has_flag (DiagnosticInfo_mask d) 0x02 = is_some (di_namespace_uri d) ∧
  has_flag (DiagnosticInfo_mask d) 0x04 = is_some (di_localized_text d) ∧
  has_flag (DiagnosticInfo_mask d) 0x08 = is_some (di_locale d) ∧
  has_flag (DiagnosticInfo_mask d) 0x10 = is_some (di_additional_info d) ∧
  has_flag (DiagnosticInfo_mask d) 0x20 = is_some (di_inner_status_code d) ∧
  has_flag (DiagnosticInfo_mask d) 0x40 = is_some (di_inner_diagnostic_info d).
Proof.
  unfold DiagnosticInfo_mask. generalize (is_some (di_symbolic_id d)), (is_some (di_namespace_uri d)), (is_some (di_localized_text d)),
    (is_some (di_locale d)), (is_some (di_additional_info d)), (is_some (di_inner_status_code d)), (is_some (di_inner_diagnostic_info d)).
  intros [] [] [] [] [] [] []; split_and!; try reflexivity; vm_compute; intuition congruence.
Qed.

Lemma DiagnosticInfo_with_app d inner rest : diagnostic_info_ok d →
  (∀ i, di_inner_diagnostic_info d = Some i → inner (DiagnosticInfo_encode i ++ rest) = (Ok i, rest)) →
  DiagnosticInfo_decode_with inner (DiagnosticInfo_encode d ++ rest) = (Ok d, rest).
Proof.
  intros Hd Hi. pose proof (DiagnosticInfo_flags d) as (Hm & F1 & F2 & F3 & F4 & F5 & F6 & F7).
  assert (DiagnosticInfo_encode d = encode u8_codec (DiagnosticInfo_mask d) ++ put_opt (encode i32_codec) (di_symbolic_id d) ++
    put_opt (encode i32_codec) (di_namespace_uri d) ++ put_opt (encode i32_codec) (di_localized_text d) ++
    put_opt (encode i32_codec) (di_locale d) ++ put_opt (encode string_codec) (di_additional_info d) ++
    put_opt (encode status_codec) (di_inner_status_code d) ++ put_opt DiagnosticInfo_encode (di_inner_diagnostic_info d)) as -> by (by destruct d).
  generalize dependent (DiagnosticInfo_mask d). intros m Hm F1 F2 F3 F4 F5 F6 F7. destruct d as [a b c d e f i].
  cbn [di_symbolic_id di_namespace_uri di_localized_text di_locale di_additional_info di_inner_status_code di_inner_diagnostic_info] in *.
  destruct Hd as (H1 & H2 & H3 & H4 & H5 & H6 & _). cbn in H1, H2, H3, H4, H5, H6. rewrite <- !app_assoc. unfold DiagnosticInfo_decode_with.
  rewrite (bind_law u8_codec (unsigned_ok 1)), !(when_flag_law i32_codec (signed_ok 4)), (when_flag_law string_codec str_ok),
    (when_flag_law status_codec (unsigned_ok 4)) by done.
  unfold st_bind, when_flag. rewrite F7. destruct i as [i|]; [|done]. cbn [is_some put_opt]. unfold st_map. by rewrite Hi.
Qed.
Lemma DiagnosticInfo_loop_app d : ∀ fuel rest, diagnostic_info_ok d → (length (DiagnosticInfo_encode d) ≤ S fuel)%nat →
  DiagnosticInfo_decode_loop fuel (DiagnosticInfo_encode d ++ rest) = (Ok d, rest).
Proof.
  induction d as [a b c d e f i IH] using DiagnosticInfo_ind. intros fuel rest Hd Hf.
  destruct fuel; apply DiagnosticInfo_with_app; try done; cbn [di_inner_diagnostic_info]; intros j ->.
  - exfalso. cbn in Hf. rewrite !length_app in Hf. destruct j. cbn in Hf. lia.
  - apply IH; [by destruct Hd as (_ & _ & _ & _ & _ & _ & Hj)|]. cbn in Hf. rewrite !length_app in Hf. lia.
Qed.
(** [consumes] on inputs of at most [n] bytes. *)
Definition consumes_upto {E A} (n k : nat) (d : stM (list Z) E A) : Prop := ∀ l, (length l ≤ n)%nat →
  match d l with (Ok _, l') => (length l' + k ≤ length l)%nat | (Err _, _) => True | (Panic, _) => False end.
Lemma upto_bind {E A B} n k (d : stM (list Z) E A) (f : A → stM (list Z) E B) :
  consumes k d → (∀ a, consumes_upto (n - k) 0 (f a)) → consumes_upto n k (st_bind d f).
Proof.
  intros Hd Hf l Hl. unfold st_bind. specialize (Hd l). destruct (d l) as [[a|e|] l']; [|done..].
  specialize (Hf a l' ltac:(lia)). destruct (f a l') as [[b|e|] l'']; [lia|done..].
Qed.
Lemma consumes_diagnostic fuel : consumes_upto fuel 1 (DiagnosticInfo_decode_loop fuel).
Proof.
  induction fuel as [|fuel IH]; [by intros [|b l] Hl; [|cbn in Hl; lia]|].
  change (DiagnosticInfo_decode_loop (S fuel)) with (DiagnosticInfo_decode_with (DiagnosticInfo_decode_loop fuel)).
  apply upto_bind; [auto with consume|]. intros m. replace (S fuel - 1)%nat with fuel by lia.
  do 6 (apply upto_bind; [auto with consume|]; intros ?; rewrite Nat.sub_0_r).
  intros l Hl. unfold st_bind, when_flag, st_map. case_if; [|cbn; lia].
  specialize (IH l Hl). destruct (DiagnosticInfo_decode_loop fuel l) as [[i|e|] l']; [cbn; lia|done..].
Qed.
#[export] Instance diagnostic_info_lawful : Lawful diagnostic_info_codec diagnostic_info_ok.
Proof.
  split; cbn [diagnostic_info_codec encode decode encoded_size].
  - intros d rest Hd. unfold DiagnosticInfo_decode. apply DiagnosticInfo_loop_app; [done|]. rewrite length_app. lia.
  - intros d. induction d as [a b c d e f i IH] using DiagnosticInfo_ind. intros (H1 & H2 & H3 & H4 & H5 & H6 & H7).
    cbn [DiagnosticInfo_encode DiagnosticInfo_encoded_size di_symbolic_id di_namespace_uri di_localized_text di_locale di_additional_info
      di_inner_status_code di_inner_diagnostic_info] in *. rewrite !zlen_app.
    rewrite !(put_opt_size i32_codec (signed_ok 4)), (put_opt_size string_codec str_ok), (put_opt_size status_codec (unsigned_ok 4)) by done.
    rewrite zlen_u8. destruct a, b, c, d, e, f; cbn [is_some]; (destruct i as [i|]; [rewrite IH by done|change (zlen (@nil Z)) with 0]); cbn; lia.
  - intros d. induction d as [a b c d e f i IH] using DiagnosticInfo_ind. intros (H1 & H2 & H3 & H4 & H5 & H6 & H7).
    cbn [DiagnosticInfo_encode di_symbolic_id di_namespace_uri di_localized_text di_locale di_additional_info
      di_inner_status_code di_inner_diagnostic_info] in *. rewrite !bytes_ok_app.
    split_and!; try apply le_bytes_ok; first [exact (put_opt_ok i32_codec _ _ H1)|exact (put_opt_ok i32_codec _ _ H2)|exact (put_opt_ok i32_codec _ _ H3)|
      exact (put_opt_ok i32_codec _ _ H4)|exact (put_opt_ok string_codec _ _ H5)|exact (put_opt_ok status_codec _ _ H6)|
      destruct i; [by apply IH|constructor]].
  - intros l. by apply consumes_diagnostic.
Qed.
End Laws.

(* ------------------------------------------------------------------ *)
(** * Properties *)

Section Properties.
Context `{X : Externals} `{XL : !ExternalLaws X}.


(** Decoding untrusted bytes never panics. On any input whatever, the decoders of
    node identifiers, variants, data values, names, texts, extension objects and (nested)
    diagnostic information end with a value or an error, having taken at least one byte when
    they return a value. *)
Theorem opcua_decoders_total now :
  consumes 1 (decode node_id_codec) ∧ consumes 1 (decode variant_codec) ∧ consumes 1 (decode (data_value_codec now)) ∧
  consumes 1 (decode qualified_name_codec) ∧ consumes 1 (decode localized_text_codec) ∧
  consumes 1 (decode extension_object_codec) ∧ consumes 1 (decode diagnostic_info_codec).
Proof. split_and!; eapply consumes_decode; apply _. Qed.

(** The unwrapped form of a wrapped scalar; XML elements have none. *)
Definition unwrap_scalar (sv : VariantScalarValue) : option Variant :=
  match sv with
  | SvNull => Some VNull | SvBoolean v => Some (VBoolean v) | SvSByte v => Some (VSByte v) | SvByte v => Some (VByte v)
  | SvInt16 v => Some (VInt16 v) | SvUInt16 v => Some (VUInt16 v) | SvInt32 v => Some (VInt32 v) | SvUInt32 v => Some (VUInt32 v)
  | SvInt64 v => Some (VInt64 v) | SvUInt64 v => Some (VUInt64 v) | SvFloat v => Some (VFloat v) | SvDouble v => Some (VDouble v)
  | SvString v => Some (VString v) | SvDateTime v => Some (VDateTime v) | SvGuid v => Some (VGuid v)
  | SvByteString v => Some (VByteString v) | SvNodeId v => Some (VNodeId v) | SvStatusCode v => Some (VStatusCode v)
  | SvXmlElement _ => None
  end.

(** A wrapped scalar is read back unwrapped, and an XML element is not read back at all. The
    encoding of a wrapped scalar is that of its unwrapped form; an XML element is written with
    type 16, which the decoder refuses. *)
Theorem scalar_reads_unwrapped sv rest :
  match unwrap_scalar sv with
  | Some v => variant_ok v → decode variant_codec (encode variant_codec (VScalar sv) ++ rest) = (Ok v, rest)
  | None => (decode variant_codec (encode variant_codec (VScalar sv) ++ rest)).1 = Err ECodec
  end.
Proof.
  destruct sv; cbn [unwrap_scalar]; try (intros Hv; exact (roundtrip (c:=variant_codec) _ rest Hv)).
  cbn [variant_codec encode decode Variant_encode encode_scalar_value]. by rewrite <- app_assoc, decode_scalar_tag.
Qed.

(** A value sent without times is received with invented ones. A data value that carries a
    value but no source and no server time is decoded with both times set to the moment of
    decoding. *)
Theorem timestamps_invented now v s rest :
  variant_ok v → is_u32 s →
  let d := {| dv_value := Some v; dv_status := s; dv_source_timestamp := None; dv_source_picoseconds := 0;
              dv_server_timestamp := None; dv_server_picoseconds := 0 |} in
  decode (data_value_codec now) (encode (data_value_codec now) d ++ rest) = (Ok (DataValue_with_status now v s), rest).
Proof.
  intros Hv Hs d. destruct (DataValue_flags d) as (Hm & F1 & F2 & F3 & F4 & F5 & F6).
  cbn [data_value_codec encode decode]. unfold DataValue_encode, DataValue_decode. rewrite <- !app_assoc.
  rewrite (bind_law u8_codec (unsigned_ok 1)), (when_flag_law variant_codec variant_ok) by done.
  rewrite (when_flag_default u32_codec (unsigned_ok 4)) by (done || (rewrite F2; intros; by bool_to_prop)).
  rewrite (when_flag_law date_time_codec date_ok), (when_flag_default u16_codec (unsigned_ok 2)) by (done || by rewrite F5).
  rewrite (when_flag_law date_time_codec date_ok) by done. rewrite <- (app_nil_l rest), app_assoc, app_nil_r.
  by rewrite (when_flag_default u16_codec (unsigned_ok 2)) by (done || by rewrite F6).
Qed.

(** A time before 1970 with a fraction of a second is written but cannot be read. The
    remainder of the negative tick count is negative, and cast to an unsigned number it is no
    valid count of nanoseconds. *)
Theorem pre_epoch_fraction_refused s n d rest :
  timestamp_opt s n = Some d → 0 < n < 1000000000 → n mod 100 = 0 → s < 0 → -9223372036 <= s →
  (decode date_time_codec (encode date_time_codec d ++ rest)).1 = Err ECodec.
Proof.
  intros Hd Hn Hm Hs Hmin. destruct (timestamp_exact s n ltac:(lia) ltac:(lia)) as (d' & Hd' & Hns). rewrite Hd in Hd'. injection Hd' as <-.
  cbn [date_time_codec encode decode]; unfold date_time_decode. rewrite Hns. cbn [from_option id].
  assert (Z.quot (s * 1000000000 + n) 100 = s * 10000000 + n / 100) as ->.
  { replace (s * 1000000000 + n) with ((s * 10000000 + n / 100) * 100) by int_lia. by rewrite Z.quot_mul. }
  rewrite (bind_law i64_codec (signed_ok 8)) by (unfold FILETIME_UNIX_DIFF; num_ok).
  case_if; bool_to_prop; [exfalso; unfold FILETIME_UNIX_DIFF in *; int_lia|].
  replace (s * 10000000 + n / 100 + FILETIME_UNIX_DIFF - FILETIME_UNIX_DIFF) with (s * 10000000 + n / 100) by lia. cbv zeta.
  assert (∃ r, Z.rem (s * 10000000 + n / 100) 10000000 = - r ∧ 0 < r < 10000000) as (r & -> & Hr).
  { exists (10000000 - n / 100). split; [|int_lia].
    replace (s * 10000000 + n / 100) with (- ((- s - 1) * 10000000 + (10000000 - n / 100))) by lia.
    rewrite Z.rem_opp_l', Z.rem_mod_nonneg by int_lia. f_equal. rewrite Z.add_comm, Z.mod_add, Z.mod_small by int_lia. done. }
  replace ((- r * 100) mod 2 ^ 32) with (2 ^ 32 - r * 100) by (apply (Z.mod_unique _ _ (-1)); [left|]; cbn; lia).
  unfold st_lift. by rewrite timestamp_invalid by (cbn; lia).
Qed.
End Properties.

(** A concrete model of the crates: a time is its seconds and nanoseconds, an identifier its
    fields. *)
#[local] Instance demo_externals : Externals := {|
  DateTime := Z * Z;
  DateTime_eq := _;
  UNIX_EPOCH := (0, 0);
  timestamp_nanos_opt := fun d => let t := d.1 * 1000000000 + d.2 in if (- 2 ^ 63 <=? t) && (t <? 2 ^ 63) then Some t else None;
  timestamp_opt := fun s n => if (0 <=? n) && (n <? 2000000000) then Some (s, n) else None;
  elapsed_nanos := fun a b => (a.1 - b.1) * 1000000000 + (a.2 - b.2);
  Uuid := Z * Z * Z * list Z;
  Uuid_eq := _;
  Uuid_countable := _;
  is_nil := fun u => bool_decide (u = (0, 0, 0, replicate 8 0));
  as_fields := fun u => u;
  from_fields := fun u => u
|}.
#[local] Instance demo_laws : ExternalLaws demo_externals.
Proof.
  split; cbn.
  - intros s n Hn Ht. exists (s, n). cbn. by rewrite !(proj2 (Z.leb_le _ _)), !(proj2 (Z.ltb_lt _ _)) by lia.
  - intros s n Hn. rewrite (proj2 (Z.ltb_ge n _)) by lia. by rewrite andb_false_r.
  - done.
Qed.

Definition at_time (s n : Z) : @DateTime demo_externals := (s, n).
Definition demo_value : DataValue :=
  {| dv_value := Some (VArray (AvString [[0x68; 0xC3; 0xA9]; []])); dv_status := 0x40920000;
     dv_source_timestamp := Some (1700000000, 123456700); dv_source_picoseconds := 7;
     dv_server_timestamp := Some (1700000001, 0); dv_server_picoseconds := 0 |}.
Lemma demo_value_ok : data_value_ok demo_value.
Proof.
  unfold data_value_ok. cbn [demo_value dv_value dv_status dv_source_timestamp dv_source_picoseconds dv_server_timestamp
    dv_server_picoseconds opt_ok variant_ok is_some].
  split_and!; [|by vm_compute|exists 1700000000, 123456700; by vm_compute|by vm_compute|exists 1700000001, 0; by vm_compute|by vm_compute|done].
  split; [|by vm_compute]. repeat constructor; by vm_compute.
Qed.


Lemma pre_epoch_fraction_refused_witness :
  (decode date_time_codec (encode date_time_codec (-1, 500000000) ++ [])).1 = Err ECodec.
Proof. apply (pre_epoch_fraction_refused (XL:=demo_laws) (-1) 500000000); [reflexivity|lia|reflexivity|lia|lia]. Defined.
Lemma timestamps_invented_witness :
  (decode (data_value_codec (5, 0)) (encode (data_value_codec (5, 0))
    {| dv_value := Some (VInt32 42); dv_status := 0; dv_source_timestamp := None; dv_source_picoseconds := 0;
       dv_server_timestamp := None; dv_server_picoseconds := 0 |} ++ [])).1 = Ok (DataValue_with_status (5, 0) (VInt32 42) 0).
Proof. rewrite (timestamps_invented (XL:=demo_laws) (5, 0) (VInt32 42) 0 []); [reflexivity|by vm_compute|by vm_compute]. Defined.
