(* ===== verification/OpcuaSession.v ===== *)
(** OPC UA sessions ([mabi-opcua/src/sdk/session.rs]): the session manager and the life cycle of
    a session.

    The concurrent map of sessions is a finite map, its lock held for each operation.  Events
    sent to the broadcast channel are collected in order.  The clock is an argument; the global
    counter of numeric node identifiers ([NodeId::next_numeric]) is threaded. *)

From S2P Require Import Prelude Text OpcuaCodec.

Section Session.
Context `{X : Externals}.

Record SessionManagerConfig : Set := {
  max_sessions : Z;
  session_timeout_ms : Z;
  max_subscriptions_per_session : Z
}.
Definition SessionManagerConfig_default : SessionManagerConfig :=
  {| max_sessions := 1000; session_timeout_ms := 60000; max_subscriptions_per_session := 100 |}.

Inductive UserIdentity : Set :=
| Anonymous | UserName (username : list Z) | Certificate (thumbprint subject : list Z) | IssuedToken (token_type : list Z).
Inductive SessionState : Set := Created | Active | Closed | TimedOut.
#[global] Instance SessionState_eq : EqDecision SessionState.
Proof. solve_decision. Defined.

Record SessionInfo : Set := {
  si_session_id : NodeId;
  si_authentication_token : NodeId;
  si_session_name : list Z;
  si_client_description : list Z;
  si_server_uri : list Z;
  si_endpoint_url : list Z;
  si_security_policy_uri : list Z;
  si_security_mode : list Z;
  si_user_identity : UserIdentity;
  si_state : SessionState;
  si_created_at : DateTime;
  si_last_activity : DateTime;
  si_timeout_ms : Z;
  si_subscriptions : list Z;
  si_max_response_message_size : Z
}.

(** [NodeId::next_numeric]: the atomic counter wraps around. *)
Definition next_numeric (ns counter : Z) : NodeId * Z := (NodeId_numeric ns counter, (counter + 1) mod 2 ^ 32).

Definition SessionInfo_new (now : DateTime) (token : NodeId) (session_id : NodeId) (name : list Z) (timeout_ms : Z) : SessionInfo :=
  {| si_session_id := session_id; si_authentication_token := token; si_session_name := name; si_client_description := [];
     si_server_uri := []; si_endpoint_url := []; si_security_policy_uri := []; si_security_mode := [];
     si_user_identity := Anonymous; si_state := Created; si_created_at := now; si_last_activity := now;
     si_timeout_ms := timeout_ms; si_subscriptions := []; si_max_response_message_size := 0 |}.

(** Record update for the fields the methods assign. *)
Definition set_session (st : SessionState) (u : UserIdentity) (t : DateTime) (subs : list Z) (s : SessionInfo) : SessionInfo :=
  {| si_session_id := si_session_id s; si_authentication_token := si_authentication_token s; si_session_name := si_session_name s;
     si_client_description := si_client_description s; si_server_uri := si_server_uri s; si_endpoint_url := si_endpoint_url s;
     si_security_policy_uri := si_security_policy_uri s; si_security_mode := si_security_mode s; si_user_identity := u;
     si_state := st; si_created_at := si_created_at s; si_last_activity := t; si_timeout_ms := si_timeout_ms s;
     si_subscriptions := subs; si_max_response_message_size := si_max_response_message_size s |}.

(** [timeout_ms as i64] milliseconds against the time since the last activity. *)
Definition is_timed_out (now : DateTime) (s : SessionInfo) : bool :=
  to_signed 64 (to_unsigned 64 (si_timeout_ms s)) * 1000000 <? elapsed_nanos now (si_last_activity s).
Definition SessionInfo_is_active (now : DateTime) (s : SessionInfo) : bool :=
  bool_decide (si_state s = Active) && negb (is_timed_out now s).
Definition SessionInfo_touch (now : DateTime) (s : SessionInfo) : SessionInfo :=
  set_session (si_state s) (si_user_identity s) now (si_subscriptions s) s.
Definition SessionInfo_activate (now : DateTime) (u : UserIdentity) (s : SessionInfo) : SessionInfo :=
  SessionInfo_touch now (set_session Active u (si_last_activity s) (si_subscriptions s) s).
Definition SessionInfo_close (s : SessionInfo) : SessionInfo :=
  set_session Closed (si_user_identity s) (si_last_activity s) (si_subscriptions s) s.
Definition SessionInfo_add_subscription (id : Z) (s : SessionInfo) : SessionInfo :=
  if bool_decide (id ∈ si_subscriptions s) then s
  else set_session (si_state s) (si_user_identity s) (si_last_activity s) (si_subscriptions s ++ [id]) s.
Definition SessionInfo_remove_subscription (id : Z) (s : SessionInfo) : SessionInfo :=
  set_session (si_state s) (si_user_identity s) (si_last_activity s) (filter (fun i => i ≠ id) (si_subscriptions s)) s.

Inductive SessionEvent : Set :=
| EvCreated (id : NodeId) | EvActivated (id : NodeId) (user : UserIdentity) | EvClosed (id : NodeId) | EvTimedOut (id : NodeId).
Inductive SessionError : Set :=
| MaxSessionsReached | SessionNotFound | InvalidState | TooManySubscriptions | SeTimedOut | NotAuthorized.

Record SessionManager : Set := {
  sm_config : SessionManagerConfig;
  sm_sessions : gmap NodeId SessionInfo;
  sm_session_counter : Z;
  sm_events : list SessionEvent
}.
Definition SessionManager_with_config (c : SessionManagerConfig) : SessionManager :=
  {| sm_config := c; sm_sessions := ∅; sm_session_counter := 1; sm_events := [] |}.
Definition set_sessions (m : gmap NodeId SessionInfo) (ev : list SessionEvent) (sm : SessionManager) : SessionManager :=
  {| sm_config := sm_config sm; sm_sessions := m; sm_session_counter := sm_session_counter sm; sm_events := sm_events sm ++ ev |}.

Definition next_session_id (sm : SessionManager) : NodeId * SessionManager :=
  (NodeId_numeric 1 (sm_session_counter sm),
   {| sm_config := sm_config sm; sm_sessions := sm_sessions sm; sm_session_counter := (sm_session_counter sm + 1) mod 2 ^ 32;
      sm_events := sm_events sm |}).

(** The state is the node identifier counter and the manager. *)
Definition create_session (now : DateTime) (name : list Z) : stM (Z * SessionManager) SessionError SessionInfo := fun '(counter, sm) =>
  if max_sessions (sm_config sm) <=? Z.of_nat (size (sm_sessions sm)) then (Err MaxSessionsReached, (counter, sm))
  else
    let '(session_id, sm) := next_session_id sm in
    let '(token, counter) := next_numeric 0 counter in
    let session := SessionInfo_new now token session_id name (session_timeout_ms (sm_config sm)) in
    (Ok session, (counter, set_sessions (<[session_id := session]> (sm_sessions sm)) [EvCreated session_id] sm)).
Definition activate_session (now : DateTime) (id : NodeId) (u : UserIdentity) : stM SessionManager SessionError unit := fun sm =>
  match sm_sessions sm !! id with
  | None => (Err SessionNotFound, sm)
  | Some s =>
      if bool_decide (si_state s ≠ Created) then (Err InvalidState, sm)
      else (Ok tt, set_sessions (<[id := SessionInfo_activate now u s]> (sm_sessions sm)) [EvActivated id u] sm)
  end.
(** The state of the entry is set to closed before the entry is removed. *)
Definition close_session (id : NodeId) : stM SessionManager SessionError unit := fun sm =>
  match sm_sessions sm !! id with
  | Some s => (Ok tt, set_sessions (delete id (<[id := SessionInfo_close s]> (sm_sessions sm))) [EvClosed id] sm)
  | None => (Err SessionNotFound, sm)
  end.
Definition get_session (sm : SessionManager) (id : NodeId) : option SessionInfo := sm_sessions sm !! id.
(** The first match in the order of iteration. *)
Definition get_session_by_token (sm : SessionManager) (token : NodeId) : option SessionInfo :=
  snd <$> head (filter (fun e => si_authentication_token e.2 = token) (map_to_list (sm_sessions sm))).
Definition touch_session (now : DateTime) (id : NodeId) (sm : SessionManager) : SessionManager :=
  match sm_sessions sm !! id with
  | Some s => set_sessions (<[id := SessionInfo_touch now s]> (sm_sessions sm)) [] sm
  | None => sm
  end.
Definition add_subscription (id : NodeId) (sub : Z) : stM SessionManager SessionError unit := fun sm =>
  match sm_sessions sm !! id with
  | None => (Err SessionNotFound, sm)
  | Some s =>
      if max_subscriptions_per_session (sm_config sm) <=? zlen (si_subscriptions s) then (Err TooManySubscriptions, sm)
      else (Ok tt, set_sessions (<[id := SessionInfo_add_subscription sub s]> (sm_sessions sm)) [] sm)
  end.
Definition remove_subscription (id : NodeId) (sub : Z) (sm : SessionManager) : SessionManager :=
  match sm_sessions sm !! id with
  | Some s => set_sessions (<[id := SessionInfo_remove_subscription sub s]> (sm_sessions sm)) [] sm
  | None => sm
  end.
Definition expire (id : NodeId) (sm : SessionManager) : SessionManager :=
  match sm_sessions sm !! id with
  | Some s => set_sessions (delete id (sm_sessions sm)) [EvTimedOut (si_session_id s)] sm
  | None => sm
  end.
Definition cleanup_expired (now : DateTime) (sm : SessionManager) : SessionManager :=
  let expired := (fun e => si_session_id e.2) <$> filter (fun e => is_timed_out now e.2 = true) (map_to_list (sm_sessions sm)) in
  foldl (fun sm id => expire id sm) sm expired.
Definition session_count (sm : SessionManager) : Z := Z.of_nat (size (sm_sessions sm)).

(* ------------------------------------------------------------------ *)
(** * Runs of the manager *)

Inductive SessionOp : Set :=
| OpCreate (now : DateTime) (name : list Z)
| OpActivate (now : DateTime) (id : NodeId) (u : UserIdentity)
| OpClose (id : NodeId)
| OpTouch (now : DateTime) (id : NodeId)
| OpAddSubscription (id : NodeId) (sub : Z)
| OpRemoveSubscription (id : NodeId) (sub : Z)
| OpCleanup (now : DateTime).

Definition run_op (st : Z * SessionManager) (op : SessionOp) : Z * SessionManager :=
  match op with
  | OpCreate now name => (create_session now name st).2
  | OpActivate now id u => (st.1, (activate_session now id u st.2).2)
  | OpClose id => (st.1, (close_session id st.2).2)
  | OpTouch now id => (st.1, touch_session now id st.2)
  | OpAddSubscription id sub => (st.1, (add_subscription id sub st.2).2)
  | OpRemoveSubscription id sub => (st.1, remove_subscription id sub st.2)
  | OpCleanup now => (st.1, cleanup_expired now st.2)
  end.
Definition run_ops (st : Z * SessionManager) (ops : list SessionOp) : Z * SessionManager := foldl run_op st ops.

Definition event_id (e : SessionEvent) : NodeId :=
  match e with EvCreated id | EvActivated id _ | EvClosed id | EvTimedOut id => id end.
Definition events_of (id : NodeId) (evs : list SessionEvent) : list SessionEvent := filter (fun e => event_id e = id) evs.

(** The events of one session, by what the manager holds for it: created, then perhaps
    activated, then perhaps ended, and nothing more. *)
Definition open_events (id : NodeId) (st : SessionState) (evs : list SessionEvent) : Prop :=
  match st with
  | Created => evs = [EvCreated id]
  | Active => ∃ u, evs = [EvCreated id; EvActivated id u]
  | _ => False
  end.
Definition lifecycle (id : NodeId) (o : option SessionInfo) (evs : list SessionEvent) : Prop :=
  match o with
  | Some s => open_events id (si_state s) evs
  | None => evs = [] ∨ ∃ st before, open_events id st before ∧ (evs = before ++ [EvClosed id] ∨ evs = before ++ [EvTimedOut id])
  end.

(* ------------------------------------------------------------------ *)
(** * The invariant *)

(** [base] is the first authentication token; [k] counts the sessions created. *)
Definition session_ok (base : Z) (sm : SessionManager) (id : NodeId) (s : SessionInfo) : Prop :=
  si_session_id s = id ∧ NoDup (si_subscriptions s) ∧ zlen (si_subscriptions s) <= Z.max 0 (max_subscriptions_per_session (sm_config sm)) ∧
  ∃ k, id = NodeId_numeric 1 k ∧ si_authentication_token s = NodeId_numeric 0 (base + k) ∧ 1 <= k < sm_session_counter sm.
Record inv (base : Z) (st : Z * SessionManager) : Prop := {
  inv_counters : st.1 = base + sm_session_counter st.2 ∧ 1 <= sm_session_counter st.2;
  inv_sessions : ∀ id s, sm_sessions st.2 !! id = Some s → session_ok base st.2 id s;
  inv_size : Z.of_nat (size (sm_sessions st.2)) <= Z.max 0 (max_sessions (sm_config st.2));
  inv_events : ∀ id, lifecycle id (sm_sessions st.2 !! id) (events_of id (sm_events st.2));
  inv_fresh : ∀ k, sm_session_counter st.2 <= k → events_of (NodeId_numeric 1 k) (sm_events st.2) = []
}.

Lemma events_of_app id l k : events_of id (l ++ k) = events_of id l ++ events_of id k.
Proof. apply filter_app. Qed.
Lemma events_of_self id e : event_id e = id → events_of id [e] = [e].
Proof. intros He. unfold events_of. rewrite filter_cons. by rewrite decide_True. Qed.
Lemma events_of_other id e : event_id e ≠ id → events_of id [e] = [].
Proof. intros He. unfold events_of. rewrite filter_cons. by rewrite decide_False. Qed.

(** An operation that replaces one entry, keeping its identity and its state. *)
Lemma inv_update base counter sm id s s' ev :
  inv base (counter, sm) → sm_sessions sm !! id = Some s → session_ok base sm id s' →
  (∀ evs, open_events id (si_state s) evs → open_events id (si_state s') (evs ++ ev)) →
  (∀ e, e ∈ ev → event_id e = id) →
  inv base (counter, set_sessions (<[id := s']> (sm_sessions sm)) ev sm).
Proof.
  intros [H1 H2 H3 H4 H5] Hs Hs' Hev Hid. cbn [fst snd] in *.
  assert (∀ i, i ≠ id → events_of i ev = []) as Hother.
  { intros i Hi. unfold events_of. clear - Hid Hi. induction ev as [|e ev IH]; [done|].
    rewrite filter_cons, decide_False by (rewrite (Hid e) by left; congruence). apply IH. intros x Hx. apply Hid. by right. }
  assert (events_of id ev = ev) as Hself.
  { unfold events_of. clear - Hid. induction ev as [|e ev IH]; [done|]. rewrite filter_cons, decide_True by (apply Hid; left).
    f_equal. apply IH. intros x Hx. apply Hid. by right. }
  split; cbn [fst snd set_sessions sm_sessions sm_session_counter sm_config sm_events].
  - done.
  - intros i t. rewrite lookup_insert. case_decide; [intros [= <-]; by subst|]. intros Ht. by apply H2.
  - by rewrite map_size_insert_Some.
  - intros i. rewrite lookup_insert, events_of_app. case_decide as Hi; [subst i|rewrite Hother by done; by rewrite app_nil_r].
    rewrite Hself. apply Hev. specialize (H4 id). by rewrite Hs in H4.
  - intros k Hk. rewrite events_of_app, H5 by done. cbn. destruct (decide (NodeId_numeric 1 k = id)) as [<-|Hn]; [|by apply Hother].
    destruct (H2 _ _ Hs) as (_ & _ & _ & j & [= ->] & _ & Hj). lia.
Qed.
(** An operation that removes one entry. *)
Lemma inv_remove base counter sm id s e :
  inv base (counter, sm) → sm_sessions sm !! id = Some s → e = EvClosed id ∨ e = EvTimedOut id →
  inv base (counter, set_sessions (delete id (sm_sessions sm)) [e] sm).
Proof.
  intros [H1 H2 H3 H4 H5] Hs He. cbn [fst snd] in *. assert (event_id e = id) as Hid by (by destruct He as [-> | ->]).
  split; cbn [fst snd set_sessions sm_sessions sm_session_counter sm_config sm_events].
  - done.
  - intros i t. rewrite lookup_delete. case_decide; [done|]. intros Ht. by apply H2.
  - rewrite map_size_delete_Some by done. lia.
  - intros i. rewrite lookup_delete, events_of_app. case_decide as Hi; [subst i|rewrite events_of_other by congruence; by rewrite app_nil_r].
    rewrite events_of_self by done. right. exists (si_state s), (events_of id (sm_events sm)).
    specialize (H4 id). rewrite Hs in H4. split; [done|]. destruct He as [-> | ->]; auto.
  - intros k Hk. rewrite events_of_app, H5 by done. cbn [app].
    destruct (decide (NodeId_numeric 1 k = id)) as [Hn|Hn]; [|by apply events_of_other; congruence].
    destruct (H2 _ _ Hs) as (_ & _ & _ & j & Hj & _ & Hk'). rewrite <- Hn in Hj. injection Hj as ->. lia.
Qed.

Lemma inv_run base st op :
  inv base st → st.1 < 2 ^ 32 - 1 → sm_session_counter st.2 < 2 ^ 32 - 1 → 0 <= base → inv base (run_op st op).
Proof.
  destruct st as [counter sm]. intros Hi Hc Hs Hb. cbn [fst snd] in *. pose proof Hi as [[H0 H1] H2 H3 H4 H5]. cbn [fst snd] in *.
  destruct op as [now name|now id u|id|now id|id sub|id sub|now]; cbn [run_op fst snd].
  - unfold create_session. case_if; [done|]. bool_to_prop. cbn [next_session_id next_numeric sm_config sm_sessions sm_session_counter fst snd].
    set (id := NodeId_numeric 1 (sm_session_counter sm)).
    assert (sm_sessions sm !! id = None) as Hn.
    { destruct (sm_sessions sm !! id) as [s|] eqn:E; [|done]. destruct (H2 _ _ E) as (_ & _ & _ & k & [= Hk] & _ & Hlt). lia. }
    rewrite !Z.mod_small by lia.
    split; cbn [fst snd set_sessions sm_sessions sm_session_counter sm_config sm_events].
    + lia.
    + intros i t. rewrite lookup_insert. case_decide as Hd.
      * intros [= <-]. subst i. split_and!; [done|constructor|unfold zlen; cbn; lia|]. exists (sm_session_counter sm).
        split_and!; [done|cbn; by rewrite H0|lia|cbn; lia].
      * intros Ht. destruct (H2 _ _ Ht) as (A & B & C & k & D & E & F). split_and!; [done..|]. exists k. split_and!; [done..|lia|cbn; lia].
    + rewrite map_size_insert_None by done. lia.
    + intros i. rewrite lookup_insert, events_of_app. case_decide as Hd.
      * subst i. rewrite events_of_self by done. cbn. unfold id at 1. by rewrite H5 by lia.
      * rewrite events_of_other by (cbn; congruence). by rewrite app_nil_r.
    + intros k Hk. rewrite events_of_app, H5 by lia. apply events_of_other. cbn. intros [= ?]. lia.
  - unfold activate_session. destruct (sm_sessions sm !! id) as [s|] eqn:E; [|done]. case_bool_decide as Hst; [done|].
    destruct (decide (si_state s = Created)) as [Hcr|]; [|done]. cbn [fst snd].
    apply (inv_update _ _ _ _ s); [done..|exact (H2 _ _ E)| |].
    + intros evs. rewrite Hcr. cbn. intros ->. by exists u.
    + intros e He. apply list_elem_of_singleton in He. by subst.
  - unfold close_session. destruct (sm_sessions sm !! id) as [s|] eqn:E; [|done]. cbn [fst snd]. rewrite delete_insert_eq.
    eapply inv_remove; [done..|by left].
  - unfold touch_session. destruct (sm_sessions sm !! id) as [s|] eqn:E; [|done].
    apply (inv_update _ _ _ _ s); [done..|exact (H2 _ _ E)|by intros; rewrite app_nil_r|]. intros e He. by apply not_elem_of_nil in He.
  - unfold add_subscription. destruct (sm_sessions sm !! id) as [s|] eqn:E; [|done]. case_if; [done|]. bool_to_prop. cbn [fst snd].
    destruct (H2 _ _ E) as (A & B & C & D). apply (inv_update _ _ _ _ s); [done..| | |].
    + unfold SessionInfo_add_subscription. case_bool_decide as Hin; [done|]. split_and!; [done| | |done]; cbn [set_session si_subscriptions].
      * apply NoDup_app. split_and!; [done| |apply NoDup_singleton]. intros x Hx Hx'. apply list_elem_of_singleton in Hx'. by subst.
      * rewrite zlen_app. change (zlen [sub]) with 1. lia.
    + intros evs Hev. rewrite app_nil_r. unfold SessionInfo_add_subscription. by case_bool_decide.
    + intros e He. by apply not_elem_of_nil in He.
  - unfold remove_subscription. destruct (sm_sessions sm !! id) as [s|] eqn:E; [|done].
    destruct (H2 _ _ E) as (A & B & C & D). apply (inv_update _ _ _ _ s); [done..| |by intros; rewrite app_nil_r|].
    + split_and!; [done| | |done]; cbn [SessionInfo_remove_subscription set_session si_subscriptions]; [by apply NoDup_filter|].
      pose proof (length_filter (fun i => i ≠ sub) (si_subscriptions s)). unfold zlen in *. lia.
    + intros e He. by apply not_elem_of_nil in He.
  - unfold cleanup_expired. generalize ((fun e : NodeId * SessionInfo => si_session_id e.2) <$> filter (fun e => is_timed_out now e.2 = true) (map_to_list (sm_sessions sm))).
    intros l. clear - Hi. revert sm Hi. induction l as [|id l IH]; intros sm Hi; [done|]. cbn [foldl]. apply IH. unfold expire.
    destruct (sm_sessions sm !! id) as [s|] eqn:E; [|done]. destruct (inv_sessions _ _ Hi _ _ E) as (A & _). cbn [snd] in *.
    eapply inv_remove; [done..|]. rewrite A. by right.
Qed.

Lemma inv_initial base c : inv base (base + 1, SessionManager_with_config c).
Proof.
  split; cbn [fst snd SessionManager_with_config sm_session_counter sm_sessions sm_config sm_events]; try done.
  - rewrite map_size_empty. lia.
  - intros id. rewrite lookup_empty. by left.
Qed.
Lemma run_op_counters st op :
  st.1 < 2 ^ 32 - 1 → 0 <= st.1 → sm_session_counter st.2 < 2 ^ 32 - 1 → 0 <= sm_session_counter st.2 →
  (run_op st op).1 <= st.1 + 1 ∧ sm_session_counter (run_op st op).2 <= sm_session_counter st.2 + 1.
Proof.
  destruct st as [counter sm]. cbn [fst snd]. intros Hc Hc0 Hs Hs0.
  assert (∀ l sm, sm_session_counter (foldl (fun sm id => expire id sm) sm l) = sm_session_counter sm) as Hl.
  { intros l. induction l as [|id l IH]; intros sm'; [done|]. cbn. rewrite IH. unfold expire. by case_match. }
  destruct op; cbn [run_op fst snd]; unfold create_session, activate_session, close_session, touch_session, add_subscription,
    remove_subscription, cleanup_expired, next_session_id, next_numeric; rewrite ?Hl; repeat case_match;
    simplify_eq; cbn; rewrite ?Z.mod_small by lia; lia.
Qed.
Lemma inv_runs base st ops :
  inv base st → 0 <= base → base + sm_session_counter st.2 + Z.of_nat (length ops) < 2 ^ 32 → inv base (run_ops st ops).
Proof.
  revert st. induction ops as [|op ops IH]; intros st Hi Hb Hn; [done|]. cbn [length] in Hn.
  destruct (inv_counters _ _ Hi) as [Hc H1]. cbn [run_ops foldl]. apply IH; [apply inv_run; try done; lia|done|].
  destruct (run_op_counters st op) as [_ Hs]; lia.
Qed.

(** C18: Sessions keep their invariant through any history. After any sequence of creations,
    activations, closures, touches, subscription changes and expiry sweeps (fewer than the
    counters can count), there are at most the configured number of sessions; each is stored
    under its own identifier, is created or active, and has distinct subscriptions within the
    limit; no two share an authentication token, so that the session found for a token is the one
    that holds it; and the events reported for each identifier are a creation, then at most one
    activation, then at most one end, matching what the manager holds. *)
Theorem session_manager_invariant base c ops :
  0 <= base → base + 1 + Z.of_nat (length ops) < 2 ^ 32 →
  let sm := (run_ops (base + 1, SessionManager_with_config c) ops).2 in
  session_count sm <= Z.max 0 (max_sessions (sm_config sm)) ∧
  (∀ id s, get_session sm id = Some s →
     si_session_id s = id ∧ (si_state s = Created ∨ si_state s = Active) ∧ NoDup (si_subscriptions s) ∧
     zlen (si_subscriptions s) <= Z.max 0 (max_subscriptions_per_session (sm_config sm))) ∧
  (∀ token s, get_session_by_token sm token = Some s ↔ ∃ id, get_session sm id = Some s ∧ si_authentication_token s = token) ∧
  (∀ id, lifecycle id (get_session sm id) (events_of id (sm_events sm))).
Proof.
  intros Hb Hn sm. assert (inv base (run_ops (base + 1, SessionManager_with_config c) ops)) as [_ H2 H3 H4 _].
  { apply inv_runs; [apply inv_initial|done|cbn; lia]. }
  fold sm in H2, H3, H4. unfold get_session. split_and!; [done| | |done].
  - intros id s Hs. destruct (H2 _ _ Hs) as (A & B & C & _). split_and!; [done| |done..].
    specialize (H4 id). rewrite Hs in H4. cbn in H4. destruct (si_state s); auto; done.
  - intros token s. unfold get_session_by_token. split.
    + destruct (filter _ _) as [|[id t] l] eqn:E; [done|]. intros [= ->]. exists id.
      assert ((id, s) ∈ filter (fun e : NodeId * SessionInfo => si_authentication_token e.2 = token) (map_to_list (sm_sessions sm))) as Hin by (rewrite E; left).
      apply list_elem_of_filter in Hin as [Ht Hin]. by apply elem_of_map_to_list in Hin.
    + intros (id & Hs & Ht). destruct (filter _ _) as [|[id' t] l] eqn:E.
      * assert ((id, s) ∈ filter (fun e : NodeId * SessionInfo => si_authentication_token e.2 = token) (map_to_list (sm_sessions sm))) as Hin
          by (apply list_elem_of_filter; split; [done|by apply elem_of_map_to_list]).
        rewrite E in Hin. by apply not_elem_of_nil in Hin.
      * assert ((id', t) ∈ filter (fun e : NodeId * SessionInfo => si_authentication_token e.2 = token) (map_to_list (sm_sessions sm))) as Hin by (rewrite E; left).
        apply list_elem_of_filter in Hin as [Ht' Hin]. apply elem_of_map_to_list in Hin. cbn in Ht' |- *.
        destruct (H2 _ _ Hs) as (_ & _ & _ & k & -> & Hk & _), (H2 _ _ Hin) as (_ & _ & _ & k' & -> & Hk' & _).
        rewrite Ht in Hk. rewrite Ht', Hk in Hk'. injection Hk' as Hkk. assert (k = k') as <- by lia. congruence.
Qed.
End Session.

#[local] Existing Instance demo_externals.
Lemma session_manager_invariant_witness :
  lifecycle (NodeId_numeric 1 1) None
    (events_of (NodeId_numeric 1 1) (sm_events (run_ops (1000, SessionManager_with_config SessionManagerConfig_default)
       [OpCreate (at_time 0 0) []; OpActivate (at_time 1 0) (NodeId_numeric 1 1) Anonymous; OpCreate (at_time 2 0) []; OpCleanup (at_time 62 0)]).2)).
Proof.
  apply (session_manager_invariant 999 SessionManagerConfig_default
    [OpCreate (at_time 0 0) []; OpActivate (at_time 1 0) (NodeId_numeric 1 1) Anonymous; OpCreate (at_time 2 0) []; OpCleanup (at_time 62 0)]); cbn; lia.
Defined.
