(* ===== verification/OpcuaChannel.v ===== *)
(** The OPC UA transport below the services: message headers and the connection handshake
    ([mabi-opcua/src/transport/messages.rs]), framing ([transport/codec.rs]), secure channel
    headers ([channel/message.rs]) and secure channels ([channel/secure_channel.rs],
    [transport/secure_channel_runtime.rs]).

    The counters of channel and token identifiers are global atomics; the operations that draw
    from them thread them.  The monotonic clock is a number of milliseconds. *)

From S2P Require Import Prelude Text OpcuaCodec.

(* ------------------------------------------------------------------ *)
(** * Messages *)

Definition PROTOCOL_VERSION : Z := 0.
Definition DEFAULT_BUFFER_SIZE : Z := 65535.
Definition DEFAULT_MAX_MESSAGE_SIZE : Z := 16 * 1024 * 1024.
Definition DEFAULT_MAX_CHUNK_COUNT : Z := 5000.

Inductive MessageType : Set := MtHello | MtAcknowledge | MtError | MtOpenSecureChannel | MtCloseSecureChannel | MtMessage.
Inductive ChunkType : Set := CtFinal | CtIntermediate | CtAbort.
#[global] Instance MessageType_eq : EqDecision MessageType.
Proof. solve_decision. Defined.
#[global] Instance ChunkType_eq : EqDecision ChunkType.
Proof. solve_decision. Defined.

Definition MessageType_bytes (t : MessageType) : list Z :=
  match t with
  | MtHello => [72; 69; 76]
  | MtAcknowledge => [65; 67; 75]
  | MtError => [69; 82; 82]
  | MtOpenSecureChannel => [79; 80; 78]
  | MtCloseSecureChannel => [67; 76; 79]
  | MtMessage => [77; 83; 71]
  end.
Definition all_message_types : list MessageType :=
  [MtHello; MtAcknowledge; MtError; MtOpenSecureChannel; MtCloseSecureChannel; MtMessage].
Definition MessageType_from_bytes (bytes : list Z) : outcome OpcUaError MessageType :=
  if zlen bytes <? 3 then Err ECodec
  else ok_or (head (filter (fun t => MessageType_bytes t = take 3 bytes) all_message_types)) ECodec.
Definition ChunkType_byte (c : ChunkType) : Z := match c with CtFinal => 70 | CtIntermediate => 67 | CtAbort => 65 end.
Definition ChunkType_from_byte (b : Z) : outcome OpcUaError ChunkType :=
  if b =? 70 then Ok CtFinal else if b =? 67 then Ok CtIntermediate else if b =? 65 then Ok CtAbort else Err ECodec.

Record MessageHeader : Set := { mh_message_type : MessageType; mh_chunk_type : ChunkType; mh_message_size : Z }.
Definition MessageHeader_SIZE : Z := 8.
Definition MessageHeader_encode (h : MessageHeader) : list Z :=
  MessageType_bytes (mh_message_type h) ++ [ChunkType_byte (mh_chunk_type h)] ++ encode u32_codec (mh_message_size h).
Definition MessageHeader_decode (buf : list Z) : outcome OpcUaError MessageHeader :=
  if zlen buf <? MessageHeader_SIZE then Err ECodec
  else
    let? t := slice buf 0 3 in
    let? message_type := MessageType_from_bytes t in
    let? b := index buf 3 in
    let? chunk_type := ChunkType_from_byte b in
    let? b4 := index buf 4 in let? b5 := index buf 5 in let? b6 := index buf 6 in let? b7 := index buf 7 in
    Ok {| mh_message_type := message_type; mh_chunk_type := chunk_type; mh_message_size := le_value [b4; b5; b6; b7] |}.

Record HelloMessage : Set := {
  he_protocol_version : Z; he_receive_buffer_size : Z; he_send_buffer_size : Z; he_max_message_size : Z;
  he_max_chunk_count : Z; he_endpoint_url : list Z
}.
Definition hello_decode : Dec HelloMessage :=
  do? v := decode u32_codec in do? r := decode u32_codec in do? s := decode u32_codec in
  do? m := decode u32_codec in do? c := decode u32_codec in do? u := decode string_codec in
  st_ret {| he_protocol_version := v; he_receive_buffer_size := r; he_send_buffer_size := s; he_max_message_size := m;
            he_max_chunk_count := c; he_endpoint_url := u |}.
Definition hello_codec : BinaryCodec HelloMessage :=
  {| encode := fun h : HelloMessage =>
       encode u32_codec (he_protocol_version h) ++ encode u32_codec (he_receive_buffer_size h) ++
       encode u32_codec (he_send_buffer_size h) ++ encode u32_codec (he_max_message_size h) ++
       encode u32_codec (he_max_chunk_count h) ++ encode string_codec (he_endpoint_url h);
     encoded_size := fun h : HelloMessage => 20 + 4 + zlen (he_endpoint_url h);
     decode := hello_decode |}.

Record AcknowledgeMessage : Set := {
  ac_protocol_version : Z; ac_receive_buffer_size : Z; ac_send_buffer_size : Z; ac_max_message_size : Z; ac_max_chunk_count : Z
}.
Definition from_hello (hello : HelloMessage) (server_buffer_size : Z) : AcknowledgeMessage :=
  {| ac_protocol_version := PROTOCOL_VERSION;
     ac_receive_buffer_size := Z.min (he_send_buffer_size hello) server_buffer_size;
     ac_send_buffer_size := Z.min (he_receive_buffer_size hello) server_buffer_size;
     ac_max_message_size := if he_max_message_size hello =? 0 then DEFAULT_MAX_MESSAGE_SIZE
                            else Z.min (he_max_message_size hello) DEFAULT_MAX_MESSAGE_SIZE;
     ac_max_chunk_count := if he_max_chunk_count hello =? 0 then DEFAULT_MAX_CHUNK_COUNT
                           else Z.min (he_max_chunk_count hello) DEFAULT_MAX_CHUNK_COUNT |}.
Definition acknowledge_decode : Dec AcknowledgeMessage :=
  do? v := decode u32_codec in do? r := decode u32_codec in do? s := decode u32_codec in
  do? m := decode u32_codec in do? c := decode u32_codec in
  st_ret {| ac_protocol_version := v; ac_receive_buffer_size := r; ac_send_buffer_size := s; ac_max_message_size := m;
            ac_max_chunk_count := c |}.
Definition acknowledge_codec : BinaryCodec AcknowledgeMessage :=
  {| encode := fun a : AcknowledgeMessage =>
       encode u32_codec (ac_protocol_version a) ++ encode u32_codec (ac_receive_buffer_size a) ++
       encode u32_codec (ac_send_buffer_size a) ++ encode u32_codec (ac_max_message_size a) ++
       encode u32_codec (ac_max_chunk_count a);
     encoded_size := fun _ : AcknowledgeMessage => 20;
     decode := acknowledge_decode |}.

Record ErrorMessage : Set := { em_error : Z; em_reason : list Z }.
Definition error_message_codec : BinaryCodec ErrorMessage :=
  {| encode := fun e : ErrorMessage => encode u32_codec (em_error e) ++ encode string_codec (em_reason e);
     encoded_size := fun e : ErrorMessage => 4 + 4 + zlen (em_reason e);
     decode := do? e := decode u32_codec in do? r := decode string_codec in st_ret {| em_error := e; em_reason := r |} |}.

(* ------------------------------------------------------------------ *)
(** * Framing *)

Record RawMessage : Set := { rm_header : MessageHeader; rm_body : list Z }.
Record OpcUaTransportCodec : Set := { max_receive_buffer : Z; max_message_size : Z }.
Definition OpcUaTransportCodec_new : OpcUaTransportCodec :=
  {| max_receive_buffer := DEFAULT_BUFFER_SIZE; max_message_size := DEFAULT_MAX_MESSAGE_SIZE |}.
Definition set_limits (receive message : Z) (c : OpcUaTransportCodec) : OpcUaTransportCodec :=
  {| max_receive_buffer := receive; max_message_size := message |}.

Definition frame_decode (c : OpcUaTransportCodec) : stM (list Z) OpcUaError (option RawMessage) := fun src =>
  if zlen src <? MessageHeader_SIZE then (Ok None, src)
  else
    (do? head := st_lift (slice src 0 MessageHeader_SIZE) in
     do? header := st_lift (MessageHeader_decode head) in
     let total_size := mh_message_size header in
     if total_size <? MessageHeader_SIZE then st_err ECodec
     else if max_message_size c <? total_size then st_err (EMessageTooLarge total_size (max_message_size c))
     else if zlen src <? total_size then st_ret None
     else
       do? _ := split_to MessageHeader_SIZE in
       do? body := split_to (total_size - MessageHeader_SIZE) in
       st_ret (Some {| rm_header := header; rm_body := body |})) src.
(** [total_size as u32]. *)
Definition frame_encode (m : RawMessage) : list Z :=
  let total_size := MessageHeader_SIZE + zlen (rm_body m) in
  MessageHeader_encode {| mh_message_type := mh_message_type (rm_header m); mh_chunk_type := mh_chunk_type (rm_header m);
                          mh_message_size := total_size mod 2 ^ 32 |} ++ rm_body m.
Definition build_response (t : MessageType) (body : list Z) : RawMessage :=
  {| rm_header := {| mh_message_type := t; mh_chunk_type := CtFinal; mh_message_size := (MessageHeader_SIZE + zlen body) mod 2 ^ 32 |};
     rm_body := body |}.

(** [Framed::next]: every chunk that arrives is appended to the buffer, from which messages are
    taken until none is complete; an error ends the stream. *)
Fixpoint drain (c : OpcUaTransportCodec) (fuel : nat) (buf : list Z) : list RawMessage * outcome OpcUaError (list Z) :=
  match fuel with
  | O => ([], Ok buf)
  | S fuel =>
      match frame_decode c buf with
      | (Ok (Some m), buf) => let '(ms, r) := drain c fuel buf in (m :: ms, r)
      | (Ok None, buf) => ([], Ok buf)
      | (Err e, _) => ([], Err e)
      | (Panic, _) => ([], Panic)
      end
  end.
Fixpoint receive_chunks (c : OpcUaTransportCodec) (buf : list Z) (chunks : list (list Z)) : list RawMessage * outcome OpcUaError (list Z) :=
  match chunks with
  | [] => ([], Ok buf)
  | chunk :: chunks =>
      let buf := buf ++ chunk in
      match drain c (S (length buf)) buf with
      | (ms, Ok buf) => let '(ms', r) := receive_chunks c buf chunks in (ms ++ ms', r)
      | (ms, r) => (ms, r)
      end
  end.

(* ------------------------------------------------------------------ *)
(** * Secure channel messages *)

Record AsymmetricSecurityHeader : Set := { as_policy_uri : list Z; as_certificate : list Z; as_thumbprint : list Z }.
Definition POLICY_NONE : list Z := str "http://opcfoundation.org/UA/SecurityPolicy#None".
Definition AsymmetricSecurityHeader_none : AsymmetricSecurityHeader :=
  {| as_policy_uri := POLICY_NONE; as_certificate := []; as_thumbprint := [] |}.
Definition asymmetric_codec : BinaryCodec AsymmetricSecurityHeader :=
  {| encode := fun h : AsymmetricSecurityHeader =>
       encode string_codec (as_policy_uri h) ++ encode byte_string_codec (as_certificate h) ++ encode byte_string_codec (as_thumbprint h);
     encoded_size := fun h : AsymmetricSecurityHeader =>
       (4 + zlen (as_policy_uri h)) + (4 + zlen (as_certificate h)) + (4 + zlen (as_thumbprint h));
     decode := do? p := decode string_codec in do? c := decode byte_string_codec in do? t := decode byte_string_codec in
               st_ret {| as_policy_uri := p; as_certificate := c; as_thumbprint := t |} |}.

Record SequenceHeader : Set := { sequence_number : Z; request_id : Z }.
Definition sequence_codec : BinaryCodec SequenceHeader :=
  {| encode := fun h : SequenceHeader => encode u32_codec (sequence_number h) ++ encode u32_codec (request_id h);
     encoded_size := fun _ : SequenceHeader => 8;
     decode := do? n := decode u32_codec in do? r := decode u32_codec in st_ret {| sequence_number := n; request_id := r |} |}.

Record OpenSecureChannelBody : Set := {
  ob_channel_id : Z; ob_security_header : AsymmetricSecurityHeader; ob_sequence_header : SequenceHeader; ob_payload : list Z
}.
Record SecureMessageBody : Set := {
  mb_channel_id : Z; mb_token_id : Z; mb_sequence_header : SequenceHeader; mb_payload : list Z
}.
(** The rest of the buffer. *)
Definition remaining : Dec (list Z) := fun buf => (Ok buf, []).
Definition OpenSecureChannelBody_decode_from (body : list Z) : outcome OpcUaError OpenSecureChannelBody :=
  ((do? id := decode u32_codec in
    do? security := decode asymmetric_codec in
    do? sequence := decode sequence_codec in
    do? payload := remaining in
    st_ret {| ob_channel_id := id; ob_security_header := security; ob_sequence_header := sequence; ob_payload := payload |}) body).1.
Definition SecureMessageBody_decode_from (body : list Z) : outcome OpcUaError SecureMessageBody :=
  ((do? id := decode u32_codec in
    do? token := decode u32_codec in
    do? sequence := decode sequence_codec in
    do? payload := remaining in
    st_ret {| mb_channel_id := id; mb_token_id := token; mb_sequence_header := sequence; mb_payload := payload |}) body).1.
Definition build_opn_response_body (channel_id : Z) (sequence : SequenceHeader) (payload : list Z) : list Z :=
  encode u32_codec channel_id ++ encode asymmetric_codec AsymmetricSecurityHeader_none ++ encode sequence_codec sequence ++ payload.
Definition build_msg_response_body (channel_id token_id : Z) (sequence : SequenceHeader) (payload : list Z) : list Z :=
  encode u32_codec channel_id ++ encode u32_codec token_id ++ encode sequence_codec sequence ++ payload.

(* ------------------------------------------------------------------ *)
(** * Secure channels *)

Section Channel.
Context `{X : Externals}.

Record SecureChannel : Set := {
  sc_channel_id : Z;
  sc_token_id : Z;
  sc_client_sequence_number : Z;
  sc_server_sequence_number : Z;
  sc_token_lifetime_ms : Z;
  sc_token_created_at : Z;
  sc_attached_session_id : option NodeId;
  sc_attached_auth_token : option NodeId
}.
(** The global counters. *)
Record ChannelCounters : Set := { next_channel_id : Z; next_token_id : Z }.
Definition u32_inc (x : Z) : Z := (x + 1) mod 2 ^ 32.

Definition new_unsecured (now_ms : Z) (g : ChannelCounters) : SecureChannel * ChannelCounters :=
  ({| sc_channel_id := next_channel_id g; sc_token_id := next_token_id g; sc_client_sequence_number := 0;
      sc_server_sequence_number := 1; sc_token_lifetime_ms := 3600000; sc_token_created_at := now_ms;
      sc_attached_session_id := None; sc_attached_auth_token := None |},
   {| next_channel_id := u32_inc (next_channel_id g); next_token_id := u32_inc (next_token_id g) |}).
Definition next_server_sequence_number (c : SecureChannel) : Z * SecureChannel :=
  (sc_server_sequence_number c,
   {| sc_channel_id := sc_channel_id c; sc_token_id := sc_token_id c; sc_client_sequence_number := sc_client_sequence_number c;
      sc_server_sequence_number := u32_inc (sc_server_sequence_number c); sc_token_lifetime_ms := sc_token_lifetime_ms c;
      sc_token_created_at := sc_token_created_at c; sc_attached_session_id := sc_attached_session_id c;
      sc_attached_auth_token := sc_attached_auth_token c |}).
Definition validate_sequence_number (received : Z) (c : SecureChannel) : bool * SecureChannel :=
  let previous := sc_client_sequence_number c in
  if negb (previous =? 0) && (received <=? previous) then (false, c)
  else (true,
   {| sc_channel_id := sc_channel_id c; sc_token_id := sc_token_id c; sc_client_sequence_number := received;
      sc_server_sequence_number := sc_server_sequence_number c; sc_token_lifetime_ms := sc_token_lifetime_ms c;
      sc_token_created_at := sc_token_created_at c; sc_attached_session_id := sc_attached_session_id c;
      sc_attached_auth_token := sc_attached_auth_token c |}).
Definition expected_client_sequence_number (c : SecureChannel) : Z :=
  if sc_client_sequence_number c =? 0 then 1 else Z.min (sc_client_sequence_number c + 1) (2 ^ 32 - 1).
Definition channel_renew_token (now_ms lifetime_ms : Z) (c : SecureChannel) (g : ChannelCounters) : SecureChannel * ChannelCounters :=
  ({| sc_channel_id := sc_channel_id c; sc_token_id := next_token_id g; sc_client_sequence_number := sc_client_sequence_number c;
      sc_server_sequence_number := sc_server_sequence_number c; sc_token_lifetime_ms := lifetime_ms;
      sc_token_created_at := now_ms; sc_attached_session_id := sc_attached_session_id c;
      sc_attached_auth_token := sc_attached_auth_token c |},
   {| next_channel_id := next_channel_id g; next_token_id := u32_inc (next_token_id g) |}).
Definition is_token_expired (now_ms : Z) (c : SecureChannel) : bool := sc_token_lifetime_ms c <? now_ms - sc_token_created_at c.
Definition matches_token (token : Z) (c : SecureChannel) : bool := sc_token_id c =? token.
Definition attach (session auth : option NodeId) (c : SecureChannel) : SecureChannel :=
  {| sc_channel_id := sc_channel_id c; sc_token_id := sc_token_id c; sc_client_sequence_number := sc_client_sequence_number c;
     sc_server_sequence_number := sc_server_sequence_number c; sc_token_lifetime_ms := sc_token_lifetime_ms c;
     sc_token_created_at := sc_token_created_at c; sc_attached_session_id := session; sc_attached_auth_token := auth |}.
Definition attach_session (session auth : NodeId) (c : SecureChannel) : SecureChannel := attach (Some session) (Some auth) c.
Definition channel_clear_session (c : SecureChannel) : SecureChannel := attach None None c.

(** [SecureChannelRuntime]. *)
Definition revised_lifetime (requested_lifetime_ms : Z) : Z := if requested_lifetime_ms =? 0 then 3600000 else requested_lifetime_ms.
Definition runtime_renew_token (now_ms requested : Z) (c : SecureChannel) (g : ChannelCounters) : Z * SecureChannel * ChannelCounters :=
  let lifetime_ms := revised_lifetime requested in
  let '(c, g) := channel_renew_token now_ms lifetime_ms c g in (lifetime_ms, c, g).
Definition validate_message (now_ms : Z) (m : SecureMessageBody) (c : SecureChannel) : outcome OpcUaError unit * SecureChannel :=
  if negb (mb_channel_id m =? sc_channel_id c) then (Err (EBadSecureChannelId (mb_channel_id m)), c)
  else if negb (matches_token (mb_token_id m) c) then (Err (EBadSecureChannelId (mb_token_id m)), c)
  else if is_token_expired now_ms c then (Err ESecurity, c)
  else
    let '(valid, c) := validate_sequence_number (sequence_number (mb_sequence_header m)) c in
    if negb valid then (Err (EBadSequenceNumber (expected_client_sequence_number c) (sequence_number (mb_sequence_header m))), c)
    else (Ok tt, c).

(** The header of every response ([core/handlers/discovery.rs]). *)
Definition ResponseHeader_encode (now : DateTime) (request_handle : Z) (service_result : StatusCode) : list Z :=
  encode date_time_codec now ++ encode u32_codec request_handle ++ encode status_codec service_result ++
  encode diagnostic_info_codec (MkDiagnosticInfo None None None None None None None) ++
  encode i32_codec 0 ++
  encode extension_object_codec {| eo_type_id := NodeId_numeric 0 0; eo_body := None |}.

Definition build_open_secure_channel_response (now : DateTime) (request_handle requested : Z) (c : SecureChannel) : list Z :=
  encode node_id_codec (NodeId_numeric 0 449) ++ ResponseHeader_encode now request_handle GOOD ++
  encode u32_codec 0 ++ encode u32_codec (sc_channel_id c) ++ encode u32_codec (sc_token_id c) ++
  encode date_time_codec now ++ encode u32_codec (revised_lifetime requested) ++ encode byte_string_codec [].
Definition decode_open_secure_channel_request_fields (payload : list Z) : outcome OpcUaError (Z * Z) :=
  ((do? _ := decode node_id_codec in
    do? _ := decode node_id_codec in
    do? _ := decode date_time_codec in
    do? request_handle := decode u32_codec in
    do? _ := decode u32_codec in
    do? _ := decode string_codec in
    do? _ := decode u32_codec in
    do? _ := decode extension_object_codec in
    do? _ := decode u32_codec in
    do? _ := decode u32_codec in
    do? _ := decode u32_codec in
    do? _ := decode byte_string_codec in
    do? requested_lifetime := decode u32_codec in
    st_ret (request_handle, requested_lifetime)) payload).1.
Definition build_service_fault (now : DateTime) (request_handle : Z) (status : StatusCode) : list Z :=
  encode node_id_codec (NodeId_numeric 0 397) ++ ResponseHeader_encode now request_handle status.
Definition encode_transport_error (error_code : Z) (reason : list Z) : list Z :=
  encode error_message_codec {| em_error := error_code; em_reason := reason |}.
End Channel.

(* ------------------------------------------------------------------ *)
(** * Framing lemmas *)

(** A message whose header announces its size, within the limit. *)
Definition frame_ok (c : OpcUaTransportCodec) (m : RawMessage) : Prop :=
  mh_message_size (rm_header m) = 8 + zlen (rm_body m) ∧ 8 + zlen (rm_body m) <= max_message_size c.
Definition limit_ok (c : OpcUaTransportCodec) : Prop := max_message_size c < 2 ^ 32.

Definition frame_header (m : RawMessage) : list Z :=
  MessageType_bytes (mh_message_type (rm_header m)) ++ [ChunkType_byte (mh_chunk_type (rm_header m))] ++
  encode u32_codec (8 + zlen (rm_body m)).
Lemma zlen_frame_header m : zlen (frame_header m) = 8.
Proof. unfold frame_header. by destruct (mh_message_type (rm_header m)). Qed.
Lemma frame_encode_eq c m : limit_ok c → frame_ok c m → frame_encode m = frame_header m ++ rm_body m.
Proof.
  intros Hc [Hs Hm]. pose proof (zlen_nonneg (rm_body m)). unfold frame_encode, MessageHeader_encode, frame_header, MessageHeader_SIZE.
  cbn [mh_message_type mh_chunk_type mh_message_size]. unfold limit_ok in Hc. by rewrite Z.mod_small, <- !app_assoc by lia.
Qed.
Lemma header_roundtrip m : is_u32 (8 + zlen (rm_body m)) → mh_message_size (rm_header m) = 8 + zlen (rm_body m) →
  MessageHeader_decode (frame_header m) = Ok (rm_header m).
Proof.
  intros Hu Hs. unfold MessageHeader_decode. rewrite zlen_frame_header. cbn [Z.ltb Z.compare Pos.compare Pos.compare_cont MessageHeader_SIZE].
  assert (le_value (le_bytes 4 (8 + zlen (rm_body m))) = 8 + zlen (rm_body m)) as Hle by (apply le_roundtrip; exact Hu).
  destruct m as [[t k s] b]. cbn [rm_header rm_body mh_message_type mh_chunk_type mh_message_size] in *. unfold frame_header.
  cbn [rm_header rm_body mh_message_type mh_chunk_type].
  transitivity (Ok (E:=OpcUaError) {| mh_message_type := t; mh_chunk_type := k; mh_message_size := le_value (le_bytes 4 (8 + zlen b)) |});
    [by destruct t, k|by rewrite Hle, Hs].
Qed.
Lemma frame_decode_app c m rest : limit_ok c → frame_ok c m → frame_decode c (frame_encode m ++ rest) = (Ok (Some m), rest).
Proof.
  intros Hc Hm. rewrite (frame_encode_eq c m) by done. destruct Hm as [Hs Hm]. unfold limit_ok in Hc. pose proof (zlen_nonneg (rm_body m)).
  unfold frame_decode. rewrite <- app_assoc. pose proof (zlen_frame_header m) as Hh. rewrite (proj2 (Z.ltb_ge _ _)) by (rewrite zlen_app; unfold MessageHeader_SIZE; len_lia).
  unfold st_bind at 1. unfold st_lift at 1. rewrite slice_app by (by rewrite Hh). unfold st_bind at 1. unfold st_lift at 1.
  rewrite header_roundtrip by (unfold is_u32; lia). cbv zeta. rewrite Hs. unfold MessageHeader_SIZE.
  rewrite !(proj2 (Z.ltb_ge _ _)) by (rewrite ?zlen_app; len_lia). unfold st_bind. rewrite split_to_app by done.
  rewrite split_to_app by lia. unfold st_ret. by destruct m.
Qed.
(** A frame that has not arrived in full. *)
Lemma frame_decode_prefix c m p q : limit_ok c → frame_ok c m → p ++ q = frame_encode m → q ≠ [] → frame_decode c p = (Ok None, p).
Proof.
  intros Hc Hm Hpq Hq. rewrite (frame_encode_eq c m) in Hpq by done. destruct Hm as [Hs Hm]. unfold limit_ok in Hc.
  pose proof (zlen_nonneg (rm_body m)). pose proof (zlen_frame_header m) as Hh. unfold frame_decode. case_if; [done|]. bool_to_prop.
  assert (p = frame_header m ++ drop 8 p) as Hp.
  { apply (f_equal (take 8)) in Hpq. rewrite take_app_le, take_app_le in Hpq by (unfold zlen, MessageHeader_SIZE in *; lia).
    rewrite (take_ge (frame_header m)) in Hpq by (unfold zlen in Hh; lia). by rewrite <- Hpq, take_drop. }
  assert (zlen q > 0) as Hq0 by (destruct q; [done|]; rewrite zlen_cons; len_lia).
  apply (f_equal zlen) in Hpq. rewrite !zlen_app, Hh in Hpq. remember (drop 8 p) as p'. rewrite Hp in Hpq |- *.
  unfold st_bind at 1. unfold st_lift at 1. rewrite slice_app by (by rewrite Hh). unfold st_bind at 1. unfold st_lift at 1.
  rewrite header_roundtrip by (unfold is_u32; lia). cbv zeta. rewrite Hs. unfold MessageHeader_SIZE.
  rewrite !(proj2 (Z.ltb_ge (_ + _) _)), (proj2 (Z.ltb_ge (max_message_size c) _)) by lia.
  by rewrite (proj2 (Z.ltb_lt _ _)) by lia.
Qed.
Lemma frame_encode_length m : (8 ≤ length (frame_encode m))%nat.
Proof. unfold frame_encode, MessageHeader_encode. rewrite length_app. destruct m as [[[] [] s] b]; cbn; lia. Qed.

Lemma drain_stream c ms : ∀ fuel l tail, limit_ok c → Forall (frame_ok c) ms → (length l < fuel)%nat →
  l ++ tail = flat_map frame_encode ms →
  ∃ done rest buf, ms = done ++ rest ∧ drain c fuel l = (done, Ok buf) ∧ buf ++ tail = flat_map frame_encode rest ∧
    (tail = [] → rest = [] ∧ buf = []).
Proof.
  induction ms as [|m ms IH]; intros fuel l tail Hc Hms Hf Hl.
  - apply app_eq_nil in Hl as [-> ->]. exists [], [], []. by destruct fuel.
  - apply Forall_cons in Hms as [Hm Hms]. destruct fuel as [|fuel]; [lia|]. cbn [flat_map] in Hl.
    destruct (decide (length (frame_encode m) ≤ length l)%nat) as [Hle|Hle].
    + assert (l = frame_encode m ++ drop (length (frame_encode m)) l) as Hd.
      { apply (f_equal (take (length (frame_encode m)))) in Hl. rewrite take_app_le, take_app_length in Hl by done. by rewrite <- Hl at 1; rewrite take_drop. }
      remember (drop (length (frame_encode m)) l) as l'. rewrite Hd in Hl, Hf |- *. rewrite <- app_assoc in Hl. apply app_inv_head in Hl.
      rewrite length_app in Hf. pose proof (frame_encode_length m).
      destruct (IH fuel l' tail Hc Hms ltac:(lia) Hl) as (dn & rest & buf & -> & Hdr & Hb & Ht).
      exists (m :: dn), rest, buf. cbn [drain]. rewrite frame_decode_app by done. rewrite Hdr. done.
    + assert (∃ q, frame_encode m = l ++ q ∧ q ≠ []) as (q & Hq & Hq0).
      { exists (drop (length l) (frame_encode m)). split.
        - apply (f_equal (take (length l))) in Hl. rewrite take_app_length, take_app_le in Hl by lia. by rewrite Hl at 1; rewrite take_drop.
        - intros Hn. apply (f_equal length) in Hn. rewrite length_drop in Hn. cbn in Hn. lia. }
      exists [], (m :: ms), l. cbn [drain]. rewrite (frame_decode_prefix c m l q) by done. split_and!; [done..|].
      intros ->. exfalso. rewrite app_nil_r in Hl. apply (f_equal length) in Hl. rewrite length_app in Hl. lia.
Qed.

(** Messages survive framing and any segmentation of the stream. For every list of
    messages whose headers announce their sizes within the negotiated limit, however their
    encodings are cut into chunks on the way, the receiver gets exactly those messages in order
    and its buffer ends empty. *)
Theorem frames_survive_chunking c ms chunks :
  limit_ok c → Forall (frame_ok c) ms → concat chunks = flat_map frame_encode ms →
  receive_chunks c [] chunks = (ms, Ok []).
Proof.
  intros Hc. assert (∀ chunks ms buf, Forall (frame_ok c) ms → buf ++ concat chunks = flat_map frame_encode ms →
    (chunks = [] → buf = []) → receive_chunks c buf chunks = (ms, Ok [])) as Hgen; [|by intros; apply Hgen].
  clear ms chunks. induction chunks as [|x chunks IH]; intros ms buf Hms Hb H0.
  - rewrite H0 in Hb |- * by done. destruct ms as [|m ms]; [done|]. exfalso. apply (f_equal length) in Hb. cbn in Hb. rewrite length_app in Hb.
    pose proof (frame_encode_length m). lia.
  - cbn [concat] in Hb. rewrite app_assoc in Hb. cbn [receive_chunks].
    destruct (drain_stream c ms (S (length (buf ++ x))) (buf ++ x) (concat chunks) Hc Hms ltac:(lia) Hb) as (dn & rest & b & -> & -> & Hr & Ht).
    apply Forall_app in Hms as [_ Hms]. rewrite (IH rest b Hms Hr); [done|]. intros ->. by apply Ht.
Qed.

(** Negotiation never grants more than either side offers. For every Hello, the
    acknowledged buffer sizes are at most the client's and the server's, the message size and
    chunk count at most the server's and, where the client states one, the client's, and never
    zero when the client offers anything. *)
Theorem negotiation_bounded hello server :
  0 <= he_max_message_size hello → 0 <= he_max_chunk_count hello →
  let ack := from_hello hello server in
  ac_receive_buffer_size ack <= he_send_buffer_size hello ∧ ac_receive_buffer_size ack <= server ∧
  ac_send_buffer_size ack <= he_receive_buffer_size hello ∧ ac_send_buffer_size ack <= server ∧
  0 < ac_max_message_size ack <= DEFAULT_MAX_MESSAGE_SIZE ∧
  (he_max_message_size hello ≠ 0 → ac_max_message_size ack <= he_max_message_size hello) ∧
  0 < ac_max_chunk_count ack <= DEFAULT_MAX_CHUNK_COUNT ∧
  (he_max_chunk_count hello ≠ 0 → ac_max_chunk_count ack <= he_max_chunk_count hello) ∧
  limit_ok (set_limits (ac_receive_buffer_size ack) (ac_max_message_size ack) OpcUaTransportCodec_new).
Proof.
  intros Hm Hc ack. unfold ack, from_hello, limit_ok, set_limits, DEFAULT_MAX_MESSAGE_SIZE, DEFAULT_MAX_CHUNK_COUNT.
  cbn [ac_receive_buffer_size ac_send_buffer_size ac_max_message_size ac_max_chunk_count max_message_size].
  destruct (Z.eqb_spec (he_max_message_size hello) 0), (Z.eqb_spec (he_max_chunk_count hello) 0); lia.
Qed.

(** A request and a close, cut in the middle of both headers. *)
Definition demo_frames : list RawMessage :=
  (fun p => {| rm_header := {| mh_message_type := p.1; mh_chunk_type := CtFinal; mh_message_size := 8 + zlen p.2 |}; rm_body := p.2 |}) <$>
  [(MtMessage, [1; 2; 3; 4]); (MtCloseSecureChannel, [])].
Lemma frames_survive_chunking_witness :
  receive_chunks OpcUaTransportCodec_new [] [[77; 83; 71; 70; 12]; [0; 0; 0; 1; 2]; [3; 4; 67; 76; 79]; [70; 8; 0; 0; 0]] = (demo_frames, Ok []).
Proof.
  apply frames_survive_chunking; [by vm_compute| |by vm_compute]. repeat constructor; vm_compute; done.
Defined.
Definition demo_offer : HelloMessage :=
  {| he_protocol_version := 0; he_receive_buffer_size := 8192; he_send_buffer_size := 100000; he_max_message_size := 4096; he_max_chunk_count := 0;
     he_endpoint_url := [] |}.
Lemma negotiation_bounded_witness :
  let ack := from_hello demo_offer 65535 in
  ac_receive_buffer_size ack <= he_send_buffer_size demo_offer ∧ ac_receive_buffer_size ack <= 65535 ∧ 0 < ac_max_message_size ack.
Proof. intros ack. pose proof (negotiation_bounded demo_offer 65535 ltac:(vm_compute; done) ltac:(vm_compute; done)) as (? & ? & ? & ? & ? & _). fold ack in H, H0, H3. lia. Defined.
