(* ===== verification/OpcuaTransport.v ===== *)
(** The OPC UA transport runtime ([mabi-opcua/src/transport/runtime.rs], service errors of
    [core/status.rs], the service context of [core/registry.rs]): one UA-TCP connection from the
    Hello message to its end.

    A connection is a state machine: what the socket delivers is an event, and one step handles
    it as the body of the loop does.  The services are a parameter, [dispatch]; [Dispatcher] states
    what the transport needs of them.  The clocks, the shutdown flag and the success of the send of
    a step are its environment.  Metrics are left out. *)

From Stdlib Require Import Sorted.
From S2P Require Import Prelude Text OpcuaCodec OpcuaSession OpcuaChannel.

Section Transport.
Context `{X : Externals}.
(** The address space, subscriptions, history and the other managers the services share. *)
Context {S : Type}.

Inductive ServiceError : Set := SvOpcUa (e : OpcUaError) | SvUnsupportedService (type_id : NodeId).

Definition status_code (e : ServiceError) : StatusCode :=
  match e with
  | SvUnsupportedService _ => BAD_SERVICE_UNSUPPORTED
  | SvOpcUa e =>
      match e with
      | EServiceNotSupported => BAD_SERVICE_UNSUPPORTED
      | EInvalidState => BAD_SESSION_ID_INVALID
      | EBadSecureChannelId _ => BAD_SECURITY_CHECKS_FAILED
      | EBadSequenceNumber _ _ => BAD_SECURITY_CHECKS_FAILED
      | EMessageTooLarge _ _ => BAD_REQUEST_TIMEOUT
      | ESecurity => BAD_SECURITY_CHECKS_FAILED
      | ENodeNotFound | EInvalidNodeId => BAD_NODE_ID_UNKNOWN
      | _ => BAD_INTERNAL_ERROR
      end
  end.

(** What all connections share. *)
Record World : Type := {
  w_session_manager : SessionManager;
  w_node_id_counter : Z;
  w_managers : S
}.
Record ServiceContext : Type := {
  cx_world : World;
  cx_channel : SecureChannel;
  cx_session_id : option NodeId;
  cx_auth_token : option NodeId
}.
Definition ctx_set_session (session auth : option NodeId) (c : ServiceContext) : ServiceContext :=
  {| cx_world := cx_world c; cx_channel := cx_channel c; cx_session_id := session; cx_auth_token := auth |}.
Definition ctx_set_channel (ch : SecureChannel) (c : ServiceContext) : ServiceContext :=
  {| cx_world := cx_world c; cx_channel := ch; cx_session_id := cx_session_id c; cx_auth_token := cx_auth_token c |}.
Definition ctx_set_world (w : World) (c : ServiceContext) : ServiceContext :=
  {| cx_world := w; cx_channel := cx_channel c; cx_session_id := cx_session_id c; cx_auth_token := cx_auth_token c |}.
Definition set_session_manager (sm : SessionManager) (w : World) : World :=
  {| w_session_manager := sm; w_node_id_counter := w_node_id_counter w; w_managers := w_managers w |}.
Definition build_service_context (w : World) (ch : SecureChannel) : ServiceContext :=
  {| cx_world := w; cx_channel := ch; cx_session_id := None; cx_auth_token := None |}.

(** [dispatch_payload]. *)
Context (dispatch : DateTime → list Z → stM ServiceContext ServiceError (list Z)).
(** The services attach and detach sessions, but leave the channel's identity, token and
    sequence numbers to the transport. *)
Definition same_channel (a b : SecureChannel) : Prop :=
  sc_channel_id a = sc_channel_id b ∧ sc_token_id a = sc_token_id b ∧
  sc_client_sequence_number a = sc_client_sequence_number b ∧ sc_server_sequence_number a = sc_server_sequence_number b ∧
  sc_token_lifetime_ms a = sc_token_lifetime_ms b ∧ sc_token_created_at a = sc_token_created_at b.
Class Dispatcher : Prop :=
  dispatch_channel now payload c : same_channel (cx_channel (dispatch now payload c).2) (cx_channel c).

Inductive Phase : Type :=
| AwaitHello (w : World)
| AwaitOpen (w : World)
| Serving (c : ServiceContext)
| Finished (r : outcome OpcUaError unit) (w : World).
Record Connection : Type := { cn_codec : OpcUaTransportCodec; cn_counters : ChannelCounters; cn_phase : Phase }.

Inductive Event : Set := EvMessage (m : RawMessage) | EvStreamError (e : OpcUaError) | EvStreamEnd | EvTimeout.
Record Env : Type := {
  env_now : DateTime;
  env_now_ms : Z;
  env_send_ok : bool;
  env_shutdown : bool;
  env_buffer_size : Z
}.
(** What a step does to the outside: it sends a message, and it hands a request to the services. *)
Inductive Effect : Set := Sent (m : RawMessage) | Dispatched (m : SecureMessageBody).

Definition set_phase (p : Phase) (n : Connection) : Connection :=
  {| cn_codec := cn_codec n; cn_counters := cn_counters n; cn_phase := p |}.
Definition finish_result {A} (r : outcome OpcUaError A) (w : World) : Phase :=
  Finished (match r with Ok _ => Ok tt | Err e => Err e | Panic => Panic end) w.

Definition EXPECTED_HEL : list Z := str "Expected HEL message".
Definition EXPECTED_OPN : list Z := str "Expected OPN message".

Definition on_hello (env : Env) (ev : Event) (w : World) (n : Connection) : list Effect * Connection :=
  match ev with
  | EvMessage m =>
      if bool_decide (mh_message_type (rm_header m) ≠ MtHello) then
        ([Sent (build_response MtError (encode_transport_error BAD_UNEXPECTED_ERROR EXPECTED_HEL))],
         set_phase (Finished (Err EProtocolError) w) n)
      else
        match (decode hello_codec (rm_body m)).1 with
        | Ok hello =>
            let ack := from_hello hello (env_buffer_size env) in
            ([Sent (build_response MtAcknowledge (encode acknowledge_codec ack))],
             {| cn_codec := set_limits (ac_receive_buffer_size ack) (ac_max_message_size ack) (cn_codec n);
                cn_counters := cn_counters n;
                cn_phase := if env_send_ok env then AwaitOpen w else Finished (Err EIo) w |})
        | r => ([], set_phase (finish_result r w) n)
        end
  | EvStreamError e => ([], set_phase (Finished (Err e) w) n)
  | EvStreamEnd => ([], set_phase (Finished (Ok tt) w) n)
  | EvTimeout => ([], set_phase (Finished (Err EProtocolError) w) n)
  end.

Definition on_open (env : Env) (ev : Event) (w : World) (n : Connection) : list Effect * Connection :=
  match ev with
  | EvMessage m =>
      if bool_decide (mh_message_type (rm_header m) ≠ MtOpenSecureChannel) then
        ([Sent (build_response MtError (encode_transport_error BAD_UNEXPECTED_ERROR EXPECTED_OPN))],
         set_phase (Finished (Err EProtocolError) w) n)
      else
        match OpenSecureChannelBody_decode_from (rm_body m) with
        | Ok request =>
            match decode_open_secure_channel_request_fields (ob_payload request) with
            | Ok (request_handle, requested) =>
                let '(ch, g) := new_unsecured (env_now_ms env) (cn_counters n) in
                let payload := build_open_secure_channel_response (env_now env) request_handle requested ch in
                let '(seq, ch) := next_server_sequence_number ch in
                let body := build_opn_response_body (sc_channel_id ch)
                              {| sequence_number := seq; request_id := request_id (ob_sequence_header request) |} payload in
                ([Sent (build_response MtOpenSecureChannel body)],
                 {| cn_codec := cn_codec n; cn_counters := g;
                    cn_phase := if env_send_ok env then Serving (build_service_context w ch) else Finished (Err EIo) w |})
            | r => ([], set_phase (finish_result r w) n)
            end
        | r => ([], set_phase (finish_result r w) n)
        end
  | EvStreamError e => ([], set_phase (Finished (Err e) w) n)
  | EvStreamEnd => ([], set_phase (Finished (Ok tt) w) n)
  | EvTimeout => ([], set_phase (Finished (Err EProtocolError) w) n)
  end.

(** A response under the symmetric header, with the next sequence number of the server. *)
Definition secured (t : MessageType) (request : Z) (payload : list Z) (c : ServiceContext) : RawMessage * ServiceContext :=
  let '(seq, ch) := next_server_sequence_number (cx_channel c) in
  (build_response t (build_msg_response_body (sc_channel_id ch) (sc_token_id ch) {| sequence_number := seq; request_id := request |} payload),
   ctx_set_channel ch c).

Definition on_renewal (env : Env) (m : RawMessage) (c : ServiceContext) (n : Connection) : list Effect * Connection :=
  match OpenSecureChannelBody_decode_from (rm_body m) with
  | Ok renewal =>
      match decode_open_secure_channel_request_fields (ob_payload renewal) with
      | Ok (request_handle, requested) =>
          let '(lifetime, ch, g) := runtime_renew_token (env_now_ms env) requested (cx_channel c) (cn_counters n) in
          let payload := build_open_secure_channel_response (env_now env) request_handle lifetime ch in
          let '(seq, ch) := next_server_sequence_number ch in
          let body := build_opn_response_body (sc_channel_id ch)
                        {| sequence_number := seq; request_id := request_id (ob_sequence_header renewal) |} payload in
          ([Sent (build_response MtOpenSecureChannel body)],
           {| cn_codec := cn_codec n; cn_counters := g;
              cn_phase := if env_send_ok env then Serving (ctx_set_channel ch c) else Finished (Err EIo) (cx_world c) |})
      | r => ([], set_phase (finish_result r (cx_world c)) n)
      end
  | r => ([], set_phase (finish_result r (cx_world c)) n)
  end.

Definition on_request (env : Env) (m : RawMessage) (c : ServiceContext) (n : Connection) : list Effect * Connection :=
  match SecureMessageBody_decode_from (rm_body m) with
  | Ok request =>
      let rid := request_id (mb_sequence_header request) in
      let '(valid, ch) := validate_message (env_now_ms env) request (cx_channel c) in
      let c := ctx_set_channel ch c in
      match valid with
      | Err e =>
          let '(response, c) := secured MtMessage rid (build_service_fault (env_now env) rid (status_code (SvOpcUa e))) c in
          ([Sent response], set_phase (Serving c) n)
      | Panic => ([], set_phase (Finished Panic (cx_world c)) n)
      | Ok _ =>
          let '(r, c) := dispatch (env_now env) (mb_payload request) c in
          match r with
          | Ok payload =>
              let '(response, c) := secured MtMessage rid payload c in
              ([Dispatched request; Sent response],
               set_phase (if env_send_ok env then Serving c else Finished (Err EIo) (cx_world c)) n)
          | Err e =>
              let '(response, c) := secured MtMessage rid (build_service_fault (env_now env) rid (status_code e)) c in
              ([Dispatched request; Sent response],
               set_phase (if env_send_ok env then Serving c else Finished (Ok tt) (cx_world c)) n)
          | Panic => ([Dispatched request], set_phase (Finished Panic (cx_world c)) n)
          end
      end
  | Err _ => ([], set_phase (Serving c) n)
  | Panic => ([], set_phase (Finished Panic (cx_world c)) n)
  end.

Definition on_close (c : ServiceContext) (n : Connection) : list Effect * Connection :=
  let c := match cx_session_id c with
           | Some id =>
               let w := set_session_manager (close_session id (w_session_manager (cx_world c))).2 (cx_world c) in
               ctx_set_channel (channel_clear_session (cx_channel c)) (ctx_set_session None None (ctx_set_world w c))
           | None => c
           end in
  let '(response, c) := secured MtCloseSecureChannel 0 [] c in
  ([Sent response], set_phase (Finished (Ok tt) (cx_world c)) n).

Definition on_service (env : Env) (ev : Event) (c : ServiceContext) (n : Connection) : list Effect * Connection :=
  if env_shutdown env then ([], set_phase (Finished (Ok tt) (cx_world c)) n)
  else
    match ev with
    | EvMessage m =>
        match mh_message_type (rm_header m) with
        | MtOpenSecureChannel => on_renewal env m c n
        | MtMessage => on_request env m c n
        | MtCloseSecureChannel => on_close c n
        | _ => ([], set_phase (Serving c) n)
        end
    | EvStreamError e => ([], set_phase (Finished (Err e) (cx_world c)) n)
    | EvStreamEnd | EvTimeout => ([], set_phase (Finished (Ok tt) (cx_world c)) n)
    end.

Definition handle_event (env : Env) (ev : Event) (n : Connection) : list Effect * Connection :=
  match cn_phase n with
  | AwaitHello w => on_hello env ev w n
  | AwaitOpen w => on_open env ev w n
  | Serving c => on_service env ev c n
  | Finished _ _ => ([], n)
  end.
Fixpoint run_connection (inputs : list (Env * Event)) (n : Connection) : list Effect * Connection :=
  match inputs with
  | [] => ([], n)
  | (env, ev) :: inputs =>
      let '(out, n) := handle_event env ev n in
      let '(out', n) := run_connection inputs n in (out ++ out', n)
  end.
Definition accept_connection (g : ChannelCounters) (w : World) : Connection :=
  {| cn_codec := OpcUaTransportCodec_new; cn_counters := g; cn_phase := AwaitHello w |}.

(* ------------------------------------------------------------------ *)
(** * What a peer reads in a response *)

Definition response_header (m : RawMessage) : option SequenceHeader :=
  match mh_message_type (rm_header m) with
  | MtOpenSecureChannel => match OpenSecureChannelBody_decode_from (rm_body m) with Ok b => Some (ob_sequence_header b) | _ => None end
  | MtMessage | MtCloseSecureChannel =>
      match SecureMessageBody_decode_from (rm_body m) with Ok b => Some (mb_sequence_header b) | _ => None end
  | _ => None
  end.
(** The sequence numbers of the responses sent over the channel, and the requests handed to the
    services. *)
Definition sent_numbers (out : list Effect) : list Z :=
  omap (fun e => match e with Sent m => sequence_number <$> response_header m | _ => None end) out.
Definition dispatched (out : list Effect) : list SecureMessageBody :=
  omap (fun e => match e with Dispatched m => Some m | _ => None end) out.

(** The number a peer reads where [x] was written; the same one in the range of 32 bits. *)
Definition u32_read (x : Z) : Z := le_value (le_bytes 4 x).
#[local] Arguments u32_read : simpl never.
Lemma u32_read_id x : is_u32 x → u32_read x = x.
Proof. intros Hx. apply le_roundtrip. exact Hx. Qed.
Lemma bind_u32 {B} x (k : Z → Dec B) rest : st_bind (decode u32_codec) k (encode u32_codec x ++ rest) = k (u32_read x) rest.
Proof. unfold st_bind. cbn [decode encode u32_codec unsigned_codec]. by rewrite read_le_app by apply length_le_bytes. Qed.
Definition header_read (h : SequenceHeader) : SequenceHeader :=
  {| sequence_number := u32_read (sequence_number h); request_id := u32_read (request_id h) |}.
Lemma bind_sequence {B} h (k : SequenceHeader → Dec B) rest : st_bind (decode sequence_codec) k (encode sequence_codec h ++ rest) = k (header_read h) rest.
Proof. unfold st_bind at 1. cbn [decode encode sequence_codec]. by rewrite <- app_assoc, !bind_u32. Qed.
Lemma msg_body_read id token h payload : SecureMessageBody_decode_from (build_msg_response_body id token h payload) =
  Ok {| mb_channel_id := u32_read id; mb_token_id := u32_read token; mb_sequence_header := header_read h; mb_payload := payload |}.
Proof. unfold SecureMessageBody_decode_from, build_msg_response_body. by rewrite !bind_u32, bind_sequence. Qed.
Lemma policy_none_ok : str_ok POLICY_NONE.
Proof. split_and!; [bytes_compute|by vm_compute..]. Qed.
Lemma opn_body_read id h payload : OpenSecureChannelBody_decode_from (build_opn_response_body id h payload) =
  Ok {| ob_channel_id := u32_read id; ob_security_header := AsymmetricSecurityHeader_none; ob_sequence_header := header_read h; ob_payload := payload |}.
Proof.
  unfold OpenSecureChannelBody_decode_from, build_opn_response_body. rewrite bind_u32. unfold st_bind at 1.
  replace (decode asymmetric_codec _) with (Ok (E:=OpcUaError) AsymmetricSecurityHeader_none, encode sequence_codec h ++ payload).
  { by rewrite bind_sequence. }
  cbn [decode encode asymmetric_codec AsymmetricSecurityHeader_none as_policy_uri as_certificate as_thumbprint]. rewrite <- !app_assoc.
  rewrite (bind_law string_codec str_ok) by exact policy_none_ok. by rewrite !(bind_law byte_string_codec blob_ok) by (split; [constructor|by vm_compute]).
Qed.
Lemma sent_msg t id token h payload rest : t = MtMessage ∨ t = MtCloseSecureChannel → is_u32 (sequence_number h) →
  sent_numbers (Sent (build_response t (build_msg_response_body id token h payload)) :: rest) = sequence_number h :: sent_numbers rest.
Proof.
  intros Ht Hs. unfold sent_numbers at 1. cbn [omap list_omap]. unfold response_header. cbn [build_response rm_header rm_body mh_message_type].
  rewrite msg_body_read. destruct Ht as [-> | ->]; cbn; by rewrite u32_read_id.
Qed.
Lemma sent_opn id h payload rest : is_u32 (sequence_number h) →
  sent_numbers (Sent (build_response MtOpenSecureChannel (build_opn_response_body id h payload)) :: rest) = sequence_number h :: sent_numbers rest.
Proof.
  intros Hs. unfold sent_numbers at 1. cbn [omap list_omap]. unfold response_header. cbn [build_response rm_header rm_body mh_message_type].
  rewrite opn_body_read. cbn. by rewrite u32_read_id.
Qed.

(* ------------------------------------------------------------------ *)
(** * Invariants of a connection *)

(** The next sequence number of the server, the last one of the client, and the channel's
    identifier. *)
Definition numbers (g : ChannelCounters) (next last : Z) (n : Connection) : Prop :=
  is_u32 next ∧
  match cn_phase n with
  | AwaitHello _ | AwaitOpen _ => next = 1 ∧ last = 0 ∧ next_channel_id (cn_counters n) = next_channel_id g
  | Serving c => sc_server_sequence_number (cx_channel c) = next ∧ sc_client_sequence_number (cx_channel c) = last ∧
                 sc_channel_id (cx_channel c) = next_channel_id g
  | Finished _ _ => True
  end.
Lemma u32_inc_range x : is_u32 (u32_inc x).
Proof. unfold u32_inc. int_lia. Qed.

(** What one step adds to the numbers sent and to the requests dispatched. *)
Definition number_step (next next' : Z) (l : list Z) : Prop := (l = [] ∧ next' = next) ∨ (l = [next] ∧ next' = u32_inc next).
Definition request_step (g : ChannelCounters) (last last' : Z) (l : list SecureMessageBody) : Prop :=
  (l = [] ∧ last' = last) ∨
  (∃ m, l = [m] ∧ mb_channel_id m = next_channel_id g ∧ last' = sequence_number (mb_sequence_header m) ∧ (last = 0 ∨ last < last')).
Definition keeps (g : ChannelCounters) (next last : Z) (step : list Effect * Connection) : Prop :=
  ∃ next' last', number_step next next' (sent_numbers step.1) ∧ request_step g last last' (dispatched step.1) ∧ numbers g next' last' step.2.

Lemma keeps_silent g next last out n : sent_numbers out = [] → dispatched out = [] → numbers g next last n → keeps g next last (out, n).
Proof. intros Hs Hd Hn. exists next, last. split_and!; [by left|by left|done]. Qed.
Lemma keeps_sent g next last m n : sent_numbers [Sent m] = [next] → (is_u32 (u32_inc next) → numbers g (u32_inc next) last n) → keeps g next last ([Sent m], n).
Proof. intros Hs Hn. exists (u32_inc next), last. split_and!; [by right|by left|apply Hn, u32_inc_range]. Qed.
Lemma finished_numbers g next last r w n : is_u32 next → numbers g next last (set_phase (Finished r w) n).
Proof. done. Qed.
Hint Resolve keeps_silent finished_numbers : core.

Lemma on_hello_keeps env ev w n g next last : cn_phase n = AwaitHello w → numbers g next last n → keeps g next last (on_hello env ev w n).
Proof.
  intros Hp [Hu Hn]. rewrite Hp in Hn. unfold on_hello. destruct ev as [m|e| |]; [|by apply keeps_silent..].
  case_if; [by apply keeps_silent|].
  destruct (decode hello_codec (rm_body m)).1 as [hello|e|]; [|by apply keeps_silent..].
  apply keeps_silent; [done..|]. split; [done|]. cbn. by destruct (env_send_ok env).
Qed.
Lemma on_open_keeps env ev w n g next last : cn_phase n = AwaitOpen w → numbers g next last n → keeps g next last (on_open env ev w n).
Proof.
  intros Hp [Hu Hn]. rewrite Hp in Hn. destruct Hn as (-> & -> & Hg). unfold on_open. destruct ev as [m|e| |]; [|by apply keeps_silent..].
  case_if; [by apply keeps_silent|].
  destruct (OpenSecureChannelBody_decode_from (rm_body m)) as [q|e|]; [|by apply keeps_silent..].
  destruct (decode_open_secure_channel_request_fields _) as [[h l]|e|]; [|by apply keeps_silent..].
  unfold new_unsecured, runtime_renew_token, channel_renew_token, next_server_sequence_number. cbv beta iota zeta.
  apply keeps_sent; [by rewrite sent_opn|]. intros Hi. split; [done|]. cbn. destruct (env_send_ok env); [|done]. cbn. done.
Qed.
Lemma secured_numbers t request payload c resp c' rest : t = MtMessage ∨ t = MtCloseSecureChannel → is_u32 (sc_server_sequence_number (cx_channel c)) →
  secured t request payload c = (resp, c') → sent_numbers (Sent resp :: rest) = sc_server_sequence_number (cx_channel c) :: sent_numbers rest.
Proof. intros Ht Hs [= <- <-]. by rewrite sent_msg. Qed.
Lemma on_renewal_keeps env m c n g next last : cn_phase n = Serving c → numbers g next last n → keeps g next last (on_renewal env m c n).
Proof.
  intros Hp [Hu Hn]. rewrite Hp in Hn. destruct Hn as (<- & <- & Hg). unfold on_renewal.
  destruct (OpenSecureChannelBody_decode_from (rm_body m)) as [q|e|]; [|by apply keeps_silent..].
  destruct (decode_open_secure_channel_request_fields _) as [[h l]|e|]; [|by apply keeps_silent..].
  unfold new_unsecured, runtime_renew_token, channel_renew_token, next_server_sequence_number. cbv beta iota zeta.
  apply keeps_sent; [by rewrite sent_opn|]. intros Hi. split; [done|]. cbn. destruct (env_send_ok env); [|done]. cbn. done.
Qed.
Lemma on_close_keeps c n g next last : cn_phase n = Serving c → numbers g next last n → keeps g next last (on_close c n).
Proof.
  intros Hp [Hu Hn]. rewrite Hp in Hn. destruct Hn as (<- & <- & Hg). unfold on_close.
  destruct (cx_session_id c); apply keeps_sent; try done; eapply (secured_numbers MtCloseSecureChannel 0 []); auto.
Qed.

(** The outcomes of validation. *)
Lemma validate_message_cases now m c :
  (∃ e, validate_message now m c = (Err e, c)) ∨
  (∃ c', validate_message now m c = (Ok tt, c') ∧ mb_channel_id m = sc_channel_id c ∧ mb_token_id m = sc_token_id c ∧ is_token_expired now c = false ∧
     (sc_client_sequence_number c = 0 ∨ sc_client_sequence_number c < sequence_number (mb_sequence_header m)) ∧
     c' = (validate_sequence_number (sequence_number (mb_sequence_header m)) c).2 ∧
     sc_client_sequence_number c' = sequence_number (mb_sequence_header m)).
Proof.
  unfold validate_message, matches_token, validate_sequence_number. destruct (Z.eqb_spec (mb_channel_id m) (sc_channel_id c)); [|by left; eexists].
  destruct (Z.eqb_spec (sc_token_id c) (mb_token_id m)); [|by left; eexists]. destruct (is_token_expired now c) eqn:?; [by left; eexists|]. cbn.
  destruct (Z.eqb_spec (sc_client_sequence_number c) 0); cbn; [right; eexists; split_and!; auto|].
  destruct (Z.leb_spec (sequence_number (mb_sequence_header m)) (sc_client_sequence_number c)); [by left; eexists|].
  right. eexists. split_and!; auto.
Qed.
Context `{HD : !Dispatcher}.
Lemma on_request_keeps env m c n g next last : cn_phase n = Serving c → numbers g next last n → keeps g next last (on_request env m c n).
Proof.
  intros Hp [Hu Hn]. rewrite Hp in Hn. destruct Hn as (Hs & Hl & Hg). unfold on_request.
  destruct (SecureMessageBody_decode_from (rm_body m)) as [q|e|]; [|apply keeps_silent; done..].
  destruct (validate_message_cases (env_now_ms env) q (cx_channel c)) as [[e ->]|(ch & -> & Hid & Htok & Hexp & Hseq & Hch & Hcl)].
  - destruct (secured MtMessage _ _ _) as [resp c'] eqn:Hr. apply keeps_sent; [|intros Hi].
    + by rewrite (secured_numbers _ _ _ _ _ _ [] (or_introl eq_refl) ltac:(cbn; by rewrite Hs) Hr); cbn; rewrite Hs.
    + injection Hr as <- <-. split; [done|]. cbn. by rewrite Hs, Hl, Hg.
  - assert (sc_server_sequence_number ch = next ∧ sc_channel_id ch = next_channel_id g) as [Hs' Hg'].
    { rewrite Hch. unfold validate_sequence_number. case_if; cbn; by rewrite ?Hs, ?Hg. }
    pose proof (dispatch_channel (env_now env) (mb_payload q) (ctx_set_channel ch c)) as Hd.
    destruct (dispatch _ _ _) as [r c'] eqn:Hdisp. destruct Hd as (Hd1 & Hd2 & Hd3 & Hd4 & _). cbn in Hd1, Hd2, Hd3, Hd4.
    assert (∀ sent n', (sent = [] ∧ (∃ r w, n' = set_phase (Finished r w) n)) ∨
      (∃ payload p resp c2, secured MtMessage (request_id (mb_sequence_header q)) payload c' = (resp, c2) ∧ sent = [Sent resp] ∧ n' = set_phase p n ∧
         (p = Serving c2 ∨ ∃ r w, p = Finished r w)) →
      keeps g next last (Dispatched q :: sent, n')) as Hk.
    { intros sent n' [[-> (r0 & w & ->)]|(payload & p & resp & c2 & Hr & -> & -> & Hpp)].
      - exists next, (sequence_number (mb_sequence_header q)). split_and!; [by left| |done]. right. exists q. rewrite <- Hl, <- Hg. auto.
      - exists (u32_inc next), (sequence_number (mb_sequence_header q)). split_and!.
        + right. split; [|done]. change (sent_numbers ?l) with (sent_numbers [Sent resp]).
          rewrite (secured_numbers _ _ _ _ _ _ [] (or_introl eq_refl) ltac:(by rewrite Hd4, Hs') Hr). cbn. by rewrite Hd4, Hs'.
        + right. exists q. rewrite <- Hl, <- Hg. auto.
        + split; [apply u32_inc_range|]. destruct Hpp as [-> |(r0 & w & ->)]; [|done]. injection Hr as <- <-. cbn. by rewrite Hd1, Hd3, Hd4, Hs', Hg', Hcl. }
    destruct r as [payload|e|]; [destruct (secured MtMessage _ payload _) as [resp c2] eqn:Hr|destruct (secured MtMessage _ (build_service_fault _ _ _) _) as [resp c2] eqn:Hr|];
      apply Hk; [right; do 4 eexists; split_and!; [exact Hr|done|done|]; destruct (env_send_ok env); eauto..|left; eauto].
Qed.
Lemma handle_event_keeps env ev n g next last : numbers g next last n → keeps g next last (handle_event env ev n).
Proof.
  intros Hn. unfold handle_event. destruct (cn_phase n) as [w|w|c|r w] eqn:Hp.
  - by apply on_hello_keeps. - by apply on_open_keeps.
  - unfold on_service. destruct (env_shutdown env); [by apply keeps_silent; destruct Hn|]. destruct ev as [m|e| |]; [|by apply keeps_silent; destruct Hn..].
    destruct (mh_message_type (rm_header m)); [..|by apply on_request_keeps];
      first [by apply on_renewal_keeps|by apply on_close_keeps|apply keeps_silent; [done..|]; destruct Hn as [? Hn]; rewrite Hp in Hn; by split].
  - by apply keeps_silent.
Qed.

Fixpoint numbered (a : Z) (l : list Z) : Prop := match l with [] => True | x :: l => x = a ∧ numbered (u32_inc a) l end.
Lemma numbered_seq a l : numbered (a mod 2 ^ 32) l → l = map (fun i => (a + Z.of_nat i) mod 2 ^ 32) (seq 0 (length l)).
Proof.
  revert a. induction l as [|x l IH]; intros a; [done|]. intros [-> Hl]. cbn [length seq map]. f_equal; [by rewrite Z.add_0_r|].
  unfold u32_inc in Hl. rewrite Zplus_mod_idemp_l in Hl. rewrite (IH _ Hl) at 1. rewrite <- seq_shift, map_map. apply map_ext. intros i. f_equal. lia.
Qed.
Lemma run_numbered inputs : ∀ n g next last, numbers g next last n → numbered next (sent_numbers (run_connection inputs n).1).
Proof.
  induction inputs as [|[env ev] inputs IH]; intros n g next last Hn; [done|]. cbn [run_connection].
  destruct (handle_event_keeps env ev n g next last Hn) as (next' & last' & Hs & _ & Hn').
  destruct (handle_event env ev n) as [out n']. specialize (IH n' g next' last' Hn'). destruct (run_connection inputs n') as [out' n'']. cbn in *.
  unfold sent_numbers in *. rewrite omap_app. by destruct Hs as [[-> ->]|[-> ->]].
Qed.

(** Requests in order: after [last], each has a larger number than the one before, until
    which any number of requests numbered 0 may pass. *)
Fixpoint ordered (last : Z) (l : list SecureMessageBody) : Prop :=
  match l with
  | [] => True
  | m :: l => (last = 0 ∨ last < sequence_number (mb_sequence_header m)) ∧ ordered (sequence_number (mb_sequence_header m)) l
  end.
Lemma run_ordered inputs : ∀ n g next last, numbers g next last n →
  ordered last (dispatched (run_connection inputs n).1) ∧ Forall (fun m => mb_channel_id m = next_channel_id g) (dispatched (run_connection inputs n).1).
Proof.
  induction inputs as [|[env ev] inputs IH]; intros n g next last Hn; [done|]. cbn [run_connection].
  destruct (handle_event_keeps env ev n g next last Hn) as (next' & last' & _ & Hs & Hn').
  destruct (handle_event env ev n) as [out n']. specialize (IH n' g next' last' Hn'). destruct (run_connection inputs n') as [out' n'']. cbn in *.
  unfold dispatched in *. rewrite omap_app. destruct Hs as [[-> ->]|(m & -> & ? & -> & ?)]; [done|]. destruct IH. split; [done|]. by constructor.
Qed.

(** Responses on a secure channel are numbered without gaps. In every run of a connection,
    whatever the peer sends and the services answer, the sequence numbers a peer reads in the
    responses (open, message and close) are 1, 2, 3 and so on, modulo 2^32. *)
Theorem responses_numbered g w inputs :
  sent_numbers (run_connection inputs (accept_connection g w)).1 =
  map (fun i => (1 + Z.of_nat i) mod 2 ^ 32) (seq 0 (length (sent_numbers (run_connection inputs (accept_connection g w)).1))).
Proof. apply numbered_seq. apply (run_numbered inputs (accept_connection g w) g 1 0). split; [|done]. int_lia. Qed.

(** Bytes in, numbers in range out. *)
Lemma le_value_range l : bytes_ok l → 0 <= le_value l < 256 ^ zlen l.
Proof.
  induction l as [|b l IH]; [by cbn|]. rewrite bytes_ok_cons. intros [Hb Hl]. cbn [le_value]. specialize (IH Hl).
  rewrite zlen_cons, Z.pow_add_r by len_lia. unfold is_u8 in Hb. nia.
Qed.
Lemma u32_decoded buf x rest : bytes_ok buf → decode u32_codec buf = (Ok x, rest) → is_u32 x ∧ bytes_ok rest.
Proof.
  intros Hb. cbn [decode u32_codec unsigned_codec]. unfold read_le, st_bind, ensure_remaining, split_to, st_ret.
  case_if; [done|]. case_if; [done|]. bool_to_prop. intros [= <- <-]. split; [|by apply Forall_drop].
  pose proof (le_value_range (take (Z.to_nat (Z.of_nat 4)) buf) ltac:(by apply Forall_take)) as Hr.
  replace (zlen (take _ buf)) with 4 in Hr; [exact Hr|]. unfold zlen in *. rewrite length_take. lia.
Qed.
Lemma bind_ok {A B} (d : Dec A) (k : A → Dec B) buf b :
  (st_bind d k buf).1 = Ok b → ∃ a buf', d buf = (Ok a, buf') ∧ (k a buf').1 = Ok b.
Proof. unfold st_bind. destruct (d buf) as [[a|e|] buf']; [|done..]. eauto. Qed.
Lemma request_range body q : bytes_ok body → SecureMessageBody_decode_from body = Ok q →
  is_u32 (sequence_number (mb_sequence_header q)) ∧ is_u32 (request_id (mb_sequence_header q)).
Proof.
  intros Hb H. apply bind_ok in H as (id & b1 & H1 & H). apply u32_decoded in H1 as [_ Hb1]; [|done].
  apply bind_ok in H as (tk & b2 & H2 & H). apply u32_decoded in H2 as [_ Hb2]; [|done].
  apply bind_ok in H as (sh & b3 & H3 & H). injection H as <-. cbn [mb_sequence_header].
  apply (f_equal fst) in H3. cbn [decode sequence_codec fst] in H3.
  apply bind_ok in H3 as (sq & b4 & H4 & H3). apply u32_decoded in H4 as [Hsq Hb4]; [|done].
  apply bind_ok in H3 as (rq & b5 & H5 & H3). apply u32_decoded in H5 as [Hrq _]; [|done]. by injection H3 as <-.
Qed.

(** The events of a peer that sends bytes. *)
Definition event_bytes (ev : Event) : Prop := match ev with EvMessage m => bytes_ok (rm_body m) | _ => True end.
Lemma dispatched_range env ev n : event_bytes ev →
  Forall (fun m => is_u32 (sequence_number (mb_sequence_header m))) (dispatched (handle_event env ev n).1).
Proof.
  intros Hev. assert (∀ c, Forall (fun m => is_u32 (sequence_number (mb_sequence_header m))) (dispatched (on_service env ev c n).1)) as Hs.
  { intros c. unfold on_service. destruct (env_shutdown env); [done|]. destruct ev as [m|e| |]; [|done..].
    destruct (mh_message_type (rm_header m)); try done.
    - unfold on_renewal. by destruct (OpenSecureChannelBody_decode_from _) as [q|e|]; [destruct (decode_open_secure_channel_request_fields _) as [[]|e|]|..].
    - unfold on_request. destruct (SecureMessageBody_decode_from _) as [q|e|] eqn:Hq; [|done..]. apply request_range in Hq as [Hq _]; [|exact Hev].
      destruct (validate_message _ _ _) as [[v|e|] ch]; [|done..]. destruct (dispatch _ _ _) as [[p|e|] c']; cbn; by apply Forall_singleton. }
  unfold handle_event. destruct (cn_phase n) as [w|w|c|r w]; [..|done].
  - unfold on_hello. destruct ev as [m|e| |]; [|done..]. case_if; [done|]. by destruct (decode hello_codec _).1.
  - unfold on_open. destruct ev as [m|e| |]; [|done..]. case_if; [done|].
    by destruct (OpenSecureChannelBody_decode_from _) as [q|e|]; [destruct (decode_open_secure_channel_request_fields _) as [[]|e|]|..].
  - apply Hs.
Qed.
Lemma run_dispatched_range inputs : ∀ n, Forall (fun i => event_bytes i.2) inputs →
  Forall (fun m => is_u32 (sequence_number (mb_sequence_header m))) (dispatched (run_connection inputs n).1).
Proof.
  induction inputs as [|[env ev] inputs IH]; intros n Hi; [constructor|]. apply Forall_cons in Hi as [He Hi]. cbn [run_connection].
  pose proof (dispatched_range env ev n He) as Hd. destruct (handle_event env ev n) as [out n']. specialize (IH n' Hi).
  destruct (run_connection inputs n') as [out' n'']. cbn in *. unfold dispatched in *. rewrite omap_app. by apply Forall_app.
Qed.
Lemma ordered_sorted l : ∀ last, 0 <= last → Forall (fun m => is_u32 (sequence_number (mb_sequence_header m))) l → ordered last l →
  StronglySorted Z.lt (filter (fun x => x ≠ 0) ((fun m => sequence_number (mb_sequence_header m)) <$> l)) ∧
  Forall (fun x => last < x) (filter (fun x => x ≠ 0) ((fun m => sequence_number (mb_sequence_header m)) <$> l)).
Proof.
  induction l as [|m l IH]; intros last Hl Hr Ho; [split; constructor|]. apply Forall_cons in Hr as [Hm Hr]. destruct Ho as [Hlt Ho].
  unfold is_u32 in Hm. destruct (IH (sequence_number (mb_sequence_header m)) ltac:(lia) Hr Ho) as [IH1 IH2]. cbn [fmap list_fmap]. rewrite filter_cons. case_decide as Hz; cbn beta in Hz.
  - split; constructor; [done|done|cbn beta in *; lia|]. eapply Forall_impl; [exact IH2|]. cbn beta in *. lia.
  - split; [done|]. eapply Forall_impl; [exact IH2|]. cbn beta in *. lia.
Qed.

(** C7: No request is served twice. In every run in which the peer sends bytes, the requests
    handed to the services all name the channel that was opened, and their sequence numbers,
    those numbered 0 apart, strictly increase: a recorded request sent again is refused, also
    after renewals of the token. *)
Theorem requests_not_replayed g w inputs : Forall (fun i => event_bytes i.2) inputs →
  Forall (fun m => mb_channel_id m = next_channel_id g) (dispatched (run_connection inputs (accept_connection g w)).1) ∧
  StronglySorted Z.lt (filter (fun x => x ≠ 0)
    ((fun m => sequence_number (mb_sequence_header m)) <$> dispatched (run_connection inputs (accept_connection g w)).1)).
Proof.
  intros Hi. destruct (run_ordered inputs (accept_connection g w) g 1 0) as [Ho Hc]; [split; [int_lia|done]|]. split; [exact Hc|].
  apply (ordered_sorted _ 0); [lia|by apply run_dispatched_range|done].
Qed.

(** The channel's numbers fit their fields. *)
Definition channel_ok (c : SecureChannel) : Prop :=
  is_u32 (sc_channel_id c) ∧ is_u32 (sc_token_id c) ∧ is_u32 (sc_server_sequence_number c).
Definition served (env : Env) (request : SecureMessageBody) (c : ServiceContext) : list Effect * outcome ServiceError (list Z) * ServiceContext :=
  match validate_message (env_now_ms env) request (cx_channel c) with
  | (Ok _, ch) => let '(r, c) := dispatch (env_now env) (mb_payload request) (ctx_set_channel ch c) in ([Dispatched request], r, c)
  | (Err e, ch) => ([], Err (SvOpcUa e), ctx_set_channel ch c)
  | (Panic, ch) => ([], Panic, ctx_set_channel ch c)
  end.
Definition answer (env : Env) (request : SecureMessageBody) (r : outcome ServiceError (list Z)) : list Z :=
  match r with
  | Ok payload => payload
  | Err e => build_service_fault (env_now env) (request_id (mb_sequence_header request)) (status_code e)
  | Panic => []
  end.

(** A message body has its four numbers, or it is not decoded. *)
Lemma u32_step {B} l (k : Z → Dec B) :
  st_bind (decode u32_codec) k l = if zlen l <? 4 then (Err ECodec, l) else k (le_value (take 4 l)) (drop 4 l).
Proof.
  cbn [decode u32_codec unsigned_codec]. unfold st_bind, read_le, ensure_remaining, split_to, st_bind, st_ret.
  change (Z.of_nat 4) with 4. change (Z.to_nat 4) with 4%nat. destruct (zlen l <? 4) eqn:H; [done|]. by rewrite H.
Qed.
Lemma zlen_drop4 {A} (l : list A) : 4 <= zlen l → zlen (drop 4 l) = zlen l - 4.
Proof. unfold zlen. rewrite length_drop. lia. Qed.
Lemma request_decoded body :
  SecureMessageBody_decode_from body =
  if zlen body <? 16 then Err ECodec
  else Ok {| mb_channel_id := le_value (take 4 body); mb_token_id := le_value (take 4 (drop 4 body));
             mb_sequence_header := {| sequence_number := le_value (take 4 (drop 4 (drop 4 body)));
                                      request_id := le_value (take 4 (drop 4 (drop 4 (drop 4 body)))) |};
             mb_payload := drop 4 (drop 4 (drop 4 (drop 4 body))) |}.
Proof.
  unfold SecureMessageBody_decode_from. rewrite u32_step. destruct (Z.ltb_spec (zlen body) 4); [rewrite (proj2 (Z.ltb_lt _ _)) by lia; done|].
  rewrite u32_step, zlen_drop4 by lia. destruct (Z.ltb_spec (zlen body - 4) 4); [rewrite (proj2 (Z.ltb_lt _ _)) by lia; done|].
  unfold st_bind at 1. cbn [decode sequence_codec]. rewrite u32_step, !zlen_drop4 by (rewrite ?zlen_drop4; lia).
  destruct (Z.ltb_spec (zlen body - 4 - 4) 4); [rewrite (proj2 (Z.ltb_lt _ _)) by lia; done|].
  rewrite u32_step, !zlen_drop4 by (rewrite ?zlen_drop4; rewrite ?zlen_drop4; lia).
  destruct (Z.ltb_spec (zlen body - 4 - 4 - 4) 4); [rewrite (proj2 (Z.ltb_lt _ _)) by lia; done|].
  rewrite (proj2 (Z.ltb_ge _ _)) by lia. reflexivity.
Qed.
Lemma set_phase_same c n : cn_phase n = Serving c → set_phase (Serving c) n = n.
Proof. destruct n. cbn. by intros ->. Qed.

(** C12: What becomes of a service request on an open channel, whatever bytes its message carries.
    Three kinds get no answer: a body too short for the four numbers of a request is dropped and
    changes nothing; a server that is shutting down ends the connection; and so does a service that
    panics on the request (the model's outcome also for the read of a base attribute, which never
    returns).  Any other is handed to the services exactly when the channel finds it valid, and is
    answered by one message under the channel's identifier, its token and its next sequence number,
    with the request's own identifier, that carries what the service answered, or the fault with the
    status of the error; the connection then goes on serving, unless the answer of a served request
    cannot be sent, which ends it.  The channel's numbers are assumed to fit their 32-bit fields. *)
Theorem request_answered env m c n :
  cn_phase n = Serving c → channel_ok (cx_channel c) → bytes_ok (rm_body m) → mh_message_type (rm_header m) = MtMessage →
  let '(out, n') := handle_event env (EvMessage m) n in
  if env_shutdown env then out = [] ∧ cn_phase n' = Finished (Ok tt) (cx_world c)
  else if zlen (rm_body m) <? 16 then out = [] ∧ n' = n
  else ∃ request, SecureMessageBody_decode_from (rm_body m) = Ok request ∧
    match (served env request c).1.2 with
    | Panic => out = [Dispatched request] ∧ ∃ w, cn_phase n' = Finished Panic w
    | r =>
        ∃ response c', out = (served env request c).1.1 ++ [Sent response] ∧
          (if env_send_ok env || bool_decide ((served env request c).1.1 = []) then cn_phase n' = Serving c'
           else ∃ e, cn_phase n' = Finished e (cx_world c')) ∧
          cx_world c' = cx_world (served env request c).2 ∧
          mh_message_type (rm_header response) = MtMessage ∧
          SecureMessageBody_decode_from (rm_body response) =
            Ok {| mb_channel_id := sc_channel_id (cx_channel c); mb_token_id := sc_token_id (cx_channel c);
                  mb_sequence_header := {| sequence_number := sc_server_sequence_number (cx_channel c);
                                           request_id := request_id (mb_sequence_header request) |};
                  mb_payload := answer env request r |}
    end.
Proof.
  intros Hp (Hc1 & Hc2 & Hc3) Hb Ht. unfold handle_event, on_service. rewrite Hp, Ht. destruct (env_shutdown env); [done|].
  pose proof (request_decoded (rm_body m)) as Hd. unfold on_request, served. destruct (zlen (rm_body m) <? 16).
  { rewrite Hd. by rewrite (set_phase_same c n Hp). }
  match type of Hd with _ = Ok ?q => generalize dependent q end. intros request Hq. pose proof (request_range _ _ Hb Hq) as [_ Hrid]. rewrite Hq.
  destruct (validate_message_cases (env_now_ms env) request (cx_channel c)) as [[e Hv]|(ch & Hv & _ & _ & _ & _ & Hch & _)]; rewrite Hv.
  - exists request. split; [done|]. rewrite Hv. cbn [fst snd]. do 2 eexists. split_and!; [done|rewrite bool_decide_true, orb_true_r; done|done|done|].
    cbn [rm_body build_response answer]. rewrite msg_body_read. unfold header_read. cbn [sequence_number request_id]. by rewrite !u32_read_id.
  - assert (sc_channel_id ch = sc_channel_id (cx_channel c) ∧ sc_token_id ch = sc_token_id (cx_channel c) ∧
            sc_server_sequence_number ch = sc_server_sequence_number (cx_channel c)) as (H1 & H2 & H3).
    { rewrite Hch. unfold validate_sequence_number. by case_if. }
    pose proof (dispatch_channel (env_now env) (mb_payload request) (ctx_set_channel ch c)) as (Hd1 & Hd2 & _ & Hd4 & _).
    destruct (dispatch _ _ _) as [r c'] eqn:Hr. cbn [snd cx_channel ctx_set_channel fst] in *.
    destruct r as [payload|e|]; (exists request; split; [done|]; rewrite Hv, Hr; cbn [fst snd]);
      [..|split; [done|by eexists]]; do 2 eexists; (split_and!; [done|rewrite bool_decide_false, orb_false_r by done; destruct (env_send_ok env); by eauto|done|done|]);
      cbn [rm_body build_response answer]; rewrite msg_body_read; unfold header_read;
      cbn [sequence_number request_id next_server_sequence_number sc_channel_id sc_token_id fst snd];
      by rewrite Hd1, Hd2, Hd4, H1, H2, H3, !u32_read_id.
Qed.
End Transport.

(* ------------------------------------------------------------------ *)
(** * A conversation *)

#[local] Existing Instance demo_externals.
(** Services that return the payload. *)
Definition echo (now : DateTime) (payload : list Z) : stM (ServiceContext (S:=unit)) ServiceError (list Z) := fun c => (Ok payload, c).
#[local] Instance echo_dispatcher : Dispatcher echo.
Proof. by intros now payload c. Qed.

Definition demo_env : Env :=
  {| env_now := at_time 1700000000 0; env_now_ms := 1000; env_send_ok := true; env_shutdown := false; env_buffer_size := 65535 |}.
Definition demo_hello : RawMessage :=
  build_response MtHello (encode hello_codec {| he_protocol_version := 0; he_receive_buffer_size := 65535; he_send_buffer_size := 65535;
    he_max_message_size := 0; he_max_chunk_count := 0; he_endpoint_url := [] |}).
Definition demo_open : RawMessage :=
  build_response MtOpenSecureChannel (build_opn_response_body 0 {| sequence_number := 1; request_id := 1 |}
    (encode node_id_codec (NodeId_numeric 0 446) ++ encode node_id_codec (NodeId_numeric 0 0) ++ encode date_time_codec (at_time 0 0) ++
     encode u32_codec 1 ++ encode u32_codec 0 ++ encode string_codec [] ++ encode u32_codec 0 ++
     encode extension_object_codec {| eo_type_id := NodeId_numeric 0 0; eo_body := None |} ++
     encode u32_codec 0 ++ encode u32_codec 0 ++ encode u32_codec 1 ++ encode byte_string_codec [] ++ encode u32_codec 60000)).
Definition demo_request (n : Z) : RawMessage :=
  build_response MtMessage (build_msg_response_body 7 9 {| sequence_number := n; request_id := 40 + n |} [1; 2; 3]).
Definition demo_world : World (S:=unit) :=
  {| w_session_manager := SessionManager_with_config SessionManagerConfig_default; w_node_id_counter := 1000; w_managers := tt |}.
Definition demo_counters : ChannelCounters := {| next_channel_id := 7; next_token_id := 9 |}.
(** The handshake, two requests with the first sent again between them, and the close. *)
Definition demo_inputs : list (Env * Event) :=
  (fun m => (demo_env, EvMessage m)) <$>
  [demo_hello; demo_open; demo_request 51; demo_request 51; demo_request 52; build_response MtCloseSecureChannel []].
Definition demo_serving : Connection := (run_connection echo (take 2 demo_inputs) (accept_connection demo_counters demo_world)).2.

Example demo_numbers : sent_numbers (run_connection echo demo_inputs (accept_connection demo_counters demo_world)).1 = [1; 2; 3; 4; 5].
Proof. by vm_compute. Qed.
Example demo_dispatched :
  (fun m => sequence_number (mb_sequence_header m)) <$> dispatched (run_connection echo demo_inputs (accept_connection demo_counters demo_world)).1 = [51; 52].
Proof. by vm_compute. Qed.

Lemma responses_numbered_witness :
  sent_numbers (run_connection echo demo_inputs (accept_connection demo_counters demo_world)).1 = [1; 2; 3; 4; 5].
Proof. rewrite (responses_numbered echo demo_counters demo_world demo_inputs). by vm_compute. Defined.
Lemma requests_not_replayed_witness :
  StronglySorted Z.lt (filter (fun x => x ≠ 0)
    ((fun m => sequence_number (mb_sequence_header m)) <$> dispatched (run_connection echo demo_inputs (accept_connection demo_counters demo_world)).1)).
Proof.
  apply (requests_not_replayed echo demo_counters demo_world demo_inputs). unfold demo_inputs. cbn [fmap list_fmap].
  repeat (constructor; [cbn [event_bytes snd]; bytes_compute|]). constructor.
Defined.

Definition demo_context : ServiceContext := match cn_phase demo_serving with Serving c => c | _ => build_service_context demo_world (new_unsecured 0 demo_counters).1 end.
Lemma demo_phase : cn_phase demo_serving = Serving demo_context.
Proof.
  assert (match cn_phase demo_serving with Serving _ => true | _ => false end = true) as H by (by vm_compute).
  unfold demo_context. by destruct (cn_phase demo_serving).
Qed.
Lemma not_panic {E A} (o : outcome E A) : (match o with Panic => true | _ => false end) = false → o ≠ Panic.
Proof. by destruct o. Qed.
Definition demo_body (n : Z) : SecureMessageBody :=
  {| mb_channel_id := 7; mb_token_id := 9; mb_sequence_header := {| sequence_number := n; request_id := 40 + n |}; mb_payload := [1; 2; 3] |}.
Lemma demo_served : (served echo demo_env (demo_body 51) demo_context).1.2 ≠ Panic.
Proof. apply not_panic. by vm_compute. Qed.
Lemma request_answered_witness :
  ∃ request response c', SecureMessageBody_decode_from (rm_body (demo_request 51)) = Ok request ∧
    (handle_event echo demo_env (EvMessage (demo_request 51)) demo_serving).1 = (served echo demo_env request demo_context).1.1 ++ [Sent response] ∧
    cn_phase (handle_event echo demo_env (EvMessage (demo_request 51)) demo_serving).2 = Serving c' ∧
    SecureMessageBody_decode_from (rm_body response) =
      Ok {| mb_channel_id := sc_channel_id (cx_channel demo_context); mb_token_id := sc_token_id (cx_channel demo_context);
            mb_sequence_header := {| sequence_number := sc_server_sequence_number (cx_channel demo_context);
                                     request_id := request_id (mb_sequence_header request) |};
            mb_payload := answer demo_env request (served echo demo_env request demo_context).1.2 |}.
Proof.
  pose proof (request_answered echo demo_env (demo_request 51) demo_context demo_serving demo_phase
    ltac:(by vm_compute) ltac:(bytes_compute) eq_refl) as H.
  destruct (handle_event echo demo_env (EvMessage (demo_request 51)) demo_serving) as [out n'].
  assert ((zlen (rm_body (demo_request 51)) <? 16) = false) as Hl by (by vm_compute). rewrite Hl in H. cbn [env_shutdown demo_env] in H.
  assert (SecureMessageBody_decode_from (rm_body (demo_request 51)) = Ok (demo_body 51)) as Hd by (by vm_compute).
  destruct H as (request & Hq & H). assert (request = demo_body 51) as -> by congruence.
  pose proof demo_served as Hp. exists (demo_body 51). revert H Hp. generalize (served echo demo_env (demo_body 51) demo_context).
  intros [[effects [payload|e|]] c]; cbn [fst snd]; intros H Hp; [..|by destruct Hp];
    destruct H as (response & c' & -> & Hn & _ & _ & Hm); exists response, c'; exact (conj Hd (conj eq_refl (conj Hn Hm))).
Defined.
