(* ===== verification/OpcuaNodes.v ===== *)
(** OPC UA nodes and references ([mabi-opcua/src/nodes/base.rs], [classes.rs], [reference.rs];
    attributes and access levels of [types/attribute.rs]).

    The trait objects of the eight node classes are the constructors of [Node].  Floats are bit
    patterns; the time a method reads is an argument.  A method that calls itself uses stack: the
    number of frames the thread has left is an argument, and running out of it ends the process,
    as a panic does. *)

From S2P Require Import Prelude Text OpcuaCodec.

(* ------------------------------------------------------------------ *)
(** * Attributes *)

Inductive AttributeId : Set :=
| ANodeId | ANodeClass | ABrowseName | ADisplayName | ADescription | AWriteMask | AUserWriteMask | AIsAbstract | ASymmetric
| AInverseName | AContainsNoLoops | AEventNotifier | AValue | ADataType | AValueRank | AArrayDimensions | AAccessLevel
| AUserAccessLevel | AMinimumSamplingInterval | AHistorizing | AExecutable | AUserExecutable | ADataTypeDefinition
| ARolePermissions | AUserRolePermissions | AAccessRestrictions | AAccessLevelEx.
#[global] Instance AttributeId_eq : EqDecision AttributeId.
Proof. solve_decision. Defined.
Definition attribute_u32 (a : AttributeId) : Z :=
  match a with
  | ANodeId => 1 | ANodeClass => 2 | ABrowseName => 3 | ADisplayName => 4 | ADescription => 5 | AWriteMask => 6
  | AUserWriteMask => 7 | AIsAbstract => 8 | ASymmetric => 9 | AInverseName => 10 | AContainsNoLoops => 11
  | AEventNotifier => 12 | AValue => 13 | ADataType => 14 | AValueRank => 15 | AArrayDimensions => 16 | AAccessLevel => 17
  | AUserAccessLevel => 18 | AMinimumSamplingInterval => 19 | AHistorizing => 20 | AExecutable => 21 | AUserExecutable => 22
  | ADataTypeDefinition => 23 | ARolePermissions => 24 | AUserRolePermissions => 25 | AAccessRestrictions => 26
  | AAccessLevelEx => 27
  end.
Definition all_attributes : list AttributeId :=
  [ANodeId; ANodeClass; ABrowseName; ADisplayName; ADescription; AWriteMask; AUserWriteMask; AIsAbstract; ASymmetric;
   AInverseName; AContainsNoLoops; AEventNotifier; AValue; ADataType; AValueRank; AArrayDimensions; AAccessLevel;
   AUserAccessLevel; AMinimumSamplingInterval; AHistorizing; AExecutable; AUserExecutable; ADataTypeDefinition;
   ARolePermissions; AUserRolePermissions; AAccessRestrictions; AAccessLevelEx].
(** The match on the 27 numbers. *)
Definition attribute_from_u32 (v : Z) : option AttributeId := head (filter (fun a => attribute_u32 a = v) all_attributes).

Definition CURRENT_READ : Z := 0x01.
Definition CURRENT_WRITE : Z := 0x02.
Definition HISTORY_READ : Z := 0x04.
Definition HISTORY_WRITE : Z := 0x08.
Definition READ_WRITE : Z := 0x03.
Definition can_read (level : Z) : bool := negb (Z.land level CURRENT_READ =? 0).
Definition can_write (level : Z) : bool := negb (Z.land level CURRENT_WRITE =? 0).
Definition can_read_history (level : Z) : bool := negb (Z.land level HISTORY_READ =? 0).
Definition can_write_history (level : Z) : bool := negb (Z.land level HISTORY_WRITE =? 0).
Definition WRITE_MASK_NONE : Z := 0.

Inductive NodeClass : Set :=
| CUnspecified | CObject | CVariable | CMethod | CObjectType | CVariableType | CReferenceType | CDataType | CView.
#[global] Instance NodeClass_eq : EqDecision NodeClass.
Proof. solve_decision. Defined.
Definition class_u32 (c : NodeClass) : Z :=
  match c with
  | CUnspecified => 0 | CObject => 1 | CVariable => 2 | CMethod => 4 | CObjectType => 8 | CVariableType => 16
  | CReferenceType => 32 | CDataType => 64 | CView => 128
  end.

Definition QualifiedName_null (name : list Z) : QualifiedName := {| qn_namespace_index := 0; qn_name := name |}.
(** [Display]. *)
Definition qualified_name_text (q : QualifiedName) : list Z :=
  if qn_namespace_index q =? 0 then qn_name q else decimal (qn_namespace_index q) ++ [58] ++ qn_name q.
Definition LocalizedText_invariant (text : list Z) : LocalizedText := {| lt_locale := []; lt_text := text |}.

Section Nodes.
Context `{X : Externals}.

Definition root_folder : NodeId := NodeId_numeric 0 84.
Definition objects_folder : NodeId := NodeId_numeric 0 85.
Definition types_folder : NodeId := NodeId_numeric 0 86.
Definition views_folder : NodeId := NodeId_numeric 0 87.
Definition server_node : NodeId := NodeId_numeric 0 2253.

(* ------------------------------------------------------------------ *)
(** * Node classes *)

Record NodeBase : Set := {
  nb_node_id : NodeId; nb_node_class : NodeClass; nb_browse_name : QualifiedName; nb_display_name : LocalizedText;
  nb_description : LocalizedText; nb_write_mask : Z; nb_user_write_mask : Z
}.
Definition NodeBase_new (id : NodeId) (c : NodeClass) (browse : QualifiedName) (display : LocalizedText) : NodeBase :=
  {| nb_node_id := id; nb_node_class := c; nb_browse_name := browse; nb_display_name := display;
     nb_description := LocalizedText_invariant []; nb_write_mask := WRITE_MASK_NONE; nb_user_write_mask := WRITE_MASK_NONE |}.

Record VariableNode : Set := {
  vn_base : NodeBase; vn_value : DataValue; vn_data_type : NodeId; vn_value_rank : Z; vn_array_dimensions : option (list Z);
  vn_access_level : Z; vn_user_access_level : Z; vn_minimum_sampling_interval : Z; vn_historizing : bool
}.
Record VariableTypeNode : Set := {
  vt_base : NodeBase; vt_value : option DataValue; vt_data_type : NodeId; vt_value_rank : Z;
  vt_array_dimensions : option (list Z); vt_is_abstract : bool
}.
Inductive Node : Set :=
| NObject (base : NodeBase) (event_notifier : Z)
| NVariable (v : VariableNode)
| NMethod (base : NodeBase) (executable user_executable : bool)
| NObjectType (base : NodeBase) (is_abstract : bool)
| NVariableType (v : VariableTypeNode)
| NReferenceType (base : NodeBase) (is_abstract symmetric : bool) (inverse_name : option LocalizedText)
| NDataType (base : NodeBase) (is_abstract : bool)
| NView (base : NodeBase) (contains_no_loops : bool) (event_notifier : Z).

Definition ObjectNode_new (id : NodeId) (browse : QualifiedName) (display : LocalizedText) : Node :=
  NObject (NodeBase_new id CObject browse display) 0.
Definition with_event_notifier (e : Z) (n : Node) : Node := match n with NObject b _ => NObject b e | _ => n end.
Definition VariableNode_new (now : DateTime) (id : NodeId) (browse : QualifiedName) (display : LocalizedText) (data_type : NodeId)
    (value : Variant) : VariableNode :=
  {| vn_base := NodeBase_new id CVariable browse display; vn_value := DataValue_new now value; vn_data_type := data_type;
     vn_value_rank := -1; vn_array_dimensions := None; vn_access_level := CURRENT_READ; vn_user_access_level := CURRENT_READ;
     vn_minimum_sampling_interval := 0; vn_historizing := false |}.
Definition with_access_level (level : Z) (v : VariableNode) : VariableNode :=
  {| vn_base := vn_base v; vn_value := vn_value v; vn_data_type := vn_data_type v; vn_value_rank := vn_value_rank v;
     vn_array_dimensions := vn_array_dimensions v; vn_access_level := level; vn_user_access_level := level;
     vn_minimum_sampling_interval := vn_minimum_sampling_interval v; vn_historizing := vn_historizing v |}.
Definition writable (v : VariableNode) : VariableNode := with_access_level READ_WRITE v.
Definition with_historizing (h : bool) (v : VariableNode) : VariableNode :=
  {| vn_base := vn_base v; vn_value := vn_value v; vn_data_type := vn_data_type v; vn_value_rank := vn_value_rank v;
     vn_array_dimensions := vn_array_dimensions v;
     vn_access_level := if h then Z.lor (vn_access_level v) HISTORY_READ else vn_access_level v;
     vn_user_access_level := if h then Z.lor (vn_user_access_level v) HISTORY_READ else vn_user_access_level v;
     vn_minimum_sampling_interval := vn_minimum_sampling_interval v; vn_historizing := h |}.
Definition with_array (rank : Z) (dimensions : option (list Z)) (v : VariableNode) : VariableNode :=
  {| vn_base := vn_base v; vn_value := vn_value v; vn_data_type := vn_data_type v; vn_value_rank := rank;
     vn_array_dimensions := dimensions; vn_access_level := vn_access_level v; vn_user_access_level := vn_user_access_level v;
     vn_minimum_sampling_interval := vn_minimum_sampling_interval v; vn_historizing := vn_historizing v |}.
Definition update_value (d : DataValue) (v : VariableNode) : VariableNode :=
  {| vn_base := vn_base v; vn_value := d; vn_data_type := vn_data_type v; vn_value_rank := vn_value_rank v;
     vn_array_dimensions := vn_array_dimensions v; vn_access_level := vn_access_level v;
     vn_user_access_level := vn_user_access_level v; vn_minimum_sampling_interval := vn_minimum_sampling_interval v;
     vn_historizing := vn_historizing v |}.
Definition MethodNode_new (id : NodeId) (browse : QualifiedName) (display : LocalizedText) : Node :=
  NMethod (NodeBase_new id CMethod browse display) true true.
Definition ObjectTypeNode_new (id : NodeId) (browse : QualifiedName) (display : LocalizedText) (is_abstract : bool) : Node :=
  NObjectType (NodeBase_new id CObjectType browse display) is_abstract.
Definition VariableTypeNode_new (id : NodeId) (browse : QualifiedName) (display : LocalizedText) (data_type : NodeId) : Node :=
  NVariableType {| vt_base := NodeBase_new id CVariableType browse display; vt_value := None; vt_data_type := data_type;
                   vt_value_rank := -1; vt_array_dimensions := None; vt_is_abstract := false |}.
Definition ReferenceTypeNode_new (id : NodeId) (browse : QualifiedName) (display : LocalizedText) : Node :=
  NReferenceType (NodeBase_new id CReferenceType browse display) false false None.
Definition DataTypeNode_new (id : NodeId) (browse : QualifiedName) (display : LocalizedText) (is_abstract : bool) : Node :=
  NDataType (NodeBase_new id CDataType browse display) is_abstract.
Definition ViewNode_new (id : NodeId) (browse : QualifiedName) (display : LocalizedText) : Node :=
  NView (NodeBase_new id CView browse display) true 0.

Definition node_base (n : Node) : NodeBase :=
  match n with
  | NObject b _ | NMethod b _ _ | NObjectType b _ | NReferenceType b _ _ _ | NDataType b _ | NView b _ _ => b
  | NVariable v => vn_base v
  | NVariableType v => vt_base v
  end.
Definition node_id (n : Node) : NodeId := nb_node_id (node_base n).
Definition browse_name (n : Node) : QualifiedName := nb_browse_name (node_base n).
Definition display_name (n : Node) : LocalizedText := nb_display_name (node_base n).
Definition node_class (n : Node) : NodeClass :=
  match n with
  | NObject _ _ => CObject | NVariable _ => CVariable | NMethod _ _ _ => CMethod | NObjectType _ _ => CObjectType
  | NVariableType _ => CVariableType | NReferenceType _ _ _ _ => CReferenceType | NDataType _ _ => CDataType
  | NView _ _ _ => CView
  end.

(** The body the trait provides. *)
Definition default_read_attribute (now : DateTime) (n : Node) (a : AttributeId) : DataValue :=
  match a with
  | ANodeId => DataValue_new now (VNodeId (node_id n))
  | ANodeClass => DataValue_new now (VUInt32 (class_u32 (node_class n)))
  | ABrowseName => DataValue_new now (VString (qualified_name_text (browse_name n)))
  | ADisplayName => DataValue_new now (VString (lt_text (display_name n)))
  | ADescription => DataValue_new now (VString (lt_text (nb_description (node_base n))))
  | AWriteMask => DataValue_new now (VUInt32 (nb_write_mask (node_base n)))
  | AUserWriteMask => DataValue_new now (VUInt32 (nb_user_write_mask (node_base n)))
  | _ => DataValue_bad now BAD_ATTRIBUTE_ID_INVALID
  end.
(** In the classes that override the method, [Node::read_attribute(self, id)] names the override
    itself: the call recurses with the same arguments. *)
Fixpoint read_attribute (now : DateTime) (stack : nat) (n : Node) (a : AttributeId) : outcome OpcUaError DataValue :=
  match stack with
  | O => Panic
  | S stack =>
      match n with
      | NObject _ event_notifier =>
          match a with
          | AEventNotifier => Ok (DataValue_new now (VByte event_notifier))
          | _ => read_attribute now stack n a
          end
      | NVariable v =>
          match a with
          | AValue => Ok (vn_value v)
          | ADataType => Ok (DataValue_new now (VNodeId (vn_data_type v)))
          | AValueRank => Ok (DataValue_new now (VInt32 (vn_value_rank v)))
          | AArrayDimensions => Ok (match vn_array_dimensions v with
                                    | Some dims => DataValue_new now (VArray (AvUInt32 dims))
                                    | None => DataValue_null
                                    end)
          | AAccessLevel => Ok (DataValue_new now (VByte (vn_access_level v)))
          | AUserAccessLevel => Ok (DataValue_new now (VByte (vn_user_access_level v)))
          | AMinimumSamplingInterval => Ok (DataValue_new now (VDouble (vn_minimum_sampling_interval v)))
          | AHistorizing => Ok (DataValue_new now (VBoolean (vn_historizing v)))
          | _ => read_attribute now stack n a
          end
      | NMethod _ executable user_executable =>
          match a with
          | AExecutable => Ok (DataValue_new now (VBoolean executable))
          | AUserExecutable => Ok (DataValue_new now (VBoolean user_executable))
          | _ => read_attribute now stack n a
          end
      | NObjectType _ is_abstract =>
          match a with
          | AIsAbstract => Ok (DataValue_new now (VBoolean is_abstract))
          | _ => read_attribute now stack n a
          end
      | NVariableType _ | NReferenceType _ _ _ _ | NDataType _ _ | NView _ _ _ => Ok (default_read_attribute now n a)
      end
  end.
Definition write_attribute (now : DateTime) (a : AttributeId) (value : DataValue) (n : Node) : StatusCode * Node :=
  match n with
  | NVariable v =>
      match a with
      | AValue =>
          if negb (can_write (vn_access_level v)) then (BAD_NOT_WRITABLE, n)
          else match dv_value value with
               | Some x => (GOOD, NVariable (update_value (DataValue_new now x) v))
               | None => (BAD_INVALID_ARGUMENT, n)
               end
      | _ => (BAD_NOT_WRITABLE, n)
      end
  | _ => (BAD_NOT_WRITABLE, n)
  end.

(* ------------------------------------------------------------------ *)
(** * References *)

Inductive ReferenceTypeId : Set :=
| RReferences | RNonHierarchicalReferences | RHierarchicalReferences | RHasChild | ROrganizes | RHasComponent | RHasProperty
| RHasSubtype | RHasTypeDefinition | RHasModellingRule | RHasEncoding | RHasDescription | RGeneratesEvent
| RAlwaysGeneratesEvent | RHasEventSource | RHasNotifier | RAggregates | RHasOrderedComponent | RFromState | RToState
| RHasCause | RHasEffect | RHasHistoricalConfiguration | RCustom (id : Z).
#[global] Instance ReferenceTypeId_eq : EqDecision ReferenceTypeId.
Proof. solve_decision. Defined.
Definition reference_number (r : ReferenceTypeId) : Z :=
  match r with
  | RReferences => 31 | RNonHierarchicalReferences => 32 | RHierarchicalReferences => 33 | RHasChild => 34 | ROrganizes => 35
  | RHasComponent => 47 | RHasProperty => 46 | RHasSubtype => 45 | RHasTypeDefinition => 40 | RHasModellingRule => 37
  | RHasEncoding => 38 | RHasDescription => 39 | RGeneratesEvent => 41 | RAlwaysGeneratesEvent => 3065 | RHasEventSource => 36
  | RHasNotifier => 48 | RAggregates => 44 | RHasOrderedComponent => 49 | RFromState => 51 | RToState => 52 | RHasCause => 53
  | RHasEffect => 54 | RHasHistoricalConfiguration => 56 | RCustom id => id
  end.
Definition reference_node_id (r : ReferenceTypeId) : NodeId := NodeId_numeric 0 (reference_number r).
Definition standard_references : list ReferenceTypeId :=
  [RReferences; RNonHierarchicalReferences; RHierarchicalReferences; RHasChild; ROrganizes; RHasComponent; RHasProperty;
   RHasSubtype; RHasTypeDefinition; RHasModellingRule; RHasEncoding; RHasDescription; RGeneratesEvent; RAlwaysGeneratesEvent;
   RHasEventSource; RHasNotifier; RAggregates; RHasOrderedComponent; RFromState; RToState; RHasCause; RHasEffect;
   RHasHistoricalConfiguration].
(** The match on the numbers, [Custom] for the others. *)
Definition reference_from_node_id (n : NodeId) : option ReferenceTypeId :=
  if negb (namespace n =? 0) then None
  else match as_numeric n with
       | None => None
       | Some id => Some (default (RCustom id) (head (filter (fun r => reference_number r = id) standard_references)))
       end.
Definition is_hierarchical (r : ReferenceTypeId) : bool :=
  match r with
  | RHierarchicalReferences | RHasChild | ROrganizes | RHasComponent | RHasProperty | RHasSubtype | RAggregates
  | RHasOrderedComponent | RHasEventSource | RHasNotifier => true
  | _ => false
  end.

Inductive BrowseDirection : Set := BForward | BInverse | BBoth.
(** The direction is forward or inverse. *)
Record Reference : Set := { rf_source : NodeId; rf_type : ReferenceTypeId; rf_target : NodeId; rf_forward : bool }.
#[global] Instance Reference_eq : EqDecision Reference.
Proof. solve_decision. Defined.
Definition forward (source : NodeId) (t : ReferenceTypeId) (target : NodeId) : Reference :=
  {| rf_source := source; rf_type := t; rf_target := target; rf_forward := true |}.
Definition organizes (parent child : NodeId) : Reference := forward parent ROrganizes child.
Definition has_component (parent component : NodeId) : Reference := forward parent RHasComponent component.
Definition has_property (parent property : NodeId) : Reference := forward parent RHasProperty property.
Definition has_subtype (parent subtype : NodeId) : Reference := forward parent RHasSubtype subtype.
Definition inverse_ref (r : Reference) : Reference :=
  {| rf_source := rf_target r; rf_type := rf_type r; rf_target := rf_source r; rf_forward := negb (rf_forward r) |}.

Record ReferenceDescription : Set := {
  rd_reference_type_id : NodeId; rd_is_forward : bool; rd_node_id : NodeId; rd_browse_name : QualifiedName;
  rd_display_name : LocalizedText; rd_node_class : NodeClass; rd_type_definition : option NodeId
}.
Definition ReferenceDescription_new (t : ReferenceTypeId) (is_forward : bool) (target : Node) (target_id : NodeId) : ReferenceDescription :=
  {| rd_reference_type_id := reference_node_id t; rd_is_forward := is_forward; rd_node_id := target_id;
     rd_browse_name := browse_name target; rd_display_name := display_name target; rd_node_class := node_class target;
     rd_type_definition := None |}.
Record BrowseResult : Set := { br_references : list ReferenceDescription; br_continuation_point : option (list Z) }.
Definition BrowseResult_new (l : list ReferenceDescription) : BrowseResult := {| br_references := l; br_continuation_point := None |}.
Definition BrowseResult_default : BrowseResult := BrowseResult_new [].

(* ------------------------------------------------------------------ *)
(** * Which reads return *)

(** The attributes a class answers in its own arm, or through the body of the trait. *)
Definition answers (n : Node) (a : AttributeId) : bool :=
  match n with
  | NObject _ _ => bool_decide (a = AEventNotifier)
  | NVariable _ => bool_decide (a ∈ [AValue; ADataType; AValueRank; AArrayDimensions; AAccessLevel; AUserAccessLevel;
                                     AMinimumSamplingInterval; AHistorizing])
  | NMethod _ _ _ => bool_decide (a ∈ [AExecutable; AUserExecutable])
  | NObjectType _ _ => bool_decide (a = AIsAbstract)
  | _ => true
  end.
Lemma answers_read now stack n a : answers n a = true → ∃ v, read_attribute now (S stack) n a = Ok v.
Proof. destruct n, a; cbn; intros [=]; eauto. Qed.
Lemma unanswered_read now stack n a : answers n a = false → read_attribute now stack n a = Panic.
Proof. intros Ha. induction stack as [|stack IH]; [done|]. cbn [read_attribute]. destruct n, a; first [done|exact IH]. Qed.

(** Reading an attribute outside a class's own list never returns. For objects, variables,
    methods and object types, an attribute that the override does not answer itself, such as the
    node identifier, the class, the browse name or the display name, sends the override into
    itself until the stack is exhausted, whatever its size; all other reads return with a single
    frame. *)
Theorem base_attributes_exhaust_stack now n a :
  (answers n a = false → ∀ stack, read_attribute now stack n a = Panic) ∧
  (answers n a = true → ∀ stack, ∃ v, read_attribute now (S stack) n a = Ok v).
Proof. split; [intros; by apply unanswered_read|intros; by apply answers_read]. Qed.

(** A number names one attribute. *)
Lemma attribute_roundtrip a : attribute_from_u32 (attribute_u32 a) = Some a.
Proof. by destruct a. Qed.
Lemma reference_roundtrip r : (∀ id, r = RCustom id → id ∉ (reference_number <$> standard_references)) →
  reference_from_node_id (reference_node_id r) = Some r.
Proof.
  intros Hr. destruct r as [| | | | | | | | | | | | | | | | | | | | | | |id]; try reflexivity.
  unfold reference_from_node_id, reference_node_id, NodeId_numeric. cbn [namespace as_numeric identifier reference_number].
  specialize (Hr id eq_refl). replace (filter _ standard_references) with (@nil ReferenceTypeId); [done|]. symmetry.
  destruct (filter _ standard_references) as [|r l] eqn:E; [done|]. exfalso.
  assert (r ∈ filter (fun r => reference_number r = id) standard_references) as Hin by (rewrite E; left).
  apply list_elem_of_filter in Hin as [<- Hin]. by apply Hr, list_elem_of_fmap_2.
Qed.
End Nodes.

#[local] Existing Instance demo_externals.
Lemma base_attributes_exhaust_stack_witness :
  read_attribute (at_time 0 0) 1000 (ObjectNode_new root_folder (QualifiedName_null (str "Root")) (LocalizedText_invariant (str "Root"))) ADisplayName = Panic.
Proof.
  apply (base_attributes_exhaust_stack (at_time 0 0)
    (ObjectNode_new root_folder (QualifiedName_null (str "Root")) (LocalizedText_invariant (str "Root"))) ADisplayName). reflexivity.
Defined.
