(* ===== verification/OpcuaSpace.v ===== *)
(** The OPC UA address space ([mabi-opcua/src/sdk/address_space/mod.rs], [nodes/store.rs]):
    namespaces and their managers, the node store, the reference index, browsing with
    continuation points, browse paths, the type hierarchy and the standard nodes.

    The concurrent maps are finite maps and an operation is one step; the order in which a map
    is iterated is that of [map_to_list].  The managers of the crate are the constructors of
    [NodeManager]: none of them handles a read, write or browse itself, so the operations fall
    through to the stores.  Plug-ins of the experimental feature are left out. *)

From S2P Require Import Prelude Text OpcuaCodec OpcuaNodes.

Section Space.
Context `{X : Externals}.

(* ------------------------------------------------------------------ *)
(** * Namespaces *)

Definition position (uri : list Z) (l : list (list Z)) : option Z := Z.of_nat <$> (fst <$> list_find (fun u => u = uri) l).
Definition register_namespace (uri : list Z) (l : list (list Z)) : Z * list (list Z) :=
  match position uri l with
  | Some index => (as_u16 index, l)
  | None => (as_u16 (zlen l), l ++ [uri])
  end.
Definition get_namespace_uri (index : Z) (l : list (list Z)) : option (list Z) := l !! Z.to_nat index.
Definition get_namespace_index (uri : list Z) (l : list (list Z)) : option Z := as_u16 <$> position uri l.

(** [DefaultNodeManager], [DiagnosticsNodeManager] and [CatalogNodeManager]; the last two hold
    the namespace index they were given. *)
Inductive NodeManager : Set :=
| MDefault
| MDiagnostics (assigned : option Z)
| MCatalog (uri : list Z) (assigned : option Z).
Definition DIAGNOSTICS_URI : list Z := str "urn:mabinogion:opcua:diagnostics".
Definition manager_kind (m : NodeManager) : list Z :=
  match m with MDefault => str "default" | MDiagnostics _ => str "diagnostics" | MCatalog _ _ => str "catalog" end.
Definition manager_uri (m : NodeManager) : option (list Z) :=
  match m with MDefault => None | MDiagnostics _ => Some DIAGNOSTICS_URI | MCatalog uri _ => Some uri end.
Definition is_fallback_manager (m : NodeManager) : bool := match m with MDefault => true | _ => false end.
Definition on_registered (index : option Z) (m : NodeManager) : NodeManager :=
  match m with MDefault => MDefault | MDiagnostics _ => MDiagnostics index | MCatalog uri _ => MCatalog uri index end.
Definition owns_namespace (index : Z) (m : NodeManager) : bool :=
  match m with MDefault => true | MDiagnostics a | MCatalog _ a => bool_decide (a = Some index) end.
Definition index_text (none : list Z) (index : option Z) : list Z := match index with Some i => decimal i | None => none end.
Definition diagnostics_snapshot (index : option Z) (m : NodeManager) : option (list Z) :=
  Some match m with
       | MDefault => str "manager=default namespace=" ++ index_text (str "dynamic") index
       | MDiagnostics _ => str "manager=diagnostics namespace=" ++ index_text (str "unassigned") index
       | MCatalog uri _ => str "manager=catalog namespace=" ++ index_text (str "unassigned") index ++ str " uri=" ++ uri
       end.

Inductive NamespaceLifecycleState : Set := NsRegistered | NsRunning | NsStopped.
Record NamespaceRuntime : Set := {
  nr_namespace_index : option Z;
  nr_manager : NodeManager;
  nr_lifecycle : NamespaceLifecycleState;
  nr_namespace_uri : option (list Z);
  nr_last_summary : option (list Z)
}.
Record NamespaceRegistry : Set := { ns_namespaces : list (list Z); ns_runtimes : list NamespaceRuntime }.
Definition register_manager (m : NodeManager) (r : NamespaceRegistry) : NamespaceRegistry :=
  let '(index, l) := match manager_uri m with
                     | Some uri => let '(i, l) := register_namespace uri (ns_namespaces r) in (Some i, l)
                     | None => (None, ns_namespaces r)
                     end in
  let uri := match index ≫= (fun i => get_namespace_uri i l) with Some u => Some u | None => manager_uri m end in
  {| ns_namespaces := l;
     ns_runtimes := ns_runtimes r ++ [{| nr_namespace_index := index; nr_manager := on_registered index m; nr_lifecycle := NsRegistered;
                                         nr_namespace_uri := uri; nr_last_summary := None |}] |}.
Definition NamespaceRegistry_new (namespaces : list (list Z)) (managers : list NodeManager) : NamespaceRegistry :=
  foldl (fun r m => register_manager m r) {| ns_namespaces := namespaces; ns_runtimes := [] |}
    ([MDefault; MDiagnostics None] ++ managers).
Definition resolve_runtime (index : Z) (r : NamespaceRegistry) : option NamespaceRuntime :=
  match snd <$> list_find (fun n => negb (is_fallback_manager (nr_manager n)) && owns_namespace index (nr_manager n) = true) (ns_runtimes r) with
  | Some n => Some n
  | None => snd <$> list_find (fun n => is_fallback_manager (nr_manager n) && owns_namespace index (nr_manager n) = true) (ns_runtimes r)
  end.
Definition resolve_manager_handle (index : Z) (r : NamespaceRegistry) : option NodeManager := nr_manager <$> resolve_runtime index r.
(** [enumerate] casts the position to [u16]. *)
Definition ownership_summary (r : NamespaceRegistry) : list (list Z) :=
  omap (fun '(index, uri) =>
    (fun n => str "ns=" ++ decimal (as_u16 (Z.of_nat index)) ++ str " uri=" ++ uri ++ str " manager=" ++ manager_kind (nr_manager n))
      <$> resolve_runtime (as_u16 (Z.of_nat index)) r) (imap pair (ns_namespaces r)).
(** The hooks of the managers themselves do nothing. *)
Definition set_lifecycle (s : NamespaceLifecycleState) (r : NamespaceRegistry) : NamespaceRegistry :=
  {| ns_namespaces := ns_namespaces r;
     ns_runtimes := (fun n => {| nr_namespace_index := nr_namespace_index n; nr_manager := nr_manager n; nr_lifecycle := s;
                                 nr_namespace_uri := nr_namespace_uri n;
                                 nr_last_summary := diagnostics_snapshot (nr_namespace_index n) (nr_manager n) |}) <$> ns_runtimes r |}.
Definition on_runtime_start : NamespaceRegistry → NamespaceRegistry := set_lifecycle NsRunning.
Definition on_runtime_stop : NamespaceRegistry → NamespaceRegistry := set_lifecycle NsStopped.

(* ------------------------------------------------------------------ *)
(** * Nodes and references *)

Record NodeStore : Set := { st_nodes : gmap NodeId Node; st_max_nodes : Z }.
Definition store_insert (n : Node) (s : NodeStore) : bool * NodeStore :=
  if st_max_nodes s <=? Z.of_nat (size (st_nodes s)) then (false, s)
  else if bool_decide (is_Some (st_nodes s !! node_id n)) then (false, s)
  else (true, {| st_nodes := <[node_id n := n]> (st_nodes s); st_max_nodes := st_max_nodes s |}).
Definition store_remove (id : NodeId) (s : NodeStore) : bool * NodeStore :=
  (bool_decide (is_Some (st_nodes s !! id)), {| st_nodes := delete id (st_nodes s); st_max_nodes := st_max_nodes s |}).
Definition counts_by_class (s : NodeStore) : Z * Z * Z :=
  let count c := zlen (filter (fun e => node_class e.2 = c) (map_to_list (st_nodes s))) in
  (count CVariable, count CObject, count CMethod).

Record ReferenceIndex : Set := { ri_forward : gmap NodeId (list Reference); ri_inverse : gmap NodeId (list Reference) }.
Definition refs_of (m : gmap NodeId (list Reference)) (id : NodeId) : list Reference := default [] (m !! id).
Definition push_ref (r : Reference) (m : gmap NodeId (list Reference)) : gmap NodeId (list Reference) :=
  <[rf_source r := refs_of m (rf_source r) ++ [r]]> m.
Definition index_add_reference (r : Reference) (i : ReferenceIndex) : ReferenceIndex :=
  {| ri_forward := push_ref r (ri_forward i); ri_inverse := push_ref (inverse_ref r) (ri_inverse i) |}.
Definition ref_matches (t : ReferenceTypeId) (target : NodeId) (r : Reference) : bool :=
  bool_decide (rf_type r = t) && bool_decide (rf_target r = target).
Definition retain_refs (t : ReferenceTypeId) (target id : NodeId) (m : gmap NodeId (list Reference)) : gmap NodeId (list Reference) :=
  match m !! id with Some l => <[id := filter (fun r => ref_matches t target r = false) l]> m | None => m end.
Definition index_remove_reference (source : NodeId) (t : ReferenceTypeId) (target : NodeId) (i : ReferenceIndex) : bool * ReferenceIndex :=
  (bool_decide (filter (fun r => ref_matches t target r = true) (refs_of (ri_forward i) source) ≠ []),
   {| ri_forward := retain_refs t target source (ri_forward i); ri_inverse := retain_refs t source target (ri_inverse i) |}).
Definition index_get_references (id : NodeId) (d : BrowseDirection) (i : ReferenceIndex) : list Reference :=
  match d with BForward | BBoth => refs_of (ri_forward i) id | BInverse => [] end ++
  match d with BInverse | BBoth => refs_of (ri_inverse i) id | BForward => [] end.
Definition index_remove_node (id : NodeId) (i : ReferenceIndex) : ReferenceIndex :=
  {| ri_forward := delete id (ri_forward i); ri_inverse := delete id (ri_inverse i) |}.
Definition index_total_references (i : ReferenceIndex) : Z := foldr (fun e n => zlen e.2 + n) 0 (map_to_list (ri_forward i)).

(* ------------------------------------------------------------------ *)
(** * Continuation points *)

Record ContinuationStore : Set := { cs_browse : gmap Z (list ReferenceDescription * DateTime); cs_next_id : Z }.
Definition ContinuationStore_new : ContinuationStore := {| cs_browse := ∅; cs_next_id := 1 |}.
Definition continuation_create (now : DateTime) (remaining : list ReferenceDescription) (s : ContinuationStore) : list Z * ContinuationStore :=
  (le_bytes 8 (cs_next_id s),
   {| cs_browse := <[cs_next_id s := (remaining, now)]> (cs_browse s); cs_next_id := (cs_next_id s + 1) mod 2 ^ 64 |}).
Definition continuation_remove (id : Z) (s : ContinuationStore) : ContinuationStore :=
  {| cs_browse := delete id (cs_browse s); cs_next_id := cs_next_id s |}.
Definition page_size (max_results : Z) : Z := if max_results =? 0 then 1000 else max_results.
(** The first page of a list, the rest kept under a new continuation point. *)
Definition paginate (now : DateTime) (l : list ReferenceDescription) (max_results : Z) (s : ContinuationStore) : BrowseResult * ContinuationStore :=
  let max := page_size max_results in
  if max <? zlen l then
    let '(point, s) := continuation_create now (drop (Z.to_nat max) l) s in
    ({| br_references := take (Z.to_nat max) l; br_continuation_point := Some point |}, s)
  else (BrowseResult_new l, s).
Definition continuation_browse_next (now : DateTime) (point : list Z) (release : bool) (max_results : Z) (s : ContinuationStore)
    : BrowseResult * ContinuationStore :=
  if negb (zlen point =? 8) then (BrowseResult_default, s)
  else
    let id := le_value point in
    if release then (BrowseResult_new [], continuation_remove id s)
    else
      match cs_browse s !! id with
      | None => (BrowseResult_default, continuation_remove id s)
      | Some (remaining, created_at) =>
          let s := continuation_remove id s in
          if 300 <? Z.quot (elapsed_nanos now created_at) 1000000000 then (BrowseResult_default, s)
          else paginate now remaining max_results s
      end.
Definition continuation_release (point : list Z) (s : ContinuationStore) : ContinuationStore :=
  if negb (zlen point =? 8) then s else continuation_remove (le_value point) s.

(* ------------------------------------------------------------------ *)
(** * Types *)

Definition is_reference_subtype (candidate parent : ReferenceTypeId) : bool :=
  match parent with
  | RHierarchicalReferences => is_hierarchical candidate
  | RHasChild => match candidate with
                 | RHasComponent | RHasProperty | RHasSubtype | RHasOrderedComponent | RAggregates => true
                 | _ => false
                 end
  | RNonHierarchicalReferences => match candidate with
                                  | RHasTypeDefinition | RHasEncoding | RHasDescription | RHasModellingRule | RGeneratesEvent
                                  | RAlwaysGeneratesEvent => true
                                  | _ => false
                                  end
  | _ => false
  end.
Definition parent_type (i : ReferenceIndex) (id : NodeId) : option NodeId :=
  (fun e => rf_target e.2) <$> list_find (fun r => rf_type r = RHasSubtype) (index_get_references id BInverse i).
Fixpoint walk_parents (i : ReferenceIndex) (depth : nat) (current parent : NodeId) : bool :=
  match depth with
  | O => false
  | S depth =>
      match parent_type i current with
      | Some next => if bool_decide (next = parent) then true else walk_parents i depth next parent
      | None => false
      end
  end.
Definition MAX_DEPTH : nat := 50.
Definition is_node_subtype_of (i : ReferenceIndex) (candidate parent : NodeId) : bool :=
  if bool_decide (candidate = parent) then true else walk_parents i MAX_DEPTH candidate parent.

(* ------------------------------------------------------------------ *)
(** * The address space *)

(** [max_references_per_node] is configured but never consulted. *)
Record AddressSpaceConfig : Set := {
  default_namespace_uri : list Z; max_nodes : Z; max_references_per_node : Z; enable_standard_namespace : bool
}.
Definition AddressSpaceConfig_default : AddressSpaceConfig :=
  {| default_namespace_uri := str "urn:trap:simulator"; max_nodes := 1000000; max_references_per_node := 10000;
     enable_standard_namespace := true |}.
Record AddressSpace : Set := {
  as_registry : NamespaceRegistry;
  as_store : NodeStore;
  as_index : ReferenceIndex;
  as_continuations : ContinuationStore;
  as_read_counter : Z;
  as_write_counter : Z;
  as_browse_counter : Z
}.
Definition set_registry (r : NamespaceRegistry) (s : AddressSpace) : AddressSpace :=
  {| as_registry := r; as_store := as_store s; as_index := as_index s; as_continuations := as_continuations s;
     as_read_counter := as_read_counter s; as_write_counter := as_write_counter s; as_browse_counter := as_browse_counter s |}.
Definition set_store (n : NodeStore) (s : AddressSpace) : AddressSpace :=
  {| as_registry := as_registry s; as_store := n; as_index := as_index s; as_continuations := as_continuations s;
     as_read_counter := as_read_counter s; as_write_counter := as_write_counter s; as_browse_counter := as_browse_counter s |}.
Definition set_index (i : ReferenceIndex) (s : AddressSpace) : AddressSpace :=
  {| as_registry := as_registry s; as_store := as_store s; as_index := i; as_continuations := as_continuations s;
     as_read_counter := as_read_counter s; as_write_counter := as_write_counter s; as_browse_counter := as_browse_counter s |}.
Definition set_continuations (c : ContinuationStore) (s : AddressSpace) : AddressSpace :=
  {| as_registry := as_registry s; as_store := as_store s; as_index := as_index s; as_continuations := c;
     as_read_counter := as_read_counter s; as_write_counter := as_write_counter s; as_browse_counter := as_browse_counter s |}.
(** The counters are 64-bit atomics. *)
Definition count_access (reads writes browses : Z) (s : AddressSpace) : AddressSpace :=
  {| as_registry := as_registry s; as_store := as_store s; as_index := as_index s; as_continuations := as_continuations s;
     as_read_counter := (as_read_counter s + reads) mod 2 ^ 64; as_write_counter := (as_write_counter s + writes) mod 2 ^ 64;
     as_browse_counter := (as_browse_counter s + browses) mod 2 ^ 64 |}.

Definition get_node (id : NodeId) (s : AddressSpace) : option Node := st_nodes (as_store s) !! id.
Definition contains_node (id : NodeId) (s : AddressSpace) : bool := bool_decide (is_Some (get_node id s)).
Definition insert_node (n : Node) (s : AddressSpace) : bool * AddressSpace :=
  let '(inserted, st) := store_insert n (as_store s) in (inserted, set_store st s).
Definition remove_node (id : NodeId) (s : AddressSpace) : bool * AddressSpace :=
  let '(removed, st) := store_remove id (as_store s) in
  let s := set_store st s in
  (removed, if removed then set_index (index_remove_node id (as_index s)) s else s).
Definition add_reference (r : Reference) (s : AddressSpace) : AddressSpace := set_index (index_add_reference r (as_index s)) s.
Definition remove_reference (source : NodeId) (t : ReferenceTypeId) (target : NodeId) (s : AddressSpace) : bool * AddressSpace :=
  let '(removed, i) := index_remove_reference source t target (as_index s) in (removed, set_index i s).
Definition get_references (id : NodeId) (d : BrowseDirection) (s : AddressSpace) : list Reference := index_get_references id d (as_index s).

(** A node under a parent: nothing changes when the node cannot be inserted. *)
Definition add_under (n : Node) (r : Reference) : stM AddressSpace OpcUaError NodeId := fun s =>
  let '(inserted, s) := insert_node n s in
  if negb inserted then (Err EServer, s) else (Ok (node_id n), add_reference r s).
Definition add_folder (id : NodeId) (browse : QualifiedName) (display : LocalizedText) (parent : NodeId) : stM AddressSpace OpcUaError NodeId :=
  add_under (ObjectNode_new id browse display) (organizes parent id).
Definition add_variable (now : DateTime) (id : NodeId) (browse : QualifiedName) (display : LocalizedText) (data_type : NodeId)
    (value : Variant) (parent : NodeId) : stM AddressSpace OpcUaError NodeId :=
  add_under (NVariable (VariableNode_new now id browse display data_type value)) (has_component parent id).
Definition add_writable_variable (now : DateTime) (id : NodeId) (browse : QualifiedName) (display : LocalizedText) (data_type : NodeId)
    (value : Variant) (parent : NodeId) : stM AddressSpace OpcUaError NodeId :=
  add_under (NVariable (writable (VariableNode_new now id browse display data_type value))) (has_component parent id).
Definition add_object (id : NodeId) (browse : QualifiedName) (display : LocalizedText) (parent : NodeId) : stM AddressSpace OpcUaError NodeId :=
  add_under (ObjectNode_new id browse display) (has_component parent id).

(** ** Browsing *)

Definition type_allowed (filter : option ReferenceTypeId) (include_subtypes : bool) (t : ReferenceTypeId) : bool :=
  match filter with
  | None => true
  | Some f => bool_decide (t = f) || (include_subtypes && is_reference_subtype t f)
  end.
Definition class_allowed (mask : option Z) (c : NodeClass) : bool :=
  match mask with None => true | Some m => (m =? 0) || negb (Z.land (class_u32 c) m =? 0) end.
Definition describe (filter : option ReferenceTypeId) (include_subtypes : bool) (mask : option Z) (s : AddressSpace) (r : Reference)
    : option ReferenceDescription :=
  if negb (type_allowed filter include_subtypes (rf_type r)) then None
  else match get_node (rf_target r) s with
       | None => None
       | Some target =>
           if negb (class_allowed mask (node_class target)) then None
           else Some (ReferenceDescription_new (rf_type r) (rf_forward r) target (rf_target r))
       end.
Definition descriptions (id : NodeId) (d : BrowseDirection) (filter : option ReferenceTypeId) (include_subtypes : bool) (mask : option Z)
    (s : AddressSpace) : list ReferenceDescription :=
  omap (describe filter include_subtypes mask s) (get_references id d s).
Definition browse (now : DateTime) (id : NodeId) (d : BrowseDirection) (filter : option ReferenceTypeId) (include_subtypes : bool)
    (mask : option Z) (max_results : Z) (s : AddressSpace) : BrowseResult * AddressSpace :=
  let s := count_access 0 0 1 s in
  if negb (contains_node id s) then (BrowseResult_default, s)
  else
    let '(r, c) := paginate now (descriptions id d filter include_subtypes mask s) max_results (as_continuations s) in
    (r, set_continuations c s).
Definition browse_next (now : DateTime) (point : list Z) (release : bool) (max_results : Z) (s : AddressSpace) : BrowseResult * AddressSpace :=
  let '(r, c) := continuation_browse_next now point release max_results (as_continuations s) in (r, set_continuations c s).
Definition release_continuation_point (point : list Z) (s : AddressSpace) : AddressSpace :=
  set_continuations (continuation_release point (as_continuations s)) s.

(** ** Browse paths *)

Record RelativePathElement : Set := {
  pe_reference_type_id : NodeId; pe_is_inverse : bool; pe_include_subtypes : bool; pe_target_name : QualifiedName
}.
Record BrowsePathTarget : Set := { bt_target_id : NodeId; bt_remaining_path_index : Z }.
Record BrowsePathResult : Set := { bp_status : StatusCode; bp_targets : list BrowsePathTarget }.
Definition element_type_allowed (e : RelativePathElement) (t : ReferenceTypeId) : bool :=
  if bool_decide (reference_node_id t ≠ NodeId_numeric 0 0) then
    type_allowed (reference_from_node_id (pe_reference_type_id e)) (pe_include_subtypes e) t
  else true.
Definition name_matches (wanted name : QualifiedName) : bool :=
  bool_decide (qn_name name = qn_name wanted) &&
  ((qn_namespace_index wanted =? 0) || (qn_namespace_index wanted =? qn_namespace_index name)).
Definition follow (e : RelativePathElement) (s : AddressSpace) (r : Reference) : option NodeId :=
  if negb (element_type_allowed e (rf_type r)) then None
  else match get_node (rf_target r) s with
       | Some target => if name_matches (pe_target_name e) (browse_name target) then Some (rf_target r) else None
       | None => None
       end.
Definition step_element (e : RelativePathElement) (s : AddressSpace) (id : NodeId) : list NodeId :=
  omap (follow e s) (get_references id (if pe_is_inverse e then BInverse else BForward) s).
(** [None] when an element matches nothing. *)
Fixpoint walk_path (s : AddressSpace) (current : list NodeId) (elements : list RelativePathElement) : option (list NodeId) :=
  match elements with
  | [] => Some current
  | e :: elements =>
      match current ≫= step_element e s with
      | [] => None
      | next => walk_path s next elements
      end
  end.
Definition targets (ids : list NodeId) : list BrowsePathTarget :=
  (fun id => {| bt_target_id := id; bt_remaining_path_index := 0 |}) <$> ids.
Definition resolve_browse_path (start : NodeId) (elements : list RelativePathElement) (s : AddressSpace) : BrowsePathResult :=
  if negb (contains_node start s) then {| bp_status := BAD_NODE_ID_UNKNOWN; bp_targets := [] |}
  else if bool_decide (elements = []) then {| bp_status := GOOD; bp_targets := targets [start] |}
  else match walk_path s [start] elements with
       | None => {| bp_status := BAD_NO_MATCH; bp_targets := [] |}
       | Some ids => {| bp_status := GOOD; bp_targets := targets ids |}
       end.

(** ** Attributes *)

Definition read (now : DateTime) (stack : nat) (id : NodeId) (a : AttributeId) (s : AddressSpace) : outcome OpcUaError DataValue * AddressSpace :=
  let s := count_access 1 0 0 s in
  (match get_node id s with
   | Some n => read_attribute now stack n a
   | None => Ok (DataValue_bad now BAD_NODE_ID_UNKNOWN)
   end, s).
Definition write (now : DateTime) (id : NodeId) (a : AttributeId) (value : DataValue) (s : AddressSpace) : StatusCode * AddressSpace :=
  let s := count_access 0 1 0 s in
  match get_node id s with
  | Some n =>
      let '(status, n) := write_attribute now a value n in
      (status, set_store {| st_nodes := <[id := n]> (st_nodes (as_store s)); st_max_nodes := st_max_nodes (as_store s) |} s)
  | None => (BAD_NODE_ID_UNKNOWN, s)
  end.
Definition read_value (now : DateTime) (stack : nat) (id : NodeId) (s : AddressSpace) : outcome OpcUaError DataValue * AddressSpace := read now stack id AValue s.
Definition write_value (now : DateTime) (id : NodeId) (v : Variant) (s : AddressSpace) : StatusCode * AddressSpace :=
  write now id AValue (DataValue_new now v) s.

Record NodeStoreStats : Set := {
  total_nodes : Z; total_references : Z; variable_nodes : Z; object_nodes : Z; method_nodes : Z; reads : Z; writes : Z; browses : Z
}.
Definition stats (s : AddressSpace) : NodeStoreStats :=
  let '(v, o, m) := counts_by_class (as_store s) in
  {| total_nodes := Z.of_nat (size (st_nodes (as_store s))); total_references := index_total_references (as_index s);
     variable_nodes := v; object_nodes := o; method_nodes := m; reads := as_read_counter s; writes := as_write_counter s;
     browses := as_browse_counter s |}.

(* ------------------------------------------------------------------ *)
(** * Standard nodes *)

(** [insert_node] then [add_reference], the result of the first ignored. *)
Definition put_node (n : Node) (refs : list Reference) (s : AddressSpace) : AddressSpace :=
  foldl (fun s r => add_reference r s) (insert_node n s).2 refs.
Definition std (id : Z) : NodeId := NodeId_numeric 0 id.
Definition named (f : NodeId → QualifiedName → LocalizedText → Node) (id : Z) (name : list Z) : Node :=
  f (std id) (QualifiedName_null name) (LocalizedText_invariant name).
Definition std_variable (now : DateTime) (id : Z) (name : list Z) (data_type : Z) (value : Variant) : Node :=
  NVariable (VariableNode_new now (std id) (QualifiedName_null name) (LocalizedText_invariant name) (std data_type) value).

Definition operation_limits : list (Z * list Z * Z) :=
  [(11705, str "MaxNodesPerRead", 10000); (11707, str "MaxNodesPerWrite", 10000); (11710, str "MaxNodesPerBrowse", 10000);
   (11711, str "MaxNodesPerRegisterNodes", 10000); (11709, str "MaxNodesPerMethodCall", 1000);
   (11714, str "MaxMonitoredItemsPerCall", 10000); (12165, str "MaxNodesPerHistoryReadData", 1000);
   (11712, str "MaxNodesPerTranslateBrowsePathsToNodeIds", 10000)].
Definition init_server_capabilities (now : DateTime) (s : AddressSpace) : AddressSpace :=
  let s := put_node (named ObjectNode_new 2268 (str "ServerCapabilities")) [has_component server_node (std 2268)] s in
  let s := put_node (named ObjectNode_new 11704 (str "OperationLimits")) [has_component (std 2268) (std 11704)] s in
  let s := foldl (fun s '(id, name, value) =>
             put_node (std_variable now id name 7 (VUInt32 value)) [has_component (std 11704) (std id)] s) s operation_limits in
  let s := put_node (named ObjectNode_new 2330 (str "HistoryServerCapabilities")) [has_component (std 2268) (std 2330)] s in
  put_node (std_variable now 11192 (str "AccessHistoryDataCapability") 1 (VBoolean true)) [has_property (std 2330) (std 11192)] s.

(** Identifier, name, parent and whether the type is abstract. *)
Definition data_types : list (Z * list Z * Z * bool) :=
  [(1, str "Boolean", 24, false); (12, str "String", 24, false); (13, str "DateTime", 24, false); (14, str "Guid", 24, false);
   (15, str "ByteString", 24, false); (16, str "XmlElement", 24, false); (17, str "NodeId", 24, false);
   (18, str "ExpandedNodeId", 24, false); (19, str "StatusCode", 24, false); (20, str "QualifiedName", 24, false);
   (21, str "LocalizedText", 24, false); (22, str "Structure", 24, true); (29, str "Enumeration", 24, true);
   (26, str "Number", 24, true); (27, str "Integer", 26, true); (28, str "UInteger", 26, true); (10, str "Float", 26, false);
   (11, str "Double", 26, false); (2, str "SByte", 27, false); (4, str "Int16", 27, false); (6, str "Int32", 27, false);
   (8, str "Int64", 27, false); (3, str "Byte", 28, false); (5, str "UInt16", 28, false); (7, str "UInt32", 28, false);
   (9, str "UInt64", 28, false)].
Definition init_data_type_hierarchy (s : AddressSpace) : AddressSpace :=
  let s := put_node (named (fun id b d => DataTypeNode_new id b d false) 24 (str "BaseDataType")) [organizes types_folder (std 24)] s in
  foldl (fun s '(id, name, parent, is_abstract) =>
    put_node (named (fun id b d => DataTypeNode_new id b d is_abstract) id name) [has_subtype (std parent) (std id)] s) s data_types.

Definition event_properties : list (Z * list Z * Z) :=
  [(2042, str "EventId", 15); (2043, str "EventType", 17); (2044, str "SourceNode", 17); (2045, str "SourceName", 12);
   (2046, str "Time", 13); (2047, str "ReceiveTime", 13); (2050, str "Message", 21); (2051, str "Severity", 5)].
Definition event_subtypes : list (Z * list Z) :=
  [(2052, str "AuditEventType"); (2130, str "SystemEventType"); (2132, str "DeviceFailureEventType"); (2133, str "BaseModelChangeEventType")].
Definition init_event_type_hierarchy (now : DateTime) (s : AddressSpace) : AddressSpace :=
  let s := put_node (named (fun id b d => ObjectTypeNode_new id b d true) 2041 (str "BaseEventType")) [organizes types_folder (std 2041)] s in
  let s := foldl (fun s '(id, name, data_type) =>
             put_node (std_variable now id name data_type VNull) [has_property (std 2041) (std id)] s) s event_properties in
  foldl (fun s '(id, name) =>
    put_node (named (fun id b d => ObjectTypeNode_new id b d false) id name) [has_subtype (std 2041) (std id)] s) s event_subtypes.

Definition init_standard_nodes (now : DateTime) (s : AddressSpace) : AddressSpace :=
  let s := put_node (named ObjectNode_new 84 (str "Root")) [] s in
  let s := put_node (named ObjectNode_new 85 (str "Objects")) [organizes root_folder objects_folder] s in
  let s := put_node (named ObjectNode_new 86 (str "Types")) [organizes root_folder types_folder] s in
  let s := put_node (named ObjectNode_new 87 (str "Views")) [organizes root_folder views_folder] s in
  let s := put_node (with_event_notifier 1 (named ObjectNode_new 2253 (str "Server"))) [organizes objects_folder server_node] s in
  init_event_type_hierarchy now (init_data_type_hierarchy (init_server_capabilities now s)).

(** ** The diagnostics manager *)

Definition diagnostics_root (ns : Z) : NodeId := NodeId_string ns (str "Diagnostics").
Definition metric_node_id (ns : Z) (name : list Z) : NodeId := NodeId_string ns (str "Diagnostics." ++ name).
Definition numeric_metrics : list (list Z) :=
  [str "CurrentSessionCount"; str "CurrentSubscriptionCount"; str "TotalNodes"; str "NamespaceCount"].
Definition string_metrics : list (list Z) := [str "SecurityProfileSummary"; str "DurableRestoreSummary"; str "ManagerOwnershipSummary"].
Definition add_metric (now : DateTime) (ns : Z) (data_type : Z) (v : Variant) (s : AddressSpace) (name : list Z) : AddressSpace :=
  (add_writable_variable now (metric_node_id ns name) (QualifiedName_null name) (LocalizedText_invariant name) (std data_type) v
     (diagnostics_root ns) s).2.
Definition materialize (now : DateTime) (index : option Z) (m : NodeManager) (s : AddressSpace) : AddressSpace :=
  match m, index with
  | MDiagnostics _, Some ns =>
      let s := (add_folder (diagnostics_root ns) (QualifiedName_null (str "Diagnostics")) (LocalizedText_invariant (str "Diagnostics"))
                  server_node s).2 in
      let s := foldl (add_metric now ns 7 (VUInt32 0)) s numeric_metrics in
      foldl (add_metric now ns 12 (VString [])) s string_metrics
  | _, _ => s
  end.
Record DiagnosticsSnapshot : Set := {
  current_sessions : Z; current_subscriptions : Z; snapshot_total_nodes : Z; namespace_count : Z;
  security_profile_summary : list Z; durable_restore_summary : list Z; manager_ownership_summary : list Z
}.
Definition refresh_diagnostics (now : DateTime) (d : DiagnosticsSnapshot) (s : AddressSpace) : AddressSpace :=
  match get_namespace_index DIAGNOSTICS_URI (ns_namespaces (as_registry s)) with
  | None => s
  | Some ns =>
      let s := foldl (fun s '(name, v) => (write_value now (metric_node_id ns name) (VUInt32 v) s).2) s
                 (zip numeric_metrics [current_sessions d; current_subscriptions d; snapshot_total_nodes d; namespace_count d]) in
      foldl (fun s '(name, v) => (write_value now (metric_node_id ns name) (VString v) s).2) s
        (zip string_metrics [security_profile_summary d; durable_restore_summary d; manager_ownership_summary d])
  end.

Definition AddressSpace_with_managers (now : DateTime) (config : AddressSpaceConfig) (managers : list NodeManager) : AddressSpace :=
  let s := {| as_registry := NamespaceRegistry_new [str "http://opcfoundation.org/UA/"; default_namespace_uri config] managers;
              as_store := {| st_nodes := ∅; st_max_nodes := max_nodes config |};
              as_index := {| ri_forward := ∅; ri_inverse := ∅ |}; as_continuations := ContinuationStore_new;
              as_read_counter := 0; as_write_counter := 0; as_browse_counter := 0 |} in
  let s := if enable_standard_namespace config then init_standard_nodes now s else s in
  foldl (fun s n => materialize now (nr_namespace_index n) (nr_manager n) s) s (ns_runtimes (as_registry s)).
Definition AddressSpace_new (now : DateTime) (config : AddressSpaceConfig) : AddressSpace := AddressSpace_with_managers now config [].

(* ------------------------------------------------------------------ *)
(** * Paging *)

(** A client that follows the continuation points, asking at the given times. *)
Fixpoint browse_pages (times : list DateTime) (max_results : Z) (r : BrowseResult) (s : AddressSpace) : list BrowseResult * AddressSpace :=
  match br_continuation_point r, times with
  | Some point, now :: times =>
      let '(r', s) := browse_next now point false max_results s in
      let '(rs, s) := browse_pages times max_results r' s in (r :: rs, s)
  | _, _ => ([r], s)
  end.
(** Each request comes within 300 seconds of the one before. *)
Fixpoint in_time (last : DateTime) (times : list DateTime) : Prop :=
  match times with
  | [] => True
  | now :: times => Z.quot (elapsed_nanos now last) 1000000000 <= 300 ∧ in_time now times
  end.
Definition pages_ok (l : list ReferenceDescription) (max_results : Z) (rs : list BrowseResult) : Prop :=
  concat (br_references <$> rs) = l ∧ Forall (fun r => zlen (br_references r) <= page_size max_results) rs ∧
  (∃ r, last rs = Some r ∧ br_continuation_point r = None).

Lemma le_roundtrip_u64 x : 0 <= x < 2 ^ 64 → le_value (le_bytes 8 x) = x.
Proof. intros Hx. apply le_roundtrip. exact Hx. Qed.
Lemma pages_single l max_results : zlen l <= page_size max_results → pages_ok l max_results [BrowseResult_new l].
Proof. intros Hl. split; [cbn; by rewrite app_nil_r|]. split; [|by eexists]. by apply Forall_singleton. Qed.
Lemma paginate_pages max_results : 0 < page_size max_results → ∀ times t0 l s,
  in_time t0 times → zlen l <= page_size max_results * (1 + zlen times) → 0 <= cs_next_id (as_continuations s) < 2 ^ 64 →
  let '(r, c) := paginate t0 l max_results (as_continuations s) in
  pages_ok l max_results (browse_pages times max_results r (set_continuations c s)).1.
Proof.
  intros Hp. induction times as [|now times IH]; intros t0 l s Ht Hl Hn; unfold paginate.
  - rewrite zlen_nil in Hl. rewrite (proj2 (Z.ltb_ge _ _)) by lia. apply pages_single. lia.
  - case_if; bool_to_prop.
    2: { apply pages_single. lia. }
    destruct Ht as [Ht0 Ht]. rewrite zlen_cons in Hl.
    cbn [continuation_create fst snd browse_pages br_continuation_point]. unfold browse_next, continuation_browse_next.
    cbn [as_continuations set_continuations continuation_create].
    replace (zlen (le_bytes 8 (cs_next_id (as_continuations s))) =? 8) with true by (unfold zlen; by rewrite length_le_bytes).
    cbn [negb]. rewrite le_roundtrip_u64 by done. cbn [cs_browse continuation_remove cs_next_id]. rewrite lookup_insert_eq.
    rewrite (proj2 (Z.ltb_ge _ _)) by lia.
    match goal with |- context [paginate now _ _ ?c0] => set (c := c0) end.
    specialize (IH now (drop (Z.to_nat (page_size max_results)) l) (set_continuations c s) Ht).
    cbn [as_continuations set_continuations] in IH.
    assert (zlen (drop (Z.to_nat (page_size max_results)) l) = zlen l - page_size max_results) as Hd
      by (unfold zlen in *; rewrite length_drop; lia).
    specialize (IH ltac:(rewrite Hd; lia) ltac:(cbn; apply Z.mod_pos_bound; lia)).
    destruct (paginate now _ max_results c) as [r' c']. cbn [set_continuations as_continuations] in IH |- *.
    change (set_continuations c' (set_continuations ?x s)) with (set_continuations c' s).
    destruct (browse_pages times max_results r' _) as [rs s'']. destruct IH as (I1 & I2 & r0 & I3 & I4). cbn [fst] in *.
    split_and!.
    + cbn [fmap list_fmap concat br_references]. by rewrite I1, take_drop.
    + apply Forall_cons. split; [|done]. cbn. unfold zlen. rewrite length_take. lia.
    + exists r0. split; [|done]. rewrite last_cons. by rewrite I3.
Qed.

(** Browsing in pages returns every reference once. When a client browses a node and
    follows the continuation points, each within 300 seconds, for as many pages as the list
    needs, the pages together are exactly the matching references in order, no page exceeds
    the limit, and the last one has no continuation point. *)
Theorem browse_pages_complete t0 times id d f sub mask max_results s :
  contains_node id s = true → 0 <= max_results → in_time t0 times →
  zlen (descriptions id d f sub mask s) <= page_size max_results * (1 + zlen times) → 0 <= cs_next_id (as_continuations s) < 2 ^ 64 →
  pages_ok (descriptions id d f sub mask s) max_results
    (let '(r, s) := browse t0 id d f sub mask max_results s in browse_pages times max_results r s).1.
Proof.
  intros Hc Hm Ht Hl Hn. unfold browse. change (contains_node id (count_access 0 0 1 s)) with (contains_node id s). rewrite Hc. cbn [negb].
  change (descriptions id d f sub mask (count_access 0 0 1 s)) with (descriptions id d f sub mask s).
  assert (0 < page_size max_results) as Hp by (unfold page_size; case_if; bool_to_prop; lia).
  pose proof (paginate_pages max_results Hp times t0 (descriptions id d f sub mask s) (count_access 0 0 1 s) Ht Hl Hn) as H.
  by destruct (paginate t0 _ max_results _) as [r c].
Qed.

(* ------------------------------------------------------------------ *)
(** * Reading and writing *)

(** What a write does. For every node, attribute and value, the write succeeds exactly for
    the value of a variable whose access level allows it, when a value is given; then reading
    the value returns it with a good status and the time of the write, and the other
    attributes of the node read as before. A refused write, and every write as seen from
    another node or the references, changes nothing. *)
Theorem write_effect now id a value s :
  let '(status, s') := write now id a value s in
  (status = GOOD ↔ ∃ v x, get_node id s = Some (NVariable v) ∧ a = AValue ∧ can_write (vn_access_level v) = true ∧ dv_value value = Some x) ∧
  (status = GOOD → ∀ x t stack, dv_value value = Some x → (read t (S stack) id AValue s').1 = Ok (DataValue_new now x)) ∧
  (∀ t stack b, b ≠ AValue → (read t stack id b s').1 = (read t stack id b s).1) ∧
  (status ≠ GOOD → get_node id s' = get_node id s) ∧
  (∀ other, other ≠ id → get_node other s' = get_node other s) ∧ as_index s' = as_index s.
Proof.
  unfold write. change (get_node id (count_access 0 1 0 s)) with (get_node id s). destruct (get_node id s) as [n|] eqn:Hn.
  2: { split_and!; [split; [done|by intros (v & x & ? & _)]|done| |done|done|done]. intros t stack b _. unfold read, get_node in *. cbn. by rewrite Hn. }
  destruct (write_attribute now a value n) as [status n'] eqn:Hw. unfold read, get_node in *.
  cbn [as_store count_access set_store st_nodes as_index]. rewrite lookup_insert_eq, Hn.
  assert ((status ≠ GOOD ∧ n' = n ∧ ¬ ∃ v x, n = NVariable v ∧ a = AValue ∧ can_write (vn_access_level v) = true ∧ dv_value value = Some x) ∨
    ∃ v x, status = GOOD ∧ n = NVariable v ∧ a = AValue ∧ can_write (vn_access_level v) = true ∧ dv_value value = Some x ∧
           n' = NVariable (update_value (DataValue_new now x) v)) as [(Hs & -> & Hno)|(v & x & -> & -> & -> & Hc & Hv & ->)].
  { unfold write_attribute in Hw. destruct n as [| v | | | | | |]; try (left; injection Hw as <- <-; split_and!; [done|done|by intros (? & ? & ? & _)]).
    destruct (decide (a = AValue)) as [->|Ha].
    - destruct (can_write (vn_access_level v)) eqn:Hc; cbn [negb] in Hw;
        [|left; injection Hw as <- <-; split_and!; [done|done|intros (v' & ? & [= <-] & _ & ? & _); congruence]].
      destruct (dv_value value) as [x|] eqn:Hv; injection Hw as <- <-;
        [right; by exists v, x|left; split_and!; [done|done|by intros (? & ? & _ & _ & _ & ?)]].
    - left. assert ((status, n') = (BAD_NOT_WRITABLE, NVariable v)) as [= -> ->] by (rewrite <- Hw; by destruct a).
      split_and!; [done|done|by intros (? & ? & _ & ? & _)]. }
  - split_and!; try done.
    + split; [intros ?; contradiction|]. intros (v & x & Hv & H2 & H3 & H4). destruct Hno. exists v, x. split_and!; congruence.
    + intros other Ho. by rewrite lookup_insert_ne.
  - split_and!; try done.
    + split; [|done]. intros _. by exists v, x.
    + intros _ x' t stack [= <-]%(eq_trans (eq_sym Hv)). done.
    + intros t stack b Hb. cbn [fst]. induction stack as [|stack IH]; [done|]. cbn [read_attribute]. destruct b; first [done|exact IH].
    + intros other Ho. by rewrite lookup_insert_ne.
Qed.

(* ------------------------------------------------------------------ *)
(** * Browse paths and subtypes *)

(** The tree of the standard reference types: each type and its supertype. *)
Inductive direct_subtype : ReferenceTypeId → ReferenceTypeId → Prop :=
| st_hierarchical : direct_subtype RHierarchicalReferences RReferences
| st_non_hierarchical : direct_subtype RNonHierarchicalReferences RReferences
| st_has_child : direct_subtype RHasChild RHierarchicalReferences
| st_organizes : direct_subtype ROrganizes RHierarchicalReferences
| st_has_event_source : direct_subtype RHasEventSource RHierarchicalReferences
| st_aggregates : direct_subtype RAggregates RHasChild
| st_has_subtype : direct_subtype RHasSubtype RHasChild
| st_has_property : direct_subtype RHasProperty RAggregates
| st_has_component : direct_subtype RHasComponent RAggregates
| st_has_historical_configuration : direct_subtype RHasHistoricalConfiguration RAggregates
| st_has_ordered_component : direct_subtype RHasOrderedComponent RHasComponent
| st_has_notifier : direct_subtype RHasNotifier RHasEventSource
| st_has_modelling_rule : direct_subtype RHasModellingRule RNonHierarchicalReferences
| st_has_encoding : direct_subtype RHasEncoding RNonHierarchicalReferences
| st_has_description : direct_subtype RHasDescription RNonHierarchicalReferences
| st_has_type_definition : direct_subtype RHasTypeDefinition RNonHierarchicalReferences
| st_generates_event : direct_subtype RGeneratesEvent RNonHierarchicalReferences
| st_always_generates_event : direct_subtype RAlwaysGeneratesEvent RGeneratesEvent
| st_from_state : direct_subtype RFromState RNonHierarchicalReferences
| st_to_state : direct_subtype RToState RNonHierarchicalReferences
| st_has_cause : direct_subtype RHasCause RNonHierarchicalReferences
| st_has_effect : direct_subtype RHasEffect RNonHierarchicalReferences.
(** The part of the tree the server knows: what is below the three types it expands, but for five
    subtypes it does not count. *)
Definition known_subtype (t f : ReferenceTypeId) : Prop :=
  tc direct_subtype t f ∧ f ∈ [RHierarchicalReferences; RHasChild; RNonHierarchicalReferences] ∧
  t ∉ [RFromState; RToState; RHasCause; RHasEffect; RHasHistoricalConfiguration].
(** The identifier of a type; the custom types are those with other numbers. *)
Definition type_named (n : NodeId) (t : ReferenceTypeId) : Prop :=
  n = reference_node_id t ∧ ∀ id, t = RCustom id → id ∉ (reference_number <$> standard_references).
Inductive follows_type (e : RelativePathElement) : ReferenceTypeId → Prop :=
| follows_exact t : type_named (pe_reference_type_id e) t → follows_type e t
| follows_subtype t f : pe_include_subtypes e = true → type_named (pe_reference_type_id e) f → known_subtype t f → follows_type e t
| follows_unfiltered t : namespace (pe_reference_type_id e) ≠ 0 ∨ as_numeric (pe_reference_type_id e) = None → follows_type e t
| follows_untyped : follows_type e (RCustom 0).
Definition name_fits (wanted name : QualifiedName) : Prop :=
  qn_name name = qn_name wanted ∧ (qn_namespace_index wanted = 0 ∨ qn_namespace_index wanted = qn_namespace_index name).

(** A path of references that matches the elements one by one. *)
Inductive path_to (s : AddressSpace) : NodeId → list RelativePathElement → NodeId → Prop :=
| path_end a : path_to s a [] a
| path_step a e es b r target c :
    r ∈ get_references a (if pe_is_inverse e then BInverse else BForward) s → rf_target r = b →
    follows_type e (rf_type r) → get_node b s = Some target → name_fits (pe_target_name e) (browse_name target) →
    path_to s b es c → path_to s a (e :: es) c.

(** ** The code's tests *)

Definition supertypes (t : ReferenceTypeId) : list ReferenceTypeId :=
  match t with
  | RReferences | RCustom _ => []
  | RHierarchicalReferences | RNonHierarchicalReferences => [RReferences]
  | RHasChild | ROrganizes | RHasEventSource => [RHierarchicalReferences; RReferences]
  | RAggregates | RHasSubtype => [RHasChild; RHierarchicalReferences; RReferences]
  | RHasProperty | RHasComponent | RHasHistoricalConfiguration => [RAggregates; RHasChild; RHierarchicalReferences; RReferences]
  | RHasOrderedComponent => [RHasComponent; RAggregates; RHasChild; RHierarchicalReferences; RReferences]
  | RHasNotifier => [RHasEventSource; RHierarchicalReferences; RReferences]
  | RAlwaysGeneratesEvent => [RGeneratesEvent; RNonHierarchicalReferences; RReferences]
  | _ => [RNonHierarchicalReferences; RReferences]
  end.
Lemma supertypes_spec t f : tc direct_subtype t f ↔ f ∈ supertypes t.
Proof.
  split.
  - induction 1 as [t f Ht|t u f Ht _ IH]; destruct Ht; cbn [supertypes] in *; set_solver.
  - destruct t; cbn [supertypes]; rewrite ?elem_of_cons, ?elem_of_nil; intros Hf; destruct_or? Hf; try done; subst f;
      repeat first [apply tc_once; constructor|eapply tc_l; [constructor|]].
Qed.
Lemma known_subtype_spec t f : bool_decide (t = f) || is_reference_subtype t f = true ↔ t = f ∨ known_subtype t f.
Proof.
  unfold known_subtype. rewrite supertypes_spec, orb_true_iff, bool_decide_eq_true.
  destruct f; cbn [is_reference_subtype]; destruct t; cbn [is_hierarchical supertypes]; set_solver.
Qed.
Lemma reference_from_named n t : reference_from_node_id n = Some t ↔ type_named n t.
Proof.
  split.
  - unfold reference_from_node_id. destruct n as [ns [id| | |]]; cbn [namespace as_numeric identifier]; destruct (Z.eqb_spec ns 0) as [->|]; cbn [negb]; try done.
    intros [= <-]. destruct (filter (fun r => reference_number r = id) standard_references) as [|r l] eqn:Hf; cbn [head default].
    + split; [done|]. intros id' [= <-] (r & Hid & Hr)%list_elem_of_fmap.
      assert (r ∈ filter (fun x => reference_number x = id) standard_references) as Hin by (by apply list_elem_of_filter).
      rewrite Hf in Hin. by apply not_elem_of_nil in Hin.
    + assert (r ∈ filter (fun x => reference_number x = id) standard_references) as [<- Hr]%list_elem_of_filter by (rewrite Hf; left).
      split; [done|]. intros id' Heq. cbn in Heq. subst r. unfold standard_references in Hr. set_solver.
  - intros [-> Ht]. by apply reference_roundtrip.
Qed.
Lemma reference_from_none n : reference_from_node_id n = None ↔ namespace n ≠ 0 ∨ as_numeric n = None.
Proof.
  unfold reference_from_node_id. destruct (Z.eqb_spec (namespace n) 0); cbn [negb]; [|naive_solver].
  destruct (as_numeric n); naive_solver.
Qed.
Lemma element_type_spec e t : element_type_allowed e t = true ↔ follows_type e t.
Proof.
  unfold element_type_allowed, type_allowed. pose proof (known_subtype_spec t) as Hk.
  case_bool_decide as Hz.
  2: { split; [|done]. intros _. assert (t = RCustom 0) as ->; [|apply follows_untyped].
       unfold reference_node_id, NodeId_numeric in Hz. injection Hz as Hz. destruct t; cbn in Hz; try discriminate. by rewrite Hz. }
  destruct (reference_from_node_id (pe_reference_type_id e)) as [f|] eqn:Hf.
  - pose proof (proj1 (reference_from_named _ _) Hf) as Hn. specialize (Hk f).
    assert (∀ u, type_named (pe_reference_type_id e) u → u = f) as Hu by (intros u Hun%reference_from_named; congruence).
    split.
    + destruct (pe_include_subtypes e) eqn:Hi; cbn [andb].
      * intros [->|?]%Hk; [by apply follows_exact|by eapply follows_subtype].
      * rewrite orb_false_r, bool_decide_eq_true. intros ->. by apply follows_exact.
    + intros Hft. destruct Hft as [t Ht|t f' Hi Ht Hs|t Ht|].
      * rewrite (Hu _ Ht). by rewrite bool_decide_eq_true_2.
      * rewrite (Hu _ Ht) in Hs. rewrite Hi. cbn [andb]. apply Hk. by right.
      * apply reference_from_none in Ht. congruence.
      * by destruct Hz.
  - split; [|done]. intros _. apply follows_unfiltered. by apply reference_from_none.
Qed.
Lemma name_matches_spec wanted name : name_matches wanted name = true ↔ name_fits wanted name.
Proof. unfold name_matches, name_fits. by rewrite andb_true_iff, orb_true_iff, bool_decide_eq_true, !Z.eqb_eq. Qed.

Lemma step_element_spec e s a b : b ∈ step_element e s a ↔
  ∃ r target, r ∈ get_references a (if pe_is_inverse e then BInverse else BForward) s ∧ rf_target r = b ∧
    follows_type e (rf_type r) ∧ get_node b s = Some target ∧ name_fits (pe_target_name e) (browse_name target).
Proof.
  unfold step_element. rewrite list_elem_of_omap. unfold follow. setoid_rewrite <- element_type_spec. setoid_rewrite <- name_matches_spec. split.
  - intros (r & Hr & Hf). destruct (element_type_allowed e (rf_type r)) eqn:He; [|done]. cbn [negb] in Hf.
    destruct (get_node (rf_target r) s) as [target|] eqn:Hg; [|done]. destruct (name_matches _ _) eqn:Hm; [|done]. injection Hf as <-. eauto 10.
  - intros (r & target & Hr & <- & He & Hg & Hm). exists r. split; [done|]. by rewrite He, Hg, Hm.
Qed.
Lemma walk_path_spec s es : ∀ current,
  match walk_path s current es with
  | Some ids => ∀ c, c ∈ ids ↔ ∃ a, a ∈ current ∧ path_to s a es c
  | None => ∀ a c, a ∈ current → ¬ path_to s a es c
  end ∧ (∀ ids, walk_path s current es = Some ids → ids = [] → current = [] ∧ es = []).
Proof.
  induction es as [|e es IH]; intros current; cbn [walk_path].
  - split; [|by intros ids [= <-]]. intros c. split; [intros Hc; exists c; by split; [|constructor]|].
    intros (a & Ha & Hp). by inversion Hp; subst.
  - assert (∀ b, b ∈ current ≫= step_element e s ↔ ∃ a, a ∈ current ∧ b ∈ step_element e s a) as Hb.
    { intros b. rewrite list_elem_of_bind. naive_solver. }
    destruct (current ≫= step_element e s) as [|b0 next] eqn:En.
    + split; [|done]. intros a c Ha Hp. inversion Hp as [|? ? ? b r target ? Hr Ht He Hg Hm Hrest]; subst.
      destruct (not_elem_of_nil (rf_target r)). apply Hb. exists a. split; [done|]. apply step_element_spec. eauto 10.
    + destruct (IH (b0 :: next)) as [IH1 IH2]. split; [|intros ids Hi Hids; by destruct (IH2 ids Hi Hids)].
      destruct (walk_path s (b0 :: next) es) as [ids|].
      * intros c. rewrite IH1. split.
        -- intros (b & Hin & Hp). apply Hb in Hin as (a & Ha & Hs). exists a. split; [done|].
           apply step_element_spec in Hs as (r & target & ? & ? & ? & ? & ?). econstructor; eauto.
        -- intros (a & Ha & Hp). inversion Hp as [|? ? ? b r target ? Hr Ht He Hg Hm Hrest]; subst. exists (rf_target r). split; [|done].
           apply Hb. exists a. split; [done|]. apply step_element_spec. eauto 10.
      * intros a c Ha Hp. inversion Hp as [|? ? ? b r target ? Hr Ht He Hg Hm Hrest]; subst. apply (IH1 (rf_target r) c); [|done].
        apply Hb. exists a. split; [done|]. apply step_element_spec. eauto 10.
Qed.


Fixpoint ancestor (i : ReferenceIndex) (k : nat) (id : NodeId) : option NodeId :=
  match k with O => Some id | S k => parent_type i id ≫= ancestor i k end.
(** Subtyping is the chain of parents, to depth 50. A node is a subtype of another exactly
    when the other is reached from it in at most 50 steps, each to the first node it is a
    subtype of. *)
Theorem subtype_exact i candidate parent :
  is_node_subtype_of i candidate parent = true ↔ ∃ k, (k <= MAX_DEPTH)%nat ∧ ancestor i k candidate = Some parent.
Proof.
  assert (∀ d c, walk_parents i d c parent = true ↔ ∃ k, (1 <= k <= d)%nat ∧ ancestor i k c = Some parent) as Hw.
  { induction d as [|d IH]; intros c; cbn [walk_parents]; [split; [done|intros (k & ? & _); lia]|].
    destruct (parent_type i c) as [next|] eqn:Hp; [|split; [done|intros (k & ? & Hk); destruct k; [lia|]; cbn [ancestor] in Hk; by rewrite Hp in Hk]].
    case_bool_decide as Hn.
    - split; [|done]. intros _. exists 1%nat. split; [lia|]. cbn [ancestor]. rewrite Hp. cbn. by rewrite Hn.
    - rewrite IH. split; intros (k & Hk & Ha).
      + exists (S k). split; [lia|]. cbn [ancestor]. by rewrite Hp.
      + destruct k as [|[|k]]; [lia|cbn [ancestor] in Ha; rewrite Hp in Ha; cbn in Ha; congruence|]. exists (S k). split; [lia|].
        cbn [ancestor] in Ha |- *. by rewrite Hp in Ha. }
  unfold is_node_subtype_of. case_bool_decide as Hc.
  - split; [|done]. intros _. exists 0%nat. split; [lia|]. cbn. by rewrite Hc.
  - rewrite Hw. split; intros (k & Hk & Ha); (exists k; split; [|done]); [lia|]. destruct k; [cbn in Ha; congruence|lia].
Qed.

(* ------------------------------------------------------------------ *)
(** * The reference index *)

Inductive IndexOp : Set := OpAddReference (r : Reference) | OpRemoveReference (source : NodeId) (t : ReferenceTypeId) (target : NodeId).
Definition index_op (i : ReferenceIndex) (op : IndexOp) : ReferenceIndex :=
  match op with
  | OpAddReference r => index_add_reference r i
  | OpRemoveReference source t target => (index_remove_reference source t target i).2
  end.
(** How often a list has a reference of a type to a target. *)
Definition occurrences (t : ReferenceTypeId) (target : NodeId) (l : list Reference) : nat := length (filter (fun r => ref_matches t target r = true) l).
Definition mirrored (i : ReferenceIndex) : Prop :=
  ∀ a t b, occurrences t b (refs_of (ri_forward i) a) = occurrences t a (refs_of (ri_inverse i) b).

Lemma occurrences_push t b r m a : occurrences t b (refs_of (push_ref r m) a) =
  (occurrences t b (refs_of m a) + if bool_decide (rf_source r = a) && ref_matches t b r then 1 else 0)%nat.
Proof.
  unfold push_ref, refs_of at 1. destruct (decide (rf_source r = a)) as [<-|Hne].
  - rewrite lookup_insert_eq. cbn [from_option id]. unfold occurrences. rewrite filter_app, length_app. rewrite bool_decide_true by done. cbn [andb].
    f_equal. rewrite filter_cons, filter_nil. destruct (ref_matches t b r) eqn:Hm; by case_decide.
  - rewrite lookup_insert_ne by done. rewrite bool_decide_false by done. cbn [andb]. fold (refs_of m a). lia.
Qed.
Lemma occurrences_retain t b t' target key m a : occurrences t b (refs_of (retain_refs t' target key m) a) =
  (if bool_decide (key = a) && bool_decide (t = t') && bool_decide (b = target) then 0 else occurrences t b (refs_of m a))%nat.
Proof.
  unfold retain_refs. destruct (decide (key = a)) as [<-|Hne].
  2: { rewrite (bool_decide_false (key = a)) by done. cbn [andb]. destruct (m !! key); [|done]. unfold refs_of. by rewrite lookup_insert_ne by done. }
  rewrite (bool_decide_true (key = key)) by done. cbn [andb]. unfold refs_of. destruct (m !! key) as [l|] eqn:Hm.
  2: { rewrite Hm. cbn. by case_match. }
  rewrite lookup_insert_eq. cbn [from_option id]. unfold occurrences. rewrite list_filter_filter. unfold ref_matches.
  destruct (bool_decide_reflect (t = t')) as [->|Ht]; [destruct (bool_decide_reflect (b = target)) as [->|Hb]|]; cbn [andb].
  - replace (filter _ l) with (@nil Reference); [done|]. symmetry. clear Hm. induction l as [|r l IH]; [done|]. rewrite filter_cons.
    case_decide as Hd; [destruct Hd; congruence|done].
  - f_equal. apply list_filter_iff. intros r. destruct (bool_decide_reflect (rf_type r = t')), (bool_decide_reflect (rf_target r = b)),
      (bool_decide_reflect (rf_target r = target)); cbn; naive_solver congruence.
  - f_equal. apply list_filter_iff. intros r. destruct (bool_decide_reflect (rf_type r = t)), (bool_decide_reflect (rf_target r = b)),
      (bool_decide_reflect (rf_type r = t')), (bool_decide_reflect (rf_target r = target)); cbn; naive_solver congruence.
Qed.
(** Both directions of a reference stay together. After any sequence of additions and
    removals of references, a node has as many references of a type to another as the other
    has inverse references of that type back. *)
Theorem references_mirrored ops : mirrored (foldl index_op {| ri_forward := ∅; ri_inverse := ∅ |} ops).
Proof.
  assert (∀ i, mirrored i → mirrored (foldl index_op i ops)) as H; [|apply H; intros a t b; unfold refs_of; cbn; by rewrite !lookup_empty].
  induction ops as [|op ops IH]; intros i Hi; [done|]. cbn [foldl]. apply IH. intros a t b.
  destruct op as [r|source t' target]; cbn [index_op index_add_reference index_remove_reference snd ri_forward ri_inverse].
  - rewrite !occurrences_push, Hi. unfold ref_matches, inverse_ref. cbn [rf_source rf_type rf_target].
    destruct (bool_decide_reflect (rf_source r = a)), (bool_decide_reflect (rf_type r = t)), (bool_decide_reflect (rf_target r = b)); done.
  - rewrite !occurrences_retain, Hi. destruct (bool_decide_reflect (source = a)), (bool_decide_reflect (t = t')), (bool_decide_reflect (target = b)),
      (bool_decide_reflect (b = target)), (bool_decide_reflect (a = source)); cbn; congruence.
Qed.

(** Removing a node does not remove the references to it. A reference from another node
    to a removed node stays in the index: as soon as a node with the same identifier is
    inserted, browsing the other node lists it again, though nothing linked them. *)
Theorem removed_node_resurfaces a id n s t :
  node_id n = id → a ≠ id → (remove_node id s).1 = true → (insert_node n (remove_node id s).2).1 = true →
  forward a t id ∈ get_references a BForward s →
  ReferenceDescription_new t true n id ∈ descriptions a BForward None false None (insert_node n (remove_node id s).2).2.
Proof.
  intros Hid Ha Hr Hi Hin. unfold remove_node, store_remove in *. cbn [fst] in Hr. rewrite Hr in Hi |- *. cbn [snd] in Hi |- *.
  unfold insert_node, store_insert in *. cbn [as_store set_store set_index st_nodes st_max_nodes] in *.
  destruct (st_max_nodes (as_store s) <=? _); [done|]. rewrite Hid, lookup_delete_eq in Hi |- *. rewrite bool_decide_false in Hi |- * by (by intros []).
  unfold descriptions. apply list_elem_of_omap. exists (forward a t id). split.
  - unfold get_references, index_get_references, refs_of in *. cbn. rewrite lookup_delete_ne by done. exact Hin.
  - unfold describe. cbn [type_allowed negb forward rf_target rf_type rf_forward]. unfold get_node. cbn. by rewrite lookup_insert_eq.
Qed.

(* ------------------------------------------------------------------ *)
(** * Runs *)

Inductive SpaceOp : Set :=
| OpInsert (n : Node)
| OpRemove (id : NodeId)
| OpAddRef (r : Reference)
| OpRemoveRef (source : NodeId) (t : ReferenceTypeId) (target : NodeId)
| OpAddUnder (n : Node) (r : Reference)
| OpRead (now : DateTime) (stack : nat) (id : NodeId) (a : AttributeId)
| OpWrite (now : DateTime) (id : NodeId) (a : AttributeId) (v : DataValue)
| OpBrowse (now : DateTime) (id : NodeId) (d : BrowseDirection) (f : option ReferenceTypeId) (sub : bool) (mask : option Z) (max : Z)
| OpBrowseNext (now : DateTime) (point : list Z) (release : bool) (max : Z)
| OpRegisterNamespace (uri : list Z).
Definition space_op (s : AddressSpace) (op : SpaceOp) : AddressSpace :=
  match op with
  | OpInsert n => (insert_node n s).2
  | OpRemove id => (remove_node id s).2
  | OpAddRef r => add_reference r s
  | OpRemoveRef source t target => (remove_reference source t target s).2
  | OpAddUnder n r => (add_under n r s).2
  | OpRead now stack id a => (read now stack id a s).2
  | OpWrite now id a v => (write now id a v s).2
  | OpBrowse now id d f sub mask max => (browse now id d f sub mask max s).2
  | OpBrowseNext now point release max => (browse_next now point release max s).2
  | OpRegisterNamespace uri =>
      set_registry {| ns_namespaces := (register_namespace uri (ns_namespaces (as_registry s))).2; ns_runtimes := ns_runtimes (as_registry s) |} s
  end.

Record space_ok (s : AddressSpace) : Prop := {
  ok_keys : map_Forall (fun id n => node_id n = id) (st_nodes (as_store s));
  ok_size : Z.of_nat (size (st_nodes (as_store s))) <= Z.max 0 (st_max_nodes (as_store s));
  ok_next : 0 <= cs_next_id (as_continuations s) < 2 ^ 64;
  ok_uris : NoDup (ns_namespaces (as_registry s))
}.
Lemma space_ok_weaken s s' : as_store s' = as_store s → cs_next_id (as_continuations s') = cs_next_id (as_continuations s) →
  ns_namespaces (as_registry s') = ns_namespaces (as_registry s) → space_ok s → space_ok s'.
Proof. intros H1 H2 H3 [A B C D]. split; by rewrite ?H1, ?H2, ?H3. Qed.
Lemma insert_node_ok n s : space_ok s → space_ok (insert_node n s).2.
Proof.
  intros [A B C D]. unfold insert_node, store_insert. case_if; [by split|]. case_bool_decide as Hn; [by split|]. bool_to_prop.
  split; [|cbn [as_store set_store st_nodes st_max_nodes snd]; rewrite map_size_insert_None by (by rewrite eq_None_not_Some); lia|done|done].
  cbn [as_store set_store st_nodes snd]. by apply map_Forall_insert_2.
Qed.
Lemma write_attribute_id now a v n : node_id (write_attribute now a v n).2 = node_id n.
Proof. unfold write_attribute. destruct n, a; try done. destruct (can_write _); [|done]. by destruct (dv_value v). Qed.
Lemma position_None uri l : position uri l = None → uri ∉ l.
Proof.
  unfold position. destruct (list_find _ l) as [[i u]|] eqn:E; [done|]. intros _ Hin. apply list_find_None in E.
  rewrite Forall_forall in E. by apply (E uri).
Qed.
Lemma paginate_next now l max c : 0 <= cs_next_id c < 2 ^ 64 → 0 <= cs_next_id (paginate now l max c).2 < 2 ^ 64.
Proof. intros Hc. unfold paginate. case_if; cbn; [apply Z.mod_pos_bound; lia|done]. Qed.
Lemma space_op_ok s op : space_ok s → space_ok (space_op s op).
Proof.
  intros Hs. destruct op as [n|id|r|source t target|n r|now stack id a|now id a v|now id d f sub m max|now point release max|uri]; cbn [space_op].
  - by apply insert_node_ok.
  - destruct Hs as [A B C D]. unfold remove_node, store_remove. case_bool_decide as Hd; split; try done; cbn [as_store set_store set_index st_nodes st_max_nodes snd].
    1, 3: by apply map_Forall_delete. 1, 2: pose proof (map_size_delete id (st_nodes (as_store s))) as Hz; rewrite Hz; unfold Datatypes.id; case_match; lia.
  - by apply (space_ok_weaken s).
  - by apply (space_ok_weaken s).
  - pose proof (insert_node_ok n s Hs) as Hi. unfold add_under. destruct (insert_node n s) as [[] s']; [by apply (space_ok_weaken s')|done].
  - by apply (space_ok_weaken s).
  - unfold write. change (get_node id (count_access 0 1 0 s)) with (get_node id s). destruct (get_node id s) as [n|] eqn:Hn; [|by apply (space_ok_weaken s)].
    pose proof (write_attribute_id now a v n) as Hid. destruct (write_attribute now a v n) as [st n']. cbn in Hid.
    destruct Hs as [A B C D]. unfold get_node in Hn. split; [|cbn; by rewrite map_size_insert_Some by (by rewrite Hn)|done|done].
    cbn. apply map_Forall_insert_2; [|done]. rewrite Hid. by apply A.
  - unfold browse. case_if; [by apply (space_ok_weaken s)|]. destruct Hs as [A B C D].
    pose proof (paginate_next now (descriptions id d f sub m (count_access 0 0 1 s)) max (as_continuations s) C) as Hp.
    change (as_continuations (count_access 0 0 1 s)) with (as_continuations s). destruct (paginate now _ max _) as [r c]. by split.
  - unfold browse_next, continuation_browse_next. destruct Hs as [A B C D]. case_if; [by split|]. destruct release; [by split|].
    destruct (cs_browse _ !! _) as [[rest t]|]; [|by split]. case_if; [by split|].
    pose proof (paginate_next now rest max (continuation_remove (le_value point) (as_continuations s)) C) as Hp.
    destruct (paginate now rest max _) as [r c]. by split.
  - destruct Hs as [A B C D]. split; try done. cbn. unfold register_namespace. destruct (position uri _) eqn:Hp; [done|]. cbn.
    apply NoDup_app. split_and!; [done| |apply NoDup_singleton]. intros u Hu ->%list_elem_of_singleton. by apply (position_None _ _ Hp).
Qed.

(** The address space stays well formed. After any sequence of operations on a well-formed
    space, every node is stored under its own identifier, their number respects the configured
    maximum and no namespace is registered twice. *)
Theorem space_invariant s ops : space_ok s →
  let s' := foldl space_op s ops in
  (∀ id n, get_node id s' = Some n → node_id n = id) ∧
  total_nodes (stats s') <= Z.max 0 (st_max_nodes (as_store s')) ∧
  st_max_nodes (as_store s') = st_max_nodes (as_store s) ∧
  NoDup (ns_namespaces (as_registry s')).
Proof.
  intros Hs s'. assert (space_ok s') as [A B C D] by (apply foldl_preserves; [apply space_op_ok|done]). split_and!; [exact A|exact B| |exact D].
  unfold s'. clear. revert s. induction ops as [|op ops IH]; intros s; [done|]. cbn [foldl]. rewrite IH.
  destruct op as [n|id|r|source t target|n r|now stack id a|now id a v|now id d f sub m max|now point release max|uri]; cbn [space_op]; try done.
  - unfold insert_node, store_insert. by repeat case_if.
  - unfold remove_node, store_remove. by case_bool_decide.
  - unfold add_under, insert_node, store_insert. by repeat case_if.
  - unfold write. destruct (get_node _ _) as [n|]; [|done]. by destruct (write_attribute now a v n).
  - unfold browse. case_if; [done|]. by destruct (paginate _ _ _ _).
  - unfold browse_next. by destruct (continuation_browse_next _ _ _ _ _).
Qed.
End Space.

#[local] Existing Instance demo_externals.
Definition demo_space : AddressSpace := AddressSpace_new (at_time 0 0) AddressSpaceConfig_default.
Example demo_space_size : Z.of_nat (size (st_nodes (as_store demo_space))) = 65 ∧ index_total_references (as_index demo_space) = 64.
Proof. by vm_compute. Qed.

(** A folder of the standard space with one variable. *)
Definition demo_folder : NodeId := NodeId_numeric 2 1000.
Definition demo_var : NodeId := NodeId_numeric 2 1001.
Definition demo_variable : Node :=
  NVariable (writable (VariableNode_new (at_time 0 0) demo_var (QualifiedName_null (str "Temperature")) (LocalizedText_invariant (str "Temperature"))
    (std 6) (VInt32 20))).
Definition demo_populated : AddressSpace :=
  (add_under demo_variable (has_component demo_folder demo_var)
    (add_folder demo_folder (QualifiedName_null (str "Boiler")) (LocalizedText_invariant (str "Boiler")) objects_folder demo_space).2).2.

Example demo_path : bt_target_id <$> bp_targets (resolve_browse_path objects_folder
    [{| pe_reference_type_id := reference_node_id RHierarchicalReferences; pe_is_inverse := false; pe_include_subtypes := true;
        pe_target_name := QualifiedName_null (str "Boiler") |};
     {| pe_reference_type_id := reference_node_id RHasComponent; pe_is_inverse := false; pe_include_subtypes := false;
        pe_target_name := QualifiedName_null (str "Temperature") |}] demo_populated) = [demo_var].
Proof. apply (bool_decide_unpack _). by vm_compute. Qed.
Example demo_subtype : is_node_subtype_of (as_index demo_space) (std 4) (std 24) = true ∧ is_node_subtype_of (as_index demo_space) (std 4) (std 28) = false.
Proof. by vm_compute. Qed.

(** The 14 types directly below the base data type, in pages of 10. *)
Lemma browse_pages_complete_witness :
  pages_ok (descriptions (std 24) BForward (Some RHasSubtype) false None demo_space) 10
    (let '(r, s) := browse (at_time 0 0) (std 24) BForward (Some RHasSubtype) false None 10 demo_space in
     browse_pages [at_time 200 0] 10 r s).1.
Proof.
  apply (browse_pages_complete (at_time 0 0) [at_time 200 0]); [by vm_compute|lia|split; [by vm_compute|exact I]|by vm_compute|by vm_compute].
Defined.
Lemma demo_space_ok : space_ok demo_space.
Proof.
  split.
  - assert (bool_decide (map_Forall (fun id n => node_id n = id) (st_nodes (as_store demo_space))) = true) as H by (by vm_compute).
    exact (bool_decide_eq_true_1 _ H).
  - by vm_compute.
  - by vm_compute.
  - assert (bool_decide (NoDup (ns_namespaces (as_registry demo_space))) = true) as H by (by vm_compute). exact (bool_decide_eq_true_1 _ H).
Qed.
Lemma space_invariant_witness : total_nodes (stats (foldl space_op demo_space [OpInsert demo_variable; OpRemove (std 84)])) <= 1000000.
Proof. apply (space_invariant demo_space [OpInsert demo_variable; OpRemove (std 84)] demo_space_ok). Defined.
Lemma removed_node_resurfaces_witness :
  ReferenceDescription_new RHasComponent true demo_variable demo_var ∈
    descriptions demo_folder BForward None false None (insert_node demo_variable (remove_node demo_var demo_populated).2).2.
Proof.
  apply removed_node_resurfaces; [reflexivity|by apply (bool_decide_unpack _); vm_compute|by vm_compute|by vm_compute|].
  apply (bool_decide_unpack _). by vm_compute.
Defined.
