(* ===== verification/OpcuaSubscription.v ===== *)
(** OPC UA subscriptions and events ([mabi-opcua/src/sdk/subscription/], [sdk/event.rs]):
    monitored items and their filters, notification queues, the publish engine, the catalog of
    subscriptions with their owners, its periodic run, snapshots of it, and the evaluation of
    event filters.

    Floats are bit patterns, compared as IEEE 754 numbers.  The hash maps are finite maps, their
    iteration that of [map_to_list]; the locks of an operation are held for its whole step.  Writing
    the snapshot to disk, the broadcast and notification channels' capacities and the times of
    creation nothing reads are left out; the events sent are collected.  Recursion of the filter
    evaluation uses stack, as reads of attributes do. *)

From S2P Require Import Prelude Text Float OpcuaCodec OpcuaNodes OpcuaSpace.

Definition u32_add `{BuildProfile} {E} (a b : Z) : outcome E Z := checked_op 4294967296 (a + b).

Section Subscription.
Context `{X : Externals} `{B : BuildProfile}.

(* ------------------------------------------------------------------ *)
(** * Equality of values *)

Definition list_eqb {A} (eqb : A → A → bool) (a b : list A) : bool :=
  (zlen a =? zlen b) && forallb (fun p => eqb p.1 p.2) (zip a b).
Definition f32_eqb (a b : Z) : bool := float_eq (f32_val a) (f32_val b).
Definition f64_eqb (a b : Z) : bool := float_eq (f64_val a) (f64_val b).
(** The derived [PartialEq]: structural, floats by value. *)
Definition scalar_eqb (a b : VariantScalarValue) : bool :=
  match a, b with
  | SvFloat a, SvFloat b => f32_eqb a b
  | SvDouble a, SvDouble b => f64_eqb a b
  | _, _ => bool_decide (a = b)
  end.
Definition array_eqb (a b : VariantArrayValue) : bool :=
  match a, b with
  | AvFloat a, AvFloat b => list_eqb f32_eqb a b
  | AvDouble a, AvDouble b => list_eqb f64_eqb a b
  | _, _ => bool_decide (a = b)
  end.
Definition variant_eqb (a b : Variant) : bool :=
  match a, b with
  | VFloat a, VFloat b => f32_eqb a b
  | VDouble a, VDouble b => f64_eqb a b
  | VScalar a, VScalar b => scalar_eqb a b
  | VArray a, VArray b => array_eqb a b
  | _, _ => bool_decide (a = b)
  end.
Definition as_f64 (v : Variant) : option SpecFloat.spec_float :=
  match v with
  | VDouble v | VScalar (SvDouble v) => Some (f64_val v)
  | VFloat v | VScalar (SvFloat v) => Some (f32_as_f64 v)
  | _ => None
  end.

(* ------------------------------------------------------------------ *)
(** * Event filters *)

Record SimpleAttributeOperand : Set := {
  op_type_definition_id : NodeId; op_browse_path : list QualifiedName; op_attribute_id : AttributeId; op_index_range : list Z
}.
Inductive FilterOperand : Set := FLiteral (v : Variant) | FSimpleAttribute (a : SimpleAttributeOperand) | FElement (i : Z).
Inductive FilterOperator : Set :=
| FEquals | FIsNull | FGreaterThan | FLessThan | FGreaterThanOrEqual | FLessThanOrEqual | FLike | FNot | FBetween | FInList
| FAnd | FOr | FCast | FInView | FOfType | FRelatedTo | FBitwiseAnd | FBitwiseOr.
Definition all_operators : list FilterOperator :=
  [FEquals; FIsNull; FGreaterThan; FLessThan; FGreaterThanOrEqual; FLessThanOrEqual; FLike; FNot; FBetween; FInList;
   FAnd; FOr; FCast; FInView; FOfType; FRelatedTo; FBitwiseAnd; FBitwiseOr].
(** The operators are numbered from 0 in this order. *)
Definition operator_from_u32 (v : Z) : option FilterOperator := if 0 <=? v then all_operators !! Z.to_nat v else None.
Record ContentFilterElement : Set := { fe_operator : FilterOperator; fe_operands : list FilterOperand }.
Record EventFilter : Set := { ef_select_clauses : list SimpleAttributeOperand; ef_where_clause : list ContentFilterElement }.
Record EventFieldList : Set := { el_client_handle : Z; el_event_fields : list Variant }.
Record EventData : Set := {
  ed_event_id : list Z; ed_event_type : NodeId; ed_source_node : NodeId; ed_source_name : list Z; ed_time : DateTime;
  ed_receive_time : DateTime; ed_message : list Z; ed_severity : Z; ed_custom_fields : list (list QualifiedName * Variant)
}.
Definition paths_match (a b : list QualifiedName) : bool := bool_decide (a = b).
Definition standard_field (e : EventData) (name : list Z) : option Variant :=
  if bool_decide (name = str "EventId") then Some (VByteString (ed_event_id e))
  else if bool_decide (name = str "EventType") then Some (VNodeId (ed_event_type e))
  else if bool_decide (name = str "SourceNode") then Some (VNodeId (ed_source_node e))
  else if bool_decide (name = str "SourceName") then Some (VString (ed_source_name e))
  else if bool_decide (name = str "Time") then Some (VDateTime (ed_time e))
  else if bool_decide (name = str "ReceiveTime") then Some (VDateTime (ed_receive_time e))
  else if bool_decide (name = str "Message") then Some (VString (ed_message e))
  else if bool_decide (name = str "Severity") then Some (VUInt16 (ed_severity e))
  else None.
Definition resolve_field (e : EventData) (o : SimpleAttributeOperand) : Variant :=
  match op_browse_path o with
  | [] => VNull
  | path =>
      match match path with [q] => standard_field e (qn_name q) | _ => None end with
      | Some v => v
      | None => default VNull (snd <$> (snd <$> list_find (fun f => paths_match f.1 path = true) (ed_custom_fields e)))
      end
  end.

(** [compare_variants]; times are ordered by the sign of their difference. *)
Fixpoint bytes_compare (a b : list Z) : comparison :=
  match a, b with
  | [], [] => Eq
  | [], _ => Lt
  | _, [] => Gt
  | x :: a, y :: b => match Z.compare x y with Eq => bytes_compare a b | c => c end
  end.
Definition compare_variants (a b : Variant) : option comparison :=
  match a, b with
  | VDouble a, VDouble b => float_cmp (f64_val a) (f64_val b)
  | VFloat a, VFloat b => float_cmp (f32_val a) (f32_val b)
  | VInt32 a, VInt32 b | VUInt32 a, VUInt32 b | VInt64 a, VInt64 b | VUInt64 a, VUInt64 b | VInt16 a, VInt16 b
  | VUInt16 a, VUInt16 b => Some (Z.compare a b)
  | VString a, VString b => Some (bytes_compare a b)
  | VDateTime a, VDateTime b => Some (Z.compare (elapsed_nanos a b) 0)
  | a, b => match as_f64 a, as_f64 b with Some a, Some b => float_cmp a b | _, _ => None end
  end.
Definition resolve_operand_as_variant (e : EventData) (o : FilterOperand) : Variant :=
  match o with FLiteral v => v | FSimpleAttribute a => resolve_field e a | FElement _ => VNull end.
Definition resolve_operand_as_node_id (e : EventData) (o : FilterOperand) : option NodeId :=
  match o with
  | FLiteral (VNodeId n) => Some n
  | FSimpleAttribute a => match resolve_field e a with VNodeId n => Some n | _ => None end
  | _ => None
  end.
Definition is_subtype_of (i : ReferenceIndex) (event_type target : NodeId) : bool :=
  is_node_subtype_of i event_type target ||
  existsb (fun r => bool_decide (rf_type r = RHasSubtype) && bool_decide (rf_target r = target)) (index_get_references event_type BInverse i).
Definition evaluate_comparison (e : EventData) (el : ContentFilterElement) (cmp : Variant → Variant → bool) : bool :=
  match fe_operands el with
  | a :: b :: _ => cmp (resolve_operand_as_variant e a) (resolve_operand_as_variant e b)
  | _ => true
  end.
Definition ordered_as (test : comparison → bool) (a b : Variant) : bool := match compare_variants a b with Some c => test c | None => false end.

(** [all] and [any] stop at the first operand that decides. *)
Fixpoint all_operands (eval : FilterOperand → outcome OpcUaError bool) (l : list FilterOperand) : outcome OpcUaError bool :=
  match l with
  | [] => Ok true
  | o :: l => let? b := eval o in if b then all_operands eval l else Ok false
  end.
Fixpoint any_operand (eval : FilterOperand → outcome OpcUaError bool) (l : list FilterOperand) : outcome OpcUaError bool :=
  match l with
  | [] => Ok false
  | o :: l => let? b := eval o in if b then Ok true else any_operand eval l
  end.
Fixpoint evaluate_element (i : ReferenceIndex) (e : EventData) (elements : list ContentFilterElement) (stack : nat) (n : nat)
    : outcome OpcUaError bool :=
  match stack with
  | O => Panic
  | S stack =>
      match elements !! n with
      | None => Ok true
      | Some el =>
          match fe_operator el with
          | FOfType => Ok (match head (fe_operands el) ≫= resolve_operand_as_node_id e with
                           | Some type_id => is_subtype_of i (ed_event_type e) type_id
                           | None => true
                           end)
          | FEquals => Ok (evaluate_comparison e el variant_eqb)
          | FGreaterThan => Ok (evaluate_comparison e el (ordered_as (fun c => match c with Gt => true | _ => false end)))
          | FLessThan => Ok (evaluate_comparison e el (ordered_as (fun c => match c with Lt => true | _ => false end)))
          | FGreaterThanOrEqual => Ok (evaluate_comparison e el (ordered_as (fun c => match c with Lt => false | _ => true end)))
          | FLessThanOrEqual => Ok (evaluate_comparison e el (ordered_as (fun c => match c with Gt => false | _ => true end)))
          | FAnd => all_operands (fun o => match o with FElement j => evaluate_element i e elements stack (Z.to_nat j) | _ => Ok true end) (fe_operands el)
          | FOr => any_operand (fun o => match o with FElement j => evaluate_element i e elements stack (Z.to_nat j) | _ => Ok false end) (fe_operands el)
          | FNot => match fe_operands el with
                    | FElement j :: _ => let? b := evaluate_element i e elements stack (Z.to_nat j) in Ok (negb b)
                    | _ => Ok true
                    end
          | FIsNull => Ok (match fe_operands el with
                           | o :: _ => match resolve_operand_as_variant e o with VNull => true | _ => false end
                           | [] => true
                           end)
          | _ => Ok true
          end
      end
  end.
Definition evaluate_where_clause (i : ReferenceIndex) (stack : nat) (clause : list ContentFilterElement) (e : EventData) : outcome OpcUaError bool :=
  match clause with [] => Ok true | _ => evaluate_element i e clause stack 0 end.

(* ------------------------------------------------------------------ *)
(** * Monitored items *)

Inductive DataChangeTrigger : Set := TStatus' | TStatusValue | TStatusValueTimestamp.
Inductive DeadbandType : Set := DbNone | DbAbsolute | DbPercent.
Record DataChangeFilter : Set := { df_trigger : DataChangeTrigger; df_deadband_type : DeadbandType; df_deadband_value : Z }.
Inductive MonitoredItemKind : Set := KDataChange | KEvent.
Inductive MonitoringMode : Set := MmDisabled | MmSampling | MmReporting.
Record MonitoredItemConfig : Set := {
  mc_node_id : NodeId; mc_attribute_id : AttributeId; mc_sampling_interval_ms : Z; mc_queue_size : Z; mc_discard_oldest : bool;
  mc_filter : option DataChangeFilter; mc_kind : MonitoredItemKind; mc_event_filter : option EventFilter
}.
Record MonitoredItemNotification : Set := { mn_client_handle : Z; mn_monitored_item_id : Z; mn_value : DataValue }.
Record MonitoredItem : Set := {
  mi_id : Z; mi_config : MonitoredItemConfig; mi_client_handle : Z; mi_monitoring_mode : MonitoringMode;
  mi_last_value : option DataValue; mi_notification_queue : list MonitoredItemNotification; mi_last_sample_time : DateTime
}.
(** The client handle is the item's identifier until [set_client_handle]. *)
Definition MonitoredItem_new (now : DateTime) (id : Z) (c : MonitoredItemConfig) : MonitoredItem :=
  {| mi_id := id; mi_config := c; mi_client_handle := id; mi_monitoring_mode := MmReporting; mi_last_value := None;
     mi_notification_queue := []; mi_last_sample_time := now |}.
Definition set_client_handle (h : Z) (m : MonitoredItem) : MonitoredItem :=
  {| mi_id := mi_id m; mi_config := mi_config m; mi_client_handle := h; mi_monitoring_mode := mi_monitoring_mode m;
     mi_last_value := mi_last_value m; mi_notification_queue := mi_notification_queue m; mi_last_sample_time := mi_last_sample_time m |}.
Definition set_monitoring_mode (mode : MonitoringMode) (m : MonitoredItem) : MonitoredItem :=
  {| mi_id := mi_id m; mi_config := mi_config m; mi_client_handle := mi_client_handle m; mi_monitoring_mode := mode;
     mi_last_value := mi_last_value m; mi_notification_queue := mi_notification_queue m; mi_last_sample_time := mi_last_sample_time m |}.
Definition item_modify (interval queue_size : Z) (discard_oldest : bool) (f : option DataChangeFilter) (m : MonitoredItem) : MonitoredItem :=
  {| mi_id := mi_id m;
     mi_config := {| mc_node_id := mc_node_id (mi_config m); mc_attribute_id := mc_attribute_id (mi_config m); mc_sampling_interval_ms := interval;
                     mc_queue_size := queue_size; mc_discard_oldest := discard_oldest; mc_filter := f; mc_kind := mc_kind (mi_config m);
                     mc_event_filter := mc_event_filter (mi_config m) |};
     mi_client_handle := mi_client_handle m; mi_monitoring_mode := mi_monitoring_mode m; mi_last_value := mi_last_value m;
     mi_notification_queue := mi_notification_queue m; mi_last_sample_time := mi_last_sample_time m |}.
Definition sampled (v : DataValue) (now : DateTime) (m : MonitoredItem) : MonitoredItem :=
  {| mi_id := mi_id m; mi_config := mi_config m; mi_client_handle := mi_client_handle m; mi_monitoring_mode := mi_monitoring_mode m;
     mi_last_value := Some v; mi_notification_queue := mi_notification_queue m; mi_last_sample_time := now |}.
Definition set_queue (q : list MonitoredItemNotification) (m : MonitoredItem) : MonitoredItem :=
  {| mi_id := mi_id m; mi_config := mi_config m; mi_client_handle := mi_client_handle m; mi_monitoring_mode := mi_monitoring_mode m;
     mi_last_value := mi_last_value m; mi_notification_queue := q; mi_last_sample_time := mi_last_sample_time m |}.

Definition value_changed (last new : DataValue) : bool :=
  match dv_value last, dv_value new with
  | Some a, Some b => negb (variant_eqb a b)
  | None, None => false
  | _, _ => true
  end.
(** A percentage is applied as an absolute deadband. *)
Definition within_deadband (f : DataChangeFilter) (last new : DataValue) : bool :=
  match df_deadband_type f with
  | DbNone => false
  | _ =>
      match dv_value last ≫= as_f64, dv_value new ≫= as_f64 with
      | Some a, Some b => float_lt (f64_distance b a) (f64_val (df_deadband_value f))
      | _, _ => false
      end
  end.
Definition should_notify (m : MonitoredItem) (new : DataValue) : bool :=
  match mi_last_value m with
  | None => true
  | Some last =>
      match mc_filter (mi_config m) with
      | None => value_changed last new
      | Some f =>
          let status_changed := negb (dv_status last =? dv_status new) in
          match df_trigger f with
          | TStatus' => status_changed
          | TStatusValue => if status_changed then true else if within_deadband f last new then false else value_changed last new
          | TStatusValueTimestamp =>
              if status_changed || bool_decide (dv_source_timestamp last ≠ dv_source_timestamp new) then true
              else if within_deadband f last new then false else value_changed last new
          end
      end
  end.
(** [Vec::remove(0)] panics on an empty vector. *)
Definition item_on_value_change (now : DateTime) (v : DataValue) : stM MonitoredItem OpcUaError (option MonitoredItemNotification) := fun m =>
  match mi_monitoring_mode m with
  | MmDisabled => (Ok None, m)
  | mode =>
      if negb (should_notify m v) then (Ok None, m)
      else
        let m := sampled v now m in
        match mode with
        | MmSampling => (Ok None, m)
        | _ =>
            let n := {| mn_client_handle := mi_client_handle m; mn_monitored_item_id := mi_id m; mn_value := v |} in
            if mc_queue_size (mi_config m) <=? zlen (mi_notification_queue m) then
              if mc_discard_oldest (mi_config m) then
                match mi_notification_queue m with
                | [] => (Panic, m)
                | _ :: q => (Ok (Some n), set_queue (q ++ [n]) m)
                end
              else (Ok None, m)
            else (Ok (Some n), set_queue (mi_notification_queue m ++ [n]) m)
        end
  end.

(* ------------------------------------------------------------------ *)
(** * Subscriptions *)

Record SubscriptionConfig : Set := {
  sc_subscription_id : Z; sc_publishing_interval_ms : Z; sc_lifetime_count : Z; sc_max_keep_alive_count : Z;
  sc_max_notifications_per_publish : Z; sc_priority : Z; sc_publishing_enabled : bool
}.
Inductive SubscriptionState : Set := SsCreating | SsNormal | SsLate | SsKeepAlive | SsClosed.
#[global] Instance SubscriptionState_eq : EqDecision SubscriptionState.
Proof. solve_decision. Defined.
Record SubscriptionStateData : Set := {
  sd_config : SubscriptionConfig; sd_state : SubscriptionState; sd_next_item_id : Z; sd_sequence_number : Z;
  sd_keep_alive_counter : Z; sd_lifetime_counter : Z; sd_last_publish_time : DateTime
}.
Definition SubscriptionStateData_new (now : DateTime) (c : SubscriptionConfig) : SubscriptionStateData :=
  {| sd_config := c; sd_state := SsCreating; sd_next_item_id := 1; sd_sequence_number := 1; sd_keep_alive_counter := 0;
     sd_lifetime_counter := 0; sd_last_publish_time := now |}.
Definition state_tick (d : SubscriptionStateData) : outcome OpcUaError SubscriptionStateData :=
  let? n := u32_add (sd_lifetime_counter d) 1 in
  Ok {| sd_config := sd_config d; sd_state := if sc_lifetime_count (sd_config d) <=? n then SsClosed else sd_state d;
        sd_next_item_id := sd_next_item_id d; sd_sequence_number := sd_sequence_number d; sd_keep_alive_counter := sd_keep_alive_counter d;
        sd_lifetime_counter := n; sd_last_publish_time := sd_last_publish_time d |}.
Definition reset_lifetime (d : SubscriptionStateData) : SubscriptionStateData :=
  {| sd_config := sd_config d; sd_state := sd_state d; sd_next_item_id := sd_next_item_id d; sd_sequence_number := sd_sequence_number d;
     sd_keep_alive_counter := sd_keep_alive_counter d; sd_lifetime_counter := 0; sd_last_publish_time := sd_last_publish_time d |}.
Definition set_keep_alive (n : Z) (st : SubscriptionState) (d : SubscriptionStateData) : SubscriptionStateData :=
  {| sd_config := sd_config d; sd_state := st; sd_next_item_id := sd_next_item_id d; sd_sequence_number := sd_sequence_number d;
     sd_keep_alive_counter := n; sd_lifetime_counter := sd_lifetime_counter d; sd_last_publish_time := sd_last_publish_time d |}.
Definition mark_keepalive (d : SubscriptionStateData) : SubscriptionStateData := set_keep_alive 0 SsKeepAlive d.
Definition mark_published (now : DateTime) (d : SubscriptionStateData) : SubscriptionStateData :=
  {| sd_config := sd_config d; sd_state := SsNormal; sd_next_item_id := sd_next_item_id d;
     sd_sequence_number := (sd_sequence_number d + 1) mod 2 ^ 32; sd_keep_alive_counter := 0;
     sd_lifetime_counter := sd_lifetime_counter d; sd_last_publish_time := now |}.
Definition set_next_item_id (n : Z) (d : SubscriptionStateData) : SubscriptionStateData :=
  {| sd_config := sd_config d; sd_state := sd_state d; sd_next_item_id := n; sd_sequence_number := sd_sequence_number d;
     sd_keep_alive_counter := sd_keep_alive_counter d; sd_lifetime_counter := sd_lifetime_counter d; sd_last_publish_time := sd_last_publish_time d |}.
Definition set_config (c : SubscriptionConfig) (d : SubscriptionStateData) : SubscriptionStateData :=
  {| sd_config := c; sd_state := sd_state d; sd_next_item_id := sd_next_item_id d; sd_sequence_number := sd_sequence_number d;
     sd_keep_alive_counter := sd_keep_alive_counter d; sd_lifetime_counter := sd_lifetime_counter d; sd_last_publish_time := sd_last_publish_time d |}.

Record SubscriptionOwnershipState : Set := { ow_owner_session_id : option NodeId; ow_detached_restored : bool }.
Record Subscription : Set := {
  sb_data : SubscriptionStateData;
  sb_items : gmap Z MonitoredItem;
  sb_pending : list MonitoredItemNotification;
  sb_pending_events : list EventFieldList;
  sb_owner : SubscriptionOwnershipState
}.
Definition Subscription_new (now : DateTime) (c : SubscriptionConfig) (o : SubscriptionOwnershipState) : Subscription :=
  {| sb_data := SubscriptionStateData_new now c; sb_items := ∅; sb_pending := []; sb_pending_events := []; sb_owner := o |}.
Definition subscription_id (s : Subscription) : Z := sc_subscription_id (sd_config (sb_data s)).
Definition set_data (d : SubscriptionStateData) (s : Subscription) : Subscription :=
  {| sb_data := d; sb_items := sb_items s; sb_pending := sb_pending s; sb_pending_events := sb_pending_events s; sb_owner := sb_owner s |}.
Definition set_items (i : gmap Z MonitoredItem) (s : Subscription) : Subscription :=
  {| sb_data := sb_data s; sb_items := i; sb_pending := sb_pending s; sb_pending_events := sb_pending_events s; sb_owner := sb_owner s |}.
Definition set_pending (p : list MonitoredItemNotification) (e : list EventFieldList) (s : Subscription) : Subscription :=
  {| sb_data := sb_data s; sb_items := sb_items s; sb_pending := p; sb_pending_events := e; sb_owner := sb_owner s |}.
Definition attach_owner (session : NodeId) (s : Subscription) : Subscription :=
  {| sb_data := sb_data s; sb_items := sb_items s; sb_pending := sb_pending s; sb_pending_events := sb_pending_events s;
     sb_owner := {| ow_owner_session_id := Some session; ow_detached_restored := false |} |}.
Definition is_publishable (s : Subscription) : bool := negb (ow_detached_restored (sb_owner s)).
Definition should_delete (s : Subscription) : bool := bool_decide (sd_state (sb_data s) = SsClosed).

Definition subscription_modify (interval lifetime keep_alive : Z) (s : Subscription) : Subscription :=
  let c := sd_config (sb_data s) in
  set_data (set_config {| sc_subscription_id := sc_subscription_id c; sc_publishing_interval_ms := interval; sc_lifetime_count := lifetime;
                          sc_max_keep_alive_count := keep_alive; sc_max_notifications_per_publish := sc_max_notifications_per_publish c;
                          sc_priority := sc_priority c; sc_publishing_enabled := sc_publishing_enabled c |} (sb_data s)) s.
Definition set_publishing_enabled (b : bool) (s : Subscription) : Subscription :=
  let c := sd_config (sb_data s) in
  set_data (set_config {| sc_subscription_id := sc_subscription_id c; sc_publishing_interval_ms := sc_publishing_interval_ms c;
                          sc_lifetime_count := sc_lifetime_count c; sc_max_keep_alive_count := sc_max_keep_alive_count c;
                          sc_max_notifications_per_publish := sc_max_notifications_per_publish c; sc_priority := sc_priority c;
                          sc_publishing_enabled := b |} (sb_data s)) s.
Inductive SubscriptionError : Set := MaxSubscriptionsReached | SubscriptionNotFound | MonitoredItemNotFound | TooManyMonitoredItems.
Definition subscription_create_item (now : DateTime) (c : MonitoredItemConfig) : stM Subscription SubscriptionError Z := fun s =>
  let id := sd_next_item_id (sb_data s) in
  match u32_add id 1 with
  | Ok next => (Ok id, set_items (<[id := MonitoredItem_new now id c]> (sb_items s)) (set_data (set_next_item_id next (sb_data s)) s))
  | Err e => (Err e, s)
  | Panic => (Panic, s)
  end.
Definition subscription_delete_item (id : Z) (s : Subscription) : bool * Subscription :=
  (bool_decide (is_Some (sb_items s !! id)), set_items (delete id (sb_items s)) s).
(** The items on the node, one after the other. *)
Fixpoint change_items (now : DateTime) (node : NodeId) (v : DataValue) (ids : list Z) : stM Subscription OpcUaError unit := fun s =>
  match ids with
  | [] => (Ok tt, s)
  | id :: ids =>
      match sb_items s !! id with
      | None => change_items now node v ids s
      | Some m =>
          if bool_decide (mc_node_id (mi_config m) = node) then
            match item_on_value_change now v m with
            | (Ok r, m) =>
                change_items now node v ids
                  (set_pending (sb_pending s ++ match r with Some n => [n] | None => [] end) (sb_pending_events s) (set_items (<[id := m]> (sb_items s)) s))
            | (Err e, m) => (Err e, set_items (<[id := m]> (sb_items s)) s)
            | (Panic, m) => (Panic, set_items (<[id := m]> (sb_items s)) s)
            end
          else change_items now node v ids s
      end
  end.
Definition subscription_on_value_change (now : DateTime) (node : NodeId) (v : DataValue) : stM Subscription OpcUaError unit := fun s =>
  change_items now node v (fst <$> map_to_list (sb_items s)) s.
Definition push_event_notification (f : EventFieldList) (s : Subscription) : Subscription :=
  if zlen (sb_pending_events s) <? sc_max_notifications_per_publish (sd_config (sb_data s)) * 2
  then set_pending (sb_pending s) (sb_pending_events s ++ [f]) s else s.
Definition event_monitored_items (s : Subscription) : list (Z * EventFilter) :=
  omap (fun '(_, m) => match mc_kind (mi_config m) with
                       | KEvent => (fun f => (mi_client_handle m, f)) <$> mc_event_filter (mi_config m)
                       | KDataChange => None
                       end) (map_to_list (sb_items s)).
Definition subscription_tick (s : Subscription) : outcome OpcUaError Subscription := omap_ok (fun d => set_data d s) (state_tick (sb_data s)).
Definition sampling_bucket_ms (s : Subscription) : Z :=
  match (fun e => f64_max1_as_u64 (mc_sampling_interval_ms (mi_config e.2))) <$> map_to_list (sb_items s) with
  | [] => f64_max1_as_u64 (sc_publishing_interval_ms (sd_config (sb_data s)))
  | x :: l => foldl Z.min x l
  end.

(** ** Publishing *)

Record NotificationMessage : Set := {
  nm_subscription_id : Z; nm_sequence_number : Z; nm_publish_time : DateTime; nm_notifications : list MonitoredItemNotification;
  nm_event_notifications : list EventFieldList; nm_more_notifications : bool
}.
Definition has_pending (s : Subscription) : bool :=
  negb (bool_decide (sb_pending s = []) && bool_decide (sb_pending_events s = [])).
Definition publish_message (now : DateTime) (l : list MonitoredItemNotification) (e : list EventFieldList) (more : bool) (s : Subscription) : NotificationMessage :=
  {| nm_subscription_id := subscription_id s; nm_sequence_number := sd_sequence_number (sb_data s); nm_publish_time := now;
     nm_notifications := l; nm_event_notifications := e; nm_more_notifications := more |}.
Definition process_publish (now : DateTime) : stM Subscription OpcUaError (option NotificationMessage) := fun s =>
  if negb (is_publishable s) then (Ok None, s)
  else if negb (sc_publishing_enabled (sd_config (sb_data s))) then (Ok None, s)
  else
    let s := set_data (reset_lifetime (sb_data s)) s in
    if negb (has_pending s) then
      match u32_add (sd_keep_alive_counter (sb_data s)) 1 with
      | Ok n =>
          let s := set_data (set_keep_alive n (sd_state (sb_data s)) (sb_data s)) s in
          if sc_max_keep_alive_count (sd_config (sb_data s)) <=? n then
            let s := set_data (mark_keepalive (sb_data s)) s in (Ok (Some (publish_message now [] [] false s)), s)
          else (Ok None, s)
      | Err e => (Err e, s)
      | Panic => (Panic, s)
      end
    else
      let max := Z.to_nat (sc_max_notifications_per_publish (sd_config (sb_data s))) in
      let notifications := take max (sb_pending s) in
      let event_budget := (max - length notifications)%nat in
      let events := take event_budget (sb_pending_events s) in
      let s := set_pending (drop max (sb_pending s)) (drop event_budget (sb_pending_events s)) s in
      let message := publish_message now notifications events (has_pending s) s in
      (Ok (Some message), set_data (mark_published now (sb_data s)) s).
Record PublishResponse : Set := {
  pr_subscription_id : Z; pr_available_sequence_numbers : list Z; pr_notification_message : option NotificationMessage;
  pr_more_notifications : bool
}.
Definition build_publish_response (now : DateTime) (id : Z) : stM Subscription OpcUaError PublishResponse := fun s =>
  match process_publish now s with
  | (Ok m, s) => (Ok {| pr_subscription_id := id; pr_available_sequence_numbers := [sd_sequence_number (sb_data s)];
                        pr_notification_message := m; pr_more_notifications := has_pending s |}, s)
  | (Err e, s) => (Err e, s)
  | (Panic, s) => (Panic, s)
  end.

(* ------------------------------------------------------------------ *)
(** * The manager *)

Inductive SubscriptionEvent : Set := SeCreated (id : Z) | SeModified (id : Z) | SeDeleted (id : Z) | SeNotification (m : NotificationMessage).
Record SubscriptionManager : Set := {
  um_max_subscriptions : Z;
  um_max_monitored_items : Z;
  um_subscriptions : gmap Z Subscription;
  um_owners : gmap Z SubscriptionOwnershipState;
  um_next_subscription_id : Z;
  um_events : list SubscriptionEvent
}.
Definition SubscriptionManager_with_params (max_subscriptions max_items : Z) : SubscriptionManager :=
  {| um_max_subscriptions := max_subscriptions; um_max_monitored_items := max_items; um_subscriptions := ∅; um_owners := ∅;
     um_next_subscription_id := 1; um_events := [] |}.
Definition SubscriptionManager_default : SubscriptionManager := SubscriptionManager_with_params 10000 100000.
Definition um_set (subs : gmap Z Subscription) (owners : gmap Z SubscriptionOwnershipState) (ev : list SubscriptionEvent) (m : SubscriptionManager) : SubscriptionManager :=
  {| um_max_subscriptions := um_max_subscriptions m; um_max_monitored_items := um_max_monitored_items m; um_subscriptions := subs;
     um_owners := owners; um_next_subscription_id := um_next_subscription_id m; um_events := um_events m ++ ev |}.
Definition set_subscription (id : Z) (s : Subscription) (m : SubscriptionManager) : SubscriptionManager :=
  um_set (<[id := s]> (um_subscriptions m)) (um_owners m) [] m.
Definition assign_id (id : Z) (c : SubscriptionConfig) : SubscriptionConfig :=
  {| sc_subscription_id := id; sc_publishing_interval_ms := sc_publishing_interval_ms c; sc_lifetime_count := sc_lifetime_count c;
     sc_max_keep_alive_count := sc_max_keep_alive_count c; sc_max_notifications_per_publish := sc_max_notifications_per_publish c;
     sc_priority := sc_priority c; sc_publishing_enabled := sc_publishing_enabled c |}.

Definition create_subscription_for_owner (now : DateTime) (c : SubscriptionConfig) (owner : option NodeId) : stM SubscriptionManager SubscriptionError Z := fun m =>
  if um_max_subscriptions m <=? Z.of_nat (size (um_subscriptions m)) then (Err MaxSubscriptionsReached, m)
  else
    let id := um_next_subscription_id m in
    let o := {| ow_owner_session_id := owner; ow_detached_restored := false |} in
    (Ok id,
     {| um_max_subscriptions := um_max_subscriptions m; um_max_monitored_items := um_max_monitored_items m;
        um_subscriptions := <[id := Subscription_new now (assign_id id c) o]> (um_subscriptions m); um_owners := <[id := o]> (um_owners m);
        um_next_subscription_id := (id + 1) mod 2 ^ 32; um_events := um_events m ++ [SeCreated id] |}).
Definition catalog_remove (id : Z) (m : SubscriptionManager) : bool * SubscriptionManager :=
  (bool_decide (is_Some (um_subscriptions m !! id)), um_set (delete id (um_subscriptions m)) (delete id (um_owners m)) [] m).
Definition delete_subscription (id : Z) (m : SubscriptionManager) : bool * SubscriptionManager :=
  let '(removed, m) := catalog_remove id m in
  (removed, if removed then um_set (um_subscriptions m) (um_owners m) [SeDeleted id] m else m).
Definition modify_subscription (id interval lifetime keep_alive : Z) : stM SubscriptionManager SubscriptionError unit := fun m =>
  match um_subscriptions m !! id with
  | None => (Err SubscriptionNotFound, m)
  | Some s => (Ok tt, um_set (<[id := subscription_modify interval lifetime keep_alive s]> (um_subscriptions m)) (um_owners m) [SeModified id] m)
  end.
Definition create_monitored_item (now : DateTime) (id : Z) (c : MonitoredItemConfig) : stM SubscriptionManager SubscriptionError Z := fun m =>
  match um_subscriptions m !! id with
  | None => (Err SubscriptionNotFound, m)
  | Some s =>
      if um_max_monitored_items m <=? Z.of_nat (size (sb_items s)) then (Err TooManyMonitoredItems, m)
      else let '(r, s) := subscription_create_item now c s in (r, set_subscription id s m)
  end.
(** The filter is dropped. *)
Definition modify_monitored_item (id item interval queue_size : Z) (discard_oldest : bool) : stM SubscriptionManager SubscriptionError unit := fun m =>
  match um_subscriptions m !! id with
  | None => (Err SubscriptionNotFound, m)
  | Some s =>
      match sb_items s !! item with
      | None => (Err MonitoredItemNotFound, m)
      | Some i => (Ok tt, set_subscription id (set_items (<[item := item_modify interval queue_size discard_oldest None i]> (sb_items s)) s) m)
      end
  end.
Definition delete_monitored_item (id item : Z) : stM SubscriptionManager SubscriptionError bool := fun m =>
  match um_subscriptions m !! id with
  | None => (Err SubscriptionNotFound, m)
  | Some s => let '(deleted, s) := subscription_delete_item item s in (Ok deleted, set_subscription id s m)
  end.
Fixpoint change_subscriptions (now : DateTime) (node : NodeId) (v : DataValue) (ids : list Z) : stM SubscriptionManager OpcUaError unit := fun m =>
  match ids with
  | [] => (Ok tt, m)
  | id :: ids =>
      match um_subscriptions m !! id with
      | None => change_subscriptions now node v ids m
      | Some s =>
          match subscription_on_value_change now node v s with
          | (Ok _, s) => change_subscriptions now node v ids (set_subscription id s m)
          | (Err e, s) => (Err e, set_subscription id s m)
          | (Panic, s) => (Panic, set_subscription id s m)
          end
      end
  end.
Definition subscription_ids (m : SubscriptionManager) : list Z := fst <$> map_to_list (um_subscriptions m).
Definition on_value_change (now : DateTime) (node : NodeId) (v : DataValue) : stM SubscriptionManager OpcUaError unit := fun m =>
  change_subscriptions now node v (subscription_ids m) m.
Definition manager_process_publish (now : DateTime) (id : Z) : stM SubscriptionManager OpcUaError (option PublishResponse) := fun m =>
  match um_subscriptions m !! id with
  | None => (Ok None, m)
  | Some s =>
      if negb (is_publishable s) then (Ok None, m)
      else let '(r, s) := build_publish_response now id s in (omap_ok Some r, set_subscription id s m)
  end.

(** ** The periodic run *)

(** Subscriptions by sampling interval, in the order of iteration within one. *)
Fixpoint bucket_insert (x : Z * Z) (l : list (Z * Z)) : list (Z * Z) :=
  match l with
  | [] => [x]
  | y :: l => if x.1 <? y.1 then x :: y :: l else y :: bucket_insert x l
  end.
Definition schedule (m : SubscriptionManager) : list Z :=
  snd <$> foldl (fun l x => bucket_insert x l) [] ((fun e => (sampling_bucket_ms e.2, e.1)) <$> map_to_list (um_subscriptions m)).
Definition worth_sending (m : NotificationMessage) : bool :=
  negb (bool_decide (nm_notifications m = []) && bool_decide (nm_event_notifications m = [])).
Fixpoint tick_each (now : DateTime) (ids : list Z) (sent : list NotificationMessage) : stM SubscriptionManager OpcUaError (list NotificationMessage) := fun m =>
  match ids with
  | [] => (Ok sent, m)
  | id :: ids =>
      match um_subscriptions m !! id with
      | None => tick_each now ids sent m
      | Some s =>
          match subscription_tick s with
          | Ok s =>
              match process_publish now s with
              | (Ok r, s) =>
                  tick_each now ids (sent ++ match r with Some msg => if worth_sending msg then [msg] else [] | None => [] end) (set_subscription id s m)
              | (Err e, s) => (Err e, set_subscription id s m)
              | (Panic, s) => (Panic, set_subscription id s m)
              end
          | Err e => (Err e, m)
          | Panic => (Panic, m)
          end
      end
  end.
Definition process_all (now : DateTime) : stM SubscriptionManager OpcUaError unit := fun m =>
  match tick_each now (schedule m) [] m with
  | (Ok sent, m) =>
      let m := um_set (um_subscriptions m) (um_owners m) (SeNotification <$> sent) m in
      let to_delete := fst <$> filter (fun e => should_delete e.2 = true) (map_to_list (um_subscriptions m)) in
      (Ok tt, foldl (fun m id => um_set (um_subscriptions (catalog_remove id m).2) (um_owners (catalog_remove id m).2) [SeDeleted id] m) m to_delete)
  | (Err e, m) => (Err e, m)
  | (Panic, m) => (Panic, m)
  end.

(** ** Owners *)

Definition subscription_ownership (id : Z) (m : SubscriptionManager) : option SubscriptionOwnershipState := um_owners m !! id.
Definition detached_count (m : SubscriptionManager) : Z := zlen (filter (fun e => ow_detached_restored e.2 = true) (map_to_list (um_owners m))).
(** The previous owner and the available sequence numbers. *)
Definition transfer_subscription (id : Z) (session : NodeId) : stM SubscriptionManager SubscriptionError (option NodeId * list Z) := fun m =>
  match um_subscriptions m !! id with
  | None => (Err SubscriptionNotFound, m)
  | Some s =>
      (Ok (ow_owner_session_id (sb_owner s), [sd_sequence_number (sb_data s)]),
       um_set (<[id := attach_owner session s]> (um_subscriptions m))
         (<[id := {| ow_owner_session_id := Some session; ow_detached_restored := false |}]> (um_owners m)) [] m)
  end.

(** ** Snapshots *)

Record PersistedSubscriptionRecord : Set := {
  ps_subscription_id : Z; ps_state_data : SubscriptionStateData; ps_monitored_items : list MonitoredItem;
  ps_pending : list MonitoredItemNotification; ps_pending_events : list EventFieldList; ps_ownership : SubscriptionOwnershipState
}.
Definition subscription_snapshot (s : Subscription) : PersistedSubscriptionRecord :=
  {| ps_subscription_id := subscription_id s; ps_state_data := sb_data s; ps_monitored_items := snd <$> map_to_list (sb_items s);
     ps_pending := sb_pending s; ps_pending_events := sb_pending_events s; ps_ownership := sb_owner s |}.
Definition from_persisted (r : PersistedSubscriptionRecord) : Subscription :=
  {| sb_data := ps_state_data r; sb_items := foldl (fun t i => <[mi_id i := i]> t) ∅ (ps_monitored_items r);
     sb_pending := ps_pending r; sb_pending_events := ps_pending_events r;
     sb_owner := {| ow_owner_session_id := None; ow_detached_restored := true |} |}.
Definition catalog_snapshot (m : SubscriptionManager) : list PersistedSubscriptionRecord :=
  (fun e => subscription_snapshot e.2) <$> map_to_list (um_subscriptions m).
Definition restore_record (m : SubscriptionManager) (r : PersistedSubscriptionRecord) : SubscriptionManager :=
  let s := from_persisted r in
  {| um_max_subscriptions := um_max_subscriptions m; um_max_monitored_items := um_max_monitored_items m;
     um_subscriptions := <[subscription_id s := s]> (um_subscriptions m);
     um_owners := <[ps_subscription_id r := {| ow_owner_session_id := ow_owner_session_id (ps_ownership r); ow_detached_restored := true |}]> (um_owners m);
     um_next_subscription_id := Z.max (um_next_subscription_id m) (Z.min (ps_subscription_id r + 1) (2 ^ 32 - 1)); um_events := um_events m |}.
Definition replace_from_snapshot (l : list PersistedSubscriptionRecord) (m : SubscriptionManager) : SubscriptionManager :=
  foldl restore_record
    {| um_max_subscriptions := um_max_subscriptions m; um_max_monitored_items := um_max_monitored_items m; um_subscriptions := ∅;
       um_owners := ∅; um_next_subscription_id := 1; um_events := um_events m |} l.

(** ** Events *)

Definition distribute_item (i : ReferenceIndex) (stack : nat) (e : EventData) (id : Z) (m : SubscriptionManager) (item : Z * EventFilter)
    : outcome OpcUaError SubscriptionManager :=
  let? pass := evaluate_where_clause i stack (ef_where_clause item.2) e in
  if negb pass then Ok m
  else match um_subscriptions m !! id with
       | None => Ok m
       | Some s => Ok (set_subscription id (push_event_notification
                         {| el_client_handle := item.1; el_event_fields := resolve_field e <$> ef_select_clauses item.2 |} s) m)
       end.
Definition distribute_to_subscription (i : ReferenceIndex) (stack : nat) (e : EventData) (m : SubscriptionManager) (id : Z) : outcome OpcUaError SubscriptionManager :=
  foldl (fun acc item => let? m := acc in distribute_item i stack e id m item) (Ok m)
    (match um_subscriptions m !! id with Some s => event_monitored_items s | None => [] end).
Definition fire_event_with_data (i : ReferenceIndex) (stack : nat) (e : EventData) (m : SubscriptionManager) : outcome OpcUaError SubscriptionManager :=
  foldl (fun acc id => let? m := acc in distribute_to_subscription i stack e m id) (Ok m) (subscription_ids m).

(* ------------------------------------------------------------------ *)
(** * Monitored items and their queues *)

(** The cases of a value change: nothing, sampled only, or reported. *)
Lemma item_change_cases now v m r m' : item_on_value_change now v m = (r, m') →
  (r = Ok None ∧ (m' = m ∨ m' = sampled v now m)) ∨ (r = Panic ∧ mi_notification_queue m = [] ∧ mc_queue_size (mi_config m) <= 0) ∨
  (∃ n q, r = Ok (Some n) ∧ m' = set_queue (q ++ [n]) (sampled v now m) ∧
     n = {| mn_client_handle := mi_client_handle m; mn_monitored_item_id := mi_id m; mn_value := v |} ∧
     ((q = mi_notification_queue m ∧ zlen q < mc_queue_size (mi_config m)) ∨ ∃ x, mi_notification_queue m = x :: q)).
Proof.
  unfold item_on_value_change. destruct (mi_monitoring_mode m); [intros [= <- <-]; by left; auto|..];
    (destruct (should_notify m v); cbn [negb]; [|intros [= <- <-]; by left; auto]); [intros [= <- <-]; by left; auto|].
  cbn [sampled mi_config mi_notification_queue]. case_if; bool_to_prop; [|intros [= <- <-]; right; right; do 2 eexists; split_and!; [done|done|done|auto]].
  case_if; [|intros [= <- <-]; by left; auto]. destruct (mi_notification_queue m) as [|x q]; intros [= <- <-]; [by right; left|].
  right; right. do 2 eexists. split_and!; [done|done|done|eauto].
Qed.
Lemma item_change_queue now v m r m' : item_on_value_change now v m = (Ok r, m') →
  zlen (mi_notification_queue m) <= mc_queue_size (mi_config m) → zlen (mi_notification_queue m') <= mc_queue_size (mi_config m').
Proof.
  intros [[_ [-> | ->]]|[[? _]|(n & q & _ & -> & _ & [[-> Hq]|[x Hx]])]]%item_change_cases; try done; cbn [set_queue sampled mi_notification_queue mi_config];
    rewrite zlen_app; change (zlen [n]) with 1; [lia|]. rewrite Hx, zlen_cons. lia.
Qed.

(** An item that discards the newest falls silent. Once the queue of an item that keeps its
    oldest notifications is full, no later value is reported, whatever it is: publishing never
    empties the queue of an item. *)
Theorem discard_newest_stalls now v m :
  mc_discard_oldest (mi_config m) = false → mc_queue_size (mi_config m) <= zlen (mi_notification_queue m) →
  ∃ m', item_on_value_change now v m = (Ok None, m') ∧ mi_config m' = mi_config m ∧ mi_notification_queue m' = mi_notification_queue m.
Proof.
  intros Hd Hq. unfold item_on_value_change.
  destruct (mi_monitoring_mode m); [by eexists|..]; (destruct (should_notify m v); cbn [negb]; [|by eexists]); [by eexists|].
  cbn [sampled mi_config mi_notification_queue]. rewrite (proj2 (Z.leb_le _ _)), Hd by done. by eexists.
Qed.
(** A queue of size 0 panics. The first value for an item that was created with a queue
    size of 0 and discards the oldest makes the server remove from an empty vector. *)
Theorem empty_queue_panics created now v id c :
  mc_queue_size c = 0 → mc_discard_oldest c = true → (item_on_value_change now v (MonitoredItem_new created id c)).1 = Panic.
Proof.
  intros Hq Hd. unfold item_on_value_change. cbn [MonitoredItem_new mi_monitoring_mode should_notify mi_last_value negb sampled mi_config mi_notification_queue].
  by rewrite Hq, Hd.
Qed.

(* ------------------------------------------------------------------ *)
(** * Publishing in order *)

Inductive SubscriptionOp : Set :=
| OpChange (now : DateTime) (node : NodeId) (v : DataValue)
| OpEvent (f : EventFieldList)
| OpPublish (now : DateTime)
| OpTick
| OpCreateItem (now : DateTime) (c : MonitoredItemConfig)
| OpDeleteItem (id : Z)
| OpSetPublishing (b : bool).
Definition subscription_op (op : SubscriptionOp) : stM Subscription OpcUaError (option NotificationMessage) := fun s =>
  match op with
  | OpChange now node v => let '(r, s) := subscription_on_value_change now node v s in (omap_ok (fun _ => None) r, s)
  | OpEvent f => (Ok None, push_event_notification f s)
  | OpPublish now => process_publish now s
  | OpTick => match subscription_tick s with Ok s => (Ok None, s) | Err e => (Err e, s) | Panic => (Panic, s) end
  | OpCreateItem now c => let '(r, s) := subscription_create_item now c s in (omap_ok (fun _ => None) (map_err (fun _ => ESubscription) r), s)
  | OpDeleteItem id => (Ok None, (subscription_delete_item id s).2)
  | OpSetPublishing b => (Ok None, set_publishing_enabled b s)
  end.
(** A run that stops at the first failure: the messages published, and the final state. *)
Fixpoint run_subscription (ops : list SubscriptionOp) (s : Subscription) : list NotificationMessage * Subscription :=
  match ops with
  | [] => ([], s)
  | op :: ops =>
      match subscription_op op s with
      | (Ok r, s) => let '(out, s) := run_subscription ops s in (match r with Some m => m :: out | None => out end, s)
      | (_, s) => ([], s)
      end
  end.
(** What an item reports of a value: the value under its client handle and number, when it is
    reporting, the change is worth a notification, and its queue has room or gives up its oldest. *)
Definition due (m : MonitoredItem) (v : DataValue) : bool :=
  match mi_monitoring_mode m with MmReporting => should_notify m v | _ => false end.
Definition item_report (m : MonitoredItem) (v : DataValue) : option MonitoredItemNotification :=
  if due m v && ((zlen (mi_notification_queue m) <? mc_queue_size (mi_config m)) || mc_discard_oldest (mi_config m))
  then Some {| mn_client_handle := mi_client_handle m; mn_monitored_item_id := mi_id m; mn_value := v |} else None.
(** An empty queue of no size has nothing to give up: the server panics. *)
Definition item_panics (m : MonitoredItem) (v : DataValue) : bool :=
  due m v && (mc_queue_size (mi_config m) <=? 0) && mc_discard_oldest (mi_config m) && bool_decide (mi_notification_queue m = []).
(** The reports of the items on a node, in the order of the table, up to a panic. *)
Fixpoint reports (node : NodeId) (v : DataValue) (l : list (Z * MonitoredItem)) : list MonitoredItemNotification :=
  match l with
  | [] => []
  | (_, m) :: l =>
      if decide (mc_node_id (mi_config m) = node) then
        if item_panics m v then [] else match item_report m v with Some n => n :: reports node v l | None => reports node v l end
      else reports node v l
  end.
Definition item_after (now : DateTime) (node : NodeId) (v : DataValue) (m : MonitoredItem) : MonitoredItem :=
  if decide (mc_node_id (mi_config m) = node) then (item_on_value_change now v m).2 else m.
(** The table of items under an operation, and what the items of a table report. *)
Definition items_after (op : SubscriptionOp) (s : Subscription) (items : gmap Z MonitoredItem) : gmap Z MonitoredItem :=
  match op with
  | OpChange now node v => item_after now node v <$> items
  | OpCreateItem now c => <[sd_next_item_id (sb_data s) := MonitoredItem_new now (sd_next_item_id (sb_data s)) c]> items
  | OpDeleteItem id => delete id items
  | _ => items
  end.
Definition told (op : SubscriptionOp) (items : gmap Z MonitoredItem) : list MonitoredItemNotification :=
  match op with OpChange _ node v => reports node v (map_to_list items) | _ => [] end.
(** What the items report over a run; the run itself says only where it stops and how a new item is numbered. *)
Fixpoint reported (ops : list SubscriptionOp) (items : gmap Z MonitoredItem) (s : Subscription) : list MonitoredItemNotification :=
  match ops with
  | [] => []
  | op :: ops => told op items ++ match subscription_op op s with (Ok _, s') => reported ops (items_after op s items) s' | _ => [] end
  end.
(** The events a subscription takes: those that arrive while fewer than twice the limit of a message wait. *)
Definition taken (op : SubscriptionOp) (s : Subscription) : list EventFieldList :=
  match op with
  | OpEvent f => if zlen (sb_pending_events s) <? 2 * sc_max_notifications_per_publish (sd_config (sb_data s)) then [f] else []
  | _ => []
  end.
Fixpoint taken_events (ops : list SubscriptionOp) (s : Subscription) : list EventFieldList :=
  match ops with
  | [] => []
  | op :: ops => taken op s ++ match subscription_op op s with (Ok _, s') => taken_events ops s' | _ => [] end
  end.

(** An item does what it is said to. *)
Lemma item_change_report now v m :
  (item_on_value_change now v m).1 = if item_panics m v then Panic else Ok (item_report m v).
Proof.
  unfold item_on_value_change, item_panics, item_report, due. destruct (mi_monitoring_mode m); [done|..];
    (destruct (should_notify m v); cbn [negb andb]; [|done]); [done|].
  cbn [andb sampled mi_config mi_notification_queue].
  pose proof (zlen_nonneg (mi_notification_queue m)) as Hz. destruct (mi_notification_queue m) as [|x q].
  - change (zlen []) with 0 in *. destruct (Z.leb_spec (mc_queue_size (mi_config m)) 0) as [Hs|Hs].
    + rewrite (proj2 (Z.ltb_ge _ _)) by lia. by destruct (mc_discard_oldest _).
    + by rewrite (proj2 (Z.ltb_lt _ _)) by lia.
  - rewrite bool_decide_false, !andb_false_r by done. destruct (Z.leb_spec (mc_queue_size (mi_config m)) (zlen (x :: q))) as [Hs|Hs].
    + rewrite (proj2 (Z.ltb_ge _ _)) by lia. by destruct (mc_discard_oldest _).
    + by rewrite (proj2 (Z.ltb_lt _ _)) by lia.
Qed.
(** The server's pass over the items queues their reports, and leaves each item as it leaves itself. *)
Lemma change_items_reports now node v l : ∀ s, NoDup l.*1 → (∀ id m, (id, m) ∈ l → sb_items s !! id = Some m) →
  let '(r, s') := change_items now node v l.*1 s in
  sb_pending s' = sb_pending s ++ reports node v l ∧ sb_data s' = sb_data s ∧ sb_pending_events s' = sb_pending_events s ∧
  (r = Ok tt → (∀ id, id ∉ l.*1 → sb_items s' !! id = sb_items s !! id) ∧ ∀ id m, (id, m) ∈ l → sb_items s' !! id = Some (item_after now node v m)).
Proof.
  induction l as [|[id m] l IH]; intros s Hnd Hl; cbn [fmap list_fmap fst change_items reports].
  { split_and!; [by rewrite app_nil_r|done|done|]. intros _. split; [done|]. by intros ? ? ?%not_elem_of_nil. }
  apply NoDup_cons in Hnd as [Hni Hnd]. cbn [fst] in Hni. rewrite (Hl id m) by left. unfold item_after. destruct (decide (mc_node_id (mi_config m) = node)) as [Hn|Hn].
  2: { rewrite bool_decide_false by done. specialize (IH s Hnd ltac:(intros; apply Hl; by right)). destruct (change_items now node v l.*1 s) as [r s'].
       destruct IH as (H1 & H2 & H3 & H4). split_and!; [done..|]. intros Hr. destruct (H4 Hr) as [H5 H6]. split.
       - intros id' [? ?]%not_elem_of_cons. by apply H5.
       - intros id' m' [[= -> ->]|Hin]%elem_of_cons; [|by apply H6]. rewrite decide_False by done. rewrite (H5 _ Hni). apply Hl. left. }
  rewrite bool_decide_true by done. pose proof (item_change_report now v m) as Hr. destruct (item_on_value_change now v m) as [r m'] eqn:Hm. cbn [fst] in Hr. subst r.
  destruct (item_panics m v); [cbn; by rewrite app_nil_r|].
  match goal with |- context [change_items now node v l.*1 ?x] => set (s1 := x) end.
  specialize (IH s1 Hnd). destruct (change_items now node v l.*1 s1) as [r s'] eqn:Hc. destruct IH as (H1 & H2 & H3 & H4).
  { intros id' m1 Hin. cbn. rewrite lookup_insert_ne; [apply Hl; by right|]. intros ->. apply Hni. exact (list_elem_of_fmap_2 fst l (id', m1) Hin). }
  split_and!; [rewrite H1; cbn [s1 sb_pending set_pending]; rewrite <- app_assoc; by destruct (item_report m v)|done|done|].
  intros Hr. destruct (H4 Hr) as [H5 H6]. split.
  - intros id' [Hne ?]%not_elem_of_cons. rewrite H5 by done. cbn. by rewrite lookup_insert_ne.
  - intros id' m1 [[= -> ->]|Hin]%elem_of_cons; [|by apply H6]. rewrite (H5 _ Hni). cbn. rewrite lookup_insert_eq, decide_True by done. by rewrite Hm.
Qed.
Lemma value_change_reports now node v s :
  let '(r, s') := subscription_on_value_change now node v s in
  sb_pending s' = sb_pending s ++ reports node v (map_to_list (sb_items s)) ∧ sb_data s' = sb_data s ∧ sb_pending_events s' = sb_pending_events s ∧
  (r = Ok tt → sb_items s' = item_after now node v <$> sb_items s).
Proof.
  unfold subscription_on_value_change. pose proof (change_items_reports now node v (map_to_list (sb_items s)) s (NoDup_fst_map_to_list _)) as H.
  destruct (change_items now node v _ s) as [r s']. destruct H as (H1 & H2 & H3 & H4); [by intros id m Hin; apply elem_of_map_to_list|].
  split_and!; [done..|]. intros Hr. destruct (H4 Hr) as [H5 H6]. apply map_eq. intros id. rewrite lookup_fmap. destruct (sb_items s !! id) as [m|] eqn:Hi; cbn.
  - apply H6. by apply elem_of_map_to_list.
  - rewrite H5; [done|]. intros ([id' m] & -> & Hin)%list_elem_of_fmap. apply elem_of_map_to_list in Hin. cbn in Hi. congruence.
Qed.
(** The outcomes of publishing: nothing, a keep-alive, or a message. *)
Lemma publish_takes now s r s' : process_publish now s = (r, s') →
  sd_config (sb_data s') = sd_config (sb_data s) ∧
  match r with
  | Ok (Some m) => nm_notifications m ++ sb_pending s' = sb_pending s ∧ nm_event_notifications m ++ sb_pending_events s' = sb_pending_events s ∧
      zlen (nm_notifications m) + zlen (nm_event_notifications m) <= Z.max 0 (sc_max_notifications_per_publish (sd_config (sb_data s))) ∧
      nm_sequence_number m = sd_sequence_number (sb_data s) ∧ nm_more_notifications m = has_pending s' ∧
      sd_sequence_number (sb_data s') = (if has_pending s then (sd_sequence_number (sb_data s) + 1) mod 2 ^ 32 else sd_sequence_number (sb_data s))
  | _ => sb_pending s' = sb_pending s ∧ sb_pending_events s' = sb_pending_events s ∧ sd_sequence_number (sb_data s') = sd_sequence_number (sb_data s)
  end.
Proof.
  unfold process_publish. destruct (is_publishable s); cbn [negb]; [|by intros [= <- <-]].
  destruct (sc_publishing_enabled _); cbn [negb]; [|by intros [= <- <-]].
  change (has_pending (set_data _ s)) with (has_pending s). destruct (has_pending s) eqn:Hh; cbn [negb].
  - intros [= <- <-]. cbn [nm_notifications nm_event_notifications publish_message sb_pending sb_pending_events set_pending set_data sb_data
      sd_sequence_number mark_published reset_lifetime nm_sequence_number nm_more_notifications sd_config].
    split_and!; [done|apply take_drop|apply take_drop| |done|done|done]. unfold zlen. rewrite !length_take. lia.
  - destruct (u32_add _ 1) as [n|e|]; [|by intros [= <- <-]..]. unfold has_pending in Hh. apply negb_false_iff, andb_true_iff in Hh as [H1 H2].
    apply bool_decide_eq_true_1 in H1, H2. case_if; intros [= <- <-]; [|done]. cbn. rewrite H1, H2. cbn. split_and!; try done.
    + unfold zlen. cbn. lia.
    + unfold has_pending. cbn. by rewrite H1, H2.
Qed.

(** One operation moves notifications from the items to the queue, or from the queue into a
    message. *)
Lemma subscription_op_step op s :
  let '(r, s') := subscription_op op s in
  let '(n, e) := match r with Ok (Some m) => (nm_notifications m, nm_event_notifications m) | _ => ([], []) end in
  n ++ sb_pending s' = sb_pending s ++ told op (sb_items s) ∧ e ++ sb_pending_events s' = sb_pending_events s ++ taken op s ∧
  zlen n + zlen e <= Z.max 0 (sc_max_notifications_per_publish (sd_config (sb_data s))) ∧
  sc_max_notifications_per_publish (sd_config (sb_data s')) = sc_max_notifications_per_publish (sd_config (sb_data s)) ∧
  match r with Ok _ => sb_items s' = items_after op s (sb_items s) | _ => True end.
Proof.
  assert (zlen (@nil MonitoredItemNotification) + zlen (@nil EventFieldList) <= Z.max 0 (sc_max_notifications_per_publish (sd_config (sb_data s)))) as Hz
    by (change (0 + 0 <= Z.max 0 (sc_max_notifications_per_publish (sd_config (sb_data s)))); lia).
  destruct op as [now node v|f|now| |now c|id|b]; cbn [subscription_op told taken items_after].
  - pose proof (value_change_reports now node v s) as Hv. destruct (subscription_on_value_change now node v s) as [r s'].
    destruct Hv as (H1 & H2 & H3 & H4). destruct r as [[]|e|]; cbn; rewrite app_nil_r, H2; split_and!; try done. by apply H4.
  - unfold push_event_notification. rewrite (Z.mul_comm 2). case_if; cbn; rewrite ?app_nil_r; by split_and!.
  - assert (sb_items (process_publish now s).2 = sb_items s) as Hi by (unfold process_publish; repeat case_match; done).
    pose proof (publish_takes now s) as Hpt. destruct (process_publish now s) as [r s']. destruct (Hpt r s' eq_refl) as [Hc H].
    rewrite Hc, !app_nil_r. destruct r as [[m|]|e|]; naive_solver.
  - unfold subscription_tick, state_tick. destruct (u32_add _ 1); cbn; rewrite ?app_nil_r; by split_and!.
  - unfold subscription_create_item. destruct (u32_add _ 1); cbn; rewrite ?app_nil_r; by split_and!.
  - cbn. rewrite ?app_nil_r. by split_and!.
  - cbn. rewrite ?app_nil_r. by split_and!.
Qed.

(** C15: Every notification is published once, in order. Over any run of value changes, events,
    publishing, ticks and changes of the items, up to the first panic, the data notifications of the messages together with
    those still pending are exactly those pending before followed by those the items reported,
    in order; and likewise the event notifications, followed by the events the subscription took. An item on the
    node of a value reports it when it is in reporting mode, its filter finds the change worth
    a notification and its own queue has room or discards its oldest (an item whose queue is full and keeps its oldest
    reports nothing); an event is taken unless twice the number of notifications of a message
    are waiting, and is dropped then. No message has more than the configured number of
    notifications, data and events together. *)
Theorem published_in_order ops s :
  let '(out, s') := run_subscription ops s in
  concat (nm_notifications <$> out) ++ sb_pending s' = sb_pending s ++ reported ops (sb_items s) s ∧
  concat (nm_event_notifications <$> out) ++ sb_pending_events s' = sb_pending_events s ++ taken_events ops s ∧
  Forall (fun m => zlen (nm_notifications m) + zlen (nm_event_notifications m) <= Z.max 0 (sc_max_notifications_per_publish (sd_config (sb_data s)))) out.
Proof.
  revert s. induction ops as [|op ops IH]; intros s; [by cbn; rewrite !app_nil_r|]. cbn [run_subscription reported taken_events].
  pose proof (subscription_op_step op s) as H. destruct (subscription_op op s) as [[r|e|] s'].
  2,3: destruct H as (H1 & H2 & _); cbn in *; by rewrite !app_nil_r, H1, H2.
  specialize (IH s'). destruct (run_subscription ops s') as [out s'']. destruct IH as (I1 & I2 & I3).
  destruct r as [m|]; destruct H as (H1 & H2 & H3 & H4 & H5); rewrite H4 in I3; rewrite H5 in I1; cbn [fmap list_fmap concat app] in *.
  - rewrite <- !app_assoc, I1, I2, !app_assoc, H1, H2. split_and!; [done..|]. by apply Forall_cons.
  - rewrite I1, I2, H1, H2, <- !app_assoc. by split_and!.
Qed.

(** A limit of 0 notifications publishes nothing. A subscription created with no
    notifications per message, which a client asks for to have no limit, answers every publish
    with an empty message that promises more, and keeps its notifications. *)
Theorem zero_limit_never_delivers now s :
  sc_max_notifications_per_publish (sd_config (sb_data s)) = 0 → sc_publishing_enabled (sd_config (sb_data s)) = true →
  is_publishable s = true → has_pending s = true →
  ∃ m s', process_publish now s = (Ok (Some m), s') ∧ nm_notifications m = [] ∧ nm_event_notifications m = [] ∧ nm_more_notifications m = true ∧
    sb_pending s' = sb_pending s ∧ sb_pending_events s' = sb_pending_events s.
Proof.
  intros H0 He Hp Hh. unfold process_publish. rewrite Hp, He. cbn [negb]. change (has_pending (set_data _ s)) with (has_pending s). rewrite Hh. cbn [negb].
  cbn [set_data sb_data reset_lifetime sd_config]. rewrite H0. cbn [Z.to_nat take drop length Nat.sub]. do 2 eexists. split_and!; try done.
Qed.

(* ------------------------------------------------------------------ *)
(** * Evaluation of where clauses *)

(** The elements an element evaluates. *)
Definition operand_elements (el : ContentFilterElement) : list nat :=
  omap (fun o => match o with FElement j => Some (Z.to_nat j) | _ => None end) (fe_operands el).
Lemma all_operands_total eval l : Forall (fun o => ∃ b, eval o = Ok b) l → ∃ b, all_operands eval l = Ok b.
Proof. induction 1 as [|o l [b Hb] _ IH]; [by eexists|]. cbn. rewrite Hb. cbn. destruct b; [done|by eexists]. Qed.
Lemma any_operand_total eval l : Forall (fun o => ∃ b, eval o = Ok b) l → ∃ b, any_operand eval l = Ok b.
Proof. induction 1 as [|o l [b Hb] _ IH]; [by eexists|]. cbn. rewrite Hb. cbn. destruct b; [by eexists|done]. Qed.
(** Elements that only refer to later elements. *)
Definition forward_only (elements : list ContentFilterElement) : Prop :=
  ∀ n el j, elements !! n = Some el → j ∈ operand_elements el → (n < j)%nat.
Lemma evaluate_total i e elements stack : forward_only elements → ∀ n, (length elements - n < stack)%nat →
  ∃ b, evaluate_element i e elements stack n = Ok b.
Proof.
  intros Hf. induction stack as [|stack IH]; intros n Hn; [lia|]. cbn [evaluate_element]. destruct (elements !! n) as [el|] eqn:Hel; [|by eexists].
  assert (n < length elements)%nat as Hlt by (by eapply lookup_lt_Some).
  assert (∀ dflt, Forall (fun o => ∃ b, match o with FElement j => evaluate_element i e elements stack (Z.to_nat j) | _ => Ok dflt end = Ok b) (fe_operands el)) as Hall.
  { intros dflt. apply Forall_forall. intros o Ho. destruct o as [| |j]; [by eexists..|]. apply IH.
    assert (n < Z.to_nat j)%nat; [|lia]. apply (Hf n el); [done|]. apply list_elem_of_omap. by exists (FElement j). }
  destruct (fe_operator el); try by eexists.
  - destruct (fe_operands el) as [|[| |j] l] eqn:Eo; [by eexists..|]. specialize (Hall true). apply Forall_cons in Hall as [[b Hb] _]. rewrite Hb. by eexists.
  - apply all_operands_total, Hall.
  - apply any_operand_total, Hall.
Qed.

(** Where clauses that only look ahead are evaluated; one that refers to itself exhausts
    the stack. When every element refers only to later ones, evaluation returns with one
    frame more than there are elements; a client's filter whose first element negates itself
    never returns, for any stack. *)
Theorem where_clause_terminates i e clause :
  (forward_only clause → ∃ b, evaluate_where_clause i (S (length clause)) clause e = Ok b) ∧
  (∀ rest stack, evaluate_where_clause i stack ({| fe_operator := FNot; fe_operands := [FElement 0] |} :: rest) e = Panic).
Proof.
  split.
  - intros Hf. unfold evaluate_where_clause. destruct clause as [|el rest]; [by eexists|]. apply evaluate_total; [done|lia].
  - intros rest stack. cbn [evaluate_where_clause]. induction stack as [|stack IH]; [done|]. cbn [evaluate_element lookup list_lookup fe_operator fe_operands].
    change (Z.to_nat 0) with 0%nat. by rewrite IH.
Qed.

(* ------------------------------------------------------------------ *)
(** * Snapshots *)

Definition items_keyed (s : Subscription) : Prop := map_Forall (fun k i => mi_id i = k) (sb_items s).
Definition catalog_keyed (m : SubscriptionManager) : Prop := map_Forall (fun id s => subscription_id s = id ∧ items_keyed s) (um_subscriptions m).
(** The subscription without its owner. *)
Definition detached (s : Subscription) : Subscription :=
  {| sb_data := sb_data s; sb_items := sb_items s; sb_pending := sb_pending s; sb_pending_events := sb_pending_events s;
     sb_owner := {| ow_owner_session_id := None; ow_detached_restored := true |} |}.

Lemma foldl_insert_keys {A} (key : A → Z) (l : list (Z * A)) : ∀ t : gmap Z A, NoDup l.*1 → Forall (fun e => key e.2 = e.1) l →
  foldl (fun t i => <[key i := i]> t) t (l.*2) = list_to_map l ∪ t.
Proof.
  induction l as [|[k a] l IH]; intros t Hn Hk; cbn [fmap list_fmap foldl]; [by rewrite list_to_map_nil, (left_id_L ∅ (∪))|].
  apply NoDup_cons in Hn as [Hnin Hn]. apply Forall_cons in Hk as [Hk Hkl]. cbn in Hk, Hnin. rewrite list_to_map_cons. cbn [snd fst]. rewrite IH by done. rewrite Hk.
  rewrite <- insert_union_r by (by apply not_elem_of_list_to_map_1). by rewrite insert_union_l.
Qed.
Lemma from_persisted_snapshot s : items_keyed s → from_persisted (subscription_snapshot s) = detached s.
Proof.
  intros Hk. unfold from_persisted, subscription_snapshot, detached. cbn. f_equal.
  rewrite (foldl_insert_keys mi_id (map_to_list (sb_items s)) ∅).
  - by rewrite list_to_map_to_list, (right_id_L ∅ (∪)).
  - apply NoDup_fst_map_to_list.
  - apply Forall_forall. intros [k i] Hin. apply elem_of_map_to_list in Hin. by apply Hk.
Qed.
Lemma restore_records (l : list (Z * Subscription)) : ∀ m, Forall (fun e => subscription_id e.2 = e.1 ∧ items_keyed e.2 ∧ 0 <= e.1 < 2 ^ 32 - 1) l → NoDup l.*1 →
  let m' := foldl restore_record m ((fun e => subscription_snapshot e.2) <$> l) in
  um_subscriptions m' = (list_to_map ((fun e => (e.1, detached e.2)) <$> l) : gmap Z Subscription) ∪ um_subscriptions m ∧
  um_next_subscription_id m <= um_next_subscription_id m' ∧ Forall (fun e => e.1 < um_next_subscription_id m') l.
Proof.
  induction l as [|[id s] l IH]; intros m Hl Hn; [cbn [fmap list_fmap foldl]; by rewrite list_to_map_nil, (left_id_L ∅ (∪))|].
  apply Forall_cons in Hl as [(Hid & Hk & Hr) Hl]. apply NoDup_cons in Hn as [Hnin Hn]. cbn [fst snd fmap list_fmap foldl] in *.
  destruct (IH (restore_record m (subscription_snapshot s)) Hl Hn) as (I1 & I2 & I3). cbn zeta in *. split_and!.
  - rewrite I1. unfold restore_record at 1. cbn [um_subscriptions]. rewrite from_persisted_snapshot by done.
    change (subscription_id (detached s)) with (subscription_id s). rewrite Hid, list_to_map_cons. cbn [fst snd].
    rewrite <- insert_union_r, insert_union_l; [done|]. apply not_elem_of_list_to_map_1. by rewrite <- list_fmap_compose.
  - unfold restore_record at 1 in I2. cbn [um_next_subscription_id] in I2. lia.
  - apply Forall_cons. split; [|done]. unfold restore_record at 1 in I2. cbn [um_next_subscription_id subscription_snapshot ps_subscription_id] in I2.
    rewrite Hid in I2. cbn [fst]. lia.
Qed.

(** A snapshot restores every subscription. Restoring the snapshot of a catalog gives back
    each subscription with its state, items and pending notifications, detached from its
    session and so not publishable until it is transferred, no others, and new identifiers
    start beyond the restored ones. *)
Theorem subscriptions_restored m : catalog_keyed m → map_Forall (fun id _ => 0 <= id < 2 ^ 32 - 1) (um_subscriptions m) →
  let m' := replace_from_snapshot (catalog_snapshot m) m in
  (∀ id, um_subscriptions m' !! id = detached <$> um_subscriptions m !! id) ∧
  (∀ id s, um_subscriptions m' !! id = Some s → is_publishable s = false ∧ id < um_next_subscription_id m').
Proof.
  intros Hk Hr m'. destruct (restore_records (map_to_list (um_subscriptions m))
    {| um_max_subscriptions := um_max_subscriptions m; um_max_monitored_items := um_max_monitored_items m; um_subscriptions := ∅;
       um_owners := ∅; um_next_subscription_id := 1; um_events := um_events m |}) as (H1 & H2 & H3).
  { apply Forall_forall. intros [id s] Hin. apply elem_of_map_to_list in Hin. destruct (Hk _ _ Hin). split_and!; [done|done|apply (Hr _ _ Hin)..]. }
  { apply NoDup_fst_map_to_list. }
  fold (catalog_snapshot m) in H1, H2, H3. fold (replace_from_snapshot (catalog_snapshot m) m) in H1, H2, H3. fold m' in H1, H2, H3. cbn zeta in *.
  cbn [um_subscriptions] in H1. rewrite (right_id_L ∅ (∪)) in H1.
  assert (∀ id, um_subscriptions m' !! id = detached <$> um_subscriptions m !! id) as Hl.
  { intros id. rewrite H1. rewrite <- lookup_fmap. f_equal. apply map_eq. intros k. rewrite lookup_fmap.
    apply option_eq. intros s. rewrite <- elem_of_list_to_map by (rewrite <- list_fmap_compose; apply NoDup_fst_map_to_list).
    rewrite list_elem_of_fmap, fmap_Some. split.
    - intros ([k' s'] & [= -> ->] & Hin). apply elem_of_map_to_list in Hin. eauto.
    - intros (s' & Hs & ->). exists (k, s'). split; [done|]. by apply elem_of_map_to_list. }
  split; [done|]. intros id s Hs. rewrite Hl in Hs. apply fmap_Some in Hs as (s0 & Hs & ->). split; [done|].
  rewrite Forall_forall in H3. apply (H3 (id, s0)). by apply elem_of_map_to_list.
Qed.

(* ------------------------------------------------------------------ *)
(** * The invariant of the manager *)

Definition sub_ok (max_items id : Z) (s : Subscription) : Prop :=
  subscription_id s = id ∧ items_keyed s ∧ Z.of_nat (size (sb_items s)) <= Z.max 0 max_items.
Record manager_ok (m : SubscriptionManager) : Prop := {
  um_ok_subs : map_Forall (sub_ok (um_max_monitored_items m)) (um_subscriptions m);
  um_ok_owners : ∀ id, um_owners m !! id = sb_owner <$> um_subscriptions m !! id;
  um_ok_size : Z.of_nat (size (um_subscriptions m)) <= Z.max 0 (um_max_subscriptions m)
}.

Lemma item_change_id now v m : mi_id (item_on_value_change now v m).2 = mi_id m.
Proof.
  destruct (item_on_value_change now v m) as [r m'] eqn:H. unfold item_on_value_change in H. cbn [snd].
  destruct (mi_monitoring_mode m), (should_notify m v), (mc_queue_size (mi_config (sampled v now m)) <=? zlen (mi_notification_queue (sampled v now m))),
    (mc_discard_oldest (mi_config (sampled v now m))), (mi_notification_queue (sampled v now m)); cbn in H; by injection H as <- <-.
Qed.
Lemma set_item_ok max id k m m' s : sub_ok max id s → sb_items s !! k = Some m → mi_id m' = mi_id m → sub_ok max id (set_items (<[k := m']> (sb_items s)) s).
Proof.
  intros (H1 & H2 & H3) Hk Hid. split_and!; [done| |]; cbn [set_items sb_items].
  - apply map_Forall_insert_2; [|done]. rewrite Hid. by apply H2.
  - by rewrite map_size_insert_Some by (by rewrite Hk).
Qed.
Lemma change_items_ok now node v max id ids : ∀ s, sub_ok max id s →
  sub_ok max id (change_items now node v ids s).2 ∧ sb_owner (change_items now node v ids s).2 = sb_owner s.
Proof.
  induction ids as [|k ids IH]; intros s Hs; [done|]. cbn [change_items]. destruct (sb_items s !! k) as [m|] eqn:Hk; [|by apply IH].
  case_bool_decide; [|by apply IH]. pose proof (item_change_id now v m) as Hid. destruct (item_on_value_change now v m) as [[r|e|] m']; cbn [snd] in Hid.
  - pose proof (set_item_ok max id k m m' s Hs Hk Hid) as (A & B' & C). match goal with |- context [change_items now node v ids ?s'] => destruct (IH s') as [I1 I2] end; [by split_and!|]. by split.
  - split; [by apply (set_item_ok max id k m)|done].
  - split; [by apply (set_item_ok max id k m)|done].
Qed.
Lemma publish_ok now max id s : sub_ok max id s → sub_ok max id (process_publish now s).2 ∧ sb_owner (process_publish now s).2 = sb_owner s.
Proof.
  intros Hs. unfold process_publish. do 2 (case_if; [done|]). case_if; [|done]. destruct (u32_add _ 1); [|done..]. by case_if.
Qed.
Lemma um_insert_ok id s s' ev m : manager_ok m → um_subscriptions m !! id = Some s → sub_ok (um_max_monitored_items m) id s' → sb_owner s' = sb_owner s →
  manager_ok (um_set (<[id := s']> (um_subscriptions m)) (um_owners m) ev m).
Proof.
  intros [A O C] Hs Hs' Ho. split; cbn [um_set um_subscriptions um_owners um_max_monitored_items um_max_subscriptions].
  - by apply map_Forall_insert_2.
  - intros k. destruct (decide (k = id)) as [->|Hne]; [rewrite lookup_insert_eq, O, Hs; cbn; by rewrite Ho|by rewrite lookup_insert_ne, O].
  - by rewrite map_size_insert_Some by (by rewrite Hs).
Qed.
Lemma set_subscription_ok id s s' m : manager_ok m → um_subscriptions m !! id = Some s → sub_ok (um_max_monitored_items m) id s' → sb_owner s' = sb_owner s →
  manager_ok (set_subscription id s' m).
Proof. apply um_insert_ok. Qed.
Lemma change_subscriptions_ok now node v ids : ∀ m, manager_ok m → manager_ok (change_subscriptions now node v ids m).2.
Proof.
  induction ids as [|id ids IH]; intros m Hm; [done|]. cbn [change_subscriptions]. destruct (um_subscriptions m !! id) as [s|] eqn:Hs; [|by apply IH].
  destruct (change_items_ok now node v (um_max_monitored_items m) id (fst <$> map_to_list (sb_items s)) s) as [H1 H2]; [by apply (um_ok_subs m Hm)|].
  fold (subscription_on_value_change now node v s) in H1, H2. destruct (subscription_on_value_change now node v s) as [[u|e|] s']; cbn [snd] in *;
    [apply IH|..]; by eapply set_subscription_ok.
Qed.
Lemma catalog_remove_ok id ev m : manager_ok m → manager_ok (um_set (delete id (um_subscriptions m)) (delete id (um_owners m)) ev m).
Proof.
  intros [A O C]. split; cbn [um_set um_subscriptions um_owners um_max_monitored_items um_max_subscriptions].
  - by apply map_Forall_delete.
  - intros k. destruct (decide (k = id)) as [->|Hne]; [by rewrite !lookup_delete_eq|by rewrite !lookup_delete_ne].
  - rewrite map_size_delete. unfold Datatypes.id. case_match; lia.
Qed.
Lemma um_set_ok ev m : manager_ok m → manager_ok (um_set (um_subscriptions m) (um_owners m) ev m).
Proof. intros [A O C]. by split. Qed.
Lemma tick_each_ok now ids : ∀ sent m, manager_ok m → manager_ok (tick_each now ids sent m).2.
Proof.
  induction ids as [|id ids IH]; intros sent m Hm; [done|]. cbn [tick_each]. destruct (um_subscriptions m !! id) as [s|] eqn:Hs; [|by apply IH].
  pose proof (um_ok_subs m Hm id s Hs) as Hok. unfold subscription_tick, state_tick. destruct (u32_add _ 1) as [n|e|]; [|done..]. cbn [omap_ok obind].
  match goal with |- context [process_publish now ?s'] => destruct (publish_ok now (um_max_monitored_items m) id s' Hok) as [H1 H2]; destruct (process_publish now s') as [[r|e|] s''] end;
    cbn [snd] in *; [apply IH|..]; by eapply set_subscription_ok.
Qed.

Inductive ManagerOp : Set :=
| OpCreateSub (now : DateTime) (c : SubscriptionConfig) (owner : option NodeId)
| OpDeleteSub (id : Z)
| OpModifySub (id interval lifetime keep_alive : Z)
| OpNewItem (now : DateTime) (id : Z) (c : MonitoredItemConfig)
| OpModifyItem (id item interval queue_size : Z) (discard_oldest : bool)
| OpRemoveItem (id item : Z)
| OpValueChange (now : DateTime) (node : NodeId) (v : DataValue)
| OpPublishSub (now : DateTime) (id : Z)
| OpProcessAll (now : DateTime)
| OpTransfer (id : Z) (session : NodeId).
Definition manager_op (m : SubscriptionManager) (op : ManagerOp) : SubscriptionManager :=
  match op with
  | OpCreateSub now c owner => (create_subscription_for_owner now c owner m).2
  | OpDeleteSub id => (delete_subscription id m).2
  | OpModifySub id interval lifetime keep_alive => (modify_subscription id interval lifetime keep_alive m).2
  | OpNewItem now id c => (create_monitored_item now id c m).2
  | OpModifyItem id item interval queue_size discard_oldest => (modify_monitored_item id item interval queue_size discard_oldest m).2
  | OpRemoveItem id item => (delete_monitored_item id item m).2
  | OpValueChange now node v => (on_value_change now node v m).2
  | OpPublishSub now id => (manager_process_publish now id m).2
  | OpProcessAll now => (process_all now m).2
  | OpTransfer id session => (transfer_subscription id session m).2
  end.
Lemma insert_sub_ok id s o ev next m : manager_ok m → sub_ok (um_max_monitored_items m) id s → sb_owner s = o →
  (Z.of_nat (size (um_subscriptions m)) < um_max_subscriptions m ∨ is_Some (um_subscriptions m !! id)) →
  manager_ok {| um_max_subscriptions := um_max_subscriptions m; um_max_monitored_items := um_max_monitored_items m;
                um_subscriptions := <[id := s]> (um_subscriptions m); um_owners := <[id := o]> (um_owners m);
                um_next_subscription_id := next; um_events := ev |}.
Proof.
  intros [A O C] Hs Ho Hz. split; cbn [um_subscriptions um_owners um_max_monitored_items um_max_subscriptions].
  - by apply map_Forall_insert_2.
  - intros k. destruct (decide (k = id)) as [->|Hne]; [rewrite !lookup_insert_eq; cbn; by rewrite Ho|by rewrite !lookup_insert_ne].
  - rewrite map_size_insert. case_match; [unfold Datatypes.id; lia|]. destruct Hz as [Hz|[x Hx]]; [lia|congruence].
Qed.
Lemma manager_op_ok m op : manager_ok m → manager_ok (manager_op m op).
Proof.
  intros Hm. destruct op as [now c owner|id|id interval lifetime keep_alive|now id c|id item interval queue_size discard_oldest|id item|now node v|now id|now|id session];
    cbn [manager_op].
  - unfold create_subscription_for_owner. case_if; [done|]. bool_to_prop. apply insert_sub_ok; [done| |done|left; lia]. split_and!; [done|by apply map_Forall_empty|].
    cbn. rewrite map_size_empty. lia.
  - unfold delete_subscription, catalog_remove. case_bool_decide; [apply um_set_ok|]; by apply catalog_remove_ok.
  - unfold modify_subscription. destruct (um_subscriptions m !! id) as [s|] eqn:Hs; [|done]. cbn [snd].
    eapply um_insert_ok; [done|done| |done]. exact (um_ok_subs m Hm id s Hs).
  - unfold create_monitored_item. destruct (um_subscriptions m !! id) as [s|] eqn:Hs; [|done]. case_if; [done|]. bool_to_prop.
    pose proof (um_ok_subs m Hm id s Hs) as (H1 & H2 & H3). unfold subscription_create_item. destruct (u32_add _ 1) as [n|e|];
      (eapply set_subscription_ok; [done|done| |done]); [|done..].
    split_and!; [done|by apply map_Forall_insert_2|]. cbn [set_items set_data sb_items]. rewrite map_size_insert. unfold Datatypes.id. case_match; lia.
  - unfold modify_monitored_item. destruct (um_subscriptions m !! id) as [s|] eqn:Hs; [|done]. destruct (sb_items s !! item) as [i|] eqn:Hi; [|done].
    eapply set_subscription_ok; [done|done| |done]. by eapply set_item_ok; [apply (um_ok_subs m Hm)|..].
  - unfold delete_monitored_item. destruct (um_subscriptions m !! id) as [s|] eqn:Hs; [|done]. cbn [subscription_delete_item].
    eapply set_subscription_ok; [done|done| |done]. pose proof (um_ok_subs m Hm id s Hs) as (H1 & H2 & H3).
    split_and!; [done|by apply map_Forall_delete|]. cbn [set_items sb_items]. rewrite map_size_delete. unfold Datatypes.id. case_match; lia.
  - by apply change_subscriptions_ok.
  - unfold manager_process_publish. destruct (um_subscriptions m !! id) as [s|] eqn:Hs; [|done]. case_if; [done|].
    destruct (publish_ok now _ id s (um_ok_subs m Hm id s Hs)) as [H1 H2]. unfold build_publish_response.
    destruct (process_publish now s) as [[r|e|] s']; cbn [snd] in *; by eapply set_subscription_ok.
  - unfold process_all. pose proof (tick_each_ok now (schedule m) [] m Hm) as Ht. destruct (tick_each now (schedule m) [] m) as [[sent|e|] m']; [|done..].
    cbn [snd] in *. apply foldl_preserves; [|by apply um_set_ok]. intros m0 id Hm0. by apply (catalog_remove_ok id [SeDeleted id] m0).
  - unfold transfer_subscription. destruct (um_subscriptions m !! id) as [s|] eqn:Hs; [|done]. apply insert_sub_ok; [done| |done|by right].
    exact (um_ok_subs m Hm id s Hs).
Qed.

(** The subscriptions stay consistent. After any sequence of operations on the manager,
    value changes, publishing and periodic runs included, the number of subscriptions and of
    items in each respects the limits, each subscription and item is stored under its own
    identifier, and the index of owners agrees with the subscriptions. *)
Theorem subscription_manager_invariant max_subs max_items ops :
  let m := foldl manager_op (SubscriptionManager_with_params max_subs max_items) ops in
  Z.of_nat (size (um_subscriptions m)) <= Z.max 0 (um_max_subscriptions m) ∧
  (∀ id s, um_subscriptions m !! id = Some s →
     subscription_id s = id ∧ items_keyed s ∧ Z.of_nat (size (sb_items s)) <= Z.max 0 (um_max_monitored_items m)) ∧
  (∀ id, subscription_ownership id m = sb_owner <$> um_subscriptions m !! id).
Proof.
  intros m. assert (manager_ok m) as [A O C]; [|split_and!; [exact C|exact A|exact O]].
  apply foldl_preserves; [apply manager_op_ok|]. split; [by apply map_Forall_empty|intros id; cbn; by rewrite !lookup_empty|].
  cbn. rewrite map_size_empty. lia.
Qed.
End Subscription.

(* ------------------------------------------------------------------ *)
(** * A subscription *)

#[local] Existing Instance demo_externals.
#[local] Existing Instance release_build.
Definition demo_item (queue_size : Z) (discard_oldest : bool) : MonitoredItemConfig :=
  {| mc_node_id := NodeId_numeric 2 1001; mc_attribute_id := AValue; mc_sampling_interval_ms := 100; mc_queue_size := queue_size;
     mc_discard_oldest := discard_oldest; mc_filter := None; mc_kind := KDataChange; mc_event_filter := None |}.
Definition demo_config (limit : Z) : SubscriptionConfig :=
  {| sc_subscription_id := 0; sc_publishing_interval_ms := 1000; sc_lifetime_count := 100; sc_max_keep_alive_count := 10;
     sc_max_notifications_per_publish := limit; sc_priority := 0; sc_publishing_enabled := true |}.
Definition demo_reading (n : Z) : DataValue := DataValue_new (at_time n 0) (VInt32 n).
(** A subscription with one item, whose node took the values 1 and 2. *)
Definition demo_manager (limit : Z) : SubscriptionManager :=
  foldl manager_op SubscriptionManager_default
    [OpCreateSub (at_time 0 0) (demo_config limit) (Some (NodeId_numeric 0 900)); OpNewItem (at_time 0 0) 1 (demo_item 5 true);
     OpValueChange (at_time 1 0) (NodeId_numeric 2 1001) (demo_reading 1); OpValueChange (at_time 2 0) (NodeId_numeric 2 1001) (demo_reading 2)].
Definition demo_subscription (limit : Z) : Subscription :=
  default (Subscription_new (at_time 0 0) (demo_config 0) {| ow_owner_session_id := None; ow_detached_restored := false |})
    (um_subscriptions (demo_manager limit) !! 1).
Example demo_pending : zlen (sb_pending (demo_subscription 0)) = 2.
Proof. by vm_compute. Qed.

Definition demo_full : MonitoredItem :=
  (item_on_value_change (at_time 1 0) (demo_reading 1) (MonitoredItem_new (at_time 0 0) 1 (demo_item 1 false))).2.
Lemma discard_newest_stalls_witness :
  ∃ m', item_on_value_change (at_time 2 0) (demo_reading 2) demo_full = (Ok None, m') ∧ mi_config m' = mi_config demo_full ∧
    mi_notification_queue m' = mi_notification_queue demo_full.
Proof. apply discard_newest_stalls; [reflexivity|by vm_compute]. Defined.
Lemma empty_queue_panics_witness :
  (item_on_value_change (at_time 1 0) (demo_reading 1) (MonitoredItem_new (at_time 0 0) 1 (demo_item 0 true))).1 = Panic.
Proof. apply empty_queue_panics; reflexivity. Defined.
Lemma zero_limit_never_delivers_witness :
  ∃ m s', process_publish (at_time 3 0) (demo_subscription 0) = (Ok (Some m), s') ∧ nm_notifications m = [] ∧ nm_event_notifications m = [] ∧
    nm_more_notifications m = true ∧ sb_pending s' = sb_pending (demo_subscription 0) ∧ sb_pending_events s' = sb_pending_events (demo_subscription 0).
Proof. apply zero_limit_never_delivers; by vm_compute. Defined.
Lemma subscriptions_restored_witness :
  um_subscriptions (replace_from_snapshot (catalog_snapshot (demo_manager 10)) (demo_manager 10)) !! 1 = Some (detached (demo_subscription 10)).
Proof.
  rewrite (proj1 (subscriptions_restored (demo_manager 10) ltac:(apply (bool_decide_unpack _); by vm_compute) ltac:(apply (bool_decide_unpack _); by vm_compute)) 1).
  assert (is_Some (um_subscriptions (demo_manager 10) !! 1)) as [s Hs] by (apply (bool_decide_unpack _); by vm_compute).
  unfold demo_subscription. by rewrite Hs.
Defined.
