(* ===== verification/OpcuaHistory.v ===== *)
(** OPC UA historical access ([mabi-opcua/src/sdk/history.rs]): the values recorded for each
    node, raw reads in pages, processed reads over intervals, and clean-up.

    The [BTreeMap] of a node is the list of its entries in the order of time.  The loops that need
    not end (eviction and the intervals of a processed read) take fuel and give [None] when it is
    used up.  The arithmetic of [chrono] is the class [Chrono]. *)

From Stdlib Require Import Sorted.
From stdpp Require Import sorting.
From S2P Require Import Prelude Text Float OpcuaCodec OpcuaNodes OpcuaSpace OpcuaSubscription.

(** [add_nanos d n] is [d] plus a duration of [n] nanoseconds, [None] where [+] panics; a
    duration is its nanoseconds, [None] where its constructor panics. *)
Class Chrono `{X : Externals} : Type := {
  add_nanos : DateTime → Z → option DateTime;
  duration_milliseconds : Z → option Z;
  duration_seconds : Z → option Z
}.
(** The documented behaviour, leap seconds aside: times are a line, adding a duration moves along
    it and fails only beyond the range, and a duration holds every count of milliseconds of [i64] but
    the least. *)
Class ChronoLaws `(Chrono) : Prop := {
  elapsed_refl a : elapsed_nanos a a = 0;
  elapsed_eq a b : elapsed_nanos a b = 0 → a = b;
  elapsed_trans a b c : elapsed_nanos a c = elapsed_nanos a b + elapsed_nanos b c;
  add_nanos_elapsed d n d' : add_nanos d n = Some d' → elapsed_nanos d' d = n;
  add_nanos_below d d' n : 0 <= n → elapsed_nanos d d' <= 0 → is_Some (add_nanos d' n) → is_Some (add_nanos d n);
  add_nanos_between d d' n : 0 <= n <= elapsed_nanos d' d → is_Some (add_nanos d n);
  milliseconds_exact n : - 2 ^ 63 < n < 2 ^ 63 → duration_milliseconds n = Some (n * 1000000)
}.

Definition BAD_CONTINUATION_POINT_INVALID : StatusCode := 0x804F0000.

Section History.
Context `{C : Chrono}.

Definition time_le (a b : DateTime) : bool := elapsed_nanos a b <=? 0.
Definition time_lt (a b : DateTime) : bool := elapsed_nanos a b <? 0.
Definition time_min (a b : DateTime) : DateTime := if time_le a b then a else b.

Inductive AggregateType : Set :=
| AgNone | AgInterpolative | AgAverage | AgTimeAverage | AgTotal | AgMinimum | AgMaximum | AgMinimumActualTime | AgMaximumActualTime
| AgRange | AgCount | AgStandardDeviation | AgVariance | AgStart | AgEnd | AgDelta | AgDurationInState | AgNumberOfTransitions
| AgPercentGood | AgPercentBad | AgWorstQuality | AgAnnotationCount.
Record HistoryStoreConfig : Set := {
  hc_max_values_per_node : Z; hc_max_age_seconds : Z; hc_default_batch_size : Z; hc_max_batch_size : Z; hc_auto_cleanup : bool;
  hc_cleanup_interval_seconds : Z; hc_enable_compression : bool; hc_compression_deadband : Z
}.
Definition HistoryStoreConfig_default : HistoryStoreConfig :=
  {| hc_max_values_per_node := 100000; hc_max_age_seconds := 86400 * 30; hc_default_batch_size := 1000; hc_max_batch_size := 10000;
     hc_auto_cleanup := true; hc_cleanup_interval_seconds := 3600; hc_enable_compression := false; hc_compression_deadband := 0 |}.
(** Modifications are recorded by nothing in the code; [hp_is_modified] is always false. *)
Record HistoricalDataPoint : Set := { hp_timestamp : DateTime; hp_value : DataValue; hp_is_modified : bool }.
Definition HistoricalDataPoint_new (t : DateTime) (v : DataValue) : HistoricalDataPoint :=
  {| hp_timestamp := t; hp_value := v; hp_is_modified := false |}.
Definition from_data_value (now : DateTime) (v : DataValue) : HistoricalDataPoint :=
  HistoricalDataPoint_new (default now (dv_source_timestamp v)) v.
Record ReadRawModifiedDetails : Set := {
  rr_start_time : DateTime; rr_end_time : DateTime; rr_num_values_per_node : Z; rr_return_bounds : bool; rr_is_read_modified : bool
}.
(** [aggregate_config] is read by nothing. *)
Record ReadProcessedDetails : Set := {
  rp_start_time : DateTime; rp_end_time : DateTime; rp_processing_interval_ms : Z; rp_aggregate_type : AggregateType
}.
Record ContinuationPoint : Set := {
  cp_id : Z; cp_node_id : NodeId; cp_next_timestamp : DateTime; cp_end_time : DateTime; cp_remaining_count : Z; cp_created_at : DateTime
}.
Record HistoryReadResult : Set := {
  hr_status : StatusCode; hr_data_values : list HistoricalDataPoint; hr_continuation_point : option ContinuationPoint
}.
Definition history_success (l : list HistoricalDataPoint) : HistoryReadResult :=
  {| hr_status := GOOD; hr_data_values := l; hr_continuation_point := None |}.
Definition history_error (s : StatusCode) : HistoryReadResult := {| hr_status := s; hr_data_values := []; hr_continuation_point := None |}.
Definition with_continuation (cp : ContinuationPoint) (r : HistoryReadResult) : HistoryReadResult :=
  {| hr_status := hr_status r; hr_data_values := hr_data_values r; hr_continuation_point := Some cp |}.

(* ------------------------------------------------------------------ *)
(** * The history of a node *)

Record NodeHistory : Set := { nh_values : list (DateTime * HistoricalDataPoint); nh_max_values : Z; nh_last_value : option SpecFloat.spec_float }.
Definition NodeHistory_new (max_values : Z) : NodeHistory := {| nh_values := []; nh_max_values := max_values; nh_last_value := None |}.
(** [BTreeMap::insert]. *)
Fixpoint bt_insert (t : DateTime) (p : HistoricalDataPoint) (l : list (DateTime * HistoricalDataPoint)) : list (DateTime * HistoricalDataPoint) :=
  match l with
  | [] => [(t, p)]
  | e :: l' => if time_lt t e.1 then (t, p) :: l else if time_lt e.1 t then e :: bt_insert t p l' else (t, p) :: l'
  end.
(** The loop that removes the oldest values; on an empty map it has nothing to remove and goes on. *)
Fixpoint evict (fuel : nat) (max_values : Z) (l : list (DateTime * HistoricalDataPoint)) : option (list (DateTime * HistoricalDataPoint)) :=
  if max_values <=? zlen l then match fuel with O => None | S fuel => evict fuel max_values (tail l) end else Some l.
Definition history_insert (fuel : nat) (p : HistoricalDataPoint) (h : NodeHistory) : option NodeHistory :=
  evict fuel (nh_max_values h) (nh_values h) ≫= fun l =>
  Some {| nh_values := bt_insert (hp_timestamp p) p l; nh_max_values := nh_max_values h;
          nh_last_value := match dv_value (hp_value p) with Some v => as_f64 v | None => nh_last_value h end |}.
Definition in_range (a b : DateTime) (e : DateTime * HistoricalDataPoint) : bool := time_le a e.1 && time_le e.1 b.
(** [BTreeMap::range] panics when the range starts after its end. *)
Definition read_range (a b : DateTime) (max_values : option Z) (h : NodeHistory) : outcome OpcUaError (list HistoricalDataPoint) :=
  if time_lt b a then Panic
  else
    let l := filter (fun e => in_range a b e = true) (nh_values h) in
    Ok (snd <$> match max_values with Some n => take (Z.to_nat n) l | None => l end).
Definition history_cleanup (cutoff : DateTime) (h : NodeHistory) : NodeHistory :=
  {| nh_values := filter (fun e => time_le cutoff e.1 = true) (nh_values h); nh_max_values := nh_max_values h; nh_last_value := nh_last_value h |}.

(* ------------------------------------------------------------------ *)
(** * The store *)

Record HistoryStore : Set := {
  hs_config : HistoryStoreConfig;
  hs_node_histories : gmap NodeId NodeHistory;
  hs_continuation_points : gmap Z ContinuationPoint;
  hs_next_continuation_id : Z;
  hs_total_values : Z; hs_total_reads : Z; hs_total_writes : Z; hs_values_cleaned : Z; hs_active_nodes : Z
}.
Definition HistoryStore_new (c : HistoryStoreConfig) : HistoryStore :=
  {| hs_config := c; hs_node_histories := ∅; hs_continuation_points := ∅; hs_next_continuation_id := 1; hs_total_values := 0;
     hs_total_reads := 0; hs_total_writes := 0; hs_values_cleaned := 0; hs_active_nodes := 0 |}.
(** [fetch_add] and [fetch_sub] wrap. *)
Definition u64_wrap (x : Z) : Z := x mod 2 ^ 64.
Definition count_read (s : HistoryStore) : HistoryStore :=
  {| hs_config := hs_config s; hs_node_histories := hs_node_histories s; hs_continuation_points := hs_continuation_points s;
     hs_next_continuation_id := hs_next_continuation_id s; hs_total_values := hs_total_values s;
     hs_total_reads := u64_wrap (hs_total_reads s + 1); hs_total_writes := hs_total_writes s; hs_values_cleaned := hs_values_cleaned s;
     hs_active_nodes := hs_active_nodes s |}.
Definition set_points (m : gmap Z ContinuationPoint) (next : Z) (s : HistoryStore) : HistoryStore :=
  {| hs_config := hs_config s; hs_node_histories := hs_node_histories s; hs_continuation_points := m; hs_next_continuation_id := next;
     hs_total_values := hs_total_values s; hs_total_reads := hs_total_reads s; hs_total_writes := hs_total_writes s;
     hs_values_cleaned := hs_values_cleaned s; hs_active_nodes := hs_active_nodes s |}.
Definition set_histories (m : gmap NodeId NodeHistory) (values writes cleaned nodes : Z) (s : HistoryStore) : HistoryStore :=
  {| hs_config := hs_config s; hs_node_histories := m; hs_continuation_points := hs_continuation_points s;
     hs_next_continuation_id := hs_next_continuation_id s; hs_total_values := u64_wrap values; hs_total_reads := hs_total_reads s;
     hs_total_writes := u64_wrap writes; hs_values_cleaned := u64_wrap cleaned; hs_active_nodes := u64_wrap nodes |}.

(** Whether compression drops a value. *)
Definition compressed (id : NodeId) (p : HistoricalDataPoint) (s : HistoryStore) : bool :=
  hc_enable_compression (hs_config s) &&
  match dv_value (hp_value p) ≫= as_f64, hs_node_histories s !! id ≫= nh_last_value with
  | Some new, Some last =>
      float_lt (f64_mul (f64_abs (f64_div (f64_sub new last) last)) (f64_of_Z 100)) (f64_val (hc_compression_deadband (hs_config s)))
  | _, _ => false
  end.
Definition record_point (fuel : nat) (id : NodeId) (p : HistoricalDataPoint) (s : HistoryStore) : option HistoryStore :=
  if compressed id p s then Some s
  else
    let old := hs_node_histories s !! id in
    history_insert fuel p (default (NodeHistory_new (hc_max_values_per_node (hs_config s))) old) ≫= fun h =>
    Some (set_histories (<[id := h]> (hs_node_histories s)) (hs_total_values s + 1) (hs_total_writes s + 1) (hs_values_cleaned s)
            (hs_active_nodes s + match old with Some _ => 0 | None => 1 end) s).
Definition record_value (fuel : nat) (now : DateTime) (id : NodeId) (v : DataValue) (s : HistoryStore) : option HistoryStore :=
  record_point fuel id (from_data_value now v) s.

(** [max_batch_size as u32]. *)
Definition batch (s : HistoryStore) : Z := hc_max_batch_size (hs_config s) mod 2 ^ 32.
Definition page_limit (n : Z) (s : HistoryStore) : Z := if n =? 0 then batch s else Z.min n (batch s).
Definition read_raw (now : DateTime) (id : NodeId) (d : ReadRawModifiedDetails) : stM HistoryStore OpcUaError HistoryReadResult := fun s =>
  let s := count_read s in
  match hs_node_histories s !! id with
  | None => (Ok (history_error BAD_NODE_ID_UNKNOWN), s)
  | Some h =>
      let max := page_limit (rr_num_values_per_node d) s in
      match read_range (rr_start_time d) (rr_end_time d) (Some max) h with
      | Panic => (Panic, s)
      | Err e => (Err e, s)
      | Ok l =>
          let values := if rr_is_read_modified d then filter (fun p => hp_is_modified p = true) l else l in
          if zlen values =? max then
            match last values with
            | None => (Ok (history_success values), s)
            | Some p =>
                match duration_milliseconds 1 ≫= add_nanos (hp_timestamp p) with
                | None => (Panic, s)
                | Some next =>
                    let cp := {| cp_id := hs_next_continuation_id s; cp_node_id := id; cp_next_timestamp := next; cp_end_time := rr_end_time d;
                                 cp_remaining_count := 0; cp_created_at := now |} in
                    (Ok (with_continuation cp (history_success values)),
                     set_points (<[cp_id cp := cp]> (hs_continuation_points s)) (u64_wrap (hs_next_continuation_id s + 1)) s)
                end
            end
          else (Ok (history_success values), s)
      end
  end.
Definition CONTINUATION_LIFETIME : Z := 5 * 60 * 1000000000.
Definition continue_read (now : DateTime) (id : Z) : stM HistoryStore OpcUaError HistoryReadResult := fun s =>
  match hs_continuation_points s !! id with
  | None => (Ok (history_error BAD_CONTINUATION_POINT_INVALID), s)
  | Some cp =>
      let s' := set_points (delete id (hs_continuation_points s)) (hs_next_continuation_id s) s in
      if CONTINUATION_LIFETIME <? elapsed_nanos now (cp_created_at cp) then (Ok (history_error BAD_CONTINUATION_POINT_INVALID), s')
      else
        read_raw now (cp_node_id cp)
          {| rr_start_time := cp_next_timestamp cp; rr_end_time := cp_end_time cp; rr_num_values_per_node := hc_default_batch_size (hs_config s) mod 2 ^ 32;
             rr_return_bounds := false; rr_is_read_modified := false |} s'
  end.

(* ------------------------------------------------------------------ *)
(** * Aggregates *)

(** [min_by] keeps the first of equal values, [max_by] the last; a NaN compares as equal. *)
Definition f64_greater (a b : SpecFloat.spec_float) : bool := match float_cmp a b with Some Gt => true | _ => false end.
Definition f64_min_by (l : list SpecFloat.spec_float) : option SpecFloat.spec_float :=
  match l with [] => None | x :: l => Some (foldl (fun x y => if f64_greater x y then y else x) x l) end.
Definition f64_max_by (l : list SpecFloat.spec_float) : option SpecFloat.spec_float :=
  match l with [] => None | x :: l => Some (foldl (fun x y => if f64_greater x y then x else y) x l) end.
Definition double (f : SpecFloat.spec_float) : Variant := VDouble (f64_bits f).
Definition f64_len {A} (l : list A) : SpecFloat.spec_float := f64_of_Z (zlen l).
Definition mean (l : list SpecFloat.spec_float) : SpecFloat.spec_float := f64_div (f64_sum l) (f64_len l).
Definition variance (l : list SpecFloat.spec_float) : SpecFloat.spec_float :=
  f64_div (f64_sum ((fun v => let d := f64_sub v (mean l) in f64_mul d d) <$> l)) (f64_of_Z (zlen l - 1)).
Definition point_value (p : HistoricalDataPoint) : option Variant := dv_value (hp_value p).
Definition point_f64 (p : HistoricalDataPoint) : option SpecFloat.spec_float := point_value p ≫= as_f64.
Definition percent {A} (n : nat) (l : list A) : Variant := double (f64_mul (f64_div (f64_of_Z (Z.of_nat n)) (f64_len l)) (f64_of_Z 100)).
Definition calculate_aggregate (values : list HistoricalDataPoint) (t : AggregateType) : option Variant :=
  match values with
  | [] => None
  | _ =>
      let numeric : list SpecFloat.spec_float := omap point_f64 values in
      if match numeric, t with [], AgCount => false | [], _ => true | _, _ => false end then None
      else
        match t with
        | AgNone | AgStart => head values ≫= point_value
        | AgEnd => last values ≫= point_value
        | AgAverage | AgTimeAverage => Some (double (mean numeric))
        | AgTotal => Some (double (f64_sum numeric))
        | AgMinimum | AgMinimumActualTime => double <$> f64_min_by numeric
        | AgMaximum | AgMaximumActualTime => double <$> f64_max_by numeric
        | AgRange => match f64_min_by numeric, f64_max_by numeric with Some lo, Some hi => Some (double (f64_sub hi lo)) | _, _ => None end
        | AgCount => Some (VUInt32 (zlen values mod 2 ^ 32))
        | AgStandardDeviation => if zlen numeric <? 2 then None else Some (double (f64_sqrt (variance numeric)))
        | AgVariance => if zlen numeric <? 2 then None else Some (double (variance numeric))
        | AgDelta =>
            match head values ≫= point_f64, last values ≫= point_f64 with
            | Some a, Some b => Some (double (f64_sub b a)) | _, _ => None
            end
        | AgPercentGood => Some (percent (length (filter (fun p => is_good (dv_status (hp_value p)) = true) values)) values)
        | AgPercentBad => Some (percent (length (filter (fun p => is_bad (dv_status (hp_value p)) = true) values)) values)
        | AgInterpolative | AgDurationInState | AgNumberOfTransitions | AgWorstQuality | AgAnnotationCount => None
        end
  end.
Definition aggregate_point (now t : DateTime) (v : Variant) : HistoricalDataPoint :=
  HistoricalDataPoint_new t
    {| dv_value := Some v; dv_status := GOOD; dv_source_timestamp := Some t; dv_source_picoseconds := 0; dv_server_timestamp := Some now;
       dv_server_picoseconds := 0 |}.
(** The loop over the intervals from [current] on. *)
Fixpoint process_intervals (fuel : nat) (now : DateTime) (interval : Z) (e : DateTime) (t : AggregateType) (raw : list HistoricalDataPoint)
    (current : DateTime) : option (outcome OpcUaError (list HistoricalDataPoint)) :=
  if time_lt current e then
    match fuel with
    | O => None
    | S fuel =>
        match add_nanos current interval with
        | None => Some Panic
        | Some next =>
            let current_end := time_min next e in
            let values := filter (fun p => time_le current (hp_timestamp p) && time_lt (hp_timestamp p) current_end = true) raw in
            let here := match calculate_aggregate values t with Some v => [aggregate_point now current v] | None => [] end in
            omap_ok (app here) <$> process_intervals fuel now interval e t raw current_end
        end
    end
  else Some (Ok []).
Definition read_processed (fuel : nat) (now : DateTime) (id : NodeId) (d : ReadProcessedDetails) (s : HistoryStore)
    : option (outcome OpcUaError HistoryReadResult * HistoryStore) :=
  let s := count_read s in
  match hs_node_histories s !! id with
  | None => Some (Ok (history_error BAD_NODE_ID_UNKNOWN), s)
  | Some h =>
      match read_range (rp_start_time d) (rp_end_time d) None h with
      | Panic => Some (Panic, s)
      | Err e => Some (Err e, s)
      | Ok [] => Some (Ok (history_success []), s)
      | Ok raw =>
          match duration_milliseconds (f64_as_i64 (rp_processing_interval_ms d)) with
          | None => Some (Panic, s)
          | Some interval =>
              (fun r => (omap_ok history_success r, s)) <$>
                process_intervals fuel now interval (rp_end_time d) (rp_aggregate_type d) raw (rp_start_time d)
          end
      end
  end.

(* ------------------------------------------------------------------ *)
(** * Clean-up *)

Definition nonempty_history (h : NodeHistory) : bool := negb (zlen (nh_values h) =? 0).
Definition cleanup (now : DateTime) : stM HistoryStore OpcUaError unit := fun s =>
  match duration_seconds (to_signed 64 (hc_max_age_seconds (hs_config s))) with
  | None => (Panic, s)
  | Some age =>
      match add_nanos now (- age) with
      | None =>
          if bool_decide (hs_node_histories s = ∅) then (Ok tt, set_histories ∅ (hs_total_values s) (hs_total_writes s) (hs_values_cleaned s) 0 s)
          else (Panic, s)
      | Some cutoff =>
          let kept := history_cleanup cutoff <$> hs_node_histories s in
          let count m := foldr (fun e n => zlen (nh_values e.2) + n) 0 (map_to_list m) in
          let m := filter (fun e => nonempty_history e.2 = true) kept in
          (Ok tt, set_histories m (hs_total_values s) (hs_total_writes s) (hs_values_cleaned s + (count (hs_node_histories s) - count kept))
                    (Z.of_nat (size m)) s)
      end
  end.
Definition value_count (id : NodeId) (s : HistoryStore) : Z := match hs_node_histories s !! id with Some h => zlen (nh_values h) | None => 0 end.
Definition clear_node_history (id : NodeId) (s : HistoryStore) : HistoryStore :=
  match hs_node_histories s !! id with
  | Some h => set_histories (delete id (hs_node_histories s)) (hs_total_values s - zlen (nh_values h)) (hs_total_writes s) (hs_values_cleaned s) (hs_active_nodes s - 1) s
  | None => s
  end.
Definition clear_all (s : HistoryStore) : HistoryStore := set_histories ∅ 0 (hs_total_writes s) (hs_values_cleaned s) 0 s.

(* ------------------------------------------------------------------ *)
(** * The invariant of the store *)

Definition entry_lt (a b : DateTime * HistoricalDataPoint) : Prop := elapsed_nanos a.1 b.1 < 0.
Record history_ok (max_values : Z) (h : NodeHistory) : Prop := {
  nh_ok_sorted : StronglySorted entry_lt (nh_values h);
  nh_ok_keys : Forall (fun e => hp_timestamp e.2 = e.1) (nh_values h);
  nh_ok_size : zlen (nh_values h) <= max_values;
  nh_ok_max : nh_max_values h = max_values
}.
Definition store_ok (s : HistoryStore) : Prop :=
  map_Forall (fun _ h => history_ok (hc_max_values_per_node (hs_config s)) h) (hs_node_histories s).

Inductive HistoryOp : Set :=
| HRecord (now : DateTime) (id : NodeId) (v : DataValue)
| HReadRaw (now : DateTime) (id : NodeId) (d : ReadRawModifiedDetails)
| HContinue (now : DateTime) (id : Z)
| HCleanup (now : DateTime)
| HClearNode (id : NodeId)
| HClearAll.
Definition history_op (fuel : nat) (s : HistoryStore) (op : HistoryOp) : option HistoryStore :=
  match op with
  | HRecord now id v => record_value fuel now id v s
  | HReadRaw now id d => Some (read_raw now id d s).2
  | HContinue now id => Some (continue_read now id s).2
  | HCleanup now => Some (cleanup now s).2
  | HClearNode id => Some (clear_node_history id s)
  | HClearAll => Some (clear_all s)
  end.
Definition history_ops (fuel : nat) (ops : list HistoryOp) (s : HistoryStore) : option HistoryStore :=
  foldl (fun o op => o ≫= fun s => history_op fuel s op) (Some s) ops.

Context `{L : !ChronoLaws C}.
Lemma elapsed_sym a b : elapsed_nanos a b = - elapsed_nanos b a.
Proof. pose proof (elapsed_trans a b a) as H. rewrite elapsed_refl in H. lia. Qed.
Lemma bt_insert_in t p l e : e ∈ bt_insert t p l → e = (t, p) ∨ e ∈ l.
Proof.
  induction l as [|x l IH]; cbn [bt_insert]; [rewrite list_elem_of_singleton; auto|].
  repeat case_if; rewrite ?elem_of_cons; set_solver.
Qed.
Lemma bt_insert_sorted t p l : StronglySorted entry_lt l → StronglySorted entry_lt (bt_insert t p l).
Proof.
  induction 1 as [|x l Hs IH Hx]; cbn [bt_insert]; [repeat constructor|]. unfold time_lt. repeat case_if; bool_to_prop.
  - constructor; [by constructor|]. constructor; [done|]. eapply Forall_impl; [exact Hx|]. intros e He. unfold entry_lt in *. cbn [fst].
    rewrite (elapsed_trans t x.1 e.1). lia.
  - constructor; [done|]. apply Forall_forall. intros e He. apply bt_insert_in in He as [->|He]; [done|]. rewrite Forall_forall in Hx. auto.
  - assert (t = x.1) as -> by (apply elapsed_eq; rewrite (elapsed_sym x.1 t) in *; lia). by constructor.
Qed.
Lemma bt_insert_length t p l : zlen (bt_insert t p l) <= zlen l + 1.
Proof.
  induction l as [|x l IH]; cbn [bt_insert]; [rewrite zlen_cons, zlen_nil; lia|]. repeat case_if; rewrite ?zlen_cons in *; lia.
Qed.
Lemma sorted_filter {A} (R : A → A → Prop) (f : A → bool) l : StronglySorted R l → StronglySorted R (filter (fun x => f x = true) l).
Proof.
  induction 1 as [|x l Hs IH Hx]; [constructor|]. rewrite filter_cons. case_decide; [|done]. constructor; [done|].
  apply Forall_forall. intros y Hy. apply list_elem_of_filter in Hy as [_ Hy]. rewrite Forall_forall in Hx. auto.
Qed.
Lemma zlen_filter {A} (f : A → bool) (l : list A) : zlen (filter (fun x => f x = true) l) <= zlen l.
Proof. unfold zlen. pose proof (length_filter (fun x => f x = true) l). lia. Qed.
Lemma evict_one fuel max l : 0 < max → zlen l <= max → ∃ l', evict (S fuel) max l = Some l' ∧ suffix l' l ∧ zlen l' <= max - 1.
Proof.
  intros Hm Hl. cbn [evict]. case_if; bool_to_prop.
  - assert (zlen (tail l) < max) as Ht by (destruct l; [rewrite zlen_nil in *; cbn in *; lia|rewrite zlen_cons in *; cbn [tail]; lia]).
    destruct fuel; cbn [evict]; rewrite (proj2 (Z.leb_gt _ _)) by done; exists (tail l); (split_and!; [done|destruct l; [done|by exists [p]]|lia]).
  - exists l. split_and!; [done|done|lia].
Qed.
Lemma sorted_suffix {A} (R : A → A → Prop) l l' : suffix l' l → StronglySorted R l → StronglySorted R l'.
Proof. intros [k ->] H. induction k as [|x k IH]; [done|]. inversion H. auto. Qed.
Lemma history_insert_ok fuel max p h : 0 < max → history_ok max h → ∃ h', history_insert (S fuel) p h = Some h' ∧ history_ok max h'.
Proof.
  intros Hm [Hs Hk Hz Hx]. unfold history_insert. rewrite Hx. destruct (evict_one fuel max (nh_values h) Hm Hz) as (l & -> & Hl & Hn).
  eexists. split; [done|]. split; cbn [nh_values nh_max_values]; [apply bt_insert_sorted; by eapply sorted_suffix| | |done].
  - apply Forall_forall. intros e He. apply bt_insert_in in He as [->|He]; [done|]. rewrite Forall_forall in Hk. apply Hk.
    destruct Hl as [k ->]. apply elem_of_app. auto.
  - pose proof (bt_insert_length (hp_timestamp p) p l). lia.
Qed.
Lemma read_raw_keeps now id d s : hs_node_histories (read_raw now id d s).2 = hs_node_histories s ∧ hs_config (read_raw now id d s).2 = hs_config s.
Proof. unfold read_raw. repeat case_match; done. Qed.
Lemma continue_read_keeps now id s : hs_node_histories (continue_read now id s).2 = hs_node_histories s ∧ hs_config (continue_read now id s).2 = hs_config s.
Proof.
  unfold continue_read. destruct (_ !! _) as [cp|]; [|done]. case_if; [done|].
  exact (read_raw_keeps _ _ _ (set_points (delete id (hs_continuation_points s)) (hs_next_continuation_id s) s)).
Qed.
Lemma cleanup_ok now s : store_ok s → store_ok (cleanup now s).2 ∧ hs_config (cleanup now s).2 = hs_config s.
Proof.
  intros Hs. unfold cleanup. destruct (duration_seconds _); [|done]. destruct (add_nanos now _) as [cutoff|]; [|by case_bool_decide].
  split; [|done]. intros id h Hh. apply map_lookup_filter_Some in Hh as [Hh _]. rewrite lookup_fmap in Hh. apply fmap_Some in Hh as (h0 & Hh & ->).
  destruct (Hs id h0 Hh) as [A B D E]. split; cbn [nh_values nh_max_values history_cleanup]; [by apply (sorted_filter entry_lt (fun e => time_le cutoff e.1))| | |done].
  - apply Forall_forall. intros e He. apply list_elem_of_filter in He as [_ He]. rewrite Forall_forall in B. auto.
  - etrans; [apply (zlen_filter (fun e => time_le cutoff e.1))|done].
Qed.
Lemma history_op_ok fuel s op : 0 < hc_max_values_per_node (hs_config s) → store_ok s →
  ∃ s', history_op (S fuel) s op = Some s' ∧ store_ok s' ∧ hs_config s' = hs_config s.
Proof.
  intros Hm Hs. destruct op as [now id v|now id d|now id|now|id|]; cbn [history_op].
  - unfold record_value, record_point. case_if; [by exists s|].
    destruct (history_insert_ok fuel (hc_max_values_per_node (hs_config s)) (from_data_value now v)
      (default (NodeHistory_new (hc_max_values_per_node (hs_config s))) (hs_node_histories s !! id)) Hm) as (h & -> & Hh).
    { destruct (hs_node_histories s !! id) as [h|] eqn:E; [exact (Hs id h E)|]. split; cbn; [constructor|constructor|rewrite zlen_nil; lia|done]. }
    eexists. split_and!; [done| |done]. by apply map_Forall_insert_2.
  - eexists. split; [done|]. destruct (read_raw_keeps now id d s) as [H1 H2]. unfold store_ok. by rewrite H1, H2.
  - eexists. split; [done|]. destruct (continue_read_keeps now id s) as [H1 H2]. unfold store_ok. by rewrite H1, H2.
  - eexists. split; [done|]. by apply cleanup_ok.
  - eexists. split; [done|]. unfold clear_node_history. case_match; [|done]. split; [|done]. by apply map_Forall_delete.
  - eexists. split; [done|]. split; [|done]. apply map_Forall_empty.
Qed.

(** The history of a node stays bounded and in order. From an empty store with a positive
    capacity, after any sequence of recordings, reads, clean-ups and clears, every operation has
    returned, and each node has at most the configured number of values, in strictly increasing
    order of their timestamps, each stored under its own timestamp. *)
Theorem history_invariant c fuel ops : 0 < hc_max_values_per_node c →
  ∃ s, history_ops (S fuel) ops (HistoryStore_new c) = Some s ∧
    ∀ id h, hs_node_histories s !! id = Some h →
      zlen (nh_values h) <= hc_max_values_per_node c ∧
      StronglySorted (fun a b => elapsed_nanos (hp_timestamp a) (hp_timestamp b) < 0) (snd <$> nh_values h) ∧
      Forall (fun e => hp_timestamp e.2 = e.1) (nh_values h).
Proof.
  intros Hm. assert (∃ s, history_ops (S fuel) ops (HistoryStore_new c) = Some s ∧ store_ok s ∧ hs_config s = c) as (s & Hr & Hs & Hc).
  { unfold history_ops. induction ops as [|op ops IH] using rev_ind; [exists (HistoryStore_new c); split_and!; [done|apply map_Forall_empty|done]|].
    destruct IH as (s & Hr & Hs & Hc). rewrite foldl_app, Hr. cbn [foldl mbind option_bind].
    destruct (history_op_ok fuel s op) as (s' & -> & Hs' & Hc'); [by rewrite Hc|done|]. exists s'. split_and!; [done|done|by rewrite Hc']. }
  exists s. split; [done|]. intros id h Hh. destruct (Hs id h Hh) as [A B D E]. rewrite Hc in D. split_and!; [done| |done].
  clear -A B. induction A as [|x l Hl IH Hx]; [constructor|]. apply Forall_cons in B as [B1 B2]. cbn [fmap list_fmap]. constructor; [auto|].
  apply Forall_fmap. rewrite Forall_forall in *. intros y Hy. cbn. rewrite B1, (B2 y Hy). by apply Hx.
Qed.

(* ------------------------------------------------------------------ *)
(** * Raw reads *)

(** A reversed range panics. A raw read of a node with a history, for which the client gives a
    start after the end, as it does to read backwards, panics in the service. *)
Theorem reversed_range_panics now id d s h :
  hs_node_histories s !! id = Some h → elapsed_nanos (rr_start_time d) (rr_end_time d) > 0 → (read_raw now id d s).1 = Panic.
Proof.
  intros Hh Ht. unfold read_raw. cbn [count_read hs_node_histories]. rewrite Hh. unfold read_range, time_lt.
  rewrite (elapsed_sym (rr_end_time d)). by rewrite (proj2 (Z.ltb_lt _ _)) by lia.
Qed.
(** The last continuation point panics. When a page is full and its last value is less than a
    millisecond before the end of the range, the read hands out a continuation point that starts
    beyond the end, and following it panics. *)
Theorem continuation_past_end_panics now now' id d s r s' cp p :
  read_raw now id d s = (Ok r, s') → hr_continuation_point r = Some cp → last (hr_data_values r) = Some p →
  elapsed_nanos (rr_end_time d) (hp_timestamp p) < 1000000 → elapsed_nanos now' now <= CONTINUATION_LIFETIME →
  (continue_read now' (cp_id cp) s').1 = Panic.
Proof.
  unfold read_raw. cbn [count_read hs_node_histories]. destruct (hs_node_histories s !! id) as [h|] eqn:Hh; [|by intros [= <- <-]].
  destruct (read_range _ _ _ h) as [l|e|]; [|done..]. case_if; [|by intros [= <- <-]].
  set (values := if rr_is_read_modified d then _ else _). destruct (last values) as [q|] eqn:Hq; [|by intros [= <- <-]].
  rewrite milliseconds_exact by lia. cbn [mbind option_bind]. destruct (add_nanos (hp_timestamp q) _) as [next|] eqn:Hn; [|done].
  intros [= <- <-] [= <-]. cbn [with_continuation history_success hr_data_values cp_id]. rewrite Hq. intros [= ->] He Ht.
  unfold continue_read. cbn [set_points hs_continuation_points]. rewrite lookup_insert_eq. cbn [cp_created_at].
  rewrite (proj2 (Z.ltb_ge _ _)) by done. apply (reversed_range_panics _ _ _ _ h); [exact Hh|].
  cbn [rr_start_time rr_end_time cp_next_timestamp cp_end_time]. apply add_nanos_elapsed in Hn.
  rewrite (elapsed_trans _ (hp_timestamp p)), (elapsed_sym (hp_timestamp p)). lia.
Qed.

(** A client that follows the continuation points, asking at the given times. *)
Fixpoint history_pages (times : list DateTime) (r : HistoryReadResult) (s : HistoryStore) : outcome OpcUaError (list HistoryReadResult) :=
  match hr_continuation_point r, times with
  | Some cp, now :: times =>
      let '(o, s) := continue_read now (cp_id cp) s in
      let? r' := o in omap_ok (cons r) (history_pages times r' s)
  | _, _ => Ok [r]
  end.
Definition read_all_raw (now : DateTime) (times : list DateTime) (id : NodeId) (d : ReadRawModifiedDetails) (s : HistoryStore)
    : outcome OpcUaError (list HistoryReadResult) :=
  let '(o, s) := read_raw now id d s in let? r := o in history_pages times r s.
(** Each request comes within five minutes of the one before. *)
Fixpoint follows_in_time (last : DateTime) (times : list DateTime) : Prop :=
  match times with
  | [] => True
  | now :: times => elapsed_nanos now last <= CONTINUATION_LIFETIME ∧ follows_in_time now times
  end.
(** Successive values are at least a millisecond apart. *)
Definition spaced (l : list (DateTime * HistoricalDataPoint)) : Prop := StronglySorted (fun a b => 1000000 <= elapsed_nanos b.1 a.1) l.
Definition in_history (a b : DateTime) (h : NodeHistory) : list (DateTime * HistoricalDataPoint) :=
  filter (fun e => in_range a b e = true) (nh_values h).

Lemma in_range_spec a b e : in_range a b e = true ↔ elapsed_nanos a e.1 <= 0 ∧ elapsed_nanos e.1 b <= 0.
Proof. unfold in_range, time_le. rewrite andb_true_iff, !Z.leb_le. done. Qed.
Lemma filter_keeps {A} (f : A → bool) (l : list A) : (∀ x, x ∈ l → f x = true) → filter (fun x => f x = true) l = l.
Proof. induction l as [|x l IH]; [done|]. intros H. rewrite filter_cons_True by (apply H; set_solver). f_equal. apply IH. set_solver. Qed.
Lemma filter_drops {A} (f : A → bool) (l : list A) : (∀ x, x ∈ l → f x = true → False) → filter (fun x => f x = true) l = [].
Proof. induction l as [|x l IH]; [done|]. intros H. rewrite filter_cons_False by (intros Hx; eapply H; [|exact Hx]; set_solver). apply IH. set_solver. Qed.
(** The next page starts after what has been read. *)
Lemma next_range a b next h pre e suf : spaced (nh_values h) → in_history a b h = (pre ++ [e]) ++ suf → elapsed_nanos next e.1 = 1000000 →
  in_history next b h = suf.
Proof.
  intros Hsp Hr Hn. assert (e ∈ in_history a b h) as He by (rewrite Hr; set_solver).
  apply list_elem_of_filter in He as [He _]. rewrite in_range_spec in He.
  assert (in_history next b h = filter (fun e => in_range next b e = true) (in_history a b h)) as ->.
  { unfold in_history. rewrite list_filter_filter. apply list_filter_iff. intros x. rewrite !in_range_spec. split; [|tauto].
    intros [H1 H2]. split_and!; [done|done| |done]. rewrite (elapsed_trans a next), (elapsed_trans a e.1 next), (elapsed_sym e.1 next). lia. }
  assert (spaced (in_history a b h)) as Hs by (by apply sorted_filter). rewrite Hr in Hs |- *. clear Hsp.
  rewrite filter_app. rewrite (filter_keeps (in_range next b) suf).
  - rewrite (filter_drops (in_range next b)); [done|]. intros x Hx Hin. rewrite in_range_spec in Hin.
    assert (elapsed_nanos x.1 e.1 <= 0) as Hle; [|rewrite (elapsed_trans next x.1 e.1) in Hn; lia].
    apply elem_of_app in Hx as [Hx|Hx]; [|apply list_elem_of_singleton in Hx as ->; rewrite elapsed_refl; lia].
    rewrite <- app_assoc in Hs. apply StronglySorted_app_1_elem_of with (x1:=x) (x2:=e) in Hs; [|done|set_solver].
    rewrite elapsed_sym. lia.
  - intros x Hx. apply in_range_spec. assert (x ∈ in_history a b h) as Hin by (rewrite Hr; set_solver).
    apply list_elem_of_filter in Hin as [Hin _]. apply in_range_spec in Hin as [_ Hin]. split; [|done].
    apply StronglySorted_app_1_elem_of with (x1:=e) (x2:=x) in Hs; [|set_solver|done].
    rewrite (elapsed_trans next e.1), (elapsed_sym e.1). lia.
Qed.

(** What one raw read gives: the values in the range, or as many as fit and a continuation. *)
Lemma read_raw_page now id d s h : hs_node_histories s !! id = Some h → elapsed_nanos (rr_start_time d) (rr_end_time d) <= 0 →
  rr_is_read_modified d = false → 0 < page_limit (rr_num_values_per_node d) s →
  let l := in_history (rr_start_time d) (rr_end_time d) h in
  let n := page_limit (rr_num_values_per_node d) s in
  if zlen l <? n then read_raw now id d s = (Ok (history_success (snd <$> l)), count_read s)
  else ∃ pre e suf, l = (pre ++ [e]) ++ suf ∧ zlen (pre ++ [e]) = n ∧
    read_raw now id d s =
      match add_nanos (hp_timestamp e.2) 1000000 with
      | None => (Panic, count_read s)
      | Some next =>
          let cp := {| cp_id := hs_next_continuation_id s; cp_node_id := id; cp_next_timestamp := next; cp_end_time := rr_end_time d;
                       cp_remaining_count := 0; cp_created_at := now |} in
          (Ok (with_continuation cp (history_success (snd <$> (pre ++ [e])))),
           set_points (<[cp_id cp := cp]> (hs_continuation_points s)) (u64_wrap (hs_next_continuation_id s + 1)) (count_read s))
      end.
Proof.
  intros Hh Ht Hm Hn l n. assert (read_range (rr_start_time d) (rr_end_time d) (Some n) h = Ok (snd <$> take (Z.to_nat n) l)) as Hr.
  { unfold read_range, time_lt. by rewrite (elapsed_sym (rr_end_time d)), (proj2 (Z.ltb_ge _ _)) by lia. }
  unfold read_raw. cbn [count_read hs_node_histories]. rewrite Hh. change (page_limit _ (count_read s)) with n. rewrite Hr, Hm.
  assert (zlen (snd <$> take (Z.to_nat n) l) = Z.min n (zlen l)) as Hz by (unfold zlen; rewrite length_fmap, length_take; lia).
  rewrite Hz. destruct (Z.ltb_spec (zlen l) n) as [Hlt|Hge].
  - rewrite (proj2 (Z.eqb_neq _ _)) by lia. rewrite take_ge by (unfold zlen in Hlt; lia). done.
  - rewrite (proj2 (Z.eqb_eq _ _)) by lia. pose proof (take_drop (Z.to_nat n) l) as Htd.
    destruct (take (Z.to_nat n) l) as [|e pre _] eqn:Hk using rev_ind; [exfalso; unfold zlen in Hz, Hge; rewrite length_fmap in Hz; cbn [length] in Hz; fold n in Hn; lia|].
    exists pre, e, (drop (Z.to_nat n) l). split_and!; [done| |].
    + rewrite <- Hk. unfold zlen in *. rewrite length_take. lia.
    + rewrite fmap_app. cbn [fmap list_fmap]. rewrite last_snoc, milliseconds_exact by lia. cbn [mbind option_bind]. change (1 * 1000000) with 1000000.
      by destruct (add_nanos (hp_timestamp e.2) 1000000).
Qed.

(** C17: Following the continuation points reads the whole range. When the values of a node are at
    least a millisecond apart and end a millisecond before the end of the range, a client that
    follows the continuation points, each within five minutes of the last, gets every value in the
    range exactly once and in order, whatever the page sizes, and the last page has no
    continuation. *)
Theorem history_pages_complete now times id d s h :
  hs_node_histories s !! id = Some h → spaced (nh_values h) → Forall (fun e => hp_timestamp e.2 = e.1) (nh_values h) →
  elapsed_nanos (rr_start_time d) (rr_end_time d) <= 0 → rr_is_read_modified d = false → 0 <= rr_num_values_per_node d → 0 < batch s →
  Forall (fun e => 1000000 <= elapsed_nanos (rr_end_time d) e.1) (in_history (rr_start_time d) (rr_end_time d) h) →
  follows_in_time now times → zlen (in_history (rr_start_time d) (rr_end_time d) h) <= zlen times →
  ∃ rs r, read_all_raw now times id d s = Ok (rs ++ [r]) ∧ hr_continuation_point r = None ∧
    concat (hr_data_values <$> (rs ++ [r])) = snd <$> in_history (rr_start_time d) (rr_end_time d) h.
Proof.
  intros Hh Hsp Hk. revert now d s Hh. induction times as [|now' times IH]; intros now d s Hh Ht Hm Hn Hb Hend Hin Hz; unfold read_all_raw.
  all: assert (0 < page_limit (rr_num_values_per_node d) s) as Hp by (unfold page_limit; case_if; bool_to_prop; lia).
  all: pose proof (read_raw_page now id d s h Hh Ht Hm Hp) as Hr; cbn zeta in Hr; destruct (Z.ltb_spec (zlen (in_history (rr_start_time d) (rr_end_time d) h)) (page_limit (rr_num_values_per_node d) s)) as [Hlt|Hge].
  1, 3: rewrite Hr; exists [], (history_success (snd <$> in_history (rr_start_time d) (rr_end_time d) h)); (split_and!; [done|done|cbn; by rewrite app_nil_r]).
  { rewrite zlen_nil in Hz. lia. }
  destruct Hr as (pre & e & suf & Hl & Hlen & ->). assert (e ∈ in_history (rr_start_time d) (rr_end_time d) h) as He by (rewrite Hl; set_solver).
  pose proof He as He'. apply list_elem_of_filter in He' as [Her He']. rewrite Forall_forall in Hk, Hend. rewrite (Hk e He').
  destruct (add_nanos_between e.1 (rr_end_time d) 1000000) as [next Hnext]; [split; [lia|by apply Hend]|]. rewrite Hnext. cbn zeta.
  apply add_nanos_elapsed in Hnext. pose proof (next_range _ _ next h pre e suf Hsp Hl Hnext) as Hnr.
  set (cp := {| cp_id := hs_next_continuation_id s |}). set (s' := set_points _ _ (count_read s)).
  cbn [obind history_pages with_continuation hr_continuation_point]. destruct Hin as [Hin0 Hin]. unfold continue_read.
  assert (hs_continuation_points s' !! cp_id cp = Some cp) as -> by apply lookup_insert_eq.
  rewrite (proj2 (Z.ltb_ge _ _)) by exact Hin0.
  set (s2 := set_points (delete _ _) _ s'). set (d' := {| rr_start_time := cp_next_timestamp cp |}). change (cp_node_id cp) with id.
  destruct (IH now' d' s2) as (rs & r & Hrs & Hc & Hcat); [done|..].
  - change (elapsed_nanos next (rr_end_time d) <= 0). pose proof (Hend e He).
    rewrite (elapsed_trans next e.1 (rr_end_time d)), (elapsed_sym e.1 (rr_end_time d)). lia.
  - done.
  - cbn. apply Z.mod_pos_bound. lia.
  - done.
  - change (in_history (rr_start_time d') _ h) with (in_history next (rr_end_time d) h). rewrite Hnr. apply Forall_forall. intros x Hx. apply Hend. rewrite Hl. set_solver.
  - done.
  - change (in_history (rr_start_time d') _ h) with (in_history next (rr_end_time d) h). rewrite Hnr. rewrite Hl, zlen_app, zlen_cons in Hz. pose proof (zlen_nonneg suf). lia.
  - unfold read_all_raw in Hrs. destruct (read_raw now' id d' s2) as [o s3]. cbn [obind] in *.
    destruct o as [r'|?|]; [|done..]. cbn [obind] in Hrs |- *. rewrite Hrs.
    eexists (_ :: rs), r. split_and!; [done|done|]. cbn [app fmap list_fmap concat]. rewrite Hcat.
    change (in_history (rr_start_time d') _ h) with (in_history next (rr_end_time d) h). by rewrite Hnr, Hl, (fmap_app _ (pre ++ [e]) suf).
Qed.

(* ------------------------------------------------------------------ *)
(** * Processed reads *)

(** The number a count aggregate reports. *)
Definition counted (p : HistoricalDataPoint) : Z := match point_value p with Some (VUInt32 n) => n | _ => 0 end.
Definition total_counted (l : list HistoricalDataPoint) : Z := foldr (fun p n => counted p + n) 0 l.
Definition within (a b : DateTime) (p : HistoricalDataPoint) : bool := time_le a (hp_timestamp p) && time_lt (hp_timestamp p) b.
Definition values_within (a b : DateTime) (l : list HistoricalDataPoint) : list HistoricalDataPoint := filter (fun p => within a b p = true) l.

Lemma within_spec a b p : within a b p = true ↔ elapsed_nanos a (hp_timestamp p) <= 0 ∧ elapsed_nanos (hp_timestamp p) b < 0.
Proof. unfold within, time_le, time_lt. by rewrite andb_true_iff, Z.leb_le, Z.ltb_lt. Qed.
Lemma values_split a m b l : elapsed_nanos a m <= 0 → elapsed_nanos m b <= 0 →
  zlen (values_within a b l) = zlen (values_within a m l) + zlen (values_within m b l).
Proof.
  intros Ha Hb. unfold values_within. induction l as [|p l IH]; [done|]. rewrite !filter_cons.
  repeat case_decide; rewrite ?zlen_cons, IH; try lia; exfalso;
    rewrite within_spec in *; pose proof (elapsed_trans a m (hp_timestamp p)); pose proof (elapsed_trans (hp_timestamp p) m b);
    pose proof (elapsed_sym m (hp_timestamp p)); lia.
Qed.
Lemma none_within a b l : 0 <= elapsed_nanos a b → 0 = zlen (values_within a b l).
Proof.
  intros Hab. unfold values_within. rewrite (filter_drops (within a b)); [done|]. intros p _ Hp. rewrite within_spec in Hp.
  pose proof (elapsed_trans a (hp_timestamp p) b). lia.
Qed.
Lemma count_aggregate now t l : zlen l < 2 ^ 32 →
  total_counted (match calculate_aggregate l AgCount with Some v => [aggregate_point now t v] | None => [] end) = zlen l.
Proof.
  intros Hl. destruct l as [|p l]; [done|]. unfold calculate_aggregate. pose proof (zlen_nonneg (p :: l)).
  destruct (omap point_f64 (p :: l)); cbn [total_counted foldr counted point_value aggregate_point HistoricalDataPoint_new hp_value dv_value];
    rewrite Z.mod_small by lia; lia.
Qed.
Lemma total_counted_app a b : total_counted (a ++ b) = total_counted a + total_counted b.
Proof. induction a as [|p a IH]; [done|]. change (counted p + total_counted (a ++ b) = counted p + total_counted a + total_counted b). lia. Qed.
Lemma process_counts now interval e raw : 0 < interval → is_Some (add_nanos e interval) → zlen raw < 2 ^ 32 → ∀ fuel current,
  elapsed_nanos e current <= interval * Z.of_nat fuel → elapsed_nanos current e <= 0 →
  ∃ l, process_intervals fuel now interval e AgCount raw current = Some (Ok l) ∧ total_counted l = zlen (values_within current e raw).
Proof.
  intros Hi He Hraw. induction fuel as [|fuel IH]; intros current Hf Hc; cbn [process_intervals]; unfold time_lt.
  - pose proof (elapsed_sym e current). rewrite (proj2 (Z.ltb_ge _ _)) by lia. exists []. split; [done|]. by apply none_within; lia.
  - case_if; bool_to_prop.
    2: { exists []. split; [done|]. by apply none_within. }
    destruct (add_nanos_below current e interval) as [next Hn]; [lia|done|done|]. rewrite Hn. apply add_nanos_elapsed in Hn.
    assert (elapsed_nanos current (time_min next e) <= 0 ∧ elapsed_nanos (time_min next e) e <= 0 ∧ elapsed_nanos e (time_min next e) <= interval * Z.of_nat fuel) as (H1 & H2 & H3).
    { unfold time_min, time_le. pose proof (elapsed_sym current next). pose proof (elapsed_trans e current next). pose proof (elapsed_refl e).
      case_if; bool_to_prop; [split_and!; [lia|lia|]|split_and!; lia]. rewrite (elapsed_trans e current next). lia. }
    destruct (IH (time_min next e) H3 H2) as (l & -> & Hl). eexists. split; [done|].
    rewrite total_counted_app, Hl, (values_split current (time_min next e) e) by done. f_equal.
    apply count_aggregate. eapply Z.le_lt_trans; [apply (zlen_filter (within current (time_min next e)))|done].
Qed.

(** Values at the time of the first that are not before [b]. *)
Lemma values_of_range a b h : Forall (fun e => hp_timestamp e.2 = e.1) (nh_values h) →
  zlen (values_within a b (snd <$> in_history a b h)) = zlen (values_within a b (snd <$> nh_values h)).
Proof.
  intros Hk. unfold values_within, in_history. induction (nh_values h) as [|e l IH]; [done|]. apply Forall_cons in Hk as [Hke Hk].
  rewrite filter_cons. cbn [fmap list_fmap]. case_decide as He; cbn [fmap list_fmap]; rewrite !filter_cons; case_decide as Hw; rewrite ?zlen_cons, IH by done; try done.
  exfalso. apply He. rewrite within_spec, Hke in Hw. apply in_range_spec. lia.
Qed.
(** A processing interval below a millisecond never returns. A processed read of a range with a
    value in it, with a processing interval of 0 (or a fraction of a millisecond, or NaN), loops for
    ever: no number of steps is enough. *)
Theorem processed_interval_zero_hangs fuel now id d s h :
  hs_node_histories s !! id = Some h → f64_as_i64 (rp_processing_interval_ms d) = 0 →
  elapsed_nanos (rp_start_time d) (rp_end_time d) < 0 → in_history (rp_start_time d) (rp_end_time d) h ≠ [] →
  read_processed fuel now id d s = None.
Proof.
  intros Hh H0 Hse Hin. unfold read_processed. cbn [count_read hs_node_histories]. rewrite Hh. unfold read_range, time_lt.
  rewrite (elapsed_sym (rp_end_time d)), (proj2 (Z.ltb_ge _ _)) by lia. fold (in_history (rp_start_time d) (rp_end_time d) h).
  rewrite H0, milliseconds_exact by lia. destruct (in_history _ _ h) as [|e l]; [done|]. cbn [fmap list_fmap].
  assert (∀ raw, process_intervals fuel now (0 * 1000000) (rp_end_time d) (rp_aggregate_type d) raw (rp_start_time d) = None) as Hloop; [|by rewrite Hloop].
  clear -L Hse. intros raw. induction fuel as [|fuel IH]; cbn [process_intervals]; unfold time_lt; rewrite (proj2 (Z.ltb_lt _ _)) by done; [done|].
  destruct (add_nanos_below (rp_start_time d) (rp_start_time d) (0 * 1000000)) as [next Hn]; [lia|rewrite elapsed_refl; lia| |].
  { apply (add_nanos_between _ (rp_end_time d)). rewrite elapsed_sym. lia. }
  rewrite Hn. apply add_nanos_elapsed in Hn. apply elapsed_eq in Hn as ->. unfold time_min, time_le. rewrite (proj2 (Z.leb_le _ _)) by lia. by rewrite IH.
Qed.
(** A capacity of 0 never returns. Recording a value in a store configured to keep none loops
    for ever. *)
Theorem zero_capacity_hangs fuel id p s :
  hs_node_histories s !! id = None → hc_max_values_per_node (hs_config s) = 0 → record_point fuel id p s = None.
Proof.
  intros Hh H0. assert (∀ l, evict fuel 0 l = None) as He.
  { induction fuel as [|fuel IH]; intros l; cbn [evict]; rewrite (proj2 (Z.leb_le _ _)) by apply zlen_nonneg; [done|apply IH]. }
  unfold record_point, compressed. rewrite Hh, H0, andb_comm. cbn [mbind option_bind]. destruct (_ ≫= as_f64); cbn [andb]; unfold history_insert; cbn; by rewrite He.
Qed.
End History.

(* ------------------------------------------------------------------ *)
(** * A history *)

(** A concrete model of the crates in which a time is its nanoseconds. *)
#[local] Instance nano_externals : Externals := {|
  DateTime := Z;
  DateTime_eq := _;
  UNIX_EPOCH := 0;
  timestamp_nanos_opt := fun d => if (- 2 ^ 63 <=? d) && (d <? 2 ^ 63) then Some d else None;
  timestamp_opt := fun s n => if (0 <=? n) && (n <? 2000000000) then Some (s * 1000000000 + n) else None;
  elapsed_nanos := fun a b => a - b;
  Uuid := Z * Z * Z * list Z;
  Uuid_eq := _;
  Uuid_countable := _;
  is_nil := fun u => bool_decide (u = (0, 0, 0, replicate 8 0));
  as_fields := fun u => u;
  from_fields := fun u => u
|}.
#[local] Instance nano_chrono : Chrono := {|
  add_nanos := fun d n => Some (d + n);
  duration_milliseconds := fun n => if n =? - 2 ^ 63 then None else Some (n * 1000000);
  duration_seconds := fun n => if Z.abs n <=? 9223372036854775 then Some (n * 1000000000) else None
|}.
#[local] Instance nano_laws : ChronoLaws nano_chrono.
Proof.
  split; cbn; intros; try lia.
  - by intros; simplify_eq; lia.
  - by eexists.
  - by eexists.
  - by rewrite (proj2 (Z.eqb_neq _ _)) by lia.
Qed.
Definition at_ms (n : Z) : DateTime := n * 1000000.
Definition demo_tag : NodeId := NodeId_numeric 2 1001.
Definition demo_sample (t : Z) : DataValue :=
  {| dv_value := Some (VDouble 0x3FF0000000000000); dv_status := GOOD; dv_source_timestamp := Some (at_ms t); dv_source_picoseconds := 0;
     dv_server_timestamp := None; dv_server_picoseconds := 0 |}.
(** Five values, recorded out of order, in a store that reads two at a time. *)
Definition demo_config : HistoryStoreConfig :=
  {| hc_max_values_per_node := 100; hc_max_age_seconds := 3600; hc_default_batch_size := 2; hc_max_batch_size := 2; hc_auto_cleanup := true;
     hc_cleanup_interval_seconds := 60; hc_enable_compression := false; hc_compression_deadband := 0 |}.
Definition demo_history : HistoryStore :=
  default (HistoryStore_new demo_config)
    (history_ops 1 ((fun t => HRecord (at_ms 0) demo_tag (demo_sample t)) <$> [30; 10; 50; 20; 40]) (HistoryStore_new demo_config)).
Definition demo_values : NodeHistory := default (NodeHistory_new 0) (hs_node_histories demo_history !! demo_tag).
Lemma demo_lookup : hs_node_histories demo_history !! demo_tag = Some demo_values.
Proof.
  assert (is_Some (hs_node_histories demo_history !! demo_tag)) as [h Hh] by (apply (bool_decide_unpack _); by vm_compute).
  unfold demo_values. by rewrite Hh.
Qed.
Example demo_order : (fst <$> nh_values demo_values) = [at_ms 10; at_ms 20; at_ms 30; at_ms 40; at_ms 50].
Proof. by vm_compute. Qed.
Definition demo_raw (a b : Z) : ReadRawModifiedDetails :=
  {| rr_start_time := at_ms a; rr_end_time := at_ms b; rr_num_values_per_node := 0; rr_return_bounds := false; rr_is_read_modified := false |}.
Definition demo_processed (bits : Z) : ReadProcessedDetails :=
  {| rp_start_time := at_ms 10; rp_end_time := at_ms 50; rp_processing_interval_ms := bits; rp_aggregate_type := AgCount |}.
Lemma demo_spaced : spaced (nh_values demo_values).
Proof.
  assert (StronglySorted (fun a b => 1000000 <= b - a) (fst <$> nh_values demo_values)) as H.
  { rewrite demo_order. repeat constructor; done. }
  revert H. unfold spaced. induction (nh_values demo_values) as [|e l IH]; [constructor|]. cbn [fmap list_fmap]. intros H. inversion H as [|a k Hk Ha]. constructor; [auto|].
  exact (proj1 (Forall_fmap fst (fun b => 1000000 <= b - e.1) l) Ha).
Qed.
Lemma demo_keys : Forall (fun e => hp_timestamp e.2 = e.1) (nh_values demo_values).
Proof. apply Forall_forall. assert (forallb (fun e => hp_timestamp e.2 =? e.1) (nh_values demo_values) = true) as H by (by vm_compute).
  intros e He. rewrite forallb_forall in H. apply Z.eqb_eq, H. by apply list_elem_of_In. Qed.

Lemma history_invariant_witness :
  ∃ s, history_ops 1 ((fun t => HRecord (at_ms 0) demo_tag (demo_sample t)) <$> [30; 10; 50; 20; 40]) (HistoryStore_new demo_config) = Some s ∧
    ∀ id h, hs_node_histories s !! id = Some h →
      zlen (nh_values h) <= hc_max_values_per_node demo_config ∧
      StronglySorted (fun a b => elapsed_nanos (hp_timestamp a) (hp_timestamp b) < 0) (snd <$> nh_values h) ∧
      Forall (fun e => hp_timestamp e.2 = e.1) (nh_values h).
Proof. apply (history_invariant demo_config 0). done. Defined.
Lemma history_pages_complete_witness :
  ∃ rs r, read_all_raw (at_ms 100) (replicate 5 (at_ms 101)) demo_tag (demo_raw 0 60) demo_history = Ok (rs ++ [r]) ∧ hr_continuation_point r = None ∧
    concat (hr_data_values <$> (rs ++ [r])) = snd <$> in_history (at_ms 0) (at_ms 60) demo_values.
Proof.
  apply (history_pages_complete (at_ms 100) (replicate 5 (at_ms 101)) demo_tag (demo_raw 0 60) demo_history demo_values demo_lookup demo_spaced demo_keys).
  - by vm_compute.
  - done.
  - done.
  - by vm_compute.
  - apply Forall_forall. assert (forallb (fun e => 1000000 <=? at_ms 60 - e.1) (in_history (at_ms 0) (at_ms 60) demo_values) = true) as H by (by vm_compute).
    intros e He. rewrite forallb_forall in H. apply Z.leb_le, H. by apply list_elem_of_In.
  - by vm_compute.
  - by vm_compute.
Defined.
Lemma processed_interval_zero_hangs_witness : read_processed 100 (at_ms 100) demo_tag (demo_processed 0x3FE0000000000000) demo_history = None.
Proof.
  apply (processed_interval_zero_hangs 100 (at_ms 100) demo_tag (demo_processed 0x3FE0000000000000) demo_history demo_values demo_lookup).
  - by vm_compute.
  - by vm_compute.
  - intros H. apply (f_equal zlen) in H. by vm_compute in H.
Defined.
Definition demo_first_page : HistoryReadResult * HistoryStore :=
  match read_raw (at_ms 100) demo_tag (demo_raw 10 20) demo_history with (Ok r, s) => (r, s) | _ => (history_error 0, demo_history) end.
Lemma continuation_past_end_panics_witness : (continue_read (at_ms 101) 1 demo_first_page.2).1 = Panic.
Proof.
  assert (match read_raw (at_ms 100) demo_tag (demo_raw 10 20) demo_history with
    | (Ok r, s) => match hr_continuation_point r, last (hr_data_values r) with
        | Some cp, Some p => (cp_id cp =? 1) && (hp_timestamp p =? at_ms 20) | _, _ => false end | _ => false end = true) as H by (by vm_compute).
  unfold demo_first_page. destruct (read_raw (at_ms 100) demo_tag (demo_raw 10 20) demo_history) as [[r|e|] s] eqn:Hr; [|done..].
  destruct (hr_continuation_point r) as [cp|] eqn:Hcp; [|done]. destruct (last (hr_data_values r)) as [p|] eqn:Hp; [|done].
  apply andb_prop in H as [H1%Z.eqb_eq H2%Z.eqb_eq]. replace 1 with (cp_id cp).
  apply (continuation_past_end_panics (at_ms 100) (at_ms 101) demo_tag (demo_raw 10 20) demo_history r s cp p Hr Hcp Hp); [|by vm_compute].
  rewrite H2. by vm_compute.
Defined.
