(* ===== verification/OpcuaServices.v ===== *)
(** The OPC UA services ([mabi-opcua/src/core/]): service identifiers and payloads ([types.rs],
    [encoding.rs]), the set of built-in services and their dispatch ([services.rs],
    [dispatch.rs], [registry.rs]) and the handlers ([handlers/]): discovery, sessions, attributes,
    browsing, browse paths, node registration, subscriptions, monitored items with event filters,
    transfer, history and method calls.

    A handler is a program on what is left of the request and the context.  Reading attributes
    uses stack, and a processed history read may never return; both resources are parameters, and
    running out of one is a panic: the task of the connection gives no answer.  Method callbacks
    and the clock's milliseconds are parameters.  [Vec::with_capacity] with a count of the client
    is taken to succeed. *)

From S2P Require Import Prelude Text Float OpcuaCodec OpcuaSession OpcuaChannel OpcuaTransport OpcuaNodes OpcuaSpace OpcuaSubscription OpcuaHistory.

(* ------------------------------------------------------------------ *)
(** * Service identifiers *)

Inductive ServiceId : Set :=
| GetEndpoints | CreateSession | ActivateSession | CloseSession | Read | Write | Browse | BrowseNext | CreateSubscription
| DeleteSubscriptions | Publish | CreateMonitoredItems | DeleteMonitoredItems | ModifyMonitoredItems | RegisterNodes
| UnregisterNodes | TranslateBrowsePaths | TransferSubscriptions | HistoryRead | Call.
#[global] Instance ServiceId_eq : EqDecision ServiceId.
Proof. solve_decision. Defined.
Definition ServiceId_ALL : list ServiceId :=
  [GetEndpoints; CreateSession; ActivateSession; CloseSession; Read; Write; Browse; BrowseNext; CreateSubscription; DeleteSubscriptions;
   Publish; CreateMonitoredItems; DeleteMonitoredItems; ModifyMonitoredItems; RegisterNodes; UnregisterNodes; TranslateBrowsePaths;
   TransferSubscriptions; HistoryRead; Call].
Definition request_number (s : ServiceId) : Z :=
  match s with
  | GetEndpoints => 428 | CreateSession => 461 | ActivateSession => 467 | CloseSession => 473 | Read => 631 | Write => 673
  | Browse => 527 | BrowseNext => 533 | CreateSubscription => 787 | DeleteSubscriptions => 847 | Publish => 826
  | CreateMonitoredItems => 751 | DeleteMonitoredItems => 781 | ModifyMonitoredItems => 763 | RegisterNodes => 560
  | UnregisterNodes => 566 | TranslateBrowsePaths => 554 | TransferSubscriptions => 839 | HistoryRead => 662 | Call => 712
  end.
Definition response_number (s : ServiceId) : Z :=
  match s with
  | GetEndpoints => 431 | CreateSession => 464 | ActivateSession => 470 | CloseSession => 476 | Read => 634 | Write => 676
  | Browse => 530 | BrowseNext => 536 | CreateSubscription => 790 | DeleteSubscriptions => 850 | Publish => 829
  | CreateMonitoredItems => 754 | DeleteMonitoredItems => 784 | ModifyMonitoredItems => 766 | RegisterNodes => 563
  | UnregisterNodes => 569 | TranslateBrowsePaths => 557 | TransferSubscriptions => 842 | HistoryRead => 665 | Call => 715
  end.

Definition GOOD_SUBSCRIPTION_TRANSFERRED : StatusCode := 0x002D0000.
Definition BAD_NOT_IMPLEMENTED : StatusCode := 0x80400000.
Definition BAD_HISTORY_OPERATION_UNSUPPORTED : StatusCode := 0x80720000.

Section Services.
Context `{C : Chrono} `{B : BuildProfile}.
Context (stack fuel : nat) (timestamp_millis : DateTime → Z).

Definition request_type_id (s : ServiceId) : NodeId := NodeId_numeric 0 (request_number s).
Definition response_type_id (s : ServiceId) : NodeId := NodeId_numeric 0 (response_number s).
(** The namespace of the type is not looked at. *)
Definition service_from_number (n : Z) : option ServiceId :=
  match n with
  | 428 => Some GetEndpoints | 461 => Some CreateSession | 467 => Some ActivateSession | 473 => Some CloseSession | 631 => Some Read
  | 673 => Some Write | 527 => Some Browse | 533 => Some BrowseNext | 787 => Some CreateSubscription | 847 => Some DeleteSubscriptions
  | 826 => Some Publish | 751 => Some CreateMonitoredItems | 781 => Some DeleteMonitoredItems | 763 => Some ModifyMonitoredItems
  | 560 => Some RegisterNodes | 566 => Some UnregisterNodes | 554 => Some TranslateBrowsePaths | 839 => Some TransferSubscriptions
  | 662 => Some HistoryRead | 712 => Some Call | _ => None
  end.
Definition from_request_type_id (id : NodeId) : option ServiceId := as_numeric id ≫= service_from_number.

(* ------------------------------------------------------------------ *)
(** * What the handlers share *)

(** A registered method: its outputs or the status it fails with. *)
Definition MethodCallback : Type := list Variant → outcome StatusCode (list Variant).
Record Managers : Type := {
  mg_address_space : AddressSpace;
  mg_subscription_manager : SubscriptionManager;
  mg_history_store : HistoryStore;
  mg_methods : gmap NodeId MethodCallback;
  mg_endpoint_url : list Z;
  mg_server_name : list Z
}.
Abbreviation Ctx := (ServiceContext (S:=Managers)).

(** A handler works on the rest of the request and the context. *)
Definition Handler (A : Type) : Type := stM (list Z * Ctx) OpcUaError A.
Definition dec {A} (d : Dec A) : Handler A := fun '(buf, c) => let '(r, buf) := d buf in (r, (buf, c)).
Definition act {A} (f : stM Ctx OpcUaError A) : Handler A := fun '(buf, c) => let '(r, c) := f c in (r, (buf, c)).
Definition gets {A} (f : Ctx → A) : Handler A := fun '(buf, c) => (Ok (f c), (buf, c)).
(** The result of an operation as a value, where the code matches on it. *)
Definition attempt {S E A} (f : stM S E A) : stM S OpcUaError (A + E) := fun s =>
  match f s with (Ok a, s) => (Ok (inl a), s) | (Err e, s) => (Ok (inr e), s) | (Panic, s) => (Panic, s) end.
Definition pure_step {S A} (f : S → A * S) : stM S OpcUaError A := fun s => let '(a, s) := f s in (Ok a, s).
Fixpoint repeatM {S E A} (n : nat) (f : stM S E A) : stM S E (list A) :=
  match n with O => st_ret [] | S n => do? a := f in do? l := repeatM n f in st_ret (a :: l) end.
Fixpoint eachM {S E A R} (f : A → stM S E R) (l : list A) : stM S E (list R) :=
  match l with [] => st_ret [] | a :: l => do? b := f a in do? r := eachM f l in st_ret (b :: r) end.

Definition set_managers (m : Managers) (c : Ctx) : Ctx :=
  ctx_set_world {| w_session_manager := w_session_manager (cx_world c); w_node_id_counter := w_node_id_counter (cx_world c); w_managers := m |} c.
Definition managers (c : Ctx) : Managers := w_managers (cx_world c).
Definition on_space {A} (f : stM AddressSpace OpcUaError A) : stM Ctx OpcUaError A := fun c =>
  let m := managers c in
  let '(r, s) := f (mg_address_space m) in
  (r, set_managers {| mg_address_space := s; mg_subscription_manager := mg_subscription_manager m; mg_history_store := mg_history_store m;
                      mg_methods := mg_methods m; mg_endpoint_url := mg_endpoint_url m; mg_server_name := mg_server_name m |} c).
Definition on_subscriptions {A} (f : stM SubscriptionManager OpcUaError A) : stM Ctx OpcUaError A := fun c =>
  let m := managers c in
  let '(r, s) := f (mg_subscription_manager m) in
  (r, set_managers {| mg_address_space := mg_address_space m; mg_subscription_manager := s; mg_history_store := mg_history_store m;
                      mg_methods := mg_methods m; mg_endpoint_url := mg_endpoint_url m; mg_server_name := mg_server_name m |} c).
Definition on_history {A} (f : stM HistoryStore OpcUaError A) : stM Ctx OpcUaError A := fun c =>
  let m := managers c in
  let '(r, s) := f (mg_history_store m) in
  (r, set_managers {| mg_address_space := mg_address_space m; mg_subscription_manager := mg_subscription_manager m; mg_history_store := s;
                      mg_methods := mg_methods m; mg_endpoint_url := mg_endpoint_url m; mg_server_name := mg_server_name m |} c).
(** The session manager with the counter of node identifiers. *)
Definition on_sessions {A} (f : stM (Z * SessionManager) OpcUaError A) : stM Ctx OpcUaError A := fun c =>
  let w := cx_world c in
  let '(r, (counter, sm)) := f (w_node_id_counter w, w_session_manager w) in
  (r, ctx_set_world {| w_session_manager := sm; w_node_id_counter := counter; w_managers := w_managers w |} c).
Definition on_session_manager {A} (f : stM SessionManager OpcUaError A) : stM Ctx OpcUaError A :=
  on_sessions (fun '(counter, sm) => let '(r, sm) := f sm in (r, (counter, sm))).

Record RequestHeader : Set := {
  rh_authentication_token : NodeId; rh_timestamp : DateTime; rh_request_handle : Z; rh_return_diagnostics : Z;
  rh_audit_entry_id : list Z; rh_timeout_hint : Z
}.
Definition RequestHeader_decode : Dec RequestHeader :=
  do? token := decode node_id_codec in do? timestamp := decode date_time_codec in do? handle := decode u32_codec in
  do? diagnostics := decode u32_codec in do? audit := decode string_codec in do? timeout := decode u32_codec in
  st_ret {| rh_authentication_token := token; rh_timestamp := timestamp; rh_request_handle := handle;
            rh_return_diagnostics := diagnostics; rh_audit_entry_id := audit; rh_timeout_hint := timeout |}.
(** The header and the additional header every handler reads first. *)
Definition request_header : Handler Z :=
  do? header := dec RequestHeader_decode in do? _ := dec (decode extension_object_codec) in st_ret (rh_request_handle header).
Definition null_extension_object : ExtensionObject := {| eo_type_id := NodeId_numeric 0 0; eo_body := None |}.
Definition DiagnosticInfo_default : DiagnosticInfo := MkDiagnosticInfo None None None None None None None.
Definition put_i32 (x : Z) : list Z := encode i32_codec x.
Definition put_u32 (x : Z) : list Z := encode u32_codec x.
Definition ResponseHeader_good (now : DateTime) (handle : Z) : list Z :=
  encode date_time_codec now ++ put_u32 handle ++ encode status_codec GOOD ++ encode diagnostic_info_codec DiagnosticInfo_default ++
  put_i32 0 ++ encode extension_object_codec null_extension_object.
(** [i32::decode], then [for _ in 0..count.max(0)]. *)
Definition repeat_count {A} (count : Z) (f : Handler A) : Handler (list A) := repeatM (Z.to_nat count) f.
Definition counted_items {A} (f : Handler A) : Handler (list A) := do? count := dec (decode i32_codec) in repeat_count count f.
Definition put_array {A} (f : A → list Z) (l : list A) : list Z := put_len (zlen l) ++ flat_map f l.

(* ------------------------------------------------------------------ *)
(** * Discovery *)

Definition encode_application_description (endpoint_url server_name : list Z) : list Z :=
  encode string_codec (str "urn:mabinogion:opcua:server") ++ encode string_codec (str "urn:mabinogion:opcua") ++
  encode localized_text_codec {| lt_locale := str "en"; lt_text := server_name |} ++ put_u32 0 ++ put_i32 (-1) ++ put_i32 (-1) ++ put_i32 1 ++
  encode string_codec endpoint_url.
(** The description of the one endpoint. *)
Definition encode_endpoint (m : Managers) : list Z :=
  encode string_codec (mg_endpoint_url m) ++ encode_application_description (mg_endpoint_url m) (mg_server_name m) ++ put_i32 (-1) ++ put_u32 1 ++
  encode string_codec (str "http://opcfoundation.org/UA/SecurityPolicy#None") ++ put_i32 1 ++ encode string_codec (str "anonymous") ++
  put_u32 0 ++ put_i32 (-1) ++ put_i32 (-1) ++ put_i32 (-1) ++
  encode string_codec (str "http://opcfoundation.org/UA-Profile/Transport/uatcp-uasc-uabinary") ++ encode u8_codec 0.
Definition GetEndpoints_handle (now : DateTime) : Handler (list Z) :=
  do? handle := request_header in
  do? _ := dec (decode string_codec) in
  do? _ := counted_items (dec (decode string_codec)) in
  do? _ := counted_items (dec (decode string_codec)) in
  do? m := gets managers in
  st_ret (ResponseHeader_good now handle ++ put_i32 1 ++ encode_endpoint m).

(* ------------------------------------------------------------------ *)
(** * Sessions *)

Definition session_name (now : DateTime) : list Z :=
  let t := timestamp_millis now in str "Session_" ++ (if t <? 0 then str "-" else []) ++ decimal (Z.abs t).
Definition handle_create_session (now : DateTime) : stM Ctx OpcUaError SessionInfo :=
  do? info := on_sessions (st_map_err (fun _ => EServer) (create_session now (session_name now))) in
  fun c =>
    (Ok info, ctx_set_channel (attach_session (si_session_id info) (si_authentication_token info) (cx_channel c))
                (ctx_set_session (Some (si_session_id info)) (Some (si_authentication_token info)) c)).
Definition encode_create_session_response (now : DateTime) (handle : Z) (info : SessionInfo) (m : Managers) : list Z :=
  ResponseHeader_good now handle ++ encode node_id_codec (si_session_id info) ++ encode node_id_codec (si_authentication_token info) ++
  encode f64_codec 0x40ED4C0000000000 ++ put_i32 0 ++ put_i32 (-1) ++ put_i32 1 ++ encode_endpoint m ++ put_i32 0 ++ put_i32 (-1) ++
  put_i32 (-1) ++ put_u32 0.
Definition CreateSession_handle (now : DateTime) : Handler (list Z) :=
  do? handle := request_header in
  do? _ := dec (decode string_codec) in do? _ := dec (decode string_codec) in do? _ := dec (decode localized_text_codec) in
  do? _ := dec (decode u32_codec) in do? _ := dec (decode string_codec) in do? _ := dec (decode string_codec) in
  do? _ := counted_items (dec (decode string_codec)) in
  do? _ := dec (decode string_codec) in do? _ := dec (decode string_codec) in do? _ := dec (decode string_codec) in
  do? _ := dec (decode byte_string_codec) in do? _ := dec (decode byte_string_codec) in
  do? _ := dec (decode f64_codec) in do? _ := dec (decode u32_codec) in
  do? info := act (handle_create_session now) in
  do? m := gets managers in
  st_ret (encode_create_session_response now handle info m).
(** A failing activation is ignored. *)
Definition handle_activate_session (now : DateTime) : stM Ctx OpcUaError unit := fun c =>
  match cx_session_id c with
  | Some id => on_session_manager (do? _ := attempt (activate_session now id Anonymous) in st_ret tt) c
  | None => (Err EInvalidState, c)
  end.
Definition ActivateSession_handle (now : DateTime) : Handler (list Z) :=
  do? handle := request_header in
  do? _ := act (handle_activate_session now) in
  st_ret (ResponseHeader_good now handle ++ put_i32 0 ++ put_i32 0 ++ put_i32 0).
Definition handle_close_session : stM Ctx OpcUaError unit := fun c =>
  match cx_session_id c with
  | Some id =>
      (do? _ := on_session_manager (attempt (close_session id)) in
       fun c => (Ok tt, ctx_set_channel (channel_clear_session (cx_channel c)) (ctx_set_session None None c))) c
  | None => (Ok tt, c)
  end.
Definition CloseSession_handle (now : DateTime) : Handler (list Z) :=
  do? handle := request_header in
  do? _ := act handle_close_session in
  st_ret (ResponseHeader_good now handle).

(* ------------------------------------------------------------------ *)
(** * Attributes *)

Record ReadTarget : Set := { rt_node_id : NodeId; rt_attribute_id : AttributeId }.
Record WriteTarget : Set := { wt_node_id : NodeId; wt_attribute_id : AttributeId; wt_value : DataValue }.
(** An unknown attribute is read as the value. *)
Definition attribute_or_value (n : Z) : AttributeId := default AValue (attribute_from_u32 n).
Definition read_target_decode : Dec ReadTarget :=
  do? node_id := decode node_id_codec in do? attribute := decode u32_codec in do? _ := decode string_codec in
  do? _ := decode u16_codec in do? _ := decode string_codec in
  st_ret {| rt_node_id := node_id; rt_attribute_id := attribute_or_value attribute |}.
Definition decode_read_request : Handler (Z * list ReadTarget) :=
  do? handle := request_header in
  do? _ := dec (decode f64_codec) in do? _ := dec (decode u32_codec) in
  do? nodes := counted_items (dec read_target_decode) in
  st_ret (handle, nodes).
Definition handle_read_request (now : DateTime) (nodes : list ReadTarget) : stM Ctx OpcUaError (list DataValue) :=
  on_space (eachM (fun t => read now stack (rt_node_id t) (rt_attribute_id t)) nodes).
Definition Read_handle (now : DateTime) : Handler (list Z) :=
  do? p := decode_read_request in
  do? results := act (handle_read_request now p.2) in
  st_ret (ResponseHeader_good now p.1 ++ put_array (encode (data_value_codec now)) results ++ put_i32 0).
Definition write_target_decode (now : DateTime) : Dec WriteTarget :=
  do? node_id := decode node_id_codec in do? attribute := decode u32_codec in do? _ := decode string_codec in
  do? value := decode (data_value_codec now) in
  st_ret {| wt_node_id := node_id; wt_attribute_id := attribute_or_value attribute; wt_value := value |}.
Definition decode_write_request (now : DateTime) : Handler (Z * list WriteTarget) :=
  do? handle := request_header in
  do? nodes := counted_items (dec (write_target_decode now)) in
  st_ret (handle, nodes).
Definition handle_write_request (now : DateTime) (nodes : list WriteTarget) : stM Ctx OpcUaError (list StatusCode) :=
  on_space (eachM (fun t => pure_step (write now (wt_node_id t) (wt_attribute_id t) (wt_value t))) nodes).
Definition put_statuses (l : list StatusCode) : list Z := put_array (encode status_codec) l ++ put_i32 0.
Definition Write_handle (now : DateTime) : Handler (list Z) :=
  do? p := decode_write_request now in
  do? results := act (handle_write_request now p.2) in
  st_ret (ResponseHeader_good now p.1 ++ put_statuses results).

(* ------------------------------------------------------------------ *)
(** * Browsing *)

Record BrowseDescription : Set := {
  bd_node_id : NodeId; bd_direction : BrowseDirection; bd_reference_type_id : option ReferenceTypeId; bd_include_subtypes : bool;
  bd_node_class_mask : option Z
}.
Definition browse_description_decode : Dec BrowseDescription :=
  do? node_id := decode node_id_codec in do? direction := decode u32_codec in do? reference := decode node_id_codec in
  do? subtypes := decode bool_codec in do? class_mask := decode u32_codec in do? _ := decode u32_codec in
  st_ret {| bd_node_id := node_id; bd_direction := match direction with 1 => BInverse | 2 => BBoth | _ => BForward end;
            bd_reference_type_id := reference_from_node_id reference; bd_include_subtypes := subtypes;
            bd_node_class_mask := if class_mask =? 0 then None else Some class_mask |}.
Definition decode_browse_request : Handler (Z * Z * list BrowseDescription) :=
  do? handle := request_header in
  do? _ := dec (decode node_id_codec) in do? _ := dec (decode date_time_codec) in do? _ := dec (decode u32_codec) in
  do? max_refs := dec (decode u32_codec) in
  do? nodes := counted_items (dec browse_description_decode) in
  st_ret (handle, if max_refs =? 0 then 1000 else max_refs, nodes).
Definition handle_browse_request (now : DateTime) (max_refs : Z) (nodes : list BrowseDescription) : stM Ctx OpcUaError (list BrowseResult) :=
  on_space (eachM (fun d => pure_step (browse now (bd_node_id d) (bd_direction d) (bd_reference_type_id d) (bd_include_subtypes d)
                                         (bd_node_class_mask d) max_refs)) nodes).
Definition put_expanded (id : NodeId) : list Z := encode node_id_codec id ++ put_u32 0 ++ put_i32 (-1).
Definition put_reference (r : ReferenceDescription) : list Z :=
  encode node_id_codec (rd_reference_type_id r) ++ encode bool_codec (rd_is_forward r) ++ put_expanded (rd_node_id r) ++
  encode qualified_name_codec (rd_browse_name r) ++ encode localized_text_codec (rd_display_name r) ++ put_u32 (class_u32 (rd_node_class r)) ++
  put_expanded (default (NodeId_numeric 0 0) (rd_type_definition r)).
Definition put_browse_result (r : BrowseResult) : list Z :=
  encode status_codec GOOD ++ encode_optional_byte_string (br_continuation_point r) ++ put_array put_reference (br_references r).
Definition encode_browse_response (now : DateTime) (handle : Z) (l : list BrowseResult) : list Z :=
  ResponseHeader_good now handle ++ put_array put_browse_result l ++ put_i32 0.
Definition Browse_handle (now : DateTime) : Handler (list Z) :=
  do? p := decode_browse_request in
  do? results := act (handle_browse_request now p.1.2 p.2) in
  st_ret (encode_browse_response now p.1.1 results).
(** A byte string read byte by byte, empty when its length is not positive. *)
Definition continuation_bytes : Handler (list Z) := counted_items (dec (decode u8_codec)).
Definition decode_browse_next_request : Handler (Z * bool * list (list Z)) :=
  do? handle := request_header in
  do? release := dec (decode bool_codec) in
  do? points := counted_items continuation_bytes in
  st_ret (handle, release, points).
Definition handle_browse_next_request (now : DateTime) (release : bool) (points : list (list Z)) : stM Ctx OpcUaError (list BrowseResult) :=
  on_space (eachM (fun point => match point with [] => st_ret BrowseResult_default | _ => pure_step (browse_next now point release 1000) end) points).
Definition BrowseNext_handle (now : DateTime) : Handler (list Z) :=
  do? p := decode_browse_next_request in
  do? results := act (handle_browse_next_request now p.1.2 p.2) in
  st_ret (encode_browse_response now p.1.1 results).

(** ** Browse paths *)

Definition path_element_decode : Dec RelativePathElement :=
  do? reference := decode node_id_codec in do? inverse := decode bool_codec in do? subtypes := decode bool_codec in
  do? name := decode qualified_name_codec in
  st_ret {| pe_reference_type_id := reference; pe_is_inverse := inverse; pe_include_subtypes := subtypes; pe_target_name := name |}.
Definition put_target (t : BrowsePathTarget) : list Z := put_expanded (bt_target_id t) ++ put_u32 (bt_remaining_path_index t).
Definition put_path_result (r : BrowsePathResult) : list Z := encode status_codec (bp_status r) ++ put_array put_target (bp_targets r).
Definition translate_path : Handler (list Z) :=
  do? start := dec (decode node_id_codec) in
  do? elements := counted_items (dec path_element_decode) in
  do? m := gets managers in
  st_ret (put_path_result (resolve_browse_path start elements (mg_address_space m))).
Definition TranslateBrowsePaths_handle (now : DateTime) : Handler (list Z) :=
  do? handle := request_header in
  do? count := dec (decode i32_codec) in
  do? results := repeat_count count translate_path in
  st_ret (ResponseHeader_good now handle ++ put_i32 count ++ concat results ++ put_i32 0).

(** ** Registered nodes *)

Definition RegisterNodes_handle (now : DateTime) : Handler (list Z) :=
  do? handle := request_header in
  do? ids := counted_items (dec (decode node_id_codec)) in
  st_ret (ResponseHeader_good now handle ++ put_array (encode node_id_codec) ids).
Definition UnregisterNodes_handle (now : DateTime) : Handler (list Z) :=
  do? handle := request_header in
  do? _ := counted_items (dec (decode node_id_codec)) in
  st_ret (ResponseHeader_good now handle).

(* ------------------------------------------------------------------ *)
(** * Subscriptions *)

Definition subscription_error {A} (f : stM SubscriptionManager SubscriptionError A) : stM Ctx OpcUaError A :=
  on_subscriptions (st_map_err (fun _ => ESubscription) f).
(** The subscription belongs to the session of the connection, when there is one; that the
    session's own list is full is ignored. *)
Definition create_owned_subscription (now : DateTime) (config : SubscriptionConfig) : stM Ctx OpcUaError Z := fun c =>
  match cx_session_id c with
  | Some session =>
      (do? id := subscription_error (create_subscription_for_owner now config (Some session)) in
       do? _ := on_session_manager (attempt (add_subscription session id)) in
       st_ret id) c
  | None => subscription_error (create_subscription_for_owner now config None) c
  end.
Definition CreateSubscription_handle (now : DateTime) : Handler (list Z) :=
  do? handle := request_header in
  do? interval := dec (decode f64_codec) in do? lifetime := dec (decode u32_codec) in do? keep_alive := dec (decode u32_codec) in
  do? max_notifications := dec (decode u32_codec) in do? enabled := dec (decode bool_codec) in do? priority := dec (decode u8_codec) in
  do? id := act (create_owned_subscription now
                   {| sc_subscription_id := 0; sc_publishing_interval_ms := interval; sc_lifetime_count := lifetime;
                      sc_max_keep_alive_count := keep_alive; sc_max_notifications_per_publish := max_notifications;
                      sc_priority := priority; sc_publishing_enabled := enabled |}) in
  st_ret (ResponseHeader_good now handle ++ put_u32 id ++ encode f64_codec interval ++ put_u32 lifetime ++ put_u32 keep_alive).
Definition delete_owned_subscription (id : Z) : stM Ctx OpcUaError StatusCode := fun c =>
  let owner := subscription_ownership id (mg_subscription_manager (managers c)) ≫= ow_owner_session_id in
  (do? _ := match owner with
            | Some session => on_session_manager (fun sm => (Ok tt, remove_subscription session id sm))
            | None => st_ret tt
            end in
   do? ok := on_subscriptions (pure_step (delete_subscription id)) in
   st_ret (if ok : bool then GOOD else BAD_SUBSCRIPTION_ID_INVALID)) c.
Definition DeleteSubscriptions_handle (now : DateTime) : Handler (list Z) :=
  do? handle := request_header in
  do? results := counted_items (do? id := dec (decode u32_codec) in act (delete_owned_subscription id)) in
  st_ret (ResponseHeader_good now handle ++ put_statuses results).

(** The first subscription that answers. *)
Fixpoint publish_first (now : DateTime) (ids : list Z) : stM SubscriptionManager OpcUaError (option PublishResponse) :=
  match ids with
  | [] => st_ret None
  | id :: ids =>
      do? r := manager_process_publish now id in
      match r with Some r => st_ret (Some r) | None => publish_first now ids end
  end.
Definition put_notification_data (type_id : Z) (body : list Z) : list Z :=
  encode node_id_codec (NodeId_numeric 0 type_id) ++ encode u8_codec 0x01 ++ put_len (zlen body) ++ body.
Definition put_event (e : EventFieldList) : list Z := put_u32 (el_client_handle e) ++ put_array (encode variant_codec) (el_event_fields e).
Definition put_notification_message (now : DateTime) (m : NotificationMessage) : list Z :=
  let data_change :=
    match nm_notifications m with
    | [] => []
    | l => [put_notification_data 811 (put_array (fun n => put_u32 (mn_client_handle n) ++ encode (data_value_codec now) (mn_value n)) l ++ put_i32 0)]
    end in
  let events := match nm_event_notifications m with [] => [] | l => [put_notification_data 916 (put_array put_event l)] end in
  put_u32 (nm_sequence_number m) ++ encode date_time_codec (nm_publish_time m) ++ put_array (fun d => d) (data_change ++ events).
Definition put_empty_message (now : DateTime) : list Z := put_u32 0 ++ encode date_time_codec now ++ put_i32 0.
Definition put_publish_response (now : DateTime) (ids : list Z) (r : option PublishResponse) : list Z :=
  match r with
  | Some r =>
      put_u32 (pr_subscription_id r) ++ put_array put_u32 (pr_available_sequence_numbers r) ++ encode u8_codec (if pr_more_notifications r then 1 else 0) ++
      match pr_notification_message r with Some m => put_notification_message now m | None => put_empty_message now end
  | None => put_u32 (default 0 (head ids)) ++ put_i32 0 ++ encode u8_codec 0 ++ put_empty_message now
  end ++ put_i32 0 ++ put_i32 0.
Definition Publish_handle (now : DateTime) : Handler (list Z) :=
  do? handle := request_header in
  do? _ := counted_items (do? _ := dec (decode u32_codec) in dec (decode u32_codec)) in
  do? ids := gets (fun c => subscription_ids (mg_subscription_manager (managers c))) in
  do? r := act (on_subscriptions (publish_first now ids)) in
  st_ret (ResponseHeader_good now handle ++ put_publish_response now ids r).

(** ** Transfer *)

Definition put_transfer (status : StatusCode) (numbers : list Z) : list Z := encode status_codec status ++ put_array put_u32 numbers.
Definition transfer_one (target : option NodeId) (id : Z) : stM Ctx OpcUaError (list Z) := fun c =>
  match target, um_subscriptions (mg_subscription_manager (managers c)) !! id with
  | None, _ => (Ok (put_transfer BAD_SESSION_ID_INVALID []), c)
  | Some session, Some _ =>
      (do? r := on_subscriptions (attempt (transfer_subscription id session)) in
       match r with
       | inl (previous, numbers) =>
           do? _ := match previous with
                    | Some owner => on_session_manager (fun sm => (Ok tt, remove_subscription owner id sm))
                    | None => st_ret tt
                    end in
           do? _ := on_session_manager (attempt (add_subscription session id)) in
           st_ret (put_transfer GOOD_SUBSCRIPTION_TRANSFERRED numbers)
       | inr _ => st_ret (put_transfer BAD_SUBSCRIPTION_ID_INVALID [])
       end) c
  | Some _, None => (Ok (put_transfer BAD_SUBSCRIPTION_ID_INVALID []), c)
  end.
Definition TransferSubscriptions_handle (now : DateTime) : Handler (list Z) :=
  do? handle := request_header in
  do? ids := counted_items (dec (decode u32_codec)) in
  do? _ := dec (decode bool_codec) in
  do? target := gets cx_session_id in
  do? results := act (eachM (transfer_one target) ids) in
  st_ret (ResponseHeader_good now handle ++ put_len (zlen ids) ++ concat results ++ put_i32 0).

(* ------------------------------------------------------------------ *)
(** * Monitored items *)

(** ** Event filters: [d.ok()] where the code goes on without the value. *)
Definition try_dec {A} (d : Dec A) : Dec (option A) := fun buf =>
  match d buf with (Ok a, buf) => (Ok (Some a), buf) | (Err _, buf) => (Ok None, buf) | (Panic, buf) => (Panic, buf) end.
Definition or_refuse {A} (o : option A) : Dec A := match o with Some a => st_ret a | None => st_err ECodec end.
Definition decode_simple_attribute_operand : Dec SimpleAttributeOperand :=
  do? type_id := decode node_id_codec in
  do? count := decode i32_codec in
  do? path := repeatM (Z.to_nat count) (decode qualified_name_codec) in
  do? attribute := decode u32_codec in
  do? range := try_dec (decode string_codec) in
  st_ret {| op_type_definition_id := type_id; op_browse_path := path; op_attribute_id := attribute_or_value attribute;
            op_index_range := default [] range |}.
Definition decode_filter_operand (e : ExtensionObject) : outcome OpcUaError (option FilterOperand) :=
  match as_numeric (eo_type_id e), eo_body e with
  | Some n, Some body =>
      match n with
      | 597 => (try_dec (st_map FLiteral (decode variant_codec)) body).1
      | 603 => (try_dec (st_map FSimpleAttribute decode_simple_attribute_operand) body).1
      | 594 => (try_dec (st_map FElement (decode u32_codec)) body).1
      | _ => Ok None
      end
  | _, _ => Ok None
  end.
Definition decode_content_filter_element : Dec ContentFilterElement :=
  do? number := decode u32_codec in
  do? operator := or_refuse (operator_from_u32 number) in
  do? count := decode i32_codec in
  do? operands := repeatM (Z.to_nat count) (do? e := decode extension_object_codec in st_lift (decode_filter_operand e)) in
  st_ret {| fe_operator := operator; fe_operands := omap (fun o => o) operands |}.
(** Elements that cannot be read are left out, and reading goes on where they stopped. *)
Definition event_filter_decode : Dec EventFilter :=
  do? select_count := decode i32_codec in
  do? select := repeatM (Z.to_nat select_count) (try_dec decode_simple_attribute_operand) in
  do? where_count := try_dec (decode i32_codec) in
  do? elements := repeatM (Z.to_nat (default 0 where_count)) (try_dec decode_content_filter_element) in
  st_ret {| ef_select_clauses := omap (fun o => o) select; ef_where_clause := omap (fun o => o) elements |}.
Definition EVENT_FILTER_ENCODING_ID : Z := 725.
Definition parse_event_filter (e : ExtensionObject) : outcome OpcUaError (option EventFilter) :=
  match as_numeric (eo_type_id e), eo_body e with
  | Some n, Some body => if n =? EVENT_FILTER_ENCODING_ID then (try_dec event_filter_decode body).1 else Ok None
  | _, _ => Ok None
  end.

(** ** Creation, change and removal.  The client's handle, the monitoring mode and a data change
    filter are read and dropped. *)
Definition monitored_item_decode : Dec MonitoredItemConfig :=
  do? node_id := decode node_id_codec in do? attribute := decode u32_codec in do? _ := decode string_codec in
  do? _ := decode u16_codec in do? _ := decode string_codec in do? _ := decode u32_codec in do? _ := decode u32_codec in
  do? interval := decode f64_codec in do? filter := decode extension_object_codec in
  do? queue_size := decode u32_codec in do? discard_oldest := decode bool_codec in
  do? event_filter := st_lift (parse_event_filter filter) in
  let attribute := attribute_or_value attribute in
  st_ret {| mc_node_id := node_id; mc_attribute_id := attribute; mc_sampling_interval_ms := interval; mc_queue_size := queue_size;
            mc_discard_oldest := discard_oldest; mc_filter := None;
            mc_kind := if is_some event_filter || bool_decide (attribute = AEventNotifier) then KEvent else KDataChange;
            mc_event_filter := event_filter |}.
Definition create_one_item (now : DateTime) (subscription : Z) : Handler (list Z) :=
  do? config := dec monitored_item_decode in
  do? r := act (on_subscriptions (attempt (create_monitored_item now subscription config))) in
  let '(status, id, interval, queue) :=
    match r with
    | inl id => (GOOD, id, mc_sampling_interval_ms config, mc_queue_size config)
    | inr _ => (BAD_SUBSCRIPTION_ID_INVALID, 0, 0, 0)
    end in
  st_ret (encode status_codec status ++ put_u32 id ++ encode f64_codec interval ++ put_u32 queue ++ encode extension_object_codec null_extension_object).
Definition CreateMonitoredItems_handle (now : DateTime) : Handler (list Z) :=
  do? handle := request_header in
  do? subscription := dec (decode u32_codec) in do? _ := dec (decode u32_codec) in
  do? results := counted_items (create_one_item now subscription) in
  st_ret (ResponseHeader_good now handle ++ put_array (fun r => r) results ++ put_i32 0).
Definition delete_one_item (subscription : Z) : Handler StatusCode :=
  do? item := dec (decode u32_codec) in
  do? r := act (on_subscriptions (attempt (delete_monitored_item subscription item))) in
  st_ret (match r with inl _ => GOOD | inr _ => BAD_MONITORED_ITEM_ID_INVALID end).
Definition DeleteMonitoredItems_handle (now : DateTime) : Handler (list Z) :=
  do? handle := request_header in
  do? subscription := dec (decode u32_codec) in
  do? results := counted_items (delete_one_item subscription) in
  st_ret (ResponseHeader_good now handle ++ put_statuses results).
Definition modify_one_item (subscription : Z) : Handler (list Z) :=
  do? item := dec (decode u32_codec) in do? _ := dec (decode u32_codec) in do? interval := dec (decode f64_codec) in
  do? _ := dec (decode extension_object_codec) in do? queue_size := dec (decode u32_codec) in do? discard_oldest := dec (decode bool_codec) in
  do? r := act (on_subscriptions (attempt (modify_monitored_item subscription item interval queue_size discard_oldest))) in
  let '(status, interval, queue) := match r with inl _ => (GOOD, interval, queue_size) | inr _ => (BAD_MONITORED_ITEM_ID_INVALID, 0, 0) end in
  st_ret (encode status_codec status ++ encode f64_codec interval ++ put_u32 queue ++ encode extension_object_codec null_extension_object).
Definition ModifyMonitoredItems_handle (now : DateTime) : Handler (list Z) :=
  do? handle := request_header in
  do? subscription := dec (decode u32_codec) in do? _ := dec (decode u32_codec) in
  do? results := counted_items (modify_one_item subscription) in
  st_ret (ResponseHeader_good now handle ++ put_array (fun r => r) results ++ put_i32 0).

(* ------------------------------------------------------------------ *)
(** * History *)

Inductive ParsedDetails : Set := RawModified (d : ReadRawModifiedDetails) | Processed (d : ReadProcessedDetails).
Definition aggregate_type_from_node_id (id : NodeId) : AggregateType :=
  match as_numeric id with
  | Some 2342 => AgAverage | Some 2346 => AgMinimum | Some 2347 => AgMaximum | Some 2352 => AgCount | Some 2355 => AgTotal
  | Some 2362 => AgRange | Some 2365 => AgStandardDeviation | Some 2368 => AgVariance | Some 2371 => AgStart | Some 2372 => AgEnd
  | Some 2374 => AgDelta | Some 2419 | Some 2420 => AgTimeAverage | Some 2422 => AgWorstQuality | Some 2424 => AgPercentGood
  | Some 2425 => AgPercentBad | Some 11285 | Some 11286 => AgDurationInState | Some 11304 => AgNumberOfTransitions
  | _ => AgAverage
  end.
Definition raw_details_decode : Dec ParsedDetails :=
  do? modified := decode bool_codec in do? start := decode date_time_codec in do? stop := decode date_time_codec in
  do? count := decode u32_codec in do? bounds := decode bool_codec in
  st_ret (RawModified {| rr_start_time := start; rr_end_time := stop; rr_num_values_per_node := count; rr_return_bounds := bounds;
                         rr_is_read_modified := modified |}).
(** The first aggregate of the list; the others are skipped. *)
Definition processed_details_decode : Dec ParsedDetails :=
  do? start := decode date_time_codec in do? stop := decode date_time_codec in do? interval := decode f64_codec in
  do? count := decode i32_codec in
  do? ids := repeatM (Z.to_nat count) (decode node_id_codec) in
  st_ret (Processed {| rp_start_time := start; rp_end_time := stop; rp_processing_interval_ms := interval;
                       rp_aggregate_type := match ids with id :: _ => aggregate_type_from_node_id id | [] => AgAverage end |}).
Definition decode_history_read_details (e : ExtensionObject) : outcome OpcUaError (option ParsedDetails) :=
  match eo_body e with
  | None => Ok None
  | Some body =>
      match default 0 (as_numeric (eo_type_id e)) with
      | 650 => omap_ok Some (raw_details_decode body).1
      | 655 => omap_ok Some (processed_details_decode body).1
      | _ => Ok None
      end
  end.
Definition HISTORY_DATA_ENCODING_ID : Z := 658.
Definition encode_history_result (now : DateTime) (r : HistoryReadResult) : list Z :=
  encode status_codec (hr_status r) ++
  match hr_continuation_point r with Some cp => put_i32 8 ++ le_bytes 8 (cp_id cp) | None => put_i32 (-1) end ++
  put_notification_data HISTORY_DATA_ENCODING_ID (put_array (fun p => encode (data_value_codec now) (hp_value p)) (hr_data_values r)).
Definition put_no_history (status : StatusCode) : list Z := encode status_codec status ++ put_i32 (-1) ++ encode extension_object_codec null_extension_object.
Definition decode_cp_id (cp : list Z) : option Z := if zlen cp =? 8 then Some (le_value cp) else None.
(** A processed read that never returns gives no answer. *)
Definition processed_read (now : DateTime) (id : NodeId) (d : ReadProcessedDetails) : stM HistoryStore OpcUaError HistoryReadResult := fun s =>
  match read_processed fuel now id d s with Some r => r | None => (Panic, count_read s) end.
Definition history_read_one (now : DateTime) (details : option ParsedDetails) (release : bool) : Handler (list Z) :=
  do? node_id := dec (decode node_id_codec) in do? _ := dec (decode string_codec) in do? _ := dec (decode u16_codec) in
  do? _ := dec (decode string_codec) in do? point := continuation_bytes in
  let point := match point with [] => None | _ => decode_cp_id point end in
  if release then
    do? _ := match point with Some id => st_map (fun _ => tt) (act (on_history (continue_read now id))) | None => st_ret tt end in
    st_ret (put_no_history GOOD)
  else
    match point with
    | Some id => st_map (encode_history_result now) (act (on_history (continue_read now id)))
    | None =>
        match details with
        | Some (RawModified d) => st_map (encode_history_result now) (act (on_history (read_raw now node_id d)))
        | Some (Processed d) => st_map (encode_history_result now) (act (on_history (processed_read now node_id d)))
        | None => st_ret (put_no_history BAD_HISTORY_OPERATION_UNSUPPORTED)
        end
    end.
Definition HistoryRead_handle (now : DateTime) : Handler (list Z) :=
  do? handle := request_header in
  do? extension := dec (decode extension_object_codec) in
  do? details := st_lift (decode_history_read_details extension) in
  do? _ := dec (decode u32_codec) in do? release := dec (decode bool_codec) in
  do? count := dec (decode i32_codec) in
  do? results := repeat_count count (history_read_one now details release) in
  st_ret (ResponseHeader_good now handle ++ put_i32 count ++ concat results ++ put_i32 0).

(* ------------------------------------------------------------------ *)
(** * Method calls *)

Definition put_call_failure (status : StatusCode) : list Z := encode status_codec status ++ put_i32 0 ++ put_i32 0 ++ put_i32 0.
Definition put_call_success (inputs outputs : list Variant) : list Z :=
  encode status_codec GOOD ++ put_array (fun _ => encode status_codec GOOD) inputs ++ put_i32 0 ++ put_array (encode variant_codec) outputs.
Definition call_one : Handler (list Z) :=
  do? object_id := dec (decode node_id_codec) in do? method_id := dec (decode node_id_codec) in
  do? inputs := counted_items (dec (decode variant_codec)) in
  do? m := gets managers in
  if negb (contains_node object_id (mg_address_space m)) then st_ret (put_call_failure BAD_NODE_ID_UNKNOWN)
  else if negb (contains_node method_id (mg_address_space m)) then st_ret (put_call_failure BAD_NODE_ID_UNKNOWN)
  else
    match mg_methods m !! method_id with
    | Some callback =>
        match callback inputs with
        | Ok outputs => st_ret (put_call_success inputs outputs)
        | Err status => st_ret (put_call_failure status)
        | Panic => st_lift Panic
        end
    | None => st_ret (put_call_failure BAD_NOT_IMPLEMENTED)
    end.
Definition Call_handle (now : DateTime) : Handler (list Z) :=
  do? handle := request_header in
  do? count := dec (decode i32_codec) in
  do? results := repeat_count count call_one in
  st_ret (ResponseHeader_good now handle ++ put_i32 count ++ concat results ++ put_i32 0).

(* ------------------------------------------------------------------ *)
(** * Dispatch *)

(** [BTreeSet<ServiceId>] of the enabled services. *)
Definition BuiltinServiceSet : Type := list ServiceId.
Definition services_contain (service : ServiceId) (s : BuiltinServiceSet) : bool := bool_decide (service ∈ s).
Definition enable (service : ServiceId) (s : BuiltinServiceSet) : BuiltinServiceSet := if services_contain service s then s else service :: s.
Definition handler_of (service : ServiceId) : DateTime → Handler (list Z) :=
  match service with
  | GetEndpoints => GetEndpoints_handle | CreateSession => CreateSession_handle | ActivateSession => ActivateSession_handle
  | CloseSession => CloseSession_handle | Read => Read_handle | Write => Write_handle | Browse => Browse_handle
  | BrowseNext => BrowseNext_handle | CreateSubscription => CreateSubscription_handle | DeleteSubscriptions => DeleteSubscriptions_handle
  | Publish => Publish_handle | CreateMonitoredItems => CreateMonitoredItems_handle | DeleteMonitoredItems => DeleteMonitoredItems_handle
  | ModifyMonitoredItems => ModifyMonitoredItems_handle | RegisterNodes => RegisterNodes_handle | UnregisterNodes => UnregisterNodes_handle
  | TranslateBrowsePaths => TranslateBrowsePaths_handle | TransferSubscriptions => TransferSubscriptions_handle
  | HistoryRead => HistoryRead_handle | Call => Call_handle
  end.
(** [TypedRequest] and [TypedResponse]: the service and the body. *)
Definition decode_request_payload (payload : list Z) : outcome ServiceError (ServiceId * list Z) :=
  match decode node_id_codec payload with
  | (Ok type_id, body) => match from_request_type_id type_id with Some s => Ok (s, body) | None => Err (SvUnsupportedService type_id) end
  | (Err e, _) => Err (SvOpcUa e)
  | (Panic, _) => Panic
  end.
Definition dispatch_service (services : BuiltinServiceSet) (now : DateTime) (service : ServiceId) (body : list Z) : stM Ctx ServiceError (list Z) := fun c =>
  if negb (services_contain service services) then (Err (SvUnsupportedService (request_type_id service)), c)
  else let '(r, (_, c)) := handler_of service now (body, c) in (map_err SvOpcUa r, c).
Definition encode_response (service : ServiceId) (body : list Z) : list Z := encode node_id_codec (response_type_id service) ++ body.
Definition dispatch_payload (services : BuiltinServiceSet) (now : DateTime) (payload : list Z) : stM Ctx ServiceError (list Z) :=
  do? p := st_lift (decode_request_payload payload) in
  do? body := dispatch_service services now p.1 p.2 in
  st_ret (encode_response p.1 body).

(* ------------------------------------------------------------------ *)
(** * The contract with the transport *)

Definition ctx_keeps {A} (f : stM Ctx OpcUaError A) : Prop := ∀ c, same_channel (cx_channel (f c).2) (cx_channel c).
Definition keeps_channel {A} (h : Handler A) : Prop := ∀ s, same_channel (cx_channel (h s).2.2) (cx_channel s.2).
Lemma same_channel_refl a : same_channel a a.
Proof. done. Qed.
Lemma same_channel_trans a b c : same_channel a b → same_channel b c → same_channel a c.
Proof. unfold same_channel. intuition congruence. Qed.
Lemma ctx_keeps_space {A} (f : stM AddressSpace OpcUaError A) : ctx_keeps (on_space f).
Proof. intros c. unfold on_space. by destruct (f _). Qed.
Lemma ctx_keeps_subscriptions {A} (f : stM SubscriptionManager OpcUaError A) : ctx_keeps (on_subscriptions f).
Proof. intros c. unfold on_subscriptions. by destruct (f _). Qed.
Lemma ctx_keeps_history {A} (f : stM HistoryStore OpcUaError A) : ctx_keeps (on_history f).
Proof. intros c. unfold on_history. by destruct (f _). Qed.
Lemma ctx_keeps_sessions {A} (f : stM (Z * SessionManager) OpcUaError A) : ctx_keeps (on_sessions f).
Proof. intros c. unfold on_sessions. by destruct (f _) as [? []]. Qed.
Lemma ctx_keeps_bind {A R} (f : stM Ctx OpcUaError A) (k : A → stM Ctx OpcUaError R) : ctx_keeps f → (∀ a, ctx_keeps (k a)) → ctx_keeps (st_bind f k).
Proof.
  intros Hf Hk c. unfold st_bind. specialize (Hf c). destruct (f c) as [[a|e|] c']; [|done..]. eapply same_channel_trans; [apply Hk|done].
Qed.
Lemma ctx_keeps_ret {A} (a : A) : ctx_keeps (st_ret a).
Proof. done. Qed.
Lemma ctx_keeps_each {A R} (f : A → stM Ctx OpcUaError R) l : (∀ a, ctx_keeps (f a)) → ctx_keeps (eachM f l).
Proof.
  intros Hf. induction l as [|a l IH]; [done|]. cbn [eachM]. apply ctx_keeps_bind; [done|]. intros b. by apply ctx_keeps_bind.
Qed.
Lemma keeps_bind {A R} (f : Handler A) (k : A → Handler R) : keeps_channel f → (∀ a, keeps_channel (k a)) → keeps_channel (st_bind f k).
Proof.
  intros Hf Hk c. unfold st_bind. specialize (Hf c). destruct (f c) as [[a|e|] c']; [|done..]. eapply same_channel_trans; [apply Hk|done].
Qed.
Lemma keeps_dec {A} (d : Dec A) : keeps_channel (dec d).
Proof. intros [buf c]. unfold dec. by destruct (d buf). Qed.
Lemma keeps_act {A} (f : stM Ctx OpcUaError A) : ctx_keeps f → keeps_channel (act f).
Proof. intros Hf [buf c]. unfold act. specialize (Hf c). by destruct (f c). Qed.
Lemma keeps_gets {A} (f : Ctx → A) : keeps_channel (gets f).
Proof. by intros [buf c]. Qed.
Lemma keeps_ret {A} (a : A) : keeps_channel (st_ret a).
Proof. done. Qed.
Lemma keeps_lift {A} (o : outcome OpcUaError A) : keeps_channel (st_lift o).
Proof. done. Qed.
Lemma keeps_map {A R} (f : A → R) (h : Handler A) : keeps_channel h → keeps_channel (st_map f h).
Proof. intros Hh c. unfold st_map. specialize (Hh c). by destruct (h c). Qed.
Lemma keeps_repeat {A} n (h : Handler A) : keeps_channel h → keeps_channel (repeatM n h).
Proof. intros Hh. induction n as [|n IH]; [done|]. cbn [repeatM]. apply keeps_bind; [done|]. intros a. by apply keeps_bind. Qed.
Lemma keeps_counted {A} (h : Handler A) : keeps_channel h → keeps_channel (counted_items h).
Proof. intros Hh. apply keeps_bind; [apply keeps_dec|]. intros n. by apply keeps_repeat. Qed.

Lemma keeps_request_header : keeps_channel request_header.
Proof. repeat (apply keeps_bind; [apply keeps_dec|intros ?]). apply keeps_ret. Qed.
Lemma ctx_keeps_session_manager {A} (f : stM SessionManager OpcUaError A) : ctx_keeps (on_session_manager f).
Proof. apply ctx_keeps_sessions. Qed.
Lemma ctx_keeps_create now : ctx_keeps (handle_create_session now).
Proof. apply ctx_keeps_bind; [apply ctx_keeps_sessions|]. by intros info c. Qed.
Lemma ctx_keeps_activate now : ctx_keeps (handle_activate_session now).
Proof. intros c. unfold handle_activate_session. destruct (cx_session_id c); [apply ctx_keeps_session_manager|done]. Qed.
Lemma ctx_keeps_close : ctx_keeps handle_close_session.
Proof.
  intros c. unfold handle_close_session. destruct (cx_session_id c); [|done]. revert c. apply ctx_keeps_bind; [apply ctx_keeps_session_manager|done].
Qed.
Lemma ctx_keeps_owned now config : ctx_keeps (create_owned_subscription now config).
Proof.
  intros c. unfold create_owned_subscription. destruct (cx_session_id c); [|apply ctx_keeps_subscriptions]. revert c.
  apply ctx_keeps_bind; [apply ctx_keeps_subscriptions|]. intros id. apply ctx_keeps_bind; [apply ctx_keeps_session_manager|done].
Qed.
Lemma ctx_keeps_delete id : ctx_keeps (delete_owned_subscription id).
Proof.
  intros c. unfold delete_owned_subscription. generalize (subscription_ownership id (mg_subscription_manager (managers c)) ≫= ow_owner_session_id).
  intros owner. revert c. apply ctx_keeps_bind; [destruct owner; [apply ctx_keeps_session_manager|done]|]. intros _.
  apply ctx_keeps_bind; [apply ctx_keeps_subscriptions|done].
Qed.
Lemma ctx_keeps_transfer target id : ctx_keeps (transfer_one target id).
Proof.
  intros c. unfold transfer_one. destruct target as [session|]; [|done]. destruct (_ !! id); [|done]. revert c.
  apply ctx_keeps_bind; [apply ctx_keeps_subscriptions|]. intros [[previous numbers]|]; [|done].
  apply ctx_keeps_bind; [destruct previous; [apply ctx_keeps_session_manager|done]|]. intros _.
  apply ctx_keeps_bind; [apply ctx_keeps_session_manager|done].
Qed.
Create HintDb channel.
#[local] Hint Resolve keeps_dec keeps_gets keeps_ret keeps_lift keeps_map keeps_repeat keeps_counted keeps_act keeps_request_header
  ctx_keeps_space ctx_keeps_subscriptions ctx_keeps_history ctx_keeps_create ctx_keeps_activate ctx_keeps_close ctx_keeps_owned
  ctx_keeps_delete ctx_keeps_transfer ctx_keeps_each : channel.
Ltac keep_steps := repeat (first [solve [auto with channel] | apply keeps_bind; [|intros ?] | apply keeps_counted | apply keeps_repeat | case_match]).
Lemma handler_keeps service now : keeps_channel (handler_of service now).
Proof.
  destruct service; cbn [handler_of];
    unfold GetEndpoints_handle, CreateSession_handle, ActivateSession_handle, CloseSession_handle, Read_handle, decode_read_request,
      Write_handle, decode_write_request, Browse_handle, decode_browse_request, BrowseNext_handle, decode_browse_next_request, continuation_bytes,
      CreateSubscription_handle, DeleteSubscriptions_handle, Publish_handle, CreateMonitoredItems_handle, create_one_item,
      DeleteMonitoredItems_handle, delete_one_item, ModifyMonitoredItems_handle, modify_one_item, RegisterNodes_handle, UnregisterNodes_handle,
      TranslateBrowsePaths_handle, translate_path, TransferSubscriptions_handle, HistoryRead_handle, history_read_one, Call_handle, call_one,
      repeat_count, continuation_bytes, handle_read_request, handle_write_request, handle_browse_request, handle_browse_next_request;
    keep_steps.
Qed.
(** The services meet what the transport asks of them. *)
#[global] Instance dispatch_payload_dispatcher services : Dispatcher (dispatch_payload services).
Proof.
  intros now payload c. unfold dispatch_payload, st_bind, st_lift. destruct (decode_request_payload payload) as [[service body]|e|]; [|done..].
  unfold dispatch_service. cbn [fst snd]. destruct (services_contain service services); [|done]. cbn [negb].
  pose proof (handler_keeps service now (body, c)) as Hk. destruct (handler_of service now (body, c)) as [r [buf c']]. cbn [snd] in Hk.
  by destruct r.
Qed.

(* ------------------------------------------------------------------ *)
(** * Requests and responses *)

Lemma service_roundtrip s : from_request_type_id (request_type_id s) = Some s.
Proof. by destruct s. Qed.
Lemma services_all s : services_contain s ServiceId_ALL = true.
Proof. by destruct s. Qed.

(** What a handler gives, when it gives something. *)
Definition yields {A} (P : A → Prop) (h : Handler A) : Prop := ∀ s, match (h s).1 with Ok a => P a | _ => True end.
Lemma yields_bind {A R} (P : R → Prop) (h : Handler A) k : (∀ a, yields P (k a)) → yields P (st_bind h k).
Proof. intros Hk s. unfold st_bind. destruct (h s) as [[a|e|] s']; [apply Hk|done..]. Qed.
Lemma yields_ret {A} (P : A → Prop) a : P a → yields P (st_ret a).
Proof. by intros Ha s. Qed.
Definition headed (now : DateTime) (handle : Z) (out : list Z) : Prop := ∃ rest, out = ResponseHeader_good now handle ++ rest.
Definition answers (now : DateTime) (h : Handler (list Z)) : Prop := ∀ s out s', h s = (Ok out, s') →
  ∃ handle s1, request_header s = (Ok handle, s1) ∧ headed now handle out.
Lemma answers_direct now k : (∀ handle, yields (headed now handle) (k handle)) → answers now (st_bind request_header k).
Proof.
  intros Hk s out s'. unfold st_bind. destruct (request_header s) as [[handle|e|] s1]; [|done..]. intros H. exists handle, s1. split; [done|].
  specialize (Hk handle s1). by rewrite H in Hk.
Qed.
Lemma answers_paired {A} now (f : A → Z) (d : Z → Handler A) k : (∀ handle, yields (fun p => f p = handle) (d handle)) →
  (∀ p, yields (headed now (f p)) (k p)) → answers now (st_bind (st_bind request_header d) k).
Proof.
  intros Hd Hk s out s'. unfold st_bind. destruct (request_header s) as [[handle|e|] s1]; [|done..]. specialize (Hd handle s1).
  destruct (d handle s1) as [[p|e|] s2]; [|done..]. cbn in Hd. subst handle. intros H. exists (f p), s1. split; [done|].
  specialize (Hk p s2). by rewrite H in Hk.
Qed.
Lemma headed_app now handle rest : headed now handle (ResponseHeader_good now handle ++ rest).
Proof. by exists rest. Qed.
Lemma headed_alone now handle : headed now handle (ResponseHeader_good now handle).
Proof. exists []. by rewrite app_nil_r. Qed.
Ltac yield_steps := repeat (apply yields_bind; intros ?); apply yields_ret; first [apply headed_app | apply headed_alone | done].
Lemma handler_answers service now : answers now (handler_of service now).
Proof.
  destruct service; cbn [handler_of];
    first [apply (answers_paired now fst); intros; yield_steps | apply (answers_paired now (fun p => p.1.1)); intros; yield_steps
          | apply answers_direct; intros handle; yield_steps].
Qed.

(** C11: Every response answers its request. Whatever the payload and the context, a response the
    services give begins with the response type of the service the request names, an enabled one,
    and a header with the request handle of the request and a good result. *)
Theorem response_matches_request services now payload c out c' :
  dispatch_payload services now payload c = (Ok out, c') →
  ∃ service type_id body header rest tail,
    decode node_id_codec payload = (Ok type_id, body) ∧ from_request_type_id type_id = Some service ∧ service ∈ services ∧
    RequestHeader_decode body = (Ok header, rest) ∧
    out = encode node_id_codec (response_type_id service) ++ ResponseHeader_good now (rh_request_handle header) ++ tail.
Proof.
  unfold dispatch_payload, st_bind at 1, st_lift, decode_request_payload.
  destruct (decode node_id_codec payload) as [[type_id|e|] body] eqn:Hp; [|done..]. destruct (from_request_type_id type_id) as [service|] eqn:Hs; [|done].
  unfold st_bind, dispatch_service. cbn [fst snd]. destruct (services_contain service services) eqn:Hin; cbn [negb]; [|done].
  destruct (handler_of service now (body, c)) as [[r|e|] [buf c1]] eqn:Hh; cbn [map_err]; [|done..]. intros [= <- <-].
  apply handler_answers in Hh as (handle & s1 & Hr & tail & ->). unfold request_header, st_bind, dec in Hr.
  destruct (RequestHeader_decode body) as [[header|e|] rest] eqn:Hd; [|done..]. destruct (decode extension_object_codec rest) as [[x|e|] rest']; [|done..].
  injection Hr as <- _. exists service, type_id, body, header, rest, tail. split_and!; [done|done| |done|done].
  by apply bool_decide_eq_true in Hin.
Qed.

(* ------------------------------------------------------------------ *)
(** * Services without a session *)

(** A handler that does not look at the session of the connection. *)
Definition blind {A} (h : Handler A) : Prop := ∀ session auth buf c,
  h (buf, ctx_set_session session auth c) = let '(r, (buf', c')) := h (buf, c) in (r, (buf', ctx_set_session session auth c')).
Definition ctx_blind {A} (f : stM Ctx OpcUaError A) : Prop := ∀ session auth c,
  f (ctx_set_session session auth c) = let '(r, c') := f c in (r, ctx_set_session session auth c').
Lemma blind_bind {A R} (h : Handler A) (k : A → Handler R) : blind h → (∀ a, blind (k a)) → blind (st_bind h k).
Proof.
  intros Hh Hk session auth buf c. unfold st_bind. rewrite Hh. destruct (h (buf, c)) as [[a|e|] [buf' c']]; [apply Hk|done..].
Qed.
Lemma blind_dec {A} (d : Dec A) : blind (dec d).
Proof. intros session auth buf c. unfold dec. by destruct (d buf). Qed.
Lemma blind_act {A} (f : stM Ctx OpcUaError A) : ctx_blind f → blind (act f).
Proof. intros Hf session auth buf c. unfold act. rewrite Hf. by destruct (f c). Qed.
Lemma blind_gets {A} (f : Managers → A) : blind (gets (fun c => f (managers c))).
Proof. done. Qed.
Lemma blind_ret {A} (a : A) : blind (st_ret a).
Proof. done. Qed.
Lemma blind_lift {A} (o : outcome OpcUaError A) : blind (st_lift o).
Proof. done. Qed.
Lemma blind_map {A R} (f : A → R) (h : Handler A) : blind h → blind (st_map f h).
Proof. intros Hh session auth buf c. unfold st_map. rewrite Hh. by destruct (h (buf, c)) as [? []]. Qed.
Lemma blind_repeat {A} n (h : Handler A) : blind h → blind (repeatM n h).
Proof. intros Hh. induction n as [|n IH]; [done|]. cbn [repeatM]. apply blind_bind; [done|]. intros a. by apply blind_bind. Qed.
Lemma blind_counted {A} (h : Handler A) : blind h → blind (counted_items h).
Proof. intros Hh. apply blind_bind; [apply blind_dec|]. intros n. by apply blind_repeat. Qed.
Lemma blind_request_header : blind request_header.
Proof. repeat (apply blind_bind; [apply blind_dec|intros ?]). apply blind_ret. Qed.
Lemma ctx_blind_space {A} (f : stM AddressSpace OpcUaError A) : ctx_blind (on_space f).
Proof. intros session auth c. unfold on_space. change (managers (ctx_set_session session auth c)) with (managers c). by destruct (f _). Qed.
Lemma ctx_blind_subscriptions {A} (f : stM SubscriptionManager OpcUaError A) : ctx_blind (on_subscriptions f).
Proof. intros session auth c. unfold on_subscriptions. change (managers (ctx_set_session session auth c)) with (managers c). by destruct (f _). Qed.
Lemma ctx_blind_history {A} (f : stM HistoryStore OpcUaError A) : ctx_blind (on_history f).
Proof. intros session auth c. unfold on_history. change (managers (ctx_set_session session auth c)) with (managers c). by destruct (f _). Qed.
Lemma ctx_blind_sessions {A} (f : stM (Z * SessionManager) OpcUaError A) : ctx_blind (on_sessions f).
Proof. intros session auth c. unfold on_sessions. cbn [cx_world ctx_set_session]. by destruct (f _) as [? []]. Qed.
Lemma ctx_blind_bind {A R} (f : stM Ctx OpcUaError A) (k : A → stM Ctx OpcUaError R) : ctx_blind f → (∀ a, ctx_blind (k a)) → ctx_blind (st_bind f k).
Proof. intros Hf Hk session auth c. unfold st_bind. rewrite Hf. destruct (f c) as [[a|e|] c']; [apply Hk|done..]. Qed.
Lemma ctx_blind_delete id : ctx_blind (delete_owned_subscription id).
Proof.
  intros session auth c. unfold delete_owned_subscription. change (managers (ctx_set_session session auth c)) with (managers c).
  generalize (subscription_ownership id (mg_subscription_manager (managers c)) ≫= ow_owner_session_id). intros owner. revert session auth c.
  apply ctx_blind_bind; [destruct owner; [apply ctx_blind_sessions|done]|]. intros _. apply ctx_blind_bind; [apply ctx_blind_subscriptions|done].
Qed.
Create HintDb blind.
#[local] Hint Resolve blind_dec blind_gets blind_ret blind_lift blind_map blind_repeat blind_counted blind_act blind_request_header
  ctx_blind_space ctx_blind_subscriptions ctx_blind_history ctx_blind_delete : blind.
Ltac blind_steps := repeat (first [solve [auto with blind] | apply blind_bind; [|intros ?] | apply blind_counted | apply blind_repeat
                                  | apply (blind_gets (fun m => m)) | apply (blind_gets (fun m => subscription_ids (mg_subscription_manager m))) | case_match]).
(** The services whose handlers look at the session. *)
Definition session_services : list ServiceId := [CreateSession; ActivateSession; CloseSession; CreateSubscription; TransferSubscriptions].
Lemma handler_blind service now : service ∉ session_services → blind (handler_of service now).
Proof.
  intros Hs. destruct service; try (exfalso; apply Hs; unfold session_services; set_solver); cbn [handler_of];
    unfold GetEndpoints_handle, Read_handle, decode_read_request, handle_read_request, Write_handle, decode_write_request, handle_write_request,
      Browse_handle, decode_browse_request, handle_browse_request, BrowseNext_handle, decode_browse_next_request, handle_browse_next_request,
      continuation_bytes, DeleteSubscriptions_handle, Publish_handle, CreateMonitoredItems_handle, create_one_item, DeleteMonitoredItems_handle,
      delete_one_item, ModifyMonitoredItems_handle, modify_one_item, RegisterNodes_handle, UnregisterNodes_handle, TranslateBrowsePaths_handle,
      translate_path, HistoryRead_handle, history_read_one, Call_handle, call_one, repeat_count, continuation_bytes;
    blind_steps.
Qed.

(** The other services need no session. For every service but the three of the session itself
    and the two that record an owner, the answer and the effect on the server are the same whatever
    session the connection has, and without one: anyone who opens a channel can read, write, browse,
    call, and publish, change and delete the subscriptions of others. *)
Theorem sessions_not_required services now service body session auth c :
  service ∉ session_services →
  (dispatch_service services now service body (ctx_set_session session auth c)).1 = (dispatch_service services now service body c).1 ∧
  cx_world (dispatch_service services now service body (ctx_set_session session auth c)).2 = cx_world (dispatch_service services now service body c).2.
Proof.
  intros Hs. unfold dispatch_service. destruct (services_contain service services); [|done]. cbn [negb].
  rewrite (handler_blind service now Hs session auth body c). by destruct (handler_of service now (body, c)) as [r [buf c']].
Qed.

(* ------------------------------------------------------------------ *)
(** * Publishing *)

(** Publishing serves the first subscription only. A Publish request is answered for the first
    subscription in the order of the catalog that is not detached, whether it has anything to
    report or not, whoever owns it; no other subscription changes, so that the notifications of the
    others wait for as long as the first one exists. *)
Theorem publish_starves now ids id s rest m :
  Forall (fun i => ∀ s', um_subscriptions m !! i = Some s' → is_publishable s' = false) ids →
  um_subscriptions m !! id = Some s → is_publishable s = true →
  match publish_first now (ids ++ id :: rest) m with
  | (Ok r, m') => (∃ r', r = Some r' ∧ pr_subscription_id r' = id) ∧ ∀ other, other ≠ id → um_subscriptions m' !! other = um_subscriptions m !! other
  | (Err _, _) => False
  | (Panic, m') => ∀ other, other ≠ id → um_subscriptions m' !! other = um_subscriptions m !! other
  end.
Proof.
  intros Hids Hs Hp. induction Hids as [|i ids Hi _ IH]; cbn [app publish_first]; unfold st_bind.
  - unfold manager_process_publish at 1. rewrite Hs, Hp. cbn [negb]. unfold build_publish_response.
    assert (∀ e s', process_publish now s ≠ (Err e, s')) as Hne.
    { intros e s'. unfold process_publish. repeat case_if; try done. unfold u32_add, checked_op. by repeat case_if. }
    destruct (process_publish now s) as [[r|e|] s']; [| |].
    + split; [by eexists|]. intros other Ho. by apply lookup_insert_ne.
    + by destruct (Hne e s').
    + intros other Ho. by apply lookup_insert_ne.
  - assert (manager_process_publish now i m = (Ok None, m)) as ->; [|exact IH]. unfold manager_process_publish.
    destruct (um_subscriptions m !! i) as [s'|] eqn:Hi'; [|done]. by rewrite (Hi s' eq_refl).
Qed.

(* ------------------------------------------------------------------ *)
(** * Writing and reading a value *)

(** What a client sends. *)
Definition encode_request_header (h : RequestHeader) : list Z :=
  encode node_id_codec (rh_authentication_token h) ++ encode date_time_codec (rh_timestamp h) ++ put_u32 (rh_request_handle h) ++
  put_u32 (rh_return_diagnostics h) ++ encode string_codec (rh_audit_entry_id h) ++ put_u32 (rh_timeout_hint h) ++
  encode extension_object_codec null_extension_object.
Definition write_payload (now : DateTime) (h : RequestHeader) (id : NodeId) (value : DataValue) : list Z :=
  encode node_id_codec (request_type_id Write) ++ encode_request_header h ++ put_i32 1 ++
  encode node_id_codec id ++ put_u32 (attribute_u32 AValue) ++ encode string_codec [] ++ encode (data_value_codec now) value.
Definition read_payload (h : RequestHeader) (id : NodeId) : list Z :=
  encode node_id_codec (request_type_id Read) ++ encode_request_header h ++ encode f64_codec 0 ++ put_u32 2 ++ put_i32 1 ++
  encode node_id_codec id ++ put_u32 (attribute_u32 AValue) ++ encode string_codec [] ++ encode u16_codec 0 ++ encode string_codec [].
(** What it makes of a read response: the handle, the result and the values. *)
Definition read_response_decode (now : DateTime) : Dec (NodeId * Z * StatusCode * list DataValue) :=
  do? type_id := decode node_id_codec in do? _ := decode date_time_codec in do? handle := decode u32_codec in do? status := decode status_codec in
  do? _ := decode diagnostic_info_codec in do? _ := decode i32_codec in do? _ := decode extension_object_codec in
  do? values := decode (array_codec (data_value_codec now)) in do? _ := decode i32_codec in
  st_ret (type_id, handle, status, values).
Definition request_header_ok `{!ExternalLaws X} (h : RequestHeader) : Prop :=
  node_id_ok (rh_authentication_token h) ∧ date_ok (rh_timestamp h) ∧ is_u32 (rh_request_handle h) ∧ is_u32 (rh_return_diagnostics h) ∧
  str_ok (rh_audit_entry_id h) ∧ is_u32 (rh_timeout_hint h).

Context `{XL : !ExternalLaws X}.
Lemma dec_law {A R} (codec : BinaryCodec A) ok `{!Lawful codec ok} (k : A → Handler R) a rest c : ok a →
  st_bind (dec (decode codec)) k (encode codec a ++ rest, c) = k a (rest, c).
Proof. intros Ha. unfold st_bind, dec. by rewrite roundtrip. Qed.
Lemma str_ok_nil : str_ok [].
Proof. split_and!; [constructor|done|by vm_compute]. Qed.
Lemma null_extension_ok : extension_object_ok null_extension_object.
Proof. split; [by split|done]. Qed.
Lemma RequestHeader_law h rest : request_header_ok h →
  RequestHeader_decode (encode node_id_codec (rh_authentication_token h) ++ encode date_time_codec (rh_timestamp h) ++ put_u32 (rh_request_handle h) ++
    put_u32 (rh_return_diagnostics h) ++ encode string_codec (rh_audit_entry_id h) ++ put_u32 (rh_timeout_hint h) ++ rest) = (Ok h, rest).
Proof.
  intros (H1 & H2 & H3 & H4 & H5 & H6). unfold RequestHeader_decode, put_u32.
  rewrite (bind_law node_id_codec node_id_ok), (bind_law date_time_codec date_ok), (bind_law u32_codec (unsigned_ok 4)) by done.
  rewrite (bind_law u32_codec (unsigned_ok 4)), (bind_law string_codec str_ok), (bind_law u32_codec (unsigned_ok 4)) by done. by destruct h.
Qed.
Lemma request_header_law {R} (k : Z → Handler R) h rest c : request_header_ok h →
  st_bind request_header k (encode_request_header h ++ rest, c) = k (rh_request_handle h) (rest, c).
Proof.
  intros Hh. unfold st_bind at 1, request_header, st_bind at 1, dec at 1, encode_request_header. rewrite <- !app_assoc, RequestHeader_law by done.
  by rewrite (dec_law extension_object_codec extension_object_ok) by apply null_extension_ok.
Qed.
Lemma repeat_one {S' E A} (f : stM S' E A) s : repeatM (Z.to_nat 1) f s = st_map (fun a => [a]) f s.
Proof. change (Z.to_nat 1) with 1%nat. cbn [repeatM]. unfold st_bind, st_map, st_ret. by destruct (f s) as [[a|e|] s']. Qed.
Lemma decode_write_law now h id value c : request_header_ok h → node_id_ok id → data_value_ok value →
  decode_write_request now (encode_request_header h ++ put_i32 1 ++ encode node_id_codec id ++ put_u32 (attribute_u32 AValue) ++
    encode string_codec [] ++ encode (data_value_codec now) value, c) =
  (Ok (rh_request_handle h, [{| wt_node_id := id; wt_attribute_id := AValue; wt_value := value |}]), ([], c)).
Proof.
  intros Hh Hid Hv. unfold decode_write_request. rewrite request_header_law by done. unfold counted_items, put_i32, repeat_count.
  unfold st_bind at 1. rewrite (dec_law i32_codec (signed_ok 4)) by done. rewrite repeat_one. unfold st_map, dec, write_target_decode, put_u32.
  rewrite (bind_law node_id_codec node_id_ok), (bind_law u32_codec (unsigned_ok 4)), (bind_law string_codec str_ok) by (done || apply str_ok_nil).
  rewrite <- (app_nil_r (encode (data_value_codec now) value)), (bind_law (data_value_codec now) data_value_ok) by done. done.
Qed.
Lemma decode_read_law h id c : request_header_ok h → node_id_ok id →
  decode_read_request (encode_request_header h ++ encode f64_codec 0 ++ put_u32 2 ++ put_i32 1 ++ encode node_id_codec id ++
    put_u32 (attribute_u32 AValue) ++ encode string_codec [] ++ encode u16_codec 0 ++ encode string_codec [], c) =
  (Ok (rh_request_handle h, [{| rt_node_id := id; rt_attribute_id := AValue |}]), ([], c)).
Proof.
  intros Hh Hid. unfold decode_read_request. rewrite request_header_law by done. unfold put_u32, put_i32.
  rewrite (dec_law f64_codec (unsigned_ok 8)), (dec_law u32_codec (unsigned_ok 4)) by done. unfold counted_items, repeat_count.
  unfold st_bind at 1. rewrite (dec_law i32_codec (signed_ok 4)) by done. rewrite repeat_one. unfold st_map, dec, read_target_decode.
  rewrite (bind_law node_id_codec node_id_ok), (bind_law u32_codec (unsigned_ok 4)), (bind_law string_codec str_ok), (bind_law u16_codec (unsigned_ok 2))
    by (done || apply str_ok_nil).
  rewrite <- (app_nil_r (encode string_codec [])), (bind_law string_codec str_ok) by apply str_ok_nil. done.
Qed.

Lemma request_type_ok s : node_id_ok (request_type_id s).
Proof. split; [by vm_compute|]. destruct s; by vm_compute. Qed.
Lemma response_type_ok s : node_id_ok (response_type_id s).
Proof. split; [by vm_compute|]. destruct s; by vm_compute. Qed.
(** A request of a service goes to its handler. *)
Lemma dispatch_request services now s body c : services_contain s services = true →
  dispatch_payload services now (encode node_id_codec (request_type_id s) ++ body) c =
  match handler_of s now (body, c) with
  | (Ok out, (_, c')) => (Ok (encode_response s out), c')
  | (Err e, (_, c')) => (Err (SvOpcUa e), c')
  | (Panic, (_, c')) => (Panic, c')
  end.
Proof.
  intros Hs. unfold dispatch_payload, st_bind at 1, st_lift, decode_request_payload.
  rewrite roundtrip by apply request_type_ok. rewrite service_roundtrip. unfold st_bind, dispatch_service. cbn [fst snd]. rewrite Hs. cbn [negb].
  by destruct (handler_of s now (body, c)) as [[out|e|] [buf c']].
Qed.
Lemma read_response_law t now handle values : date_ok now → is_u32 handle → array_ok data_value_ok values →
  (read_response_decode t (encode_response Read (ResponseHeader_good now handle ++ put_array (encode (data_value_codec now)) values ++ put_i32 0))).1 =
  Ok (response_type_id Read, handle, GOOD, values).
Proof.
  intros Hd Hh Hv. unfold encode_response, ResponseHeader_good, read_response_decode, put_u32, put_i32. rewrite <- !app_assoc.
  rewrite (bind_law node_id_codec node_id_ok) by apply response_type_ok. rewrite (bind_law date_time_codec date_ok) by done.
  rewrite (bind_law u32_codec (unsigned_ok 4)), (bind_law status_codec (unsigned_ok 4)) by done.
  rewrite (bind_law diagnostic_info_codec diagnostic_info_ok) by done. rewrite (bind_law i32_codec (signed_ok 4)) by done.
  rewrite (bind_law extension_object_codec extension_object_ok) by apply null_extension_ok.
  change (put_array (encode (data_value_codec now)) values) with (encode (array_codec (data_value_codec t)) values).
  rewrite (bind_law (array_codec (data_value_codec t)) (array_ok data_value_ok)) by done.
  by rewrite <- (app_nil_r (encode i32_codec 0)), (bind_law i32_codec (signed_ok 4)).
Qed.

Lemma opcua_write_served services now h id value x v c : services_contain Write services = true → request_header_ok h → node_id_ok id →
  data_value_ok value → dv_value value = Some x → get_node id (mg_address_space (managers c)) = Some (NVariable v) →
  can_write (vn_access_level v) = true →
  ∃ c1, dispatch_payload services now (write_payload now h id value) c =
      (Ok (encode_response Write (ResponseHeader_good now (rh_request_handle h) ++ put_statuses [GOOD])), c1) ∧
    get_node id (mg_address_space (managers c1)) = Some (NVariable (update_value (DataValue_new now x) v)).
Proof.
  intros Hs Hh Hid Hv Hx Hn Hc. unfold write_payload. rewrite dispatch_request by done. cbn [handler_of].
  unfold Write_handle. unfold st_bind at 1. rewrite decode_write_law by done. unfold st_bind, act, handle_write_request, on_space. cbn [eachM snd fst].
  unfold st_bind, pure_step, write at 1. cbn [wt_node_id wt_attribute_id wt_value].
  change (get_node id (count_access 0 1 0 ?s)) with (get_node id s). rewrite Hn. cbn [write_attribute]. rewrite Hc, Hx. cbn [negb].
  eexists. split; [reflexivity|]. apply lookup_insert_eq.
Qed.
Lemma opcua_read_served services now h id v c : services_contain Read services = true → request_header_ok h → node_id_ok id → stack ≠ O →
  get_node id (mg_address_space (managers c)) = Some (NVariable v) →
  ∃ c1, dispatch_payload services now (read_payload h id) c =
    (Ok (encode_response Read (ResponseHeader_good now (rh_request_handle h) ++ put_array (encode (data_value_codec now)) [vn_value v] ++ put_i32 0)), c1).
Proof.
  intros Hs Hh Hid Hst Hn. unfold read_payload. rewrite dispatch_request by done. cbn [handler_of]. unfold Read_handle. unfold st_bind at 1.
  rewrite decode_read_law by done. unfold st_bind, act, handle_read_request, on_space. cbn [eachM snd fst]. unfold st_bind, read at 1.
  cbn [rt_node_id rt_attribute_id]. change (get_node id (count_access 1 0 0 ?s)) with (get_node id s). rewrite Hn.
  destruct stack as [|n]; [done|]. by eexists.
Qed.

Lemma header_cut t t' handle : cut_to_tick t t' → ResponseHeader_good t handle = ResponseHeader_good t' handle.
Proof. intros Ht. unfold ResponseHeader_good. by rewrite (proj2 (cut_to_tick_date t t' Ht)). Qed.
Lemma value_cut now t t' x : cut_to_tick t t' →
  encode (data_value_codec now) (DataValue_new t x) = encode (data_value_codec now) (DataValue_new t' x).
Proof.
  intros Ht. cbn [data_value_codec encode]. unfold DataValue_encode, put_opt. cbn [DataValue_new DataValue_with_status dv_source_timestamp dv_server_timestamp].
  by rewrite (proj2 (cut_to_tick_date t t' Ht)).
Qed.

(** C3: What a client writes is what it reads. For a variable whose access level allows writing, a
    Write request of a value the format can carry (with both its times, in whole ticks of 100
    nanoseconds) is answered with a good status; a Read request after it is answered, and the
    client decodes from the answer its own request handle and the value it wrote, with a good
    status and the server's time of the write cut to a whole tick, since the format carries no
    finer time; whatever the readings of the server's clock from 1970 to the end of its
    nanoseconds in 64 bits, whoever sends the two requests and whatever sessions there are. *)
Theorem opcua_write_then_read services t1 t1' t2 t2' t3 h1 h2 id value x v c :
  services_contain Write services = true → services_contain Read services = true → request_header_ok h1 → request_header_ok h2 →
  node_id_ok id → data_value_ok value → dv_value value = Some x → cut_to_tick t1 t1' → cut_to_tick t2 t2' → stack ≠ O →
  get_node id (mg_address_space (managers c)) = Some (NVariable v) → can_write (vn_access_level v) = true →
  ∃ c1 response c2,
    dispatch_payload services t1 (write_payload t1 h1 id value) c =
      (Ok (encode_response Write (ResponseHeader_good t1 (rh_request_handle h1) ++ put_statuses [GOOD])), c1) ∧
    dispatch_payload services t2 (read_payload h2 id) c1 = (Ok response, c2) ∧
    (read_response_decode t3 response).1 = Ok (response_type_id Read, rh_request_handle h2, GOOD, [DataValue_new t1' x]).
Proof.
  intros Hsw Hsr Hh1 Hh2 Hid Hv Hx Ht1 Ht2 Hst Hn Hc. destruct (opcua_write_served services t1 h1 id value x v c) as (c1 & Hw & Hn1); [done..|].
  destruct (opcua_read_served services t2 h2 id _ c1 Hsr Hh2 Hid Hst Hn1) as [c2 Hr]. eexists c1, _, c2. split_and!; [exact Hw|exact Hr|].
  rewrite (header_cut t2 t2') by done. cbn [update_value vn_value].
  replace (put_array (encode (data_value_codec t2)) [DataValue_new t1 x]) with (put_array (encode (data_value_codec t2')) [DataValue_new t1' x])
    by (unfold put_array; cbn [flat_map]; change (encode (data_value_codec t2')) with (encode (data_value_codec t2)); by rewrite (value_cut t2 t1 t1')).
  destruct (cut_to_tick_date _ _ Ht1) as [Hd1 _], (cut_to_tick_date _ _ Ht2) as [Hd2 _].
  apply read_response_law; [done|apply Hh2|]. split; [|by vm_compute]. constructor; [|done]. destruct Hv as (Hv & _). rewrite Hx in Hv.
  split_and!; try done; by vm_compute.
Qed.
End Services.

(* ------------------------------------------------------------------ *)
(** * A server *)

#[local] Existing Instance nano_externals.
#[local] Existing Instance nano_chrono.
#[local] Existing Instance release_build.
#[local] Instance nano_external_laws : ExternalLaws nano_externals.
Proof.
  split; cbn.
  - intros s n Hn Ht. exists (s * 1000000000 + n). by rewrite !(proj2 (Z.leb_le _ _)), !(proj2 (Z.ltb_lt _ _)) by lia.
  - intros s n Hn. rewrite (proj2 (Z.ltb_ge n _)) by lia. by rewrite andb_false_r.
  - done.
Qed.
Definition demo_boiler : Node :=
  NVariable (writable (VariableNode_new (at_ms 0) demo_tag (QualifiedName_null (str "Boiler")) (LocalizedText_invariant (str "Boiler")) (NodeId_numeric 0 6) (VInt32 0))).
Definition demo_managers : Managers :=
  {| mg_address_space := (insert_node demo_boiler (AddressSpace_new (at_ms 0) AddressSpaceConfig_default)).2;
     mg_subscription_manager := SubscriptionManager_default; mg_history_store := demo_history; mg_methods := ∅;
     mg_endpoint_url := str "opc.tcp://localhost:4840"; mg_server_name := str "Mabinogion" |}.
Definition demo_server : ServiceContext :=
  build_service_context {| w_session_manager := SessionManager_with_config SessionManagerConfig_default; w_node_id_counter := 1000; w_managers := demo_managers |}
    (new_unsecured 0 demo_counters).1.
Definition demo_header (handle : Z) : RequestHeader :=
  {| rh_authentication_token := NodeId_numeric 0 0; rh_timestamp := at_ms 1000; rh_request_handle := handle; rh_return_diagnostics := 0;
     rh_audit_entry_id := []; rh_timeout_hint := 0 |}.
Definition demo_millis (d : DateTime) : Z := Z.div d 1000000.
Definition demo_written : DataValue :=
  {| dv_value := Some (VInt32 42); dv_status := GOOD; dv_source_timestamp := Some (at_ms 1000); dv_source_picoseconds := 0;
     dv_server_timestamp := Some (at_ms 1000); dv_server_picoseconds := 0 |}.
Lemma demo_date n : 0 <= n < 1000 → date_ok (at_ms (n * 1000)).
Proof.
  intros Hn. exists n, 0. unfold at_ms. split_and!; try lia; [|done]. cbn. f_equal. lia.
Qed.
Lemma demo_header_ok handle : is_u32 handle → request_header_ok (demo_header handle).
Proof.
  intros Hh. unfold request_header_ok, demo_header.
  cbn [rh_authentication_token rh_timestamp rh_request_handle rh_return_diagnostics rh_audit_entry_id rh_timeout_hint].
  split; [by split|]. split; [exact (demo_date 1 ltac:(lia))|]. split; [done|]. split; [done|]. split; [apply str_ok_nil|done].
Qed.
Definition writable_variable (o : option Node) : bool := match o with Some (NVariable v) => can_write (vn_access_level v) | _ => false end.
Lemma writable_variable_spec o : writable_variable o = true → ∃ v, o = Some (NVariable v) ∧ can_write (vn_access_level v) = true.
Proof. destruct o as [[| | | | | | |]|]; try done. intros H. by eexists. Qed.
Lemma demo_variable : ∃ v, get_node demo_tag (mg_address_space (managers demo_server)) = Some (NVariable v) ∧ can_write (vn_access_level v) = true.
Proof. apply writable_variable_spec. by vm_compute. Qed.
(** A clock reading between two ticks. *)
Definition demo_late : DateTime := 2000000057.
Lemma demo_late_cut : cut_to_tick demo_late (at_ms 2000).
Proof. exists 2, 57. split_and!; done. Qed.
Lemma opcua_write_then_read_witness :
  ∃ c1 response c2,
    dispatch_payload 1 10 demo_millis ServiceId_ALL demo_late (write_payload demo_late (demo_header 7) demo_tag demo_written) demo_server =
      (Ok (encode_response Write (ResponseHeader_good demo_late 7 ++ put_statuses [GOOD])), c1) ∧
    dispatch_payload 1 10 demo_millis ServiceId_ALL (at_ms 3000) (read_payload (demo_header 8) demo_tag) c1 = (Ok response, c2) ∧
    (read_response_decode (at_ms 4000) response).1 = Ok (response_type_id Read, 8, GOOD, [DataValue_new (at_ms 2000) (VInt32 42)]).
Proof.
  destruct demo_variable as (v & Hn & Hw).
  apply (opcua_write_then_read 1 10 demo_millis ServiceId_ALL demo_late (at_ms 2000) (at_ms 3000) (at_ms 3000) (at_ms 4000) (demo_header 7) (demo_header 8)
    demo_tag demo_written (VInt32 42) v demo_server).
  1-10: clear Hn Hw.
  - done.
  - done.
  - apply demo_header_ok. by vm_compute.
  - apply demo_header_ok. by vm_compute.
  - split; by vm_compute.
  - unfold data_value_ok, demo_written. cbn [dv_value dv_status dv_source_timestamp dv_source_picoseconds dv_server_timestamp dv_server_picoseconds opt_ok].
    split; [done|]. split; [done|]. split; [exact (demo_date 1 ltac:(lia))|]. split; [done|]. split; [exact (demo_date 1 ltac:(lia))|]. by split.
  - done.
  - exact demo_late_cut.
  - exists 3, 0. split_and!; done.
  - done.
  - exact Hn.
  - exact Hw.
Defined.
Definition answered {E A S'} (r : outcome E A * S') : bool := match r.1 with Ok _ => true | _ => false end.
Lemma answered_spec {E A S'} (r : outcome E A * S') : answered r = true → ∃ a s, r = (Ok a, s).
Proof. destruct r as [[a|e|] s]; try done. eauto. Qed.
Lemma demo_read_ok : ∃ out c', dispatch_payload 1 10 demo_millis ServiceId_ALL (at_ms 3000) (read_payload (demo_header 8) demo_tag) demo_server = (Ok out, c').
Proof. apply answered_spec. by vm_compute. Qed.
Lemma response_matches_request_witness :
  ∃ out c', dispatch_payload 1 10 demo_millis ServiceId_ALL (at_ms 3000) (read_payload (demo_header 8) demo_tag) demo_server = (Ok out, c') ∧
  ∃ service type_id body header rest tail,
    decode node_id_codec (read_payload (demo_header 8) demo_tag) = (Ok type_id, body) ∧ from_request_type_id type_id = Some service ∧ service ∈ ServiceId_ALL ∧
    RequestHeader_decode body = (Ok header, rest) ∧
    out = encode node_id_codec (response_type_id service) ++ ResponseHeader_good (at_ms 3000) (rh_request_handle header) ++ tail.
Proof.
  destruct demo_read_ok as (out & c' & Hd). exists out, c'. split; [exact Hd|].
  exact (response_matches_request 1 10 demo_millis ServiceId_ALL (at_ms 3000) (read_payload (demo_header 8) demo_tag) demo_server out c' Hd).
Defined.
Lemma sessions_not_required_witness :
  (dispatch_service 1 10 demo_millis ServiceId_ALL (at_ms 3000) Read [] (ctx_set_session (Some demo_tag) None demo_server)).1 =
    (dispatch_service 1 10 demo_millis ServiceId_ALL (at_ms 3000) Read [] demo_server).1 ∧
  cx_world (dispatch_service 1 10 demo_millis ServiceId_ALL (at_ms 3000) Read [] (ctx_set_session (Some demo_tag) None demo_server)).2 =
    cx_world (dispatch_service 1 10 demo_millis ServiceId_ALL (at_ms 3000) Read [] demo_server).2.
Proof. apply (sessions_not_required 1 10 demo_millis ServiceId_ALL (at_ms 3000) Read []). unfold session_services. set_solver. Defined.
Definition demo_monitor : MonitoredItemConfig :=
  {| mc_node_id := demo_tag; mc_attribute_id := AValue; mc_sampling_interval_ms := 0; mc_queue_size := 5; mc_discard_oldest := true; mc_filter := None;
     mc_kind := KDataChange; mc_event_filter := None |}.
(** Two subscriptions; the second has a notification to report. *)
Definition demo_subs : SubscriptionManager :=
  foldl manager_op SubscriptionManager_default
    [OpCreateSub (at_ms 0) (OpcuaSubscription.demo_config 10) None; OpCreateSub (at_ms 0) (OpcuaSubscription.demo_config 10) None;
     OpNewItem (at_ms 0) 2 demo_monitor; OpValueChange (at_ms 1) demo_tag demo_written].
Definition demo_sub (id : Z) : Subscription :=
  default (Subscription_new (at_ms 0) (OpcuaSubscription.demo_config 0) {| ow_owner_session_id := None; ow_detached_restored := false |}) (um_subscriptions demo_subs !! id).
Example demo_waiting : has_pending (demo_sub 1) = false ∧ has_pending (demo_sub 2) = true.
Proof. split; by vm_compute. Qed.
Definition publishable_in (o : option Subscription) : bool := match o with Some s => is_publishable s | None => false end.
Lemma publishable_spec o : publishable_in o = true → ∃ s, o = Some s ∧ is_publishable s = true.
Proof. destruct o; [|done]. eauto. Qed.
Lemma demo_first : ∃ s, um_subscriptions demo_subs !! 1 = Some s ∧ is_publishable s = true.
Proof. apply publishable_spec. by vm_compute. Qed.
Lemma publish_starves_witness : um_subscriptions (publish_first (at_ms 2) [1; 2] demo_subs).2 !! 2 = um_subscriptions demo_subs !! 2.
Proof.
  destruct demo_first as (s & Hs & H).
  pose proof (publish_starves (at_ms 2) [] 1 s [2] demo_subs ltac:(constructor) Hs H) as Hp. cbn [app] in Hp.
  destruct (publish_first (at_ms 2) [1; 2] demo_subs) as [[r|e|] m']; [apply (proj2 Hp)|done|apply Hp]; done.
Defined.
